(* ===== verification/_CoqProject ===== *)
-Q . S2P
Prelude.v
Regexp.v
Reader.v
Utils.v
Options.v
Validator.v
QueryWrapper.v
Toc.v
Version.v
Restore.v
Scheduler.v
SkipExisting.v
Helper.v
CopyCommand.v
Shell.v
Transfer.v
DbConn.v
CopyOperation.v
CopyManager.v
Dependencies.v
Queries.v
Acl.v
Functions.v
Types.v
Operators.v
Externals.v
Relations.v
TableQueries.v
FunctionQueries.v
Postdata.v
UniqueIndexes.v
Globals.v
Statistics.v
Dependents.v
Extract.v
Execute.v
Predata.v
RestoreRun.v
Metadata.v
Merge.v
Delivery.v
Checksum.v
HelperRun.v
Cluster.v
Incremental.v
Connections.v
CopyQueries.v
Application.v
Teardown.v
Pipeline.v
