(* ===== verification/Prelude.v ===== *)
(** * cbcopy: a verification development

    cbcopy copies databases between Greenplum, Cloudberry and related clusters.
    This library models how it decides which objects are copied, how the two
    clusters are wired together, how the streams are cut into records, how
    definitions are read from the catalogue, ordered, printed and restored, and
    what is recorded about every table. The models are executable functions and
    step relations translated from the Go code; what the code calls and does
    not contain is an interface or a parameter.

    ** The program

    A run of [cbcopy] ([src/copy]) reads the command line, validates it and
    builds the options ([src/option]). For each selected database it opens four
    pools of connections ([src/internal/dbconn]), lists the tables of the source
    and of the destination, pairs them and hands them to the metadata manager,
    which has [src/meta/builtin] print the definitions into a file with a table
    of contents, restores them on the destination and releases the pair of each
    table it has restored into a channel. Copy workers take pairs from the
    channel. For each pair a worker issues a command on each cluster whose
    segments start the helper program ([src/helper]): helpers of one side listen
    and report their ports, helpers of the other side dial them, and the rows
    flow between them. A helper that serves several connections merges them into
    one output and cuts them into whole records with [src/internal/reader]. The
    load runs in a transaction of the pool. Files are moved and commands run on
    the segments' hosts by [src/internal/cluster].

    ** Files

    Shared:
    - [Prelude]: the outcomes of Go code ([go]: a value, an error, a fatal log,
      a panic) with its monad, Go strings as byte strings with the functions of
      [strings], [strconv] and [fmt] the code uses, slices with checked indices,
      unsigned wrap-around, [MapRange], the interface of the order in which a
      [range] statement visits a map (any permutation, a different one at each
      site), and [SortSlice], that of an unstable sort.
    - [Regexp]: the part of [regexp] the code uses, leftmost-first, as a
      backtracking matcher, with the other functions on strings.
    - [Utils]: [utils] (quoting, name lists, mapping and table files, filter
      sets) and the getters of [pflag] behind the class [FlagSet].
    - [Version]: [internal/dbconn/version.go] and the version tests of the other
      packages; [SemverLib] is the interface of the semver library.

    Input and selection:
    - [Options]: [option]; [NewOption], the queries on the options, the owner
      and tablespace maps, the inventory of destination tables.
    - [Validator]: [SetFlagDefaults] and [copy/copy_validator.go].
    - [QueryWrapper]: [copy/copy_query_wrapper.go], the pair filters of
      [copy/copy_metadata.go] and the loop over databases; the caches of
      partition leaves are explicit state that survives from one database to
      the next, as in the code.
    - [SkipExisting]: [meta/builtin/skip_existing.go].

    Transfer of the data:
    - [Reader]: [internal/reader]. [ReaderBase] is the struct; [fill],
      [readRecord] and [Read] are its methods, [csv_*], [text_*] and the custom
      delimiter search the implementations of [parseRecords]. [copy_records] is
      the loop of the helpers over [Read]. [IoReader] is the interface of
      [io.Reader]; [StreamReader] adds that the stream makes progress and ends
      or breaks off, [FiniteReader] that it does not break off.
    - [Helper]: the command line of the helper, its validation, the choice of
      client and server, the addresses dialled, the port listened on, and the
      life of a concurrent server as a step relation. [Merge]: the goroutines of
      a concurrent server or client with the data they read and write, an
      implementation of that server. [Delivery]: no code of its own; the
      commands, the helpers and the streams taken together, from the source
      segments to the destination segments. [Checksum]: MD5 and the checksum
      of the helper. [HelperRun]: every handler of [Run], and the exit code.
    - [CopyCommand]: the four copy strategies of [copy/copy_command.go] and the
      ports of [copy/copy_port_helper.go]. [Transfer] has no code of its own:
      the command lines that [CopyCommand] prints are run through the parser of
      [Helper], and the two sides are shown to agree.
    - [DbConn]: an open pool with its transaction slots; a [server] answers each
      request as a function of all requests before it. [Connections]: the
      sessions a pool holds, and every call that opens, uses or closes them;
      [Driver] is the interface of the driver.
    - [CopyOperation], [CopyManager]: [copy/copy_operation.go] with its goroutine
      and [copy/copy_manager.go]: one table, the pool of workers with its
      channel, the records and the report.
    - [CopyQueries]: the queries and statements of [copy/copy_query.go].
    - [Pipeline]: [copy/copy_metadata.go]: who fills and who closes the channel
      of pairs, and how the main goroutine, the restore and the workers wait
      for each other. [Application]: [copy/copy.go], from the set-up over the
      loop over databases to the clean-up. [Teardown]: the end of a run: the
      clean-up, the handler of signals and the exit code, with the body of the
      run reduced to what it may do.
    - [Cluster]: [internal/cluster].

    Definitions ([meta/builtin]), from the catalogue to the file:
    - [Toc]: the metadata file with its byte count, and the table of contents.
    - [Queries]: [Sprintf], the filters of the queries with the clause kept
      between queries, and the class [Selects] that answers a query's text with
      rows of the structure they are scanned into.
    - [Acl] (privileges, metadata of objects), [Functions] and [FunctionQueries]
      (functions, languages, casts, extensions, servers), [Types] (types,
      collations, schemas, constraints, access methods), [Operators] (operators,
      text search), [Externals] (external tables, protocols), [Relations] and
      [TableQueries] (tables, sequences, views), [Postdata] and [UniqueIndexes]
      (indexes, rules, triggers, policies), [Globals] (databases, roles,
      resource groups, tablespaces), [Statistics], [Incremental]: the structures,
      the queries with their texts and the post-processing of their rows, and
      the printers of each kind of object.
    - [Dependencies] (the graph, cycle breaking, the topological sort) and
      [Dependents] (the queries for the edges, the printing in order).
    - [Extract]: the calls that join queries and printers, in their order, with
      the state they share; [Catalogue] gathers the [Selects] of all of them.

    Definitions, from the file to the destination:
    - [Scheduler]: the scheduler of dependent statements, the batches of
      post-data statements, the steps of the pre-data restore and the edits
      that redirect schemas and tablespaces. [Restore]: the table map shared by
      the workers. [Execute]: one connection or a pool of workers that executes
      statements. [Predata]: scheduler, workers and table map as one system,
      of which the three before show a part each. [RestoreRun]: the restore as
      a whole. [Metadata]: the extraction and the restore joined by the file.

    Interfaces are classes ([IoReader], [FlagSet], [SemverLib], [MapRange],
    [Driver], [Selects], [TOCObject], [Sortable], ...); laws the theorems need
    are classes of their own ([FiniteReader], [FlagSetLaws], [SemverLaws]), and
    the witnesses instantiate them. Definitions carry the names of the code;
    the manifest maps each to its lines.

    ** Theorems

    - Delivery ([Delivery]): every row that leaves a source segment arrives once
      and whole when no helper on the destination reports an error.
    - Wiring ([Transfer]): in push and in pull mode the commands are accepted by
      the helper's own parser and validation; every source segment is connected
      to exactly one destination segment, and a listener waits for exactly the
      clients that dial it.
    - Streams ([Reader], [Merge]): no call of [Read] loses, duplicates or
      reorders a byte; draining a connection terminates and reproduces it; on a
      CSV stream whose records fit the buffer each piece consists of whole
      records; a helper that serves several connections ends, and when it
      reports no error its output has exactly the records of all of them.
    - Tables ([CopyManager], [QueryWrapper], [SkipExisting]): each table is
      recorded once, as copied only after its commit; a failed copy commits
      nothing; the filters of existing tables keep exactly what they should.
    - The migration of a database ends ([Pipeline]): under accepted flags no
      mode deadlocks or closes a channel twice.
    - Connections ([Connections], [Application]): closing a pool ends every
      session it opened, but those in use; exactly how many connections a run
      leaves open.
    - The end of a run ([Teardown]): what the exit code says, with and without a
      signal, and how the two clean-ups of an interrupted run collide.
    - From the catalogue to the destination ([Metadata], [Dependents],
      [Predata], [RestoreRun], [Scheduler]): what an extraction prints is what
      the restore executes, each statement once, in an order that respects the
      dependencies; the restore ends however its goroutines interleave; a pair
      is released only behind the creation of its table; no two indexes of a
      table are first created at the same time.
    - Order ([Dependencies], [Postdata]): the topological sort is correct and
      complete, cycle breaking removes exactly the intended edges, indexes come
      behind their parents.
    - Printers ([Acl], [Relations], [Externals], [Functions], [UniqueIndexes],
      [Statistics]): what is printed is read back by the server's rules as
      what it was: privileges, sequences, options, settings, values.
    - Input ([Validator]): the contract of accepted flags and their types.
    - Deviations: theorems of the kind "error" exhibit runs in which the code
      does something other than it states, such as a torn record when it exceeds
      the buffer or the leaf cache that survives an empty database.

    ** Bounds and fuel

    - Step relations have no fuel; their runs end because a measure of the state
      decreases at each step ([steps_left], [dep_left], [exec_left],
      [execution_left], [pipeline_left], [merge_left], [process_left]).
    - [fill_loop] makes at most [maxConsecutiveEmptyReads] = 100 reads, the
      bound of the source. [readRecord] gets the buffer length plus two rounds,
      enough since each round ends the call, stores a byte or sees the end of
      the stream. [read_long] and [copy_records] get the caller's fuel; one more
      round than the connection has bytes is shown to be enough.
    - [walk] makes at most sixteen steps, the [maxDepth] of the source;
      [wait_from] makes 1000 polls, [maxRetries]; [dial_loop] makes the four
      attempts of the source.
    - [target_loop] gets one more round than there are hosts, and its index
      grows by at least one; [listen_range] gets the length of the port range;
      [drain] gets the number of objects, which is shown never to run out;
      [ancestors] one more round than there are indexes, and each visits a new
      one; [partition_path] and [table_batches] the sizes of what they consume;
      a starred expression of [Regexp] repeats at most once per byte.
    - Byte counts wrap at 64 bits; the round trips assume less than that.

    ** Not modelled

    - The catalogue, the database servers, the network and the file system
      answer through parameters and interfaces; the libraries [pflag] and
      [semver] are interfaces; the YAML form of the table of contents is left
      out, since a run keeps the table in memory.
    - A session the server drops is not dialled again by itself.
    - Log lines (but for the error code they leave), progress bars, sockets and
      compression streams.
    - What the body of a run does while the signal handler closes its pools: in
      [Teardown] it may do anything. Without a signal the body is that of
      [Application] ([run_ends_process]).
    - The helpers of the test suites ([testutils], [internal/testhelper]).

    ** Plan

    The components with logic of their own are modelled. What could be added
    reaches outside of the repository: the servers' side of the statements, and
    the YAML form of the table of contents. *)
From stdpp Require Export base gmap strings list sorting.
From Stdlib Require Export ZArith Lia Ascii.
From Stdlib Require Import DecimalString DecimalZ DecimalPos.

(** * Outcomes of Go code *)

(** A Go computation returns a value, returns a non-nil [error], calls
    [gplog.Fatal] (which logs and panics with error code 2), or panics. *)
Inductive go (A : Type) : Type :=
| Ok (a : A)
| Err (msg : string)
| Fatal (msg : string)
| Panic (msg : string).
Arguments Ok {A} a.
Arguments Err {A} msg.
Arguments Fatal {A} msg.
Arguments Panic {A} msg.

#[export] Instance go_ret : MRet go := λ A x, Ok x.
#[export] Instance go_bind : MBind go := λ A B f m,
  match m with
  | Ok a => f a
  | Err e => Err e
  | Fatal e => Fatal e
  | Panic e => Panic e
  end.
#[export] Instance go_fmap : FMap go := λ A B f m, m ≫= (λ a, Ok (f a)).

Declare Scope go_scope.
Delimit Scope go_scope with go.
Notation "'let!' x ':=' m 'in' k" := (mbind (λ x, k) m)
  (at level 10, x pattern, m at level 100, k at level 200,
   format "'[v' 'let!'  x  ':='  m  'in' '/' k ']'") : go_scope.
Open Scope go_scope.

(** [gplog.FatalOnError(err)]: a returned error becomes a fatal one. *)
Definition FatalOnError {A} (m : go A) : go A :=
  match m with Err e => Fatal e | m => m end.

Definition is_ok {A} (m : go A) : bool :=
  match m with Ok _ => true | _ => false end.

(** [xs[i]] on a slice: an index out of range is a run-time panic. *)
Definition index {A} (l : list A) (i : nat) : go A :=
  match l !! i with
  | Some a => Ok a
  | None => Panic "index out of range"
  end.

Fixpoint go_fold {A S} (f : S → A → go S) (s : S) (l : list A) : go S :=
  match l with
  | [] => Ok s
  | a :: l' => let! s' := f s a in go_fold f s' l'
  end.

Fixpoint go_map {A B} (f : A → go B) (l : list A) : go (list B) :=
  match l with
  | [] => Ok []
  | a :: l' => let! b := f a in let! bs := go_map f l' in Ok (b :: bs)
  end.

(** * The iteration order of Go maps *)

(** [for k, v := range m] visits the entries of a map once each, in an order
    the language leaves open. [site] is the source line of the range
    statement: two statements may order one map differently. *)
Class MapRange := {
  range_map : ∀ {K V : Type} `{Countable K}, N → gmap K V → list (K * V);
  range_map_perm : ∀ {K V : Type} `{Countable K} (site : N) (m : gmap K V),
    range_map site m ≡ₚ map_to_list m
}.

#[export] Program Instance map_to_list_range : MapRange :=
  {| range_map K V _ _ _ m := map_to_list m |}.
Next Obligation. done. Qed.

(** * Sorting *)

(** [sort.Slice] with a comparison of a string key: the elements in the order of
    their keys; elements with equal keys may end up in any order. *)
Class SortSlice := {
  sort_slice : ∀ {A : Type}, (A → string) → list A → list A;
  sort_slice_perm : ∀ {A : Type} (key : A → string) (l : list A), sort_slice key l ≡ₚ l;
  sort_slice_sorted : ∀ {A : Type} (key : A → string) (l : list A),
    StronglySorted (λ a b, String.le (key a) (key b)) (sort_slice key l)
}.

#[export] Program Instance merge_sort_slice : SortSlice :=
  {| sort_slice A key l := merge_sort (λ a b, String.le (key a) (key b)) l |}.
Next Obligation. intros. apply merge_sort_Permutation. Qed.
Next Obligation.
  intros A key l. apply StronglySorted_merge_sort.
  - intros a b c. apply transitivity.
  - intros a b. apply total, _.
Qed.

(** * Bytes and strings *)

Definition byte (n : nat) : ascii := ascii_of_nat n.
Definition NL : ascii := byte 10.
Definition CR : ascii := byte 13.
Definition TAB : ascii := byte 9.
Definition DQ : ascii := byte 34.
Definition SQ : ascii := byte 39.
Definition DOT : ascii := byte 46.
Definition COMMA : ascii := byte 44.
Definition DASH : ascii := byte 45.
Definition chr (c : ascii) : string := String c EmptyString.

(** The bytes of a string. *)
Fixpoint bytes (s : string) : list ascii :=
  match s with
  | EmptyString => []
  | String c s' => c :: bytes s'
  end.

Fixpoint of_bytes (l : list ascii) : string :=
  match l with
  | [] => EmptyString
  | c :: l' => String c (of_bytes l')
  end.

Definition len (s : string) : nat := String.length s.

(** [strings.Split(s, sep)] for a one-byte separator. *)
Fixpoint Split (s : string) (sep : ascii) : list string :=
  match s with
  | EmptyString => [EmptyString]
  | String c s' =>
      if decide (c = sep) then EmptyString :: Split s' sep
      else match Split s' sep with
           | [] => [chr c]
           | h :: t => String c h :: t
           end
  end.

(** [strings.SplitN(s, sep, 2)] for a one-byte separator. *)
Fixpoint SplitN2 (s : string) (sep : ascii) : list string :=
  match s with
  | EmptyString => [EmptyString]
  | String c s' =>
      if decide (c = sep) then [EmptyString; s']
      else match SplitN2 s' sep with
           | [] => [chr c]
           | h :: t => String c h :: t
           end
  end.

(** [strings.Join]. *)
Definition Join (l : list string) (sep : string) : string := String.concat sep l.

(** A text put together from parts, as [fmt.Sprintf] does with [%s]. *)
Definition cat (l : list string) : string := foldr String.app "" l.

(** [strings.Contains]. *)
Fixpoint Contains (s sub : string) : bool :=
  String.prefix sub s ||
  match s with
  | EmptyString => false
  | String _ s' => Contains s' sub
  end.

(** [strings.Replace(s, old, new, n)] with [old] not empty; [None] is a
    negative [n] (no limit). [skip] counts the bytes of the current match
    still to drop. *)
Fixpoint replace_go (old new : string) (n : option nat) (skip : nat) (s : string) : string :=
  match s with
  | EmptyString => EmptyString
  | String c s' =>
      match skip with
      | S k => replace_go old new n k s'
      | O =>
          if negb (bool_decide (n = Some 0)) && String.prefix old s
          then new +:+ replace_go old new (pred <$> n) (pred (len old)) s'
          else String c (replace_go old new n 0 s')
      end
  end.
Definition Replace (s old new : string) (n : option nat) : string :=
  replace_go old new n 0 s.

(** * Integers *)

Definition int64_min : Z := - 2 ^ 63.
Definition int64_max : Z := 2 ^ 63 - 1.
Definition in_int64 (z : Z) : bool := (int64_min <=? z)%Z && (z <=? int64_max)%Z.

(** [strconv.Itoa] and [strconv.FormatInt(_, 10)]. *)
Definition Itoa (z : Z) : string := NilZero.string_of_int (Z.to_int z).

(** [strconv.Atoi] and [strconv.ParseInt(_, 10, 64)]: an optional sign, at
    least one digit, and a value of 64 bits. *)
Definition Atoi (s : string) : option Z :=
  let digits s' := Z.of_uint <$> NilZero.uint_of_string s' in
  let z := match s with
           | String c s' =>
               if decide (c = byte 43) then digits s'
               else if decide (c = DASH) then Z.opp <$> digits s'
               else digits s
           | EmptyString => None
           end in
  match z with
  | Some v => if in_int64 v then Some v else None
  | None => None
  end.

(** An unsigned [w]-bit result. *)
Definition wrapu (w : Z) (z : Z) : Z := z mod 2 ^ w.

(** * Automation *)

Create HintDb cbcopy.
Create Rewrite HintDb cbcopy.

(** Case analysis on the scrutinee of a [match] or an [if] in the goal. *)
Ltac split_match :=
  repeat match goal with
  | |- context [match ?x with _ => _ end] => destruct x eqn:?; simplify_eq/=
  end.

(** Take apart a hypothesis [m ≫= f = Ok b] and its kin. *)
Ltac inv_go :=
  repeat match goal with
  | H : mbind _ ?m = Ok _ |- _ => destruct m eqn:?; simplify_eq/=
  | H : Ok _ = Ok _ |- _ => injection H as H; try subst
  | H : Err _ = Ok _ |- _ => discriminate H
  | H : Fatal _ = Ok _ |- _ => discriminate H
  | H : Panic _ = Ok _ |- _ => discriminate H
  end.

(** * Lemmas on outcomes *)

Lemma bind_Ok {A B} (m : go A) (f : A → go B) b :
  mbind f m = Ok b → ∃ a, m = Ok a ∧ f a = Ok b.
Proof. destruct m; simpl; naive_solver. Qed.

Lemma index_Ok {A} (l : list A) i a : index l i = Ok a ↔ l !! i = Some a.
Proof. unfold index. destruct (l !! i); naive_solver. Qed.

Lemma index_lt {A} (l : list A) i : i < length l → ∃ a, index l i = Ok a ∧ l !! i = Some a.
Proof. intros [a Ha]%lookup_lt_is_Some. exists a. by rewrite index_Ok. Qed.

Lemma go_fold_app {A S} (f : S → A → go S) s l1 l2 :
  go_fold f s (l1 ++ l2) = (let! s' := go_fold f s l1 in go_fold f s' l2).
Proof.
  revert s. induction l1 as [|a l1 IH]; intros s; simpl; [done|].
  destruct (f s a); simpl; auto.
Qed.

Lemma go_map_pure {A B} (f : A → go B) (g : A → B) l :
  (∀ a, a ∈ l → f a = Ok (g a)) → go_map f l = Ok (g <$> l).
Proof.
  induction l as [|a l IH]; intros Hf; simpl; [done|].
  rewrite Hf by set_solver. simpl. rewrite IH; [done|set_solver].
Qed.

Lemma go_map_Ok {A B} (f : A → go B) l l' :
  go_map f l = Ok l' ↔ Forall2 (λ a b, f a = Ok b) l l'.
Proof.
  revert l'. induction l as [|a l IH]; intros l'; simpl.
  - split; [intros; simplify_eq; constructor | by inversion 1].
  - destruct (f a) eqn:Hfa; simpl.
    2-4: split; [done | intros H; inversion H; congruence].
    destruct (go_map f l) eqn:Hl; simpl.
    + split; [intros; simplify_eq; constructor; [done|by apply IH] |].
      intros H; inversion H; subst. rewrite Hfa in H2; simplify_eq.
      apply IH in H4; by simplify_eq.
    + split; [done|intros H; inversion H; subst; by apply IH in H4].
    + split; [done|intros H; inversion H; subst; by apply IH in H4].
    + split; [done|intros H; inversion H; subst; by apply IH in H4].
Qed.

(** What the elements of a list contribute together, when one of them changes. *)
Definition gather {W A} (f : W → list A) (ws : list W) : list A := concat (f <$> ws).
#[global] Arguments gather {W A} f ws : simpl never.
Lemma gather_insert {W A} (f : W → list A) ws i w w' : ws !! i = Some w →
  ∃ rest, gather f ws ≡ₚ f w ++ rest ∧ gather f (<[i := w']> ws) ≡ₚ f w' ++ rest.
Proof.
  intros Hi. exists (gather f (take i ws) ++ gather f (drop (S i) ws)). unfold gather. split.
  - rewrite <- (take_drop_middle ws i w Hi) at 1. rewrite fmap_app, concat_app. simpl. apply Permutation_app_swap_app.
  - rewrite insert_take_drop by (by eapply lookup_lt_Some). rewrite fmap_app, concat_app. simpl.
    apply Permutation_app_swap_app.
Qed.
Lemma gather_nil {W A} (f : W → list A) ws : Forall (λ w, f w = []) ws → gather f ws = [].
Proof. unfold gather. induction 1 as [|w ws Hw _ IH]; [done|]. cbn [fmap list_fmap concat]. by rewrite Hw. Qed.

Lemma sum_list_insert {W} (f : W → nat) ws i w w' : ws !! i = Some w →
  ∃ rest, sum_list_with f ws = f w + rest ∧ sum_list_with f (<[i := w']> ws) = f w' + rest.
Proof.
  intros Hi. exists (sum_list_with f (take i ws) + sum_list_with f (drop (S i) ws)). split.
  - rewrite <- (take_drop_middle ws i w Hi) at 1. rewrite sum_list_with_app. cbn. lia.
  - rewrite insert_take_drop by (by eapply lookup_lt_Some). rewrite sum_list_with_app. cbn. lia.
Qed.

(** * Lemmas on the iteration of maps *)

Section map_range.
Context `{MapRange} {K V : Type} `{Countable K}.
Implicit Types (m : gmap K V) (k : K) (v : V).

Lemma elem_of_range_map site m k v : (k, v) ∈ range_map site m ↔ m !! k = Some v.
Proof. rewrite range_map_perm. apply elem_of_map_to_list. Qed.

Lemma NoDup_range_map site m : NoDup (range_map site m).*1.
Proof. rewrite range_map_perm. apply NoDup_fst_map_to_list. Qed.

Lemma length_range_map site m : length (range_map site m) = size m.
Proof. rewrite range_map_perm. apply length_map_to_list. Qed.

Lemma list_to_map_range_map site m : list_to_map (range_map site m) =@{gmap K V} m.
Proof.
  rewrite <- (list_to_map_to_list m) at 2.
  apply list_to_map_proper; [apply NoDup_range_map|apply range_map_perm].
Qed.
End map_range.
#[export] Hint Resolve NoDup_range_map : cbcopy.

(** * Lemmas on strings *)

Definition no_byte (c : ascii) (s : string) : Prop := c ∉ bytes s.
#[export] Instance no_byte_dec c s : Decision (no_byte c s).
Proof. unfold no_byte. apply _. Defined.

Lemma append_nil_r (s : string) : s +:+ "" = s.
Proof. induction s as [|c s IH]; [done|]. unfold String.app in *. simpl. by rewrite IH. Qed.

Lemma append_assoc (s t u : string) : (s +:+ t) +:+ u = s +:+ (t +:+ u).
Proof. induction s as [|c s IH]; [done|]. unfold String.app in *. simpl. by rewrite IH. Qed.

Lemma append_String c (s t : string) : String c s +:+ t = String c (s +:+ t).
Proof. done. Qed.

Lemma append_Empty (t : string) : EmptyString +:+ t = t.
Proof. done. Qed.

Lemma bytes_append s t : bytes (s +:+ t) = bytes s ++ bytes t.
Proof. induction s as [|c s IH]; [done|]. rewrite append_String. simpl. by rewrite IH. Qed.

Lemma of_bytes_append k l : of_bytes (k ++ l) = of_bytes k +:+ of_bytes l.
Proof. induction k as [|c k IH]; [done|]. simpl. rewrite append_String. by rewrite IH. Qed.

Lemma bytes_of_bytes l : bytes (of_bytes l) = l.
Proof. induction l; simpl; congruence. Qed.

Lemma of_bytes_bytes s : of_bytes (bytes s) = s.
Proof. induction s; simpl; congruence. Qed.

Lemma len_append s t : len (s +:+ t) = len s + len t.
Proof. unfold len. induction s as [|c s IH]; [done|]. rewrite append_String. simpl. by rewrite IH. Qed.

Lemma len_bytes s : length (bytes s) = len s.
Proof. unfold len. induction s; simpl; congruence. Qed.

Lemma no_byte_append c s t : no_byte c (s +:+ t) ↔ no_byte c s ∧ no_byte c t.
Proof. unfold no_byte. rewrite bytes_append. set_solver. Qed.

Lemma no_byte_String c d s : no_byte c (String d s) ↔ c ≠ d ∧ no_byte c s.
Proof. unfold no_byte. simpl. set_solver. Qed.

Lemma no_byte_Empty c : no_byte c "".
Proof. unfold no_byte. simpl. set_solver. Qed.
#[export] Hint Resolve no_byte_Empty : cbcopy.
#[export] Hint Rewrite append_nil_r append_assoc append_String append_Empty : cbcopy.

Lemma cat_app l1 l2 : cat (l1 ++ l2) = cat l1 +:+ cat l2.
Proof. induction l1 as [|s l1 IH]; [done|]. cbn [app cat foldr]. unfold cat in IH. by rewrite IH, append_assoc. Qed.

Lemma append_inj_r (s t u : string) : s +:+ u = t +:+ u → s = t.
Proof.
  intros Heq. apply (f_equal bytes) in Heq. rewrite !bytes_append in Heq.
  apply app_inv_tail in Heq. by rewrite <- (of_bytes_bytes s), <- (of_bytes_bytes t), Heq.
Qed.

Lemma Split_no_byte s sep : no_byte sep s → Split s sep = [s].
Proof.
  induction s as [|c s IH]; [done|]. rewrite no_byte_String. intros [Hne Hs]. simpl.
  rewrite decide_False by done. by rewrite IH.
Qed.

Lemma Split_app s t sep : no_byte sep s → Split (s +:+ String sep t) sep = s :: Split t sep.
Proof.
  induction s as [|c s IH].
  - intros _. rewrite append_Empty. simpl. by rewrite decide_True.
  - rewrite no_byte_String. intros [Hne Hs]. rewrite append_String. simpl.
    rewrite decide_False by done. by rewrite IH.
Qed.

Lemma Split_cons s sep : ∃ h t, Split s sep = h :: t.
Proof.
  induction s as [|c s (h & t & IH)]; simpl; [eauto|].
  case_decide; [eauto|]. rewrite IH. eauto.
Qed.

(** The parts around a separator are split on their own. *)
Lemma Split_sep s t sep : Split (s +:+ String sep t) sep = Split s sep ++ Split t sep.
Proof.
  induction s as [|c s IH].
  - rewrite append_Empty. simpl. by rewrite decide_True.
  - rewrite append_String. simpl. rewrite IH. case_decide; [done|].
    destruct (Split_cons s sep) as (h & l & ->). done.
Qed.

(** [strings.Join] undoes [strings.Split]. *)
Lemma Join_Split s sep : Join (Split s sep) (chr sep) = s.
Proof.
  unfold Join. induction s as [|c s IH]; [done|]. simpl.
  destruct (Split_cons s sep) as (h & t & Hs). rewrite Hs in IH |- *.
  case_decide as Hc.
  - rewrite Hc. simpl in IH |- *. by rewrite IH.
  - destruct t; simpl in *; by rewrite <- IH.
Qed.

Lemma Split_Forall s sep : Forall (no_byte sep) (Split s sep).
Proof.
  induction s as [|c s IH]; simpl; [by repeat constructor; apply no_byte_Empty|].
  case_decide; [constructor; [apply no_byte_Empty|done]|].
  destruct (Split_cons s sep) as (h & t & Hs). rewrite Hs in IH |- *.
  inversion IH; subst. constructor; [by rewrite no_byte_String; split|done].
Qed.

(** [strings.Split] undoes [strings.Join]. *)
Lemma Split_Join l sep : l ≠ [] → Forall (no_byte sep) l → Split (Join l (chr sep)) sep = l.
Proof.
  intros Hne Hl. induction Hl as [|s l Hs Hl IH]; [done|]. destruct l as [|s' l].
  - unfold Join. simpl. by apply Split_no_byte.
  - change (Join (s :: s' :: l) (chr sep)) with (s +:+ String sep (Join (s' :: l) (chr sep))).
    rewrite Split_app by done. by rewrite IH.
Qed.

Lemma Split_inj s t sep : Split s sep = Split t sep → s = t.
Proof. intros Heq. by rewrite <- (Join_Split s sep), <- (Join_Split t sep), Heq. Qed.

Lemma SplitN2_app s t sep : no_byte sep s → SplitN2 (s +:+ String sep t) sep = [s; t].
Proof.
  induction s as [|c s IH].
  - intros _. rewrite append_Empty. simpl. by rewrite decide_True.
  - rewrite no_byte_String. intros [Hne Hs]. rewrite append_String. simpl.
    rewrite decide_False by done. by rewrite IH.
Qed.

Lemma prefix_true (p s : string) : String.prefix p s = true ↔ ∃ t, s = p +:+ t.
Proof.
  revert s. induction p as [|c p IH]; intros s; simpl.
  - split; [intros _; by exists s|by destruct s].
  - destruct s as [|d s]; [split; [done|by intros [t Ht]; rewrite append_String in Ht]|].
    simpl. destruct (ascii_dec c d) as [->|Hne].
    + rewrite (IH s). split; intros [t Ht]; exists t.
      * by rewrite append_String, Ht.
      * by rewrite append_String in Ht; simplify_eq.
    + split; [done|]. intros [t Ht]. rewrite append_String in Ht. by simplify_eq.
Qed.

Lemma Contains_true s sub : Contains s sub = true ↔ ∃ a b, s = a +:+ sub +:+ b.
Proof.
  induction s as [|c s IH]; cbn [Contains].
  - rewrite orb_false_r, prefix_true. split.
    + intros [t Ht]. exists "", t. by rewrite append_Empty.
    + intros (a & b & Hab). destruct a; [by exists b|done].
  - rewrite orb_true_iff, prefix_true, IH. split.
    + intros [[t Ht]|(a & b & ->)]; [by exists "", t|exists (String c a), b].
      by rewrite append_String.
    + intros (a & b & Hab). destruct a as [|d a]; [left; by exists b|right].
      rewrite append_String in Hab. simplify_eq. by exists a, b.
Qed.

(** * Lemmas on decimal numbers *)

Lemma string_of_uint_head u : ∃ c s, NilZero.string_of_uint u = String c s ∧
  c ≠ byte 43 ∧ c ≠ DASH.
Proof. destruct u; simpl; eauto. Qed.

Lemma Z_to_int_shape z :
  (∃ u, Z.to_int z = Decimal.Pos u ∧ u ≠ Decimal.Nil) ∨
  (∃ u, Z.to_int z = Decimal.Neg u ∧ u ≠ Decimal.Nil).
Proof.
  destruct z as [|p|p]; simpl; [left|left|right]; eexists; (split; [done|]);
    first [done|apply Unsigned.to_uint_nonnil].
Qed.

(** [strconv.Atoi] undoes [strconv.Itoa] on the integers of 64 bits. *)
Lemma Atoi_Itoa z : in_int64 z = true → Atoi (Itoa z) = Some z.
Proof.
  intros Hz. pose proof (DecimalZ.of_to z) as Hof. unfold Atoi, Itoa.
  destruct (Z_to_int_shape z) as [(u & Hu & Hnil)|(u & Hu & Hnil)]; rewrite Hu in Hof |- *; simpl in *.
  - destruct (string_of_uint_head u) as (c & s & Hs & Hplus & Hdash). rewrite Hs.
    rewrite !decide_False by done. rewrite <- Hs, NilZero.usu by done. simpl.
    by rewrite Hof, Hz.
  - rewrite NilZero.usu by done. simpl.
    by rewrite Hof, Hz.
Qed.

(** A decimal number consists of digits and possibly a sign. *)
Lemma no_byte_string_of_uint c u : no_byte c "0123456789" → no_byte c (NilZero.string_of_uint u).
Proof.
  intros Hc. assert (Hne : no_byte c (NilEmpty.string_of_uint u)).
  { rewrite !no_byte_String in Hc. induction u; simpl; rewrite ?no_byte_String; tauto. }
  destruct u; try done. simpl. rewrite !no_byte_String in Hc. rewrite no_byte_String. tauto.
Qed.

Lemma no_byte_Itoa_other c z : no_byte c "-0123456789" → no_byte c (Itoa z).
Proof.
  rewrite no_byte_String. intros [Hd Hc]. unfold Itoa.
  destruct (Z.to_int z); simpl; [by apply no_byte_string_of_uint|].
  rewrite no_byte_String. split; [done|by apply no_byte_string_of_uint].
Qed.

Lemma no_byte_Itoa z : no_byte DOT (Itoa z).
Proof. apply no_byte_Itoa_other. by apply (bool_decide_unpack _). Qed.
#[export] Hint Resolve no_byte_Itoa : cbcopy.

(** * Lemmas on lists *)

Lemma length_filter_partition {A} (P : A → Prop) `{∀ x, Decision (P x)} (l : list A) :
  length (filter P l) + length (filter (λ x, ¬ P x) l) = length l.
Proof.
  induction l as [|x l IH]; [done|]. rewrite !filter_cons.
  repeat case_decide; simpl; try done; lia.
Qed.
