(* ===== verification/Regexp.v ===== *)
(** The functions of [regexp] and of [strings] that the printers of
    definitions use. A pattern is a tree, matched as the package does:
    leftmost, the first alternative and the longest repetition first. *)
From S2P Require Import Prelude.

(** * Strings *)

(** [strings.HasPrefix], [HasSuffix], [TrimPrefix] and [TrimSuffix]. *)
Definition HasPrefix (s prefix : string) : bool := String.prefix prefix s.
Definition HasSuffix (s suffix : string) : bool :=
  bool_decide (len suffix ≤ len s) &&
  bool_decide (String.substring (len s - len suffix) (len suffix) s = suffix).
Definition TrimPrefix (s prefix : string) : string :=
  if HasPrefix s prefix then String.substring (len prefix) (len s - len prefix) s else s.
Definition TrimSuffix (s suffix : string) : string :=
  if HasSuffix s suffix then String.substring 0 (len s - len suffix) s else s.

(** [strings.TrimSpace] and [strings.Trim] for the ASCII characters; the
    statements are not cut inside a character of several bytes. *)
Definition is_white (c : ascii) : bool :=
  bool_decide (c ∈ [byte 9; byte 10; byte 11; byte 12; byte 13; byte 32]).
Fixpoint trim_left (P : ascii → bool) (l : list ascii) : list ascii :=
  match l with
  | c :: l' => if P c then trim_left P l' else l
  | [] => []
  end.
Definition trim (P : ascii → bool) (s : string) : string :=
  of_bytes (reverse (trim_left P (reverse (trim_left P (bytes s))))).
Definition TrimSpace (s : string) : string := trim is_white s.
Definition Trim (s : string) (c : ascii) : string := trim (λ d, bool_decide (c = d)) s.

(** [strings.ToUpper] and [ToLower] on the ASCII letters. *)
Definition upper_byte (c : ascii) : ascii :=
  let n := nat_of_ascii c in if bool_decide (97 ≤ n ∧ n ≤ 122) then byte (n - 32) else c.
Definition lower_byte (c : ascii) : ascii :=
  let n := nat_of_ascii c in if bool_decide (65 ≤ n ∧ n ≤ 90) then byte (n + 32) else c.
Definition ToUpper (s : string) : string := of_bytes (upper_byte <$> bytes s).
Definition ToLower (s : string) : string := of_bytes (lower_byte <$> bytes s).

(** [strings.Index]; [None] is -1. *)
Fixpoint Index (s sub : string) : option nat :=
  if String.prefix sub s then Some 0
  else match s with
       | EmptyString => None
       | String _ s' => S <$> Index s' sub
       end.

(** [fmt.Sprintf("%v", b)]. *)
Definition bool_text (b : bool) : string := if b then "true" else "false".

(** * Patterns *)

Inductive re :=
| Eps
| Chr (P : ascii → bool)
| Cat (r1 r2 : re)
| Alt (r1 r2 : re)
| Star (r : re)
| Cap (n : nat) (r : re)
| Bol
| Eol
| WordB.

Definition Plus (r : re) : re := Cat r (Star r).
Definition Opt (r : re) : re := Alt r Eps.
Definition is_byte (c d : ascii) : bool := bool_decide (c = d).
Fixpoint Lit (s : string) : re :=
  match s with
  | EmptyString => Eps
  | String c s' => Cat (Chr (is_byte c)) (Lit s')
  end.
Definition Cats (l : list re) : re := foldr Cat Eps l.

(** Character classes. [any] is the dot: not a newline. *)
Definition any (c : ascii) : bool := negb (is_byte NL c).
Definition not_byte (c d : ascii) : bool := negb (is_byte c d).
Definition is_digit (c : ascii) : bool := let n := nat_of_ascii c in bool_decide (48 ≤ n ∧ n ≤ 57).
Definition is_letter (c : ascii) : bool :=
  let n := nat_of_ascii c in bool_decide (65 ≤ n ∧ n ≤ 90 ∨ 97 ≤ n ∧ n ≤ 122).
Definition word (c : ascii) : bool := is_letter c || is_digit c || is_byte (byte 95) c.
(** [\s]. *)
Definition space (c : ascii) : bool :=
  bool_decide (c ∈ [byte 9; byte 10; byte 12; byte 13; byte 32]).

(** * Matching *)

(** A position: the byte before it, if any, and the rest of the text. The
    captured texts by group. *)
Abbreviation caps := (gmap nat string).
Definition taken (s rest : string) : string := String.substring 0 (len s - len rest) s.

Section matcher.
Context {X : Type}.
Definition cont := option ascii → string → caps → option X.

(** [r* ] followed by [k]: as many rounds as possible, each of which must
    consume a byte; [n] bounds the rounds. *)
Definition star_with (round : option ascii → string → caps → cont → option X) (k : cont) : nat → cont :=
  fix star n p s c :=
    match n with
    | O => k p s c
    | S n' =>
        match round p s c (λ p' s' c', if bool_decide (len s' < len s) then star n' p' s' c' else None) with
        | Some x => Some x
        | None => k p s c
        end
    end.

Definition at_word (o : option ascii) : bool := match o with Some c => word c | None => false end.
Definition first_byte (s : string) : option ascii := match s with String c _ => Some c | EmptyString => None end.

Fixpoint m (r : re) (p : option ascii) (s : string) (c : caps) (k : cont) : option X :=
  match r with
  | Eps => k p s c
  | Chr P => match s with
             | String d s' => if P d then k (Some d) s' c else None
             | EmptyString => None
             end
  | Cat r1 r2 => m r1 p s c (λ p' s' c', m r2 p' s' c' k)
  | Alt r1 r2 => match m r1 p s c k with Some x => Some x | None => m r2 p s c k end
  | Star r => star_with (λ p s c k, m r p s c k) k (S (len s)) p s c
  | Cap n r => m r p s c (λ p' s' c', k p' s' (<[n := taken s s']> c'))
  | Bol => match p with None => k p s c | Some _ => None end
  | Eol => match s with EmptyString => k p s c | String _ _ => None end
  | WordB => if bool_decide (at_word p ≠ at_word (first_byte s)) then k p s c else None
  end.
End matcher.

(** A match: the bytes skipped before it, the matched text, the rest and the
    captured groups. *)
Record found := { f_skip : string; f_last : option ascii; f_text : string; f_rest : string; f_caps : caps }.
Fixpoint search (r : re) (p : option ascii) (s : string) : option found :=
  match m r p s ∅ (λ p' s' c', Some {| f_skip := ""; f_last := p'; f_text := taken s s'; f_rest := s'; f_caps := c' |}) with
  | Some f => Some f
  | None =>
      match s with
      | EmptyString => None
      | String d s' =>
          f ← search r (Some d) s';
          Some {| f_skip := String d (f_skip f); f_last := f_last f; f_text := f_text f; f_rest := f_rest f; f_caps := f_caps f |}
      end
  end.

(** [FindStringSubmatch]: the groups; a group that took no part is empty. *)
Definition FindStringSubmatch (r : re) (s : string) : option (nat → string) :=
  f ← search r None s; Some (λ n, default "" (f_caps f !! n)).
Definition MatchString (r : re) (s : string) : bool :=
  match search r None s with Some _ => true | None => false end.

(** [ReplaceAllString] with the replacement as a function of the groups, for a
    pattern that matches no empty text; each round consumes a byte. *)
Fixpoint replace_all (fuel : nat) (r : re) (repl : (nat → string) → string) (p : option ascii) (s : string) : string :=
  match fuel with
  | O => s
  | S fuel' =>
      match search r p s with
      | None => s
      | Some f => f_skip f +:+ repl (λ n, default "" (f_caps f !! n)) +:+ replace_all fuel' r repl (f_last f) (f_rest f)
      end
  end.
Definition ReplaceAllString (r : re) (s : string) (repl : (nat → string) → string) : string :=
  replace_all (S (len s)) r repl None s.

(** * Lemmas *)

Section matcher_lemmas.
Context {X : Type}.
Implicit Types (k : cont (X := X)) (c : caps).

(** The repetition of a class tries its longest run first. *)
Fixpoint longest (P : ascii → bool) k (p : option ascii) (s : string) c : option X :=
  match s with
  | String d s' =>
      if P d then match longest P k (Some d) s' c with Some x => Some x | None => k p s c end
      else k p s c
  | EmptyString => k p s c
  end.

Lemma m_Star_Chr P p s c k : m (Star (Chr P)) p s c k = longest P k p s c.
Proof.
  cbn [m]. assert (Hgen : ∀ n, len s < n →
    star_with (λ p s c k, m (Chr P) p s c k) k n p s c = longest P k p s c).
  { revert p c. induction s as [|d s IH]; intros p c n Hn; (destruct n as [|n]; [simpl in *; lia|]); [done|].
    cbn [star_with m longest]. destruct (P d); [|done].
    rewrite bool_decide_true by (simpl; lia).
    fold (star_with (λ p s c k, m (Chr P) p s c k) k). rewrite IH; [done|simpl in Hn; lia]. }
  apply Hgen. lia.
Qed.

Lemma m_Cat r1 r2 p s c k : m (Cat r1 r2) p s c k = m r1 p s c (λ p' s' c', m r2 p' s' c' k).
Proof. done. Qed.
Lemma m_Cap n r p s c k : m (Cap n r) p s c k = m r p s c (λ p' s' c', k p' s' (<[n := taken s s']> c')).
Proof. done. Qed.
Lemma m_Bol s c k : m Bol None s c k = k None s c.
Proof. done. Qed.
Lemma m_Eol p c k : m Eol p "" c k = k p "" c.
Proof. done. Qed.
Lemma m_Eps p s c k : m Eps p s c k = k p s c.
Proof. done. Qed.

(** A run ends where what follows it matches, if it matches nowhere later. *)
Lemma longest_last P k (Q : X → Prop) p s t c :
  Forall (λ b, P b = true) (bytes s) → (∀ p', ∃ x, k p' t c = Some x ∧ Q x) →
  (∀ d t' p', t = String d t' → P d = true → longest P k p' t' c = None) →
  ∃ x, longest P k p (s +:+ t) c = Some x ∧ Q x.
Proof.
  intros Hs Hk Hlater. revert p. induction s as [|b s IH]; intros p.
  - rewrite append_Empty. destruct t as [|d t']; [apply Hk|]. cbn [longest].
    destruct (P d) eqn:Hd; [|apply Hk]. rewrite (Hlater d t' _ eq_refl Hd). apply Hk.
  - apply Forall_cons in Hs as [Hb Hs]. rewrite append_String. cbn [longest]. rewrite Hb.
    destruct (IH Hs (Some b)) as (x & -> & Hx). by exists x.
Qed.

Lemma longest_none P k p s c d :
  (∀ p' s', first_byte s' ≠ Some d → k p' s' c = None) → no_byte d s → longest P k p s c = None.
Proof.
  intros Hk. revert p. induction s as [|b s IH]; intros p.
  - intros _. cbn [longest]. by apply Hk.
  - rewrite no_byte_String. intros [Hne Hs]. cbn [longest].
    assert (Hhere : k p (String b s) c = None) by (apply Hk; simpl; congruence).
    destruct (P b); [by rewrite IH|done].
Qed.

(** A repetition that can only stop at the end of the run. *)
Lemma longest_all P k (Q : X → Prop) p s t c :
  Forall (λ b, P b = true) (bytes s) → (∀ d t', t = String d t' → P d = false) →
  (∀ p', ∃ x, k p' t c = Some x ∧ Q x) → ∃ x, longest P k p (s +:+ t) c = Some x ∧ Q x.
Proof.
  intros Hs Hd Hk. apply longest_last; [done|done|]. intros d t' p' Ht HP. by rewrite (Hd d t' Ht) in HP.
Qed.

Lemma m_Lit s t p c k : m (Lit s) p (s +:+ t) c k =
  k (match s with EmptyString => p | String _ _ => String.get (pred (len s)) s end) t c.
Proof.
  revert p. induction s as [|d s IH]; intros p; [done|]. cbn [Lit m]. rewrite append_String.
  unfold is_byte. rewrite bool_decide_true by done. rewrite IH. destruct s; done.
Qed.
End matcher_lemmas.

Lemma taken_append s t : taken (s +:+ t) t = s.
Proof.
  unfold taken. rewrite len_append. replace (len s + len t - len t) with (len s) by lia.
  unfold len. induction s as [|c s IH]; [by destruct t|]. rewrite append_String. simpl. by rewrite IH.
Qed.

Lemma m_Lit_None {X} (k : cont (X := X)) t p s c : String.prefix t s = false → m (Lit t) p s c k = None.
Proof.
  revert p s. induction t as [|d t IH]; intros p s Hp; [by destruct s|]. cbn [Lit m].
  destruct s as [|b s]; [done|]. unfold is_byte. case_bool_decide as Hd; [|done]. subst b.
  apply IH. simpl in Hp. by destruct (ascii_dec d d).
Qed.

(** A repetition followed by a literal that does not occur. *)
Lemma longest_no_literal {X} P (k : cont (X := X)) t p s c :
  (∀ p' s', String.prefix t s' = false → k p' s' c = None) → Contains s t = false → longest P k p s c = None.
Proof.
  intros Hk. revert p. induction s as [|b s IH]; intros p Hs; cbn [Contains] in Hs; apply orb_false_iff in Hs as [Hp Hs];
    cbn [longest].
  - by apply Hk.
  - rewrite (Hk p (String b s)) by done. destruct (P b); [|done]. by rewrite IH.
Qed.

Lemma any_no_newline s : no_byte NL s → Forall (λ b, any b = true) (bytes s).
Proof.
  intros Hs. apply Forall_forall. intros b Hb. unfold any, is_byte. rewrite bool_decide_false; [done|]. by intros <-.
Qed.

(** What a match at the start of the text captures. *)
Lemma FindStringSubmatch_at r s (Q : caps → Prop) :
  (∀ X (k : cont (X := X)) (R : X → Prop),
    (∀ p' s' c', Q c' → ∃ x, k p' s' c' = Some x ∧ R x) → ∃ x, m r None s ∅ k = Some x ∧ R x) →
  ∃ f c, FindStringSubmatch r s = Some f ∧ (∀ n, f n = default "" (c !! n)) ∧ Q c.
Proof.
  intros Hm. unfold FindStringSubmatch.
  set (k := λ p' s' c', Some {| f_skip := ""; f_last := p'; f_text := taken s s'; f_rest := s'; f_caps := c' |}).
  destruct (Hm found k (λ f, Q (f_caps f))) as (f & Hf & HQ); [intros; by eexists|].
  assert (Hs : search r None s = Some f) by (subst k; destruct s; cbn [search]; by rewrite Hf).
  rewrite Hs. simpl. by eexists _, (f_caps f).
Qed.
