(* ===== verification/Reader.v ===== *)
(** The record readers of src/internal/reader: a buffered reader that hands out
    prefixes of the stream ending at a record boundary, with the CSV, text and
    custom-delimiter boundary searches. The helper processes of a copy read the
    connections of several senders with it and write the pieces to one output,
    so a piece that is not a whole number of records corrupts the data. *)
From S2P Require Import Prelude.

(** * Errors and the underlying [io.Reader] *)

Inductive io_error := EOF | ErrBufferFull | ErrNoProgress | ErrOther (msg : string).
#[export] Instance io_error_dec : EqDecision io_error.
Proof. solve_decision. Defined.

(** [rd.Read(p)] with [len(p) = n]: the bytes stored in [p], the error, and the
    reader afterwards. The law is the contract of [io.Reader]. *)
Class IoReader (R : Type) := {
  rd_Read : R → nat → list ascii * option io_error * R;
  rd_Read_len : ∀ rd n, length (rd_Read rd n).1.1 ≤ n
}.

(** * Record boundaries *)

Inductive EolType := EolNl | EolCr | EolCrNl | EolCustom.

(** The types embedding [ReaderBase] (its [virm] field). *)
Inductive reader_kind :=
| CsvReader (eol : EolType) (escape quote : ascii)
| TextReader (eol : EolType)
| CustomReader (lineDelimiter : list ascii).

(** The variables of the loop of [CsvReader.parseNlOrCr]; [-1] is [None]. *)
Record csv_loop := CsvLoop {
  inQuote : bool; lastWasEsc : bool; lastRecord : option nat; lines : nat }.

(** The two booleans of the loop after one byte. *)
Definition csv_quote_step (escape quote : ascii) (st : bool * bool) (c : ascii) : bool * bool :=
  let '(inq, esc) := st in
  if inq then
    if esc then (inq, false)
    else if decide (c = quote) then (false, esc)
    else if decide (c = escape) then (inq, true)
    else (inq, esc)
  else if decide (c = quote) then (true, esc)
  else (inq, esc).

Definition csv_step (escape quote delim : ascii) (i : nat) (st : csv_loop) (c : ascii) : csv_loop :=
  let '(inq, esc) := csv_quote_step escape quote (inQuote st, lastWasEsc st) c in
  if negb (inQuote st) && bool_decide (c ≠ quote) && bool_decide (c = delim)
  then CsvLoop inq esc (Some i) (S (lines st))
  else CsvLoop inq esc (lastRecord st) (lines st).

Fixpoint csv_loop_from (escape quote delim : ascii) (i : nat) (st : csv_loop)
    (s : list ascii) : csv_loop :=
  match s with
  | [] => st
  | c :: s' => csv_loop_from escape quote delim (S i) (csv_step escape quote delim i st c) s'
  end.

Definition csv_parseNlOrCr (escape quote delim : ascii) (s : list ascii) : option nat * nat :=
  let st := csv_loop_from escape quote delim 0 (CsvLoop false false None 0) s in
  (lastRecord st, lines st).

(** [CsvReader.parseCrNl] also remembers the byte before. *)
Fixpoint csv_crnl_from (escape quote : ascii) (i : nat) (st : csv_loop) (lastch : ascii)
    (s : list ascii) : csv_loop :=
  match s with
  | [] => st
  | c :: s' =>
      let '(inq, esc) := csv_quote_step escape quote (inQuote st, lastWasEsc st) c in
      let st' :=
        if negb (inQuote st) && bool_decide (c ≠ quote) &&
           (bool_decide (c = NL) && bool_decide (lastch = CR))
        then CsvLoop inq esc (Some i) (S (lines st))
        else CsvLoop inq esc (lastRecord st) (lines st) in
      csv_crnl_from escape quote (S i) st' c s'
  end.

Definition csv_parseCrNl (escape quote : ascii) (s : list ascii) : option nat * nat :=
  let st := csv_crnl_from escape quote 0 (CsvLoop false false None 0) (byte 0) s in
  (lastRecord st, lines st).

(** [TextReader.parseNlOrCr]: the downward loop, from index [i - 1]. *)
Fixpoint text_find (delim : ascii) (s : list ascii) (i : nat) : option nat :=
  match i with
  | O => None
  | S j => if decide (s !! j = Some delim) then Some j else text_find delim s j
  end.

(** [TextReader.parseCrNl]. *)
Fixpoint text_find_crnl (s : list ascii) (i : nat) : option nat :=
  match i with
  | O => None
  | S j =>
      if bool_decide (0 < j) && bool_decide (s !! j = Some NL)
         && bool_decide (s !! (j - 1) = Some CR)
      then Some j else text_find_crnl s j
  end.

(** The delimiter [NewCustomReader] stores, in terms of the one it is given. *)
Definition custom_delimiter (lineDelimiter : string) : list ascii :=
  if decide (lineDelimiter = "E'\n'") then [NL]
  else if decide (lineDelimiter = "E'\r'") then [CR]
  else if decide (lineDelimiter = "E'\r\n'") then [CR; NL]
  else bytes lineDelimiter.

(** The downward loop of [CustomReader.parseRecords], from offset [i - 1]. *)
Fixpoint custom_find (d s : list ascii) (i : nat) : option nat :=
  match i with
  | O => None
  | S j =>
      if decide (take (length d) (drop j s) = d) then Some (j + length d - 1)
      else custom_find d s j
  end.

Definition custom_parseRecords (d s : list ascii) : option nat :=
  let slen := length s in
  let dlen := length d in
  if slen <? dlen then None
  else if decide (slen - dlen = 0) then
    if decide (s = d) then match slen with O => None | S n => Some n end else None
  else custom_find d s (S (slen - dlen)).

(** [virm.parseRecords]: the index of the last byte of the last whole record of
    [s], and how much the line counter grows. *)
Definition parseRecords (k : reader_kind) (s : list ascii) : option nat * nat :=
  match k with
  | CsvReader EolNl e q => csv_parseNlOrCr e q NL s
  | CsvReader EolCr e q => csv_parseNlOrCr e q CR s
  | CsvReader _ e q => csv_parseCrNl e q s
  | TextReader EolNl => (text_find NL s (length s), 0)
  | TextReader EolCr => (text_find CR s (length s), 0)
  | TextReader _ => (text_find_crnl s (length s), 0)
  | CustomReader d => (custom_parseRecords d s, 0)
  end.

(** * The buffered reader *)

Definition minReadBufferSize : nat := 16.
Definition maxConsecutiveEmptyReads : nat := 100.
Definition defaultBufSize : nat := N.to_nat 1048576.

Section base.
Context {R : Type} `{IoReader R}.

Record ReaderBase := MkReader {
  virm : reader_kind;
  buf : list ascii;
  rd : R;
  rpos : nat;
  wpos : nat;
  err : option io_error;
  line : nat;
  rawBuffer : list ascii
}.

Definition set_pos (b : ReaderBase) (r w : nat) : ReaderBase :=
  MkReader (virm b) (buf b) (rd b) r w (err b) (line b) (rawBuffer b).
Definition set_err (b : ReaderBase) (e : option io_error) : ReaderBase :=
  MkReader (virm b) (buf b) (rd b) (rpos b) (wpos b) e (line b) (rawBuffer b).
Definition set_line (b : ReaderBase) (n : nat) : ReaderBase :=
  MkReader (virm b) (buf b) (rd b) (rpos b) (wpos b) (err b) n (rawBuffer b).
Definition set_raw (b : ReaderBase) (raw : list ascii) : ReaderBase :=
  MkReader (virm b) (buf b) (rd b) (rpos b) (wpos b) (err b) (line b) raw.

(** [NewCsvReader], [NewTextReader], [NewCustomReader]: a zeroed buffer of at
    least 16 bytes. *)
Definition NewReader (rd : R) (size : nat) (k : reader_kind) : ReaderBase :=
  let size := if size <? minReadBufferSize then minReadBufferSize else size in
  MkReader k (replicate size (byte 0)) rd 0 0 None 0 [].

(** [buf[i:j]] *)
Definition slice (l : list ascii) (i j : nat) : list ascii := take (j - i) (drop i l).

(** [copy(dst, src)] at the start of [dst]. *)
Definition copy_front (dst src : list ascii) : list ascii :=
  take (length dst) src ++ drop (length src) dst.

(** Store [src] in [dst] from position [at]. *)
Definition store (dst : list ascii) (at_ : nat) (src : list ascii) : list ascii :=
  take at_ dst ++ src ++ drop (at_ + length src) dst.

(** The bytes [buf[r:w]] not handed out yet. *)
Definition pending (b : ReaderBase) : list ascii := slice (buf b) (rpos b) (wpos b).

(** The read loop of [fill]. [fuel] is the loop variable [i]. *)
Fixpoint fill_loop (fuel : nat) (b : ReaderBase) : ReaderBase :=
  match fuel with
  | O => set_err b (Some ErrNoProgress)
  | S i =>
      let '(data, e, rd') := rd_Read (rd b) (length (buf b) - wpos b) in
      let b' := MkReader (virm b) (store (buf b) (wpos b) data) rd' (rpos b)
                  (wpos b + length data) (err b) (line b) (rawBuffer b) in
      match e with
      | Some er => set_err b' (Some er)
      | None => if 0 <? length data then b' else fill_loop i b'
      end
  end.

Definition fill (b : ReaderBase) : go ReaderBase :=
  let b1 :=
    if 0 <? rpos b
    then MkReader (virm b) (copy_front (buf b) (pending b)) (rd b) 0 (wpos b - rpos b)
           (err b) (line b) (rawBuffer b)
    else b in
  if length (buf b1) <=? wpos b1 then Panic "bufio: tried to fill full buffer"
  else Ok (fill_loop maxConsecutiveEmptyReads b1).

(** [readRecord]. Each round of its loop ends it or calls [fill]; [fuel] bounds
    the rounds. *)
Fixpoint readRecord (fuel : nat) (b : ReaderBase)
    : go (list ascii * option io_error * ReaderBase) :=
  match fuel with
  | O => Panic "out of fuel"
  | S fuel' =>
      let '(i, n) := parseRecords (virm b) (pending b) in
      let b := set_line b (line b + n) in
      match i with
      | Some i =>
          Ok (slice (buf b) (rpos b) (rpos b + i + 1), None,
              set_pos b (rpos b + i + 1) (wpos b))
      | None =>
          match err b with
          | Some e =>
              Ok (pending b, Some e, set_err (set_pos b (wpos b) (wpos b)) None)
          | None =>
              if length (buf b) <=? wpos b - rpos b
              then Ok (buf b, Some ErrBufferFull, set_pos b (wpos b) (wpos b))
              else let! b' := fill b in readRecord fuel' b'
          end
      end
  end.

(** Rounds that always suffice for [readRecord]. *)
Definition enough_fuel (b : ReaderBase) : nat := length (buf b) + 2.

(** The accumulation loop of [Read] after a full buffer. *)
Fixpoint read_long (fuel : nat) (b : ReaderBase)
    : go (list ascii * option io_error * ReaderBase) :=
  match fuel with
  | O => Panic "out of fuel"
  | S fuel' =>
      let! (record, e, b') := readRecord (enough_fuel b) b in
      let b' := set_raw b' (rawBuffer b' ++ record) in
      if decide (e = Some ErrBufferFull) then read_long fuel' b'
      else Ok (rawBuffer b', e, b')
  end.

Definition Read (fuel : nat) (b : ReaderBase)
    : go (list ascii * option io_error * ReaderBase) :=
  let! (record, e, b') := readRecord (enough_fuel b) b in
  if decide (e = Some ErrBufferFull) then read_long fuel (set_raw b' record)
  else Ok (record, e, b').

(** The loop of [processCsvRecord] (and of the goroutines of
    [ConcurrentClient.Run]) over one connection: every non-empty record is
    written; the list of written pieces and the error that ended the loop. *)
Fixpoint copy_records (fuel : nat) (b : ReaderBase)
    : go (list (list ascii) * option io_error) :=
  match fuel with
  | O => Panic "out of fuel"
  | S fuel' =>
      let! (record, er, b') := Read fuel b in
      let out := match record with [] => [] | _ => [record] end in
      match er with
      | Some EOF => Ok (out, None)
      | Some e => Ok (out, Some e)
      | None =>
          let! (rest, e) := copy_records fuel' b' in
          Ok (out ++ rest, e)
      end
  end.
End base.
Arguments ReaderBase : clear implicits.

(** * Specification of a record boundary *)

#[local] Arguments csv_quote_step : simpl never.

Lemma maxConsecutiveEmptyReads_S : maxConsecutiveEmptyReads = S 99.
Proof. done. Qed.
#[local] Opaque maxConsecutiveEmptyReads.

(** The quote state after the bytes [s] of a CSV stream. *)
Definition csv_state (escape quote : ascii) (s : list ascii) : bool * bool :=
  foldl (csv_quote_step escape quote) (false, false) s.

(** Byte [i] of [s] ends a record: it is an unquoted delimiter. *)
Definition csv_boundary (escape quote delim : ascii) (s : list ascii) (i : nat) : Prop :=
  s !! i = Some delim ∧ delim ≠ quote ∧ (csv_state escape quote (take i s)).1 = false.

(** The bytes delivered by a sequence of calls to the underlying reader. *)
Inductive reads {R} `{IoReader R} : R → list ascii → R → Prop :=
| reads_refl rd : reads rd [] rd
| reads_step rd n data e rd' rest rd'' :
    rd_Read rd n = (data, e, rd') → reads rd' rest rd'' → reads rd (data ++ rest) rd''.

(** The invariant of the buffer positions. *)
Definition reader_wf {R} (b : ReaderBase R) : Prop :=
  rpos b ≤ wpos b ∧ wpos b ≤ length (buf b) ∧ 0 < length (buf b).

(** A reader of finite content, as a connection is: it returns at least one byte
    when it returns no error, and ends with [EOF] behind its last byte, or
    before that with an error of its own, when it breaks off. *)
Class StreamReader (R : Type) `{IoReader R} := {
  remaining : R → list ascii;
  breaks : io_error → Prop;
  rd_Read_remaining : ∀ rd n data e rd',
    rd_Read rd n = (data, e, rd') → remaining rd = data ++ remaining rd';
  rd_Read_progress : ∀ rd n data rd',
    0 < n → rd_Read rd n = (data, None, rd') → data ≠ [];
  rd_Read_ends : ∀ rd n data e rd',
    rd_Read rd n = (data, Some e, rd') → e = EOF ∧ remaining rd' = [] ∨ breaks e;
  breaks_other : ∀ e, breaks e → ∃ msg, e = ErrOther msg
}.

(** A reader that does not break off. *)
Class FiniteReader (R : Type) `{StreamReader R} := { never_breaks : ∀ e, ¬ breaks e }.

(** * The boundary search is correct *)

Section csv.
Context (escape quote delim : ascii).

Lemma csv_step_quote i st c :
  (inQuote (csv_step escape quote delim i st c), lastWasEsc (csv_step escape quote delim i st c))
  = csv_quote_step escape quote (inQuote st, lastWasEsc st) c.
Proof.
  unfold csv_step. destruct (csv_quote_step _ _ _ _). by case_match.
Qed.

(** The loop invariant of [parseNlOrCr]: after the prefix [pre], the booleans
    are the quote state of [pre] and [lastRecord] is its last boundary. *)
Definition csv_inv (pre : list ascii) (st : csv_loop) : Prop :=
  (inQuote st, lastWasEsc st) = csv_state escape quote pre ∧
  match lastRecord st with
  | Some i => csv_boundary escape quote delim pre i ∧
              ∀ j, csv_boundary escape quote delim pre j → j ≤ i
  | None => ∀ j, ¬ csv_boundary escape quote delim pre j
  end.

Lemma csv_boundary_snoc pre c j :
  csv_boundary escape quote delim (pre ++ [c]) j ↔
  csv_boundary escape quote delim pre j ∨
  (j = length pre ∧ c = delim ∧ delim ≠ quote ∧ (csv_state escape quote pre).1 = false).
Proof.
  unfold csv_boundary. destruct (decide (j < length pre)) as [Hlt|Hge].
  - rewrite lookup_app_l, take_app_le by lia. split; [auto|].
    intros [?|(-> & _)]; [done|lia].
  - rewrite (lookup_ge_None_2 pre j) by lia. split.
    + intros (Hl & Hq & Hs). right.
      apply lookup_lt_Some in Hl as Hlt. rewrite length_app in Hlt. simpl in Hlt.
      assert (j = length pre) as -> by lia.
      rewrite lookup_app_r, Nat.sub_diag in Hl by lia. simpl in Hl.
      rewrite take_app_length in Hs. by simplify_eq.
    + intros [(? & _)|(-> & -> & Hq & Hs)]; [done|].
      rewrite lookup_app_r, Nat.sub_diag, take_app_length by lia. by simpl.
Qed.

Lemma csv_boundary_lt s i : csv_boundary escape quote delim s i → i < length s.
Proof. intros (Hl & _). by apply lookup_lt_Some in Hl. Qed.

Lemma csv_step_inv pre st c :
  csv_inv pre st → csv_inv (pre ++ [c]) (csv_step escape quote delim (length pre) st c).
Proof.
  intros [Hq Hr]. split.
  { rewrite csv_step_quote, Hq. unfold csv_state. by rewrite foldl_app. }
  assert (Hin : (csv_state escape quote pre).1 = inQuote st) by by rewrite <- Hq.
  unfold csv_step. destruct (csv_quote_step escape quote (inQuote st, lastWasEsc st) c) as [a b].
  destruct (negb (inQuote st) && bool_decide (c ≠ quote) && bool_decide (c = delim)) eqn:Hb; simpl.
  - apply andb_true_iff in Hb as [[Hn Hcq%bool_decide_eq_true]%andb_true_iff Hcd%bool_decide_eq_true].
    subst c. apply negb_true_iff in Hn. split.
    + apply csv_boundary_snoc. right. by rewrite Hin, Hn.
    + intros j [?%csv_boundary_lt|(-> & _)]%csv_boundary_snoc; lia.
  - assert (Hnew : ¬ (c = delim ∧ delim ≠ quote ∧ (csv_state escape quote pre).1 = false)).
    { intros (-> & Hdq & Hs). rewrite Hin in Hs. rewrite Hs in Hb. simpl in Hb.
      rewrite !bool_decide_eq_true_2 in Hb by done. done. }
    destruct (lastRecord st) as [i|].
    + destruct Hr as [Hi Hmax]. split; [apply csv_boundary_snoc; by left|].
      intros j [?|(_ & ?)]%csv_boundary_snoc; [by apply Hmax|tauto].
    + intros j [?|(_ & ?)]%csv_boundary_snoc; [by apply (Hr j)|tauto].
Qed.

Lemma csv_loop_inv s pre st :
  csv_inv pre st →
  csv_inv (pre ++ s) (csv_loop_from escape quote delim (length pre) st s).
Proof.
  revert pre st. induction s as [|c s IH]; intros pre st Hinv; simpl.
  - by rewrite app_nil_r.
  - rewrite cons_middle, app_assoc.
    specialize (IH (pre ++ [c]) (csv_step escape quote delim (length pre) st c)).
    rewrite length_app, Nat.add_1_r in IH. by apply IH, csv_step_inv.
Qed.

Lemma csv_parse_inv s :
  csv_inv s (csv_loop_from escape quote delim 0 (CsvLoop false false None 0) s).
Proof.
  apply (csv_loop_inv s [] (CsvLoop false false None 0)).
  split; [done|]. by intros j [? _].
Qed.
End csv.

(** ** Every search returns an index inside the searched bytes *)

Lemma csv_crnl_lt escape quote s i st lastch :
  (∀ j, lastRecord st = Some j → j < i) →
  ∀ j, lastRecord (csv_crnl_from escape quote i st lastch s) = Some j → j < i + length s.
Proof.
  revert i st lastch. induction s as [|c s IH]; intros i st lastch Hst j; simpl.
  - intros ?%Hst. lia.
  - destruct (csv_quote_step _ _ _ _) as [a b]. intros Hj. apply IH in Hj; [lia|].
    intros j'. case_match; simpl; intros ?; simplify_eq; [lia|]. apply Nat.lt_lt_succ_r. auto.
Qed.

Lemma text_find_spec delim s i j : text_find delim s i = Some j → j < i ∧ s !! j = Some delim.
Proof.
  induction i as [|i IH]; simpl; [done|]. case_decide; intros ?; simplify_eq; [auto|].
  apply IH in H0 as []. auto.
Qed.

Lemma text_find_crnl_lt s i j : text_find_crnl s i = Some j → j < i.
Proof.
  induction i as [|i IH]; simpl; [done|].
  case_match; [intros; simplify_eq; lia|]. intros ?%IH. lia.
Qed.

Lemma custom_find_lt d s i j : custom_find d s i = Some j →
  0 < length s → i ≤ S (length s - length d) → j < length s.
Proof.
  induction i as [|i IH]; simpl; [done|]. case_decide as Hd; intros Hj; simplify_eq; [|auto with lia].
  intros Hs Hi. apply (f_equal length) in Hd. rewrite length_take, length_drop in Hd. lia.
Qed.

Lemma parseRecords_lt k s i : (parseRecords k s).1 = Some i → i < length s.
Proof.
  assert (Hcsv : ∀ e q d, (csv_parseNlOrCr e q d s).1 = Some i → i < length s).
  { intros e q d Hi. destruct (csv_parse_inv e q d s) as [_ Hb].
    unfold csv_parseNlOrCr in Hi. simpl in Hi. rewrite Hi in Hb.
    by apply (csv_boundary_lt e q d), Hb. }
  assert (Hcr : ∀ e q, (csv_parseCrNl e q s).1 = Some i → i < length s).
  { intros e q Hi. by eapply (csv_crnl_lt e q s 0) in Hi. }
  destruct k as [[] e q|[]|d]; cbn [parseRecords];
    [apply Hcsv|apply Hcsv|apply Hcr|apply Hcr|simpl..].
  1,2: by intros []%text_find_spec.
  1,2: by intros ?%text_find_crnl_lt.
  unfold custom_parseRecords. case_match eqn:Hl; [done|]. case_decide as Hz.
  - case_decide; [|done]. destruct (length s) eqn:?; intros; simplify_eq; lia.
  - intros Hj. apply custom_find_lt in Hj; [done|lia|lia].
Qed.

(** * The buffer *)

Section buffer.
Context {R : Type} `{IoReader R}.
Implicit Types b : ReaderBase R.

Lemma length_slice (l : list ascii) i j : i ≤ j → j ≤ length l → length (slice l i j) = j - i.
Proof. intros. unfold slice. rewrite length_take, length_drop. lia. Qed.

Lemma slice_split (l : list ascii) i k j : i ≤ k → k ≤ j → j ≤ length l →
  slice l i j = slice l i k ++ slice l k j.
Proof.
  intros. unfold slice. replace (j - i) with ((k - i) + (j - k)) by lia.
  rewrite <- take_take_drop, drop_drop. by replace (i + (k - i)) with k by lia.
Qed.

Lemma length_pending b : reader_wf b → length (pending b) = wpos b - rpos b.
Proof. intros (? & ? & ?). by apply length_slice. Qed.

Lemma length_store (l : list ascii) k data :
  k + length data ≤ length l → length (store l k data) = length l.
Proof. intros. unfold store. rewrite !length_app, length_take, length_drop. lia. Qed.

Lemma slice_store (l : list ascii) i k data : i ≤ k → k + length data ≤ length l →
  slice (store l k data) i (k + length data) = slice l i k ++ data.
Proof.
  intros. unfold store. rewrite (slice_split _ i k); rewrite ?length_app, ?length_take, ?length_drop; try lia.
  unfold slice. f_equal.
  - rewrite drop_app_le by (rewrite length_take; lia).
    rewrite take_app_le by (rewrite length_drop, length_take; lia).
    rewrite skipn_firstn_comm. by rewrite take_take, Nat.min_id.
  - rewrite drop_app_length' by (rewrite length_take; lia).
    replace (k + length data - k) with (length data) by lia.
    by rewrite take_app_length.
Qed.

(** Sliding the pending bytes to the front keeps them. *)
Lemma slide_pending b : reader_wf b →
  slice (copy_front (buf b) (pending b)) 0 (wpos b - rpos b) = pending b ∧
  length (copy_front (buf b) (pending b)) = length (buf b).
Proof.
  intros Hwf. pose proof (length_pending b Hwf) as Hlen. destruct Hwf as (? & ? & ?).
  unfold copy_front. rewrite take_ge by lia. split.
  - unfold slice at 1. rewrite drop_0, Nat.sub_0_r, <- Hlen. by rewrite take_app_length.
  - rewrite length_app, length_drop. lia.
Qed.

(** What a successful [fill] does: it appends what the underlying reader
    delivered, and makes progress or records an error. *)
Lemma fill_loop_spec fuel b : reader_wf b → wpos b < length (buf b) →
  ∃ data, let b' := fill_loop fuel b in
  reads (rd b) data (rd b') ∧ reader_wf b' ∧ pending b' = pending b ++ data ∧
  virm b' = virm b ∧ length (buf b') = length (buf b) ∧ rpos b' = rpos b ∧
  (err b' ≠ None ∨ data ≠ []).
Proof.
  revert b. induction fuel as [|fuel IH]; intros b Hwf Hlt; simpl.
  - exists []. rewrite app_nil_r. repeat split; try done; [constructor|destruct Hwf; tauto..|by left].
  - destruct Hwf as (Hrw & Hwl & Hpos).
    destruct (rd_Read (rd b) (length (buf b) - wpos b)) as [[data e] rd'] eqn:Hrd.
    pose proof (rd_Read_len (rd b) (length (buf b) - wpos b)) as Hlen. rewrite Hrd in Hlen. simpl in Hlen.
    set (b' := MkReader _ _ _ _ _ _ _ _).
    assert (Hbuf : length (buf b') = length (buf b)) by (apply length_store; lia).
    assert (Hwf' : reader_wf b') by (unfold reader_wf; rewrite Hbuf; simpl; lia).
    assert (Hp : pending b' = pending b ++ data) by (unfold pending, b'; simpl; apply slice_store; lia).
    assert (Hreads : reads (rd b) data rd').
    { rewrite <- (app_nil_r data). eapply reads_step; [done|constructor]. }
    destruct e as [er|].
    + exists data. repeat split; try done; try (destruct Hwf'; tauto). by left.
    + destruct (0 <? length data) eqn:Hz.
      * exists data. repeat split; try done; try (destruct Hwf'; tauto). right. by destruct data.
      * destruct data; [|done]. rewrite app_nil_r in Hp.
        destruct (IH b' Hwf') as (data & Hrs & Hwf2 & Hp2 & Hv & Hl & Hr & Hprog).
        { rewrite Hbuf. unfold b'. simpl. lia. }
        exists data. repeat split; try (destruct Hwf2; tauto); try congruence.
        change data with ([] ++ data). by eapply reads_step.
Qed.

Lemma fill_spec b : reader_wf b → length (pending b) < length (buf b) →
  ∃ b' data, fill b = Ok b' ∧ reads (rd b) data (rd b') ∧ reader_wf b' ∧
  pending b' = pending b ++ data ∧ virm b' = virm b ∧ length (buf b') = length (buf b) ∧
  (err b' ≠ None ∨ data ≠ []).
Proof.
  intros Hwf Hlt. rewrite length_pending in Hlt by done. unfold fill.
  destruct (0 <? rpos b) eqn:Hr.
  - destruct (slide_pending b Hwf) as [Hp Hl]. set (b1 := MkReader _ _ _ _ _ _ _ _).
    assert (Hwf1 : reader_wf b1).
    { unfold reader_wf, b1. simpl. rewrite Hl. destruct Hwf as (? & ? & ?). lia. }
    assert (Hlt1 : wpos b1 < length (buf b1)) by (unfold b1; simpl; rewrite Hl; lia).
    rewrite (proj2 (Nat.leb_gt _ _)) by done.
    destruct (fill_loop_spec maxConsecutiveEmptyReads b1) as (data & Hs); [done..|].
    eexists _, data. split; [done|]. destruct Hs as (? & ? & Hp' & ? & Hl' & _ & ?).
    repeat split; try done; try (destruct H1; tauto).
    + by rewrite Hp'; unfold pending at 1, b1; simpl; rewrite Hp.
    + by rewrite Hl', <- Hl.
  - apply Nat.ltb_ge in Hr. assert (Hr0 : rpos b = 0) by lia.
    rewrite (proj2 (Nat.leb_gt _ _)) by lia.
    destruct (fill_loop_spec maxConsecutiveEmptyReads b) as (data & Hs); [done|lia|].
    eexists _, data. split; [done|]. destruct Hs as (? & ? & ? & ? & ? & _ & ?). done.
Qed.
End buffer.

(** * One record *)

Section record.
Context {R : Type} `{IoReader R}.
Implicit Types b : ReaderBase R.

(** The rounds of [readRecord] that call [fill]. *)
Inductive fills : ReaderBase R → ReaderBase R → Prop :=
| fills_refl b : fills b b
| fills_step b l b1 b2 :
    err b = None → length (pending b) < length (buf b) →
    fill (set_line b l) = Ok b1 → fills b1 b2 → fills b b2.

(** The result of the last round of [readRecord], entered with [b]. *)
Definition last_round b (res : list ascii * option io_error * ReaderBase R) : Prop :=
  let '(record, e, b') := res in
  rd b' = rd b ∧ virm b' = virm b ∧ buf b' = buf b ∧ wpos b' = wpos b ∧
  match (parseRecords (virm b) (pending b)).1 with
  | Some i => record = take (S i) (pending b) ∧ e = None ∧ rpos b' = rpos b + S i ∧ err b' = err b
  | None =>
      record = pending b ∧ rpos b' = wpos b ∧ err b' = None ∧
      match err b with
      | Some er => e = Some er
      | None => e = Some ErrBufferFull ∧ length (buf b) ≤ length (pending b)
      end
  end.

(** The rounds [readRecord] still needs. *)
Definition need b : nat :=
  match err b with
  | Some _ => 1
  | None => length (buf b) - length (pending b) + 2
  end.

Lemma full_pending b : reader_wf b → length (buf b) ≤ wpos b - rpos b → pending b = buf b.
Proof.
  intros (? & ? & ?) ?. assert (rpos b = 0) as Hr by lia.
  assert (wpos b = length (buf b)) as Hw by lia.
  unfold pending, slice. rewrite Hr, Hw, drop_0, Nat.sub_0_r. by rewrite firstn_all.
Qed.

Lemma readRecord_rounds fuel b : reader_wf b → need b ≤ fuel →
  ∃ bm res, fills b bm ∧ last_round bm res ∧ readRecord fuel b = Ok res.
Proof.
  revert b. induction fuel as [|fuel IH]; intros b Hwf Hneed.
  { unfold need in Hneed. destruct (err b); lia. }
  cbn [readRecord]. destruct (parseRecords (virm b) (pending b)) as [[i|] n] eqn:Hp.
  - eexists b, (_, _, _). split; [constructor|]. split; [|done].
    unfold last_round. rewrite Hp. simpl. repeat split; [|lia].
    pose proof (parseRecords_lt (virm b) (pending b) i) as Hi. rewrite Hp in Hi.
    specialize (Hi eq_refl). rewrite length_pending in Hi by done. destruct Hwf as (? & ? & ?).
    unfold pending, slice. rewrite take_take. f_equal. lia.
  - cbn [err set_line]. destruct (err b) as [er|] eqn:Her.
    + eexists b, (_, _, _). split; [constructor|]. split; [|done].
      unfold last_round. rewrite Hp, Her. simpl. done.
    + cbn [buf wpos rpos set_line]. destruct (_ <=? _) eqn:Hfull.
      * apply Nat.leb_le in Hfull. pose proof (full_pending b Hwf Hfull) as Hpb.
        eexists b, (_, _, _). split; [constructor|]. split; [|done].
        unfold last_round. rewrite Hp, Her, Hpb. simpl. done.
      * apply Nat.leb_gt in Hfull. rewrite <- length_pending in Hfull by done.
        destruct (fill_spec (set_line b (line b + n))) as
          (b1 & data & Hfill & Hrd & Hwf1 & Hp1 & Hv & Hl & Hprog); [done..|].
        rewrite Hfill. simpl.
        destruct (IH b1 Hwf1) as (bm & res & Hf & Hlast & Hrun).
        { unfold need in Hneed |- *. rewrite Her in Hneed. destruct (err b1); [lia|].
          rewrite Hp1, length_app, Hl. destruct Hprog as [|Hd]; [done|].
          change (pending (set_line b (line b + n))) with (pending b).
          destruct data; [done|]. simpl. lia. }
        exists bm, res. split; [by eapply fills_step|done].
Qed.

Lemma need_enough b : need b ≤ enough_fuel b.
Proof. unfold need, enough_fuel. destruct (err b); lia. Qed.

Lemma reads_trans rd1 d1 rd2 d2 rd3 : reads rd1 d1 rd2 → reads rd2 d2 rd3 → reads rd1 (d1 ++ d2) rd3.
Proof. induction 1; [done|]. intros. rewrite <- app_assoc. eapply reads_step; eauto. Qed.

Lemma fills_spec b bm : fills b bm → reader_wf b →
  reader_wf bm ∧ virm bm = virm b ∧ length (buf bm) = length (buf b) ∧
  ∃ data, reads (rd b) data (rd bm) ∧ pending bm = pending b ++ data.
Proof.
  induction 1 as [b|b l b1 b2 Her Hlt Hfill _ IH]; intros Hwf.
  - repeat split; try (destruct Hwf; tauto). exists []. rewrite app_nil_r. by split; [constructor|].
  - destruct (fill_spec (set_line b l)) as
      (b1' & data & Hfill' & Hrd & Hwf1 & Hp1 & Hv & Hl & _); [done..|].
    rewrite Hfill in Hfill'. simplify_eq.
    destruct (IH Hwf1) as (Hwf2 & Hv2 & Hl2 & data2 & Hrd2 & Hp2).
    split; [done|]. rewrite Hv2, Hv, Hl2, Hl. repeat split.
    exists (data ++ data2). split; [by eapply reads_trans|].
    by rewrite Hp2, Hp1, app_assoc.
Qed.

(** The last round splits the pending bytes in the record and the rest. *)
Lemma last_round_split b record e b' : reader_wf b → last_round b (record, e, b') →
  reader_wf b' ∧ pending b = record ++ pending b' ∧ (e ≠ None → pending b' = []).
Proof.
  intros Hwf (Hrd & Hv & Hb & Hw & Hres).
  pose proof (length_pending b Hwf) as Hlen. destruct Hwf as (? & ? & ?).
  destruct (parseRecords (virm b) (pending b)).1 as [i|] eqn:Hp.
  - apply parseRecords_lt in Hp. destruct Hres as (-> & -> & Hr & _).
    split; [unfold reader_wf; rewrite Hb, Hw, Hr; lia|]. split; [|done].
    unfold pending at 3. rewrite Hb, Hw, Hr. unfold pending.
    rewrite (slice_split _ (rpos b) (rpos b + S i) (wpos b)) by lia. f_equal.
    unfold slice. rewrite take_app_le; [|rewrite length_take, length_drop; lia].
    rewrite take_take. f_equal. lia.
  - destruct Hres as (-> & Hr & _).
    assert (pending b' = []) as ->.
    { unfold pending, slice. by rewrite Hr, Hw, Nat.sub_diag, take_0. }
    rewrite app_nil_r. split; [unfold reader_wf; rewrite Hb, Hw, Hr; lia|done].
Qed.
End record.

(** * Reads neither lose nor duplicate bytes *)

Section lossless.
Context {R : Type} `{IoReader R}.
Implicit Types b : ReaderBase R.

(** What one call consumes and returns. *)
Definition conserves b (record : list ascii) b' : Prop :=
  reader_wf b' ∧ virm b' = virm b ∧ length (buf b') = length (buf b) ∧
  ∃ data, reads (rd b) data (rd b') ∧ pending b ++ data = record ++ pending b'.

Lemma rounds_conserve b bm record e b' :
  reader_wf b → fills b bm → last_round bm (record, e, b') → conserves b record b'.
Proof.
  intros Hwf Hf Hlast. destruct (fills_spec b bm Hf Hwf) as (Hwfm & Hv & Hl & data & Hrd & Hp).
  destruct (last_round_split bm record e b' Hwfm Hlast) as (Hwf' & Hsplit & _).
  destruct Hlast as (Hrd' & Hv' & Hb' & _). split; [done|].
  rewrite Hv', Hb', Hrd'. repeat split; [done..|]. exists data. by rewrite <- Hp.
Qed.

Lemma readRecord_conserves b record e b' : reader_wf b →
  readRecord (enough_fuel b) b = Ok (record, e, b') → conserves b record b'.
Proof.
  intros Hwf Hrun.
  destruct (readRecord_rounds (enough_fuel b) b Hwf (need_enough b)) as (bm & res & Hf & Hlast & Hrun').
  rewrite Hrun in Hrun'. injection Hrun' as <-. by eapply rounds_conserve.
Qed.

Lemma conserves_trans b r1 b1 r2 b2 :
  conserves b r1 b1 → conserves b1 r2 b2 → conserves b (r1 ++ r2) b2.
Proof.
  intros (_ & Hv1 & Hl1 & d1 & Hr1 & Hp1) (Hwf & Hv2 & Hl2 & d2 & Hr2 & Hp2).
  split; [done|]. rewrite Hv2, Hl2. repeat split; [done..|].
  exists (d1 ++ d2). split; [by eapply reads_trans|].
  by rewrite app_assoc, Hp1, <- app_assoc, Hp2, app_assoc.
Qed.

Lemma conserves_raw b record b' raw : conserves b record b' → conserves b record (set_raw b' raw).
Proof. done. Qed.

Lemma fill_raw b b' : fill b = Ok b' → rawBuffer b' = rawBuffer b.
Proof.
  assert (Hloop : ∀ fuel b, rawBuffer (fill_loop fuel b) = rawBuffer b).
  { induction fuel as [|fuel IH]; intros b0; simpl; [done|].
    destruct (rd_Read _ _) as [[data e] rd']. destruct e; [done|].
    case_match; [done|]. by rewrite IH. }
  unfold fill. case_match; intros Hf; [discriminate Hf|]. injection Hf as <-.
  rewrite Hloop. by case_match.
Qed.

Lemma readRecord_raw fuel b record e b' :
  readRecord fuel b = Ok (record, e, b') → rawBuffer b' = rawBuffer b.
Proof.
  revert b. induction fuel as [|fuel IH]; intros b; cbn [readRecord]; [done|].
  destruct (parseRecords _ _) as [[i|] n]; [intros; by simplify_eq|].
  cbn [err set_line]. destruct (err b); [intros; by simplify_eq|].
  case_match; [intros; by simplify_eq|].
  intros (b1 & Hf & Hr)%bind_Ok. apply IH in Hr. apply fill_raw in Hf. by rewrite Hr, Hf.
Qed.

Lemma read_long_conserves fuel b0 b e record b' : reader_wf b →
  conserves b0 (rawBuffer b) b →
  read_long fuel b = Ok (record, e, b') → conserves b0 record b'.
Proof.
  revert b. induction fuel as [|fuel IH]; intros b Hwf Hc; simpl; [done|]. intros Hrun.
  apply bind_Ok in Hrun as ([[r e1] b1] & Hr1 & Hrun).
  pose proof (readRecord_conserves b r e1 b1 Hwf Hr1) as Hc1.
  pose proof (readRecord_raw _ _ _ _ _ Hr1) as Hraw.
  assert (Hc2 : conserves b0 (rawBuffer b1 ++ r) b1) by (rewrite Hraw; by eapply conserves_trans).
  destruct Hc1 as (Hwf1 & _). case_decide.
  - eapply IH; [..|done]; done.
  - simplify_eq. done.
Qed.

(** C14: a call of [Read] neither loses, duplicates nor reorders bytes: what was
    pending in the buffer followed by what the underlying reader delivered
    during the call is the returned record followed by what is pending
    afterwards, and the buffer positions stay within the buffer. *)
Theorem Read_lossless fuel b record e b' (Hwf : reader_wf b)
    (Hrun : Read fuel b = Ok (record, e, b')) :
  reader_wf b' ∧
  ∃ data, reads (rd b) data (rd b') ∧ pending b ++ data = record ++ pending b'.
Proof.
  unfold Read in Hrun. apply bind_Ok in Hrun as ([[r e1] b1] & Hr1 & Hrun).
  pose proof (readRecord_conserves b r e1 b1 Hwf Hr1) as Hc1.
  assert (Hc : conserves b record b').
  { case_decide; [|by simplify_eq].
    eapply read_long_conserves; [..|done]; [by destruct Hc1|done]. }
  destruct Hc as (? & _ & _ & ?). done.
Qed.
End lossless.

(** * Finite streams are copied whole *)

Section finite.
Context {R : Type} `{StreamReader R}.
Implicit Types b : ReaderBase R.

(** A recorded error is [EOF], and then nothing remains, or the stream broke off. *)
Definition reader_fin b : Prop := ∀ er, err b = Some er → er = EOF ∧ remaining (rd b) = [] ∨ breaks er.

Lemma reads_remaining rd1 d rd2 : reads rd1 d rd2 → remaining rd1 = d ++ remaining rd2.
Proof.
  induction 1 as [|rd1 n data e rd2 rest rd3 Hr _ IH]; [done|].
  rewrite (rd_Read_remaining _ _ _ _ _ Hr), IH. by rewrite app_assoc.
Qed.

Lemma fill_loop_fin fuel b : wpos b < length (buf b) → err b = None → reader_fin (fill_loop (S fuel) b).
Proof.
  intros Hlt Her. unfold reader_fin. cbn [fill_loop].
  destruct (rd_Read (rd b) (length (buf b) - wpos b)) as [[data e] rd'] eqn:Hrd.
  destruct e as [er|].
  - apply rd_Read_ends in Hrd. intros er'. simpl. intros ?. by simplify_eq.
  - apply rd_Read_progress in Hrd; [|lia]. destruct data; [done|]. simpl.
    intros er'. simpl. by rewrite Her.
Qed.

Lemma fills_fin b bm : fills b bm → reader_fin b → reader_fin bm.
Proof.
  induction 1 as [|b l b1 b2 Her Hlt Hfill _ IH]; [done|]. intros _. apply IH.
  unfold fill in Hfill. case_match eqn:Hfull; [done|]. injection Hfill as <-.
  apply Nat.leb_gt in Hfull. rewrite maxConsecutiveEmptyReads_S.
  apply fill_loop_fin; [done|]. by case_match.
Qed.

(** The bytes still to come. *)
Definition to_come b : list ascii := pending b ++ remaining (rd b).

Lemma to_come_raw b raw : to_come (set_raw b raw) = to_come b.
Proof. done. Qed.

(** One call of [readRecord] on a finite stream. *)
Lemma readRecord_finite b : reader_wf b → reader_fin b →
  ∃ bm record e b', readRecord (enough_fuel b) b = Ok (record, e, b') ∧
    fills b bm ∧ last_round bm (record, e, b') ∧
    reader_wf b' ∧ reader_fin b' ∧ to_come b = record ++ to_come b' ∧
    (e = None → record ≠ []) ∧
    (e = Some ErrBufferFull → record ≠ []) ∧
    (e ≠ None → e ≠ Some ErrBufferFull → e = Some EOF ∧ to_come b' = [] ∨ ∃ er, e = Some er ∧ breaks er).
Proof.
  intros Hwf Hfin.
  destruct (readRecord_rounds (enough_fuel b) b Hwf (need_enough b)) as (bm & [[record e] b'] & Hf & Hlast & Hrun).
  exists bm, record, e, b'. split; [done|]. split; [done|]. split; [done|].
  destruct (rounds_conserve b bm record e b' Hwf Hf Hlast) as (Hwf' & _ & _ & data & Hrd & Hp).
  pose proof (fills_fin b bm Hf Hfin) as Hfinm.
  destruct (fills_spec b bm Hf Hwf) as (Hwfm & _).
  destruct (last_round_split bm record e b' Hwfm Hlast) as (_ & _ & Hnil).
  destruct Hlast as (Hrd' & _ & _ & _ & Hres).
  assert (Htc : to_come b = record ++ to_come b').
  { unfold to_come. rewrite (reads_remaining _ _ _ Hrd), app_assoc, Hp. by rewrite app_assoc. }
  destruct (parseRecords (virm bm) (pending bm)).1 as [i|] eqn:Hi.
  - destruct Hres as (-> & -> & _ & Her). split; [done|]. split.
    { intros er Her'. rewrite Hrd'. rewrite Her in Her'. by apply Hfinm. }
    split; [done|]. split; [|done].
    intros _. apply parseRecords_lt in Hi. destruct (pending bm); [simpl in *; lia|done].
  - destruct Hres as (-> & _ & Her & Hrest).
    split; [done|]. split; [intros er; by rewrite Her|]. split; [done|].
    destruct (err bm) as [er|] eqn:Herm.
    + rewrite Hrest. destruct (Hfinm er Herm) as [[-> Hrem]|Hbr].
      * repeat split; try done. left. split; [done|]. unfold to_come. by rewrite Hnil, Hrd', Hrem by (by rewrite Hrest).
      * destruct (breaks_other er Hbr) as [msg ->]. repeat split; try done. right. eauto.
    + destruct Hrest as [-> Hfull]. repeat split; try done. intros _ Hemp.
      rewrite Hemp in Hfull. destruct Hwfm as (_ & _ & ?). simpl in Hfull. lia.
Qed.

Lemma read_long_finite fuel b : reader_wf b → reader_fin b → length (to_come b) < fuel →
  ∃ record e b', read_long fuel b = Ok (rawBuffer b ++ record, e, b') ∧
    reader_wf b' ∧ reader_fin b' ∧ to_come b = record ++ to_come b' ∧
    (e = None ∨ e = Some EOF ∧ to_come b' = [] ∨ ∃ er, e = Some er ∧ breaks er).
Proof.
  revert b. induction fuel as [|fuel IH]; intros b Hwf Hfin Hfuel; [lia|]. cbn [read_long].
  destruct (readRecord_finite b Hwf Hfin) as
    (bm & r & e & b1 & Hrun & _ & _ & Hwf1 & Hfin1 & Htc & _ & Hfull & Hend).
  rewrite Hrun. cbn [mbind go_bind]. pose proof (readRecord_raw _ _ _ _ _ Hrun) as Hraw.
  case_decide as He.
  - destruct (IH (set_raw b1 (rawBuffer b1 ++ r))) as (r2 & e2 & b2 & Hrun2 & Hwf2 & Hfin2 & Htc2 & Hend2);
      [done..| |].
    { rewrite Htc, length_app in Hfuel. specialize (Hfull He). destruct r; [done|].
      rewrite to_come_raw. simpl in Hfuel. lia. }
    exists (r ++ r2), e2, b2. rewrite Hrun2. simpl. rewrite Hraw, app_assoc.
    split; [done|]. split; [done|]. split; [done|]. split; [|done].
    rewrite Htc, <- app_assoc. f_equal. exact Htc2.
  - exists r, e, (set_raw b1 (rawBuffer b1 ++ r)). simpl. rewrite Hraw.
    split; [done|]. split; [done|]. split; [done|]. split; [done|].
    destruct e as [e|]; [right|by left]. by apply Hend.
Qed.

Lemma Read_finite fuel b : reader_wf b → reader_fin b → length (to_come b) < fuel →
  ∃ record e b', Read fuel b = Ok (record, e, b') ∧
    reader_wf b' ∧ reader_fin b' ∧ to_come b = record ++ to_come b' ∧
    (e = None ∧ record ≠ [] ∨ e = Some EOF ∧ to_come b' = [] ∨ ∃ er, e = Some er ∧ breaks er).
Proof.
  intros Hwf Hfin Hfuel. unfold Read.
  destruct (readRecord_finite b Hwf Hfin) as
    (bm & r & e & b1 & Hrun & _ & _ & Hwf1 & Hfin1 & Htc & Hne & Hfull & Hend).
  rewrite Hrun. cbn [mbind go_bind]. case_decide as He.
  - destruct (read_long_finite fuel (set_raw b1 r)) as (r2 & e2 & b2 & Hrun2 & Hwf2 & Hfin2 & Htc2 & Hend2);
      [done..| |].
    { rewrite Htc, length_app in Hfuel. rewrite to_come_raw. lia. }
    exists (r ++ r2), e2, b2. rewrite Hrun2. simpl.
    split; [done|]. split; [done|]. split; [done|]. split.
    + rewrite Htc, <- app_assoc. f_equal. exact Htc2.
    + destruct Hend2 as [->|?]; [left|by right]. split; [done|].
      specialize (Hfull He). by destruct r.
  - exists r, e, b1. split; [done|]. split; [done|]. split; [done|]. split; [done|].
    destruct e as [e|]; [right|left; auto]. by apply Hend.
Qed.

Context `{!FiniteReader R}.
Lemma copy_records_finite fuel b : reader_wf b → reader_fin b → length (to_come b) < fuel →
  ∃ pieces, copy_records fuel b = Ok (pieces, None) ∧ concat pieces = to_come b ∧
    [] ∉ pieces.
Proof.
  revert b. induction fuel as [|fuel IH]; intros b Hwf Hfin Hfuel; [lia|]. cbn [copy_records].
  destruct (Read_finite (S fuel) b) as (r & e & b1 & Hrun & Hwf1 & Hfin1 & Htc & Hend); [done..|].
  rewrite Hrun. cbn [mbind go_bind].
  assert (Hout : concat (match r with [] => [] | _ => [r] end) = r ∧ [] ∉ match r with [] => [] | _ => [r] end).
  { destruct r; simpl; [split; [done|set_solver]|]. rewrite app_nil_r. split; [done|].
    by intros ?%list_elem_of_singleton. }
  destruct Hout as [Hcat Hnin]. destruct Hend as [[-> Hne]|[[-> Hnil]|(er & -> & Hbr)]]; [| |by destruct (never_breaks er)].
  - destruct (IH b1 Hwf1 Hfin1) as (rest & Hrest & Hcr & Hnr).
    { rewrite Htc, length_app in Hfuel. destruct r; [done|]. simpl in Hfuel. lia. }
    rewrite Hrest. simpl. eexists. split; [done|]. rewrite concat_app, Hcat, Hcr. split; [done|].
    set_solver.
  - eexists. split; [done|]. rewrite Htc, Hnil, app_nil_r. done.
Qed.
End finite.

(** * CSV pieces are whole records *)

(** A sequence of whole CSV records: it ends with an unquoted delimiter. *)
Definition csv_whole (escape quote delim : ascii) (s : list ascii) : Prop :=
  last s = Some delim ∧ csv_state escape quote s = (false, false).

Definition record_start (escape quote delim : ascii) (s : list ascii) : Prop :=
  s = [] ∨ csv_whole escape quote delim s.

(** From the start of every record, [cap] bytes hold a record boundary: no
    record is longer than the buffer. *)
Definition records_fit (escape quote delim : ascii) (cap : nat) (s : list ascii) : Prop :=
  ∀ pre suf, s = pre ++ suf → record_start escape quote delim pre → cap ≤ length suf →
  ∃ i, i < cap ∧ csv_boundary escape quote delim suf i.

Section whole.
Context (escape quote : ascii).

Lemma csv_state_app a s : csv_state escape quote a = (false, false) →
  csv_state escape quote (a ++ s) = csv_state escape quote s.
Proof. unfold csv_state. intros Ha. by rewrite foldl_app, Ha. Qed.

(** Outside quotes no escape is pending. *)
Lemma csv_state_unquoted s :
  (csv_state escape quote s).1 = false → csv_state escape quote s = (false, false).
Proof.
  assert (Hinv : ∀ st c, (st.1 = false → st.2 = false) →
    (csv_quote_step escape quote st c).1 = false → (csv_quote_step escape quote st c).2 = false).
  { intros [[] []] c; simpl; unfold csv_quote_step; repeat case_decide; naive_solver. }
  assert (Hall : (csv_state escape quote s).1 = false → (csv_state escape quote s).2 = false).
  { unfold csv_state. induction s as [|c s IH] using rev_ind; [done|].
    rewrite foldl_app. simpl. by apply Hinv. }
  intros Hf. specialize (Hall Hf). destruct (csv_state escape quote s). simpl in *. congruence.
Qed.

Lemma csv_boundary_whole delim s i :
  csv_boundary escape quote delim s i → csv_whole escape quote delim (take (S i) s).
Proof.
  intros (Hl & Hdq & Hq). rewrite (take_S_r _ _ _ Hl). split; [by rewrite last_snoc|].
  rewrite csv_state_app by by apply csv_state_unquoted.
  unfold csv_state, csv_quote_step. simpl. by rewrite decide_False.
Qed.

Lemma record_start_app delim a s : record_start escape quote delim a →
  record_start escape quote delim s → record_start escape quote delim (a ++ s).
Proof.
  intros Ha [->|[Hl Hs]]; [by rewrite app_nil_r|]. right.
  split; [by rewrite last_app, Hl|].
  destruct Ha as [->|[_ Ha]]; [done|]. by rewrite csv_state_app.
Qed.

Lemma records_fit_suffix delim cap a s : record_start escape quote delim a →
  records_fit escape quote delim cap (a ++ s) → records_fit escape quote delim cap s.
Proof.
  intros Ha Hfit pre suf -> Hpre. apply (Hfit (a ++ pre)); [by rewrite app_assoc|].
  by apply record_start_app.
Qed.

Lemma csv_boundary_take delim s n i : i < n →
  csv_boundary escape quote delim s i → csv_boundary escape quote delim (take n s) i.
Proof.
  intros Hi (Hl & Hdq & Hq). split; [by rewrite lookup_take_lt|]. split; [done|].
  rewrite take_take. by replace (i `min` n) with i by lia.
Qed.

Lemma parse_csv_boundary s i n : csv_parseNlOrCr escape quote NL s = (Some i, n) →
  csv_boundary escape quote NL s i.
Proof.
  intros Hp. destruct (csv_parse_inv escape quote NL s) as [_ Hb].
  unfold csv_parseNlOrCr in Hp. injection Hp as Hp _. rewrite Hp in Hb. by destruct Hb.
Qed.

Lemma parse_csv_none s n : csv_parseNlOrCr escape quote NL s = (None, n) →
  ∀ j, ¬ csv_boundary escape quote NL s j.
Proof.
  intros Hp. destruct (csv_parse_inv escape quote NL s) as [_ Hb].
  unfold csv_parseNlOrCr in Hp. injection Hp as Hp _. by rewrite Hp in Hb.
Qed.

Context {R : Type} `{StreamReader R}.
Implicit Types b : ReaderBase R.

(** One call of [readRecord] when no record is longer than the buffer. *)
Lemma readRecord_whole b : reader_wf b → reader_fin b → virm b = CsvReader EolNl escape quote →
  records_fit escape quote NL (length (buf b)) (to_come b) →
  ∃ record e b', readRecord (enough_fuel b) b = Ok (record, e, b') ∧
    reader_wf b' ∧ reader_fin b' ∧ virm b' = virm b ∧ length (buf b') = length (buf b) ∧
    to_come b = record ++ to_come b' ∧
    (e = None ∧ csv_whole escape quote NL record ∨ e = Some EOF ∧ to_come b' = [] ∨ ∃ er, e = Some er ∧ breaks er).
Proof.
  intros Hwf Hfin Hk Hfit.
  destruct (readRecord_finite b Hwf Hfin) as
    (bm & r & e & b' & Hrun & Hf & Hlast & Hwf' & Hfin' & Htc & _ & _ & Hend).
  exists r, e, b'. split; [done|]. split; [done|]. split; [done|].
  destruct (rounds_conserve b bm r e b' Hwf Hf Hlast) as (_ & Hv & Hlen & _).
  split; [done|]. split; [done|]. split; [done|].
  destruct (fills_spec b bm Hf Hwf) as (Hwfm & Hvm & Hlm & data & Hrd & Hp).
  destruct Hlast as (_ & _ & _ & _ & Hres). rewrite Hvm, Hk in Hres. cbn [parseRecords] in Hres.
  destruct (csv_parseNlOrCr escape quote NL (pending bm)) as [[i|] n] eqn:Hparse; simpl in Hres.
  - destruct Hres as (-> & -> & _). left. split; [done|].
    by apply csv_boundary_whole, (parse_csv_boundary _ _ n).
  - right. destruct Hres as (_ & _ & _ & Hres).
    destruct (err bm) as [er|] eqn:Her.
    + subst e. apply Hend; [done|]. destruct (fills_fin b bm Hf Hfin er Her) as [[-> _]|Hbr]; [done|]. by destruct (breaks_other er Hbr) as [msg ->].
    + exfalso. destruct Hres as [_ Hfull]. rewrite Hlm in Hfull.
      assert (Hpre : to_come b = pending bm ++ remaining (rd bm)).
      { unfold to_come. rewrite (reads_remaining _ _ _ Hrd), Hp. by rewrite app_assoc. }
      destruct (Hfit [] (to_come b)) as (i & Hi & Hbd); [done|by left| |].
      { rewrite Hpre, length_app. lia. }
      apply (parse_csv_none _ _ Hparse i). apply (csv_boundary_take _ _ (length (pending bm))) in Hbd; [|lia].
      by rewrite Hpre, take_app_length in Hbd.
Qed.

Context `{!FiniteReader R}.
Lemma copy_records_whole fuel b : reader_wf b → reader_fin b →
  virm b = CsvReader EolNl escape quote →
  records_fit escape quote NL (length (buf b)) (to_come b) →
  record_start escape quote NL (to_come b) → length (to_come b) < fuel →
  ∃ pieces, copy_records fuel b = Ok (pieces, None) ∧ concat pieces = to_come b ∧
    Forall (csv_whole escape quote NL) pieces.
Proof.
  revert b. induction fuel as [|fuel IH]; intros b Hwf Hfin Hk Hfit Hst Hfuel; [lia|].
  cbn [copy_records]. unfold Read at 1.
  destruct (readRecord_whole b Hwf Hfin Hk Hfit) as
    (r & e & b1 & Hrun & Hwf1 & Hfin1 & Hv & Hl & Htc & Hend).
  rewrite Hrun. cbn [mbind go_bind]. destruct Hend as [[-> Hr]|[[-> Hnil]|(er & -> & Hbr)]]; [| |by destruct (never_breaks er)]; simpl.
  - assert (Hne : r ≠ []) by (destruct Hr as [Hr _]; by destruct r).
    destruct (IH b1 Hwf1 Hfin1) as (rest & Hrest & Hcr & Hall).
    + by rewrite Hv.
    + rewrite Hl. rewrite Htc in Hfit. by eapply records_fit_suffix; [right|].
    + rewrite Htc in Hst. destruct Hst as [Hst|[Hlast Hs]]; [by destruct r|].
      destruct (to_come b1) as [|c s] eqn:Hc; [by left|]. right.
      rewrite last_app_cons in Hlast. split; [done|].
      by rewrite csv_state_app in Hs by by destruct Hr.
    + rewrite Htc, length_app in Hfuel. destruct r; [done|]. simpl in Hfuel. lia.
    + rewrite Hrest. simpl. eexists. split; [done|]. destruct r as [|c r]; [done|].
      rewrite concat_app. simpl concat at 1. rewrite app_nil_r, Hcr, Htc. split; [done|].
      by constructor.
  - rewrite Hnil, app_nil_r in Htc. eexists. split; [done|]. rewrite Htc in Hst |- *.
    destruct r as [|c r]; [done|]. simpl. rewrite app_nil_r. split; [done|].
    destruct Hst as [Hst|Hst]; [done|]. by constructor.
Qed.
End whole.

(** * The theorems on a connection *)

Lemma length_NewReader_buf {R} (rd : R) size k :
  length (buf (NewReader rd size k)) = Nat.max size minReadBufferSize.
Proof.
  unfold NewReader. simpl. rewrite length_replicate. unfold minReadBufferSize.
  case_match eqn:Hs; [apply Nat.ltb_lt in Hs|apply Nat.ltb_ge in Hs]; lia.
Qed.

Lemma NewReader_wf {R} (rd : R) size k : reader_wf (NewReader rd size k).
Proof.
  split; [done|]. rewrite length_NewReader_buf. unfold minReadBufferSize. simpl. lia.
Qed.

Section connection.
Context {R : Type} `{FiniteReader R}.

Lemma NewReader_to_come (rd : R) size k : to_come (NewReader rd size k) = remaining rd.
Proof. done. Qed.

(** C15: whatever the reader kind and the buffer size, the loop that drains a
    connection ends, without error, and the pieces it writes concatenate to
    exactly the bytes of the connection. *)
Theorem copy_records_complete (rd : R) size k :
  ∃ pieces, copy_records (S (length (remaining rd))) (NewReader rd size k) = Ok (pieces, None) ∧
    concat pieces = remaining rd ∧ [] ∉ pieces.
Proof.
  rewrite <- (NewReader_to_come rd size k).
  apply copy_records_finite; [apply NewReader_wf|by intros ?|lia].
Qed.

(** On a CSV stream of whole records none of which is longer than the
    buffer, every piece written is a sequence of whole records, so that pieces
    of different connections can be interleaved without tearing a record. *)
Theorem csv_pieces_are_whole (rd : R) size escape quote
    (Hfit : records_fit escape quote NL (Nat.max size minReadBufferSize) (remaining rd))
    (Hwhole : record_start escape quote NL (remaining rd)) :
  ∃ pieces,
    copy_records (S (length (remaining rd))) (NewReader rd size (CsvReader EolNl escape quote))
      = Ok (pieces, None) ∧
    concat pieces = remaining rd ∧ Forall (csv_whole escape quote NL) pieces.
Proof.
  rewrite <- (NewReader_to_come rd size (CsvReader EolNl escape quote)) in Hwhole |- *.
  apply copy_records_whole; [apply _|apply NewReader_wf|by intros ?|done| |done|lia].
  by rewrite length_NewReader_buf.
Qed.
End connection.

(** * A concrete reader *)

(** A connection that delivers its bytes at most [7] at a time. *)
Definition flat_Read (s : list ascii) (n : nat) : list ascii * option io_error * list ascii :=
  match s with
  | [] => ([], Some EOF, [])
  | _ => (take (Nat.min n 7) s, None, drop (Nat.min n 7) s)
  end.

#[export] Program Instance flat_reader : IoReader (list ascii) := {| rd_Read := flat_Read |}.
Next Obligation. intros rd n. unfold flat_Read. destruct rd; simpl; [lia|]. rewrite length_take. lia. Qed.

#[export] Program Instance flat_stream : StreamReader (list ascii) := {| remaining s := s; breaks _ := False |}.
Next Obligation.
  intros rd n data e rd'. simpl. unfold flat_Read. destruct rd; intros; simplify_eq; [done|].
  by rewrite take_drop.
Qed.
Next Obligation.
  intros rd n data rd' Hn. simpl. unfold flat_Read. destruct rd; intros; simplify_eq.
  destruct n; [lia|]. done.
Qed.
Next Obligation. intros rd n data e rd'. simpl. unfold flat_Read. destruct rd; intros; simplify_eq. by left. Qed.
Next Obligation. done. Qed.
#[export] Instance flat_finite : FiniteReader (list ascii).
Proof. split. by intros e ?. Qed.

(** A record of two fields, the second quoted and holding a newline. *)
Definition sample_csv : list ascii :=
  bytes "a," ++ [DQ] ++ bytes "x" ++ [NL] ++ bytes "y" ++ [DQ; NL] ++ bytes "b,c" ++ [NL].

#[local] Transparent maxConsecutiveEmptyReads.

Lemma Read_lossless_witness :
  ∃ record b', Read 1 (NewReader sample_csv 16 (CsvReader EolNl DQ DQ)) = Ok (record, None, b') ∧
    ∃ data, reads sample_csv data (rd b') ∧ data = record ++ pending b'.
Proof.
  eexists _, _. split; [vm_compute; reflexivity|].
  refine (proj2 (Read_lossless 1 (NewReader sample_csv 16 (CsvReader EolNl DQ DQ)) _ None _ _ _)).
  - apply NewReader_wf.
  - vm_compute. reflexivity.
Defined.

Lemma copy_records_complete_witness :
  ∃ pieces, copy_records (S (length sample_csv)) (NewReader sample_csv 16 (TextReader EolNl)) = Ok (pieces, None) ∧
    concat pieces = sample_csv ∧ [] ∉ pieces.
Proof. exact (copy_records_complete sample_csv 16 (TextReader EolNl)). Defined.

(** [records_fit] is decidable position by position. *)
Lemma records_fit_check escape quote cap (s : list ascii) :
  forallb (λ k, bool_decide (length s < k + cap) ||
    existsb (λ i, bool_decide (drop k s !! i = Some NL) && bool_decide (NL ≠ quote)
                  && negb (csv_state escape quote (take i (drop k s))).1) (seq 0 cap))
    (filter (λ k, last (take k s) = Some NL ∨ k = 0) (seq 0 (S (length s)))) = true →
  records_fit escape quote NL cap s.
Proof.
  intros Hchk pre suf -> Hpre Hlen. rewrite forallb_forall in Hchk.
  specialize (Hchk (length pre)). rewrite drop_app_length in Hchk.
  assert (Hin : In (length pre) (filter (λ k, last (take k (pre ++ suf)) = Some NL ∨ k = 0)
    (seq 0 (S (length (pre ++ suf)))))).
  { apply list_elem_of_In, list_elem_of_filter. split.
    - rewrite take_app_length. destruct Hpre as [->|[? _]]; auto.
    - apply elem_of_seq. rewrite length_app. lia. }
  apply Hchk in Hin. apply orb_true_iff in Hin as [Hin|Hin].
  - apply bool_decide_eq_true in Hin. rewrite length_app in Hin. lia.
  - apply existsb_exists in Hin as (i & Hi & Hb). exists i.
    apply list_elem_of_In, elem_of_seq in Hi. split; [lia|].
    apply andb_true_iff in Hb as [[H1%bool_decide_eq_true H2%bool_decide_eq_true]%andb_true_iff H3%negb_true_iff].
    done.
Qed.

Lemma csv_pieces_are_whole_witness :
  ∃ pieces,
    copy_records (S (length (remaining sample_csv))) (NewReader sample_csv 16 (CsvReader EolNl DQ DQ))
      = Ok (pieces, None) ∧
    concat pieces = remaining sample_csv ∧ Forall (csv_whole DQ DQ NL) pieces.
Proof.
  apply (csv_pieces_are_whole sample_csv 16 DQ DQ).
  - apply records_fit_check. vm_compute. reflexivity.
  - right. split; vm_compute; reflexivity.
Defined.

(** * Records longer than the buffer *)

(** Where the escape is the quote itself, a position is inside quotes when an
    odd number of quotes stands before it. *)
Definition quotes (quote : ascii) (s : list ascii) : nat := length (filter (.= quote) s).
Lemma quotes_app quote a s : quotes quote (a ++ s) = quotes quote a + quotes quote s.
Proof. unfold quotes. by rewrite filter_app, length_app. Qed.
Lemma quotes_none quote s : quote ∉ s → quotes quote s = 0.
Proof.
  intros Hq. unfold quotes. induction s as [|c s IH]; [done|]. apply not_elem_of_cons in Hq as [Hc Hs].
  rewrite filter_cons, decide_False by congruence. by apply IH.
Qed.
Lemma csv_state_quotes quote s : csv_state quote quote s = (Nat.odd (quotes quote s), false).
Proof.
  unfold csv_state. induction s as [|c s IH] using rev_ind; [done|]. rewrite foldl_app, IH, quotes_app, Nat.odd_add. cbn [foldl].
  unfold csv_quote_step, quotes. rewrite filter_cons, filter_nil. case_decide as Hc; cbn; destruct (Nat.odd _); try done; by rewrite decide_False.
Qed.

Section torn.
Context {R : Type} `{FiniteReader R} (quote : ascii) (Hquote : quote ≠ NL).
Implicit Types b : ReaderBase R.

Lemma plain_boundary x z : quote ∉ x → csv_boundary quote quote NL (x ++ NL :: z) (length x).
Proof.
  intros Hx. split; [by rewrite lookup_app_r, Nat.sub_diag by lia|]. split; [by apply not_eq_sym|].
  rewrite take_app_length, csv_state_quotes, quotes_none; done.
Qed.
(** The bytes before the first newline that are plain. *)
Lemma newline_behind (a x z : list ascii) i : NL ∉ x → a `prefix_of` x ++ NL :: z → a !! i = Some NL →
  ∃ y, take (S i) a = x ++ NL :: y.
Proof.
  intros Hx [k Hk] Hi. assert (Hge : length x ≤ i).
  { destruct (decide (i < length x)) as [Hlt|]; [|lia]. exfalso. apply Hx. apply (lookup_app_l_Some a k) in Hi.
    rewrite <- Hk, lookup_app_l in Hi by done. by eapply list_elem_of_lookup_2. }
  pose proof (lookup_lt_Some _ _ _ Hi) as Hlt. exists (take (i - length x) z).
  assert (Ha : take (S i) a = take (S i) (x ++ NL :: z)) by (by rewrite Hk, take_app_le by lia).
  rewrite Ha, take_app_ge by lia. by replace (S i - length x) with (S (i - length x)) by lia.
Qed.

(** The window of the last round. *)
Lemma readRecord_window b : reader_wf b → reader_fin b → virm b = CsvReader EolNl quote quote →
  ∃ w record e b', readRecord (enough_fuel b) b = Ok (record, e, b') ∧
    reader_wf b' ∧ reader_fin b' ∧ virm b' = virm b ∧ length (buf b') = length (buf b) ∧ to_come b = record ++ to_come b' ∧
    w `prefix_of` to_come b ∧ length w ≤ length (buf b) ∧
    ((∃ i, csv_boundary quote quote NL w i ∧ record = take (S i) w ∧ e = None) ∨
     ((∀ i, ¬ csv_boundary quote quote NL w i) ∧ record = w ∧
        (w = to_come b ∨ e = Some ErrBufferFull ∧ length w = length (buf b)))).
Proof.
  intros Hwf Hfin Hk. destruct (readRecord_finite b Hwf Hfin) as
    (bm & r & e & b' & Hrun & Hf & Hlast & Hwf' & Hfin' & Htc & _).
  destruct (rounds_conserve b bm r e b' Hwf Hf Hlast) as (_ & Hv & Hlen & _).
  destruct (fills_spec b bm Hf Hwf) as (Hwfm & Hvm & Hlm & data & Hrd & Hp).
  assert (Hpre : to_come b = pending bm ++ remaining (rd bm)).
  { unfold to_come. rewrite (reads_remaining _ _ _ Hrd), Hp. by rewrite app_assoc. }
  assert (Hcap : length (pending bm) ≤ length (buf b)).
  { rewrite length_pending, <- Hlm by done. destruct Hwfm as (? & ? & ?). lia. }
  exists (pending bm), r, e, b'. do 6 (split; [done|]). split; [by exists (remaining (rd bm))|]. split; [done|].
  destruct Hlast as (_ & _ & _ & _ & Hres). rewrite Hvm, Hk in Hres. cbn [parseRecords] in Hres.
  destruct (csv_parseNlOrCr quote quote NL (pending bm)) as [[i|] n] eqn:Hparse; simpl in Hres.
  - destruct Hres as (-> & -> & _). left. exists i. split; [by apply (parse_csv_boundary _ _ _ _ n)|done].
  - destruct Hres as (-> & _ & _ & Hres). right. split; [by apply (parse_csv_none _ _ _ n)|]. split; [done|].
    destruct (err bm) as [er|] eqn:Her.
    + left. destruct (fills_fin b bm Hf Hfin er Her) as [[_ Hnil]|Hbr]; [by rewrite Hpre, Hnil, app_nil_r|by destruct (never_breaks er)].
    + right. destruct Hres as [-> Hfull]. split; [done|]. lia.
Qed.

(** Behind a full buffer that ended in plain text the search takes the next
    newline for a boundary, whatever the buffer before it held. *)
Lemma read_long_newline fuel b x z : reader_wf b → reader_fin b → virm b = CsvReader EolNl quote quote →
  quote ∉ x → NL ∉ x → to_come b = x ++ NL :: z → length x < fuel →
  ∃ y b', read_long fuel b = Ok (rawBuffer b ++ x ++ NL :: y, None, b') ∧ Nat.odd (quotes quote (x ++ NL :: y)) = false ∧
    last (x ++ NL :: y) = Some NL ∧ reader_wf b' ∧ reader_fin b' ∧ to_come b = (x ++ NL :: y) ++ to_come b'.
Proof.
  revert b x. induction fuel as [|fuel IH]; intros b x Hwf Hfin Hk Hqx Hx Htc Hfuel; [lia|]. cbn [read_long].
  destruct (readRecord_window b Hwf Hfin Hk) as (w & r & e & b1 & Hrun & Hwf1 & Hfin1 & Hv & Hl & Hr & Hw & Hcap & Hcase).
  rewrite Hrun. cbn [mbind go_bind]. pose proof (readRecord_raw _ _ _ _ _ Hrun) as Hraw. rewrite Htc in Hw.
  destruct Hcase as [(i & Hi & -> & ->)|(Hno & -> & Hcase)].
  - rewrite decide_False by done. pose proof (csv_boundary_whole quote quote NL w i Hi) as [Hend Hstate].
    destruct (newline_behind w x z i Hx Hw) as [y Hy]; [by destruct Hi|]. rewrite Hy in *. exists y. eexists.
    rewrite csv_state_quotes in Hstate. injection Hstate as Hodd. by rewrite Hraw.
  - assert (Hshort : w `prefix_of` x).
    { destruct Hw as [k Hk']. destruct (decide (length w ≤ length x)) as [Hle|Hgt].
      - exists (take (length x - length w) k). apply (f_equal (take (length x))) in Hk'. by rewrite take_app_length, take_app_ge in Hk' by done.
      - exfalso. apply (Hno (length x)). apply (f_equal (take (length w))) in Hk'. rewrite take_app_length, take_app_ge in Hk' by lia.
        destruct (length w - length x) as [|m] eqn:Hm; [lia|]. rewrite <- Hk'. cbn [take]. by apply plain_boundary. }
    destruct Hshort as [x2 ->]. destruct Hcase as [Hall|[-> Hfull]].
    { exfalso. rewrite Htc in Hall. apply (f_equal length) in Hall. rewrite !length_app in Hall. cbn in Hall. lia. }
    rewrite decide_True by done. apply not_elem_of_app in Hqx as [Hqw Hqx]. apply not_elem_of_app in Hx as [_ Hx].
    assert (Htc1 : to_come b1 = x2 ++ NL :: z) by (rewrite Htc, <- app_assoc in Hr; by apply app_inv_head in Hr).
    destruct (IH (set_raw b1 (rawBuffer b1 ++ w)) x2) as (y & b2 & Hrun2 & Hodd & Hlast & Hwf2 & Hfin2 & Htc2);
      [done|done|by rewrite <- Hk|done|done|done| |].
    { destruct Hwf as (_ & _ & ?). rewrite length_app in Hfuel. lia. }
    rewrite Hrun2. exists y, b2. cbn [rawBuffer set_raw] in Hrun2 |- *. rewrite Hraw, <- !app_assoc.
    split; [done|]. split; [by rewrite quotes_app, quotes_none|]. split.
    { rewrite last_app_cons in Hlast. by rewrite app_assoc, last_app_cons. }
    split; [done|]. split; [done|]. rewrite Hr. f_equal. rewrite app_assoc. exact Htc2.
Qed.

(** The first buffer of a long record. *)
Lemma Read_long_record fuel b w x z : reader_wf b → reader_fin b → virm b = CsvReader EolNl quote quote →
  quote ∉ w → NL ∉ w → quote ∉ x → NL ∉ x → length w < length (buf b) ≤ length w + S (length x) →
  to_come b = w ++ quote :: x ++ NL :: z → length x < fuel →
  ∃ y b', Read fuel b = Ok (w ++ quote :: x ++ NL :: y, None, b') ∧ Nat.odd (quotes quote (w ++ quote :: x ++ NL :: y)) = true ∧
    last (w ++ quote :: x ++ NL :: y) = Some NL ∧ reader_wf b' ∧ reader_fin b' ∧ to_come b = (w ++ quote :: x ++ NL :: y) ++ to_come b'.
Proof.
  intros Hwf Hfin Hk Hqw Hw Hqx Hx Hlen Htc Hfuel. unfold Read.
  destruct (readRecord_window b Hwf Hfin Hk) as (v & r & e & b1 & Hrun & Hwf1 & Hfin1 & Hv & Hl & Hr & Hpre & Hcap & Hcase).
  rewrite Hrun. cbn [mbind go_bind]. assert (Hnl : NL ∉ w ++ quote :: x) by set_solver.
  assert (Htc' : to_come b = (w ++ quote :: x) ++ NL :: z) by (rewrite Htc; by rewrite <- app_assoc).
  destruct Hcase as [(i & Hi & -> & ->)|(Hno & -> & [Hall|[-> Hfull]])].
  - exfalso. rewrite Htc' in Hpre. destruct Hi as [Hi _]. destruct (newline_behind v (w ++ quote :: x) z i Hnl Hpre Hi) as [y Hy].
    apply (f_equal length) in Hy. rewrite length_take, !length_app in Hy. cbn [length] in Hy. lia.
  - exfalso. rewrite Hall, Htc', !length_app in Hcap. cbn in Hcap. lia.
  - rewrite decide_True by done. assert (Hsplit : ∃ x1 x2, x = x1 ++ x2 ∧ v = w ++ quote :: x1).
    { destruct Hpre as [k Hk']. exists (take (length v - S (length w)) x), (drop (length v - S (length w)) x). split; [by rewrite take_drop|].
      rewrite Htc' in Hk'. apply (f_equal (take (length v))) in Hk'. rewrite take_app_length in Hk'.
      rewrite take_app_le, take_app_ge in Hk' by (rewrite ?length_app; cbn [length]; lia).
      destruct (length v - length w) as [|m] eqn:Hm; [lia|]. replace (length v - S (length w)) with m by lia. done. }
    destruct Hsplit as (x1 & x2 & -> & ->). apply not_elem_of_app in Hqx as [Hq1 Hq2]. apply not_elem_of_app in Hx as [_ Hx2].
    assert (Htc1 : to_come b1 = x2 ++ NL :: z).
    { rewrite Hr, <- !app_assoc in Htc. apply app_inv_head in Htc. cbn in Htc. injection Htc as Htc. by apply app_inv_head in Htc. }
    destruct (read_long_newline fuel (set_raw b1 (w ++ quote :: x1)) x2 z) as (y & b2 & Hrun2 & Hodd & Hlast & Hwf2 & Hfin2 & Htc2);
      [done|done|by rewrite <- Hk|done|done|done|rewrite length_app in Hfuel; lia|].
    exists y, b2. rewrite Hrun2. cbn [rawBuffer set_raw].
    assert (Heq : (w ++ quote :: x1) ++ x2 ++ NL :: y = w ++ quote :: (x1 ++ x2) ++ NL :: y) by (by rewrite <- !app_assoc).
    rewrite <- Heq. split; [done|]. split.
    { rewrite quotes_app, Nat.odd_add, Hodd, quotes_app, quotes_none by done. unfold quotes. rewrite filter_cons_True by done.
      cbn [length]. fold (quotes quote x1). by rewrite quotes_none. }
    split; [by rewrite last_app_cons in Hlast; rewrite app_assoc, last_app_cons|]. split; [done|]. split; [done|].
    rewrite Hr, <- (app_assoc (w ++ quote :: x1)). f_equal. exact Htc2.
Qed.

(** C36: The bound on the record length is needed. Whatever connection and
    buffer size: if the first record opens a quoted field that goes on beyond
    the end of the buffer and holds a newline after that, the record is torn.
    The first piece that is written ends at a newline inside the quotes, for
    behind a full buffer the search starts again as if it were outside quotes;
    the rest of the record is written with a later piece, and the pieces of
    another connection may come between (base.go, csv_reader.go:44). *)
Theorem csv_long_record_is_torn (conn : R) (size : nat) (w x z : list ascii)
    (Hw : (quote ∉ w) ∧ (NL ∉ w)) (Hx : (quote ∉ x) ∧ (NL ∉ x))
    (Hlong : length w < Nat.max size 16 ≤ length w + S (length x))
    (Hstream : remaining conn = w ++ quote :: x ++ NL :: z) :
  ∃ y pieces, let torn := w ++ quote :: x ++ NL :: y in
    copy_records (S (length (remaining conn))) (NewReader conn size (CsvReader EolNl quote quote)) = Ok (torn :: pieces, None) ∧
    concat (torn :: pieces) = remaining conn ∧
    last torn = Some NL ∧ Nat.odd (length (filter (.= quote) torn)) = true.
Proof.
  set (b := NewReader conn size (CsvReader EolNl quote quote)). destruct Hw as [Hqw Hw], Hx as [Hqx Hx].
  assert (Hlen : length (remaining conn) = length w + S (length x + S (length z))) by (rewrite Hstream, length_app; cbn; rewrite length_app; done).
  destruct (Read_long_record (S (length (remaining conn))) b w x z) as (y & b' & Hrun & Hodd & Hlast & Hwf' & Hfin' & Htc);
    [apply NewReader_wf|by intros ?|done|done|done|done|done| |exact Hstream|lia|].
  { unfold b. rewrite length_NewReader_buf. exact Hlong. }
  cbn [copy_records]. rewrite Hrun. cbn [mbind go_bind].
  destruct (copy_records_finite (length (remaining conn)) b') as (pieces & Hpieces & Hcat & _); [done|done| |].
  { change (remaining conn) with (to_come b). rewrite Htc, !length_app. cbn. lia. }
  rewrite Hpieces. cbn [mbind go_bind]. exists y, pieces. destruct (w ++ quote :: x ++ NL :: y) as [|c t] eqn:Ht; [by destruct w|].
  rewrite <- Ht in *. split; [by rewrite Ht|]. split; [|done]. cbn [concat]. rewrite Hcat. by rewrite <- Htc.
Qed.
End torn.

(** A record of two fields, the second quoted, longer than the buffer and with
    a newline. *)
Lemma csv_long_record_is_torn_witness :
  let w := bytes "1," in let x := bytes "aaaaaaaaaaaaaaaaaaaa" in let z := bytes "b" ++ [DQ; NL] in
  let conn := w ++ DQ :: x ++ NL :: z in
  ∃ y pieces, let torn := w ++ DQ :: x ++ NL :: y in
    copy_records (S (length (remaining conn))) (NewReader conn 16 (CsvReader EolNl DQ DQ)) = Ok (torn :: pieces, None) ∧
    concat (torn :: pieces) = remaining conn ∧
    last torn = Some NL ∧ Nat.odd (length (filter (.= DQ) torn)) = true.
Proof.
  intros w x z conn. apply (csv_long_record_is_torn DQ ltac:(discriminate) conn 16 w x z).
  - split; apply (bool_decide_unpack _); vm_compute; exact I.
  - split; apply (bool_decide_unpack _); vm_compute; exact I.
  - apply (bool_decide_unpack _). vm_compute. exact I.
  - reflexivity.
Defined.
