(* ===== verification/Utils.v ===== *)
(** The package [utils]: string quoting for SQL, name lists and mapping
    files, filter sets, and the command-line flags behind the interface of
    [pflag]. *)
From S2P Require Import Prelude.

(** * Quoting ([utils/io.go], [utils/util.go]) *)

(** [EscapeSingleQuotes]. *)
Definition EscapeSingleQuotes (str : string) : string :=
  Replace str (chr SQ) (chr SQ +:+ chr SQ) None.

(** [fmt.Sprintf("'%s'", EscapeSingleQuotes(str))]. *)
Definition quoted_literal (str : string) : string :=
  String SQ (EscapeSingleQuotes str +:+ chr SQ).

(** [SliceToQuotedString]. *)
Definition SliceToQuotedString (slice : list string) : string :=
  Join (quoted_literal <$> slice) ",".

(** [UnquoteIdent]: a pair of enclosing double quotes is dropped and doubled
    double quotes inside are halved. *)
Definition UnquoteIdent (ident : string) : string :=
  match ident with
  | String c (String d s) =>
      let inner := String d s in
      let body := String.substring 0 (pred (len inner)) inner in
      if decide (c = DQ ∧ String.get (pred (len inner)) inner = Some DQ)
      then Replace body (chr DQ +:+ chr DQ) (chr DQ) None
      else ident
  | _ => ident
  end.

(** [DollarQuoteString]: the candidates [delimStr[0:i]] for every [i] in
    range of the delimiter, in order; no candidate leaves [quoteStr] empty. *)
Definition delimStr : string := "_XXXXXXX".
Fixpoint first_free (literal : string) (ixs : list nat) : string :=
  match ixs with
  | [] => ""
  | i :: ixs' =>
      let testStr := "$" +:+ String.substring 0 i delimStr in
      if negb (Contains literal testStr) then testStr +:+ "$" else first_free literal ixs'
  end.
Definition DollarQuoteString (literal : string) : string :=
  let quoteStr := first_free literal (seq 0 (len delimStr)) in
  quoteStr +:+ literal +:+ quoteStr.

(** * Names *)

Definition MakeFQN (schema object : string) : string := schema +:+ "." +:+ object.

(** The regular expression [^[^.]+\.[^.]+$]: two parts around one dot, neither
    of them empty. *)
Definition valid_fqn (fqn : string) : bool :=
  match Split fqn DOT with
  | [s; t] => negb (bool_decide (s = "")) && negb (bool_decide (t = ""))
  | _ => false
  end.

Definition ValidateFQNs (tableList : list string) : go () :=
  go_fold (λ _ fqn,
    if valid_fqn fqn then Ok ()
    else Err ("Table " +:+ fqn +:+ " is not correctly fully-qualified.")) () tableList.

Definition ValidateFullPath (path : string) : go () :=
  if bool_decide (0 < len path) && negb (String.prefix "/" path || String.prefix "~" path)
  then Err (path +:+ " is not an absolute path.")
  else Ok ().

Record CompressionLevelsDescription := { Min : Z; Max : Z }.
Definition compressionLevelsForType (compressionType : string) : option CompressionLevelsDescription :=
  if decide (compressionType = "gzip") then Some {| Min := 1; Max := 9 |}
  else if decide (compressionType = "zstd") then Some {| Min := 1; Max := 19 |}
  else None.
Definition ValidateCompressionTypeAndLevel (compressionType : string) (compressionLevel : Z) : go () :=
  match compressionLevelsForType compressionType with
  | Some levelsDescription =>
      if (compressionLevel <? Min levelsDescription)%Z || (Max levelsDescription <? compressionLevel)%Z
      then Err ("compression type '" +:+ compressionType +:+ "' only allows compression levels between "
                +:+ Itoa (Min levelsDescription) +:+ " and " +:+ Itoa (Max levelsDescription)
                +:+ ", but the provided level is " +:+ Itoa compressionLevel)
      else Ok ()
  | None => Err ("unknown compression type '" +:+ compressionType +:+ "'")
  end.

(** [ArrayIsDuplicated], with the loop's map of the elements seen. *)
Fixpoint duplicated_from (elemsMap : gset string) (elems : list string) : bool :=
  match elems with
  | [] => false
  | v :: elems' =>
      if decide (v ∈ elemsMap) then true else duplicated_from ({[v]} ∪ elemsMap) elems'
  end.
Definition ArrayIsDuplicated (elems : list string) : bool := duplicated_from ∅ elems.

(** [Exists]. *)
Fixpoint slice_Exists (slice : list string) (val : string) : bool :=
  match slice with
  | [] => false
  | item :: slice' => if decide (item = val) then true else slice_Exists slice' val
  end.

Record FqnStruct := { SchemaName : string; TableName : string }.

Definition SeparateSchemaAndTable (tableNames : list string) : go (list FqnStruct) :=
  go_map (λ fqn,
    let parts := Split fqn DOT in
    if bool_decide (2 < length parts)
    then Err ("cannot process an Fully Qualified Name with embedded dots yet: " +:+ fqn)
    else if bool_decide (length parts < 2)
    then Err ("Fully Qualified Names require a minimum of one dot, specifying the schema and table. Cannot process: " +:+ fqn)
    else
      let! schema := index parts 0 in
      let! table := index parts 1 in
      if bool_decide (schema = "" ∨ table = "")
      then Err ("Fully Qualified Names must specify the schema and table. Cannot process: " +:+ fqn)
      else Ok {| SchemaName := schema; TableName := table |}) tableNames.

(** [QuoteTableNames]: the two identifiers of each name are quoted by one query
    [SELECT quote_ident('s') AS schemaname, quote_ident('t') AS tablename];
    [Select] runs a query on the connection and returns its rows. *)
Definition quoteIdentTableFQNQuery (fqn : FqnStruct) : string :=
  "SELECT quote_ident('" +:+ SchemaName fqn +:+ "') AS schemaname, quote_ident('"
    +:+ TableName fqn +:+ "') AS tablename".
Definition QuoteTableNames (Select : string → go (list FqnStruct)) (tableNames : list string)
    : go (list string) :=
  if bool_decide (length tableNames = 0) then Ok []
  else
    let escapedTables := EscapeSingleQuotes <$> tableNames in
    let! fqnSlice := SeparateSchemaAndTable escapedTables in
    go_map (λ fqn,
      let! queryResultTable := Select (quoteIdentTableFQNQuery fqn) in
      let! row := index queryResultTable 0 in
      Ok (SchemaName row +:+ "." +:+ TableName row)) fqnSlice.

(** [HandleSingleDashes]: the regular expression [^-(\w{2,})] is replaced by
    [--$1], so a dash is put before an argument that starts with one dash and
    two word characters. *)
Definition is_word (c : ascii) : bool :=
  let n := nat_of_ascii c in
  (bool_decide (48 ≤ n ∧ n ≤ 57)) || (bool_decide (65 ≤ n ∧ n ≤ 90)) ||
  (bool_decide (97 ≤ n ∧ n ≤ 122)) || bool_decide (n = 95).
Definition fix_dash (arg : string) : string :=
  match arg with
  | String d (String a (String b _)) =>
      if bool_decide (d = DASH) && is_word a && is_word b then String DASH arg else arg
  | _ => arg
  end.
Definition HandleSingleDashes (args : list string) : list string := fix_dash <$> args.

(** * Files of names *)

(** [bufio.Scanner] with [ScanLines]: lines without their newline and one
    trailing carriage return; an empty rest of the input is no line; a line of
    [MaxScanTokenSize] bytes or more stops the scan with [ErrTooLong]. *)
Definition MaxScanTokenSize : Z := 65536.
Definition dropCR (line : string) : string :=
  if bool_decide (String.get (pred (len line)) line = Some CR)
  then String.substring 0 (pred (len line)) line else line.
Fixpoint raw_lines (parts : list string) : list string :=
  match parts with
  | [] => []
  | [last] => if bool_decide (last = "") then [] else [last]
  | p :: parts' => p :: raw_lines parts'
  end.
Fixpoint scan (lines : list string) : list string :=
  match lines with
  | [] => []
  | l :: lines' =>
      if (Z.of_nat (len l) <? MaxScanTokenSize)%Z then dropCR l :: scan lines' else []
  end.

(** [ReadTableFile]. [Open] is the file system: the content of a file or the
    error of [os.Open]. The scanner's error is not looked at. *)
Definition ReadTableFile (Open : string → go string) (filename : string) : go (list string) :=
  let! content := Open filename in
  Ok (scan (raw_lines (Split content NL))).

(** [ParseMappingFile]. *)
Definition mapping_error (l : string) : string := "invalid mapping file content [" +:+ l +:+ "]".
Definition mapping_step (mapping : gmap string string) (l : string) : go (gmap string string) :=
  let items := Split l COMMA in
  if bool_decide (length items ≠ 2) then Fatal (mapping_error l)
  else
    let! k := index items 0 in
    let! v := index items 1 in
    Ok (<[k := v]> mapping).
Definition ParseMappingFile (lines : list string) : go (gmap string string) :=
  go_fold mapping_step ∅ lines.

(** [ParseSchemaMappingFile]; [None] is the nil slice of lines, the result of
    [ReadTableFileByFlag] when the flag is not given. *)
Definition schema_mapping_step (acc : list string * list string) (l : string)
    : go (list string * list string) :=
  let items := Split l COMMA in
  if bool_decide (length items ≠ 2) then Fatal ("invalid schema mapping file content [" +:+ l +:+ "]")
  else
    let! s := index items 0 in
    let! d := index items 1 in
    Ok (acc.1 ++ [s], acc.2 ++ [d]).
Definition ParseSchemaMappingFile (lines : option (list string)) : go (list string * list string) :=
  let! (source, dest) := go_fold schema_mapping_step ([], []) (default [] lines) in
  match lines with
  | Some _ =>
      if bool_decide (length source = 0)
      then Fatal "schema mapping file should have at lease one record"
      else Ok (source, dest)
  | None => Ok ([], [])
  end.

(** * Filter sets ([utils/set.go]) *)

Record FilterSet := {
  Set_ : gmap string bool;
  IsExclude : bool;
  AlwaysMatchesFilter : bool
}.

Definition NewSet (list : list string) : FilterSet :=
  {| Set_ := foldl (λ m item, <[item := true]> m) ∅ list;
     IsExclude := false; AlwaysMatchesFilter := false |}.
Definition NewIncludeSet (list : list string) : FilterSet :=
  let newSet := NewSet list in
  {| Set_ := Set_ newSet; IsExclude := IsExclude newSet;
     AlwaysMatchesFilter := bool_decide (length list = 0) |}.
Definition NewExcludeSet (list : list string) : FilterSet :=
  let newSet := NewSet list in
  {| Set_ := Set_ newSet; IsExclude := true;
     AlwaysMatchesFilter := bool_decide (length list = 0) |}.
Definition MatchesFilter (s : FilterSet) (item : string) : bool :=
  if AlwaysMatchesFilter s then true
  else
    let matches := bool_decide (is_Some (Set_ s !! item)) in
    if IsExclude s then negb matches else matches.
Definition Length (s : FilterSet) : nat := size (Set_ s).
Definition Equals `{MapRange} (s s1 : FilterSet) : bool :=
  if bool_decide (Length s ≠ Length s1) then false
  else forallb (λ '(k, _), bool_decide (is_Some (Set_ s1 !! k))) (range_map 67 (Set_ s)).

(** * Command-line flags *)

(** The operations of a [pflag.FlagSet] the program uses: the declarations, the
    getters, [Changed] and [Set]. *)
Class FlagSet (F : Type) := {
  Bool : F → string → bool → F;
  Int : F → string → Z → F;
  String_ : F → string → string → F;
  StringSlice : F → string → list string → F;
  GetBool : F → string → go bool;
  GetInt : F → string → go Z;
  GetString : F → string → go string;
  GetStringSlice : F → string → go (list string);
  Changed : F → string → bool;
  SetFlag : F → string → string → go F
}.

Inductive flag_type := TBool | TInt | TString | TStringSlice.
#[export] Instance flag_type_eq : EqDecision flag_type.
Proof. solve_decision. Defined.

(** A flag is declared at a type when the getter of this type answers. *)
Definition declared `{FlagSet F} (fs : F) (name : string) (t : flag_type) : bool :=
  match t with
  | TBool => is_ok (GetBool fs name)
  | TInt => is_ok (GetInt fs name)
  | TString => is_ok (GetString fs name)
  | TStringSlice => is_ok (GetStringSlice fs name)
  end.

(** What the program relies on: a declaration makes the getter of its type
    answer with the default and does not concern flags of other names; [Set]
    keeps every flag's type, marks its flag as changed and no other. *)
Class FlagSetLaws (F : Type) `{FlagSet F} := {
  declared_Bool : ∀ fs n b, GetBool (Bool fs n b) n = Ok b;
  declared_Int : ∀ fs n z, GetInt (Int fs n z) n = Ok z;
  declared_String : ∀ fs n s, GetString (String_ fs n s) n = Ok s;
  declared_StringSlice : ∀ fs n l, GetStringSlice (StringSlice fs n l) n = Ok l;
  Bool_other : ∀ fs n m b t, m ≠ n → declared fs m t → declared (Bool fs n b) m t;
  Int_other : ∀ fs n m b t, m ≠ n → declared fs m t → declared (Int fs n b) m t;
  String_other : ∀ fs n m b t, m ≠ n → declared fs m t → declared (String_ fs n b) m t;
  StringSlice_other : ∀ fs n m b t, m ≠ n → declared fs m t → declared (StringSlice fs n b) m t;
  SetFlag_declared : ∀ fs n v fs' m t, SetFlag fs n v = Ok fs' → declared fs m t → declared fs' m t;
  SetFlag_Changed : ∀ fs n v fs' m, SetFlag fs n v = Ok fs' →
    Changed fs' m = bool_decide (m = n) || Changed fs m
}.

(** The getters on the global flag set [CmdFlags]. *)
Definition MustGetFlagString `{FlagSet F} (CmdFlags : F) (flagName : string) : go string :=
  FatalOnError (GetString CmdFlags flagName).
Definition MustGetFlagInt `{FlagSet F} (CmdFlags : F) (flagName : string) : go Z :=
  FatalOnError (GetInt CmdFlags flagName).
Definition MustGetFlagBool `{FlagSet F} (CmdFlags : F) (flagName : string) : go bool :=
  FatalOnError (GetBool CmdFlags flagName).
Definition MustGetFlagStringSlice `{FlagSet F} (CmdFlags : F) (flagName : string) : go (list string) :=
  FatalOnError (GetStringSlice CmdFlags flagName).

(** [ReadTableFileByFlag]; [None] is the nil slice. *)
Definition ReadTableFileByFlag `{FlagSet F} (Open : string → go string) (flagSet : F) (flag : string)
    : go (option (list string)) :=
  let! filename := GetString flagSet flag in
  if bool_decide (0 < len filename)
  then let! tables := ReadTableFile Open filename in Ok (Some tables)
  else Ok None.

(** ** A flag set as a finite map *)

Inductive flag_value :=
| FBool (b : bool) | FInt (z : Z) | FString (s : string) | FStringSlice (l : list string).
#[export] Instance flag_value_eq : EqDecision flag_value.
Proof. solve_decision. Defined.
Record flag := { fvalue : flag_value; fchanged : bool }.
Definition flag_map := gmap string flag.

Definition parse_flag (old : flag) (v : string) : option flag_value :=
  match fvalue old with
  | FBool _ => if decide (v = "true") then Some (FBool true)
               else if decide (v = "false") then Some (FBool false) else None
  | FInt _ => FInt <$> Atoi v
  | FString _ => Some (FString v)
  | FStringSlice l => Some (FStringSlice ((if fchanged old then l else []) ++ Split v COMMA))
  end.

Definition declare_flag (m : flag_map) (n : string) (v : flag_value) : flag_map :=
  <[n := {| fvalue := v; fchanged := false |}]> m.
Definition get_flag {A} (proj : flag_value → option A) (m : flag_map) (n : string) : go A :=
  match m !! n with
  | Some f => match proj (fvalue f) with
              | Some a => Ok a
              | None => Err ("trying to get the value of flag " +:+ n +:+ " of another type")
              end
  | None => Err ("flag accessed but not defined: " +:+ n)
  end.

#[export] Instance flag_map_FlagSet : FlagSet flag_map := {|
  Bool m n b := declare_flag m n (FBool b);
  Int m n z := declare_flag m n (FInt z);
  String_ m n s := declare_flag m n (FString s);
  StringSlice m n l := declare_flag m n (FStringSlice l);
  GetBool := get_flag (λ v, match v with FBool b => Some b | _ => None end);
  GetInt := get_flag (λ v, match v with FInt b => Some b | _ => None end);
  GetString := get_flag (λ v, match v with FString b => Some b | _ => None end);
  GetStringSlice := get_flag (λ v, match v with FStringSlice b => Some b | _ => None end);
  Changed m n := match m !! n with Some f => fchanged f | None => false end;
  SetFlag m n v := match m !! n with
    | Some f => match parse_flag f v with
                | Some w => Ok (<[n := {| fvalue := w; fchanged := true |}]> m)
                | None => Err ("invalid argument " +:+ v)
                end
    | None => Err ("no such flag -" +:+ n)
    end
|}.

#[export] Instance flag_map_laws : FlagSetLaws flag_map.
Proof.
  split; unfold declared; simpl; unfold get_flag, declare_flag.
  1-4: by intros fs n b; rewrite (lookup_insert_eq fs n).
  1-4: by intros fs n m b [] Hne; rewrite (lookup_insert_ne fs n m) by done.
  - intros fs n v fs' m t Hset. destruct (fs !! n) as [f|] eqn:Hn; [|done].
    destruct (parse_flag f v) as [w|] eqn:Hw; [|done]. simplify_eq.
    destruct (decide (m = n)) as [->|Hne]; [|by rewrite (lookup_insert_ne fs n m)].
    rewrite (lookup_insert_eq fs n), Hn. simpl. revert Hw. unfold parse_flag.
    destruct (fvalue f), t; simpl; intros; split_match; simplify_option_eq; done.
  - intros fs n v fs' m Hset. destruct (fs !! n) as [f|] eqn:Hn; [|done].
    destruct (parse_flag f v) as [w|] eqn:Hw; [|done]. simplify_eq.
    destruct (decide (m = n)) as [->|Hne].
    + by rewrite (lookup_insert_eq fs n), bool_decide_true.
    + by rewrite (lookup_insert_ne fs n m), bool_decide_false.
Qed.

(** * The server's lexer *)

(** The text of an SQL string literal behind its opening quote: a doubled
    quote stands for one, a single quote ends the literal. *)
Fixpoint lex_literal_body (s : string) : option (string * string) :=
  match s with
  | EmptyString => None
  | String c s' =>
      if decide (c = SQ) then
        match s' with
        | String d s'' =>
            if decide (d = SQ)
            then '(body, rest) ← lex_literal_body s''; Some (String SQ body, rest)
            else Some (EmptyString, s')
        | EmptyString => Some (EmptyString, EmptyString)
        end
      else '(body, rest) ← lex_literal_body s'; Some (String c body, rest)
  end.

(** A list of literals separated by commas, with at most [fuel] of them. *)
Fixpoint lex_literals (fuel : nat) (s : string) : option (list string) :=
  match fuel, s with
  | S fuel', String c s' =>
      if decide (c = SQ) then
        '(body, rest) ← lex_literal_body s';
        match rest with
        | EmptyString => Some [body]
        | String d rest' =>
            if decide (d = COMMA) then l ← lex_literals fuel' rest'; Some (body :: l) else None
        end
      else None
  | _, _ => None
  end.

(** The text before and after the first occurrence of [pat]. *)
Fixpoint cut (pat s : string) : option (string * string) :=
  if String.prefix pat s then Some (EmptyString, String.substring (len pat) (len s - len pat) s)
  else match s with
       | EmptyString => None
       | String c s' => '(a, b) ← cut pat s'; Some (String c a, b)
       end.

(** A dollar-quoted constant: the delimiter runs from the first dollar to the
    next one and the text up to the delimiter's next occurrence is the value. *)
Definition lex_dollar (s : string) : option (string * string) :=
  match s with
  | String d s' =>
      if decide (d = "$"%char) then
        '(tag, rest) ← cut "$" s';
        cut ("$" +:+ tag +:+ "$") rest
      else None
  | EmptyString => None
  end.

(** The quoting of an identifier by the server's [quote_ident]. *)
Definition quote_ident (s : string) : string :=
  String DQ (Replace s (chr DQ) (chr DQ +:+ chr DQ) None +:+ chr DQ).

(** ** Lemmas on replacement *)

Lemma Replace_byte_nil c new n : Replace "" (chr c) new n = "".
Proof. done. Qed.

(** Replacing one byte everywhere. *)
Lemma Replace_byte_cons c new d s :
  Replace (String d s) (chr c) new None =
  if decide (d = c) then new +:+ Replace s (chr c) new None
  else String d (Replace s (chr c) new None).
Proof.
  unfold Replace. simpl. destruct (ascii_dec c d) as [->|Hne].
  - rewrite decide_True by done. by destruct s.
  - rewrite decide_False by done. done.
Qed.

Lemma Replace_byte_app c new s t :
  Replace (s +:+ t) (chr c) new None = Replace s (chr c) new None +:+ Replace t (chr c) new None.
Proof.
  induction s as [|d s IH]; [done|]. rewrite append_String, !Replace_byte_cons, IH.
  case_decide; by rewrite ?append_assoc, ?append_String.
Qed.

Lemma Escape_cons c s :
  EscapeSingleQuotes (String c s) =
  if decide (c = SQ) then String SQ (String SQ (EscapeSingleQuotes s))
  else String c (EscapeSingleQuotes s).
Proof. unfold EscapeSingleQuotes. by rewrite Replace_byte_cons. Qed.

(** The server reads an escaped string back, whatever follows the literal. *)
Lemma lex_literal_Escape s rest :
  match rest with String c _ => c ≠ SQ | EmptyString => True end →
  lex_literal_body (EscapeSingleQuotes s +:+ String SQ rest) = Some (s, rest).
Proof.
  intros Hrest. induction s as [|c s IH].
  - unfold EscapeSingleQuotes. rewrite Replace_byte_nil, append_Empty. simpl.
    destruct rest; [done|]. by rewrite decide_False.
  - rewrite Escape_cons. case_decide as Hc; rewrite !append_String; simpl.
    + subst. by rewrite IH.
    + by rewrite decide_False, IH.
Qed.

Lemma SliceToQuotedString_cons s l : l ≠ [] →
  SliceToQuotedString (s :: l) = quoted_literal s +:+ "," +:+ SliceToQuotedString l.
Proof. by destruct l. Qed.

(** what [SliceToQuotedString] prints for a non-empty list of strings, any
    bytes in them, is read back by the SQL lexer as exactly that list: a
    quote in a name neither ends its literal nor joins two of them. *)
Theorem SliceToQuotedString_roundtrip (slice : list string) (Hne : slice ≠ []) :
  lex_literals (length slice) (SliceToQuotedString slice) = Some slice.
Proof.
  induction slice as [|s [|s' l] IH]; [done| |].
  - change (SliceToQuotedString [s]) with (String SQ (EscapeSingleQuotes s +:+ String SQ "")).
    cbn [length lex_literals]. rewrite decide_True by done. by rewrite lex_literal_Escape.
  - rewrite SliceToQuotedString_cons by done. unfold quoted_literal.
    rewrite append_String, append_assoc. cbn [length lex_literals].
    rewrite decide_True by done. unfold chr. rewrite append_String, append_Empty.
    change ("," +:+ ?t) with (String COMMA t).
    rewrite lex_literal_Escape by done. cbn [mbind option_bind].
    rewrite decide_True by done. cbn [length lex_literals] in IH. by rewrite IH.
Qed.

Lemma SliceToQuotedString_roundtrip_witness :
  ["it's"; "a,b"; ""] ≠ [] ∧
  lex_literals 3 (SliceToQuotedString ["it's"; "a,b"; ""]) = Some ["it's"; "a,b"; ""].
Proof. split; [done|]. by apply (SliceToQuotedString_roundtrip ["it's"; "a,b"; ""]). Defined.

(** ** Dollar quoting *)

Definition DOLLAR : ascii := "$"%char.

Lemma substring_full s : String.substring 0 (len s) s = s.
Proof. unfold len. induction s as [|c s IH]; [done|]. simpl. by rewrite IH. Qed.

Lemma substring_app p s : String.substring (len p) (len (p +:+ s) - len p) (p +:+ s) = s.
Proof.
  rewrite len_append. replace (len p + len s - len p) with (len s) by lia. unfold len.
  induction p as [|c p IH]; [apply substring_full|]. rewrite append_String. simpl. done.
Qed.

Lemma cut_here pat s : cut pat (pat +:+ s) = Some ("", s).
Proof.
  assert (Hp : String.prefix pat (pat +:+ s) = true) by (apply prefix_true; by exists s).
  pose proof (substring_app pat s) as Hsub.
  destruct (pat +:+ s) as [|c r]; cbn [cut]; rewrite Hp; by rewrite Hsub.
Qed.

Lemma cut_cons pat c s a b :
  String.prefix pat (String c s) = false → cut pat s = Some (a, b) →
  cut pat (String c s) = Some (String c a, b).
Proof. intros Hp Hcut. cbn [cut]. by rewrite Hp, Hcut. Qed.

Lemma Contains_tail c s sub : Contains (String c s) sub = false → Contains s sub = false.
Proof. cbn [Contains]. rewrite orb_false_iff. tauto. Qed.

(** A delimiter whose opening part is not in [l] does not occur across the
    end of [l] either: it has a dollar only at its ends. *)
Lemma no_straddle tag c l rest :
  no_byte DOLLAR tag → Contains (String c l) (String DOLLAR tag) = false →
  String.prefix (String DOLLAR (tag +:+ "$"))
    (String c l +:+ String DOLLAR (tag +:+ String DOLLAR rest)) = false.
Proof.
  intros Htag Hc. apply not_true_is_false. intros [t Ht]%prefix_true.
  apply (f_equal bytes) in Ht.
  repeat (rewrite ?append_String, ?bytes_append, <- ?app_assoc in Ht; simpl in Ht).
  injection Ht as -> Ht.
  apply app_eq_app in Ht as (k & [[Hl _]|[Hl Hr]]).
  - enough (Contains (String DOLLAR l) (String DOLLAR tag) = true) by congruence.
    apply Contains_true. exists "", (of_bytes k). rewrite append_Empty, append_String.
    f_equal. rewrite <- (of_bytes_bytes l), Hl, of_bytes_append. by rewrite of_bytes_bytes.
  - destruct k as [|d k].
    + rewrite app_nil_r in Hl. enough (Contains (String DOLLAR l) (String DOLLAR tag) = true) by congruence.
      apply Contains_true. exists "", "". rewrite append_Empty, append_nil_r. f_equal.
      by rewrite <- (of_bytes_bytes l), <- (of_bytes_bytes tag), Hl.
    + injection Hr as <- _. unfold no_byte in Htag. rewrite Hl in Htag. set_solver.
Qed.

Lemma cut_delimiter tag l rest :
  no_byte DOLLAR tag → Contains l (String DOLLAR tag) = false →
  cut (String DOLLAR (tag +:+ "$")) (l +:+ String DOLLAR (tag +:+ String DOLLAR rest)) = Some (l, rest).
Proof.
  intros Htag. induction l as [|c l IH]; intros Hl.
  - rewrite append_Empty.
    replace (String DOLLAR (tag +:+ String DOLLAR rest))
      with (String DOLLAR (tag +:+ "$") +:+ rest) by (by rewrite append_String, append_assoc).
    apply cut_here.
  - apply cut_cons; [by apply no_straddle|]. apply IH. by apply Contains_tail in Hl.
Qed.

Lemma cut_dollar tag rest : no_byte DOLLAR tag → cut "$" (tag +:+ String DOLLAR rest) = Some (tag, rest).
Proof.
  induction tag as [|c tag IH]; intros Htag.
  - apply (cut_here "$").
  - rewrite no_byte_String in Htag. destruct Htag as [Hne Htag]. rewrite append_String.
    apply cut_cons; [|by apply IH]. apply not_true_is_false. intros [t Ht]%prefix_true.
    rewrite append_String in Ht. by injection Ht.
Qed.

(** The delimiter found: a tag of the list whose opening is not in the text. *)
Lemma first_free_spec literal ixs :
  (∃ i, i ∈ ixs ∧ Contains literal ("$" +:+ String.substring 0 i delimStr) = false) →
  ∃ i, i ∈ ixs ∧ Contains literal ("$" +:+ String.substring 0 i delimStr) = false ∧
    first_free literal ixs = "$" +:+ String.substring 0 i delimStr +:+ "$".
Proof.
  induction ixs as [|j ixs IH]; intros (i & Hi & Hc); [set_solver|]. cbn [first_free].
  destruct (Contains literal ("$" +:+ String.substring 0 j delimStr)) eqn:Hj; cbn [negb].
  - destruct IH as (k & ? & ? & ?); [|exists k; set_solver].
    exists i. split; [|done]. apply elem_of_cons in Hi as [->|]; [congruence|done].
  - exists j. split; [set_solver|]. by rewrite append_assoc.
Qed.

Lemma delim_no_dollar i : i ∈ seq 0 (len delimStr) → no_byte DOLLAR (String.substring 0 i delimStr).
Proof.
  intros Hi%list_elem_of_In%in_seq. simpl in Hi.
  do 8 (destruct i as [|i]; [by apply (bool_decide_unpack _)|]). lia.
Qed.

(** The server reads the constant that [DollarQuoteString] writes back as
    the literal, whatever SQL follows, unless the literal contains the longest
    candidate ["$_XXXXXX"]: the chosen delimiter occurs neither inside the
    literal nor across its end. *)
Theorem DollarQuoteString_roundtrip (literal rest : string)
    (Hfree : Contains literal "$_XXXXXX" = false) :
  lex_dollar (DollarQuoteString literal +:+ rest) = Some (literal, rest).
Proof.
  destruct (first_free_spec literal (seq 0 (len delimStr))) as (i & Hi & Hc & Hq).
  { exists 7. split; [set_solver|done]. }
  unfold DollarQuoteString. rewrite Hq. pose proof (delim_no_dollar i Hi) as Htag.
  revert Hc Htag. generalize (String.substring 0 i delimStr). intros tag Hc Htag.
  change ("$" +:+ ?t) with (String DOLLAR t) in *.
  rewrite !append_assoc, !append_String, !append_assoc. cbn [lex_dollar].
  change ("$" +:+ ?t) with (String DOLLAR t) in *.
  rewrite decide_True by done. rewrite cut_dollar by done. cbn [mbind option_bind].
  by apply cut_delimiter.
Qed.

Lemma DollarQuoteString_roundtrip_witness :
  Contains "a $ b $_ c" "$_XXXXXX" = false ∧
  lex_dollar (DollarQuoteString "a $ b $_ c" +:+ " LANGUAGE sql;") = Some ("a $ b $_ c", " LANGUAGE sql;").
Proof. split; [reflexivity|]. apply DollarQuoteString_roundtrip. reflexivity. Defined.

(** A literal that contains the longest candidate gets no delimiter at all
    and is printed bare, so the server does not read it as a string. *)
Lemma DollarQuoteString_gives_up (literal : string)
    (Hused : Contains literal "$_XXXXXX" = true) :
  DollarQuoteString literal = literal.
Proof.
  assert (Hall : ∀ i, i ∈ seq 0 (len delimStr) →
    Contains literal ("$" +:+ String.substring 0 i delimStr) = true).
  { intros i Hi%list_elem_of_In%in_seq. simpl in Hi. apply Contains_true in Hused as (a & b & ->).
    apply Contains_true. exists a, (String.substring i (7 - i) delimStr +:+ b). f_equal.
    do 8 (destruct i as [|i]; [reflexivity|]). lia. }
  unfold DollarQuoteString. assert (Hnone : ∀ l, (∀ i, i ∈ l → i ∈ seq 0 (len delimStr)) →
    first_free literal l = "").
  { induction l as [|i l IH]; intros Hl; [done|]. cbn [first_free].
    rewrite Hall by set_solver. apply IH. set_solver. }
  rewrite Hnone by done. by rewrite append_Empty, append_nil_r.
Qed.

Example DollarQuoteString_bare : DollarQuoteString "x$_XXXXXXy" = "x$_XXXXXXy".
Proof. reflexivity. Qed.

(** ** Identifiers *)

Lemma halve_double s :
  Replace (Replace s (chr DQ) (chr DQ +:+ chr DQ) None) (chr DQ +:+ chr DQ) (chr DQ) None = s.
Proof.
  induction s as [|c s IH]; [done|]. rewrite Replace_byte_cons.
  revert IH. generalize (Replace s (chr DQ) (chr DQ +:+ chr DQ) None). intros u IH.
  unfold Replace in *. case_decide as Hc.
  - subst c. rewrite append_assoc. change (chr DQ +:+ chr DQ +:+ u) with (String DQ (String DQ u)).
    cbn [replace_go]. destruct u; simpl; by rewrite <- IH.
  - change (chr DQ +:+ chr DQ) with (String DQ (String DQ "")) in *. cbn [replace_go].
    replace (String.prefix _ (String c u)) with false; [cbn; by rewrite IH|].
    symmetry. apply not_true_is_false. intros [t Ht]%prefix_true. rewrite append_String in Ht. by simplify_eq.
Qed.

Lemma get_last s c : String.get (len s) (s +:+ chr c) = Some c.
Proof. unfold len. induction s as [|d s IH]; [done|]. rewrite append_String. simpl. done. Qed.

Lemma substring_init s c : String.substring 0 (len s) (s +:+ chr c) = s.
Proof. unfold len. induction s as [|d s IH]; [done|]. rewrite append_String. simpl. by rewrite IH. Qed.

Lemma UnquoteIdent_quoted s : UnquoteIdent (String DQ (s +:+ chr DQ)) =
  Replace s (chr DQ +:+ chr DQ) (chr DQ) None.
Proof.
  assert (Hlen : pred (len (s +:+ chr DQ)) = len s) by (rewrite len_append; simpl; lia).
  destruct (s +:+ chr DQ) as [|d r] eqn:Hs.
  { apply (f_equal len) in Hs. rewrite len_append in Hs. simpl in Hs. lia. }
  unfold UnquoteIdent. rewrite <- Hs in Hlen |- *. rewrite Hlen.
  rewrite decide_True by (split; [done|apply get_last]). by rewrite substring_init.
Qed.

(** [UnquoteIdent] undoes the server's [quote_ident]. *)
Lemma UnquoteIdent_quote_ident s : UnquoteIdent (quote_ident s) = s.
Proof. unfold quote_ident. rewrite UnquoteIdent_quoted. apply halve_double. Qed.

(** ** Lists of names *)

Lemma duplicated_from_false seen elems :
  duplicated_from seen elems = false ↔ NoDup elems ∧ (∀ e, e ∈ elems → e ∉ seen).
Proof.
  revert seen. induction elems as [|v elems IH]; intros seen; simpl.
  - split; [split; [constructor|set_solver]|done].
  - case_decide; [split; [done|set_solver]|]. rewrite IH, NoDup_cons. set_solver.
Qed.

Lemma ArrayIsDuplicated_false elems : ArrayIsDuplicated elems = false ↔ NoDup elems.
Proof. unfold ArrayIsDuplicated. rewrite duplicated_from_false. set_solver. Qed.

Lemma slice_Exists_true slice val : slice_Exists slice val = true ↔ val ∈ slice.
Proof.
  induction slice as [|x l IH]; simpl; [set_solver|]. case_decide; [set_solver|].
  rewrite IH. set_solver.
Qed.

Lemma Split_two s sep a b : Split s sep = [a; b] ↔ s = a +:+ String sep b ∧ no_byte sep a ∧ no_byte sep b.
Proof.
  split.
  - intros Hs. split_and!.
    + rewrite <- (Join_Split s sep), Hs. unfold Join. simpl. unfold chr. done.
    + pose proof (Split_Forall s sep) as Hf. rewrite Hs in Hf. by inversion Hf.
    + pose proof (Split_Forall s sep) as Hf. rewrite Hs in Hf. inversion Hf as [|? ? ? Hf']. by inversion Hf'.
  - intros (-> & Ha & Hb). by rewrite Split_app, Split_no_byte.
Qed.

(** A schema-qualified name of two parts comes apart again. *)
Lemma SeparateSchemaAndTable_MakeFQN fqns :
  Forall (λ f, SchemaName f ≠ "" ∧ TableName f ≠ "" ∧ no_byte DOT (SchemaName f) ∧ no_byte DOT (TableName f)) fqns →
  SeparateSchemaAndTable ((λ f, MakeFQN (SchemaName f) (TableName f)) <$> fqns) = Ok fqns.
Proof.
  intros Hall. unfold SeparateSchemaAndTable. induction Hall as [|f l (Hs & Ht & Hds & Hdt) _ IH]; [done|].
  cbn [fmap list_fmap go_map]. rewrite IH.
  assert (Hsp : Split (MakeFQN (SchemaName f) (TableName f)) DOT = [SchemaName f; TableName f])
    by (by apply Split_two).
  rewrite Hsp. simpl. rewrite bool_decide_false by tauto. by destruct f.
Qed.

(** ** Filter sets *)

Lemma NewSet_lookup list item : is_Some (Set_ (NewSet list) !! item) ↔ item ∈ list.
Proof.
  unfold NewSet. simpl.
  assert (Hgen : ∀ m : gmap string bool, is_Some (foldl (λ m item, <[item:=true]> m) m list !! item)
    ↔ item ∈ list ∨ is_Some (m !! item)).
  { induction list as [|x l IH]; intros m; simpl; [set_solver|].
    rewrite IH, lookup_insert_is_Some. destruct (decide (x = item)); set_solver. }
  rewrite Hgen. rewrite lookup_empty. split; [intros [?|[? ?]]; [done|discriminate]|tauto].
Qed.

Lemma MatchesFilter_include list item :
  MatchesFilter (NewIncludeSet list) item = true ↔ list = [] ∨ item ∈ list.
Proof.
  unfold MatchesFilter, NewIncludeSet. cbn [Set_ IsExclude AlwaysMatchesFilter].
  change (IsExclude (NewSet list)) with false. case_bool_decide as Hl.
  - apply nil_length_inv in Hl. tauto.
  - rewrite bool_decide_eq_true, NewSet_lookup. destruct list; set_solver.
Qed.

Lemma MatchesFilter_exclude list item :
  MatchesFilter (NewExcludeSet list) item = true ↔ item ∉ list.
Proof.
  unfold MatchesFilter, NewExcludeSet. cbn [Set_ IsExclude AlwaysMatchesFilter]. case_bool_decide as Hl.
  - apply nil_length_inv in Hl. subst. set_solver.
  - rewrite negb_true_iff, bool_decide_eq_false, NewSet_lookup. done.
Qed.

(** [Equals] decides equality of the sets of keys, in whatever order the map
    is visited. *)
Lemma Equals_spec `{MapRange} s s1 : Equals s s1 = true ↔ dom (Set_ s) = dom (Set_ s1).
Proof.
  unfold Equals, Length. rewrite <- !size_dom. case_bool_decide as Hsz.
  - split; [done|]. intros Heq. by rewrite Heq in Hsz.
  - rewrite forallb_forall. split.
    + intros Hall. enough (Hsub : dom (Set_ s) ⊆ dom (Set_ s1)).
      { apply set_subseteq_size_eq; [done|lia]. }
      intros k [v Hk]%elem_of_dom. specialize (Hall (k, v)).
      rewrite <- list_elem_of_In, elem_of_range_map in Hall.
      apply elem_of_dom. by apply (bool_decide_eq_true_1 _ (Hall Hk)).
    + intros Heq [k v] Hk%list_elem_of_In%elem_of_range_map. apply bool_decide_eq_true, elem_of_dom.
      rewrite <- Heq. apply elem_of_dom. eauto.
Qed.

(** ** Files of names *)

(** A text of lines, each ended by a newline. *)
Definition unlines (lines : list string) : string :=
  foldr (λ l s, l +:+ String NL s) "" lines.

Definition plain_line (l : string) : Prop :=
  no_byte NL l ∧ String.get (pred (len l)) l ≠ Some CR.
#[export] Instance plain_line_dec l : Decision (plain_line l).
Proof. unfold plain_line. apply _. Defined.
Definition short_line (l : string) : bool := (Z.of_nat (len l) <? MaxScanTokenSize)%Z.

Lemma raw_lines_unlines lines :
  Forall (no_byte NL) lines → raw_lines (Split (unlines lines) NL) = lines.
Proof.
  induction 1 as [|l lines Hl _ IH]; [done|]. simpl. rewrite Split_app by done.
  destruct (Split_cons (unlines lines) NL) as (h & t & Hs). rewrite Hs in IH |- *.
  change (raw_lines (l :: h :: t)) with (l :: raw_lines (h :: t)). by rewrite IH.
Qed.

Lemma scan_app pre post :
  Forall (λ l, plain_line l ∧ short_line l = true) pre → scan (pre ++ post) = pre ++ scan post.
Proof.
  induction 1 as [|l pre [[_ Hcr] Hshort] _ IH]; [done|]. cbn [app scan]. unfold short_line in Hshort.
  rewrite Hshort. unfold dropCR. rewrite bool_decide_false by done. by rewrite IH.
Qed.

(** A file of plain lines is read as exactly its lines up to the first line
    of 65536 bytes or more; there the scan stops and the rest of the file is
    dropped without an error. *)
Theorem ReadTableFile_lines (Open : string → go string) (filename : string) (pre post : list string)
    (Hfile : Open filename = Ok (unlines (pre ++ post)))
    (Hpre : Forall (λ l, plain_line l ∧ short_line l = true) pre)
    (Hpost : Forall (no_byte NL) post)
    (Hlong : match post with [] => True | l :: _ => short_line l = false end) :
  ReadTableFile Open filename = Ok pre.
Proof.
  unfold ReadTableFile. rewrite Hfile. simpl. rewrite raw_lines_unlines.
  - rewrite scan_app by done. destruct post as [|l post]; simpl; [by rewrite app_nil_r|].
    unfold short_line in Hlong. by rewrite Hlong, app_nil_r.
  - apply Forall_app. split; [|done]. eapply Forall_impl; [done|]. by intros l [[? _] _].
Qed.

(** A line of 65536 bytes, built without a large numeral in unary. *)
Fixpoint double_up (n : nat) (s : string) : string :=
  match n with O => s | S n' => let s' := s +:+ s in double_up n' s' end.
Definition long_line : string := double_up 16 "x".

Lemma ReadTableFile_lines_witness :
  short_line long_line = false ∧
  ReadTableFile (λ _, Ok (unlines (["db.public.a"] ++ [long_line; "db.public.b"]))) "tables" = Ok ["db.public.a"].
Proof.
  split; [vm_compute; reflexivity|].
  apply (ReadTableFile_lines _ _ _ [long_line; "db.public.b"]); [reflexivity| | |].
  - apply (bool_decide_unpack _). vm_compute. exact I.
  - apply (bool_decide_unpack _). vm_compute. exact I.
  - vm_compute. reflexivity.
Defined.

Lemma mapping_step_pair m k v : no_byte COMMA k → no_byte COMMA v →
  mapping_step m (k +:+ String COMMA v) = Ok (<[k := v]> m).
Proof.
  intros Hk Hv. unfold mapping_step.
  assert (Hsp : Split (k +:+ String COMMA v) COMMA = [k; v]) by (by apply Split_two).
  rewrite Hsp. done.
Qed.

(** A mapping file gives each source name the target of its last line. *)
Lemma ParseMappingFile_pairs (pairs : list (string * string)) :
  Forall (λ p, no_byte COMMA p.1 ∧ no_byte COMMA p.2) pairs →
  ParseMappingFile ((λ p, p.1 +:+ String COMMA p.2) <$> pairs) = Ok (list_to_map (reverse pairs)).
Proof.
  intros Hall. unfold ParseMappingFile.
  assert (Hgen : ∀ m : gmap string string, go_fold mapping_step m ((λ p, p.1 +:+ String COMMA p.2) <$> pairs) = Ok (list_to_map (reverse pairs) ∪ m)).
  { induction Hall as [|[k v] pairs [Hk Hv] _ IH]; intros m.
    { simpl. f_equal. symmetry. apply (left_id_L ∅ (∪)). }
    cbn [fmap list_fmap go_fold fst snd].
    rewrite mapping_step_pair by done. simpl. rewrite IH, reverse_cons. f_equal.
    rewrite list_to_map_app. simpl. rewrite <- (assoc_L (∪)). f_equal.
    rewrite insert_empty. by rewrite <- insert_union_singleton_l. }
  rewrite Hgen. f_equal. apply (right_id_L ∅ (∪)).
Qed.

(** The lists of a schema mapping file are parallel: one source schema and one
    destination schema per line. *)
Lemma ParseSchemaMappingFile_parallel lines source dest :
  ParseSchemaMappingFile lines = Ok (source, dest) →
  length source = length dest ∧
  (lines = None → source = []) ∧ (∀ l, lines = Some l → length source = length l ∧ source ≠ []).
Proof.
  unfold ParseSchemaMappingFile.
  assert (Hgen : ∀ l acc acc', go_fold schema_mapping_step acc l = Ok acc' →
    length acc'.1 = length acc.1 + length l ∧ length acc'.2 = length acc.2 + length l).
  { induction l as [|x l IH]; intros acc acc' Hf; cbn [go_fold] in Hf; [simplify_eq/=; lia|].
    apply bind_Ok in Hf as ([s' d'] & Hx & Hf). unfold schema_mapping_step in Hx. destruct acc as [s d].
    case_bool_decide; [done|]. inv_go. apply IH in Hf. cbn [fst snd] in *.
    rewrite !length_app in Hf. simpl in *. lia. }
  intros Hp. apply bind_Ok in Hp as ([s d] & Hf & Hp). apply Hgen in Hf. cbn [fst snd length] in Hf.
  destruct lines as [l|]; simpl in *.
  - case_bool_decide; simplify_eq. split; [lia|]. split; [done|].
    intros l' [= <-]. split; [lia|]. by intros ->.
  - simplify_eq. done.
Qed.

(** ** Flags *)

Lemma declared_MustGet `{FlagSet F} (fs : F) n :
  (declared fs n TBool = true → ∃ v, GetBool fs n = Ok v ∧ MustGetFlagBool fs n = Ok v) ∧
  (declared fs n TInt = true → ∃ v, GetInt fs n = Ok v ∧ MustGetFlagInt fs n = Ok v) ∧
  (declared fs n TString = true → ∃ v, GetString fs n = Ok v ∧ MustGetFlagString fs n = Ok v) ∧
  (declared fs n TStringSlice = true → ∃ v, GetStringSlice fs n = Ok v ∧ MustGetFlagStringSlice fs n = Ok v).
Proof.
  unfold declared, MustGetFlagBool, MustGetFlagInt, MustGetFlagString, MustGetFlagStringSlice.
  split_and!; intros Hd.
  - destruct (GetBool fs n); [eauto|done..].
  - destruct (GetInt fs n); [eauto|done..].
  - destruct (GetString fs n); [eauto|done..].
  - destruct (GetStringSlice fs n); [eauto|done..].
Qed.
