(* ===== verification/Options.v ===== *)
(** The package [option]: flag names, the parsed options of a run, and the
    snapshot of the destination's tables kept with them. *)
From S2P Require Import Prelude Utils.

(** * Constants *)

Definition APPEND := "append".
Definition DBNAME := "dbname".
Definition DEBUG := "debug".
Definition DEST_DBNAME := "dest-dbname".
Definition DEST_HOST := "dest-host".
Definition DEST_PORT := "dest-port".
Definition DEST_TABLE := "dest-table".
Definition DEST_TABLE_FILE := "dest-table-file".
Definition DEST_USER := "dest-user".
Definition EXCLUDE_TABLE := "exclude-table".
Definition EXCLUDE_TABLE_FILE := "exclude-table-file".
Definition FULL := "full".
Definition INCLUDE_TABLE := "include-table".
Definition INCLUDE_TABLE_FILE := "include-table-file".
Definition COPY_JOBS := "copy-jobs".
Definition METADATA_JOBS := "metadata-jobs".
Definition METADATA_ONLY := "metadata-only".
Definition GLOBAL_METADATA_ONLY := "global-metadata-only".
Definition DATA_ONLY := "data-only".
Definition WITH_GLOBAL_METADATA := "with-global-metadata".
Definition COMPRESSION := "compression".
Definition COMPRESS_TYPE := "compress-type".
Definition ON_SEGMENT_THRESHOLD := "on-segment-threshold".
Definition QUIET := "quiet".
Definition SOURCE_HOST := "source-host".
Definition SOURCE_PORT := "source-port".
Definition SOURCE_USER := "source-user".
Definition SKIP_EXISTING := "skip-existing".
Definition TRUNCATE := "truncate".
Definition VALIDATE := "validate".
Definition SCHEMA := "schema".
Definition DEST_SCHEMA := "dest-schema".
Definition SCHEMA_MAPPING_FILE := "schema-mapping-file".
Definition OWNER_MAPPING_FILE := "owner-mapping-file".
Definition DEST_TABLESPACE := "dest-tablespace".
Definition TABLESPACE_MAPPING_FILE := "tablespace-mapping-file".
Definition VERBOSE := "verbose".
Definition DATA_PORT_RANGE := "data-port-range".
Definition CONNECTION_MODE := "connection-mode".

Inductive copy_mode := CopyModeFull | CopyModeDb | CopyModeSchema | CopyModeTable.
Inductive table_mode := TableModeTruncate | TableModeAppend | TableModeSkipExisting.
#[export] Instance copy_mode_eq : EqDecision copy_mode.
Proof. solve_decision. Defined.
#[export] Instance table_mode_eq : EqDecision table_mode.
Proof. solve_decision. Defined.

Definition ConnectionModePush := "push".
Definition ConnectionModePull := "pull".
Definition CompressTypeGzip := "gzip".
Definition CompressTypeSnappy := "snappy".
Definition CompressTypeZstd := "zstd".

(** * Data *)

Record Table := {
  Schema : string;
  Name : string;
  Partition : Z;
  RelTuples : Z;
  IsReplicated : bool
}.
#[export] Instance Table_eq : EqDecision Table.
Proof. solve_decision. Defined.

(** [Table{Schema: schema, Name: name}]. *)
Definition mkTable (schema name : string) : Table :=
  {| Schema := schema; Name := name; Partition := 0; RelTuples := 0; IsReplicated := false |}.

Record DbTable := { tbl_Database : string; tbl_Table : Table }.
Record TablePair := { SrcTable : Table; DestTable : Table }.
#[export] Instance TablePair_eq : EqDecision TablePair.
Proof. solve_decision. Defined.
Record DbSchema := { sch_Database : string; sch_Schema : string }.
Record TableStatistics := {
  st_Partition : Z;
  st_RelTuples : Z;
  st_IsReplicated : bool
}.

(** The key of a table in every map of the program. *)
Definition fqn (t : Table) : string := Schema t +:+ "." +:+ Name t.

Record Option_ := {
  copyMode : copy_mode;
  tableMode : table_mode;
  connectionMode : string;
  sourceDbnames : list string;
  destDbnames : list string;
  excludedTables : list DbTable;
  includedTables : list DbTable;
  destTables : list DbTable;
  sourceSchemas : list DbSchema;
  destSchemas : list DbSchema;
  ownerMap : gmap string string;
  tablespaceMap : gmap string string;
  destDbInventory : gmap string (gset string);
  destDbRootParts : gmap string (gset string)
}.

(** * Parsing of names *)

(** The ways to cut a string at a dot, the longest left part first. *)
Fixpoint dot_splits (s : string) : list (string * string) :=
  match s with
  | EmptyString => []
  | String c s' =>
      ((λ '(a, b), (String c a, b)) <$> dot_splits s') ++
      (if decide (c = DOT) then [("", s')] else [])
  end.

(** The submatches of [^(.+)\.(.+)\.(.+)$]: the greedy first group takes the
    longest prefix that leaves two more non-empty parts; [.] does not match
    a newline. *)
Definition match_two (s : string) : option (string * string) :=
  head (filter (λ '(a, b), a ≠ "" ∧ b ≠ "") (dot_splits s)).
Definition validFormat (fqn : string) : option (string * string * string) :=
  if bool_decide (no_byte NL fqn) then
    head (omap (λ '(a, rest),
      if bool_decide (a = "") then None
      else '(b, c) ← match_two rest; Some (a, b, c)) (dot_splits fqn))
  else None.

Definition sort_strings (l : list string) : list string := merge_sort (λ a b, String.le a b) l.

Definition formatDatabaseError {A} (subject : string) (dbs : gset string) : go A :=
  Err ("All " +:+ subject +:+ " should belong to the same database. Found databases: "
       +:+ Join (sort_strings (elements dbs)) ", ").

Definition table_format_error (f : string) : string :=
  "Table " +:+ f +:+ " is not correctly fully-qualified.  Please ensure that it is in the format database.schema.table.".
Definition schema_format_error (s : string) : string :=
  "Schema " +:+ s +:+ " is not correctly fully-qualified.  Please ensure that it is in the format database.schema.".

Definition validateTables (title : string) (tableList : list string) : go (list DbTable) :=
  let! result := go_map (λ f,
    match validFormat f with
    | None => Err (table_format_error f)
    | Some (db, s, t) => Ok {| tbl_Database := db; tbl_Table := mkTable s t |}
    end) tableList in
  let dbs : gset string := list_to_set (tbl_Database <$> result) in
  if bool_decide (1 < size dbs) then formatDatabaseError title dbs else Ok result.

Definition parse_schema (schema : string) : go DbSchema :=
  let sl := Split schema DOT in
  if bool_decide (length sl ≠ 2) then Err (schema_format_error schema)
  else
    let! db := index sl 0 in
    let! s := index sl 1 in
    Ok {| sch_Database := db; sch_Schema := s |}.
Definition validateSchemas (schemas : list string) : go (list DbSchema) :=
  let! result := go_map parse_schema schemas in
  let dbs : gset string := list_to_set (sch_Database <$> result) in
  if bool_decide (1 < size dbs) then formatDatabaseError "schemas" dbs else Ok result.

(** * Construction *)

Section new_option.
Context `{FlagSet F} (Open : string → go string).

Definition getDbNames (flags : F) (flagName : string) : go (list string) :=
  GetStringSlice flags flagName.

Definition getTables (flags : F) (tableFlag fileFlag title : string) : go (list DbTable) :=
  let! tables := GetStringSlice flags tableFlag in
  let! tables :=
    if bool_decide (length tables = 0)
    then let! t := ReadTableFileByFlag Open flags fileFlag in Ok (default [] t)
    else Ok tables in
  validateTables title tables.

(** [getSchemas]; the new value of the copy mode is part of the result. *)
Definition getSchemas (flags : F) (mode : copy_mode) : go (list DbSchema * list DbSchema * copy_mode) :=
  let! schemas := GetStringSlice flags SCHEMA in
  let mode := if bool_decide (0 < length schemas) then CopyModeSchema else mode in
  let! sourceSchemas := validateSchemas schemas in
  let! schemas := GetStringSlice flags DEST_SCHEMA in
  let! destSchemas := validateSchemas schemas in
  if bool_decide (length sourceSchemas = 0) then
    let! schemaContent := ReadTableFileByFlag Open flags SCHEMA_MAPPING_FILE in
    let! (ss, ds) := ParseSchemaMappingFile schemaContent in
    if bool_decide (0 < length ss) then
      let! sourceSchemas := validateSchemas ss in
      let! destSchemas := validateSchemas ds in
      Ok (sourceSchemas, destSchemas, CopyModeSchema)
    else Ok (sourceSchemas, destSchemas, mode)
  else Ok (sourceSchemas, destSchemas, mode).

Definition getMapping (flags : F) (fileFlag : string) : go (gmap string string) :=
  let! lines := ReadTableFileByFlag Open flags fileFlag in
  ParseMappingFile (default [] lines).
Definition getOwnerMap (flags : F) : go (gmap string string) := getMapping flags OWNER_MAPPING_FILE.
Definition getTablespaceMap (flags : F) : go (gmap string string) := getMapping flags TABLESPACE_MAPPING_FILE.

(** [v, _ := flags.GetBool(name); v]. *)
Definition bool_or_false (m : go bool) : bool := match m with Ok b => b | _ => false end.

Definition NewOption (initialFlags : F) : go Option_ :=
  let! connectionMode := GetString initialFlags CONNECTION_MODE in
  let! sourceDbnames := getDbNames initialFlags DBNAME in
  let copyMode := if bool_decide (0 < length sourceDbnames) then CopyModeDb else CopyModeFull in
  let! destDbnames := getDbNames initialFlags DEST_DBNAME in
  let! excludeTables := getTables initialFlags EXCLUDE_TABLE EXCLUDE_TABLE_FILE "exclude table" in
  let! (sourceSchemas, destSchemas, copyMode) := getSchemas initialFlags copyMode in
  let! includeTables := getTables initialFlags INCLUDE_TABLE INCLUDE_TABLE_FILE "include table" in
  let copyMode := if bool_decide (0 < length includeTables) then CopyModeTable else copyMode in
  let! destTables := getTables initialFlags DEST_TABLE DEST_TABLE_FILE "dest table" in
  let tableMode := if bool_or_false (GetBool initialFlags APPEND) then TableModeAppend else TableModeTruncate in
  let tableMode := if bool_or_false (GetBool initialFlags SKIP_EXISTING) then TableModeSkipExisting else tableMode in
  let! ownerMap := getOwnerMap initialFlags in
  let! tablespaceMap := getTablespaceMap initialFlags in
  Ok {| copyMode := copyMode; tableMode := tableMode; connectionMode := connectionMode;
        sourceDbnames := sourceDbnames; destDbnames := destDbnames;
        excludedTables := excludeTables; includedTables := includeTables; destTables := destTables;
        sourceSchemas := sourceSchemas; destSchemas := destSchemas;
        ownerMap := ownerMap; tablespaceMap := tablespaceMap;
        destDbInventory := ∅; destDbRootParts := ∅ |}.

(** [MakeIncludeOptions]; the results of [Set] are not looked at, so a refused
    value leaves the flag set as it is. *)
Definition Set_ignore (flags : F) (name value : string) : F :=
  match SetFlag flags name value with Ok flags' => flags' | _ => flags end.
Definition MakeIncludeOptions (initialFlags : F) (testTableName : string) : F :=
  let f := Set_ignore initialFlags COPY_JOBS "1" in
  let f := Set_ignore f METADATA_JOBS "1" in
  let f := Set_ignore f METADATA_ONLY "true" in
  let f := Set_ignore f WITH_GLOBAL_METADATA "true" in
  let f := Set_ignore f INCLUDE_TABLE ("postgres." +:+ testTableName) in
  Set_ignore f TRUNCATE "true".
End new_option.

(** * Queries on the options *)

(** [GetSchemaMap]: the destination schemas are indexed by the position of the
    source schema. *)
Fixpoint schema_map_from (dest : list DbSchema) (i : nat) (results : gmap string string)
    (source : list DbSchema) : go (gmap string string) :=
  match source with
  | [] => Ok results
  | v :: source' =>
      let! d := index dest i in
      schema_map_from dest (S i) (<[sch_Schema v := sch_Schema d]> results) source'
  end.
Definition GetSchemaMap (o : Option_) : go (gmap string string) :=
  schema_map_from (destSchemas o) 0 ∅ (sourceSchemas o).

Definition getTablesByDb (dbname : string) (tables : list DbTable) : list Table :=
  (λ t, {| Schema := Schema (tbl_Table t); Name := Name (tbl_Table t);
           Partition := Partition (tbl_Table t); RelTuples := 0; IsReplicated := false |})
  <$> filter (λ t, dbname = tbl_Database t) tables.
Definition GetIncludeTablesByDb (o : Option_) (dbname : string) : list Table := getTablesByDb dbname (includedTables o).
Definition GetDestTablesByDb (o : Option_) (dbname : string) : list Table := getTablesByDb dbname (destTables o).
Definition GetExclTablesByDb (o : Option_) (dbname : string) : list Table := getTablesByDb dbname (excludedTables o).
Definition GetIncludePartTablesByDb (o : Option_) (dbname : string) : list Table :=
  (λ t, {| Schema := Schema t; Name := Name t; Partition := Partition t; RelTuples := 0; IsReplicated := false |})
  <$> filter (λ t, Partition t = 1%Z) (getTablesByDb dbname (includedTables o)).

Definition GetTblSourceDbnames (o : Option_) : go (list string) :=
  let! t := index (includedTables o) 0 in Ok [tbl_Database t].
Definition GetTblDestDbnames `{MapRange} (o : Option_) : list string :=
  let dbMap : gmap string bool := foldl (λ m v, <[tbl_Database v := true]> m) ∅ (destTables o) in
  (range_map 436 dbMap).*1.

(** [markTables] updates the tables through the pointers of the slice; it
    returns the slice it leaves. *)
Definition mark_table (dbname : string) (userTables : gmap string TableStatistics)
    (partTables : gmap string bool) (t : DbTable) : DbTable :=
  if bool_decide (dbname ≠ tbl_Database t) then t
  else
    let k := fqn (tbl_Table t) in
    let set_part p :=
      {| tbl_Database := tbl_Database t;
         tbl_Table := {| Schema := Schema (tbl_Table t); Name := Name (tbl_Table t); Partition := p;
                         RelTuples := RelTuples (tbl_Table t); IsReplicated := IsReplicated (tbl_Table t) |} |} in
    if bool_decide (is_Some (userTables !! k)) then set_part 0%Z
    else if bool_decide (is_Some (partTables !! k)) then set_part 1%Z
    else t.
Definition markTables (dbname : string) (tables : list DbTable) (userTables : gmap string TableStatistics)
    (partTables : gmap string bool) : list DbTable :=
  mark_table dbname userTables partTables <$> tables.

Definition MarkIncludeTables (o : Option_) dbname userTables partTables : Option_ :=
  {| copyMode := copyMode o; tableMode := tableMode o; connectionMode := connectionMode o;
     sourceDbnames := sourceDbnames o; destDbnames := destDbnames o;
     excludedTables := excludedTables o;
     includedTables := markTables dbname (includedTables o) userTables partTables;
     destTables := destTables o; sourceSchemas := sourceSchemas o; destSchemas := destSchemas o;
     ownerMap := ownerMap o; tablespaceMap := tablespaceMap o;
     destDbInventory := destDbInventory o; destDbRootParts := destDbRootParts o |}.
Definition MarkExcludeTables (o : Option_) dbname userTables partTables : Option_ :=
  {| copyMode := copyMode o; tableMode := tableMode o; connectionMode := connectionMode o;
     sourceDbnames := sourceDbnames o; destDbnames := destDbnames o;
     excludedTables := markTables dbname (excludedTables o) userTables partTables;
     includedTables := includedTables o;
     destTables := destTables o; sourceSchemas := sourceSchemas o; destSchemas := destSchemas o;
     ownerMap := ownerMap o; tablespaceMap := tablespaceMap o;
     destDbInventory := destDbInventory o; destDbRootParts := destDbRootParts o |}.
Definition MarkDestTables (o : Option_) dbname (userTables : gmap string TableStatistics)
    (partTables : gmap string bool) : Option_ :=
  {| copyMode := copyMode o; tableMode := tableMode o; connectionMode := connectionMode o;
     sourceDbnames := sourceDbnames o; destDbnames := destDbnames o;
     excludedTables := excludedTables o; includedTables := includedTables o;
     destTables := markTables dbname (destTables o) userTables partTables;
     sourceSchemas := sourceSchemas o; destSchemas := destSchemas o;
     ownerMap := ownerMap o; tablespaceMap := tablespaceMap o;
     destDbInventory := <[dbname := dom userTables]> (destDbInventory o);
     destDbRootParts := <[dbname := dom partTables]> (destDbRootParts o) |}.

Definition IsDestTableExisting (o : Option_) (destDbName destSchema destName : string) : bool :=
  let fqn := destSchema +:+ "." +:+ destName in
  (match destDbInventory o !! destDbName with
   | Some inv => bool_decide (fqn ∈ inv)
   | None => false
   end) ||
  (match destDbRootParts o !! destDbName with
   | Some parts => bool_decide (fqn ∈ parts)
   | None => false
   end).

Definition TranslateToDestFQN (o : Option_) (srcSchema srcName : string) : go (string * string) :=
  let! schemaMap := GetSchemaMap o in
  match schemaMap !! srcSchema with
  | Some destSchema => if bool_decide (destSchema ≠ "") then Ok (destSchema, srcName) else Ok (srcSchema, srcName)
  | None => Ok (srcSchema, srcName)
  end.

Definition IsBaseTableMode (o : Option_) : bool :=
  bool_decide (copyMode o = CopyModeTable) && bool_decide (length (destTables o) = 0).

Definition ContainsMetadata (metadataOnly dataOnly : bool) : bool :=
  if metadataOnly || (negb metadataOnly && negb dataOnly) then true else false.

(** [GetTablespaceMap]: the map of the options is shared, so the entry for
    [--dest-tablespace] stays in it; the new options are part of the result. *)
Definition GetTablespaceMap `{FlagSet F} (CmdFlags : F) (o : Option_) : go (gmap string string * Option_) :=
  let! destTablespace := MustGetFlagString CmdFlags DEST_TABLESPACE in
  if bool_decide (0 < len destTablespace) then
    if bool_decide (size (tablespaceMap o) ≠ 0) then Fatal "The tablespace map must be empty."
    else
      let m := <[destTablespace := ""]> (tablespaceMap o) in
      Ok (m, {| copyMode := copyMode o; tableMode := tableMode o; connectionMode := connectionMode o;
                sourceDbnames := sourceDbnames o; destDbnames := destDbnames o;
                excludedTables := excludedTables o; includedTables := includedTables o;
                destTables := destTables o; sourceSchemas := sourceSchemas o; destSchemas := destSchemas o;
                ownerMap := ownerMap o; tablespaceMap := m;
                destDbInventory := destDbInventory o; destDbRootParts := destDbRootParts o |})
  else Ok (tablespaceMap o, o).

Definition validatePartTables (title : string) (tables : list DbTable)
    (userTables : gmap string TableStatistics) (dbname : string) : go () :=
  go_fold (λ _ t,
    let k := fqn (tbl_Table t) in
    if bool_decide (Partition (tbl_Table t) = 1%Z)
    then Fatal ("Found partition root table: " +:+ dbname +:+ "." +:+ k +:+ " in " +:+ title +:+ " list")
    else if bool_decide (is_Some (userTables !! k)) then Ok ()
    else Fatal (title +:+ " " +:+ k +:+ " does not exists on " +:+ dbname +:+ " database")) () tables.
Definition ValidateIncludeTables (o : Option_) userTables dbname : go () :=
  validatePartTables "include table" (includedTables o) userTables dbname.
Definition ValidateExcludeTables (o : Option_) userTables dbname : go () :=
  validatePartTables "exclude table" (excludedTables o) userTables dbname.
Definition ValidateDestTables (o : Option_) userTables dbname : go () :=
  validatePartTables "dest table" (destTables o) userTables dbname.

(** * Lemmas on names *)

Lemma dot_splits_app a b : no_byte DOT b →
  dot_splits (a +:+ String DOT b) = (a, b) :: ((λ '(x, y), (x, y +:+ String DOT b)) <$> dot_splits a).
Proof.
  intros Hb. assert (Hnil : dot_splits b = []).
  { induction b as [|c b IH]; [done|]. apply no_byte_String in Hb as [Hne Hb]. simpl.
    by rewrite IH, decide_False. }
  induction a as [|c a IH].
  - rewrite append_Empty. simpl. by rewrite Hnil.
  - rewrite append_String. simpl. rewrite IH. simpl. f_equal. rewrite fmap_app. f_equal.
    + rewrite <- !list_fmap_compose. apply list_fmap_ext. by intros ? [].
    + by case_decide.
Qed.

Lemma match_two_app a b : a ≠ "" → b ≠ "" → no_byte DOT b → match_two (a +:+ String DOT b) = Some (a, b).
Proof.
  intros Ha Hb Hdot. unfold match_two. rewrite dot_splits_app by done.
  by rewrite filter_cons_True.
Qed.

Lemma dot_splits_elem a b s : (a, b) ∈ dot_splits s → s = a +:+ String DOT b.
Proof.
  revert a b. induction s as [|c s IH]; intros a b; simpl; [set_solver|].
  rewrite elem_of_app, list_elem_of_fmap. intros [([x y] & [= -> ->] & Hxy)|Hhd].
  - rewrite append_String. by rewrite (IH _ _ Hxy).
  - case_decide as Hc; [|set_solver]. apply list_elem_of_singleton in Hhd. by simplify_eq.
Qed.

Lemma match_two_None b : no_byte DOT b → match_two b = None.
Proof.
  intros Hb. unfold match_two. enough (Hn : dot_splits b = []) by (by rewrite Hn).
  destruct (dot_splits b) as [|[x y] l] eqn:Hs; [done|].
  assert (Hin : (x, y) ∈ dot_splits b) by (rewrite Hs; set_solver).
  apply dot_splits_elem in Hin. subst. unfold no_byte in Hb. rewrite bytes_append in Hb.
  simpl in Hb. set_solver.
Qed.

(** A name [database.schema.table] is taken apart at its last two dots: the
    database may contain dots, the schema and the table may not. *)
Lemma validFormat_app db s t :
  db ≠ "" → s ≠ "" → t ≠ "" → no_byte DOT s → no_byte DOT t →
  no_byte NL (db +:+ String DOT (s +:+ String DOT t)) →
  validFormat (db +:+ String DOT (s +:+ String DOT t)) = Some (db, s, t).
Proof.
  intros Hdb Hs Ht Hds Hdt Hnl. unfold validFormat. rewrite bool_decide_true by done.
  replace (db +:+ String DOT (s +:+ String DOT t)) with ((db +:+ String DOT s) +:+ String DOT t)
    by (by rewrite append_assoc, append_String).
  rewrite dot_splits_app by done. cbn [omap list_omap].
  rewrite bool_decide_false by (by destruct db). rewrite match_two_None by done.
  cbn [mbind option_bind]. rewrite dot_splits_app by done. simpl.
  rewrite bool_decide_false by done. by rewrite match_two_app.
Qed.

(** * Lemmas on the schema map *)

Lemma schema_map_from_spec dest i results source :
  schema_map_from dest i results source =
  if bool_decide (length source ≤ length dest - i)
  then Ok (foldl (λ m '(s, d), <[sch_Schema s := sch_Schema d]> m) results (zip source (drop i dest)))
  else Panic "index out of range".
Proof.
  revert i results. induction source as [|v source IH]; intros i results.
  { rewrite bool_decide_true by (simpl; lia). done. }
  cbn [schema_map_from]. unfold index. destruct (dest !! i) as [d|] eqn:Hd; simpl.
  - rewrite IH. pose proof (lookup_lt_Some _ _ _ Hd). rewrite (drop_S dest d i) by done.
    case_bool_decide; [rewrite bool_decide_true by lia|rewrite bool_decide_false by lia]; done.
  - apply lookup_ge_None in Hd. by rewrite bool_decide_false by lia.
Qed.

Lemma GetSchemaMap_spec o :
  GetSchemaMap o =
  if bool_decide (length (sourceSchemas o) ≤ length (destSchemas o))
  then Ok (foldl (λ m '(s, d), <[sch_Schema s := sch_Schema d]> m) ∅ (zip (sourceSchemas o) (destSchemas o)))
  else Panic "index out of range".
Proof. unfold GetSchemaMap. rewrite schema_map_from_spec. by rewrite Nat.sub_0_r. Qed.

(** A source schema that is listed once is mapped to the destination schema at
    its position. *)
Lemma GetSchemaMap_lookup o i s d :
  length (sourceSchemas o) ≤ length (destSchemas o) → NoDup (sch_Schema <$> sourceSchemas o) →
  sourceSchemas o !! i = Some s → destSchemas o !! i = Some d →
  ∃ m, GetSchemaMap o = Ok m ∧ m !! sch_Schema s = Some (sch_Schema d).
Proof.
  intros Hlen Hnd Hs Hd. rewrite GetSchemaMap_spec, bool_decide_true by done. eexists. split; [done|].
  set (step := λ (m : gmap string string) '(s, d), <[sch_Schema s:=sch_Schema d]> m).
  assert (Hskip : ∀ l (m : gmap string string), sch_Schema s ∉ (λ p, sch_Schema p.1) <$> l →
    foldl step m l !! sch_Schema s = m !! sch_Schema s).
  { induction l as [|[s' d'] l IHl]; intros m Hni; [done|]. simpl. rewrite IHl by set_solver.
    unfold step. rewrite lookup_insert_ne; [done|]. set_solver. }
  assert (Hzip : zip (sourceSchemas o) (destSchemas o) !! i = Some (s, d))
    by (rewrite lookup_zip_with, Hs; simpl; by rewrite Hd).
  rewrite <- (take_drop_middle _ _ _ Hzip), foldl_app. simpl. rewrite Hskip; [by rewrite lookup_insert_eq|].
  intros Hin. apply list_elem_of_fmap in Hin as ([s' d'] & Heq & Hin).
  apply list_elem_of_lookup in Hin as (j & Hj). rewrite lookup_drop, lookup_zip_with in Hj.
  destruct (sourceSchemas o !! (S i + j)) as [s2|] eqn:Hs2; simplify_eq/=.
  destruct (destSchemas o !! (S (i + j))); simplify_eq/=.
  enough (i = S i + j) by lia. eapply (NoDup_lookup (sch_Schema <$> sourceSchemas o)); [done| |].
  - rewrite list_lookup_fmap, Hs. done.
  - rewrite list_lookup_fmap. simpl in Hs2 |- *. rewrite Hs2. simpl. by rewrite Heq.
Qed.

(** * The destination inventory *)

(** After [MarkDestTables] a table of that database exists exactly when it is
    among the user tables or the partition roots found there, and the answers
    for other databases do not change. *)
Lemma IsDestTableExisting_MarkDestTables o db users parts db' s n :
  IsDestTableExisting (MarkDestTables o db users parts) db' s n =
  if decide (db' = db)
  then bool_decide (s +:+ "." +:+ n ∈ dom users ∨ s +:+ "." +:+ n ∈ dom parts)
  else IsDestTableExisting o db' s n.
Proof.
  unfold IsDestTableExisting, MarkDestTables. cbn [destDbInventory destDbRootParts].
  destruct (decide (db' = db)) as [->|Hne].
  - rewrite !lookup_insert_eq. by rewrite <- bool_decide_or.
  - by rewrite !lookup_insert_ne.
Qed.

Lemma mark_table_fqn db users parts t : fqn (tbl_Table (mark_table db users parts t)) = fqn (tbl_Table t).
Proof. unfold mark_table. by repeat case_bool_decide. Qed.

(** * The copy mode *)

Lemma go_map_length {A B} (f : A → go B) l l' : go_map f l = Ok l' → length l' = length l.
Proof. rewrite go_map_Ok. intros Hf. symmetry. by apply Forall2_length in Hf. Qed.

Lemma validateSchemas_length schemas l : validateSchemas schemas = Ok l → length l = length schemas.
Proof.
  unfold validateSchemas. intros (r & Hr & Hl)%bind_Ok. apply go_map_length in Hr.
  case_bool_decide; [done|]. by simplify_eq.
Qed.

Lemma length_zero_nil {A} (l : list A) : bool_decide (0 < length l) = bool_decide (l ≠ []).
Proof. apply bool_decide_ext. destruct l; simpl; split; try done; lia. Qed.

Lemma getSchemas_mode {F} `{FlagSet F} Open (flags : F) mode ss ds mode' :
  getSchemas Open flags mode = Ok (ss, ds, mode') →
  mode' = if bool_decide (ss ≠ []) then CopyModeSchema else mode.
Proof.
  unfold getSchemas. intros (sl & _ & Hg)%bind_Ok. apply bind_Ok in Hg as (src & Hsrc & Hg).
  apply validateSchemas_length in Hsrc. apply bind_Ok in Hg as (dl & _ & Hg).
  apply bind_Ok in Hg as (dst & _ & Hg). rewrite <- Hsrc, length_zero_nil in Hg.
  case_bool_decide as Hlen; [|by simplify_eq].
  apply nil_length_inv in Hlen as ->. rewrite bool_decide_false in Hg by (intros Hne; by apply Hne).
  apply bind_Ok in Hg as (content & _ & Hg). apply bind_Ok in Hg as ([ms md] & _ & Hg).
  rewrite length_zero_nil in Hg. case_bool_decide as Hms; [|by simplify_eq].
  apply bind_Ok in Hg as (src' & Hsrc' & Hg). apply validateSchemas_length in Hsrc'.
  apply bind_Ok in Hg as (dst' & _ & Hg). simplify_eq.
  rewrite bool_decide_true; [done|]. intros ->. by destruct ms.
Qed.

(** * Theorems *)

(** The copy mode is decided by the flags in the order table, schema,
    database, full: the options record [CopyModeTable] exactly when tables are
    included, otherwise [CopyModeSchema] exactly when schemas are selected,
    otherwise [CopyModeDb] exactly when databases are named. *)
Theorem NewOption_copyMode {F} `{FlagSet F} (Open : string → go string) (flags : F) (o : Option_)
    (Hnew : NewOption Open flags = Ok o) :
  copyMode o =
    if bool_decide (includedTables o ≠ []) then CopyModeTable
    else if bool_decide (sourceSchemas o ≠ []) then CopyModeSchema
    else if bool_decide (sourceDbnames o ≠ []) then CopyModeDb
    else CopyModeFull.
Proof.
  unfold NewOption in Hnew. apply bind_Ok in Hnew as (cm & _ & Hnew).
  apply bind_Ok in Hnew as (sdb & _ & Hnew). apply bind_Ok in Hnew as (ddb & _ & Hnew).
  apply bind_Ok in Hnew as (ex & _ & Hnew). apply bind_Ok in Hnew as ([[ss ds] mode] & Hmode & Hnew).
  apply getSchemas_mode in Hmode. apply bind_Ok in Hnew as (inc & _ & Hnew).
  apply bind_Ok in Hnew as (dt & _ & Hnew). apply bind_Ok in Hnew as (om & _ & Hnew).
  apply bind_Ok in Hnew as (tm & _ & Hnew). injection Hnew as <-.
  cbn [copyMode includedTables sourceSchemas sourceDbnames].
  rewrite !length_zero_nil in *. by rewrite Hmode.
Qed.

(** Flags as the command line leaves them: defaults of the flags the options
    read, and the arguments given. *)
Definition option_flags (args : list (string * string)) : flag_map :=
  let decl := foldl (λ m n, StringSlice m n []) ∅
    [DBNAME; DEST_DBNAME; EXCLUDE_TABLE; INCLUDE_TABLE; DEST_TABLE; SCHEMA; DEST_SCHEMA] in
  let decl := foldl (λ m n, String_ m n "") decl
    [EXCLUDE_TABLE_FILE; INCLUDE_TABLE_FILE; DEST_TABLE_FILE; SCHEMA_MAPPING_FILE;
     OWNER_MAPPING_FILE; TABLESPACE_MAPPING_FILE; DEST_TABLESPACE] in
  let decl := String_ (Bool (Bool decl APPEND false) SKIP_EXISTING false) CONNECTION_MODE "push" in
  foldl (λ m '(n, v), Set_ignore m n v) decl args.
Definition no_files : string → go string := λ n, Err ("open " +:+ n +:+ ": no such file or directory").

Definition default_option : Option_ :=
  {| copyMode := CopyModeFull; tableMode := TableModeTruncate; connectionMode := "push";
     sourceDbnames := []; destDbnames := []; excludedTables := []; includedTables := []; destTables := [];
     sourceSchemas := []; destSchemas := []; ownerMap := ∅; tablespaceMap := ∅;
     destDbInventory := ∅; destDbRootParts := ∅ |}.
Definition the_option (m : go Option_) : Option_ := match m with Ok o => o | _ => default_option end.

Definition schema_args : flag_map := option_flags [(SCHEMA, "db.s1,db.s2"); (SKIP_EXISTING, "true")].

Lemma NewOption_copyMode_witness :
  ∃ o, NewOption no_files schema_args = Ok o ∧ copyMode o = CopyModeSchema.
Proof.
  exists (the_option (NewOption no_files schema_args)).
  assert (Hnew : NewOption no_files schema_args = Ok (the_option (NewOption no_files schema_args)))
    by (vm_compute; reflexivity).
  split; [exact Hnew|]. rewrite (NewOption_copyMode _ _ _ Hnew). vm_compute. reflexivity.
Defined.

(** With source schemas selected and fewer destination schemas than source
    schemas, as after [--schema] without [--dest-schema], translating any name
    to the destination is a run-time panic instead of the unchanged name. *)
Lemma TranslateToDestFQN_panics (o : Option_) (srcSchema srcName : string)
    (Hfew : length (destSchemas o) < length (sourceSchemas o)) :
  TranslateToDestFQN o srcSchema srcName = Panic "index out of range".
Proof. unfold TranslateToDestFQN. rewrite GetSchemaMap_spec, bool_decide_false by lia. done. Qed.

(** A translated name with a complete schema list. *)
Lemma TranslateToDestFQN_mapped o i s d n :
  length (sourceSchemas o) ≤ length (destSchemas o) → NoDup (sch_Schema <$> sourceSchemas o) →
  sourceSchemas o !! i = Some s → destSchemas o !! i = Some d → sch_Schema d ≠ "" →
  TranslateToDestFQN o (sch_Schema s) n = Ok (sch_Schema d, n).
Proof.
  intros Hlen Hnd Hs Hd Hne. destruct (GetSchemaMap_lookup o i s d) as (m & Hm & Hlk); [done..|].
  unfold TranslateToDestFQN. rewrite Hm. simpl. rewrite Hlk. by rewrite bool_decide_true.
Qed.

Lemma TranslateToDestFQN_full o s n :
  sourceSchemas o = [] → TranslateToDestFQN o s n = Ok (s, n).
Proof. intros Hs. unfold TranslateToDestFQN, GetSchemaMap. rewrite Hs. simpl. by rewrite lookup_empty. Qed.

(** With [--dest-tablespace] the first call of [GetTablespaceMap] returns a
    map of that one tablespace and leaves it in the options, and every later
    call, one per further database, is fatal. *)
Theorem GetTablespaceMap_second_call_fatal {F} `{FlagSet F} (CmdFlags : F) (o : Option_) (ts : string)
    (Hts : GetString CmdFlags DEST_TABLESPACE = Ok ts) (Hne : ts ≠ "")
    (Hempty : tablespaceMap o = ∅) :
  ∃ o', GetTablespaceMap CmdFlags o = Ok ({[ts := ""]}, o') ∧
        GetTablespaceMap CmdFlags o' = Fatal "The tablespace map must be empty.".
Proof.
  unfold GetTablespaceMap, MustGetFlagString. rewrite Hts. cbn [FatalOnError mbind go_bind].
  rewrite bool_decide_true by (destruct ts; [done|]; unfold len; simpl; lia).
  rewrite Hempty. rewrite map_size_empty, bool_decide_false by (intros Hz; by apply Hz).
  eexists. split; [by rewrite insert_empty|]. cbn [tablespaceMap].
  rewrite bool_decide_true; [done|]. rewrite ?insert_empty. by rewrite map_size_singleton.
Qed.

Definition tablespace_args : flag_map := option_flags [(DBNAME, "a,b"); (DEST_TABLESPACE, "ts")].
Lemma GetTablespaceMap_second_call_fatal_witness :
  let o := the_option (NewOption no_files tablespace_args) in
  ∃ o', GetTablespaceMap tablespace_args o = Ok ({["ts" := ""]}, o') ∧
        GetTablespaceMap tablespace_args o' = Fatal "The tablespace map must be empty.".
Proof.
  intros o. apply GetTablespaceMap_second_call_fatal; [vm_compute; reflexivity|done|vm_compute; reflexivity].
Defined.
