(* ===== verification/Validator.v ===== *)
(** The flags of the command line ([copy/copy.go], [SetFlagDefaults]) and their
    validation ([copy/copy_validator.go]). *)
From S2P Require Import Prelude Utils Options.

(** * The flags *)

(** [SetFlagDefaults]: the declarations in their order. *)
Definition flag_defaults : list (string * flag_value) := [
  (APPEND, FBool false); (DBNAME, FStringSlice []); (DEBUG, FBool false);
  (DEST_DBNAME, FStringSlice []); (DEST_HOST, FString "127.0.0.1"); (DEST_PORT, FInt 5432);
  (DEST_TABLE, FStringSlice []); (DEST_TABLE_FILE, FString ""); (DEST_USER, FString "gpadmin");
  (EXCLUDE_TABLE, FStringSlice []); (EXCLUDE_TABLE_FILE, FString ""); (FULL, FBool false);
  ("help", FBool false); (INCLUDE_TABLE, FStringSlice []); (INCLUDE_TABLE_FILE, FString "");
  (COPY_JOBS, FInt 4); (METADATA_JOBS, FInt 2); (METADATA_ONLY, FBool false);
  (GLOBAL_METADATA_ONLY, FBool false); (DATA_ONLY, FBool false); (WITH_GLOBAL_METADATA, FBool false);
  (COMPRESSION, FBool false); (COMPRESS_TYPE, FString "zstd"); (ON_SEGMENT_THRESHOLD, FInt 1000000);
  (QUIET, FBool false); (SOURCE_HOST, FString "127.0.0.1"); (SOURCE_PORT, FInt 5432);
  (SOURCE_USER, FString "gpadmin"); (SKIP_EXISTING, FBool false); (TRUNCATE, FBool false);
  (SCHEMA, FStringSlice []); (DEST_SCHEMA, FStringSlice []); (VERBOSE, FBool false);
  (VALIDATE, FBool true); (SCHEMA_MAPPING_FILE, FString ""); (OWNER_MAPPING_FILE, FString "");
  (DEST_TABLESPACE, FString ""); (TABLESPACE_MAPPING_FILE, FString ""); ("version", FBool false);
  (DATA_PORT_RANGE, FString "1024-65535"); (CONNECTION_MODE, FString "push") ].

Definition declare_default `{FlagSet F} (flagSet : F) (nv : string * flag_value) : F :=
  match nv.2 with
  | FBool b => Bool flagSet nv.1 b
  | FInt z => Int flagSet nv.1 z
  | FString s => String_ flagSet nv.1 s
  | FStringSlice l => StringSlice flagSet nv.1 l
  end.
Definition SetFlagDefaults `{FlagSet F} (flagSet : F) : F := foldl declare_default flagSet flag_defaults.

(** [setLoggerVerbosity]; [None] leaves the logger as it is. *)
Inductive verbosity := LOGERROR | LOGDEBUG | LOGVERBOSE.
Definition setLoggerVerbosity `{FlagSet F} (CmdFlags : F) : go (option verbosity) :=
  let! quiet := MustGetFlagBool CmdFlags QUIET in
  if (quiet : bool) then Ok (Some LOGERROR)
  else
    let! debug := MustGetFlagBool CmdFlags DEBUG in
    if (debug : bool) then Ok (Some LOGDEBUG)
    else
      let! verbose := MustGetFlagBool CmdFlags VERBOSE in
      if (verbose : bool) then Ok (Some LOGVERBOSE) else Ok None.

(** * The validators *)

Definition excludedDb : list string := ["template0"; "template1"].

(** [a && b] where [b] may call [gplog.Fatal]. *)
Definition and_then (a : bool) (b : go bool) : go bool := if a then b else Ok false.
(** [if cond { return &ValidationError{msg} }]. *)
Definition reject_if (cond : bool) (msg : string) : go () := if cond then Err msg else Ok ().

Section validators.
Context `{FlagSet F} (Open : string → go string) (flags : F).

#[local] Abbreviation slice := (MustGetFlagStringSlice flags).
#[local] Abbreviation str := (MustGetFlagString flags).
#[local] Abbreviation boolean := (MustGetFlagBool flags).

(** [srcNum == 0 && len(INCLUDE_TABLE) == 0 && len(INCLUDE_TABLE_FILE) == 0]. *)
Definition no_source (srcNum : nat) : go bool :=
  and_then (bool_decide (srcNum = 0))
    (let! inc := slice INCLUDE_TABLE in
     and_then (bool_decide (length inc = 0))
       (let! file := str INCLUDE_TABLE_FILE in Ok (bool_decide (len file = 0)))).

Definition validateDatabase : go () :=
  let! srcDbs := slice DBNAME in
  let! destDbs := slice DEST_DBNAME in
  let srcNum := length srcDbs in
  let destNum := length destDbs in
  let! orphan := and_then (bool_decide (0 < destNum)) (no_source srcNum) in
  let! _ := reject_if orphan "Option[s] dest-dbname only supports with option dbname or include-table or include-table-file" in
  let! _ := reject_if (bool_decide (0 < destNum ∧ 0 < srcNum ∧ destNum ≠ srcNum))
    "The number of databases specified by dbname should be equal to that specified by dest-dbname" in
  let! _ := reject_if (ArrayIsDuplicated srcDbs) "Option dbname has duplicated items" in
  let! _ := reject_if (ArrayIsDuplicated destDbs) "Option dest-dbname has duplicated items" in
  let! file := str INCLUDE_TABLE_FILE in
  let! _ := reject_if (bool_decide (0 < len file ∧ 1 < destNum))
    "Only support one database in dest-dbname option when include-table-file is enable" in
  let! _ := go_fold (λ _ db, reject_if (slice_Exists excludedDb db) ("Cannot copy from " +:+ db +:+ " database")) () srcDbs in
  go_fold (λ _ db, reject_if (slice_Exists excludedDb db) ("Cannot copy to " +:+ db +:+ " database")) () destDbs.

Definition validateSchema : go () :=
  let! src := slice SCHEMA in
  let! dest := slice DEST_SCHEMA in
  let srcNum := length src in
  let destNum := length dest in
  let! orphan := and_then (bool_decide (0 < destNum)) (no_source srcNum) in
  let! _ := reject_if orphan "Option[s] dest-schema only supports with option schema or include-table or include-table-file" in
  let! _ := reject_if (bool_decide (0 < destNum ∧ 0 < srcNum ∧ destNum ≠ srcNum))
    "The number of schemas specified by schema should be equal to that specified by dest-schema" in
  let! _ := reject_if (ArrayIsDuplicated src) "Option schema has duplicated items" in
  let! _ := reject_if (ArrayIsDuplicated dest) "Option dest-schema has duplicated items" in
  let! file := str INCLUDE_TABLE_FILE in
  reject_if (bool_decide (0 < len file ∧ 1 < destNum))
    "Only support one schema in dest-schema option when include-table-file is enable".

Definition validateTableCombination (optSrcName optDestName : string) (srcTables destTables : list string) : go () :=
  let srcNum := length srcTables in
  let destNum := length destTables in
  let! _ := reject_if (bool_decide (0 < destNum ∧ srcNum = 0))
    ("Option[s] --" +:+ optDestName +:+ " option only supports with option --" +:+ optSrcName) in
  let! _ := reject_if (bool_decide (0 < destNum ∧ 0 < srcNum ∧ destNum ≠ srcNum))
    ("The number of table specified by --" +:+ optSrcName +:+ " should be equal to that specified by --" +:+ optDestName) in
  let! _ := reject_if (ArrayIsDuplicated destTables) ("Option " +:+ optDestName +:+ " has duplicated items") in
  reject_if (ArrayIsDuplicated srcTables) ("Option " +:+ optSrcName +:+ " has duplicated items").

(** [ReadTableFile] with its error wrapped in a [ValidationError]. *)
Definition read_or_reject (filename : string) : go (list string) :=
  match ReadTableFile Open filename with
  | Err e => Err ("failed to read file " +:+ filename +:+ ": " +:+ e)
  | m => m
  end.

Definition validateTable : go () :=
  let! include := slice INCLUDE_TABLE in
  let! dest := slice DEST_TABLE in
  let! _ := validateTableCombination INCLUDE_TABLE DEST_TABLE include dest in
  let! destFile := str DEST_TABLE_FILE in
  if bool_decide (0 < len destFile) then
    let! includeFile := str INCLUDE_TABLE_FILE in
    let! _ := reject_if (bool_decide (len includeFile = 0))
      "Option[s] --dest-table-file only supports with option --include-table-file" in
    let! srcTables := read_or_reject includeFile in
    let! destTables := read_or_reject destFile in
    validateTableCombination INCLUDE_TABLE_FILE DEST_TABLE_FILE srcTables destTables
  else Ok ().

Definition validateCopyMode : go () :=
  let! full := boolean FULL in
  let! none := and_then (negb full)
    (let! g := boolean GLOBAL_METADATA_ONLY in
     and_then (negb g)
       (let! schema := slice SCHEMA in
        and_then (bool_decide (length schema = 0))
          (let! db := slice DBNAME in
           and_then (bool_decide (length db = 0))
             (let! inc := slice INCLUDE_TABLE in
              and_then (bool_decide (length inc = 0))
                (let! incf := str INCLUDE_TABLE_FILE in
                 and_then (bool_decide (len incf = 0))
                   (let! map := str SCHEMA_MAPPING_FILE in Ok (bool_decide (len map = 0)))))))) in
  reject_if none "One and only one of the following flags must be specified: full, dbname, schema, include-table, include-table-file, global-metadata-only, schema-mapping-file".

Definition count_true (l : list bool) : nat := length (filter (λ b, b = true) l).

Definition validateTableMode : go () :=
  let! m := boolean METADATA_ONLY in
  let! metadata := (if (m : bool) then Ok true else boolean GLOBAL_METADATA_ONLY) in
  if (metadata : bool) then Ok ()
  else
    let! t := boolean TRUNCATE in
    let! a := boolean APPEND in
    let! s := boolean SKIP_EXISTING in
    reject_if (bool_decide (count_true [t; a; s] ≠ 1))
      "One and only one of the following flags must be specified: --truncate, --append, --skip-existing".

Definition validateMode : go () := let! _ := validateCopyMode in validateTableMode.

Definition validateOwnerMappingFile : go () :=
  let! ownerMappingFile := str OWNER_MAPPING_FILE in
  if bool_decide (0 < len ownerMappingFile) then
    let! dbname := slice DBNAME in
    let! schema := slice SCHEMA in
    let! inclTabFile := str INCLUDE_TABLE_FILE in
    let! schemaMapfile := str SCHEMA_MAPPING_FILE in
    reject_if (bool_decide (length dbname = 0 ∧ length schema = 0 ∧ len inclTabFile = 0 ∧ len schemaMapfile = 0))
      "Option[s] --owner-mapping-file only supports with option --dbname or --schema or --include-table-file or --schema-mapping-file"
  else Ok ().

Definition validateDataPortRange : go () :=
  let! dataPortRange := str DATA_PORT_RANGE in
  let sl := Split dataPortRange DASH in
  if bool_decide (length sl ≠ 2) then Err "invalid dash format"
  else
    let! first := index sl 0 in
    match Atoi first with
    | None => Err ("invalid integer format, " +:+ first)
    | Some _ =>
        let! second := index sl 1 in
        match Atoi second with
        | None => Err ("invalid integer format, " +:+ second)
        | Some _ => Ok ()
        end
    end.

Definition exclusiveGroups : list (list string) := [
  [DEBUG; QUIET];
  [FULL; DBNAME; SCHEMA; INCLUDE_TABLE; INCLUDE_TABLE_FILE; GLOBAL_METADATA_ONLY; SCHEMA_MAPPING_FILE];
  [METADATA_ONLY; GLOBAL_METADATA_ONLY; TRUNCATE; APPEND];
  [COPY_JOBS; METADATA_ONLY; GLOBAL_METADATA_ONLY];
  [METADATA_ONLY; GLOBAL_METADATA_ONLY; DEST_TABLE; DEST_TABLE_FILE];
  [EXCLUDE_TABLE; EXCLUDE_TABLE_FILE];
  [DEST_TABLE; DEST_TABLE_FILE];
  [INCLUDE_TABLE; INCLUDE_TABLE_FILE];
  [FULL; WITH_GLOBAL_METADATA];
  [METADATA_ONLY; GLOBAL_METADATA_ONLY; DATA_ONLY];
  [DATA_ONLY; WITH_GLOBAL_METADATA; GLOBAL_METADATA_ONLY];
  [DATA_ONLY; METADATA_JOBS; GLOBAL_METADATA_ONLY];
  [DEST_TABLE; DEST_TABLE_FILE; METADATA_JOBS; GLOBAL_METADATA_ONLY];
  [DEST_TABLE; DEST_TABLE_FILE; WITH_GLOBAL_METADATA; GLOBAL_METADATA_ONLY];
  [METADATA_ONLY; GLOBAL_METADATA_ONLY];
  [INCLUDE_TABLE_FILE; DEST_TABLE];
  [DEST_DBNAME; DEST_SCHEMA];
  [METADATA_ONLY; GLOBAL_METADATA_ONLY; DATA_ONLY];
  [TRUNCATE; APPEND];
  [METADATA_ONLY; GLOBAL_METADATA_ONLY];
  [GLOBAL_METADATA_ONLY; EXCLUDE_TABLE_FILE];
  [GLOBAL_METADATA_ONLY; ON_SEGMENT_THRESHOLD; METADATA_ONLY];
  [DEST_TABLE_FILE; DEST_DBNAME; DEST_SCHEMA; SCHEMA_MAPPING_FILE];
  [OWNER_MAPPING_FILE; DATA_ONLY];
  [DEST_TABLESPACE; DATA_ONLY; GLOBAL_METADATA_ONLY];
  [DEST_TABLESPACE; DEST_TABLE; DEST_TABLE_FILE];
  [TABLESPACE_MAPPING_FILE; DEST_TABLESPACE];
  [TABLESPACE_MAPPING_FILE; DATA_ONLY; GLOBAL_METADATA_ONLY];
  [TABLESPACE_MAPPING_FILE; DEST_TABLE; DEST_TABLE_FILE] ].

Definition validateExclusiveFlags (flagNames : list string) : go () :=
  let setFlags := filter (λ name, Changed flags name = true) flagNames in
  let numSet := length setFlags in
  reject_if (bool_decide (1 < numSet))
    ("The following flags may not be specified together: " +:+ Join setFlags ", ").

Definition validateFlagCombination : go () := go_fold (λ _ g, validateExclusiveFlags g) () exclusiveGroups.

Definition validateConnectionMode : go () :=
  let! connectionMode := str CONNECTION_MODE in
  reject_if (bool_decide (connectionMode ≠ ConnectionModePush ∧ connectionMode ≠ ConnectionModePull))
    ("Invalid connection mode '" +:+ connectionMode +:+ "'. Must be either 'push' or 'pull'").

Definition validateCompressType : go () :=
  let! compressType := str COMPRESS_TYPE in
  reject_if (bool_decide (compressType ≠ CompressTypeGzip ∧ compressType ≠ CompressTypeSnappy ∧ compressType ≠ CompressTypeZstd))
    ("Invalid compression type '" +:+ compressType +:+ "'. Must be one of: 'gzip', 'snappy', or 'zstd'").

(** [NewValidatorManager] and [ValidateAll]. *)
Definition validators : list (go ()) := [
  validateDatabase; validateSchema; validateTable; validateMode; validateDataPortRange;
  validateFlagCombination; validateOwnerMappingFile; validateConnectionMode; validateCompressType ].
Definition ValidateAll : go () := go_fold (λ _ v, v) () validators.

(** [doFlagValidation]. *)
Definition doFlagValidation : go () := FatalOnError ValidateAll.
End validators.

(** * Typing of the flags *)

Definition type_of (v : flag_value) : flag_type :=
  match v with
  | FBool _ => TBool | FInt _ => TInt | FString _ => TString | FStringSlice _ => TStringSlice
  end.

(** Every flag of the program answers the getter of its type. *)
Definition well_typed `{FlagSet F} (fs : F) : Prop :=
  ∀ n v, (n, v) ∈ flag_defaults → declared fs n (type_of v) = true.

(** The type a flag is declared with. *)
Definition has_type (n : string) (t : flag_type) : bool :=
  existsb (λ '(m, v), bool_decide (m = n) && bool_decide (type_of v = t)) flag_defaults.

Lemma has_type_declared `{FlagSet F} (fs : F) n t : well_typed fs → has_type n t = true → declared fs n t = true.
Proof.
  intros Hwt ([m v] & Hin%list_elem_of_In & [Hm Hv]%andb_true_iff)%existsb_exists.
  apply bool_decide_eq_true in Hm, Hv. subst. by apply Hwt.
Qed.

Section flag_typing.
Context `{FlagSetLaws F}.
Implicit Types fs : F.

Lemma declare_default_self fs n v : declared (declare_default fs (n, v)) n (type_of v) = true.
Proof.
  unfold declared, declare_default.
  destruct v; simpl; by rewrite ?declared_Bool, ?declared_Int, ?declared_String, ?declared_StringSlice.
Qed.

Lemma declare_default_other fs n v m t :
  m ≠ n → declared fs m t = true → declared (declare_default fs (n, v)) m t = true.
Proof.
  intros Hne Hd%Is_true_true. apply Is_true_true. unfold declare_default.
  destruct v; simpl; auto using Bool_other, Int_other, String_other, StringSlice_other.
Qed.

Lemma declare_defaults_declared fs l n v :
  NoDup l.*1 → (n, v) ∈ l → declared (foldl declare_default fs l) n (type_of v) = true.
Proof.
  assert (Hkeep : ∀ l' fs', n ∉ l'.*1 → declared fs' n (type_of v) = true →
    declared (foldl declare_default fs' l') n (type_of v) = true).
  { induction l' as [|[m w] l' IH]; intros fs' Hni Hd; [done|]. simpl. apply IH; [set_solver|].
    apply declare_default_other; [set_solver|done]. }
  revert fs. induction l as [|[m w] l IH]; intros fs Hnd Hin; [set_solver|].
  apply NoDup_cons in Hnd as [Hni Hnd]. apply elem_of_cons in Hin as [[= -> ->]|Hin].
  - simpl. apply Hkeep; [done|]. apply declare_default_self.
  - by apply IH.
Qed.

Lemma SetFlagDefaults_well_typed fs : well_typed (SetFlagDefaults fs).
Proof.
  intros n v Hin. apply declare_defaults_declared; [|done]. apply (bool_decide_unpack _). vm_compute. done.
Qed.

Lemma SetFlag_well_typed fs fs' n v : SetFlag fs n v = Ok fs' → well_typed fs → well_typed fs'.
Proof.
  intros Hset Hwt m w Hin. apply Is_true_true. eapply SetFlag_declared; [done|].
  apply Is_true_true. by apply Hwt.
Qed.

Lemma SetFlags_well_typed (fs : F) (args : list (string * string)) (fs' : F) :
  go_fold (λ fs '(n, v), SetFlag fs n v) fs args = Ok fs' → well_typed fs → well_typed fs'.
Proof.
  revert fs. induction args as [|[n v] args IH]; intros fs Hparse Hwt; cbn [go_fold] in Hparse; [by simplify_eq|].
  apply bind_Ok in Hparse as (fs1 & Hset & Hparse). eapply IH; [done|]. by eapply SetFlag_well_typed.
Qed.

Lemma MustGet_typed (fs : F) (t : flag_type) (n : string) : well_typed fs → has_type n t = true →
  match t with
  | TBool => ∃ v, MustGetFlagBool fs n = Ok v ∧ GetBool fs n = Ok v
  | TInt => ∃ v, MustGetFlagInt fs n = Ok v ∧ GetInt fs n = Ok v
  | TString => ∃ v, MustGetFlagString fs n = Ok v ∧ GetString fs n = Ok v
  | TStringSlice => ∃ v, MustGetFlagStringSlice fs n = Ok v ∧ GetStringSlice fs n = Ok v
  end.
Proof.
  intros Hwt Hn%(has_type_declared _ _ _ Hwt). destruct (declared_MustGet fs n) as (H1 & H2 & H3 & H4).
  destruct t; [destruct (H1 Hn) as (v & ? & ?)|destruct (H2 Hn) as (v & ? & ?)|destruct (H3 Hn) as (v & ? & ?)|destruct (H4 Hn) as (v & ? & ?)];
    by exists v.
Qed.

(** C34: After [SetFlagDefaults] and any arguments the parser accepts, no read
    of a flag fails: each flag that the program reads as a boolean, a number, a
    text or a list answers that getter with a value, so neither a
    [MustGetFlag...] of the run and its validators is fatal nor a getter of
    [NewOption] returns an error. *)
Theorem flags_well_typed (fs : F) (args : list (string * string)) (fs' : F)
    (Hparse : go_fold (λ fs '(n, v), SetFlag fs n v) (SetFlagDefaults fs) args = Ok fs') :
  (∀ n, n ∈ [APPEND; COMPRESSION; DATA_ONLY; DEBUG; FULL; GLOBAL_METADATA_ONLY; METADATA_ONLY; QUIET; SKIP_EXISTING;
             TRUNCATE; VALIDATE; VERBOSE; WITH_GLOBAL_METADATA] →
     ∃ b, MustGetFlagBool fs' n = Ok b ∧ GetBool fs' n = Ok b) ∧
  (∀ n, n ∈ [COPY_JOBS; DEST_PORT; METADATA_JOBS; ON_SEGMENT_THRESHOLD; SOURCE_PORT] →
     ∃ z, MustGetFlagInt fs' n = Ok z ∧ GetInt fs' n = Ok z) ∧
  (∀ n, n ∈ [COMPRESS_TYPE; CONNECTION_MODE; DATA_PORT_RANGE; DEST_HOST; DEST_TABLE_FILE; DEST_TABLESPACE; DEST_USER;
             EXCLUDE_TABLE_FILE; INCLUDE_TABLE_FILE; OWNER_MAPPING_FILE; SCHEMA_MAPPING_FILE; SOURCE_HOST; SOURCE_USER;
             TABLESPACE_MAPPING_FILE] →
     ∃ s, MustGetFlagString fs' n = Ok s ∧ GetString fs' n = Ok s) ∧
  (∀ n, n ∈ [DBNAME; DEST_DBNAME; DEST_SCHEMA; DEST_TABLE; EXCLUDE_TABLE; INCLUDE_TABLE; SCHEMA] →
     ∃ l, MustGetFlagStringSlice fs' n = Ok l ∧ GetStringSlice fs' n = Ok l).
Proof.
  assert (Hwt : well_typed fs') by (eapply SetFlags_well_typed; [exact Hparse|apply SetFlagDefaults_well_typed]).
  assert (Hall : ∀ t l, forallb (λ n, has_type n t) l = true → ∀ n, n ∈ l → has_type n t = true).
  { intros t l Hl n Hn%list_elem_of_In. by apply (proj1 (forallb_forall _ l) Hl). }
  split; [|split; [|split]]; intros n Hn.
  - apply (MustGet_typed fs' TBool n Hwt). revert n Hn. apply Hall. vm_compute. reflexivity.
  - apply (MustGet_typed fs' TInt n Hwt). revert n Hn. apply Hall. vm_compute. reflexivity.
  - apply (MustGet_typed fs' TString n Hwt). revert n Hn. apply Hall. vm_compute. reflexivity.
  - apply (MustGet_typed fs' TStringSlice n Hwt). revert n Hn. apply Hall. vm_compute. reflexivity.
Qed.
End flag_typing.

(** The command line of a copy between two schemas, as parsed. *)
Definition parse_args (args : list (string * string)) : go flag_map :=
  go_fold (λ fs '(n, v), SetFlag fs n v) (SetFlagDefaults (∅ : flag_map)) args.
Definition the_flags (m : go flag_map) : flag_map := match m with Ok f => f | _ => ∅ end.
Lemma the_flags_Ok m : is_ok m = true → m = Ok (the_flags m).
Proof. by destruct m. Qed.
Definition skip_schema_args : list (string * string) := [(SCHEMA, "db.s1"); (SKIP_EXISTING, "true")].

Lemma parse_args_well_typed args : is_ok (parse_args args) = true → well_typed (the_flags (parse_args args)).
Proof. intros Hok%the_flags_Ok. eapply SetFlags_well_typed; [exact Hok|apply SetFlagDefaults_well_typed]. Qed.

(** The flags of a copy between two schemas with eight connections. *)
Lemma flags_well_typed_witness :
  let args := (COPY_JOBS, "8") :: skip_schema_args in
  let flags := the_flags (parse_args args) in
  parse_args args = Ok flags ∧
  (∀ n, n ∈ [APPEND; COMPRESSION; DATA_ONLY; DEBUG; FULL; GLOBAL_METADATA_ONLY; METADATA_ONLY; QUIET; SKIP_EXISTING;
             TRUNCATE; VALIDATE; VERBOSE; WITH_GLOBAL_METADATA] →
     ∃ b, MustGetFlagBool flags n = Ok b ∧ GetBool flags n = Ok b) ∧
  (∀ n, n ∈ [COPY_JOBS; DEST_PORT; METADATA_JOBS; ON_SEGMENT_THRESHOLD; SOURCE_PORT] →
     ∃ z, MustGetFlagInt flags n = Ok z ∧ GetInt flags n = Ok z) ∧
  (∀ n, n ∈ [COMPRESS_TYPE; CONNECTION_MODE; DATA_PORT_RANGE; DEST_HOST; DEST_TABLE_FILE; DEST_TABLESPACE; DEST_USER;
             EXCLUDE_TABLE_FILE; INCLUDE_TABLE_FILE; OWNER_MAPPING_FILE; SCHEMA_MAPPING_FILE; SOURCE_HOST; SOURCE_USER;
             TABLESPACE_MAPPING_FILE] →
     ∃ s, MustGetFlagString flags n = Ok s ∧ GetString flags n = Ok s) ∧
  (∀ n, n ∈ [DBNAME; DEST_DBNAME; DEST_SCHEMA; DEST_TABLE; EXCLUDE_TABLE; INCLUDE_TABLE; SCHEMA] →
     ∃ l, MustGetFlagStringSlice flags n = Ok l ∧ GetStringSlice flags n = Ok l).
Proof.
  intros args flags. assert (Hp : parse_args args = Ok flags) by (apply the_flags_Ok; vm_compute; reflexivity).
  split; [exact Hp|]. exact (flags_well_typed ∅ args _ Hp).
Defined.
Example jobs_read : MustGetFlagInt (the_flags (parse_args [(COPY_JOBS, "8")])) COPY_JOBS = Ok 8%Z.
Proof. vm_compute. reflexivity. Qed.

(** * What the validators accept *)

Lemma and_then_Ok (m k : go ()) : (let! _ := m in k) = Ok () ↔ m = Ok () ∧ k = Ok ().
Proof. destruct m as [[]| | |]; simpl; naive_solver. Qed.

Lemma reject_if_Ok c msg : reject_if c msg = Ok () ↔ c = false.
Proof. by destruct c. Qed.

Lemma go_fold_unit_Ok {A} (f : A → go ()) l :
  go_fold (λ _ a, f a) () l = Ok () ↔ ∀ a, a ∈ l → f a = Ok ().
Proof.
  induction l as [|a l IH]; simpl; [set_solver|].
  destruct (f a) as [[]| | |] eqn:Hfa; simpl; [rewrite IH; set_solver|..].
  all: split; [done|intros Hall; rewrite <- Hfa; set_solver].
Qed.

Lemma len_zero s : len s = 0 ↔ s = "".
Proof. by destruct s. Qed.
Lemma len_pos s : 0 < len s ↔ s ≠ "".
Proof. destruct s; unfold len; simpl; split; try done; lia. Qed.
Lemma length_nil {A} (l : list A) : length l = 0 ↔ l = [].
Proof. by destruct l. Qed.
Lemma length_pos {A} (l : list A) : 0 < length l ↔ l ≠ [].
Proof. destruct l; simpl; split; try done; lia. Qed.
Section accepted.
Context `{FlagSet F} (Open : string → go string) (fs : F) (Hwt : well_typed fs).

Definition slicev (n : string) : list string := match GetStringSlice fs n with Ok l => l | _ => [] end.
Definition strv (n : string) : string := match GetString fs n with Ok s => s | _ => "" end.
Definition boolv (n : string) : bool := match GetBool fs n with Ok b => b | _ => false end.

Lemma slice_value n : has_type n TStringSlice = true → MustGetFlagStringSlice fs n = Ok (slicev n).
Proof.
  intros Hin%(has_type_declared _ _ _ Hwt). destruct (declared_MustGet fs n) as (_ & _ & _ & Hget).
  destruct (Hget Hin) as (v & Hv & ->). unfold slicev. by rewrite Hv.
Qed.
Lemma bool_value n : has_type n TBool = true → MustGetFlagBool fs n = Ok (boolv n).
Proof.
  intros Hin%(has_type_declared _ _ _ Hwt). destruct (declared_MustGet fs n) as (Hget & _).
  destruct (Hget Hin) as (v & Hv & ->). unfold boolv. by rewrite Hv.
Qed.
Lemma str_value n : has_type n TString = true → MustGetFlagString fs n = Ok (strv n).
Proof.
  intros Hin%(has_type_declared _ _ _ Hwt). destruct (declared_MustGet fs n) as (_ & _ & Hget & _).
  destruct (Hget Hin) as (v & Hv & ->). unfold strv. by rewrite Hv.
Qed.

(** The lists of a source and a destination flag that belong together. *)
Definition paired (src dest : list string) : Prop :=
  (dest = [] ∨ src = [] ∨ length dest = length src) ∧ NoDup src ∧ NoDup dest.

Definition include_given : Prop := slicev INCLUDE_TABLE ≠ [] ∨ strv INCLUDE_TABLE_FILE ≠ "".

(** The contract of the validation. *)
Record accepted := {
  acc_db_source : slicev DEST_DBNAME = [] ∨ slicev DBNAME ≠ [] ∨ include_given;
  acc_db_paired : paired (slicev DBNAME) (slicev DEST_DBNAME);
  acc_db_file : strv INCLUDE_TABLE_FILE = "" ∨ length (slicev DEST_DBNAME) ≤ 1;
  acc_db_user : ∀ db, db ∈ slicev DBNAME ++ slicev DEST_DBNAME → db ∉ excludedDb;
  acc_schema_source : slicev DEST_SCHEMA = [] ∨ slicev SCHEMA ≠ [] ∨ include_given;
  acc_schema_paired : paired (slicev SCHEMA) (slicev DEST_SCHEMA);
  acc_schema_file : strv INCLUDE_TABLE_FILE = "" ∨ length (slicev DEST_SCHEMA) ≤ 1;
  acc_tables : paired (slicev INCLUDE_TABLE) (slicev DEST_TABLE) ∧
    (slicev DEST_TABLE = [] ∨ slicev INCLUDE_TABLE ≠ []);
  acc_table_files : strv DEST_TABLE_FILE = "" ∨
    (strv INCLUDE_TABLE_FILE ≠ "" ∧
     ∃ src dest, ReadTableFile Open (strv INCLUDE_TABLE_FILE) = Ok src ∧
       ReadTableFile Open (strv DEST_TABLE_FILE) = Ok dest ∧
       paired src dest ∧ (dest = [] ∨ src ≠ []));
  acc_copy_mode : boolv FULL = true ∨ boolv GLOBAL_METADATA_ONLY = true ∨ slicev SCHEMA ≠ [] ∨
    slicev DBNAME ≠ [] ∨ include_given ∨ strv SCHEMA_MAPPING_FILE ≠ "";
  acc_table_mode : boolv METADATA_ONLY = true ∨ boolv GLOBAL_METADATA_ONLY = true ∨
    count_true [boolv TRUNCATE; boolv APPEND; boolv SKIP_EXISTING] = 1;
  acc_port : ∃ a b, Split (strv DATA_PORT_RANGE) DASH = [a; b] ∧ is_Some (Atoi a) ∧ is_Some (Atoi b);
  acc_exclusive : ∀ g, g ∈ exclusiveGroups → length (filter (λ n, Changed fs n = true) g) ≤ 1;
  acc_owner : strv OWNER_MAPPING_FILE = "" ∨ slicev DBNAME ≠ [] ∨ slicev SCHEMA ≠ [] ∨
    strv INCLUDE_TABLE_FILE ≠ "" ∨ strv SCHEMA_MAPPING_FILE ≠ "";
  acc_connection : strv CONNECTION_MODE = ConnectionModePush ∨ strv CONNECTION_MODE = ConnectionModePull;
  acc_compress : strv COMPRESS_TYPE ∈ [CompressTypeGzip; CompressTypeSnappy; CompressTypeZstd]
}.


Lemma paired_checks src dest msg1 msg2 msg3 :
  (let! _ := reject_if (bool_decide (0 < length dest ∧ 0 < length src ∧ length dest ≠ length src)) msg1 in
   let! _ := reject_if (ArrayIsDuplicated src) msg2 in
   reject_if (ArrayIsDuplicated dest) msg3) = Ok () ↔ paired src dest.
Proof.
  rewrite !and_then_Ok, !reject_if_Ok, bool_decide_eq_false, !ArrayIsDuplicated_false, !length_pos.
  unfold paired.
  destruct (decide (dest = [])), (decide (src = [])), (decide (length dest = length src)); tauto.
Qed.

Ltac flag_values :=
  repeat first
  [ rewrite slice_value by reflexivity
  | rewrite str_value by reflexivity
  | rewrite bool_value by reflexivity
  | progress cbn [mbind go_bind] ].

Lemma no_source_value srcNum : no_source fs srcNum = Ok (bool_decide (srcNum = 0 ∧ ¬ include_given)).
Proof.
  unfold no_source, and_then, include_given. flag_values.
  case_bool_decide as Hn; [|by rewrite bool_decide_false by tauto].
  rewrite (bool_decide_ext _ _ (length_nil _)).
  case_bool_decide as Hi; [|by rewrite bool_decide_false by tauto].
  f_equal. apply bool_decide_ext. rewrite len_zero.
  destruct (decide (strv INCLUDE_TABLE_FILE = "")); tauto.
Qed.

(** A destination list needs a source. *)
Lemma orphan_value (dest src : list string) :
  and_then (bool_decide (0 < length dest)) (no_source fs (length src)) =
  Ok (bool_decide (¬ (dest = [] ∨ src ≠ [] ∨ include_given))).
Proof.
  unfold and_then. rewrite no_source_value. rewrite length_zero_nil.
  case_bool_decide as Hd; f_equal; [|by rewrite bool_decide_false by tauto].
  apply bool_decide_ext. rewrite length_nil. unfold include_given.
  destruct (decide (dest = [])), (decide (src = [])), (decide (slicev INCLUDE_TABLE = [])),
    (decide (strv INCLUDE_TABLE_FILE = "")); tauto.
Qed.

(** A check that rejects the negation of a decidable condition. *)
Lemma reject_if_not (P : Prop) `{Decision P} msg : reject_if (bool_decide (¬ P)) msg = Ok () ↔ P.
Proof. rewrite reject_if_Ok, bool_decide_eq_false. split; [apply dec_stable|tauto]. Qed.

Lemma file_limit (file : string) (dest : list string) msg :
  reject_if (bool_decide (0 < len file ∧ 1 < length dest)) msg = Ok () ↔ file = "" ∨ length dest ≤ 1.
Proof.
  rewrite reject_if_Ok, bool_decide_eq_false, len_pos.
  rewrite <- Nat.nlt_ge. destruct (decide (file = "")), (decide (1 < length dest)); tauto.
Qed.

Lemma validateDatabase_Ok :
  validateDatabase fs = Ok () ↔
  (slicev DEST_DBNAME = [] ∨ slicev DBNAME ≠ [] ∨ include_given) ∧
  paired (slicev DBNAME) (slicev DEST_DBNAME) ∧
  (strv INCLUDE_TABLE_FILE = "" ∨ length (slicev DEST_DBNAME) ≤ 1) ∧
  (∀ db, db ∈ slicev DBNAME ++ slicev DEST_DBNAME → db ∉ excludedDb).
Proof.
  unfold validateDatabase. flag_values. rewrite orphan_value. cbn [mbind go_bind].
  rewrite and_then_Ok, reject_if_not. rewrite and_then_Ok, and_then_Ok, and_then_Ok. flag_values.
  rewrite and_then_Ok, file_limit, and_then_Ok, !go_fold_unit_Ok.
  rewrite <- (paired_checks _ _ "" "" ""), !and_then_Ok, !reject_if_Ok.
  setoid_rewrite reject_if_Ok. setoid_rewrite <- not_true_iff_false. setoid_rewrite slice_Exists_true.
  setoid_rewrite elem_of_app. naive_solver.
Qed.

Lemma validateSchema_Ok :
  validateSchema fs = Ok () ↔
  (slicev DEST_SCHEMA = [] ∨ slicev SCHEMA ≠ [] ∨ include_given) ∧
  paired (slicev SCHEMA) (slicev DEST_SCHEMA) ∧
  (strv INCLUDE_TABLE_FILE = "" ∨ length (slicev DEST_SCHEMA) ≤ 1).
Proof.
  unfold validateSchema. flag_values. rewrite orphan_value. cbn [mbind go_bind].
  rewrite and_then_Ok, reject_if_not. rewrite and_then_Ok, and_then_Ok, and_then_Ok. flag_values.
  rewrite file_limit.
  rewrite <- (paired_checks _ _ "" "" ""), !and_then_Ok, !reject_if_Ok. tauto.
Qed.

Lemma validateTableCombination_Ok a b src dest :
  validateTableCombination a b src dest = Ok () ↔ paired src dest ∧ (dest = [] ∨ src ≠ []).
Proof.
  unfold validateTableCombination. rewrite !and_then_Ok.
  rewrite <- (paired_checks src dest "" "" ""), !and_then_Ok, !reject_if_Ok.
  rewrite !bool_decide_eq_false, length_pos, length_nil.
  destruct (decide (dest = [])), (decide (src = [])); tauto.
Qed.

Lemma read_or_reject_Ok f l : read_or_reject Open f = Ok l ↔ ReadTableFile Open f = Ok l.
Proof. unfold read_or_reject. by destruct (ReadTableFile Open f). Qed.

Lemma bind_Ok_iff {A B} (m : go A) (f : A → go B) b :
  mbind f m = Ok b ↔ ∃ a, m = Ok a ∧ f a = Ok b.
Proof. split; [apply bind_Ok|]. intros (a & -> & Hf). done. Qed.

#[local] Opaque ReadTableFile.
Lemma validateTable_Ok :
  validateTable Open fs = Ok () ↔
  (paired (slicev INCLUDE_TABLE) (slicev DEST_TABLE) ∧
    (slicev DEST_TABLE = [] ∨ slicev INCLUDE_TABLE ≠ [])) ∧
  (strv DEST_TABLE_FILE = "" ∨
    (strv INCLUDE_TABLE_FILE ≠ "" ∧
     ∃ src dest, ReadTableFile Open (strv INCLUDE_TABLE_FILE) = Ok src ∧
       ReadTableFile Open (strv DEST_TABLE_FILE) = Ok dest ∧
       paired src dest ∧ (dest = [] ∨ src ≠ []))).
Proof.
  unfold validateTable. flag_values. rewrite and_then_Ok, validateTableCombination_Ok. flag_values.
  rewrite (bool_decide_ext _ _ (len_pos _)).
  case_bool_decide as Hf; [|destruct (decide (strv DEST_TABLE_FILE = "")); tauto].
  rewrite and_then_Ok, reject_if_Ok, bool_decide_eq_false, len_zero.
  rewrite bind_Ok_iff. setoid_rewrite bind_Ok_iff. setoid_rewrite read_or_reject_Ok.
  setoid_rewrite validateTableCombination_Ok. split.
  - intros (Hc & Hi & src & Hs & dest & Hd & Hp). split; [done|]. right. split; [done|]. by exists src, dest.
  - intros (Hc & [?|(Hi & src & dest & Hs & Hd & Hp)]); [done|]. split; [done|]. split; [done|].
    exists src. split; [done|]. by exists dest.
Qed.

Lemma validateCopyMode_Ok :
  validateCopyMode fs = Ok () ↔
  boolv FULL = true ∨ boolv GLOBAL_METADATA_ONLY = true ∨ slicev SCHEMA ≠ [] ∨
    slicev DBNAME ≠ [] ∨ include_given ∨ strv SCHEMA_MAPPING_FILE ≠ "".
Proof.
  unfold validateCopyMode, and_then, include_given. flag_values.
  destruct (boolv FULL); [naive_solver|]. cbn [negb]. flag_values.
  destruct (boolv GLOBAL_METADATA_ONLY); [naive_solver|]. cbn [negb]. flag_values.
  rewrite (bool_decide_ext _ _ (length_nil (slicev SCHEMA))). case_bool_decide; [|naive_solver]. flag_values.
  rewrite (bool_decide_ext _ _ (length_nil (slicev DBNAME))). case_bool_decide; [|naive_solver]. flag_values.
  rewrite (bool_decide_ext _ _ (length_nil (slicev INCLUDE_TABLE))). case_bool_decide; [|naive_solver]. flag_values.
  rewrite (bool_decide_ext _ _ (len_zero (strv INCLUDE_TABLE_FILE))). case_bool_decide; [|naive_solver]. flag_values.
  rewrite reject_if_Ok, bool_decide_eq_false, len_zero. naive_solver.
Qed.

Lemma validateTableMode_Ok :
  validateTableMode fs = Ok () ↔
  boolv METADATA_ONLY = true ∨ boolv GLOBAL_METADATA_ONLY = true ∨
    count_true [boolv TRUNCATE; boolv APPEND; boolv SKIP_EXISTING] = 1.
Proof.
  unfold validateTableMode. flag_values. destruct (boolv METADATA_ONLY); [naive_solver|]. flag_values.
  destruct (boolv GLOBAL_METADATA_ONLY); [naive_solver|]. flag_values. rewrite reject_if_not. naive_solver.
Qed.

Lemma validateDataPortRange_Ok :
  validateDataPortRange fs = Ok () ↔
  ∃ a b, Split (strv DATA_PORT_RANGE) DASH = [a; b] ∧ is_Some (Atoi a) ∧ is_Some (Atoi b).
Proof.
  unfold validateDataPortRange. flag_values. generalize (Split (strv DATA_PORT_RANGE) DASH). intros sl.
  destruct sl as [|a [|b [|c sl]]]; cbn [length].
  1,2,4: rewrite bool_decide_true by lia; naive_solver.
  rewrite bool_decide_false by lia. cbn [index lookup list_lookup mbind go_bind].
  change (index [a; b] 0) with (Ok a). change (index [a; b] 1) with (Ok b). cbn [mbind go_bind].
  destruct (Atoi a) eqn:Ha, (Atoi b) eqn:Hb; split; try done.
  - intros _. exists a, b. by rewrite Ha, Hb.
  - intros (? & ? & [= <- <-] & _ & [? ?]); congruence.
  - intros (? & ? & [= <- <-] & [? ?] & _); congruence.
  - intros (? & ? & [= <- <-] & [? ?] & _); congruence.
Qed.

Lemma validateFlagCombination_Ok :
  validateFlagCombination fs = Ok () ↔
  ∀ g, g ∈ exclusiveGroups → length (filter (λ n, Changed fs n = true) g) ≤ 1.
Proof.
  unfold validateFlagCombination. rewrite go_fold_unit_Ok. unfold validateExclusiveFlags.
  setoid_rewrite reject_if_Ok. setoid_rewrite bool_decide_eq_false. by setoid_rewrite Nat.nlt_ge.
Qed.

Lemma validateOwnerMappingFile_Ok :
  validateOwnerMappingFile fs = Ok () ↔
  strv OWNER_MAPPING_FILE = "" ∨ slicev DBNAME ≠ [] ∨ slicev SCHEMA ≠ [] ∨
    strv INCLUDE_TABLE_FILE ≠ "" ∨ strv SCHEMA_MAPPING_FILE ≠ "".
Proof.
  unfold validateOwnerMappingFile. flag_values. rewrite (bool_decide_ext _ _ (len_pos _)).
  case_bool_decide as Ho; [|destruct (decide (strv OWNER_MAPPING_FILE = "")); tauto].
  rewrite reject_if_Ok, bool_decide_eq_false, !length_nil, !len_zero.
  destruct (decide (slicev DBNAME = [])), (decide (slicev SCHEMA = [])),
    (decide (strv INCLUDE_TABLE_FILE = "")), (decide (strv SCHEMA_MAPPING_FILE = "")); tauto.
Qed.

Lemma validateConnectionMode_Ok :
  validateConnectionMode fs = Ok () ↔
  strv CONNECTION_MODE = ConnectionModePush ∨ strv CONNECTION_MODE = ConnectionModePull.
Proof.
  unfold validateConnectionMode. flag_values. rewrite reject_if_Ok, bool_decide_eq_false.
  destruct (decide (strv CONNECTION_MODE = ConnectionModePush)),
    (decide (strv CONNECTION_MODE = ConnectionModePull)); tauto.
Qed.

Lemma validateCompressType_Ok :
  validateCompressType fs = Ok () ↔
  strv COMPRESS_TYPE ∈ [CompressTypeGzip; CompressTypeSnappy; CompressTypeZstd].
Proof.
  unfold validateCompressType. flag_values. rewrite reject_if_Ok, bool_decide_eq_false.
  rewrite !elem_of_cons, elem_of_nil.
  destruct (decide (strv COMPRESS_TYPE = CompressTypeGzip)), (decide (strv COMPRESS_TYPE = CompressTypeSnappy)),
    (decide (strv COMPRESS_TYPE = CompressTypeZstd)); tauto.
Qed.

(** C27: [ValidateAll] accepts exactly the flags that meet the contract
    [accepted]: matching and duplicate-free name lists, one copy mode, one
    table mode unless only metadata is copied, a port range of two integers,
    no two flags of an exclusive group, a known connection mode and
    compression type. *)
Theorem ValidateAll_accepts : ValidateAll Open fs = Ok () ↔ accepted.
Proof.
  unfold ValidateAll, validators. rewrite go_fold_unit_Ok.
  transitivity (Forall (λ v, v = Ok ()) (validators Open fs)); [by rewrite Forall_forall|].
  unfold validators. rewrite !Forall_cons, Forall_nil. unfold validateMode. rewrite and_then_Ok.
  rewrite validateDatabase_Ok, validateSchema_Ok, validateTable_Ok, validateCopyMode_Ok, validateTableMode_Ok,
    validateDataPortRange_Ok, validateFlagCombination_Ok, validateOwnerMappingFile_Ok,
    validateConnectionMode_Ok, validateCompressType_Ok.
  split.
  - intros ((? & ? & ? & ?) & (? & ? & ?) & (? & ?) & (? & ?) & ? & ? & ? & ? & ? & _). by constructor.
  - intros [? ? ? ? ? ? ? [? ?] ? ? ? ? ? ? ? ?].
    repeat match goal with |- _ ∧ _ => split end; assumption || exact I.
Qed.
End accepted.

(** A run that copies one schema and skips existing tables passes. *)
Lemma ValidateAll_accepts_witness :
  let fs := the_flags (parse_args skip_schema_args) in
  ValidateAll no_files fs = Ok () ∧ accepted no_files fs.
Proof.
  intros fs.
  assert (Hv : ValidateAll no_files fs = Ok ()) by (vm_compute; reflexivity).
  split; [exact Hv|]. apply ValidateAll_accepts; [|exact Hv].
  apply parse_args_well_typed. vm_compute. reflexivity.
Defined.
