(* ===== verification/QueryWrapper.v ===== *)
(** The selection of tables ([copy/copy_query_wrapper.go], and what of
    [copy/copy_query.go] follows the queries), the pair filters of
    [copy/copy_metadata.go], and the loop over databases of [copy/copy.go]. *)
From S2P Require Import Prelude Utils Options Validator.

(** * The catalogue of a database *)

Record PartLeafTable := { RootName : string; LeafName : string; leaf_RelTuples : Z }.
#[export] Instance PartLeafTable_eq : EqDecision PartLeafTable.
Proof. solve_decision. Defined.

(** The answers of a connection to the queries of [QueryManager]: the rows of
    each query, or its error. *)
Record DBConn := {
  DBName : string;
  rows_databases : go (list string);
  rows_user_tables : go (list Table);
  rows_leaf_tables : go (list PartLeafTable);
  rows_non_physical : go (list Table);
  rows_schema_count : string → go Z
}.

Definition GetAllDatabases (conn : DBConn) : go (list string) :=
  match rows_databases conn with Err e => Err ("query failed, error: " +:+ e) | m => m end.

(** [QueryManager.GetUserTables]: the rows indexed by their qualified name. *)
Definition stats_of (t : Table) : TableStatistics :=
  {| st_Partition := Partition t; st_RelTuples := RelTuples t; st_IsReplicated := IsReplicated t |}.
Definition qm_GetUserTables (conn : DBConn) : go (gmap string TableStatistics) :=
  let! tables := rows_user_tables conn in
  Ok (foldl (λ results t, <[fqn t := stats_of t]> results) ∅ tables).

Definition SchemaExists (conn : DBConn) (schema : string) : go bool :=
  let! count := rows_schema_count conn schema in Ok (bool_decide (count = 1%Z)).

Definition qm_GetPartitionLeafTables (conn : DBConn) : go (list PartLeafTable) :=
  match rows_leaf_tables conn with Err e => Err ("failed to get partition leaf tables: " +:+ e) | m => m end.

Definition qm_GetNonPhysicalRelations (conn : DBConn) : go (gmap string bool) :=
  let! relations := rows_non_physical conn in
  Ok (foldl (λ results v, <[fqn v := true]> results) ∅ relations).

(** * The query wrapper *)

(** The two caches; [None] is the nil slice. *)
Record QueryWrapper := {
  srcPartLeafTable : option (list PartLeafTable);
  destPartLeafTable : option (list PartLeafTable)
}.
Definition NewQueryWrapper : QueryWrapper := {| srcPartLeafTable := None; destPartLeafTable := None |}.
Definition ResetCache (qw : QueryWrapper) : QueryWrapper := {| srcPartLeafTable := None; destPartLeafTable := None |}.

Definition GetPartitionLeafTables (qw : QueryWrapper) (conn : DBConn) (isDest : bool)
    : go (list PartLeafTable * QueryWrapper) :=
  match (if isDest then destPartLeafTable qw else srcPartLeafTable qw) with
  | Some tables => Ok (tables, qw)
  | None =>
      let! tables := qm_GetPartitionLeafTables conn in
      Ok (tables,
          if isDest
          then {| srcPartLeafTable := srcPartLeafTable qw; destPartLeafTable := Some tables |}
          else {| srcPartLeafTable := Some tables; destPartLeafTable := destPartLeafTable qw |})
  end.

Definition GetUserDatabases (conn : DBConn) (excluded : list string) : go (list string) :=
  let! dbnames := GetAllDatabases conn in
  Ok (filter (λ db, slice_Exists excluded db = false) dbnames).

Definition GetRootPartTables (qw : QueryWrapper) (conn : DBConn) (isDest : bool)
    : go (gmap string bool * QueryWrapper) :=
  let! (tables, qw) := GetPartitionLeafTables qw conn isDest in
  Ok (foldl (λ nameMap t, <[RootName t := true]> nameMap) ∅ tables, qw).

(** [sl := strings.Split(k, ".")] and the table of [sl[0]] and [sl[1]]. *)
Definition split_table (k : string) (p r : Z) (repl : bool) : go Table :=
  let sl := Split k DOT in
  let! s := index sl 0 in
  let! n := index sl 1 in
  Ok {| Schema := s; Name := n; Partition := p; RelTuples := r; IsReplicated := repl |}.

Section query_wrapper.
Context `{MapRange}.

Definition excludeTables (includeTables excludeTables : gmap string TableStatistics) : go (list Table) :=
  go_map (λ '(k, v), split_table k (st_Partition v) (st_RelTuples v) (st_IsReplicated v))
    (filter (λ '(k, v), excludeTables !! k = None) (range_map 66 includeTables)).

(** The copies of a row under another schema; [redirectSchemaTables] does not
    carry [IsReplicated] over. *)
Definition redirectSchemaTables (config : Option_) (tables : list Table) : go (list Table) :=
  if bool_decide (length (destSchemas config) = 0) then Ok tables
  else
    let! schemaMap := GetSchemaMap config in
    Ok ((λ v, {| Schema := default (Schema v) (schemaMap !! Schema v); Name := Name v;
                 Partition := Partition v; RelTuples := RelTuples v; IsReplicated := false |}) <$> tables).

Definition redirectIncludeTables (config : Option_) (tables : list Table) : go (list Table) :=
  if bool_decide (length (destSchemas config) = 0) then Ok tables
  else
    let! d := index (destSchemas config) 0 in
    Ok ((λ v, {| Schema := sch_Schema d; Name := Name v; Partition := Partition v;
                 RelTuples := RelTuples v; IsReplicated := IsReplicated v |}) <$> tables).

Definition filterTablesBySchema (config : Option_) (conn : DBConn) (tables : gmap string TableStatistics)
    : go (gmap string TableStatistics) :=
  if bool_decide (copyMode config ≠ CopyModeSchema) then Ok tables
  else
    let! schemaMap := go_fold (λ (m : gset string) schema,
      match SchemaExists conn (sch_Schema schema) with
      | Ok true => Ok ({[sch_Schema schema]} ∪ m)
      | Ok false => Fatal ("Schema " +:+ sch_Schema schema +:+ " does not exists on source database " +:+ DBName conn)
      | Err e => Fatal ("failed to check schema existence: " +:+ e)
      | Fatal e => Fatal e
      | Panic e => Panic e
      end) ∅ (sourceSchemas config) in
    go_fold (λ m '(k, _),
      let! s := index (Split k DOT) 0 in
      Ok (if bool_decide (s ∈ schemaMap) then m else delete k m)) tables (range_map 222 tables).

Definition GetDbNameMap (config : Option_) (excluded : list string) (conn : DBConn) : go (gmap string string) :=
  let! (sourceDbnames, destDbnames) :=
    match copyMode config with
    | CopyModeFull => let! dbs := FatalOnError (GetUserDatabases conn excluded) in Ok (dbs, dbs)
    | CopyModeDb =>
        let src := sourceDbnames config in
        Ok (src, if bool_decide (0 < length (destDbnames config)) then destDbnames config else src)
    | CopyModeSchema =>
        let! s := index (sourceSchemas config) 0 in
        let src := [sch_Database s] in
        if bool_decide (0 < length (destSchemas config))
        then let! d := index (destSchemas config) 0 in Ok (src, [sch_Database d])
        else Ok (src, src)
    | CopyModeTable =>
        let! src := GetTblSourceDbnames config in
        let! dest :=
          if bool_decide (0 < length (destSchemas config))
          then let! d := index (destSchemas config) 0 in Ok [sch_Database d]
          else Ok src in
        let dest := if bool_decide (0 < length (destDbnames config)) then destDbnames config else dest in
        let dest := if bool_decide (0 < length (GetTblDestDbnames config)) then GetTblDestDbnames config else dest in
        Ok (src, dest)
    end in
  if bool_decide (length (sourceDbnames : list string) ≠ length (destDbnames : list string))
  then Fatal "The number of source database should be equal to dest database"
  else Ok (foldl (λ m '(s, d), <[s := d]> m) ∅ (zip sourceDbnames destDbnames)).

(** The value [FormUserTableMap] stores for a destination table. *)
Definition table_entry (t : Table) : string :=
  Schema t +:+ "." +:+ Name t +:+ "." +:+ Itoa (RelTuples t) +:+ "."
    +:+ (if IsReplicated t then "true" else "false").
Fixpoint form_map_from (dest : list Table) (i : nat) (result : gmap string string) (src : list Table)
    : go (gmap string string) :=
  match src with
  | [] => Ok result
  | t :: src' =>
      let! d := index dest i in
      form_map_from dest (S i) (<[fqn d := table_entry t]> result) src'
  end.
Definition FormUserTableMap (srcTables destTables : list Table) : go (gmap string string) :=
  form_map_from destTables 0 ∅ srcTables.

Definition redirectPartitionTable (schemaMap : option (gmap string string)) (schema tableName : string)
    (keepOriginal : bool) : go string :=
  if keepOriginal then Ok tableName
  else if bool_decide (schema ≠ "") then
    let! n := index (Split tableName DOT) 1 in Ok (schema +:+ "." +:+ n)
  else match schemaMap with
       | Some m =>
           let sl := Split tableName DOT in
           let! s := index sl 0 in
           let! n := index sl 1 in
           Ok (default s (m !! s) +:+ "." +:+ n)
       | None => Ok tableName
       end.

Definition buildPartitionTableMapping (config : Option_) (qw : QueryWrapper) (conn : DBConn)
    (isDest keepOriginal : bool) : go (gmap string (list string) * QueryWrapper) :=
  let! schemaMap :=
    if bool_decide (copyMode config = CopyModeSchema ∧ 0 < length (destSchemas config))
    then let! m := GetSchemaMap config in Ok (Some m) else Ok None in
  let! schema :=
    if bool_decide (copyMode config = CopyModeTable ∧ 0 < length (destSchemas config))
    then let! d := index (destSchemas config) 0 in Ok (sch_Schema d) else Ok "" in
  let! (leafTables, qw) := FatalOnError (GetPartitionLeafTables qw conn isDest) in
  let! partMap := go_fold (λ (partMap : gmap string (list string)) t,
    let! rootName := redirectPartitionTable schemaMap schema (RootName t) keepOriginal in
    let children := default [] (partMap !! rootName) in
    let! leafName := redirectPartitionTable schemaMap schema (LeafName t) keepOriginal in
    Ok (<[rootName := children ++ [leafName]]> partMap)) ∅ leafTables in
  Ok (partMap, qw).

Definition getPartitionTableMapping (config : Option_) (qw : QueryWrapper) (srcConn destConn : DBConn)
    (keepOriginal : bool) : go (gmap string (list string) * QueryWrapper) :=
  if bool_decide (copyMode config = CopyModeTable ∧ 0 < length (destTables config))
  then buildPartitionTableMapping config qw destConn true keepOriginal
  else buildPartitionTableMapping config qw srcConn false keepOriginal.

(** [expandPartTables]: a partition root is replaced by its leaves. *)
Definition leaf_children (leafTables : list PartLeafTable) : go (gmap string (list Table)) :=
  go_fold (λ (tabMap : gmap string (list Table)) t,
    let! leaf := split_table (LeafName t) 0 (leaf_RelTuples t) false in
    Ok (<[RootName t := default [] (tabMap !! RootName t) ++ [leaf]]> tabMap)) ∅ leafTables.
Definition expand_table (userTables : gmap string TableStatistics) (tabMap : gmap string (list Table))
    (acc : gmap string TableStatistics * gmap string TableStatistics) (t : Table)
    : gmap string TableStatistics * gmap string TableStatistics :=
  let '(expandMap, pendingCheckRels) := acc in
  let pending := <[fqn t := {| st_Partition := 0; st_RelTuples := RelTuples t; st_IsReplicated := false |}]> pendingCheckRels in
  if bool_decide (Partition t = 1%Z) then
    match tabMap !! fqn t with
    | Some children =>
        (foldl (λ m c, <[fqn c := {| st_Partition := 0; st_RelTuples := RelTuples c; st_IsReplicated := false |}]> m)
           expandMap children, pendingCheckRels)
    | None => (expandMap, pending)
    end
  else
    match userTables !! fqn t with
    | Some stat =>
        (<[fqn t := {| st_Partition := 0; st_RelTuples := st_RelTuples stat; st_IsReplicated := st_IsReplicated stat |}]>
           expandMap, pendingCheckRels)
    | None => (expandMap, pending)
    end.
Definition expandPartTables (qw : QueryWrapper) (conn : DBConn) (userTables : gmap string TableStatistics)
    (tables : list Table) : go (gmap string TableStatistics * gmap string TableStatistics * QueryWrapper) :=
  let! (leafTables, qw) := GetPartitionLeafTables qw conn false in
  let! tabMap := leaf_children leafTables in
  Ok (foldl (expand_table userTables tabMap) (∅, ∅) tables, qw).

(** [excludeTablePair]. *)
Fixpoint pair_map_from (dest : list Table) (i : nat) (tabMap : gmap string string) (src : list Table)
    : go (gmap string string) :=
  match src with
  | [] => Ok tabMap
  | t :: src' =>
      let! d := index dest i in
      pair_map_from dest (S i) (<[fqn t := fqn d]> tabMap) src'
  end.
Definition excludeTablePair (srcTables destTables exclTables : list Table)
    (userTables : gmap string TableStatistics) : go (list Table * list Table) :=
  if bool_decide (length srcTables ≠ length destTables)
  then Fatal "The number of include table should be equal to dest table"
  else
    let! tabMap := pair_map_from destTables 0 ∅ srcTables in
    let tabMap := foldl (λ m e, delete (fqn e) m) tabMap exclTables in
    go_fold (λ '(excludedSrcTabs, excludedDstTabs) '(k, v),
      match userTables !! k with
      | None => Ok (excludedSrcTabs, excludedDstTabs)
      | Some u =>
          let! s := split_table k (st_Partition u) (st_RelTuples u) (st_IsReplicated u) in
          let! d := split_table v (st_Partition u) (st_RelTuples u) (st_IsReplicated u) in
          Ok (excludedSrcTabs ++ [s], excludedDstTabs ++ [d])
      end) ([], []) (range_map 488 tabMap).

Definition qw_GetNonPhysicalRelations (conn : DBConn) (pendingCheckRels : list Table) : go (list Table) :=
  let! nonPhysicalRels := FatalOnError (qm_GetNonPhysicalRelations conn) in
  Ok (filter (λ t, is_Some ((nonPhysicalRels : gmap string bool) !! fqn t)) pendingCheckRels).

(** [loadDestInventory]: the only writer of the inventory in the options. *)
Definition loadDestInventory (config : Option_) (qw : QueryWrapper) (destConn : DBConn)
    : go (gmap string TableStatistics * Option_ * QueryWrapper) :=
  let! destTables := FatalOnError (qm_GetUserTables destConn) in
  let! (destDbPartTables, qw) := FatalOnError (GetRootPartTables qw destConn true) in
  Ok (destTables, MarkDestTables config (DBName destConn) destTables destDbPartTables, qw).

(** The tables to copy: source tables, their destinations, relations without
    storage, and the destination leaves of each destination root. *)
Record selection := {
  sel_src : list Table;
  sel_dest : list Table;
  sel_non_physical : list Table;
  sel_parts : gmap string (list string)
}.

Definition processDestinationTables (config : Option_) (qw : QueryWrapper) (srcConn destConn : DBConn)
    (srcTables : gmap string TableStatistics) : go (selection * Option_ * QueryWrapper) :=
  let! (destTables, config, qw) := loadDestInventory config qw destConn in
  let! _ := ValidateIncludeTables config srcTables (DBName srcConn) in
  let! _ := ValidateExcludeTables config srcTables (DBName srcConn) in
  let! _ := ValidateDestTables config destTables (DBName destConn) in
  let! (excludedSrcTabs, excludedDstTabs) := excludeTablePair
    (GetIncludeTablesByDb config (DBName srcConn)) (GetDestTablesByDb config (DBName destConn))
    (GetExclTablesByDb config (DBName srcConn)) srcTables in
  let! (parts, qw) := getPartitionTableMapping config qw srcConn destConn false in
  Ok ({| sel_src := excludedSrcTabs; sel_dest := excludedDstTabs; sel_non_physical := []; sel_parts := parts |},
      config, qw).

Definition CbcopyTestTable : string := "public.cbcopy_test".

Definition load_if (skip : bool) (config : Option_) (qw : QueryWrapper) (destConn : DBConn) : go (Option_ * QueryWrapper) :=
  if skip then let! (_, config, qw) := loadDestInventory config qw destConn in Ok (config, qw)
  else Ok (config, qw).

(** [QueryWrapper.GetUserTables]. *)
Definition GetUserTables `{FlagSet F} (CmdFlags : F) (config : Option_) (qw : QueryWrapper)
    (srcConn destConn : DBConn) : go (selection * Option_ * QueryWrapper) :=
  let! global := MustGetFlagBool CmdFlags GLOBAL_METADATA_ONLY in
  if (global : bool) then
    let! t := split_table CbcopyTestTable 0 0 false in
    Ok ({| sel_src := [t]; sel_dest := [t]; sel_non_physical := []; sel_parts := ∅ |}, config, qw)
  else
    let! srcTables := FatalOnError (qm_GetUserTables srcConn) in
    let! (srcDbPartTables, qw) := FatalOnError (GetRootPartTables qw srcConn false) in
    let config := MarkExcludeTables config (DBName srcConn) srcTables srcDbPartTables in
    let! (exlTabs, _, qw) := FatalOnError (expandPartTables qw srcConn srcTables (GetExclTablesByDb config (DBName srcConn))) in
    if bool_decide (copyMode config ≠ CopyModeTable) then
      let! srcTables := filterTablesBySchema config srcConn srcTables in
      let! results := excludeTables srcTables exlTabs in
      let! skip := MustGetFlagBool CmdFlags SKIP_EXISTING in
      let! (config, qw) := load_if skip config qw destConn in
      let! dest := redirectSchemaTables config results in
      let! (parts, qw) := getPartitionTableMapping config qw srcConn destConn false in
      Ok ({| sel_src := results; sel_dest := dest; sel_non_physical := []; sel_parts := parts |}, config, qw)
    else
      let config := MarkIncludeTables config (DBName srcConn) srcTables srcDbPartTables in
      if bool_decide (length (GetDestTablesByDb config (DBName destConn)) = 0) then
        let! (expandedTables, pendingCheckRels, qw) :=
          FatalOnError (expandPartTables qw srcConn srcTables (GetIncludeTablesByDb config (DBName srcConn))) in
        let! excludedSrcTables := excludeTables expandedTables exlTabs in
        let! excludedPendingCheckRels := excludeTables pendingCheckRels exlTabs in
        let! nonPhysicalRels := qw_GetNonPhysicalRelations srcConn excludedPendingCheckRels in
        let! skip := MustGetFlagBool CmdFlags SKIP_EXISTING in
        let! (config, qw) := load_if skip config qw destConn in
        let! dest := redirectIncludeTables config excludedSrcTables in
        let! (parts, qw) := getPartitionTableMapping config qw srcConn destConn false in
        Ok ({| sel_src := excludedSrcTables; sel_dest := dest; sel_non_physical := nonPhysicalRels; sel_parts := parts |},
            config, qw)
      else processDestinationTables config qw srcConn destConn srcTables.

(** * Filters on pairs of tables ([copy/copy_metadata.go]) *)

(** The inverted partition map; a leaf listed under two roots keeps the root
    that is visited last. *)
Definition invert_parts (site : N) (partNameMap : gmap string (list string)) : gmap string string :=
  foldl (λ m '(root, leaves), foldl (λ m leaf, <[leaf := root]> m) m leaves) ∅ (range_map site partNameMap).

Definition rootExistsOnDest (config : Option_) (destDbName rootFQN : string) : bool :=
  match SplitN2 rootFQN DOT with
  | [s; n] => IsDestTableExisting config destDbName s n
  | _ => false
  end.

Definition pair_skipped (config : Option_) (destDbName : string) (leafToRoot : gmap string string) (d : Table) : bool :=
  IsDestTableExisting config destDbName (Schema d) (Name d) ||
  match leafToRoot !! fqn d with
  | Some rootFQN => rootExistsOnDest config destDbName rootFQN
  | None => false
  end.

(** The pairs kept and, in order, the pairs recorded as skipped; the two slices
    are indexed in step. *)
Fixpoint filter_pairs_from (skip : Table → bool) (src : list Table) (dst : list Table)
    : go (list Table * list Table * list (Table * Table)) :=
  match src with
  | [] => Ok ([], [], [])
  | s :: src' =>
      let! d := index dst 0 in
      let! (keptSrc, keptDst, skipped) := filter_pairs_from skip src' (drop 1 dst) in
      if skip d then Ok (keptSrc, keptDst, (s, d) :: skipped)
      else Ok (s :: keptSrc, d :: keptDst, skipped)
  end.
Definition filterTablePairsByDestExisting (config : Option_) (destDbName : string) (src dst : list Table)
    (partNameMap : gmap string (list string)) : go (list Table * list Table * list (Table * Table)) :=
  if bool_decide (length src = 0) then Ok (src, dst, [])
  else filter_pairs_from (pair_skipped config destDbName (invert_parts 141 partNameMap)) src dst.

(** [fillTablePairChan]: the pairs sent, in order. *)
Fixpoint fill_pairs_from (destTables : list Table) (i : nat) (srcTables : list Table) : go (list TablePair) :=
  match srcTables with
  | [] => Ok []
  | t :: src' =>
      let! d := index destTables i in
      let! rest := fill_pairs_from destTables (S i) src' in
      Ok ({| SrcTable := {| Schema := Schema t; Name := Name t; Partition := 0; RelTuples := RelTuples t;
                            IsReplicated := IsReplicated t |};
             DestTable := mkTable (Schema d) (Name d) |} :: rest)
  end.
Definition fillTablePairChan (srcTables destTables : list Table) : go (list TablePair) :=
  if bool_decide (length destTables = 0) then Ok [] else fill_pairs_from destTables 0 srcTables.

Definition collectTablesAndSchemas (tables nonPhysicalRels : list Table) (partNameMap : gmap string (list string))
    : list string * list string :=
  let leafTableMap := invert_parts 218 partNameMap in
  let tableMap : gmap string bool := foldl (λ m t, <[default (fqn t) (leafTableMap !! fqn t) := true]> m) ∅ tables in
  let schemaMap : gmap string bool := foldl (λ m t, <[Schema t := true]> m) ∅ (tables ++ nonPhysicalRels) in
  let includeTables := (range_map 247 tableMap).*1 ++ (fqn <$> nonPhysicalRels) in
  let includeSchemas := (range_map 255 schemaMap).*1 in
  (includeSchemas, includeTables).

(** * The loop over databases ([Application.doCopy]) *)

(** What one iteration hands to the metadata manager: the selection left by
    the pair filter, the table map built from it and the owner and tablespace
    maps of the options. *)
Record db_plan := {
  plan_db : string * string;
  plan_src : list Table;
  plan_dest : list Table;
  plan_non_physical : list Table;
  plan_parts : gmap string (list string);
  plan_tables : gmap string string;
  plan_skipped : list (Table * Table);
  plan_metadata_only : bool;
  plan_owners : gmap string string;
  plan_tablespaces : gmap string string
}.

(** One iteration up to [NewMetadataManager]; [None] is the [continue] on a
    database without tables. *)
Definition plan_database `{FlagSet F} (CmdFlags : F) (config : Option_) (qw : QueryWrapper)
    (srcConn destConn : DBConn) : go (option db_plan * Option_ * QueryWrapper) :=
  let! (sel, config, qw) := GetUserTables CmdFlags config qw srcConn destConn in
  if bool_decide (length (sel_src sel) = 0 ∧ length (sel_non_physical sel) = 0) then Ok (None, config, qw)
  else
    let! skip := MustGetFlagBool CmdFlags SKIP_EXISTING in
    let! (srcTables, destTables, skipped) :=
      if (skip : bool)
      then filterTablePairsByDestExisting config (DBName destConn) (sel_src sel) (sel_dest sel) (sel_parts sel)
      else Ok (sel_src sel, sel_dest sel, []) in
    let! metadataOnly := MustGetFlagBool CmdFlags METADATA_ONLY in
    let! tabMap := FormUserTableMap srcTables destTables in
    let! (tablespaces, config) := GetTablespaceMap CmdFlags config in
    Ok (Some {| plan_db := (DBName srcConn, DBName destConn); plan_src := srcTables; plan_dest := destTables;
                plan_non_physical := sel_non_physical sel; plan_parts := sel_parts sel;
                plan_tables := tabMap; plan_skipped := skipped; plan_metadata_only := metadataOnly;
                plan_owners := ownerMap config; plan_tablespaces := tablespaces |}, config, qw).

(** The iterations in order; [ResetCache] ends an iteration that was not cut
    short by [continue]. *)
Fixpoint plan_databases `{FlagSet F} (CmdFlags : F) (config : Option_) (qw : QueryWrapper)
    (conns : list (DBConn * DBConn)) : go (list db_plan) :=
  match conns with
  | [] => Ok []
  | (srcConn, destConn) :: conns' =>
      let! (plan, config, qw) := plan_database CmdFlags config qw srcConn destConn in
      match plan with
      | None => plan_databases CmdFlags config qw conns'
      | Some p => let! ps := plan_databases CmdFlags config (ResetCache qw) conns' in Ok (p :: ps)
      end
  end.
End query_wrapper.

(** * Lemmas *)

Section lemmas.
Context `{MapRange}.
Implicit Types (config o : Option_) (qw : QueryWrapper) (src dst : list Table).

Lemma form_map_from_zip dest i result src :
  length src ≤ length dest - i →
  form_map_from dest i result src =
  Ok (foldl (λ m '(t, d), <[fqn d := table_entry t]> m) result (zip src (drop i dest))).
Proof.
  revert i result. induction src as [|t src IH]; intros i result Hlen; [done|].
  simpl in Hlen. cbn [form_map_from].
  destruct (index_lt dest i) as (d & -> & Hd); [lia|]. simpl.
  rewrite IH by lia. by rewrite (drop_S dest d i).
Qed.

Lemma FormUserTableMap_zip src dst : length src ≤ length dst →
  FormUserTableMap src dst = Ok (foldl (λ m '(t, d), <[fqn d := table_entry t]> m) ∅ (zip src dst)).
Proof. intros Hlen. unfold FormUserTableMap. by rewrite form_map_from_zip by lia. Qed.

(** Insertions in order build the map of the reversed list. *)
Lemma foldl_insert_list_to_map {A} (key : A → string) (val : A → string) (l : list A) (m : gmap string string) :
  foldl (λ m a, <[key a := val a]> m) m l = list_to_map (reverse ((λ a, (key a, val a)) <$> l)) ∪ m.
Proof.
  revert m. induction l as [|a l IH]; intros m; cbn [foldl fmap list_fmap].
  - symmetry. apply (left_id_L ∅ (∪)).
  - rewrite IH, reverse_cons, list_to_map_app. simpl. rewrite <- (assoc_L (∪)). f_equal.
    rewrite insert_empty. by rewrite <- insert_union_singleton_l.
Qed.

Lemma foldl_pair {A B C} (f : C → A → B → C) (l : list (A * B)) c :
  foldl (λ c '(a, b), f c a b) c l = foldl (λ c p, f c p.1 p.2) c l.
Proof. revert c. by induction l as [|[a b] l IH]; intros c; simpl; rewrite ?IH. Qed.

Lemma FormUserTableMap_spec src dst : length src ≤ length dst →
  FormUserTableMap src dst =
  Ok (list_to_map (reverse ((λ p, (fqn p.2, table_entry p.1)) <$> zip src dst))).
Proof.
  intros Hlen. rewrite FormUserTableMap_zip by done. f_equal.
  rewrite (foldl_pair (λ m t d, <[fqn d := table_entry t]> m)).
  rewrite (foldl_insert_list_to_map (λ p, fqn p.2) (λ p, table_entry p.1)). apply (right_id_L ∅ (∪)).
Qed.

(** ** The pair filter *)

Lemma filter_pairs_from_spec skip src dst : length src = length dst →
  filter_pairs_from skip src dst =
  Ok ((filter (λ p, skip p.2 = false) (zip src dst)).*1,
      (filter (λ p, skip p.2 = false) (zip src dst)).*2,
      filter (λ p, skip p.2 = true) (zip src dst)).
Proof.
  revert dst. induction src as [|s src IH]; intros [|d dst] Hlen; simplify_eq/=; [done|].
  rewrite drop_0, IH by done. simpl. rewrite !filter_cons. simpl.
  destruct (skip d) eqn:Hd.
  - by rewrite (decide_False (P := true = false)), (decide_True (P := true = true)).
  - by rewrite (decide_True (P := false = false)), (decide_False (P := false = true)).
Qed.

(** Every leaf belongs to one root. *)
Definition one_root (parts : gmap string (list string)) : Prop :=
  ∀ r1 r2 l1 l2 leaf, parts !! r1 = Some l1 → parts !! r2 = Some l2 → leaf ∈ l1 → leaf ∈ l2 → r1 = r2.

Lemma insert_leaves (root : string) (leaves : list string) (m : gmap string string) leaf :
  foldl (λ m leaf, <[leaf := root]> m) m leaves !! leaf =
  if decide (leaf ∈ leaves) then Some root else m !! leaf.
Proof.
  revert m. induction leaves as [|x leaves IH]; intros m; simpl; [done|]. rewrite IH.
  destruct (decide (leaf ∈ leaves)); [rewrite decide_True by set_solver; done|].
  destruct (decide (leaf = x)) as [->|Hne].
  - rewrite lookup_insert_eq, decide_True by set_solver. done.
  - rewrite lookup_insert_ne by done. rewrite decide_False by set_solver. done.
Qed.

Lemma invert_parts_lookup site parts leaf root : one_root parts →
  invert_parts site parts !! leaf = Some root ↔ ∃ leaves, parts !! root = Some leaves ∧ leaf ∈ leaves.
Proof.
  intros Hone. unfold invert_parts.
  assert (Hgen : ∀ l (m : gmap string string),
    (∀ r ls, (r, ls) ∈ l → parts !! r = Some ls) →
    foldl (λ m '(root, leaves), foldl (λ m leaf, <[leaf := root]> m) m leaves) m l !! leaf = Some root ↔
    (∃ leaves, (root, leaves) ∈ l ∧ leaf ∈ leaves) ∨
    ((¬ ∃ r leaves, (r, leaves) ∈ l ∧ leaf ∈ leaves) ∧ m !! leaf = Some root)).
  { induction l as [|[r ls] l IH]; intros m Hl; cbn [foldl]; [set_solver|].
    rewrite IH by set_solver. rewrite insert_leaves.
    destruct (decide (leaf ∈ ls)) as [Hin|Hni]; [|set_solver].
    assert (Hr : ∀ r' ls', (r', ls') ∈ l → leaf ∈ ls' → r' = r).
    { intros r' ls' Hin' Hlf. eapply (Hone r' r ls' ls leaf); [apply Hl; set_solver|apply Hl; set_solver|done|done]. }
    split.
    - intros [(ls' & ? & ?)|[_ [= <-]]]; left; [exists ls'; set_solver|exists ls; set_solver].
    - intros [(ls' & Hin' & Hlf)|[Hno _]]; [|exfalso; apply Hno; exists r, ls; set_solver].
      apply elem_of_cons in Hin' as [[= <- <-]|Hin']; [|left; eauto].
      destruct (decide (Exists (λ p, leaf ∈ p.2) l)) as [He|He].
      + left. apply Exists_exists in He as ([r2 ls2] & Hin2 & Hlf2). simpl in *.
        exists ls2. split; [|done]. by rewrite <- (Hr r2 ls2).
      + right. split; [|done]. intros (r2 & ls2 & Hin2 & Hlf2). apply He, Exists_exists. by exists (r2, ls2). }
  rewrite Hgen by (intros r ls; apply elem_of_range_map).
  rewrite lookup_empty. setoid_rewrite elem_of_range_map. naive_solver.
Qed.

(** ** The caches *)

Lemma GetPartitionLeafTables_cached qw conn isDest tables qw' : 
  GetPartitionLeafTables qw conn isDest = Ok (tables, qw') →
  (if isDest then destPartLeafTable qw' else srcPartLeafTable qw') = Some tables ∧
  (∀ l, srcPartLeafTable qw = Some l → srcPartLeafTable qw' = Some l).
Proof.
  unfold GetPartitionLeafTables. destruct isDest.
  - destruct (destPartLeafTable qw) eqn:Hd; intros; [by simplify_eq|].
    inv_go. simplify_eq. split; [done|]. by simpl.
  - destruct (srcPartLeafTable qw) eqn:Hd; intros; [simplify_eq; split; [done|congruence]|].
    inv_go. simplify_eq. split; [done|]. by simpl.
Qed.

(** The source cache survives every step of the selection. *)
Definition keeps (qw qw' : QueryWrapper) : Prop :=
  ∀ l, srcPartLeafTable qw = Some l → srcPartLeafTable qw' = Some l.

#[global] Instance keeps_preorder : PreOrder keeps.
Proof. split; [by intros ??|intros x y z Hxy Hyz l Hl; by apply Hyz, Hxy]. Qed.

Lemma FatalOnError_inv {A} (m : go A) a : FatalOnError m = Ok a → m = Ok a.
Proof. by destruct m. Qed.

Lemma GetRootPartTables_keeps qw conn d r qw' : GetRootPartTables qw conn d = Ok (r, qw') → keeps qw qw'.
Proof.
  unfold GetRootPartTables. intros ([ts q] & Hg & Heq)%bind_Ok. simplify_eq.
  by destruct (GetPartitionLeafTables_cached _ _ _ _ _ Hg) as [_ ?].
Qed.

Lemma buildPartitionTableMapping_keeps config qw conn d k r qw' :
  buildPartitionTableMapping config qw conn d k = Ok (r, qw') → keeps qw qw'.
Proof.
  unfold buildPartitionTableMapping. intros (sm & _ & Hb)%bind_Ok. apply bind_Ok in Hb as (s & _ & Hb).
  apply bind_Ok in Hb as ([ts q] & Hg%FatalOnError_inv & Hb). apply bind_Ok in Hb as (pm & _ & Hb). simplify_eq.
  by destruct (GetPartitionLeafTables_cached _ _ _ _ _ Hg) as [_ ?].
Qed.

Lemma getPartitionTableMapping_keeps config qw sc dc k r qw' :
  getPartitionTableMapping config qw sc dc k = Ok (r, qw') → keeps qw qw'.
Proof.
  unfold getPartitionTableMapping. case_bool_decide; apply buildPartitionTableMapping_keeps.
Qed.

Lemma expandPartTables_keeps qw conn ut ts r qw' : expandPartTables qw conn ut ts = Ok (r, qw') → keeps qw qw'.
Proof.
  unfold expandPartTables. intros ([lt q] & Hg & Hb)%bind_Ok. apply bind_Ok in Hb as (tm & _ & Hb). simplify_eq.
  by destruct (GetPartitionLeafTables_cached _ _ _ _ _ Hg) as [_ ?].
Qed.

Lemma loadDestInventory_keeps config qw conn r c' qw' :
  loadDestInventory config qw conn = Ok (r, c', qw') → keeps qw qw'.
Proof.
  unfold loadDestInventory. intros (t & _ & Hb)%bind_Ok.
  apply bind_Ok in Hb as ([p q] & Hg%FatalOnError_inv & Hb). simplify_eq. by eapply GetRootPartTables_keeps.
Qed.

Lemma load_if_keeps skip config qw conn c' qw' : load_if skip config qw conn = Ok (c', qw') → keeps qw qw'.
Proof.
  unfold load_if. destruct skip; [|intros; by simplify_eq].
  intros ([[t c] q] & Hg & Hb)%bind_Ok. simplify_eq. by eapply loadDestInventory_keeps.
Qed.

Lemma processDestinationTables_keeps config qw sc dc st r c' qw' :
  processDestinationTables config qw sc dc st = Ok (r, c', qw') → keeps qw qw'.
Proof.
  unfold processDestinationTables. intros ([[t c] q] & Hg & Hb)%bind_Ok.
  apply bind_Ok in Hb as (? & _ & Hb). apply bind_Ok in Hb as (? & _ & Hb). apply bind_Ok in Hb as (? & _ & Hb).
  apply bind_Ok in Hb as ([? ?] & _ & Hb). apply bind_Ok in Hb as ([? q2] & Hp & Hb). simplify_eq.
  transitivity q; [by eapply loadDestInventory_keeps|by eapply getPartitionTableMapping_keeps].
Qed.

(** After a selection the source leaves are cached. *)
Lemma GetUserTables_caches {F} `{FlagSet F} (CmdFlags : F) config qw sc dc sel c' qw' :
  GetBool CmdFlags GLOBAL_METADATA_ONLY = Ok false →
  GetUserTables CmdFlags config qw sc dc = Ok (sel, c', qw') →
  ∃ tables q, GetPartitionLeafTables qw sc false = Ok (tables, q) ∧ srcPartLeafTable qw' = Some tables.
Proof.
  intros Hglob. assert (Hmust : MustGetFlagBool CmdFlags GLOBAL_METADATA_ONLY = Ok false)
    by (unfold MustGetFlagBool; by rewrite Hglob).
  unfold GetUserTables. rewrite Hmust. cbn [mbind go_bind].
  intros (st & _ & Hb)%bind_Ok. apply bind_Ok in Hb as ([sp q1] & Hr%FatalOnError_inv & Hb).
  unfold GetRootPartTables in Hr. apply bind_Ok in Hr as ([ts q1'] & Hleaf & Hr). injection Hr as _ <-.
  exists ts, q1'. split; [done|].
  destruct (GetPartitionLeafTables_cached _ _ _ _ _ Hleaf) as [Hc _].
  enough (keeps q1' qw') as Hk by (by apply Hk).
  apply bind_Ok in Hb as ([[ex pe] q2] & He%FatalOnError_inv%expandPartTables_keeps & Hb).
  transitivity q2; [done|]. case_bool_decide.
  - apply bind_Ok in Hb as (? & _ & Hb). apply bind_Ok in Hb as (? & _ & Hb). apply bind_Ok in Hb as (? & _ & Hb).
    apply bind_Ok in Hb as ([c2 q3] & Hl%load_if_keeps & Hb). apply bind_Ok in Hb as (? & _ & Hb).
    apply bind_Ok in Hb as ([? q4] & Hp%getPartitionTableMapping_keeps & Hb). simplify_eq. by transitivity q3.
  - case_bool_decide; [|by eapply processDestinationTables_keeps].
    apply bind_Ok in Hb as ([[? ?] q3] & He2%FatalOnError_inv%expandPartTables_keeps & Hb).
    apply bind_Ok in Hb as (? & _ & Hb). apply bind_Ok in Hb as (? & _ & Hb). apply bind_Ok in Hb as (? & _ & Hb).
    apply bind_Ok in Hb as (? & _ & Hb). apply bind_Ok in Hb as ([c2 q4] & Hl%load_if_keeps & Hb).
    apply bind_Ok in Hb as (? & _ & Hb).
    apply bind_Ok in Hb as ([? q5] & Hp%getPartitionTableMapping_keeps & Hb). simplify_eq.
    transitivity q3; [done|]. by transitivity q4.
Qed.
End lemmas.

Lemma size_set_map_inj (f : string → string) (X : gset string) :
  Inj (=) (=) f → size (set_map (D := gset string) f X) = size X.
Proof.
  intros Hinj. induction X as [|x X Hx IH] using set_ind_L; [by rewrite set_map_empty, !size_empty|].
  rewrite set_map_union_L, set_map_singleton_L, !size_union, !size_singleton, IH; set_solver.
Qed.

(** * Theorems *)

Section theorems.
Context `{MapRange}.

(** The destination side of a pair is present: the table itself, or the root of
    the tree it is a leaf of. *)
Definition present (config : Option_) (destDbName : string) (parts : gmap string (list string)) (d : Table) : Prop :=
  IsDestTableExisting config destDbName (Schema d) (Name d) = true ∨
  ∃ root leaves, parts !! root = Some leaves ∧ fqn d ∈ leaves ∧ rootExistsOnDest config destDbName root = true.

Lemma pair_skipped_spec config db site parts d : one_root parts →
  pair_skipped config db (invert_parts site parts) d = true ↔ present config db parts d.
Proof.
  intros Hone. unfold pair_skipped, present. rewrite orb_true_iff.
  destruct (invert_parts site parts !! fqn d) as [root|] eqn:Hr.
  - apply invert_parts_lookup in Hr as (ls & Hls & Hin); [|done].
    split; intros [He|He]; auto; right; [by exists root, ls|].
    destruct He as (root' & ls' & Hp & Hin' & He). by rewrite (Hone root root' ls ls' (fqn d)).
  - split; intros [He|He]; auto; [done|]. right. destruct He as (root & ls & Hp & Hin & _).
    assert (Hs : invert_parts site parts !! fqn d = Some root) by (apply invert_parts_lookup; eauto).
    congruence.
Qed.

(** C26: the [--skip-existing] filter on the pairs keeps the two slices in step
    and in order, sends every pair either to the copy or to the record of
    skipped pairs, and skips a pair exactly when its destination table or the
    root of its destination partition tree is in the inventory, in whatever
    order the partition map is visited. *)
Theorem filterTablePairsByDestExisting_exact (config : Option_) (destDbName : string)
    (src dst : list Table) (parts : gmap string (list string))
    (Hlen : length src = length dst) (Hone : one_root parts) :
  ∃ keptSrc keptDst skipped,
    filterTablePairsByDestExisting config destDbName src dst parts = Ok (keptSrc, keptDst, skipped) ∧
    length keptSrc = length keptDst ∧
    zip keptSrc keptDst `sublist_of` zip src dst ∧
    zip keptSrc keptDst ++ skipped ≡ₚ zip src dst ∧
    (∀ s d, (s, d) ∈ zip keptSrc keptDst → ¬ present config destDbName parts d) ∧
    (∀ s d, (s, d) ∈ skipped → present config destDbName parts d).
Proof.
  unfold filterTablePairsByDestExisting. case_bool_decide as Hz.
  { apply nil_length_inv in Hz as ->. destruct dst; [|done]. exists [], [], []. simpl.
    split_and!; try done; set_solver. }
  set (skip := pair_skipped config destDbName (invert_parts 141 parts)).
  rewrite filter_pairs_from_spec by done. do 3 eexists. split; [done|].
  rewrite zip_fst_snd, !length_fmap. split_and!.
  - done.
  - apply sublist_filter.
  - rewrite <- (filter_app_complement (λ p : Table * Table, skip p.2 = false) (zip src dst)) at 3.
    apply Permutation_app_head. rewrite (list_filter_iff (λ p : Table * Table, skip p.2 = true)
      (λ p : Table * Table, ¬ skip p.2 = false)); [done|]. intros p. by rewrite not_false_iff_true.
  - intros s d [Hs _]%list_elem_of_filter Hp. apply (pair_skipped_spec _ _ 141) in Hp; [|done].
    simpl in Hs. unfold skip in Hs. by rewrite Hp in Hs.
  - intros s d [Hs _]%list_elem_of_filter. by apply pair_skipped_spec in Hs.
Qed.

(** A database that answers the query for partition leaves with [leaves]. *)
Definition with_leaves (conn : DBConn) (leaves : list PartLeafTable) : DBConn :=
  {| DBName := DBName conn; rows_databases := rows_databases conn; rows_user_tables := rows_user_tables conn;
     rows_leaf_tables := Ok leaves; rows_non_physical := rows_non_physical conn; rows_schema_count := rows_schema_count conn |}.

Lemma mapping_cached config qw (srcConn destConn : DBConn) leaves keep : srcPartLeafTable qw = Some leaves →
  getPartitionTableMapping config qw srcConn destConn keep = getPartitionTableMapping config qw (with_leaves srcConn leaves) destConn keep.
Proof.
  intros Hqw. unfold getPartitionTableMapping, buildPartitionTableMapping, GetPartitionLeafTables. case_bool_decide; [done|]. by rewrite Hqw.
Qed.
Lemma bind_same {A B} (m : go A) (f g : A → go B) : (∀ a, m = Ok a → f a = g a) → mbind f m = mbind g m.
Proof. intros Hfg. destruct m; [by apply Hfg|done..]. Qed.
(** The selection asks for the leaves of the source through the cache only. *)
Lemma GetUserTables_cached {F} `{FlagSet F} (CmdFlags : F) config leaves cache (srcConn destConn : DBConn) :
  GetBool CmdFlags GLOBAL_METADATA_ONLY = Ok false →
  GetUserTables CmdFlags config {| srcPartLeafTable := Some leaves; destPartLeafTable := cache |} srcConn destConn =
  GetUserTables CmdFlags config {| srcPartLeafTable := None; destPartLeafTable := cache |} (with_leaves srcConn leaves) destConn.
Proof.
  intros Hglob. assert (Hmust : MustGetFlagBool CmdFlags GLOBAL_METADATA_ONLY = Ok false) by (unfold MustGetFlagBool; by rewrite Hglob).
  unfold GetUserTables. rewrite Hmust. cbn [mbind go_bind]. apply bind_same. intros st _.
  set (qw := {| srcPartLeafTable := Some leaves; destPartLeafTable := cache |}).
  assert (Hroot : GetRootPartTables {| srcPartLeafTable := None; destPartLeafTable := cache |} (with_leaves srcConn leaves) false =
    GetRootPartTables qw srcConn false) by done.
  rewrite Hroot. change (DBName (with_leaves srcConn leaves)) with (DBName srcConn).
  apply bind_same. intros [sp q1] Hq1%FatalOnError_inv.
  assert (q1 = qw) as -> by (unfold GetRootPartTables, GetPartitionLeafTables in Hq1; cbn in Hq1; by simplify_eq).
  assert (Hexpand : ∀ q l, srcPartLeafTable q = Some leaves → expandPartTables q (with_leaves srcConn leaves) st l = expandPartTables q srcConn st l).
  { intros q l Hq. unfold expandPartTables, GetPartitionLeafTables. by rewrite Hq. }
  rewrite Hexpand by done. apply bind_same. intros [[ex pe] q2] Hq2%FatalOnError_inv%expandPartTables_keeps.
  assert (Hs2 : srcPartLeafTable q2 = Some leaves) by by apply Hq2.
  case_bool_decide.
  - apply bind_same. intros t1 _. apply bind_same. intros t2 _. apply bind_same. intros skip _.
    apply bind_same. intros [c2 q3] Hq3%load_if_keeps. apply bind_same. intros dest _.
    by rewrite (mapping_cached _ _ _ _ leaves) by by apply Hq3.
  - case_bool_decide.
    + rewrite Hexpand by done. apply bind_same. intros [[e1 p1] q3] Hq3%FatalOnError_inv%expandPartTables_keeps.
      apply bind_same. intros t1 _. apply bind_same. intros t2 _. apply bind_same. intros t3 _. apply bind_same. intros skip _.
      apply bind_same. intros [c2 q4] Hq4%load_if_keeps. apply bind_same. intros dest _.
      by rewrite (mapping_cached _ _ _ _ leaves) by (by apply Hq4, Hq3).
    + unfold processDestinationTables. apply bind_same. intros [[dt c2] q3] Hq3%loadDestInventory_keeps.
      change (DBName (with_leaves srcConn leaves)) with (DBName srcConn).
      do 4 (apply bind_same; intros ? _). by rewrite (mapping_cached _ _ _ _ leaves) by by apply Hq3.
Qed.
Lemma plan_database_cached {F} `{FlagSet F} (CmdFlags : F) config leaves cache (srcConn destConn : DBConn) :
  GetBool CmdFlags GLOBAL_METADATA_ONLY = Ok false →
  plan_database CmdFlags config {| srcPartLeafTable := Some leaves; destPartLeafTable := cache |} srcConn destConn =
  plan_database CmdFlags config {| srcPartLeafTable := None; destPartLeafTable := cache |} (with_leaves srcConn leaves) destConn.
Proof. intros Hglob. unfold plan_database. by rewrite (GetUserTables_cached CmdFlags config leaves) by done. Qed.
Lemma empty_plan_caches {F} `{FlagSet F} (CmdFlags : F) config cache (srcConn destConn : DBConn) leaves config' qw' :
  GetBool CmdFlags GLOBAL_METADATA_ONLY = Ok false → rows_leaf_tables srcConn = Ok leaves →
  plan_database CmdFlags config {| srcPartLeafTable := None; destPartLeafTable := cache |} srcConn destConn = Ok (None, config', qw') →
  srcPartLeafTable qw' = Some leaves.
Proof.
  intros Hglobal Hleaves Hplan. unfold plan_database in Hplan. apply bind_Ok in Hplan as ([[sel c1] q1] & Hsel & Hc).
  destruct (GetUserTables_caches _ _ _ _ _ _ _ _ Hglobal Hsel) as (ts & q & Hg & Hcache).
  assert (Hq : q1 = qw').
  { case_bool_decide; [by simplify_eq|]. apply bind_Ok in Hc as (? & _ & Hc).
    apply bind_Ok in Hc as ([[? ?] ?] & _ & Hc). apply bind_Ok in Hc as (? & _ & Hc).
    apply bind_Ok in Hc as (? & _ & Hc). apply bind_Ok in Hc as ([? ?] & _ & Hc). done. }
  subst q1. unfold GetPartitionLeafTables, qm_GetPartitionLeafTables in Hg. cbn in Hg.
  rewrite Hleaves in Hg. cbn in Hg. by simplify_eq.
Qed.

(** The loop behind a database without tables whose partition leaves are
    [leaves]: up to the first database with tables each is planned with these
    leaves for its own, and the rest of the loop starts with empty caches. *)
Fixpoint misled_plans {F} `{FlagSet F} (CmdFlags : F) (leaves : list PartLeafTable) (config : Option_) (cache : option (list PartLeafTable))
    (conns : list (DBConn * DBConn)) : go (list db_plan) :=
  match conns with
  | [] => Ok []
  | (srcConn, destConn) :: conns' =>
      let! (plan, config, qw) := plan_database CmdFlags config {| srcPartLeafTable := None; destPartLeafTable := cache |}
        (with_leaves srcConn leaves) destConn in
      match plan with
      | None => misled_plans CmdFlags leaves config (destPartLeafTable qw) conns'
      | Some p => let! ps := plan_databases CmdFlags config NewQueryWrapper conns' in Ok (p :: ps)
      end
  end.
Lemma misled_plans_spec {F} `{FlagSet F} (CmdFlags : F) leaves config cache conns :
  GetBool CmdFlags GLOBAL_METADATA_ONLY = Ok false →
  plan_databases CmdFlags config {| srcPartLeafTable := Some leaves; destPartLeafTable := cache |} conns =
  misled_plans CmdFlags leaves config cache conns.
Proof.
  intros Hglobal. revert config cache. induction conns as [|[s d] conns IH]; intros config cache; [done|]. cbn [plan_databases misled_plans].
  rewrite plan_database_cached by done. apply bind_same. intros [[[p|] c] q] Hplan; [done|].
  assert (Hsrc : srcPartLeafTable q = Some leaves) by (by eapply empty_plan_caches; [exact Hglobal| |exact Hplan]).
  destruct q as [sq dq]. cbn in Hsrc. subst sq. apply IH.
Qed.

(** C37: A database without tables misleads the one behind it. The loop goes on
    to the next database without [ResetCache], and the partition leaves of the
    empty database stay in the cache; so every database up to and including
    the first one with tables is planned as if its partition leaves were those
    of the empty database. That one ends with [ResetCache], so the databases
    behind it are planned with their own leaves (copy.go:294, copy.go:355,
    copy_query_wrapper.go:437). *)
Theorem empty_database_poisons_cache {F} `{FlagSet F} (CmdFlags : F) (config : Option_)
    (srcConn destConn : DBConn) (leaves : list PartLeafTable) (config' : Option_) (qw' : QueryWrapper)
    (Hglobal : GetBool CmdFlags GLOBAL_METADATA_ONLY = Ok false)
    (Hleaves : rows_leaf_tables srcConn = Ok leaves)
    (Hcontinue : plan_database CmdFlags config NewQueryWrapper srcConn destConn = Ok (None, config', qw')) :
  ∀ conns, plan_databases CmdFlags config NewQueryWrapper ((srcConn, destConn) :: conns) =
    misled_plans CmdFlags leaves config' (destPartLeafTable qw') conns.
Proof.
  intros conns. cbn [plan_databases]. rewrite Hcontinue. cbn [mbind go_bind].
  assert (Hsrc : srcPartLeafTable qw' = Some leaves) by (by eapply empty_plan_caches; [exact Hglobal|exact Hleaves|exact Hcontinue]).
  destruct qw' as [sq dq]. cbn in Hsrc. subst sq. by apply misled_plans_spec.
Qed.

(** With [--include-table] and one destination schema the table map has one
    entry per distinct table name: of two included tables of the same name in
    different schemas one has no entry and is not copied. *)
Theorem redirectIncludeTables_collapses (config : Option_) (tables : list Table) (d : DbSchema)
    (ds : list DbSchema) (Hdest : destSchemas config = d :: ds) :
  ∃ dest m, redirectIncludeTables config tables = Ok dest ∧ FormUserTableMap tables dest = Ok m ∧
    size m = size (list_to_set (C := gset string) (Name <$> tables)).
Proof.
  unfold redirectIncludeTables. rewrite Hdest. rewrite bool_decide_false by done.
  change (index (d :: ds) 0) with (Ok d). cbn [mbind go_bind]. eexists _, _. split; [done|].
  rewrite FormUserTableMap_spec by (by rewrite length_fmap). split; [done|].
  rewrite <- size_dom, dom_list_to_map_L, fmap_reverse, <- list_fmap_compose.
  set (key := λ n : string, sch_Schema d +:+ "." +:+ n).
  assert (Hkeys : ∀ (f : Table → Table), (∀ t, fqn (f t) = key (Name t)) →
    fst ∘ (λ p : Table * Table, (fqn p.2, table_entry p.1)) <$> zip tables (f <$> tables) = key <$> (Name <$> tables)).
  { intros f Hf. clear -Hf. induction tables as [|t l IH]; [done|]. simpl. f_equal; [apply Hf|apply IH]. }
  rewrite Hkeys by done.
  assert (Hset : list_to_set (reverse (key <$> (Name <$> tables))) =@{gset string}
    set_map key (list_to_set (C := gset string) (Name <$> tables))).
  { apply set_eq. intros x. rewrite elem_of_list_to_set, elem_of_reverse, list_elem_of_fmap, elem_of_map.
    by setoid_rewrite elem_of_list_to_set. }
  rewrite Hset. apply size_set_map_inj. unfold key. intros n1 n2 Heq.
  apply (f_equal bytes) in Heq. rewrite !bytes_append in Heq.
  apply app_inv_head, app_inv_head in Heq. by rewrite <- (of_bytes_bytes n1), <- (of_bytes_bytes n2), Heq.
Qed.
End theorems.

(** * Instances *)

Definition root_on_dest : Option_ :=
  MarkDestTables default_option "d" ∅ {["public.p" := true]}.
Definition one_tree : gmap string (list string) := {["public.p" := ["public.p_1"; "public.p_2"]]}.

Lemma one_tree_one_root : one_root one_tree.
Proof.
  unfold one_tree. intros r1 r2 l1 l2 leaf H1 H2 _ _.
  apply lookup_singleton_Some in H1 as [<- _]. by apply lookup_singleton_Some in H2 as [<- _].
Qed.

Lemma filterTablePairsByDestExisting_exact_witness :
  let src := [mkTable "public" "a"; mkTable "public" "p_1"] in
  ∃ keptSrc keptDst skipped,
    filterTablePairsByDestExisting root_on_dest "d" src src one_tree = Ok (keptSrc, keptDst, skipped) ∧
    length keptSrc = length keptDst ∧
    zip keptSrc keptDst `sublist_of` zip src src ∧
    zip keptSrc keptDst ++ skipped ≡ₚ zip src src ∧
    (∀ s d, (s, d) ∈ zip keptSrc keptDst → ¬ present root_on_dest "d" one_tree d) ∧
    (∀ s d, (s, d) ∈ skipped → present root_on_dest "d" one_tree d).
Proof.
  intros src. apply filterTablePairsByDestExisting_exact; [reflexivity|apply one_tree_one_root].
Defined.

(** A database without user tables. *)
Definition empty_db (name : string) : DBConn :=
  {| DBName := name; rows_databases := Ok []; rows_user_tables := Ok []; rows_leaf_tables := Ok [];
     rows_non_physical := Ok []; rows_schema_count := λ _, Ok 0%Z |}.
Definition full_args : flag_map := the_flags (parse_args [(FULL, "true"); (TRUNCATE, "true")]).

(** A database with a partitioned table. *)
Definition tree_db (name : string) : DBConn :=
  {| DBName := name; rows_databases := Ok []; rows_user_tables := Ok [mkTable "public" "p_1"];
     rows_leaf_tables := Ok [{| RootName := "public.p"; LeafName := "public.p_1"; leaf_RelTuples := 0 |}];
     rows_non_physical := Ok []; rows_schema_count := λ _, Ok 0%Z |}.
Definition parts_of (plans : go (list db_plan)) : list (gmap string (list string)) :=
  match plans with Ok ps => plan_parts <$> ps | _ => [] end.
(** Behind the empty database the partitioned table has lost its leaves, in the
    database after that it has them. *)
Lemma empty_database_poisons_cache_witness :
  let conns := [(tree_db "b", empty_db "b"); (tree_db "c", empty_db "c")] in
  let plans := plan_databases full_args default_option NewQueryWrapper ((empty_db "a", empty_db "a") :: conns) in
  parts_of plans = [∅; {["public.p" := ["public.p_1"]]}] ∧ plans = misled_plans full_args [] default_option None conns.
Proof.
  intros conns plans. split; [vm_compute; reflexivity|].
  apply (empty_database_poisons_cache full_args default_option (empty_db "a") (empty_db "a") [] default_option
    {| srcPartLeafTable := Some []; destPartLeafTable := None |}); [vm_compute; reflexivity|reflexivity|vm_compute; reflexivity].
Defined.

Definition one_dest_schema : Option_ :=
  {| copyMode := CopyModeTable; tableMode := TableModeTruncate; connectionMode := "push";
     sourceDbnames := []; destDbnames := []; excludedTables := []; includedTables := []; destTables := [];
     sourceSchemas := []; destSchemas := [{| sch_Database := "db"; sch_Schema := "d" |}];
     ownerMap := ∅; tablespaceMap := ∅; destDbInventory := ∅; destDbRootParts := ∅ |}.

(** Two tables are included, one is left. *)
Lemma redirectIncludeTables_collapses_witness :
  let tables := [mkTable "s1" "t"; mkTable "s2" "t"] in
  ∃ dest m, redirectIncludeTables one_dest_schema tables = Ok dest ∧ FormUserTableMap tables dest = Ok m ∧ size m = 1.
Proof.
  intros tables. change 1 with (size (list_to_set (C := gset string) (Name <$> tables))).
  eapply redirectIncludeTables_collapses. reflexivity.
Defined.
