(* ===== verification/Toc.v ===== *)
(** The metadata file and its table of contents ([utils/io.go],
    [meta/builtin/toc/toc.go]): statements are printed to one file while
    entries record their byte ranges, and are read back by range. *)
From S2P Require Import Prelude Utils.

(** * The metadata file *)

(** [FileWithByteCount] over a writer that appends. [ByteCount] is a [uint64]. *)
Record FileWithByteCount := { Content : string; ByteCount : Z }.
Definition NewFileWithByteCount : FileWithByteCount := {| Content := ""; ByteCount := 0 |}.

(** [MustPrint], and [MustPrintf] with the text it formats. *)
Definition MustPrint (file : FileWithByteCount) (s : string) : FileWithByteCount :=
  {| Content := Content file +:+ s; ByteCount := wrapu 64 (ByteCount file + Z.of_nat (len s)) |}.
(** [MustPrintln] appends a newline to the formatted operands. *)
Definition MustPrintln (file : FileWithByteCount) (s : string) : FileWithByteCount :=
  MustPrint file (s +:+ chr NL).

(** [io.ReaderAt] of the finished file. *)
Definition ReadAt (content : string) (n off : nat) : go string :=
  if bool_decide (off + n ≤ len content) then Ok (String.substring off n content) else Err "EOF".

(** * The table of contents *)

Record MetadataEntry := {
  e_Schema : string;
  e_Name : string;
  e_ObjectType : string;
  e_ReferenceObject : string;
  StartByte : Z;
  EndByte : Z
}.
Record MasterDataEntry := {
  d_Schema : string;
  d_Name : string;
  d_Oid : Z;
  AttributeString : string;
  RowsCopied : Z;
  PartitionRoot : string;
  d_IsReplicated : bool
}.
Record TOC := {
  GlobalEntries : list MetadataEntry;
  PredataEntries : list MetadataEntry;
  PostdataEntries : list MetadataEntry;
  StatisticsEntries : list MetadataEntry;
  DataEntries : list MasterDataEntry
}.
Definition emptyTOC : TOC :=
  {| GlobalEntries := []; PredataEntries := []; PostdataEntries := []; StatisticsEntries := []; DataEntries := [] |}.

Record StatementWithType := {
  s_Schema : string;
  s_Name : string;
  s_ObjectType : string;
  s_ReferenceObject : string;
  Statement : string;
  ClassOID : Z;
  Oid : Z
}.
#[export] Instance StatementWithType_eq : EqDecision StatementWithType.
Proof. solve_decision. Defined.

(** [InitializeMetadataEntryMap]: the section names and the lists they point
    to; another name is a nil pointer. *)
Definition section_entries (toc : TOC) (section : string) : option (list MetadataEntry) :=
  if decide (section = "global") then Some (GlobalEntries toc)
  else if decide (section = "predata") then Some (PredataEntries toc)
  else if decide (section = "postdata") then Some (PostdataEntries toc)
  else if decide (section = "statistics") then Some (StatisticsEntries toc)
  else None.

Definition nil_pointer : string := "invalid memory address or nil pointer dereference".

Definition AddMetadataEntry (toc : TOC) (section : string) (entry : MetadataEntry) (start end_ : Z) : go TOC :=
  let entry := {| e_Schema := e_Schema entry; e_Name := e_Name entry; e_ObjectType := e_ObjectType entry;
                  e_ReferenceObject := e_ReferenceObject entry; StartByte := start; EndByte := end_ |} in
  let g := GlobalEntries toc in let p := PredataEntries toc in
  let q := PostdataEntries toc in let s := StatisticsEntries toc in let d := DataEntries toc in
  if decide (section = "global") then Ok (Build_TOC (g ++ [entry]) p q s d)
  else if decide (section = "predata") then Ok (Build_TOC g (p ++ [entry]) q s d)
  else if decide (section = "postdata") then Ok (Build_TOC g p (q ++ [entry]) s d)
  else if decide (section = "statistics") then Ok (Build_TOC g p q (s ++ [entry]) d)
  else Panic nil_pointer.

Definition AddMasterDataEntry (toc : TOC) (schema name : string) (oid : Z) (attributeString : string)
    (rowsCopied : Z) (partitionRoot distPolicy : string) : TOC :=
  let isReplicated := Contains distPolicy "REPLICATED" in
  Build_TOC (GlobalEntries toc) (PredataEntries toc) (PostdataEntries toc) (StatisticsEntries toc)
    (DataEntries toc ++ [{| d_Schema := schema; d_Name := name; d_Oid := oid; AttributeString := attributeString;
       RowsCopied := rowsCopied; PartitionRoot := partitionRoot; d_IsReplicated := isReplicated |}]).

(** The interfaces [TOCObject] and [TOCObjectWithMetadata]: the section and the
    entry of an object, and its full name. *)
Class TOCObject (T : Type) := GetMetadataEntry : T → string * MetadataEntry.
Class HasFQN (T : Type) := FQN : T → string.

(** An entry whose byte range is not set yet. *)
Definition new_entry (schema name objectType referenceObject : string) : MetadataEntry :=
  {| e_Schema := schema; e_Name := name; e_ObjectType := objectType; e_ReferenceObject := referenceObject;
     StartByte := 0; EndByte := 0 |}.

(** * Selection *)

Definition include_or_exclude (incl excl : list string) : FilterSet :=
  if bool_decide (0 < length incl) then NewIncludeSet incl else NewExcludeSet excl.

Definition constructFilterSets (includeObjectTypes excludeObjectTypes includeSchemas excludeSchemas
    includeRelations excludeRelations : list string) : FilterSet * FilterSet * FilterSet :=
  (include_or_exclude includeObjectTypes excludeObjectTypes,
   include_or_exclude includeSchemas excludeSchemas,
   include_or_exclude includeRelations excludeRelations).

Definition is_relation (objectType : string) : bool :=
  bool_decide (objectType ∈ ["TABLE"; "VIEW"; "MATERIALIZED VIEW"; "SEQUENCE"]).

Definition shouldIncludeStatement (entry : MetadataEntry) (objectSet schemaSet relationSet : FilterSet) : bool :=
  let shouldIncludeObject := MatchesFilter objectSet (e_ObjectType entry) in
  let shouldIncludeSchema := MatchesFilter schemaSet (e_Schema entry) in
  let relationFQN := MakeFQN (e_Schema entry) (e_Name entry) in
  let has_ref := negb (bool_decide (e_ReferenceObject entry = "")) in
  let is_owner := bool_decide (e_ObjectType entry = "SEQUENCE OWNER") in
  let includeLeafPartition :=
    if IsExclude relationSet && has_ref && negb (MatchesFilter relationSet (e_ReferenceObject entry))
    then false else true in
  let shouldIncludeRelation :=
    (IsExclude relationSet && negb (is_relation (e_ObjectType entry)) && negb has_ref) ||
    (is_relation (e_ObjectType entry) && MatchesFilter relationSet relationFQN && includeLeafPartition) ||
    (negb is_owner && has_ref && MatchesFilter relationSet (e_ReferenceObject entry)) ||
    (is_owner && MatchesFilter relationSet relationFQN && MatchesFilter relationSet (e_ReferenceObject entry)) in
  shouldIncludeObject && shouldIncludeSchema && shouldIncludeRelation.

(** The text of an entry; [ClassOID] and [Oid] of the statement are not set. *)
Definition read_entry (metadataFile : string) (entry : MetadataEntry) : go StatementWithType :=
  if (EndByte entry <? StartByte entry)%Z then Panic "makeslice: len out of range"
  else
    let! contents := FatalOnError
      (ReadAt metadataFile (Z.to_nat (EndByte entry - StartByte entry)) (Z.to_nat (StartByte entry))) in
    Ok {| s_Schema := e_Schema entry; s_Name := e_Name entry; s_ObjectType := e_ObjectType entry;
          s_ReferenceObject := e_ReferenceObject entry; Statement := contents; ClassOID := 0; Oid := 0 |}.

Definition GetSQLStatementForObjectTypes (toc : TOC) (section metadataFile : string)
    (includeObjectTypes excludeObjectTypes includeSchemas excludeSchemas includeRelations excludeRelations : list string)
    : go (list StatementWithType) :=
  match section_entries toc section with
  | None => Panic nil_pointer
  | Some entries =>
      let '(objectSet, schemaSet, relationSet) := constructFilterSets includeObjectTypes excludeObjectTypes
        includeSchemas excludeSchemas includeRelations excludeRelations in
      go_map (read_entry metadataFile)
        (filter (λ e, shouldIncludeStatement e objectSet schemaSet relationSet = true) entries)
  end.

Definition GetIncludedPartitionRoots (tocDataEntries : list MasterDataEntry) (includeRelations : list string) : list string :=
  if bool_decide (length includeRelations = 0) then []
  else
    let FQNToPartitionRoot : gmap string string := foldl (λ m e,
      if bool_decide (PartitionRoot e = "") then m
      else <[MakeFQN (d_Schema e) (d_Name e) := MakeFQN (d_Schema e) (PartitionRoot e)]> m) ∅ tocDataEntries in
    omap (λ relation, FQNToPartitionRoot !! relation) includeRelations.

Definition getLeafPartitions (tableFQNs : list string) (tocDataEntries : list MasterDataEntry) : list string :=
  let tableSet := NewSet tableFQNs in
  (λ e, MakeFQN (d_Schema e) (d_Name e)) <$>
    filter (λ e, PartitionRoot e ≠ "" ∧ MatchesFilter tableSet (MakeFQN (d_Schema e) (PartitionRoot e)) = true) tocDataEntries.

Definition GetDataEntriesMatching (toc : TOC) (includeSchemas excludeSchemas includeTableFQNs excludeTableFQNs
    restorePlanTableFQNs : list string) : list MasterDataEntry :=
  let schemaSet :=
    if bool_decide (0 < length includeSchemas) then NewIncludeSet includeSchemas
    else if bool_decide (0 < length excludeSchemas) then NewExcludeSet excludeSchemas
    else NewIncludeSet [] in
  let tableSet :=
    if bool_decide (0 < length includeTableFQNs)
    then NewIncludeSet (includeTableFQNs ++ getLeafPartitions includeTableFQNs (DataEntries toc))
    else if bool_decide (0 < length excludeTableFQNs)
    then NewExcludeSet (excludeTableFQNs ++ getLeafPartitions excludeTableFQNs (DataEntries toc))
    else NewIncludeSet [] in
  let restorePlanTableSet := NewSet restorePlanTableFQNs in
  filter (λ e,
    let tableFQN := MakeFQN (d_Schema e) (d_Name e) in
    MatchesFilter restorePlanTableSet tableFQN && MatchesFilter schemaSet (d_Schema e)
      && MatchesFilter tableSet tableFQN = true) (DataEntries toc).

Definition RemoveActiveRole (activeUser : string) (statements : list StatementWithType) : list StatementWithType :=
  filter (λ s, ¬ (s_ObjectType s = "ROLE" ∧ s_Name s = activeUser)) statements.

(** * Printing and reading back *)

(** The writer's protocol for one object: remember the byte count, print, and
    add the entry with the two counts. *)
Record emission := { em_section : string; em_entry : MetadataEntry; em_texts : list string }.
Definition emit (st : FileWithByteCount * TOC) (em : emission) : go (FileWithByteCount * TOC) :=
  let '(file, toc) := st in
  let start := ByteCount file in
  let file := foldl MustPrint file (em_texts em) in
  let! toc := AddMetadataEntry toc (em_section em) (em_entry em) start (ByteCount file) in
  Ok (file, toc).

Definition em_text (em : emission) : string := foldl String.app "" (em_texts em).

(** What a printer writes: the text of an entry, or text outside all entries. *)
Inductive piece := Recorded (em : emission) | Loose (text : string).
Definition print_piece (st : FileWithByteCount * TOC) (p : piece) : go (FileWithByteCount * TOC) :=
  match p with
  | Recorded em => emit st em
  | Loose text => Ok (MustPrint st.1 text, st.2)
  end.
Definition recorded (p : piece) : option emission := match p with Recorded em => Some em | Loose _ => None end.
Definition piece_text (p : piece) : string := match p with Recorded em => em_text em | Loose text => text end.
Definition em_statement (em : emission) : StatementWithType :=
  {| s_Schema := e_Schema (em_entry em); s_Name := e_Name (em_entry em); s_ObjectType := e_ObjectType (em_entry em);
     s_ReferenceObject := e_ReferenceObject (em_entry em); Statement := em_text em; ClassOID := 0; Oid := 0 |}.


(** * Lemmas *)

Lemma substring_middle a b c : String.substring (len a) (len b) (a +:+ (b +:+ c)) = b.
Proof.
  unfold len. induction a as [|x a IH].
  - rewrite append_Empty. simpl. induction b as [|y b IHb]; [by destruct c|].
    rewrite append_String. simpl. by rewrite IHb.
  - rewrite append_String. simpl. done.
Qed.

Lemma foldl_append acc l : foldl String.app acc l = acc +:+ foldl String.app "" l.
Proof.
  revert acc. induction l as [|x l IH]; intros acc; simpl; [by rewrite append_nil_r|].
  rewrite IH, (IH (String.app "" x)). unfold String.app at 3. rewrite append_Empty. by rewrite append_assoc.
Qed.

Lemma foldl_MustPrint file l :
  Content (foldl MustPrint file l) = Content file +:+ foldl String.app "" l.
Proof.
  revert file. induction l as [|x l IH]; intros file; simpl; [by rewrite append_nil_r|].
  rewrite IH. cbn [MustPrint Content]. rewrite (foldl_append (String.app "" x)). rewrite append_Empty.
  by rewrite append_assoc.
Qed.

(** The count is the length of the text as long as it fits its type. *)
Definition counted (file : FileWithByteCount) : Prop := ByteCount file = Z.of_nat (len (Content file)).

Lemma MustPrint_counted file s :
  counted file → (Z.of_nat (len (Content file) + len s) < 2 ^ 64)%Z → counted (MustPrint file s).
Proof.
  unfold counted. intros Hc Hlt. simpl. rewrite len_append, Hc. unfold wrapu. rewrite Z.mod_small; lia.
Qed.

Lemma foldl_MustPrint_counted file l :
  counted file → (Z.of_nat (len (Content file +:+ foldl String.app "" l)) < 2 ^ 64)%Z →
  counted (foldl MustPrint file l).
Proof.
  revert file. induction l as [|x l IH]; intros file Hc Hlt; [done|]. simpl in Hlt |- *.
  rewrite (foldl_append (String.app "" x)), append_Empty in Hlt.
  apply IH; [apply MustPrint_counted; [done|]|].
  - rewrite !len_append in Hlt. lia.
  - cbn [MustPrint Content]. by rewrite append_assoc.
Qed.

Definition known_section (s : string) : bool :=
  bool_decide (s ∈ ["global"; "predata"; "postdata"; "statistics"]).

Definition same_fields (em : emission) (e : MetadataEntry) : Prop :=
  e_Schema e = e_Schema (em_entry em) ∧ e_Name e = e_Name (em_entry em) ∧
  e_ObjectType e = e_ObjectType (em_entry em) ∧ e_ReferenceObject e = e_ReferenceObject (em_entry em).

Definition placed (content : string) (em : emission) (e : MetadataEntry) : Prop :=
  same_fields em e ∧ ∀ rest, read_entry (content +:+ rest) e = Ok (em_statement em).

(** [AddMetadataEntry] appends to its section and leaves the others. *)
Lemma AddMetadataEntry_spec toc sec entry a b : known_section sec = true →
  ∃ toc' e, AddMetadataEntry toc sec entry a b = Ok toc' ∧
    e = {| e_Schema := e_Schema entry; e_Name := e_Name entry; e_ObjectType := e_ObjectType entry;
           e_ReferenceObject := e_ReferenceObject entry; StartByte := a; EndByte := b |} ∧
    ∀ s l, section_entries toc s = Some l →
      section_entries toc' s = Some (l ++ (if decide (s = sec) then [e] else [])).
Proof.
  intros Hsec%bool_decide_eq_true. unfold AddMetadataEntry.
  rewrite !elem_of_cons in Hsec.
  destruct Hsec as [->|[->|[->|[->|Hno]]]]; [..|set_solver];
    (eexists _, _; split; [reflexivity|]; split; [reflexivity|]); intros s l;
    unfold section_entries; repeat case_decide; intros; simplify_eq/=; by rewrite ?app_nil_r.
Qed.

Lemma section_known toc s : known_section s = true → is_Some (section_entries toc s).
Proof.
  intros Hs%bool_decide_eq_true. unfold section_entries. rewrite !elem_of_cons in Hs.
  repeat case_decide; eauto. set_solver.
Qed.

(** A new entry covers exactly the text printed for it. *)
Lemma placed_new file em e :
  counted file → (Z.of_nat (len (Content file +:+ em_text em)) < 2 ^ 64)%Z →
  e = {| e_Schema := e_Schema (em_entry em); e_Name := e_Name (em_entry em); e_ObjectType := e_ObjectType (em_entry em);
         e_ReferenceObject := e_ReferenceObject (em_entry em); StartByte := ByteCount file;
         EndByte := ByteCount (foldl MustPrint file (em_texts em)) |} →
  placed (Content file +:+ em_text em) em e.
Proof.
  intros Hc Hlt ->. split; [done|]. intros rest. unfold read_entry. cbn [StartByte EndByte].
  pose proof (foldl_MustPrint_counted file (em_texts em) Hc Hlt) as Hc'. unfold counted in *.
  rewrite Hc', foldl_MustPrint, Hc, len_append. fold (em_text em).
  assert (Hle : (Z.of_nat (len (Content file) + len (em_text em)) <? Z.of_nat (len (Content file)))%Z = false)
    by (apply Z.ltb_ge; lia).
  rewrite Hle. replace (Z.to_nat (_ - _)) with (len (em_text em)) by lia. rewrite Nat2Z.id.
  unfold ReadAt. rewrite bool_decide_true by (rewrite !len_append; lia).
  rewrite append_assoc, substring_middle. done.
Qed.

Lemma placed_extend content text em e : placed content em e → placed (content +:+ text) em e.
Proof. intros [Hf Hr]. split; [done|]. intros rest. rewrite append_assoc. apply Hr. Qed.

(** The state after the pieces [ps]. *)
Definition written (ps : list piece) (st : FileWithByteCount * TOC) : Prop :=
  counted st.1 ∧ Content st.1 = foldl String.app "" (piece_text <$> ps) ∧
  ∀ s, known_section s = true → ∃ l, section_entries st.2 s = Some l ∧
    Forall2 (placed (Content st.1)) (filter (λ em, em_section em = s) (omap recorded ps)) l.

Definition known_piece (p : piece) : Prop := match p with Recorded em => known_section (em_section em) = true | Loose _ => True end.

Lemma written_nil : written [] (NewFileWithByteCount, emptyTOC).
Proof.
  split_and!; [done|done|]. intros s Hs. destruct (section_known emptyTOC s Hs) as [l Hl].
  exists l. split; [done|]. simpl. unfold section_entries in Hl.
  repeat case_decide; simplify_eq; constructor.
Qed.

Lemma emit_written ps st em :
  written ps st → known_section (em_section em) = true →
  (Z.of_nat (len (foldl String.app "" (piece_text <$> (ps ++ [Recorded em])))) < 2 ^ 64)%Z →
  ∃ st', emit st em = Ok st' ∧ written (ps ++ [Recorded em]) st'.
Proof.
  intros (Hc & Hcont & Hsec) Hk Hlt. destruct st as [file toc]. cbn [fst snd] in *.
  rewrite fmap_app, foldl_app in Hlt. cbn [fmap list_fmap foldl piece_text] in Hlt. rewrite <- Hcont in Hlt.
  unfold emit. destruct (AddMetadataEntry_spec toc (em_section em) (em_entry em) (ByteCount file)
    (ByteCount (foldl MustPrint file (em_texts em))) Hk) as (toc' & e & Hadd & He & Hents).
  rewrite Hadd. eexists. split; [done|]. unfold written. cbn [fst snd].
  rewrite foldl_MustPrint. fold (em_text em). split_and!.
  - by apply foldl_MustPrint_counted.
  - by rewrite fmap_app, foldl_app, <- Hcont.
  - intros s Hs. destruct (Hsec s Hs) as (l & Hl & Hf). eexists. split; [by apply Hents|].
    rewrite omap_app, filter_app. apply Forall2_app.
    + eapply Forall2_impl; [exact Hf|]. intros. by apply placed_extend.
    + cbn [omap list_omap recorded]. rewrite filter_cons, filter_nil. destruct (decide (em_section em = s)) as [<-|Hne].
      * rewrite decide_True by done. constructor; [|constructor]. by apply placed_new.
      * rewrite decide_False by congruence. constructor.
Qed.

Lemma loose_written ps st text :
  written ps st → (Z.of_nat (len (foldl String.app "" (piece_text <$> (ps ++ [Loose text])))) < 2 ^ 64)%Z →
  written (ps ++ [Loose text]) (MustPrint st.1 text, st.2).
Proof.
  intros (Hc & Hcont & Hsec) Hlt. rewrite fmap_app, foldl_app in Hlt. cbn [fmap list_fmap foldl piece_text] in Hlt.
  rewrite <- Hcont in Hlt. unfold written. cbn [fst snd]. split_and!.
  - apply MustPrint_counted; [done|]. by rewrite len_append in Hlt.
  - cbn [MustPrint Content]. by rewrite fmap_app, foldl_app, <- Hcont.
  - intros s Hs. destruct (Hsec s Hs) as (l & Hl & Hf). exists l. split; [done|].
    rewrite omap_app, filter_app. cbn [omap list_omap recorded]. rewrite app_nil_r.
    eapply Forall2_impl; [exact Hf|]. intros. by apply placed_extend.
Qed.

Lemma piece_written ps st p :
  written ps st → known_piece p → (Z.of_nat (len (foldl String.app "" (piece_text <$> (ps ++ [p])))) < 2 ^ 64)%Z →
  ∃ st', print_piece st p = Ok st' ∧ written (ps ++ [p]) st'.
Proof.
  intros Hw Hk Hlt. destruct p as [em|text]; [by apply emit_written|].
  eexists. split; [reflexivity|by apply loose_written].
Qed.

Lemma shouldInclude_fields em e a b c :
  same_fields em e → shouldIncludeStatement e a b c = shouldIncludeStatement (em_entry em) a b c.
Proof. intros (H1 & H2 & H3 & H4). unfold shouldIncludeStatement. by rewrite H1, H2, H3, H4. Qed.

Lemma go_map_placed content l es a b c :
  Forall2 (placed content) l es →
  go_map (read_entry content) (filter (λ e, shouldIncludeStatement e a b c = true) es) =
  Ok (em_statement <$> filter (λ em, shouldIncludeStatement (em_entry em) a b c = true) l).
Proof.
  induction 1 as [|em e l es [Hf Hr] _ IH]; [done|]. rewrite !filter_cons.
  rewrite (shouldInclude_fields em e) by done.
  case_decide; [|done]. cbn [go_map fmap list_fmap].
  specialize (Hr ""). rewrite append_nil_r in Hr. rewrite Hr. cbn [mbind go_bind]. rewrite IH. done.
Qed.

Lemma print_all ps st done_ :
  written done_ st → Forall known_piece ps →
  (Z.of_nat (len (foldl String.app "" (piece_text <$> (done_ ++ ps)))) < 2 ^ 64)%Z →
  ∃ st', go_fold print_piece st ps = Ok st' ∧ written (done_ ++ ps) st'.
Proof.
  revert st done_. induction ps as [|p ps IH]; intros st done_ Hw Hk Hlt.
  - rewrite app_nil_r. by exists st.
  - inversion Hk as [|? ? Hp Hps]; subst. cbn [go_fold].
    destruct (piece_written done_ st p) as (st1 & -> & Hw1); [done|done| |].
    { eapply Z.le_lt_trans; [|exact Hlt]. rewrite !fmap_app, !foldl_app. cbn [fmap list_fmap foldl].
      set (pre := foldl String.app "" (piece_text <$> done_) +:+ piece_text p).
      rewrite (foldl_append pre), (len_append pre). lia. }
    cbn [mbind go_bind]. destruct (IH st1 (done_ ++ [p])) as (st2 & Hf & Hw2); [done|done| |].
    { by rewrite <- app_assoc. }
    exists st2. split; [done|]. by rewrite <- app_assoc in Hw2.
Qed.

(** Whatever is printed, in whatever order and sections, also between the
    entries, the statements read back from a section are exactly the texts
    printed for the selected entries of that section, in order: no entry's byte
    range is shifted, cut or overlapping, as long as the file is below 2^64
    bytes. *)
Lemma pieces_read_back (ps : list piece) :
  Forall known_piece ps → (Z.of_nat (len (foldl String.app "" (piece_text <$> ps))) < 2 ^ 64)%Z →
  ∃ file toc, go_fold print_piece (NewFileWithByteCount, emptyTOC) ps = Ok (file, toc) ∧
    ∀ section incT excT incS excS incR excR, known_section section = true →
      GetSQLStatementForObjectTypes toc section (Content file) incT excT incS excS incR excR =
      Ok (em_statement <$> filter (λ em, shouldIncludeStatement (em_entry em) (include_or_exclude incT excT)
            (include_or_exclude incS excS) (include_or_exclude incR excR) = true)
          (filter (λ em, em_section em = section) (omap recorded ps))).
Proof.
  intros Hknown Hsize.
  destruct (print_all ps (NewFileWithByteCount, emptyTOC) []) as ([file toc] & Hf & _ & _ & Hsec);
    [apply written_nil|done|done|]. cbn [app fst snd] in *.
  exists file, toc. split; [done|]. intros section incT excT incS excS incR excR Hsection.
  destruct (Hsec section Hsection) as (l & Hl & Hp).
  unfold GetSQLStatementForObjectTypes. rewrite Hl. cbn [constructFilterSets]. by apply go_map_placed.
Qed.
