(* ===== verification/Version.v ===== *)
(** Database versions ([internal/dbconn/version.go]) and the decisions taken on
    them in [utils/util.go], [copy/copy_query.go] and [meta/builtin]. *)
From S2P Require Import Prelude Utils.

Inductive DBType := Unknown | GPDB | CBDB | CBEDB | ACBDB | HDW | PGSQL.
#[export] Instance DBType_eq : EqDecision DBType.
Proof. solve_decision. Defined.

Definition DBType_String (t : DBType) : string :=
  match t with
  | GPDB => "Greenplum Database"
  | CBDB => "Cloudberry Database"
  | CBEDB => "Cloudberry Enterprise Database"
  | ACBDB => "Apache Cloudberry Database"
  | HDW => "HashData Database"
  | PGSQL => "PostgreSQL"
  | Unknown => "Unknown Database"
  end.

(** The fields of a [semver.Version] the program uses. *)
Record semver := { Major : Z; Minor : Z; Patch : Z }.
Definition semver0 : semver := {| Major := 0; Minor := 0; Patch := 0 |}.

(** The package [semver]: [Make] and [ParseRange]. *)
Class SemverLib := {
  semver_Make : string → option semver;
  ParseRange : string → option (semver → bool)
}.

(** The documented meaning of the ranges the program builds: wildcards compare
    the major version. *)
Class SemverLaws `{SemverLib} := {
  range_ge_major : ∀ m, (0 ≤ m ≤ int64_max)%Z →
    ∃ r, ParseRange (">=" +:+ Itoa m +:+ ".x") = Some r ∧ ∀ v, r v = (m <=? Major v)%Z;
  range_lt_major : ∀ m, (0 ≤ m ≤ int64_max)%Z →
    ∃ r, ParseRange ("<" +:+ Itoa m +:+ ".x") = Some r ∧ ∀ v, r v = (Major v <? m)%Z;
  range_eq_major : ∀ m, (0 ≤ m ≤ int64_max)%Z →
    ∃ r, ParseRange ("==" +:+ Itoa m +:+ ".x") = Some r ∧ ∀ v, r v = (Major v =? m)%Z
}.

Record GPDBVersion := { VersionString : string; SemVer : semver; Type_ : DBType }.

(** * Recognition of the version string *)

(** The longest run of digits. *)
Fixpoint take_digits (s : string) : string * string :=
  match s with
  | String c s' =>
      let n := nat_of_ascii c in
      if bool_decide (48 ≤ n ∧ n ≤ 57)
      then let '(d, r) := take_digits s' in (String c d, r) else ("", s)
  | EmptyString => ("", "")
  end.
Definition eat (c : ascii) (s : string) : option string :=
  match s with String d s' => if decide (c = d) then Some s' else None | EmptyString => None end.
Definition digits1 (s : string) : option (string * string) :=
  let '(d, r) := take_digits s in if decide (d = "") then None else Some (d, r).

(** [[0-9]+\.[0-9]+\.[0-9]+] at the start of [s]. *)
Definition match_triple (s : string) : option (string * string) :=
  '(a, r) ← digits1 s; r ← eat DOT r;
  '(b, r) ← digits1 r; r ← eat DOT r;
  '(c, r) ← digits1 r; Some (a +:+ "." +:+ b +:+ "." +:+ c, r).

(** [\(<name> (X.Y.Z)[^)]*\)] anywhere in [s], the leftmost match. *)
Fixpoint drop_prefix (p s : string) : option string :=
  match p with
  | EmptyString => Some s
  | String c p' => s' ← eat c s; drop_prefix p' s'
  end.
Fixpoint find_named (name s : string) : option string :=
  match (r ← drop_prefix ("(" +:+ name +:+ " ") s; '(v, r) ← match_triple r;
         if Contains r ")" then Some v else None) with
  | Some v => Some v
  | None => match s with EmptyString => None | String _ s' => find_named name s' end
  end.

(** [^PostgreSQL\s+(X.Y.Z)]. *)
Definition is_space (c : ascii) : bool :=
  bool_decide (c ∈ [byte 9; byte 10; byte 12; byte 13; byte 32]).
Fixpoint skip_spaces (s : string) : string :=
  match s with String c s' => if is_space c then skip_spaces s' else s | EmptyString => "" end.
Definition find_pgsql (s : string) : option string :=
  r ← drop_prefix "PostgreSQL" s;
  match r with
  | String c r' => if is_space c then '(v, _) ← match_triple (skip_spaces r'); Some v else None
  | EmptyString => None
  end.

Inductive pattern := named (name : string) | pgsqlPattern.
Definition gpdbPattern := named "Greenplum Database".
Definition cbdbPattern := named "Cloudberry Database".
Definition cbedbPattern := named "HashData Enterprise".
Definition acbdbPattern := named "Apache Cloudberry".
Definition hdwPattern := named "HashData Warehouse".
Definition find_pattern (p : pattern) (s : string) : option string :=
  match p with named n => find_named n s | pgsqlPattern => find_pgsql s end.

Section versions.
Context `{SemverLib}.

Definition extractVersion (dbversion : GPDBVersion) (p : pattern) : option semver :=
  m ← find_pattern p (VersionString dbversion); semver_Make m.

(** [ParseVersionInfo]: the patterns in the order they are tried. *)
Definition version_patterns : list (DBType * pattern) :=
  [(CBEDB, cbedbPattern); (CBDB, cbdbPattern); (ACBDB, acbdbPattern); (HDW, hdwPattern);
   (GPDB, gpdbPattern); (PGSQL, pgsqlPattern)].
Fixpoint first_match (v : GPDBVersion) (l : list (DBType * pattern)) : GPDBVersion :=
  match l with
  | [] => v
  | (t, p) :: l' =>
      match extractVersion v p with
      | Some ver => {| VersionString := VersionString v; SemVer := ver; Type_ := t |}
      | None => first_match v l'
      end
  end.
Definition ParseVersionInfo (dbversion : GPDBVersion) (versionString : string) : GPDBVersion :=
  first_match {| VersionString := versionString; SemVer := SemVer dbversion; Type_ := Unknown |} version_patterns.

(** * Comparison *)

Definition IsCBDB (v : GPDBVersion) : bool := bool_decide (Type_ v = CBDB).
Definition IsCBEDB (v : GPDBVersion) : bool := bool_decide (Type_ v = CBEDB).
Definition IsACBDB (v : GPDBVersion) : bool := bool_decide (Type_ v = ACBDB).
Definition IsCBDBFamily (v : GPDBVersion) : bool := IsCBDB v || IsCBEDB v || IsACBDB v.
Definition IsHDW (v : GPDBVersion) : bool := bool_decide (Type_ v = HDW).
Definition IsGPDB (v : GPDBVersion) : bool := bool_decide (Type_ v = GPDB) || bool_decide (Type_ v = HDW).
Definition IsPGSQL (v : GPDBVersion) : bool := bool_decide (Type_ v = PGSQL).
Definition version_Equals (srcVersion destVersion : GPDBVersion) : bool :=
  if bool_decide (Type_ srcVersion ≠ Type_ destVersion) then false
  else (Major (SemVer srcVersion) =? Major (SemVer destVersion))%Z.

Definition StringToSemVerRange (versionStr : string) : go (semver → bool) :=
  let numDigits := length (Split versionStr DOT) in
  let versionStr := if bool_decide (numDigits < 3) then versionStr +:+ ".x" else versionStr in
  match ParseRange versionStr with
  | Some r => Ok r
  | None => Panic ("Could not parse Range " +:+ versionStr)
  end.

Definition getComparableSemVer (dbversion : GPDBVersion) (targetVersion : string) : semver :=
  let v := SemVer dbversion in
  if negb (IsHDW dbversion) then v
  else
    match Atoi (default "" (head (Split targetVersion DOT))) with
    | None => v
    | Some targetMajor =>
        if (4 <=? targetMajor)%Z then
          if (Major v =? 2)%Z then {| Major := 5; Minor := Minor v; Patch := Patch v |}
          else if (Major v =? 3)%Z then {| Major := 6; Minor := Minor v; Patch := Patch v |}
          else v
        else v
    end.

Definition Before (v : GPDBVersion) (targetVersion : string) : go bool :=
  let! validRange := StringToSemVerRange ("<" +:+ targetVersion) in
  Ok ((validRange : semver → bool) (getComparableSemVer v targetVersion)).
Definition AtLeast (v : GPDBVersion) (targetVersion : string) : go bool :=
  let! validRange := StringToSemVerRange (">=" +:+ targetVersion) in
  Ok ((validRange : semver → bool) (getComparableSemVer v targetVersion)).
Definition Is (v : GPDBVersion) (targetVersion : string) : go bool :=
  let! validRange := StringToSemVerRange ("==" +:+ targetVersion) in
  Ok ((validRange : semver → bool) (getComparableSemVer v targetVersion)).

(** [a && b] and [a || b] on calls that may panic. *)
Definition andg (a : bool) (b : go bool) : go bool := if a then b else Ok false.
Definition org (a : go bool) (b : bool) : go bool := let! x := a in Ok ((x : bool) || b).

(** [(v.IsGPDB() && v.AtLeast(n)) || v.IsCBDBFamily()]: the test before each
    feature that a Greenplum version introduced. *)
Definition gpdb_or_family (v : GPDBVersion) (n : string) : go bool :=
  org (andg (IsGPDB v) (AtLeast v n)) (IsCBDBFamily v).

Definition isCBDBFamilyPath (srcDBVersion : GPDBVersion) : go bool := gpdb_or_family srcDBVersion "7".

Definition MINIMUM_GPDB4_VERSION : string := "4.3.17".
Definition MINIMUM_GPDB5_VERSION : string := "5.1.0".
Definition ValidateGPDBVersionCompatibility (v : GPDBVersion) : go () :=
  let! old4 := andg (IsGPDB v) (Before v MINIMUM_GPDB4_VERSION) in
  if (old4 : bool)
  then Fatal ("GPDB version " +:+ VersionString v +:+ " is not supported. Please upgrade to GPDB "
              +:+ MINIMUM_GPDB4_VERSION +:+ ".0 or later.")
  else
    let! is5 := andg (IsGPDB v) (Is v "5") in
    let! old5 := andg is5 (Before v MINIMUM_GPDB5_VERSION) in
    if (old5 : bool)
    then Fatal ("GPDB version " +:+ VersionString v +:+ " is not supported. Please upgrade to GPDB "
                +:+ MINIMUM_GPDB5_VERSION +:+ " or later.")
    else Ok ().

(** The column of [pg_stat_activity] that [TerminateHangingCopySessions] uses;
    [None]: the type is not supported and nothing is executed. *)
Definition terminate_column (v : GPDBVersion) : go (option string) :=
  match Type_ v with
  | GPDB => let! b := AtLeast v "6" in Ok (Some (if (b : bool) then "pid" else "procpid"))
  | HDW => let! b := AtLeast v "3" in Ok (Some (if (b : bool) then "pid" else "procpid"))
  | CBDB | PGSQL => Ok (Some "pid")
  | _ => Ok None
  end.

(** [GetSessionSetupQuery]: the base settings and the ones a version allows. *)
Definition session_base (applicationName : string) : string :=
  chr NL +:+ "SET application_name TO '" +:+ applicationName +:+ "';" +:+ chr NL +:+
  "SET search_path TO pg_catalog;" +:+ chr NL +:+ "SET statement_timeout = 0;" +:+ chr NL +:+
  "SET DATESTYLE = ISO;" +:+ chr NL +:+ "SET standard_conforming_strings = 1;" +:+ chr NL +:+
  "SET enable_mergejoin TO off;" +:+ chr NL +:+ "SET gp_autostats_mode = NONE;" +:+ chr NL +:+
  "SELECT set_config('extra_float_digits', (SELECT max_val FROM pg_settings WHERE name = 'extra_float_digits'), false);"
  +:+ chr NL.
Definition GetSessionSetupQuery (v : GPDBVersion) (applicationName : string) : go string :=
  let! g5 := gpdb_or_family v "5" in
  let q := session_base applicationName +:+ (if (g5 : bool) then "SET synchronize_seqscans TO off;" +:+ chr NL else "") in
  let! g6 := gpdb_or_family v "6" in
  let q := q +:+ (if (g6 : bool) then "SET INTERVALSTYLE = POSTGRES;" +:+ chr NL else "") in
  Ok (q +:+ (if IsCBEDB v then "set hashdata.gp_create_syntax_compatible to on;" +:+ chr NL else "")).
End versions.

(** * Lemmas *)

Lemma Split_nodot_length s : no_byte DOT s → length (Split s DOT) = 1.
Proof. intros Hs. by rewrite Split_no_byte. Qed.

Section laws.
Context `{SemverLaws}.

Lemma range_major op m : op = "<" ∨ op = ">=" ∨ op = "==" →
  StringToSemVerRange (op +:+ Itoa m) =
  match ParseRange (op +:+ Itoa m +:+ ".x") with
  | Some r => Ok r
  | None => Panic ("Could not parse Range " +:+ op +:+ Itoa m +:+ ".x")
  end.
Proof.
  intros Hop. unfold StringToSemVerRange. rewrite Split_nodot_length.
  - rewrite bool_decide_true by lia. by rewrite append_assoc.
  - rewrite no_byte_append. split; [|apply no_byte_Itoa].
    destruct Hop as [->|[->| ->]]; by apply (bool_decide_unpack _).
Qed.

(** The comparisons with a major version. *)
Lemma AtLeast_major v m : (0 ≤ m ≤ int64_max)%Z →
  AtLeast v (Itoa m) = Ok (m <=? Major (getComparableSemVer v (Itoa m)))%Z.
Proof.
  intros Hm. unfold AtLeast. rewrite range_major by auto.
  destruct (range_ge_major m Hm) as (r & -> & Hr). simpl. by rewrite Hr.
Qed.
Lemma gpdb_or_family_major v m : (0 ≤ m ≤ int64_max)%Z → ∃ b, gpdb_or_family v (Itoa m) = Ok b.
Proof.
  intros Hm. unfold gpdb_or_family, org, andg. rewrite AtLeast_major by done.
  destruct (IsGPDB v); cbn; [|by eexists]. destruct (_ <=? _)%Z; by eexists.
Qed.
Lemma Before_major v m : (0 ≤ m ≤ int64_max)%Z →
  Before v (Itoa m) = Ok (Major (getComparableSemVer v (Itoa m)) <? m)%Z.
Proof.
  intros Hm. unfold Before. rewrite range_major by auto.
  destruct (range_lt_major m Hm) as (r & -> & Hr). simpl. by rewrite Hr.
Qed.
Lemma Is_major v m : (0 ≤ m ≤ int64_max)%Z →
  Is v (Itoa m) = Ok (Major (getComparableSemVer v (Itoa m)) =? m)%Z.
Proof.
  intros Hm. unfold Is. rewrite range_major by auto.
  destruct (range_eq_major m Hm) as (r & -> & Hr). simpl. by rewrite Hr.
Qed.

Lemma getComparableSemVer_major v m : in_int64 m = true →
  Major (getComparableSemVer v (Itoa m)) =
  if IsHDW v && (4 <=? m)%Z
  then (if (Major (SemVer v) =? 2)%Z then 5 else if (Major (SemVer v) =? 3)%Z then 6 else Major (SemVer v))%Z
  else Major (SemVer v).
Proof.
  intros Hm. unfold getComparableSemVer. destruct (IsHDW v); [|done]. cbn [negb andb].
  rewrite Split_no_byte by apply no_byte_Itoa. simpl. rewrite Atoi_Itoa by done.
  repeat match goal with |- context [if ?b then _ else _] => destruct b end; done.
Qed.

(** Against a major version exactly one of [Before] and [AtLeast] holds, and
    [Is] holds exactly when [AtLeast] holds and the next major version is not
    reached, also for the HashData versions that are mapped to the Greenplum
    release they correspond to. *)
Theorem version_trichotomy (v : GPDBVersion) (m : Z) (Hm : (4 ≤ m < 2 ^ 62)%Z) :
  ∃ lt eq ge gt, Before v (Itoa m) = Ok lt ∧ Is v (Itoa m) = Ok eq ∧ AtLeast v (Itoa m) = Ok ge ∧
    AtLeast v (Itoa (m + 1)) = Ok gt ∧ ge = negb lt ∧ eq = ge && negb gt.
Proof.
  assert (Hint : in_int64 m = true ∧ in_int64 (m + 1) = true).
  { unfold in_int64, int64_min, int64_max. rewrite !andb_true_iff, !Z.leb_le. lia. }
  rewrite Before_major, Is_major, !AtLeast_major by (unfold int64_max; lia). do 4 eexists. do 4 (split; [done|]).
  rewrite !getComparableSemVer_major by tauto.
  replace (4 <=? m)%Z with true by (symmetry; apply Z.leb_le; lia).
  replace (4 <=? m + 1)%Z with true by (symmetry; apply Z.leb_le; lia).
  rewrite andb_true_r. generalize (if IsHDW v then if (Major (SemVer v) =? 2)%Z then 5%Z
    else if (Major (SemVer v) =? 3)%Z then 6%Z else Major (SemVer v) else Major (SemVer v)). intros x. split.
  - destruct (Z.leb_spec m x), (Z.ltb_spec x m); simpl; done || lia.
  - destruct (Z.eqb_spec x m), (Z.leb_spec m x), (Z.leb_spec (m + 1) x); simpl; done || lia.
Qed.
End laws.

(** * An instance of the version library *)

Definition parse_semver (s : string) : option semver :=
  match Split s DOT with
  | [a; b; c] =>
      match Atoi a, Atoi b, Atoi c with
      | Some x, Some y, Some z => Some {| Major := x; Minor := y; Patch := z |}
      | _, _, _ => None
      end
  | _ => None
  end.
Definition parse_op (s : string) : option ((Z → Z → bool) * string) :=
  match drop_prefix ">=" s, drop_prefix "==" s, drop_prefix "<" s with
  | Some r, _, _ => Some ((λ m x, (m <=? x)%Z), r)
  | _, Some r, _ => Some ((λ m x, (x =? m)%Z), r)
  | _, _, Some r => Some ((λ m x, (x <? m)%Z), r)
  | _, _, _ => None
  end.
Definition parse_range (s : string) : option (semver → bool) :=
  match parse_op s with
  | Some (op, r) =>
      match Atoi (default "" (head (Split r DOT))) with
      | Some m => Some (λ v, op m (Major v))
      | None => None
      end
  | None => None
  end.
#[export] Instance plain_semver : SemverLib := {| semver_Make := parse_semver; ParseRange := parse_range |}.

Lemma parse_range_major op f m :
  (0 ≤ m ≤ int64_max)%Z → parse_op (op +:+ Itoa m +:+ ".x") = Some (f, Itoa m +:+ ".x") →
  parse_range (op +:+ Itoa m +:+ ".x") = Some (λ v, f m (Major v)).
Proof.
  intros Hm Hop. unfold parse_range. rewrite Hop.
  change (Itoa m +:+ ".x") with (Itoa m +:+ String DOT "x"). rewrite Split_app by apply no_byte_Itoa.
  cbn [head default from_option id]. rewrite Atoi_Itoa; [done|].
  unfold in_int64, int64_min. apply andb_true_iff. rewrite !Z.leb_le. lia.
Qed.

#[export] Instance plain_semver_laws : SemverLaws.
Proof.
  split; intros m Hm; eexists; (split; [by apply parse_range_major|done]).
Qed.

Definition hdw3 : GPDBVersion :=
  {| VersionString := ""; SemVer := {| Major := 3; Minor := 13; Patch := 8 |}; Type_ := HDW |}.

Lemma version_trichotomy_witness :
  ∃ lt eq ge gt, Before hdw3 (Itoa 6) = Ok lt ∧ Is hdw3 (Itoa 6) = Ok eq ∧ AtLeast hdw3 (Itoa 6) = Ok ge ∧
    AtLeast hdw3 (Itoa (6 + 1)) = Ok gt ∧ ge = negb lt ∧ eq = ge && negb gt.
Proof. apply version_trichotomy. lia. Defined.

(** The version strings of the source's comment. *)
Definition sample_version (s : string) : DBType * semver :=
  let v := ParseVersionInfo {| VersionString := ""; SemVer := semver0; Type_ := Unknown |} s in
  (Type_ v, SemVer v).

(** The version strings documented for the five MPP databases are
    recognised as their product, the enterprise and warehouse products before
    the database they embed, with the product's own version; the string
    documented for PostgreSQL has a version of two parts, which the pattern
    of three parts does not match, and stays unknown. *)
Theorem documented_versions :
  sample_version "PostgreSQL 9.4.26 (Greenplum Database 6.20.0 build 9999) (HashData Warehouse 3.13.8 build 27594)"
    = (HDW, {| Major := 3; Minor := 13; Patch := 8 |}) ∧
  sample_version "PostgreSQL 14.4 (Cloudberry Database 1.2.0 build commit:5b5ae3f8)"
    = (CBDB, {| Major := 1; Minor := 2; Patch := 0 |}) ∧
  sample_version "PostgreSQL 14.4 (Cloudberry Database 1.1.5 build dev) (HashData Enterprise 1.1.5 build dev)"
    = (CBEDB, {| Major := 1; Minor := 1; Patch := 5 |}) ∧
  sample_version "PostgreSQL 14.4 (Apache Cloudberry 2.0.0 build commit:a071e3f8)"
    = (ACBDB, {| Major := 2; Minor := 0; Patch := 0 |}) ∧
  sample_version "PostgreSQL 12.12 (Greenplum Database 7.0.0 build commit:bf073b87)"
    = (GPDB, {| Major := 7; Minor := 0; Patch := 0 |}) ∧
  sample_version "PostgreSQL 12.18 on x86_64-pc-linux-gnu, compiled by gcc, 64-bit" = (Unknown, semver0).
Proof. vm_compute. done. Qed.
