(* ===== verification/Restore.v ===== *)
(** Restoring the metadata on the destination while tables are handed to the
    data copy ([meta/builtin/parallel_depend.go], [parallel.go], and the
    restore part of [builtin.go] and [restore_helper.go]). *)
From S2P Require Import Prelude Utils Options Validator QueryWrapper Version Toc.

(** * The table map as a work list *)

(** The source side of an entry [schema.name.tuples.replicated] of the table
    map; a count that does not parse is zero. *)
Definition parse_entry (v : string) : go Table :=
  let sl := Split v DOT in
  let! tuples := index sl 2 in
  let relTuples := default 0%Z (Atoi tuples) in
  let isReplicated :=
    match sl !! 3 with Some r => bool_decide (r = "true") | None => false end in
  let! s := index sl 0 in
  let! n := index sl 1 in
  Ok {| Schema := s; Name := n; Partition := 0; RelTuples := relTuples; IsReplicated := isReplicated |}.

(** [formTablePair]: the entry of a destination table is taken out of the map;
    the look-up, the parse and the deletion happen under one mutex. *)
Definition formTablePair (schema name : string) (tabMap : gmap string string)
    : go (option TablePair * gmap string string) :=
  let destFqn := schema +:+ "." +:+ name in
  match tabMap !! destFqn with
  | None => Ok (None, tabMap)
  | Some srcFqn =>
      let! src := parse_entry srcFqn in
      Ok (Some {| SrcTable := src; DestTable := mkTable schema name |}, delete destFqn tabMap)
  end.

(** The names [lookupSourceTables] looks up for a restored table: the leaves of
    a classic partition root, otherwise the table itself. *)
Definition source_names (modern : bool) (schema name : string) (partNameMap : gmap string (list string))
    : go (list (string * string)) :=
  match (if modern then None else partNameMap !! (schema +:+ "." +:+ name)) with
  | None => Ok [(schema, name)]
  | Some leafTables =>
      go_map (λ l, let sl := Split l DOT in
                   let! s := index sl 0 in let! n := index sl 1 in Ok (s, n)) leafTables
  end.

Fixpoint take_pairs (names : list (string * string)) (tabMap : gmap string string)
    : go (list TablePair * gmap string string) :=
  match names with
  | [] => Ok ([], tabMap)
  | (s, n) :: names' =>
      let! (tp, tabMap) := formTablePair s n tabMap in
      let! (tps, tabMap) := take_pairs names' tabMap in
      Ok (match tp with Some p => p :: tps | None => tps end, tabMap)
  end.

Section with_versions.
Context `{SemverLib}.

Definition lookupSourceTables (srcDBVersion : GPDBVersion) (schema name : string)
    (partNameMap : gmap string (list string)) (tabMap : gmap string string)
    : go (list TablePair * gmap string string) :=
  let! modern := gpdb_or_family srcDBVersion "7" in
  let! names := source_names modern schema name partNameMap in
  take_pairs names tabMap.
End with_versions.

(** [RestoreCleanup]: the entries that no statement took. *)
Definition cleanup_pair (kv : string * string) : go TablePair :=
  let! src := parse_entry kv.2 in
  let dsl := Split kv.1 DOT in
  let! s := index dsl 0 in
  let! n := index dsl 1 in
  Ok {| SrcTable := src; DestTable := mkTable s n |}.
Definition RestoreCleanup `{MapRange} (tabMap : gmap string string) : go (list TablePair) :=
  go_map cleanup_pair (range_map 261 tabMap).

(** * Workers *)

(** One worker of the pool: the names it still has to look up for the table it
    created and the pairs it has found and not sent yet. *)
Record worker := { w_names : list (string * string); w_found : list TablePair }.
Definition idle : worker := {| w_names := []; w_found := [] |}.

(** The shared state: the table map, the channel (in sending order) and the
    workers. *)
Record pool := { p_map : gmap string string; p_sent : list TablePair; p_workers : list worker }.

(** The interleaving of the workers: a worker that is done with a statement
    starts the look-ups of the next [TABLE] statement, makes one look-up under
    the mutex, or sends a pair it found once all its look-ups are made. *)
Inductive pool_step : pool → pool → Prop :=
| step_statement m sent ws i names :
    ws !! i = Some idle →
    pool_step {| p_map := m; p_sent := sent; p_workers := ws |}
              {| p_map := m; p_sent := sent; p_workers := <[i := {| w_names := names; w_found := [] |}]> ws |}
| step_lookup m sent ws i s n names found tp m' :
    ws !! i = Some {| w_names := (s, n) :: names; w_found := found |} →
    formTablePair s n m = Ok (tp, m') →
    pool_step {| p_map := m; p_sent := sent; p_workers := ws |}
              {| p_map := m'; p_sent := sent;
                 p_workers := <[i := {| w_names := names;
                   w_found := found ++ match tp with Some p => [p] | None => [] end |}]> ws |}
| step_send m sent ws i p found :
    ws !! i = Some {| w_names := []; w_found := p :: found |} →
    pool_step {| p_map := m; p_sent := sent; p_workers := ws |}
              {| p_map := m; p_sent := sent ++ [p]; p_workers := <[i := {| w_names := []; w_found := found |}]> ws |}.

Definition start_pool (m : gmap string string) (numConns : nat) : pool :=
  {| p_map := m; p_sent := []; p_workers := replicate numConns idle |}.

(** * Well-formed table maps *)

(** A table whose names have no dot and whose count is a 64-bit integer. *)
Definition plain_table (t : Table) : Prop :=
  no_byte DOT (Schema t) ∧ no_byte DOT (Name t) ∧ in_int64 (RelTuples t) = true.
#[export] Instance plain_table_dec t : Decision (plain_table t).
Proof. unfold plain_table. apply _. Defined.

(** The table as it arrives at the copy: its partition mark is not carried. *)
Definition sent_table (t : Table) : Table :=
  {| Schema := Schema t; Name := Name t; Partition := 0; RelTuples := RelTuples t; IsReplicated := IsReplicated t |}.
Definition sent_pair (s d : Table) : TablePair :=
  {| SrcTable := sent_table s; DestTable := mkTable (Schema d) (Name d) |}.

Lemma dot_append x : "." +:+ x = String DOT x.
Proof. done. Qed.

Lemma Split_three a b c : no_byte DOT a → no_byte DOT b →
  Split (a +:+ String DOT (b +:+ String DOT c)) DOT = a :: b :: Split c DOT.
Proof. intros Ha Hb. by rewrite !Split_app. Qed.

(** The entry of a source table is read back. *)
Lemma parse_entry_roundtrip t : plain_table t → parse_entry (table_entry t) = Ok (sent_table t).
Proof.
  intros (Hs & Hn & Ht). unfold parse_entry, table_entry.
  rewrite !dot_append, Split_three by done.
  rewrite Split_app by apply no_byte_Itoa.
  assert (Hb : Split (if IsReplicated t then "true" else "false") DOT =
    [if IsReplicated t then "true" else "false"]) by (by destruct (IsReplicated t)).
  rewrite Hb. cbn -[Atoi Itoa]. rewrite Atoi_Itoa by done. unfold sent_table. by destruct (IsReplicated t).
Qed.

Lemma Split_fqn d : plain_table d → Split (fqn d) DOT = [Schema d; Name d].
Proof. intros (Hs & Hn & _). unfold fqn. by apply Split_two. Qed.

Lemma fqn_inj_plain schema name d :
  plain_table d → schema +:+ "." +:+ name = fqn d → schema = Schema d ∧ name = Name d.
Proof.
  intros Hd Heq. pose proof (Split_fqn d Hd) as Hs. rewrite <- Heq, dot_append, Split_sep in Hs.
  pose proof (Join_Split schema DOT) as Hjs. pose proof (Join_Split name DOT) as Hjn.
  destruct (Split_cons schema DOT) as (h & t & Hh), (Split_cons name DOT) as (h' & t' & Hh').
  rewrite Hh in Hs, Hjs. rewrite Hh' in Hs, Hjn. destruct t as [|x t]; simplify_list_eq; [|by destruct t].
  done.
Qed.

(** A table map as [FormUserTableMap] builds it. *)
Definition good_map (m : gmap string string) : Prop :=
  ∀ k v, m !! k = Some v → ∃ s d, plain_table s ∧ plain_table d ∧ k = fqn d ∧ v = table_entry s.

Definition no_pair : TablePair := sent_pair (mkTable "" "") (mkTable "" "").
Definition decode (kv : string * string) : TablePair :=
  match cleanup_pair kv with Ok p => p | _ => no_pair end.

(** The pairs still in the map. *)
Definition pairs_of (m : gmap string string) : list TablePair := decode <$> map_to_list m.

Lemma cleanup_pair_good s d : plain_table s → plain_table d → cleanup_pair (fqn d, table_entry s) = Ok (sent_pair s d).
Proof.
  intros Hs Hd. unfold cleanup_pair. cbn [fst snd]. rewrite parse_entry_roundtrip by done. cbn [mbind go_bind].
  by rewrite Split_fqn.
Qed.

Lemma decode_good s d : plain_table s → plain_table d → decode (fqn d, table_entry s) = sent_pair s d.
Proof. intros Hs Hd. unfold decode. by rewrite cleanup_pair_good. Qed.

Lemma good_map_delete m k : good_map m → good_map (delete k m).
Proof. intros Hg k' v [_ Hl]%lookup_delete_Some. by apply Hg. Qed.

Lemma pairs_of_delete m k v : m !! k = Some v → pairs_of m ≡ₚ decode (k, v) :: pairs_of (delete k m).
Proof.
  intros Hl. unfold pairs_of. rewrite <- (insert_delete_id m k v Hl) at 1.
  rewrite map_to_list_insert by (by rewrite lookup_delete_eq). done.
Qed.

(** A look-up takes a pair out of the map, or finds nothing. *)
Lemma formTablePair_good s n m : good_map m →
  ∃ tp m', formTablePair s n m = Ok (tp, m') ∧ good_map m' ∧
    pairs_of m ≡ₚ (match tp with Some p => [p] | None => [] end) ++ pairs_of m'.
Proof.
  intros Hg. unfold formTablePair. destruct (m !! (s +:+ "." +:+ n)) as [v|] eqn:Hl.
  - destruct (Hg _ _ Hl) as (src & d & Hs & Hd & Hk & ->).
    destruct (fqn_inj_plain s n d Hd Hk) as [-> ->]. rewrite parse_entry_roundtrip by done.
    eexists _, _. split; [reflexivity|]. split; [by apply good_map_delete|].
    rewrite (pairs_of_delete m _ _ Hl), Hk, decode_good by done. done.
  - eexists _, _. split; [reflexivity|]. done.
Qed.

Lemma RestoreCleanup_good `{MapRange} m : good_map m → ∃ rest, RestoreCleanup m = Ok rest ∧ rest ≡ₚ pairs_of m.
Proof.
  intros Hg. unfold RestoreCleanup. exists (decode <$> range_map 261 m). split.
  - apply go_map_pure. intros [k v] Hin%elem_of_range_map.
    destruct (Hg _ _ Hin) as (s & d & Hs & Hd & -> & ->). by rewrite cleanup_pair_good, decode_good.
  - unfold pairs_of. by rewrite range_map_perm.
Qed.

(** ** The pool *)

Definition found_all (ws : list worker) : list TablePair := gather w_found ws.

Lemma found_all_insert ws i w w' : ws !! i = Some w →
  ∃ rest, found_all ws ≡ₚ w_found w ++ rest ∧ found_all (<[i := w']> ws) ≡ₚ w_found w' ++ rest.
Proof. apply gather_insert. Qed.

Definition pool_pairs (p : pool) : list TablePair := p_sent p ++ found_all (p_workers p) ++ pairs_of (p_map p).

Lemma pool_step_pairs p p' : pool_step p p' → good_map (p_map p) → good_map (p_map p') ∧ pool_pairs p' ≡ₚ pool_pairs p.
Proof.
  intros [m sent ws i names Hi|m sent ws i s n names found tp m' Hi Hform|m sent ws i q found Hi] Hg;
    unfold pool_pairs; cbn [p_map p_sent p_workers] in *.
  - split; [done|]. destruct (found_all_insert ws i idle {| w_names := names; w_found := [] |} Hi) as (r & -> & ->). done.
  - destruct (formTablePair_good s n m Hg) as (tp' & m2 & Heq & Hg' & Hp). rewrite Hform in Heq. simplify_eq.
    split; [done|]. destruct (found_all_insert ws i _ {| w_names := names;
      w_found := found ++ match tp' with Some p => [p] | None => [] end |} Hi) as (r & -> & ->).
    cbn [w_found]. rewrite Hp. apply Permutation_app_head. rewrite <- !app_assoc. apply Permutation_app_head.
    rewrite !app_assoc. apply Permutation_app_tail. apply Permutation_app_comm.
  - split; [done|]. destruct (found_all_insert ws i _ {| w_names := []; w_found := found |} Hi) as (r & -> & ->).
    cbn [w_found]. rewrite <- !app_assoc. done.
Qed.

Lemma pool_steps_pairs p p' : rtc pool_step p p' → good_map (p_map p) → good_map (p_map p') ∧ pool_pairs p' ≡ₚ pool_pairs p.
Proof.
  induction 1 as [|p q r Hpq _ IH]; intros Hg; [done|].
  destruct (pool_step_pairs p q Hpq Hg) as [Hg' Hp]. destruct (IH Hg') as [Hg'' Hp']. split; [done|]. by rewrite Hp'.
Qed.

Lemma found_all_idle k : found_all (replicate k idle) = [].
Proof. apply gather_nil, Forall_replicate. done. Qed.

(** ** The map of a selection *)

Lemma FormUserTableMap_good src dst :
  length src = length dst → Forall plain_table src → Forall plain_table dst → NoDup (fqn <$> dst) →
  ∃ m, FormUserTableMap src dst = Ok m ∧ good_map m ∧ pairs_of m ≡ₚ zip_with sent_pair src dst.
Proof.
  intros Hlen Hsrc Hdst Hnd. rewrite FormUserTableMap_spec by lia. eexists. split; [done|].
  set (l := (λ p : Table * Table, (fqn p.2, table_entry p.1)) <$> zip src dst).
  assert (Hfst : l.*1 = fqn <$> dst).
  { unfold l. rewrite <- list_fmap_compose. rewrite <- (snd_zip src dst) at 2 by lia. rewrite <- list_fmap_compose.
    apply list_fmap_ext. by intros ? []. }
  assert (Hndr : NoDup (reverse l).*1) by (rewrite fmap_reverse, Hfst, reverse_Permutation; done).
  split.
  - intros k v Hl%elem_of_list_to_map; [|done]. rewrite elem_of_reverse in Hl.
    apply list_elem_of_fmap in Hl as ([s d] & [= -> ->] & Hin).
    exists s, d. rewrite Forall_forall in Hsrc, Hdst.
    split_and!; [eapply Hsrc, elem_of_zip_l; done|eapply Hdst, elem_of_zip_r; done|done|done].
  - unfold pairs_of. rewrite map_to_list_to_map by done. rewrite reverse_Permutation. unfold l.
    clear -Hsrc Hdst. revert dst Hdst. induction Hsrc as [|s src Hs _ IH]; intros [|d dst] Hdst; [done|done|done|].
    inversion Hdst; subst. cbn [zip zip_with fmap list_fmap fst snd]. rewrite decode_good by done.
    f_equiv. by apply IH.
Qed.

(** The pairs of the data-only path. *)
Lemma fill_pairs_from_spec src pre dst : length src = length dst →
  fill_pairs_from (pre ++ dst) (length pre) src = Ok (zip_with sent_pair src dst).
Proof.
  revert pre dst. induction src as [|s src IH]; intros pre [|d dst] Hlen; try done. cbn [fill_pairs_from].
  assert (Hi : index (pre ++ d :: dst) (length pre) = Ok d) by (apply index_Ok, list_lookup_middle; done).
  rewrite Hi. cbn [mbind go_bind].
  replace (pre ++ d :: dst) with ((pre ++ [d]) ++ dst) by (by rewrite <- app_assoc).
  replace (S (length pre)) with (length (pre ++ [d])) by (rewrite length_app; simpl; lia).
  rewrite IH by (simpl in Hlen; lia). done.
Qed.

Lemma fillTablePairChan_spec src dst : length src = length dst →
  fillTablePairChan src dst = Ok (zip_with sent_pair src dst).
Proof.
  intros Hlen. unfold fillTablePairChan. case_bool_decide as Hz.
  - apply nil_length_inv in Hz as ->. by destruct src.
  - by apply (fill_pairs_from_spec src []).
Qed.

(** Whatever statements are restored and however the workers of the pool
    interleave, once they are idle and [RestoreCleanup] has run the channel has
    received every pair of the selection exactly once, the same pairs the
    data-only path sends; nothing is lost, duplicated or paired wrongly, and
    the number of sends never exceeds the capacity of the channel. *)
Lemma pool_delivers `{MapRange} (src dst : list Table) (numConns : nat)
    (m : gmap string string) (p : pool)
    (Hlen : length src = length dst) (Hsrc : Forall plain_table src) (Hdst : Forall plain_table dst)
    (Hnd : NoDup (fqn <$> dst)) (Hmap : FormUserTableMap src dst = Ok m)
    (Hrun : rtc pool_step (start_pool m numConns) p) :
  length (p_sent p) ≤ length dst ∧
  (Forall (λ w, w = idle) (p_workers p) →
   ∃ rest pairs, RestoreCleanup (p_map p) = Ok rest ∧ fillTablePairChan src dst = Ok pairs ∧
     p_sent p ++ rest ≡ₚ pairs).
Proof.
  destruct (FormUserTableMap_good src dst) as (m' & Hm' & Hg & Hp); [done..|].
  rewrite Hmap in Hm'. injection Hm' as <-.
  destruct (pool_steps_pairs _ _ Hrun Hg) as [Hg' Hperm]. unfold pool_pairs, start_pool in Hperm.
  cbn [p_map p_sent p_workers] in Hperm. rewrite found_all_idle, Hp in Hperm. cbn [app] in Hperm. split.
  - apply Permutation_length in Hperm. rewrite !length_app, length_zip_with in Hperm. lia.
  - intros Hidle. destruct (RestoreCleanup_good (p_map p) Hg') as (rest & Hr & Hrest).
    pose proof (fillTablePairChan_spec src dst Hlen) as Hfill.
    exists rest, (zip_with sent_pair src dst). split; [done|]. split; [done|].
    assert (Hf : found_all (p_workers p) = []).
    { apply gather_nil. eapply Forall_impl; [exact Hidle|]. by intros w ->. }
    rewrite Hf in Hperm. cbn [app] in Hperm. by rewrite Hrest.
Qed.
