(* ===== verification/Scheduler.v ===== *)
(** The execution of restore statements: the scheduler of dependent statements
    ([meta/builtin/parallel_depend.go]), the batches of post-data statements
    ([parallel.go]), and the steps of the restore ([builtin.go],
    [restore_helper.go]). *)
From S2P Require Import Prelude Utils Toc.

(** * The scheduler *)

Record UniqueID := { ClassID : Z; uid_Oid : Z }.
#[export] Instance UniqueID_eq : EqDecision UniqueID.
Proof. solve_decision. Defined.
#[export] Program Instance UniqueID_countable : Countable UniqueID :=
  inj_countable' (λ u, (ClassID u, uid_Oid u)) (λ p, {| ClassID := p.1; uid_Oid := p.2 |}) _.
Next Obligation. by intros []. Qed.

(** [DependencyMap]: the objects an object depends on. *)
Definition DependencyMap := gmap UniqueID (gset UniqueID).

Definition uid (s : StatementWithType) : UniqueID := {| ClassID := ClassOID s; uid_Oid := Oid s |}.

Definition isDependentStatementRunning (r : StatementWithType) (depMap : gset UniqueID) : bool :=
  bool_decide (uid r ∈ depMap).

(** [shouldScheduleStatement] on the snapshot [rts] of the running tasks. *)
Definition shouldScheduleStatement `{MapRange} (relevantDeps : DependencyMap) (rts : gmap nat StatementWithType)
    (statement : StatementWithType) (numTasks : nat) : bool :=
  let depMap := default ∅ (relevantDeps !! uid statement) in
  let numRunningTask := size rts in
  if existsb (λ '(_, t),
       (bool_decide (ClassOID statement = ClassOID t) && bool_decide (Oid statement = Oid t))
       || isDependentStatementRunning t depMap) (range_map 177 rts)
  then false
  else bool_decide (numRunningTask < numTasks).

(** The state of [scheduleStatements] and the workers: the index of the next
    statement, the running tasks and the finished ones in order. *)
Record sched := { s_next : nat; s_running : gmap nat StatementWithType; s_done : list nat }.
Definition sched0 : sched := {| s_next := 0; s_running := ∅; s_done := [] |}.

Section scheduler.
Context `{MapRange} (relevantDeps : DependencyMap) (statements : list StatementWithType) (numTasks : nat).

(** The loop adds the next statement when it may run ([addRunningTask]); a
    worker removes the task it has executed ([removeRunningTask]). The loop
    decides on a snapshot taken before the addition; in between tasks can only
    finish, and what may run beside more tasks may run beside fewer, so the
    decision holds for the tasks running at the addition too. *)
Inductive sched_step : sched → sched → Prop :=
| sched_start i running done_ statement :
    statements !! i = Some statement →
    shouldScheduleStatement relevantDeps running statement numTasks = true →
    sched_step {| s_next := i; s_running := running; s_done := done_ |}
               {| s_next := S i; s_running := <[i := statement]> running; s_done := done_ |}
| sched_finish i running done_ t statement :
    running !! t = Some statement →
    sched_step {| s_next := i; s_running := running; s_done := done_ |}
               {| s_next := i; s_running := delete t running; s_done := done_ ++ [t] |}.

(** What holds at every moment: the tasks are statements below the next index,
    at most [numTasks] run, and of two running tasks the later one neither is
    the same object as the earlier one nor depends on it. *)
Record sched_ok (st : sched) : Prop := {
  ok_next : s_next st ≤ length statements;
  ok_running : ∀ t s, s_running st !! t = Some s → t < s_next st ∧ statements !! t = Some s;
  ok_limit : size (s_running st) ≤ numTasks;
  ok_apart : ∀ t1 t2 s1 s2, s_running st !! t1 = Some s1 → s_running st !! t2 = Some s2 → t1 < t2 →
    uid s1 ≠ uid s2 ∧ uid s1 ∉ default ∅ (relevantDeps !! uid s2);
  ok_done : ∀ t, t < s_next st ↔ t ∈ s_done st ∨ is_Some (s_running st !! t);
  ok_once : NoDup (s_done st) ∧ ∀ t, t ∈ s_done st → s_running st !! t = None
}.

Lemma should_schedule_true running statement :
  shouldScheduleStatement relevantDeps running statement numTasks = true ↔
  size running < numTasks ∧ ∀ t s, running !! t = Some s →
    uid s ≠ uid statement ∧ uid s ∉ default ∅ (relevantDeps !! uid statement).
Proof.
  unfold shouldScheduleStatement, isDependentStatementRunning.
  destruct (existsb _ _) eqn:He.
  - split; [done|]. intros [_ Hall]. apply existsb_exists in He as ([t s] & Hin%list_elem_of_In & Hb).
    rewrite elem_of_range_map in Hin. destruct (Hall t s Hin) as [Hne Hnd].
    apply orb_true_iff in Hb as [Hb|Hb%bool_decide_eq_true]; [|done].
    apply andb_true_iff in Hb as [Hc%bool_decide_eq_true Ho%bool_decide_eq_true].
    exfalso. apply Hne. unfold uid. by rewrite Hc, Ho.
  - rewrite bool_decide_eq_true. split; [|tauto]. intros Hlt. split; [done|]. intros t s Hl.
    apply not_true_iff_false in He. rewrite existsb_exists in He.
    split; intros Hbad; apply He; exists (t, s); (split; [by apply list_elem_of_In, elem_of_range_map|]).
    + unfold uid in Hbad. injection Hbad as Hc Ho. apply orb_true_iff. left. apply andb_true_iff.
      by rewrite !bool_decide_eq_true.
    + rewrite (bool_decide_true (uid s ∈ _)) by done. apply orb_true_r.
Qed.

Lemma sched_ok_0 : sched_ok sched0.
Proof.
  split; simpl.
  - lia.
  - intros t s. by rewrite lookup_empty.
  - rewrite map_size_empty. lia.
  - intros t1 t2 s1 s2. by rewrite lookup_empty.
  - intros t. rewrite lookup_empty. split; [lia|]. intros [?|[? ?]]; [set_solver|done].
  - split; [constructor|]. intros t. by rewrite lookup_empty.
Qed.

Lemma sched_step_ok st st' : sched_step st st' → sched_ok st → sched_ok st'.
Proof.
  intros [i running dn s Hi Hs|i running dn t s Ht] [Hn Hr Hl Ha Hd [Ho1 Ho2]]; simpl in *.
  - apply should_schedule_true in Hs as [Hlt Hall]. pose proof (lookup_lt_Some _ _ _ Hi) as Hlen.
    assert (Hfresh : running !! i = None).
    { destruct (running !! i) as [x|] eqn:Hx; [|done]. apply Hr in Hx. lia. }
    split; simpl.
    + lia.
    + intros t s' [[<- <-]|[Hne Hl']]%lookup_insert_Some; [split; [lia|done]|]. apply Hr in Hl' as [? ?]. split; [lia|done].
    + rewrite map_size_insert_None by done. lia.
    + intros t1 t2 s1 s2 [[<- <-]|[Hne1 H1]]%lookup_insert_Some [[<- <-]|[Hne2 H2]]%lookup_insert_Some Hlt12; try lia.
      * apply Hr in H2. lia.
      * by apply (Hall t1).
      * by eapply Ha.
    + intros t. rewrite lookup_insert_is_Some. specialize (Hd t). destruct (decide (i = t)); [subst; split; [tauto|lia]|].
      split; [intros Hlt'; assert (t < i) by lia; tauto|intros; assert (t < i) by tauto; lia].
    + split; [done|]. intros t Hin. rewrite lookup_insert_ne; [by apply Ho2|].
      intros <-. assert (i < i) by (apply Hd; auto). lia.
  - split; simpl; [done|..].
    + intros t' s' [_ Hl']%lookup_delete_Some. by apply Hr.
    + rewrite map_size_delete_Some by eauto. lia.
    + intros t1 t2 s1 s2 [_ H1]%lookup_delete_Some [_ H2]%lookup_delete_Some Hlt. by eapply Ha.
    + intros t'. rewrite Hd, elem_of_app, list_elem_of_singleton, lookup_delete_is_Some.
      destruct (decide (t' = t)) as [->|Hne]; [|assert (t ≠ t') by congruence; tauto].
      split; [tauto|]. intros _. right. eauto.
    + split.
      * apply NoDup_app. split; [done|]. split; [|apply NoDup_singleton].
        intros t' Hin ->%list_elem_of_singleton. apply Ho2 in Hin. congruence.
      * intros t'. rewrite elem_of_app, list_elem_of_singleton. intros [Hin| ->]; [|by rewrite lookup_delete_eq].
        destruct (decide (t' = t)) as [->|]; [by rewrite lookup_delete_eq|]. rewrite lookup_delete_ne by done. by apply Ho2.
Qed.

Lemma sched_reachable_ok st : rtc sched_step sched0 st → sched_ok st.
Proof.
  assert (Hgen : ∀ s s', rtc sched_step s s' → sched_ok s → sched_ok s').
  { induction 1 as [|a b c Hab _ IH]; [done|]. intros Hs. apply IH. by eapply sched_step_ok. }
  intros Hrun. eapply Hgen; [done|apply sched_ok_0].
Qed.

(** C31: At every moment of the restore at most as many statements run as there
    are connections, and of two running statements the one that was started
    later neither creates the same object as the other nor depends on that
    object. Every statement that was started runs or has been run, and runs
    once (parallel_depend.go:40). *)
Theorem scheduler_safe (st : sched) (Hrun : rtc sched_step sched0 st) :
  size (s_running st) ≤ numTasks ∧
  (∀ t1 t2 s1 s2, s_running st !! t1 = Some s1 → s_running st !! t2 = Some s2 → t1 < t2 →
     statements !! t1 = Some s1 ∧ statements !! t2 = Some s2 ∧
     (ClassOID s1 ≠ ClassOID s2 ∨ Oid s1 ≠ Oid s2) ∧
     ∀ deps, relevantDeps !! uid s2 = Some deps → {| ClassID := ClassOID s1; uid_Oid := Oid s1 |} ∉ deps) ∧
  (∀ t, t < s_next st ↔ t ∈ s_done st ∨ is_Some (s_running st !! t)) ∧
  NoDup (s_done st) ∧ (∀ t, t ∈ s_done st → s_running st !! t = None).
Proof.
  destruct (sched_reachable_ok st Hrun) as [_ Hr Hl Ha Hd [Ho1 Ho2]].
  split; [done|]. split; [|done]. intros t1 t2 s1 s2 H1 H2 Hlt. destruct (Ha t1 t2 s1 s2 H1 H2 Hlt) as [Hne Hdep].
  split; [by apply Hr|]. split; [by apply Hr|]. split.
  - destruct (decide (ClassOID s1 = ClassOID s2)) as [Hc|]; [right|by left]. intros Ho. apply Hne. unfold uid. by rewrite Hc, Ho.
  - intros deps Hdeps. by rewrite Hdeps in Hdep.
Qed.

(** What is left to do: starting and finishing each statement. *)
Definition steps_left (st : sched) : nat := 2 * (length statements - s_next st) + size (s_running st).
Lemma sched_step_decreases st st' : sched_step st st' → steps_left st' < steps_left st.
Proof.
  intros [i running dn s Hi _|i running dn t s Ht]; unfold steps_left; simpl.
  - pose proof (lookup_lt_Some _ _ _ Hi). rewrite map_size_insert. destruct (running !! i); simpl; lia.
  - assert (Hs : is_Some (running !! t)) by (by exists s). rewrite map_size_delete_Some by done.
    apply map_size_ne_0_lookup_2 in Hs. lia.
Qed.

(** The restore never gets stuck: with at least one connection, as long as
    not every statement is finished some statement can start or finish, and
    when nothing can happen any more every statement has been executed. It
    ends: every step brings it nearer to that point. *)
Theorem scheduler_progress (st : sched) (Hconn : 0 < numTasks) (Hrun : rtc sched_step sched0 st) :
  ((∃ st', sched_step st st') ∨
   (s_running st = ∅ ∧ s_next st = length statements ∧ s_done st ≡ₚ seq 0 (length statements))) ∧
  (∀ st', sched_step st st' → steps_left st' < steps_left st).
Proof.
  split; [|apply sched_step_decreases].
  destruct (sched_reachable_ok st Hrun) as [Hn _ _ _ Hd [Ho1 _]]. destruct st as [i running dn]. simpl in *.
  destruct (decide (running = ∅)) as [->|Hne].
  - destruct (statements !! i) as [s|] eqn:Hi.
    + left. eexists. apply sched_start with (statement := s); [done|].
      apply should_schedule_true. rewrite map_size_empty. split; [done|]. intros t s'. by rewrite lookup_empty.
    + right. apply lookup_ge_None in Hi. assert (i = length statements) as -> by lia.
      split; [done|]. split; [done|]. apply NoDup_Permutation; [done|apply NoDup_seq|]. intros t.
      rewrite list_elem_of_In, list_elem_of_In, in_seq, <- list_elem_of_In.
      specialize (Hd t). rewrite lookup_empty in Hd. split.
      * intros Hin. assert (t < length statements) by tauto. lia.
      * intros [_ Hlt]. destruct Hd as [Hd _]. destruct (Hd ltac:(lia)) as [?|[? ?]]; [done|discriminate].
  - left. apply map_choose in Hne as (t & s & Ht). eexists. by eapply sched_finish.
Qed.

(** Statements without object identity, which is what the table of contents
    yields, are all taken for the same object: whatever the number of
    connections, at most one of them runs at any moment. *)
Theorem restore_is_serial (st : sched)
    (Hzero : Forall (λ s, ClassOID s = 0%Z ∧ Oid s = 0%Z) statements)
    (Hrun : rtc sched_step sched0 st) :
  size (s_running st) ≤ 1.
Proof.
  destruct (sched_reachable_ok st Hrun) as [_ Hr _ Ha _ _].
  rewrite Forall_lookup in Hzero.
  assert (Huniq : ∀ t1 t2 s1 s2, s_running st !! t1 = Some s1 → s_running st !! t2 = Some s2 → t1 = t2).
  { assert (Hno : ∀ t1 t2 s1 s2, s_running st !! t1 = Some s1 → s_running st !! t2 = Some s2 → ¬ t1 < t2).
    { intros t1 t2 s1 s2 H1 H2 Hlt. destruct (Ha t1 t2 s1 s2 H1 H2 Hlt) as [Hne _]. apply Hne.
      apply Hr in H1 as [_ H1%Hzero]. apply Hr in H2 as [_ H2%Hzero]. unfold uid. destruct H1, H2. congruence. }
    intros t1 t2 s1 s2 H1 H2. pose proof (Hno _ _ _ _ H1 H2). pose proof (Hno _ _ _ _ H2 H1). lia. }
  destruct (decide (s_running st = ∅)) as [->|Hne]; [rewrite map_size_empty; lia|].
  apply map_choose in Hne as (t & s & Ht).
  assert (Hsing : s_running st = {[t := s]}).
  { apply map_eq. intros t'. destruct (s_running st !! t') as [s'|] eqn:Ht'.
    - pose proof (Huniq t' t s' s Ht' Ht) as ->. assert (s = s') as -> by congruence. by rewrite lookup_singleton_eq.
    - destruct (decide (t = t')) as [->|]; [congruence|]. by rewrite lookup_singleton_ne. }
  rewrite Hsing, map_size_singleton. lia.
Qed.
End scheduler.

(** Instances: a run of two statements on two connections. *)
Definition plain_statement (name : string) : StatementWithType :=
  {| s_Schema := "s"; s_Name := name; s_ObjectType := "TABLE"; s_ReferenceObject := ""; Statement := "CREATE TABLE";
     ClassOID := 0; Oid := 0 |}.
Definition one_running : sched := {| s_next := 1; s_running := {[0 := plain_statement "a"]}; s_done := [] |}.
Lemma one_running_reachable n : 0 < n →
  rtc (sched_step ∅ [plain_statement "a"; plain_statement "b"] n) sched0 one_running.
Proof.
  intros Hn. eapply rtc_l; [|apply rtc_refl]. unfold sched0, one_running. rewrite <- insert_empty.
  apply sched_start; [done|]. apply should_schedule_true. rewrite map_size_empty. split; [done|].
  intros t s. by rewrite lookup_empty.
Qed.

(** Three objects on three connections: the third depends on the first, so the
    first and the second run together and the third waits. *)
Definition object_statement (oid : Z) : StatementWithType :=
  {| s_Schema := "s"; s_Name := "f"; s_ObjectType := "FUNCTION"; s_ReferenceObject := ""; Statement := "CREATE FUNCTION";
     ClassOID := 1255; Oid := oid |}.
Definition three_objects : list StatementWithType := object_statement <$> [1; 2; 3]%Z.
Definition third_on_first : DependencyMap := {[uid (object_statement 3) := {[uid (object_statement 1)]}]}.
Definition two_running : sched :=
  {| s_next := 2; s_running := <[1 := object_statement 2]> {[0 := object_statement 1]}; s_done := [] |}.
Lemma two_running_reachable : rtc (sched_step third_on_first three_objects 3) sched0 two_running.
Proof.
  eapply rtc_l; [apply (sched_start _ _ _ 0 ∅ [] (object_statement 1)); [done|]|].
  - apply should_schedule_true. rewrite map_size_empty. split; [lia|]. intros t s. by rewrite lookup_empty.
  - rewrite insert_empty. apply rtc_once, sched_start; [done|]. apply should_schedule_true. rewrite map_size_singleton. split; [lia|].
    intros t s [<- <-]%lookup_singleton_Some. by vm_compute.
Qed.
Lemma scheduler_safe_witness :
  size (s_running two_running) ≤ 3 ∧
  (∀ t1 t2 s1 s2, s_running two_running !! t1 = Some s1 → s_running two_running !! t2 = Some s2 → t1 < t2 →
     three_objects !! t1 = Some s1 ∧ three_objects !! t2 = Some s2 ∧
     (ClassOID s1 ≠ ClassOID s2 ∨ Oid s1 ≠ Oid s2) ∧
     ∀ deps, third_on_first !! uid s2 = Some deps → {| ClassID := ClassOID s1; uid_Oid := Oid s1 |} ∉ deps) ∧
  (∀ t, t < s_next two_running ↔ t ∈ s_done two_running ∨ is_Some (s_running two_running !! t)) ∧
  NoDup (s_done two_running) ∧ (∀ t, t ∈ s_done two_running → s_running two_running !! t = None).
Proof. apply (scheduler_safe third_on_first three_objects 3). exact two_running_reachable. Defined.
Example third_waits : shouldScheduleStatement third_on_first (s_running two_running) (object_statement 3) 3 = false.
Proof. vm_compute. reflexivity. Qed.

Lemma scheduler_progress_witness :
  let statements := [plain_statement "a"; plain_statement "b"] in
  ((∃ st', sched_step ∅ statements 2 one_running st') ∨
   (s_running one_running = ∅ ∧ s_next one_running = length statements ∧
    s_done one_running ≡ₚ seq 0 (length statements))) ∧
  (∀ st', sched_step ∅ statements 2 one_running st' → steps_left statements st' < steps_left statements one_running).
Proof. intros statements. apply scheduler_progress; [lia|]. apply one_running_reachable. lia. Defined.

Lemma restore_is_serial_witness : size (s_running one_running) ≤ 1.
Proof.
  eapply (restore_is_serial ∅ [plain_statement "a"; plain_statement "b"] 8).
  - repeat constructor.
  - apply one_running_reachable. lia.
Defined.

(** The statements of a section have no object identity. *)
Lemma GetSQLStatementForObjectTypes_zero toc section file a b c d e f l :
  GetSQLStatementForObjectTypes toc section file a b c d e f = Ok l →
  Forall (λ s, ClassOID s = 0%Z ∧ Oid s = 0%Z) l.
Proof.
  unfold GetSQLStatementForObjectTypes. destruct (section_entries toc section) as [es|]; [|done].
  destruct (constructFilterSets a b c d e f) as [[? ?] ?]. rewrite go_map_Ok.
  generalize (filter (λ e0, shouldIncludeStatement e0 f0 f1 f2 = true) es). intros l' Hf.
  induction Hf as [|x s l' l Hx _ IH]; constructor; [|done].
  unfold read_entry in Hx. destruct (_ <? _)%Z; [done|]. inv_go. done.
Qed.

(** * Batches of post-data statements *)

(** [BatchPostdataStatements], with the map of the tables seen. *)
Fixpoint batch_from (indexMap : gset string) (statements : list StatementWithType)
    : list StatementWithType * list StatementWithType * list StatementWithType :=
  match statements with
  | [] => ([], [], [])
  | statement :: rest =>
      if bool_decide (s_ObjectType statement = "INDEX" ∧ s_ReferenceObject statement ∉ indexMap) then
        let '(a, b, c) := batch_from ({[s_ReferenceObject statement]} ∪ indexMap) rest in (statement :: a, b, c)
      else
        let '(a, b, c) := batch_from indexMap rest in
        if Contains (s_ObjectType statement) " METADATA" then (a, b, statement :: c)
        else (a, statement :: b, c)
  end.
Definition BatchPostdataStatements (statements : list StatementWithType)
    : list StatementWithType * list StatementWithType * list StatementWithType := batch_from ∅ statements.

Lemma batch_from_spec seen statements a b c :
  batch_from seen statements = (a, b, c) →
  a ++ b ++ c ≡ₚ statements ∧
  (∀ s, s ∈ a → s_ObjectType s = "INDEX" ∧ s_ReferenceObject s ∉ seen) ∧
  NoDup (s_ReferenceObject <$> a) ∧
  (∀ s, s ∈ statements → s_ObjectType s = "INDEX" →
     s_ReferenceObject s ∈ seen ∨ s_ReferenceObject s ∈ s_ReferenceObject <$> a).
Proof.
  revert seen a b c. induction statements as [|x l IH]; intros seen a b c; cbn [batch_from].
  { intros; simplify_eq/=. split_and!; [done|set_solver|constructor|set_solver]. }
  case_bool_decide as Hx.
  - destruct (batch_from _ l) as [[a' b'] c'] eqn:Hb. intros; simplify_eq/=.
    destruct (IH _ _ _ _ Hb) as (Hp & Hi & Hn & Hc). split_and!.
    + by rewrite Hp.
    + intros s [->|Hin]%elem_of_cons; [done|]. apply Hi in Hin as [? ?]. set_solver.
    + simpl. constructor; [|done]. intros (s & Heq & Hin)%list_elem_of_fmap. apply Hi in Hin as [_ Hin]. set_solver.
    + intros s [->|Hin]%elem_of_cons Ht; [set_solver|]. destruct (Hc s Hin Ht) as [?|?]; set_solver.
  - destruct (batch_from seen l) as [[a' b'] c'] eqn:Hb. destruct (IH _ _ _ _ Hb) as (Hp & Hi & Hn & Hc).
    assert (Hcov : ∀ s, s ∈ x :: l → s_ObjectType s = "INDEX" →
      s_ReferenceObject s ∈ seen ∨ s_ReferenceObject s ∈ s_ReferenceObject <$> a').
    { intros s [->|Hin]%elem_of_cons Ht; [|by apply Hc]. left.
      destruct (decide (s_ReferenceObject x ∈ seen)); [done|tauto]. }
    destruct (Contains (s_ObjectType x) " METADATA"); intros; simplify_eq/=; split_and!; try done.
    + rewrite <- Hp. rewrite !app_assoc. by rewrite <- Permutation_middle.
    + rewrite <- Hp. by rewrite <- Permutation_middle.
Qed.

(** The second batch holds no metadata of an object, the third nothing else. *)
Lemma batch_from_metadata seen statements a b c : batch_from seen statements = (a, b, c) →
  (∀ s, s ∈ b → Contains (s_ObjectType s) " METADATA" = false) ∧ (∀ s, s ∈ c → Contains (s_ObjectType s) " METADATA" = true).
Proof.
  revert seen a b c. induction statements as [|x l IH]; intros seen a b c; cbn [batch_from].
  { intros [= <- <- <-]. split; set_solver. }
  case_bool_decide.
  - destruct (batch_from _ l) as [[a' b'] c'] eqn:Hb. intros [= <- <- <-]. by apply (IH _ _ _ _ Hb).
  - destruct (batch_from seen l) as [[a' b'] c'] eqn:Hb. destruct (IH _ _ _ _ Hb) as [H1 H2].
    destruct (Contains (s_ObjectType x) " METADATA") eqn:Hm; intros [= <- <- <-]; split; set_solver.
Qed.

Definition index_on (table : string) : StatementWithType :=
  {| s_Schema := "s"; s_Name := "i"; s_ObjectType := "INDEX"; s_ReferenceObject := table; Statement := "";
     ClassOID := 0; Oid := 0 |}.

(** * The steps of the restore *)

Record Filters := { includeSchemas : list string; excludeSchemas : list string;
                    includeRelations : list string; excludeRelations : list string }.
Definition NewFilters inSchema exSchemas inRelations exRelations : Filters :=
  {| includeSchemas := inSchema; excludeSchemas := exSchemas; includeRelations := inRelations; excludeRelations := exRelations |}.
Definition filtersEmpty (f : Filters) : bool :=
  bool_decide (length (includeSchemas f) = 0) && bool_decide (length (excludeSchemas f) = 0)
  && bool_decide (length (includeRelations f) = 0) && bool_decide (length (excludeRelations f) = 0).

(** [inRelation[:strings.Index(inRelation, ".")]]: without a dot the bound is
    negative and the slice expression panics. *)
Definition schema_of_relation (r : string) : go string :=
  match SplitN2 r DOT with
  | [s; _] => Ok s
  | _ => Panic "slice bounds out of range"
  end.

Definition GetRestoreMetadataStatementsFiltered (toc : TOC) (metadataFile section : string)
    (includeObjectTypes excludeObjectTypes : list string) (filters : Filters) : go (list StatementWithType) :=
  if filtersEmpty filters
  then GetSQLStatementForObjectTypes toc section metadataFile includeObjectTypes excludeObjectTypes [] [] [] []
  else if slice_Exists includeObjectTypes "SCHEMA" then
    let! inSchemas := go_fold (λ inSchemas r,
      let! schema := schema_of_relation r in
      Ok (if slice_Exists inSchemas schema then inSchemas else inSchemas ++ [schema]))
      (includeSchemas filters) (includeRelations filters) in
    GetSQLStatementForObjectTypes toc section metadataFile includeObjectTypes excludeObjectTypes
      inSchemas (excludeSchemas filters) [] []
  else GetSQLStatementForObjectTypes toc section metadataFile includeObjectTypes excludeObjectTypes
      (includeSchemas filters) (excludeSchemas filters) (includeRelations filters) (excludeRelations filters).

Definition GetRestoreMetadataStatements (toc : TOC) (metadataFile section : string)
    (includeObjectTypes excludeObjectTypes : list string) : go (list StatementWithType) :=
  GetRestoreMetadataStatementsFiltered toc metadataFile section includeObjectTypes excludeObjectTypes (NewFilters [] [] [] []).

(** The object types restored by a step of their own, and the statements of
    each step in the order [restorePredata] runs them. *)
Definition types_before : list string := ["EXTENSION"; "COLLATION"; "TYPE"; "OPERATOR FAMILY"; "SEQUENCE"].
Definition types_after : list string := ["LANGUAGE"; "EXCHANGE PARTITION"; "SEQUENCE OWNER"; "CONVERSION"; "CONSTRAINT"].
Definition dependent_excluded : list string :=
  ["EXTENSION"; "COLLATION"; "LANGUAGE"; "TYPE"; "OPERATOR FAMILY"; "SEQUENCE"; "EXCHANGE PARTITION";
   "SEQUENCE OWNER"; "CONVERSION"; "CONSTRAINT"; "SCHEMA"].
Definition predata_steps (toc : TOC) (file : string) : go (list (list StatementWithType)) :=
  let get inc exc := GetRestoreMetadataStatements toc file "predata" inc exc in
  let! schemas := get ["SCHEMA"] [] in
  let! before := go_map (λ t, get [t] []) types_before in
  let! dependent := get [] dependent_excluded in
  let! after := go_map (λ t, get [t] []) types_after in
  Ok ([schemas] ++ before ++ [dependent] ++ after).

(** * Redirection to another schema *)

(** [editStatementsRedirectSchema] on one statement: with a schema mapping a
    statement of an unmapped schema is left alone, otherwise the schema of
    [--dest-schema] is taken; the text is edited by substring replacement. *)
Definition redirect_statement (redirectSchema : gmap string string) (inclDestSchema : string) (isSchema : bool)
    (statement : StatementWithType) : StatementWithType :=
  match (if bool_decide (0 < size redirectSchema) then redirectSchema !! s_Schema statement else Some inclDestSchema) with
  | None => statement
  | Some schema =>
      let oldSchema := s_Schema statement +:+ "." in
      let newSchema := schema +:+ "." in
      {| s_Schema := schema; s_Name := s_Name statement; s_ObjectType := s_ObjectType statement;
         s_ReferenceObject :=
           if bool_decide (s_ReferenceObject statement = "") then ""
           else Replace (s_ReferenceObject statement) oldSchema newSchema (Some 1);
         Statement :=
           if isSchema then Replace (Statement statement) (s_Schema statement) schema (Some 2)
           else Replace (Statement statement) oldSchema newSchema None;
         ClassOID := ClassOID statement; Oid := Oid statement |}
  end.
Definition editStatementsRedirectSchema (redirectSchema : gmap string string) (inclDestSchema : string)
    (statements : list StatementWithType) (isSchema : bool) : list StatementWithType :=
  if bool_decide (size redirectSchema = 0 ∧ inclDestSchema = "") then statements
  else redirect_statement redirectSchema inclDestSchema isSchema <$> statements.

(** * Tablespaces *)

Record tablespaces := { destTablespace : string; destTablespaceMap : gmap string string }.
Definition TransformTablespace `{MapRange} (tablespaceMap : gmap string string) : tablespaces :=
  if bool_decide (size tablespaceMap = 0) then {| destTablespace := ""; destTablespaceMap := ∅ |}
  else if bool_decide (size tablespaceMap = 1) then
    match range_map 508 tablespaceMap with
    | (key, value) :: _ =>
        if bool_decide (value = "") then {| destTablespace := key; destTablespaceMap := ∅ |}
        else {| destTablespace := ""; destTablespaceMap := list_to_map (range_map 519 tablespaceMap) |}
    | [] => {| destTablespace := ""; destTablespaceMap := list_to_map (range_map 519 tablespaceMap) |}
    end
  else {| destTablespace := ""; destTablespaceMap := list_to_map (range_map 519 tablespaceMap) |}.
Definition ShouldReplaceTablespace (ts : tablespaces) : bool :=
  negb (bool_decide (destTablespace ts = "") && bool_decide (size (destTablespaceMap ts) = 0)).
Definition GetDestTablespace (ts : tablespaces) (tablespace : string) : string :=
  if bool_decide (destTablespace ts ≠ "") then destTablespace ts
  else default tablespace (destTablespaceMap ts !! tablespace).

(** * Theorems on the steps *)

Lemma MatchesFilter_all x : MatchesFilter (NewExcludeSet []) x = true.
Proof. by apply MatchesFilter_exclude, not_elem_of_nil. Qed.

(** Without schema and relation filters only the object type selects. *)
Lemma shouldInclude_unfiltered e objectSet :
  shouldIncludeStatement e objectSet (include_or_exclude [] []) (include_or_exclude [] []) =
  MatchesFilter objectSet (e_ObjectType e).
Proof.
  unfold shouldIncludeStatement. change (include_or_exclude [] []) with (NewExcludeSet []).
  rewrite !MatchesFilter_all. change (IsExclude (NewExcludeSet [])) with true.
  destruct (MatchesFilter objectSet (e_ObjectType e)); [|done]. unfold is_relation.
  by repeat case_bool_decide.
Qed.

Lemma go_map_filter (Q : string → bool) file es all :
  go_map (read_entry file) es = Ok all →
  go_map (read_entry file) (filter (λ e, Q (e_ObjectType e) = true) es) = Ok (filter (λ s, Q (s_ObjectType s) = true) all).
Proof.
  rewrite go_map_Ok. induction 1 as [|e s es all He _ IH]; [done|].
  assert (Ht : s_ObjectType s = e_ObjectType e).
  { unfold read_entry in He. destruct (_ <? _)%Z; [done|]. inv_go. done. }
  rewrite !filter_cons, Ht. case_decide; [|done]. cbn [go_map]. rewrite He. cbn [mbind go_bind]. by rewrite IH.
Qed.

Lemma get_filtered_section toc file section inc exc all :
  GetRestoreMetadataStatements toc file section [] [] = Ok all →
  GetRestoreMetadataStatements toc file section inc exc =
  Ok (filter (λ s, MatchesFilter (include_or_exclude inc exc) (s_ObjectType s) = true) all).
Proof.
  unfold GetRestoreMetadataStatements, GetRestoreMetadataStatementsFiltered, GetSQLStatementForObjectTypes.
  change (filtersEmpty (NewFilters [] [] [] [])) with true. cbv iota.
  destruct (section_entries toc section) as [es|]; [|done]. cbn [constructFilterSets].
  rewrite (list_filter_iff _ (λ e, MatchesFilter (include_or_exclude [] []) (e_ObjectType e) = true))
    by (intros e; by rewrite shouldInclude_unfiltered).
  intros Hall.
  assert (Hes : go_map (read_entry file) es = Ok all).
  { rewrite <- Hall. f_equal. symmetry. clear. induction es as [|e es IH]; [done|].
    rewrite filter_cons_True by apply MatchesFilter_all. by rewrite IH. }
  rewrite (list_filter_iff _ (λ e, MatchesFilter (include_or_exclude inc exc) (e_ObjectType e) = true))
    by (intros e; by rewrite shouldInclude_unfiltered).
  by apply (go_map_filter (MatchesFilter (include_or_exclude inc exc))).
Qed.

Lemma get_filtered toc file inc exc all :
  GetRestoreMetadataStatements toc file "predata" [] [] = Ok all →
  GetRestoreMetadataStatements toc file "predata" inc exc =
  Ok (filter (λ s, MatchesFilter (include_or_exclude inc exc) (s_ObjectType s) = true) all).
Proof. apply get_filtered_section. Qed.

Definition of_type (all : list StatementWithType) (t : string) : list StatementWithType :=
  filter (λ s, s_ObjectType s = t) all.

Lemma get_one_type toc file t all :
  GetRestoreMetadataStatements toc file "predata" [] [] = Ok all →
  GetRestoreMetadataStatements toc file "predata" [t] [] = Ok (of_type all t).
Proof.
  intros Hall. rewrite (get_filtered _ _ _ _ _ Hall). f_equal. apply list_filter_iff. intros s.
  change (include_or_exclude [t] []) with (NewIncludeSet [t]). rewrite MatchesFilter_include. set_solver.
Qed.

(** The statements of distinct types and the rest make up the list. *)
Lemma of_type_partition ts all : NoDup ts →
  concat (of_type all <$> ts) ++ filter (λ s, s_ObjectType s ∉ ts) all ≡ₚ all.
Proof.
  induction 1 as [|t ts Ht _ IH].
  - simpl. clear. induction all as [|s all IH]; [done|]. rewrite filter_cons_True by set_solver. by f_equiv.
  - cbn [fmap list_fmap concat]. rewrite <- app_assoc. etransitivity; [|exact IH].
    rewrite (Permutation_app_swap_app (of_type all t)). apply Permutation_app_head.
    rewrite <- (filter_app_complement (λ s, s_ObjectType s = t) (filter (λ s, s_ObjectType s ∉ ts) all)).
    rewrite !list_filter_filter. f_equiv; [|]; unfold of_type;
      erewrite list_filter_iff; [reflexivity| |reflexivity|]; intros s; set_solver.
Qed.

(** The statements of each step: those of its type, and in the dependent step
    those of no type with a step of its own. *)
Definition steps_of (all : list StatementWithType) : list (list StatementWithType) :=
  [of_type all "SCHEMA"] ++ (of_type all <$> types_before) ++
  [filter (λ s, s_ObjectType s ∉ dependent_excluded) all] ++ (of_type all <$> types_after).
Lemma predata_steps_of toc file all :
  GetRestoreMetadataStatements toc file "predata" [] [] = Ok all → predata_steps toc file = Ok (steps_of all).
Proof.
  intros Hall. unfold predata_steps. rewrite (get_one_type _ _ _ _ Hall). cbn [mbind go_bind].
  rewrite (go_map_pure _ (of_type all)) by (intros t _; by apply get_one_type). cbn [mbind go_bind].
  rewrite (get_filtered _ _ [] dependent_excluded _ Hall). cbn [mbind go_bind].
  rewrite (go_map_pure _ (of_type all)) by (intros t _; by apply get_one_type). cbn [mbind go_bind].
  unfold steps_of. do 5 f_equal. apply list_filter_iff. intros s.
  change (include_or_exclude [] dependent_excluded) with (NewExcludeSet dependent_excluded).
  rewrite MatchesFilter_exclude. unfold dependent_excluded. set_solver.
Qed.
Lemma steps_of_permutation all : concat (steps_of all) ≡ₚ all.
Proof.
  etransitivity; [|apply (of_type_partition (["SCHEMA"] ++ types_before ++ types_after));
    apply (bool_decide_unpack _); vm_compute; exact I].
  unfold steps_of. rewrite !fmap_app, !concat_app, <- !app_assoc. apply Permutation_app_head, Permutation_app_head.
  rewrite Permutation_app_comm. apply Permutation_app_head. cbn [concat]. rewrite app_nil_r.
  erewrite list_filter_iff; [reflexivity|]. intros s. unfold dependent_excluded, types_before, types_after. set_solver.
Qed.

(** ** Redirection *)

(** The redirection replaces the text [schema.] wherever it stands, also
    inside a longer identifier: redirecting schema [s] to [d] turns a call of
    [as.f] in a statement of [s] into a call of [ad.f]. *)
Lemma redirect_captures_suffix :
  let st := {| s_Schema := "s"; s_Name := "v"; s_ObjectType := "VIEW"; s_ReferenceObject := "";
               Statement := "CREATE VIEW s.v AS SELECT as.f(x) FROM s.t;"; ClassOID := 0; Oid := 0 |} in
  Statement <$> editStatementsRedirectSchema {["s" := "d"]} "" [st] false =
  ["CREATE VIEW d.v AS SELECT ad.f(x) FROM d.t;"].
Proof. vm_compute. reflexivity. Qed.

(** A statement of an unmapped schema is left alone. *)
Lemma redirect_unmapped redirectSchema incl isSchema st :
  redirectSchema ≠ ∅ → redirectSchema !! s_Schema st = None →
  redirect_statement redirectSchema incl isSchema st = st.
Proof.
  intros Hne Hl. unfold redirect_statement. rewrite bool_decide_true, Hl; [done|].
  apply Nat.neq_0_lt_0. by intros ?%map_size_empty_inv.
Qed.

(** ** Tablespaces *)

(** One target for everything, or the mapping with unmapped names unchanged, in
    whatever order the map is visited. *)
Lemma GetDestTablespace_single `{MapRange} ts t : ts ≠ "" → GetDestTablespace (TransformTablespace {[ts := ""]}) t = ts.
Proof.
  intros Hne. unfold TransformTablespace. rewrite map_size_singleton. simpl.
  destruct (range_map 508 {[ts := ""]}) as [|[k v] l] eqn:Hr.
  - pose proof (length_range_map 508 ({[ts := ""]} : gmap string string)) as Hlen. rewrite Hr, map_size_singleton in Hlen. done.
  - assert (Hkv : (k, v) ∈ range_map 508 ({[ts := ""]} : gmap string string)) by (rewrite Hr; set_solver).
    apply elem_of_range_map, lookup_singleton_Some in Hkv as [<- <-].
    unfold GetDestTablespace. simpl. by rewrite bool_decide_true.
Qed.

Lemma GetDestTablespace_mapping `{MapRange} m t : (∀ ts, m !! ts ≠ Some "") →
  GetDestTablespace (TransformTablespace m) t = default t (m !! t).
Proof.
  intros Hm. unfold TransformTablespace. case_bool_decide as Hz.
  { apply map_size_empty_inv in Hz as ->. unfold GetDestTablespace. simpl. by rewrite !lookup_empty. }
  assert (Hmap : GetDestTablespace {| destTablespace := ""; destTablespaceMap := list_to_map (range_map 519 m) |} t =
    default t (m !! t)) by (unfold GetDestTablespace; simpl; by rewrite list_to_map_range_map).
  case_bool_decide; [|done]. destruct (range_map 508 m) as [|[k v] l] eqn:Hr; [done|].
  assert (Hkv : (k, v) ∈ range_map 508 m) by (rewrite Hr; set_solver).
  apply elem_of_range_map in Hkv. rewrite bool_decide_false; [done|]. intros ->. by apply (Hm k).
Qed.
