(* ===== verification/SkipExisting.v ===== *)
(** The [--skip-existing] filter on table definitions and its audit record
    ([meta/builtin/skip_existing.go]). *)
From S2P Require Import Prelude Utils Options Validator QueryWrapper Version.

Inductive SkipReason := SkipReasonExists | SkipReasonRootExists | SkipReasonHalfBuiltLeaf.
#[export] Instance SkipReason_eq : EqDecision SkipReason.
Proof. solve_decision. Defined.
Definition SkipReason_String (r : SkipReason) : string :=
  match r with
  | SkipReasonExists => "exists"
  | SkipReasonRootExists => "root_exists"
  | SkipReasonHalfBuiltLeaf => "half_built_leaf"
  end.

Record SkippedTable := {
  SourceDbName : string; SourceSchema : string; SourceName : string;
  DestDbName : string; DestSchema : string; DestName : string;
  Reason : SkipReason
}.
#[export] Instance SkippedTable_eq : EqDecision SkippedTable.
Proof. solve_decision. Defined.

(** The recorder: the global slice, appended to under its mutex. *)
Definition recordSkip (tables : list SkippedTable) (s : SkippedTable) : list SkippedTable := tables ++ [s].
Definition RecordPairSkip (tables : list SkippedTable) (srcDb srcSchema srcName destDb destSchema destName : string)
    : list SkippedTable :=
  recordSkip tables {| SourceDbName := srcDb; SourceSchema := srcSchema; SourceName := srcName; DestDbName := destDb;
                       DestSchema := destSchema; DestName := destName; Reason := SkipReasonExists |}.
Definition NumSkipExisting (tables : list SkippedTable) : nat := length tables.

(** * The audit list *)

Definition dest_key (s : SkippedTable) : string * string * string := (DestDbName s, DestSchema s, DestName s).
Definition score (r : SkipReason) : nat :=
  match r with SkipReasonHalfBuiltLeaf => 3 | SkipReasonRootExists => 2 | SkipReasonExists => 1 end.
Definition set_reason (s : SkippedTable) (r : SkipReason) : SkippedTable :=
  {| SourceDbName := SourceDbName s; SourceSchema := SourceSchema s; SourceName := SourceName s;
     DestDbName := DestDbName s; DestSchema := DestSchema s; DestName := DestName s; Reason := r |}.

(** [dedupByDestFQN]: [indexByKey] is the position of a key in [out]. *)
Definition dedup_step (st : gmap (string * string * string) nat * list SkippedTable) (s : SkippedTable)
    : go (gmap (string * string * string) nat * list SkippedTable) :=
  let '(indexByKey, out) := st in
  match indexByKey !! dest_key s with
  | Some idx =>
      let! o := index out idx in
      if bool_decide (score (Reason o) < score (Reason s))
      then Ok (indexByKey, <[idx := set_reason o (Reason s)]> out)
      else Ok (indexByKey, out)
  | None => Ok (<[dest_key s := length out]> indexByKey, out ++ [s])
  end.
Definition dedupByDestFQN (snapshot : list SkippedTable) : go (list SkippedTable) :=
  let! (_, out) := go_fold dedup_step (∅, []) snapshot in Ok out.

(** A line of the list file. *)
Definition skip_line (s : SkippedTable) : string :=
  let db d := if bool_decide (d ≠ "") then d +:+ "." else "" in
  SkipReason_String (Reason s) +:+ chr TAB +:+ db (SourceDbName s) +:+ SourceSchema s +:+ "." +:+ SourceName s
    +:+ chr TAB +:+ db (DestDbName s) +:+ DestSchema s +:+ "." +:+ DestName s +:+ chr NL.
(** [WriteSkipExistingList]: the content of the file; [None]: nothing is written. *)
Definition WriteSkipExistingList (snapshot : list SkippedTable) : go (option string) :=
  if bool_decide (length snapshot = 0) then Ok None
  else
    let! l := dedupByDestFQN snapshot in
    Ok (Some (foldl String.app "" (skip_line <$> l))).
(** The counts of [LogSkipExistingSummary]. *)
Definition LogSkipExistingSummary (snapshot : list SkippedTable) : go (option (nat * nat * nat * nat)) :=
  if bool_decide (length snapshot = 0) then Ok None
  else
    let! l := dedupByDestFQN snapshot in
    let count r := length (filter (λ s, Reason s = r) (l : list SkippedTable)) in
    Ok (Some (length l, count SkipReasonExists, count SkipReasonRootExists, count SkipReasonHalfBuiltLeaf)).

(** * The filter *)

(** What the filter uses of a table definition: [PartitionLevelInfo.Level] is
    ["p"] for a root, ["i"] and ["l"] for an intermediate table and a leaf,
    and empty for a table that is not partitioned. *)
Record MetaTable := {
  t_Schema : string; t_Name : string; t_Level : string; t_Inherits : list string; t_IsExternal : bool
}.
#[export] Instance MetaTable_eq : EqDecision MetaTable.
Proof. solve_decision. Defined.
Definition t_fqn (t : MetaTable) : string := t_Schema t +:+ "." +:+ t_Name t.

Fixpoint walk (fuel : nat) (cur : MetaTable) (byFQN : gmap string MetaTable) : string :=
  match fuel with
  | O => t_fqn cur
  | S fuel' =>
      if bool_decide (t_Level cur = "p" ∨ t_Level cur = "") then t_fqn cur
      else match t_Inherits cur with
           | [] => t_fqn cur
           | i :: _ =>
               match byFQN !! i with
               | None => i
               | Some parent => walk fuel' parent byFQN
               end
           end
  end.
Definition maxDepth : nat := 16.
Definition walkToRoot (t : MetaTable) (byFQN : gmap string MetaTable) : string := walk maxDepth t byFQN.

(** [AppendExtPartSuffix]: [name[a:b]] within bounds is the substring. *)
Definition SUFFIX : string := "_ext_part_".
Definition MAX_LEN : nat := 63.
Definition QUOTED_MAX_LEN : nat := MAX_LEN + 2.
Definition AppendExtPartSuffix (name : string) : go string :=
  let n := len name in
  match String.get (pred n) name with
  | None => Panic "index out of range"
  | Some last =>
      if bool_decide (last = DQ) then
        if bool_decide (QUOTED_MAX_LEN < n + len SUFFIX)
        then Ok (String.substring 0 (QUOTED_MAX_LEN - len SUFFIX) name +:+ SUFFIX +:+ chr DQ)
        else Ok (String.substring 0 (pred n) name +:+ SUFFIX +:+ chr DQ)
      else if bool_decide (MAX_LEN < n + len SUFFIX)
      then Ok (String.substring 0 (MAX_LEN + 1 - len SUFFIX) name +:+ SUFFIX)
      else Ok (name +:+ SUFFIX)
  end.

(** The state of the package the filter reads. *)
Record meta_env := {
  env_option : option Option_;
  env_srcDb : string;
  env_destDb : string;
  env_version : GPDBVersion
}.

Section filter_tables.
Context `{SemverLib} (env : meta_env) (o : Option_).

Definition skipped (t : MetaTable) (destSchema destName : string) (r : SkipReason) : SkippedTable :=
  {| SourceDbName := env_srcDb env; SourceSchema := t_Schema t; SourceName := t_Name t;
     DestDbName := env_destDb env; DestSchema := destSchema; DestName := destName; Reason := r |}.

(** Pass 1: the roots that exist on the destination. *)
Definition is_root (t : MetaTable) : bool := bool_decide (t_Level t = "p" ∨ t_Level t = "").
Definition root_step (rootSkip : gset string) (t : MetaTable) : go (gset string) :=
  if negb (is_root t) then Ok rootSkip
  else
    let! (destSchema, destName) := TranslateToDestFQN o (t_Schema t) (t_Name t) in
    Ok (if IsDestTableExisting o (env_destDb env) destSchema destName
        then {[t_fqn t]} ∪ rootSkip else rootSkip).

(** The checks on a leaf whose root stays: [true] drops it. *)
Definition leaf_check (t : MetaTable) (rec : list SkippedTable) : go (bool * list SkippedTable) :=
  let! old := (if t_IsExternal t then andg (IsGPDB (env_version env)) (Before (env_version env) "7") else Ok false) in
  let! (drop, rec) :=
    if (old : bool) then
      let! suffixed := AppendExtPartSuffix (t_Name t) in
      let! (ds, dn) := TranslateToDestFQN o (t_Schema t) suffixed in
      if IsDestTableExisting o (env_destDb env) ds dn
      then Ok (true, recordSkip rec (skipped t ds dn SkipReasonExists))
      else Ok (false, rec)
    else Ok (false, rec) in
  if (drop : bool) then Ok (true, rec)
  else
    let! family := isCBDBFamilyPath (env_version env) in
    if (family : bool) then
      let! (ds, dn) := TranslateToDestFQN o (t_Schema t) (t_Name t) in
      if IsDestTableExisting o (env_destDb env) ds dn
      then Ok (false, recordSkip rec (skipped t ds dn SkipReasonHalfBuiltLeaf))
      else Ok (false, rec)
    else Ok (false, rec).

(** Pass 2 on one table: [true] drops it. *)
Definition table_check (byFQN : gmap string MetaTable) (rootSkip : gset string) (t : MetaTable)
    (rec : list SkippedTable) : go (bool * list SkippedTable) :=
  if is_root t then
    if bool_decide (t_fqn t ∈ rootSkip) then
      let! (ds, dn) := TranslateToDestFQN o (t_Schema t) (t_Name t) in
      Ok (true, recordSkip rec (skipped t ds dn SkipReasonExists))
    else Ok (false, rec)
  else if bool_decide (t_Level t = "l" ∨ t_Level t = "i") then
    if bool_decide (walkToRoot t byFQN ∈ rootSkip) then
      let! (ds, dn) := TranslateToDestFQN o (t_Schema t) (t_Name t) in
      Ok (true, recordSkip rec (skipped t ds dn SkipReasonRootExists))
    else if bool_decide (t_Level t = "l") then leaf_check t rec
    else Ok (false, rec)
  else Ok (false, rec).

Fixpoint filter_tables (byFQN : gmap string MetaTable) (rootSkip : gset string) (tables : list MetaTable)
    (rec : list SkippedTable) : go (list MetaTable * list SkippedTable) :=
  match tables with
  | [] => Ok ([], rec)
  | t :: tables' =>
      let! (drop, rec) := table_check byFQN rootSkip t rec in
      let! (kept, rec) := filter_tables byFQN rootSkip tables' rec in
      Ok (if (drop : bool) then kept else t :: kept, rec)
  end.

Definition by_fqn (tables : list MetaTable) : gmap string MetaTable :=
  foldl (λ m t, <[t_fqn t := t]> m) ∅ tables.
End filter_tables.

(** [FilterTablesByDestExisting]. *)
Definition FilterTablesByDestExisting `{SemverLib} `{FlagSet F} (CmdFlags : F) (env : meta_env)
    (tables : list MetaTable) (rec : list SkippedTable) : go (list MetaTable * list SkippedTable) :=
  let! skip := MustGetFlagBool CmdFlags SKIP_EXISTING in
  if negb skip then Ok (tables, rec)
  else
    match env_option env with
    | None => Ok (tables, rec)
    | Some o =>
        let! rootSkip := go_fold (root_step env o) ∅ tables in
        filter_tables env o (by_fqn tables) rootSkip tables rec
    end.

(** * Theorems on the audit list *)

(** The reasons recorded for a destination. *)
Definition reasons (k : string * string * string) (l : list SkippedTable) : list SkipReason :=
  Reason <$> filter (λ s, dest_key s = k) l.
Definition best (r : SkipReason) (rs : list SkipReason) : Prop :=
  r ∈ rs ∧ ∀ r', r' ∈ rs → score r' ≤ score r.

(** The loop after the entries [seen]. *)
Record dedup_ok (seen : list SkippedTable) (st : gmap (string * string * string) nat * list SkippedTable) : Prop := {
  dd_nodup : NoDup (dest_key <$> st.2);
  dd_index : ∀ k i, st.1 !! k = Some i ↔ (dest_key <$> st.2) !! i = Some k;
  dd_keys : ∀ k, k ∈ dest_key <$> st.2 ↔ k ∈ dest_key <$> seen;
  dd_reason : ∀ s, s ∈ st.2 → best (Reason s) (reasons (dest_key s) seen)
}.

Lemma dest_key_set_reason s r : dest_key (set_reason s r) = dest_key s.
Proof. done. Qed.

Lemma reasons_snoc k seen s :
  reasons k (seen ++ [s]) = reasons k seen ++ (if decide (dest_key s = k) then [Reason s] else []).
Proof.
  unfold reasons. rewrite filter_app, fmap_app. f_equal. rewrite filter_cons, filter_nil. by case_decide.
Qed.

Lemma best_keep r r' rs : best r rs → score r' ≤ score r → best r (rs ++ [r']).
Proof.
  intros [Hin Hall] Hle. split; [by apply elem_of_app; left|].
  intros x [Hx| ->%list_elem_of_singleton]%elem_of_app; [by apply Hall|done].
Qed.
Lemma best_new r r' rs : best r rs → score r < score r' → best r' (rs ++ [r']).
Proof.
  intros [Hin Hall] Hle. split; [apply elem_of_app; right; by apply list_elem_of_singleton|].
  intros x [Hx| ->%list_elem_of_singleton]%elem_of_app; [apply Hall in Hx; lia|done].
Qed.

(** Two entries of one destination are the same position. *)
Lemma dest_key_position (out : list SkippedTable) i j x y :
  NoDup (dest_key <$> out) → out !! i = Some x → out !! j = Some y → dest_key x = dest_key y → i = j.
Proof.
  intros Hnd Hx Hy Heq. eapply (NoDup_lookup (dest_key <$> out)); [done| |]; rewrite list_lookup_fmap;
    [by rewrite Hx|rewrite Hy; simpl; by rewrite Heq].
Qed.

(** A destination seen before: at most its reason changes. *)
Lemma dedup_seen_ok seen m out s i o :
  dedup_ok seen (m, out) → out !! i = Some o → dest_key o = dest_key s →
  dedup_ok (seen ++ [s]) (m, if bool_decide (score (Reason o) < score (Reason s))
                              then <[i := set_reason o (Reason s)]> out else out).
Proof.
  intros [Hnd Hidx Hkeys Hbest] Ho Hk. cbn [fst snd] in *. set (out' := if bool_decide _ then _ else _).
  assert (Hin : o ∈ out) by (by eapply list_elem_of_lookup_2).
  assert (Hkout : dest_key <$> out' = dest_key <$> out).
  { unfold out'. case_bool_decide; [|done]. rewrite list_fmap_insert. apply list_insert_id.
    by rewrite list_lookup_fmap, Ho. }
  split; cbn [fst snd]; rewrite ?Hkout; [done|done| |].
  - intros k. rewrite fmap_app, elem_of_app, Hkeys. cbn [fmap list_fmap]. rewrite list_elem_of_singleton.
    split; [tauto|]. intros [?| ->]; [done|]. rewrite <- Hkeys, <- Hk. apply list_elem_of_fmap. eauto.
  - intros s' (j & Hj)%list_elem_of_lookup. rewrite reasons_snoc. destruct (decide (j = i)) as [->|Hne].
    + unfold out' in Hj. case_bool_decide as Hlt.
      * rewrite list_lookup_insert_eq in Hj by (by eapply lookup_lt_Some). injection Hj as <-.
        rewrite dest_key_set_reason, Hk, decide_True by done. apply (best_new (Reason o)); [|done].
        rewrite <- Hk. by apply Hbest.
      * assert (s' = o) as -> by congruence. rewrite Hk, decide_True by done.
        apply best_keep; [rewrite <- Hk; by apply Hbest|lia].
    + assert (Hj' : out !! j = Some s').
      { unfold out' in Hj. case_bool_decide; [|done]. by rewrite list_lookup_insert_ne in Hj by done. }
      rewrite decide_False; [rewrite app_nil_r; apply Hbest; by eapply list_elem_of_lookup_2|].
      intros Heq. apply Hne. eapply dest_key_position; [done|done|done|]. by rewrite Hk.
Qed.

(** A new destination is appended. *)
Lemma dedup_new_ok seen m out s :
  dedup_ok seen (m, out) → m !! dest_key s = None →
  dedup_ok (seen ++ [s]) (<[dest_key s := length out]> m, out ++ [s]).
Proof.
  intros [Hnd Hidx Hkeys Hbest] Hm. cbn [fst snd] in *.
  assert (Hfresh : dest_key s ∉ dest_key <$> out).
  { intros (i & Hi)%list_elem_of_lookup. apply Hidx in Hi. congruence. }
  split; cbn [fst snd].
  - rewrite fmap_app. apply NoDup_app. split; [done|]. split; [|apply NoDup_singleton].
    intros k Hk ->%list_elem_of_singleton. done.
  - intros k i. rewrite fmap_app, lookup_insert_Some, lookup_app_Some, length_fmap.
    cbn [fmap list_fmap]. rewrite list_lookup_singleton_Some. split.
    + intros [[<- <-]|[Hne Hl]]; [right; split; [lia|split; [lia|done]]|left; by apply Hidx].
    + intros [Hl|(Hle & Hz & ->)]; [|left; split; [done|lia]]. right. apply Hidx in Hl. split; [|done]. congruence.
  - intros k. rewrite !fmap_app, !elem_of_app, Hkeys. done.
  - intros s' [Hs'| ->%list_elem_of_singleton]%elem_of_app; rewrite reasons_snoc.
    + rewrite decide_False; [rewrite app_nil_r; by apply Hbest|]. intros Heq. apply Hfresh. rewrite Heq.
      apply list_elem_of_fmap. eauto.
    + rewrite decide_True by done. assert (Hnone : reasons (dest_key s) seen = []).
      { unfold reasons. destruct (filter _ seen) as [|x l] eqn:Hf; [done|].
        assert (Hx : x ∈ filter (λ s0, dest_key s0 = dest_key s) seen) by (rewrite Hf; apply elem_of_cons; by left).
        apply list_elem_of_filter in Hx as [Hxk Hx]. exfalso. apply Hfresh, Hkeys, list_elem_of_fmap. eauto. }
      rewrite Hnone. split; [by apply list_elem_of_singleton|]. by intros r ->%list_elem_of_singleton.
Qed.

Lemma dedup_step_ok seen st s : dedup_ok seen st → ∃ st', dedup_step st s = Ok st' ∧ dedup_ok (seen ++ [s]) st'.
Proof.
  destruct st as [m out]. intros Hok. unfold dedup_step. destruct (m !! dest_key s) as [i|] eqn:Hm.
  - apply (dd_index _ _ Hok) in Hm as Hi. cbn [snd] in Hi. rewrite list_lookup_fmap in Hi.
    destruct (out !! i) as [o|] eqn:Ho; [|done]. unfold index. rewrite Ho. cbn [mbind go_bind].
    exists (m, if bool_decide (score (Reason o) < score (Reason s)) then <[i := set_reason o (Reason s)]> out else out).
    split; [by case_bool_decide|]. apply dedup_seen_ok; [done|done|]. simpl in Hi. congruence.
  - eexists. split; [reflexivity|]. by apply dedup_new_ok.
Qed.

(** The audit list has one entry per destination table that was recorded,
    and each entry carries the most informative of the reasons recorded for
    its destination. *)
Theorem dedupByDestFQN_best (snapshot : list SkippedTable) :
  ∃ out, dedupByDestFQN snapshot = Ok out ∧ NoDup (dest_key <$> out) ∧
    (∀ k, k ∈ dest_key <$> out ↔ k ∈ dest_key <$> snapshot) ∧
    (∀ s, s ∈ out → best (Reason s) (reasons (dest_key s) snapshot)).
Proof.
  assert (Hgen : ∀ l seen st, dedup_ok seen st → ∃ st', go_fold dedup_step st l = Ok st' ∧ dedup_ok (seen ++ l) st').
  { induction l as [|s l IH]; intros seen st Hst; [rewrite app_nil_r; by exists st|].
    destruct (dedup_step_ok seen st s Hst) as (st1 & Hst1 & Hok1). cbn [go_fold]. rewrite Hst1. cbn [mbind go_bind].
    destruct (IH (seen ++ [s]) st1 Hok1) as (st2 & Hf & Hok2). exists st2. by rewrite <- app_assoc in Hok2. }
  destruct (Hgen snapshot [] (∅, [])) as ([m out] & Hf & Hok).
  { split; simpl; [constructor| |done|set_solver]. intros k i. by rewrite lookup_empty. }
  unfold dedupByDestFQN. rewrite Hf. cbn [mbind go_bind]. exists out. destruct Hok. done.
Qed.

(** * Theorems on the filter *)

(** ** Partition trees *)

(** A partition names its parent first among the tables it inherits from; the
    root of its tree is reached in less than sixteen such steps. *)
Definition root_level (t : MetaTable) : Prop := t_Level t = "p" ∨ t_Level t = "".
Definition partition_level (t : MetaTable) : Prop := t_Level t = "l" ∨ t_Level t = "i".
Definition parent_among (tables : list MetaTable) (t p : MetaTable) : Prop :=
  partition_level t ∧ p ∈ tables ∧ head (t_Inherits t) = Some (t_fqn p).
Definition root_above (tables : list MetaTable) (t r : MetaTable) : Prop :=
  root_level r ∧ ∃ n, n < 16 ∧ nsteps (parent_among tables) n t r.

Lemma is_root_level t : is_root t = true ↔ root_level t.
Proof. apply bool_decide_eq_true. Qed.
Lemma partition_not_root t : partition_level t → is_root t = false.
Proof. intros Ht. apply bool_decide_eq_false. destruct Ht as [-> | ->]; naive_solver. Qed.
Lemma by_fqn_lookup tables (m : gmap string MetaTable) t : NoDup (t_fqn <$> tables) → t ∈ tables →
  (foldl (λ m t, <[t_fqn t := t]> m) m tables : gmap string MetaTable) !! t_fqn t = Some t.
Proof.
  revert m. induction tables as [|x tables IH]; intros m Hnd Hin; [by apply elem_of_nil in Hin|].
  cbn in Hnd. apply NoDup_cons in Hnd as [Hx Hnd]. cbn [foldl]. apply elem_of_cons in Hin as [->|Hin]; [|by apply IH].
  clear IH. assert (Hm : (<[t_fqn x := x]> m : gmap string MetaTable) !! t_fqn x = Some x) by by rewrite lookup_insert_eq.
  revert Hm. generalize (<[t_fqn x := x]> m : gmap string MetaTable). clear Hnd. induction tables as [|y tables IH]; intros m' Hm; [done|].
  cbn [foldl]. cbn in Hx. apply not_elem_of_cons in Hx as [Hne Hx]. apply IH; [done|]. by rewrite lookup_insert_ne.
Qed.
Lemma walk_root tables fuel n t r : NoDup (t_fqn <$> tables) → root_level r → n < fuel →
  nsteps (parent_among tables) n t r → walk fuel t (by_fqn tables) = t_fqn r.
Proof.
  intros Hnd Hr. revert fuel t. induction n as [|n IH]; intros [|fuel] t Hn Hsteps; try lia; cbn [walk].
  - inversion Hsteps; subst. by rewrite bool_decide_true.
  - inversion Hsteps as [|? ? p ? (Ht & Hp & Hi) Hrest]; subst. apply partition_not_root in Ht. unfold is_root in Ht. rewrite Ht.
    destruct (t_Inherits t) as [|i rest]; [done|]. injection Hi as ->. unfold by_fqn. rewrite by_fqn_lookup by done.
    apply IH; [lia|done].
Qed.
Lemma walkToRoot_root tables t r : NoDup (t_fqn <$> tables) → root_above tables t r → walkToRoot t (by_fqn tables) = t_fqn r.
Proof. intros Hnd (Hr & n & Hn & Hsteps). by eapply walk_root. Qed.
Lemma root_above_in tables t r : t ∈ tables → root_above tables t r → r ∈ tables.
Proof.
  intros Ht (_ & n & _ & Hsteps). revert t Ht Hsteps. induction n as [|n IH]; intros t Ht Hsteps; inversion Hsteps; subst; [done|].
  destruct H0 as (_ & Hp & _). by eapply IH.
Qed.

Section filter_theorems.
Context `{SemverLib} (env : meta_env) (o : Option_).

(** The destination name of a table is in the inventory. *)
Definition exists_on_dest (t : MetaTable) : bool :=
  match TranslateToDestFQN o (t_Schema t) (t_Name t) with
  | Ok (ds, dn) => IsDestTableExisting o (env_destDb env) ds dn
  | _ => false
  end.

Lemma root_fold_spec tables rs rootSkip :
  go_fold (root_step env o) rs tables = Ok rootSkip →
  ∀ x, x ∈ rootSkip ↔ x ∈ rs ∨ ∃ t, t ∈ tables ∧ is_root t = true ∧ exists_on_dest t = true ∧ t_fqn t = x.
Proof.
  revert rs. induction tables as [|t tables IH]; intros rs; cbn [go_fold].
  { intros [= ->] x. split; [tauto|]. intros [?|(t & Hin & _)]; [done|]. by apply elem_of_nil in Hin. }
  intros (rs1 & Hstep & Hfold)%bind_Ok x. rewrite (IH rs1 Hfold x).
  assert (Hrs1 : x ∈ rs1 ↔ x ∈ rs ∨ (is_root t = true ∧ exists_on_dest t = true ∧ t_fqn t = x)).
  { unfold root_step, exists_on_dest in *. destruct (is_root t); simpl in Hstep; [|naive_solver].
    apply bind_Ok in Hstep as ([ds dn] & -> & Hstep). injection Hstep as <-.
    destruct (IsDestTableExisting o (env_destDb env) ds dn); set_solver. }
  rewrite Hrs1. setoid_rewrite elem_of_cons. naive_solver.
Qed.

(** The decision on a table and the entry it records do not depend on what was
    recorded before. *)
Lemma table_check_rec byFQN rootSkip t rec :
  table_check env o byFQN rootSkip t rec =
  (let! (b, e) := table_check env o byFQN rootSkip t [] in Ok (b, rec ++ e)).
Proof.
  unfold table_check, leaf_check, recordSkip.
  repeat match goal with
  | |- context [if ?b then _ else _] => destruct b
  | |- context [mbind _ (TranslateToDestFQN ?a ?b ?c)] => destruct (TranslateToDestFQN a b c) as [[? ?]| | |]
  | |- context [mbind _ (AppendExtPartSuffix ?a)] => destruct (AppendExtPartSuffix a)
  | |- context [mbind _ (isCBDBFamilyPath ?a)] => destruct (isCBDBFamilyPath a) as [[]| | |]
  | |- context [mbind _ (andg ?a ?b)] => destruct (andg a b) as [[]| | |]
  | _ => progress cbn [mbind go_bind]
  end; by rewrite ?app_nil_r.
Qed.

Definition drops (byFQN : gmap string MetaTable) (rootSkip : gset string) (t : MetaTable) : bool :=
  match table_check env o byFQN rootSkip t [] with Ok (b, _) => b | _ => false end.

Lemma filter_tables_kept byFQN rootSkip tables rec kept rec' :
  filter_tables env o byFQN rootSkip tables rec = Ok (kept, rec') →
  kept = filter (λ t, drops byFQN rootSkip t = false) tables ∧
  ∀ t, t ∈ tables → is_ok (table_check env o byFQN rootSkip t []) = true.
Proof.
  revert rec kept. induction tables as [|t tables IH]; intros rec kept; cbn [filter_tables].
  { intros [= <- <-]. split; [done|]. by intros t ?%elem_of_nil. }
  rewrite table_check_rec. intros ([b e] & Hb & Hr)%bind_Ok. apply bind_Ok in Hb as ([b' e'] & Hc & Hb).
  injection Hb as -> <-. apply bind_Ok in Hr as ([k r] & Hk & Hr). injection Hr as <- <-.
  destruct (IH _ _ Hk) as [-> Hok]. rewrite filter_cons. split.
  - assert (Hd : drops byFQN rootSkip t = b) by (unfold drops; by rewrite Hc). rewrite Hd. by destruct b.
  - intros x [->|Hx]%elem_of_cons; [by rewrite Hc|by apply Hok].
Qed.

Lemma TranslateToDestFQN_total s n : length (sourceSchemas o) ≤ length (destSchemas o) →
  ∃ ds dn, TranslateToDestFQN o s n = Ok (ds, dn).
Proof.
  intros Hlen. unfold TranslateToDestFQN. rewrite GetSchemaMap_spec, bool_decide_true by done. simpl.
  destruct (_ !! s); [case_bool_decide|]; eauto.
Qed.

Lemma string_get_last s : s ≠ "" → String.get (pred (len s)) s ≠ None.
Proof.
  intros Hne. assert (Hget : ∀ k s, k < len s → String.get k s ≠ None).
  { unfold len. induction k as [|k IH]; intros [|x s'] Hk; simpl in *; [lia|done|lia|]. apply IH. lia. }
  apply Hget. destruct s; [done|]. unfold len. simpl. lia.
Qed.

(** With a destination schema for every source schema, names that are not
    empty and a lawful version library no check fails, and a table that is
    dropped is recorded under its own name. *)
Lemma table_check_total `{!SemverLaws} byFQN rootSkip t :
  length (sourceSchemas o) ≤ length (destSchemas o) → t_Name t ≠ "" →
  ∃ b e, table_check env o byFQN rootSkip t [] = Ok (b, e) ∧
    (b = true → ∃ s, s ∈ e ∧ SourceSchema s = t_Schema t ∧ SourceName s = t_Name t).
Proof.
  intros Hlen Hne. pose proof (λ s n, TranslateToDestFQN_total s n Hlen) as Htr.
  assert (Hsuf : is_ok (AppendExtPartSuffix (t_Name t)) = true).
  { unfold AppendExtPartSuffix. destruct (String.get _ _) eqn:Hg; [by repeat case_bool_decide|].
    exfalso. revert Hg. apply string_get_last. done. }
  assert (Hold : is_ok (andg (IsGPDB (env_version env)) (Before (env_version env) "7")) = true).
  { change "7" with (Itoa 7). rewrite Before_major by (unfold int64_max; lia). by destruct (IsGPDB _). }
  assert (Hfam : is_ok (isCBDBFamilyPath (env_version env)) = true).
  { unfold isCBDBFamilyPath, gpdb_or_family. change "7" with (Itoa 7).
    rewrite AtLeast_major by (unfold int64_max; lia). by destruct (IsGPDB _). }
  unfold table_check, leaf_check, recordSkip, skipped.
  repeat match goal with
  | |- context [mbind _ (TranslateToDestFQN ?a ?b ?c)] => destruct (Htr b c) as (? & ? & ->)
  | |- context [mbind _ (AppendExtPartSuffix ?a)] => destruct (AppendExtPartSuffix a); [|done..]
  | |- context [mbind _ (isCBDBFamilyPath ?a)] => destruct (isCBDBFamilyPath a) as [[]| | |]; [| |done..]
  | |- context [mbind _ (andg ?a ?b)] => destruct (andg a b) as [[]| | |]; [| |done..]
  | |- context [if ?b then _ else _] => destruct b
  | _ => progress cbn [mbind go_bind]
  end; eexists _, _; (split; [reflexivity|]); intros Hd; try done;
    (eexists; split; [apply elem_of_app; right; by apply list_elem_of_singleton|done]).
Qed.

Lemma filter_tables_total `{!SemverLaws} byFQN rootSkip tables rec :
  length (sourceSchemas o) ≤ length (destSchemas o) → Forall (λ t, t_Name t ≠ "") tables →
  ∃ kept entries, filter_tables env o byFQN rootSkip tables rec = Ok (kept, rec ++ entries) ∧
    kept `sublist_of` tables ∧
    ∀ t, t ∈ tables → t ∈ kept ∨ ∃ s, s ∈ entries ∧ SourceSchema s = t_Schema t ∧ SourceName s = t_Name t.
Proof.
  intros Hlen Hne. revert rec. induction Hne as [|t tables Ht _ IH]; intros rec; cbn [filter_tables].
  { exists [], []. rewrite app_nil_r. split_and!; [done|done|]. by intros ? ?%elem_of_nil. }
  destruct (table_check_total byFQN rootSkip t Hlen Ht) as (b & e & Hc & Hb).
  rewrite table_check_rec, Hc. cbn [mbind go_bind].
  destruct (IH (rec ++ e)) as (kept & entries & -> & Hsub & Hall). cbn [mbind go_bind].
  exists (if b then kept else t :: kept), (e ++ entries). rewrite app_assoc. split; [done|]. split.
  - destruct b; by constructor.
  - intros x [->|Hx]%elem_of_cons.
    + destruct b; [right|left; by constructor]. destruct (Hb eq_refl) as (s & Hs & ?). exists s.
      rewrite elem_of_app. tauto.
    + destruct (Hall x Hx) as [Hk|(s & Hs & ?)]; [left; destruct b; [done|by constructor]|].
      right. exists s. rewrite elem_of_app. tauto.
Qed.

Lemma root_fold_total tables rs : length (sourceSchemas o) ≤ length (destSchemas o) →
  ∃ rootSkip, go_fold (root_step env o) rs tables = Ok rootSkip.
Proof.
  intros Hlen. revert rs. induction tables as [|t tables IH]; intros rs; cbn [go_fold]; [eauto|].
  assert (Hstep : ∃ rs', root_step env o rs t = Ok rs').
  { unfold root_step. destruct (is_root t); simpl; [|eauto].
    destruct (TranslateToDestFQN_total (t_Schema t) (t_Name t) Hlen) as (ds & dn & ->). simpl. eauto. }
  destruct Hstep as (rs' & ->). apply IH.
Qed.

Lemma fqn_inj tables t t' : NoDup (t_fqn <$> tables) → t ∈ tables → t' ∈ tables → t_fqn t = t_fqn t' → t = t'.
Proof.
  intros Hnd Ht Ht' Heq. pose proof (by_fqn_lookup tables ∅ t Hnd Ht) as H1. rewrite Heq, by_fqn_lookup in H1 by done. congruence.
Qed.
Lemma root_skip_exists tables rs r : NoDup (t_fqn <$> tables) → go_fold (root_step env o) ∅ tables = Ok rs →
  root_level r → r ∈ tables → t_fqn r ∈ rs ↔ exists_on_dest r = true.
Proof.
  intros Hnd Hrs Hroot Hr. rewrite (root_fold_spec _ _ _ Hrs). split.
  - intros [Hbad|(r' & Hin & _ & He & Heq)]; [by apply elem_of_empty in Hbad|]. by rewrite <- (fqn_inj tables r' r).
  - intros He. right. exists r. by rewrite is_root_level.
Qed.
(** The roots that survive, the partitions that do not and those that do. *)
Lemma filter_tables_roots tables rs rec kept rec' : NoDup (t_fqn <$> tables) →
  go_fold (root_step env o) ∅ tables = Ok rs →
  filter_tables env o (by_fqn tables) rs tables rec = Ok (kept, rec') →
  (∀ t, root_level t → (t ∈ kept ↔ t ∈ tables ∧ exists_on_dest t = false)) ∧
  (∀ t r, t ∈ tables → partition_level t → root_above tables t r →
     (exists_on_dest r = true → t ∉ kept) ∧ (exists_on_dest r = false → t_IsExternal t = false → t ∈ kept)).
Proof.
  intros Hnd Hrs Hrun. apply filter_tables_kept in Hrun as [-> Hok]. split.
  - intros t Hroot. rewrite list_elem_of_filter. unfold drops, table_check.
    rewrite (proj2 (is_root_level t) Hroot). split; intros [Hd Hin].
    + split; [done|]. apply not_true_is_false. intros He%(root_skip_exists _ _ _ Hnd Hrs Hroot Hin).
      specialize (Hok t Hin). revert Hd Hok. unfold table_check.
      rewrite (proj2 (is_root_level t) Hroot), bool_decide_true by done.
      destruct (TranslateToDestFQN o (t_Schema t) (t_Name t)) as [[? ?]| | |]; done.
    + split; [|done]. rewrite bool_decide_false; [done|].
      intros He%(root_skip_exists _ _ _ Hnd Hrs Hroot Hd). congruence.
  - intros t r Hin Hlevel Habove. pose proof (root_above_in _ _ _ Hin Habove) as Hr. rewrite list_elem_of_filter.
    pose proof (root_skip_exists _ _ _ Hnd Hrs (proj1 Habove) Hr) as Hskip.
    specialize (Hok t Hin). revert Hok. unfold drops, table_check. rewrite partition_not_root by done.
    rewrite (bool_decide_true (t_Level t = "l" ∨ t_Level t = "i")) by done.
    rewrite (walkToRoot_root tables t r) by done. intros Hok. split; intros He.
    + revert Hok. rewrite bool_decide_true by by apply Hskip.
      destruct (TranslateToDestFQN o (t_Schema t) (t_Name t)) as [[? ?]| | |]; try done. by intros _ [? _].
    + intros Hext. split; [|done]. revert Hok. rewrite bool_decide_false by (rewrite Hskip; congruence).
      case_bool_decide; [|done]. unfold leaf_check. rewrite Hext. cbn [mbind go_bind].
      destruct (isCBDBFamilyPath (env_version env)) as [[]| | |]; cbn [mbind go_bind]; try done.
      destruct (TranslateToDestFQN o (t_Schema t) (t_Name t)) as [[? ?]| | |]; cbn [mbind go_bind]; try done. by case_match.
Qed.

(** C32: With a destination schema for every source schema the filter of the
    tables handed to the metadata extraction returns, and what it keeps is in
    order. Exactly those roots and plain tables survive [--skip-existing]
    whose translated name is not on the destination. A leaf or an intermediate
    table stands and falls with the root of its tree, found through its
    parents: it does not survive if the root is on the destination, and
    survives if not, unless it is external. Every table that does not survive
    has an entry in the record (skip_existing.go:268). *)
Theorem FilterTablesByDestExisting_roots `{!SemverLaws} {F} `{FlagSet F} (CmdFlags : F) (tables : list MetaTable)
    (rec : list SkippedTable)
    (Hskip : GetBool CmdFlags SKIP_EXISTING = Ok true) (Hopt : env_option env = Some o)
    (Hschemas : length (sourceSchemas o) ≤ length (destSchemas o))
    (Hnames : Forall (λ t, t_Name t ≠ "") tables) (Hnd : NoDup (t_fqn <$> tables)) :
  ∃ kept entries, FilterTablesByDestExisting CmdFlags env tables rec = Ok (kept, rec ++ entries) ∧
    kept `sublist_of` tables ∧
    (∀ t, root_level t → (t ∈ kept ↔ t ∈ tables ∧ exists_on_dest t = false)) ∧
    (∀ t r, t ∈ tables → partition_level t → root_above tables t r →
       (exists_on_dest r = true → t ∉ kept) ∧ (exists_on_dest r = false → t_IsExternal t = false → t ∈ kept)) ∧
    (∀ t, t ∈ tables → t ∈ kept ∨
       ∃ s, s ∈ entries ∧ SourceSchema s = t_Schema t ∧ SourceName s = t_Name t).
Proof.
  unfold FilterTablesByDestExisting, MustGetFlagBool. rewrite Hskip, Hopt. cbn [FatalOnError mbind go_bind negb].
  destruct (root_fold_total tables ∅ Hschemas) as (rs & Hrs). rewrite Hrs. cbn [mbind go_bind].
  destruct (filter_tables_total (by_fqn tables) rs tables rec Hschemas Hnames) as (kept & entries & Hrun & Hsub & Hall).
  exists kept, entries. destruct (filter_tables_roots _ _ _ _ _ Hnd Hrs Hrun). done.
Qed.
End filter_theorems.

(** The name given to an external partition is one byte longer than the
    longest relation name when the leaf's name is too long for the suffix: the
    server cuts it, and a look-up of the full name does not find it. *)
Lemma AppendExtPartSuffix_too_long (name : string)
    (Hlong : MAX_LEN - len SUFFIX < len name ≤ MAX_LEN) (Hunquoted : String.get (pred (len name)) name ≠ Some DQ) :
  ∃ s, AppendExtPartSuffix name = Ok s ∧ len s = MAX_LEN + 1.
Proof.
  unfold MAX_LEN, SUFFIX in *. change (len "_ext_part_") with 10 in *. unfold AppendExtPartSuffix.
  destruct (String.get (pred (len name)) name) as [c|] eqn:Hc.
  - rewrite bool_decide_false by congruence. unfold MAX_LEN, SUFFIX. change (len "_ext_part_") with 10.
    rewrite bool_decide_true by lia. eexists. split; [reflexivity|]. rewrite len_append.
    change (len "_ext_part_") with 10. change (63 + 1 - 10) with 54. enough (len (String.substring 0 54 name) = 54) by lia.
    assert (Hsub : ∀ k s, k ≤ len s → len (String.substring 0 k s) = k).
    { unfold len. induction k as [|k IH]; intros [|x s] Hk; simpl in *; [done|done|lia|]. f_equal. apply IH. lia. }
    apply Hsub. lia.
  - exfalso. revert Hc. apply string_get_last. intros ->. simpl in Hlong. lia.
Qed.

(** * Instances *)

Definition tree_root : MetaTable := {| t_Schema := "public"; t_Name := "p"; t_Level := "p"; t_Inherits := []; t_IsExternal := false |}.
Definition tree_leaf : MetaTable := {| t_Schema := "public"; t_Name := "p_1"; t_Level := "l"; t_Inherits := ["public.p"]; t_IsExternal := false |}.
Definition plain_one : MetaTable := {| t_Schema := "public"; t_Name := "a"; t_Level := ""; t_Inherits := []; t_IsExternal := false |}.
Definition sample_env : meta_env :=
  {| env_option := Some root_on_dest; env_srcDb := "s"; env_destDb := "d";
     env_version := {| VersionString := ""; SemVer := semver0; Type_ := CBDB |} |}.
Definition sample_record : list SkippedTable :=
  [skipped sample_env tree_root "public" "p" SkipReasonExists;
   skipped sample_env tree_leaf "public" "p_1" SkipReasonRootExists].
Definition skip_flags : flag_map := the_flags (parse_args [(FULL, "true"); (SKIP_EXISTING, "true")]).

(** A tree of three levels whose root is on the destination, one whose root is
    not, and a plain table. *)
Definition partition (name level parent : string) : MetaTable :=
  {| t_Schema := "public"; t_Name := name; t_Level := level; t_Inherits := [parent]; t_IsExternal := false |}.
Definition three_levels : list MetaTable :=
  [tree_root; partition "p_1" "i" "public.p"; partition "p_1_1" "l" "public.p_1";
   {| t_Schema := "public"; t_Name := "q"; t_Level := "p"; t_Inherits := []; t_IsExternal := false |};
   partition "q_1" "l" "public.q"; plain_one].
Lemma FilterTablesByDestExisting_roots_witness :
  exists_on_dest sample_env root_on_dest tree_root = true ∧
  root_above three_levels (partition "p_1_1" "l" "public.p_1") tree_root ∧
  ∃ kept entries, FilterTablesByDestExisting skip_flags sample_env three_levels [] = Ok (kept, [] ++ entries) ∧
    kept `sublist_of` three_levels ∧
    (∀ t, root_level t → (t ∈ kept ↔ t ∈ three_levels ∧ exists_on_dest sample_env root_on_dest t = false)) ∧
    (∀ t r, t ∈ three_levels → partition_level t → root_above three_levels t r →
       (exists_on_dest sample_env root_on_dest r = true → t ∉ kept) ∧
       (exists_on_dest sample_env root_on_dest r = false → t_IsExternal t = false → t ∈ kept)) ∧
    (∀ t, t ∈ three_levels → t ∈ kept ∨
       ∃ s, s ∈ entries ∧ SourceSchema s = t_Schema t ∧ SourceName s = t_Name t).
Proof.
  split; [vm_compute; reflexivity|]. split.
  { split; [by left|]. exists 2. split; [lia|]. eapply nsteps_l with (y := partition "p_1" "i" "public.p").
    - split; [by left|]. split; [apply (bool_decide_unpack _); vm_compute; exact I|done].
    - eapply nsteps_l with (y := tree_root); [|by constructor].
      split; [by right|]. split; [apply (bool_decide_unpack _); vm_compute; exact I|done]. }
  apply (FilterTablesByDestExisting_roots sample_env root_on_dest).
  - vm_compute. reflexivity.
  - reflexivity.
  - apply (bool_decide_unpack _). vm_compute. exact I.
  - repeat constructor; discriminate.
  - apply (bool_decide_unpack _). vm_compute. exact I.
Defined.
Example three_levels_kept :
  fst <$> (match FilterTablesByDestExisting skip_flags sample_env three_levels [] with Ok r => Some r | _ => None end)
  = Some (drop 3 three_levels).
Proof. vm_compute. reflexivity. Qed.

Definition sixty : string := "aaaaaaaaaabbbbbbbbbbccccccccccddddddddddeeeeeeeeeeffffffffff".
Lemma AppendExtPartSuffix_too_long_witness : ∃ s, AppendExtPartSuffix sixty = Ok s ∧ len s = MAX_LEN + 1.
Proof.
  apply AppendExtPartSuffix_too_long.
  - apply (bool_decide_unpack _). vm_compute. exact I.
  - vm_compute. discriminate.
Defined.

(** a run that passes the validation, [--schema] with [--skip-existing] and
    no [--dest-schema], panics in the filter as soon as there is a table. *)
Theorem skip_existing_schema_panics :
  let flags := the_flags (parse_args skip_schema_args) in
  let o := the_option (NewOption no_files flags) in
  let env := {| env_option := Some o; env_srcDb := "db"; env_destDb := "db"; env_version := env_version sample_env |} in
  ValidateAll no_files flags = Ok () ∧ is_ok (NewOption no_files flags) = true ∧
  FilterTablesByDestExisting flags env [plain_one] [] = Panic "index out of range".
Proof. vm_compute. done. Qed.
