(* ===== verification/Helper.v ===== *)
(** The helper program ([helper/]): its command line ([config.go]), the choice
    of client and server ([client.go], [server.go]), the addresses a client
    dials ([one_time_client.go], [concurrent_client.go]), the port a server
    listens on and the life of a server ([server.go]). *)
From S2P Require Import Prelude Utils Options.

(** * Configuration *)

Definition DirectionModeSend : string := "send".
Definition DirectionModeReceive : string := "receive".

Record Config := {
  Hosts : list string;
  Ports : list string;
  DataPortRange : list Z;
  ListenMode : bool;
  NoCompression : bool;
  ToResolve : string;
  CmdID : string;
  SegID : Z;
  PrintVersion : bool;
  MD5XORMode : bool;
  TransCompType : string;
  NumClients : list string;
  Direction : string;
  NumDests : Z
}.

(** The configuration after [InitFlags]: a flag's variable holds its default. *)
Definition InitFlags : Config :=
  {| Hosts := []; Ports := []; DataPortRange := []; ListenMode := false; NoCompression := false;
     ToResolve := ""; CmdID := ""; SegID := -2; PrintVersion := false; MD5XORMode := false;
     TransCompType := "zstd"; NumClients := []; Direction := DirectionModeSend; NumDests := 0 |}.

(** The three flag types of the program: a second [Set] appends. *)
Definition CommaStringFlags_Set (c : list string) (value : string) : go (list string) :=
  Ok (foldl (λ c e, c ++ [e]) c (Split value COMMA)).
Definition CommaIntFlags_Set (c : list string) (value : string) : go (list string) :=
  go_fold (λ c e, match Atoi e with
                  | None => Err "invalid integer format"
                  | Some _ => Ok (c ++ [e])
                  end) c (Split value COMMA).
Definition DashIntFlags_Set (d : list Z) (value : string) : go (list Z) :=
  let sl := Split value DASH in
  if bool_decide (length sl ≠ 2) then Err "invalid dash format"
  else
    let! s0 := index sl 0 in
    match Atoi s0 with
    | None => Err "invalid integer format"
    | Some first =>
        let! s1 := index sl 1 in
        match Atoi s1 with
        | None => Err "invalid integer format"
        | Some second => Ok (d ++ [first] ++ [second])
        end
    end.

(** A flag given on the command line; a switch has the value [true]. *)
Definition flag_arg : Type := string * string.

(** Updates of one field. *)
Definition set_hosts (c : Config) (v : list string) : Config :=
  let 'Build_Config _ p r l n t id s pv m ct nc d nd := c in Build_Config v p r l n t id s pv m ct nc d nd.
Definition set_ports (c : Config) (v : list string) : Config :=
  let 'Build_Config h _ r l n t id s pv m ct nc d nd := c in Build_Config h v r l n t id s pv m ct nc d nd.
Definition set_range (c : Config) (v : list Z) : Config :=
  let 'Build_Config h p _ l n t id s pv m ct nc d nd := c in Build_Config h p v l n t id s pv m ct nc d nd.
Definition set_listen (c : Config) : Config :=
  let 'Build_Config h p r _ n t id s pv m ct nc d nd := c in Build_Config h p r true n t id s pv m ct nc d nd.
Definition set_no_compression (c : Config) : Config :=
  let 'Build_Config h p r l _ t id s pv m ct nc d nd := c in Build_Config h p r l true t id s pv m ct nc d nd.
Definition set_resolve (c : Config) (v : string) : Config :=
  let 'Build_Config h p r l n _ id s pv m ct nc d nd := c in Build_Config h p r l n v id s pv m ct nc d nd.
Definition set_cmd (c : Config) (v : string) : Config :=
  let 'Build_Config h p r l n t _ s pv m ct nc d nd := c in Build_Config h p r l n t v s pv m ct nc d nd.
Definition set_seg (c : Config) (v : Z) : Config :=
  let 'Build_Config h p r l n t id _ pv m ct nc d nd := c in Build_Config h p r l n t id v pv m ct nc d nd.
Definition set_version (c : Config) : Config :=
  let 'Build_Config h p r l n t id s _ m ct nc d nd := c in Build_Config h p r l n t id s true m ct nc d nd.
Definition set_md5 (c : Config) : Config :=
  let 'Build_Config h p r l n t id s pv _ ct nc d nd := c in Build_Config h p r l n t id s pv true ct nc d nd.
Definition set_compress (c : Config) (v : string) : Config :=
  let 'Build_Config h p r l n t id s pv m _ nc d nd := c in Build_Config h p r l n t id s pv m v nc d nd.
Definition set_clients (c : Config) (v : list string) : Config :=
  let 'Build_Config h p r l n t id s pv m ct _ d nd := c in Build_Config h p r l n t id s pv m ct v d nd.
Definition set_direction (c : Config) (v : string) : Config :=
  let 'Build_Config h p r l n t id s pv m ct nc _ nd := c in Build_Config h p r l n t id s pv m ct nc v nd.
Definition set_num_dests (c : Config) (v : Z) : Config :=
  let 'Build_Config h p r l n t id s pv m ct nc d _ := c in Build_Config h p r l n t id s pv m ct nc d v.

(** An [int] flag takes a decimal number. *)
Definition int_flag (value : string) : go Z :=
  match Atoi value with Some z => Ok z | None => Err "invalid syntax" end.

(** The variable [InitFlags] binds to each flag, set from one occurrence. *)
Definition set_flag (c : Config) (arg : flag_arg) : go Config :=
  let '(name, value) := arg in
  if bool_decide (name = "resolve") then Ok (set_resolve c value)
  else if bool_decide (name = "md5xor") then Ok (set_md5 c)
  else if bool_decide (name = "cmd-id") then Ok (set_cmd c value)
  else if bool_decide (name = "host") then let! v := CommaStringFlags_Set (Hosts c) value in Ok (set_hosts c v)
  else if bool_decide (name = "port") then let! v := CommaIntFlags_Set (Ports c) value in Ok (set_ports c v)
  else if bool_decide (name = "seg-id") then let! v := int_flag value in Ok (set_seg c v)
  else if bool_decide (name = "listen") then Ok (set_listen c)
  else if bool_decide (name = "data-port-range") then let! v := DashIntFlags_Set (DataPortRange c) value in Ok (set_range c v)
  else if bool_decide (name = "no-compression") then Ok (set_no_compression c)
  else if bool_decide (name = "version") then Ok (set_version c)
  else if bool_decide (name = "compress-type") then Ok (set_compress c value)
  else if bool_decide (name = "client-numbers") then let! v := CommaIntFlags_Set (NumClients c) value in Ok (set_clients c v)
  else if bool_decide (name = "direction") then Ok (set_direction c value)
  else if bool_decide (name = "num-dests") then let! v := int_flag value in Ok (set_num_dests c v)
  else Err ("unknown flag: --" +:+ name).

(** * Validation *)

Section validation.
Context (args : list flag_arg).

Definition flag_Changed (name : string) : bool := bool_decide (name ∈ args.*1).

Definition getChangedFlagNum (options : list string) : nat :=
  foldl (λ numSet o, if flag_Changed o then S numSet else numSet) 0 options.

Definition checkExclusiveFlags (options : list string) : go () :=
  if bool_decide (1 < getChangedFlagNum options)
  then Err ("the following flags may not be specified together: " +:+ Join options ", " +:+ chr NL)
  else Ok ().

Definition checkMandatoryFlags (options : list string) : go () :=
  if bool_decide (getChangedFlagNum options ≠ length options)
  then Err ("the following flags must be specified: " +:+ Join options ", " +:+ chr NL)
  else Ok ().

Definition validateCompressType (cType : string) : go () :=
  if bool_decide (len cType = 0) then Ok ()
  else if bool_decide (cType ≠ "gzip" ∧ cType ≠ "snappy" ∧ cType ≠ "zstd")
  then Err "--compress-type must be gzip, snappy, or zstd"
  else Ok ().

Definition bad_port : string := "--data-port-range is invalid: the valid value should be 1024-65535".
Definition parseDataPortRange (portPair : list Z) : go () :=
  if bool_decide (length portPair = 0) then Ok ()
  else
    let! bPort := index portPair 0 in
    let! ePort := index portPair 1 in
    if bool_decide (bPort < 1024 ∨ 65535 < bPort)%Z then Err bad_port
    else if bool_decide (ePort < 1024 ∨ 65535 < ePort)%Z then Err bad_port
    else if bool_decide (ePort ≤ bPort)%Z
    then Err "--data-port-range is invalid: the first port number should be less than the second port number"
    else Ok ().

(** The groups of [validate], in its order. *)
Definition exclusive_groups : list (list string) := [
  ["resolve"; "listen"; "md5xor"]; ["resolve"; "no-compression"; "md5xor"];
  ["resolve"; "port"; "data-port-range"; "md5xor"]; ["resolve"; "client-numbers"]; ["resolve"; "direction"];
  ["host"; "md5xor"]; ["host"; "listen"]; ["host"; "client-numbers"]; ["host"; "disable-parallel-mode"];
  ["no-compression"; "compress-type"] ].

Definition validate (NArg : list string) (c : Config) : go () :=
  match NArg with
  | a :: _ => Err ("there is an argument remaining after flags have been processed: " +:+ a)
  | [] =>
      let! _ := go_fold (λ _ g, checkExclusiveFlags g) () exclusive_groups in
      let! _ := if bool_decide (ToResolve c = "") && ListenMode c
                then checkMandatoryFlags ["cmd-id"; "seg-id"] else Ok () in
      let! _ := if bool_decide (ToResolve c = "") && negb (ListenMode c) && negb (MD5XORMode c)
                then checkMandatoryFlags ["host"; "port"] else Ok () in
      let! _ := parseDataPortRange (DataPortRange c) in
      validateCompressType (TransCompType c)
  end.
End validation.

(** [Config.Parse] on the flags and the remaining arguments: [None] stands for
    a run that ends after printing the usage or the version. *)
Definition Parse (args : list flag_arg) (NArg : list string) : go (option Config) :=
  if bool_decide (length args = 0 ∧ length NArg = 0) then Ok None
  else
    let! c := go_fold set_flag InitFlags args in
    if PrintVersion c then Ok None
    else let! _ := validate args NArg c in Ok (Some c).

(** What [Helper.Run] does with a valid configuration. *)
Inductive role := Resolve | MD5XOR | Listen | Client.
#[export] Instance role_eq : EqDecision role.
Proof. solve_decision. Defined.
Definition Run_role (c : Config) : role :=
  if bool_decide (ToResolve c ≠ "") then Resolve
  else if MD5XORMode c then MD5XOR
  else if ListenMode c then Listen
  else Client.

Inductive CompressType := CompressSnappy | CompressGzip | CompressZstd.
Definition getCompressionType (compType : string) : CompressType :=
  if bool_decide (compType = "snappy") then CompressSnappy
  else if bool_decide (compType = "zstd") then CompressZstd
  else if bool_decide (compType = "gzip") then CompressGzip
  else CompressZstd.

(** * Clients *)

(** A slice indexed by an [int]. *)
Definition indexZ {A} (l : list A) (i : Z) : go A :=
  if (i <? 0)%Z then Panic "index out of range" else index l (Z.to_nat i).

(** The index of a one-to-one client or server. *)
Definition seg_index (c : Config) : Z := if (0 <=? SegID c)%Z then SegID c else 0%Z.

Inductive client := ConcurrentClient | OneTimeClient.
#[export] Instance client_eq : EqDecision client.
Proof. solve_decision. Defined.
Definition createClientImpl (c : Config) : client :=
  if bool_decide (Direction c = DirectionModeReceive ∧ (NumDests c < Z.of_nat (length (Hosts c)))%Z ∧ (0 < NumDests c)%Z)
  then ConcurrentClient else OneTimeClient.

(** The loop of [ConcurrentClient.Run] that picks every [NumDests]-th address.
    Each round raises the index by at least one, so as many rounds as there
    are hosts are enough. *)
Fixpoint target_loop (fuel : nat) (c : Config) (i : Z) : go (list (string * string)) :=
  if (i <? Z.of_nat (length (Hosts c)))%Z then
    match fuel with
    | O => Panic "out of fuel"
    | S fuel' =>
        let! h := indexZ (Hosts c) i in
        let! p := indexZ (Ports c) i in
        let! rest := target_loop fuel' c (i + NumDests c) in
        Ok ((h, p) :: rest)
    end
  else Ok [].
Definition concurrent_targets (c : Config) : go (list (string * string)) :=
  target_loop (S (length (Hosts c))) c (SegID c).

(** The address [OneTimeClient.open] dials, if any. *)
Definition one_time_target (c : Config) : go (option (string * string)) :=
  let i := seg_index c in
  if (Z.of_nat (length (Hosts c)) <=? i)%Z then Ok None
  else
    let! h := indexZ (Hosts c) i in
    let! p := indexZ (Ports c) i in
    Ok (Some (h, p)).

(** The addresses a client connects to. *)
Definition dials (c : Config) : go (list (string * string)) :=
  match createClientImpl c with
  | ConcurrentClient => concurrent_targets c
  | OneTimeClient => let! t := one_time_target c in Ok (option_list t)
  end.

(** The text of the address: an address with a colon is put in brackets. *)
Definition dial_address (host port : string) : string :=
  (if Contains host ":" then "[" +:+ host +:+ "]" else host) +:+ ":" +:+ port.

(** The loop of [connect] and [open]: at most four attempts. *)
Fixpoint dial_loop {conn} (fuel times : nat) (dial : nat → go conn) (err : go conn) : go conn :=
  match fuel with
  | O => err
  | S fuel' =>
      if bool_decide (times < 5) then
        match dial times with
        | Ok c => Ok c
        | e => dial_loop fuel' (S times) dial e
        end
      else err
  end.
Definition connect {conn} (dial : nat → go conn) : go conn := dial_loop 5 1 dial (Panic "no attempt").

(** * Servers *)

(** The kind of server and the number of connections it serves. *)
Inductive server := ConcurrentServer (numConn : Z) | OneTimeServer.
Definition createServerImpl (c : Config) : go server :=
  let i := seg_index c in
  if bool_decide (0 < length (NumClients c)) && (i <? Z.of_nat (length (NumClients c)))%Z then
    let! n := indexZ (NumClients c) i in
    let nc := default 0%Z (Atoi n) in
    Ok (if (1 <? nc)%Z then ConcurrentServer (wrapu 32 (nc + 2 ^ 31) - 2 ^ 31)%Z else OneTimeServer)
  else Ok OneTimeServer.
Definition numConn (s : server) : Z :=
  match s with ConcurrentServer n => n | OneTimeServer => 1 end.

(** [ServerBase.Start]: the port. [net_Listen] tries to listen on an address
    and answers with the port it got. *)
Section start.
Context (net_Listen : string → go Z) (SetDeadline : go ()).

Fixpoint listen_range (fuel : nat) (i last : Z) (err : go Z) : go Z :=
  match fuel with
  | O => err
  | S fuel' =>
      if (i <=? last)%Z then
        match net_Listen (":" +:+ Itoa i) with
        | Ok p => Ok p
        | e => listen_range fuel' (i + 1) last e
        end
      else err
  end.

(** With a range [first-last], [last - first + 1] attempts. An empty range
    leaves [t.listener] nil and [err] nil: reading the address panics. *)
Definition listen (c : Config) : go Z :=
  let i := seg_index c in
  match DataPortRange c with
  | [first; last] =>
      match listen_range (Z.to_nat (last - first + 2)) first last (Panic "nil pointer") with
      | Err e => Err ("failed to listen on a free port[" +:+ Itoa first +:+ "-" +:+ Itoa last +:+ "]:" +:+ e +:+ chr NL)
      | m => m
      end
  | _ =>
      if bool_decide (length (Ports c) = 0) || (Z.of_nat (length (Ports c)) <? i + 1)%Z then
        match net_Listen ":0" with Err e => Err ("failed to listen on a free port:" +:+ e +:+ chr NL) | m => m end
      else
        let! p := indexZ (Ports c) i in
        match net_Listen (":" +:+ p) with Err e => Err ("failed to listen on port " +:+ p +:+ ":" +:+ e +:+ chr NL) | m => m end
  end.
Definition Start (c : Config) : go Z :=
  let! port := listen c in
  match SetDeadline with Err e => Err ("failed to set deadline:" +:+ e +:+ chr NL) | m => let! _ := m in Ok port end.
End start.

(** The line [writeFile] leaves for the port table. *)
Definition port_file_line (c : Config) (port : Z) : string :=
  CmdID c +:+ chr TAB +:+ Itoa (SegID c) +:+ chr TAB +:+ Itoa port +:+ chr NL.

(** [OneTimeServer.Serve]: the error left in the server. [accept], [close],
    [compress] and [redirect] are the calls on the listener, the compression
    and the stream. *)
Definition one_time_Serve {conn} (noCompression : bool) (accept : go conn) (close : go ())
    (compress : conn → go conn) (redirect : conn → go ()) : go (option string) :=
  let err := match accept with Err e => Some ("failed to accept: " +:+ e +:+ chr NL) | _ => None end in
  let err := match close with Err e => Some ("failed to close listener: " +:+ e +:+ chr NL) | _ => err end in
  match accept with
  | Ok netConn =>
      match (if noCompression then Ok netConn else compress netConn) with
      | Err _ => Ok err
      | Ok c => match redirect c with Err e => Ok (Some e) | Ok _ => Ok err | Fatal e => Fatal e | Panic e => Panic e end
      | Fatal e => Fatal e
      | Panic e => Panic e
      end
  | _ => Panic "nil pointer dereference"
  end.

(** * The life of a concurrent server *)

(** [sv_serving]: the accept loop runs; [sv_running]: connections being
    drained; [sv_closing]: connections whose loop has ended, before
    [increase]; [sv_drained]: the connections drained to their end. *)
Record server_state := {
  sv_serving : bool;
  sv_accepted : nat;
  sv_running : gset nat;
  sv_closing : nat;
  sv_finished : nat;
  sv_drained : list nat;
  sv_err : option string
}.
Definition server0 : server_state :=
  {| sv_serving := true; sv_accepted := 0; sv_running := ∅; sv_closing := 0; sv_finished := 0;
     sv_drained := []; sv_err := None |}.

Section server.
Context (numConn : nat).

(** The steps of [serve], of the goroutines of [handleConnection] and of their
    deferred [increase], in any interleaving. *)
Inductive server_step : server_state → server_state → Prop :=
| sv_accept a r c f d e : a < numConn →
    server_step {| sv_serving := true; sv_accepted := a; sv_running := r; sv_closing := c; sv_finished := f; sv_drained := d; sv_err := e |}
                {| sv_serving := true; sv_accepted := S a; sv_running := {[a]} ∪ r; sv_closing := c; sv_finished := f; sv_drained := d; sv_err := e |}
| sv_accept_fails a r c f d e msg : a < numConn →
    server_step {| sv_serving := true; sv_accepted := a; sv_running := r; sv_closing := c; sv_finished := f; sv_drained := d; sv_err := e |}
                {| sv_serving := false; sv_accepted := a; sv_running := r; sv_closing := c; sv_finished := f; sv_drained := d; sv_err := Some msg |}
| sv_all_accepted a r c f d e : numConn ≤ a →
    server_step {| sv_serving := true; sv_accepted := a; sv_running := r; sv_closing := c; sv_finished := f; sv_drained := d; sv_err := e |}
                {| sv_serving := false; sv_accepted := a; sv_running := r; sv_closing := c; sv_finished := f; sv_drained := d; sv_err := e |}
| sv_drain s a r c f d e i : i ∈ r →
    server_step {| sv_serving := s; sv_accepted := a; sv_running := r; sv_closing := c; sv_finished := f; sv_drained := d; sv_err := e |}
                {| sv_serving := s; sv_accepted := a; sv_running := r ∖ {[i]}; sv_closing := S c; sv_finished := f; sv_drained := d ++ [i]; sv_err := e |}
| sv_fail s a r c f d e i msg : i ∈ r →
    server_step {| sv_serving := s; sv_accepted := a; sv_running := r; sv_closing := c; sv_finished := f; sv_drained := d; sv_err := e |}
                {| sv_serving := s; sv_accepted := a; sv_running := r ∖ {[i]}; sv_closing := S c; sv_finished := f; sv_drained := d; sv_err := Some msg |}
| sv_increase s a r c f d e :
    server_step {| sv_serving := s; sv_accepted := a; sv_running := r; sv_closing := S c; sv_finished := f; sv_drained := d; sv_err := e |}
                {| sv_serving := s; sv_accepted := a; sv_running := r; sv_closing := c; sv_finished := S f; sv_drained := d; sv_err := e |}.

Definition isDone (st : server_state) : bool := bool_decide (sv_finished st = numConn).

(** [WaitForFinished] may return: an error is set or all are done. *)
Definition wait_over (st : server_state) : bool := bool_decide (is_Some (sv_err st)) || isDone st.

Record server_ok (st : server_state) : Prop := {
  sv_ok_accepted : sv_accepted st ≤ numConn;
  sv_ok_running : ∀ i, i ∈ sv_running st → i < sv_accepted st;
  sv_ok_once : NoDup (sv_drained st);
  sv_ok_drained : ∀ i, i ∈ sv_drained st → i < sv_accepted st ∧ i ∉ sv_running st;
  sv_ok_count : size (sv_running st) + sv_closing st + sv_finished st = sv_accepted st;
  sv_ok_clean : sv_err st = None → ∀ i, i < sv_accepted st → i ∈ sv_running st ∨ i ∈ sv_drained st
}.

Lemma server_ok_0 : server_ok server0.
Proof. split; simpl; try lia; try set_solver. constructor. Qed.

Lemma server_step_ok st st' : server_step st st' → server_ok st → server_ok st'.
Proof.
  intros Hs [Ha Hr Ho Hd Hc Hn]. destruct Hs; simpl in *.
  - assert (a ∉ r) by (intros Hin%Hr; lia). split; simpl.
    + lia.
    + intros i [->%elem_of_singleton|Hi%Hr]%elem_of_union; lia.
    + done.
    + intros i [? ?]%Hd. split; [lia|]. rewrite not_elem_of_union, not_elem_of_singleton. split; [lia|done].
    + rewrite size_union by set_solver. rewrite size_singleton. lia.
    + intros He i Hi. rewrite elem_of_union, elem_of_singleton.
      destruct (decide (i = a)); [tauto|]. destruct (Hn He i); [lia|tauto|tauto].
  - split; simpl; try done.
  - split; simpl; done.
  - assert (Hsz : size r = S (size (r ∖ {[i]}))).
    { rewrite (union_difference_singleton_L i r) at 1 by done. rewrite size_union by set_solver. by rewrite size_singleton. }
    split; simpl; try done.
    + intros j [Hj%Hr _]%elem_of_difference. done.
    + apply NoDup_app. split_and!; [done| |apply NoDup_singleton].
      intros j Hj ->%list_elem_of_singleton. by apply Hd in Hj as [_ ?].
    + intros j [Hj| ->%list_elem_of_singleton]%elem_of_app; [apply Hd in Hj as [? ?]; split; [done|set_solver]|].
      split; [by apply Hr|set_solver].
    + lia.
    + intros He j Hj. rewrite elem_of_difference, elem_of_app, elem_of_singleton, list_elem_of_singleton.
      destruct (decide (j = i)); [tauto|]. destruct (Hn He j Hj); tauto.
  - assert (Hsz : size r = S (size (r ∖ {[i]}))).
    { rewrite (union_difference_singleton_L i r) at 1 by done. rewrite size_union by set_solver. by rewrite size_singleton. }
    split; simpl; try done.
    + intros j [Hj%Hr _]%elem_of_difference. done.
    + intros j [? ?]%Hd. split; [done|set_solver].
    + lia.
  - split; simpl; try done. lia.
Qed.

(** When a concurrent server reports success, that is [WaitForFinished] has
    returned and no error is set, every expected client has connected and its
    stream was drained to the end, once each, however the connections
    interleave and whenever accepting fails. *)
Theorem server_success_complete (st : server_state)
    (Hrun : rtc server_step server0 st) (Hwait : wait_over st = true) (Herr : sv_err st = None) :
  sv_drained st ≡ₚ seq 0 numConn ∧ sv_running st = ∅.
Proof.
  assert (Hok : server_ok st).
  { clear Hwait Herr. pose proof server_ok_0 as H0. revert H0. induction Hrun as [|st1 st2 st3 Hstep _ IH]; [done|].
    intros Hok. apply IH. by eapply server_step_ok. }
  unfold wait_over in Hwait. rewrite Herr in Hwait. rewrite bool_decide_false in Hwait by (by intros []).
  unfold isDone in Hwait. simpl in Hwait. apply bool_decide_eq_true in Hwait.
  destruct Hok as [Ha Hr Ho Hd Hc Hn].
  assert (Hacc : sv_accepted st = numConn) by lia.
  assert (Hempty : sv_running st = ∅) by (apply leibniz_equiv, size_empty_inv; lia).
  split; [|done]. apply NoDup_Permutation; [done|apply NoDup_seq|]. intros i.
  rewrite (list_elem_of_In (seq 0 numConn) i), in_seq. split.
  - intros Hi%Hd. lia.
  - intros Hi. destruct (Hn Herr i) as [Hin|Hin]; [lia| |done]. rewrite Hempty in Hin. by apply elem_of_empty in Hin.
Qed.
End server.

(** Two clients, drained one after the other. *)
Definition two_drained : server_state :=
  {| sv_serving := false; sv_accepted := 2; sv_running := ∅; sv_closing := 0; sv_finished := 2;
     sv_drained := [0; 1]; sv_err := None |}.
Lemma two_drained_reachable : rtc (server_step 2) server0 two_drained.
Proof.
  eapply rtc_l; [apply sv_accept; lia|]. eapply rtc_l; [apply (sv_drain _ _ _ _ _ _ _ _ 0); set_solver|].
  eapply rtc_l; [apply sv_accept; lia|]. eapply rtc_l; [apply sv_all_accepted; lia|].
  eapply rtc_l; [apply (sv_drain _ _ _ _ _ _ _ _ 1); set_solver|].
  eapply rtc_l; [apply sv_increase|]. eapply rtc_l; [apply sv_increase|].
  replace (({[1]} ∪ ({[0]} ∪ ∅) ∖ {[0]}) ∖ {[1]} : gset nat) with (∅ : gset nat) by set_solver.
  apply rtc_refl.
Qed.
Lemma server_success_complete_witness : sv_drained two_drained ≡ₚ seq 0 2 ∧ sv_running two_drained = ∅.
Proof.
  apply (server_success_complete 2); [apply two_drained_reachable|reflexivity|reflexivity].
Defined.
