(* ===== verification/CopyCommand.v ===== *)
(** The copy strategies ([copy/copy_command.go]) and the ports of the helpers
    ([copy/copy_port_helper.go]): which helper connects to which, with how many
    clients, and the commands that start them. *)
From S2P Require Import Prelude Utils Options Validator Version Helper.

(** * Data *)

Record SegmentHostInfo := { seg_Content : Z; Hostname : string }.
Record HelperPortInfo := { hp_Content : Z; Port : Z }.
#[export] Instance HelperPortInfo_eq : EqDecision HelperPortInfo.
Proof. solve_decision. Defined.

Record CopyBase := {
  WorkerId : nat;
  SrcSegmentsHostInfo : list SegmentHostInfo;
  DestSegmentsHostInfo : list SegmentHostInfo;
  ConnectionMode : string;
  CompArg : string
}.

(** The four implementations of the interface [CopyCommand]. *)
Inductive strategy := CopyOnMaster | CopyOnSegment | ExtDestGeCopy | ExtDestLtCopy.
#[export] Instance strategy_eq : EqDecision strategy.
Proof. solve_decision. Defined.
Record CopyCommand := { cmd_strategy : strategy; cmd_base : CopyBase }.

(** * Ports of the helpers *)

Section ports.
Context `{MapRange}.

Definition processPortList (hpis : list HelperPortInfo) : list HelperPortInfo :=
  let segMap : gmap Z Z :=
    foldl (λ segMap segPort, match segMap !! hp_Content segPort with
                             | Some _ => segMap
                             | None => <[hp_Content segPort := Port segPort]> segMap
                             end) ∅ hpis in
  let keys := merge_sort Z.le (range_map 99 segMap).*1 in
  (λ k, {| hp_Content := k; Port := default 0%Z (segMap !! k) |}) <$> keys.

(** [GetHelperPortList] on the rows of the port table of this command. *)
Definition GetHelperPortList (rows : go (list HelperPortInfo)) : go (list HelperPortInfo) :=
  let! hpis := rows in
  if bool_decide (length hpis = 0) then Ok hpis else Ok (processPortList hpis).
End ports.

(** * Addresses *)

Section addresses.
Context `{FlagSet F} (CmdFlags : F) (cc : CopyBase).
Implicit Types ports : list HelperPortInfo.

Definition is_push : bool := bool_decide (ConnectionMode cc = ConnectionModePush).
Definition is_pull : bool := bool_decide (ConnectionMode cc = ConnectionModePull).

Definition FormMasterHelperAddress (ports : list HelperPortInfo) : go (string * string) :=
  let! ip := if is_push then MustGetFlagString CmdFlags DEST_HOST else MustGetFlagString CmdFlags SOURCE_HOST in
  let! p := index ports 0 in
  Ok (Itoa (Port p), ip).

Definition FormAllSegsHelperAddress (ports : list HelperPortInfo) : go (string * string) :=
  let connectTargetSegments := if is_push then DestSegmentsHostInfo cc else SrcSegmentsHostInfo cc in
  let ps := (λ p, Itoa (Port p)) <$> ports in
  let! ips := go_map (λ i, let! s := index connectTargetSegments i in Ok (Hostname s)) (seq 0 (length ps)) in
  Ok (Join ps ",", Join ips ",").

(** The loop of [FormDestSegsHelperAddress]: [n] source segments to go, the
    next one goes to destination segment [j]. *)
Fixpoint dest_loop (ports : list HelperPortInfo) (n j : nat) : go (list string * list string) :=
  match n with
  | O => Ok ([], [])
  | S n' =>
      let! p := index ports j in
      let! s := index (DestSegmentsHostInfo cc) j in
      let j' := S j in
      let! (ps, ips) := dest_loop ports n' (if bool_decide (j' = length (DestSegmentsHostInfo cc)) then 0 else j') in
      Ok (Itoa (Port p) :: ps, Hostname s :: ips)
  end.
Definition FormDestSegsHelperAddress (ports : list HelperPortInfo) : go (string * string) :=
  let! (ps, ips) := dest_loop ports (length (SrcSegmentsHostInfo cc)) 0 in
  Ok (Join ps ",", Join ips ",").

Definition FormSrcSegsHelperAddress (ports : list HelperPortInfo) : go (string * string) :=
  let! pis := go_map (λ i, let! p := index ports i in
                           let! s := index (SrcSegmentsHostInfo cc) i in
                           Ok (Itoa (Port p), Hostname s)) (seq 0 (length (SrcSegmentsHostInfo cc))) in
  Ok (Join pis.*1 ",", Join pis.*2 ",").

Definition FormAllSegsIds : string :=
  Join ((λ h, Itoa (seg_Content h)) <$> SrcSegmentsHostInfo cc) " ".

(** The loop of [formClientNumbers]. *)
Fixpoint client_loop (n j : nat) (segMap : gmap Z Z) : go (gmap Z Z) :=
  match n with
  | O => Ok segMap
  | S n' =>
      let! s := index (DestSegmentsHostInfo cc) j in
      let contentId := seg_Content s in
      let segMap' := match segMap !! contentId with
                     | None => <[contentId := 1%Z]> segMap
                     | Some clientNumber => <[contentId := (clientNumber + 1)%Z]> segMap
                     end in
      let j' := S j in
      client_loop n' (if bool_decide (j' = length (DestSegmentsHostInfo cc)) then 0 else j') segMap'
  end.
Definition formClientNumbers `{MapRange} : go string :=
  let! segMap := client_loop (length (SrcSegmentsHostInfo cc)) 0 ∅ in
  let keys := merge_sort Z.le (range_map 394 segMap).*1 in
  Ok (Join ((λ k, Itoa (default 0%Z (segMap !! k))) <$> keys) ",").
End addresses.

(** * Commands *)

Section commands.
Context `{MapRange} `{FlagSet F} (CmdFlags : F).
Implicit Types (cmd : CopyCommand) (table : Table).

(** The listening side of a strategy's [COPY]; the segment strategies and the
    one on the master order their flags differently. *)
Definition copy_to_listen (onSegment : bool) (b : CopyBase) (table : Table) (cmdId : string) : go string :=
  let! dataPortRange := MustGetFlagString CmdFlags DATA_PORT_RANGE in
  Ok (if onSegment then
    cat ["COPY "; Schema table; "."; Name table; " TO PROGRAM 'cbcopy_helper "; CompArg b; " --listen --cmd-id "; cmdId;
         " --seg-id <SEGID> --data-port-range "; dataPortRange; " --direction send' ON SEGMENT CSV IGNORE EXTERNAL PARTITIONS"]
  else
    cat ["COPY "; Schema table; "."; Name table; " TO PROGRAM 'cbcopy_helper "; CompArg b; " --listen --seg-id -1 --cmd-id "; cmdId;
         " --data-port-range "; dataPortRange; " --direction send' CSV IGNORE EXTERNAL PARTITIONS"]).

Definition copy_to_dial (b : CopyBase) (table : Table) (ip port : string) : string :=
  cat ["COPY "; Schema table; "."; Name table; " TO PROGRAM 'cbcopy_helper "; CompArg b; " --seg-id <SEGID> --host "; ip;
       " --port "; port; " --direction send' ON SEGMENT CSV IGNORE EXTERNAL PARTITIONS"].

(** The query of [CopyTo] of each strategy. *)
Definition CopyOnMaster_formatCopyToCommand (b : CopyBase) (table : Table) (ports : list HelperPortInfo) (cmdId : string) : go string :=
  if is_pull b then copy_to_listen false b table cmdId
  else
    let! (port, ip) := FormMasterHelperAddress CmdFlags b ports in
    Ok (cat ["COPY "; Schema table; "."; Name table; " TO PROGRAM 'cbcopy_helper "; CompArg b; " --seg-id -1 --host "; ip;
             " --port "; port; " --direction send' CSV IGNORE EXTERNAL PARTITIONS"]).
Definition CopyOnSegment_CopyTo (b : CopyBase) (table : Table) (ports : list HelperPortInfo) (cmdId : string) : go string :=
  if is_pull b then copy_to_listen true b table cmdId
  else let! (port, ip) := FormAllSegsHelperAddress b ports in Ok (copy_to_dial b table ip port).
Definition ExtDestGeCopy_CopyTo (b : CopyBase) (table : Table) (ports : list HelperPortInfo) (cmdId : string) : go string :=
  if is_pull b then copy_to_listen true b table cmdId
  else let! (port, ip) := FormAllSegsHelperAddress b ports in Ok (copy_to_dial b table ip port).
Definition ExtDestLtCopy_CopyTo (b : CopyBase) (table : Table) (ports : list HelperPortInfo) (cmdId : string) : go string :=
  if is_pull b then copy_to_listen true b table cmdId
  else let! (port, ip) := FormDestSegsHelperAddress b ports in Ok (copy_to_dial b table ip port).
Definition CopyTo_query (cmd : CopyCommand) (table : Table) (ports : list HelperPortInfo) (cmdId : string) : go string :=
  let b := cmd_base cmd in
  match cmd_strategy cmd with
  | CopyOnMaster => CopyOnMaster_formatCopyToCommand b table ports cmdId
  | CopyOnSegment => CopyOnSegment_CopyTo b table ports cmdId
  | ExtDestGeCopy => ExtDestGeCopy_CopyTo b table ports cmdId
  | ExtDestLtCopy => ExtDestLtCopy_CopyTo b table ports cmdId
  end.

(** The shell text that leaves segments without a source to themselves. *)
Definition match_script (ids : string) : string :=
  cat ["MATCHED="; chr DQ; "0"; chr DQ; "; SRC_SEG_IDS_STR="; chr DQ; ids; chr DQ;
       "; for cur_id in $SRC_SEG_IDS_STR; do if [ "; chr DQ; "$cur_id"; chr DQ; " = "; chr DQ; "$GP_SEGMENT_ID"; chr DQ;
       " ]; then MATCHED="; chr DQ; "1"; chr DQ; "; break; fi; done; [ "; chr DQ; "$MATCHED"; chr DQ; " != "; chr DQ; "1"; chr DQ;
       " ] && exit 0 || "].

Definition external_table (extTabName : string) (table : Table) (program : string) : string :=
  cat ["CREATE EXTERNAL WEB TEMP TABLE "; extTabName; " (like "; Schema table; "."; Name table; ") EXECUTE '"; program;
       "' FORMAT 'csv'"].

(** The first query of [CopyFrom] of each strategy: the [COPY] itself, or the
    external table the rows are then selected from. *)
Definition CopyOnMaster_formatCopyFromCommand (b : CopyBase) (table : Table) (ports : list HelperPortInfo) (cmdId : string) : go string :=
  if is_pull b then
    let! (port, ip) := FormMasterHelperAddress CmdFlags b ports in
    Ok (cat ["COPY "; Schema table; "."; Name table; " FROM PROGRAM 'cbcopy_helper "; CompArg b; " --seg-id -1 --host "; ip;
             " --port "; port; " --direction receive' CSV"])
  else
    let! dataPortRange := MustGetFlagString CmdFlags DATA_PORT_RANGE in
    Ok (cat ["COPY "; Schema table; "."; Name table; " FROM PROGRAM 'cbcopy_helper "; CompArg b; " --listen --seg-id -1 --cmd-id ";
             cmdId; " --data-port-range "; dataPortRange; " --direction receive' CSV"]).
Definition CopyOnSegment_CopyFrom (b : CopyBase) (table : Table) (ports : list HelperPortInfo) (cmdId : string) : go string :=
  if is_pull b then
    let! (port, ip) := FormAllSegsHelperAddress b ports in
    Ok (cat ["COPY "; Schema table; "."; Name table; " FROM PROGRAM 'cbcopy_helper "; CompArg b; " --seg-id <SEGID> --host "; ip;
             " --port "; port; " --direction receive' ON SEGMENT CSV"])
  else
    let! dataPortRange := MustGetFlagString CmdFlags DATA_PORT_RANGE in
    Ok (cat ["COPY "; Schema table; "."; Name table; " FROM PROGRAM 'cbcopy_helper "; CompArg b;
             " --listen --seg-id <SEGID> --cmd-id "; cmdId; " --data-port-range "; dataPortRange;
             " --direction receive' ON SEGMENT CSV"]).
Definition ExtDestGeCopy_CopyFrom (b : CopyBase) (table : Table) (ports : list HelperPortInfo) (cmdId extTabName : string) : go string :=
  let ids := FormAllSegsIds b in
  if is_pull b then
    let! (port, ip) := FormAllSegsHelperAddress b ports in
    Ok (external_table extTabName table (cat [match_script ids; "cbcopy_helper "; CompArg b;
          " --seg-id $GP_SEGMENT_ID --host "; ip; " --port "; port; " --direction receive"]))
  else
    let! dataPortRange := MustGetFlagString CmdFlags DATA_PORT_RANGE in
    Ok (external_table extTabName table (cat [match_script ids; "cbcopy_helper "; CompArg b;
          " --listen --seg-id $GP_SEGMENT_ID --cmd-id "; cmdId; " --data-port-range "; dataPortRange; " --direction receive"])).
Definition ExtDestLtCopy_CopyFrom (b : CopyBase) (table : Table) (ports : list HelperPortInfo) (cmdId extTabName : string) : go string :=
  if is_pull b then
    let! (port, ip) := FormSrcSegsHelperAddress b ports in
    let numDests := length (DestSegmentsHostInfo b) in
    Ok (external_table extTabName table (cat ["cbcopy_helper "; CompArg b; " --seg-id $GP_SEGMENT_ID --host "; ip;
          " --port "; port; " --num-dests "; Itoa (Z.of_nat numDests); " --direction receive"]))
  else
    let! dataPortRange := MustGetFlagString CmdFlags DATA_PORT_RANGE in
    let! clientNumbers := formClientNumbers b in
    Ok (external_table extTabName table (cat ["cbcopy_helper "; CompArg b; " --listen --seg-id $GP_SEGMENT_ID --cmd-id "; cmdId;
          " --client-numbers "; clientNumbers; " --data-port-range "; dataPortRange; " --direction receive"])).
Definition CopyFrom_query (cmd : CopyCommand) (table : Table) (ports : list HelperPortInfo)
    (cmdId extTabName : string) : go string :=
  let b := cmd_base cmd in
  match cmd_strategy cmd with
  | CopyOnMaster => CopyOnMaster_formatCopyFromCommand b table ports cmdId
  | CopyOnSegment => CopyOnSegment_CopyFrom b table ports cmdId
  | ExtDestGeCopy => ExtDestGeCopy_CopyFrom b table ports cmdId extTabName
  | ExtDestLtCopy => ExtDestLtCopy_CopyFrom b table ports cmdId extTabName
  end.

Definition insert_query (table : Table) (extTabName : string) : string :=
  cat ["INSERT INTO "; Schema table; "."; Name table; " SELECT * FROM "; extTabName].
Definition drop_query (extTabName : string) : string := cat ["DROP EXTERNAL TABLE "; extTabName].

Definition IsMasterCopy (cmd : CopyCommand) : bool := bool_decide (cmd_strategy cmd = CopyOnMaster).

Definition IsCopyFromStarted (cmd : CopyCommand) (rows : nat) : bool :=
  let b := cmd_base cmd in
  match cmd_strategy cmd with
  | CopyOnMaster => bool_decide (rows = 1)
  | CopyOnSegment | ExtDestGeCopy => bool_decide (rows = length (SrcSegmentsHostInfo b))
  | ExtDestLtCopy =>
      if is_pull b then bool_decide (rows = length (SrcSegmentsHostInfo b))
      else bool_decide (rows = length (DestSegmentsHostInfo b))
  end.

(** * Choice of the strategy *)

Definition getCompressArg (isMasterStrategy useCompression : bool) : go string :=
  if negb useCompression then Ok "--no-compression"
  else if isMasterStrategy then Ok "--compress-type snappy"
  else
    let! compressType := MustGetFlagString CmdFlags COMPRESS_TYPE in
    Ok (if bool_decide (compressType = CompressTypeGzip) then "--compress-type gzip"
        else if bool_decide (compressType = CompressTypeSnappy) then "--compress-type snappy"
        else "--compress-type zstd").

Definition new_command (s : strategy) (workerId : nat) (srcSegs destSegs : list SegmentHostInfo)
    (connectionMode compArg : string) : CopyCommand :=
  {| cmd_strategy := s;
     cmd_base := {| WorkerId := workerId; SrcSegmentsHostInfo := srcSegs; DestSegmentsHostInfo := destSegs;
                    ConnectionMode := connectionMode; CompArg := compArg |} |}.

Definition createTestCopyStrategy (strategy : string) (workerId : nat) (srcSegs destSegs : list SegmentHostInfo)
    (connectionMode : string) (useCompression : bool) : go CopyCommand :=
  let! compArg := getCompressArg (bool_decide (strategy = "CopyOnMaster")) useCompression in
  let s := if bool_decide (strategy = "CopyOnMaster") then CopyOnMaster
           else if bool_decide (strategy = "CopyOnSegment") then CopyOnSegment
           else if bool_decide (strategy = "ExtDestGeCopy") then ExtDestGeCopy
           else ExtDestLtCopy in
  Ok (new_command s workerId srcSegs destSegs connectionMode compArg).

(** [testStrategy] is the environment variable [TEST_COPY_STRATEGY]. *)
Definition CreateCopyStrategy (testStrategy : string) (isReplicated : bool) (numTuples : Z) (workerId : nat)
    (srcSegs destSegs : list SegmentHostInfo) (srcVersion destVersion : GPDBVersion)
    (connectionMode : string) : go CopyCommand :=
  let! compression := MustGetFlagBool CmdFlags COMPRESSION in
  let useCompression := compression || Changed CmdFlags COMPRESS_TYPE in
  if isReplicated then
    let! compArg := getCompressArg true useCompression in
    Ok (new_command CopyOnMaster workerId srcSegs destSegs connectionMode compArg)
  else if bool_decide (testStrategy ≠ "") then
    createTestCopyStrategy testStrategy workerId srcSegs destSegs connectionMode useCompression
  else
    let! threshold := MustGetFlagInt CmdFlags ON_SEGMENT_THRESHOLD in
    if (numTuples <=? threshold)%Z then
      let! compArg := getCompressArg true useCompression in
      Ok (new_command CopyOnMaster workerId srcSegs destSegs connectionMode compArg)
    else
      let numSrcSegs := length srcSegs in
      let numDestSegs := length destSegs in
      let! compArg := getCompressArg false useCompression in
      if version_Equals srcVersion destVersion && bool_decide (numSrcSegs = numDestSegs) then
        Ok (new_command CopyOnSegment workerId srcSegs destSegs connectionMode compArg)
      else if bool_decide (numSrcSegs ≤ numDestSegs) then
        Ok (new_command ExtDestGeCopy workerId srcSegs destSegs connectionMode compArg)
      else Ok (new_command ExtDestLtCopy workerId srcSegs destSegs connectionMode compArg).
End commands.

(** * Theorems *)

Section port_theorems.
Context `{MapRange}.

Definition add_port (segMap : gmap Z Z) (segPort : HelperPortInfo) : gmap Z Z :=
  match segMap !! hp_Content segPort with
  | Some _ => segMap
  | None => <[hp_Content segPort := Port segPort]> segMap
  end.

(** The map holds the first port reported for each segment. *)
Lemma add_ports_lookup hpis m c p : foldl add_port m hpis !! c = Some p ↔
  m !! c = Some p ∨ m !! c = None ∧ ∃ pre post, hpis = pre ++ {| hp_Content := c; Port := p |} :: post ∧
    c ∉ hp_Content <$> pre.
Proof.
  revert m. induction hpis as [|h hpis IH]; intros m; cbn [foldl].
  { split; [tauto|]. intros [?|(_ & pre & post & Heq & _)]; [done|]. by destruct pre. }
  rewrite IH. unfold add_port. destruct (m !! hp_Content h) as [p0|] eqn:Hm.
  - split; (intros [?|(Hn & pre & post & Heq & Hpre)]; [by left|right]; split; [done|]).
    + exists (h :: pre), post. rewrite Heq. split; [done|]. rewrite fmap_cons, not_elem_of_cons. split; [|done].
      intros ->. congruence.
    + destruct pre as [|h' pre]; [injection Heq as -> _; simpl in *; congruence|]. injection Heq as -> ->.
      rewrite fmap_cons, not_elem_of_cons in Hpre. exists pre, post. tauto.
  - destruct (decide (c = hp_Content h)) as [->|Hne].
    + rewrite lookup_insert_eq. split.
      * intros [[= <-]|[? _]]; [|done]. right. split; [done|]. exists [], hpis. split; [by destruct h|]. apply not_elem_of_nil.
      * intros [?|(_ & pre & post & Heq & Hpre)]; [congruence|]. left. destruct pre as [|h' pre].
        -- by injection Heq as -> _.
        -- injection Heq as -> _. rewrite fmap_cons, not_elem_of_cons in Hpre. tauto.
    + rewrite lookup_insert_ne by done. split; (intros [?|(Hn & pre & post & Heq & Hpre)]; [by left|right]; split; [done|]).
      * exists (h :: pre), post. rewrite Heq. split; [done|]. rewrite fmap_cons, not_elem_of_cons. tauto.
      * destruct pre as [|h' pre]; [by injection Heq as -> _|]. injection Heq as -> ->.
        rewrite fmap_cons, not_elem_of_cons in Hpre. exists pre, post. tauto.
Qed.

(** The ports handed to a strategy are sorted by segment, one per segment,
    and the port of a segment is the first one reported for it, whatever
    order the map is visited in. *)
Theorem processPortList_sorted (hpis : list HelperPortInfo) :
  StronglySorted Z.lt (hp_Content <$> processPortList hpis) ∧
  (∀ c p, {| hp_Content := c; Port := p |} ∈ processPortList hpis ↔
     ∃ pre post, hpis = pre ++ {| hp_Content := c; Port := p |} :: post ∧ c ∉ hp_Content <$> pre).
Proof.
  unfold processPortList. fold add_port. set (m := foldl add_port ∅ hpis).
  set (keys := merge_sort Z.le (range_map 99 m).*1).
  assert (Hkeys : ∀ k, k ∈ keys ↔ is_Some (m !! k)).
  { intros k. unfold keys. rewrite merge_sort_Permutation, list_elem_of_fmap. split.
    - intros ([k' v] & -> & Hin%elem_of_range_map). by exists v.
    - intros [v Hv]. exists (k, v). split; [done|by apply elem_of_range_map]. }
  split.
  - rewrite <- list_fmap_compose. replace (_ <$> keys) with keys by (symmetry; apply list_fmap_id).
    assert (Hsorted : StronglySorted Z.le keys) by (apply StronglySorted_merge_sort; apply _).
    assert (Hnd : NoDup keys) by (unfold keys; rewrite merge_sort_Permutation; apply NoDup_range_map).
    clear Hkeys. induction Hsorted as [|k keys' Hs IH Hall]; [constructor|]. apply NoDup_cons in Hnd as [Hk Hnd].
    constructor; [by apply IH|]. rewrite Forall_forall in Hall |- *. intros k' Hk'. specialize (Hall k' Hk').
    assert (k ≠ k') by (intros ->; done). lia.
  - intros c p. transitivity (m !! c = Some p).
    + rewrite list_elem_of_fmap. split.
      * intros (k & [= -> ->] & [v Hv]%Hkeys). by rewrite Hv.
      * intros Hc. exists c. split; [by rewrite Hc|]. apply Hkeys. by exists p.
    + unfold m. rewrite add_ports_lookup, lookup_empty. naive_solver.
Qed.
End port_theorems.

Lemma getCompressArg_spec {F} `{FlagSet F} (CmdFlags : F) m u compressType :
  GetString CmdFlags COMPRESS_TYPE = Ok compressType →
  ∃ s, getCompressArg CmdFlags m u = Ok s ∧ (s = "--no-compression" ↔ u = false) ∧
    (m = true → s = "--no-compression" ∨ s = "--compress-type snappy").
Proof.
  intros Htype. unfold getCompressArg, MustGetFlagString. rewrite Htype.
  destruct u, m; cbn [negb FatalOnError mbind go_bind]; eexists; (split; [reflexivity|]); split; try naive_solver.
  repeat case_bool_decide; naive_solver.
Qed.

(** Without the test override the strategy is chosen by the size of the
    table and the two clusters, and fits them: on the master for a replicated
    or small table; segment by segment only between equal versions and equally
    many segments; otherwise by whether the destination has at least as many
    segments as the source. *)
Theorem CreateCopyStrategy_fits {F} `{FlagSet F} (CmdFlags : F) (isReplicated : bool) (numTuples : Z) (workerId : nat)
    (srcSegs destSegs : list SegmentHostInfo) (srcVersion destVersion : GPDBVersion) (mode : string)
    (compression : bool) (threshold : Z) (compressType : string)
    (Hcompression : GetBool CmdFlags COMPRESSION = Ok compression)
    (Hthreshold : GetInt CmdFlags ON_SEGMENT_THRESHOLD = Ok threshold)
    (Htype : GetString CmdFlags COMPRESS_TYPE = Ok compressType) :
  ∃ s compArg, CreateCopyStrategy CmdFlags "" isReplicated numTuples workerId srcSegs destSegs srcVersion destVersion mode =
    Ok (new_command s workerId srcSegs destSegs mode compArg) ∧
    (s = CopyOnMaster ↔ isReplicated = true ∨ (numTuples ≤ threshold)%Z) ∧
    (s = CopyOnSegment → version_Equals srcVersion destVersion = true ∧ length srcSegs = length destSegs) ∧
    (s = ExtDestGeCopy → length srcSegs ≤ length destSegs) ∧
    (s = ExtDestLtCopy ↔ isReplicated = false ∧ (threshold < numTuples)%Z ∧ length destSegs < length srcSegs) ∧
    (compArg = "--no-compression" ↔ compression = false ∧ Changed CmdFlags COMPRESS_TYPE = false) ∧
    (s = CopyOnMaster → compArg = "--no-compression" ∨ compArg = "--compress-type snappy").
Proof.
  set (use := compression || Changed CmdFlags COMPRESS_TYPE).
  assert (Hoff : use = false ↔ compression = false ∧ Changed CmdFlags COMPRESS_TYPE = false) by apply orb_false_iff.
  destruct (getCompressArg_spec CmdFlags true use compressType Htype) as (ca1 & Hca1 & Hno1 & Hm1).
  destruct (getCompressArg_spec CmdFlags false use compressType Htype) as (ca2 & Hca2 & Hno2 & _).
  unfold CreateCopyStrategy, MustGetFlagBool, MustGetFlagInt. rewrite Hcompression, Hthreshold.
  cbn [FatalOnError mbind go_bind]. fold use. rewrite Hca1, Hca2, (bool_decide_false ("" ≠ "")) by (intros Hne; by apply Hne).
  cbn [mbind go_bind].
  destruct isReplicated; [|destruct (Z.leb_spec numTuples threshold)].
  - exists CopyOnMaster, ca1. split; [done|]. rewrite <- Hoff. split_and!; naive_solver.
  - exists CopyOnMaster, ca1. split; [done|]. rewrite <- Hoff. split_and!; (naive_solver lia).
  - destruct (version_Equals srcVersion destVersion && bool_decide (length srcSegs = length destSegs)) eqn:Hv.
    + apply andb_true_iff in Hv as [Hv1 Hv2%bool_decide_eq_true].
      exists CopyOnSegment, ca2. split; [done|]. rewrite <- Hoff. split_and!; (naive_solver lia).
    + destruct (bool_decide_reflect (length srcSegs ≤ length destSegs)).
      * exists ExtDestGeCopy, ca2. split; [done|]. rewrite <- Hoff. split_and!; (naive_solver lia).
      * exists ExtDestLtCopy, ca2. split; [done|]. rewrite <- Hoff. split_and!; (naive_solver lia).
Qed.

Definition plain_flags : flag_map := the_flags (parse_args []).
Lemma CreateCopyStrategy_fits_witness :
  let v := {| VersionString := ""; SemVer := semver0; Type_ := CBDB |} in
  let seg i := {| seg_Content := i; Hostname := "h" |} in
  ∃ s compArg, CreateCopyStrategy plain_flags "" false 2000000 0 [seg 0; seg 1]%Z [seg 0]%Z v v "push" =
    Ok (new_command s 0 [seg 0; seg 1]%Z [seg 0]%Z "push" compArg) ∧
    (s = CopyOnMaster ↔ false = true ∨ (2000000 ≤ 1000000)%Z) ∧
    (s = CopyOnSegment → version_Equals v v = true ∧ 2 = 1) ∧
    (s = ExtDestGeCopy → 2 ≤ 1) ∧
    (s = ExtDestLtCopy ↔ false = false ∧ (1000000 < 2000000)%Z ∧ 1 < 2) ∧
    (compArg = "--no-compression" ↔ false = false ∧ Changed plain_flags COMPRESS_TYPE = false) ∧
    (s = CopyOnMaster → compArg = "--no-compression" ∨ compArg = "--compress-type snappy").
Proof.
  intros v seg. eapply (CreateCopyStrategy_fits plain_flags false 2000000 0 [seg 0; seg 1]%Z [seg 0]%Z v v "push" false 1000000);
    vm_compute; reflexivity.
Defined.
