(* ===== verification/Shell.v ===== *)
(** What becomes of a printed command: the literal of the query that holds the
    program, the number of the segment, the words the shell makes of it, and the
    flags of the helper. No code of [src/]: this is how the server, the shell and
    [pflag] read what [CopyCommand] prints. A text they might read in another way
    is [Misread]. *)
From S2P Require Import Prelude Utils Options Validator Version Helper CopyCommand.

Definition SPACE : ascii := byte 32.

(** * The text of the program in a query *)

(** From behind the opening quote; a doubled quote is one quote. *)
Fixpoint literal (s : string) : string :=
  match s with
  | EmptyString => EmptyString
  | String c s' =>
      if bool_decide (c = SQ) then
        match s' with
        | String d s'' => if bool_decide (d = SQ) then String SQ (literal s'') else EmptyString
        | EmptyString => EmptyString
        end
      else String c (literal s')
  end.
(** The first literal; a quote inside a quoted identifier opens none. *)
Fixpoint program_of (in_identifier : bool) (s : string) : option string :=
  match s with
  | EmptyString => None
  | String c s' =>
      if bool_decide (c = DQ) then program_of (negb in_identifier) s'
      else if bool_decide (c = SQ) && negb in_identifier then Some (literal s')
      else program_of in_identifier s'
  end.
(** What is behind a prefix. *)
Fixpoint strip (p s : string) : option string :=
  match p, s with
  | EmptyString, _ => Some s
  | String c p, String d s => if bool_decide (c = d) then strip p s else None
  | String _ _, EmptyString => None
  end.
(** The server replaces the first in a [COPY ... ON SEGMENT]; the second is a
    variable in the environment of the program of an external table. *)
Definition placeholder (query : string) : string :=
  match strip "COPY " query with Some _ => "<SEGID>" | None => "$GP_SEGMENT_ID" end.

(** * The shell *)

(** Characters without a meaning of their own. *)
Definition plain_char (c : ascii) : bool :=
  let n := nat_of_ascii c in
  ((48 <=? n) && (n <=? 57) || (65 <=? n) && (n <=? 90) || (97 <=? n) && (n <=? 122) ||
   existsb (Nat.eqb n) [43; 44; 45; 46; 58; 95])%nat.
Definition plain_word (w : string) : bool := negb (bool_decide (w = "")) && forallb plain_char (bytes w).
(** The words of a simple command. *)
Definition words (ph : string) (seg : string) (text : string) : option (list string) :=
  let ws := Split text SPACE in
  if forallb (λ w, bool_decide (w = ph) || plain_word w) ws
  then Some ((λ w, if bool_decide (w = ph) then seg else w) <$> ws) else None.

(** * The flags *)

(** Switches take no value of their own. *)
Definition switch (name : string) : bool :=
  bool_decide (name ∈ ["listen"; "no-compression"; "md5xor"; "version"]).
Fixpoint flags_of (ws : list string) : option (list flag_arg) :=
  match ws with
  | [] => Some []
  | w :: ws =>
      match strip "--" w with
      | None => None
      | Some name =>
          if switch name then ((name, "true") ::.) <$> flags_of ws
          else match ws with
               | [] => None
               | v :: ws => ((name, v) ::.) <$> flags_of ws
               end
      end
  end.

(** * What is started on a segment *)

Inductive launched := Launched (c : Config) | NotLaunched | Misread.
Definition run_helper (ws : option (list string)) : launched :=
  match ws with
  | Some (w :: ws) =>
      if bool_decide (w = "cbcopy_helper") then
        match flags_of ws with
        | Some args => match Parse args [] with Ok (Some c) => Launched c | _ => Misread end
        | None => Misread
        end
      else Misread
  | _ => Misread
  end.

(** The loop over a list of numbers that goes on with the rest of the line when
    it meets that of the segment, and ends otherwise. *)
Definition loop_head : string := cat ["MATCHED="; chr DQ; "0"; chr DQ; "; SRC_SEG_IDS_STR="; chr DQ].
Definition loop_body : string :=
  cat [chr DQ; "; for cur_id in $SRC_SEG_IDS_STR; do if [ "; chr DQ; "$cur_id"; chr DQ; " = "; chr DQ; "$GP_SEGMENT_ID"; chr DQ;
       " ]; then MATCHED="; chr DQ; "1"; chr DQ; "; break; fi; done; [ "; chr DQ; "$MATCHED"; chr DQ; " != "; chr DQ; "1"; chr DQ;
       " ] && exit 0 || "].
Fixpoint until (c : ascii) (s : string) : string * string :=
  match s with
  | EmptyString => ("", "")
  | String d s' => if bool_decide (d = c) then ("", s) else let '(a, b) := until c s' in (String d a, b)
  end.
Definition shell (ph seg text : string) : launched :=
  match strip loop_head text with
  | Some rest =>
      let '(ids, rest) := until DQ rest in
      match strip loop_body rest with
      | Some command =>
          if bool_decide (seg ∈ Split ids SPACE) then run_helper (words ph seg command) else NotLaunched
      | None => Misread
      end
  | None => run_helper (words ph seg text)
  end.
(** What a query starts on segment [i]. *)
Definition launch (query : string) (i : nat) : launched :=
  match program_of false query with
  | Some text => shell (placeholder query) (Itoa (Z.of_nat i)) text
  | None => Misread
  end.

(** * Reading back what is printed *)

(** A text that neither opens a literal nor leaves an identifier open, such as
    the result of [quote_ident]. *)
Fixpoint closed_from (in_identifier : bool) (s : string) : bool :=
  match s with
  | EmptyString => negb in_identifier
  | String c s' =>
      if bool_decide (c = DQ) then closed_from (negb in_identifier) s'
      else (negb (bool_decide (c = SQ)) || in_identifier) && closed_from in_identifier s'
  end.
Definition identifier (s : string) : bool := closed_from false s.

Lemma program_closed b s t : closed_from b s = true → program_of b (s +:+ t) = program_of false t.
Proof.
  revert b. induction s as [|c s IH]; intros b; [by destruct b|]. simpl. case_bool_decide; [apply IH|].
  rewrite andb_true_iff. intros [Hc Hs]. rewrite <-(IH b Hs). case_bool_decide; [|done]. by destruct b.
Qed.
Lemma closed_append b s t : closed_from b s = true → identifier t = true → closed_from b (s +:+ t) = true.
Proof.
  unfold identifier. revert b. induction s as [|c s IH]; intros b; [by destruct b|]. simpl. case_bool_decide; [apply IH|].
  rewrite !andb_true_iff. intros [Hc Hs]. split; [done|by apply IH].
Qed.
Lemma closed_cat l : Forall (λ s, identifier s = true) l → identifier (cat l) = true.
Proof. induction 1 as [|s l Hs _ IH]; [done|]. by apply closed_append. Qed.

Lemma literal_append s t : no_byte SQ s → literal (s +:+ String SQ (String SPACE t)) = s.
Proof.
  induction s as [|c s IH]; intros Hs; [done|]. apply no_byte_String in Hs as [Hc Hs]. simpl.
  rewrite bool_decide_false by done. by rewrite IH.
Qed.
Lemma program_printed pre text post : identifier pre = true → no_byte SQ text →
  program_of false (pre +:+ String SQ (text +:+ String SQ (String SPACE post))) = Some text.
Proof. intros Hpre Ht. rewrite program_closed by done. simpl. by rewrite literal_append. Qed.

Lemma strip_append p s : strip p (p +:+ s) = Some s.
Proof. induction p as [|c p IH]; [done|]. simpl. by rewrite bool_decide_true. Qed.
Lemma until_append c s t : no_byte c s → until c (s +:+ String c t) = (s, String c t).
Proof.
  induction s as [|d s IH]; intros Hs; simpl; [by rewrite bool_decide_true|]. apply no_byte_String in Hs as [Hc Hs].
  rewrite bool_decide_false by done. by rewrite IH.
Qed.

(** The words of a flag, and the command line they make. *)
Definition arg_words (a : flag_arg) : list string :=
  if switch a.1 then ["--" +:+ a.1] else ["--" +:+ a.1; a.2].
Definition flag_ok (a : flag_arg) : bool := negb (switch a.1) || bool_decide (a.2 = "true").
Lemma flags_of_args args : forallb flag_ok args = true → flags_of (args ≫= arg_words) = Some args.
Proof.
  induction args as [|[n v] args IH]; [done|]. simpl forallb. rewrite andb_true_iff. intros [Hok Hargs]. rewrite bind_cons.
  unfold arg_words at 1. unfold flag_ok in Hok. simpl in Hok |- *. destruct (switch n) eqn:Hs; cbn [app flags_of];
    rewrite (strip_append "--" n), Hs, IH by done; simpl; [|done]. by apply bool_decide_eq_true in Hok as ->.
Qed.

Definition command_line (args : list flag_arg) : string := Join ("cbcopy_helper" :: (args ≫= arg_words)) (chr SPACE).
Lemma Join_cons s l sep : l ≠ [] → Join (s :: l) sep = s +:+ sep +:+ Join l sep.
Proof. by destruct l. Qed.
Lemma Join_append l k sep : k ≠ [] → Join (l ++ k) sep = cat ((λ s, s +:+ sep) <$> l) +:+ Join k sep.
Proof.
  intros Hk. induction l as [|s l IH]; [done|]. cbn [app]. rewrite Join_cons by (destruct l; simpl; [done|done]).
  rewrite IH, fmap_cons. cbn [cat foldr]. by rewrite !append_assoc.
Qed.

(** The placeholder replaced in a word, and in the values of flags. *)
Definition subst_word (ph seg w : string) : string := if bool_decide (w = ph) then seg else w.
Definition instantiate (ph seg : string) (args : list flag_arg) : list flag_arg := (λ a, (a.1, subst_word ph seg a.2)) <$> args.
Definition is_placeholder (ph : string) : Prop := ph = "<SEGID>" ∨ ph = "$GP_SEGMENT_ID".
Definition word_ok (ph w : string) : Prop := w = ph ∨ plain_word w = true.

Lemma plain_no_byte c w : plain_char c = false → plain_word w = true → no_byte c w.
Proof.
  unfold plain_word, no_byte. rewrite andb_true_iff. intros Hc [_ Hw] Hin. rewrite forallb_forall in Hw.
  specialize (Hw c (proj1 (list_elem_of_In _ _) Hin)). congruence.
Qed.
Lemma plain_not_placeholder ph w : is_placeholder ph → plain_word w = true → w ≠ ph.
Proof. intros [->| ->] Hw ->; by vm_compute in Hw. Qed.
Lemma subst_plain ph seg w : is_placeholder ph → plain_word w = true → subst_word ph seg w = w.
Proof. intros Hph Hw. unfold subst_word. rewrite bool_decide_false; [done|]. by apply plain_not_placeholder. Qed.
Lemma placeholder_no_byte ph c : is_placeholder ph → c = SPACE ∨ c = SQ ∨ c = DQ → no_byte c ph.
Proof. by intros [->| ->] [->|[->| ->]]; apply (bool_decide_unpack _). Qed.
Lemma word_no_byte ph w c : is_placeholder ph → word_ok ph w → c = SPACE ∨ c = SQ ∨ c = DQ → no_byte c w.
Proof.
  intros Hph [->|Hw] Hc; [by apply placeholder_no_byte|]. apply plain_no_byte; [|done]. by destruct Hc as [->|[->| ->]].
Qed.

Lemma words_of_line ph seg ws : is_placeholder ph → ws ≠ [] → Forall (word_ok ph) ws →
  words ph seg (Join ws (chr SPACE)) = Some (subst_word ph seg <$> ws).
Proof.
  intros Hph Hne Hws. unfold words. rewrite Split_Join; [|done|eapply Forall_impl; [done|intros w Hw; by eapply word_no_byte; [| |left]]].
  assert (Hall : forallb (λ w, bool_decide (w = ph) || plain_word w) ws = true).
  { apply forallb_forall. intros w Hw%list_elem_of_In. rewrite Forall_forall in Hws. destruct (Hws w Hw) as [->| ->].
    - by rewrite bool_decide_true.
    - by rewrite orb_true_r. }
  by rewrite Hall.
Qed.

(** A flag whose name is a word of the shell. *)
Definition arg_ok (ph : string) (a : flag_arg) : Prop := plain_word ("--" +:+ a.1) = true ∧ (switch a.1 = false → word_ok ph a.2).
Lemma arg_words_ok ph args : Forall (arg_ok ph) args → Forall (word_ok ph) (args ≫= arg_words).
Proof.
  induction 1 as [|a args [Hn Hv] _ IH]; [constructor|]. rewrite bind_cons. apply Forall_app. split; [|done].
  unfold arg_words. destruct (switch a.1); repeat first [apply Forall_nil_2|apply Forall_cons_2]; (by right) || by apply Hv.
Qed.
Lemma subst_arg_words ph seg args : is_placeholder ph → Forall (arg_ok ph) args →
  subst_word ph seg <$> (args ≫= arg_words) = instantiate ph seg args ≫= arg_words.
Proof.
  intros Hph. induction 1 as [|a args [Hn Hv] _ IH]; [done|]. unfold instantiate in *. rewrite fmap_cons, !bind_cons, fmap_app, IH. f_equal.
  assert (Hname : subst_word ph seg ("--" +:+ a.1) = "--" +:+ a.1) by (by apply subst_plain).
  unfold arg_words. simpl. destruct (switch a.1); rewrite ?fmap_cons, Hname; done.
Qed.

Definition parsed (args : list flag_arg) : launched := match Parse args [] with Ok (Some c) => Launched c | _ => Misread end.
Lemma parsed_Ok args c : Parse args [] = Ok (Some c) → parsed args = Launched c.
Proof. unfold parsed. by intros ->. Qed.
Lemma run_line ph seg args : is_placeholder ph → Forall (arg_ok ph) args → forallb flag_ok (instantiate ph seg args) = true →
  run_helper (words ph seg (command_line args)) = parsed (instantiate ph seg args).
Proof.
  intros Hph Hargs Hok. unfold command_line. rewrite words_of_line; [|done|done|].
  - rewrite fmap_cons. unfold run_helper. assert (Hname : subst_word ph seg "cbcopy_helper" = "cbcopy_helper")
      by (by apply subst_plain).
    rewrite Hname, bool_decide_true, subst_arg_words, flags_of_args by done. done.
  - constructor; [by right|by apply arg_words_ok].
Qed.
Lemma line_no_byte ph args c : is_placeholder ph → Forall (arg_ok ph) args → c = SQ ∨ c = DQ → no_byte c (command_line args).
Proof.
  intros Hph Hargs Hc. unfold command_line. assert (Hws : Forall (word_ok ph) ("cbcopy_helper" :: (args ≫= arg_words))).
  { constructor; [by right|by apply arg_words_ok]. }
  assert (Hsp : no_byte c (chr SPACE)) by (by destruct Hc as [->| ->]; apply (bool_decide_unpack _)).
  induction Hws as [|w ws Hw _ IH]; [apply no_byte_Empty|]. assert (Hno : no_byte c w) by (eapply word_no_byte; [done|done|tauto]).
  destruct ws; [exact Hno|]. rewrite Join_cons by done. by rewrite !no_byte_append.
Qed.

(** The shell on a command line, alone and behind the loop. *)
Lemma shell_line ph seg args : is_placeholder ph → Forall (arg_ok ph) args → forallb flag_ok (instantiate ph seg args) = true →
  shell ph seg (command_line args) = parsed (instantiate ph seg args).
Proof.
  intros Hph Hargs Hok. unfold shell. assert (Hstrip : strip loop_head (command_line args) = None).
  { unfold command_line. by destruct (args ≫= arg_words). }
  rewrite Hstrip. by apply run_line.
Qed.
Lemma shell_loop ph seg ids args : is_placeholder ph → no_byte DQ ids → Forall (arg_ok ph) args → forallb flag_ok (instantiate ph seg args) = true →
  shell ph seg (loop_head +:+ ids +:+ loop_body +:+ command_line args) =
  if bool_decide (seg ∈ Split ids SPACE) then parsed (instantiate ph seg args) else NotLaunched.
Proof.
  intros Hph Hids Hargs Hok. unfold shell. rewrite strip_append.
  change (loop_body +:+ command_line args) with (String DQ (match loop_body with String _ s => s | _ => "" end +:+ command_line args)).
  rewrite until_append by done.
  change (String DQ (match loop_body with String _ s => s | _ => "" end +:+ command_line args)) with (loop_body +:+ command_line args).
  rewrite strip_append. case_bool_decide; [by apply run_line|done].
Qed.
