(* ===== verification/Transfer.v ===== *)
(** The connections of a copy: the commands of the strategies
    ([copy/copy_command.go]) as command lines of the helper ([helper/]), and
    the agreement of the two sides on who connects to whom. *)
From S2P Require Import Prelude Utils Options Validator Version Helper CopyCommand Shell.

(** * Round robin *)

(** The source segments that belong to destination segment [j] of [nd]. *)
Definition share (ns nd j : nat) : list nat := filter (λ i, i `mod` nd = j) (seq 0 ns).

Lemma succ_mod k nd : 0 < nd → (if bool_decide (S (k `mod` nd) = nd) then 0 else S (k `mod` nd)) = S k `mod` nd.
Proof.
  intros Hnd. pose proof (Nat.mod_upper_bound k nd). rewrite <- (Nat.add_1_r k), Nat.Div0.add_mod.
  destruct (decide (nd = 1)) as [->|]; [by rewrite !Nat.mod_1_r|].
  rewrite (Nat.mod_small 1) by lia. case_bool_decide as Hs.
  - by rewrite <- Hs at 2; rewrite Nat.add_1_r, Hs, Nat.Div0.mod_same.
  - rewrite (Nat.mod_small (_ + 1)); lia.
Qed.

(** The members of a class from a member on: itself, and those [nd] further. *)
Lemma filter_mod_step i n nd : 0 < nd →
  filter (λ k, k `mod` nd = i `mod` nd) (seq i (S n)) =
  i :: filter (λ k, k `mod` nd = i `mod` nd) (seq (i + nd) (S n - nd)).
Proof.
  intros Hnd. simpl. rewrite filter_cons_True by done. f_equal.
  assert (Hskip : ∀ d m, d < nd →
    filter (λ k, k `mod` nd = i `mod` nd) (seq (i + nd - d) m) = filter (λ k, k `mod` nd = i `mod` nd) (seq (i + nd) (m - d))).
  { intros d. induction d as [|d IH]; intros m Hd; [by rewrite !Nat.sub_0_r|]. destruct m as [|m]; [done|].
    simpl. rewrite filter_cons_False.
    - replace (S (i + nd - S d)) with (i + nd - d) by lia. apply IH. lia.
    - intros Heq. assert (Hk : i + nd - S d = i + (nd - S d)) by lia. rewrite Hk, Nat.Div0.add_mod in Heq.
      pose proof (Nat.mod_upper_bound i nd). rewrite (Nat.mod_small (nd - S d)) in Heq by lia.
      destruct (decide (i `mod` nd + (nd - S d) < nd)).
      + rewrite Nat.mod_small in Heq by lia. lia.
      + replace (i `mod` nd + (nd - S d)) with (i `mod` nd - S d + 1 * nd) in Heq by lia.
        rewrite Nat.Div0.mod_add, Nat.mod_small in Heq by lia. lia. }
  replace (S i) with (i + nd - (nd - 1)) by lia. rewrite Hskip by lia. f_equal. f_equal. lia.
Qed.

Lemma filter_none {A} (P : A → Prop) `{∀ x, Decision (P x)} l : (∀ x, x ∈ l → ¬ P x) → filter P l = [].
Proof.
  induction l as [|x l IH]; intros Hl; [done|]. rewrite filter_cons_False by (apply Hl; constructor).
  apply IH. intros y Hy. apply Hl. by constructor.
Qed.

Lemma below_class k nd j : k < j → j < nd → k `mod` nd ≠ j.
Proof. intros Hk Hj. rewrite Nat.mod_small; lia. Qed.

Lemma share_from ns nd j : j < nd → share ns nd j = filter (λ k, k `mod` nd = j) (seq j (ns - j)).
Proof.
  intros Hj. unfold share. destruct (decide (j ≤ ns)).
  - replace ns with (j + (ns - j)) at 1 by lia. rewrite seq_app, filter_app.
    rewrite (filter_none _ (seq 0 j)); [done|]. intros k Hk%list_elem_of_In%in_seq. apply below_class; lia.
  - replace (ns - j) with 0 by lia. apply filter_none. intros k Hk%list_elem_of_In%in_seq. apply below_class; lia.
Qed.

(** The classes split the source segments. *)
Lemma share_partition ns nd : 0 < nd → seq 0 nd ≫= share ns nd ≡ₚ seq 0 ns.
Proof.
  intros Hnd. apply NoDup_Permutation; [|apply NoDup_seq|].
  - assert (Hgen : ∀ l, NoDup l → NoDup (l ≫= share ns nd)).
    { induction 1 as [|j l Hj Hl IH]; [constructor|]. rewrite bind_cons. apply NoDup_app. split_and!.
      - apply NoDup_filter, NoDup_seq.
      - intros i [Hi _]%list_elem_of_filter (j' & [Hi' _]%list_elem_of_filter & Hj')%list_elem_of_bind. congruence.
      - done. }
    apply Hgen, NoDup_seq.
  - intros i. rewrite list_elem_of_bind. split.
    + by intros (j & [_ ?]%list_elem_of_filter & _).
    + intros Hi. exists (i `mod` nd). split; [by apply list_elem_of_filter|]. apply list_elem_of_In, in_seq.
      pose proof (Nat.mod_upper_bound i nd). lia.
Qed.

Lemma sorted_of_nat_seq i n : Sorted Z.le (Z.of_nat <$> seq i n).
Proof.
  revert i. induction n as [|n IH]; intros i; cbn [seq]; [constructor|]. rewrite fmap_cons. constructor; [apply IH|].
  destruct n; constructor. lia.
Qed.

(** * The addresses the two sides agree on *)

Section loops.
Context (b : CopyBase).
Local Abbreviation nd := (length (DestSegmentsHostInfo b)).

(** The addresses of listeners on the segments [segs] with their ports. *)
Definition addresses (segs : list SegmentHostInfo) (ports : list HelperPortInfo) : list (string * string) :=
  zip (Hostname <$> segs) ((λ p, Itoa (Port p)) <$> ports).

Lemma addresses_fst segs ports : length segs ≤ length ports → (addresses segs ports).*1 = Hostname <$> segs.
Proof. intros Hl. apply fst_zip. by rewrite !length_fmap. Qed.
Lemma addresses_snd segs ports : length ports ≤ length segs → (addresses segs ports).*2 = (λ p, Itoa (Port p)) <$> ports.
Proof. intros Hl. apply snd_zip. by rewrite !length_fmap. Qed.

Lemma addresses_lookup segs ports i s p : segs !! i = Some s → ports !! i = Some p →
  addresses segs ports !! i = Some (Hostname s, Itoa (Port p)).
Proof. intros Hs Hp. unfold addresses. by rewrite lookup_zip_with, !list_lookup_fmap, Hs, Hp. Qed.

(** Source segment [k] is sent to destination segment [k mod nd]. *)
Definition round_robin (A : list (string * string)) (l : list nat) : list (string * string) :=
  omap (λ i, A !! (i `mod` length A)) l.

Lemma addresses_length segs ports : length segs = length ports → length (addresses segs ports) = length segs.
Proof. intros Hl. unfold addresses. rewrite length_zip_with, !length_fmap. lia. Qed.

Lemma round_robin_length A l : 0 < length A → length (round_robin A l) = length l.
Proof.
  intros Hnd. induction l as [|k l IH]; [done|]. unfold round_robin in *. cbn [omap list_omap].
  destruct (lookup_lt_is_Some_2 A (k `mod` length A)) as [x ->]; [apply Nat.mod_upper_bound; lia|]. simpl. by rewrite IH.
Qed.

Lemma dest_loop_spec ports n k : 0 < nd → length ports = nd →
  dest_loop b ports n (k `mod` nd) =
  Ok ((round_robin (addresses (DestSegmentsHostInfo b) ports) (seq k n)).*2,
      (round_robin (addresses (DestSegmentsHostInfo b) ports) (seq k n)).*1).
Proof.
  intros Hnd Hlen. revert k. induction n as [|n IH]; intros k; [done|]. cbn [dest_loop].
  pose proof (Nat.mod_upper_bound k nd ltac:(lia)) as Hk.
  destruct (index_lt ports (k `mod` nd)) as (p & Hp & Hp'); [lia|]. rewrite Hp. cbn [mbind go_bind].
  destruct (index_lt (DestSegmentsHostInfo b) (k `mod` nd)) as (s & Hs & Hs'); [done|]. rewrite Hs. cbn [mbind go_bind].
  rewrite succ_mod by done. rewrite (IH (S k)). cbn [mbind go_bind].
  unfold round_robin. cbn [seq omap list_omap]. rewrite addresses_length by done.
  by rewrite (addresses_lookup _ _ _ _ _ Hs' Hp').
Qed.

(** The number of clients of destination segment [j] among the next [n]. *)
Lemma client_loop_spec n k m : 0 < nd → seg_Content <$> DestSegmentsHostInfo b = Z.of_nat <$> seq 0 nd →
  ∃ m', client_loop b n (k `mod` nd) m = Ok m' ∧
    (∀ j, j < nd → default 0%Z (m' !! Z.of_nat j) =
       (default 0%Z (m !! Z.of_nat j) + Z.of_nat (length (filter (λ i : nat, i `mod` nd = j)%nat (seq k n))))%Z) ∧
    (∀ z, is_Some (m' !! z) ↔ is_Some (m !! z) ∨ ∃ i, i ∈ seq k n ∧ z = Z.of_nat (i `mod` nd)).
Proof.
  intros Hnd Hc. revert k m. induction n as [|n IH]; intros k m.
  { exists m. cbn [client_loop seq]. split_and!; [done| |].
    - intros j _. simpl. lia.
    - intros z. split; [tauto|]. intros [?|(i & Hi%elem_of_nil & _)]; done. }
  cbn [client_loop]. pose proof (Nat.mod_upper_bound k nd ltac:(lia)) as Hk.
  destruct (index_lt (DestSegmentsHostInfo b) (k `mod` nd)) as (s & Hs & Hs'); [done|]. rewrite Hs. cbn [mbind go_bind].
  assert (Hcont : seg_Content s = Z.of_nat (k `mod` nd)).
  { assert (Hl : (seg_Content <$> DestSegmentsHostInfo b) !! (k `mod` nd) = Some (seg_Content s))
      by (by rewrite list_lookup_fmap, Hs').
    rewrite Hc, list_lookup_fmap, lookup_seq_lt in Hl by done. by injection Hl as <-. }
  rewrite Hcont, succ_mod by done.
  set (m1 := match m !! _ with None => _ | _ => _ end).
  assert (Hm1 : ∀ z, m1 !! z = if decide (z = Z.of_nat (k `mod` nd))
      then Some (default 0 (m !! z) + 1)%Z else m !! z).
  { intros z. unfold m1. destruct (m !! Z.of_nat (k `mod` nd)) eqn:Hm; case_decide as Hz; subst;
      rewrite ?lookup_insert_eq, ?lookup_insert_ne by done; by rewrite ?Hm. }
  destruct (IH (S k) m1) as (m' & Hm' & Hcount & Hdom). exists m'. split; [done|]. split.
  - intros j Hj. rewrite Hcount, Hm1 by done. cbn [seq]. rewrite filter_cons.
    destruct (decide (Z.of_nat j = Z.of_nat (k `mod` nd))) as [Heq|Hne].
    + rewrite decide_True by lia. cbn [length default]. simpl. lia.
    + rewrite decide_False by lia. lia.
  - intros z. rewrite Hdom, Hm1. cbn [seq]. setoid_rewrite elem_of_cons. case_decide as Hz.
    + split; [intros _; right; exists k; auto|eauto].
    + split; [intros [?|(i & ? & ?)]; eauto|]. intros [?|(i & [->|?] & ?)]; eauto. done.
Qed.

Lemma formClientNumbers_spec `{MapRange} :
  0 < nd ≤ length (SrcSegmentsHostInfo b) → seg_Content <$> DestSegmentsHostInfo b = Z.of_nat <$> seq 0 nd →
  formClientNumbers b =
  Ok (Join ((λ j, Itoa (Z.of_nat (length (share (length (SrcSegmentsHostInfo b)) nd j)))) <$> seq 0 nd) ",").
Proof.
  intros [Hnd Hns] Hc. unfold formClientNumbers.
  destruct (client_loop_spec (length (SrcSegmentsHostInfo b)) 0 ∅ Hnd Hc) as (m & Hm & Hcount & Hdom).
  rewrite Nat.Div0.mod_0_l in Hm. rewrite Hm. cbn [mbind go_bind].
  assert (Hkeys : merge_sort Z.le (range_map 394 m).*1 = Z.of_nat <$> seq 0 nd).
  { apply (Sorted_unique Z.le); [apply Sorted_merge_sort; apply _|apply sorted_of_nat_seq|].
    rewrite merge_sort_Permutation. apply NoDup_Permutation; [apply NoDup_range_map| |].
    - apply NoDup_fmap_2; [apply _|apply NoDup_seq].
    - intros z. transitivity (is_Some (m !! z)).
      + rewrite list_elem_of_fmap. split; [intros ([z' v] & -> & Hin%elem_of_range_map); by exists v|].
        intros [v Hv]. exists (z, v). split; [done|by apply elem_of_range_map].
      + rewrite Hdom, list_elem_of_fmap. split.
        * intros [[v Hv]|(i & Hi & ->)]; [by rewrite lookup_empty in Hv|]. eexists. split; [done|].
          apply list_elem_of_In, in_seq. pose proof (Nat.mod_upper_bound i nd). lia.
        * intros (j & -> & Hj%list_elem_of_In%in_seq). right. exists j. split; [apply list_elem_of_In, in_seq; lia|].
          by rewrite Nat.mod_small by lia. }
  rewrite Hkeys, <- list_fmap_compose. do 2 f_equal. apply list_fmap_ext. intros i j Hj%lookup_seq. simpl.
  rewrite Hcount by lia. rewrite lookup_empty. done.
Qed.
End loops.

(** * The addresses a client dials *)

Lemma indexZ_nat {A} (l : list A) i : indexZ l (Z.of_nat i) = index l i.
Proof. unfold indexZ. rewrite (proj2 (Z.ltb_ge _ _)) by lia. by rewrite Nat2Z.id. Qed.

Section targets.
Context (c : Config) (A : list (string * string)) (nd : nat).
Context (HH : Hosts c = A.*1) (HP : Ports c = A.*2).

Lemma target_index i h p : A !! i = Some (h, p) → index (Hosts c) i = Ok h ∧ index (Ports c) i = Ok p.
Proof. intros Hi. rewrite !index_Ok, HH, HP, !list_lookup_fmap, Hi. done. Qed.

(** The loop of the concurrent client visits the class of its start. *)
Lemma target_loop_spec fuel i : NumDests c = Z.of_nat nd → 0 < nd → length A - i < fuel →
  target_loop fuel c (Z.of_nat i) =
  Ok (omap (A !!.) (filter (λ k, k `mod` nd = i `mod` nd) (seq i (length A - i)))).
Proof.
  intros Hn Hnd. revert i. induction fuel as [|fuel IH]; intros i Hf; [lia|]. cbn [target_loop].
  assert (Hlen : length (Hosts c) = length A) by (by rewrite HH, length_fmap). rewrite Hlen.
  destruct (Z.ltb_spec (Z.of_nat i) (Z.of_nat (length A))) as [Hlt|Hge].
  - destruct (lookup_lt_is_Some_2 A i) as [[h p] Hi]; [lia|]. destruct (target_index i h p Hi) as [Hh Hp].
    rewrite !indexZ_nat, Hh, Hp. cbn [mbind go_bind]. rewrite Hn, <- Nat2Z.inj_add, IH by lia. cbn [mbind go_bind].
    destruct (length A - i) as [|n] eqn:Hd; [lia|]. rewrite filter_mod_step by done. cbn [omap list_omap]. rewrite Hi.
    replace (length A - (i + nd)) with (S n - nd) by lia. do 3 f_equal.
    apply list_filter_iff. intros k. by rewrite <- (Nat.mul_1_l nd) at 2; rewrite Nat.Div0.mod_add.
  - by replace (length A - i) with 0 by lia.
Qed.

Lemma dials_concurrent j : Direction c = DirectionModeReceive → SegID c = Z.of_nat j → NumDests c = Z.of_nat nd →
  j < nd < length A → dials c = Ok (omap (A !!.) (share (length A) nd j)).
Proof.
  intros Hdir Hseg Hn Hj. assert (Hlen : length (Hosts c) = length A) by (by rewrite HH, length_fmap).
  unfold dials, createClientImpl. rewrite bool_decide_true by (rewrite Hn, Hlen; split_and!; [done|lia|lia]).
  unfold concurrent_targets. rewrite Hseg, target_loop_spec by (try lia; done). rewrite share_from by lia.
  by rewrite (Nat.mod_small j) by lia.
Qed.

Lemma dials_one_time j : NumDests c = 0%Z → SegID c = Z.of_nat j → dials c = Ok (option_list (A !! j)).
Proof.
  intros Hn Hseg. assert (Hlen : length (Hosts c) = length A) by (by rewrite HH, length_fmap).
  unfold dials, createClientImpl. rewrite bool_decide_false by lia.
  unfold one_time_target, seg_index. rewrite Hseg. rewrite (proj2 (Z.leb_le 0 _)) by lia. rewrite Hlen.
  destruct (A !! j) as [[h p]|] eqn:Hj.
  - pose proof (lookup_lt_Some _ _ _ Hj). rewrite (proj2 (Z.leb_gt _ _)) by lia.
    destruct (target_index j h p Hj) as [Hh Hp]. by rewrite !indexZ_nat, Hh, Hp.
  - apply lookup_ge_None in Hj. by rewrite (proj2 (Z.leb_le _ _)) by lia.
Qed.
End targets.

(** * Command lines of the helper *)

(** The flags of the compression argument of a strategy. *)
Definition comp_args : list string :=
  ["--no-compression"; "--compress-type gzip"; "--compress-type snappy"; "--compress-type zstd"].
Definition comp_flags (compArg : string) : list flag_arg :=
  match Split compArg SPACE with
  | [_; t] => [("compress-type", t)]
  | _ => [("no-compression", "true")]
  end.

Lemma getCompressArg_args `{FlagSet F} (CmdFlags : F) m u s : getCompressArg CmdFlags m u = Ok s → s ∈ comp_args.
Proof.
  unfold getCompressArg, comp_args. destruct u; simpl; [|intros [= <-]; set_solver].
  destruct m; [intros [= <-]; set_solver|]. intros (t & _ & Hs)%bind_Ok. injection Hs as <-.
  repeat case_bool_decide; set_solver.
Qed.

Definition dial_flags (compArg seg ip port : string) (extra : list flag_arg) (dir : string) : list flag_arg :=
  comp_flags compArg ++ [("seg-id", seg); ("host", ip); ("port", port)] ++ extra ++ [("direction", dir)].
Definition listen_send_flags (compArg cmdId seg range : string) : list flag_arg :=
  comp_flags compArg ++ [("listen", "true"); ("cmd-id", cmdId); ("seg-id", seg); ("data-port-range", range);
                         ("direction", "send")].
Definition listen_receive_flags (compArg cmdId seg range : string) (extra : list flag_arg) : list flag_arg :=
  comp_flags compArg ++ [("listen", "true"); ("seg-id", seg); ("cmd-id", cmdId)] ++ extra ++
  [("data-port-range", range); ("direction", "receive")].

Lemma dial_flags_fold c compArg seg ip port extra dir :
  go_fold set_flag c (dial_flags compArg seg ip port extra dir) =
  (let! c := go_fold set_flag c (comp_flags compArg) in
   go_fold set_flag c ([("seg-id", seg); ("host", ip); ("port", port)] ++ extra ++ [("direction", dir)])).
Proof. apply go_fold_app. Qed.

Lemma listen_send_fold c compArg cmdId seg range :
  go_fold set_flag c (listen_send_flags compArg cmdId seg range) =
  (let! c := go_fold set_flag c (comp_flags compArg) in
   go_fold set_flag c [("listen", "true"); ("cmd-id", cmdId); ("seg-id", seg); ("data-port-range", range);
                       ("direction", "send")]).
Proof. apply go_fold_app. Qed.
Lemma listen_receive_fold c compArg cmdId seg range extra :
  go_fold set_flag c (listen_receive_flags compArg cmdId seg range extra) =
  (let! c := go_fold set_flag c (comp_flags compArg) in
   go_fold set_flag c ([("listen", "true"); ("seg-id", seg); ("cmd-id", cmdId)] ++ extra ++
                       [("data-port-range", range); ("direction", "receive")])).
Proof. apply go_fold_app. Qed.

(** The text of a command line: switches stand alone. *)
Definition arg_text (a : flag_arg) : string := if switch a.1 then " --" +:+ a.1 else " --" +:+ a.1 +:+ " " +:+ a.2.
Lemma command_line_text args : command_line args = "cbcopy_helper" +:+ cat (arg_text <$> args).
Proof.
  unfold command_line. generalize "cbcopy_helper". induction args as [|a args IH]; intros w; [by rewrite append_nil_r|].
  rewrite bind_cons, fmap_cons. cbn [cat foldr]. unfold arg_words, arg_text at 1. destruct (switch a.1); cbn [app].
  - rewrite Join_cons by done. rewrite IH. by rewrite !append_assoc.
  - rewrite !Join_cons by done. rewrite IH. by rewrite !append_assoc.
Qed.

Lemma CommaStringFlags_Join l : l ≠ [] → Forall (no_byte COMMA) l → CommaStringFlags_Set [] (Join l ",") = Ok l.
Proof.
  intros Hne Hl. unfold CommaStringFlags_Set. change "," with (chr COMMA). rewrite Split_Join by done. f_equal.
  assert (Hgen : ∀ l acc, foldl (λ (c : list string) e, c ++ [e]) acc l = acc ++ l).
  { intros k. induction k as [|e k IH]; intros acc; simpl; [by rewrite app_nil_r|]. by rewrite IH, <- app_assoc. }
  by rewrite Hgen.
Qed.

Lemma CommaIntFlags_Join (zs : list Z) : zs ≠ [] → Forall (λ z, in_int64 z = true) zs →
  CommaIntFlags_Set [] (Join (Itoa <$> zs) ",") = Ok (Itoa <$> zs).
Proof.
  intros Hne Hz. unfold CommaIntFlags_Set. change "," with (chr COMMA). rewrite Split_Join.
  - assert (Hgen : ∀ l acc, Forall (λ z, in_int64 z = true) l → go_fold (λ c e, match Atoi e with
        | None => Err "invalid integer format" | Some _ => Ok (c ++ [e]) end) acc (Itoa <$> l) = Ok (acc ++ (Itoa <$> l))).
    { intros l. induction l as [|z l IH]; intros acc Hl; [by rewrite app_nil_r|]. inversion Hl; subst.
      rewrite fmap_cons. cbn [go_fold]. rewrite Atoi_Itoa by done. cbn [mbind go_bind]. rewrite IH by done.
      by rewrite <- app_assoc. }
    by apply Hgen.
  - by destruct zs.
  - apply Forall_fmap, Forall_true. intros z. apply no_byte_Itoa_other. by apply (bool_decide_unpack _).
Qed.

(** The range of ports is one the helper accepts. *)
Definition range_ok (range : string) : Prop :=
  ∃ first last, DashIntFlags_Set [] range = Ok [first; last] ∧ (1024 ≤ first < last)%Z ∧ (last ≤ 65535)%Z.

Lemma parseDataPortRange_ok first last : (1024 ≤ first < last)%Z → (last ≤ 65535)%Z →
  parseDataPortRange [first; last] = Ok ().
Proof. intros ? ?. unfold parseDataPortRange. simpl. rewrite !bool_decide_false by lia. done. Qed.

(** The compression a configuration asks for. *)
Definition compression_of (c : Config) : bool * CompressType := (NoCompression c, getCompressionType (TransCompType c)).
Definition compression_arg (compArg : string) : bool * CompressType :=
  match Split compArg SPACE with [_; t] => (false, getCompressionType t) | _ => (true, CompressZstd) end.

Lemma in_int64_small z : (0 ≤ z < 2 ^ 31)%Z → in_int64 z = true.
Proof. intros Hz. unfold in_int64, int64_min, int64_max. rewrite andb_true_iff, !Z.leb_le. lia. Qed.

(** One flag after the other. *)
Lemma set_flag_seg c v z : Atoi v = Some z → set_flag c ("seg-id", v) = Ok (set_seg c z).
Proof. intros Hv. unfold set_flag, int_flag. simpl. by rewrite Hv. Qed.
Lemma set_flag_num_dests c v z : Atoi v = Some z → set_flag c ("num-dests", v) = Ok (set_num_dests c z).
Proof. intros Hv. unfold set_flag, int_flag. simpl. by rewrite Hv. Qed.
Lemma set_flag_host c v l : CommaStringFlags_Set (Hosts c) v = Ok l → set_flag c ("host", v) = Ok (set_hosts c l).
Proof. intros Hv. unfold set_flag. cbn -[CommaStringFlags_Set]. by rewrite Hv. Qed.
Lemma set_flag_port c v l : CommaIntFlags_Set (Ports c) v = Ok l → set_flag c ("port", v) = Ok (set_ports c l).
Proof. intros Hv. unfold set_flag. cbn -[CommaIntFlags_Set]. by rewrite Hv. Qed.
Lemma set_flag_clients c v l : CommaIntFlags_Set (NumClients c) v = Ok l → set_flag c ("client-numbers", v) = Ok (set_clients c l).
Proof. intros Hv. unfold set_flag. cbn -[CommaIntFlags_Set]. by rewrite Hv. Qed.
Lemma set_flag_range c v l : DashIntFlags_Set (DataPortRange c) v = Ok l → set_flag c ("data-port-range", v) = Ok (set_range c l).
Proof. intros Hv. unfold set_flag. cbn -[DashIntFlags_Set]. by rewrite Hv. Qed.
Lemma set_flag_comp compArg : compArg ∈ comp_args → ∃ c, go_fold set_flag InitFlags (comp_flags compArg) = Ok c ∧
  compression_of c = compression_arg compArg ∧ c = Build_Config [] [] [] false (NoCompression c) "" "" (-2) false false
    (TransCompType c) [] "send" 0 ∧ TransCompType c ∈ ["gzip"; "snappy"; "zstd"].
Proof.
  unfold comp_args. rewrite !elem_of_cons, elem_of_nil. intros [->|[->|[->|[->|[]]]]];
    (eexists; split; [reflexivity|]; split; [reflexivity|]; split; [reflexivity|]; cbn [TransCompType]; set_solver).
Qed.

Ltac set_flags :=
  repeat match goal with
  | |- context [set_flag ?c ("seg-id", ?v)] => erewrite (set_flag_seg c v) by eassumption
  | |- context [set_flag ?c ("num-dests", ?v)] => erewrite (set_flag_num_dests c v) by eassumption
  | |- context [set_flag ?c ("host", ?v)] => erewrite (set_flag_host c v) by eassumption
  | |- context [set_flag ?c ("port", ?v)] => erewrite (set_flag_port c v) by eassumption
  | |- context [set_flag ?c ("client-numbers", ?v)] => erewrite (set_flag_clients c v) by eassumption
  | |- context [set_flag ?c ("data-port-range", ?v)] => erewrite (set_flag_range c v) by eassumption
  | |- context [set_flag ?c ("direction", ?v)] => change (set_flag c ("direction", v)) with (Ok (set_direction c v))
  | |- context [set_flag ?c ("cmd-id", ?v)] => change (set_flag c ("cmd-id", v)) with (Ok (set_cmd c v))
  | |- context [set_flag ?c ("listen", ?v)] => change (set_flag c ("listen", v)) with (Ok (set_listen c))
  | _ => progress cbn [mbind go_bind go_fold app]
  end.

(** The names of the flags decide the checks on combinations. *)
Lemma validate_by_names args c :
  go_fold (λ _ g, checkExclusiveFlags args g) () exclusive_groups = Ok () →
  (ListenMode c = true → checkMandatoryFlags args ["cmd-id"; "seg-id"] = Ok ()) →
  (ListenMode c = false → checkMandatoryFlags args ["host"; "port"] = Ok ()) →
  parseDataPortRange (DataPortRange c) = Ok () → TransCompType c ∈ ["gzip"; "snappy"; "zstd"] →
  validate args [] c = Ok ().
Proof.
  intros He Hl Hd Hr Hc. unfold validate. rewrite He. cbn [mbind go_bind].
  assert (Hcomp : validateCompressType (TransCompType c) = Ok ()).
  { rewrite !elem_of_cons, elem_of_nil in Hc. destruct Hc as [->|[->|[->|[]]]]; reflexivity. }
  destruct (bool_decide (ToResolve c = "")), (ListenMode c), (MD5XORMode c); cbn [andb negb];
    rewrite ?Hl, ?Hd by done; cbn [mbind go_bind]; by rewrite Hr.
Qed.

Lemma parse_dial compArg j hosts ports extra nd dir :
  compArg ∈ comp_args → (0 ≤ j < 2 ^ 31)%Z → hosts ≠ [] → ports ≠ [] → Forall (no_byte COMMA) hosts →
  Forall (λ z, in_int64 z = true) ports →
  (extra = [] ∧ nd = 0%Z) ∨ (extra = [("num-dests", Itoa nd)] ∧ (0 ≤ nd < 2 ^ 31)%Z) →
  ∃ c, Parse (dial_flags compArg (Itoa j) (Join hosts ",") (Join (Itoa <$> ports) ",") extra dir) [] = Ok (Some c) ∧
    Run_role c = Client ∧ Hosts c = hosts ∧ Ports c = Itoa <$> ports ∧ SegID c = j ∧ Direction c = dir ∧
    NumDests c = nd ∧ compression_of c = compression_arg compArg.
Proof.
  intros Hcomp Hj Hh Hp Hcomma Hint Hextra.
  assert (HH := CommaStringFlags_Join hosts Hh Hcomma). assert (HP := CommaIntFlags_Join ports Hp Hint).
  assert (HJ := Atoi_Itoa j (in_int64_small j Hj)).
  destruct (set_flag_comp compArg Hcomp) as (c0 & Hc0 & Hconf & Hshape & Htype).
  assert (Hargs : dial_flags compArg (Itoa j) (Join hosts ",") (Join (Itoa <$> ports) ",") extra dir ≠ [])
    by (unfold dial_flags; destruct (comp_flags compArg); done).
  unfold Parse. rewrite bool_decide_false by (intros [?%nil_length_inv _]; done).
  rewrite dial_flags_fold, Hc0. cbn [mbind go_bind]. rewrite Hshape.
  destruct Hextra as [[-> ->]|[-> Hnd]]; [|assert (HN := Atoi_Itoa nd (in_int64_small nd Hnd))]; set_flags.
  all: cbn [PrintVersion set_seg set_hosts set_ports set_num_dests set_direction].
  all: rewrite validate_by_names.
  all: cbn [mbind go_bind].
  all: try (eexists; split; [reflexivity|]; split_and!; done).
  all: cbn [ListenMode DataPortRange TransCompType]; try done.
  all: unfold comp_args in Hcomp; rewrite !elem_of_cons, elem_of_nil in Hcomp;
    (destruct Hcomp as [->|[->|[->|[->|[]]]]]); vm_compute; reflexivity.
Qed.

(** A listener that finds its port in the range and leaves it under the command
    and segment it was started with. *)
Definition listener (c : Config) (j : Z) (cmdId : string) (dir : string) (clients : list string) : Prop :=
  Run_role c = Listen ∧ SegID c = j ∧ CmdID c = cmdId ∧ Direction c = dir ∧ NumClients c = clients ∧
  ∃ first last, DataPortRange c = [first; last] ∧ (1024 ≤ first < last)%Z ∧ (last ≤ 65535)%Z.

Lemma parse_listen_send compArg j cmdId range :
  compArg ∈ comp_args → (0 ≤ j < 2 ^ 31)%Z → range_ok range →
  ∃ c, Parse (listen_send_flags compArg cmdId (Itoa j) range) [] = Ok (Some c) ∧
    listener c j cmdId DirectionModeSend [] ∧ compression_of c = compression_arg compArg.
Proof.
  intros Hcomp Hj (first & last & Hr & Hf & Hl). assert (HJ := Atoi_Itoa j (in_int64_small j Hj)).
  destruct (set_flag_comp compArg Hcomp) as (c0 & Hc0 & Hconf & Hshape & Htype).
  assert (Hargs : listen_send_flags compArg cmdId (Itoa j) range ≠ [])
    by (unfold listen_send_flags; destruct (comp_flags compArg); done).
  unfold Parse. rewrite bool_decide_false by (intros [?%nil_length_inv _]; done).
  rewrite listen_send_fold, Hc0. cbn [mbind go_bind]. rewrite Hshape. set_flags.
  cbn [PrintVersion set_seg set_listen set_cmd set_range set_direction]. rewrite validate_by_names.
  - cbn [mbind go_bind]. eexists. split; [reflexivity|]. split; [|done]. unfold listener. split_and!; try done.
    by exists first, last.
  - unfold comp_args in Hcomp. rewrite !elem_of_cons, elem_of_nil in Hcomp.
    destruct Hcomp as [->|[->|[->|[->|[]]]]]; vm_compute; reflexivity.
  - intros _. unfold comp_args in Hcomp. rewrite !elem_of_cons, elem_of_nil in Hcomp.
    destruct Hcomp as [->|[->|[->|[->|[]]]]]; vm_compute; reflexivity.
  - done.
  - by apply parseDataPortRange_ok.
  - done.
Qed.

Lemma parse_listen_receive compArg j cmdId range extra clients :
  compArg ∈ comp_args → (0 ≤ j < 2 ^ 31)%Z → range_ok range →
  (extra = [] ∧ clients = []) ∨
  (extra = [("client-numbers", Join (Itoa <$> clients) ",")] ∧ clients ≠ [] ∧ Forall (λ z, in_int64 z = true) clients) →
  ∃ c, Parse (listen_receive_flags compArg cmdId (Itoa j) range extra) [] = Ok (Some c) ∧
    listener c j cmdId DirectionModeReceive (Itoa <$> clients) ∧ compression_of c = compression_arg compArg.
Proof.
  intros Hcomp Hj (first & last & Hr & Hf & Hl) Hextra. assert (HJ := Atoi_Itoa j (in_int64_small j Hj)).
  destruct (set_flag_comp compArg Hcomp) as (c0 & Hc0 & Hconf & Hshape & Htype).
  assert (Hargs : listen_receive_flags compArg cmdId (Itoa j) range extra ≠ [])
    by (unfold listen_receive_flags; destruct (comp_flags compArg); done).
  unfold Parse. rewrite bool_decide_false by (intros [?%nil_length_inv _]; done).
  rewrite listen_receive_fold, Hc0. cbn [mbind go_bind]. rewrite Hshape.
  destruct Hextra as [[-> ->]|(-> & Hne & Hint)]; [|assert (HC := CommaIntFlags_Join clients Hne Hint)]; set_flags.
  all: cbn [PrintVersion set_seg set_listen set_cmd set_range set_clients set_direction].
  all: rewrite validate_by_names.
  all: cbn [mbind go_bind].
  all: try (eexists; split; [reflexivity|]; split; [|done]; unfold listener; split_and!; try done; by exists first, last).
  all: try done.
  all: try (by apply parseDataPortRange_ok).
  all: unfold comp_args in Hcomp; rewrite !elem_of_cons, elem_of_nil in Hcomp; intros;
    (destruct Hcomp as [->|[->|[->|[->|[]]]]]); vm_compute; reflexivity.
Qed.

(** * Well-formed transfers *)

(** An address that survives the comma-separated lists. *)
Definition host_name (h : string) : Prop := no_byte COMMA h ∧ plain_word h = true.
Definition good_address (a : string * string) : Prop :=
  host_name a.1 ∧ ∃ z, in_int64 z = true ∧ a.2 = Itoa z.

Lemma good_addresses_ports A : Forall good_address A → ∃ zs, A.*2 = Itoa <$> zs ∧ Forall (λ z, in_int64 z = true) zs.
Proof.
  induction 1 as [|a A (_ & z & Hz & Ha) _ (zs & HA & Hzs)]; [by exists []|].
  exists (z :: zs). rewrite !fmap_cons, HA, Ha. split; [done|by constructor].
Qed.

Lemma good_addresses_hosts A : Forall good_address A → Forall (no_byte COMMA) A.*1.
Proof. intros HA. apply Forall_fmap. eapply Forall_impl; [done|]. by intros a [[? _] _]. Qed.

Lemma addresses_good segs ports : Forall (λ s, host_name (Hostname s)) segs →
  Forall (λ p, in_int64 (Port p) = true) ports → Forall good_address (addresses segs ports).
Proof.
  intros Hs Hp. apply Forall_lookup. intros i [h p] Hi. unfold addresses in Hi.
  rewrite lookup_zip_with_Some in Hi. destruct Hi as (h' & p' & [= -> ->] & Hh & Hpp).
  rewrite list_lookup_fmap in Hh. rewrite list_lookup_fmap in Hpp. apply fmap_Some in Hh as (s & Hsi & ->). apply fmap_Some in Hpp as (q & Hqi & ->).
  split; [by apply (Forall_lookup_1 _ _ _ _ Hs Hsi)|]. exists (Port q). split; [|done].
  by apply (Forall_lookup_1 _ _ _ _ Hp Hqi).
Qed.

Lemma round_robin_lookup A l i k : l !! i = Some k → 0 < length A → round_robin A l !! i = A !! (k `mod` length A).
Proof.
  intros Hi Hlen. revert i Hi. unfold round_robin. induction l as [|x l IH]; intros i Hi; [done|]. cbn [omap list_omap].
  destruct (lookup_lt_is_Some_2 A (x `mod` length A)) as [a Ha]; [apply Nat.mod_upper_bound; lia|]. rewrite Ha.
  destruct i as [|i]; simpl in *; [by simplify_eq|]. by apply IH.
Qed.

Lemma round_robin_good A l : Forall good_address A → Forall good_address (round_robin A l).
Proof.
  intros HA. unfold round_robin. induction l as [|x l IH]; [constructor|]. cbn [omap list_omap].
  destruct (A !! (x `mod` length A)) as [a|] eqn:Ha; [|done]. constructor; [|done].
  by apply (Forall_lookup_1 _ _ _ _ HA Ha).
Qed.

(** A dialling helper on a list of addresses. *)
Lemma parse_dial_addresses compArg j A extra nd dir :
  compArg ∈ comp_args → (Z.of_nat j < 2 ^ 31)%Z → A ≠ [] → Forall good_address A →
  (extra = [] ∧ nd = 0) ∨ (extra = [("num-dests", Itoa (Z.of_nat nd))] ∧ (Z.of_nat nd < 2 ^ 31)%Z) →
  ∃ c, Parse (dial_flags compArg (Itoa (Z.of_nat j)) (Join A.*1 ",") (Join A.*2 ",") extra dir) [] = Ok (Some c) ∧
    Run_role c = Client ∧ Hosts c = A.*1 ∧ Ports c = A.*2 ∧ SegID c = Z.of_nat j ∧ Direction c = dir ∧
    NumDests c = Z.of_nat nd ∧ compression_of c = compression_arg compArg.
Proof.
  intros Hcomp Hj Hne HA Hextra. destruct (good_addresses_ports A HA) as (zs & Hzs & Hint). rewrite Hzs.
  apply parse_dial; try done.
  - lia.
  - by destruct A.
  - intros ->. by destruct A.
  - by apply good_addresses_hosts.
  - destruct Hextra as [[-> ->]|[-> Hnd]]; [by left|right]. split; [done|lia].
Qed.

Section address_lists.
Context (b : CopyBase) (ports : list HelperPortInfo).

Lemma FormAllSegsHelperAddress_spec :
  let segs := if is_push b then DestSegmentsHostInfo b else SrcSegmentsHostInfo b in
  length ports ≤ length segs →
  FormAllSegsHelperAddress b ports = Ok (Join (addresses segs ports).*2 ",", Join (addresses segs ports).*1 ",").
Proof.
  intros segs Hlen. unfold FormAllSegsHelperAddress. fold segs. rewrite addresses_snd by done.
  assert (Hmap : go_map (λ i, let! s := index segs i in Ok (Hostname s)) (seq 0 (length ports)) = Ok (addresses segs ports).*1).
  { apply go_map_Ok. apply Forall2_same_length_lookup_2.
    { unfold addresses. rewrite length_fmap, length_zip_with, !length_fmap, length_seq. lia. }
    intros i x y Hx Hy. apply lookup_seq in Hx as [-> Hi]. rewrite Nat.add_0_l in *.
    destruct (index_lt segs i) as (s & Hs & Hs'); [lia|]. rewrite Hs. cbn [mbind go_bind].
    destruct (lookup_lt_is_Some_2 ports i Hi) as [p Hp].
    rewrite list_lookup_fmap, (addresses_lookup _ _ _ _ _ Hs' Hp) in Hy. by injection Hy as <-. }
  rewrite length_fmap, Hmap. done.
Qed.

Lemma FormSrcSegsHelperAddress_spec : length ports = length (SrcSegmentsHostInfo b) →
  let A := addresses (SrcSegmentsHostInfo b) ports in
  FormSrcSegsHelperAddress b ports = Ok (Join A.*2 ",", Join A.*1 ",").
Proof.
  intros Hlen A. unfold FormSrcSegsHelperAddress.
  rewrite (proj2 (go_map_Ok _ _ ((λ a, (a.2, a.1)) <$> A))).
  - cbn [mbind go_bind]. by rewrite <- !list_fmap_compose.
  - apply Forall2_same_length_lookup_2.
    { unfold A. rewrite length_fmap, length_seq, addresses_length by done. done. }
    intros i x y Hx Hy. apply lookup_seq in Hx as [-> Hi]. rewrite Nat.add_0_l in *.
    destruct (index_lt ports i) as (p & Hp & Hp'); [lia|]. destruct (index_lt (SrcSegmentsHostInfo b) i) as (s & Hs & Hs'); [lia|].
    rewrite Hp, Hs. cbn [mbind go_bind]. unfold A in Hy.
    rewrite list_lookup_fmap, (addresses_lookup _ _ _ _ _ Hs' Hp') in Hy. by injection Hy as <-.
Qed.

Lemma FormDestSegsHelperAddress_spec : 0 < length (DestSegmentsHostInfo b) → length ports = length (DestSegmentsHostInfo b) →
  let A := round_robin (addresses (DestSegmentsHostInfo b) ports) (seq 0 (length (SrcSegmentsHostInfo b))) in
  FormDestSegsHelperAddress b ports = Ok (Join A.*2 ",", Join A.*1 ",").
Proof.
  intros Hnd Hlen A. unfold FormDestSegsHelperAddress.
  rewrite <- (Nat.Div0.mod_0_l (length (DestSegmentsHostInfo b))), dest_loop_spec by done. done.
Qed.
End address_lists.

(** * Texts *)

Lemma comp_flags_text compArg : compArg ∈ comp_args → cat (arg_text <$> comp_flags compArg) = " " +:+ compArg.
Proof.
  unfold comp_args. rewrite !elem_of_cons, elem_of_nil. intros [->|[->|[->|[->|[]]]]]; reflexivity.
Qed.
Lemma comp_flags_ok ph compArg : compArg ∈ comp_args → Forall (arg_ok ph) (comp_flags compArg) ∧ forallb flag_ok (comp_flags compArg) = true.
Proof.
  unfold comp_args. rewrite !elem_of_cons, elem_of_nil.
  intros [->|[->|[->|[->|[]]]]]; (split; [|reflexivity]); (apply Forall_cons_2; [|apply Forall_nil_2]); (split; [reflexivity|by right]).
Qed.
Lemma comp_flags_instantiate ph seg compArg : is_placeholder ph → compArg ∈ comp_args → instantiate ph seg (comp_flags compArg) = comp_flags compArg.
Proof.
  unfold comp_args. rewrite !elem_of_cons, elem_of_nil.
  intros [->| ->] [->|[->|[->|[->|[]]]]]; reflexivity.
Qed.

Lemma plain_char_Itoa z c : c ∈ bytes (Itoa z) → plain_char c = true.
Proof.
  intros Hc. destruct (plain_char c) eqn:Hp; [done|]. exfalso. revert Hc. change (no_byte c (Itoa z)). apply no_byte_Itoa_other.
  intros Hin. assert (Hall : forallb plain_char (bytes "-0123456789") = true) by reflexivity. rewrite forallb_forall in Hall.
  rewrite (Hall c) in Hp; [done|by apply list_elem_of_In].
Qed.
Lemma Itoa_nonempty z : Itoa z ≠ "".
Proof. unfold Itoa. destruct (Z.to_int z) as [u|u]; [by destruct u|done]. Qed.
Lemma plain_intro w : w ≠ "" → (∀ c, c ∈ bytes w → plain_char c = true) → plain_word w = true.
Proof.
  intros Hne Hall. unfold plain_word. rewrite bool_decide_false by done. apply forallb_forall. intros c Hc. apply Hall. by apply list_elem_of_In.
Qed.
Lemma plain_chars w c : plain_word w = true → c ∈ bytes w → plain_char c = true.
Proof. unfold plain_word. rewrite andb_true_iff, forallb_forall. intros [_ Hw] Hc. apply Hw. by apply list_elem_of_In. Qed.
Lemma plain_Itoa z : plain_word (Itoa z) = true.
Proof. apply plain_intro; [apply Itoa_nonempty|apply plain_char_Itoa]. Qed.
Lemma plain_Join l : l ≠ [] → Forall (λ w, plain_word w = true) l → plain_word (Join l ",") = true.
Proof.
  intros Hne Hl. induction Hl as [|w l Hw Hl IH]; [done|]. destruct l as [|w' l]; [exact Hw|]. rewrite Join_cons by done.
  specialize (IH ltac:(done)). apply plain_intro.
  - intros Heq%(f_equal bytes). rewrite !bytes_append in Heq. apply (f_equal length) in Heq. rewrite !length_app in Heq. simpl in Heq. lia.
  - intros c. rewrite !bytes_append, !elem_of_app. intros [Hc|[Hc|Hc]]; [by apply (plain_chars w)| |by eapply plain_chars].
    apply list_elem_of_singleton in Hc as ->. reflexivity.
Qed.
Lemma plain_Join_Itoa (zs : list Z) : zs ≠ [] → plain_word (Join (Itoa <$> zs) ",") = true.
Proof.
  intros Hne. apply plain_Join; [by destruct zs|]. apply Forall_fmap, Forall_true. intros z. apply plain_Itoa.
Qed.

(** The flags of a helper, with the placeholder for the segment. *)
Lemma args_ok ph compArg rest : compArg ∈ comp_args → Forall (arg_ok ph) rest → Forall (arg_ok ph) (comp_flags compArg ++ rest).
Proof. intros Hcomp Hrest. apply Forall_app. split; [by apply comp_flags_ok|done]. Qed.
Lemma instantiate_args ph seg compArg rest : is_placeholder ph → compArg ∈ comp_args →
  instantiate ph seg (comp_flags compArg ++ rest) = comp_flags compArg ++ instantiate ph seg rest.
Proof. intros Hph Hcomp. unfold instantiate. rewrite fmap_app. f_equal. by apply comp_flags_instantiate. Qed.
Lemma flags_ok_args compArg rest : compArg ∈ comp_args → forallb flag_ok rest = true → forallb flag_ok (comp_flags compArg ++ rest) = true.
Proof. intros Hcomp Hrest. rewrite forallb_app, Hrest. by rewrite (proj2 (comp_flags_ok "" compArg Hcomp)). Qed.

(** A query whose program is a command line: what is launched on a segment. *)
Lemma launch_line query pre args post ph i :
  query = pre +:+ String SQ (command_line args +:+ String SQ (String SPACE post)) → identifier pre = true → placeholder query = ph →
  is_placeholder ph → Forall (arg_ok ph) args → forallb flag_ok (instantiate ph (Itoa (Z.of_nat i)) args) = true →
  launch query i = parsed (instantiate ph (Itoa (Z.of_nat i)) args).
Proof.
  intros Hq Hpre Hp Hph Hargs Hok. unfold launch. rewrite Hp. rewrite Hq, program_printed; [|done|].
  - by apply shell_line.
  - eapply line_no_byte; [done|done|by left].
Qed.
Lemma launch_loop query pre ids args post ph i :
  query = pre +:+ String SQ ((loop_head +:+ ids +:+ loop_body +:+ command_line args) +:+ String SQ (String SPACE post)) →
  identifier pre = true → placeholder query = ph → no_byte DQ ids → no_byte SQ ids →
  is_placeholder ph → Forall (arg_ok ph) args → forallb flag_ok (instantiate ph (Itoa (Z.of_nat i)) args) = true →
  launch query i = if bool_decide (Itoa (Z.of_nat i) ∈ Split ids SPACE) then parsed (instantiate ph (Itoa (Z.of_nat i)) args) else NotLaunched.
Proof.
  intros Hq Hpre Hp Hids Hids' Hph Hargs Hok. unfold launch. rewrite Hp. rewrite Hq, program_printed; [|done|].
  - by apply shell_loop.
  - rewrite !no_byte_append. split; [by apply (bool_decide_unpack _)|]. split; [done|]. split; [by apply (bool_decide_unpack _)|].
    eapply line_no_byte; [done|done|by left].
Qed.

(** A command line with a place for the segment. *)
Definition line_ok (ph : string) (args : string → list flag_arg) : Prop :=
  Forall (arg_ok ph) (args ph) ∧ ∀ seg, instantiate ph seg (args ph) = args seg ∧ forallb flag_ok (args seg) = true.
Lemma line_intro ph compArg (rest : string → list flag_arg) : is_placeholder ph → compArg ∈ comp_args →
  line_ok ph rest → line_ok ph (λ seg, comp_flags compArg ++ rest seg).
Proof.
  intros Hph Hcomp [Hargs Hseg]. split; [by apply args_ok|]. intros seg. destruct (Hseg seg) as [Hi Hf].
  rewrite instantiate_args, Hi by done. split; [done|]. by apply flags_ok_args.
Qed.
Lemma line_app ph (a b : string → list flag_arg) : line_ok ph a → line_ok ph b → line_ok ph (λ seg, a seg ++ b seg).
Proof.
  intros [Ha Ha'] [Hb Hb']. split; [by apply Forall_app|]. intros seg. destruct (Ha' seg) as [<- Hfa], (Hb' seg) as [<- Hfb].
  unfold instantiate in *. rewrite fmap_app. split; [done|]. by rewrite forallb_app, Hfa, Hfb.
Qed.
(** A flag whose value is a word, a switch, and the flag of the segment. *)
Lemma line_word ph n v : is_placeholder ph → plain_word ("--" +:+ n) = true → switch n = false → plain_word v = true → line_ok ph (λ _, [(n, v)]).
Proof.
  intros Hph Hn Hs Hv. split; [apply Forall_cons_2; [|constructor]; split; [done|by right]|]. intros seg. unfold instantiate. cbn [fmap list_fmap fst snd].
  rewrite subst_plain by done. split; [done|]. unfold forallb, flag_ok. simpl. by rewrite Hs.
Qed.
Lemma line_switch ph n : is_placeholder ph → plain_word ("--" +:+ n) = true → line_ok ph (λ _, [(n, "true")]).
Proof.
  intros Hph Hn. split; [apply Forall_cons_2; [|constructor]; split; [done|by right]|]. intros seg. unfold instantiate. cbn [fmap list_fmap fst snd].
  rewrite subst_plain by done. split; [done|]. unfold forallb, flag_ok. simpl. by rewrite orb_true_r.
Qed.
Lemma line_seg ph : line_ok ph (λ seg, [("seg-id", seg)]).
Proof.
  split; [apply Forall_cons_2; [|constructor]; split; [done|by left]|]. intros seg. unfold instantiate, subst_word. cbn [fmap list_fmap fst snd].
  by rewrite bool_decide_true.
Qed.
Lemma line_nil ph : line_ok ph (λ _, []).
Proof. split; [constructor|done]. Qed.

Lemma line_dial ph compArg ip port (extra : list flag_arg) dir : is_placeholder ph → compArg ∈ comp_args →
  plain_word ip = true → plain_word port = true → plain_word dir = true → line_ok ph (λ _, extra) →
  line_ok ph (λ seg, dial_flags compArg seg ip port extra dir).
Proof.
  intros Hph Hcomp Hip Hport Hdir Hextra. unfold dial_flags. apply line_intro; [done|done|].
  apply (line_app _ (λ seg, [("seg-id", seg); ("host", ip); ("port", port)])).
  - apply (line_app _ (λ seg, [("seg-id", seg)]) (λ _, [("host", ip); ("port", port)])); [apply line_seg|].
    apply (line_app _ (λ _, [("host", ip)]) (λ _, [("port", port)])); by apply line_word.
  - apply line_app; [done|by apply line_word].
Qed.
Lemma line_listen_send ph compArg cmdId range : is_placeholder ph → compArg ∈ comp_args → plain_word cmdId = true → plain_word range = true →
  line_ok ph (λ seg, listen_send_flags compArg cmdId seg range).
Proof.
  intros Hph Hcomp Hcmd Hr. unfold listen_send_flags. apply line_intro; [done|done|].
  apply (line_app _ (λ _, [("listen", "true")]) (λ seg, [("cmd-id", cmdId); ("seg-id", seg); ("data-port-range", range); ("direction", "send")])); [by apply line_switch|].
  apply (line_app _ (λ _, [("cmd-id", cmdId)]) (λ seg, [("seg-id", seg); ("data-port-range", range); ("direction", "send")])); [by apply line_word|].
  apply (line_app _ (λ seg, [("seg-id", seg)]) (λ _, [("data-port-range", range); ("direction", "send")])); [apply line_seg|].
  apply (line_app _ (λ _, [("data-port-range", range)]) (λ _, [("direction", "send")])); by apply line_word.
Qed.
Lemma line_listen_receive ph compArg cmdId range extra : is_placeholder ph → compArg ∈ comp_args → plain_word cmdId = true → plain_word range = true →
  line_ok ph (λ _, extra) → line_ok ph (λ seg, listen_receive_flags compArg cmdId seg range extra).
Proof.
  intros Hph Hcomp Hcmd Hr Hextra. unfold listen_receive_flags. apply line_intro; [done|done|].
  apply (line_app _ (λ seg, [("listen", "true"); ("seg-id", seg); ("cmd-id", cmdId)])).
  - apply (line_app _ (λ _, [("listen", "true")]) (λ seg, [("seg-id", seg); ("cmd-id", cmdId)])); [by apply line_switch|].
    apply (line_app _ (λ seg, [("seg-id", seg)]) (λ _, [("cmd-id", cmdId)])); [apply line_seg|by apply line_word].
  - apply line_app; [done|]. apply (line_app _ (λ _, [("data-port-range", range)]) (λ _, [("direction", "receive")])); by apply line_word.
Qed.

(** What such a query launches, alone and behind the loop. *)
Lemma launch_args query pre args post ph i :
  query = pre +:+ String SQ (command_line (args ph) +:+ String SQ (String SPACE post)) → identifier pre = true → placeholder query = ph →
  is_placeholder ph → line_ok ph args → launch query i = parsed (args (Itoa (Z.of_nat i))).
Proof.
  intros Hq Hpre Hp Hph [Hargs Hseg]. destruct (Hseg (Itoa (Z.of_nat i))) as [Hi Hf]. rewrite <-Hi in Hf |- *.
  by apply (launch_line query pre (args ph) post ph).
Qed.
Lemma launch_loop_args query pre ids args post ph i :
  query = pre +:+ String SQ ((loop_head +:+ ids +:+ loop_body +:+ command_line (args ph)) +:+ String SQ (String SPACE post)) →
  identifier pre = true → placeholder query = ph → no_byte DQ ids → no_byte SQ ids → is_placeholder ph → line_ok ph args →
  launch query i = if bool_decide (Itoa (Z.of_nat i) ∈ Split ids SPACE) then parsed (args (Itoa (Z.of_nat i))) else NotLaunched.
Proof.
  intros Hq Hpre Hp Hids Hids' Hph [Hargs Hseg]. destruct (Hseg (Itoa (Z.of_nat i))) as [Hi Hf]. rewrite <-Hi in Hf |- *.
  by apply (launch_loop query pre ids (args ph) post ph).
Qed.

(** * The two sides of a transfer *)

(** A strategy on the segments, as [CreateCopyStrategy] chooses it for two
    clusters with segments numbered from zero, and the ports its listeners
    reported. *)
Record transfer_ok `{FlagSet F} (CmdFlags : F) (cmd : CopyCommand) (ports : list HelperPortInfo) (range : string) : Prop := {
  tr_strategy : match cmd_strategy cmd with
    | CopyOnMaster => False
    | CopyOnSegment => length (SrcSegmentsHostInfo (cmd_base cmd)) = length (DestSegmentsHostInfo (cmd_base cmd))
    | ExtDestGeCopy => length (SrcSegmentsHostInfo (cmd_base cmd)) ≤ length (DestSegmentsHostInfo (cmd_base cmd))
    | ExtDestLtCopy => length (DestSegmentsHostInfo (cmd_base cmd)) < length (SrcSegmentsHostInfo (cmd_base cmd))
    end;
  tr_src : 0 < length (SrcSegmentsHostInfo (cmd_base cmd));
  tr_dest : 0 < length (DestSegmentsHostInfo (cmd_base cmd));
  tr_small : (Z.of_nat (length (SrcSegmentsHostInfo (cmd_base cmd))) < 2 ^ 31)%Z ∧
    (Z.of_nat (length (DestSegmentsHostInfo (cmd_base cmd))) < 2 ^ 31)%Z;
  tr_contents : ∀ segs, segs = SrcSegmentsHostInfo (cmd_base cmd) ∨ segs = DestSegmentsHostInfo (cmd_base cmd) →
    seg_Content <$> segs = Z.of_nat <$> seq 0 (length segs) ∧ Forall (λ s, host_name (Hostname s)) segs;
  tr_ports : IsCopyFromStarted cmd (length ports) = true ∧ Forall (λ p, in_int64 (Port p) = true) ports;
  tr_comp : CompArg (cmd_base cmd) ∈ comp_args;
  tr_range : GetString CmdFlags DATA_PORT_RANGE = Ok range ∧ range_ok range ∧ plain_word range = true
}.

(** The names in the two queries: identifiers as the server quotes them, and an
    identifier of the command that is a word of the shell. *)
Record names_ok (srcTable destTable : Table) (cmdId ext : string) : Prop := {
  nm_src : identifier (Schema srcTable) = true ∧ identifier (Name srcTable) = true;
  nm_dest : identifier (Schema destTable) = true ∧ identifier (Name destTable) = true;
  nm_ext : identifier ext = true;
  nm_cmd : plain_word cmdId = true
}.

(** The destination segments on which the helper is started: all of them, or
    those that find their number in the list of the script. *)
Definition helper_runs (cmd : CopyCommand) (j : nat) : bool :=
  match cmd_strategy cmd with
  | ExtDestGeCopy => bool_decide (Itoa (Z.of_nat j) ∈ Split (FormAllSegsIds (cmd_base cmd)) SPACE)
  | _ => true
  end.

Ltac text_of Hcomp :=
  rewrite command_line_text, !fmap_app, !cat_app, (comp_flags_text _ Hcomp);
  cbn [fmap list_fmap cat foldr]; rewrite ?append_assoc; reflexivity.
Ltac closed_text := apply closed_cat; repeat first [apply Forall_nil_2|apply Forall_cons_2]; done.
Ltac loop_text := unfold match_script, loop_head, loop_body.

Lemma copy_to_dial_launch b table ip port i : CompArg b ∈ comp_args → identifier (Schema table) = true → identifier (Name table) = true →
  plain_word ip = true → plain_word port = true →
  launch (copy_to_dial b table ip port) i = parsed (dial_flags (CompArg b) (Itoa (Z.of_nat i)) ip port [] "send").
Proof.
  intros Hcomp Hsch Hname Hip Hport.
  apply (launch_args _ (cat ["COPY "; Schema table; "."; Name table; " TO PROGRAM "]) (λ seg, dial_flags (CompArg b) seg ip port [] "send")
    "ON SEGMENT CSV IGNORE EXTERNAL PARTITIONS" "<SEGID>"); [unfold copy_to_dial, dial_flags; text_of Hcomp|closed_text|reflexivity|by left|].
  apply line_dial; [by left|done..|apply line_nil].
Qed.
Lemma plain_addresses l : l ≠ [] → Forall good_address l → plain_word (Join l.*1 ",") = true ∧ plain_word (Join l.*2 ",") = true.
Proof.
  intros Hne Hgood. split; (apply plain_Join; [by destruct l|]); apply Forall_fmap; (eapply Forall_impl; [exact Hgood|]).
  - by intros a [[_ ?] _].
  - intros a (_ & z & _ & Hz). simpl. rewrite Hz. apply plain_Itoa.
Qed.
Lemma ids_no_byte b c : c = DQ ∨ c = SQ → no_byte c (FormAllSegsIds b).
Proof.
  intros Hc. unfold FormAllSegsIds. induction (SrcSegmentsHostInfo b) as [|h l IH]; [apply no_byte_Empty|]. rewrite fmap_cons.
  assert (Hno : no_byte c (Itoa (seg_Content h))) by (apply no_byte_Itoa_other; destruct Hc as [->| ->]; by apply (bool_decide_unpack _)).
  destruct l as [|h' l]; [exact Hno|]. rewrite Join_cons by done. rewrite !no_byte_append. split; [done|]. split; [|done].
  destruct Hc as [->| ->]; by apply (bool_decide_unpack _).
Qed.

Section transfer.
Context `{MapRange} `{FlagSet F} (CmdFlags : F) (cmd : CopyCommand) (ports : list HelperPortInfo) (range : string).
Context (Hok : transfer_ok CmdFlags cmd ports range).
Local Abbreviation b := (cmd_base cmd).
Local Abbreviation ns := (length (SrcSegmentsHostInfo b)).
Local Abbreviation nd := (length (DestSegmentsHostInfo b)).

Lemma Itoa_inj z z' : in_int64 z = true → in_int64 z' = true → Itoa z = Itoa z' → z = z'.
Proof. intros Hz Hz' Heq. apply (f_equal Atoi) in Heq. rewrite !Atoi_Itoa in Heq by done. congruence. Qed.

Lemma helper_runs_spec j : j < nd → helper_runs cmd j = bool_decide (j < ns) ∨ helper_runs cmd j = true ∧ nd ≤ ns.
Proof.
  intros Hj. destruct Hok as [Hs Hns Hnd Hsm Hc _ _ _]. unfold helper_runs.
  destruct (cmd_strategy cmd); [done|right; split; [done|lia]| |right; split; [done|lia]]. left.
  unfold FormAllSegsIds. change " " with (chr SPACE). rewrite Split_Join.
  - apply bool_decide_ext. rewrite list_elem_of_fmap.
    destruct (Hc (SrcSegmentsHostInfo b)) as [Hsc _]; [by left|]. split.
    + intros (s & Heq & Hin). assert (Hin' : seg_Content s ∈ seg_Content <$> SrcSegmentsHostInfo b)
        by (apply list_elem_of_fmap; eauto).
      rewrite Hsc in Hin'. apply list_elem_of_fmap in Hin' as (i & Hi & Hin'%list_elem_of_In%in_seq).
      rewrite Hi in Heq. apply Itoa_inj in Heq; [lia| |]; apply in_int64_small; lia.
    + intros Hlt. assert (Hin : Z.of_nat j ∈ seg_Content <$> SrcSegmentsHostInfo b).
      { rewrite Hsc. apply list_elem_of_fmap. exists j. split; [done|]. apply list_elem_of_In, in_seq. lia. }
      apply list_elem_of_fmap in Hin as (s & Heq & Hin). exists s. by rewrite Heq.
  - destruct (SrcSegmentsHostInfo b); simpl in Hns; [lia|done].
  - apply Forall_fmap, Forall_true. intros s. apply no_byte_Itoa_other. by apply (bool_decide_unpack _).
Qed.

(** A segment without helper has no source segment of its own. *)
Lemma helper_idle j : j < nd → helper_runs cmd j = false → share ns nd j = [].
Proof.
  intros Hj Hr. destruct (helper_runs_spec j Hj) as [Heq|[Heq _]]; [|congruence]. rewrite Heq in Hr.
  apply bool_decide_eq_false in Hr. apply filter_none. intros i Hi%list_elem_of_In%in_seq.
  rewrite Nat.mod_small by lia. lia.
Qed.

Lemma share_single j : ns ≤ nd → j < ns → share ns nd j = [j].
Proof.
  intros Hle Hj. rewrite share_from by lia. replace (ns - j) with (S (ns - j - 1)) by lia.
  pose proof (filter_mod_step j (ns - j - 1) nd ltac:(lia)) as Hf. rewrite (Nat.mod_small j) in Hf by lia.
  rewrite Hf. by replace (S (ns - j - 1) - nd) with 0 by lia.
Qed.

Lemma share_length_small j : (Z.of_nat (length (share ns nd j)) < 2 ^ 31)%Z.
Proof.
  destruct Hok as [_ _ _ [Hsm _] _ _ _ _]. unfold share.
  pose proof (length_filter (λ i, i `mod` nd = j) (seq 0 ns)) as Hl. rewrite length_seq in Hl. lia.
Qed.

Lemma share_nonempty j : nd ≤ ns → j < nd → 0 < length (share ns nd j).
Proof.
  intros Hle Hj. destruct (share ns nd j) as [|x l] eqn:Hs; [|simpl; lia]. exfalso.
  assert (Hin : j ∈ share ns nd j).
  { apply list_elem_of_filter. split; [by apply Nat.mod_small|apply list_elem_of_In, in_seq; lia]. }
  rewrite Hs in Hin. by apply elem_of_nil in Hin.
Qed.

Lemma MustGetFlagString_range : MustGetFlagString CmdFlags DATA_PORT_RANGE = Ok range.
Proof. unfold MustGetFlagString. by rewrite (proj1 (tr_range _ _ _ _ Hok)). Qed.

(** The numbers of clients of the destination segments. *)
Definition client_counts : list Z := (λ j, Z.of_nat (length (share ns nd j))) <$> seq 0 nd.

Lemma client_counts_ok : client_counts ≠ [] ∧ Forall (λ z, in_int64 z = true) client_counts.
Proof.
  pose proof (tr_dest _ _ _ _ Hok). unfold client_counts. split; [by destruct nd; [lia|]|].
  apply Forall_fmap, Forall_true. intros j. simpl. apply in_int64_small. pose proof (share_length_small j). lia.
Qed.

(** The server of destination segment [j] waits for its share. *)
Lemma receiving_server c j extra : j < nd → helper_runs cmd j = true →
  (extra = [] ∧ ns ≤ nd) ∨ (extra = client_counts ∧ nd < ns) →
  SegID c = Z.of_nat j → NumClients c = Itoa <$> extra →
  ∃ s, createServerImpl c = Ok s ∧ numConn s = Z.of_nat (length (share ns nd j)).
Proof.
  intros Hj Hruns Hextra Hseg Hnum. unfold createServerImpl, seg_index. rewrite Hseg, (proj2 (Z.leb_le 0 _)), Hnum by lia.
  destruct Hextra as [[-> Hle]|[-> Hlt]].
  - exists OneTimeServer. split; [done|]. rewrite share_single; [done|done|].
    destruct (helper_runs_spec j Hj) as [Heq|[_ Hge]]; [|lia]. rewrite Hruns in Heq. symmetry in Heq.
    by apply bool_decide_eq_true in Heq.
  - assert (Hlen : length (Itoa <$> client_counts) = nd) by (unfold client_counts; by rewrite !length_fmap, length_seq).
    rewrite Hlen, bool_decide_true, (proj2 (Z.ltb_lt _ _)) by lia. cbn [andb]. rewrite indexZ_nat.
    assert (Hix : index (Itoa <$> client_counts) j = Ok (Itoa (Z.of_nat (length (share ns nd j))))).
    { apply index_Ok. unfold client_counts. by rewrite !list_lookup_fmap, lookup_seq_lt by done. }
    rewrite Hix. cbn [mbind go_bind]. eexists. split; [reflexivity|].
    pose proof (share_length_small j). pose proof (share_nonempty j ltac:(lia) Hj).
    rewrite Atoi_Itoa by (apply in_int64_small; lia). cbn [default]. simpl.
    destruct (Z.ltb_spec 1 (Z.of_nat (length (share ns nd j)))); cbn [numConn]; [|lia].
    unfold wrapu. rewrite Z.mod_small; lia.
Qed.

Local Abbreviation A := (addresses (DestSegmentsHostInfo b) ports).

Section push.
Context (Hpush : ConnectionMode b = ConnectionModePush).

Lemma push_modes : is_push b = true ∧ is_pull b = false.
Proof. unfold is_push, is_pull. rewrite Hpush. done. Qed.

Lemma push_ports : length A = min ns nd ∧ 0 < length A ∧ length A = length ports.
Proof.
  destruct Hok as [Hs Hns Hnd _ _ [Hp _] _ _]. unfold IsCopyFromStarted in Hp. rewrite (proj2 push_modes) in Hp.
  unfold addresses. rewrite length_zip_with, !length_fmap.
  destruct (cmd_strategy cmd); [done| | |]; apply bool_decide_eq_true in Hp; lia.
Qed.

Lemma round_robin_id : length A = ns → round_robin A (seq 0 ns) = A.
Proof.
  intros Hlen. apply list_eq. intros i. destruct (decide (i < ns)) as [Hi|Hi].
  - rewrite (round_robin_lookup _ _ _ i) by (try apply push_ports; by apply lookup_seq_lt).
    by rewrite Nat.mod_small by lia.
  - rewrite !lookup_ge_None_2; [done|lia|]. rewrite round_robin_length by apply push_ports. rewrite length_seq. lia.
Qed.

Lemma dialled_plain (l : list nat) : l ≠ [] →
  plain_word (Join (round_robin A l).*1 ",") = true ∧ plain_word (Join (round_robin A l).*2 ",") = true.
Proof.
  intros Hl. destruct push_ports as (_ & Hpos & _). destruct (tr_contents _ _ _ _ Hok (DestSegmentsHostInfo b)) as [_ Hhosts]; [by right|].
  assert (Hne : round_robin A l ≠ []) by (intros Hnil%(f_equal length); rewrite round_robin_length in Hnil by done; by destruct l).
  apply plain_addresses; [done|]. apply round_robin_good, addresses_good; [done|apply (tr_ports _ _ _ _ Hok)].
Qed.

Lemma push_to srcTable destTable cmdId ext : names_ok srcTable destTable cmdId ext →
  ∃ q, CopyTo_query CmdFlags cmd srcTable ports cmdId = Ok q ∧
    ∀ i, launch q i = parsed (dial_flags (CompArg b) (Itoa (Z.of_nat i)) (Join (round_robin A (seq 0 ns)).*1 ",")
      (Join (round_robin A (seq 0 ns)).*2 ",") [] "send").
Proof.
  intros [[Hsch Hname] _ _ _]. destruct push_ports as (Hmin & Hpos & Hlen). destruct push_modes as [Hpu Hpl].
  pose proof (tr_comp _ _ _ _ Hok) as Hcomp. pose proof (tr_strategy _ _ _ _ Hok) as Hs. pose proof (tr_src _ _ _ _ Hok) as Hns.
  destruct (dialled_plain (seq 0 ns)) as [Hip Hport]; [by destruct ns; [lia|]|].
  pose proof (FormAllSegsHelperAddress_spec b ports) as Hall. rewrite Hpu in Hall. cbn zeta in Hall.
  unfold CopyTo_query, CopyOnMaster_formatCopyToCommand, CopyOnSegment_CopyTo, ExtDestGeCopy_CopyTo, ExtDestLtCopy_CopyTo. rewrite Hpl. destruct (cmd_strategy cmd) eqn:Hstr; [done| | |].
  1, 2: rewrite Hall by lia; cbn [mbind go_bind]; eexists; (split; [reflexivity|]); intros i;
    rewrite round_robin_id in * by lia; by apply copy_to_dial_launch.
  rewrite FormDestSegsHelperAddress_spec by lia. cbn [mbind go_bind]. eexists. split; [reflexivity|]. intros i.
  by apply copy_to_dial_launch.
Qed.

Lemma push_from srcTable destTable cmdId ext : names_ok srcTable destTable cmdId ext →
  ∃ q extra counts, CopyFrom_query CmdFlags cmd destTable [] cmdId ext = Ok q ∧
    (∀ j, launch q j = if helper_runs cmd j then parsed (listen_receive_flags (CompArg b) cmdId (Itoa (Z.of_nat j)) range extra) else NotLaunched) ∧
    ((extra = [] ∧ counts = [] ∧ ns ≤ nd) ∨
     (extra = [("client-numbers", Join (Itoa <$> counts) ",")] ∧ counts = client_counts ∧ nd < ns)).
Proof.
  intros [_ [Hsch Hname] Hext Hcmd]. pose proof (tr_comp _ _ _ _ Hok) as Hcomp. pose proof (tr_strategy _ _ _ _ Hok) as Hs.
  destruct push_modes as [_ Hpl]. pose proof (tr_dest _ _ _ _ Hok). destruct (tr_range _ _ _ _ Hok) as (_ & _ & Hrange).
  destruct (tr_contents _ _ _ _ Hok (DestSegmentsHostInfo b)) as [Hcont _]; [by right|].
  unfold CopyFrom_query, CopyOnMaster_formatCopyFromCommand, CopyOnSegment_CopyFrom, ExtDestGeCopy_CopyFrom, ExtDestLtCopy_CopyFrom, helper_runs.
  rewrite Hpl, MustGetFlagString_range. cbn [mbind go_bind].
  destruct (cmd_strategy cmd) eqn:Hstr; [done| | |].
  - eexists _, [], []. split; [reflexivity|]. split; [|left; split_and!; [done|done|lia]]. intros j.
    apply (launch_args _ (cat ["COPY "; Schema destTable; "."; Name destTable; " FROM PROGRAM "])
      (λ seg, listen_receive_flags (CompArg b) cmdId seg range []) "ON SEGMENT CSV" "<SEGID>");
      [unfold listen_receive_flags; text_of Hcomp|closed_text|reflexivity|by left|].
    apply line_listen_receive; [by left|done..|apply line_nil].
  - eexists _, [], []. split; [reflexivity|]. split; [|left; split_and!; [done|done|lia]]. intros j.
    apply (launch_loop_args _ (cat ["CREATE EXTERNAL WEB TEMP TABLE "; ext; " (like "; Schema destTable; "."; Name destTable; ") EXECUTE "]) (FormAllSegsIds b)
      (λ seg, listen_receive_flags (CompArg b) cmdId seg range []) "FORMAT 'csv'" "$GP_SEGMENT_ID");
      [unfold listen_receive_flags, external_table; loop_text; text_of Hcomp|closed_text|reflexivity|apply ids_no_byte; by left|apply ids_no_byte; by right|by right|].
    apply line_listen_receive; [by right|done..|apply line_nil].
  - rewrite formClientNumbers_spec by (done || lia). cbn [mbind go_bind]. eexists _, _, client_counts. split; [reflexivity|].
    split; [|right; split_and!; [reflexivity|done|lia]]. intros j.
    apply (launch_args _ (cat ["CREATE EXTERNAL WEB TEMP TABLE "; ext; " (like "; Schema destTable; "."; Name destTable; ") EXECUTE "])
      (λ seg, listen_receive_flags (CompArg b) cmdId seg range [("client-numbers", Join (Itoa <$> client_counts) ",")]) "FORMAT 'csv'" "$GP_SEGMENT_ID");
      [unfold listen_receive_flags, external_table, client_counts; rewrite <- list_fmap_compose; text_of Hcomp|closed_text|reflexivity|by right|].
    apply line_listen_receive; [by right|done..|]. apply line_word; [by right|done|done|]. apply plain_Join_Itoa, client_counts_ok.
Qed.

(** The two commands and the helpers they start. *)
Definition push_agreement (toQuery fromQuery : string) (cmdId : string) : Prop :=
  (∀ i, i < ns → ∃ c, launch toQuery i = Launched c ∧ Run_role c = Client ∧
     Direction c = DirectionModeSend ∧ compression_of c = compression_arg (CompArg b) ∧
     dials c = Ok (option_list (A !! (i `mod` nd))) ∧ is_Some (A !! (i `mod` nd))) ∧
  (∀ j, j < nd →
     (∃ c clients s, launch fromQuery j = Launched c ∧ listener c (Z.of_nat j) cmdId DirectionModeReceive clients ∧
        compression_of c = compression_arg (CompArg b) ∧
        createServerImpl c = Ok s ∧ numConn s = Z.of_nat (length (share ns nd j))) ∨
     launch fromQuery j = NotLaunched ∧ share ns nd j = []).
Lemma push_agrees (srcTable destTable : Table) (cmdId ext : string) : names_ok srcTable destTable cmdId ext →
  ∃ toQuery fromQuery, CopyTo_query CmdFlags cmd srcTable ports cmdId = Ok toQuery ∧
    CopyFrom_query CmdFlags cmd destTable [] cmdId ext = Ok fromQuery ∧ push_agreement toQuery fromQuery cmdId.
Proof.
  intros Hnames. destruct (push_to _ _ _ _ Hnames) as (q & Hq & Hto). destruct (push_from _ _ _ _ Hnames) as (q' & extra & counts & Hq' & Hfrom & Hextra).
  destruct push_ports as (Hmin & Hpos & Hlen). destruct Hok as [_ Hns Hnd [Hsm1 Hsm2] Hc [_ Hp] Hcomp (_ & Hr & _)].
  assert (Hgood : Forall good_address A) by (apply addresses_good; [by apply Hc; right|done]).
  exists q, q'. split; [done|]. split; [done|]. split.
  - intros i Hi.
    destruct (parse_dial_addresses (CompArg b) i (round_robin A (seq 0 ns)) [] 0 "send") as (c & Hc' & Hrole & HH & HP & Hseg & Hdir & Hn & Hconf);
      [done|lia| |by apply round_robin_good|by left|].
    { intros Hnil%(f_equal length). rewrite round_robin_length, length_seq in Hnil by done. simpl in Hnil. lia. }
    assert (Hmod : i `mod` length A = i `mod` nd).
    { rewrite Hmin. destruct (decide (ns ≤ nd)); [|by rewrite Nat.min_r by lia]. rewrite Nat.min_l by lia.
      rewrite !Nat.mod_small by lia. done. }
    exists c. split; [rewrite Hto; by apply parsed_Ok|]. split_and!; try done.
    + rewrite (dials_one_time c _ HH HP i) by done. rewrite (round_robin_lookup _ _ i i) by (done || by apply lookup_seq_lt).
      by rewrite Hmod.
    + rewrite <- Hmod. apply lookup_lt_is_Some_2, Nat.mod_upper_bound. lia.
  - intros j Hj. rewrite Hfrom. destruct (helper_runs cmd j) eqn:Hruns; [left|right; split; [done|by apply helper_idle]].
    destruct (parse_listen_receive (CompArg b) (Z.of_nat j) cmdId range extra counts) as (c & Hc' & Hl & Hconf); [done|lia|done| |].
    { destruct Hextra as [(-> & -> & _)|(-> & -> & _)]; [by left|right]. split; [done|apply client_counts_ok]. }
    destruct (receiving_server c j counts Hj Hruns) as (s & Hs & Hn); [tauto|by apply Hl|by apply Hl|].
    exists c, (Itoa <$> counts), s. split; [by apply parsed_Ok|done].
Qed.

(** C2: in push mode the commands of the two sides agree. Read by the server and
    the shell ([launch]), the command for the source starts, on every source
    segment, a helper that dials the listener of destination segment [i mod nd];
    the command for the destination starts, on every destination segment that
    has a source, a helper that listens in the allowed range and waits for
    exactly as many clients as dial it, and no helper on the others. Both command
    lines pass the helper's validation and agree on the compression. *)
Theorem push_wiring (srcTable destTable : Table) (cmdId ext : string) (Hnames : names_ok srcTable destTable cmdId ext) :
  ∃ toQuery fromQuery,
    CopyTo_query CmdFlags cmd srcTable ports cmdId = Ok toQuery ∧
    CopyFrom_query CmdFlags cmd destTable [] cmdId ext = Ok fromQuery ∧
    (∀ i, i < ns → ∃ c, launch toQuery i = Launched c ∧ Run_role c = Client ∧
       Direction c = DirectionModeSend ∧ compression_of c = compression_arg (CompArg b) ∧
       dials c = Ok (option_list (A !! (i `mod` nd))) ∧ is_Some (A !! (i `mod` nd))) ∧
    (∀ j, j < nd →
       (∃ c clients s, launch fromQuery j = Launched c ∧ listener c (Z.of_nat j) cmdId DirectionModeReceive clients ∧
          compression_of c = compression_arg (CompArg b) ∧
          createServerImpl c = Ok s ∧ numConn s = Z.of_nat (length (share ns nd j))) ∨
       launch fromQuery j = NotLaunched ∧ share ns nd j = []).
Proof. exact (push_agrees srcTable destTable cmdId ext Hnames). Qed.
End push.

Local Abbreviation L := (addresses (SrcSegmentsHostInfo b) ports).

Section pull.
Context (Hpull : ConnectionMode b = ConnectionModePull).

Lemma pull_modes : is_push b = false ∧ is_pull b = true.
Proof. unfold is_push, is_pull. rewrite Hpull. done. Qed.

Lemma pull_ports : length ports = ns ∧ length L = ns.
Proof.
  destruct Hok as [Hs Hns Hnd _ _ [Hp _] _ _]. unfold IsCopyFromStarted in Hp. rewrite (proj2 pull_modes) in Hp.
  unfold addresses. rewrite length_zip_with, !length_fmap.
  destruct (cmd_strategy cmd); [done| | |]; apply bool_decide_eq_true in Hp; lia.
Qed.

Lemma pull_to srcTable destTable cmdId ext : names_ok srcTable destTable cmdId ext →
  ∃ q, CopyTo_query CmdFlags cmd srcTable [] cmdId = Ok q ∧
    ∀ i, launch q i = parsed (listen_send_flags (CompArg b) cmdId (Itoa (Z.of_nat i)) range).
Proof.
  intros [[Hsch Hname] _ _ Hcmd]. pose proof (tr_comp _ _ _ _ Hok) as Hcomp. pose proof (tr_strategy _ _ _ _ Hok) as Hs.
  destruct (tr_range _ _ _ _ Hok) as (_ & _ & Hrange).
  unfold CopyTo_query, CopyOnMaster_formatCopyToCommand, CopyOnSegment_CopyTo, ExtDestGeCopy_CopyTo, ExtDestLtCopy_CopyTo. rewrite (proj2 pull_modes). unfold copy_to_listen. rewrite MustGetFlagString_range.
  destruct (cmd_strategy cmd); [done| | |]; cbn [mbind go_bind]; eexists; (split; [reflexivity|]); intros i;
    (apply (launch_args _ (cat ["COPY "; Schema srcTable; "."; Name srcTable; " TO PROGRAM "])
      (λ seg, listen_send_flags (CompArg b) cmdId seg range) "ON SEGMENT CSV IGNORE EXTERNAL PARTITIONS" "<SEGID>");
      [unfold listen_send_flags; text_of Hcomp|closed_text|reflexivity|by left|];
     apply line_listen_send; [by left|done..]).
Qed.

Lemma pull_from srcTable destTable cmdId ext : names_ok srcTable destTable cmdId ext →
  ∃ q extra n, CopyFrom_query CmdFlags cmd destTable ports cmdId ext = Ok q ∧
    (∀ j, launch q j = if helper_runs cmd j then parsed (dial_flags (CompArg b) (Itoa (Z.of_nat j)) (Join L.*1 ",") (Join L.*2 ",") extra "receive")
                       else NotLaunched) ∧
    ((extra = [] ∧ n = 0 ∧ ns ≤ nd) ∨ (extra = [("num-dests", Itoa (Z.of_nat n))] ∧ n = nd ∧ nd < ns)).
Proof.
  intros [_ [Hsch Hname] Hext _]. pose proof (tr_comp _ _ _ _ Hok) as Hcomp. pose proof (tr_strategy _ _ _ _ Hok) as Hs.
  destruct pull_modes as [Hpu Hpl]. destruct pull_ports as [Hp HL]. pose proof (tr_src _ _ _ _ Hok) as Hns.
  assert (Hplain : plain_word (Join L.*1 ",") = true ∧ plain_word (Join L.*2 ",") = true).
  { destruct (tr_contents _ _ _ _ Hok (SrcSegmentsHostInfo b)) as [_ Hhosts]; [by left|].
    apply plain_addresses; [intros Hnil; rewrite Hnil in HL; simpl in HL; lia|]. apply addresses_good; [done|apply (tr_ports _ _ _ _ Hok)]. }
  destruct Hplain as [Hip Hport]. pose proof (FormAllSegsHelperAddress_spec b ports) as Hall. rewrite Hpu in Hall. cbn zeta in Hall.
  unfold CopyFrom_query, CopyOnMaster_formatCopyFromCommand, CopyOnSegment_CopyFrom, ExtDestGeCopy_CopyFrom, ExtDestLtCopy_CopyFrom, helper_runs.
  rewrite Hpl. destruct (cmd_strategy cmd) eqn:Hstr; [done| | |].
  - rewrite Hall by lia. cbn [mbind go_bind]. eexists _, [], 0. split; [reflexivity|]. split; [|left; split_and!; [done|done|lia]]. intros j.
    apply (launch_args _ (cat ["COPY "; Schema destTable; "."; Name destTable; " FROM PROGRAM "])
      (λ seg, dial_flags (CompArg b) seg (Join L.*1 ",") (Join L.*2 ",") [] "receive") "ON SEGMENT CSV" "<SEGID>");
      [unfold dial_flags; text_of Hcomp|closed_text|reflexivity|by left|].
    apply line_dial; [by left|done..|apply line_nil].
  - rewrite Hall by lia. cbn [mbind go_bind]. eexists _, [], 0. split; [reflexivity|]. split; [|left; split_and!; [done|done|lia]]. intros j.
    apply (launch_loop_args _ (cat ["CREATE EXTERNAL WEB TEMP TABLE "; ext; " (like "; Schema destTable; "."; Name destTable; ") EXECUTE "]) (FormAllSegsIds b)
      (λ seg, dial_flags (CompArg b) seg (Join L.*1 ",") (Join L.*2 ",") [] "receive") "FORMAT 'csv'" "$GP_SEGMENT_ID");
      [unfold dial_flags, external_table; loop_text; text_of Hcomp|closed_text|reflexivity|apply ids_no_byte; by left|apply ids_no_byte; by right|by right|].
    apply line_dial; [by right|done..|apply line_nil].
  - rewrite FormSrcSegsHelperAddress_spec by done. cbn [mbind go_bind]. eexists _, _, nd. split; [reflexivity|].
    split; [|right; split_and!; [reflexivity|done|lia]]. intros j.
    apply (launch_args _ (cat ["CREATE EXTERNAL WEB TEMP TABLE "; ext; " (like "; Schema destTable; "."; Name destTable; ") EXECUTE "])
      (λ seg, dial_flags (CompArg b) seg (Join L.*1 ",") (Join L.*2 ",") [("num-dests", Itoa (Z.of_nat nd))] "receive") "FORMAT 'csv'" "$GP_SEGMENT_ID");
      [unfold dial_flags, external_table; text_of Hcomp|closed_text|reflexivity|by right|].
    apply line_dial; [by right|done..|]. apply line_word; [by right|done|done|apply plain_Itoa].
Qed.

(** The two commands and the helpers they start. *)
Definition pull_agreement (toQuery fromQuery : string) (cmdId : string) : Prop :=
  (∀ i, i < ns → ∃ c, launch toQuery i = Launched c ∧ listener c (Z.of_nat i) cmdId DirectionModeSend [] ∧
     compression_of c = compression_arg (CompArg b) ∧ createServerImpl c = Ok OneTimeServer) ∧
  (∀ j, j < nd →
     (∃ c, launch fromQuery j = Launched c ∧ Run_role c = Client ∧
        Direction c = DirectionModeReceive ∧ compression_of c = compression_arg (CompArg b) ∧
        dials c = Ok (omap (L !!.) (share ns nd j))) ∨
     launch fromQuery j = NotLaunched ∧ share ns nd j = []) ∧
  seq 0 nd ≫= share ns nd ≡ₚ seq 0 ns.
Lemma pull_agrees (srcTable destTable : Table) (cmdId ext : string) : names_ok srcTable destTable cmdId ext →
  ∃ toQuery fromQuery, CopyTo_query CmdFlags cmd srcTable [] cmdId = Ok toQuery ∧
    CopyFrom_query CmdFlags cmd destTable ports cmdId ext = Ok fromQuery ∧ pull_agreement toQuery fromQuery cmdId.
Proof.
  intros Hnames. destruct (pull_to _ _ _ _ Hnames) as (q & Hq & Hto). destruct (pull_from _ _ _ _ Hnames) as (q' & extra & n & Hq' & Hfrom & Hextra).
  destruct pull_ports as [Hlen HlenS]. destruct Hok as [_ Hns Hnd [Hsm1 Hsm2] Hc [_ Hp] Hcomp (_ & Hr & _)].
  assert (Hgood : Forall good_address L) by (apply addresses_good; [by apply Hc; left|done]).
  exists q, q'. split; [done|]. split; [done|]. split; [|split; [|by apply share_partition]].
  - intros i Hi. destruct (parse_listen_send (CompArg b) (Z.of_nat i) cmdId range) as (c & Hc' & Hl & Hconf); [done|lia|done|].
    exists c. split; [rewrite Hto; by apply parsed_Ok|]. split_and!; try done. unfold createServerImpl. destruct Hl as (_ & _ & _ & _ & -> & _). done.
  - intros j Hj. rewrite Hfrom. destruct (helper_runs cmd j) eqn:Hruns; [left|right; split; [done|by apply helper_idle]].
    destruct (parse_dial_addresses (CompArg b) j L extra n "receive") as (c & Hc' & Hrole & HH & HP & Hseg & Hdir & Hn & Hconf);
      [done|lia|intros Hnil; rewrite Hnil in HlenS; simpl in HlenS; lia|done| |].
    { destruct Hextra as [(-> & -> & _)|(-> & -> & _)]; [by left|by right]. }
    exists c. split; [by apply parsed_Ok|]. split_and!; try done. destruct Hextra as [(-> & -> & Hle)|(-> & -> & Hlt)].
    + rewrite (dials_one_time c L HH HP j) by done. f_equal.
      destruct (helper_runs_spec j Hj) as [Heq|[_ Hge]].
      * rewrite Hruns in Heq. symmetry in Heq. apply bool_decide_eq_true in Heq. rewrite share_single by lia.
        cbn [omap list_omap]. by destruct (L !! j).
      * rewrite share_single by lia. cbn [omap list_omap]. by destruct (L !! j).
    + rewrite (dials_concurrent c L nd HH HP j) by (done || lia). by rewrite HlenS.
Qed.

(** C3: in pull mode the commands of the two sides agree. Read by the server and
    the shell ([launch]), the command for the source starts, on every source
    segment, a helper that listens for one client, and the helpers that the
    command for the destination starts dial the listeners of their share of the
    source segments; the shares split the source segments, so every source
    segment is received exactly once. Both command lines pass the helper's
    validation and agree on the compression. *)
Theorem pull_wiring (srcTable destTable : Table) (cmdId ext : string) (Hnames : names_ok srcTable destTable cmdId ext) :
  ∃ toQuery fromQuery,
    CopyTo_query CmdFlags cmd srcTable [] cmdId = Ok toQuery ∧
    CopyFrom_query CmdFlags cmd destTable ports cmdId ext = Ok fromQuery ∧
    (∀ i, i < ns → ∃ c, launch toQuery i = Launched c ∧ listener c (Z.of_nat i) cmdId DirectionModeSend [] ∧
       compression_of c = compression_arg (CompArg b) ∧ createServerImpl c = Ok OneTimeServer) ∧
    (∀ j, j < nd →
       (∃ c, launch fromQuery j = Launched c ∧ Run_role c = Client ∧
          Direction c = DirectionModeReceive ∧ compression_of c = compression_arg (CompArg b) ∧
          dials c = Ok (omap (L !!.) (share ns nd j))) ∨
       launch fromQuery j = NotLaunched ∧ share ns nd j = []) ∧
    seq 0 nd ≫= share ns nd ≡ₚ seq 0 ns.
Proof. exact (pull_agrees srcTable destTable cmdId ext Hnames). Qed.
End pull.
End transfer.

(** * Instances *)

Definition sample_segs (prefix : string) (n : nat) : list SegmentHostInfo :=
  (λ i, {| seg_Content := Z.of_nat i; Hostname := prefix +:+ Itoa (Z.of_nat i) |}) <$> seq 0 n.
Definition sample_ports (n : nat) : list HelperPortInfo :=
  (λ i, {| hp_Content := Z.of_nat i; Port := 5000 + Z.of_nat i |}) <$> seq 0 n.
Definition sample_command (mode : string) : CopyCommand :=
  new_command ExtDestLtCopy 0 (sample_segs "src" 5) (sample_segs "dest" 2) mode "--compress-type zstd".
Definition default_flags : flag_map := the_flags (parse_args []).

Lemma sample_transfer mode n : IsCopyFromStarted (sample_command mode) n = true →
  transfer_ok default_flags (sample_command mode) (sample_ports n) "1024-65535".
Proof.
  intros Hn. split.
  - simpl. lia.
  - simpl. lia.
  - simpl. lia.
  - done.
  - intros segs [-> | ->]; (split; [vm_compute; reflexivity|apply (bool_decide_unpack _); vm_compute; exact I]).
  - split; [unfold sample_ports; by rewrite length_fmap, length_seq|].
    assert (Hn5 : n ≤ 5). { unfold IsCopyFromStarted in Hn. simpl in Hn. destruct (is_pull _) in Hn; apply bool_decide_eq_true in Hn; lia. }
    apply Forall_fmap, Forall_forall. intros i Hi%list_elem_of_In%in_seq. apply in_int64_small. simpl. lia.
  - apply (bool_decide_unpack _). vm_compute. exact I.
  - split; [vm_compute; reflexivity|]. split; [|reflexivity]. exists 1024%Z, 65535%Z. split; [vm_compute; reflexivity|lia].
Qed.

(** Five source segments are sent to two destination segments. *)
Definition sample_names : names_ok (mkTable "public" "t") (mkTable "public" "t") "id" "ext".
Proof. by repeat split. Defined.

Lemma push_wiring_witness :
  let cmd := sample_command "push" in
  let t := mkTable "public" "t" in
  share 5 2 0 = [0; 2; 4] ∧
  ∃ toQuery fromQuery,
    CopyTo_query default_flags cmd t (sample_ports 2) "id" = Ok toQuery ∧
    CopyFrom_query default_flags cmd t [] "id" "ext" = Ok fromQuery ∧
    (∀ i, i < 5 → ∃ c, launch toQuery i = Launched c ∧ Run_role c = Client ∧
       Direction c = DirectionModeSend ∧ compression_of c = (false, CompressZstd) ∧
       dials c = Ok (option_list (addresses (sample_segs "dest" 2) (sample_ports 2) !! (i `mod` 2))) ∧
       is_Some (addresses (sample_segs "dest" 2) (sample_ports 2) !! (i `mod` 2))) ∧
    (∀ j, j < 2 →
       (∃ c clients s, launch fromQuery j = Launched c ∧ listener c (Z.of_nat j) "id" DirectionModeReceive clients ∧
          compression_of c = (false, CompressZstd) ∧
          createServerImpl c = Ok s ∧ numConn s = Z.of_nat (length (share 5 2 j))) ∨
       launch fromQuery j = NotLaunched ∧ share 5 2 j = []).
Proof.
  intros cmd t. split; [reflexivity|].
  apply (push_wiring default_flags cmd (sample_ports 2) "1024-65535"); [by apply sample_transfer|reflexivity|exact sample_names].
Defined.

Lemma pull_wiring_witness :
  let cmd := sample_command "pull" in
  let t := mkTable "public" "t" in
  ∃ toQuery fromQuery,
    CopyTo_query default_flags cmd t [] "id" = Ok toQuery ∧
    CopyFrom_query default_flags cmd t (sample_ports 5) "id" "ext" = Ok fromQuery ∧
    (∀ i, i < 5 → ∃ c, launch toQuery i = Launched c ∧ listener c (Z.of_nat i) "id" DirectionModeSend [] ∧
       compression_of c = (false, CompressZstd) ∧ createServerImpl c = Ok OneTimeServer) ∧
    (∀ j, j < 2 →
       (∃ c, launch fromQuery j = Launched c ∧ Run_role c = Client ∧
          Direction c = DirectionModeReceive ∧ compression_of c = (false, CompressZstd) ∧
          dials c = Ok (omap (addresses (sample_segs "src" 5) (sample_ports 5) !!.) (share 5 2 j))) ∨
       launch fromQuery j = NotLaunched ∧ share 5 2 j = []) ∧
    seq 0 2 ≫= share 5 2 ≡ₚ seq 0 5.
Proof.
  intros cmd t. apply (pull_wiring default_flags cmd (sample_ports 5) "1024-65535"); [by apply sample_transfer|reflexivity|exact sample_names].
Defined.
