(* ===== verification/DbConn.v ===== *)
(** Connection pools with their transaction slots ([internal/dbconn/dbconn.go]).
    The database server is a parameter: it answers a request as a function of
    everything that was sent before. *)
From S2P Require Import Prelude.

(** * The server *)

Inductive request := QBegin | QCommit | QRollback | QExec (sql : string).
#[export] Instance request_eq : EqDecision request.
Proof. solve_decision. Defined.

(** A request on connection [ev_conn] of the pool, whether it was sent through
    an open transaction, and the answer: the affected rows or an error. *)
Record event := { ev_conn : nat; ev_tx : bool; ev_req : request; ev_answer : go Z }.

Definition server := list event → nat → bool → request → go Z.

(** * Pools *)

(** [Tx[i]] is open or nil; [log] is what was sent so far. *)
Record DBConn := { NumConns : nat; Tx : list bool; log : list event }.

(** A call on a pool: a new pool with a value, an error the caller sees, or a
    termination of the program. *)
Definition call (A : Type) : Type := DBConn → DBConn * go A.
Definition ret {A} (a : A) : call A := λ c, (c, Ok a).
Definition raise {A} (e : go A) : call A := λ c, (c, e).
Definition bind {A B} (m : call A) (k : A → call B) : call B := λ c,
  match m c with
  | (c', Ok a) => k a c'
  | (c', Err e) => (c', Err e)
  | (c', Fatal e) => (c', Fatal e)
  | (c', Panic e) => (c', Panic e)
  end.
Notation "'do!' x ':=' m 'in' k" := (bind m (λ x, k))
  (at level 10, x pattern, m at level 100, k at level 200) : go_scope.

Section pool.
Context (answers : server).

Definition send (connNum : nat) (intx : bool) (r : request) : call Z := λ c,
  let a := answers (log c) connNum intx r in
  ({| NumConns := NumConns c; Tx := Tx c;
      log := log c ++ [{| ev_conn := connNum; ev_tx := intx; ev_req := r; ev_answer := a |}] |}, a).

(** [ValidateConnNum] of one connection number. *)
Definition ValidateConnNum (whichConn : nat) : call nat := λ c,
  if bool_decide (NumConns c ≤ whichConn) then (c, Fatal "Invalid connection number")
  else (c, Ok whichConn).

Definition get_tx (connNum : nat) : call bool := λ c, (c, index (Tx c) connNum).
Definition set_tx (connNum : nat) (v : bool) : call () := λ c,
  ({| NumConns := NumConns c; Tx := <[connNum := v]> (Tx c); log := log c |}, Ok ()).

(** [Exec] and [ExecContext]: through the transaction when one is open. *)
Definition Exec (query : string) (whichConn : nat) : call Z :=
  do! connNum := ValidateConnNum whichConn in
  do! tx := get_tx connNum in
  send connNum tx (QExec query).

Definition Begin (whichConn : nat) : call () :=
  do! connNum := ValidateConnNum whichConn in
  do! tx := get_tx connNum in
  if (tx : bool) then raise (Err "Cannot begin transaction; there is already a transaction in progress")
  else
    do! _ := send connNum false QBegin in
    do! _ := set_tx connNum true in
    do! _ := Exec "SET TRANSACTION ISOLATION LEVEL SERIALIZABLE" connNum in
    ret ().

(** [Commit] and [Rollback] clear the slot whatever the server answers. *)
Definition finish (r : request) (what : string) (whichConn : nat) : call () :=
  do! connNum := ValidateConnNum whichConn in
  do! tx := get_tx connNum in
  if negb tx then raise (Err ("Cannot " +:+ what +:+ " transaction; there is no transaction in progress"))
  else λ c,
    let '(c, a) := send connNum true r c in
    let '(c, _) := set_tx connNum false c in
    (c, let! _ := a in Ok ()).
Definition Commit : nat → call () := finish QCommit "commit".
Definition Rollback : nat → call () := finish QRollback "rollback".

(** * What a call leaves behind *)

(** A server answers with rows or with an error. *)
Definition polite : Prop := ∀ h n t r, (∃ z, answers h n t r = Ok z) ∨ (∃ e, answers h n t r = Err e).

Definition wf (c : DBConn) : Prop := length (Tx c) = NumConns c.

(** The events a call adds, all on one connection, and what they leave in the
    other slots. *)
Record only_on (w : nat) (c c' : DBConn) (evs : list event) : Prop := {
  on_num : NumConns c' = NumConns c;
  on_log : log c' = log c ++ evs;
  on_conn : Forall (λ e, ev_conn e = w) evs;
  on_wf : wf c → wf c';
  on_other : ∀ i, i ≠ w → Tx c' !! i = Tx c !! i
}.

Lemma only_on_refl w c : only_on w c c [].
Proof. split; try done. by rewrite app_nil_r. Qed.

Lemma only_on_trans w c1 c2 c3 e1 e2 : only_on w c1 c2 e1 → only_on w c2 c3 e2 → only_on w c1 c3 (e1 ++ e2).
Proof.
  intros [H1 H2 H3 H4 H5] [K1 K2 K3 K4 K5]. split; [congruence|by rewrite K2, H2, app_assoc|by apply Forall_app|auto|].
  intros i Hi. by rewrite K5, H5.
Qed.

(** The call [m], from pool [c] and on connection [w] only, ends as [Q] says of
    the pool, the result and the events added. *)
Definition runs {A} (w : nat) (m : call A) (c : DBConn) (Q : DBConn → go A → list event → Prop) : Prop :=
  ∃ evs, only_on w c (m c).1 evs ∧ Q (m c).1 (m c).2 evs.

Lemma runs_mono {A} w (m : call A) c (Q Q' : DBConn → go A → list event → Prop) :
  runs w m c Q → (∀ c' r evs, only_on w c c' evs → Q c' r evs → Q' c' r evs) → runs w m c Q'.
Proof. intros (evs & Hon & HQ) Himp. exists evs. split; [done|by apply Himp]. Qed.

Lemma runs_bind {A B} w (m : call A) (k : A → call B) c (Q : DBConn → go B → list event → Prop) :
  runs w m c (λ c1 r e1, match r with
    | Ok a => runs w (k a) c1 (λ c2 r2 e2, Q c2 r2 (e1 ++ e2))
    | Err e => Q c1 (Err e) e1
    | Fatal e => Q c1 (Fatal e) e1
    | Panic e => Q c1 (Panic e) e1
    end) → runs w (bind m k) c Q.
Proof.
  intros (e1 & Hon1 & HQ). unfold runs, bind in *. destruct (m c) as [c1 [a|e|e|e]]; simpl in *.
  2-4: by exists e1.
  destruct HQ as (e2 & Hon2 & HQ). exists (e1 ++ e2). split; [by eapply only_on_trans|done].
Qed.

Lemma runs_ret {A} w (a : A) c (Q : DBConn → go A → list event → Prop) : Q c (Ok a) [] → runs w (ret a) c Q.
Proof. intros HQ. exists []. split; [apply only_on_refl|done]. Qed.

Lemma runs_raise {A} w (e : go A) c (Q : DBConn → go A → list event → Prop) : Q c e [] → runs w (raise e) c Q.
Proof. intros HQ. exists []. split; [apply only_on_refl|done]. Qed.

Lemma runs_step {A B} w (m : call A) (k : A → call B) c a (Q : DBConn → go B → list event → Prop) :
  m c = (c, Ok a) → runs w (k a) c Q → runs w (bind m k) c Q.
Proof. intros Hm HQ. unfold runs, bind in *. by rewrite Hm. Qed.

(** The state of a slot of a pool that has it. *)
Definition slot (c : DBConn) (w : nat) (t : bool) : Prop := w < NumConns c ∧ Tx c !! w = Some t.

Lemma slot_fun c w t t' : slot c w t → slot c w t' → t = t'.
Proof. intros [_ H1] [_ H2]. congruence. Qed.

Definition event_of (w : nat) (t : bool) (r : request) (a : go Z) : event :=
  {| ev_conn := w; ev_tx := t; ev_req := r; ev_answer := a |}.

Lemma ValidateConnNum_slot c w t : slot c w t → ValidateConnNum w c = (c, Ok w).
Proof. intros [Hw _]. unfold ValidateConnNum. rewrite bool_decide_false by lia. done. Qed.

Lemma get_tx_slot c w t : slot c w t → get_tx w c = (c, Ok t).
Proof. intros [_ Ht]. unfold get_tx. by rewrite (proj2 (index_Ok _ _ _) Ht). Qed.

(** A request: one event, the slot as before, rows or an error. *)
Lemma send_runs r w c t s (Hserver : polite) : slot c w s →
  runs w (send w t r) c (λ c' a evs, slot c' w s ∧ evs = [event_of w t r a] ∧ ((∃ z, a = Ok z) ∨ ∃ e, a = Err e)).
Proof.
  intros Hslot. exists [event_of w t r (answers (log c) w t r)].
  split; [split; simpl; try done; repeat constructor|]. split; [exact Hslot|]. split; [done|]. apply Hserver.
Qed.

Lemma Exec_runs q w c t (Hserver : polite) : slot c w t →
  runs w (Exec q w) c (λ c' r evs, slot c' w t ∧ evs = [event_of w t (QExec q) r] ∧
    ((∃ z, r = Ok z) ∨ ∃ e, r = Err e)).
Proof.
  intros Hslot. unfold Exec. eapply runs_step; [by eapply ValidateConnNum_slot|].
  eapply runs_step; [by eapply get_tx_slot|]. by apply send_runs.
Qed.

Lemma set_tx_runs w c t v : slot c w t → runs w (set_tx w v) c (λ c' r evs, r = Ok () ∧ evs = [] ∧ slot c' w v).
Proof.
  intros [Hw Ht]. exists []. split; [|split; [done|split; [done|split; [done|]]]].
  - split; simpl; [done|by rewrite app_nil_r|constructor|unfold wf; simpl; by rewrite length_insert|].
    intros i Hi. by rewrite list_lookup_insert_ne by done.
  - simpl. apply list_lookup_insert_eq. by eapply lookup_lt_Some.
Qed.

Definition isolation : string := "SET TRANSACTION ISOLATION LEVEL SERIALIZABLE".

(** [Begin] on a closed slot: open when it succeeds; when it fails the slot may
    be open already. *)
Lemma Begin_runs w c (Hserver : polite) : slot c w false →
  runs w (Begin w) c (λ c' r evs,
    (r = Ok () ∧ slot c' w true ∧ ∃ z z', evs = [event_of w false QBegin (Ok z); event_of w true (QExec isolation) (Ok z')]) ∨
    (∃ e, r = Err e ∧ (∃ t, slot c' w t) ∧
       Forall (λ ev, ev_req ev = QBegin ∨ ev_req ev = QExec isolation ∧ ev_tx ev = true) evs)).
Proof.
  intros Hslot. unfold Begin. eapply runs_step; [by eapply ValidateConnNum_slot|].
  eapply runs_step; [by eapply get_tx_slot|]. apply runs_bind.
  eapply runs_mono; [by eapply send_runs|]. intros c1 a e1 _ (Hs1 & -> & [[z ->]|[e ->]]).
  - apply runs_bind. eapply runs_mono; [by eapply set_tx_runs|]. intros c2 ? ? _ (-> & -> & Hs2).
    apply runs_bind. eapply runs_mono; [by eapply Exec_runs|]. intros c3 r e3 _ (Hs3 & -> & [[z' ->]|[e ->]]).
    + apply runs_ret. left. split; [done|]. split; [done|]. by exists z, z'.
    + right. exists e. split; [done|]. split; [by exists true|]. rewrite ?app_nil_l, ?Forall_app, !Forall_cons, !Forall_nil. simpl. naive_solver.
  - right. exists e. split; [done|]. split; [by exists false|]. rewrite ?app_nil_l, ?Forall_app, !Forall_cons, !Forall_nil. simpl. naive_solver.
Qed.

(** [Begin] on any slot: an open one is left open and nothing is sent. *)
Lemma Begin_any_runs w c t (Hserver : polite) : slot c w t →
  runs w (Begin w) c (λ c' r evs,
    (t = false ∧ r = Ok () ∧ slot c' w true ∧ ∃ z z', evs = [event_of w false QBegin (Ok z); event_of w true (QExec isolation) (Ok z')]) ∨
    (∃ e, r = Err e ∧ (∃ t, slot c' w t) ∧
       Forall (λ ev, ev_req ev = QBegin ∨ ev_req ev = QExec isolation ∧ ev_tx ev = true) evs)).
Proof.
  intros Hslot. destruct t.
  - unfold Begin. eapply runs_step; [by eapply ValidateConnNum_slot|]. eapply runs_step; [by eapply get_tx_slot|].
    apply runs_raise. right. eexists. split; [reflexivity|]. split; [by exists true|constructor].
  - eapply runs_mono; [by apply Begin_runs|]. naive_solver.
Qed.

(** [Commit] and [Rollback] close the slot; on a closed slot they fail without
    asking the server. *)
Lemma finish_runs r what w c t (Hserver : polite) : slot c w t →
  runs w (finish r what w) c (λ c' res evs, slot c' w false ∧
    ((t = true ∧ ∃ z, res = Ok () ∧ evs = [event_of w true r (Ok z)]) ∨
     (∃ e, res = Err e ∧ Forall (λ ev, ev_req ev = r ∧ ev_answer ev = Err e) evs))).
Proof.
  intros Hslot. unfold finish. eapply runs_step; [by eapply ValidateConnNum_slot|].
  eapply runs_step; [by eapply get_tx_slot|]. destruct t; cbn [negb].
  - unfold runs, send, set_tx. cbn [fst snd NumConns Tx log].
    eexists. split; [split; simpl; try done; [repeat constructor|unfold wf; simpl; by rewrite length_insert|]|].
    { intros i Hi. by rewrite list_lookup_insert_ne by done. }
    split; [split; [apply Hslot|simpl; apply list_lookup_insert_eq; eapply lookup_lt_Some; apply Hslot]|].
    destruct (Hserver (log c) w true r) as [[z ->]|[e ->]]; [left; eauto|right].
    exists e. split; [done|]. repeat constructor.
  - exists []. split; [apply only_on_refl|]. split; [done|]. right. eexists. split; [reflexivity|constructor].
Qed.
End pool.
