(* ===== verification/CopyOperation.v ===== *)
(** The copy operation ([copy/copy_operation.go]): the two commands of a
    strategy, the wait for the ports of the listeners, and the failure paths.
    The two database servers are parameters.

    The command of the listening side runs in a goroutine beside the polling of
    the ports and the command of the dialling side, each on its own pool. What
    they share is the error variable and the channel that signals the end, so a
    run is determined by the answers of the servers and by [timing]: from which
    poll on the error is seen, and how far the goroutine has come when a failed
    copy stops without waiting for it. A call on a pool is atomic. *)
From S2P Require Import Prelude Utils Options Validator QueryWrapper Version Helper CopyCommand Transfer DbConn.

(** * A load as a sequence of calls *)

(** The calls of a load that are left, each a call on the pool of the
    destination; [ctx] marks a statement sent with the context that a failed
    copy cancels. *)
Inductive load :=
| LDone (r : go Z)
| LCommit (k : load)
| LBegin (k : load)
| LExec (ctx : bool) (query : string) (k : Z → load).

(** What is left after a call with result [r]. *)
Definition after {A} (r : go A) (k : A → load) : load :=
  match r with
  | Ok a => k a
  | Err e => LDone (Err e)
  | Fatal e => LDone (Fatal e)
  | Panic e => LDone (Panic e)
  end.

Section loads.
Context (answers : server) (w : nat).

(** A load to its end. A statement with a cancelled context is not sent. *)
Fixpoint run_load (cancelled : bool) (l : load) : call Z :=
  match l with
  | LDone r => raise r
  | LCommit k => do! _ := Commit answers w in run_load cancelled k
  | LBegin k => do! _ := Begin answers w in run_load cancelled k
  | LExec ctx query k =>
      if ctx && cancelled then raise (Err "context canceled")
      else do! rows := Exec answers query w in run_load cancelled (k rows)
  end.

(** The first [n] calls of a load, and what is left of it. *)
Fixpoint advance (n : nat) (l : load) (c : DBConn) : DBConn * load :=
  match n with
  | O => (c, l)
  | S n' =>
      match l with
      | LDone r => (c, l)
      | LCommit k => let '(c, r) := Commit answers w c in advance n' (after r (λ _, k)) c
      | LBegin k => let '(c, r) := Begin answers w c in advance n' (after r (λ _, k)) c
      | LExec _ query k => let '(c, r) := Exec answers query w c in advance n' (after r k) c
      end
  end.
End loads.

(** [CopyBase.CommitBegin]. *)
Definition CommitBegin (k : load) : load := LCommit (LBegin k).

(** * One copy operation *)

Record timing := {
  visible : nat;  (* the poll from which on the error of the goroutine is seen *)
  ahead : nat     (* the calls of the goroutine before a failed copy goes on without it *)
}.

Section operation.
Context `{MapRange} `{FlagSet F} (CmdFlags : F) (srcServer destServer : server).
(** The command id and the name of the external table, both from random UUIDs. *)
Context (cmdID extTabName : string).

(** The two methods of the interface [CopyCommand]. *)
Definition CopyTo (cmd : CopyCommand) (table : Table) (ports : list HelperPortInfo) : call Z :=
  do! query := raise (CopyTo_query CmdFlags cmd table ports cmdID) in
  Exec srcServer query (WorkerId (cmd_base cmd)).

Definition CopyFrom (cmd : CopyCommand) (table : Table) (ports : list HelperPortInfo) : load :=
  after (CopyFrom_query CmdFlags cmd table ports cmdID extTabName) (λ query,
    match cmd_strategy cmd with
    | CopyOnMaster | CopyOnSegment => LExec true query (λ rows, LDone (Ok rows))
    | ExtDestGeCopy | ExtDestLtCopy =>
        CommitBegin (LExec false query (λ _,
        CommitBegin (LExec true (insert_query table extTabName) (λ rows,
        LExec false (drop_query extTabName) (λ _,
        LDone (Ok rows))))))
    end).

(** The answer to the query of a poll. *)
Definition poll : Type := go (list HelperPortInfo).

Definition maxRetries : nat := 1000.

(** [waitForHelperPorts]: [n] attempts to go, [i] made; the error is seen from
    poll [visible] on. *)
Fixpoint wait_from (polls : nat → poll) (visible : nat) (cmd : CopyCommand) (copyErr : option string) (n i : nat)
    : go (list HelperPortInfo) :=
  match n with
  | O => Err "max retries exceeded while waiting for helper ports"
  | S n' =>
      match (if bool_decide (visible ≤ i) then copyErr else None) with
      | Some e => Err e
      | None =>
          match GetHelperPortList (polls i) with
          | Ok helperPorts =>
              if IsCopyFromStarted cmd (length helperPorts) then Ok helperPorts
              else wait_from polls visible cmd copyErr n' (S i)
          | Err _ => wait_from polls visible cmd copyErr n' (S i)
          | Fatal e => Fatal e
          | Panic e => Panic e
          end
      end
  end.
Definition waitForHelperPorts (polls : nat → poll) (visible : nat) (cmd : CopyCommand) (copyErr : option string) :=
  wait_from polls visible cmd copyErr maxRetries 0.

Definition validateRowCounts (totalFromRows totalToRows : Z) : go () :=
  let! validate := MustGetFlagBool CmdFlags VALIDATE in
  if negb validate then Ok ()
  else if bool_decide (totalFromRows ≠ totalToRows)
  then Err "Copy to affected rows are not equal to copy from affected rows"
  else Ok ().

(** [handleFailure]: with the error of the goroutine in sight it waits for the
    goroutine and returns that error; otherwise it cancels the context, leaves
    the goroutine [stopped] where it is and returns its own. *)
Definition handleFailure {A} (toErr : string) (fromErr : option string) (finished stopped : A) : A * go () :=
  match fromErr with
  | Some e => (finished, Err e)
  | None => (stopped, Err toErr)
  end.

Definition error_of {A} (r : go A) : option string := match r with Err e => Some e | _ => None end.

(** [Execute], with the pools of the source and the destination and what the
    loading goroutine has still to do. The unloading goroutine of the pull mode
    makes one call, on the pool of the source, which nothing else of the copy
    uses after it; it is run at once. *)
Definition Execute (polls : nat → poll) (tm : timing) (cmd : CopyCommand) (srcTable destTable : Table)
    (src dest : DBConn) : DBConn * (DBConn * load) * go () :=
  let w := WorkerId (cmd_base cmd) in
  let seen {A} (r : go A) := if bool_decide (visible tm ≤ maxRetries) then error_of r else None in
  if bool_decide (ConnectionMode (cmd_base cmd) = ConnectionModePush) then
    let l := CopyFrom cmd destTable [] in
    let '(dest', from) := run_load destServer w false l dest in
    let finished := (dest', LDone from) in
    let fail e := handleFailure e (seen from) finished (advance destServer w (ahead tm) l dest) in
    match waitForHelperPorts polls (visible tm) cmd (error_of from) with
    | Ok helperPorts =>
        let '(src, to) := CopyTo cmd srcTable helperPorts src in
        match to with
        | Ok toRows => (src, finished, let! fromRows := from in validateRowCounts fromRows toRows)
        | Err e => let '(dest, err) := fail e in (src, dest, err)
        | Fatal e => (src, finished, Fatal e)
        | Panic e => (src, finished, Panic e)
        end
    | Err e => let '(dest, err) := fail e in (src, dest, err)
    | Fatal e => (src, finished, Fatal e)
    | Panic e => (src, finished, Panic e)
    end
  else
    let '(src, to) := CopyTo cmd srcTable [] src in
    match waitForHelperPorts polls (visible tm) cmd (error_of to) with
    | Ok helperPorts =>
        let '(dest, from) := run_load destServer w false (CopyFrom cmd destTable helperPorts) dest in
        let dest := (dest, LDone from) in
        match from with
        | Ok fromRows => (src, dest, let! toRows := to in validateRowCounts fromRows toRows)
        | Err e => let '(dest, err) := handleFailure e (seen to) dest dest in (src, dest, err)
        | Fatal e => (src, dest, Fatal e)
        | Panic e => (src, dest, Panic e)
        end
    | Err e =>
        let '(dest, err) := handleFailure e (seen to) (dest, LDone (Ok 0%Z)) (dest, LDone (Ok 0%Z)) in (src, dest, err)
    | Fatal e => (src, (dest, LDone (Ok 0%Z)), Fatal e)
    | Panic e => (src, (dest, LDone (Ok 0%Z)), Panic e)
    end.
End operation.

(** * The commands do not fail *)

(** A strategy that fits its clusters, with the flags its commands read. *)
Record command_ok `{FlagSet F} (CmdFlags : F) (cmd : CopyCommand) : Prop := {
  cmd_fits : match cmd_strategy cmd with
    | CopyOnMaster => True
    | CopyOnSegment | ExtDestGeCopy =>
        length (SrcSegmentsHostInfo (cmd_base cmd)) ≤ length (DestSegmentsHostInfo (cmd_base cmd))
    | ExtDestLtCopy => 0 < length (DestSegmentsHostInfo (cmd_base cmd))
    end;
  cmd_mode : ConnectionMode (cmd_base cmd) = ConnectionModePush ∨ ConnectionMode (cmd_base cmd) = ConnectionModePull;
  cmd_range : is_ok (GetString CmdFlags DATA_PORT_RANGE) = true;
  cmd_src_host : is_ok (GetString CmdFlags SOURCE_HOST) = true;
  cmd_dest_host : is_ok (GetString CmdFlags DEST_HOST) = true;
  cmd_validate : is_ok (GetBool CmdFlags VALIDATE) = true
}.

Lemma MustGetFlagString_ok `{FlagSet F} (CmdFlags : F) n : is_ok (GetString CmdFlags n) = true →
  ∃ s, MustGetFlagString CmdFlags n = Ok s.
Proof. unfold MustGetFlagString. destruct (GetString CmdFlags n); [eauto|done..]. Qed.

Lemma client_loop_total b n j m : j < length (DestSegmentsHostInfo b) → ∃ m', client_loop b n j m = Ok m'.
Proof.
  revert j m. induction n as [|n IH]; intros j m Hj; cbn [client_loop]; [eauto|].
  destruct (index_lt _ _ Hj) as (s & -> & _). cbn [mbind go_bind]. apply IH. case_bool_decide; lia.
Qed.

Section totality.
Context `{MapRange} `{FlagSet F} (CmdFlags : F) (cmd : CopyCommand) (Hcmd : command_ok CmdFlags cmd).

Lemma FormMasterHelperAddress_total ports : 0 < length ports →
  ∃ a, FormMasterHelperAddress CmdFlags (cmd_base cmd) ports = Ok a.
Proof.
  intros Hp. destruct Hcmd as [_ _ _ Hs Hd _]. unfold FormMasterHelperAddress.
  apply MustGetFlagString_ok in Hs as [s ->]. apply MustGetFlagString_ok in Hd as [d ->].
  destruct (index_lt ports 0 Hp) as (p & -> & _). destruct (is_push _); simpl; eauto.
Qed.

(** The listening side needs no ports, the dialling side those of all
    listeners. *)
Definition ports_ok (listening : string) (ports : list HelperPortInfo) : Prop :=
  ConnectionMode (cmd_base cmd) = listening ∨ IsCopyFromStarted cmd (length ports) = true.

Lemma CopyTo_query_total table ports cmdId : ports_ok ConnectionModePull ports →
  ∃ q, CopyTo_query CmdFlags cmd table ports cmdId = Ok q.
Proof.
  intros Hports. pose proof Hcmd as [Hfits Hmode Hrange _ _ _]. apply MustGetFlagString_ok in Hrange as [r Hr].
  unfold CopyTo_query, CopyOnMaster_formatCopyToCommand, CopyOnSegment_CopyTo, ExtDestGeCopy_CopyTo, ExtDestLtCopy_CopyTo, copy_to_listen. rewrite Hr. destruct (is_pull (cmd_base cmd)) eqn:Hpull.
  { destruct (cmd_strategy cmd); eauto. }
  assert (Hpush : is_push (cmd_base cmd) = true) by (unfold is_push, is_pull in *; destruct Hmode as [-> | Hm]; [done|by rewrite Hm in Hpull]).
  destruct Hports as [Hm|Hst]; [unfold is_pull in Hpull; by rewrite Hm in Hpull|]. unfold IsCopyFromStarted in Hst. rewrite Hpull in Hst.
  pose proof (FormAllSegsHelperAddress_spec (cmd_base cmd) ports) as Hall. rewrite Hpush in Hall. cbn zeta in Hall.
  destruct (cmd_strategy cmd); apply bool_decide_eq_true in Hst.
  - destruct (FormMasterHelperAddress_total ports) as [[port ip] ->]; [lia|]. simpl. eauto.
  - rewrite Hall by lia. simpl. eauto.
  - rewrite Hall by lia. simpl. eauto.
  - rewrite FormDestSegsHelperAddress_spec by done. simpl. eauto.
Qed.

Lemma CopyFrom_query_total table ports cmdId ext : ports_ok ConnectionModePush ports →
  ∃ q, CopyFrom_query CmdFlags cmd table ports cmdId ext = Ok q.
Proof.
  intros Hports. pose proof Hcmd as [Hfits Hmode Hrange _ _ _]. apply MustGetFlagString_ok in Hrange as [r Hr].
  unfold CopyFrom_query, CopyOnMaster_formatCopyFromCommand, CopyOnSegment_CopyFrom, ExtDestGeCopy_CopyFrom, ExtDestLtCopy_CopyFrom. rewrite Hr. destruct (is_pull (cmd_base cmd)) eqn:Hpull.
  - assert (Hpush : is_push (cmd_base cmd) = false) by (unfold is_push, is_pull in *; destruct Hmode as [Hm|Hm]; by rewrite Hm in *).
    destruct Hports as [Hm|Hst]; [unfold is_push in Hpush; by rewrite Hm in Hpush|]. unfold IsCopyFromStarted in Hst. rewrite Hpull in Hst.
    pose proof (FormAllSegsHelperAddress_spec (cmd_base cmd) ports) as Hall. rewrite Hpush in Hall. cbn zeta in Hall.
    destruct (cmd_strategy cmd); apply bool_decide_eq_true in Hst.
    + destruct (FormMasterHelperAddress_total ports) as [[port ip] ->]; [lia|]. simpl. eauto.
    + rewrite Hall by lia. simpl. eauto.
    + rewrite Hall by lia. simpl. eauto.
    + rewrite FormSrcSegsHelperAddress_spec by done. simpl. eauto.
  - destruct (cmd_strategy cmd); simpl; eauto. unfold formClientNumbers.
    destruct (client_loop_total (cmd_base cmd) (length (SrcSegmentsHostInfo (cmd_base cmd))) 0 ∅ Hfits) as [m ->].
    simpl. eauto.
Qed.
End totality.

(** * Loads *)

(** A result that lets the program go on. *)
Definition returns {A} (r : go A) : Prop := (∃ a, r = Ok a) ∨ ∃ e, r = Err e.

Lemma returns_ok {A} (a : A) : returns (Ok a).
Proof. left. by exists a. Qed.
Lemma returns_err {A} e : returns (A := A) (Err e).
Proof. right. by exists e. Qed.
#[export] Hint Resolve returns_ok returns_err : core.

(** A load of at most [n] calls that ends with rows or an error. *)
Inductive load_within : nat → load → Prop :=
| within_done n r : returns r → load_within n (LDone r)
| within_commit n k : load_within n k → load_within (S n) (LCommit k)
| within_begin n k : load_within n k → load_within (S n) (LBegin k)
| within_exec n ctx q k : (∀ z, load_within n (k z)) → load_within (S n) (LExec ctx q k).
#[export] Hint Constructors load_within : core.

Lemma load_within_le n m l : load_within n l → n ≤ m → load_within m l.
Proof.
  intros Hl. revert m. induction Hl as [n r Hr|n k _ IH|n k _ IH|n ctx q k _ IH]; intros m Hm; [by constructor|..].
  all: destruct m as [|m]; [lia|]; constructor; intros; apply IH; lia.
Qed.

Section load_theorems.
Context (answers : server) (Hserver : polite answers) (w : nat).

(** A call that ends with rows or an error and leaves the slot in some state. *)
Definition settles {A} (m : call A) : Prop := ∀ c t, slot c w t →
  runs w m c (λ c' r _, returns r ∧ ∃ t', slot c' w t').

Lemma finish_settles r what : settles (finish answers r what w).
Proof.
  intros c t Hs. eapply runs_mono; [by eapply finish_runs|]. intros c' res evs _ (Hs' & Hr).
  split; [|by exists false]. destruct Hr as [(_ & z & -> & _)|(e & -> & _)]; auto.
Qed.
Lemma Begin_settles : settles (Begin answers w).
Proof.
  intros c t Hs. eapply runs_mono; [by eapply Begin_any_runs|].
  intros c' r evs _ [(_ & -> & Hs' & _)|(e & -> & Hs' & _)]; eauto.
Qed.
Lemma Exec_settles q : settles (Exec answers q w).
Proof. intros c t Hs. eapply runs_mono; [by eapply Exec_runs|]. intros c' r evs _ (Hs' & _ & Hr). eauto. Qed.
Lemma bind_settles {A B} (m : call A) (k : A → call B) : settles m → (∀ a, settles (k a)) → settles (bind m k).
Proof.
  intros Hm Hk c t Hs. apply runs_bind. eapply runs_mono; [by eapply Hm|]. intros c1 r e1 _ [[[a ->]|[e ->]] [t1 Hs1]]; [|eauto].
  by eapply Hk.
Qed.
Lemma raise_settles {A} (r : go A) : returns r → settles (raise r).
Proof. intros Hr c t Hs. apply runs_raise. eauto. Qed.

Lemma run_load_settles cancelled n l : load_within n l → settles (run_load answers w cancelled l).
Proof.
  induction 1 as [n r Hr|n k _ IH|n k _ IH|n ctx q k _ IH]; cbn [run_load].
  - by apply raise_settles.
  - apply bind_settles; [apply finish_settles|done].
  - apply bind_settles; [apply Begin_settles|done].
  - destruct (ctx && cancelled); [by apply raise_settles|]. apply bind_settles; [apply Exec_settles|done].
Qed.

(** The first calls of a load settle too, and leave the rest of it. *)
Lemma advance_step {A} (m : call A) (k : A → load) n i c t : settles m → slot c w t → (∀ a, load_within n (k a)) →
  (∀ l c' t', load_within n l → slot c' w t' → ∃ evs l', only_on w c' (advance answers w i l c').1 evs ∧
     (advance answers w i l c').2 = l' ∧ load_within (n - i) l' ∧ ∃ t'', slot (advance answers w i l c').1 w t'') →
  let res := let '(c1, r) := m c in advance answers w i (after r k) c1 in
  ∃ evs l', only_on w c res.1 evs ∧ res.2 = l' ∧ load_within (n - i) l' ∧ ∃ t'', slot res.1 w t''.
Proof.
  intros Hm Hs Hk IH. destruct (Hm c t Hs) as (e1 & Hon1 & Hr & t1 & Hs1). destruct (m c) as [c1 r]. cbn [fst snd] in *.
  assert (Hl : load_within n (after r k)) by (destruct Hr as [[a ->]|[e ->]]; [apply Hk|by constructor]).
  destruct (IH _ c1 t1 Hl Hs1) as (e2 & l' & Hon2 & Hl' & Hw & Hs2). exists (e1 ++ e2), l'.
  split_and!; [by eapply only_on_trans|done..].
Qed.

Lemma advance_spec i n l c t : load_within n l → slot c w t →
  ∃ evs l', only_on w c (advance answers w i l c).1 evs ∧ (advance answers w i l c).2 = l' ∧
    load_within (n - i) l' ∧ ∃ t', slot (advance answers w i l c).1 w t'.
Proof.
  revert n l c t. induction i as [|i IH]; intros n l c t Hl Hs; cbn [advance].
  { exists [], l. split_and!; [apply only_on_refl|done|by rewrite Nat.sub_0_r|by exists t]. }
  destruct Hl as [n r Hr|n k Hk|n k Hk|n ctx q k Hk]; cbn [Nat.sub].
  - exists [], (LDone r). split_and!; [apply only_on_refl|done|by constructor|by exists t].
  - eapply (advance_step (Commit answers w)); [apply finish_settles|done|done|]. intros. by eapply IH.
  - eapply (advance_step (Begin answers w)); [apply Begin_settles|done|done|]. intros. by eapply IH.
  - eapply (advance_step (Exec answers q w)); [apply Exec_settles|done|done|]. intros. by eapply IH.
Qed.

(** Enough calls finish a load. *)
Lemma advance_done i n l c t : load_within n l → slot c w t → n ≤ i →
  ∃ r, (advance answers w i l c).2 = LDone r ∧ returns r.
Proof.
  intros Hl Hs Hi. destruct (advance_spec i n l c t Hl Hs) as (_ & l' & _ & Heq & Hw & _).
  replace (n - i) with 0 in Hw by lia. inversion Hw; subst. eauto.
Qed.

(** What is left of a load sends nothing any more. *)
Definition harmless (l : load) : Prop := ∀ c, ∃ r, run_load answers w true l c = (c, r) ∧ returns r.

Lemma harmless_done r : returns r → harmless (LDone r).
Proof. intros Hr c. exists r. by split. Qed.
Lemma harmless_cancelled q k : harmless (LExec true q k).
Proof. intros c. eexists. split; [reflexivity|auto]. Qed.
End load_theorems.

(** * The operation *)

(** The strategies that load in one statement. *)
Definition direct (cmd : CopyCommand) : bool :=
  match cmd_strategy cmd with CopyOnMaster | CopyOnSegment => true | _ => false end.

Section operation_theorems.
Context `{MapRange} `{FlagSet F} (CmdFlags : F) (srcServer destServer : server).
Context (Hsrc : polite srcServer) (Hdest : polite destServer).
Context (cmdID ext : string) (polls : nat → poll) (tm : timing) (cmd : CopyCommand).
Context (Hpolls : ∀ i, returns (polls i)) (Hcmd : command_ok CmdFlags cmd).
Local Abbreviation w := (WorkerId (cmd_base cmd)).

Lemma GetHelperPortList_returns rows : returns rows → returns (GetHelperPortList rows).
Proof. intros [[l ->]|[e ->]]; simpl; [case_bool_decide|]; auto. Qed.

Lemma wait_spec v copyErr n i :
  (∃ k ports, wait_from polls v cmd copyErr n i = Ok ports ∧ GetHelperPortList (polls k) = Ok ports ∧ IsCopyFromStarted cmd (length ports) = true) ∨
  ∃ e, wait_from polls v cmd copyErr n i = Err e.
Proof.
  revert i. induction n as [|n IH]; intros i; cbn [wait_from]; [eauto|].
  destruct (if bool_decide (v ≤ i) then copyErr else None); [eauto|].
  destruct (GetHelperPortList_returns _ (Hpolls i)) as [[ports Hp]|[e ->]]; [|apply IH]. rewrite Hp.
  destruct (IsCopyFromStarted cmd (length ports)) eqn:Hs; [|apply IH]. left. by exists i, ports.
Qed.

(** A statement inside the transaction. *)
Definition in_transaction (e : event) : Prop := ev_tx e = true ∧ ∃ q, ev_req e = QExec q.

(** The transaction is committed and another one begun. *)
Definition renewal (evs : list event) : Prop := ∃ z1 z2 z3,
  evs = [event_of w true QCommit (Ok z1); event_of w false QBegin (Ok z2); event_of w true (QExec isolation) (Ok z3)].

(** The statements of a load that has ended well: the command of the strategy,
    or the creation of an external table, the insertion that reads it, and its
    removal, each answered without an error. *)
Definition load_events (table : Table) (ports : list HelperPortInfo) (evs : list event) (rows : Z) : Prop :=
  ∃ q, CopyFrom_query CmdFlags cmd table ports cmdID ext = Ok q ∧
    if direct cmd then evs = [event_of w true (QExec q) (Ok rows)]
    else ∃ r1 r2 z1 z2, renewal r1 ∧ renewal r2 ∧
      evs = r1 ++ [event_of w true (QExec q) (Ok z1)] ++ r2 ++
        [event_of w true (QExec (cat ["INSERT INTO "; Schema table; "."; Name table; " SELECT * FROM "; ext])) (Ok rows);
         event_of w true (QExec (cat ["DROP EXTERNAL TABLE "; ext])) (Ok z2)].

(** What a load says of the slot, of its result and of its events. *)
Definition load_post (P : list event → Z → Prop) (c' : DBConn) (r : go Z) (evs : list event) : Prop :=
  returns r ∧ (∃ t, slot c' w t) ∧ (∀ n, r = Ok n → slot c' w true ∧ P evs n).

Lemma load_post_fails P c' e evs : (∃ t, slot c' w t) → load_post P c' (Err e) evs.
Proof. intros Hs. split; [done|]. by split. Qed.

Lemma done_runs (P : list event → Z → Prop) z c : slot c w true → P [] z → runs w (run_load destServer w false (LDone (Ok z))) c (load_post P).
Proof. intros Hs HP. apply runs_raise. split; [done|]. split; [by exists true|]. by intros n [= <-]. Qed.

(** A statement, and the rest of the load. *)
Lemma exec_runs P ctx q k c : slot c w true →
  (∀ z c', slot c' w true → runs w (run_load destServer w false (k z)) c' (load_post (λ evs, P (event_of w true (QExec q) (Ok z) :: evs)))) →
  runs w (run_load destServer w false (LExec ctx q k)) c (load_post P).
Proof.
  intros Hslot Hk. cbn [run_load]. rewrite andb_false_r. apply runs_bind.
  eapply runs_mono; [by eapply Exec_runs|]. intros c1 r1 e1 _ (Hs1 & -> & [[z ->]|[e ->]]); [|apply load_post_fails; by exists true].
  eapply runs_mono; [by apply Hk|]. done.
Qed.

Lemma renewed_runs P k c : slot c w true →
  (∀ r c', renewal r → slot c' w true → runs w (run_load destServer w false k) c' (load_post (λ evs, P (r ++ evs)))) →
  runs w (run_load destServer w false (CommitBegin k)) c (load_post P).
Proof.
  intros Hslot Hk. cbn [run_load CommitBegin]. apply runs_bind.
  eapply runs_mono; [by eapply finish_runs|]. intros c1 r e1 _ (Hs1 & Hr).
  destruct Hr as [(_ & z & -> & ->)|(e & -> & _)]; [|apply load_post_fails; by exists false]. apply runs_bind.
  eapply runs_mono; [by eapply Begin_runs|]. intros c2 r e2 _ Hr2.
  destruct Hr2 as [(-> & Hs2 & z2 & z3 & ->)|(e & -> & Hs2 & _)]; [|by apply load_post_fails].
  eapply runs_mono; [apply Hk; [by exists z, z2, z3|done]|]. done.
Qed.

(** The load of a strategy: seven calls at most. *)
Lemma CopyFrom_within table ports : ports_ok cmd ConnectionModePush ports →
  load_within 7 (CopyFrom CmdFlags cmdID ext cmd table ports).
Proof.
  intros Hports. destruct (CopyFrom_query_total CmdFlags cmd Hcmd table ports cmdID ext Hports) as [q Hq].
  unfold CopyFrom, CommitBegin. rewrite Hq. cbn [after]. destruct (cmd_strategy cmd); auto 12.
Qed.

Lemma CopyFrom_runs table ports c : ports_ok cmd ConnectionModePush ports → slot c w true →
  runs w (run_load destServer w false (CopyFrom CmdFlags cmdID ext cmd table ports)) c (load_post (load_events table ports)).
Proof.
  intros Hports Hslot. destruct (CopyFrom_query_total CmdFlags cmd Hcmd table ports cmdID ext Hports) as [q Hq].
  unfold CopyFrom, load_events, direct. rewrite Hq. cbn [after]. destruct (cmd_strategy cmd).
  1, 2: apply exec_runs; [done|]; intros z c' Hs; apply done_runs; [done|]; by exists q.
  all: apply renewed_runs; [done|]; intros r1 c1 Hr1 Hs1; apply exec_runs; [done|]; intros z1 c2 Hs2;
    apply renewed_runs; [done|]; intros r2 c3 Hr2 Hs3; apply exec_runs; [done|]; intros rows c4 Hs4;
    apply exec_runs; [done|]; intros z2 c5 Hs5; apply done_runs; [done|]; exists q; split; [done|]; by exists r1, r2, z1, z2.
Qed.

(** A load in one statement: whatever part of it is done when the copy goes on
    without it, the rest sends nothing, and all of it is in the transaction. *)
Lemma direct_load table ports : direct cmd = true → ports_ok cmd ConnectionModePush ports →
  ∃ q, CopyFrom CmdFlags cmdID ext cmd table ports = LExec true q (λ rows, LDone (Ok rows)).
Proof.
  intros Hd Hports. destruct (CopyFrom_query_total CmdFlags cmd Hcmd table ports cmdID ext Hports) as [q Hq].
  exists q. unfold CopyFrom, direct in *. rewrite Hq. by destruct (cmd_strategy cmd).
Qed.

Lemma direct_runs q c : slot c w true →
  runs w (run_load destServer w false (LExec true q (λ rows, LDone (Ok rows)))) c (λ c' r evs, Forall in_transaction evs ∧ slot c' w true).
Proof.
  intros Hslot. cbn [run_load andb]. apply runs_bind. eapply runs_mono; [by eapply Exec_runs|].
  intros c1 r1 e1 _ (Hs1 & -> & [[z ->]|[e ->]]).
  - apply runs_raise. rewrite app_nil_r. split; [|done]. repeat constructor. by exists q.
  - split; [|done]. repeat constructor. by exists q.
Qed.

Lemma direct_advance q n c : slot c w true →
  let '(c', l) := advance destServer w n (LExec true q (λ rows, LDone (Ok rows))) c in
  ∃ evs, only_on w c c' evs ∧ Forall in_transaction evs ∧ slot c' w true ∧ harmless destServer w l.
Proof.
  intros Hslot. destruct n as [|n]; cbn [advance].
  { exists []. split_and!; [apply only_on_refl|constructor|done|apply harmless_cancelled]. }
  destruct (Exec_runs destServer q w c true Hdest Hslot) as (evs & Hon & Hs & -> & Hr). destruct (Exec _ _ _ c) as [c' r]. cbn [fst snd] in *.
  assert (Hdone : advance destServer w n (after r (λ rows, LDone (Ok rows))) c' = (c', LDone r)).
  { destruct Hr as [[z ->]|[e ->]], n; done. }
  rewrite Hdone. eexists. split_and!; [exact Hon| |done|by apply harmless_done]. repeat constructor. by exists q.
Qed.
(** What the loading side leaves: its pool and the rest of the load. *)
Record loaded (dest : DBConn) (got : DBConn * load) (evs : list event) : Prop := {
  ld_on : only_on w dest got.1 evs;
  ld_slot : ∃ t, slot got.1 w t;
  ld_rest : load_within 7 got.2;
  ld_direct : direct cmd = true → Forall in_transaction evs ∧ harmless destServer w got.2;
  ld_quiet : ConnectionMode (cmd_base cmd) = ConnectionModePull ∨ 7 ≤ ahead tm → harmless destServer w got.2
}.

Lemma idle_loaded dest t : slot dest w t → loaded dest (dest, LDone (Ok 0%Z)) [].
Proof.
  intros Hs. split; simpl; auto using harmless_done; [apply only_on_refl|by exists t].
Qed.

Lemma finished_loaded table ports dest : ports_ok cmd ConnectionModePush ports → slot dest w true →
  let '(dest', r) := run_load destServer w false (CopyFrom CmdFlags cmdID ext cmd table ports) dest in
  ∃ evs, loaded dest (dest', LDone r) evs ∧ load_post (load_events table ports) dest' r evs.
Proof.
  intros Hports Hs. pose proof (CopyFrom_runs table ports dest Hports Hs) as (evs & Hon & Hpost).
  destruct (run_load _ _ _ _ dest) as [dest' r] eqn:Hrun. cbn [fst snd] in *. exists evs. split; [|done].
  destruct Hpost as (Hr & Hslot & _). split; simpl; auto using harmless_done.
  intros Hd. split; [|by apply harmless_done]. destruct (direct_load table ports Hd Hports) as [q Hq].
  destruct (direct_runs q dest Hs) as (evs' & Hon' & Hall & _). rewrite <- Hq, Hrun in Hon'. cbn [fst] in Hon'.
  replace evs with evs'; [done|]. apply on_log in Hon, Hon'. rewrite Hon in Hon'. by apply app_inv_head in Hon'.
Qed.

Lemma stopped_loaded table dest : ConnectionMode (cmd_base cmd) = ConnectionModePush → slot dest w true →
  ∃ evs, loaded dest (advance destServer w (ahead tm) (CopyFrom CmdFlags cmdID ext cmd table []) dest) evs.
Proof.
  intros Hpush Hs. assert (Hports : ports_ok cmd ConnectionModePush []) by by left.
  pose proof (CopyFrom_within table [] Hports) as Hw.
  destruct (advance_spec destServer Hdest w (ahead tm) 7 _ dest true Hw Hs) as (evs & l' & Hon & Hl & Hwl & Hslot).
  exists evs. split; [done|done| | |].
  - rewrite Hl. eapply load_within_le; [exact Hwl|lia].
  - intros Hd. destruct (direct_load table [] Hd Hports) as [q Hq]. pose proof (direct_advance q (ahead tm) dest Hs) as Hadv.
    rewrite Hq in Hon |- *. destruct (advance _ _ _ _ dest) as [c' l]. destruct Hadv as (evs' & Hon' & Hall & _ & Hh).
    split; [|done]. replace evs with evs'; [done|]. apply on_log in Hon, Hon'. simpl in Hon. rewrite Hon in Hon'. by apply app_inv_head in Hon'.
  - intros [Hpull|Hahead]; [by rewrite Hpush in Hpull|].
    destruct (advance_done destServer Hdest w (ahead tm) 7 _ dest true Hw Hs Hahead) as (r & -> & Hr). by apply harmless_done.
Qed.

Lemma failure_loaded {A} (fromErr : option A) dest finished stopped e1 e2 :
  loaded dest finished e1 → loaded dest stopped e2 → ∃ evs, loaded dest (match fromErr with Some _ => finished | None => stopped end) evs.
Proof. destruct fromErr; eauto. Qed.

Lemma handleFailure_eq {A} toErr fromErr (finished stopped : A) :
  ∃ e, handleFailure toErr fromErr finished stopped = (match fromErr with Some _ => finished | None => stopped end, Err e).
Proof. destruct fromErr; eauto. Qed.

(** Both commands of the strategy have ended without an error: the dialling
    side with the ports a poll has reported, the last request of each side that
    of its command, and, with [--validate], with equally many rows. *)
Definition transferred (srcTable destTable : Table) (t : bool) (e1 e2 : list event) : Prop :=
  ∃ k ports qTo toRows fromRows,
    let push := bool_decide (ConnectionMode (cmd_base cmd) = ConnectionModePush) in
    GetHelperPortList (polls k) = Ok ports ∧
    CopyTo_query CmdFlags cmd srcTable (if push then ports else []) cmdID = Ok qTo ∧
    e1 = [event_of w t (QExec qTo) (Ok toRows)] ∧
    load_events destTable (if push then [] else ports) e2 fromRows ∧
    (GetBool CmdFlags VALIDATE = Ok true → fromRows = toRows).

(** What a copy operation says of the two pools: the events it adds, the slot
    of the destination, the rest of the load and, when it succeeds, both
    commands. *)
Record executed (srcTable destTable : Table) (t : bool) (src dest src' : DBConn) (got : DBConn * load) (r : go ()) (e1 e2 : list event) : Prop := {
  ex_src : only_on w src src' e1;
  ex_dest : loaded dest got e2;
  ex_returns : returns r;
  ex_ok : r = Ok () → slot got.1 w true ∧ transferred srcTable destTable t e1 e2
}.

Lemma failed_executed st dt t src dest src' got e e1 e2 : only_on w src src' e1 → loaded dest got e2 →
  executed st dt t src dest src' got (Err e) e1 e2.
Proof. by split. Qed.

Lemma validateRowCounts_spec fromRows toRows : returns (validateRowCounts CmdFlags fromRows toRows) ∧
  (validateRowCounts CmdFlags fromRows toRows = Ok () → GetBool CmdFlags VALIDATE = Ok true → fromRows = toRows).
Proof.
  destruct Hcmd as [_ _ _ _ _ Hv]. unfold validateRowCounts, MustGetFlagBool.
  destruct (GetBool CmdFlags VALIDATE) as [v| | |]; [|done..]. cbn [FatalOnError mbind go_bind].
  destruct v; cbn [negb]; [case_bool_decide|]; unfold returns; naive_solver.
Qed.

(** The command of the source. *)
Definition unload_event (table : Table) (ports : list HelperPortInfo) (t : bool) (rows : Z) (evs : list event) : Prop :=
  ∃ q, CopyTo_query CmdFlags cmd table ports cmdID = Ok q ∧ evs = [event_of w t (QExec q) (Ok rows)].
Lemma CopyTo_runs table ports c t : ports_ok cmd ConnectionModePull ports → slot c w t →
  runs w (CopyTo CmdFlags srcServer cmdID cmd table ports) c (λ c' r evs, returns r ∧
    (∀ n, r = Ok n → unload_event table ports t n evs) ∧ slot c' w t).
Proof.
  intros Hports Hslot. destruct (CopyTo_query_total CmdFlags cmd Hcmd table ports cmdID Hports) as [q Hq].
  unfold CopyTo. eapply runs_step; [unfold raise; by rewrite Hq|].
  eapply runs_mono; [by eapply Exec_runs|]. intros c' r evs _ (Hs & -> & Hr). split_and!; [done| |done].
  intros n ->. by exists q.
Qed.

(** Both commands have ended. *)
Lemma both_executed srcTable destTable k ports src dest src' dest' to from (e1 e2 : list event) t :
  let push := bool_decide (ConnectionMode (cmd_base cmd) = ConnectionModePush) in
  GetHelperPortList (polls k) = Ok ports →
  only_on w src src' e1 → (∀ n, to = Ok n → unload_event srcTable (if push then ports else []) t n e1) → returns to →
  loaded dest (dest', LDone from) e2 → load_post (load_events destTable (if push then [] else ports)) dest' from e2 →
  executed srcTable destTable t src dest src' (dest', LDone from)
    (let! toRows := to in let! fromRows := from in validateRowCounts CmdFlags fromRows toRows) e1 e2.
Proof.
  intros push Hk Hon1 Hto [[toRows ->]|[e ->]] Hl ([[fromRows ->]|[e' ->]] & _ & Hok); try by apply failed_executed.
  cbn [mbind go_bind]. destruct (validateRowCounts_spec fromRows toRows) as [Hret Hval].
  split; [done..|]. intros Hv. destruct (Hok fromRows eq_refl) as [Hopen Hload]. destruct (Hto toRows eq_refl) as (qt & Hqt & ->).
  split; [done|]. exists k, ports, qt, toRows, fromRows. cbv zeta. fold push. auto 6.
Qed.

Lemma Execute_push srcTable destTable src dest t : ConnectionMode (cmd_base cmd) = ConnectionModePush →
  slot src w t → slot dest w true →
  let '(src', got, r) := Execute CmdFlags srcServer destServer cmdID ext polls tm cmd srcTable destTable src dest in
  (∃ e1 e2, executed srcTable destTable t src dest src' got r e1 e2) ∧ slot src' w t.
Proof.
  intros Hpush Hss Hds. unfold Execute. rewrite bool_decide_true by done.
  pose proof (finished_loaded destTable [] dest (or_introl Hpush) Hds) as Hfin.
  destruct (stopped_loaded destTable dest Hpush Hds) as (es & Hstop).
  destruct (run_load _ _ _ _ dest) as [dest' from]. destruct Hfin as (e2 & Hl & Hpost). unfold waitForHelperPorts.
  destruct (wait_spec (visible tm) (error_of from) maxRetries 0) as [(k & ports & -> & Hk & Hstart)|[e ->]].
  - destruct (CopyTo_runs srcTable ports src t (or_intror Hstart) Hss) as (e1 & Hon1 & Hr1 & Hok1 & Hs1).
    destruct (CopyTo _ _ _ _ _ _ src) as [src' to]. cbn [fst snd] in *.
    destruct Hr1 as [[toRows ->]|[e ->]].
    + split; [|done]. exists e1, e2. apply (both_executed srcTable destTable k ports src dest src' dest' (Ok toRows) from e1 e2 t); rewrite ?bool_decide_true by done; done.
    + destruct (handleFailure_eq e (if bool_decide (visible tm ≤ maxRetries) then error_of from else None) (dest', LDone from)
        (advance destServer w (ahead tm) (CopyFrom CmdFlags cmdID ext cmd destTable []) dest)) as [e' ->].
      split; [|done]. edestruct (failure_loaded (if bool_decide (visible tm ≤ maxRetries) then error_of from else None)) as [evs Hevs];
        [exact Hl|exact Hstop|]. exists e1, evs. by apply failed_executed.
  - destruct (handleFailure_eq e (if bool_decide (visible tm ≤ maxRetries) then error_of from else None) (dest', LDone from)
      (advance destServer w (ahead tm) (CopyFrom CmdFlags cmdID ext cmd destTable []) dest)) as [e' ->].
    split; [|done]. edestruct (failure_loaded (if bool_decide (visible tm ≤ maxRetries) then error_of from else None)) as [evs Hevs];
      [exact Hl|exact Hstop|]. exists [], evs. apply failed_executed; [apply only_on_refl|done].
Qed.

Lemma Execute_pull srcTable destTable src dest t : ConnectionMode (cmd_base cmd) = ConnectionModePull →
  slot src w t → slot dest w true →
  let '(src', got, r) := Execute CmdFlags srcServer destServer cmdID ext polls tm cmd srcTable destTable src dest in
  (∃ e1 e2, executed srcTable destTable t src dest src' got r e1 e2) ∧ slot src' w t.
Proof.
  intros Hpull Hss Hds. unfold Execute. rewrite bool_decide_false by (by rewrite Hpull).
  destruct (CopyTo_runs srcTable [] src t (or_introl Hpull) Hss) as (e1 & Hon1 & Hr1 & Hok1 & Hs1).
  destruct (CopyTo _ _ _ _ _ _ src) as [src' to]. cbn [fst snd] in *. unfold waitForHelperPorts.
  destruct (wait_spec (visible tm) (error_of to) maxRetries 0) as [(k & ports & -> & Hk & Hstart)|[e ->]].
  - pose proof (finished_loaded destTable ports dest (or_intror Hstart) Hds) as Hfin.
    destruct (run_load _ _ _ _ dest) as [dest' from]. destruct Hfin as (e2 & Hl & Hpost).
    pose proof Hpost as ([[fromRows ->]|[e ->]] & _).
    + split; [|done]. exists e1, e2. pose proof (both_executed srcTable destTable k ports src dest src' dest' to (Ok fromRows) e1 e2 t) as Hb.
      cbv zeta in Hb. rewrite bool_decide_false in Hb by (by rewrite Hpull). destruct to; apply Hb; done.
    + destruct (handleFailure_eq e (if bool_decide (visible tm ≤ maxRetries) then error_of to else None)
        (dest', LDone (Err (A := Z) e)) (dest', LDone (Err (A := Z) e))) as [e' ->].
      split; [|done]. exists e1, e2. apply failed_executed; [done|]. by destruct (if bool_decide _ then _ else _).
  - destruct (handleFailure_eq e (if bool_decide (visible tm ≤ maxRetries) then error_of to else None)
      (dest, LDone (Ok 0%Z)) (dest, LDone (Ok 0%Z))) as [e' ->].
    split; [|done]. exists e1, []. apply failed_executed; [done|]. destruct (if bool_decide _ then _ else _); by eapply idle_loaded.
Qed.
End operation_theorems.
