(* ===== verification/CopyManager.v ===== *)
(** The copy of one table and the pool of copy workers
    ([copy/copy_manager.go]): the transaction around a copy operation, the
    record of its result, and the workers that take tables from a channel. *)
From S2P Require Import Prelude Utils Options Validator QueryWrapper Version Helper CopyCommand Transfer DbConn CopyOperation.

Inductive copy_status := COPY_SUCCED | COPY_SKIPED | COPY_FAILED.
#[export] Instance copy_status_eq : EqDecision copy_status.
Proof. solve_decision. Defined.

(** * The copy of one table *)

(** What a copier reads: the session setup of the destination with the client
    encoding, whether tables are truncated first, the name of the source
    database, the segments and versions of the clusters, the connection mode
    and the environment variable that overrides the strategy. *)
Record manager_env := {
  setup_query : string;
  truncate : bool;
  source_db : string;
  srcSegmentsHostInfo : list SegmentHostInfo;
  destSegmentsIpInfo : list SegmentHostInfo;
  srcVersion : GPDBVersion;
  destVersion : GPDBVersion;
  connectionMode : string;
  testStrategy : string
}.

(** What the environment decides during one copy: the random names, the answers
    to the polls and the timing of the goroutine. *)
Record copy_run := {
  cmdID : string;
  extTabName : string;
  polls : nat → poll;
  run_timing : timing
}.

(** What a copy changes: the two pools, the results of the worker, the three
    list files and the progress bar. *)
Record copy_state := {
  st_src : DBConn;
  st_dest : DBConn;
  st_copied : gmap string copy_status;
  fSucced : list string;
  fFailed : list string;
  fSkipped : list string;
  progress : nat
}.

Section copier.
Context `{MapRange} `{FlagSet F} (CmdFlags : F) (srcServer destServer : server).
Context (env : manager_env) (run : copy_run) (srcTable destTable : Table) (workerID : nat).

(** [IsEmptyTable] and [shouldSkipCopy]: a failed query does not skip. *)
Definition empty_query (t : Table) : string := cat ["select 1 from "; Schema t; "."; Name t; " limit 1"].
Definition shouldSkipCopy (src : DBConn) : DBConn * bool :=
  let '(src, r) := Exec srcServer (empty_query srcTable) workerID src in
  (src, match r with Ok n => bool_decide (n = 0%Z) | _ => false end).

(** [prepareForCopy]: whether a transaction was begun, and the error. *)
Definition truncate_query (t : Table) : string := cat ["TRUNCATE TABLE "; Schema t; "."; Name t].
Definition prepareForCopy (dest : DBConn) : DBConn * bool * go () :=
  match Exec destServer (setup_query env) workerID dest with
  | (dest, Ok _) =>
      match Begin destServer workerID dest with
      | (dest, Ok _) =>
          if truncate env then
            let '(dest, r) := Exec destServer (truncate_query destTable) workerID dest in
            (dest, true, let! _ := r in Ok ())
          else (dest, true, Ok ())
      | (dest, e) => (dest, true, e)
      end
  | (dest, e) => (dest, false, let! _ := e in Ok ())
  end.

(** [copyData]: a strategy for the table, and its copy operation. *)
Definition strategy_of : go CopyCommand :=
  CreateCopyStrategy CmdFlags (testStrategy env) (IsReplicated srcTable) (RelTuples srcTable) workerID
    (srcSegmentsHostInfo env) (destSegmentsIpInfo env) (srcVersion env) (destVersion env) (connectionMode env).
Definition copyData (src dest : DBConn) : DBConn * (DBConn * load) * go () :=
  match strategy_of with
  | Ok command =>
      Execute CmdFlags srcServer destServer (cmdID run) (extTabName run) (polls run) (run_timing run) command
        srcTable destTable src dest
  | Err e => (src, (dest, LDone (Ok 0%Z)), Err e)
  | Fatal e => (src, (dest, LDone (Ok 0%Z)), Fatal e)
  | Panic e => (src, (dest, LDone (Ok 0%Z)), Panic e)
  end.

Definition rollback (inTxn : bool) (dest : DBConn) : DBConn :=
  if inTxn then (Rollback destServer workerID dest).1 else dest.

Definition tablePath : string := cat [chr DQ; Schema srcTable; "."; Name srcTable; chr DQ].
Definition table_line : string := cat [source_db env; "."; Schema srcTable; "."; Name srcTable; chr NL].

(** [cleanupAfterCopy], deferred by [Copy]. *)
Definition cleanupAfterCopy (isSkipped inTxn : bool) (err : option string) (st : copy_state) : copy_state :=
  if isSkipped then
    {| st_src := st_src st; st_dest := st_dest st; st_copied := <[tablePath := COPY_SKIPED]> (st_copied st);
       fSucced := fSucced st; fFailed := fFailed st; fSkipped := fSkipped st ++ [table_line]; progress := S (progress st) |}
  else
    match err with
    | Some _ =>
        {| st_src := st_src st; st_dest := rollback inTxn (st_dest st); st_copied := <[tablePath := COPY_FAILED]> (st_copied st);
           fSucced := fSucced st; fFailed := fFailed st ++ [table_line]; fSkipped := fSkipped st; progress := S (progress st) |}
    | None =>
        {| st_src := st_src st; st_dest := st_dest st; st_copied := <[tablePath := COPY_SUCCED]> (st_copied st);
           fSucced := fSucced st ++ [table_line]; fFailed := fFailed st; fSkipped := fSkipped st; progress := S (progress st) |}
    end.

Definition with_conns (st : copy_state) (src dest : DBConn) : copy_state :=
  {| st_src := src; st_dest := dest; st_copied := st_copied st; fSucced := fSucced st; fFailed := fFailed st;
     fSkipped := fSkipped st; progress := progress st |}.

(** The goroutine of a failed copy runs on with a cancelled context. *)
Definition run_on (rest : load) (st : copy_state) : go copy_state :=
  match run_load destServer workerID true rest (st_dest st) with
  | (_, Fatal e) => Fatal e
  | (_, Panic e) => Panic e
  | (dest, _) => Ok (with_conns st (st_src st) dest)
  end.

(** [TableCopier.Copy], and the end of its goroutine; a fatal error or a panic
    ends the program. *)
Definition Copy (st : copy_state) : go copy_state :=
  let '(src, isSkipped) := shouldSkipCopy (st_src st) in
  let dest := st_dest st in
  if (isSkipped : bool) then Ok (cleanupAfterCopy true false None (with_conns st src dest))
  else
    let '(dest, inTxn, err) := prepareForCopy dest in
    match err with
    | Err e => Ok (cleanupAfterCopy false inTxn (Some e) (with_conns st src dest))
    | Fatal e => Fatal e
    | Panic e => Panic e
    | Ok _ =>
        let '(src, (dest, rest), err) := copyData src dest in
        match err with
        | Err e => run_on rest (cleanupAfterCopy false inTxn (Some e) (with_conns st src dest))
        | Fatal e => Fatal e
        | Panic e => Panic e
        | Ok _ =>
            let '(dest, err) := Commit destServer workerID dest in
            match err with
            | Fatal e => Fatal e
            | Panic e => Panic e
            | r => Ok (cleanupAfterCopy false inTxn (error_of r) (with_conns st src dest))
            end
        end
    end.
End copier.

(** [generateReport]: succeeded, skipped and failed tables over the results of
    all workers. *)
Definition count_status (acc : nat * nat * nat) (v : copy_status) : nat * nat * nat :=
  let '(succedTabs, skipedTabs, failedTabs) := acc in
  match v with
  | COPY_SUCCED => (S succedTabs, skipedTabs, failedTabs)
  | COPY_SKIPED => (succedTabs, S skipedTabs, failedTabs)
  | COPY_FAILED => (succedTabs, skipedTabs, S failedTabs)
  end.
Definition generateReport `{MapRange} (results : list (gmap string copy_status)) : nat * nat * nat :=
  foldl (λ acc m, foldl count_status acc (range_map 315 m).*2) (0, 0, 0) results.

(** * The pool of workers *)

Inductive worker_phase := Idle | Busy (table : TablePair) | Returned.

(** The manager ([CopyManager]) with the channel of tables: what is in it,
    whether it is closed, and [sent], all that was ever put into it. *)
Record copy_pool := {
  pl_src : DBConn;
  pl_dest : DBConn;
  results : list (gmap string copy_status);
  pl_succed : list string;
  pl_failed : list string;
  pl_skipped : list string;
  pl_progress : nat;
  tables : list TablePair;
  tables_closed : bool;
  sent : list TablePair;
  phases : list worker_phase;
  WasTerminated : bool
}.

(** [NewCopyManager] with [n] connections in each pool, and no table sent. *)
Definition NewCopyManager (n : nat) (src dest : DBConn) : copy_pool :=
  {| pl_src := src; pl_dest := dest; results := replicate n ∅; pl_succed := []; pl_failed := []; pl_skipped := [];
     pl_progress := 0; tables := []; tables_closed := false; sent := []; phases := replicate n Idle; WasTerminated := false |}.

(** What the copier of a worker sees, and what it leaves. *)
Definition view (p : copy_pool) (copied : gmap string copy_status) : copy_state :=
  {| st_src := pl_src p; st_dest := pl_dest p; st_copied := copied; fSucced := pl_succed p; fFailed := pl_failed p;
     fSkipped := pl_skipped p; progress := pl_progress p |}.
Definition put_back (p : copy_pool) (i : nat) (st : copy_state) : copy_pool :=
  {| pl_src := st_src st; pl_dest := st_dest st; results := <[i := st_copied st]> (results p);
     pl_succed := fSucced st; pl_failed := fFailed st; pl_skipped := fSkipped st; pl_progress := progress st;
     tables := tables p; tables_closed := tables_closed p; sent := sent p; phases := <[i := Idle]> (phases p);
     WasTerminated := WasTerminated p |}.
Definition set_queue (p : copy_pool) (queue : list TablePair) (closed : bool) (all : list TablePair)
    (ph : list worker_phase) (terminated : bool) : copy_pool :=
  {| pl_src := pl_src p; pl_dest := pl_dest p; results := results p; pl_succed := pl_succed p; pl_failed := pl_failed p;
     pl_skipped := pl_skipped p; pl_progress := pl_progress p; tables := queue; tables_closed := closed; sent := all;
     phases := ph; WasTerminated := terminated |}.

Section pool_steps.
Context `{MapRange} `{FlagSet F} (CmdFlags : F) (srcServer destServer : server) (env : manager_env).

(** Steps of [CopyManager.worker] number [i]: the copy of a table takes effect
    at its end. A worker that finds the program terminated drops the table it
    has received. *)
Inductive worker_step : nat → copy_pool → copy_pool → Prop :=
| step_take p i tp queue :
    phases p !! i = Some Idle → tables p = tp :: queue → WasTerminated p = false →
    worker_step i p (set_queue p queue (tables_closed p) (sent p) (<[i := Busy tp]> (phases p)) false)
| step_drop p i tp queue :
    phases p !! i = Some Idle → tables p = tp :: queue → WasTerminated p = true →
    worker_step i p (set_queue p queue (tables_closed p) (sent p) (<[i := Returned]> (phases p)) true)
| step_copy p i tp copied run st :
    phases p !! i = Some (Busy tp) → results p !! i = Some copied → (∀ k, returns (polls run k)) →
    Copy CmdFlags srcServer destServer env run (SrcTable tp) (DestTable tp) i (view p copied) = Ok st →
    worker_step i p (put_back p i st)
| step_return p i :
    phases p !! i = Some Idle → tables p = [] → tables_closed p = true →
    worker_step i p (set_queue p [] true (sent p) (<[i := Returned]> (phases p)) (WasTerminated p)).

(** The workers, the sender of the channel and the signal handler. *)
Inductive copy_step : copy_pool → copy_pool → Prop :=
| step_worker i p p' : worker_step i p p' → copy_step p p'
| step_table p tp :
    tables_closed p = false →
    copy_step p (set_queue p (tables p ++ [tp]) false (sent p ++ [tp]) (phases p) (WasTerminated p))
| step_close p :
    tables_closed p = false → copy_step p (set_queue p (tables p) true (sent p) (phases p) (WasTerminated p))
| step_terminate p :
    copy_step p (set_queue p (tables p) (tables_closed p) (sent p) (phases p) true).
End pool_steps.

(** * Theorems on one table *)

(** Flags with their types, clusters with segments, a known connection mode and
    no override of the strategy. *)
Record env_ok `{FlagSet F} (CmdFlags : F) (env : manager_env) : Prop := {
  ok_range : is_ok (GetString CmdFlags DATA_PORT_RANGE) = true;
  ok_src_host : is_ok (GetString CmdFlags SOURCE_HOST) = true;
  ok_dest_host : is_ok (GetString CmdFlags DEST_HOST) = true;
  ok_type : is_ok (GetString CmdFlags COMPRESS_TYPE) = true;
  ok_validate : is_ok (GetBool CmdFlags VALIDATE) = true;
  ok_compression : is_ok (GetBool CmdFlags COMPRESSION) = true;
  ok_threshold : is_ok (GetInt CmdFlags ON_SEGMENT_THRESHOLD) = true;
  ok_mode : connectionMode env = ConnectionModePush ∨ connectionMode env = ConnectionModePull;
  ok_segments : 0 < length (destSegmentsIpInfo env);
  ok_test : testStrategy env = ""
}.

Lemma strategy_of_ok `{FlagSet F} (CmdFlags : F) env srcTable workerID : env_ok CmdFlags env →
  ∃ cmd, strategy_of CmdFlags env srcTable workerID = Ok cmd ∧ command_ok CmdFlags cmd ∧
    WorkerId (cmd_base cmd) = workerID ∧ ConnectionMode (cmd_base cmd) = connectionMode env.
Proof.
  intros [Hr Hs Hd Ht Hv Hc Hth Hm Hseg Htest].
  assert (Hok : ∀ s a, match s with
      | CopyOnMaster => True
      | CopyOnSegment | ExtDestGeCopy => length (srcSegmentsHostInfo env) ≤ length (destSegmentsIpInfo env)
      | ExtDestLtCopy => 0 < length (destSegmentsIpInfo env)
      end → command_ok CmdFlags (new_command s workerID (srcSegmentsHostInfo env) (destSegmentsIpInfo env) (connectionMode env) a)).
  { intros s a Hfit. by split. }
  assert (Harg : ∀ m u, ∃ a, getCompressArg CmdFlags m u = Ok a).
  { intros m u. destruct (GetString CmdFlags COMPRESS_TYPE) as [ct| | |] eqn:Hct; [|done..].
    destruct (getCompressArg_spec CmdFlags m u ct Hct) as (a & Ha & _). by exists a. }
  unfold strategy_of, CreateCopyStrategy, MustGetFlagBool, MustGetFlagInt. rewrite Htest.
  destruct (GetBool CmdFlags COMPRESSION) as [c| | |]; [|done..]. destruct (GetInt CmdFlags ON_SEGMENT_THRESHOLD) as [th| | |]; [|done..].
  cbn [FatalOnError mbind go_bind]. set (u := c || _).
  destruct (Harg true u) as [a1 ->], (Harg false u) as [a2 ->]. cbn [mbind go_bind]. rewrite (bool_decide_false ("" ≠ "")) by (intros Hne; by apply Hne).
  destruct (IsReplicated srcTable); [by eexists; split_and!; [reflexivity|apply Hok|..]|].
  destruct (RelTuples srcTable <=? th)%Z; [by eexists; split_and!; [reflexivity|apply Hok|..]|].
  destruct (_ && bool_decide (length (srcSegmentsHostInfo env) = _)) eqn:Hv2;
    [apply andb_true_iff in Hv2 as [_ Hl%bool_decide_eq_true]; eexists; split_and!; [reflexivity|apply Hok; lia|done..]|].
  destruct (bool_decide_reflect (length (srcSegmentsHostInfo env) ≤ length (destSegmentsIpInfo env)));
    by eexists; split_and!; [reflexivity|apply Hok|..].
Qed.

Section copier_theorems.
Context `{MapRange} `{FlagSet F} (CmdFlags : F) (srcServer destServer : server).
Context (Hsrc : polite srcServer) (Hdest : polite destServer).
Context (env : manager_env) (Henv : env_ok CmdFlags env).
Context (run : copy_run) (Hpolls : ∀ i, returns (polls run i)).
Context (srcTable destTable : Table) (w : nat).
Local Abbreviation copy := (Copy CmdFlags srcServer destServer env run srcTable destTable w).
Local Abbreviation path := (tablePath srcTable).
Local Abbreviation line := (table_line env srcTable).
Local Abbreviation command := (strategy_of CmdFlags env srcTable w).

(** The table is loaded in one statement. *)
Definition direct_copy : Prop := ∃ cmd, command = Ok cmd ∧ direct cmd = true.
(** The load cannot run on beside the clean-up of a failed copy. *)
Definition quiet_copy : Prop := direct_copy ∨ connectionMode env = ConnectionModePull ∨ 7 ≤ ahead (run_timing run).

(** An event that leaves nothing behind when its transaction does not commit:
    no successful commit, and no statement outside a transaction but the
    session setup. *)
Definition undone (e : event) : Prop :=
  match ev_req e with
  | QCommit => ∀ z, ev_answer e ≠ Ok z
  | QExec q => ev_tx e = true ∨ q = setup_query env
  | _ => True
  end.

Lemma in_transaction_undone evs : Forall in_transaction evs → Forall undone evs.
Proof. intros Hall. eapply Forall_impl; [exact Hall|]. intros e [Ht [q Hq]]. unfold undone. rewrite Hq. by left. Qed.

Lemma exec_undone t q r : t = true ∨ q = setup_query env → Forall undone [event_of w t (QExec q) r].
Proof. intros Ht. constructor; [exact Ht|constructor]. Qed.

Lemma prepare_spec dest t0 : slot dest w t0 →
  let '(dest', inTxn, r) := prepareForCopy destServer env destTable w dest in
  ∃ evs, only_on w dest dest' evs ∧ returns r ∧ Forall undone evs ∧
    (∃ t, slot dest' w t ∧ (inTxn = false → t = t0)) ∧ (r = Ok () → inTxn = true ∧ slot dest' w true).
Proof.
  intros Hslot. unfold prepareForCopy.
  destruct (Exec_runs destServer (setup_query env) w dest t0 Hdest Hslot) as (e1 & Hon1 & Hs1 & -> & Hr1).
  destruct (Exec _ _ _ dest) as [dest1 r1]. cbn [fst snd] in *.
  assert (Hu1 : Forall undone [event_of w t0 (QExec (setup_query env)) r1]) by (apply exec_undone; by right).
  destruct Hr1 as [[z ->]|[e ->]]; [|eexists; split_and!; [done|apply returns_err|done|by exists t0|done]].
  destruct (Begin_any_runs destServer w dest1 t0 Hdest Hs1) as (e2 & Hon2 & H2). destruct (Begin _ _ dest1) as [dest2 r2].
  cbn [fst snd] in *. pose proof (only_on_trans _ _ _ _ _ _ Hon1 Hon2) as Hon12.
  destruct H2 as [(_ & -> & Hs2 & z1 & z2 & ->)|(e & -> & [t Ht] & He2)].
  - assert (Hu2 : Forall undone ([event_of w t0 (QExec (setup_query env)) (Ok z)] ++
      [event_of w false QBegin (Ok z1); event_of w true (QExec isolation) (Ok z2)])).
    { apply Forall_app. split; [done|]. by repeat constructor. }
    destruct (truncate env); [|eexists; split_and!; [done|apply returns_ok|done|by exists true|done]].
    destruct (Exec_runs destServer (truncate_query destTable) w dest2 true Hdest Hs2) as (e3 & Hon3 & Hs3 & -> & Hr3).
    destruct (Exec _ _ _ dest2) as [dest3 r3]. cbn [fst snd] in *.
    eexists. split_and!; [by eapply only_on_trans| | |by exists true|done].
    + destruct Hr3 as [[? ->]|[? ->]]; [apply returns_ok|apply returns_err].
    + apply Forall_app. split; [done|]. apply exec_undone. by left.
  - eexists. split_and!; [done|apply returns_err| |by exists t|done]. apply Forall_app. split; [done|].
    eapply Forall_impl; [exact He2|]. intros ev [Hev|[Hev Htx]]; unfold undone; rewrite Hev; [done|by left].
Qed.

Lemma rollback_spec inTxn dest t : slot dest w t →
  ∃ evs, only_on w dest (rollback destServer w inTxn dest) evs ∧ Forall undone evs ∧
    slot (rollback destServer w inTxn dest) w (if inTxn then false else t).
Proof.
  intros Hslot. unfold rollback. destruct inTxn; [|exists []; split_and!; [apply only_on_refl|constructor|done]].
  destruct (finish_runs destServer QRollback "rollback" w dest t Hdest Hslot) as (evs & Hon & Hs & Hr). exists evs. split_and!; [done| |done].
  destruct Hr as [(_ & z & _ & ->)|(e & _ & Hall)]; [repeat constructor|]. eapply Forall_impl; [exact Hall|].
  intros ev [Hev _]. unfold undone. by rewrite Hev.
Qed.

(** What the copy of a table changes, by the status it records; [closed] says
    whether the slot of the destination was closed before. *)
Record copied (closed : bool) (st st' : copy_state) (status : copy_status) (e1 e2 : list event) : Prop := {
  cp_src : only_on w (st_src st) (st_src st') e1;
  cp_dest : only_on w (st_dest st) (st_dest st') e2;
  cp_src_slot : ∀ t, slot (st_src st) w t → slot (st_src st') w t;
  cp_slot : ∃ t, slot (st_dest st') w t;
  cp_closed : closed = true → quiet_copy → slot (st_dest st') w false;
  cp_status : st_copied st' = <[path := status]> (st_copied st);
  cp_succed : fSucced st' = fSucced st ++ (if decide (status = COPY_SUCCED) then [line] else []);
  cp_skipped : fSkipped st' = fSkipped st ++ (if decide (status = COPY_SKIPED) then [line] else []);
  cp_failed : fFailed st' = fFailed st ++ (if decide (status = COPY_FAILED) then [line] else []);
  cp_progress : progress st' = S (progress st);
  cp_committed : status = COPY_SUCCED →
    ∃ cmd t b1 f1 b2 f2 z, command = Ok cmd ∧ WorkerId (cmd_base cmd) = w ∧ e1 = b1 ++ f1 ∧ e2 = b2 ++ f2 ++ [event_of w true QCommit (Ok z)] ∧
      transferred CmdFlags (cmdID run) (extTabName run) (polls run) cmd srcTable destTable t f1 f2;
  cp_undone : status = COPY_FAILED → direct_copy → Forall undone e2;
  cp_untouched : status = COPY_SKIPED → e2 = []
}.

(** A copy that fails after [e1] and [e2], with its clean-up and the rest of
    its load. *)
Lemma failed_copied st src' dest' inTxn t0 e e1 e2 t rest :
  only_on w (st_src st) src' e1 → only_on w (st_dest st) dest' e2 → (∀ t, slot (st_src st) w t → slot src' w t) →
  slot dest' w t → (inTxn = false → t = t0) → load_within 7 rest →
  (direct_copy → Forall undone e2 ∧ harmless destServer w rest) → (quiet_copy → harmless destServer w rest) →
  ∃ st' e2', run_on destServer w rest (cleanupAfterCopy destServer env srcTable w false inTxn (Some e) (with_conns st src' dest')) = Ok st' ∧
    copied (negb t0) st st' COPY_FAILED e1 e2'.
Proof.
  intros Hon1 Hon2 Hsl Hslot Hin Hrest Hdir Hq. destruct (rollback_spec inTxn dest' t Hslot) as (e3 & Hon3 & Hu3 & Hs3).
  pose proof (only_on_trans _ _ _ _ _ _ Hon2 Hon3) as Hon23.
  destruct (run_load_settles destServer Hdest w true 7 rest Hrest _ _ Hs3) as (e4 & Hon4 & Hr4 & t4 & Hs4).
  unfold run_on. cbn [cleanupAfterCopy with_conns st_dest st_src].
  destruct (run_load _ _ _ _ _) as [dest4 r4] eqn:Hrun. cbn [fst snd] in *.
  eexists _, ((e2 ++ e3) ++ e4). split; [destruct Hr4 as [[? ->]|[? ->]]; reflexivity|].
  assert (Hsame : harmless destServer w rest → dest4 = rollback destServer w inTxn dest' ∧ e4 = []).
  { intros Hh. destruct (Hh (rollback destServer w inTxn dest')) as (r & Hr & _). rewrite Hrun in Hr. injection Hr as -> _.
    split; [done|]. apply on_log in Hon4. apply (app_inv_head (log (rollback destServer w inTxn dest'))). by rewrite app_nil_r, <- Hon4. }
  split; simpl; rewrite ?app_nil_r; try done; [by eapply only_on_trans|by exists t4|..].
  - intros Ht0 Hqu. destruct (Hsame (Hq Hqu)) as [-> _]. destruct inTxn; [done|].
    rewrite Hin in Hs3 by done. by destruct t0.
  - intros _ Hd. destruct (Hdir Hd) as [Hu Hh]. destruct (Hsame Hh) as [_ ->]. rewrite app_nil_r. by apply Forall_app.
Qed.
Lemma copyData_spec src dest t : slot src w t → slot dest w true →
  let '(src', got, r) := copyData CmdFlags srcServer destServer env run srcTable destTable w src dest in
  slot src' w t ∧ ∃ e1 e2, only_on w src src' e1 ∧ only_on w dest got.1 e2 ∧ returns r ∧ (∃ t', slot got.1 w t') ∧ load_within 7 got.2 ∧
    (direct_copy → Forall undone e2 ∧ harmless destServer w got.2) ∧ (quiet_copy → harmless destServer w got.2) ∧
    (r = Ok () → slot got.1 w true ∧ ∃ cmd, command = Ok cmd ∧ WorkerId (cmd_base cmd) = w ∧
      transferred CmdFlags (cmdID run) (extTabName run) (polls run) cmd srcTable destTable t e1 e2).
Proof.
  intros Hss Hds. unfold copyData, quiet_copy, direct_copy. destruct (strategy_of_ok CmdFlags env srcTable w Henv) as (cmd & -> & Hcmd & Hw & Hmode).
  assert (Hex : let '(src', got, r) := Execute CmdFlags srcServer destServer (cmdID run) (extTabName run) (polls run) (run_timing run) cmd
      srcTable destTable src dest in
    (∃ e1 e2, executed CmdFlags destServer (cmdID run) (extTabName run) (polls run) (run_timing run) cmd srcTable destTable t src dest src' got r e1 e2) ∧
      slot src' (WorkerId (cmd_base cmd)) t).
  { destruct (ok_mode CmdFlags env Henv) as [Hp|Hp]; rewrite <- Hmode in Hp.
    - apply Execute_push; try done; by rewrite Hw.
    - apply Execute_pull; try done; by rewrite Hw. }
  destruct (Execute _ _ _ _ _ _ _ _ _ _ src dest) as [[src' got] r]. destruct Hex as ((e1 & e2 & Hx) & Hs').
  destruct Hx as [Hson [Hdon Hslot Hrest Hdir Hq] Hr Hok]. rewrite Hw in *. split; [done|]. exists e1, e2.
  assert (Hd : (∃ cmd0, Ok cmd = Ok cmd0 ∧ direct cmd0 = true) → Forall undone e2 ∧ harmless destServer w got.2).
  { intros (cmd0 & [= <-] & Hd). destruct (Hdir Hd) as [Hall Hh]. split; [by apply in_transaction_undone|done]. }
  split_and!; try done.
  - intros [Hdc|Hqu]; [by apply Hd|]. apply Hq. by rewrite Hmode.
  - intros Hr0. destruct (Hok Hr0) as [Hopen Ht]. split; [done|]. by exists cmd.
Qed.

Lemma Copy_spec st t t0 : slot (st_src st) w t → slot (st_dest st) w t0 →
  ∃ st' status e1 e2, copy st = Ok st' ∧ copied (negb t0) st st' status e1 e2.
Proof.
  intros Hss Hds. unfold Copy, shouldSkipCopy.
  destruct (Exec_runs srcServer (empty_query srcTable) w (st_src st) t Hsrc Hss) as (e0 & Hon0 & Hs0 & _ & _).
  destruct (Exec srcServer _ _ (st_src st)) as [src0 r0]. cbn [fst snd] in *.
  assert (Hkeep0 : ∀ t', slot (st_src st) w t' → slot src0 w t') by (intros t' Ht'; by rewrite (slot_fun _ _ _ _ Ht' Hss)).
  destruct (match r0 with Ok n => bool_decide (n = 0%Z) | _ => false end).
  { eexists _, COPY_SKIPED, e0, []. split; [reflexivity|]. split; simpl; rewrite ?app_nil_r; try done; [apply only_on_refl|by exists t0|].
    intros Ht0 _. by destruct t0. }
  pose proof (prepare_spec (st_dest st) t0 Hds) as Hprep.
  destruct (prepareForCopy _ _ _ _ (st_dest st)) as [[dest1 inTxn] r1].
  destruct Hprep as (e1 & Hon1 & Hr1 & Hu1 & (t1 & Hs1 & Hin1) & Hok1).
  assert (Hdone : load_within 7 (LDone (Ok 0%Z)) ∧ harmless destServer w (LDone (Ok 0%Z))) by (split; [auto|by apply harmless_done]).
  destruct Hr1 as [[[] ->]|[e ->]].
  2: { destruct (failed_copied st src0 dest1 inTxn t0 e e0 e1 t1 (LDone (Ok 0%Z))) as (st' & e2 & Hst & Hc); try (done || tauto).
       exists st', COPY_FAILED, e0, e2. split; [|done]. rewrite <- Hst. by destruct inTxn. }
  destruct (Hok1 eq_refl) as [-> Hopen]. pose proof (copyData_spec src0 dest1 t Hs0 Hopen) as Hexec.
  destruct (copyData _ _ _ _ _ _ _ _ src0 dest1) as [[src2 [dest2 rest]] r2]. cbn [fst snd] in *.
  destruct Hexec as (Hs2' & f1 & f2 & Hson & Hdon & Hr2 & [t2 Hs2] & Hrest & Hdir & Hq & Hrows).
  pose proof (only_on_trans _ _ _ _ _ _ Hon0 Hson) as HonS. pose proof (only_on_trans _ _ _ _ _ _ Hon1 Hdon) as HonD.
  assert (Hkeep : ∀ t', slot (st_src st) w t' → slot src2 w t') by (intros t' Ht'; by rewrite (slot_fun _ _ _ _ Ht' Hss)).
  assert (Hundone : direct_copy → Forall undone (e1 ++ f2)) by (intros Hd; apply Forall_app; split; [done|by apply Hdir]).
  destruct Hr2 as [[[] ->]|[e ->]].
  2: { destruct (failed_copied st src2 dest2 true t0 e _ _ t2 rest HonS HonD) as (st' & e2 & Hst & Hc); try done; [|by eauto 6].
       intros Hd. split; [by apply Hundone|by apply Hdir]. }
  destruct (Hrows eq_refl) as [Hopen2 (cmd & Hcmd & Hw & Htr)].
  destruct (finish_runs destServer QCommit "commit" w dest2 true Hdest Hopen2) as (g & Hong & Hsg & Hrg).
  unfold Commit. destruct (finish _ _ _ _ dest2) as [dest3 r3]. cbn [fst snd] in *.
  pose proof (only_on_trans _ _ _ _ _ _ HonD Hong) as HonD3.
  destruct Hrg as [(_ & z & -> & ->)|(e & -> & Hallg)]; cbn [error_of].
  - eexists _, COPY_SUCCED, _, _. split; [reflexivity|].
    split; simpl; rewrite ?app_nil_r; try done; [by exists false|]. intros _.
    exists cmd, t, e0, f1, e1, f2, z. by rewrite <- app_assoc.
  - destruct (failed_copied st src2 dest3 true t0 e _ _ false (LDone (Ok 0%Z)) HonS HonD3) as (st' & e2 & Hst & Hc); try (done || tauto).
    { intros Hd. split; [|by apply Hdone]. apply Forall_app. split; [by apply Hundone|]. eapply Forall_impl; [exact Hallg|].
      intros ev [Hev Ha]. unfold undone. rewrite Hev, Ha. done. }
    by exists st', COPY_FAILED, (e0 ++ f1), e2.
Qed.

(** C12: whatever the two servers answer, the copy of a table ends and records
    the table once: under one status, with one line in the file of that status
    and one step of the progress bar. It leaves the slots of the other workers
    as they were, and its own transaction slot closed, unless the load runs
    through an external table in push mode and is left running by a copy that
    fails. *)
Theorem copy_records_and_closes (st : copy_state) (t t0 : bool)
    (Hss : slot (st_src st) w t) (Hds : slot (st_dest st) w t0) :
  ∃ st' status, copy st = Ok st' ∧
    (t0 = false → quiet_copy → slot (st_dest st') w false) ∧
    (∀ i, i ≠ w → Tx (st_dest st') !! i = Tx (st_dest st) !! i) ∧
    st_copied st' = <[path := status]> (st_copied st) ∧
    fSucced st' = fSucced st ++ (if decide (status = COPY_SUCCED) then [line] else []) ∧
    fSkipped st' = fSkipped st ++ (if decide (status = COPY_SKIPED) then [line] else []) ∧
    fFailed st' = fFailed st ++ (if decide (status = COPY_FAILED) then [line] else []) ∧
    progress st' = S (progress st).
Proof.
  destruct (Copy_spec st t t0 Hss Hds) as (st' & status & e1 & e2 & Hrun & [_ Hon _ _ Hclosed]). exists st', status.
  split_and!; try done; [by intros ->; apply Hclosed|]. by apply (on_other w (st_dest st) (st_dest st') e2).
Qed.

(** C10: a table is recorded as copied only after its load was committed: the
    last requests to the destination are those of the load its strategy
    prescribes, each answered without an error, and behind them a successful
    commit; the last request to the source is the command that unloads the
    table, answered without an error, one of the two commands having been given
    the ports that the other one reported; and with [--validate] both commands
    reported equally many rows (copy_manager.go:237). *)
Theorem copy_success_committed (st st' : copy_state) (t t0 : bool)
    (Hss : slot (st_src st) w t) (Hds : slot (st_dest st) w t0)
    (Hrun : copy st = Ok st') (Hsucced : st_copied st' !! path = Some COPY_SUCCED) :
  ∃ cmd k ports qTo toRows fromRows t' e1 e2 loads z,
    let push := bool_decide (ConnectionMode (cmd_base cmd) = ConnectionModePush) in
    command = Ok cmd ∧ GetHelperPortList (polls run k) = Ok ports ∧
    CopyTo_query CmdFlags cmd srcTable (if push then ports else []) (cmdID run) = Ok qTo ∧
    log (st_src st') = log (st_src st) ++ e1 ++ [event_of w t' (QExec qTo) (Ok toRows)] ∧
    log (st_dest st') = log (st_dest st) ++ e2 ++ loads ++ [event_of w true QCommit (Ok z)] ∧
    load_events CmdFlags (cmdID run) (extTabName run) cmd destTable (if push then [] else ports) loads fromRows ∧
    (GetBool CmdFlags VALIDATE = Ok true → fromRows = toRows).
Proof.
  destruct (Copy_spec st t t0 Hss Hds) as (st'' & status & e1 & e2 & Hrun' & [Hs Hd _ _ _ Hst _ _ _ _ Hcom _ _]).
  rewrite Hrun in Hrun'. injection Hrun' as <-. rewrite Hst, lookup_insert_eq in Hsucced. injection Hsucced as ->.
  destruct (Hcom eq_refl) as (cmd & t' & b1 & f1 & b2 & f2 & z & Hcmd & Hw & -> & -> & k & ports & qTo & toRows & fromRows & Hk & Hq & -> & Hl & Hv).
  exists cmd, k, ports, qTo, toRows, fromRows, t', b1, b2, f2, z. rewrite Hw in Hs.
  split_and!; [done..|apply Hs|apply Hd|done|done].
Qed.

(** C11: a copy on the master or segment by segment is atomic: when it is
    recorded as failed, nothing it sent to the destination was committed, and
    everything but the session setup, the truncation included, was sent
    through the transaction that did not commit, even when its load was left
    running. *)
Theorem copy_failure_undone (st st' : copy_state) (t t0 : bool)
    (Hss : slot (st_src st) w t) (Hds : slot (st_dest st) w t0) (Hdirect : direct_copy)
    (Hrun : copy st = Ok st') (Hfailed : st_copied st' !! path = Some COPY_FAILED) :
  ∃ evs, log (st_dest st') = log (st_dest st) ++ evs ∧
    (∀ e, e ∈ evs → ev_req e = QCommit → ∀ z, ev_answer e ≠ Ok z) ∧
    (∀ e q, e ∈ evs → ev_req e = QExec q → ev_tx e = true ∨ q = setup_query env).
Proof.
  destruct (Copy_spec st t t0 Hss Hds) as (st'' & status & e1 & e2 & Hrun' & [_ Hd _ _ _ Hst _ _ _ _ _ Hun _]).
  rewrite Hrun in Hrun'. injection Hrun' as <-. rewrite Hst, lookup_insert_eq in Hfailed. injection Hfailed as ->.
  exists e2. split; [apply Hd|]. specialize (Hun eq_refl Hdirect). rewrite Forall_forall in Hun.
  split; [intros e He Hq|intros e q He Hq]; specialize (Hun e He); unfold undone in Hun; by rewrite Hq in Hun.
Qed.
End copier_theorems.

(** * Theorems on the pool *)

Definition busy_table (ph : worker_phase) : list Table := match ph with Busy tp => [SrcTable tp] | _ => [] end.
Definition busy (p : copy_pool) : list Table := phases p ≫= busy_table.

Lemma bind_insert_perm {A B} (f : A → list B) (l : list A) i x y : l !! i = Some x →
  f x ++ (<[i := y]> l ≫= f) ≡ₚ f y ++ (l ≫= f).
Proof.
  intros Hx. assert (Hi : i < length l) by by eapply lookup_lt_Some.
  rewrite insert_take_drop by done. rewrite <- (take_drop_middle l i x Hx) at 3.
  rewrite !bind_app, !bind_cons. solve_Permutation.
Qed.

(** The slots of the connections below [n]. *)
Definition slots (c : DBConn) (n : nat) : Prop := ∀ i, i < n → ∃ t, slot c i t.

Lemma slots_only c c' w n evs : slots c n → only_on w c c' evs → (∃ t, slot c' w t) → slots c' n.
Proof.
  intros Hs [Hnum _ _ _ Ho] Hw i Hi. destruct (decide (i = w)) as [->|Hne]; [done|].
  destruct (Hs i Hi) as [t [Hlt Ht]]. exists t. split; [by rewrite Hnum|by rewrite Ho].
Qed.

(** The records of one status, in order. *)
Definition with_status (s : copy_status) (rec : list (Table * copy_status)) : list Table :=
  (filter (λ r, r.2 = s) rec).*1.

Lemma with_status_snoc s rec t s' :
  with_status s (rec ++ [(t, s')]) = with_status s rec ++ (if decide (s' = s) then [t] else []).
Proof.
  unfold with_status. rewrite filter_app, fmap_app. f_equal. rewrite filter_cons, filter_nil. by destruct (decide _).
Qed.

Lemma with_status_perm rec :
  with_status COPY_SUCCED rec ++ with_status COPY_SKIPED rec ++ with_status COPY_FAILED rec ≡ₚ rec.*1.
Proof.
  induction rec as [|[t s] rec IH]; [done|]. unfold with_status in *. rewrite fmap_cons, <- IH, !filter_cons. simpl.
  destruct s; simpl; solve_Permutation.
Qed.

Lemma filter_status_length {A} (f : A → copy_status) (s : copy_status) (l : list A) :
  length (filter (λ x, x = s) (f <$> l)) = length (filter (λ x, f x = s) l).
Proof. induction l as [|x l IH]; [done|]. rewrite fmap_cons, !filter_cons. case_decide; simpl; by rewrite IH. Qed.

(** The report counts the statuses of all results, whatever the order of the
    maps. *)
Lemma count_status_fold (l : list copy_status) a b c :
  foldl count_status (a, b, c) l =
  (a + length (filter (λ s, s = COPY_SUCCED) l), b + length (filter (λ s, s = COPY_SKIPED) l),
   c + length (filter (λ s, s = COPY_FAILED) l)).
Proof.
  revert a b c. induction l as [|s l IH]; intros a b c; [cbn; by rewrite !Nat.add_0_r|].
  destruct s; cbn [foldl count_status]; rewrite IH, !filter_cons; repeat (first [case_decide; [|done]|case_decide; [done|]]);
    cbn [length]; by rewrite ?Nat.add_succ_r.
Qed.

Lemma foldl_concat {A B} (f : A → B → A) (ls : list (list B)) a : foldl (λ x l, foldl f x l) a ls = foldl f a (concat ls).
Proof. revert a. induction ls as [|l ls IH]; intros a; simpl; [done|]. by rewrite foldl_app, IH. Qed.

Lemma generateReport_counts `{MapRange} res (l : list (string * copy_status)) : (res ≫= map_to_list) ≡ₚ l →
  generateReport res = (length (filter (λ s, s = COPY_SUCCED) l.*2), length (filter (λ s, s = COPY_SKIPED) l.*2),
                        length (filter (λ s, s = COPY_FAILED) l.*2)).
Proof.
  intros Hl. unfold generateReport.
  transitivity (foldl count_status (0, 0, 0) (concat ((λ m, (range_map 315 m).*2) <$> res))).
  { rewrite <- foldl_concat, foldl_fmap. done. }
  rewrite count_status_fold. simpl.
  assert (Hp : concat ((λ m, (range_map 315 m).*2) <$> res) ≡ₚ l.*2).
  { rewrite <- Hl. clear Hl. induction res as [|m res IH]; [done|]. rewrite fmap_cons, bind_cons, fmap_app. simpl.
    rewrite IH. by rewrite range_map_perm. }
  assert (Hlen : ∀ s, length (filter (λ x, x = s) (concat ((λ m, (range_map 315 m).*2) <$> res))) = length (filter (λ x, x = s) l.*2)).
  { intros s. apply Permutation_length. by rewrite Hp. }
  by rewrite !Hlen.
Qed.

Section pool_theorems.
Context `{MapRange} `{FlagSet F} (CmdFlags : F) (srcServer destServer : server).
Context (Hsrc : polite srcServer) (Hdest : polite destServer).
Context (env : manager_env) (Henv : env_ok CmdFlags env) (n : nat).
Local Abbreviation path t := (tablePath t).
Local Abbreviation line t := (table_line env t).
Local Abbreviation step := (copy_step CmdFlags srcServer destServer env).
Local Abbreviation srcs p := (SrcTable <$> sent p).

(** The tables recorded so far account for the files, the progress bar and,
    for tables of different names, the results; with those being copied, those
    in the channel and those dropped after a termination they are the tables
    sent. *)
Record pool_ok (p : copy_pool) (rec : list (Table * copy_status)) (dropped : list Table) : Prop := {
  po_phases : length (phases p) = n;
  po_results : length (results p) = n;
  po_src : slots (pl_src p) n;
  po_dest : slots (pl_dest p) n;
  po_succed : pl_succed p = (λ t, line t) <$> with_status COPY_SUCCED rec;
  po_skipped : pl_skipped p = (λ t, line t) <$> with_status COPY_SKIPED rec;
  po_failed : pl_failed p = (λ t, line t) <$> with_status COPY_FAILED rec;
  po_progress : pl_progress p = length rec;
  po_sent : srcs p ≡ₚ rec.*1 ++ busy p ++ (SrcTable <$> tables p) ++ dropped;
  po_dropped : WasTerminated p = false → dropped = [];
  po_maps : NoDup ((λ t, path t) <$> srcs p) → (results p ≫= map_to_list) ≡ₚ (λ r, (path r.1, r.2)) <$> rec;
  po_returned : ∀ i, phases p !! i = Some Returned → WasTerminated p = true ∨ tables p = [] ∧ tables_closed p = true
}.

Lemma NewCopyManager_ok src dest : slots src n → slots dest n → pool_ok (NewCopyManager n src dest) [] [].
Proof.
  intros Hs Hd. split; simpl; try done; try apply length_replicate.
  - unfold busy. simpl. induction n as [|m IH]; [done|]. simpl. apply IH.
    + intros i Hi. apply Hs. lia.
    + intros i Hi. apply Hd. lia.
  - intros _. clear. induction n as [|m IH]; [done|]. simpl. rewrite map_to_list_empty. done.
  - intros i Hi%lookup_replicate. naive_solver.
Qed.

Lemma returned_insert (l : list worker_phase) i ph j : <[i := ph]> l !! j = Some Returned → ph = Returned ∨ l !! j = Some Returned.
Proof.
  destruct (decide (i = j)) as [->|Hne]; [|rewrite list_lookup_insert_ne by done; auto].
  intros Hj. assert (Hlt : j < length l) by (apply lookup_lt_Some in Hj; by rewrite length_insert in Hj).
  rewrite list_lookup_insert_eq in Hj by done. injection Hj as ->. auto.
Qed.

(** A worker changes its phase and the channel only. *)
Lemma phase_ok p rec dropped i ph ph' queue closed all terminated dropped' :
  pool_ok p rec dropped → phases p !! i = Some ph →
  (SrcTable <$> all) ≡ₚ rec.*1 ++ (<[i := ph']> (phases p) ≫= busy_table) ++ (SrcTable <$> queue) ++ dropped' →
  (terminated = false → dropped' = []) → (NoDup ((λ t, path t) <$> (SrcTable <$> all)) → NoDup ((λ t, path t) <$> srcs p)) →
  (∀ j, <[i := ph']> (phases p) !! j = Some Returned → terminated = true ∨ queue = [] ∧ closed = true) →
  pool_ok (set_queue p queue closed all (<[i := ph']> (phases p)) terminated) rec dropped'.
Proof. intros [] Hi Hsent Hd Hnd Hret. split; simpl; try done; [by rewrite length_insert|auto]. Qed.

Lemma take_ok p rec dropped i tp queue : pool_ok p rec dropped → phases p !! i = Some Idle → tables p = tp :: queue →
  WasTerminated p = false →
  pool_ok (set_queue p queue (tables_closed p) (sent p) (<[i := Busy tp]> (phases p)) false) rec dropped.
Proof.
  intros Hok Hi Htab Hterm. eapply phase_ok; [done|done| | |done|].
  - pose proof (bind_insert_perm busy_table _ _ _ (Busy tp) Hi) as Hb. simpl in Hb. rewrite Hb.
    rewrite (po_sent _ _ _ Hok), Htab, fmap_cons. unfold busy. solve_Permutation.
  - intros _. by apply (po_dropped _ _ _ Hok).
  - intros j [?|Hj]%returned_insert; [done|]. apply (po_returned _ _ _ Hok) in Hj. rewrite Htab in Hj. naive_solver.
Qed.

Lemma drop_ok p rec dropped i tp queue : pool_ok p rec dropped → phases p !! i = Some Idle → tables p = tp :: queue →
  pool_ok (set_queue p queue (tables_closed p) (sent p) (<[i := Returned]> (phases p)) true) rec (SrcTable tp :: dropped).
Proof.
  intros Hok Hi Htab. eapply phase_ok; [done|done| |done|done|auto].
  pose proof (bind_insert_perm busy_table _ _ _ Returned Hi) as Hb. simpl in Hb. rewrite Hb.
  rewrite (po_sent _ _ _ Hok), Htab, fmap_cons. unfold busy. solve_Permutation.
Qed.

Lemma return_ok p rec dropped i : pool_ok p rec dropped → phases p !! i = Some Idle → tables p = [] → tables_closed p = true →
  pool_ok (set_queue p [] true (sent p) (<[i := Returned]> (phases p)) (WasTerminated p)) rec dropped.
Proof.
  intros Hok Hi Htab Hcl. eapply phase_ok; [done|done| |by apply (po_dropped _ _ _ Hok)|done|auto].
  pose proof (bind_insert_perm busy_table _ _ _ Returned Hi) as Hb. simpl in Hb. rewrite Hb.
  rewrite (po_sent _ _ _ Hok), Htab. unfold busy. done.
Qed.

(** The path of a table that is being copied is not in the results yet. *)
Lemma fresh_path p rec dropped i tp copied : pool_ok p rec dropped → NoDup ((λ t, path t) <$> srcs p) →
  phases p !! i = Some (Busy tp) → results p !! i = Some copied → copied !! path (SrcTable tp) = None.
Proof.
  intros Hok Hnd Hi Hm. destruct (copied !! path (SrcTable tp)) as [s|] eqn:Hl; [exfalso|done].
  assert (Hin : (path (SrcTable tp), s) ∈ (results p ≫= map_to_list)).
  { apply list_elem_of_bind. exists copied. split; [by apply elem_of_map_to_list|by eapply list_elem_of_lookup_2]. }
  rewrite (po_maps _ _ _ Hok Hnd) in Hin. apply list_elem_of_fmap in Hin as ([t s'] & [Hp ->]%pair_equal_spec & Hrec). cbn [fst snd] in *.
  rewrite (po_sent _ _ _ Hok), !fmap_app in Hnd. apply NoDup_app in Hnd as (_ & Hdis & _). apply (Hdis (path t)).
  - apply list_elem_of_fmap. exists t. split; [done|]. apply list_elem_of_fmap. by exists (t, s').
  - rewrite elem_of_app. left. rewrite <- Hp. apply list_elem_of_fmap. exists (SrcTable tp). split; [done|].
    apply list_elem_of_bind. exists (Busy tp). split; [by apply list_elem_of_singleton|by eapply list_elem_of_lookup_2].
Qed.

Lemma copy_ok p rec dropped i tp copied run st : pool_ok p rec dropped → phases p !! i = Some (Busy tp) →
  results p !! i = Some copied → (∀ k, returns (polls run k)) →
  Copy CmdFlags srcServer destServer env run (SrcTable tp) (DestTable tp) i (view p copied) = Ok st →
  ∃ s, pool_ok (put_back p i st) (rec ++ [(SrcTable tp, s)]) dropped.
Proof.
  intros Hok Hi Hm Hpolls Hrun. pose proof Hok as [Hp Hr Hss Hds Hsu Hsk Hfa Hpr Hse Hdr Hma Hre].
  assert (Hlt : i < n) by (rewrite <- Hp; by eapply lookup_lt_Some).
  destruct (Hss i Hlt) as [t Ht], (Hds i Hlt) as [t0 Ht0].
  destruct (Copy_spec CmdFlags srcServer destServer Hsrc Hdest env Henv run Hpolls (SrcTable tp) (DestTable tp) i (view p copied) t t0)
    as (st' & s & e1 & e2 & Hrun' & [Hs1 Hs2 Hk1 Hk2 _ Hst Hfs Hfk Hff Hpg _ _ _]); [done..|].
  rewrite Hrun in Hrun'. injection Hrun' as <-. simpl in *. exists s.
  split; simpl; rewrite ?with_status_snoc, ?length_insert, ?fmap_app; try done.
  - eapply slots_only; [exact Hss|exact Hs1|]. exists t. by apply Hk1.
  - by eapply slots_only; [exact Hds|exact Hs2|].
  - rewrite Hfs, Hsu. f_equal. by repeat case_decide.
  - rewrite Hfk, Hsk. f_equal. by repeat case_decide.
  - rewrite Hff, Hfa. f_equal. by repeat case_decide.
  - rewrite Hpg, Hpr, length_app. simpl. lia.
  - pose proof (bind_insert_perm busy_table _ _ _ Idle Hi) as Hb. simpl in Hb. rewrite Hse. unfold busy in *. simpl.
    rewrite <- Hb. solve_Permutation.
  - intros Hnd. pose proof (bind_insert_perm map_to_list _ _ _ (st_copied st) Hm) as Hb.
    rewrite Hst, map_to_list_insert in Hb by by eapply fresh_path.
    apply (Permutation_app_inv_l (map_to_list copied)). rewrite Hst, Hb, (Hma Hnd). solve_Permutation.
  - intros j [?|Hj]%returned_insert; [done|by apply Hre in Hj].
Qed.

Lemma step_ok p p' rec dropped : pool_ok p rec dropped → step p p' → ∃ rec' dropped', pool_ok p' rec' dropped'.
Proof.
  intros Hok Hstep. pose proof Hok as [Hp Hr Hss Hds Hsu Hsk Hfa Hpr Hse Hdr Hma Hre].
  destruct Hstep as [i p p' Hw|p tp Hcl|p Hcl|p].
  - destruct Hw as [p i tp queue Hi Ht Hterm|p i tp queue Hi Ht Hterm|p i tp copied run st Hi Hm Hpo Hrun|p i Hi Ht Hcl].
    + eexists _, _. by apply take_ok.
    + eexists _, _. by eapply drop_ok.
    + destruct (copy_ok p rec dropped i tp copied run st) as [s Hs]; eauto.
    + eexists _, _. by apply return_ok.
  - exists rec, dropped. split; simpl; try done.
    + rewrite !fmap_app, Hse. unfold busy. simpl. solve_Permutation.
    + intros Hnd. apply Hma. rewrite !fmap_app in Hnd. by apply NoDup_app in Hnd as (? & _).
    + intros j Hj. destruct (Hre j Hj) as [?|[_ ?]]; [auto|congruence].
  - exists rec, dropped. split; simpl; try done. intros j Hj. destruct (Hre j Hj) as [?|[_ ?]]; [auto|congruence].
  - exists rec, dropped. split; simpl; try done. auto.
Qed.

Lemma reachable_ok src dest p : slots src n → slots dest n → rtc step (NewCopyManager n src dest) p →
  ∃ rec dropped, pool_ok p rec dropped.
Proof.
  intros Hs Hd Hr. revert p Hr. apply (rtc_ind_r (R := step)); [exists [], []; by apply NewCopyManager_ok|].
  intros p1 p2 _ Hstep (rec & dropped & Hok). by eapply step_ok.
Qed.

Lemma returned_idle p rec dropped : pool_ok p rec dropped → 0 < n → Forall (.= Returned) (phases p) → WasTerminated p = false →
  busy p = [] ∧ tables p = [] ∧ dropped = [].
Proof.
  intros Hok Hn Hall Hterm. pose proof Hok as [Hp _ _ _ _ _ _ _ _ Hdr _ Hre]. split_and!; [| |auto].
  - unfold busy. clear -Hall. induction Hall as [|ph l -> _ IH]; [done|]. by rewrite bind_cons, IH.
  - destruct (lookup_lt_is_Some_2 (phases p) 0) as [ph Hph]; [lia|].
    rewrite Forall_lookup in Hall. pose proof (Hall 0 ph Hph) as ->. destruct (Hre 0 Hph) as [?|[? _]]; [congruence|done].
Qed.

(** The copy of a worker that has a table ends. *)
Lemma busy_steps p rec dropped i tp : pool_ok p rec dropped → phases p !! i = Some (Busy tp) →
  ∃ p', worker_step CmdFlags srcServer destServer env i p p'.
Proof.
  intros Hok Hi. pose proof Hok as [Hp Hr Hss Hds _ _ _ _ _ _ _ _].
  assert (Hlt : i < n) by (rewrite <- Hp; by eapply lookup_lt_Some).
  destruct (Hss i Hlt) as [t Ht], (Hds i Hlt) as [t0 Ht0]. destruct (lookup_lt_is_Some_2 (results p) i) as [copied Hm]; [lia|].
  set (run := {| cmdID := ""; extTabName := ""; polls := λ _, Err ""; run_timing := {| visible := 0; ahead := 0 |} |}).
  assert (Hpolls : ∀ k, returns (polls run k)) by (intros k; apply returns_err).
  destruct (Copy_spec CmdFlags srcServer destServer Hsrc Hdest env Henv run Hpolls (SrcTable tp) (DestTable tp) i (view p copied) t t0)
    as (st & s & e1 & e2 & Hrun & _); [done..|]. eexists. by eapply step_copy.
Qed.

(** C13: the pool of workers copies every table it is sent: in a run that is not
    terminated, when all workers have returned, each table sent has exactly
    one line in the three list files and one step of the progress bar, and,
    when no two of them have the same name, the report counts the lines of the
    three files. Once the channel is closed no worker is stuck. *)
Theorem copy_pool_records_all (src dest : DBConn) (p : copy_pool)
    (Hsrcs : slots src n) (Hdests : slots dest n) (Hn : 0 < n) (Hreach : rtc step (NewCopyManager n src dest) p) :
  (WasTerminated p = false → Forall (.= Returned) (phases p) →
     pl_succed p ++ pl_skipped p ++ pl_failed p ≡ₚ (λ t, line t) <$> srcs p ∧
     pl_progress p = length (sent p) ∧
     (NoDup ((λ t, path t) <$> srcs p) →
        generateReport (results p) = (length (pl_succed p), length (pl_skipped p), length (pl_failed p)))) ∧
  (tables_closed p = true → ∀ i ph, phases p !! i = Some ph → ph ≠ Returned →
     ∃ p', worker_step CmdFlags srcServer destServer env i p p').
Proof.
  destruct (reachable_ok src dest p Hsrcs Hdests Hreach) as (rec & dropped & Hok). split.
  - intros Hterm Hall. destruct (returned_idle p rec dropped Hok Hn Hall Hterm) as (Hb & Ht & ->).
    pose proof (po_sent _ _ _ Hok) as Hsent. rewrite Hb, Ht, !app_nil_r in Hsent.
    rewrite (po_succed _ _ _ Hok), (po_skipped _ _ _ Hok), (po_failed _ _ _ Hok), (po_progress _ _ _ Hok). split_and!.
    + by rewrite Hsent, <- !fmap_app, with_status_perm.
    + rewrite <- (length_fmap fst rec), <- (length_fmap SrcTable (sent p)). by rewrite Hsent.
    + intros Hnd. rewrite (generateReport_counts _ _ (po_maps _ _ _ Hok Hnd)), !length_fmap. unfold with_status.
      rewrite !length_fmap, <- list_fmap_compose. by rewrite !filter_status_length.
  - intros Hcl i ph Hi Hne. destruct ph as [|tp|]; [|by eapply busy_steps|done].
    destruct (tables p) as [|tp queue] eqn:Ht; [eexists; by apply step_return|].
    destruct (WasTerminated p) eqn:Hterm; eexists; [by eapply step_drop|by eapply step_take].
Qed.
End pool_theorems.

(** * Instances *)

(** A server that answers every request with one row, and one that fails the
    statements that start with [bad]. *)
Definition one_row : server := λ _ _ _ _, Ok 1%Z.
Definition fails_on (bad : string) : server := λ _ _ _ r,
  match r with QExec q => if String.prefix bad q then Err "canceled" else Ok 1%Z | _ => Ok 1%Z end.
Lemma one_row_polite : polite one_row.
Proof. intros h n t r. left. by exists 1%Z. Qed.
Lemma fails_on_polite bad : polite (fails_on bad).
Proof. intros h n t [| | |q]; simpl; try destruct (String.prefix bad q); eauto. Qed.

Definition sample_pool : DBConn := {| NumConns := 2; Tx := [false; false]; log := [] |}.
Definition sample_state : copy_state :=
  {| st_src := sample_pool; st_dest := sample_pool; st_copied := ∅; fSucced := []; fFailed := []; fSkipped := []; progress := 0 |}.
Definition sample_version : GPDBVersion := {| VersionString := ""; SemVer := semver0; Type_ := CBDB |}.
Definition sample_env : manager_env :=
  {| setup_query := "SET client_encoding"; truncate := true; source_db := "db"; srcSegmentsHostInfo := sample_segs "src" 2;
     destSegmentsIpInfo := sample_segs "dest" 1; srcVersion := sample_version; destVersion := sample_version;
     connectionMode := "push"; testStrategy := "" |}.
(** The listener reports its port at once; the goroutine has made [calls] calls
    when a copy fails. *)
Definition sample_run (calls : nat) : copy_run :=
  {| cmdID := "id"; extTabName := "ext"; polls := λ _, Ok [{| hp_Content := -1; Port := 5000 |}];
     run_timing := {| visible := 2000; ahead := calls |} |}.
Definition copy_flags : flag_map := the_flags (parse_args [(DEST_HOST, "dest"); (SOURCE_HOST, "src")]).
(** A small table and one that is copied segment by segment. *)
Definition sample_table : Table := mkTable "public" "t".
Definition large_table : Table := {| Schema := "public"; Name := "big"; Partition := 0; RelTuples := 2000000; IsReplicated := false |}.
Definition the_state (r : go copy_state) : copy_state := match r with Ok st => st | _ => sample_state end.
Definition status_of (t : Table) (st : copy_state) : option copy_status := st_copied st !! tablePath t.
Definition requests (c : DBConn) : list (request * bool) := (λ e, (ev_req e, is_ok (ev_answer e))) <$> log c.

Lemma sample_env_ok : env_ok copy_flags sample_env.
Proof. split; [..|by left|simpl; lia|done]; vm_compute; reflexivity. Qed.
Lemma sample_run_returns calls i : returns (polls (sample_run calls) i).
Proof. apply returns_ok. Qed.
Lemma sample_slot i : i < 2 → slot sample_pool i false.
Proof. intros Hi. split; [done|]. destruct i as [|[|i]]; [done|done|lia]. Qed.
Lemma sample_slots : slots sample_pool 2.
Proof. intros i Hi. exists false. by apply sample_slot. Qed.

Lemma copy_records_and_closes_witness :
  ∃ st' status, Copy copy_flags (fails_on "COPY") one_row sample_env (sample_run 0) sample_table sample_table 0 sample_state = Ok st' ∧
    (false = false → quiet_copy copy_flags sample_env (sample_run 0) sample_table 0 → slot (st_dest st') 0 false) ∧
    (∀ i, i ≠ 0 → Tx (st_dest st') !! i = [false; false] !! i) ∧
    st_copied st' = <[tablePath sample_table := status]> ∅ ∧
    fSucced st' = [] ++ (if decide (status = COPY_SUCCED) then [table_line sample_env sample_table] else []) ∧
    fSkipped st' = [] ++ (if decide (status = COPY_SKIPED) then [table_line sample_env sample_table] else []) ∧
    fFailed st' = [] ++ (if decide (status = COPY_FAILED) then [table_line sample_env sample_table] else []) ∧
    progress st' = 1.
Proof.
  apply (copy_records_and_closes copy_flags (fails_on "COPY") one_row (fails_on_polite _) one_row_polite
    sample_env sample_env_ok (sample_run 0) (sample_run_returns 0) sample_table sample_table 0 sample_state false false);
    apply sample_slot; lia.
Defined.

Lemma copy_success_committed_witness :
  let st' := the_state (Copy copy_flags one_row one_row sample_env (sample_run 0) large_table large_table 0 sample_state) in
  ∃ cmd k ports qTo toRows fromRows t' e1 e2 loads z,
    let push := bool_decide (ConnectionMode (cmd_base cmd) = ConnectionModePush) in
    strategy_of copy_flags sample_env large_table 0 = Ok cmd ∧ GetHelperPortList (polls (sample_run 0) k) = Ok ports ∧
    CopyTo_query copy_flags cmd large_table (if push then ports else []) "id" = Ok qTo ∧
    log (st_src st') = [] ++ e1 ++ [event_of 0 t' (QExec qTo) (Ok toRows)] ∧
    log (st_dest st') = [] ++ e2 ++ loads ++ [event_of 0 true QCommit (Ok z)] ∧
    load_events copy_flags "id" "ext" cmd large_table (if push then [] else ports) loads fromRows ∧
    (GetBool copy_flags VALIDATE = Ok true → fromRows = toRows).
Proof.
  intros st'. apply (copy_success_committed copy_flags one_row one_row one_row_polite one_row_polite
    sample_env sample_env_ok (sample_run 0) (sample_run_returns 0) large_table large_table 0 sample_state st' false false).
  - apply sample_slot. lia.
  - apply sample_slot. lia.
  - vm_compute. reflexivity.
  - vm_compute. reflexivity.
Defined.

(** The load on the master fails after the truncation. *)
Lemma copy_failure_undone_witness :
  let st' := the_state (Copy copy_flags one_row (fails_on "COPY") sample_env (sample_run 1) sample_table sample_table 0 sample_state) in
  ∃ evs, log (st_dest st') = [] ++ evs ∧
    (∀ e, e ∈ evs → ev_req e = QCommit → ∀ z, ev_answer e ≠ Ok z) ∧
    (∀ e q, e ∈ evs → ev_req e = QExec q → ev_tx e = true ∨ q = setup_query sample_env).
Proof.
  intros st'. apply (copy_failure_undone copy_flags one_row (fails_on "COPY") one_row_polite (fails_on_polite _)
    sample_env sample_env_ok (sample_run 1) (sample_run_returns 1) sample_table sample_table 0 sample_state st' false false).
  - apply sample_slot. lia.
  - apply sample_slot. lia.
  - eexists. split; [vm_compute; reflexivity|reflexivity].
  - vm_compute. reflexivity.
  - vm_compute. reflexivity.
Defined.

(** Two workers; the first copies a table, the channel is closed, both return. *)
Definition sample_pair : TablePair := {| SrcTable := sample_table; DestTable := sample_table |}.
Definition pool0 : copy_pool := NewCopyManager 2 sample_pool sample_pool.
Definition pool1 : copy_pool := set_queue pool0 [sample_pair] false [sample_pair] [Idle; Idle] false.
Definition pool2 : copy_pool := set_queue pool1 [] false [sample_pair] [Busy sample_pair; Idle] false.
Definition pool3 : copy_pool := put_back pool2 0 (the_state
  (Copy copy_flags one_row one_row sample_env (sample_run 0) sample_table sample_table 0 (view pool2 ∅))).
Definition pool4 : copy_pool := set_queue pool3 [] true [sample_pair] [Idle; Idle] false.
Definition pool5 : copy_pool := set_queue pool4 [] true [sample_pair] [Returned; Idle] false.
Definition pool6 : copy_pool := set_queue pool5 [] true [sample_pair] [Returned; Returned] false.

Lemma pool6_reached : rtc (copy_step copy_flags one_row one_row sample_env) pool0 pool6.
Proof.
  apply (rtc_l _ _ pool1); [by apply (step_table _ _ _ _ pool0)|].
  apply (rtc_l _ _ pool2); [eapply step_worker; by apply (step_take _ _ _ _ pool1 0 sample_pair [])|].
  apply (rtc_l _ _ pool3).
  { eapply step_worker. eapply (step_copy _ _ _ _ pool2 0 sample_pair ∅ (sample_run 0)); [done..|apply sample_run_returns|].
    vm_compute. reflexivity. }
  apply (rtc_l _ _ pool4); [by apply (step_close _ _ _ _ pool3)|].
  apply (rtc_l _ _ pool5); [eapply step_worker; by apply (step_return _ _ _ _ pool4 0)|].
  apply (rtc_l _ _ pool6); [eapply step_worker; by apply (step_return _ _ _ _ pool5 1)|apply rtc_refl].
Qed.

Lemma copy_pool_records_all_witness :
  (WasTerminated pool6 = false → Forall (.= Returned) (phases pool6) →
     pl_succed pool6 ++ pl_skipped pool6 ++ pl_failed pool6 ≡ₚ [table_line sample_env sample_table] ∧
     pl_progress pool6 = 1 ∧
     (NoDup [tablePath sample_table] →
        generateReport (results pool6) = (length (pl_succed pool6), length (pl_skipped pool6), length (pl_failed pool6)))) ∧
  (tables_closed pool6 = true → ∀ i ph, phases pool6 !! i = Some ph → ph ≠ Returned →
     ∃ p', worker_step copy_flags one_row one_row sample_env i pool6 p').
Proof.
  apply (copy_pool_records_all copy_flags one_row one_row one_row_polite one_row_polite sample_env sample_env_ok 2
    sample_pool sample_pool pool6); [apply sample_slots|apply sample_slots|lia|apply pool6_reached].
Defined.

(** Through an external table the copy is not atomic: the transaction is
    committed before the external table is created, so that a load that fails
    is recorded as failed and rolled back while the truncation of the
    destination table stays committed. *)
Theorem external_load_commits_truncation :
  let st' := the_state (Copy copy_flags one_row (fails_on "INSERT") sample_env (sample_run 7) large_table large_table 0 sample_state) in
  status_of large_table st' = Some COPY_FAILED ∧
  take 5 (requests (st_dest st')) =
    [(QExec "SET client_encoding", true); (QBegin, true); (QExec isolation, true);
     (QExec "TRUNCATE TABLE public.big", true); (QCommit, true)] ∧
  last (requests (st_dest st')) = Some (QRollback, true).
Proof. vm_compute. done. Qed.

(** ** A transaction that is left open *)

(** A server that answers every request, and one that has rows for every
    statement. *)
Definition answers_all (answers : server) : Prop := ∀ h n t r, ∃ z, answers h n t r = Ok z.
Definition has_rows (answers : server) : Prop := ∀ h n t r, ∃ z, answers h n t r = Ok z ∧ z ≠ 0%Z.

Section leak.
Context `{MapRange} `{FlagSet F} (CmdFlags : F) (srcServer destServer : server).
Context (Hsrc : has_rows srcServer) (Hdest : answers_all destServer).
Context (env : manager_env) (Henv : env_ok CmdFlags env) (w : nat).

Lemma all_slot_exec q c t : slot c w t → ∃ c' z, Exec destServer q w c = (c', Ok z) ∧ slot c' w t.
Proof.
  intros Hs. unfold Exec, bind, send. rewrite (ValidateConnNum_slot c w t Hs), (get_tx_slot c w t Hs).
  destruct (Hdest (log c) w t (QExec q)) as [z ->]. by eexists _, z.
Qed.
Lemma all_slot_begin c : slot c w false → ∃ c', Begin destServer w c = (c', Ok ()) ∧ slot c' w true.
Proof.
  intros Hs. assert (Hp : polite destServer) by (intros h n t r; left; apply Hdest).
  destruct (Begin_runs destServer w c Hp Hs) as (evs & Hon & [(Hr & Hs' & _)|(e & Hr & _ & _)]).
  - destruct (Begin destServer w c) as [c' r]. cbn [fst snd] in *. subst. by exists c'.
  - exfalso. unfold Begin, bind, send, set_tx in Hr. rewrite (ValidateConnNum_slot c w false Hs), (get_tx_slot c w false Hs) in Hr.
    destruct (Hdest (log c) w false QBegin) as [z Hz]. rewrite Hz in Hr. cbn [NumConns Tx log] in Hr.
    match type of Hr with context [Exec ?a ?q ?n ?c1] => set (c1' := c1) in Hr end.
    assert (Hs1 : slot c1' w true) by (split; [apply Hs|simpl; apply list_lookup_insert_eq; eapply lookup_lt_Some; apply Hs]).
    destruct (all_slot_exec isolation c1' true Hs1) as (c2 & z2 & He & _). unfold isolation in He. rewrite He in Hr. done.
Qed.
Lemma all_slot_finish r what c : slot c w true → ∃ c', finish destServer r what w c = (c', Ok ()) ∧ slot c' w false.
Proof.
  intros Hs. assert (Hp : polite destServer) by (intros h n t r'; left; apply Hdest).
  destruct (finish_runs destServer r what w c true Hp Hs) as (evs & Hon & Hs' & _).
  unfold finish, bind, send, set_tx in *. rewrite (ValidateConnNum_slot c w true Hs), (get_tx_slot c w true Hs) in *. cbn [negb] in *.
  destruct (Hdest (log c) w true r) as [z Hz]. rewrite Hz in *. by eexists.
Qed.
Lemma closed_finish r what c : slot c w false → ∃ e, finish destServer r what w c = (c, Err e).
Proof.
  intros Hs. unfold finish, bind. rewrite (ValidateConnNum_slot c w false Hs), (get_tx_slot c w false Hs). cbn. by eexists.
Qed.
Lemma open_begin c : slot c w true → ∃ e, Begin destServer w c = (c, Err e).
Proof.
  intros Hs. unfold Begin, bind. rewrite (ValidateConnNum_slot c w true Hs), (get_tx_slot c w true Hs). cbn. by eexists.
Qed.
Lemma rows_not_skipped t c s : slot c w s → ∃ c', shouldSkipCopy srcServer t w c = (c', false) ∧ slot c' w s.
Proof.
  intros Hs. unfold shouldSkipCopy, Exec, bind, send. rewrite (ValidateConnNum_slot c w s Hs), (get_tx_slot c w s Hs).
  destruct (Hsrc (log c) w s (QExec (empty_query t))) as (z & -> & Hz). rewrite bool_decide_false by done. by eexists.
Qed.

(** A worker with an open slot fails whatever table it is given next. *)
Lemma open_slot_fails run t d st s : slot (st_src st) w s → slot (st_dest st) w true →
  ∃ st', Copy CmdFlags srcServer destServer env run t d w st = Ok st' ∧ st_copied st' !! tablePath t = Some COPY_FAILED.
Proof.
  intros Hss Hds. unfold Copy. destruct (rows_not_skipped t _ _ Hss) as (src & -> & _). unfold prepareForCopy.
  destruct (all_slot_exec (setup_query env) _ _ Hds) as (c1 & z & -> & Hs1). destruct (open_begin c1 Hs1) as [e ->].
  eexists. split; [reflexivity|]. cbn. by rewrite lookup_insert_eq.
Qed.

(** The rest of a cancelled load between its commit and its begin: it begins a
    transaction, creates the external table, and begins another one. *)
Lemma cancelled_rest q i k c : slot c w false →
  ∃ c' e, run_load destServer w true (LBegin (LExec false q (λ _, CommitBegin (LExec true i k)))) c = (c', Err e) ∧ slot c' w true.
Proof.
  intros Hs. cbn [run_load CommitBegin andb]. unfold bind at 1.
  destruct (all_slot_begin c Hs) as (c1 & -> & Hs1). unfold bind at 1. destruct (all_slot_exec q c1 _ Hs1) as (c2 & z & -> & Hs2).
  unfold bind at 1. unfold Commit. destruct (all_slot_finish QCommit "commit" c2 Hs2) as (c3 & -> & Hs3).
  unfold bind at 1. destruct (all_slot_begin c3 Hs3) as (c4 & -> & Hs4). by eexists _, _.
Qed.

(** The load through an external table. *)
Lemma external_load cmd cmdId ext table : command_ok CmdFlags cmd → direct cmd = false → ConnectionMode (cmd_base cmd) = ConnectionModePush →
  ∃ q, CopyFrom CmdFlags cmdId ext cmd table [] = CommitBegin (LExec false q (λ _, CommitBegin
    (LExec true (insert_query table ext) (λ rows, LExec false (drop_query ext) (λ _, LDone (Ok rows)))))).
Proof.
  intros Hcmd Hd Hpush. destruct (CopyFrom_query_total CmdFlags cmd Hcmd table [] cmdId ext) as [q Hq]; [by left|].
  exists q. unfold CopyFrom, direct in *. rewrite Hq. by destruct (cmd_strategy cmd).
Qed.
Lemma answered_load q i d c : slot c w true → ∃ c' z,
  run_load destServer w false (CommitBegin (LExec false q (λ _, CommitBegin (LExec true i (λ rows, LExec false d (λ _, LDone (Ok rows))))))) c = (c', Ok z).
Proof.
  intros Hs. cbn [run_load CommitBegin andb]. unfold bind at 1, Commit. destruct (all_slot_finish QCommit "commit" c Hs) as (c1 & -> & Hs1).
  unfold bind at 1. destruct (all_slot_begin c1 Hs1) as (c2 & -> & Hs2). unfold bind at 1. destruct (all_slot_exec q c2 _ Hs2) as (c3 & z3 & -> & Hs3).
  unfold bind at 1. destruct (all_slot_finish QCommit "commit" c3 Hs3) as (c4 & -> & Hs4). unfold bind at 1.
  destruct (all_slot_begin c4 Hs4) as (c5 & -> & Hs5). unfold bind at 1. destruct (all_slot_exec i c5 _ Hs5) as (c6 & z6 & -> & Hs6).
  unfold bind at 1. destruct (all_slot_exec d c6 _ Hs6) as (c7 & z7 & -> & Hs7). by eexists _, _.
Qed.

(** The listeners never report all their ports. *)
Definition never_started (cmd : CopyCommand) (polls : nat → poll) : Prop :=
  ∀ k, returns (polls k) ∧ ∀ ports, GetHelperPortList (polls k) = Ok ports → IsCopyFromStarted cmd (length ports) = false.
Lemma never_started_wait cmd polls v n i : never_started cmd polls →
  wait_from polls v cmd None n i = Err "max retries exceeded while waiting for helper ports".
Proof.
  intros Hnever. revert i. induction n as [|n IH]; intros i; cbn [wait_from]; [done|].
  replace (if bool_decide (v ≤ i) then None else None) with (@None string) by (by case_bool_decide).
  destruct (Hnever i) as [Hr Hn]. destruct (GetHelperPortList_returns _ Hr) as [[ports Hp]|[e ->]]; [|apply IH].
  rewrite Hp, (Hn ports Hp). apply IH.
Qed.

Lemma prepared table c : slot c w false → ∃ c', prepareForCopy destServer env table w c = (c', true, Ok ()) ∧ slot c' w true.
Proof.
  intros Hs. unfold prepareForCopy. destruct (all_slot_exec (setup_query env) c _ Hs) as (c1 & z1 & -> & Hs1).
  destruct (all_slot_begin c1 Hs1) as (c2 & -> & Hs2). destruct (truncate env); [|by eexists].
  destruct (all_slot_exec (truncate_query table) c2 _ Hs2) as (c3 & z3 & -> & Hs3). by eexists.
Qed.

(** C38: a copy through an external table that gives up waiting for the ports
    of its listeners cancels its load but does not wait for it: whenever the
    goroutine of the load is between its commit and its begin while the
    clean-up rolls back, it leaves a transaction open on the connection of the
    worker, though both servers answer every request; and then the next copy of
    the worker, of whatever table with rows, fails at its own begin
    (copy_operation.go:202, dbconn.go:154). *)
Theorem failed_copy_leaks_transaction (run : copy_run) (srcTable destTable : Table) (cmd : CopyCommand) (st : copy_state) (s : bool)
    (Hstrategy : strategy_of CmdFlags env srcTable w = Ok cmd) (Hexternal : direct cmd = false)
    (Hpush : connectionMode env = ConnectionModePush) (Hnever : never_started cmd (polls run)) (Hahead : ahead (run_timing run) = 1)
    (Hss : slot (st_src st) w s) (Hds : slot (st_dest st) w false) :
  ∃ st', Copy CmdFlags srcServer destServer env run srcTable destTable w st = Ok st' ∧
    st_copied st' !! tablePath srcTable = Some COPY_FAILED ∧ slot (st_dest st') w true ∧
    ∀ run' t d, ∃ st'', Copy CmdFlags srcServer destServer env run' t d w st' = Ok st'' ∧
      st_copied st'' !! tablePath t = Some COPY_FAILED.
Proof.
  destruct (strategy_of_ok CmdFlags env srcTable w Henv) as (cmd' & Hs & Hcmd & Hw & Hmode). rewrite Hstrategy in Hs. injection Hs as <-.
  rewrite Hpush in Hmode. destruct (external_load cmd (cmdID run) (extTabName run) destTable Hcmd Hexternal Hmode) as [q Hload].
  destruct (rows_not_skipped srcTable _ _ Hss) as (src & Hskip & Hsrc'). destruct (prepared destTable _ Hds) as (c1 & Hprep & Hs1).
  destruct (answered_load q (insert_query destTable (extTabName run)) (drop_query (extTabName run)) c1 Hs1) as (c' & rows & Hfull).
  destruct (all_slot_finish QCommit "commit" c1 Hs1) as (c2 & Hcommit & Hs2).
  destruct (closed_finish QRollback "rollback" c2 Hs2) as [e Hroll].
  destruct (cancelled_rest q (insert_query destTable (extTabName run)) (λ rows, LExec false (drop_query (extTabName run)) (λ _, LDone (Ok rows))) c2 Hs2)
    as (c3 & e3 & Hrest & Hs3).
  unfold Copy at 1. rewrite Hskip, Hprep. unfold copyData. rewrite Hstrategy. unfold Execute.
  rewrite bool_decide_true, Hw, Hload, Hfull by done. cbn [error_of]. unfold waitForHelperPorts. rewrite never_started_wait by done.
  rewrite Hahead. replace (if bool_decide (visible (run_timing run) ≤ maxRetries) then None else None) with (@None string) by (by case_bool_decide).
  cbn [handleFailure advance CommitBegin]. unfold Commit. rewrite Hcommit. cbn [after advance].
  unfold run_on, cleanupAfterCopy, rollback, Rollback. cbn [with_conns st_dest st_src st_copied]. rewrite Hroll. cbn [fst].
  change (LBegin (LExec false q (λ _, LCommit (LBegin (LExec true (insert_query destTable (extTabName run)) (λ rows, LExec false (drop_query (extTabName run)) (λ _, LDone (Ok rows))))))))
    with (LBegin (LExec false q (λ _, CommitBegin (LExec true (insert_query destTable (extTabName run)) (λ rows, LExec false (drop_query (extTabName run)) (λ _, LDone (Ok rows))))))).
  rewrite Hrest. eexists. split; [reflexivity|]. split; [cbn; by rewrite lookup_insert_eq|]. split; [exact Hs3|].
  intros run' t d. by apply (open_slot_fails run' t d _ s).
Qed.
End leak.

(** Two listeners that never report, and a load that has made one call. *)
Definition no_ports : copy_run := {| cmdID := "id"; extTabName := "ext"; polls := λ _, Ok []; run_timing := {| visible := 2000; ahead := 1 |} |}.
Definition large_command : CopyCommand :=
  match strategy_of copy_flags sample_env large_table 0 with
  | Ok cmd => cmd
  | _ => new_command CopyOnMaster 0 [] [] "" ""
  end.
Lemma failed_copy_leaks_transaction_witness :
  ∃ st', Copy copy_flags one_row one_row sample_env no_ports large_table large_table 0 sample_state = Ok st' ∧
    st_copied st' !! tablePath large_table = Some COPY_FAILED ∧ slot (st_dest st') 0 true ∧
    ∀ run' t d, ∃ st'', Copy copy_flags one_row one_row sample_env run' t d 0 st' = Ok st'' ∧
      st_copied st'' !! tablePath t = Some COPY_FAILED.
Proof.
  apply (failed_copy_leaks_transaction copy_flags one_row one_row) with (cmd := large_command) (s := false).
  - intros h n t r. by exists 1%Z.
  - intros h n t r. by exists 1%Z.
  - apply sample_env_ok.
  - vm_compute. reflexivity.
  - vm_compute. reflexivity.
  - reflexivity.
  - intros k. split; [apply returns_ok|]. intros ports. vm_compute. by intros [= <-].
  - reflexivity.
  - apply sample_slot. lia.
  - apply sample_slot. lia.
Defined.
