(* ===== verification/Dependencies.v ===== *)
(** Dependencies among the objects of a backup ([meta/builtin/dependencies.go]):
    the map built from the catalogue rows, the removal of cycles between types
    and functions, and the topological sort of the objects. *)
From S2P Require Import Prelude Utils Toc Scheduler.

(** * The dependency map *)

Definition PG_TYPE_OID : Z := 1247.
Definition PG_PROC_OID : Z := 1255.

(** The keys of a [map[UniqueID]bool] in the order of a range statement. *)
Definition range_set `{MapRange} (site : N) (s : gset UniqueID) : list UniqueID := (range_map site (gset_to_gmap true s)).*1.

Record SortableDependency := { dep_ClassID : Z; dep_ObjID : Z; dep_RefClassID : Z; dep_RefObjID : Z }.

(** [depMap[object][reference] = true] with the inner map created on demand. *)
Definition add_dependency (depMap : DependencyMap) (object reference : UniqueID) : DependencyMap :=
  <[object := {[reference]} ∪ default ∅ (depMap !! object)]> depMap.

(** One row of the query; rows on other objects and self-references are left
    out. *)
Definition dependency_step (backupSet : gset UniqueID) (dependencyMap : DependencyMap) (dep : SortableDependency) : DependencyMap :=
  let object := {| ClassID := dep_ClassID dep; uid_Oid := dep_ObjID dep |} in
  let referenceObject := {| ClassID := dep_RefClassID dep; uid_Oid := dep_RefObjID dep |} in
  if bool_decide (object = referenceObject) || negb (bool_decide (object ∈ backupSet)) || negb (bool_decide (referenceObject ∈ backupSet))
  then dependencyMap
  else add_dependency dependencyMap object referenceObject.

(** The body of the two loops of [breakCircularDependencies]. *)
Definition break_step (entry : UniqueID) (depMap : DependencyMap) (dep : UniqueID) : DependencyMap :=
  match depMap !! dep with
  | None => depMap
  | Some back =>
      if bool_decide (ClassID entry = PG_TYPE_OID) && bool_decide (ClassID dep = PG_PROC_OID) && bool_decide (entry ∈ back) then
        if bool_decide (size back = 1) then delete dep depMap
        else <[dep := back ∖ {[entry]}]> depMap
      else depMap
  end.

Section dependencies.
Context `{MapRange}.

(** An entry deleted before the outer loop reaches it is not visited. *)
Definition break_entry (depMap : DependencyMap) (entry : UniqueID) : DependencyMap :=
  match depMap !! entry with
  | None => depMap
  | Some deps => foldl (break_step entry) depMap (range_set 269 deps)
  end.
Definition breakCircularDependencies (depMap : DependencyMap) : DependencyMap :=
  foldl break_entry depMap (range_map 268 depMap).*1.

(** [GetDependencies] on the rows of its queries. *)
Definition GetDependencies (rows : list SortableDependency) (backupSet : gset UniqueID) : DependencyMap :=
  breakCircularDependencies (foldl (dependency_step backupSet) ∅ rows).

(** * The topological sort *)

(** The interface [Sortable]. *)
Class Sortable (T : Type) := { sortable_FQN :: HasFQN T; GetUniqueID : T → UniqueID }.

Section sort.
Context `{Sortable T} (dependencies : DependencyMap).
Local Abbreviation deps_of u := (default ∅ (dependencies !! u)).

Record sort_maps := {
  inDegrees : gmap UniqueID Z;
  dependencyIndexes : gmap UniqueID nat;
  isDependentOn : gmap UniqueID (list UniqueID);
  start : list T
}.

Definition add_dependent (uniqueID : UniqueID) (m : gmap UniqueID (list UniqueID)) (dep : UniqueID) : gmap UniqueID (list UniqueID) :=
  <[dep := default [] (m !! dep) ++ [uniqueID]]> m.

(** The first loop, on item [i]. *)
Definition index_item (maps : sort_maps) (i : nat) (item : T) : sort_maps :=
  let uniqueID := GetUniqueID item in
  let deps := deps_of uniqueID in
  {| inDegrees := <[uniqueID := Z.of_nat (size deps)]> (inDegrees maps);
     isDependentOn := foldl (add_dependent uniqueID) (isDependentOn maps) (range_set 104 deps);
     dependencyIndexes := <[uniqueID := i]> (dependencyIndexes maps);
     start := if bool_decide (size deps = 0) then start maps ++ [item] else start maps |}.
Fixpoint index_items (maps : sort_maps) (i : nat) (items : list T) : sort_maps :=
  match items with
  | [] => maps
  | item :: items' => index_items (index_item maps i item) (S i) items'
  end.

(** The inner loop of the second loop, on one dependent object. *)
Definition relax (slice : list T) (indexes : gmap UniqueID nat) (st : gmap UniqueID Z * list T) (dep : UniqueID)
    : go (gmap UniqueID Z * list T) :=
  let '(degrees, queue) := st in
  let d := (default 0 (degrees !! dep) - 1)%Z in
  let degrees := <[dep := d]> degrees in
  if bool_decide (d = 0%Z) then
    let! item := index slice (default 0 (indexes !! dep)) in
    Ok (degrees, queue ++ [item])
  else Ok (degrees, queue).

(** The second loop. An object is queued when its in-degree reaches zero, so
    with distinct objects as many rounds as there are objects are enough. *)
Fixpoint drain (fuel : nat) (slice : list T) (maps : sort_maps) (degrees : gmap UniqueID Z) (queue sorted : list T) : go (list T) :=
  match queue with
  | [] => Ok sorted
  | item :: queue' =>
      match fuel with
      | O => Panic "out of fuel"
      | S fuel' =>
          let! (degrees, queue) :=
            go_fold (relax slice (dependencyIndexes maps)) (degrees, queue')
              (default [] (isDependentOn maps !! GetUniqueID item)) in
          drain fuel' slice maps degrees queue (sorted ++ [item])
      end
  end.

Definition TopologicalSort (slice : list T) : go (list T) :=
  let maps := index_items {| inDegrees := ∅; dependencyIndexes := ∅; isDependentOn := ∅; start := [] |} 0 slice in
  let! sorted := drain (length slice) slice maps (inDegrees maps) (start maps) [] in
  if bool_decide (length slice ≠ length sorted)
  then Fatal "Dependency resolution failed. This is a bug, please report."
  else Ok sorted.
End sort.
End dependencies.

(** * Lemmas on the sort *)

Section sets.
Implicit Types (D E : gset UniqueID) (a : UniqueID).
Lemma diff_empty D E : D ∖ E ≡ ∅ ↔ D ⊆ E.
Proof. set_unfold. split; intros HD x; destruct (decide (x ∈ E)); naive_solver. Qed.
Lemma diff_fresh D E a : a ∉ D → D ∖ E = D ∖ (E ∪ {[a]}).
Proof. intros Ha. apply set_eq. set_unfold. naive_solver. Qed.
Lemma sub_more D E a : D ⊆ E → D ⊆ E ∪ {[a]}.
Proof. set_solver. Qed.
Lemma sub_less D E a : a ∉ D → D ⊆ E ∪ {[a]} → D ⊆ E.
Proof. set_unfold. naive_solver. Qed.
End sets.

Lemma list_snoc_split {A} (l : list A) : l = [] ∨ ∃ l' x, l = l' ++ [x].
Proof. destruct l as [|x l _] using rev_ind; [by left|right; by exists l, x]. Qed.

Section sort_lemmas.
Context `{MapRange} `{Sortable T} (dependencies : DependencyMap).
Local Abbreviation deps_of u := (default ∅ (dependencies !! u)).
Local Abbreviation ids l := (GetUniqueID <$> l).

Lemma elem_of_range_set site s u : u ∈ range_set site s ↔ u ∈ s.
Proof.
  unfold range_set. rewrite list_elem_of_fmap. split.
  - intros ([u' b] & -> & Hin%elem_of_range_map). by apply lookup_gset_to_gmap_Some in Hin as [? _].
  - intros Hu. exists (u, true). split; [done|]. apply elem_of_range_map. by apply lookup_gset_to_gmap_Some.
Qed.

Lemma NoDup_range_set site s : NoDup (range_set site s).
Proof. apply NoDup_range_map. Qed.

Lemma add_dependents_lookup u l m d : NoDup l →
  default [] (foldl (add_dependent u) m l !! d) = default [] (m !! d) ++ (if decide (d ∈ l) then [u] else []).
Proof.
  intros Hl. revert m. induction Hl as [|x l Hx Hl IH]; intros m; cbn [foldl].
  { rewrite decide_False by apply not_elem_of_nil. by rewrite app_nil_r. }
  rewrite IH. unfold add_dependent. destruct (decide (d = x)) as [->|Hne].
  - rewrite lookup_insert_eq. cbn [default]. rewrite decide_False by done. rewrite decide_True by constructor.
    simpl. by rewrite app_nil_r.
  - rewrite lookup_insert_ne by done. f_equal. apply decide_ext. rewrite elem_of_cons. naive_solver.
Qed.

(** What the first loop has built from the items [P]. *)
Record indexed (P : list T) (m : sort_maps) : Prop := {
  ix_degrees : ∀ u, u ∈ ids P → inDegrees m !! u = Some (Z.of_nat (size (deps_of u)));
  ix_indexes : ∀ i x, P !! i = Some x → dependencyIndexes m !! GetUniqueID x = Some i;
  ix_dependents : ∀ d, default [] (isDependentOn m !! d) = filter (λ u, d ∈ deps_of u) (ids P);
  ix_start : start m = filter (λ x, size (deps_of (GetUniqueID x)) = 0) P
}.

Lemma index_item_indexed P m x : NoDup (ids (P ++ [x])) → indexed P m →
  indexed (P ++ [x]) (index_item dependencies m (length P) x).
Proof.
  rewrite fmap_app. intros (HndP & Hdis & _)%NoDup_app [Hdeg Hidx Hdep Hst].
  assert (Hx : GetUniqueID x ∉ ids P) by (intros Hin; apply (Hdis _ Hin); by apply list_elem_of_singleton).
  split; cbn [index_item inDegrees dependencyIndexes isDependentOn start].
  - intros u Hu. rewrite fmap_app, elem_of_app in Hu. destruct (decide (u = GetUniqueID x)) as [->|Hne].
    + by rewrite lookup_insert_eq.
    + rewrite lookup_insert_ne by done. apply Hdeg. destruct Hu as [?|Hu%list_elem_of_singleton]; [done|congruence].
  - intros i y Hi. destruct (decide (i < length P)) as [Hlt|Hge].
    + rewrite lookup_app_l in Hi by done. rewrite lookup_insert_ne; [by apply Hidx|]. intros Heq. apply Hx. rewrite Heq.
      apply list_elem_of_fmap. exists y. split; [done|]. by eapply list_elem_of_lookup_2.
    + assert (i = length P) as ->. { apply lookup_lt_Some in Hi. rewrite length_app in Hi. simpl in Hi. lia. }
      rewrite list_lookup_middle in Hi by done. injection Hi as ->. by rewrite lookup_insert_eq.
  - intros d. rewrite add_dependents_lookup by apply NoDup_range_set. rewrite Hdep, fmap_app, filter_app. f_equal.
    cbn [fmap list_fmap]. rewrite filter_cons, filter_nil. apply decide_ext. apply elem_of_range_set.
  - rewrite Hst, filter_app, filter_cons, filter_nil. case_bool_decide as Hz; [by rewrite decide_True|].
    rewrite decide_False by done. by rewrite app_nil_r.
Qed.

Lemma index_items_indexed P l m : NoDup (ids (P ++ l)) → indexed P m →
  indexed (P ++ l) (index_items dependencies m (length P) l).
Proof.
  revert P m. induction l as [|x l IH]; intros P m Hnd Hm; cbn [index_items]; [by rewrite app_nil_r|].
  rewrite cons_middle, app_assoc in Hnd |- *. replace (S (length P)) with (length (P ++ [x])) by (rewrite length_app; simpl; lia).
  apply IH; [done|]. apply index_item_indexed; [|done]. rewrite fmap_app in Hnd. by apply NoDup_app in Hnd as [? _].
Qed.

(** Two items of a slice with distinct objects are equal when their objects are. *)
Lemma same_item slice x y : NoDup (ids slice) → x ∈ slice → y ∈ slice → GetUniqueID x = GetUniqueID y → x = y.
Proof.
  intros Hnd [i Hi]%list_elem_of_lookup [j Hj]%list_elem_of_lookup Heq.
  assert (i = j) as <-; [|congruence]. eapply (NoDup_lookup (ids slice)); [done| |]; rewrite list_lookup_fmap;
    [by rewrite Hi|rewrite Hj; simpl; by rewrite Heq].
Qed.

Lemma elem_of_ids x (l : list T) : x ∈ l → GetUniqueID x ∈ ids l.
Proof. intros Hx. apply list_elem_of_fmap. by exists x. Qed.

Section drain.
Context (slice : list T) (maps : sort_maps (T := T)).
Context (Hnd : NoDup (ids slice)) (Hmaps : indexed slice maps).

(** The objects that become ready are queued, in order. *)
Lemma relax_fold us degrees queue : NoDup us → (∀ u, u ∈ us → u ∈ ids slice) →
  ∃ degrees' more, go_fold (relax slice (dependencyIndexes maps)) (degrees, queue) us = Ok (degrees', queue ++ more) ∧
    (∀ u, degrees' !! u = if decide (u ∈ us) then Some (default 0%Z (degrees !! u) - 1)%Z else degrees !! u) ∧
    ids more = filter (λ u, default 0%Z (degrees !! u) = 1%Z) us ∧ (∀ x, x ∈ more → x ∈ slice).
Proof.
  intros Hus. revert degrees queue. induction Hus as [|u us Hu Hus IH]; intros degrees queue Hin; cbn [go_fold].
  { exists degrees, []. rewrite app_nil_r. split_and!; [done| |done|].
    - intros u. by rewrite decide_False by apply not_elem_of_nil.
    - intros x Hx. by apply elem_of_nil in Hx. }
  assert (Hin' : ∀ v, v ∈ us → v ∈ ids slice) by (intros v Hv; apply Hin; by constructor).
  assert (Hrest : ∀ v, v ∈ us → <[u := (default 0 (degrees !! u) - 1)%Z]> degrees !! v = degrees !! v)
    by (intros v Hv; rewrite lookup_insert_ne; [done|by intros ->]).
  unfold relax at 2. rewrite filter_cons.
  assert (Hdeg : ∀ degrees' : gmap UniqueID Z, (∀ v, degrees' !! v = if decide (v ∈ us) then Some (default 0 (<[u := (default 0 (degrees !! u) - 1)]> degrees !! v) - 1)%Z
      else <[u := (default 0 (degrees !! u) - 1)%Z]> degrees !! v) →
    ∀ v, degrees' !! v = if decide (v ∈ u :: us) then Some (default 0 (degrees !! v) - 1)%Z else degrees !! v).
  { intros degrees' Hd v. rewrite Hd. destruct (decide (v = u)) as [->|Hne].
    - rewrite decide_False by done. rewrite decide_True by constructor. by rewrite lookup_insert_eq.
    - rewrite lookup_insert_ne by done. apply decide_ext. rewrite elem_of_cons. naive_solver. }
  assert (Hfilter : filter (λ v, default 0%Z (<[u := (default 0 (degrees !! u) - 1)%Z]> degrees !! v) = 1%Z) us =
    filter (λ v, default 0%Z (degrees !! v) = 1%Z) us).
  { clear -Hrest. induction us as [|v us IH]; [done|]. rewrite !filter_cons, (Hrest v) by constructor.
    rewrite IH; [done|]. intros v' Hv'. apply Hrest. by constructor. }
  case_bool_decide as Hz.
  - destruct (proj1 (list_elem_of_fmap _ _ _) (Hin u ltac:(constructor))) as (x & -> & Hx).
    apply list_elem_of_lookup in Hx as [i Hi]. rewrite (ix_indexes _ _ Hmaps i x Hi). cbn [default id].
    rewrite (proj2 (index_Ok slice i x) Hi). cbn [mbind go_bind].
    destruct (IH (<[GetUniqueID x := (default 0 (degrees !! GetUniqueID x) - 1)%Z]> degrees) (queue ++ [x]) Hin') as (d' & more & -> & Hd & Hm & Hs).
    exists d', (x :: more). rewrite <- app_assoc. split_and!; [done|by apply Hdeg| |].
    + rewrite decide_True by lia. rewrite fmap_cons, Hm. by rewrite Hfilter.
    + intros y [->|Hy]%elem_of_cons; [by eapply list_elem_of_lookup_2|by apply Hs].
  - cbn [mbind go_bind].
    destruct (IH (<[u := (default 0 (degrees !! u) - 1)%Z]> degrees) queue Hin') as (d' & more & -> & Hd & Hm & Hs).
    exists d', more. split_and!; [done|by apply Hdeg| |done]. rewrite decide_False by lia. by rewrite Hm.
Qed.

Local Abbreviation seen l := (list_to_set (C := gset UniqueID) (ids l)).

(** Dependencies come first. *)
Definition topological (l : list T) : Prop :=
  ∀ l1 x l2, l = l1 ++ x :: l2 → deps_of (GetUniqueID x) ⊆ seen l1.

Record drain_ok (degrees : gmap UniqueID Z) (queue sorted : list T) : Prop := {
  dr_once : NoDup (ids (sorted ++ queue));
  dr_slice : ∀ x, x ∈ sorted ++ queue → x ∈ slice;
  dr_degree : ∀ u, u ∈ ids slice → degrees !! u = Some (Z.of_nat (size (deps_of u ∖ seen sorted)));
  dr_ready : ∀ x, x ∈ slice → (x ∈ sorted ++ queue ↔ deps_of (GetUniqueID x) ⊆ seen sorted);
  dr_order : topological sorted
}.

Lemma drain_ok_start : drain_ok (inDegrees maps) (start maps) [].
Proof.
  split; rewrite ?app_nil_l.
  - rewrite (ix_start _ _ Hmaps). eapply sublist_NoDup; [done|]. apply fmap_sublist, sublist_filter.
  - intros x. rewrite (ix_start _ _ Hmaps). by intros [_ ?]%list_elem_of_filter.
  - intros u Hu. rewrite (ix_degrees _ _ Hmaps u Hu). do 2 f_equal. f_equal. clear. set_solver.
  - intros x Hx. rewrite (ix_start _ _ Hmaps), list_elem_of_filter. split.
    + intros [Hz%size_empty_inv _]. set_solver.
    + intros Hsub. split; [|done].
      assert (Hempty : deps_of (GetUniqueID x) = ∅) by set_solver. by rewrite Hempty, size_empty.
  - intros l1 x l2 Hl. by destruct l1.
Qed.

(** The sets of a step: taking [item] brings it among the seen ones. *)
Lemma seen_snoc sorted item : seen (sorted ++ [item]) = seen sorted ∪ {[GetUniqueID item]}.
Proof. rewrite fmap_app, list_to_set_app_L. simpl. by rewrite union_empty_r_L. Qed.

Lemma size_remove (D E : gset UniqueID) u : u ∈ D → u ∉ E → size (D ∖ E) = S (size (D ∖ (E ∪ {[u]}))).
Proof.
  intros HD HE. replace (D ∖ E) with ({[u]} ∪ D ∖ (E ∪ {[u]})).
  - rewrite size_union by set_solver. by rewrite size_singleton.
  - apply set_eq. intros v. rewrite elem_of_union, !elem_of_difference, elem_of_union, elem_of_singleton.
    destruct (decide (v = u)) as [->|]; tauto.
Qed.

Lemma drain_step degrees item queue sorted : drain_ok degrees (item :: queue) sorted →
  ∃ degrees' more,
    go_fold (relax slice (dependencyIndexes maps)) (degrees, queue) (default [] (isDependentOn maps !! GetUniqueID item)) =
      Ok (degrees', queue ++ more) ∧ drain_ok degrees' (queue ++ more) (sorted ++ [item]).
Proof.
  intros [Honce Hslice Hdeg Hready Horder]. rewrite (ix_dependents _ _ Hmaps).
  set (a := GetUniqueID item). set (us := filter _ _).
  assert (Ha : a ∉ seen sorted).
  { rewrite elem_of_list_to_set. rewrite fmap_app in Honce. apply NoDup_app in Honce as (_ & Hd & _).
    intros Hin. apply (Hd a Hin). rewrite fmap_cons. constructor. }
  assert (Hitem : item ∈ slice) by (apply Hslice; rewrite elem_of_app; right; constructor).
  assert (Hus : ∀ u, u ∈ us ↔ a ∈ deps_of u ∧ u ∈ ids slice) by (intros u; unfold us; by rewrite list_elem_of_filter).
  destruct (relax_fold us degrees queue) as (degrees' & more & Hrun & Hdeg' & Hmore & Hms).
  { apply NoDup_filter, Hnd. }
  { intros u Hu. by apply Hus in Hu as [_ ?]. }
  exists degrees', more. split; [done|].
  assert (Hone : ∀ u, u ∈ us → default 0%Z (degrees !! u) = Z.of_nat (S (size (deps_of u ∖ (seen sorted ∪ {[a]}))))).
  { intros u [Hau Hu]%Hus. rewrite (Hdeg u Hu). simpl. rewrite (size_remove (deps_of u) (seen sorted) a) by done. done. }
  assert (Hnew : ∀ u, u ∈ ids more ↔ a ∈ deps_of u ∧ u ∈ ids slice ∧ deps_of u ⊆ seen sorted ∪ {[a]}).
  { intros u. rewrite Hmore, list_elem_of_filter. split.
    - intros [Hd Hu]. rewrite (Hone u Hu) in Hd. apply Hus in Hu as [? ?]. split_and!; [done|done|].
      assert (Hz : size (deps_of u ∖ (seen sorted ∪ {[a]})) = 0) by lia. by apply size_empty_inv, diff_empty in Hz.
    - intros (Hau & Hu & Hsub). assert (Hu' : u ∈ us) by (by apply Hus). split; [|done]. rewrite (Hone u Hu').
      apply diff_empty in Hsub. rewrite Hsub, size_empty. done. }
  assert (Hall : (sorted ++ [item]) ++ queue ++ more = (sorted ++ item :: queue) ++ more) by (by rewrite <- !app_assoc).
  split; rewrite ?Hall.
  - rewrite fmap_app. apply NoDup_app. split_and!; [done| |].
    + intros u Hin (Hau & Hu & _)%Hnew. apply list_elem_of_fmap in Hin as (x & -> & Hx).
      apply Ha. assert (Hs : deps_of (GetUniqueID x) ⊆ seen sorted) by (apply Hready; [by apply Hslice|done]). by apply Hs.
    + rewrite Hmore. apply NoDup_filter, NoDup_filter, Hnd.
  - intros x. rewrite elem_of_app. intros [Hx|Hx]; [by apply Hslice|by apply Hms].
  - intros u Hu. rewrite Hdeg', seen_snoc. fold a. case_decide as Hin.
    + rewrite (Hone u Hin). f_equal. lia.
    + rewrite (Hdeg u Hu). do 3 f_equal. apply diff_fresh. intros Hau. by apply Hin, Hus.
  - intros x Hx. rewrite elem_of_app, seen_snoc. fold a. split.
    + intros [Hin|Hin]; [apply Hready in Hin; [by apply sub_more|done]|]. by apply elem_of_ids, Hnew in Hin as (_ & _ & ?).
    + intros Hsub. destruct (decide (a ∈ deps_of (GetUniqueID x))) as [Hau|Hau].
      * right. assert (Hin : GetUniqueID x ∈ ids more) by (apply Hnew; split_and!; [done|by apply elem_of_ids|done]).
        apply list_elem_of_fmap in Hin as (y & Heq & Hy). by rewrite (same_item slice x y Hnd Hx (Hms y Hy) Heq).
      * left. apply Hready; [done|]. by eapply sub_less.
  - intros l1 x l2 Hl. destruct (list_snoc_split l2) as [->|(l2' & y & ->)].
    + apply app_inj_tail in Hl as [-> ->]. apply Hready; [done|]. rewrite elem_of_app. right. constructor.
    + rewrite app_comm_cons, app_assoc in Hl. apply app_inj_tail in Hl as [-> _]. by eapply Horder.
Qed.

Lemma drain_spec fuel degrees queue sorted : drain_ok degrees queue sorted → length slice - length sorted ≤ fuel →
  ∃ degrees' sorted', drain fuel slice maps degrees queue sorted = Ok sorted' ∧ drain_ok degrees' [] sorted'.
Proof.
  revert degrees queue sorted. induction fuel as [|fuel IH]; intros degrees queue sorted Hok Hfuel.
  - destruct queue as [|item queue]; [by exists degrees, sorted|]. exfalso. destruct Hok as [Honce Hslice _ _ _].
    assert (Hle : length (sorted ++ item :: queue) ≤ length slice).
    { apply submseteq_length, NoDup_submseteq; [by eapply NoDup_fmap_1|done]. }
    rewrite length_app in Hle. simpl in Hle. lia.
  - destruct queue as [|item queue]; [by exists degrees, sorted|]. cbn [drain].
    destruct (drain_step degrees item queue sorted Hok) as (degrees' & more & -> & Hok'). cbn [mbind go_bind].
    apply (IH degrees' (queue ++ more) (sorted ++ [item]) Hok'). rewrite length_app. simpl. lia.
Qed.
End drain.

Lemma indexed_nil : indexed [] {| inDegrees := ∅; dependencyIndexes := ∅; isDependentOn := ∅; start := [] |}.
Proof.
  split; simpl.
  - intros u Hu. by apply elem_of_nil in Hu.
  - done.
  - intros d. by rewrite lookup_empty.
  - done.
Qed.

(** When the queue is empty every object that occurs in some order of the
    slice has been sorted. *)
Lemma drain_reaches slice degrees sorted l : drain_ok slice degrees [] sorted → l ≡ₚ slice → topological l →
  ∀ x, x ∈ slice → x ∈ sorted.
Proof.
  intros [_ _ _ Hready _] Hl Htopo.
  assert (Hprefix : ∀ l1 l2, l = l1 ++ l2 → ∀ x, x ∈ l1 → x ∈ sorted).
  { intros l1. induction l1 as [|y l1 IH] using rev_ind; intros l2 Heq x Hx; [by apply elem_of_nil in Hx|].
    rewrite <- app_assoc in Heq. apply elem_of_app in Hx as [Hx|Hx%list_elem_of_singleton]; [by eapply IH|]. subst y.
    assert (Hin : x ∈ slice) by (rewrite <- Hl, Heq, elem_of_app; right; constructor).
    pose proof (proj2 (Hready x Hin)) as Hr. rewrite app_nil_r in Hr. apply Hr.
    intros u Hu. apply (Htopo l1 x l2 Heq) in Hu. rewrite elem_of_list_to_set in Hu |- *.
    apply list_elem_of_fmap in Hu as (z & -> & Hz). apply elem_of_ids. by eapply IH. }
  intros x Hx. rewrite <- Hl in Hx. by apply (Hprefix l []); rewrite ?app_nil_r.
Qed.

(** The queue is drained with the fuel there is. *)
Lemma TopologicalSort_drained (slice : list T) : NoDup (ids slice) →
  ∃ degrees sorted, drain_ok slice degrees [] sorted ∧ sorted ⊆+ slice ∧
    TopologicalSort dependencies slice =
      if bool_decide (length slice ≠ length sorted)
      then Fatal "Dependency resolution failed. This is a bug, please report." else Ok sorted.
Proof.
  intros Hnd. pose proof (index_items_indexed [] slice _ Hnd indexed_nil) as Hmaps. cbn [app length] in Hmaps.
  unfold TopologicalSort. set (maps := index_items _ _ _ _) in *.
  destruct (drain_spec slice maps Hnd Hmaps (length slice) _ _ [] (drain_ok_start slice maps Hnd Hmaps)) as (degrees & sorted & -> & Hok);
    [lia|]. cbn [mbind go_bind]. exists degrees, sorted. split_and!; [done| |done].
  destruct Hok as [Honce Hslice _ _ _]. rewrite app_nil_r in Honce, Hslice. apply NoDup_submseteq; [by eapply NoDup_fmap_1|done].
Qed.
Lemma TopologicalSort_Ok (slice sorted : list T) : NoDup (ids slice) → TopologicalSort dependencies slice = Ok sorted →
  sorted ≡ₚ slice ∧ topological sorted.
Proof.
  intros Hnd Hs. destruct (TopologicalSort_drained slice Hnd) as (degrees & sorted' & [_ _ _ _ Horder] & Hsub & Hsort).
  rewrite Hsort in Hs. case_bool_decide as Hlen; [done|]. injection Hs as ->. split; [|done].
  apply submseteq_length_Permutation; [done|]. lia.
Qed.

(** C16: the topological sort is correct and complete. Given distinct objects it
    ends, and either returns the objects in an order in which every object
    comes after all it depends on, or reports that the dependencies cannot be
    resolved, and then no such order exists; in whatever order the maps are
    visited. *)
Theorem TopologicalSort_correct (slice : list T) (Hnd : NoDup (ids slice)) :
  (∃ sorted, TopologicalSort dependencies slice = Ok sorted ∧ sorted ≡ₚ slice ∧ topological sorted) ∨
  (∃ msg, TopologicalSort dependencies slice = Fatal msg ∧ ∀ l, l ≡ₚ slice → ¬ topological l).
Proof.
  destruct (TopologicalSort_drained slice Hnd) as (degrees & sorted & Hok & Hsub & Hsort).
  case_bool_decide as Hlen.
  - right. eexists. split; [done|]. intros l Hl Htopo. apply Hlen.
    assert (Hsup : slice ⊆+ sorted) by (apply NoDup_submseteq; [by eapply NoDup_fmap_1|by eapply drain_reaches]).
    apply submseteq_length in Hsub, Hsup. lia.
  - left. exists sorted. split; [done|]. by apply TopologicalSort_Ok.
Qed.

(** ** Slices with an object twice *)

(** What the first loop has built when objects may occur twice: the index of an
    object is that of one of its items. *)
Record collected (P : list T) (m : sort_maps) : Prop := {
  co_degrees : ∀ u, u ∈ ids P → inDegrees m !! u = Some (Z.of_nat (size (deps_of u)));
  co_indexes : ∀ u, u ∈ ids P → ∃ i x, dependencyIndexes m !! u = Some i ∧ P !! i = Some x ∧ GetUniqueID x = u;
  co_dependents : ∀ d u, u ∈ default [] (isDependentOn m !! d) → u ∈ ids P ∧ size (deps_of u) ≠ 0;
  co_start : start m = filter (λ x, size (deps_of (GetUniqueID x)) = 0) P
}.
Lemma index_item_collected P m x : collected P m → collected (P ++ [x]) (index_item dependencies m (length P) x).
Proof.
  intros [Hdeg Hidx Hdep Hst]. split; cbn [index_item inDegrees dependencyIndexes isDependentOn start].
  - intros u Hu. rewrite fmap_app, elem_of_app in Hu. destruct (decide (u = GetUniqueID x)) as [->|Hne]; [by rewrite lookup_insert_eq|].
    rewrite lookup_insert_ne by done. apply Hdeg. destruct Hu as [?|Hu%list_elem_of_singleton]; [done|congruence].
  - intros u Hu. rewrite fmap_app, elem_of_app in Hu. destruct (decide (u = GetUniqueID x)) as [->|Hne].
    + exists (length P), x. by rewrite lookup_insert_eq, list_lookup_middle.
    + rewrite lookup_insert_ne by done. destruct Hu as [Hu|Hu%list_elem_of_singleton]; [|congruence].
      destruct (Hidx u Hu) as (i & y & Hi & Hy & Hid). exists i, y. split_and!; [done| |done]. by apply lookup_app_l_Some.
  - intros d u. rewrite add_dependents_lookup by apply NoDup_range_set. rewrite fmap_app, !elem_of_app.
    intros [Hu|Hu]; [destruct (Hdep d u Hu); by split; [left|]|].
    destruct (decide (d ∈ range_set 104 (deps_of (GetUniqueID x)))) as [Hin|]; [|by apply elem_of_nil in Hu].
    apply list_elem_of_singleton in Hu as ->. apply elem_of_range_set in Hin. split; [right; by apply list_elem_of_singleton|].
    intros Hz%size_empty_inv. set_solver.
  - rewrite Hst, filter_app, filter_cons, filter_nil. case_bool_decide as Hz; [by rewrite decide_True|].
    rewrite decide_False by done. by rewrite app_nil_r.
Qed.
Lemma index_items_collected P l m : collected P m → collected (P ++ l) (index_items dependencies m (length P) l).
Proof.
  revert P m. induction l as [|x l IH]; intros P m Hm; cbn [index_items]; [by rewrite app_nil_r|].
  rewrite cons_middle, app_assoc. replace (S (length P)) with (length (P ++ [x])) by (rewrite length_app; simpl; lia).
  apply IH. by apply index_item_collected.
Qed.

Section twice.
Context (slice : list T) (maps : sort_maps (T := T)) (Hmaps : collected slice maps).

(** An object with dependencies is queued once, however often it occurs. *)
Definition queued_once (degrees : gmap UniqueID Z) (l : list T) : Prop :=
  ∃ rest, ids l ≡ₚ ids (start maps) ++ rest ∧ NoDup rest ∧
    ∀ u, u ∈ rest → (default 0 (degrees !! u) ≤ 0)%Z ∧ u ∈ ids slice ∧ size (deps_of u) ≠ 0.
Lemma relax_once us degrees queue sorted : (∀ u, u ∈ us → u ∈ ids slice ∧ size (deps_of u) ≠ 0) → queued_once degrees (sorted ++ queue) →
  ∃ degrees' queue', go_fold (relax slice (dependencyIndexes maps)) (degrees, queue) us = Ok (degrees', queue') ∧
    queued_once degrees' (sorted ++ queue').
Proof.
  revert degrees queue. induction us as [|u us IH]; intros degrees queue Hus Honce; cbn [go_fold]; [by eexists _, _|].
  assert (Hus' : ∀ v, v ∈ us → v ∈ ids slice ∧ size (deps_of v) ≠ 0) by (intros v Hv; apply Hus; by constructor).
  destruct (Hus u) as [Hu Hsz]; [by constructor|]. destruct Honce as (rest & Hl & Hnd & Hrest). unfold relax at 2.
  assert (Hlow : ∀ v, v ∈ rest → (default 0 (<[u:=default 0 (degrees !! u) - 1]> degrees !! v) ≤ 0)%Z).
  { intros v Hv. destruct (Hrest v Hv) as [Hle _]. destruct (decide (u = v)) as [->|Hne];
      [rewrite lookup_insert_eq; cbn; lia|by rewrite lookup_insert_ne]. }
  case_bool_decide as Hz.
  - destruct (co_indexes _ _ Hmaps u Hu) as (i & x & Hi & Hx & Hid). rewrite Hi. change (default 0 (Some i)) with i. unfold index. rewrite Hx.
    cbn [mbind go_bind]. apply IH; [done|]. exists (rest ++ [u]). split_and!.
    + rewrite app_assoc, fmap_app, Hl. cbn [fmap list_fmap]. by rewrite Hid, <- app_assoc.
    + apply NoDup_app. split_and!; [done| |apply NoDup_singleton]. intros v Hv ->%list_elem_of_singleton.
      destruct (Hrest u Hv) as [Hle _]. lia.
    + intros v [Hv|Hv%list_elem_of_singleton]%elem_of_app; [by destruct (Hrest v Hv) as (_ & ? & ?); auto|]. subst v.
      rewrite lookup_insert_eq. cbn. auto with lia.
  - cbn [mbind go_bind]. apply IH; [done|]. exists rest. split_and!; [done..|].
    intros v Hv. by destruct (Hrest v Hv) as (_ & ? & ?); auto.
Qed.

Context (l1 l2 l3 : list T) (x y : T) (Hslice : slice = l1 ++ x :: l2 ++ y :: l3).
Context (Hxy : GetUniqueID x = GetUniqueID y) (Hx : size (deps_of (GetUniqueID x)) ≠ 0).
Lemma queued_fewer degrees l : queued_once degrees l → length l < length slice.
Proof.
  intros (rest & Hl & Hnd & Hrest). apply Permutation_length in Hl. rewrite length_app, !length_fmap in Hl. rewrite Hl, (co_start _ _ Hmaps).
  rewrite <- (filter_app_complement (λ x, size (deps_of (GetUniqueID x)) = 0) slice) at 2. rewrite length_app.
  apply Nat.add_lt_mono_l. set (F := filter (λ x, ¬ size (deps_of (GetUniqueID x)) = 0)).
  assert (HF : F slice ≡ₚ x :: y :: F (l1 ++ l2 ++ l3)).
  { subst slice F. rewrite !filter_app, !filter_cons, filter_app, filter_cons. rewrite !decide_True by (by rewrite <- ?Hxy).
    rewrite <- Permutation_middle. apply Permutation_skip. rewrite app_assoc, <- Permutation_middle. by rewrite <- app_assoc. }
  rewrite HF. assert (Hsub : rest ⊆+ ids (y :: F (l1 ++ l2 ++ l3))).
  { apply NoDup_submseteq; [done|]. intros u Hu. destruct (Hrest u Hu) as (_ & Hin & Hsz).
    apply list_elem_of_fmap in Hin as (z & -> & Hz). assert (Hz' : z ∈ F slice) by (by apply list_elem_of_filter).
    rewrite HF, elem_of_cons in Hz'. destruct Hz' as [->|Hz']; [|by apply elem_of_ids]. rewrite Hxy. apply elem_of_ids. by constructor. }
  apply submseteq_length in Hsub. rewrite length_fmap in Hsub. cbn [length] in Hsub |- *. lia.
Qed.
Lemma drain_fewer fuel degrees queue sorted : queued_once degrees (sorted ++ queue) → length slice - length sorted ≤ fuel →
  ∃ sorted', drain fuel slice maps degrees queue sorted = Ok sorted' ∧ length sorted' < length slice.
Proof.
  revert degrees queue sorted. induction fuel as [|fuel IH]; intros degrees queue sorted Honce Hfuel;
    pose proof (queued_fewer _ _ Honce) as Hlt; rewrite length_app in Hlt;
    (destruct queue as [|item queue]; [exists sorted; split; [done|cbn in Hlt; lia]|]); [cbn in Hlt; lia|].
  cbn [drain]. rewrite cons_middle, app_assoc in Honce.
  destruct (relax_once (default [] (isDependentOn maps !! GetUniqueID item)) degrees queue (sorted ++ [item])) as (degrees' & queue' & -> & Honce');
    [intros u Hu; by apply (co_dependents _ _ Hmaps) in Hu|done|]. cbn [mbind go_bind].
  apply IH; [done|]. rewrite length_app. cbn. lia.
Qed.
End twice.

(** A slice that lists an object with dependencies twice is never sorted:
    the object is queued once, and the copy stops with a failure that asks for
    a bug report (dependencies.go:136). *)
Lemma TopologicalSort_duplicate_fatal (l1 l2 l3 : list T) (x y : T)
    (Htwice : GetUniqueID x = GetUniqueID y) (Hdeps : deps_of (GetUniqueID x) ≠ ∅) :
  TopologicalSort dependencies (l1 ++ x :: l2 ++ y :: l3) = Fatal "Dependency resolution failed. This is a bug, please report.".
Proof.
  assert (Hnil : collected [] {| inDegrees := ∅; dependencyIndexes := ∅; isDependentOn := ∅; start := [] |}).
  { split; cbn; [by intros u ?%elem_of_nil..| |done]. intros d u. rewrite lookup_empty. by intros ?%elem_of_nil. }
  pose proof (index_items_collected [] (l1 ++ x :: l2 ++ y :: l3) _ Hnil) as Hmaps. cbn [app length] in Hmaps.
  unfold TopologicalSort. set (maps := index_items _ _ _ _) in *. set (slice := l1 ++ x :: l2 ++ y :: l3) in *.
  destruct (drain_fewer slice maps Hmaps l1 l2 l3 x y eq_refl Htwice) with (fuel := length slice) (degrees := inDegrees maps)
    (queue := start maps) (sorted := @nil T) as (sorted & -> & Hlt).
  - intros Hz. apply Hdeps. by apply leibniz_equiv, size_empty_iff.
  - exists []. split_and!; [by rewrite app_nil_r|constructor|by intros u ?%elem_of_nil].
  - lia.
  - cbn [mbind go_bind]. by rewrite bool_decide_true by lia.
Qed.
End sort_lemmas.

(** * Lemmas on cycles *)

Section cycles.
Context `{MapRange}.
Implicit Types m : DependencyMap.

Definition depends m (p d : UniqueID) : Prop := ∃ s, m !! p = Some s ∧ d ∈ s.

Lemma add_dependency_inv m o r p d : depends (add_dependency m o r) p d → (p = o ∧ d = r) ∨ depends m p d.
Proof.
  unfold add_dependency, depends, DependencyMap in *. intros (s & Hs & Hd). destruct (decide (p = o)) as [->|Hne].
  - rewrite lookup_insert_eq in Hs. injection Hs as <-. apply elem_of_union in Hd as [->%elem_of_singleton|Hd]; [by left|right].
    destruct (m !! o) as [s|]; [by exists s|]. by apply elem_of_empty in Hd.
  - rewrite lookup_insert_ne in Hs by done. right. by exists s.
Qed.
Lemma add_dependency_new m o r : depends (add_dependency m o r) o r.
Proof. unfold add_dependency, depends, DependencyMap in *. rewrite lookup_insert_eq. eexists. split; [done|]. apply elem_of_union_l, elem_of_singleton_2. done. Qed.
Lemma add_dependency_more m o r p d : depends m p d → depends (add_dependency m o r) p d.
Proof.
  unfold add_dependency, depends, DependencyMap in *. intros (s & Hs & Hd). destruct (decide (p = o)) as [->|Hne].
  - rewrite lookup_insert_eq, Hs. eexists. split; [done|]. by apply elem_of_union_r.
  - rewrite lookup_insert_ne by done. by exists s.
Qed.

(** The back edge from a function to the type that refers to it. *)
Definition back_edge m (p d : UniqueID) : Prop :=
  ClassID d = PG_TYPE_OID ∧ ClassID p = PG_PROC_OID ∧ depends m d p.

Lemma type_not_proc u : ClassID u = PG_TYPE_OID → ClassID u ≠ PG_PROC_OID.
Proof. unfold PG_TYPE_OID, PG_PROC_OID. intros ->. done. Qed.

(** A step removes the edge [dep → entry] when it closes a cycle of a type and
    a function, and nothing else. *)
Lemma break_step_depends entry m dep p d :
  depends (break_step entry m dep) p d ↔
  depends m p d ∧ ¬ (p = dep ∧ d = entry ∧ ClassID entry = PG_TYPE_OID ∧ ClassID dep = PG_PROC_OID).
Proof.
  unfold break_step, depends, DependencyMap in *. destruct (m !! dep) as [back|] eqn:Hb.
  2: { split; [|by intros [? _]]. intros (s & Hs & Hd). split; [eauto|]. intros (-> & _). congruence. }
  destruct (bool_decide (ClassID entry = PG_TYPE_OID) && _ && _) eqn:Hc.
  - apply andb_true_iff in Hc as [[Ht%bool_decide_eq_true Hp%bool_decide_eq_true]%andb_true_iff Hin%bool_decide_eq_true].
    case_bool_decide as Hsz.
    + assert (Hback : back = {[entry]}).
      { apply size_1_elem_of in Hsz as [x Hx]. apply leibniz_equiv in Hx. rewrite Hx in Hin |- *.
        apply elem_of_singleton in Hin. by rewrite Hin. }
      destruct (decide (p = dep)) as [->|Hne].
      * rewrite lookup_delete_eq. split; [by intros (? & ? & _)|]. intros [(s & Hs & Hd) Hno]. rewrite Hb in Hs.
        injection Hs as <-. rewrite Hback in Hd. apply elem_of_singleton in Hd as ->. by destruct Hno.
      * rewrite lookup_delete_ne by done. naive_solver.
    + destruct (decide (p = dep)) as [->|Hne].
      * rewrite lookup_insert_eq. split.
        -- intros (s & [= <-] & [Hd Hne]%elem_of_difference). split; [by exists back|]. intros (_ & -> & _).
           by apply Hne, elem_of_singleton.
        -- intros [(s & Hs & Hd) Hno]. rewrite Hb in Hs. injection Hs as <-. eexists. split; [done|].
           apply elem_of_difference. split; [done|]. rewrite elem_of_singleton. intros ->. by destruct Hno.
      * rewrite lookup_insert_ne by done. naive_solver.
  - split; [|by intros [? _]]. intros (s & Hs & Hd). split; [eauto|]. intros (-> & -> & Ht & Hp).
    rewrite Hb in Hs. injection Hs as <-.
    by rewrite !bool_decide_true in Hc.
Qed.

Lemma break_steps_depends entry l m p d :
  depends (foldl (break_step entry) m l) p d ↔
  depends m p d ∧ ¬ (p ∈ l ∧ d = entry ∧ ClassID entry = PG_TYPE_OID ∧ ClassID p = PG_PROC_OID).
Proof.
  revert m. induction l as [|x l IH]; intros m; cbn [foldl].
  { rewrite elem_of_nil. naive_solver. }
  rewrite IH, break_step_depends, elem_of_cons. naive_solver.
Qed.

Lemma break_entry_depends m entry p d :
  depends (break_entry m entry) p d ↔ depends m p d ∧ ¬ (d = entry ∧ back_edge m p entry).
Proof.
  unfold break_entry, back_edge. destruct (m !! entry) as [deps|] eqn:Hm.
  - assert (He : depends m entry p ↔ p ∈ deps) by (unfold depends; rewrite Hm; naive_solver).
    rewrite break_steps_depends, elem_of_range_set, He. naive_solver.
  - assert (He : ¬ depends m entry p) by (unfold depends; rewrite Hm; naive_solver). naive_solver.
Qed.

(** Removing back edges does not change what the types refer to, so the edges
    to remove are the same all along. *)
Lemma break_entry_back m entry p d : back_edge (break_entry m entry) p d ↔ back_edge m p d.
Proof.
  unfold back_edge. rewrite break_entry_depends. unfold back_edge. split; [naive_solver|].
  intros (Ht & Hp & Hd). split_and!; [done|done|done|]. intros (_ & _ & Hbad & _). by apply (type_not_proc d).
Qed.

Lemma break_entries_depends l m p d :
  depends (foldl break_entry m l) p d ↔ depends m p d ∧ ¬ (d ∈ l ∧ back_edge m p d).
Proof.
  revert m. induction l as [|x l IH]; intros m; cbn [foldl].
  { rewrite elem_of_nil. naive_solver. }
  rewrite IH, break_entry_depends, break_entry_back, elem_of_cons. naive_solver.
Qed.

(** breaking cycles removes exactly the dependencies of a function on a
    type that depends on that function, whatever order the maps are visited
    and entries deleted in; afterwards no type and function depend on each
    other. *)
Theorem breakCircularDependencies_exact (depMap : DependencyMap) (p d : UniqueID) :
  (depends (breakCircularDependencies depMap) p d ↔ depends depMap p d ∧ ¬ back_edge depMap p d) ∧
  ¬ (ClassID d = PG_TYPE_OID ∧ ClassID p = PG_PROC_OID ∧
     depends (breakCircularDependencies depMap) d p ∧ depends (breakCircularDependencies depMap) p d).
Proof.
  assert (Hexact : ∀ p d, depends (breakCircularDependencies depMap) p d ↔ depends depMap p d ∧ ¬ back_edge depMap p d).
  { intros p' d'. unfold breakCircularDependencies. rewrite break_entries_depends.
    assert (Hdom : back_edge depMap p' d' → d' ∈ (range_map 268 depMap).*1).
    { intros (_ & _ & s & Hs & _). apply list_elem_of_fmap. exists (d', s). split; [done|]. by apply elem_of_range_map. }
    naive_solver. }
  split; [apply Hexact|]. rewrite !Hexact. unfold back_edge. naive_solver.
Qed.
End cycles.

(** * Instances *)

#[export] Instance id_sortable : Sortable UniqueID := {| sortable_FQN _ := ""; GetUniqueID u := u |}.

Definition fn : UniqueID := {| ClassID := 1255; uid_Oid := 1 |}.
Definition ty : UniqueID := {| ClassID := 1247; uid_Oid := 2 |}.
Definition tb : UniqueID := {| ClassID := 1259; uid_Oid := 3 |}.

(** A table of a type with its function: the order is the only one. *)
Lemma TopologicalSort_correct_witness :
  let deps : DependencyMap := {[tb := {[ty]}; ty := {[fn]}]} in
  TopologicalSort deps [tb; ty; fn] = Ok [fn; ty; tb] ∧
  ((∃ sorted, TopologicalSort deps [tb; ty; fn] = Ok sorted ∧ sorted ≡ₚ [tb; ty; fn] ∧ topological deps sorted) ∨
   (∃ msg, TopologicalSort deps [tb; ty; fn] = Fatal msg ∧ ∀ l, l ≡ₚ [tb; ty; fn] → ¬ topological deps l)).
Proof.
  intros deps. split; [vm_compute; reflexivity|]. apply TopologicalSort_correct.
  apply (bool_decide_unpack _). vm_compute. exact I.
Defined.
