(* ===== verification/Queries.v ===== *)
(** The queries on the catalogue: the format of their texts, the rows they
    return, and the filters of schemas, relations and extensions they share
    ([meta/builtin/variables.go], [queries_shared.go], [queries_relations.go]).

    A connection is what it answers: for each type of row, the rows a query
    scans into it or an error. *)
From S2P Require Import Prelude Regexp Utils Toc Version Dependencies.

(** * [fmt.Sprintf] on strings *)

Definition is_flag (c : ascii) : bool := bool_decide (c ∈ ["+"; "-"; "#"; " "; "."]%char) || is_digit c.
Definition extra_operands (args : list string) : string :=
  match args with
  | [] => ""
  | _ => cat ["%!(EXTRA "; Join ((λ a, "string=" +:+ a) <$> args) ", "; ")"]
  end.
(** [verb]: behind a percent sign; [reordered]: an explicit index was used, such
    as [%[1]s], which also turns the check for extra operands off. *)
Fixpoint format_from (all : list string) (verb reordered : bool) (s : string) (args : list string) : string :=
  match s with
  | EmptyString => (if verb then "%!(NOVERB)" else "") +:+ (if reordered then "" else extra_operands args)
  | String c s' =>
      if verb then
        if bool_decide (c = "["%char) then
          match s' with
          | String d (String _ s'') => format_from all true true s'' (drop (nat_of_ascii d - 49) all)
          | _ => "%!(BADINDEX)"
          end
        else if is_flag c then format_from all true reordered s' args
        else if bool_decide (c = "%"%char) then String c (format_from all false reordered s' args)
        else match args with
             | [] => cat ["%!"; chr c; "(MISSING)"; format_from all false reordered s' []]
             | a :: args' =>
                 (if bool_decide (c ∈ ["s"; "d"; "v"]%char) then a else cat ["%!"; chr c; "(string="; a; ")"])
                 +:+ format_from all false reordered s' args'
             end
      else if bool_decide (c = "%"%char) then format_from all true reordered s' args
      else String c (format_from all false reordered s' args)
  end.
(** The operands are texts; a number is one by [Itoa]. An index is one digit. *)
Definition Sprintf (format : string) (args : list string) : string := format_from args false false format args.

(** * Versions *)

(** [connectionPool.Version.IsGPDB() && connectionPool.Version.Before(n)] and
    [... .Is(n)]. *)
Definition gpdb_before `{SemverLib} (version : GPDBVersion) (n : string) : go bool := andg (IsGPDB version) (Before version n).
Definition gpdb_is `{SemverLib} (version : GPDBVersion) (n : string) : go bool := andg (IsGPDB version) (Is version n).

(** * Rows *)

(** [connectionPool.Select(&results, query)] with [results] a slice of [A]. *)
Class Selects (A : Type) := Select : string → go (list A).
(** The slice, when an error is fatal. *)
Definition select_rows {A} `{Selects A} (query : string) : go (list A) := FatalOnError (Select (A := A) query).

(** Rows of one key are collected in order. *)
Definition append_row {A} (key : A → Z) (m : gmap Z (list A)) (result : A) : gmap Z (list A) :=
  <[key result := default [] (m !! key result) ++ [result]]> m.
Definition rows_by {A} (key : A → Z) (results : list A) : gmap Z (list A) := foldl (append_row key) ∅ results.
(** The last row of a key is kept. *)
Definition row_map {A B} (key : A → Z) (value : A → B) (results : list A) : gmap Z B :=
  foldl (λ m r, <[key r := value r]> m) ∅ results.

Record oid_value := { ov_Oid : Z; ov_Value : string }.
Definition selectAsOidToStringMap `{Selects oid_value} (query : string) : go (gmap Z string) :=
  let! results := select_rows (A := oid_value) query in Ok (row_map ov_Oid ov_Value results).

(** [dbconn.MustSelectStringSlice]. *)
Record string_row := { sr_string : string }.
Definition MustSelectStringSlice `{Selects string_row} (query : string) : go (list string) :=
  let! rows := select_rows (A := string_row) query in Ok (map sr_string rows).

(** * Filters *)

(** The package variables that filter the queries. *)
Record filters := {
  filterRelationClause : string; excludeRelations : list string; includeRelations : list string;
  includeSchemas : list string; excludeSchemas : list string
}.
(** As [Open] sets them. *)
Definition no_filters : filters :=
  {| filterRelationClause := ""; excludeRelations := []; includeRelations := []; includeSchemas := []; excludeSchemas := [] |}.
Definition set_clause (f : filters) (clause : string) : filters :=
  {| filterRelationClause := clause; excludeRelations := excludeRelations f; includeRelations := includeRelations f;
     includeSchemas := includeSchemas f; excludeSchemas := excludeSchemas f |}.
Definition FIRST_NORMAL_OBJECT_ID : Z := 16384.

Definition schema_list (namespace op : string) (schemas : list string) : string :=
  Sprintf (cat [chr NL; "AND %s.nspname "; op; " (%s)"]) [namespace; SliceToQuotedString schemas].
(** The clause of the last non-empty list is kept. *)
Definition include_or_exclude_clause (f : filters) (namespace : string) : string :=
  match excludeSchemas f, includeSchemas f with
  | [], [] => ""
  | [], inc => schema_list namespace "IN" inc
  | exc, _ => schema_list namespace "NOT IN" exc
  end.
Definition system_schemas : string := "%s.nspname NOT LIKE 'pg_temp_%%' AND %s.nspname NOT LIKE 'pg_toast%%' AND %s.nspname NOT IN ('gp_toolkit', 'information_schema', 'pg_aoseg', 'pg_bitmapindex', 'pg_catalog', 'pg_ext_aux') %s".
Definition SchemaFilterClause (f : filters) (namespace : string) : string :=
  Sprintf system_schemas [namespace; namespace; namespace; include_or_exclude_clause f namespace].
Definition SchemaFilterClauseNotFilterPgCatalog (f : filters) (namespace : string) : string :=
  Sprintf "%s.nspname NOT LIKE 'pg_temp_%%' AND %s.nspname NOT LIKE 'pg_toast%%' AND %s.nspname NOT IN ('gp_toolkit', 'information_schema', 'pg_aoseg', 'pg_bitmapindex', 'pg_ext_aux') %s" [namespace; namespace; namespace; include_or_exclude_clause f namespace].

(** The keys of the set are ranged over in any order; it keeps the included
    schemas. *)
Definition with_included (f : filters) (partitionAlteredSchemas : gset string) : gset string :=
  if bool_decide (includeSchemas f = []) then partitionAlteredSchemas else partitionAlteredSchemas ∪ list_to_set (includeSchemas f).
Definition SchemaFilterClauseWithAlteredPartitionSchemas `{MapRange} (f : filters) (namespace : string) (partitionAlteredSchemas : gset string) : string :=
  let schemas := with_included f partitionAlteredSchemas in
  let included := match includeSchemas f with [] => "" | _ => schema_list namespace "IN" (range_map 322 (gset_to_gmap true schemas)).*1 end in
  let clause :=
    match filter (λ s, s ∉ schemas) (excludeSchemas f) with
    | [] => included
    | excludeSchemaArray => schema_list namespace "NOT IN" excludeSchemaArray
    end in
  Sprintf "%s.nspname NOT LIKE 'pg_temp_%%' AND %s.nspname NOT LIKE 'pg_toast%%' AND %s.nspname NOT IN ('gp_toolkit', 'information_schema', 'pg_aoseg', 'pg_bitmapindex', 'pg_catalog', 'pg_ext_aux') %s" [namespace; namespace; namespace; clause].

Definition ExtensionFilterClause (namespace : string) : string :=
  let oidStr := if bool_decide (namespace = "") then "oid" else Sprintf "%s.oid" [namespace] in
  Sprintf "%s NOT IN (select objid from pg_depend where deptype = 'e')" [oidStr].

Section relations.
Context `{Selects FqnStruct} `{Selects string_row}.

Definition getOidsFromRelationList (quotedIncludeRelations : list string) : go (list string) :=
  MustSelectStringSlice (Sprintf "
	SELECT c.oid AS string
	FROM pg_class c
		JOIN pg_namespace n ON c.relnamespace = n.oid
	WHERE quote_ident(n.nspname) || '.' || quote_ident(c.relname) IN (%s)" [SliceToQuotedString quotedIncludeRelations]).
Definition oids_of_names (names : list string) : go (list string) :=
  let! quoted := FatalOnError (QuoteTableNames Select names) in getOidsFromRelationList quoted.

(** The clause is built once and kept until it is reset. *)
Definition relationAndSchemaFilterClause (f : filters) : go (string * filters) :=
  if bool_decide (filterRelationClause f ≠ "") then Ok (filterRelationClause f, f)
  else
    let! excluded := (if bool_decide (excludeRelations f = []) then Ok "" else
      let! excludeOids := oids_of_names (excludeRelations f) in
      Ok (if bool_decide (excludeOids = []) then "" else Sprintf (cat [chr NL; "AND c.oid NOT IN (%s)"]) [Join excludeOids ", "])) in
    let! included := (if bool_decide (includeRelations f = []) then Ok "" else
      let! includeOids := oids_of_names (includeRelations f) in
      Ok (Sprintf (cat [chr NL; "AND c.oid IN (%s)"]) [Join includeOids ", "])) in
    let clause := cat [SchemaFilterClause f "n"; excluded; included] in
    Ok (clause, set_clause f clause).
End relations.
