(* ===== verification/Acl.v ===== *)
(** Privileges, owners, comments and security labels
    ([meta/builtin/predata_acl.go] and the grouping of the rows of
    [queries_acl.go]). *)
From S2P Require Import Prelude Regexp Utils Toc Version Scheduler Dependencies.

(** * Access control lists *)

Inductive privilege :=
  Select | Insert | Update | Delete | Truncate | References | Trigger | Usage | Execute | Create | Temporary | Connect.
#[export] Instance privilege_eq : EqDecision privilege.
Proof. solve_decision. Defined.

(** The letter of a privilege in an [aclitem]. *)
Definition priv_char (p : privilege) : ascii :=
  match p with
  | Insert => "a" | Select => "r" | Update => "w" | Delete => "d" | Truncate => "D" | References => "x"
  | Trigger => "t" | Execute => "X" | Usage => "U" | Create => "C" | Temporary => "T" | Connect => "c"
  end%char.
Definition all_privileges : list privilege :=
  [Insert; Select; Update; Delete; Truncate; References; Trigger; Execute; Usage; Create; Temporary; Connect].
Definition priv_of_char (c : ascii) : option privilege :=
  hd_error (filter (λ p, priv_char p = c) all_privileges).

Lemma priv_of_priv_char p : priv_of_char (priv_char p) = Some p.
Proof. by destruct p. Qed.

Definition priv_index (p : privilege) : nat :=
  match p with
  | Insert => 0 | Select => 1 | Update => 2 | Delete => 3 | Truncate => 4 | References => 5
  | Trigger => 6 | Execute => 7 | Usage => 8 | Create => 9 | Temporary => 10 | Connect => 11
  end.
Lemma priv_of_index p : nth_error all_privileges (priv_index p) = Some p.
Proof. by destruct p. Qed.
#[export] Instance privilege_countable : Countable privilege := inj_countable priv_index (nth_error all_privileges) priv_of_index.

(** The two groups of booleans of [ACL]: the privileges held, and those held
    with the grant option. *)
Record ACL := { Grantee : string; Held : gset privilege; WithGrant : gset privilege }.

Record NullString := { NS_String : string; NS_Valid : bool }.

Record ObjectMetadata := {
  Privileges : list ACL;
  ObjectType : string;
  Owner : string;
  Comment : string;
  SecurityLabelProvider : string;
  SecurityLabel : string
}.
Definition emptyMetadata : ObjectMetadata :=
  {| Privileges := []; ObjectType := ""; Owner := ""; Comment := ""; SecurityLabelProvider := ""; SecurityLabel := "" |}.
Abbreviation MetadataMap := (gmap UniqueID ObjectMetadata).

(** The package variables the printers read. *)
Record print_env := {
  srcDBVersion : GPDBVersion;
  destDBVersion : GPDBVersion;
  ownerMap : gmap string string;
  quotedRoleNames : gmap string string;
  dest_tablespaces : tablespaces
}.

(** ** Parsing *)

Definition is_perm (c : ascii) : bool := is_letter c || is_byte "*" c.
Definition ACLRegex : re :=
  Cats [Bol; Cap 1 (Star (Chr any)); Lit "="; Cap 2 (Star (Chr is_perm)); Lit "/"; Cap 3 (Star (Chr any)); Eol].

(** One round of the loop over [permStr], with [lastChar]. *)
Record parsing := { ps_held : gset privilege; ps_grant : gset privilege; ps_last : ascii }.
Definition acl_char (st : parsing) (char : ascii) : parsing :=
  match priv_of_char char with
  | Some p => {| ps_held := {[p]} ∪ ps_held st; ps_grant := ps_grant st; ps_last := char |}
  | None =>
      match (if bool_decide (char = "*"%char) then priv_of_char (ps_last st) else None) with
      | Some p => {| ps_held := ps_held st ∖ {[p]}; ps_grant := {[p]} ∪ ps_grant st; ps_last := char |}
      | None => {| ps_held := ps_held st; ps_grant := ps_grant st; ps_last := char |}
      end
  end.
Definition acl_chars (permStr : string) : parsing :=
  foldl acl_char {| ps_held := ∅; ps_grant := ∅; ps_last := byte 0 |} (bytes permStr).

Definition ParseACL (env : print_env) (aclStr : string) : option ACL :=
  matches ← FindStringSubmatch ACLRegex aclStr;
  let grantee := matches 1 in
  let st := acl_chars (matches 2) in
  Some {| Grantee := default grantee (quotedRoleNames env !! grantee); Held := ps_held st; WithGrant := ps_grant st |}.

Definition privileges_text (privileges : NullString) (kind : string) : string :=
  if bool_decide (kind = "Empty") then "GRANTEE=/GRANTOR"
  else if NS_Valid privileges then NS_String privileges else "".
Definition getColumnACL (env : print_env) (privileges : NullString) (kind : string) : list ACL :=
  option_list (ParseACL env (privileges_text privileges kind)).

(** ** Grouping the rows of an object *)

Section grouping.
Context `{SortSlice} (env : print_env).

Definition sortACLs (privileges : list ACL) : list ACL := sort_slice Grantee privileges.

Record MetadataQueryStruct := {
  mq_UniqueID : UniqueID;
  mq_Name : string;
  mq_ObjectType : string;
  mq_Schema : string;
  mq_Owner : string;
  mq_Comment : string;
  mq_Privileges : NullString;
  mq_Kind : string;
  mq_SecurityLabel : string;
  mq_SecurityLabelProvider : string
}.
Definition noUniqueID : UniqueID := {| ClassID := 0; uid_Oid := 0 |}.

Definition add_acl (metadata : ObjectMetadata) (privileges : option ACL) : ObjectMetadata :=
  {| Privileges := Privileges metadata ++ option_list privileges; ObjectType := ObjectType metadata;
     Owner := Owner metadata; Comment := Comment metadata;
     SecurityLabelProvider := SecurityLabelProvider metadata; SecurityLabel := SecurityLabel metadata |}.
Definition sort_metadata (metadata : ObjectMetadata) : ObjectMetadata :=
  {| Privileges := sortACLs (Privileges metadata); ObjectType := ObjectType metadata;
     Owner := Owner metadata; Comment := Comment metadata;
     SecurityLabelProvider := SecurityLabelProvider metadata; SecurityLabel := SecurityLabel metadata |}.
Definition start_metadata (result : MetadataQueryStruct) : ObjectMetadata :=
  {| Privileges := []; ObjectType := mq_ObjectType result; Owner := mq_Owner result; Comment := mq_Comment result;
     SecurityLabelProvider := mq_SecurityLabelProvider result; SecurityLabel := mq_SecurityLabel result |}.
Definition row_acl (result : MetadataQueryStruct) : option ACL :=
  ParseACL env (privileges_text (mq_Privileges result) (mq_Kind result)).

Definition metadata_step (st : MetadataMap * UniqueID * ObjectMetadata) (result : MetadataQueryStruct)
    : MetadataMap * UniqueID * ObjectMetadata :=
  let '(metadataMap, currentUniqueID, metadata) := st in
  let '(metadataMap, currentUniqueID, metadata) :=
    if bool_decide (mq_UniqueID result ≠ currentUniqueID) then
      (if bool_decide (currentUniqueID ≠ noUniqueID)
       then <[currentUniqueID := sort_metadata metadata]> metadataMap else metadataMap,
       mq_UniqueID result, start_metadata result)
    else st in
  (metadataMap, currentUniqueID, add_acl metadata (row_acl result)).

Definition ConstructMetadataMap (results : list MetadataQueryStruct) : MetadataMap :=
  match results with
  | [] => ∅
  | _ =>
      let '(metadataMap, currentUniqueID, metadata) := foldl metadata_step (∅, noUniqueID, emptyMetadata) results in
      <[currentUniqueID := sort_metadata metadata]> metadataMap
  end.

Record DefaultPrivilegesQueryStruct := {
  dq_Oid : Z; dq_Owner : string; dq_Schema : string; dq_Privileges : NullString; dq_Kind : string; dq_ObjectType : string
}.
Record DefaultPrivileges := { dp_Owner : string; dp_Schema : string; dp_Privileges : list ACL; dp_ObjectType : string }.
Definition default_step (st : list DefaultPrivileges * Z * DefaultPrivileges) (result : DefaultPrivilegesQueryStruct)
    : list DefaultPrivileges * Z * DefaultPrivileges :=
  let '(done, currentOid, priv) := st in
  let with_acls acls p := {| dp_Owner := dp_Owner p; dp_Schema := dp_Schema p; dp_Privileges := acls; dp_ObjectType := dp_ObjectType p |} in
  let '(done, currentOid, priv) :=
    if bool_decide (dq_Oid result ≠ currentOid) then
      (if bool_decide (currentOid ≠ 0%Z) then done ++ [with_acls (sortACLs (dp_Privileges priv)) priv] else done,
       dq_Oid result,
       {| dp_Owner := dq_Owner result; dp_Schema := dq_Schema result; dp_Privileges := []; dp_ObjectType := dq_ObjectType result |})
    else st in
  (done, currentOid,
   with_acls (dp_Privileges priv ++ option_list (ParseACL env (privileges_text (dq_Privileges result) (dq_Kind result)))) priv).
Definition ConstructDefaultPrivileges (results : list DefaultPrivilegesQueryStruct) : list DefaultPrivileges :=
  match results with
  | [] => []
  | _ =>
      let '(done, _, priv) := foldl default_step
        ([], 0%Z, {| dp_Owner := ""; dp_Schema := ""; dp_Privileges := []; dp_ObjectType := "" |}) results in
      done ++ [{| dp_Owner := dp_Owner priv; dp_Schema := dp_Schema priv; dp_Privileges := sortACLs (dp_Privileges priv);
                  dp_ObjectType := dp_ObjectType priv |}]
  end.
End grouping.

(** * Statements *)

(** The privileges that make up [ALL] for a type of object. *)
Definition type_privileges (objectType : string) : option (list privilege) :=
  if bool_decide (objectType = "COLUMN") then Some [Select; Insert; Update; References]
  else if bool_decide (objectType = "DATABASE") then Some [Create; Temporary; Connect]
  else if bool_decide (objectType ∈ ["FOREIGN DATA WRAPPER"; "FOREIGN SERVER"; "LANGUAGE"; "TYPE"]) then Some [Usage]
  else if bool_decide (objectType = "FOREIGN TABLE") then Some [Select; Insert; Update; Delete; References; Trigger]
  else if bool_decide (objectType = "FUNCTION") then Some [Execute]
  else if bool_decide (objectType = "PROTOCOL") then Some [Select; Insert]
  else if bool_decide (objectType = "SCHEMA") then Some [Usage; Create]
  else if bool_decide (objectType = "SEQUENCE") then Some [Select; Update; Usage]
  else if bool_decide (objectType ∈ ["TABLE"; "VIEW"; "MATERIALIZED VIEW"])
    then Some [Select; Insert; Update; Delete; Truncate; References; Trigger]
  else if bool_decide (objectType = "TABLESPACE") then Some [Create]
  else None.

Definition priv_name (p : privilege) : string :=
  match p with
  | Select => "SELECT" | Insert => "INSERT" | Update => "UPDATE" | Delete => "DELETE" | Truncate => "TRUNCATE"
  | References => "REFERENCES" | Trigger => "TRIGGER" | Usage => "USAGE" | Execute => "EXECUTE" | Create => "CREATE"
  | Temporary => "TEMPORARY" | Connect => "CONNECT"
  end.
(** The order of the tests; [Execute] is not tested. *)
Definition printed_privileges : list privilege :=
  [Select; Insert; Update; Delete; Truncate; References; Trigger; Usage; Create; Temporary; Connect].
Definition privilege_string (objectType : string) (held : gset privilege) : string :=
  let all := match type_privileges objectType with
             | Some l => forallb (λ p, bool_decide (p ∈ held)) l
             | None => false
             end in
  if all then "ALL" else Join (priv_name <$> filter (λ p, p ∈ held) printed_privileges) ",".
Definition createPrivilegeStrings (acl : ACL) (objectType : string) : string * string :=
  (privilege_string objectType (Held acl), privilege_string objectType (WithGrant acl)).

Definition nl : string := chr NL.
Definition nl2 : string := nl +:+ nl.

Section statements.
Context (env : print_env).

Definition getMappedRole (role : string) : string :=
  if bool_decide (0 < size (ownerMap env)) then default role (ownerMap env !! role) else role.
Definition grantee_name (acl : ACL) : string :=
  if bool_decide (Grantee acl = "") then "PUBLIC" else getMappedRole (Grantee acl).

(** The [GRANT] statements of an entry: [before] and [after] stand around the
    list of privileges. *)
Definition grants (before after objectType : string) (acl : ACL) : list string :=
  let '(privStr, privWithGrantStr) := createPrivilegeStrings acl objectType in
  (if bool_decide (privStr ≠ "") then [cat [before; "GRANT "; privStr; after; " TO "; grantee_name acl; ";"]] else []) ++
  (if bool_decide (privWithGrantStr ≠ "")
   then [cat [before; "GRANT "; privWithGrantStr; after; " TO "; grantee_name acl; " WITH GRANT OPTION;"]] else []).

Definition GetPrivilegesStatements (obj : ObjectMetadata) (objectName objectType : string) (columnName : option string) : string :=
  let typeStr :=
    if bool_decide (objectType ∈ ["VIEW"; "FOREIGN TABLE"; "MATERIALIZED VIEW"]) then ""
    else if bool_decide (objectType = "COLUMN") then "TABLE "
    else if bool_decide (objectType = "AGGREGATE") then "FUNCTION "
    else objectType +:+ " " in
  let columnStr := match columnName with Some c => cat ["("; c; ") "] | None => "" end in
  let on := cat [columnStr; "ON "; typeStr; objectName] in
  match Privileges obj with
  | [] => ""
  | acls =>
      let statements :=
        [cat ["REVOKE ALL "; on; " FROM PUBLIC;"]] ++
        (if bool_decide (Owner obj ≠ "") then [cat ["REVOKE ALL "; on; " FROM "; getMappedRole (Owner obj); ";"]] else []) ++
        (acls ≫= grants "" (" " +:+ on) objectType) in
      nl2 +:+ Join statements nl
  end.

Definition GetCommentStatement (obj : ObjectMetadata) (objectName objectType owningTable : string) : string :=
  let tableStr := if bool_decide (owningTable ≠ "") then " ON " +:+ owningTable else "" in
  if bool_decide (Comment obj ≠ "")
  then cat ["COMMENT ON "; objectType; " "; objectName; tableStr; " IS "; quoted_literal (Comment obj); ";"]
  else "".

Definition GetSecurityLabelStatement (obj : ObjectMetadata) (objectName objectType : string) : string :=
  if bool_decide (SecurityLabel obj ≠ "")
  then cat ["SECURITY LABEL FOR "; SecurityLabelProvider obj; " ON "; objectType; " "; objectName; " IS ";
            quoted_literal (SecurityLabel obj); ";"]
  else "".

Context `{SemverLib}.

Definition GetOwnerStatement (obj : ObjectMetadata) (objectName objectType : string) : go string :=
  let! old := andg (IsGPDB (srcDBVersion env)) (Before (srcDBVersion env) "6") in
  let typeStr :=
    if (old : bool) && bool_decide (objectType ∈ ["SEQUENCE"; "VIEW"]) then "TABLE"
    else if bool_decide (objectType = "FOREIGN SERVER") then "SERVER"
    else objectType in
  Ok (if bool_decide (Owner obj ≠ "")
      then cat ["ALTER "; typeStr; " "; objectName; " OWNER TO "; getMappedRole (Owner obj); ";"] else "").
End statements.

(** * Printing *)

(** [obj.(Function)] with kind ['p']: the type switch of
    [PrintObjectMetadata]. *)
Class TOCObjectWithMetadata (T : Type) := {
  object_entry :: TOCObject T;
  object_FQN :: HasFQN T;
  is_procedure : T → bool
}.

(** [metadata_entry] and [metadata_fqn] without a type switch. *)
Definition plain_object {T} (entry : T → string * MetadataEntry) (fqn : T → string) : TOCObjectWithMetadata T :=
  {| object_entry := entry; object_FQN := fqn; is_procedure _ := false |}.

(** One object printed with its entry. *)
Definition record {T} `{TOCObject T} (obj : T) (texts : list string) : piece :=
  let '(section, entry) := GetMetadataEntry obj in
  Recorded {| em_section := section; em_entry := entry; em_texts := texts |}.

(** A printer called with a nil table of contents adds no entry. *)
Definition untracked (p : piece) : list string :=
  match p with Recorded em => em_texts em | Loose text => [text] end.

(** Post-data statements are marked as metadata of their object. *)
Definition metadata_entry (section : string) (entry : MetadataEntry) : MetadataEntry :=
  if bool_decide (section = "postdata") then
    new_entry (e_Schema entry) (e_Name entry) (e_ObjectType entry +:+ " METADATA")
      (if bool_decide (e_Schema entry ≠ "") then MakeFQN (e_Schema entry) (e_Name entry) else e_Name entry)
  else entry.
Definition PrintStatements {T} `{TOCObject T} (obj : T) (statements : list string) : list piece :=
  let '(section, entry) := GetMetadataEntry obj in
  (λ statement, Recorded {| em_section := section; em_entry := metadata_entry section entry;
     em_texts := [cat [nl2; statement; nl]] |}) <$> statements.

Section printing.
Context `{SemverLib} (env : print_env).

(** [strings.TrimSpace] of a statement unless it is empty. *)
Definition trimmed (statement : string) : list string :=
  if bool_decide (statement ≠ "") then [TrimSpace statement] else [].

(** The statements of [PrintObjectMetadata] and [PrintObjectMetadataEx]. *)
Definition metadata_statements {T} `{TOCObjectWithMetadata T} (metadata : ObjectMetadata) (obj : T) (owningTable : string)
    : go (list string) :=
  let '(_, entry) := GetMetadataEntry obj in
  let entryType := if bool_decide (e_ObjectType entry = "DATABASE METADATA") then "DATABASE" else e_ObjectType entry in
  let! procedures := gpdb_or_family (srcDBVersion env) "7" in
  let objectType := if (procedures : bool) && is_procedure obj then "PROCEDURE" else entryType in
  let! owner := GetOwnerStatement env metadata (FQN obj) objectType in
  let! no_owner := (if bool_decide ((owner : string) ≠ "")
                    then andg (IsGPDB (srcDBVersion env)) (Before (srcDBVersion env) "5") else Ok false) in
  Ok (trimmed (GetCommentStatement metadata (FQN obj) entryType owningTable) ++
      (if (no_owner : bool) && bool_decide (entryType = "LANGUAGE") then [] else trimmed owner) ++
      trimmed (GetPrivilegesStatements env metadata (FQN obj) entryType None) ++
      trimmed (GetSecurityLabelStatement metadata (FQN obj) entryType)).
Definition PrintObjectMetadata {T} `{TOCObjectWithMetadata T} (metadata : ObjectMetadata) (obj : T) (owningTable : string)
    : go (list piece) :=
  let! statements := metadata_statements metadata obj owningTable in
  Ok (PrintStatements obj statements).

(** [metadataMap[id]]: the zero metadata for an object without any. *)
Definition metadata_of (metadataMap : MetadataMap) (id : UniqueID) : ObjectMetadata :=
  default emptyMetadata (metadataMap !! id).

(** ** Default privileges *)

Definition dp_GetMetadataEntry (dp : DefaultPrivileges) : string * MetadataEntry :=
  ("postdata", new_entry (dp_Schema dp) "" "DEFAULT PRIVILEGES" "").
#[export] Instance dp_object : TOCObject DefaultPrivileges := dp_GetMetadataEntry.

Definition default_object_type (t : string) : string :=
  if bool_decide (t = "r") then "TABLE" else if bool_decide (t = "S") then "SEQUENCE"
  else if bool_decide (t = "f") then "FUNCTION" else if bool_decide (t = "T") then "TYPE" else "".
Definition default_statements (priv : DefaultPrivileges) : list string :=
  let roleStr := if bool_decide (dp_Owner priv ≠ "") then " FOR ROLE " +:+ getMappedRole env (dp_Owner priv) else "" in
  let schemaStr := if bool_decide (dp_Schema priv ≠ "") then " IN SCHEMA " +:+ dp_Schema priv else "" in
  let objectType := default_object_type (dp_ObjectType priv) in
  let alterPrefix := cat ["ALTER DEFAULT PRIVILEGES"; roleStr; schemaStr] in
  [cat [alterPrefix; " REVOKE ALL ON "; objectType; "S FROM PUBLIC;"]] ++
  (if bool_decide (dp_Owner priv ≠ "")
   then [cat [alterPrefix; " REVOKE ALL ON "; objectType; "S FROM "; getMappedRole env (dp_Owner priv); ";"]] else []) ++
  (dp_Privileges priv ≫= grants env (alterPrefix +:+ " ") (cat [" ON "; objectType; "S"]) objectType).
Definition PrintDefaultPrivilegesStatements (privileges : list DefaultPrivileges) : list piece :=
  (λ priv, record priv [cat [nl2; Join (default_statements priv) nl; nl]]) <$> privileges.
End printing.

(** ** Known sections *)

(** The object types of the global section. *)
Definition global_objects : list string :=
  ["SESSION GUCS"; "RESOURCE QUEUE"; "RESOURCE GROUP"; "ROLE"; "ROLE GUCS"; "ROLE GRANT"; "TABLESPACE"; "DATABASE GUC";
   "DATABASE METADATA"].

(** A printer only writes entries of the four sections, in the global one only
    of these types. *)
Definition sound_entry (e : string * MetadataEntry) : bool :=
  known_section e.1 && (negb (bool_decide (e.1 = "global")) || bool_decide (e_ObjectType e.2 ∈ global_objects)).
Definition sound_piece (p : piece) : Prop :=
  match p with Recorded em => sound_entry (em_section em, em_entry em) = true | Loose _ => True end.
Lemma sound_known p : sound_piece p → known_piece p.
Proof. destruct p as [em|]; [|done]. intros [Hk _]%andb_prop. exact Hk. Qed.
Definition Known (m : go (list piece)) : Prop := ∀ ps, m = Ok ps → Forall sound_piece ps.
Class KnownObject (T : Type) `{TOCObject T} := known_object : ∀ obj : T, sound_entry (GetMetadataEntry obj) = true.

Lemma Known_Ok ps : Forall sound_piece ps → Known (Ok ps).
Proof. by intros Hps ps' [= <-]. Qed.
Lemma Known_bind {A} (m : go A) (f : A → go (list piece)) : (∀ a, Known (f a)) → Known (mbind f m).
Proof. intros Hf ps Hps. apply bind_Ok in Hps as (a & _ & Ha). by apply (Hf a). Qed.
Lemma Known_map (m : go (list piece)) (f : list piece → list piece) :
  Known m → (∀ ps, Forall sound_piece ps → Forall sound_piece (f ps)) → Known (mbind (λ ps, Ok (f ps)) m).
Proof. intros Hm Hf ps Hps. apply bind_Ok in Hps as (a & Ha & [= <-]). by apply Hf, Hm. Qed.
Lemma Known_Err e : Known (Err e). Proof. done. Qed.
Lemma Known_Fatal e : Known (Fatal e). Proof. done. Qed.
Lemma Known_Panic e : Known (Panic e). Proof. done. Qed.
Lemma known_record {T} `{KnownObject T} (obj : T) texts : sound_piece (record obj texts).
Proof. pose proof (known_object obj) as Hk. unfold record. destruct (GetMetadataEntry obj). exact Hk. Qed.
Lemma known_PrintStatements {T} `{KnownObject T} (obj : T) statements : Forall sound_piece (PrintStatements obj statements).
Proof.
  pose proof (known_object obj) as Hk. unfold PrintStatements. destruct (GetMetadataEntry obj) as [section entry].
  apply Forall_fmap, Forall_forall. intros s _. cbn. unfold metadata_entry. case_bool_decide as Hs; [by rewrite Hs in Hk |- *|exact Hk].
Qed.
Lemma known_PrintObjectMetadata `{SemverLib} env {T} `{!TOCObjectWithMetadata T} `{!KnownObject T} metadata (obj : T) owningTable :
  Known (PrintObjectMetadata env metadata obj owningTable).
Proof. apply Known_bind. intros a. apply Known_Ok, known_PrintStatements. Qed.

Create HintDb pieces.
#[export] Hint Resolve Known_Ok Known_bind Known_Err Known_Fatal Known_Panic known_record known_PrintStatements
  known_PrintObjectMetadata Forall_nil_2 Forall_cons_2 Forall_app_2 : pieces.
#[export] Instance dp_known : KnownObject DefaultPrivileges. Proof. done. Qed.
Lemma known_PrintDefaultPrivilegesStatements env privileges :
  Forall sound_piece (PrintDefaultPrivilegesStatements env privileges).
Proof. apply Forall_fmap, Forall_forall. intros p _. apply known_record. Qed.
#[export] Hint Resolve known_PrintDefaultPrivilegesStatements : pieces.

(** * Lemmas on parsing *)

(** The text of an [aclitem] as the server prints it: a privilege with the
    grant option is followed by a star. *)
Definition item_bytes (items : list (privilege * bool)) : list ascii :=
  items ≫= λ i, [priv_char i.1] ++ (if (i.2 : bool) then ["*"%char] else []).
Definition aclitem (grantee : string) (items : list (privilege * bool)) (grantor : string) : string :=
  cat [grantee; "="; of_bytes (item_bytes items); "/"; grantor].
Definition with_option (b : bool) (items : list (privilege * bool)) : gset privilege :=
  list_to_set (filter (λ i, i.2 = b) items).*1.

Lemma perm_priv_char p : is_perm (priv_char p) = true.
Proof. by destruct p. Qed.
Lemma item_bytes_perm items : Forall (λ b, is_perm b = true) (item_bytes items).
Proof.
  apply Forall_forall. intros b Hb. apply list_elem_of_bind in Hb as ([p g] & Hb & _).
  cbn [fst snd app] in Hb. apply elem_of_cons in Hb as [->|Hb]; [apply perm_priv_char|]. destruct g; [|by apply elem_of_nil in Hb].
  by apply list_elem_of_singleton in Hb as ->.
Qed.

(** The pattern cuts an item at its last equals sign. *)
Lemma ACLRegex_match grantee perms grantor :
  no_byte NL grantee → no_byte NL grantor → no_byte "=" grantor → Forall (λ b, is_perm b = true) (bytes perms) →
  ∃ f, FindStringSubmatch ACLRegex (cat [grantee; "="; perms; "/"; grantor]) = Some f ∧ f 1 = grantee ∧ f 2 = perms.
Proof.
  intros Hg Hr Heq Hp. unfold cat. cbn [foldr]. 
  assert (Hno : no_byte "=" (perms +:+ ("/" +:+ grantor))).
  { rewrite !no_byte_append. split_and!; [|by apply (bool_decide_unpack _)|done].
    intros Hin. rewrite Forall_forall in Hp. by specialize (Hp _ Hin). }
  destruct (FindStringSubmatch_at ACLRegex (grantee +:+ ("=" +:+ (perms +:+ ("/" +:+ (grantor +:+ "")))))
    (λ c, c !! 1 = Some grantee ∧ c !! 2 = Some perms)) as (f & c & -> & Hf & H1 & H2).
  2: { exists f. by rewrite !Hf, H1, H2. }
  intros X k R Hk. unfold ACLRegex, Cats. cbn [foldr]. rewrite m_Cat, m_Bol, m_Cat, m_Cap, m_Star_Chr.
  apply longest_last; [by apply any_no_newline| |].
  2: { intros d t' p' Ht _. injection Ht as <- Ht. subst t'. apply longest_none with (d := "="%char).
       - intros p'' s' Hs'. rewrite m_Cat. cbn [Lit m]. destruct s' as [|b s']; [done|]. unfold is_byte.
         rewrite bool_decide_false; [done|]. intros <-. done.
       - by rewrite append_nil_r. }
  intros p1. rewrite m_Cat, m_Lit, m_Cat, m_Cap, m_Star_Chr.
  apply longest_all; [done|intros d t' Ht; injection Ht as <- Ht; done|].
  intros p2. rewrite m_Cat, m_Lit, m_Cat, m_Cap, m_Star_Chr.
  apply longest_all; [by apply any_no_newline|done|]. intros p3. rewrite m_Cat, m_Eol, m_Eps.
  apply Hk. split.
  - rewrite !lookup_insert_ne by done. rewrite lookup_insert_eq. by rewrite taken_append.
  - rewrite lookup_insert_ne by done. rewrite lookup_insert_eq. by rewrite taken_append.
Qed.

Lemma with_option_cons b p g items :
  with_option b ((p, g) :: items) = (if bool_decide (g = b) then {[p]} else ∅) ∪ with_option b items.
Proof.
  unfold with_option. rewrite filter_cons. cbn [snd]. case_bool_decide as Hg.
  - rewrite decide_True by done. done.
  - rewrite decide_False by done. by rewrite union_empty_l_L.
Qed.

Lemma acl_chars_items items st :
  NoDup items.*1 → (∀ p, p ∈ items.*1 → p ∉ ps_held st) →
  ps_held (foldl acl_char st (item_bytes items)) = ps_held st ∪ with_option false items ∧
  ps_grant (foldl acl_char st (item_bytes items)) = ps_grant st ∪ with_option true items.
Proof.
  revert st. induction items as [|[p g] items IH]; intros st Hnd Hfresh.
  { unfold with_option. simpl. by rewrite !union_empty_r_L. }
  apply NoDup_cons in Hnd as [Hp Hnd]. cbn [fst] in Hp. rewrite !with_option_cons.
  assert (Hpst : p ∉ ps_held st) by (apply Hfresh; constructor).
  assert (Hnew : ∀ q, q ∈ items.*1 → q ≠ p ∧ q ∉ ps_held st).
  { intros q Hq. split; [by intros ->|]. apply Hfresh. by constructor. }
  change (item_bytes ((p, g) :: items)) with (([priv_char p] ++ (if g then ["*"%char] else [])) ++ item_bytes items).
  rewrite foldl_app. destruct g; cbn [foldl app].
  - assert (Hstep : acl_char (acl_char st (priv_char p)) "*" =
      {| ps_held := ({[p]} ∪ ps_held st) ∖ {[p]}; ps_grant := {[p]} ∪ ps_grant st; ps_last := "*" |}).
    { unfold acl_char at 2. rewrite priv_of_priv_char. unfold acl_char. cbn [ps_last ps_held ps_grant].
      rewrite priv_of_priv_char. done. }
    rewrite Hstep. destruct (IH {| ps_held := ({[p]} ∪ ps_held st) ∖ {[p]}; ps_grant := {[p]} ∪ ps_grant st; ps_last := "*" |} Hnd)
      as [-> ->]; [|clear IH; cbn [ps_held ps_grant]; set_solver].
    intros q Hq. destruct (Hnew q Hq). cbn [ps_held]. set_solver.
  - assert (Hstep : acl_char st (priv_char p) =
      {| ps_held := {[p]} ∪ ps_held st; ps_grant := ps_grant st; ps_last := priv_char p |}).
    { unfold acl_char. by rewrite priv_of_priv_char. }
    rewrite Hstep. destruct (IH {| ps_held := {[p]} ∪ ps_held st; ps_grant := ps_grant st; ps_last := priv_char p |} Hnd)
      as [-> ->]; [|clear IH; cbn [ps_held ps_grant]; set_solver].
    intros q Hq. destruct (Hnew q Hq). cbn [ps_held]. set_solver.
Qed.

(** C18: an [aclitem] of the server is read back exactly: the grantee through the
    map of quoted role names, each privilege as held with or without the
    grant option, for names without newline and a grantor without equals
    sign. *)
Theorem ParseACL_roundtrip (env : print_env) (grantee grantor : string) (items : list (privilege * bool))
    (Hgrantee : no_byte NL grantee) (Hgrantor : no_byte NL grantor ∧ no_byte "=" grantor)
    (Honce : NoDup items.*1) :
  ParseACL env (aclitem grantee items grantor) = Some
    {| Grantee := default grantee (quotedRoleNames env !! grantee);
       Held := with_option false items; WithGrant := with_option true items |}.
Proof.
  destruct Hgrantor as [Hr Heq]. unfold ParseACL, aclitem.
  destruct (ACLRegex_match grantee (of_bytes (item_bytes items)) grantor) as (f & -> & H1 & H2); [done..| |].
  { rewrite bytes_of_bytes. apply item_bytes_perm. }
  cbn [mbind option_bind]. rewrite H1, H2. unfold acl_chars. rewrite bytes_of_bytes.
  destruct (acl_chars_items items {| ps_held := ∅; ps_grant := ∅; ps_last := byte 0 |} Honce) as [-> ->]; [set_solver|].
  cbn [ps_held ps_grant]. by rewrite !union_empty_l_L.
Qed.

Definition gpdb (major : Z) : GPDBVersion :=
  {| VersionString := ""; SemVer := {| Major := major; Minor := 0; Patch := 0 |}; Type_ := GPDB |}.
Definition sample_env : print_env :=
  {| srcDBVersion := gpdb 6; destDBVersion := gpdb 7; ownerMap := ∅; quotedRoleNames := {["Joe" := chr DQ +:+ "Joe" +:+ chr DQ]};
     dest_tablespaces := {| destTablespace := ""; destTablespaceMap := ∅ |} |}.

Lemma ParseACL_roundtrip_witness :
  aclitem "Joe" [(Insert, false); (Select, true)] "gpadmin" = "Joe=ar*/gpadmin" ∧
  ParseACL sample_env (aclitem "Joe" [(Insert, false); (Select, true)] "gpadmin") = Some
    {| Grantee := chr DQ +:+ "Joe" +:+ chr DQ; Held := {[Insert]}; WithGrant := {[Select]} |}.
Proof.
  split; [reflexivity|].
  etransitivity; [|vm_compute; reflexivity]. apply (ParseACL_roundtrip sample_env "Joe" "gpadmin");
    [|split|]; apply (bool_decide_unpack _); vm_compute; exact I.
Defined.

(** A role name that holds an equals sign can be cut inside the grantor. *)
Example ParseACL_equals_in_grantor :
  ParseACL sample_env (cat ["joe=r/"; chr DQ; "x=a/y"; chr DQ]) =
  Some {| Grantee := cat ["joe=r/"; chr DQ; "x"]; Held := {[Insert]}; WithGrant := ∅ |}.
Proof. vm_compute. reflexivity. Qed.

(** * Lemmas on statements *)










(** The privilege of an aggregate is not among those printed: revoked from all,
    granted to nobody. *)
Lemma aggregate_grants_lost (env : print_env) (owner grantee : string) :
  let acl := {| Grantee := grantee; Held := {[Execute]}; WithGrant := ∅ |} in
  let obj := {| Privileges := [acl]; ObjectType := "AGGREGATE"; Owner := owner; Comment := ""; SecurityLabelProvider := ""; SecurityLabel := "" |} in
  owner ≠ "" →
  GetPrivilegesStatements env obj "public.agg(integer)" "AGGREGATE" None =
    nl2 +:+ Join ["REVOKE ALL ON FUNCTION public.agg(integer) FROM PUBLIC;";
                  cat ["REVOKE ALL ON FUNCTION public.agg(integer) FROM "; getMappedRole env owner; ";"]] nl.
Proof. intros acl obj Hne. unfold GetPrivilegesStatements. cbn. by rewrite bool_decide_true. Qed.

(** * Lemmas on grouping *)

(** Every object's rows stand together. *)
Fixpoint contiguous (l : list UniqueID) : Prop :=
  match l with
  | [] => True
  | u :: l' => (u ∈ l' → hd_error l' = Some u) ∧ contiguous l'
  end.
#[export] Instance contiguous_dec l : Decision (contiguous l).
Proof. induction l; simpl; apply _. Defined.

(** The server sorts the rows of one catalogue table by object. *)
Lemma sorted_contiguous l :
  StronglySorted (λ u v, ClassID u = ClassID v ∧ (uid_Oid u ≤ uid_Oid v)%Z) l → contiguous l.
Proof.
  induction 1 as [|u l Hl IH Hu]; [done|]. split; [|done]. intros Hin. destruct l as [|v l]; [by apply elem_of_nil in Hin|].
  simpl. f_equal. apply elem_of_cons in Hin as [->|Hin]; [done|].
  apply Forall_cons in Hu as [[Hc Hle] _]. apply StronglySorted_inv in Hl as [_ Hv].
  rewrite Forall_forall in Hv. destruct (Hv u Hin) as [_ Hle']. destruct u, v. simpl in *. f_equal; [done|lia].
Qed.

Section grouping_lemmas.
Context `{SortSlice} (env : print_env).
Implicit Types (results : list MetadataQueryStruct).

Definition rows_of (u : UniqueID) results : list MetadataQueryStruct := filter (λ r, mq_UniqueID r = u) results.
(** What the map should hold for an object: the attributes of its first row and
    the entries of all its rows, sorted by grantee. *)
Definition reference_metadata (u : UniqueID) results : option ObjectMetadata :=
  match rows_of u results with
  | [] => None
  | (r :: _) as rows => Some
      {| Privileges := sortACLs (omap (row_acl env) rows); ObjectType := mq_ObjectType r; Owner := mq_Owner r;
         Comment := mq_Comment r; SecurityLabelProvider := mq_SecurityLabelProvider r; SecurityLabel := mq_SecurityLabel r |}
  end.

Definition add_rows (md : ObjectMetadata) (rows : list MetadataQueryStruct) : ObjectMetadata :=
  foldl (λ md r, add_acl md (row_acl env r)) md rows.
Definition finish_metadata (st : MetadataMap * UniqueID * ObjectMetadata) : MetadataMap := <[st.1.2 := sort_metadata st.2]> st.1.1.

Lemma add_rows_privileges md rows :
  sort_metadata (add_rows md rows) =
  {| Privileges := sortACLs (Privileges md ++ omap (row_acl env) rows); ObjectType := ObjectType md; Owner := Owner md;
     Comment := Comment md; SecurityLabelProvider := SecurityLabelProvider md; SecurityLabel := SecurityLabel md |}.
Proof.
  revert md. induction rows as [|r rows IH]; intros md; cbn [add_rows foldl].
  { unfold sort_metadata. by rewrite app_nil_r. }
  fold (add_rows (add_acl md (row_acl env r)) rows). rewrite IH. unfold add_acl. cbn.
  destruct (row_acl env r); cbn [option_list]; by rewrite <- app_assoc.
Qed.

Lemma metadata_fold results M cur md :
  cur ≠ noUniqueID → Forall (λ r, mq_UniqueID r ≠ noUniqueID) results →
  contiguous (cur :: (mq_UniqueID <$> results)) → ∀ u,
  finish_metadata (foldl (metadata_step env) (M, cur, md) results) !! u =
    if decide (u = cur) then Some (sort_metadata (add_rows md (rows_of cur results)))
    else match reference_metadata u results with Some md' => Some md' | None => M !! u end.
Proof.
  revert M cur md. induction results as [|r results IH]; intros M cur md Hcur Hids [Hhead Hcont] u.
  { unfold finish_metadata. cbn. case_decide as Hu; [rewrite Hu; apply lookup_insert_eq|by apply lookup_insert_ne]. }
  apply Forall_cons in Hids as [Hr Hids]. cbn [foldl]. unfold metadata_step at 2.
  destruct (decide (mq_UniqueID r = cur)) as [Heq|Hne].
  - rewrite bool_decide_false by tauto. rewrite IH; [|done|done|by rewrite <- Heq].
    unfold reference_metadata, rows_of. rewrite filter_cons_True by done. rewrite filter_cons.
    case_decide as Hu; [done|]. by rewrite decide_False by congruence.
  - rewrite !bool_decide_true by done. rewrite IH by done.
    assert (Hgone : rows_of cur (r :: results) = []).
    { apply list_filter_nil_iff || (unfold rows_of; apply elem_of_nil_inv; intros x [Hx Hin]%list_elem_of_filter;
        apply (list_elem_of_fmap_2 mq_UniqueID) in Hin; rewrite Hx in Hin; apply Hhead in Hin; cbn in Hin; congruence). }
    rewrite Hgone. cbn [add_rows foldl]. unfold reference_metadata, rows_of. rewrite filter_cons.
    destruct (decide (u = cur)) as [->|Hu].
    + rewrite !decide_False by congruence. unfold rows_of in Hgone. rewrite filter_cons_False in Hgone by done.
      by rewrite Hgone, lookup_insert_eq.
    + rewrite lookup_insert_ne by done. destruct (decide (u = mq_UniqueID r)) as [->|Hur].
      * rewrite decide_True by done. fold (add_rows (start_metadata r) (r :: filter (λ r0, mq_UniqueID r0 = mq_UniqueID r) results)).
        change (add_rows (add_acl (start_metadata r) (row_acl env r)) ?l) with (add_rows (start_metadata r) (r :: l)).
        by rewrite add_rows_privileges.
      * rewrite decide_False by congruence. done.
Qed.

(** C17: grouping the rows in one pass equals looking up each object's rows
    separately, when the rows of an object stand together as the query's order
    guarantees and no row has the zero id. *)
Theorem ConstructMetadataMap_groups results
    (Hids : Forall (λ r, mq_UniqueID r ≠ noUniqueID) results)
    (Hcont : contiguous (mq_UniqueID <$> results)) (u : UniqueID) :
  ConstructMetadataMap env results !! u = reference_metadata u results.
Proof.
  destruct results as [|r results]; [apply lookup_empty|].
  apply Forall_cons in Hids as [Hr Hids]. unfold ConstructMetadataMap. cbn [foldl].
  unfold metadata_step at 2. rewrite bool_decide_true by done. rewrite bool_decide_false by tauto.
  pose proof (metadata_fold results ∅ (mq_UniqueID r) (add_acl (start_metadata r) (row_acl env r)) Hr Hids Hcont u) as Hfold.
  unfold finish_metadata in Hfold. destruct (foldl _ _ _) as [[M cur] md]. cbn [fst snd] in Hfold. rewrite Hfold. clear Hfold.
  unfold reference_metadata at 2. unfold rows_of at 2. rewrite filter_cons. case_decide as Hu.
  - rewrite decide_True by done. rewrite <- Hu.
    change (add_rows (add_acl (start_metadata r) (row_acl env r)) ?l) with (add_rows (start_metadata r) (r :: l)).
    by rewrite add_rows_privileges.
  - rewrite decide_False by congruence. unfold reference_metadata, rows_of.
    by destruct (filter _ results).
Qed.
End grouping_lemmas.

Definition meta_row (oid : Z) (owner acl : string) : MetadataQueryStruct :=
  {| mq_UniqueID := {| ClassID := 1259; uid_Oid := oid |}; mq_Name := "t"; mq_ObjectType := "TABLE"; mq_Schema := "public";
     mq_Owner := owner; mq_Comment := ""; mq_Privileges := {| NS_String := acl; NS_Valid := true |}; mq_Kind := "";
     mq_SecurityLabel := ""; mq_SecurityLabelProvider := "" |}.
Definition sample_rows : list MetadataQueryStruct :=
  [meta_row 7 "joe" "joe=r/joe"; meta_row 7 "joe" "ann=w*/joe"; meta_row 9 "ann" "=r/ann"].

Lemma ConstructMetadataMap_groups_witness :
  Grantee <$> default [] (Privileges <$> reference_metadata sample_env {| ClassID := 1259; uid_Oid := 7 |} sample_rows) = ["ann"; "joe"] ∧
  ConstructMetadataMap sample_env sample_rows !! {| ClassID := 1259; uid_Oid := 7 |} =
    reference_metadata sample_env {| ClassID := 1259; uid_Oid := 7 |} sample_rows.
Proof.
  split; [vm_compute; reflexivity|]. apply ConstructMetadataMap_groups; apply (bool_decide_unpack _); vm_compute; exact I.
Defined.
