(* ===== verification/Functions.v ===== *)
(** Functions, aggregates, casts, extensions, languages, transforms,
    conversions and foreign-data objects: their structures and the
    post-processing of their rows ([meta/builtin/queries_functions.go]) and
    their printers ([predata_functions.go]). A printer yields the pieces it
    writes; running it is [go_fold print_piece]. *)
From S2P Require Import Prelude Regexp Utils Toc Version Scheduler Dependencies Queries Acl.

(** * Writing *)

Definition when {A} (b : bool) (l : list A) : list A := if b then l else [].
Definition non_empty (s : string) : bool := bool_decide (s ≠ "").
Definition nonzero (z : Z) : bool := negb (z =? 0)%Z.
Definition tab : string := chr TAB.

(** One printed statement after the other. *)
Definition for_each {A} (l : list A) (print : A → go (list piece)) : go (list piece) :=
  let! parts := go_map print l in Ok (concat parts).

(** A [float32] is a number of the form [m * 2 ^ e]; its shortest decimal text
    is the language's. *)
Record float32 := { mant : Z; expo : Z }.
Definition float_is (f : float32) (n : Z) : bool :=
  if (0 <=? expo f)%Z then (mant f * 2 ^ expo f =? n)%Z else (mant f =? n * 2 ^ (- expo f))%Z.
Class FloatText := { float_text : float32 → string }.

(** Object identifiers of the catalogue tables ([dependencies.go]). *)
Definition PG_AGGREGATE_OID : Z := 1255.
Definition PG_CAST_OID : Z := 2605.
Definition PG_CLASS_OID : Z := 1259.
Definition PG_CONVERSION_OID : Z := 2607.
Definition PG_EXTENSION_OID : Z := 3079.
Definition PG_FOREIGN_DATA_WRAPPER_OID : Z := 2328.
Definition PG_FOREIGN_SERVER_OID : Z := 1417.
Definition PG_LANGUAGE_OID : Z := 2612.
Definition PG_TRANSFORM_OID : Z := 3576.
Definition PG_USER_MAPPING_OID : Z := 1418.
Definition PG_STATISTIC_EXT_OID : Z := 3381.
Definition oid_of (class oid : Z) : UniqueID := {| ClassID := class; uid_Oid := oid |}.

(** * Functions *)

Record Function_ := {
  f_Oid : Z; f_Schema : string; f_Name : string; ReturnsSet : bool; FunctionBody : string; BinaryPath : string;
  f_Arguments : NullString; f_IdentArgs : NullString; ResultType : NullString; Volatility : string;
  IsStrict : bool; IsLeakProof : bool; IsSecurityDefiner : bool; Config : string; Cost : float32; NumRows : float32;
  DataAccess : string; f_Language : string; f_Kind : string; PlannerSupport : string; IsWindow : bool;
  f_ExecLocation : string; f_Parallel : string; TransformTypes : string
}.
Definition Function_entry (f : Function_) : string * MetadataEntry :=
  ("predata", new_entry (f_Schema f) (cat [f_Name f; "("; NS_String (f_IdentArgs f); ")"]) "FUNCTION" "").
Definition Function_FQN (f : Function_) : string := cat [f_Schema f; "."; f_Name f; "("; NS_String (f_IdentArgs f); ")"].
#[export] Instance Function_object : TOCObjectWithMetadata Function_ :=
  {| object_entry := Function_entry; object_FQN := Function_FQN; is_procedure f := bool_decide (f_Kind f = "p") |}.
Definition Function_id (f : Function_) : UniqueID := oid_of PG_PROC_OID (f_Oid f).
#[export] Instance Function_sortable : Sortable Function_ := {| sortable_FQN := Function_FQN; GetUniqueID := Function_id |}.

(** ** Configuration settings *)

Definition UnescapeDoubleQuote (value : string) : string :=
  if bool_decide (1 < len value) && bool_decide (String.get 0 value = Some DQ)
     && bool_decide (String.get (len value - 1) value = Some DQ)
  then Replace (String.substring 1 (len value - 2) value) (chr DQ +:+ chr DQ) (chr DQ) None
  else value.

Definition list_gucs : list string :=
  ["temp_tablespaces"; "session_preload_libraries"; "shared_preload_libraries"; "local_preload_libraries"; "search_path"].
Definition single_quoted (s : string) : string := cat [chr SQ; s; chr SQ].
Definition QuoteGUCValue (name value : string) : string :=
  if bool_decide (name ∈ list_gucs) then
    Join ((λ item, single_quoted (UnescapeDoubleQuote (Trim item " "))) <$> Split value COMMA) ", "
  else single_quoted value.

Definition setToNameValuePattern : re :=
  Cats [Bol; Lit "SET "; Cap 1 (Star (Chr any)); Lit " TO "; Cap 2 (Star (Chr any)); Eol].
Definition with_config (f : Function_) (config : string) : Function_ :=
  {| f_Oid := f_Oid f; f_Schema := f_Schema f; f_Name := f_Name f; ReturnsSet := ReturnsSet f; FunctionBody := FunctionBody f;
     BinaryPath := BinaryPath f; f_Arguments := f_Arguments f; f_IdentArgs := f_IdentArgs f; ResultType := ResultType f;
     Volatility := Volatility f; IsStrict := IsStrict f; IsLeakProof := IsLeakProof f; IsSecurityDefiner := IsSecurityDefiner f;
     Config := config; Cost := Cost f; NumRows := NumRows f; DataAccess := DataAccess f; f_Language := f_Language f;
     f_Kind := f_Kind f; PlannerSupport := PlannerSupport f; IsWindow := IsWindow f; f_ExecLocation := f_ExecLocation f;
     f_Parallel := f_Parallel f; TransformTypes := TransformTypes f |}.
(** [PostProcessFunctionConfigs]; the functions are changed in place up to the
    first one whose setting is not understood, and the caller gives up then. *)
Definition post_process_config (function : Function_) : go Function_ :=
  if bool_decide (Config function = "") then Ok function
  else
    match FindStringSubmatch setToNameValuePattern (Config function) with
    | None => Err "Function config does not match syntax expectations."
    | Some captures =>
        let gucName := ToLower (captures 1) in
        Ok (with_config function (cat ["SET "; gucName; " TO "; QuoteGUCValue gucName (captures 2)]))
    end.
Definition PostProcessFunctionConfigs (allFunctions : list Function_) : go (list Function_) :=
  go_map post_process_config allFunctions.

Definition with_window (f : Function_) : Function_ :=
  {| f_Oid := f_Oid f; f_Schema := f_Schema f; f_Name := f_Name f; ReturnsSet := ReturnsSet f; FunctionBody := FunctionBody f;
     BinaryPath := BinaryPath f; f_Arguments := f_Arguments f; f_IdentArgs := f_IdentArgs f; ResultType := ResultType f;
     Volatility := Volatility f; IsStrict := IsStrict f; IsLeakProof := IsLeakProof f; IsSecurityDefiner := IsSecurityDefiner f;
     Config := Config f; Cost := Cost f; NumRows := NumRows f; DataAccess := DataAccess f; f_Language := f_Language f;
     f_Kind := f_Kind f; PlannerSupport := PlannerSupport f; IsWindow := true; f_ExecLocation := f_ExecLocation f;
     f_Parallel := f_Parallel f; TransformTypes := TransformTypes f |}.

(** ** Arguments of functions before version 5 *)

Record FuncArg := { fa_Oid : Z; fa_Type : string; fa_Name : string; fa_Mode : string }.
Definition func_arg_text (a : FuncArg) : string :=
  let name := if bool_decide (fa_Name a = chr DQ +:+ chr DQ) then "" else fa_Name a in
  let modeStr := if bool_decide (fa_Mode a = "b") then "INOUT " else if bool_decide (fa_Mode a = "o") then "OUT "
                 else if bool_decide (fa_Mode a = "v") then "VARIADIC " else "" in
  cat [modeStr; if non_empty name then name +:+ " " else name; fa_Type a].
Record args_state := {
  argMap : gmap Z string; tableArgMap : gmap Z string; lastOid : Z; arguments : list string; tableArguments : list string
}.
Definition store_args (st : args_state) : args_state :=
  {| argMap := <[lastOid st := Join (arguments st) ", "]> (argMap st);
     tableArgMap := <[lastOid st := Join (tableArguments st) ", "]> (tableArgMap st);
     lastOid := lastOid st; arguments := []; tableArguments := [] |}.
Definition arg_step (st : args_state) (a : FuncArg) : args_state :=
  let st := if bool_decide (fa_Oid a ≠ lastOid st ∧ lastOid st ≠ 0%Z) then store_args st else st in
  let is_table := bool_decide (fa_Mode a = "t") in
  {| argMap := argMap st; tableArgMap := tableArgMap st; lastOid := fa_Oid a;
     arguments := arguments st ++ when (negb is_table) [func_arg_text a];
     tableArguments := tableArguments st ++ when is_table [func_arg_text a] |}.
Definition function_args (rows : list FuncArg) : gmap Z string * gmap Z string :=
  let st := store_args (foldl arg_step {| argMap := ∅; tableArgMap := ∅; lastOid := 0; arguments := []; tableArguments := [] |} rows) in
  (argMap st, tableArgMap st).

Definition valid_string (s : string) : NullString := {| NS_String := s; NS_Valid := true |}.
(** The functions of a server before version 5 with their arguments and
    results filled in. *)
Definition fill_function (args tableArgs : gmap Z string) (returns : gmap Z (bool * NullString)) (f : Function_) : Function_ :=
  let oid := f_Oid f in
  let arg := valid_string (default "" (args !! oid)) in
  let '(set, result) := default (false, {| NS_String := ""; NS_Valid := false |}) (returns !! oid) in
  let table := default "" (tableArgs !! oid) in
  {| f_Oid := oid; f_Schema := f_Schema f; f_Name := f_Name f; ReturnsSet := set; FunctionBody := FunctionBody f;
     BinaryPath := BinaryPath f; f_Arguments := arg; f_IdentArgs := arg;
     ResultType := if non_empty table then valid_string (cat ["TABLE("; table; ")"]) else result;
     Volatility := Volatility f; IsStrict := IsStrict f; IsLeakProof := IsLeakProof f; IsSecurityDefiner := IsSecurityDefiner f;
     Config := Config f; Cost := Cost f; NumRows := NumRows f; DataAccess := DataAccess f; f_Language := f_Language f;
     f_Kind := f_Kind f; PlannerSupport := PlannerSupport f; IsWindow := IsWindow f; f_ExecLocation := f_ExecLocation f;
     f_Parallel := f_Parallel f; TransformTypes := TransformTypes f |}.

(** ** The structures of the other objects *)

Record Aggregate := {
  a_Oid : Z; a_Schema : string; a_Name : string; a_Arguments : NullString; a_IdentArgs : NullString;
  TransitionFunction : Z; PreliminaryFunction : Z; CombineFunction : Z; SerialFunction : Z; DeserialFunction : Z;
  FinalFunction : Z; FinalFuncExtra : bool; SortOperator : string; SortOperatorSchema : string; Hypothetical : bool;
  a_Kind : string; TransitionDataType : string; TransitionDataSize : Z; InitialValue : string; InitValIsNull : bool;
  IsOrdered : bool; MTransitionFunction : Z; MInverseTransitionFunction : Z; MTransitionDataType : string;
  MTransitionDataSize : Z; MFinalFunction : Z; MFinalFuncExtra : bool; MInitialValue : string; MInitValIsNull : bool;
  Finalmodify : string; Mfinalmodify : string; a_Parallel : string
}.
Definition ident_arguments (a : Aggregate) : string :=
  if non_empty (NS_String (a_IdentArgs a)) then NS_String (a_IdentArgs a) else "*".
Definition Aggregate_entry (a : Aggregate) : string * MetadataEntry :=
  ("predata", new_entry (a_Schema a) (cat [a_Name a; "("; ident_arguments a; ")"]) "AGGREGATE" "").
Definition Aggregate_FQN (a : Aggregate) : string := cat [a_Schema a; "."; a_Name a; "("; ident_arguments a; ")"].
#[export] Instance Aggregate_object : TOCObjectWithMetadata Aggregate := plain_object Aggregate_entry Aggregate_FQN.
Definition Aggregate_id (a : Aggregate) : UniqueID := oid_of PG_AGGREGATE_OID (a_Oid a).

Record FunctionInfo := {
  fi_Oid : Z; fi_Name : string; fi_Schema : string; QualifiedName : string; fi_Arguments : NullString;
  fi_IdentArgs : NullString; IsInternal : bool
}.
Definition noFunctionInfo : FunctionInfo :=
  {| fi_Oid := 0; fi_Name := ""; fi_Schema := ""; QualifiedName := ""; fi_Arguments := {| NS_String := ""; NS_Valid := false |};
     fi_IdentArgs := {| NS_String := ""; NS_Valid := false |}; IsInternal := false |}.
Definition FunctionInfo_entry (i : FunctionInfo) : string * MetadataEntry :=
  ("predata", new_entry (fi_Schema i) (cat [fi_Name i; "("; NS_String (fi_IdentArgs i); ")"]) "FUNCTION" "").
Definition FunctionInfo_FQN (i : FunctionInfo) : string := cat [QualifiedName i; "("; NS_String (fi_IdentArgs i); ")"].
#[export] Instance FunctionInfo_object : TOCObjectWithMetadata FunctionInfo := plain_object FunctionInfo_entry FunctionInfo_FQN.
Abbreviation FunctionInfoMap := (gmap Z FunctionInfo).
(** [funcInfoMap[oid]]. *)
Definition info_of (m : FunctionInfoMap) (oid : Z) : FunctionInfo := default noFunctionInfo (m !! oid).
Definition qualified (m : FunctionInfoMap) (oid : Z) : string := QualifiedName (info_of m oid).

(** [GetFunctionOidToInfoMap] on its rows; [args] gives the arguments of a
    server before version 5. *)
Definition info_step (funcMap : FunctionInfoMap) (i : FunctionInfo) : FunctionInfoMap :=
  if NS_Valid (fi_Arguments i) && NS_Valid (fi_IdentArgs i) then
    <[fi_Oid i := {| fi_Oid := fi_Oid i; fi_Name := fi_Name i; fi_Schema := fi_Schema i;
       QualifiedName := MakeFQN (fi_Schema i) (fi_Name i); fi_Arguments := fi_Arguments i; fi_IdentArgs := fi_IdentArgs i;
       IsInternal := bool_decide (fi_Schema i = "pg_catalog") || IsInternal i |}]> funcMap
  else funcMap.
Definition fill_info (args : gmap Z string) (i : FunctionInfo) : FunctionInfo :=
  let arg := valid_string (default "" (args !! fi_Oid i)) in
  {| fi_Oid := fi_Oid i; fi_Name := fi_Name i; fi_Schema := fi_Schema i; QualifiedName := QualifiedName i;
     fi_Arguments := arg; fi_IdentArgs := arg; IsInternal := IsInternal i |}.
Definition info_map (args : option (gmap Z string)) (results : list FunctionInfo) : FunctionInfoMap :=
  foldl info_step ∅ (match args with Some a => fill_info a <$> results | None => results end).

Record Cast := {
  c_Oid : Z; SourceTypeFQN : string; TargetTypeFQN : string; c_FunctionOid : Z; FunctionSchema : string;
  FunctionName : string; FunctionArgs : string; CastContext : string; CastMethod : string
}.
Definition Cast_FQN (c : Cast) : string := cat ["("; SourceTypeFQN c; " AS "; TargetTypeFQN c; ")"].
Definition Cast_entry (c : Cast) : string * MetadataEntry :=
  ("predata", new_entry (if bool_decide (CastMethod c = "f") then FunctionSchema c else "pg_catalog") (Cast_FQN c) "CAST" "").
#[export] Instance Cast_object : TOCObjectWithMetadata Cast := plain_object Cast_entry Cast_FQN.
Definition Cast_id (c : Cast) : UniqueID := oid_of PG_CAST_OID (c_Oid c).

Record Extension := { ext_Oid : Z; ext_Name : string; ext_Schema : string }.
Definition Extension_entry (e : Extension) : string * MetadataEntry := ("predata", new_entry "" (ext_Name e) "EXTENSION" "").
#[export] Instance Extension_object : TOCObjectWithMetadata Extension := plain_object Extension_entry ext_Name.
Definition Extension_id (e : Extension) : UniqueID := oid_of PG_EXTENSION_OID (ext_Oid e).

Record ProceduralLanguage := {
  pl_Oid : Z; pl_Name : string; pl_Owner : string; IsPl : bool; PlTrusted : bool; Handler : Z; Inline : Z; pl_Validator : Z
}.
Definition ProceduralLanguage_entry (pl : ProceduralLanguage) : string * MetadataEntry :=
  ("predata", new_entry "" (pl_Name pl) "LANGUAGE" "").
#[export] Instance ProceduralLanguage_object : TOCObjectWithMetadata ProceduralLanguage := plain_object ProceduralLanguage_entry pl_Name.
Definition ProceduralLanguage_id (pl : ProceduralLanguage) : UniqueID := oid_of PG_LANGUAGE_OID (pl_Oid pl).

Record Transform := {
  tr_Oid : Z; TypeNamespace : string; TypeName : string; LanguageName : string; FromSQLFunc : Z; ToSQLFunc : Z
}.
Definition Transform_entry (_ : Transform) : string * MetadataEntry := ("predata", new_entry "" "" "TRANSFORM" "").
Definition Transform_FQN (t : Transform) : string := cat ["FOR "; TypeNamespace t; "."; TypeName t; " LANGUAGE "; LanguageName t].
#[export] Instance Transform_object : TOCObjectWithMetadata Transform := plain_object Transform_entry Transform_FQN.
Definition Transform_id (t : Transform) : UniqueID := oid_of PG_TRANSFORM_OID (tr_Oid t).

Record Conversion := {
  cv_Oid : Z; cv_Schema : string; cv_Name : string; ForEncoding : string; ToEncoding : string; ConversionFunction : string; cv_IsDefault : bool
}.
Definition Conversion_entry (c : Conversion) : string * MetadataEntry :=
  ("predata", new_entry (cv_Schema c) (cv_Name c) "CONVERSION" "").
Definition Conversion_FQN (c : Conversion) : string := MakeFQN (cv_Schema c) (cv_Name c).
#[export] Instance Conversion_object : TOCObjectWithMetadata Conversion := plain_object Conversion_entry Conversion_FQN.
Definition Conversion_id (c : Conversion) : UniqueID := oid_of PG_CONVERSION_OID (cv_Oid c).

Record ForeignDataWrapper := { fdw_Oid : Z; fdw_Name : string; fdw_Handler : Z; fdw_Validator : Z; fdw_Options : string }.
Definition ForeignDataWrapper_entry (f : ForeignDataWrapper) : string * MetadataEntry :=
  ("predata", new_entry "" (fdw_Name f) "FOREIGN DATA WRAPPER" "").
#[export] Instance ForeignDataWrapper_object : TOCObjectWithMetadata ForeignDataWrapper := plain_object ForeignDataWrapper_entry fdw_Name.
Definition ForeignDataWrapper_id (f : ForeignDataWrapper) : UniqueID := oid_of PG_FOREIGN_DATA_WRAPPER_OID (fdw_Oid f).

Record ForeignServer := {
  fs_Oid : Z; fs_Name : string; fs_Type : string; fs_Version : string; fs_ForeignDataWrapper : string; fs_Options : string
}.
Definition ForeignServer_entry (f : ForeignServer) : string * MetadataEntry :=
  ("predata", new_entry "" (fs_Name f) "FOREIGN SERVER" "").
#[export] Instance ForeignServer_object : TOCObjectWithMetadata ForeignServer := plain_object ForeignServer_entry fs_Name.
Definition ForeignServer_id (f : ForeignServer) : UniqueID := oid_of PG_FOREIGN_SERVER_OID (fs_Oid f).

Record UserMapping := { um_Oid : Z; um_User : string; um_Server : string; um_Options : string }.
Definition UserMapping_FQN (u : UserMapping) : string := cat [um_User u; " ON "; um_Server u].
Definition UserMapping_entry (u : UserMapping) : string * MetadataEntry :=
  ("predata", new_entry "" (UserMapping_FQN u) "USER MAPPING" "").
#[export] Instance UserMapping_object : TOCObjectWithMetadata UserMapping := plain_object UserMapping_entry UserMapping_FQN.
Definition UserMapping_id (u : UserMapping) : UniqueID := oid_of PG_USER_MAPPING_OID (um_Oid u).

Record StatisticExt := {
  se_Oid : Z; se_Name : string; se_Namespace : string; se_Owner : string; se_TableSchema : string; se_TableName : string; se_Definition : string
}.
Definition StatisticExt_entry (s : StatisticExt) : string * MetadataEntry :=
  ("postdata", new_entry (se_Namespace s) (se_Name s) "STATISTICS" (MakeFQN (se_TableSchema s) (se_TableName s))).
Definition StatisticExt_FQN (s : StatisticExt) : string := cat [se_Namespace s; "."; se_Name s].
#[export] Instance StatisticExt_object : TOCObjectWithMetadata StatisticExt := plain_object StatisticExt_entry StatisticExt_FQN.
Definition StatisticExt_id (s : StatisticExt) : UniqueID := oid_of PG_STATISTIC_EXT_OID (se_Oid s).

(** * Printers *)

Section printers.
Context `{SemverLib} `{FloatText} (env : print_env).

(** An object's statement, its entry, and the statements of its metadata. *)
Definition print_object {T} `{TOCObjectWithMetadata T} (obj : T) (texts : list string) (metadata : ObjectMetadata) (owningTable : string)
    : go (list piece) :=
  let! more := PrintObjectMetadata env metadata obj owningTable in
  Ok (record obj texts :: more).

Definition PrintFunctionBodyOrPath (funcDef : Function_) : string :=
  if non_empty (BinaryPath funcDef) && negb (bool_decide (BinaryPath funcDef = "-"))
  then cat [nl; single_quoted (BinaryPath funcDef); ", "; single_quoted (FunctionBody funcDef); nl]
  else cat [nl; DollarQuoteString (FunctionBody funcDef); nl].

(** A [switch] on a code with no default. *)
Definition switch (cases : list (string * string)) (code : string) : list string :=
  match filter (λ c, c.1 = code) cases with c :: _ => [c.2] | [] => [] end.

Definition parallel_cases : list (string * string) := [("u", "UNSAFE"); ("s", "SAFE"); ("r", "RESTRICTED")].
Definition PrintFunctionModifiers (funcDef : Function_) : go (list string) :=
  let! v7 := gpdb_or_family (srcDBVersion env) "7" in
  let isInternalOrC := bool_decide (f_Language funcDef = "c") || bool_decide (f_Language funcDef = "internal") in
  let default_cost := (negb isInternalOrC && float_is (Cost funcDef) 100) || (isInternalOrC && float_is (Cost funcDef) 1)
                      || float_is (Cost funcDef) 0 in
  let texts :=
    switch [("c", " CONTAINS SQL"); ("m", " MODIFIES SQL DATA"); ("n", " NO SQL"); ("r", " READS SQL DATA")] (DataAccess funcDef) ++
    switch [("i", " IMMUTABLE"); ("s", " STABLE")] (Volatility funcDef) ++
    switch [("m", " EXECUTE ON MASTER"); ("c", " EXECUTE ON COORDINATOR"); ("s", " EXECUTE ON ALL SEGMENTS");
            ("i", " EXECUTE ON INITPLAN")] (f_ExecLocation funcDef) ++
    when (IsWindow funcDef || bool_decide (f_Kind funcDef = "w")) [" WINDOW"] ++
    when (IsStrict funcDef) [" STRICT"] ++
    when (IsLeakProof funcDef) [" LEAKPROOF"] ++
    when (IsSecurityDefiner funcDef) [" SECURITY DEFINER"] ++
    when (v7 : bool)
      (when (non_empty (TransformTypes funcDef)) [cat [nl; "TRANSFORM "; TransformTypes funcDef; nl]] ++
       when (negb (bool_decide (PlannerSupport funcDef = "-"))) [cat [nl; "SUPPORT "; PlannerSupport funcDef]]) ++
    when (negb default_cost) [cat [nl; "COST "; float_text (Cost funcDef)]] ++
    when (ReturnsSet funcDef && negb (float_is (NumRows funcDef) 0) && negb (float_is (NumRows funcDef) 1000))
      [cat [nl; "ROWS "; float_text (NumRows funcDef)]] ++
    when (non_empty (Config funcDef)) [cat [nl; Config funcDef]] in
  if (v7 : bool) && negb (bool_decide (f_Kind funcDef = "p")) then
    match switch parallel_cases (f_Parallel funcDef) with
    | [] => Fatal ("unrecognized proparallel value for function " +:+ Function_FQN funcDef)
    | p => Ok (texts ++ ((λ t, " PARALLEL " +:+ t) <$> p))
    end
  else Ok texts.

Definition PrintCreateFunctionStatement (funcDef : Function_) (funcMetadata : ObjectMetadata) : go (list piece) :=
  let funcFQN := MakeFQN (f_Schema funcDef) (f_Name funcDef) in
  let! v7 := gpdb_or_family (srcDBVersion env) "7" in
  let head :=
    if (v7 : bool) && bool_decide (f_Kind funcDef = "p")
    then cat [nl2; "CREATE PROCEDURE "; funcFQN; "("; NS_String (f_Arguments funcDef); ") AS"]
    else cat [nl2; "CREATE FUNCTION "; funcFQN; "("; NS_String (f_Arguments funcDef); ") RETURNS "; NS_String (ResultType funcDef); " AS"] in
  let! modifiers := PrintFunctionModifiers funcDef in
  print_object funcDef
    ([head; PrintFunctionBodyOrPath funcDef; "LANGUAGE " +:+ f_Language funcDef] ++ modifiers ++ [";" +:+ nl]) funcMetadata "".

(** A setting of an aggregate on a line of its own. *)
Definition setting (b : bool) (parts : list string) : list string := when b [cat ([","; nl; tab] ++ parts)].
Definition modify_setting (name field value default_ : string) : go (list string) :=
  let value := if non_empty value then value else default_ in
  if bool_decide (value = default_) then Ok []
  else match switch [("r", "READ_ONLY"); ("s", "SHAREABLE"); ("w", "READ_WRITE")] value with
       | [] => Fatal (cat ["invalid "; field; " value: expected 'r', 's' or 'w', got '"; value; "'"])
       | t => Ok (setting true ([name; " = "] ++ t))
       end.
Definition aggregate_settings (aggDef : Aggregate) (funcInfoMap : FunctionInfoMap) (hypothetical : bool) : list string :=
  let func name oid := setting (nonzero oid) [name; " = "; qualified funcInfoMap oid] in
  setting (nonzero (TransitionDataSize aggDef)) ["SSPACE = "; Itoa (TransitionDataSize aggDef)] ++
  func "PREFUNC" (PreliminaryFunction aggDef) ++ func "COMBINEFUNC" (CombineFunction aggDef) ++
  func "SERIALFUNC" (SerialFunction aggDef) ++ func "DESERIALFUNC" (DeserialFunction aggDef) ++
  func "FINALFUNC" (FinalFunction aggDef) ++
  setting (FinalFuncExtra aggDef) ["FINALFUNC_EXTRA"] ++
  setting (negb (InitValIsNull aggDef)) ["INITCOND = "; single_quoted (InitialValue aggDef)] ++
  setting (non_empty (SortOperator aggDef)) ["SORTOP = "; SortOperatorSchema aggDef; "."; chr DQ; SortOperator aggDef; chr DQ] ++
  setting hypothetical ["HYPOTHETICAL"] ++
  func "MSFUNC" (MTransitionFunction aggDef) ++ func "MINVFUNC" (MInverseTransitionFunction aggDef) ++
  setting (non_empty (MTransitionDataType aggDef)) ["MSTYPE = "; MTransitionDataType aggDef] ++
  setting (nonzero (MTransitionDataSize aggDef)) ["MSSPACE = "; Itoa (MTransitionDataSize aggDef)] ++
  func "MFINALFUNC" (MFinalFunction aggDef) ++
  setting (MFinalFuncExtra aggDef) ["MFINALFUNC_EXTRA"] ++
  setting (negb (MInitValIsNull aggDef)) ["MINITCOND = "; single_quoted (MInitialValue aggDef)].
Definition PrintCreateAggregateStatement (aggDef : Aggregate) (funcInfoMap : FunctionInfoMap) (aggMetadata : ObjectMetadata) : go (list piece) :=
  let argumentsStr := if non_empty (NS_String (a_Arguments aggDef)) then NS_String (a_Arguments aggDef) else "*" in
  let! before7 := andg (IsGPDB (srcDBVersion env)) (Before (srcDBVersion env) "7") in
  let! v7 := gpdb_or_family (srcDBVersion env) "7" in
  let hypothetical := if (before7 : bool) then Hypothetical aggDef else bool_decide (a_Kind aggDef = "h") in
  let defaultFinalModify := if bool_decide (a_Kind aggDef = "o") then "w" else "r" in
  let! modify := (if (v7 : bool) then
    let! f := modify_setting "FINALFUNC_MODIFY" "aggfinalmodify" (Finalmodify aggDef) defaultFinalModify in
    let! m := modify_setting "MFINALFUNC_MODIFY" "aggmfinalmodify" (Mfinalmodify aggDef) defaultFinalModify in
    Ok (f ++ m) else Ok []) in
  let! parallel := (if non_empty (a_Parallel aggDef) then
    match switch parallel_cases (a_Parallel aggDef) with
    | [] => Fatal ("unrecognized proparallel value for function " +:+ a_Parallel aggDef)
    | p => Ok (setting true (["PARALLEL = "] ++ p))
    end else Ok []) in
  print_object aggDef
    ([cat [nl2; "CREATE "; if IsOrdered aggDef then "ORDERED " else ""; "AGGREGATE "; a_Schema aggDef; "."; a_Name aggDef;
           "("; argumentsStr; ") ("; nl];
      cat [tab; "SFUNC = "; qualified funcInfoMap (TransitionFunction aggDef); ","; nl];
      cat [tab; "STYPE = "; TransitionDataType aggDef]] ++
     aggregate_settings aggDef funcInfoMap hypothetical ++ modify ++ parallel ++ [cat [nl; ");"; nl]]) aggMetadata "".

Definition PrintCreateCastStatement (castDef : Cast) (castMetadata : ObjectMetadata) : go (list piece) :=
  let funcFQN := MakeFQN (FunctionSchema castDef) (FunctionName castDef) in
  print_object castDef
    ([cat [nl2; "CREATE CAST "; Cast_FQN castDef; nl]] ++
     switch [("i", tab +:+ "WITH INOUT"); ("b", tab +:+ "WITHOUT FUNCTION");
             ("f", cat [tab; "WITH FUNCTION "; funcFQN; "("; FunctionArgs castDef; ")"])] (CastMethod castDef) ++
     switch [("a", nl +:+ "AS ASSIGNMENT"); ("i", nl +:+ "AS IMPLICIT")] (CastContext castDef) ++ [";"]) castMetadata "".

Definition PrintCreateExtensionStatements (extensionDefs : list Extension) (extensionMetadata : MetadataMap) : go (list piece) :=
  for_each extensionDefs (λ e, print_object e
    [cat [nl2; "SET search_path="; ext_Schema e; ",pg_catalog;"; nl; "CREATE EXTENSION IF NOT EXISTS "; ext_Name e;
          " WITH SCHEMA "; ext_Schema e; ";"; nl; "SET search_path=pg_catalog;"]]
    (metadata_of extensionMetadata (Extension_id e)) "").

(** The support functions of the languages, and the others. *)
Definition is_lang_func (procLangs : list ProceduralLanguage) (f : Function_) : bool :=
  existsb (λ pl, bool_decide (f_Oid f = Handler pl) || bool_decide (f_Oid f = Inline pl) || bool_decide (f_Oid f = pl_Validator pl)) procLangs.
Definition lang_func_step (funcDefs : list Function_) (m : gmap Z bool) (pl : ProceduralLanguage) : gmap Z bool :=
  foldl (λ m f, <[f_Oid f := default false (m !! f_Oid f) || bool_decide (f_Oid f = Handler pl)
    || bool_decide (f_Oid f = Inline pl) || bool_decide (f_Oid f = pl_Validator pl)]> m) m funcDefs.
Definition ExtractLanguageFunctions (funcDefs : list Function_) (procLangs : list ProceduralLanguage) : list Function_ * list Function_ :=
  let isLangFuncMap : gmap Z bool := foldl (lang_func_step funcDefs) ∅ procLangs in
  (filter (λ f, default false (isLangFuncMap !! f_Oid f) = true) funcDefs,
   filter (λ f, default false (isLangFuncMap !! f_Oid f) = false) funcDefs).

(** The owner of a language's support function is printed as it is. *)
Definition alter_owner (info : FunctionInfo) (owner : string) : string :=
  cat [nl; "ALTER FUNCTION "; QualifiedName info; "("; NS_String (fi_Arguments info); ") OWNER TO "; owner; ";"].
Definition print_language (funcInfoMap : FunctionInfoMap) (procLangMetadata : MetadataMap) (pl : ProceduralLanguage) : go (list piece) :=
  let! v6 := gpdb_or_family (srcDBVersion env) "6" in
  let support := [(" HANDLER ", Handler pl); (" INLINE ", Inline pl); (" VALIDATOR ", pl_Validator pl)] in
  let used := filter (λ s, nonzero s.2 = true) support in
  let paramsStr := cat ((λ s, s.1 +:+ qualified funcInfoMap s.2) <$> used) in
  let alterStr := cat ((λ s, alter_owner (info_of funcInfoMap s.2) (pl_Owner pl)) <$> used) in
  let! more := PrintObjectMetadata env (metadata_of procLangMetadata (ProceduralLanguage_id pl)) pl "" in
  Ok ([record pl ([nl2 +:+ "CREATE "] ++ when (v6 : bool) ["OR REPLACE "] ++ when (PlTrusted pl) ["TRUSTED "] ++
                  ["PROCEDURAL LANGUAGE " +:+ pl_Name pl; paramsStr +:+ ";"]);
       record pl [alterStr]] ++ more).
Definition PrintCreateLanguageStatements (procLangs : list ProceduralLanguage) (funcInfoMap : FunctionInfoMap)
    (procLangMetadata : MetadataMap) : go (list piece) :=
  for_each procLangs (print_language funcInfoMap procLangMetadata).

Definition PrintCreateTransformStatement (transform : Transform) (funcInfoMap : FunctionInfoMap) (transformMetadata : ObjectMetadata) : go (list piece) :=
  let TypeFQN := cat [TypeNamespace transform; "."; TypeName transform] in
  match funcInfoMap !! FromSQLFunc transform, funcInfoMap !! ToSQLFunc transform with
  | None, None => Ok []
  | from, to =>
      let statement := cat [nl2; "CREATE TRANSFORM FOR "; TypeFQN; " LANGUAGE "; LanguageName transform; " (";
        match from with Some f => "FROM SQL WITH FUNCTION " +:+ FunctionInfo_FQN f | None => "" end;
        match from, to with Some _, Some _ => ", " | _, _ => "" end;
        match to with Some f => "TO SQL WITH FUNCTION " +:+ FunctionInfo_FQN f | None => "" end; ");"] in
      print_object transform [Sprintf statement []] transformMetadata ""
  end.

Definition PrintCreateConversionStatements (conversions : list Conversion) (conversionMetadata : MetadataMap) : go (list piece) :=
  for_each conversions (λ c, print_object c
    [cat [nl2; "CREATE"; if cv_IsDefault c then " DEFAULT" else ""; " CONVERSION "; Conversion_FQN c; " FOR ";
          single_quoted (ForEncoding c); " TO "; single_quoted (ToEncoding c); " FROM "; ConversionFunction c; ";"]]
    (metadata_of conversionMetadata (Conversion_id c)) "").

Definition options_text (options : string) : list string := when (non_empty options) [cat [nl; tab; "OPTIONS ("; options; ")"]].
Definition PrintCreateForeignDataWrapperStatement (fdw : ForeignDataWrapper) (funcInfoMap : FunctionInfoMap) (fdwMetadata : ObjectMetadata) : go (list piece) :=
  print_object fdw
    ([cat [nl2; "CREATE FOREIGN DATA WRAPPER "; fdw_Name fdw]] ++
     when (nonzero (fdw_Handler fdw)) [cat [nl; tab; "HANDLER "; qualified funcInfoMap (fdw_Handler fdw)]] ++
     when (nonzero (fdw_Validator fdw)) [cat [nl; tab; "VALIDATOR "; qualified funcInfoMap (fdw_Validator fdw)]] ++
     options_text (fdw_Options fdw) ++ [";"]) fdwMetadata "".
Definition PrintCreateServerStatement (server : ForeignServer) (serverMetadata : ObjectMetadata) : go (list piece) :=
  print_object server
    ([cat [nl2; "CREATE SERVER "; fs_Name server]] ++
     when (non_empty (fs_Type server)) [cat [nl; tab; "TYPE "; single_quoted (fs_Type server)]] ++
     when (non_empty (fs_Version server)) [cat [nl; tab; "VERSION "; single_quoted (fs_Version server)]] ++
     [cat [nl; tab; "FOREIGN DATA WRAPPER "; fs_ForeignDataWrapper server]] ++
     options_text (fs_Options server) ++ [";"]) serverMetadata "".
Definition PrintCreateUserMappingStatement (mapping : UserMapping) : list piece :=
  [record mapping ([cat [nl2; "CREATE USER MAPPING FOR "; um_User mapping; nl; tab; "SERVER "; um_Server mapping]] ++
                   options_text (um_Options mapping) ++ [";"])].
End printers.

(** ** The grants on functions of extensions *)

Record objectInfo := { oi_info : FunctionInfo; oi_metadata : ObjectMetadata }.
Section extension_acls.
Context `{MapRange} `{SortSlice} (env : print_env).

(** The loop keeps one list of statements and prints all of it for each
    function. *)
Definition extension_step (st : list string * list piece) (obj : objectInfo) : list string * list piece :=
  let '(statements, printed) := st in
  let privileges := GetPrivilegesStatements env (oi_metadata obj) (FunctionInfo_FQN (oi_info obj)) "FUNCTION" None in
  if non_empty privileges then
    let statements := statements ++ [TrimSpace privileges] in
    (statements, printed ++ PrintStatements (oi_info obj) statements)
  else st.
Definition printExtensionFunctionACLs (metadataMap : MetadataMap) (funcInfoMap : FunctionInfoMap) : list piece :=
  let objects := omap (λ '(uniqueId, obj),
    (λ info, {| oi_info := info; oi_metadata := obj |}) <$> (funcInfoMap !! uid_Oid uniqueId)) (range_map 143 metadataMap) in
  (foldl extension_step ([], []) (sort_slice (λ o, FunctionInfo_FQN (oi_info o)) objects)).2.
End extension_acls.

(** * Lemmas on the printers *)

Lemma Known_for_each {A} (l : list A) (print : A → go (list piece)) : (∀ a, Known (print a)) → Known (for_each l print).
Proof.
  intros Hp ps Hps. unfold for_each in Hps. apply bind_Ok in Hps as (parts & Hparts & [= <-]).
  apply go_map_Ok in Hparts. induction Hparts as [|a p l parts Ha _ IH]; [constructor|].
  cbn [concat]. apply Forall_app. split; [by apply (Hp a)|done].
Qed.
Lemma known_print_object `{SemverLib} env {T} `{!TOCObjectWithMetadata T} `{!KnownObject T} (obj : T) texts metadata owningTable :
  Known (print_object env obj texts metadata owningTable).
Proof.
  intros ps Hps. apply bind_Ok in Hps as (more & Hmore & [= <-]).
  constructor; [apply known_record|by eapply known_PrintObjectMetadata].
Qed.
#[export] Hint Resolve Known_for_each known_print_object : pieces.

#[export] Instance Function_known : KnownObject Function_. Proof. done. Qed.
#[export] Instance Aggregate_known : KnownObject Aggregate. Proof. done. Qed.
#[export] Instance FunctionInfo_known : KnownObject FunctionInfo. Proof. done. Qed.
#[export] Instance Cast_known : KnownObject Cast. Proof. done. Qed.
#[export] Instance Extension_known : KnownObject Extension. Proof. done. Qed.
#[export] Instance ProceduralLanguage_known : KnownObject ProceduralLanguage. Proof. done. Qed.
#[export] Instance Transform_known : KnownObject Transform. Proof. done. Qed.
#[export] Instance Conversion_known : KnownObject Conversion. Proof. done. Qed.
#[export] Instance ForeignDataWrapper_known : KnownObject ForeignDataWrapper. Proof. done. Qed.
#[export] Instance ForeignServer_known : KnownObject ForeignServer. Proof. done. Qed.
#[export] Instance UserMapping_known : KnownObject UserMapping. Proof. done. Qed.
#[export] Instance StatisticExt_known : KnownObject StatisticExt. Proof. done. Qed.

(** Unfold a printer and take its branches apart. *)
Ltac known_printer :=
  repeat first
    [ progress cbv zeta | progress intros
    | match goal with |- KnownObject _ => apply _ end
    | simple apply known_print_object
    | simple apply known_PrintObjectMetadata
    | simple apply Known_for_each
    | simple apply Known_bind
    | match goal with |- Known (match ?x with _ => _ end) => destruct x end
    | match goal with |- Known (if ?b then _ else _) => destruct b end
    | apply Known_Err | apply Known_Fatal | apply Known_Panic
    | apply Known_Ok; auto 10 with pieces ].

Section known_printers.
Context `{SemverLib} `{FloatText} (env : print_env).

Lemma known_PrintCreateFunctionStatement f m : Known (PrintCreateFunctionStatement env f m).
Proof. unfold PrintCreateFunctionStatement. known_printer. Qed.
Lemma known_PrintCreateAggregateStatement a i m : Known (PrintCreateAggregateStatement env a i m).
Proof. unfold PrintCreateAggregateStatement. known_printer. Qed.
Lemma known_PrintCreateCastStatement c m : Known (PrintCreateCastStatement env c m).
Proof. unfold PrintCreateCastStatement. known_printer. Qed.
Lemma known_PrintCreateExtensionStatements l m : Known (PrintCreateExtensionStatements env l m).
Proof. unfold PrintCreateExtensionStatements. known_printer. Qed.
Lemma known_PrintCreateLanguageStatements l i m : Known (PrintCreateLanguageStatements env l i m).
Proof.
  unfold PrintCreateLanguageStatements. apply Known_for_each. intros pl. unfold print_language.
  apply Known_bind. intros v6. intros ps Hps. apply bind_Ok in Hps as (more & Hmore & [= <-]).
  repeat (constructor; [apply known_record|]).
  refine (known_PrintObjectMetadata env _ _ _ _ Hmore).
Qed.
Lemma known_PrintCreateTransformStatement t i m : Known (PrintCreateTransformStatement env t i m).
Proof. unfold PrintCreateTransformStatement. known_printer. Qed.
Lemma known_PrintCreateConversionStatements l m : Known (PrintCreateConversionStatements env l m).
Proof. unfold PrintCreateConversionStatements. known_printer. Qed.
Lemma known_PrintCreateForeignDataWrapperStatement f i m : Known (PrintCreateForeignDataWrapperStatement env f i m).
Proof. unfold PrintCreateForeignDataWrapperStatement. known_printer. Qed.
Lemma known_PrintCreateServerStatement s m : Known (PrintCreateServerStatement env s m).
Proof. unfold PrintCreateServerStatement. known_printer. Qed.
Lemma known_PrintCreateUserMappingStatement u : Forall sound_piece (PrintCreateUserMappingStatement u).
Proof. repeat constructor. Qed.
End known_printers.

Lemma known_extension_acls `{MapRange} `{SortSlice} env m i : Forall sound_piece (printExtensionFunctionACLs env m i).
Proof.
  unfold printExtensionFunctionACLs. generalize (sort_slice (λ o, FunctionInfo_FQN (oi_info o))
    (omap (λ '(uniqueId, obj), (λ info, {| oi_info := info; oi_metadata := obj |}) <$> (i !! uid_Oid uniqueId)) (range_map 143 m))).
  intros l. assert (Hgen : ∀ st, Forall sound_piece st.2 → Forall sound_piece (foldl (extension_step env) st l).2).
  { induction l as [|o l IH]; intros [s p] Hp; [done|]. cbn [foldl]. apply IH. unfold extension_step. cbn [snd] in Hp |- *.
    destruct (non_empty _); [|done]. cbn [snd]. apply Forall_app. split; [done|apply known_PrintStatements]. }
  apply Hgen. constructor.
Qed.

#[export] Hint Resolve known_PrintCreateFunctionStatement known_PrintCreateAggregateStatement known_PrintCreateCastStatement
  known_PrintCreateExtensionStatements known_PrintCreateLanguageStatements known_PrintCreateTransformStatement
  known_PrintCreateConversionStatements known_PrintCreateForeignDataWrapperStatement known_PrintCreateServerStatement
  known_PrintCreateUserMappingStatement known_extension_acls : pieces.

(** ** Settings of functions *)

(** The pattern takes a setting apart at its last [ TO ]. *)
Lemma setting_match name value :
  no_byte NL name → no_byte NL value → Contains ("TO " +:+ value) " TO " = false →
  ∃ f, FindStringSubmatch setToNameValuePattern (cat ["SET "; name; " TO "; value]) = Some f ∧ f 1 = name ∧ f 2 = value.
Proof.
  intros Hn Hv Hto. unfold cat. cbn [foldr].
  destruct (FindStringSubmatch_at setToNameValuePattern ("SET " +:+ (name +:+ (" TO " +:+ (value +:+ ""))))
    (λ c, c !! 1 = Some name ∧ c !! 2 = Some value)) as (f & c & -> & Hf & H1 & H2).
  2: { exists f. by rewrite !Hf, H1, H2. }
  intros X k R Hk. unfold setToNameValuePattern, Cats. cbn [foldr].
  rewrite m_Cat, m_Bol, m_Cat, m_Lit, m_Cat, m_Cap, m_Star_Chr.
  apply longest_last; [by apply any_no_newline| |].
  - intros p1. rewrite m_Cat, m_Lit, m_Cat, m_Cap, m_Star_Chr.
    apply longest_all; [by apply any_no_newline|done|]. intros p2. rewrite m_Cat, m_Eol, m_Eps.
    apply Hk. split.
    + rewrite lookup_insert_ne by done. rewrite lookup_insert_eq. by rewrite taken_append.
    + rewrite lookup_insert_eq. by rewrite taken_append.
  - intros d t' p' Ht _. injection Ht as <- Ht. subst t'.
    apply longest_no_literal with (t := " TO "); [|by rewrite append_nil_r].
    intros p'' s' Hs'. rewrite m_Cat. by apply m_Lit_None.
Qed.

(** The list of names in a setting, and the literals the server reads back: a
    space may follow a comma. *)
Definition skip_space (s : string) : string :=
  match s with String c s' => if bool_decide (c = " "%char) then s' else s | EmptyString => s end.
Fixpoint lex_list (fuel : nat) (s : string) : option (list string) :=
  match fuel, skip_space s with
  | S fuel', String c s' =>
      if decide (c = SQ) then
        '(body, rest) ← lex_literal_body s';
        match rest with
        | EmptyString => Some [body]
        | String d rest' => if decide (d = COMMA) then l ← lex_list fuel' rest'; Some (body :: l) else None
        end
      else None
  | _, _ => None
  end.











(** A name with a single quote ends its literal early, and one with a comma
    becomes two names. *)
Example names_garbled :
  QuoteGUCValue "search_path" (quote_ident "it's") = "'it's'" ∧ lex_list 1 "'it's'" = None ∧
  QuoteGUCValue "search_path" (quote_ident "a,b") = cat ["'"; chr DQ; "a', 'b"; chr DQ; "'"].
Proof. vm_compute. done. Qed.

(** The settings of a function are joined into one text, and the pattern
    takes that apart at its last [ TO ]: of two settings only the value of the
    second is quoted, as one literal even when it is a list of names, and
    everything before it is lower-cased. *)
Theorem two_settings_garbled (f : Function_) (guc1 value1 guc2 value2 : string)
    (Hconfig : Config f = cat ["SET "; guc1; " TO "; value1; " SET "; guc2; " TO "; value2])
    (Hlines : Forall (no_byte NL) [guc1; value1; guc2; value2])
    (Hto : Contains ("TO " +:+ value2) " TO " = false) :
  PostProcessFunctionConfigs [f] = Ok [with_config f
    (cat ["SET "; ToLower (cat [guc1; " TO "; value1; " SET "; guc2]); " TO "; single_quoted value2])].
Proof.
  set (name := cat [guc1; " TO "; value1; " SET "; guc2]).
  assert (Hcut : Config f = cat ["SET "; name; " TO "; value2]).
  { rewrite Hconfig. unfold name, cat. cbn [foldr]. change String.app with strings.String.app. by rewrite !append_nil_r, !append_assoc. }
  rewrite !Forall_cons in Hlines. destruct Hlines as (Hg1 & Hv1 & Hg2 & Hv2 & _).
  destruct (setting_match name value2) as (m & Hm & H1 & H2); [|done|done|].
  { unfold name, cat. cbn [foldr]. rewrite append_nil_r, !no_byte_append. split_and!; try done; by apply (bool_decide_unpack _). }
  unfold PostProcessFunctionConfigs. cbn [go_map]. unfold post_process_config. rewrite Hcut, Hm.
  rewrite bool_decide_false by done. cbn [mbind go_bind]. rewrite H1, H2. do 3 f_equal.
  unfold QuoteGUCValue. rewrite bool_decide_false; [done|].
  assert (Hspace : ∀ g, g ∈ list_gucs → no_byte " " g).
  { apply Forall_forall. apply (bool_decide_unpack _). vm_compute. exact I. }
  intros Hin. apply Hspace in Hin. revert Hin. unfold name, cat, ToLower. cbn [foldr]. unfold no_byte.
  rewrite bytes_of_bytes, !bytes_append, !fmap_app. intros Hin. apply Hin. rewrite !elem_of_app. right; left. by left.
Qed.

Definition null_string : NullString := {| NS_String := ""; NS_Valid := false |}.
Definition sample_function (oid : Z) (name config : string) : Function_ :=
  {| f_Oid := oid; f_Schema := "public"; f_Name := name; ReturnsSet := false; FunctionBody := "SELECT 1"; BinaryPath := "";
     f_Arguments := valid_string ""; f_IdentArgs := valid_string ""; ResultType := valid_string "integer"; Volatility := "v";
     IsStrict := false; IsLeakProof := false; IsSecurityDefiner := false; Config := config; Cost := {| mant := 100; expo := 0 |};
     NumRows := {| mant := 0; expo := 0 |}; DataAccess := "c"; f_Language := "sql"; f_Kind := "f"; PlannerSupport := "-";
     IsWindow := false; f_ExecLocation := "a"; f_Parallel := "u"; TransformTypes := "" |}.


Lemma two_settings_garbled_witness :
  let f := sample_function 1 "f" "SET work_mem TO 64MB SET search_path TO app, public" in
  PostProcessFunctionConfigs [f] = Ok [with_config f "SET work_mem to 64mb set search_path TO 'app, public'"].
Proof.
  intros f. apply (two_settings_garbled f "work_mem" "64MB" "search_path" "app, public").
  - reflexivity.
  - apply (bool_decide_unpack _). vm_compute. exact I.
  - vm_compute. reflexivity.
Defined.

(** ** Functions of languages *)

Lemma filter_ext_in {A} (P Q : A → Prop) `{∀ x, Decision (P x), ∀ x, Decision (Q x)} (l : list A) :
  (∀ x, x ∈ l → P x ↔ Q x) → filter P l = filter Q l.
Proof.
  induction l as [|x l IH]; intros HPQ; [done|]. rewrite !filter_cons, IH by (intros; apply HPQ; by constructor).
  assert (Hx : P x ↔ Q x) by (apply HPQ; constructor). repeat case_decide; tauto || done.
Qed.

Lemma lang_func_steps funcDefs procLangs (m : gmap Z bool) f : f ∈ funcDefs →
  default false (foldl (lang_func_step funcDefs) m procLangs !! f_Oid f) =
  default false (m !! f_Oid f) || is_lang_func procLangs f.
Proof.
  intros Hf. revert m. induction procLangs as [|pl procLangs IH]; intros m; cbn [foldl is_lang_func existsb].
  { by rewrite orb_false_r. }
  fold (is_lang_func procLangs f). rewrite IH, orb_assoc. f_equal. unfold lang_func_step.
  set (hit := λ g : Function_, bool_decide (f_Oid g = Handler pl) || bool_decide (f_Oid g = Inline pl) || bool_decide (f_Oid g = pl_Validator pl)).
  assert (Hgen : ∀ l (m : gmap Z bool), default false (foldl (λ (m : gmap Z bool) g, <[f_Oid g := default false (m !! f_Oid g) || bool_decide (f_Oid g = Handler pl)
      || bool_decide (f_Oid g = Inline pl) || bool_decide (f_Oid g = pl_Validator pl)]> m) m l !! f_Oid f) =
    default false (m !! f_Oid f) || (bool_decide (f_Oid f ∈ f_Oid <$> l) && hit f)).
  { clear. induction l as [|g l IH]; intros m; cbn [foldl].
    { rewrite bool_decide_false by (by intros ?%elem_of_nil). by rewrite orb_false_r. }
    rewrite IH. cbn [fmap list_fmap]. destruct (decide (f_Oid f = f_Oid g)) as [Heq|Hne].
    - rewrite <- Heq, lookup_insert_eq. cbn [default from_option]. rewrite (bool_decide_true (_ ∈ _ :: _)) by (constructor).
      unfold hit. by destruct (bool_decide (f_Oid f ∈ _)), (default false _), (bool_decide (f_Oid f = Handler pl)),
        (bool_decide (f_Oid f = Inline pl)), (bool_decide (f_Oid f = pl_Validator pl)).
    - rewrite lookup_insert_ne by done. do 2 f_equal. apply bool_decide_ext. rewrite elem_of_cons. tauto. }
  rewrite Hgen. rewrite bool_decide_true by (by apply list_elem_of_fmap_2). done.
Qed.

(** The functions split off are exactly the handlers, inline handlers and
    validators of the languages; the rest keeps its order. *)
Lemma ExtractLanguageFunctions_spec funcDefs procLangs :
  ExtractLanguageFunctions funcDefs procLangs =
  (filter (λ f, is_lang_func procLangs f = true) funcDefs, filter (λ f, is_lang_func procLangs f = false) funcDefs).
Proof.
  unfold ExtractLanguageFunctions.
  f_equal; apply filter_ext_in; intros f Hf; by rewrite lang_func_steps, lookup_empty by done.
Qed.

(** ** The grants on functions of extensions *)

(** The pieces printed for [n] functions with privileges: each is printed with
    the grants of all before it, under its own entry. *)
Lemma extension_steps_quadratic env objects st :
  Forall (λ o, non_empty (GetPrivilegesStatements env (oi_metadata o) (FunctionInfo_FQN (oi_info o)) "FUNCTION" None) = true) objects →
  length (foldl (extension_step env) st objects).2 * 2 =
  (length st.2 + length objects * length st.1) * 2 + length objects * (length objects + 1).
Proof.
  revert st. induction objects as [|o objects IH]; intros [s p] Ho; [simpl; lia|].
  apply Forall_cons in Ho as [Ho Hos]. cbn [foldl]. rewrite IH by done. unfold extension_step. rewrite Ho.
  unfold PrintStatements. destruct (GetMetadataEntry (oi_info o)). cbn [fst snd length].
  rewrite !length_app, length_fmap, length_app. cbn [length]. nia.
Qed.
