(* ===== verification/Types.v ===== *)
(** Types and collations: their structures and queries
    ([meta/builtin/queries_types.go]) and their printers ([predata_types.go]);
    schemas, constraints and access methods ([queries_shared.go],
    [predata_shared.go]). *)
From S2P Require Import Prelude Regexp Utils Toc Version Scheduler Dependencies Queries Acl Functions.

Definition PG_COLLATION_OID : Z := 3456.
Definition PG_CONSTRAINT_OID : Z := 2606.
Definition PG_NAMESPACE_OID : Z := 2615.

(** * Structures *)

Definition GetTypeMetadataEntry (schema name : string) : string * MetadataEntry := ("predata", new_entry schema name "TYPE" "").

Record BaseType := {
  b_Oid : Z; b_Schema : string; b_Name : string; Input : string; Output : string; Receive : string; Send : string; ModIn : string;
  ModOut : string; InternalLength : Z; IsPassedByValue : bool; Alignment : string; b_Storage : string; b_DefaultVal : string;
  Element : string; Category : string; Preferred : bool; Delimiter : string; StorageOptions : string; Collatable : bool; b_Collation : string
}.
Definition BaseType_FQN (t : BaseType) : string := MakeFQN (b_Schema t) (b_Name t).
Definition BaseType_entry (t : BaseType) : string * MetadataEntry := GetTypeMetadataEntry (b_Schema t) (b_Name t).
Definition BaseType_id (t : BaseType) : UniqueID := oid_of PG_TYPE_OID (b_Oid t).
#[export] Instance BaseType_object : TOCObjectWithMetadata BaseType := plain_object BaseType_entry BaseType_FQN.
#[export] Instance BaseType_known : KnownObject BaseType. Proof. done. Qed.

Record Attribute := { CompositeTypeOid : Z; at_Name : string; at_Type : string; at_Comment : string; at_Collation : string }.
Record CompositeType := { c_Oid : Z; c_Schema : string; c_Name : string; Attributes : list Attribute }.
Definition CompositeType_FQN (t : CompositeType) : string := MakeFQN (c_Schema t) (c_Name t).
Definition CompositeType_entry (t : CompositeType) : string * MetadataEntry := GetTypeMetadataEntry (c_Schema t) (c_Name t).
Definition CompositeType_id (t : CompositeType) : UniqueID := oid_of PG_TYPE_OID (c_Oid t).
#[export] Instance CompositeType_object : TOCObjectWithMetadata CompositeType := plain_object CompositeType_entry CompositeType_FQN.
#[export] Instance CompositeType_known : KnownObject CompositeType. Proof. done. Qed.

Record Domain := { d_Oid : Z; d_Schema : string; d_Name : string; d_DefaultVal : string; d_Collation : string; d_BaseType : string; d_NotNull : bool }.
Definition Domain_FQN (t : Domain) : string := MakeFQN (d_Schema t) (d_Name t).
Definition Domain_entry (t : Domain) : string * MetadataEntry := ("predata", new_entry (d_Schema t) (d_Name t) "DOMAIN" "").
Definition Domain_id (t : Domain) : UniqueID := oid_of PG_TYPE_OID (d_Oid t).
#[export] Instance Domain_object : TOCObjectWithMetadata Domain := plain_object Domain_entry Domain_FQN.
#[export] Instance Domain_known : KnownObject Domain. Proof. done. Qed.

Record EnumType := { e_Oid : Z; en_Schema : string; en_Name : string; EnumLabels : string }.
Definition EnumType_FQN (t : EnumType) : string := MakeFQN (en_Schema t) (en_Name t).
Definition EnumType_entry (t : EnumType) : string * MetadataEntry := GetTypeMetadataEntry (en_Schema t) (en_Name t).
Definition EnumType_id (t : EnumType) : UniqueID := oid_of PG_TYPE_OID (e_Oid t).
#[export] Instance EnumType_object : TOCObjectWithMetadata EnumType := plain_object EnumType_entry EnumType_FQN.
#[export] Instance EnumType_known : KnownObject EnumType. Proof. done. Qed.

Record RangeType := {
  rt_Oid : Z; rt_Schema : string; rt_Name : string; SubType : string; rt_Collation : string; SubTypeOpClass : string; Canonical : string;
  SubTypeDiff : string
}.
Definition RangeType_FQN (t : RangeType) : string := MakeFQN (rt_Schema t) (rt_Name t).
Definition RangeType_entry (t : RangeType) : string * MetadataEntry := GetTypeMetadataEntry (rt_Schema t) (rt_Name t).
Definition RangeType_id (t : RangeType) : UniqueID := oid_of PG_TYPE_OID (rt_Oid t).
#[export] Instance RangeType_object : TOCObjectWithMetadata RangeType := plain_object RangeType_entry RangeType_FQN.
#[export] Instance RangeType_known : KnownObject RangeType. Proof. done. Qed.

Record ShellType := { sh_Oid : Z; sh_Schema : string; sh_Name : string }.
Definition ShellType_FQN (t : ShellType) : string := MakeFQN (sh_Schema t) (sh_Name t).
Definition ShellType_entry (t : ShellType) : string * MetadataEntry := GetTypeMetadataEntry (sh_Schema t) (sh_Name t).
Definition ShellType_id (t : ShellType) : UniqueID := oid_of PG_TYPE_OID (sh_Oid t).
#[export] Instance ShellType_object : TOCObjectWithMetadata ShellType := plain_object ShellType_entry ShellType_FQN.
#[export] Instance ShellType_known : KnownObject ShellType. Proof. done. Qed.

Record Collation := {
  co_Oid : Z; co_Schema : string; co_Name : string; Collate : string; Ctype : string; Provider : string; IsDeterministic : string
}.
Definition Collation_FQN (c : Collation) : string := MakeFQN (co_Schema c) (co_Name c).
Definition Collation_entry (c : Collation) : string * MetadataEntry := ("predata", new_entry (co_Schema c) (co_Name c) "COLLATION" "").
Definition Collation_id (c : Collation) : UniqueID := oid_of PG_COLLATION_OID (co_Oid c).
#[export] Instance Collation_object : TOCObjectWithMetadata Collation := plain_object Collation_entry Collation_FQN.
#[export] Instance Collation_known : KnownObject Collation. Proof. done. Qed.

Record Schema := { sc_Oid : Z; sc_Name : string }.
Definition Schema_entry (s : Schema) : string * MetadataEntry := ("predata", new_entry (sc_Name s) (sc_Name s) "SCHEMA" "").
Definition Schema_id (s : Schema) : UniqueID := oid_of PG_NAMESPACE_OID (sc_Oid s).
#[export] Instance Schema_object : TOCObjectWithMetadata Schema := plain_object Schema_entry sc_Name.
#[export] Instance Schema_known : KnownObject Schema. Proof. done. Qed.

Record Constraint := {
  con_Oid : Z; con_Schema : string; con_Name : string; ConType : string; Def : NullString; ConIsLocal : bool; OwningObject : string;
  IsDomainConstraint : bool; IsPartitionParent : bool
}.
(** A constraint that is not valid is created after the data. *)
Definition Constraint_section (c : Constraint) : string :=
  if NS_Valid (Def c) && negb (Contains (ToUpper (NS_String (Def c))) "NOT VALID") then "predata" else "postdata".
Definition Constraint_entry (c : Constraint) : string * MetadataEntry :=
  (Constraint_section c, new_entry (con_Schema c) (con_Name c) "CONSTRAINT" (OwningObject c)).
Definition Constraint_id (c : Constraint) : UniqueID := oid_of PG_CONSTRAINT_OID (con_Oid c).
#[export] Instance Constraint_object : TOCObjectWithMetadata Constraint := plain_object Constraint_entry con_Name.
#[export] Instance Constraint_known : KnownObject Constraint.
Proof. intros c. unfold GetMetadataEntry. cbn. unfold Constraint_entry, Constraint_section. by destruct (NS_Valid _ && _). Qed.

Record AccessMethod := { am_Oid : Z; am_Name : string; am_Handler : string; am_Type : string }.
Definition AccessMethod_entry (a : AccessMethod) : string * MetadataEntry := ("predata", new_entry "" (am_Name a) "ACCESS METHOD" "").
Definition AccessMethod_id (a : AccessMethod) : UniqueID := oid_of PG_TYPE_OID (am_Oid a).
#[export] Instance AccessMethod_object : TOCObjectWithMetadata AccessMethod := plain_object AccessMethod_entry am_Name.
#[export] Instance AccessMethod_known : KnownObject AccessMethod. Proof. done. Qed.

(** * Queries *)

Section queries.
Context `{SemverLib} (version : GPDBVersion) (f : filters).

Definition GetBaseTypes_version4query : string := "
	SELECT t.oid,
		quote_ident(n.nspname) AS schema,
		quote_ident(t.typname) AS name,
		t.typinput AS input,
		t.typoutput AS output,
		t.typreceive AS receive,
		t.typsend AS send,
		t.typlen AS internallength,
		t.typbyval AS ispassedbyvalue,
		CASE WHEN t.typalign = '-' THEN '' ELSE t.typalign END AS alignment,
		t.typstorage AS storage,
		coalesce(t.typdefault, '') AS defaultval,
		CASE WHEN t.typelem != 0::regproc THEN pg_catalog.format_type(t.typelem, NULL) ELSE '' END AS element,
		'U' AS category,
		t.typdelim AS delimiter,
		coalesce(array_to_string(e.typoptions, ', '), '') AS storageoptions
	FROM pg_type t
		JOIN pg_namespace n ON t.typnamespace = n.oid
		LEFT JOIN pg_type_encoding e ON t.oid = e.typid
		/*
		 * Identify if this is an automatically generated array type and exclude it if so.
		 * In GPDB 4, all automatically-generated array types are guaranteed to be
		 * the name of the corresponding base type prepended with an underscore.
		 */
		LEFT JOIN pg_type ut ON ( --ut for underlying type
			t.typelem = ut.oid
			AND length(t.typname) > 1
			AND t.typname[0] = '_'
			AND substring(t.typname FROM 2) = ut.typname)
	WHERE %s
		AND t.typtype = 'b'
		AND ut.oid IS NULL
		AND %s".
Definition GetBaseTypes_version5query : string := "
	SELECT t.oid,
		quote_ident(n.nspname) AS schema,
		quote_ident(t.typname) AS name,
		t.typinput AS input,
		t.typoutput AS output,
		CASE WHEN t.typreceive = '-'::regproc THEN '' ELSE t.typreceive::regproc::text END AS receive,
		CASE WHEN t.typsend = '-'::regproc THEN '' ELSE t.typsend::regproc::text END AS send,
		CASE WHEN t.typmodin = '-'::regproc THEN '' ELSE t.typmodin::regproc::text END AS modin,
		CASE WHEN t.typmodout = '-'::regproc THEN '' ELSE t.typmodout::regproc::text END AS modout,
		t.typlen AS internallength,
		t.typbyval AS ispassedbyvalue,
		CASE WHEN t.typalign = '-' THEN '' ELSE t.typalign END AS alignment,
		t.typstorage AS storage,
		coalesce(t.typdefault, '') AS defaultval,
		CASE WHEN t.typelem != 0::regproc THEN pg_catalog.format_type(t.typelem, NULL) ELSE '' END AS element,
		'U' AS category,
		t.typdelim AS delimiter,
		coalesce(array_to_string(e.typoptions, ', '), '') AS storageoptions
	FROM pg_type t
		JOIN pg_namespace n ON t.typnamespace = n.oid
		LEFT JOIN pg_type_encoding e ON t.oid = e.typid
		/*
		 * Identify if this is an automatically generated array type and exclude it if so.
		 * In GPDB 5 and 6 we use the typearray field to identify these array types.
		 */
		LEFT JOIN pg_type ut ON t.oid = ut.typarray
	WHERE %s
		AND t.typtype = 'b'
		AND ut.oid IS NULL
		AND %s".
Definition GetBaseTypes_atLeast6Query : string := "
	SELECT t.oid,
		quote_ident(n.nspname) AS schema,
		quote_ident(t.typname) AS name,
		t.typinput AS input,
		t.typoutput AS output,
		CASE WHEN t.typreceive = '-'::regproc THEN '' ELSE t.typreceive::regproc::text END AS receive,
		CASE WHEN t.typsend = '-'::regproc THEN '' ELSE t.typsend::regproc::text END AS send,
		CASE WHEN t.typmodin = '-'::regproc THEN '' ELSE t.typmodin::regproc::text END AS modin,
		CASE WHEN t.typmodout = '-'::regproc THEN '' ELSE t.typmodout::regproc::text END AS modout,
		t.typlen AS internallength,
		t.typbyval AS ispassedbyvalue,
		CASE WHEN t.typalign = '-' THEN '' ELSE t.typalign END AS alignment,
		t.typstorage AS storage,
		coalesce(t.typdefault, '') AS defaultval,
		CASE WHEN t.typelem != 0::regproc THEN pg_catalog.format_type(t.typelem, NULL) ELSE '' END AS element,
		t.typcategory AS category,
		t.typispreferred AS preferred,
		t.typdelim AS delimiter,
		(t.typcollation <> 0) AS collatable,
		coalesce(array_to_string(typoptions, ', '), '') AS storageoptions
	FROM pg_type t
		JOIN pg_namespace n ON t.typnamespace = n.oid
		LEFT JOIN pg_type_encoding e ON t.oid = e.typid
		/*
		 * Identify if this is an automatically generated array type and exclude it if so.
		 * In GPDB 5 and 6 we use the typearray field to identify these array types.
		 */
		LEFT JOIN pg_type ut ON t.oid = ut.typarray
	WHERE %s
		AND t.typtype = 'b'
		AND ut.oid IS NULL
		AND %s".
Definition with_send_receive (t : BaseType) (send receive : string) : BaseType :=
  {| b_Oid := b_Oid t; b_Schema := b_Schema t; b_Name := b_Name t; Input := Input t; Output := Output t; Receive := receive; Send := send;
     ModIn := ModIn t; ModOut := ModOut t; InternalLength := InternalLength t; IsPassedByValue := IsPassedByValue t;
     Alignment := Alignment t; b_Storage := b_Storage t; b_DefaultVal := b_DefaultVal t; Element := Element t; Category := Category t;
     Preferred := Preferred t; Delimiter := Delimiter t; StorageOptions := StorageOptions t; Collatable := Collatable t;
     b_Collation := b_Collation t |}.
Definition no_hyphen (s : string) : string := if bool_decide (s = "-") then "" else s.
Definition GetBaseTypes `{Selects BaseType} : go (list BaseType) :=
  let! is4 := gpdb_is version "4" in
  let! is5 := gpdb_is version "5" in
  let query := if (is4 : bool) then GetBaseTypes_version4query else if (is5 : bool) then GetBaseTypes_version5query
               else GetBaseTypes_atLeast6Query in
  let! results := select_rows (A := BaseType) (Sprintf query [SchemaFilterClause f "n"; ExtensionFilterClause "t"]) in
  let! before5 := gpdb_before version "5" in
  Ok (if (before5 : bool) then map (λ t, with_send_receive t (no_hyphen (Send t)) (no_hyphen (Receive t))) results else results).

Definition getCompositeTypeAttributes_before6Query : string := "
	SELECT t.oid AS compositetypeoid,
		quote_ident(a.attname) AS name,
		pg_catalog.format_type(a.atttypid, a.atttypmod) AS type,
		coalesce(quote_literal(d.description),'') AS comment
	FROM pg_type t
		JOIN pg_class c ON t.typrelid = c.oid
		JOIN pg_attribute a ON t.typrelid = a.attrelid
		LEFT JOIN pg_description d ON (d.objoid = a.attrelid AND d.classoid = 'pg_class'::regclass AND d.objsubid = a.attnum)
	WHERE t.typtype = 'c'
		AND c.relkind = 'c'
	ORDER BY t.oid, a.attnum".
Definition getCompositeTypeAttributes_atLeast6Query : string := "
	SELECT t.oid AS compositetypeoid,
		quote_ident(a.attname) AS name,
		pg_catalog.format_type(a.atttypid, a.atttypmod) AS type,
		coalesce(quote_literal(d.description),'') AS comment,
		CASE
			WHEN at.typcollation <> a.attcollation
			THEN quote_ident(cn.nspname) || '.' || quote_ident(coll.collname) ELSE ''
		END AS collation
	FROM pg_type t
		JOIN pg_class c ON t.typrelid = c.oid
		JOIN pg_attribute a ON t.typrelid = a.attrelid
		LEFT JOIN pg_description d ON (d.objoid = a.attrelid AND d.classoid = 'pg_class'::regclass AND d.objsubid = a.attnum)
		LEFT JOIN pg_type at ON at.oid = a.atttypid
		LEFT JOIN pg_collation coll ON a.attcollation = coll.oid
		LEFT JOIN pg_namespace cn ON coll.collnamespace = cn.oid
	WHERE t.typtype = 'c'
		AND c.relkind = 'c'
		AND a.attisdropped = false
	ORDER BY t.oid, a.attnum".
Definition getCompositeTypeAttributes `{Selects Attribute} : go (gmap Z (list Attribute)) :=
  let! before6 := gpdb_before version "6" in
  let! results := select_rows (A := Attribute)
    (if (before6 : bool) then getCompositeTypeAttributes_before6Query else getCompositeTypeAttributes_atLeast6Query) in
  Ok (rows_by CompositeTypeOid results).
Definition GetCompositeTypes_query : string := "
	SELECT t.oid,
		quote_ident(n.nspname) AS schema,
		quote_ident(t.typname) AS name
	FROM pg_type t
		JOIN pg_namespace n ON t.typnamespace = n.oid
		/*
		 * We join with pg_class to check if a type is truly a composite type
		 * (relkind='c') or implicitly generated from a relation
		 */
		JOIN pg_class c ON t.typrelid = c.oid
	WHERE %s
		AND t.typtype = 'c'
		AND c.relkind = 'c'
		AND %s".
Definition GetCompositeTypes `{Selects CompositeType} `{Selects Attribute} : go (list CompositeType) :=
  let! compTypes := select_rows (A := CompositeType) (Sprintf GetCompositeTypes_query [SchemaFilterClause f "n"; ExtensionFilterClause "t"]) in
  let! attributeMap := getCompositeTypeAttributes in
  Ok (map (λ t, {| c_Oid := c_Oid t; c_Schema := c_Schema t; c_Name := c_Name t; Attributes := default [] (attributeMap !! c_Oid t) |}) compTypes).

Definition GetDomainTypes_before6query : string := "
	SELECT t.oid,
		quote_ident(n.nspname) AS schema,
		quote_ident(t.typname) AS name,
		coalesce(t.typdefault, '') AS defaultval,
		format_type(t.typbasetype, t.typtypmod) AS basetype,
		t.typnotnull AS notnull
	FROM pg_type t
		JOIN pg_namespace n ON t.typnamespace = n.oid
	WHERE %s
		AND t.typtype = 'd'
		AND %s
	ORDER BY n.nspname, t.typname".
Definition GetDomainTypes_atLeast6Query : string := "
	SELECT t.oid,
		quote_ident(n.nspname) AS schema,
		quote_ident(t.typname) AS name,
		coalesce(t.typdefault, '') AS defaultval,
		CASE
			WHEN t.typcollation <> u.typcollation
			THEN quote_ident(cn.nspname) || '.' || quote_ident(c.collname)
			ELSE ''
		END AS collation,
		format_type(t.typbasetype, t.typtypmod) AS basetype,
		t.typnotnull AS notnull
	FROM pg_type t
		JOIN pg_namespace n ON t.typnamespace = n.oid
		LEFT JOIN pg_type u ON t.typbasetype = u.oid
		LEFT JOIN pg_collation c ON t.typcollation = c.oid
		LEFT JOIN pg_namespace cn ON c.collnamespace = cn.oid
	WHERE %s
		AND t.typtype = 'd'
		AND %s
	ORDER BY n.nspname, t.typname".
Definition GetDomainTypes `{Selects Domain} : go (list Domain) :=
  let! before6 := gpdb_before version "6" in
  select_rows (Sprintf (if (before6 : bool) then GetDomainTypes_before6query else GetDomainTypes_atLeast6Query)
    [SchemaFilterClause f "n"; ExtensionFilterClause "t"]).

Definition GetEnumTypes_query : string := "
	SELECT t.oid,
		quote_ident(n.nspname) AS schema,
		quote_ident(t.typname) AS name,
		enumlabels
	FROM pg_type t
		LEFT JOIN pg_namespace n ON t.typnamespace = n.oid
		LEFT JOIN (SELECT e.enumtypid,string_agg(quote_literal(e.enumlabel), E',\n\t' %s) AS enumlabels
			FROM pg_enum e GROUP BY enumtypid) e ON t.oid = e.enumtypid
	WHERE %s
		AND t.typtype = 'e'
		AND %s
	ORDER BY n.nspname, t.typname".
Definition GetEnumTypes `{Selects EnumType} : go (list EnumType) :=
  let! is5 := gpdb_is version "5" in
  let enumSortClause := if (is5 : bool) then "ORDER BY e.oid" else "ORDER BY e.enumsortorder" in
  select_rows (Sprintf GetEnumTypes_query [enumSortClause; SchemaFilterClause f "n"; ExtensionFilterClause "t"]).

Definition GetRangeTypes_query : string := "
	SELECT t.oid,
		quote_ident(n.nspname) AS schema,
		quote_ident(t.typname) AS name,
		format_type(st.oid, st.typtypmod) AS subtype,
		CASE
			WHEN c.collname IS NULL THEN ''
			ELSE quote_ident(nc.nspname) || '.' || quote_ident(c.collname)
		END AS collation,
		CASE
			WHEN opc.opcname IS NULL THEN ''
			ELSE quote_ident(nopc.nspname) || '.' || quote_ident(opc.opcname)
		END AS subtypeopclass,
		CASE
			WHEN r.rngcanonical = '-'::regproc THEN ''
			ELSE r.rngcanonical::regproc::text
		END AS canonical,
		CASE
			WHEN r.rngsubdiff = '-'::regproc THEN ''
			ELSE r.rngsubdiff::regproc::text
		END AS subtypediff
	FROM pg_range r
		JOIN pg_type t ON t.oid = r.rngtypid
		JOIN pg_namespace n ON t.typnamespace = n.oid
		JOIN pg_type st ON st.oid = r.rngsubtype
		LEFT JOIN pg_collation c ON c.oid = r.rngcollation
		LEFT JOIN pg_namespace nc ON nc.oid = c.collnamespace
		LEFT JOIN pg_opclass opc ON opc.oid = r.rngsubopc
		LEFT JOIN pg_namespace nopc ON nopc.oid = opc.opcnamespace
	WHERE %s
		AND t.typtype = 'r'
		AND %s".
Definition GetRangeTypes `{Selects RangeType} : go (list RangeType) :=
  select_rows (Sprintf GetRangeTypes_query [SchemaFilterClause f "n"; ExtensionFilterClause "t"]).

Definition GetShellTypes_query : string := "
	SELECT t.oid,
		quote_ident(n.nspname) AS schema,
		quote_ident(t.typname) AS name
	FROM pg_type t
		JOIN pg_namespace n ON t.typnamespace = n.oid
	WHERE %s
		AND t.typtype = 'p'
		AND %s
	ORDER BY n.nspname, t.typname".
Definition GetShellTypes `{Selects ShellType} : go (list ShellType) :=
  select_rows (Sprintf GetShellTypes_query [SchemaFilterClause f "n"; ExtensionFilterClause "t"]).

Definition GetCollations_before7Query : string := "
        SELECT c.oid,
        	quote_ident(n.nspname) AS schema,
        	quote_ident(c.collname) AS name,
        	c.collcollate AS collate,
        	c.collctype AS ctype
        FROM pg_collation c
        	JOIN pg_namespace n ON c.collnamespace = n.oid
        WHERE %s".
Definition GetCollations_atLeast7Query : string := "
        SELECT c.oid,
        	quote_ident(n.nspname) AS schema,
        	quote_ident(c.collname) AS name,
        	c.collcollate AS collate,
        	c.collctype AS ctype,
        	c.collprovider as provider,
        	c.collisdeterministic as IsDeterministic
        FROM pg_collation c
        	JOIN pg_namespace n ON c.collnamespace = n.oid
        WHERE %s".
Definition GetCollations `{Selects Collation} : go (list Collation) :=
  let! before7 := gpdb_before version "7" in
  select_rows (Sprintf (if (before7 : bool) then GetCollations_before7Query else GetCollations_atLeast7Query) [SchemaFilterClause f "n"]).

(** ** Schemas, constraints, access methods *)

Definition GetAllUserSchemas_query : string := "
	SELECT oid, quote_ident(nspname) AS name FROM pg_namespace n
		WHERE %s AND %s ORDER BY name".
Definition GetAllUserSchemas `{MapRange} `{Selects Schema} (partitionAlteredSchemas : gset string) : go (list Schema) :=
  select_rows (Sprintf GetAllUserSchemas_query
    [SchemaFilterClauseWithAlteredPartitionSchemas f "n" partitionAlteredSchemas; ExtensionFilterClause ""]).

Definition GetConstraints_before7 : string := "
		SELECT con.oid,
			quote_ident(n.nspname) AS schema,
			quote_ident(conname) AS name,
			contype,
			%s
			pg_get_constraintdef(con.oid, TRUE) AS def,
			quote_ident(n.nspname) || '.' || quote_ident(c.relname) AS owningobject,
			'f' AS isdomainconstraint,
			CASE
				WHEN pt.parrelid IS NULL THEN 'f'
				ELSE 't'
			END AS ispartitionparent
		FROM pg_constraint con
			LEFT JOIN pg_class c ON con.conrelid = c.oid
			LEFT JOIN pg_partition pt ON con.conrelid = pt.parrelid
			JOIN pg_namespace n ON n.oid = con.connamespace
		WHERE %s
			AND %s
			AND c.relname IS NOT NULL
			AND contype != 't'
			AND conrelid NOT IN (SELECT parchildrelid FROM pg_partition_rule)
			AND (conrelid, conname) NOT IN (SELECT i.inhrelid, con.conname FROM pg_inherits i JOIN pg_constraint con ON i.inhrelid = con.conrelid JOIN pg_constraint p ON i.inhparent = p.conrelid WHERE con.conname = p.conname)
		GROUP BY con.oid, conname, contype, c.relname, n.nspname, %s pt.parrelid".
Definition GetConstraints_atLeast7 : string := "
		SELECT con.oid,
			quote_ident(n.nspname) AS schema,
			quote_ident(conname) AS name,
			contype,
			con.conislocal,
			pg_get_constraintdef(con.oid, TRUE) AS def,
			quote_ident(n.nspname) || '.' || quote_ident(c.relname) AS owningobject,
			'f' AS isdomainconstraint,
			CASE
				WHEN pt.partrelid IS NULL THEN 'f'
				ELSE 't'
			END AS ispartitionparent
		FROM pg_constraint con
			LEFT JOIN pg_class c ON con.conrelid = c.oid
			LEFT JOIN pg_partitioned_table pt ON con.conrelid = pt.partrelid
			JOIN pg_namespace n ON n.oid = con.connamespace
		WHERE %s
			AND %s
			AND c.relname IS NOT NULL
			AND contype != 't'
			AND (c.relispartition IS FALSE OR conislocal IS TRUE)
			AND (conrelid, conname) NOT IN (SELECT i.inhrelid, con.conname FROM pg_inherits i JOIN pg_constraint con ON i.inhrelid = con.conrelid JOIN pg_constraint p ON i.inhparent = p.conrelid WHERE con.conname = p.conname)
		GROUP BY con.oid, conname, contype, c.relname, n.nspname, con.conislocal, pt.partrelid".
Definition GetConstraints_nonTableQuery : string := "
	SELECT con.oid,
		quote_ident(n.nspname) AS schema,
		quote_ident(conname) AS name,
		contype,
		%s
		pg_get_constraintdef(con.oid, TRUE) AS def,
		quote_ident(n.nspname) || '.' || quote_ident(t.typname) AS owningobject,
		't' AS isdomainconstraint,
		'f' AS ispartitionparent
	FROM pg_constraint con
		LEFT JOIN pg_type t ON con.contypid = t.oid
		JOIN pg_namespace n ON n.oid = con.connamespace
	WHERE %s
		AND %s
		AND t.typname IS NOT NULL
	GROUP BY con.oid, conname, contype, n.nspname, %s t.typname
	ORDER BY name".
(** The first format leaves one [%s] for the filter of the tables. *)
Definition constraint_tableQuery (before7 : bool) (conIsLocal : string) : string :=
  if before7 then Sprintf GetConstraints_before7 [conIsLocal; "%s"; ExtensionFilterClause "c"; conIsLocal]
  else Sprintf GetConstraints_atLeast7 ["%s"; ExtensionFilterClause "c"].
Definition GetConstraints `{Selects Constraint} `{Selects FqnStruct} `{Selects string_row} (includeTables : list Z)
    : go (list Constraint * filters) :=
  let! v6 := gpdb_or_family version "6" in
  let conIsLocal := if (v6 : bool) then "con.conislocal," else "" in
  let! before7 := gpdb_before version "7" in
  let tableQuery := constraint_tableQuery before7 conIsLocal in
  let! (query, f') := (match includeTables with
    | [] =>
        let! (clause, f') := relationAndSchemaFilterClause f in
        Ok (cat [Sprintf tableQuery [clause]; nl; "UNION"; nl;
                 Sprintf GetConstraints_nonTableQuery [conIsLocal; SchemaFilterClause f "n"; ExtensionFilterClause "con"; conIsLocal]], f')
    | _ => Ok (Sprintf tableQuery [cat [SchemaFilterClause f "n"; nl; "AND c.oid IN ("; Join (Itoa <$> includeTables) ","; ")"]], f)
    end) in
  let! results := select_rows (A := Constraint) query in
  let! before6 := gpdb_before version "6" in
  Ok (if (before6 : bool) then filter (λ c, NS_Valid (Def c) = true) results else results, f').

Record ExchangedPartitionName := { OrigName : string; NewName : string }.
Definition cteClause_before7 : string := "SELECT DISTINCT cl.relname
            FROM pg_class cl
                INNER JOIN pg_partitions pts
					ON cl.relname = pts.partitiontablename
					AND cl.relname != pts.tablename
            WHERE cl.relkind IN ('r', 'f')".
Definition cteClause_atLeast7 : string := "SELECT DISTINCT cl.relname
             FROM pg_class cl
             WHERE
                cl.relkind IN ('r', 'f')
                AND cl.relispartition = true
                AND cl.relhassubclass = false".
Definition GetRenameExchangedPartitionQuery_query : string := "
        WITH table_cte AS (%s)
        SELECT
            ic.relname AS origname,
            rc.relname || SUBSTRING(ic.relname, LENGTH(ch.relname)+1, LENGTH(ch.relname)) AS newname
        FROM
            pg_index i
            JOIN pg_class ic ON i.indexrelid = ic.oid
            JOIN pg_class rc
                ON i.indrelid = rc.oid
                AND rc.relname != SUBSTRING(ic.relname, 1, LENGTH(rc.relname))
            JOIN pg_namespace n ON rc.relnamespace = n.oid
            INNER JOIN table_cte ch
                ON SUBSTRING(ic.relname, 1, LENGTH(ch.relname)) = ch.relname
                AND rc.relname != ch.relname
        WHERE %s;".
Definition GetRenameExchangedPartitionQuery : go string :=
  let! before7 := gpdb_before version "7" in
  Ok (Sprintf GetRenameExchangedPartitionQuery_query [if (before7 : bool) then cteClause_before7 else cteClause_atLeast7; SchemaFilterClause f "n"]).
Definition name_map (names : list ExchangedPartitionName) : gmap string string :=
  foldl (λ m n, <[OrigName n := NewName n]> m) ∅ names.
(** The name is replaced once in the definition. *)
Definition renamed_def (def : NullString) (name newName : string) : NullString :=
  {| NS_String := Replace (NS_String def) name newName (Some 1); NS_Valid := NS_Valid def |}.
Definition rename_constraint (nameMap : gmap string string) (c : Constraint) : Constraint :=
  match nameMap !! con_Name c with
  | Some newName =>
      {| con_Oid := con_Oid c; con_Schema := con_Schema c; con_Name := newName; ConType := ConType c;
         Def := renamed_def (Def c) (con_Name c) newName; ConIsLocal := ConIsLocal c; OwningObject := OwningObject c;
         IsDomainConstraint := IsDomainConstraint c; IsPartitionParent := IsPartitionParent c |}
  | None => c
  end.
Definition RenameExchangedPartitionConstraints `{Selects ExchangedPartitionName} (constraints : list Constraint) : go (list Constraint) :=
  let! query := GetRenameExchangedPartitionQuery in
  let! names := select_rows (A := ExchangedPartitionName) query in
  Ok (map (rename_constraint (name_map names)) constraints).

Definition GetAccessMethods_query : string := "
	SELECT oid,
       quote_ident(amname) AS name,
       amhandler::pg_catalog.regproc AS handler,
       amtype AS type
	FROM pg_am
	WHERE oid > %d
	ORDER BY oid;".
Definition GetAccessMethods `{Selects AccessMethod} : go (list AccessMethod) :=
  select_rows (Sprintf GetAccessMethods_query [Itoa FIRST_NORMAL_OBJECT_ID]).
End queries.

(** * Printers *)

Section printers.
Context `{SemverLib} (env : print_env).

Definition create_shell {T} (object : TOCObjectWithMetadata T) (typ : T) : piece :=
  record typ [cat ["CREATE TYPE "; object_FQN typ; ";"; nl]].
Definition PrintCreateShellTypeStatements (shellTypes : list ShellType) (baseTypes : list BaseType) (rangeTypes : list RangeType) : list piece :=
  [Loose nl2] ++ (create_shell ShellType_object <$> shellTypes) ++ (create_shell BaseType_object <$> baseTypes) ++
  (create_shell RangeType_object <$> rangeTypes).

Definition PrintCreateDomainStatement (domain : Domain) (typeMetadata : ObjectMetadata) (constraints : list Constraint) : go (list piece) :=
  print_object env domain
    ([cat [nl; "CREATE DOMAIN "; Domain_FQN domain; " AS "; d_BaseType domain]] ++
     when (non_empty (d_DefaultVal domain)) [" DEFAULT " +:+ d_DefaultVal domain] ++
     when (non_empty (d_Collation domain)) [" COLLATE " +:+ d_Collation domain] ++
     when (d_NotNull domain) [" NOT NULL"] ++
     ((λ c, cat [nl; tab; "CONSTRAINT "; con_Name c; " "; NS_String (Def c)]) <$> constraints) ++ [";" +:+ nl])
    typeMetadata "".

Definition base_settings (v5 : bool) (base : BaseType) : list string :=
  when (non_empty (Receive base)) [cat [","; nl; tab; "RECEIVE = "; Receive base]] ++
  when (non_empty (Send base)) [cat [","; nl; tab; "SEND = "; Send base]] ++
  when (v5 && non_empty (ModIn base)) [cat [","; nl; tab; "TYPMOD_IN = "; ModIn base]] ++
  when (v5 && non_empty (ModOut base)) [cat [","; nl; tab; "TYPMOD_OUT = "; ModOut base]] ++
  when (0 <? InternalLength base)%Z [cat [","; nl; tab; "INTERNALLENGTH = "; Itoa (InternalLength base)]] ++
  when (IsPassedByValue base) [cat [","; nl; tab; "PASSEDBYVALUE"]] ++
  ((λ a, cat [","; nl; tab; "ALIGNMENT = "; a]) <$> switch [("d", "double"); ("i", "int4"); ("s", "int2")] (Alignment base)) ++
  ((λ a, cat [","; nl; tab; "STORAGE = "; a]) <$> switch [("e", "external"); ("m", "main"); ("x", "extended")] (b_Storage base)) ++
  when (non_empty (b_DefaultVal base)) [cat [","; nl; tab; "DEFAULT = "; single_quoted (b_DefaultVal base)]] ++
  when (non_empty (Element base)) [cat [","; nl; tab; "ELEMENT = "; Element base]] ++
  when (non_empty (Delimiter base)) [cat [","; nl; tab; "DELIMITER = "; single_quoted (Delimiter base)]] ++
  when (negb (bool_decide (Category base = "U"))) [cat [","; nl; tab; "CATEGORY = "; single_quoted (Category base)]] ++
  when (Preferred base) [cat [","; nl; tab; "PREFERRED = true"]] ++
  when (Collatable base) [cat [","; nl; tab; "COLLATABLE = true"]].
Definition PrintCreateBaseTypeStatement (base : BaseType) (typeMetadata : ObjectMetadata) : go (list piece) :=
  let! v5 := gpdb_or_family (srcDBVersion env) "5" in
  print_object env base
    ([cat [nl2; "CREATE TYPE "; BaseType_FQN base; " ("; nl]; cat [tab; "INPUT = "; Input base; ","; nl; tab; "OUTPUT = "; Output base]] ++
     base_settings v5 base ++ [cat [nl; ");"; nl]] ++
     when (non_empty (StorageOptions base))
       [cat [nl; "ALTER TYPE "; BaseType_FQN base; nl; tab; "SET DEFAULT ENCODING ("; StorageOptions base; ");"]])
    typeMetadata "".

Definition attribute_line (att : Attribute) : string :=
  cat ([tab; at_Name att; " "; at_Type att] ++ when (non_empty (at_Collation att)) [" COLLATE " +:+ at_Collation att]).
Definition printPostCreateCompositeTypeStatement (composite : CompositeType) (typeMetadata : ObjectMetadata) : go (list piece) :=
  let! metadata := PrintObjectMetadata env typeMetadata composite "" in
  Ok (metadata ++ PrintStatements composite
    (Attributes composite ≫= λ att,
       when (non_empty (at_Comment att)) [cat ["COMMENT ON COLUMN "; CompositeType_FQN composite; "."; at_Name att; " IS "; at_Comment att; ";"]])).
Definition PrintCreateCompositeTypeStatement (composite : CompositeType) (typeMetadata : ObjectMetadata) : go (list piece) :=
  let! post := printPostCreateCompositeTypeStatement composite typeMetadata in
  Ok (record composite [cat [nl2; "CREATE TYPE "; CompositeType_FQN composite; " AS ("; nl];
                        Join (attribute_line <$> Attributes composite) ("," +:+ nl) +:+ nl; ");"] :: post).

Definition print_enum (typeMetadata : MetadataMap) (enum : EnumType) : go (list piece) :=
  print_object env enum [cat [nl2; "CREATE TYPE "; EnumType_FQN enum; " AS ENUM ("; nl; tab; EnumLabels enum; nl; ");"; nl]]
    (metadata_of typeMetadata (EnumType_id enum)) "".
Definition PrintCreateEnumTypeStatements (enums : list EnumType) (typeMetadata : MetadataMap) : go (list piece) :=
  for_each enums (print_enum typeMetadata).

Definition PrintCreateRangeTypeStatement (rangeType : RangeType) (typeMetadata : ObjectMetadata) : go (list piece) :=
  let clause name value := when (non_empty value) [cat [","; nl; tab; name; " = "; value]] in
  print_object env rangeType
    ([cat [nl2; "CREATE TYPE "; RangeType_FQN rangeType; " AS RANGE ("; nl; tab; "SUBTYPE = "; SubType rangeType]] ++
     clause "SUBTYPE_OPCLASS" (SubTypeOpClass rangeType) ++ clause "COLLATION" (rt_Collation rangeType) ++
     clause "CANONICAL" (Canonical rangeType) ++ clause "SUBTYPE_DIFF" (SubTypeDiff rangeType) ++ [cat [nl; ");"; nl]])
    typeMetadata "".

Definition collation_provider (provider : string) : go (list string) :=
  if bool_decide (provider = "") then Ok []
  else match switch [("c", "libc"); ("i", "icu"); ("d", "default")] provider with
       | [] => Fatal (cat ["Unexpected collation provider: expected 'c|i|d' got '"; provider; "'"; nl])
       | providerOption => Ok [cat [", PROVIDER = "; single_quoted (cat providerOption)]]
       end.
Definition print_collation (collationMetadata : MetadataMap) (collation : Collation) : go (list piece) :=
  let! provider := collation_provider (Provider collation) in
  print_object env collation
    ([cat [nl; "CREATE COLLATION "; Collation_FQN collation; " (LC_COLLATE = "; single_quoted (Collate collation); ", LC_CTYPE = ";
           single_quoted (Ctype collation)]] ++
     provider ++ when (bool_decide (IsDeterministic collation = "f")) [", DETERMINISTIC = 'false'"] ++ [");"])
    (metadata_of collationMetadata (Collation_id collation)) "".
Definition PrintCreateCollationStatements (collations : list Collation) (collationMetadata : MetadataMap) : go (list piece) :=
  for_each collations (print_collation collationMetadata).

(** ** Constraints, schemas, access methods *)

Definition PrintConstraintStatement (constraint : Constraint) (conMetadata : ObjectMetadata) : go (list piece) :=
  let objStr := if IsPartitionParent constraint || (bool_decide (ConType constraint = "c") && ConIsLocal constraint) then "TABLE" else "TABLE ONLY" in
  print_object env constraint
    [cat [nl2; "ALTER "; objStr; " "; OwningObject constraint; " ADD CONSTRAINT "; con_Name constraint; " "; NS_String (Def constraint); ";"; nl]]
    conMetadata (OwningObject constraint).

Definition print_schema (schemaMetadata : MetadataMap) (schema : Schema) : go (list piece) :=
  print_object env schema (nl :: when (negb (bool_decide (sc_Name schema = "public"))) [cat [nl; "CREATE SCHEMA "; sc_Name schema; ";"]])
    (metadata_of schemaMetadata (Schema_id schema)) "".
Definition PrintCreateSchemaStatements (schemas : list Schema) (schemaMetadata : MetadataMap) : go (list piece) :=
  for_each schemas (print_schema schemaMetadata).

Definition isUniqueConstraint (consDef : string) : bool := MatchString (Cat (Lit "UNIQUE (") (Star (Chr any))) consDef.

Definition print_access_method (accessMethodMetadata : MetadataMap) (method : AccessMethod) : go (list piece) :=
  match switch [("t", "TABLE"); ("i", "INDEX")] (am_Type method) with
  | [] => Fatal (cat ["Invalid access method type: expected 't' or 'i', got '"; am_Type method; "'"; nl])
  | methodTypeStr =>
      print_object env method [cat [nl2; "CREATE ACCESS METHOD "; am_Name method; " TYPE "; cat methodTypeStr; " HANDLER "; am_Handler method; ";"]]
        (metadata_of accessMethodMetadata (AccessMethod_id method)) ""
  end.
Definition PrintAccessMethodStatements (accessMethods : list AccessMethod) (accessMethodMetadata : MetadataMap) : go (list piece) :=
  for_each accessMethods (print_access_method accessMethodMetadata).
End printers.

(** * The pieces are known to the table of contents *)

Section known_printers.
Context `{SemverLib} (env : print_env).
Lemma known_PrintCreateShellTypeStatements s b r : Forall sound_piece (PrintCreateShellTypeStatements s b r).
Proof. unfold PrintCreateShellTypeStatements. constructor; [done|]. repeat (apply Forall_app; split); apply Forall_fmap, Forall_true; done. Qed.
Lemma known_PrintCreateDomainStatement d m c : Known (PrintCreateDomainStatement env d m c).
Proof. unfold PrintCreateDomainStatement. known_printer. Qed.
Lemma known_PrintCreateBaseTypeStatement b m : Known (PrintCreateBaseTypeStatement env b m).
Proof. unfold PrintCreateBaseTypeStatement. known_printer. Qed.
Lemma known_PrintCreateCompositeTypeStatement c m : Known (PrintCreateCompositeTypeStatement env c m).
Proof.
  unfold PrintCreateCompositeTypeStatement. eapply Known_map; [|by intros; constructor; [apply known_record|]].
  unfold printPostCreateCompositeTypeStatement. eapply Known_map; [apply known_PrintObjectMetadata; apply _|].
  intros. apply Forall_app. split; [done|apply known_PrintStatements].
Qed.
Lemma known_PrintCreateEnumTypeStatements l m : Known (PrintCreateEnumTypeStatements env l m).
Proof. unfold PrintCreateEnumTypeStatements, print_enum. known_printer. Qed.
Lemma known_PrintCreateRangeTypeStatement r m : Known (PrintCreateRangeTypeStatement env r m).
Proof. unfold PrintCreateRangeTypeStatement. known_printer. Qed.
Lemma known_PrintCreateCollationStatements l m : Known (PrintCreateCollationStatements env l m).
Proof. unfold PrintCreateCollationStatements, print_collation. known_printer. Qed.
Lemma known_PrintConstraintStatement c m : Known (PrintConstraintStatement env c m).
Proof. unfold PrintConstraintStatement. known_printer. Qed.
Lemma known_PrintCreateSchemaStatements l m : Known (PrintCreateSchemaStatements env l m).
Proof. unfold PrintCreateSchemaStatements, print_schema. known_printer. Qed.
Lemma known_PrintAccessMethodStatements l m : Known (PrintAccessMethodStatements env l m).
Proof. unfold PrintAccessMethodStatements, print_access_method. known_printer. Qed.
End known_printers.

#[export] Hint Resolve known_PrintCreateShellTypeStatements known_PrintCreateDomainStatement known_PrintCreateBaseTypeStatement
  known_PrintCreateCompositeTypeStatement known_PrintCreateEnumTypeStatements known_PrintCreateRangeTypeStatement
  known_PrintCreateCollationStatements known_PrintConstraintStatement known_PrintCreateSchemaStatements
  known_PrintAccessMethodStatements : pieces.
