(* ===== verification/Operators.v ===== *)
(** Operators, operator families and classes ([meta/builtin/queries_operators.go],
    [predata_operators.go]) and the objects of text search
    ([queries_textsearch.go], [predata_textsearch.go]). *)
From S2P Require Import Prelude Regexp Utils Toc Version Scheduler Dependencies Queries Acl Functions.

Definition PG_OPERATOR_OID : Z := 2617.
Definition PG_OPFAMILY_OID : Z := 2753.
Definition PG_OPCLASS_OID : Z := 2616.
Definition PG_TS_CONFIG_OID : Z := 3602.
Definition PG_TS_DICT_OID : Z := 3600.
Definition PG_TS_PARSER_OID : Z := 3601.
Definition PG_TS_TEMPLATE_OID : Z := 3764.

(** * Structures *)

Record Operator := {
  o_Oid : Z; o_Schema : string; o_Name : string; Procedure : string; LeftArgType : string; RightArgType : string; CommutatorOp : string;
  NegatorOp : string; RestrictFunction : string; JoinFunction : string; CanHash : bool; CanMerge : bool
}.
Definition operand (argType : string) : string := if bool_decide (argType = "-") then "NONE" else argType.
Definition Operator_FQN (o : Operator) : string :=
  cat [o_Schema o; "."; o_Name o; " ("; operand (LeftArgType o); ", "; operand (RightArgType o); ")"].
Definition Operator_entry (o : Operator) : string * MetadataEntry := ("predata", new_entry (o_Schema o) (o_Name o) "OPERATOR" "").
Definition Operator_id (o : Operator) : UniqueID := oid_of PG_OPERATOR_OID (o_Oid o).
#[export] Instance Operator_object : TOCObjectWithMetadata Operator := plain_object Operator_entry Operator_FQN.
#[export] Instance Operator_known : KnownObject Operator. Proof. done. Qed.

Record OperatorFamily := { of_Oid : Z; of_Schema : string; of_Name : string; of_IndexMethod : string }.
Definition OperatorFamily_FQN (o : OperatorFamily) : string := cat [MakeFQN (of_Schema o) (of_Name o); " USING "; of_IndexMethod o].
Definition OperatorFamily_entry (o : OperatorFamily) : string * MetadataEntry :=
  ("predata", new_entry (of_Schema o) (of_Name o) "OPERATOR FAMILY" "").
Definition OperatorFamily_id (o : OperatorFamily) : UniqueID := oid_of PG_OPFAMILY_OID (of_Oid o).
#[export] Instance OperatorFamily_object : TOCObjectWithMetadata OperatorFamily := plain_object OperatorFamily_entry OperatorFamily_FQN.
#[export] Instance OperatorFamily_known : KnownObject OperatorFamily. Proof. done. Qed.

Record OperatorClassOperator := { oo_ClassOid : Z; StrategyNumber : Z; oo_Operator : string; Recheck : bool; OrderByFamily : string }.
Record OperatorClassFunction := { ocf_ClassOid : Z; SupportNumber : Z; FunctionName : string; LeftType : string; RightType : string }.
Record OperatorClass := {
  oc_Oid : Z; oc_Schema : string; oc_Name : string; FamilySchema : string; FamilyName : string; oc_IndexMethod : string; oc_Type : string;
  oc_Default : bool; oc_StorageType : string; oc_Operators : list OperatorClassOperator; oc_Functions : list OperatorClassFunction
}.
Definition OperatorClass_FQN (o : OperatorClass) : string := cat [MakeFQN (oc_Schema o) (oc_Name o); " USING "; oc_IndexMethod o].
Definition OperatorClass_entry (o : OperatorClass) : string * MetadataEntry :=
  ("predata", new_entry (oc_Schema o) (oc_Name o) "OPERATOR CLASS" "").
Definition OperatorClass_id (o : OperatorClass) : UniqueID := oid_of PG_OPCLASS_OID (oc_Oid o).
#[export] Instance OperatorClass_object : TOCObjectWithMetadata OperatorClass := plain_object OperatorClass_entry OperatorClass_FQN.
#[export] Instance OperatorClass_known : KnownObject OperatorClass. Proof. done. Qed.

Record TextSearchParser := {
  tsp_Oid : Z; tsp_Schema : string; tsp_Name : string; StartFunc : string; TokenFunc : string; EndFunc : string; LexTypesFunc : string;
  HeadlineFunc : string
}.
Definition TextSearchParser_FQN (t : TextSearchParser) : string := MakeFQN (tsp_Schema t) (tsp_Name t).
Definition TextSearchParser_entry (t : TextSearchParser) : string * MetadataEntry :=
  ("predata", new_entry (tsp_Schema t) (tsp_Name t) "TEXT SEARCH PARSER" "").
Definition TextSearchParser_id (t : TextSearchParser) : UniqueID := oid_of PG_TS_PARSER_OID (tsp_Oid t).
#[export] Instance TextSearchParser_object : TOCObjectWithMetadata TextSearchParser := plain_object TextSearchParser_entry TextSearchParser_FQN.
#[export] Instance TextSearchParser_known : KnownObject TextSearchParser. Proof. done. Qed.

Record TextSearchTemplate := { tst_Oid : Z; tst_Schema : string; tst_Name : string; InitFunc : string; LexizeFunc : string }.
Definition TextSearchTemplate_FQN (t : TextSearchTemplate) : string := MakeFQN (tst_Schema t) (tst_Name t).
Definition TextSearchTemplate_entry (t : TextSearchTemplate) : string * MetadataEntry :=
  ("predata", new_entry (tst_Schema t) (tst_Name t) "TEXT SEARCH TEMPLATE" "").
Definition TextSearchTemplate_id (t : TextSearchTemplate) : UniqueID := oid_of PG_TS_TEMPLATE_OID (tst_Oid t).
#[export] Instance TextSearchTemplate_object : TOCObjectWithMetadata TextSearchTemplate :=
  plain_object TextSearchTemplate_entry TextSearchTemplate_FQN.
#[export] Instance TextSearchTemplate_known : KnownObject TextSearchTemplate. Proof. done. Qed.

Record TextSearchDictionary := { tsd_Oid : Z; tsd_Schema : string; tsd_Name : string; Template : string; InitOption : string }.
Definition TextSearchDictionary_FQN (t : TextSearchDictionary) : string := MakeFQN (tsd_Schema t) (tsd_Name t).
Definition TextSearchDictionary_entry (t : TextSearchDictionary) : string * MetadataEntry :=
  ("predata", new_entry (tsd_Schema t) (tsd_Name t) "TEXT SEARCH DICTIONARY" "").
Definition TextSearchDictionary_id (t : TextSearchDictionary) : UniqueID := oid_of PG_TS_DICT_OID (tsd_Oid t).
#[export] Instance TextSearchDictionary_object : TOCObjectWithMetadata TextSearchDictionary :=
  plain_object TextSearchDictionary_entry TextSearchDictionary_FQN.
#[export] Instance TextSearchDictionary_known : KnownObject TextSearchDictionary. Proof. done. Qed.

Record TextSearchConfiguration := {
  tsc_Oid : Z; tsc_Schema : string; tsc_Name : string; tsc_Parser : string; TokenToDicts : gmap string (list string)
}.
Definition TextSearchConfiguration_FQN (t : TextSearchConfiguration) : string := MakeFQN (tsc_Schema t) (tsc_Name t).
Definition TextSearchConfiguration_entry (t : TextSearchConfiguration) : string * MetadataEntry :=
  ("predata", new_entry (tsc_Schema t) (tsc_Name t) "TEXT SEARCH CONFIGURATION" "").
Definition TextSearchConfiguration_id (t : TextSearchConfiguration) : UniqueID := oid_of PG_TS_CONFIG_OID (tsc_Oid t).
#[export] Instance TextSearchConfiguration_object : TOCObjectWithMetadata TextSearchConfiguration :=
  plain_object TextSearchConfiguration_entry TextSearchConfiguration_FQN.
#[export] Instance TextSearchConfiguration_known : KnownObject TextSearchConfiguration. Proof. done. Qed.

(** * Queries *)

Section queries.
Context `{SemverLib} (version : GPDBVersion) (f : filters).

Definition GetOperators_before5Query : string := "
	SELECT o.oid AS oid,
		quote_ident(n.nspname) AS schema,
		oprname AS name,
		oprcode::regproc AS procedure,
		oprleft::regtype AS leftargtype,
		oprright::regtype AS rightargtype,
		oprcom::regoper AS commutatorop,
		oprnegate::regoper AS negatorop,
		oprrest AS restrictfunction,
		oprjoin AS joinfunction,
		oprcanhash AS canhash
	FROM pg_operator o
		JOIN pg_namespace n on n.oid = o.oprnamespace
	WHERE %s AND oprcode != 0".
Definition GetOperators_atLeast5Query : string := "
	SELECT o.oid AS oid,
		quote_ident(n.nspname) AS schema,
		oprname AS name,
		oprcode::regproc AS procedure,
		oprleft::regtype AS leftargtype,
		oprright::regtype AS rightargtype,
		oprcom::regoper AS commutatorop,
		oprnegate::regoper AS negatorop,
		oprrest AS restrictfunction,
		oprjoin AS joinfunction,
		oprcanmerge AS canmerge,
		oprcanhash AS canhash
	FROM pg_operator o
		JOIN pg_namespace n on n.oid = o.oprnamespace
	WHERE %s AND oprcode != 0
		AND %s".
Definition GetOperators `{Selects Operator} : go (list Operator) :=
  let! before5 := gpdb_before version "5" in
  select_rows (if (before5 : bool) then Sprintf GetOperators_before5Query [SchemaFilterClause f "n"]
               else Sprintf GetOperators_atLeast5Query [SchemaFilterClause f "n"; ExtensionFilterClause "o"]).

Definition GetOperatorFamilies_query : string := "
	SELECT o.oid AS oid,
		quote_ident(n.nspname) AS schema,
		quote_ident(opfname) AS name,
		(SELECT quote_ident(amname) FROM pg_am WHERE oid = opfmethod) AS indexMethod
	FROM pg_opfamily o
		JOIN pg_namespace n on n.oid = o.opfnamespace
	WHERE %s
		AND %s".
Definition GetOperatorFamilies `{Selects OperatorFamily} : go (list OperatorFamily) :=
  select_rows (Sprintf GetOperatorFamilies_query [SchemaFilterClause f "n"; ExtensionFilterClause "o"]).

Definition GetOperatorClassOperators_before5Query : string := "
	SELECT amopclaid AS classoid,
		amopstrategy AS strategynumber,
		amopopr::pg_catalog.regoperator AS operator,
		amopreqcheck AS recheck
	FROM pg_catalog.pg_amop
	ORDER BY amopstrategy".
Definition GetOperatorClassOperators_version5Query : string := "
	SELECT refobjid AS classoid,
		amopstrategy AS strategynumber,
		amopopr::pg_catalog.regoperator AS operator,
		amopreqcheck AS recheck
	FROM pg_catalog.pg_amop ao
		JOIN pg_catalog.pg_depend d ON d.objid = ao.oid
	WHERE refclassid = 'pg_catalog.pg_opclass'::pg_catalog.regclass
		AND classid = 'pg_catalog.pg_amop'::pg_catalog.regclass
	ORDER BY amopstrategy".
Definition GetOperatorClassOperators_atLeast6Query : string := "
	SELECT refobjid AS classoid,
		amopstrategy AS strategynumber,
		amopopr::pg_catalog.regoperator AS operator,
		coalesce(quote_ident(ns.nspname) || '.' || quote_ident(opf.opfname), '') AS orderbyfamily
	FROM pg_catalog.pg_amop ao
		JOIN pg_catalog.pg_depend d ON d.objid = ao.oid
		LEFT JOIN pg_opfamily opf ON opf.oid = ao.amopsortfamily
		LEFT JOIN pg_namespace ns ON ns.oid = opf.opfnamespace
	WHERE refclassid = 'pg_catalog.pg_opclass'::pg_catalog.regclass
		AND classid = 'pg_catalog.pg_amop'::pg_catalog.regclass
	ORDER BY amopstrategy".
Definition GetOperatorClassOperators_atLeastPG14Query : string := "
	SELECT refobjid AS classoid,
		amopstrategy AS strategynumber,
		amopopr::pg_catalog.regoperator AS operator,
		coalesce(quote_ident(ns.nspname) || '.' || quote_ident(opf.opfname), '') AS orderbyfamily
	FROM pg_catalog.pg_amop ao
		JOIN pg_catalog.pg_depend d ON d.objid = ao.oid
		LEFT JOIN pg_opfamily opf ON opf.oid = ao.amopsortfamily
		LEFT JOIN pg_namespace ns ON ns.oid = opf.opfnamespace
	WHERE refclassid = 'pg_catalog.pg_opclass'::pg_catalog.regclass
		AND classid = 'pg_catalog.pg_amop'::pg_catalog.regclass
	UNION
	SELECT opc.oid AS classoid,
		amopstrategy AS strategynumber,
		amopopr::pg_catalog.regoperator AS operator,
		coalesce(quote_ident(ns.nspname) || '.' || quote_ident(opf.opfname), '') AS orderbyfamily
	FROM pg_catalog.pg_amop ao
		JOIN pg_catalog.pg_depend d ON d.objid = ao.oid
		LEFT JOIN pg_opfamily opf ON opf.oid = ao.amopsortfamily
		LEFT JOIN pg_namespace ns ON ns.oid = opf.opfnamespace
    JOIN pg_opclass opc on opc.opcfamily = d.refobjid
	WHERE refclassid = 'pg_catalog.pg_opfamily'::pg_catalog.regclass
		AND classid = 'pg_catalog.pg_amop'::pg_catalog.regclass
	ORDER BY classoid, strategynumber".
Definition GetOperatorClassOperators `{Selects OperatorClassOperator} : go (gmap Z (list OperatorClassOperator)) :=
  let! before5 := gpdb_before version "5" in
  let! is5 := gpdb_is version "5" in
  let! results := select_rows (A := OperatorClassOperator)
    (if (before5 : bool) then GetOperatorClassOperators_before5Query
     else if (is5 : bool) then GetOperatorClassOperators_version5Query
     else if IsCBDBFamily version then GetOperatorClassOperators_atLeastPG14Query
     else GetOperatorClassOperators_atLeast6Query) in
  Ok (rows_by oo_ClassOid results).

Definition GetOperatorClassFunctions_before5Query : string := "
	SELECT amopclaid AS classoid,
		amprocnum AS supportnumber,
		amproc::regprocedure AS functionname
	FROM pg_catalog.pg_amproc
	ORDER BY amprocnum".
Definition GetOperatorClassFunctions_atLeast5Query : string := "
	SELECT refobjid AS classoid,
		amprocnum AS supportnumber,
		amproclefttype::regtype,
		amprocrighttype::regtype,
		amproc::regprocedure::text AS functionname
	FROM pg_catalog.pg_amproc ap
		JOIN pg_catalog.pg_depend d ON d.objid = ap.oid
	WHERE refclassid = 'pg_catalog.pg_opclass'::pg_catalog.regclass
		AND classid = 'pg_catalog.pg_amproc'::pg_catalog.regclass
	ORDER BY amprocnum".
Definition GetOperatorClassFunctions `{Selects OperatorClassFunction} : go (gmap Z (list OperatorClassFunction)) :=
  let! before5 := gpdb_before version "5" in
  let! results := select_rows (A := OperatorClassFunction)
    (if (before5 : bool) then GetOperatorClassFunctions_before5Query else GetOperatorClassFunctions_atLeast5Query) in
  Ok (rows_by ocf_ClassOid results).

Definition GetOperatorClasses_before5Query : string := "
	SELECT c.oid AS oid,
		quote_ident(cls_ns.nspname) AS schema,
		quote_ident(opcname) AS name,
		'' AS familyschema,
		'' AS familyname,
		(SELECT amname FROM pg_catalog.pg_am WHERE oid = opcamid) AS indexmethod,
		opcintype::pg_catalog.regtype AS type,
		opcdefault AS default,
		opckeytype::pg_catalog.regtype AS storagetype
	FROM pg_catalog.pg_opclass c
		JOIN pg_catalog.pg_namespace cls_ns ON cls_ns.oid = opcnamespace
	WHERE %s".
Definition GetOperatorClasses_atLeast5Query : string := "
	SELECT c.oid AS oid,
		quote_ident(cls_ns.nspname) AS schema,
		quote_ident(opcname) AS name,
		quote_ident(fam_ns.nspname) AS familyschema,
		quote_ident(opfname) AS familyname,
		(SELECT amname FROM pg_catalog.pg_am WHERE oid = opcmethod) AS indexmethod,
		opcintype::pg_catalog.regtype AS type,
		opcdefault AS default,
		opckeytype::pg_catalog.regtype AS storagetype
	FROM pg_catalog.pg_opclass c
		LEFT JOIN pg_catalog.pg_opfamily f ON f.oid = opcfamily
		JOIN pg_catalog.pg_namespace cls_ns ON cls_ns.oid = opcnamespace
		JOIN pg_catalog.pg_namespace fam_ns ON fam_ns.oid = opfnamespace
	WHERE %s
		AND %s".
Definition with_members (operators : gmap Z (list OperatorClassOperator)) (functions : gmap Z (list OperatorClassFunction))
    (o : OperatorClass) : OperatorClass :=
  {| oc_Oid := oc_Oid o; oc_Schema := oc_Schema o; oc_Name := oc_Name o; FamilySchema := FamilySchema o; FamilyName := FamilyName o;
     oc_IndexMethod := oc_IndexMethod o; oc_Type := oc_Type o; oc_Default := oc_Default o; oc_StorageType := oc_StorageType o;
     oc_Operators := default [] (operators !! oc_Oid o); oc_Functions := default [] (functions !! oc_Oid o) |}.
Definition GetOperatorClasses `{Selects OperatorClass} `{Selects OperatorClassOperator} `{Selects OperatorClassFunction} : go (list OperatorClass) :=
  let! before5 := gpdb_before version "5" in
  let! results := select_rows (A := OperatorClass)
    (if (before5 : bool) then Sprintf GetOperatorClasses_before5Query [SchemaFilterClause f "cls_ns"]
     else Sprintf GetOperatorClasses_atLeast5Query [SchemaFilterClause f "cls_ns"; ExtensionFilterClause "c"]) in
  let! operators := GetOperatorClassOperators in
  let! functions := GetOperatorClassFunctions in
  Ok (map (with_members operators functions) results).

(** ** Text search *)

Definition GetTextSearchParsers_query : string := "
	SELECT p.oid,
		quote_ident(nspname) AS schema,
		quote_ident(prsname) AS name,
		prsstart::regproc::text AS startfunc,
		prstoken::regproc::text AS tokenfunc,
		prsend::regproc::text AS endfunc,
		prslextype::regproc::text AS lextypesfunc,
		CASE
			WHEN prsheadline::regproc::text = '-'
			THEN '' ELSE prsheadline::regproc::text
		END AS headlinefunc 
	FROM pg_ts_parser p
		JOIN pg_namespace n ON n.oid = p.prsnamespace
	WHERE %s
		AND %s
	ORDER BY prsname".
Definition GetTextSearchParsers `{Selects TextSearchParser} : go (list TextSearchParser) :=
  select_rows (Sprintf GetTextSearchParsers_query [SchemaFilterClause f "n"; ExtensionFilterClause "p"]).
Definition GetTextSearchTemplates_query : string := "
	SELECT p.oid,
		quote_ident(nspname) as schema,
		quote_ident(tmplname) AS name,
		CASE
			WHEN tmplinit::regproc::text = '-'
			THEN '' ELSE tmplinit::regproc::text
		END AS initfunc,
		tmpllexize::regproc::text AS lexizefunc
	FROM pg_ts_template p
		JOIN pg_namespace n ON n.oid = p.tmplnamespace
	WHERE %s
		AND %s
	ORDER BY tmplname".
Definition GetTextSearchTemplates `{Selects TextSearchTemplate} : go (list TextSearchTemplate) :=
  select_rows (Sprintf GetTextSearchTemplates_query [SchemaFilterClause f "n"; ExtensionFilterClause "p"]).
Definition GetTextSearchDictionaries_query : string := "
	SELECT d.oid,
		quote_ident(dict_ns.nspname) as schema,
		quote_ident(dictname) AS name,
		quote_ident(tmpl_ns.nspname) || '.' || quote_ident(t.tmplname) AS template,
		COALESCE(dictinitoption, '') AS initoption
	FROM pg_ts_dict d
		JOIN pg_ts_template t ON t.oid = d.dicttemplate
		JOIN pg_namespace tmpl_ns ON tmpl_ns.oid = t.tmplnamespace
		JOIN pg_namespace dict_ns ON dict_ns.oid = d.dictnamespace
	WHERE %s
		AND %s
	ORDER BY dictname".
Definition GetTextSearchDictionaries `{Selects TextSearchDictionary} : go (list TextSearchDictionary) :=
  select_rows (Sprintf GetTextSearchDictionaries_query [SchemaFilterClause f "dict_ns"; ExtensionFilterClause "d"]).

Record ParserTokenType := { TokenID : Z; Alias : string }.
(** The token types of the parsers asked for so far. *)
Record ParserTokenTypes := { forParser : gmap Z (list ParserTokenType) }.
Definition NewParserTokenTypes : ParserTokenTypes := {| forParser := ∅ |}.
Definition TokenName_query (parserOid : Z) : string :=
  Sprintf "SELECT tokid AS tokenid, alias FROM pg_catalog.ts_token_type('%d'::pg_catalog.oid)" [Itoa parserOid].
Definition token_alias (typesForParser : list ParserTokenType) (tokenTypeID : Z) : string :=
  default "" (Alias <$> hd_error (filter (λ t, TokenID t = tokenTypeID) typesForParser)).
Definition TokenName `{Selects ParserTokenType} (tokenTypes : ParserTokenTypes) (parserOid tokenTypeID : Z) : go (string * ParserTokenTypes) :=
  match forParser tokenTypes !! parserOid with
  | Some typesForParser => Ok (token_alias typesForParser tokenTypeID, tokenTypes)
  | None =>
      let! typesForParser := select_rows (A := ParserTokenType) (TokenName_query parserOid) in
      Ok (token_alias typesForParser tokenTypeID, {| forParser := <[parserOid := typesForParser]> (forParser tokenTypes) |})
  end.

Record TypeMapping := { tm_ConfigOid : Z; tm_TokenType : Z; Dictionary : string }.
Definition getTypeMappings_query : string := "
	SELECT mapcfg,
		maptokentype,
		mapdict::pg_catalog.regdictionary AS mapdictname
	FROM pg_ts_config_map m".
Definition getTypeMappings `{Selects TypeMapping} : go (gmap Z (list TypeMapping)) :=
  let! rows := select_rows (A := TypeMapping) getTypeMappings_query in Ok (rows_by tm_ConfigOid rows).

Record config_row := { cr_Schema : string; cr_Name : string; ConfigOid : Z; ParserOid : Z; ParserFQN : string }.
Definition add_mapping `{Selects ParserTokenType} (parserOid : Z) (st : gmap string (list string) * ParserTokenTypes) (mapping : TypeMapping)
    : go (gmap string (list string) * ParserTokenTypes) :=
  let! (tokenName, parserTokens) := TokenName st.2 parserOid (tm_TokenType mapping) in
  Ok (<[tokenName := default [] (st.1 !! tokenName) ++ [Dictionary mapping]]> st.1, parserTokens).
Definition config_step `{Selects ParserTokenType} (typeMappings : gmap Z (list TypeMapping))
    (st : list TextSearchConfiguration * ParserTokenTypes) (row : config_row) : go (list TextSearchConfiguration * ParserTokenTypes) :=
  let! (tokenToDicts, parserTokens) := go_fold (add_mapping (ParserOid row)) (∅, st.2) (default [] (typeMappings !! ConfigOid row)) in
  Ok (st.1 ++ [{| tsc_Oid := ConfigOid row; tsc_Schema := cr_Schema row; tsc_Name := cr_Name row; tsc_Parser := ParserFQN row;
                  TokenToDicts := tokenToDicts |}], parserTokens).
Definition GetTextSearchConfigurations_query : string := "
	SELECT c.oid AS configoid,
		quote_ident(cfg_ns.nspname) AS schema,
		quote_ident(cfgname) AS name,
		cfgparser AS parseroid,
		quote_ident(prs_ns.nspname) || '.' || quote_ident(prsname) AS parserfqn
	FROM pg_ts_config c
		JOIN pg_ts_parser p ON p.oid = c.cfgparser
		JOIN pg_namespace cfg_ns ON cfg_ns.oid = c.cfgnamespace
		JOIN pg_namespace prs_ns ON prs_ns.oid = prsnamespace
	WHERE %s
		AND %s
	ORDER BY cfgname".
Definition GetTextSearchConfigurations `{Selects config_row} `{Selects TypeMapping} `{Selects ParserTokenType} : go (list TextSearchConfiguration) :=
  let! results := select_rows (A := config_row)
    (Sprintf GetTextSearchConfigurations_query [SchemaFilterClause f "cfg_ns"; ExtensionFilterClause "c"]) in
  let! typeMappings := getTypeMappings in
  let! (configurations, _) := go_fold (config_step typeMappings) ([], NewParserTokenTypes) results in
  Ok configurations.
End queries.

(** * Printers *)

Section printers.
Context `{SemverLib} `{MapRange} `{SortSlice} (env : print_env).

Definition operator_fields (operator : Operator) : list string :=
  let field name value none := when (negb (bool_decide (value = none))) [cat [name; " = "; value]] in
  let op name value := when (negb (bool_decide (value = "0"))) [cat [name; " = OPERATOR("; value; ")"]] in
  field "LEFTARG" (LeftArgType operator) "-" ++ field "RIGHTARG" (RightArgType operator) "-" ++
  op "COMMUTATOR" (CommutatorOp operator) ++ op "NEGATOR" (NegatorOp operator) ++
  field "RESTRICT" (RestrictFunction operator) "-" ++ field "JOIN" (JoinFunction operator) "-" ++
  when (CanHash operator) ["HASHES"] ++ when (CanMerge operator) ["MERGES"].
Definition create_operator : string := "

CREATE OPERATOR %s.%s (
	%s = %s,
	%s
);".
Definition PrintCreateOperatorStatement (operator : Operator) (operatorMetadata : ObjectMetadata) : go (list piece) :=
  let! v7 := gpdb_or_family (srcDBVersion env) "7" in
  print_object env operator
    [Sprintf create_operator [o_Schema operator; o_Name operator; if (v7 : bool) then "FUNCTION" else "PROCEDURE"; Procedure operator;
                              Join (operator_fields operator) (cat [","; nl; tab])]] operatorMetadata "".

Definition print_family (operatorFamilyMetadata : MetadataMap) (operatorFamily : OperatorFamily) : go (list piece) :=
  print_object env operatorFamily [cat [nl2; "CREATE OPERATOR FAMILY "; OperatorFamily_FQN operatorFamily; ";"]]
    (metadata_of operatorFamilyMetadata (OperatorFamily_id operatorFamily)) "".
Definition PrintCreateOperatorFamilyStatements (operatorFamilies : list OperatorFamily) (operatorFamilyMetadata : MetadataMap) : go (list piece) :=
  for_each operatorFamilies (print_family operatorFamilyMetadata).

Definition class_operator (operator : OperatorClassOperator) : string :=
  cat (["OPERATOR "; Itoa (StrategyNumber operator); " "; oo_Operator operator] ++ when (Recheck operator) [" RECHECK"] ++
       when (non_empty (OrderByFamily operator)) [" FOR ORDER BY "; OrderByFamily operator]).
Definition class_function (function : OperatorClassFunction) : string :=
  cat (["FUNCTION "; Itoa (SupportNumber function); " "] ++
       when (non_empty (LeftType function) && non_empty (RightType function)) ["("; LeftType function; ", "; RightType function; ") "] ++
       [FunctionName function]).
Definition class_clauses (operatorClass : OperatorClass) : list string :=
  let clauses := (class_operator <$> oc_Operators operatorClass) ++ (class_function <$> oc_Functions operatorClass) in
  let no_storage := bool_decide (oc_StorageType operatorClass = "-") in
  clauses ++ when (negb no_storage || bool_decide (clauses = []))
    ["STORAGE " +:+ (if no_storage then oc_Type operatorClass else oc_StorageType operatorClass)].
Definition for_type (operatorClass : OperatorClass) : string :=
  cat (when (oc_Default operatorClass) ["DEFAULT "] ++ ["FOR TYPE "; oc_Type operatorClass; " USING "; oc_IndexMethod operatorClass] ++
       when (non_empty (FamilyName operatorClass) && negb (bool_decide (FamilyName operatorClass = oc_Name operatorClass)))
         [" FAMILY "; MakeFQN (FamilySchema operatorClass) (FamilyName operatorClass)]).
Definition PrintCreateOperatorClassStatement (operatorClass : OperatorClass) (operatorClassMetadata : ObjectMetadata) : go (list piece) :=
  print_object env operatorClass
    [cat [nl2; "CREATE OPERATOR CLASS "; oc_Schema operatorClass; "."; oc_Name operatorClass]; cat [nl; tab; for_type operatorClass];
     cat [" AS"; nl; tab; Join (class_clauses operatorClass) (cat [","; nl; tab]); ";"]] operatorClassMetadata "".

(** ** Text search *)

Definition PrintCreateTextSearchParserStatement (parser : TextSearchParser) (parserMetadata : ObjectMetadata) : go (list piece) :=
  let line name value sep := cat [nl; tab; name; " = "; value; sep] in
  print_object env parser
    ([cat [nl2; "CREATE TEXT SEARCH PARSER "; TextSearchParser_FQN parser; " ("]; line "START" (StartFunc parser) ",";
      line "GETTOKEN" (TokenFunc parser) ","; line "END" (EndFunc parser) ","; line "LEXTYPES" (LexTypesFunc parser) ""] ++
     when (non_empty (HeadlineFunc parser)) ["," +:+ line "HEADLINE" (HeadlineFunc parser) ""] ++ [nl +:+ ");"]) parserMetadata "".
Definition PrintCreateTextSearchTemplateStatement (template : TextSearchTemplate) (templateMetadata : ObjectMetadata) : go (list piece) :=
  print_object env template
    ([cat [nl2; "CREATE TEXT SEARCH TEMPLATE "; TextSearchTemplate_FQN template; " ("]] ++
     when (non_empty (InitFunc template)) [cat [nl; tab; "INIT = "; InitFunc template; ","]] ++
     [cat [nl; tab; "LEXIZE = "; LexizeFunc template]; nl +:+ ");"]) templateMetadata "".
Definition PrintCreateTextSearchDictionaryStatement (dictionary : TextSearchDictionary) (dictionaryMetadata : ObjectMetadata) : go (list piece) :=
  print_object env dictionary
    ([cat [nl2; "CREATE TEXT SEARCH DICTIONARY "; TextSearchDictionary_FQN dictionary; " ("]; cat [nl; tab; "TEMPLATE = "; Template dictionary]] ++
     when (non_empty (InitOption dictionary)) [cat [","; nl; tab; InitOption dictionary]] ++ [nl +:+ ");"]) dictionaryMetadata "".

(** The mappings in the order of their tokens, each an entry of the
    configuration. *)
Definition config_tokens (configuration : TextSearchConfiguration) : list string :=
  sort_slice id (range_map 75 (TokenToDicts configuration)).*1.
Definition mapping_piece (configuration : TextSearchConfiguration) (token : string) : piece :=
  record configuration
    [cat [nl2; "ALTER TEXT SEARCH CONFIGURATION "; TextSearchConfiguration_FQN configuration];
     cat [nl; tab; "ADD MAPPING FOR "; chr DQ; token; chr DQ; " WITH "; Join (default [] (TokenToDicts configuration !! token)) ", "; ";"]].
Definition PrintCreateTextSearchConfigurationStatement (configuration : TextSearchConfiguration) (configurationMetadata : ObjectMetadata)
    : go (list piece) :=
  let! metadata := PrintObjectMetadata env configurationMetadata configuration "" in
  Ok (record configuration
        [cat [nl2; "CREATE TEXT SEARCH CONFIGURATION "; TextSearchConfiguration_FQN configuration; " ("];
         cat [nl; tab; "PARSER = "; tsc_Parser configuration]; nl +:+ ");"]
      :: (mapping_piece configuration <$> config_tokens configuration) ++ metadata).
End printers.

(** * The pieces are known to the table of contents *)

Section known_printers.
Context `{SemverLib} `{MapRange} `{SortSlice} (env : print_env).
Lemma known_PrintCreateOperatorStatement o m : Known (PrintCreateOperatorStatement env o m).
Proof. unfold PrintCreateOperatorStatement. known_printer. Qed.
Lemma known_PrintCreateOperatorFamilyStatements l m : Known (PrintCreateOperatorFamilyStatements env l m).
Proof. unfold PrintCreateOperatorFamilyStatements, print_family. known_printer. Qed.
Lemma known_PrintCreateOperatorClassStatement o m : Known (PrintCreateOperatorClassStatement env o m).
Proof. unfold PrintCreateOperatorClassStatement. known_printer. Qed.
Lemma known_PrintCreateTextSearchParserStatement t m : Known (PrintCreateTextSearchParserStatement env t m).
Proof. unfold PrintCreateTextSearchParserStatement. known_printer. Qed.
Lemma known_PrintCreateTextSearchTemplateStatement t m : Known (PrintCreateTextSearchTemplateStatement env t m).
Proof. unfold PrintCreateTextSearchTemplateStatement. known_printer. Qed.
Lemma known_PrintCreateTextSearchDictionaryStatement t m : Known (PrintCreateTextSearchDictionaryStatement env t m).
Proof. unfold PrintCreateTextSearchDictionaryStatement. known_printer. Qed.
Lemma known_PrintCreateTextSearchConfigurationStatement t m : Known (PrintCreateTextSearchConfigurationStatement env t m).
Proof.
  unfold PrintCreateTextSearchConfigurationStatement. eapply Known_map; [apply known_PrintObjectMetadata; apply _|].
  intros. constructor; [apply known_record|]. apply Forall_app. split; [|done]. apply Forall_fmap, Forall_true. intros. apply known_record.
Qed.
End known_printers.

#[export] Hint Resolve known_PrintCreateOperatorStatement known_PrintCreateOperatorFamilyStatements known_PrintCreateOperatorClassStatement
  known_PrintCreateTextSearchParserStatement known_PrintCreateTextSearchTemplateStatement known_PrintCreateTextSearchDictionaryStatement
  known_PrintCreateTextSearchConfigurationStatement : pieces.
