(* ===== verification/Externals.v ===== *)
(** External tables, protocols and external partitions
    ([meta/builtin/queries_externals.go], [predata_externals.go]). *)
From S2P Require Import Prelude Regexp Utils Toc Version Scheduler Dependencies Acl Functions.

Definition PG_EXTPROTOCOL_OID : Z := 7175.

(** * Structures *)

Inductive ext_type := READABLE | READABLE_WEB | WRITABLE | WRITABLE_WEB.
#[export] Instance ext_type_eq : EqDecision ext_type.
Proof. solve_decision. Defined.
(** [None] is -1, the value before the location is looked at. *)
Inductive ext_protocol := FILE | GPFDIST | GPHDFS | HTTP | S3.
#[export] Instance ext_protocol_eq : EqDecision ext_protocol.
Proof. solve_decision. Defined.

Record ExternalTableDefinition := {
  x_Oid : Z; x_Type : ext_type; x_Protocol : option ext_protocol; Location : NullString; x_ExecLocation : string;
  FormatType : string; FormatOpts : string; Command : string; RejectLimit : Z; RejectLimitType : string;
  ErrTableName : string; ErrTableSchema : string; LogErrors : bool; LogErrPersist : bool; x_Encoding : string;
  Writable : bool; URIs : list string
}.
Definition noExternal : ExternalTableDefinition :=
  {| x_Oid := 0; x_Type := READABLE; x_Protocol := None; Location := null_string; x_ExecLocation := ""; FormatType := ""; FormatOpts := "";
     Command := ""; RejectLimit := 0; RejectLimitType := ""; ErrTableName := ""; ErrTableSchema := ""; LogErrors := false;
     LogErrPersist := false; x_Encoding := ""; Writable := false; URIs := [] |}.

(** The rows of one table carry one location each: the first row gives the
    definition, every row adds its location. *)
Definition with_uri (d : ExternalTableDefinition) (location : NullString) : ExternalTableDefinition :=
  {| x_Oid := x_Oid d; x_Type := x_Type d; x_Protocol := x_Protocol d; Location := Location d; x_ExecLocation := x_ExecLocation d;
     FormatType := FormatType d; FormatOpts := FormatOpts d; Command := Command d; RejectLimit := RejectLimit d;
     RejectLimitType := RejectLimitType d; ErrTableName := ErrTableName d; ErrTableSchema := ErrTableSchema d;
     LogErrors := LogErrors d; LogErrPersist := LogErrPersist d; x_Encoding := x_Encoding d; Writable := Writable d;
     URIs := URIs d ++ when (NS_Valid location && non_empty (NS_String location)) [NS_String location] |}.
Definition ext_step (m : gmap Z ExternalTableDefinition) (result : ExternalTableDefinition) : gmap Z ExternalTableDefinition :=
  let known := default noExternal (m !! x_Oid result) in
  let d := if nonzero (x_Oid known) then known else result in
  <[x_Oid result := with_uri d (Location result)]> m.
Definition external_definitions (results : list ExternalTableDefinition) : gmap Z ExternalTableDefinition :=
  foldl ext_step ∅ results.

Record ExternalProtocol := {
  pr_Oid : Z; pr_Name : string; pr_Owner : string; Trusted : bool; ReadFunction : Z; WriteFunction : Z; pr_Validator : Z
}.
Definition ExternalProtocol_entry (p : ExternalProtocol) : string * MetadataEntry :=
  ("predata", new_entry "" (pr_Name p) "PROTOCOL" "").
#[export] Instance ExternalProtocol_object : TOCObjectWithMetadata ExternalProtocol := plain_object ExternalProtocol_entry pr_Name.
#[export] Instance ExternalProtocol_known : KnownObject ExternalProtocol. Proof. done. Qed.
Definition ExternalProtocol_id (p : ExternalProtocol) : UniqueID := oid_of PG_EXTPROTOCOL_OID (pr_Oid p).

Record PartitionInfo := {
  PartitionRuleOid : Z; PartitionParentRuleOid : Z; ParentRelationOid : Z; ParentSchema : string; ParentRelationName : string;
  RelationOid : Z; PartitionName : string; PartitionRank : Z; pi_IsExternal : bool
}.
Definition noPartition : PartitionInfo :=
  {| PartitionRuleOid := 0; PartitionParentRuleOid := 0; ParentRelationOid := 0; ParentSchema := ""; ParentRelationName := "";
     RelationOid := 0; PartitionName := ""; PartitionRank := 0; pi_IsExternal := false |}.
Definition PartitionInfo_entry (p : PartitionInfo) : string * MetadataEntry :=
  ("predata", new_entry (ParentSchema p) (ParentRelationName p) "EXCHANGE PARTITION" "").
#[export] Instance PartitionInfo_object : TOCObject PartitionInfo := PartitionInfo_entry.
#[export] Instance PartitionInfo_known : KnownObject PartitionInfo. Proof. done. Qed.
Definition partition_infos (results : list PartitionInfo) : list PartitionInfo * gmap Z PartitionInfo :=
  (filter (λ p, pi_IsExternal p = true) results, foldl (λ m p, <[PartitionRuleOid p := p]> m) ∅ results).

(** * Clauses *)

(** A location without [://] is cut at index -1. *)
Definition protocol_of (prefix : string) : option ext_protocol :=
  if bool_decide (prefix = "file") then Some FILE
  else if bool_decide (prefix ∈ ["gpfdist"; "gpfdists"]) then Some GPFDIST
  else if bool_decide (prefix = "gphdfs") then Some GPHDFS
  else if bool_decide (prefix ∈ ["http"; "https"]) then Some HTTP
  else if bool_decide (prefix = "s3") then Some S3 else None.
Definition DetermineExternalTableCharacteristics (d : ExternalTableDefinition) : go (ext_type * option ext_protocol) :=
  let web := if Writable d then WRITABLE_WEB else READABLE_WEB in
  if negb (NS_Valid (Location d)) || bool_decide (NS_String (Location d) = "") then Ok (web, Some HTTP)
  else
    let tableType := if HasPrefix (NS_String (Location d)) "http" then web else if Writable d then WRITABLE else READABLE in
    match Index (NS_String (Location d)) "://" with
    | None => Panic "slice bounds out of range [:-1]"
    | Some i => Ok (tableType, protocol_of (String.substring 0 i (NS_String (Location d))))
    end.

Definition generateExecuteStatement (d : ExternalTableDefinition) : go string :=
  let execType := Split (x_ExecLocation d) (byte 58) in
  let! kind := index execType 0 in
  let execute := cat ["EXECUTE "; quoted_literal (Command d)] in
  if bool_decide ((kind : string) = "HOST") then let! h := index execType 1 in Ok (cat [execute; " ON HOST "; single_quoted h])
  else if bool_decide (kind = "MASTER_ONLY") then Ok (execute +:+ " ON MASTER")
  else if bool_decide (kind = "COORDINATOR_ONLY") then Ok (execute +:+ " ON COORDINATOR")
  else if bool_decide (kind = "PER_HOST") then Ok (execute +:+ " ON HOST")
  else if bool_decide (kind = "SEGMENT_ID") then let! h := index execType 1 in Ok (cat [execute; " ON SEGMENT "; h])
  else if bool_decide (kind = "TOTAL_SEGS") then let! h := index execType 1 in Ok (cat [execute; " ON "; h])
  else Ok execute.

(** ** Format options *)

(** [string(b)] of a byte: the UTF-8 encoding of the code point [b], of two bytes
    from 128 on. *)
Definition rune_text (c : ascii) : string :=
  let n := nat_of_ascii c in
  if n <? 128 then chr c else String (byte (192 + n / 64)) (chr (byte (128 + n mod 64))).

Record tokenizing := { tk_inString : bool; tk_list : list string; tk_curr : string }.
(** One round of the loop on byte [c] with [next] behind it. *)
Definition token_step (st : tokenizing) (c : ascii) (next : option ascii) : tokenizing :=
  let add s := s +:+ rune_text c in
  if bool_decide (c = SQ) then
    if tk_inString st then
      if bool_decide (next = None ∨ next = Some " "%char)
      then {| tk_inString := false; tk_list := tk_list st; tk_curr := add (tk_curr st) |}
      else {| tk_inString := true; tk_list := tk_list st; tk_curr := add (tk_curr st +:+ "\") |}
    else {| tk_inString := true; tk_list := tk_list st; tk_curr := add "E" |}
  else if bool_decide (c = "\"%char) then
    {| tk_inString := tk_inString st; tk_list := tk_list st; tk_curr := add (tk_curr st +:+ "\") |}
  else if bool_decide (c = " "%char) && negb (tk_inString st) then
    {| tk_inString := false; tk_list := tk_list st ++ [tk_curr st]; tk_curr := "" |}
  else {| tk_inString := tk_inString st; tk_list := tk_list st; tk_curr := add (tk_curr st) |}.
Fixpoint tokenize (st : tokenizing) (s : string) : list string :=
  match s with
  | EmptyString => tk_list st ++ [tk_curr st]
  | String c s' => tokenize (token_step st c (String.get 0 s')) s'
  end.
Definition tokenizeAndEscapeFormatOpts (formatOpts : string) : list string :=
  tokenize {| tk_inString := false; tk_list := []; tk_curr := "" |} formatOpts.

Fixpoint token_pairs (tokens : list string) : list string :=
  match tokens with
  | key :: value :: rest => cat [key; " = "; value] :: token_pairs rest
  | _ => []
  end.
Definition makeCustomFormatOpts (tokens : list string) : string := Join (token_pairs tokens) ", ".

Definition format_name (formatType : string) : string :=
  cat (switch [("t", "TEXT"); ("c", "CSV"); ("b", "CUSTOM"); ("a", "AVRO"); ("p", "PARQUET")] formatType).
Definition GenerateFormatStatement (d : ExternalTableDefinition) : string :=
  let formatType := format_name (FormatType d) in
  let opts :=
    if non_empty (FormatOpts d) then
      let formatTokens := tokenizeAndEscapeFormatOpts (TrimSpace (FormatOpts d)) in
      cat [" ("; if bool_decide (formatType ∈ ["TEXT"; "CSV"]) then Join formatTokens " " else makeCustomFormatOpts formatTokens; ")"]
    else "" in
  cat ["FORMAT "; single_quoted formatType; opts].

Definition generateLogErrorStatement (d : ExternalTableDefinition) : string :=
  cat ((if LogErrors d then [if LogErrPersist d then nl +:+ "LOG ERRORS PERSISTENTLY" else nl +:+ "LOG ERRORS"]
        else when (non_empty (ErrTableName d) && non_empty (ErrTableSchema d))
          [cat [nl; "LOG ERRORS INTO "; MakeFQN (ErrTableSchema d) (ErrTableName d)]]) ++
       when (nonzero (RejectLimit d))
         ([cat [nl; "SEGMENT REJECT LIMIT "; Itoa (RejectLimit d); " "]] ++ switch [("r", "ROWS"); ("p", "PERCENT")] (RejectLimitType d))).

(** The texts of [PrintExternalTableStatements], for the type and protocol
    already determined. *)
Definition PrintExternalTableStatements (d : ExternalTableDefinition) : go (list string) :=
  let isT t := bool_decide (x_Type d = t) in
  let! execute := (if (isT READABLE_WEB || isT WRITABLE_WEB) && non_empty (Command d)
                   then let! e := generateExecuteStatement d in Ok [e] else Ok []) in
  Ok (when (negb (isT WRITABLE_WEB) && bool_decide (URIs d ≠ []))
        [cat ["LOCATION ("; nl; tab; single_quoted (Join (URIs d) (cat [chr SQ; ","; nl; tab; chr SQ])); nl; ")"]] ++
      when (isT READABLE || (isT WRITABLE_WEB && bool_decide (x_Protocol d = Some S3)))
        (switch [("MASTER_ONLY", " ON MASTER"); ("COORDINATOR_ONLY", " ON COORDINATOR")] (x_ExecLocation d)) ++
      execute ++ [nl; GenerateFormatStatement d; nl; "ENCODING " +:+ single_quoted (x_Encoding d)] ++
      when (isT READABLE || isT READABLE_WEB) [generateLogErrorStatement d]).

(** * Protocols *)

Definition PrintCreateExternalProtocolStatement `{SemverLib} (env : print_env) (protocol : ExternalProtocol)
    (funcInfoMap : FunctionInfoMap) (protoMetadata : ObjectMetadata) : go (list piece) :=
  let funcs := [("readfunc = ", ReadFunction protocol); ("writefunc = ", WriteFunction protocol); ("validatorfunc = ", pr_Validator protocol)] in
  let hasUserDefinedFunc := existsb (λ f, match funcInfoMap !! f.2 with Some i => negb (IsInternal i) | None => false end) funcs in
  let protocolFunctions := (λ f, f.1 +:+ qualified funcInfoMap f.2) <$> filter (λ f, nonzero f.2 = true) funcs in
  let! more := PrintObjectMetadata env protoMetadata protocol "" in
  Ok (when hasUserDefinedFunc
        [record protocol ([nl2 +:+ "CREATE "] ++ when (Trusted protocol) ["TRUSTED "] ++
           [cat ["PROTOCOL "; pr_Name protocol; " ("; Join protocolFunctions ", "; ");"; nl]])] ++ more).

Lemma known_PrintCreateExternalProtocolStatement `{SemverLib} env p i m : Known (PrintCreateExternalProtocolStatement env p i m).
Proof.
  intros ps Hps. apply bind_Ok in Hps as (more & Hmore & [= <-]). apply Forall_app. split.
  - unfold when. match goal with |- Forall _ (if ?b then _ else _) => destruct b end; [|constructor].
    constructor; [apply known_record|constructor].
  - refine (known_PrintObjectMetadata env _ _ _ _ Hmore).
Qed.
#[export] Hint Resolve known_PrintCreateExternalProtocolStatement : pieces.

(** * Partitions *)

(** The chain of [ALTER PARTITION] from a partition up to its root; a rule that
    is not in the map ends it. *)
Fixpoint partition_path (fuel : nat) (partInfoMap : gmap Z PartitionInfo) (current : PartitionInfo) (acc : string) : go string :=
  if nonzero (PartitionParentRuleOid current) then
    match fuel with
    | O => Panic "out of fuel"
    | S fuel' =>
        let parent := default noPartition (partInfoMap !! PartitionParentRuleOid current) in
        let step := if bool_decide (PartitionName parent = "")
                    then cat ["ALTER PARTITION FOR (RANK("; Itoa (PartitionRank parent); ")) "]
                    else cat ["ALTER PARTITION "; PartitionName parent; " "] in
        partition_path fuel' partInfoMap parent (step +:+ acc)
    end
  else Ok acc.
Definition exchange_partition (tableNameMap : gmap Z string) (partInfoMap : gmap Z PartitionInfo) (p : PartitionInfo) : go (list piece) :=
  let extPartRelationName := default "" (tableNameMap !! RelationOid p) in
  if bool_decide (extPartRelationName = "") then Ok []
  else
    let! alterPartitionStr := partition_path (S (size partInfoMap)) partInfoMap p "" in
    Ok [record p
      [cat [nl2; "ALTER TABLE "; MakeFQN (ParentSchema p) (ParentRelationName p); " "; alterPartitionStr];
       if bool_decide (PartitionName p = "") then cat ["EXCHANGE PARTITION FOR (RANK("; Itoa (PartitionRank p); ")) "]
       else cat ["EXCHANGE PARTITION "; PartitionName p; " "];
       cat ["WITH TABLE "; extPartRelationName; " WITHOUT VALIDATION;"]; cat [nl2; "DROP TABLE "; extPartRelationName; ";"]]].
(** [PrintExchangeExternalPartitionStatements] on the names of the tables. *)
Definition print_exchanges (extPartitions : list PartitionInfo) (partInfoMap : gmap Z PartitionInfo) (tableNameMap : gmap Z string) : go (list piece) :=
  for_each extPartitions (exchange_partition tableNameMap partInfoMap).

Lemma known_print_exchanges e i t : Known (print_exchanges e i t).
Proof.
  apply Known_for_each. intros p. unfold exchange_partition. case_bool_decide; [apply Known_Ok; constructor|].
  apply Known_bind. intros a. apply Known_Ok. constructor; [apply known_record|constructor].
Qed.
#[export] Hint Resolve known_print_exchanges : pieces.

(** * Format options are read back *)

(** The options of a format as the catalogue keeps them: a keyword and a value
    between apostrophes that is not escaped. *)
Definition option_text (o : string * string) : string := cat [o.1; " '"; o.2; "'"].
Definition format_text (opts : list (string * string)) : string := Join (option_text <$> opts) " ".
Definition BSL : ascii := byte 92.

(** The body of an escape string constant of the server. *)
Fixpoint escape (s : string) : string :=
  match s with
  | EmptyString => EmptyString
  | String c s' => if bool_decide (c = SQ ∨ c = BSL) then String BSL (String c (escape s')) else String c (escape s')
  end.
Fixpoint lex_escaped (s : string) : option (string * string) :=
  match s with
  | EmptyString => None
  | String c s' =>
      if bool_decide (c = SQ) then Some (EmptyString, s')
      else if bool_decide (c = BSL) then
        match s' with
        | String d s'' => '(body, rest) ← lex_escaped s''; Some (String d body, rest)
        | EmptyString => None
        end
      else '(body, rest) ← lex_escaped s'; Some (String c body, rest)
  end.
(** The list of keywords and escape strings in a [FORMAT] clause. *)
Fixpoint read_options (fuel : nat) (s : string) : option (list (string * string)) :=
  match fuel with
  | O => None
  | S fuel' =>
      '(key, body) ← cut " E'" s;
      '(value, rest) ← lex_escaped body;
      match rest with
      | EmptyString => Some [(key, value)]
      | String _ rest' => l ← read_options fuel' rest'; Some ((key, value) :: l)
      end
  end.

(** A keyword holds no apostrophe or backslash; a value holds no apostrophe
    followed by a space, the limit the source states. *)
Definition plain_option (o : string * string) : Prop :=
  no_byte SQ o.1 ∧ no_byte BSL o.1 ∧ Contains o.2 "' " = false.
#[export] Instance plain_option_dec o : Decision (plain_option o).
Proof. unfold plain_option. apply _. Defined.

(** The bytes of a text, each encoded as a code point; the text itself when it
    is ASCII. *)
Fixpoint recoded (s : string) : string :=
  match s with EmptyString => EmptyString | String c s' => rune_text c +:+ recoded s' end.
Definition recoded_option (o : string * string) : string * string := (recoded o.1, recoded o.2).
Definition is_ascii (s : string) : bool := forallb (λ c, nat_of_ascii c <? 128) (bytes s).
Lemma recoded_ascii s : is_ascii s = true → recoded s = s.
Proof.
  unfold is_ascii. induction s as [|c s IH]; [done|]. cbn [bytes String.list_ascii_of_string forallb recoded].
  intros [Hc Hs]%andb_prop. unfold rune_text. rewrite Hc, IH by done. done.
Qed.

(** No byte of an encoded code point is one of the special characters. *)
Lemma escape_app s t : escape (s +:+ t) = escape s +:+ escape t.
Proof.
  induction s as [|c s IH]; [done|]. rewrite append_String. cbn [escape]. rewrite IH. by case_bool_decide.
Qed.
Lemma escape_rune c : escape (rune_text c) = if bool_decide (c = SQ ∨ c = BSL) then chr BSL +:+ chr c else rune_text c.
Proof. destruct c as [[] [] [] [] [] [] [] []]; vm_compute; reflexivity. Qed.
Lemma rune_plain x c : (nat_of_ascii x <? 128) = true → c ≠ x → no_byte x (rune_text c).
Proof.
  intros Hx Hc. destruct (nat_of_ascii c <? 128) eqn:Hn; unfold rune_text; rewrite Hn.
  - apply no_byte_String. split; [by apply not_eq_sym|apply no_byte_Empty].
  - apply Nat.ltb_lt in Hx. apply Nat.ltb_ge in Hn. pose proof (nat_ascii_bounded c) as Hb.
    assert (Hbyte : ∀ n, 128 ≤ n < 256 → byte n ≠ x).
    { intros n Hr Heq. apply (f_equal nat_of_ascii) in Heq. unfold byte in Heq. rewrite nat_ascii_embedding in Heq by lia. lia. }
    assert (nat_of_ascii c / 64 < 4) by (apply Nat.Div0.div_lt_upper_bound; lia).
    pose proof (Nat.mod_upper_bound (nat_of_ascii c) 64 ltac:(lia)).
    apply no_byte_String. split; [apply not_eq_sym, Hbyte; lia|]. apply no_byte_String. split; [apply not_eq_sym, Hbyte; lia|apply no_byte_Empty].
Qed.
Lemma recoded_plain x s : (nat_of_ascii x <? 128) = true → no_byte x s → no_byte x (recoded s).
Proof.
  intros Hx. induction s as [|c s IH]; [done|]. intros [Hc Hs]%no_byte_String. cbn [recoded]. apply no_byte_append.
  split; [by apply rune_plain|by apply IH].
Qed.

Lemma lex_escape s rest : lex_escaped (escape s +:+ String SQ rest) = Some (s, rest).
Proof.
  induction s as [|c s IH]; [done|]. cbn [escape]. case_bool_decide as Hc.
  - rewrite !append_String. cbn [lex_escaped]. rewrite bool_decide_false by done. rewrite bool_decide_true by done.
    by rewrite IH.
  - rewrite append_String. cbn [lex_escaped]. rewrite !bool_decide_false by tauto. by rewrite IH.
Qed.

Lemma cut_option key rest : no_byte SQ key → cut " E'" (key +:+ (" E'" +:+ rest)) = Some (key, rest).
Proof.
  assert (Hhere : cut " E'" (" E'" +:+ rest) = Some ("", rest)).
  { assert (Hp : String.prefix " E'" (" E'" +:+ rest) = true) by (apply prefix_true; by eexists).
    pose proof (substring_app " E'" rest) as Hs. revert Hp Hs. generalize (" E'" +:+ rest). intros u Hp Hs.
    destruct u; cbn [cut]; rewrite Hp, Hs; done. }
  intros Hk. induction key as [|c key IH]; [done|]. apply no_byte_String in Hk as [Hc Hk].
  rewrite append_String. cbn [cut].
  assert (Hp : String.prefix " E'" (String c (key +:+ (" E'" +:+ rest))) = false).
  { apply not_true_is_false. intros [t Ht]%prefix_true.
    change (" E'" +:+ t) with (String " " (String "E" (String SQ t))) in Ht. injection Ht as _ Ht.
    destruct key as [|d key]; [done|]. rewrite append_String in Ht. injection Ht as _ Ht.
    apply no_byte_String in Hk as [_ Hk]. destruct key as [|e key]; [done|]. rewrite append_String in Ht.
    injection Ht as -> _. by apply no_byte_String in Hk as [? _]. }
  rewrite Hp, IH by done. done.
Qed.

Lemma Join_snoc l x y : Join (l ++ [x +:+ y]) " " = Join (l ++ [x]) " " +:+ y.
Proof.
  induction l as [|z l IH]; [done|]. destruct l as [|w l].
  - cbn. by rewrite !append_assoc.
  - change (Join ((z :: w :: l) ++ [x +:+ y]) " ") with (z +:+ (" " +:+ Join ((w :: l) ++ [x +:+ y]) " ")).
    rewrite IH. change (Join ((z :: w :: l) ++ [x]) " ") with (z +:+ (" " +:+ Join ((w :: l) ++ [x]) " ")).
    by rewrite !append_assoc.
Qed.
Lemma Join_new l x : Join ((l ++ [x]) ++ [""]) " " = Join (l ++ [x]) " " +:+ " ".
Proof.
  induction l as [|z l IH]; [done|]. destruct l as [|w l].
  - cbn. by rewrite !append_assoc.
  - change (Join (((z :: w :: l) ++ [x]) ++ [""]) " ") with (z +:+ (" " +:+ Join (((w :: l) ++ [x]) ++ [""]) " ")).
    rewrite IH. change (Join ((z :: w :: l) ++ [x]) " ") with (z +:+ (" " +:+ Join ((w :: l) ++ [x]) " ")).
    by rewrite !append_assoc.
Qed.

(** What the tokens so far print as. *)
Definition printed (st : tokenizing) : string := Join (tk_list st ++ [tk_curr st]) " ".

Lemma tokenize_key key st s : no_byte SQ key → no_byte BSL key → tk_inString st = false →
  ∃ st', tokenize st (key +:+ String " " s) = tokenize st' s ∧ tk_inString st' = false ∧ tk_curr st' = "" ∧
    printed st' = printed st +:+ (recoded key +:+ " ").
Proof.
  revert st. induction key as [|c key IH]; intros st Hq Hb Hst.
  - rewrite append_Empty. cbn [tokenize]. unfold token_step. rewrite !bool_decide_false by done.
    rewrite bool_decide_true by done. rewrite Hst. cbn [andb negb]. eexists. split; [reflexivity|].
    split; [done|]. split; [done|]. unfold printed. cbn [tk_list tk_curr]. apply Join_new.
  - apply no_byte_String in Hq as [Hqc Hq], Hb as [Hbc Hb]. rewrite append_String. cbn [tokenize].
    unfold token_step. rewrite (bool_decide_false (c = SQ)) by congruence.
    rewrite (bool_decide_false (c = "\"%char)) by (intros ->; by apply Hbc). rewrite Hst. cbn [negb]. rewrite andb_true_r.
    case_bool_decide as Hc.
    + subst c. destruct (IH {| tk_inString := false; tk_list := tk_list st ++ [tk_curr st]; tk_curr := "" |} Hq Hb eq_refl)
        as (st' & -> & ? & ? & Hp). exists st'. split_and!; [done..|]. rewrite Hp. unfold printed. cbn [tk_list tk_curr].
      rewrite Join_new, append_assoc. done.
    + destruct (IH {| tk_inString := false; tk_list := tk_list st; tk_curr := tk_curr st +:+ rune_text c |} Hq Hb eq_refl)
        as (st' & -> & ? & ? & Hp). exists st'. split_and!; [done..|]. rewrite Hp. unfold printed. cbn [tk_list tk_curr recoded].
      by rewrite Join_snoc, !append_assoc.
Qed.

Lemma tokenize_value v st more : Contains v "' " = false → tk_inString st = true →
  more = "" ∨ (∃ m, more = String " " m) →
  ∃ st', tokenize st (v +:+ String SQ more) = tokenize st' more ∧ tk_inString st' = false ∧
    printed st' = printed st +:+ (escape (recoded v) +:+ "'").
Proof.
  intros Hv Hst Hmore. revert st Hst. induction v as [|c v IH]; intros st Hst.
  - rewrite append_Empty. cbn [tokenize]. unfold token_step. rewrite bool_decide_true by done. rewrite Hst.
    rewrite bool_decide_true by (destruct Hmore as [->|[m ->]]; [by left|by right]).
    eexists. split; [reflexivity|]. split; [done|]. unfold printed. cbn [tk_list tk_curr]. apply Join_snoc.
  - cbn [Contains] in Hv. apply orb_false_iff in Hv as [Hp Hv]. specialize (IH Hv).
    rewrite append_String. cbn [tokenize]. unfold token_step. cbn [recoded]. rewrite escape_app, escape_rune.
    rewrite Hst. destruct (decide (c = SQ)) as [->|Hq].
    + rewrite bool_decide_true by done. rewrite bool_decide_false.
      2: { intros [Hn|Hn]; (destruct v as [|d v]; [done|]); rewrite append_String in Hn; [done|]. injection Hn as ->.
           cbn in Hp. by destruct v. }
      destruct (IH {| tk_inString := true; tk_list := tk_list st; tk_curr := (tk_curr st +:+ "\") +:+ rune_text SQ |} eq_refl)
        as (st' & -> & ? & Hpr). exists st'. split_and!; [done..|]. rewrite Hpr. unfold printed. cbn [tk_list tk_curr].
      rewrite (bool_decide_true (SQ = SQ ∨ SQ = BSL)) by (by left). by rewrite !Join_snoc, !append_assoc.
    + rewrite (bool_decide_false (c = SQ)) by done. destruct (decide (c = BSL)) as [->|Hb].
      * rewrite bool_decide_true by done.
        destruct (IH {| tk_inString := true; tk_list := tk_list st; tk_curr := (tk_curr st +:+ "\") +:+ rune_text BSL |} eq_refl)
          as (st' & -> & ? & Hpr). exists st'. split_and!; [done..|]. rewrite Hpr. unfold printed. cbn [tk_list tk_curr].
        rewrite (bool_decide_true (BSL = SQ ∨ BSL = BSL)) by (by right). by rewrite !Join_snoc, !append_assoc.
      * rewrite (bool_decide_false (c = "\"%char)) by done. rewrite andb_false_r.
        rewrite (bool_decide_false (c = SQ ∨ c = BSL)) by (intros [?|?]; [by apply Hq|by apply Hb]).
        destruct (IH {| tk_inString := true; tk_list := tk_list st; tk_curr := tk_curr st +:+ rune_text c |} eq_refl)
          as (st' & -> & ? & Hpr). exists st'. split_and!; [done..|]. rewrite Hpr. unfold printed. cbn [tk_list tk_curr].
        by rewrite Join_snoc, !append_assoc.
Qed.

Definition printed_option (o : string * string) : string := o.1 +:+ (" E'" +:+ (escape o.2 +:+ "'")).

Lemma tokenize_option o st more : plain_option o → tk_inString st = false → more = "" ∨ (∃ m, more = String " " m) →
  ∃ st', tokenize st (option_text o +:+ more) = tokenize st' more ∧ tk_inString st' = false ∧
    printed st' = printed st +:+ printed_option (recoded_option o).
Proof.
  intros (Hq & Hb & Hv) Hst Hmore. destruct o as [key v]. cbn [fst snd] in *.
  assert (Htext : option_text (key, v) +:+ more = key +:+ String " " (String SQ (v +:+ String SQ more))).
  { unfold option_text, cat. cbn [fst snd foldr]. change String.app with strings.String.app. rewrite !append_assoc. done. }
  rewrite Htext. destruct (tokenize_key key st (String SQ (v +:+ String SQ more)) Hq Hb Hst) as (st1 & -> & H1 & Hc & Hp1).
  cbn [tokenize]. unfold token_step. rewrite bool_decide_true by done. rewrite H1.
  destruct (tokenize_value v {| tk_inString := true; tk_list := tk_list st1; tk_curr := "E" +:+ rune_text SQ |} more Hv eq_refl Hmore)
    as (st2 & -> & H2 & Hp2).
  exists st2. split_and!; [done..|]. rewrite Hp2. unfold printed_option. cbn [fst snd].
  assert (Hopen : printed {| tk_inString := true; tk_list := tk_list st1; tk_curr := "E" +:+ rune_text SQ |} = printed st1 +:+ "E'").
  { unfold printed. rewrite Hc. cbn [tk_list tk_curr]. by rewrite <- Join_snoc. }
  rewrite Hopen, Hp1, !append_assoc. done.
Qed.

Lemma tokenize_options opts st : opts ≠ [] → Forall plain_option opts → tk_inString st = false →
  Join (tokenize st (format_text opts)) " " = printed st +:+ Join (printed_option ∘ recoded_option <$> opts) " ".
Proof.
  intros Hne Ho. revert st. induction Ho as [|o opts Ho Hos IH]; intros st Hst; [done|]. destruct opts as [|o' opts].
  - unfold format_text, Join at 2. cbn [fmap list_fmap String.concat]. unfold Join at 2. cbn [String.concat].
    destruct (tokenize_option o st "" Ho Hst (or_introl eq_refl)) as (st' & Ht & Hs & Hp).
    rewrite append_nil_r in Ht. rewrite Ht. exact Hp.
  - change (format_text (o :: o' :: opts)) with (option_text o +:+ String " " (format_text (o' :: opts))).
    destruct (tokenize_option o st (String " " (format_text (o' :: opts))) Ho Hst ltac:(right; by eexists)) as (st1 & -> & H1 & Hp1).
    destruct (tokenize_key "" st1 (format_text (o' :: opts)) ltac:(apply no_byte_Empty) ltac:(apply no_byte_Empty) H1)
      as (st2 & Ht2 & H2 & _ & Hp2). rewrite append_Empty in Ht2. rewrite Ht2, IH by done. rewrite Hp2, Hp1.
    change (Join (printed_option ∘ recoded_option <$> o :: o' :: opts) " ") with (printed_option (recoded_option o) +:+ (" " +:+ Join (printed_option ∘ recoded_option <$> o' :: opts) " ")).
    cbn [recoded]. by rewrite !append_assoc.
Qed.

Lemma read_printed_options opts : opts ≠ [] → Forall (λ o, no_byte SQ o.1) opts →
  read_options (length opts) (Join (printed_option <$> opts) " ") = Some opts.
Proof.
  intros Hne Ho. induction Ho as [|[key v] opts Hq Hos IH]; [done|]. cbn [fst snd] in Hq. destruct opts as [|o' opts].
  - unfold Join. cbn [fmap list_fmap String.concat length read_options]. unfold printed_option. cbn [fst snd].
    rewrite cut_option by done. cbn [mbind option_bind]. by rewrite lex_escape.
  - change (Join (printed_option <$> (key, v) :: o' :: opts) " ") with
      (printed_option (key, v) +:+ (" " +:+ Join (printed_option <$> o' :: opts) " ")).
    change (length ((key, v) :: o' :: opts)) with (S (length (o' :: opts))). specialize (IH ltac:(done)).
    revert IH. generalize (length (o' :: opts)). intros n IH. cbn [read_options]. unfold printed_option at 1. cbn [fst snd].
    rewrite !append_assoc, cut_option by done. cbn [mbind option_bind].
    change ("'" +:+ ?t) with (String SQ t). rewrite lex_escape. cbn [mbind option_bind].
    revert IH. generalize (Join (printed_option <$> o' :: opts) " "). intros t IH.
    change (" " +:+ t) with (String " " t). cbv beta iota. by rewrite IH.
Qed.

(** C21: the format options of a text or CSV table are printed so that the
    server reads the same keywords and values back, apostrophes and
    backslashes in the values included, unless a value holds an apostrophe
    followed by a space, and as long as they are ASCII: of other values each
    byte from 128 on is read back as a character of two bytes
    (predata_externals.go:202). *)
Theorem format_options_roundtrip (opts : list (string * string))
    (Hopts : opts ≠ [] ∧ Forall plain_option opts) :
  let read := read_options (length opts) (Join (tokenizeAndEscapeFormatOpts (format_text opts)) " ") in
  read = Some (recoded_option <$> opts) ∧
  (Forall (λ o, is_ascii o.1 = true ∧ is_ascii o.2 = true) opts → read = Some opts).
Proof.
  destruct Hopts as [Hne Ho]. unfold tokenizeAndEscapeFormatOpts. rewrite tokenize_options by done.
  unfold printed. cbn [tk_list tk_curr app]. rewrite append_Empty, list_fmap_compose.
  assert (Hread : read_options (length opts) (Join (printed_option <$> (recoded_option <$> opts)) " ") = Some (recoded_option <$> opts)).
  { rewrite <- (length_fmap recoded_option opts). apply read_printed_options; [by destruct opts|].
    apply Forall_fmap. eapply Forall_impl; [exact Ho|]. intros o (Hq & _). by apply recoded_plain. }
  split; [exact Hread|]. intros Hascii. cbv zeta. change (String.concat " ") with (λ l, Join l " ") in *.
  etransitivity; [exact Hread|]. f_equal. clear -Hascii. induction Hascii as [|[k v] l [Hk Hv] _ IH]; [done|].
  cbn [fmap list_fmap fst snd] in *. unfold recoded_option at 1. cbn [fst snd]. by rewrite !recoded_ascii, IH.
Qed.

(** [delimiter ',' null '' escape '\' quote '''], the example of the source. *)
Definition csv_options : list (string * string) :=
  [("delimiter", ","); ("null", ""); ("escape", chr BSL); ("quote", chr SQ)].
Lemma format_options_roundtrip_witness :
  format_text csv_options = "delimiter ',' null '' escape '\' quote '''" ∧
  let read := read_options 4 (Join (tokenizeAndEscapeFormatOpts (format_text csv_options)) " ") in
  read = Some (recoded_option <$> csv_options) ∧
  (Forall (λ o, is_ascii o.1 = true ∧ is_ascii o.2 = true) csv_options → read = Some csv_options).
Proof.
  split; [reflexivity|]. apply (format_options_roundtrip csv_options). split; [done|].
  apply (bool_decide_unpack _). vm_compute. exact I.
Defined.

(** A delimiter that is not ASCII comes back as another one. *)
Example delimiter_recoded :
  read_options 1 (Join (tokenizeAndEscapeFormatOpts (format_text [("delimiter", chr (byte 167))])) " ") =
  Some [("delimiter", String (byte 194) (chr (byte 167)))].
Proof. vm_compute. reflexivity. Qed.
