(* ===== verification/Relations.v ===== *)
(** Tables, sequences and views: their structures
    ([meta/builtin/queries_relations.go], [queries_table_defs.go]) and their
    printers ([predata_relations.go]). *)
From S2P Require Import Prelude Regexp Utils Toc Version Scheduler SkipExisting Dependencies Queries Acl Functions Externals.

(** * Structures *)

Record Relation := { r_SchemaOid : Z; r_Oid : Z; r_Schema : string; r_Name : string }.
Definition Relation_FQN (r : Relation) : string := MakeFQN (r_Schema r) (r_Name r).
Definition Relation_id (r : Relation) : UniqueID := oid_of PG_CLASS_OID (r_Oid r).

Record PartitionLevelInfo := { pli_Oid : Z; Level : string; RootName : string }.
Record ForeignTableDefinition := { fd_Oid : Z; fd_Options : string; fd_Server : string }.
#[export] Instance ForeignTableDefinition_eq : EqDecision ForeignTableDefinition.
Proof. solve_decision. Defined.
Record AttachPartitionInfo := { at_Oid : Z; Relname : string; Parent : string; Expr : string }.
#[export] Instance AttachPartitionInfo_eq : EqDecision AttachPartitionInfo.
Proof. solve_decision. Defined.
Record AlteredPartitionRelation := { OldSchema : string; NewSchema : string; ap_Name : string }.
Record ColumnDefinition := {
  cd_Oid : Z; Num : Z; cd_Name : string; NotNull : bool; HasDefault : bool; cd_Type : string; cd_Encoding : string;
  StatTarget : Z; StorageType : string; DefaultVal : string; cd_Comment : string; cd_Privileges : NullString; cd_Kind : string;
  cd_Options : string; FdwOptions : string; cd_Collation : string; cd_SecurityLabelProvider : string; cd_SecurityLabel : string;
  AttGenerated : string
}.
Definition noForeign : ForeignTableDefinition := {| fd_Oid := 0; fd_Options := ""; fd_Server := "" |}.
Definition noAttach : AttachPartitionInfo := {| at_Oid := 0; Relname := ""; Parent := ""; Expr := "" |}.
Definition noLevel : PartitionLevelInfo := {| pli_Oid := 0; Level := ""; RootName := "" |}.

Record TableDefinition := {
  DistPolicy : string; PartDef : string; PartTemplateDef : string; StorageOpts : string; TablespaceName : string;
  ColumnDefs : list ColumnDefinition; IsExternal : bool; ExtTableDef : ExternalTableDefinition;
  t_PartitionLevelInfo : PartitionLevelInfo; TableType : string; IsUnlogged : bool; ForeignDef : ForeignTableDefinition;
  Inherits : list string; ReplicaIdentity : string; PartitionAlteredSchemas : list AlteredPartitionRelation;
  AccessMethodName : string; PartitionKeyDef : string; t_AttachPartitionInfo : AttachPartitionInfo; ForceRowSecurity : bool
}.
Record Table := { t_Relation : Relation; t_Definition : TableDefinition }.
Definition Table_FQN (t : Table) : string := Relation_FQN (t_Relation t).
Definition Table_id (t : Table) : UniqueID := Relation_id (t_Relation t).
Definition is_foreign (t : Table) : bool := negb (bool_decide (ForeignDef (t_Definition t) = noForeign)).
Definition is_attached (t : Table) : bool := negb (bool_decide (t_AttachPartitionInfo (t_Definition t) = noAttach)).
Definition SkipDataBackup (t : Table) : bool := IsExternal (t_Definition t) || is_foreign t.

Definition createAlteredPartitionSchemaSet (tables : list Table) : gset string :=
  list_to_set (tables ≫= λ t, NewSchema <$> PartitionAlteredSchemas (t_Definition t)).

(** ** Assembling a table from the maps of its parts *)

Record table_maps := {
  tm_columnDefs : gmap Z (list ColumnDefinition); tm_distributionPolicies : gmap Z string; tm_partitionDefs : gmap Z string;
  tm_partTemplateDefs : gmap Z string; tm_tablespaceNames : gmap Z string; tm_storageOptions : gmap Z string;
  tm_extTableDefs : gmap Z ExternalTableDefinition; tm_partTableMap : gmap Z PartitionLevelInfo; tm_tableTypeMap : gmap Z string;
  tm_accessMethodMap : gmap Z string; tm_unloggedTableMap : gmap Z bool; tm_foreignTableDefs : gmap Z ForeignTableDefinition;
  tm_inheritanceMap : gmap Z (list string); tm_replicaIdentityMap : gmap Z string;
  tm_partitionAlteredSchemaMap : gmap Z (list AlteredPartitionRelation); tm_partitionKeyDefs : gmap Z string;
  tm_attachPartitionInfo : gmap Z AttachPartitionInfo; tm_forceRowSecurity : gmap Z bool
}.
Definition construct_table (m : table_maps) (tableRel : Relation) : Table :=
  let oid := r_Oid tableRel in
  let str (f : gmap Z string) := default "" (f !! oid) in
  let ext := default noExternal (tm_extTableDefs m !! oid) in
  {| t_Relation := tableRel;
     t_Definition := {|
       DistPolicy := str (tm_distributionPolicies m); PartDef := str (tm_partitionDefs m);
       PartTemplateDef := str (tm_partTemplateDefs m); StorageOpts := str (tm_storageOptions m);
       TablespaceName := str (tm_tablespaceNames m); ColumnDefs := default [] (tm_columnDefs m !! oid);
       IsExternal := nonzero (x_Oid ext); ExtTableDef := ext; t_PartitionLevelInfo := default noLevel (tm_partTableMap m !! oid);
       TableType := str (tm_tableTypeMap m); IsUnlogged := default false (tm_unloggedTableMap m !! oid);
       ForeignDef := default noForeign (tm_foreignTableDefs m !! oid); Inherits := default [] (tm_inheritanceMap m !! oid);
       ReplicaIdentity := str (tm_replicaIdentityMap m);
       PartitionAlteredSchemas := default [] (tm_partitionAlteredSchemaMap m !! oid);
       AccessMethodName := str (tm_accessMethodMap m); PartitionKeyDef := str (tm_partitionKeyDefs m);
       t_AttachPartitionInfo := default noAttach (tm_attachPartitionInfo m !! oid);
       ForceRowSecurity := default false (tm_forceRowSecurity m !! oid) |} |}.
Definition construct_tables (m : table_maps) (tableRelations : list Relation) : list Table :=
  construct_table m <$> tableRelations.

Definition storage_type (code : string) : string :=
  cat (switch [("e", "EXTERNAL"); ("m", "MAIN"); ("p", "PLAIN"); ("x", "EXTENDED")] code).
Definition fix_column (v7 : bool) (c : ColumnDefinition) : ColumnDefinition :=
  {| cd_Oid := cd_Oid c; Num := Num c; cd_Name := cd_Name c; NotNull := NotNull c; HasDefault := HasDefault c; cd_Type := cd_Type c;
     cd_Encoding := cd_Encoding c; StatTarget := StatTarget c; StorageType := storage_type (StorageType c);
     DefaultVal := DefaultVal c; cd_Comment := cd_Comment c; cd_Privileges := cd_Privileges c; cd_Kind := cd_Kind c;
     cd_Options := cd_Options c; FdwOptions := FdwOptions c; cd_Collation := cd_Collation c;
     cd_SecurityLabelProvider := cd_SecurityLabelProvider c; cd_SecurityLabel := cd_SecurityLabel c;
     AttGenerated := if v7 then cat (switch [("s", "STORED")] (AttGenerated c)) else AttGenerated c |}.
Definition column_definitions (v7 : bool) (results : list ColumnDefinition) : gmap Z (list ColumnDefinition) :=
  rows_by cd_Oid (fix_column v7 <$> results).

Record SequenceDefinition := {
  LastVal : Z; sd_Type : string; StartVal : Z; Increment : Z; MaxVal : Z; MinVal : Z; CacheVal : Z; IsCycled : bool; IsCalled : bool
}.
Record Sequence := {
  s_Relation : Relation; OwningTableOid : string; OwningTableSchema : string; OwningTable : string; OwningColumn : string;
  UnqualifiedOwningColumn : string; OwningColumnAttIdentity : string; IsIdentity : bool; Definition_ : SequenceDefinition
}.
Definition Sequence_FQN (s : Sequence) : string := Relation_FQN (s_Relation s).
Definition Sequence_entry (s : Sequence) : string * MetadataEntry :=
  ("predata", new_entry (r_Schema (s_Relation s)) (r_Name (s_Relation s)) "SEQUENCE" "").
#[export] Instance Sequence_object : TOCObjectWithMetadata Sequence := plain_object Sequence_entry Sequence_FQN.
#[export] Instance Sequence_known : KnownObject Sequence. Proof. done. Qed.

(** The owner of a sequence is qualified, and forgotten when its table is
    excluded; [definition] is its row. *)
Definition own_sequence (excludeOids : list string) (s : Sequence) (definition : SequenceDefinition) : Sequence :=
  let found := slice_Exists excludeOids (OwningTableOid s) in
  let table := if non_empty (OwningTable s) then cat [OwningTableSchema s; "."; OwningTable s] else OwningTable s in
  let column := if non_empty (OwningColumn s) then cat [table; "."; OwningColumn s] else OwningColumn s in
  {| s_Relation := s_Relation s; OwningTableOid := OwningTableOid s; OwningTableSchema := OwningTableSchema s;
     OwningTable := if found then "" else table; OwningColumn := if found then "" else column;
     UnqualifiedOwningColumn := UnqualifiedOwningColumn s; OwningColumnAttIdentity := OwningColumnAttIdentity s;
     IsIdentity := IsIdentity s; Definition_ := definition |}.

Record View := {
  v_Oid : Z; v_Schema : string; v_Name : string; v_Options : string; v_Definition : NullString; Tablespace : string;
  IsMaterialized : bool; v_DistPolicy : string; v_AccessMethodName : string
}.
Definition View_FQN (v : View) : string := MakeFQN (v_Schema v) (v_Name v).
Definition View_ObjectType (v : View) : string := if IsMaterialized v then "MATERIALIZED VIEW" else "VIEW".
Definition View_entry (v : View) : string * MetadataEntry :=
  ("predata", new_entry (v_Schema v) (v_Name v) (View_ObjectType v) "").
#[export] Instance View_object : TOCObjectWithMetadata View := plain_object View_entry View_FQN.
#[export] Instance View_known : KnownObject View. Proof. done. Qed.
Definition View_id (v : View) : UniqueID := oid_of PG_CLASS_OID (v_Oid v).

(** The rows of the views: those without definition are left out, one with
    a cast to [anyarray] is fatal. *)
Definition with_policy (v : View) (policy : string) : View :=
  {| v_Oid := v_Oid v; v_Schema := v_Schema v; v_Name := v_Name v; v_Options := v_Options v; v_Definition := v_Definition v;
     Tablespace := Tablespace v; IsMaterialized := IsMaterialized v; v_DistPolicy := policy; v_AccessMethodName := v_AccessMethodName v |}.
Definition verify_view (distPolicies : gmap Z string) (v : View) : go (list View) :=
  if NS_Valid (v_Definition v) then
    if Contains (NS_String (v_Definition v)) "::anyarray"
    then Fatal (cat ["Detected anyarray type cast in view definition for View '"; View_FQN v; "'"])
    else Ok [if IsMaterialized v then with_policy v (default "" (distPolicies !! v_Oid v)) else v]
  else Ok [].
Definition verify_views (distPolicies : gmap Z string) (results : list View) : go (list View) :=
  let! parts := go_map (verify_view distPolicies) results in Ok (concat parts).

(** [GenerateTableBatches]; [batchSize] is positive where it is called. *)
Fixpoint table_batches (fuel : nat) (batchSize : nat) (tableNames : list string) : list string :=
  match fuel, tableNames with
  | S fuel', _ :: _ =>
      Join (take batchSize tableNames) ", " :: table_batches fuel' batchSize (drop batchSize tableNames)
  | _, _ => []
  end.
Definition GenerateTableBatches (tables : list Relation) (batchSize : nat) : list string :=
  table_batches (length tables) batchSize (Relation_FQN <$> tables).

(** * Rewriting of storage options *)

(** A text changed line by line; the newline at the end of the last line is
    taken off again. *)
Definition per_line (content : string) (line : string → string) : string :=
  let lines := Split content NL in
  TrimSuffix (cat ((λ l, line l +:+ (if bool_decide (1 < length lines) then nl else "")) <$> lines)) nl.

Definition removeFillFactor (storageOpts : string) : string :=
  Join (filter (λ o, HasPrefix o "fillfactor=" = false) (TrimSpace <$> Split storageOpts COMMA)) ", ".

Definition tablespace_format : re :=
  Cats [Cap 1 (Plus (Chr any)); Lit "TABLESPACE "; Cap 2 (Plus (Chr (not_byte COMMA))); Cap 3 (Alt (Lit ",") (Alt (Lit " ") Eol))].
Definition replaceTableSpace (env : print_env) (content : string) : string :=
  TrimSuffix (cat ((λ line,
    match FindStringSubmatch tablespace_format line with
    | Some matches => cat [matches 1; "TABLESPACE "; GetDestTablespace (dest_tablespaces env) (matches 2); matches 3; nl]
    | None => line +:+ nl
    end) <$> Split content NL)) nl.

Definition compress_format : re :=
  Cats [Cap 1 (Star (Chr any)); Lit "compresstype="; Cap 2 (Alt (Lit "zlib") (Lit "quicklz")); Cap 3 (Star (Chr any))].
Definition rewriteCompressAlgorithm (content : string) : string :=
  per_line content (λ line, ReplaceAllString compress_format line (λ g, cat [g 1; "compresstype=zstd"; g 3])).
Definition appendonly_format : re := Cats [Cap 1 (Star (Chr any)); Lit "appendonly=false"; Cap 2 (Star (Chr any))].
Definition rewriteAppendonly (content : string) : string :=
  per_line content (λ line, ReplaceAllString appendonly_format line (λ g, cat [g 1; "appendonly=true"; g 2])).

Definition comma_or_space : re := Alt (Lit ", ") (Lit ",").
Definition blocksize : re := Cat (Lit "blocksize=") (Plus (Chr is_digit)).
Definition formatRight : re :=
  Cats [Cap 1 (Plus (Chr (not_byte COMMA))); Cap 2 comma_or_space; blocksize; Cap 3 (Alt Eol (Lit ")"))].
Definition formatMiddle : re :=
  Cats [Cap 1 (Plus (Chr (not_byte COMMA))); Cap 2 comma_or_space; blocksize; Cap 3 comma_or_space; Cap 4 (Star (Chr any))].
Definition formatLeft : re :=
  Cats [Cap 1 (Alt Bol (Cat (Plus (Chr (not_byte "("))) (Lit "("))); blocksize; Cap 2 comma_or_space; Cap 3 (Star (Chr any))].
Definition replaceBlocksize (content : string) : string :=
  per_line content (λ line,
    if MatchString formatRight line then ReplaceAllString formatRight line (λ g, cat [g 1; g 3])
    else if MatchString formatMiddle line then ReplaceAllString formatMiddle line (λ g, cat [g 1; g 3; g 4])
    else if MatchString formatLeft line then ReplaceAllString formatLeft line (λ g, cat [g 1; g 3])
    else line).
Definition rewrite_storage (s : string) : string := rewriteAppendonly (rewriteCompressAlgorithm (replaceBlocksize s)).

(** [transformViewOptions]. *)
Definition transformViewOptions (viewOptions : string) : string :=
  let optionsContent := TrimSuffix (TrimPrefix viewOptions "WITH (") ")" in
  match filter (λ o, Contains o "mvhashvalue" = false) (TrimSpace <$> Split optionsContent COMMA) with
  | [] => ""
  | filteredOptions => cat ["WITH ("; Join filteredOptions ", "; ")"]
  end.

(** * Printers *)

Section printers.
Context `{SemverLib} (env : print_env).

(** [destDBVersion.IsHDW() && destDBVersion.Is("3")]. *)
Definition dest_is_hdw3 : go bool := andg (IsHDW (destDBVersion env)) (Is (destDBVersion env) "3").

(** The entry of a table depends on the version: an external table is a foreign
    table of later servers. *)
Definition Table_entry (v7 : bool) (t : Table) : string * MetadataEntry :=
  let d := t_Definition t in
  let objectType := if is_foreign t || (IsExternal d && v7) then "FOREIGN TABLE" else "TABLE" in
  ("predata", new_entry (r_Schema (t_Relation t)) (r_Name (t_Relation t)) objectType
     (if is_attached t then Parent (t_AttachPartitionInfo d) else "")).
Definition Table_object (v7 : bool) : TOCObjectWithMetadata Table := plain_object (Table_entry v7) Table_FQN.

Definition column_line (hdw3 : bool) (tableType : string) (c : ColumnDefinition) : string :=
  cat ([if non_empty tableType then cat [tab; cd_Name c; " WITH OPTIONS"] else cat [tab; cd_Name c; " "; cd_Type c]] ++
       when (non_empty (FdwOptions c)) [cat [" OPTIONS ("; FdwOptions c; ")"]] ++
       when (non_empty (cd_Collation c)) [" COLLATE " +:+ cd_Collation c] ++
       when (HasDefault c) [if non_empty (AttGenerated c)
                            then cat [" GENERATED ALWAYS AS "; DefaultVal c; " "; AttGenerated c]
                            else " DEFAULT " +:+ DefaultVal c] ++
       when (NotNull c) [" NOT NULL"] ++
       when (non_empty (cd_Encoding c)) [cat [" ENCODING ("; if hdw3 then rewrite_storage (cd_Encoding c) else cd_Encoding c; ")"]]).
Definition printColumnDefinitions (hdw3 : bool) (columnDefs : list ColumnDefinition) (tableType : string) : list string :=
  match columnDefs with
  | [] => []
  | _ => [Join (column_line hdw3 tableType <$> columnDefs) ("," +:+ nl) +:+ nl]
  end.

Definition printAlterColumnStatements (table : Table) (columnDefs : list ColumnDefinition) : list string :=
  columnDefs ≫= λ c,
    let alter parts := [cat ([nl; "ALTER TABLE ONLY "; Table_FQN table; " ALTER COLUMN "; cd_Name c; " SET "] ++ parts)] in
    (if (-1 <? StatTarget c)%Z then alter ["STATISTICS "; Itoa (StatTarget c); ";"] else []) ++
    (if non_empty (StorageType c) then alter ["STORAGE "; StorageType c; ";"] else []) ++
    (if non_empty (cd_Options c) then alter ["("; cd_Options c; ");"] else []).

(** The texts of [PrintRegularTableCreateStatement], which is called with a nil
    table of contents. *)
Definition PrintRegularTableCreateStatement (table : Table) : go (list string) :=
  let d := t_Definition table in
  let! hdw3 := dest_is_hdw3 in
  let tablespaces := replaceTableSpace env in
  let storage :=
    let opts := if Contains (StorageOpts d) "appendonly=true" then removeFillFactor (StorageOpts d) else StorageOpts d in
    if (hdw3 : bool) then rewrite_storage opts else opts in
  let part def := if hdw3 then TrimSpace (rewrite_storage (tablespaces def)) else tablespaces (TrimSpace def) in
  Ok ([cat [nl2; "CREATE "; if IsUnlogged d then "UNLOGGED " else if is_foreign table then "FOREIGN " else ""; "TABLE "; Table_FQN table;
            " "; if non_empty (TableType d) then cat ["OF "; TableType d; " "] else ""; "("; nl]] ++
      printColumnDefinitions hdw3 (ColumnDefs d) (TableType d) ++ [") "] ++
      when (non_empty (PartitionKeyDef d)) [cat ["PARTITION BY "; PartitionKeyDef d; " "]] ++
      when (bool_decide (Inherits d ≠ []) && negb (is_attached table)) [cat ["INHERITS ("; Join (Inherits d) ", "; ") "]] ++
      when (is_foreign table)
        ([cat ["SERVER "; fd_Server (ForeignDef d); " "]] ++
         when (non_empty (fd_Options (ForeignDef d))) [cat ["OPTIONS ("; fd_Options (ForeignDef d); ") "]]) ++
      when (non_empty (AccessMethodName d)) [cat ["USING "; AccessMethodName d; " "]] ++
      when (non_empty (StorageOpts d)) [cat ["WITH ("; storage; ") "]] ++
      when (non_empty (TablespaceName d)) [cat ["TABLESPACE "; GetDestTablespace (dest_tablespaces env) (TablespaceName d); " "]] ++
      [DistPolicy d] ++
      when (non_empty (PartDef d)) [" " +:+ part (PartDef d)] ++
      [";" +:+ nl] ++
      when (non_empty (PartTemplateDef d)) [cat [part (PartTemplateDef d); ";"; nl]] ++
      printAlterColumnStatements table (ColumnDefs d)).

Definition ext_type_name (t : ext_type) : string :=
  match t with
  | READABLE => "READABLE EXTERNAL" | READABLE_WEB => "READABLE EXTERNAL WEB"
  | WRITABLE => "WRITABLE EXTERNAL" | WRITABLE_WEB => "WRITABLE EXTERNAL WEB"
  end.
Definition with_type (d : ExternalTableDefinition) (t : ext_type) (p : option ext_protocol) : ExternalTableDefinition :=
  {| x_Oid := x_Oid d; x_Type := t; x_Protocol := p; Location := Location d; x_ExecLocation := x_ExecLocation d;
     FormatType := FormatType d; FormatOpts := FormatOpts d; Command := Command d; RejectLimit := RejectLimit d;
     RejectLimitType := RejectLimitType d; ErrTableName := ErrTableName d; ErrTableSchema := ErrTableSchema d;
     LogErrors := LogErrors d; LogErrPersist := LogErrPersist d; x_Encoding := x_Encoding d; Writable := Writable d; URIs := URIs d |}.
Definition PrintExternalTableCreateStatement (table : Table) : go (list string) :=
  let d := t_Definition table in
  let! hdw3 := dest_is_hdw3 in
  let! (t, p) := DetermineExternalTableCharacteristics (ExtTableDef d) in
  let extTableDef := with_type (ExtTableDef d) t p in
  let! statements := PrintExternalTableStatements extTableDef in
  Ok ([cat [nl2; "CREATE "; ext_type_name t; " TABLE "; Table_FQN table; " ("; nl]] ++
      printColumnDefinitions hdw3 (ColumnDefs d) "" ++ [") "] ++ statements ++
      when (Writable extTableDef) [nl +:+ DistPolicy d] ++ [";"]).

(** The statements on the columns of a table. *)
Definition column_statements (table : Table) (owner : string) (att : ColumnDefinition) : list string :=
  let fqn := Table_FQN table in
  let columnMetadata := {| Privileges := getColumnACL env (cd_Privileges att) (cd_Kind att); ObjectType := ""; Owner := owner;
                           Comment := ""; SecurityLabelProvider := ""; SecurityLabel := "" |} in
  when (non_empty (cd_Comment att)) [cat ["COMMENT ON COLUMN "; fqn; "."; cd_Name att; " IS "; quoted_literal (cd_Comment att); ";"]] ++
  when (NS_Valid (cd_Privileges att)) [TrimSpace (GetPrivilegesStatements env columnMetadata fqn "COLUMN" (Some (cd_Name att)))] ++
  when (non_empty (cd_SecurityLabel att))
    [cat ["SECURITY LABEL FOR "; cd_SecurityLabelProvider att; " ON COLUMN "; fqn; "."; cd_Name att; " IS "; quoted_literal (cd_SecurityLabel att); ";"]].
Definition post_create_statements (v7 : bool) (table : Table) (tableMetadata : ObjectMetadata) : go (list string) :=
  let d := t_Definition table in
  let fqn := Table_FQN table in
  let! attach := (if v7 && is_attached table then
    let! parent := index (Inherits d) 0 in
    let a := t_AttachPartitionInfo d in
    Ok [cat ["ALTER TABLE ONLY "; parent; " ATTACH PARTITION "; Relname a; " "; Expr a; ";"]] else Ok []) in
  Ok ((ColumnDefs d ≫= column_statements table (Owner tableMetadata)) ++
      when (negb (is_foreign table))
        (switch [("n", cat ["ALTER TABLE "; fqn; " REPLICA IDENTITY NOTHING;"]); ("f", cat ["ALTER TABLE "; fqn; " REPLICA IDENTITY FULL;"])]
           (ReplicaIdentity d)) ++
      ((λ a, cat ["ALTER TABLE "; MakeFQN (OldSchema a) (ap_Name a); " SET SCHEMA "; NewSchema a; ";"]) <$> PartitionAlteredSchemas d) ++
      attach ++ when (v7 && ForceRowSecurity d) [cat ["ALTER TABLE ONLY "; fqn; " FORCE ROW LEVEL SECURITY;"]]).
Definition PrintPostCreateTableStatements (v7 : bool) (table : Table) (tableMetadata : ObjectMetadata) : go (list piece) :=
  let object := Table_object v7 in
  let! metadata := PrintObjectMetadata env tableMetadata table "" in
  let! statements := post_create_statements v7 table tableMetadata in
  Ok (metadata ++ PrintStatements table statements).

(** The statements of a table are one entry: the inner printers get a nil table
    of contents. *)
Definition PrintCreateTableStatement (table : Table) (tableMetadata : ObjectMetadata) : go (list piece) :=
  let! v7 := gpdb_or_family (srcDBVersion env) "7" in
  let object := Table_object v7 in
  let d := t_Definition table in
  let! create := (if IsExternal d && negb (bool_decide (Level (t_PartitionLevelInfo d) = "p"))
                  then PrintExternalTableCreateStatement table else PrintRegularTableCreateStatement table) in
  let! post := PrintPostCreateTableStatements v7 table tableMetadata in
  Ok [record table (create ++ (post ≫= untracked))].

(** ** The split by partition type *)

Definition rename_table (t : Table) (name : string) : Table :=
  {| t_Relation := {| r_SchemaOid := r_SchemaOid (t_Relation t); r_Oid := r_Oid (t_Relation t); r_Schema := r_Schema (t_Relation t); r_Name := name |};
     t_Definition := t_Definition t |}.
Definition split_by_type (before7 v7 : bool) (table : Table) : go (list Table * list Table) :=
  let partType := Level (t_PartitionLevelInfo (t_Definition table)) in
  let ext_leaf := IsExternal (t_Definition table) && bool_decide (partType = "l") in
  let! table := (if ext_leaf && before7 then
    let! name := AppendExtPartSuffix (r_Name (t_Relation table)) in Ok (rename_table table name) else Ok table) in
  Ok (when ext_leaf [table] ++ when (v7 || (negb (bool_decide (partType = "l")) && negb (bool_decide (partType = "i")))) [table],
      when (negb (bool_decide (partType = "p")) && negb (bool_decide (partType = "i"))) [table]).
Definition SplitTablesByPartitionType (tables : list Table) : go (list Table * list Table) :=
  let! before7 := andg (IsGPDB (srcDBVersion env)) (Before (srcDBVersion env) "7") in
  let! v7 := gpdb_or_family (srcDBVersion env) "7" in
  let! parts := go_map (split_by_type before7 v7) tables in
  Ok (concat parts.*1, concat parts.*2).

(** ** Sequences *)

Definition int64_of (w : Z) : Z * Z := ((2 ^ (w - 1) - 1)%Z, (- 2 ^ (w - 1))%Z).
(** The bounds of the sequence's type, when it is printed. *)
Definition type_bounds (typed : bool) (type : string) : Z * Z :=
  if typed && bool_decide (type = "smallint") then int64_of 16
  else if typed && bool_decide (type = "integer") then int64_of 32
  else int64_of 64.
Definition option_line (l : string) : string := String NL (String TAB l).
Definition bound_clauses (maxVal minVal : Z) (d : SequenceDefinition) : list string :=
  [(if ((MaxVal d =? maxVal) && (0 <? Increment d) || (MaxVal d =? -1) && (Increment d <? 0))%Z
    then "NO MAXVALUE" else cat ["MAXVALUE "; Itoa (MaxVal d)]);
   (if ((MinVal d =? minVal) && (Increment d <? 0) || (MinVal d =? 1) && (0 <? Increment d))%Z
    then "NO MINVALUE" else cat ["MINVALUE "; Itoa (MinVal d)])].
Definition definition_lines (typed v6 : bool) (d : SequenceDefinition) : list string :=
  let '(maxVal, minVal) := type_bounds typed (sd_Type d) in
  when (typed && negb (bool_decide (sd_Type d = "bigint"))) [cat ["AS "; sd_Type d]] ++
  (if v6 then [cat ["START WITH "; Itoa (StartVal d)]] else when (negb (IsCalled d)) [cat ["START WITH "; Itoa (LastVal d)]]) ++
  [cat ["INCREMENT BY "; Itoa (Increment d)]] ++ bound_clauses maxVal minVal d ++
  [cat ["CACHE "; Itoa (CacheVal d)]] ++ when (IsCycled d) ["CYCLE"].
Definition generateSequenceDefinitionStatement (sequence : Sequence) : go string :=
  let! v7 := gpdb_or_family (srcDBVersion env) "7" in
  let! v6 := gpdb_or_family (srcDBVersion env) "6" in
  let typed := (v7 : bool) && bool_decide (OwningColumnAttIdentity sequence = "") in
  Ok (cat (option_line <$> definition_lines typed v6 (Definition_ sequence))).

Definition print_identity (seq : Sequence) : go (list piece) :=
  if IsIdentity seq then
    match switch [("a", "ALWAYS"); ("d", "BY DEFAULT")] (OwningColumnAttIdentity seq) with
    | [] => Fatal (cat ["Invalid Owning Column Attribute came for Identity sequence: expected 'a' or 'd', got '"; OwningColumnAttIdentity seq; "'"; nl])
    | attrIdentityStr =>
        let! seqDefStatement := generateSequenceDefinitionStatement seq in
        Ok [record seq [cat ["ALTER TABLE "; OwningTable seq; nl; "ALTER COLUMN "; UnqualifiedOwningColumn seq; " ADD GENERATED ";
                             cat attrIdentityStr; " AS IDENTITY ("];
                        cat [nl; tab; "SEQUENCE NAME "; Sequence_FQN seq]; cat [seqDefStatement; ");"; nl]]]
    end
  else Ok [].
Definition PrintIdentityColumns (sequences : list Sequence) : go (list piece) := for_each sequences print_identity.

Definition print_sequence (sequenceMetadata : MetadataMap) (sequence : Sequence) : go (list piece) :=
  if IsIdentity sequence then Ok []
  else
    let d := Definition_ sequence in
    let! seqDefStatement := generateSequenceDefinitionStatement sequence in
    print_object env sequence
      [cat [nl2; "CREATE SEQUENCE "; Sequence_FQN sequence]; seqDefStatement +:+ ";";
       cat [nl2; "SELECT pg_catalog.setval("; quoted_literal (Sequence_FQN sequence); ", "; Itoa (LastVal d); ", "; bool_text (IsCalled d); ");"; nl]]
      (metadata_of sequenceMetadata (Relation_id (s_Relation sequence))) "".
Definition PrintCreateSequenceStatements (sequences : list Sequence) (sequenceMetadata : MetadataMap) : go (list piece) :=
  for_each sequences (print_sequence sequenceMetadata).

Definition print_sequence_owner (sequence : Sequence) : list piece :=
  when (negb (IsIdentity sequence) && non_empty (OwningColumn sequence))
    [Recorded {| em_section := "predata";
       em_entry := new_entry (r_Schema (s_Relation sequence)) (r_Name (s_Relation sequence)) "SEQUENCE OWNER" (OwningTable sequence);
       em_texts := [cat [nl2; "ALTER SEQUENCE "; Sequence_FQN sequence; " OWNED BY "; OwningColumn sequence; ";"; nl]] |}].
Definition PrintAlterSequenceStatements (sequences : list Sequence) : list piece := sequences ≫= print_sequence_owner.

(** ** Views *)

Definition PrintCreateViewStatement (view : View) (viewMetadata : ObjectMetadata) : go (list piece) :=
  let tablespaceClause := if non_empty (Tablespace view) then " TABLESPACE " +:+ GetDestTablespace (dest_tablespaces env) (Tablespace view) else "" in
  let definition := NS_String (v_Definition view) in
  let! text := (if IsMaterialized view then
    let! hdw3 := andg (IsHDW (srcDBVersion env)) (Is (srcDBVersion env) "3") in
    let viewOptions := if (hdw3 : bool) && non_empty (v_Options view) then transformViewOptions (v_Options view) else v_Options view in
    let accessMethodClause := if non_empty (v_AccessMethodName view) then " USING " +:+ v_AccessMethodName view else "" in
    if bool_decide (definition = "") then Panic "slice bounds out of range [:-1]"
    else Ok (cat [nl2; "CREATE MATERIALIZED VIEW "; View_FQN view; accessMethodClause; viewOptions; tablespaceClause; " AS ";
                  String.substring 0 (len definition - 1) definition; nl; "WITH NO DATA"; nl; v_DistPolicy view; ";"; nl])
    else Ok (cat [nl2; "CREATE VIEW "; View_FQN view; v_Options view; " AS "; definition; nl])) in
  print_object env view [text] viewMetadata "".

(** ** External partitions *)

Definition PrintExchangeExternalPartitionStatements (extPartitions : list PartitionInfo) (partInfoMap : gmap Z PartitionInfo)
    (tables : list Table) : go (list piece) :=
  print_exchanges extPartitions partInfoMap (foldl (λ m t, <[r_Oid (t_Relation t) := Table_FQN t]> m) ∅ tables).
End printers.

(** ** The pieces are known to the table of contents *)

Section known_printers.
Context `{SemverLib} (env : print_env).
Lemma Table_known v7 : @KnownObject Table (@object_entry _ (Table_object v7)).
Proof. done. Qed.
Lemma known_PrintCreateTableStatement t m : Known (PrintCreateTableStatement env t m).
Proof.
  unfold PrintCreateTableStatement. apply Known_bind. intros v7. cbv zeta. apply Known_bind. intros create. apply Known_bind. intros post.
  apply Known_Ok. constructor; [|constructor]. apply (@known_record _ _ (Table_known v7)).
Qed.
Lemma known_PrintIdentityColumns l : Known (PrintIdentityColumns env l).
Proof. unfold PrintIdentityColumns, print_identity. known_printer; constructor; [apply known_record|constructor]. Qed.
Lemma known_PrintCreateSequenceStatements l m : Known (PrintCreateSequenceStatements env l m).
Proof. unfold PrintCreateSequenceStatements, print_sequence. known_printer. Qed.
Lemma known_PrintAlterSequenceStatements l : Forall sound_piece (PrintAlterSequenceStatements l).
Proof.
  unfold PrintAlterSequenceStatements. induction l as [|s l IH]; [constructor|]. apply Forall_app. split; [|exact IH].
  unfold print_sequence_owner, when. destruct (_ && _); by repeat constructor.
Qed.
Lemma known_PrintCreateViewStatement v m : Known (PrintCreateViewStatement env v m).
Proof. unfold PrintCreateViewStatement. known_printer. Qed.
Lemma known_PrintExchangeExternalPartitionStatements e i t : Known (PrintExchangeExternalPartitionStatements e i t).
Proof. unfold PrintExchangeExternalPartitionStatements. auto with pieces. Qed.
End known_printers.
#[export] Hint Resolve known_PrintCreateTableStatement known_PrintIdentityColumns known_PrintCreateSequenceStatements
  known_PrintAlterSequenceStatements known_PrintCreateViewStatement known_PrintExchangeExternalPartitionStatements : pieces.

(** * Theorems on sequences *)

(** The options of a sequence as the server documents them for CREATE SEQUENCE:
    one a line, with the defaults of the sequence's type where one is missing
    or negated. *)
Record read_state := {
  rd_type : string; rd_start : option Z; rd_increment : Z; rd_max : option Z; rd_min : option Z; rd_cache : Z; rd_cycle : bool
}.
Definition read_default : read_state :=
  {| rd_type := "bigint"; rd_start := None; rd_increment := 1; rd_max := None; rd_min := None; rd_cache := 1; rd_cycle := false |}.
Fixpoint strip_prefix (p s : string) : option string :=
  match p, s with
  | EmptyString, _ => Some s
  | String a p', String b s' => if Ascii.eqb a b then strip_prefix p' s' else None
  | _, _ => None
  end.
Definition read_number (p line : string) : option Z := strip_prefix p line ≫= Atoi.
Definition read_option (o : read_state) (line : string) : read_state :=
  let '{| rd_type := ty; rd_start := st; rd_increment := inc; rd_max := mx; rd_min := mn; rd_cache := ca; rd_cycle := cy |} := o in
  match strip_prefix "AS " line with
  | Some t => {| rd_type := t; rd_start := st; rd_increment := inc; rd_max := mx; rd_min := mn; rd_cache := ca; rd_cycle := cy |}
  | None =>
    {| rd_type := ty;
       rd_start := match read_number "START WITH " line with Some z => Some z | None => st end;
       rd_increment := default inc (read_number "INCREMENT BY " line);
       rd_max := match strip_prefix "NO MAXVALUE" line with Some _ => None | None =>
                   match read_number "MAXVALUE " line with Some z => Some z | None => mx end end;
       rd_min := match strip_prefix "NO MINVALUE" line with Some _ => None | None =>
                   match read_number "MINVALUE " line with Some z => Some z | None => mn end end;
       rd_cache := default ca (read_number "CACHE " line);
       rd_cycle := match strip_prefix "CYCLE" line with Some _ => true | None => cy end |}
  end.
Definition read_options (text : string) : read_state :=
  foldl read_option read_default (omap (strip_prefix tab) (Split text NL)).
(** The widest bounds of a type in its documentation. *)
Definition server_bounds (type : string) : Z * Z :=
  if bool_decide (type = "smallint") then (32767, -32768)%Z
  else if bool_decide (type = "integer") then (2147483647, -2147483648)%Z
  else (9223372036854775807, -9223372036854775808)%Z.
Definition read_bounds (o : read_state) : Z * Z :=
  let '(maxVal, minVal) := server_bounds (rd_type o) in
  (default (if (0 <? rd_increment o)%Z then maxVal else (-1)%Z) (rd_max o),
   default (if (0 <? rd_increment o)%Z then 1%Z else minVal) (rd_min o)).
Definition read_start (o : read_state) : Z :=
  default (if (0 <? rd_increment o)%Z then (read_bounds o).2 else (read_bounds o).1) (rd_start o).

Definition int64_fields (d : SequenceDefinition) : Prop :=
  Forall (λ z, in_int64 z = true) [LastVal d; StartVal d; Increment d; MaxVal d; MinVal d; CacheVal d].

(** The lines of a definition are read one by one. *)
Lemma split_option_line l s : no_byte NL l → Split (option_line l +:+ String NL s) NL = "" :: String TAB l :: Split s NL.
Proof.
  intros Hl. change (option_line l +:+ String NL s) with ("" +:+ String NL (String TAB l +:+ String NL s)).
  rewrite Split_app by apply no_byte_Empty. f_equal. apply Split_app. apply no_byte_String. by split.
Qed.
Lemma split_option_lines ls :
  Forall (no_byte NL) ls → Split (cat (option_line <$> ls)) NL = "" :: (String TAB <$> ls).
Proof.
  induction 1 as [|l ls Hl Hls IH]; [done|]. destruct ls as [|l2 ls].
  - change (cat _) with (option_line l +:+ ""). rewrite append_nil_r.
    change (option_line l) with ("" +:+ String NL (String TAB l)). rewrite Split_app by apply no_byte_Empty. f_equal.
    apply Split_no_byte, no_byte_String. by split.
  - change (cat (option_line <$> l :: l2 :: ls)) with (option_line l +:+ String NL (String TAB l2 +:+ cat (option_line <$> ls))).
    rewrite split_option_line by done.
    change (cat (option_line <$> l2 :: ls)) with ("" +:+ String NL (String TAB l2 +:+ cat (option_line <$> ls))) in IH.
    rewrite Split_app in IH by apply no_byte_Empty.
    apply (f_equal (@tail string)) in IH. cbn [tail] in IH. by rewrite IH.
Qed.
Lemma read_option_lines ls : Forall (no_byte NL) ls → read_options (cat (option_line <$> ls)) = foldl read_option read_default ls.
Proof.
  intros Hls. unfold read_options. rewrite split_option_lines by done. cbn [omap list_omap strip_prefix tab chr].
  f_equal. clear Hls. induction ls as [|l ls IH]; [done|]. cbn. f_equal. exact IH.
Qed.

(** The effect of each option on what is read. *)
Lemma cat_pair a t : cat [a; t] = a +:+ t.
Proof. unfold cat. cbn [foldr]. by rewrite append_nil_r. Qed.
Ltac read_line :=
  intros; match goal with o : read_state |- _ => destruct o end; rewrite cat_pair; cbv -[Atoi];
  repeat match goal with H : Atoi _ = _ |- _ => rewrite H end; reflexivity.
Lemma read_AS o t : read_option o (cat ["AS "; t]) =
  {| rd_type := t; rd_start := rd_start o; rd_increment := rd_increment o; rd_max := rd_max o; rd_min := rd_min o;
     rd_cache := rd_cache o; rd_cycle := rd_cycle o |}.
Proof. read_line. Qed.
Lemma read_START o t z : Atoi t = Some z → read_option o (cat ["START WITH "; t]) =
  {| rd_type := rd_type o; rd_start := Some z; rd_increment := rd_increment o; rd_max := rd_max o; rd_min := rd_min o;
     rd_cache := rd_cache o; rd_cycle := rd_cycle o |}.
Proof. read_line. Qed.
Lemma read_INCREMENT o t z : Atoi t = Some z → read_option o (cat ["INCREMENT BY "; t]) =
  {| rd_type := rd_type o; rd_start := rd_start o; rd_increment := z; rd_max := rd_max o; rd_min := rd_min o;
     rd_cache := rd_cache o; rd_cycle := rd_cycle o |}.
Proof. read_line. Qed.
Lemma read_MAXVALUE o t z : Atoi t = Some z → read_option o (cat ["MAXVALUE "; t]) =
  {| rd_type := rd_type o; rd_start := rd_start o; rd_increment := rd_increment o; rd_max := Some z; rd_min := rd_min o;
     rd_cache := rd_cache o; rd_cycle := rd_cycle o |}.
Proof. read_line. Qed.
Lemma read_MINVALUE o t z : Atoi t = Some z → read_option o (cat ["MINVALUE "; t]) =
  {| rd_type := rd_type o; rd_start := rd_start o; rd_increment := rd_increment o; rd_max := rd_max o; rd_min := Some z;
     rd_cache := rd_cache o; rd_cycle := rd_cycle o |}.
Proof. read_line. Qed.
Lemma read_CACHE o t z : Atoi t = Some z → read_option o (cat ["CACHE "; t]) =
  {| rd_type := rd_type o; rd_start := rd_start o; rd_increment := rd_increment o; rd_max := rd_max o; rd_min := rd_min o;
     rd_cache := z; rd_cycle := rd_cycle o |}.
Proof. read_line. Qed.

Lemma no_byte_number p z : no_byte NL p → no_byte NL (cat [p; Itoa z]).
Proof. intros Hp. rewrite cat_pair. apply no_byte_append. split; [done|]. apply no_byte_Itoa_other. by apply (bool_decide_unpack _). Qed.
Lemma definition_lines_plain typed v6 d :
  no_byte NL (sd_Type d) → Forall (no_byte NL) (definition_lines typed v6 d).
Proof.
  intros Ht. unfold definition_lines, bound_clauses, when. destruct (type_bounds _ _) as [mx mn].
  assert (Has : no_byte NL (cat ["AS "; sd_Type d])).
  { rewrite cat_pair. apply no_byte_append. split; [by apply (bool_decide_unpack _)|done]. }
  repeat first [apply Forall_app; split | apply Forall_cons; split | apply Forall_nil; exact I | case_match];
    first [done | apply no_byte_number | idtac]; by apply (bool_decide_unpack _).
Qed.

Lemma read_NO_MAX o : read_option o "NO MAXVALUE" =
  {| rd_type := rd_type o; rd_start := rd_start o; rd_increment := rd_increment o; rd_max := None; rd_min := rd_min o;
     rd_cache := rd_cache o; rd_cycle := rd_cycle o |}.
Proof. by destruct o. Qed.
Lemma read_CYCLE o : read_option o "CYCLE" =
  {| rd_type := rd_type o; rd_start := rd_start o; rd_increment := rd_increment o; rd_max := rd_max o; rd_min := rd_min o;
     rd_cache := rd_cache o; rd_cycle := true |}.
Proof. by destruct o. Qed.
Lemma read_NO_MIN o : read_option o "NO MINVALUE" =
  {| rd_type := rd_type o; rd_start := rd_start o; rd_increment := rd_increment o; rd_max := rd_max o; rd_min := None;
     rd_cache := rd_cache o; rd_cycle := rd_cycle o |}.
Proof. by destruct o. Qed.

Lemma type_bounds_server typed type : type_bounds typed type = server_bounds (if typed then type else "bigint").
Proof.
  unfold type_bounds, server_bounds. destruct typed; cbn [andb]; [|reflexivity]. by repeat case_bool_decide.
Qed.

(** Read with the bounds of the type, the clauses give the bounds. *)
Lemma read_bound_clauses maxVal minVal d o :
  in_int64 (MaxVal d) = true → in_int64 (MinVal d) = true → rd_increment o = Increment d → Increment d ≠ 0%Z →
  server_bounds (rd_type o) = (maxVal, minVal) →
  let o' := foldl read_option o (bound_clauses maxVal minVal d) in
  read_bounds o' = (MaxVal d, MinVal d) ∧ rd_type o' = rd_type o ∧ rd_increment o' = rd_increment o ∧
  rd_start o' = rd_start o ∧ rd_cycle o' = rd_cycle o.
Proof.
  intros Hmx Hmn Hinc H0 Hb. unfold bound_clauses. cbn [foldl].
  match goal with |- context [if ?b then "NO MAXVALUE" else _] => destruct b eqn:E1 end;
    rewrite ?read_NO_MAX, ?(read_MAXVALUE _ _ (MaxVal d)) by (by apply Atoi_Itoa);
  match goal with |- context [if ?b then "NO MINVALUE" else _] => destruct b eqn:E2 end;
    rewrite ?read_NO_MIN, ?(read_MINVALUE _ _ (MinVal d)) by (by apply Atoi_Itoa);
  cbv zeta; unfold read_bounds; cbn [rd_type rd_start rd_increment rd_max rd_min default]; rewrite Hb, Hinc;
  (split; [|done]); f_equal; destruct (0 <? Increment d)%Z eqn:?; lia.
Qed.

Lemma read_definition typed v6 d :
  int64_fields d → sd_Type d ∈ ["smallint"; "integer"; "bigint"] → Increment d ≠ 0%Z →
  let o := foldl read_option read_default (definition_lines typed v6 d) in
  rd_type o = (if typed then sd_Type d else "bigint") ∧ read_bounds o = (MaxVal d, MinVal d) ∧
  rd_increment o = Increment d ∧ rd_cache o = CacheVal d ∧ rd_cycle o = IsCycled d ∧
  rd_start o = (if v6 then Some (StartVal d) else if IsCalled d then None else Some (LastVal d)).
Proof.
  unfold int64_fields. rewrite !Forall_cons. intros (Hl & Hs & Hi & Hmx & Hmn & Hc & _) Hty Hinc. unfold definition_lines.
  set (ty := if typed then sd_Type d else "bigint").
  destruct (type_bounds typed (sd_Type d)) as [mx mn] eqn:Hb.
  assert (Hb' : server_bounds ty = (mx, mn)) by (rewrite <- Hb, type_bounds_server; by subst ty).
  rewrite !foldl_app.
  assert (H1 : ∃ o, foldl read_option read_default (when (typed && negb (bool_decide (sd_Type d = "bigint"))) [cat ["AS "; sd_Type d]]) = o
     ∧ rd_type o = ty ∧ rd_start o = None ∧ rd_cycle o = false).
  { eexists; split; [done|]. unfold when, ty. destruct typed; [|done]. case_bool_decide as E; cbn [andb negb]; [by rewrite E|].
    cbn [foldl]. by rewrite read_AS. }
  destruct H1 as (o1 & -> & Ht1 & Hs1 & Hy1).
  set (start := if v6 then _ else _).
  assert (H2 : ∃ o, foldl read_option o1 start = o ∧ rd_type o = ty ∧
     rd_start o = (if v6 then Some (StartVal d) else if IsCalled d then None else Some (LastVal d)) ∧ rd_cycle o = false).
  { eexists; split; [done|]. unfold start, when. destruct v6, (IsCalled d); cbn [foldl negb]; [..|done|];
      (erewrite read_START by (by apply Atoi_Itoa)); done. }
  destruct H2 as (o2 & -> & Ht2 & Hs2 & Hy2).
  cbn [foldl]. rewrite (read_INCREMENT _ _ (Increment d)) by (by apply Atoi_Itoa).
  set (o3 := {| rd_type := rd_type o2; rd_start := _; rd_increment := _; rd_max := _; rd_min := _; rd_cache := _; rd_cycle := _ |}).
  destruct (read_bound_clauses mx mn d o3) as (Hrb & Hrt & Hri & Hrs & Hry); [done..|by cbn; rewrite Ht2|].
  cbv zeta in *. set (o4 := foldl read_option o3 _) in *. cbn [rd_type rd_start rd_increment rd_cycle o3] in Hrt, Hri, Hrs, Hry.
  rewrite (read_CACHE _ _ (CacheVal d)) by (by apply Atoi_Itoa).
  unfold when. destruct (IsCycled d); cbn [foldl]; [rewrite read_CYCLE|];
    unfold read_bounds in *; cbn [rd_type rd_start rd_increment rd_max rd_min rd_cache rd_cycle];
    rewrite ?Hrt, ?Hri, ?Hrs, ?Hry, ?Ht2, ?Hy2 in *; by repeat split.
Qed.

(** C20: the text of a sequence's definition, read by a server with the defaults
    documented for CREATE SEQUENCE and the bounds documented for its types,
    gives back its bounds, increment, cache and cycle exactly, ascending or
    descending, and its type where the type is printed, so that the clauses NO MAXVALUE and NO MINVALUE are only printed where
    they mean the same value; its start is the start value of a later server,
    and the last value of an older one for a sequence never called. *)
Theorem sequence_definition_roundtrip `{SemverLaws} env sequence
    (Hint : int64_fields (Definition_ sequence))
    (Htype : sd_Type (Definition_ sequence) ∈ ["smallint"; "integer"; "bigint"])
    (Hinc : Increment (Definition_ sequence) ≠ 0%Z) :
  ∃ text v6 v7, generateSequenceDefinitionStatement env sequence = Ok text ∧
    gpdb_or_family (srcDBVersion env) "6" = Ok v6 ∧ gpdb_or_family (srcDBVersion env) "7" = Ok v7 ∧
    let d := Definition_ sequence in let o := read_options text in
    read_bounds o = (MaxVal d, MinVal d) ∧ rd_increment o = Increment d ∧ rd_cache o = CacheVal d ∧ rd_cycle o = IsCycled d ∧
    rd_type o = (if v7 && bool_decide (OwningColumnAttIdentity sequence = "") then sd_Type d else "bigint") ∧
    rd_start o = (if v6 then Some (StartVal d) else if IsCalled d then None else Some (LastVal d)).
Proof.
  destruct (gpdb_or_family_major (srcDBVersion env) 7) as [v7 H7]; [unfold int64_max; lia|].
  destruct (gpdb_or_family_major (srcDBVersion env) 6) as [v6 H6]; [unfold int64_max; lia|].
  change (Itoa 7) with "7" in H7. change (Itoa 6) with "6" in H6.
  eexists _, v6, v7. unfold generateSequenceDefinitionStatement. rewrite H7, H6. split; [reflexivity|]. split; [done|]. split; [done|].
  rewrite read_option_lines.
  - destruct (read_definition (v7 && bool_decide (OwningColumnAttIdentity sequence = "")) v6 (Definition_ sequence))
      as (Ht & Hb & Hi & Hc & Hy & Hs); [done..|]. cbv zeta.
    by repeat split.
  - apply definition_lines_plain. rewrite !elem_of_cons, elem_of_nil in Htype.
    destruct Htype as [->|[->|[->|[]]]]; by apply (bool_decide_unpack _).
Qed.

Definition sample_sequence : Sequence :=
  {| s_Relation := {| r_SchemaOid := 5; r_Oid := 6; r_Schema := "s"; r_Name := "q" |}; OwningTableOid := ""; OwningTableSchema := "";
     OwningTable := ""; OwningColumn := ""; UnqualifiedOwningColumn := ""; OwningColumnAttIdentity := ""; IsIdentity := false;
     Definition_ := {| LastVal := -1; sd_Type := "smallint"; StartVal := -1; Increment := -2; MaxVal := -1; MinVal := -32768;
                       CacheVal := 1; IsCycled := true; IsCalled := false |} |}.
Definition sequence_env : print_env :=
  {| srcDBVersion := gpdb 7; destDBVersion := gpdb 7; ownerMap := ∅; quotedRoleNames := ∅; dest_tablespaces := dest_tablespaces sample_env |}.
Lemma sequence_definition_roundtrip_witness :
  let d := Definition_ sample_sequence in
  generateSequenceDefinitionStatement sequence_env sample_sequence =
    Ok (cat (option_line <$> ["AS smallint"; "START WITH -1"; "INCREMENT BY -2"; "NO MAXVALUE"; "NO MINVALUE"; "CACHE 1"; "CYCLE"])) ∧
  ∃ text v6 v7, generateSequenceDefinitionStatement sequence_env sample_sequence = Ok text ∧
    gpdb_or_family (srcDBVersion sequence_env) "6" = Ok v6 ∧ gpdb_or_family (srcDBVersion sequence_env) "7" = Ok v7 ∧
    let o := read_options text in
    read_bounds o = (MaxVal d, MinVal d) ∧ rd_increment o = Increment d ∧ rd_cache o = CacheVal d ∧ rd_cycle o = IsCycled d ∧
    rd_type o = (if v7 && bool_decide (OwningColumnAttIdentity sample_sequence = "") then sd_Type d else "bigint") ∧
    rd_start o = (if v6 then Some (StartVal d) else if IsCalled d then None else Some (LastVal d)).
Proof.
  split; [vm_compute; reflexivity|]. apply (sequence_definition_roundtrip sequence_env sample_sequence).
  - apply (bool_decide_unpack _). vm_compute. exact I.
  - apply (bool_decide_unpack _). vm_compute. exact I.
  - discriminate.
Defined.
