(* ===== verification/TableQueries.v ===== *)
(** The queries for tables, sequences, views and external tables
    ([meta/builtin/queries_relations.go], [queries_table_defs.go],
    [queries_externals.go]). The filter of relations is package state: the
    first query that needs it computes it, the others find it. *)
From S2P Require Import Prelude Utils Version Dependencies Queries Acl Functions Externals Relations.

Section queries.
Context `{SemverLib} (version : GPDBVersion).

(** * Relations *)

Section filtered.
Context `{Selects FqnStruct} `{Selects string_row} `{Selects Relation}.

Definition relkindFilter : go string :=
  let! v7 := gpdb_or_family version "7" in Ok (if (v7 : bool) then "'r', 'p'" else "'r'").
Definition getUserTableRelations_query : string := "
	SELECT n.oid AS schemaoid,
		c.oid AS oid,
		quote_ident(n.nspname) AS schema,
		quote_ident(c.relname) AS name
	FROM pg_class c
		JOIN pg_namespace n ON c.relnamespace = n.oid
	WHERE %s
		%s
		AND relkind IN (%s)
		AND %s
		ORDER BY c.oid".
Definition getUserTableRelations (f : filters) : go (list Relation * filters) :=
  let! kinds := relkindFilter in
  let! (clause, f) := relationAndSchemaFilterClause f in
  let! results := select_rows (A := Relation) (Sprintf getUserTableRelations_query [clause; ""; kinds; ExtensionFilterClause "c"]) in
  Ok (results, f).
Definition getUserTableRelationsWithIncludeFiltering_query : string := "
	SELECT n.oid AS schemaoid,
		c.oid AS oid,
		quote_ident(n.nspname) AS schema,
		quote_ident(c.relname) AS name
	FROM pg_class c
		JOIN pg_namespace n ON c.relnamespace = n.oid
	WHERE c.oid IN (%s)
		AND relkind IN (%s)
	ORDER BY c.oid".
Definition getUserTableRelationsWithIncludeFiltering (includedRelationsQuoted : list string) : go (list Relation) :=
  let! kinds := relkindFilter in
  let! includeOids := getOidsFromRelationList includedRelationsQuoted in
  select_rows (Sprintf getUserTableRelationsWithIncludeFiltering_query [Join includeOids ", "; kinds]).
Definition GetIncludedUserTableRelations (f : filters) (includedRelationsQuoted : list string) : go (list Relation * filters) :=
  if bool_decide (includeRelations f = []) then getUserTableRelations f
  else let! results := getUserTableRelationsWithIncludeFiltering includedRelationsQuoted in Ok (results, f).

(** A query whose operands are the filter of relations and that of extensions. *)
Definition filtered_rows {A} `{Selects A} (query : string) (f : filters) : go (list A * filters) :=
  let! (clause, f) := relationAndSchemaFilterClause f in
  let! results := select_rows (A := A) (Sprintf query [clause; ExtensionFilterClause "c"]) in
  Ok (results, f).
(** A query whose operand is the filter of relations. *)
Definition relation_rows {A} `{Selects A} (query : string) (f : filters) : go (list A * filters) :=
  let! (clause, f) := relationAndSchemaFilterClause f in
  let! results := select_rows (A := A) (Sprintf query [clause]) in
  Ok (results, f).

Definition GetForeignTableRelations_query : string := "
	SELECT n.oid AS schemaoid,
		c.oid AS oid,
		quote_ident(n.nspname) AS schema,
		quote_ident(c.relname) AS name
	FROM pg_class c
		JOIN pg_namespace n ON c.relnamespace = n.oid
	WHERE %s
		AND relkind = 'f'
		AND %s
	ORDER BY c.oid".
Definition GetForeignTableRelations (f : filters) : go (list Relation * filters) := filtered_rows GetForeignTableRelations_query f.
Definition GetAllSequenceRelations_query : string := "
	SELECT n.oid AS schemaoid,
		c.oid AS oid,
		quote_ident(n.nspname) AS schema,
		quote_ident(c.relname) AS name
	FROM pg_class c
		LEFT JOIN pg_namespace n
		ON c.relnamespace = n.oid
	WHERE relkind = 'S'
		AND %s
		AND %s
	ORDER BY n.nspname, c.relname".
Definition GetAllSequenceRelations (f : filters) : go (list Relation * filters) := filtered_rows GetAllSequenceRelations_query f.

(** * Sequences *)

(** [connectionPool.Get]: one row, no row is an error. *)
Definition get_row {A} `{Selects A} (query : string) : go A :=
  let! rows := select_rows (A := A) query in
  match rows with a :: _ => Ok a | [] => Fatal "sql: no rows in result set" end.
Definition GetSequenceDefinition_before7Query : string := "
		SELECT last_value AS lastval,
			%s
			increment_by AS increment,
			max_value AS maxval,
			min_value AS minval,
			cache_value AS cacheval,
			is_cycled AS iscycled,
			is_called AS iscalled
		FROM %s".
Definition GetSequenceDefinition_atLeast7Query : string := "
		SELECT s.seqstart AS startval,
			r.last_value AS lastval,
			pg_catalog.format_type(s.seqtypid, NULL) AS type,
			s.seqincrement AS increment,
			s.seqmax AS maxval,
			s.seqmin AS minval,
			s.seqcache AS cacheval,
			s.seqcycle AS iscycled,
			r.is_called AS iscalled
		FROM %s r
		JOIN pg_sequence s ON s.seqrelid = '%s'::regclass::oid;".
Definition GetSequenceDefinition `{Selects SequenceDefinition} (seqName : string) : go SequenceDefinition :=
  let! v6 := gpdb_or_family version "6" in
  let startValQuery := if (v6 : bool) then "start_value AS startval," else "" in
  let! before7 := gpdb_before version "7" in
  get_row (if (before7 : bool) then Sprintf GetSequenceDefinition_before7Query [startValQuery; seqName]
           else Sprintf GetSequenceDefinition_atLeast7Query [seqName; seqName]).
Definition GetAllSequences_before7Query : string := "
		SELECT n.oid AS schemaoid,
			c.oid AS oid,
			quote_ident(n.nspname) AS schema,
			quote_ident(c.relname) AS name,
			coalesce(d.refobjid::text, '') AS owningtableoid,
			coalesce(quote_ident(m.nspname), '') AS owningtableschema,
			coalesce(quote_ident(t.relname), '') AS owningtable,
			coalesce(quote_ident(a.attname), '') AS owningcolumn
		FROM pg_class c
			JOIN pg_namespace n ON n.oid = c.relnamespace
			LEFT JOIN pg_depend d ON c.oid = d.objid AND d.deptype = 'a'
			LEFT JOIN pg_class t ON t.oid = d.refobjid
			LEFT JOIN pg_namespace m ON m.oid = t.relnamespace
			LEFT JOIN pg_attribute a ON a.attrelid = d.refobjid AND a.attnum = d.refobjsubid
		WHERE c.relkind = 'S'
			AND %s
			AND %s
		ORDER BY n.nspname, c.relname".
Definition GetAllSequences_atLeast7Query : string := "
		SELECT n.oid AS schemaoid,
			c.oid AS oid,
			quote_ident(n.nspname) AS schema,
			quote_ident(c.relname) AS name,
			coalesce(d.refobjid::text, '') AS owningtableoid,
			coalesce(quote_ident(m.nspname), '') AS owningtableschema,
			coalesce(quote_ident(t.relname), '') AS owningtable,
			coalesce(quote_ident(a.attname), '') AS owningcolumn,
			coalesce(a.attidentity, '') AS owningcolumnattidentity,
			coalesce(quote_ident(a.attname), '') AS unqualifiedowningcolumn,
			CASE
				WHEN d.deptype IS NULL THEN false
				ELSE d.deptype = 'i'
			END AS isidentity
		FROM pg_class c
			JOIN pg_namespace n ON n.oid = c.relnamespace
			LEFT JOIN pg_depend d ON c.oid = d.objid AND d.deptype in ('a', 'i')
			LEFT JOIN pg_class t ON t.oid = d.refobjid
			LEFT JOIN pg_namespace m ON m.oid = t.relnamespace
			LEFT JOIN pg_attribute a ON a.attrelid = d.refobjid AND a.attnum = d.refobjsubid
		WHERE c.relkind = 'S'
			AND %s
			AND %s
		ORDER BY n.nspname, c.relname".
(** [excludeTables] is the flag of the excluded tables, as given. *)
Definition GetAllSequences `{Selects Sequence} `{Selects SequenceDefinition} (f : filters) (excludeTables : list string)
    : go (list Sequence * filters) :=
  let! before7 := gpdb_before version "7" in
  let! (results, f) := filtered_rows (A := Sequence) (if (before7 : bool) then GetAllSequences_before7Query else GetAllSequences_atLeast7Query) f in
  let! excludeOids := (if bool_decide (excludeTables = []) then Ok [] else getOidsFromRelationList excludeTables) in
  let! sequences := go_map (λ s, let! d := GetSequenceDefinition (Sequence_FQN s) in Ok (own_sequence excludeOids s d)) results in
  Ok (sequences, f).

Record sequence_owner := { so_Schema : string; so_Name : string; so_TableName : string; so_ColumnName : string }.
Definition GetSequenceColumnOwnerMap_query : string := "
	SELECT quote_ident(n.nspname) AS schema,
		quote_ident(s.relname) AS name,
		quote_ident(c.relname) AS tablename,
		quote_ident(a.attname) AS columnname
	FROM pg_depend d
		JOIN pg_attribute a ON a.attrelid = d.refobjid AND a.attnum = d.refobjsubid
		JOIN pg_class s ON s.oid = d.objid
		JOIN pg_class c ON c.oid = d.refobjid
		JOIN pg_namespace n ON n.oid = s.relnamespace
	WHERE s.relkind = 'S'
		AND %s".
Definition owner_maps (results : list sequence_owner) : gmap string string * gmap string string :=
  foldl (λ m o,
    let seqFQN := MakeFQN (so_Schema o) (so_Name o) in
    (<[seqFQN := cat [so_Schema o; "."; so_TableName o]]> m.1,
     <[seqFQN := cat [so_Schema o; "."; so_TableName o; "."; so_ColumnName o]]> m.2)) (∅, ∅) results.
Definition GetSequenceColumnOwnerMap `{Selects sequence_owner} (f : filters) : go (gmap string string * gmap string string * filters) :=
  let! (results, f) := relation_rows (A := sequence_owner) GetSequenceColumnOwnerMap_query f in Ok (owner_maps results, f).

(** * Parts of tables *)

Definition GetPartitionTableMap_before7Query : string := "
		SELECT pc.oid AS oid,
			'p' AS level,
			'' AS rootname
		FROM pg_partition p
			JOIN pg_class pc ON p.parrelid = pc.oid
		UNION ALL
		SELECT r.parchildrelid AS oid,
			CASE WHEN p.parlevel = levels.pl THEN 'l' ELSE 'i' END AS level,
			quote_ident(cparent.relname) AS rootname
		FROM pg_partition p
			JOIN pg_partition_rule r ON p.oid = r.paroid
			JOIN pg_class cparent ON cparent.oid = p.parrelid
			JOIN (SELECT parrelid AS relid, max(parlevel) AS pl
				FROM pg_partition GROUP BY parrelid) AS levels ON p.parrelid = levels.relid
		WHERE r.parchildrelid != 0".
Definition GetPartitionTableMap_atLeast7Query : string := "
		SELECT c.oid,
			CASE WHEN p.partrelid IS NOT NULL AND c.relispartition = false THEN ''
				ELSE rc.relname
			END AS rootname,
			CASE WHEN p.partrelid IS NOT NULL AND c.relispartition = false THEN 'p'
				WHEN p.partrelid IS NOT NULL AND c.relispartition = true THEN 'i'
				ELSE 'l'
			END AS level
		FROM pg_class c
			LEFT JOIN pg_partitioned_table p ON c.oid = p.partrelid
			LEFT JOIN pg_class rc ON pg_partition_root(c.oid) = rc.oid
		WHERE c.relispartition = true OR c.relkind = 'p'".
Definition GetPartitionTableMap `{Selects PartitionLevelInfo} : go (gmap Z PartitionLevelInfo) :=
  let! before7 := gpdb_before version "7" in
  let! results := select_rows (A := PartitionLevelInfo)
    (if (before7 : bool) then GetPartitionTableMap_before7Query else GetPartitionTableMap_atLeast7Query) in
  Ok (row_map pli_Oid id results).

Definition GetColumnDefinitions_before6Query : string := "
	SELECT a.attrelid,
		a.attnum,
		quote_ident(a.attname) AS name,
		a.attnotnull,
		a.atthasdef,
		pg_catalog.format_type(t.oid,a.atttypmod) AS type,
		coalesce(pg_catalog.array_to_string(e.attoptions, ','), '') AS encoding,
		a.attstattarget,
		CASE WHEN a.attstorage != t.typstorage THEN a.attstorage ELSE '' END AS storagetype,
		coalesce('('||pg_catalog.pg_get_expr(ad.adbin, ad.adrelid)||')', '') AS defaultval,
		coalesce(d.description, '') AS comment
	FROM pg_catalog.pg_attribute a
		JOIN pg_class c ON a.attrelid = c.oid
		JOIN pg_namespace n ON c.relnamespace = n.oid
		LEFT JOIN pg_catalog.pg_attrdef ad ON a.attrelid = ad.adrelid AND a.attnum = ad.adnum
		LEFT JOIN pg_catalog.pg_type t ON a.atttypid = t.oid
		LEFT JOIN pg_catalog.pg_attribute_encoding e ON e.attrelid = a.attrelid AND e.attnum = a.attnum
		LEFT JOIN pg_description d ON d.objoid = a.attrelid AND d.classoid = 'pg_class'::regclass AND d.objsubid = a.attnum
	WHERE %s
		AND NOT EXISTS (
			SELECT 1 FROM 
				(SELECT parchildrelid FROM pg_partition_rule EXCEPT SELECT reloid FROM pg_exttable) par 
			WHERE par.parchildrelid = c.oid)
		AND c.reltype <> 0
		AND a.attnum > 0::pg_catalog.int2
		AND a.attisdropped = 'f'
	ORDER BY a.attrelid, a.attnum".
Definition GetColumnDefinitions_version6Query : string := "
	SELECT a.attrelid,
		a.attnum,
		quote_ident(a.attname) AS name,
		a.attnotnull,
		a.atthasdef,
		pg_catalog.format_type(t.oid,a.atttypmod) AS type,
		coalesce(pg_catalog.array_to_string(e.attoptions, ','), '') AS encoding,
		a.attstattarget,
		CASE WHEN a.attstorage != t.typstorage THEN a.attstorage ELSE '' END AS storagetype,
		coalesce('('||pg_catalog.pg_get_expr(ad.adbin, ad.adrelid)||')', '') AS defaultval,
		coalesce(d.description, '') AS comment,
		CASE
			WHEN a.attacl IS NULL THEN NULL
			WHEN array_upper(a.attacl, 1) = 0 THEN a.attacl[0]
			ELSE unnest(a.attacl) END AS privileges,
		CASE
			WHEN a.attacl IS NULL THEN ''
			WHEN array_upper(a.attacl, 1) = 0 THEN 'Empty'
			ELSE ''
		END AS kind,
		coalesce(pg_catalog.array_to_string(a.attoptions, ','), '') AS options,
		coalesce(array_to_string(ARRAY(SELECT option_name || ' ' || quote_literal(option_value) FROM pg_options_to_table(attfdwoptions) ORDER BY option_name), ', '), '') AS fdwoptions,
		CASE WHEN a.attcollation <> t.typcollation THEN quote_ident(cn.nspname) || '.' || quote_ident(coll.collname) ELSE '' END AS collation,
		coalesce(sec.provider,'') AS securitylabelprovider,
		coalesce(sec.label,'') AS securitylabel
	FROM pg_catalog.pg_attribute a
		JOIN pg_class c ON a.attrelid = c.oid
		JOIN pg_namespace n ON c.relnamespace = n.oid
		LEFT JOIN pg_catalog.pg_attrdef ad ON a.attrelid = ad.adrelid AND a.attnum = ad.adnum
		LEFT JOIN pg_catalog.pg_type t ON a.atttypid = t.oid
		LEFT JOIN pg_catalog.pg_attribute_encoding e ON e.attrelid = a.attrelid AND e.attnum = a.attnum
		LEFT JOIN pg_description d ON d.objoid = a.attrelid AND d.classoid = 'pg_class'::regclass AND d.objsubid = a.attnum
		LEFT JOIN pg_collation coll ON a.attcollation = coll.oid
		LEFT JOIN pg_namespace cn ON coll.collnamespace = cn.oid
		LEFT JOIN pg_seclabel sec ON sec.objoid = a.attrelid AND sec.classoid = 'pg_class'::regclass AND sec.objsubid = a.attnum
	WHERE %s
		AND NOT EXISTS (
			SELECT 1 FROM 
				(SELECT parchildrelid FROM pg_partition_rule EXCEPT SELECT reloid FROM pg_exttable) par 
			WHERE par.parchildrelid = c.oid)
		AND c.reltype <> 0
		AND a.attnum > 0::pg_catalog.int2
		AND a.attisdropped = 'f'
	ORDER BY a.attrelid, a.attnum".
Definition GetColumnDefinitions_atLeast7Query : string := "
	SELECT a.attrelid,
		a.attnum,
		quote_ident(a.attname) AS name,
		a.attnotnull,
		a.atthasdef,
		pg_catalog.format_type(t.oid,a.atttypmod) AS type,
		coalesce(pg_catalog.array_to_string(e.attoptions, ','), '') AS encoding,
		a.attstattarget,
		CASE WHEN a.attstorage != t.typstorage THEN a.attstorage ELSE '' END AS storagetype,
		coalesce('('||pg_catalog.pg_get_expr(ad.adbin, ad.adrelid)||')', '') AS defaultval,
		coalesce(d.description, '') AS comment,
		a.attgenerated,
		ljl_unnest AS privileges,
		CASE
			WHEN a.attacl IS NULL THEN ''
			WHEN array_upper(a.attacl, 1) = 0 THEN 'Empty'
			ELSE ''
		END AS kind,
		coalesce(pg_catalog.array_to_string(a.attoptions, ','), '') AS options,
		coalesce(array_to_string(ARRAY(SELECT option_name || ' ' || quote_literal(option_value) FROM pg_options_to_table(attfdwoptions) ORDER BY option_name), ', '), '') AS fdwoptions,
		CASE WHEN a.attcollation <> t.typcollation THEN quote_ident(cn.nspname) || '.' || quote_ident(coll.collname) ELSE '' END AS collation,
		coalesce(sec.provider,'') AS securitylabelprovider,
		coalesce(sec.label,'') AS securitylabel
	FROM pg_catalog.pg_attribute a
		JOIN pg_class c ON a.attrelid = c.oid
		JOIN pg_namespace n ON c.relnamespace = n.oid
		LEFT JOIN pg_catalog.pg_attrdef ad ON a.attrelid = ad.adrelid AND a.attnum = ad.adnum
		LEFT JOIN pg_catalog.pg_type t ON a.atttypid = t.oid
		LEFT JOIN pg_catalog.pg_attribute_encoding e ON e.attrelid = a.attrelid AND e.attnum = a.attnum
		LEFT JOIN pg_description d ON d.objoid = a.attrelid AND d.classoid = 'pg_class'::regclass AND d.objsubid = a.attnum
		LEFT JOIN pg_collation coll ON a.attcollation = coll.oid
		LEFT JOIN pg_namespace cn ON coll.collnamespace = cn.oid
		LEFT JOIN pg_seclabel sec ON sec.objoid = a.attrelid AND sec.classoid = 'pg_class'::regclass AND sec.objsubid = a.attnum
		LEFT JOIN LATERAL unnest(a.attacl) ljl_unnest ON a.attacl IS NOT NULL AND array_length(a.attacl, 1) != 0
	WHERE %s
		AND c.reltype <> 0
		AND a.attnum > 0::pg_catalog.int2
		AND a.attisdropped = 'f'
	ORDER BY a.attrelid, a.attnum".
Definition GetColumnDefinitions `{Selects ColumnDefinition} (f : filters) : go (gmap Z (list ColumnDefinition) * filters) :=
  let! before6 := gpdb_before version "6" in
  let! is6 := gpdb_is version "6" in
  let! (results, f) := relation_rows (A := ColumnDefinition)
    (if (before6 : bool) then GetColumnDefinitions_before6Query else if (is6 : bool) then GetColumnDefinitions_version6Query
     else GetColumnDefinitions_atLeast7Query) f in
  let! v7 := gpdb_or_family version "7" in
  Ok (column_definitions v7 results, f).

Context `{Selects oid_value}.
Definition GetDistributionPolicies_before6Query : string := "
		SELECT p.localoid AS oid,
			'DISTRIBUTED BY (' || string_agg(quote_ident(a.attname) , ', ' ORDER BY index) || ')' AS value	
		FROM (SELECT localoid, unnest(attrnums) AS attnum,
				generate_series(1, array_upper(attrnums, 1)) AS index
				FROM gp_distribution_policy WHERE attrnums IS NOT NULL) p
			JOIN pg_attribute a ON (p.localoid, p.attnum) = (a.attrelid, a.attnum)
		GROUP BY localoid
		UNION ALL
		SELECT p.localoid AS oid, 'DISTRIBUTED RANDOMLY' AS value
		FROM gp_distribution_policy p WHERE attrnums IS NULL".
Definition GetDistributionPolicies_atLeast6Query : string := "
		SELECT localoid AS oid, pg_catalog.pg_get_table_distributedby(localoid) AS value
		FROM gp_distribution_policy".
Definition GetDistributionPolicies : go (gmap Z string) :=
  let! before6 := gpdb_before version "6" in
  selectAsOidToStringMap (if (before6 : bool) then GetDistributionPolicies_before6Query else GetDistributionPolicies_atLeast6Query).
Definition GetTableType : go (gmap Z string) :=
  let! before6 := gpdb_before version "6" in
  if (before6 : bool) then Ok ∅ else selectAsOidToStringMap "
		SELECT oid, reloftype::pg_catalog.regtype AS value FROM pg_class WHERE reloftype != 0".
Definition GetTableAccessMethod : go (gmap Z string) :=
  let! before7 := gpdb_before version "7" in
  if (before7 : bool) then Ok ∅ else selectAsOidToStringMap "
	SELECT c.oid, a.amname AS value
	FROM pg_class c
        JOIN pg_am a ON c.relam = a.oid
	WHERE a.amtype = 't'
        AND a.amname != 'heap';".
Definition GetTableReplicaIdentity_query : string := "
	SELECT oid,
		relreplident AS value
	FROM pg_class
	WHERE relkind IN (%s)
		AND oid >= %d".
Definition GetTableReplicaIdentity : go (gmap Z string) :=
  let! before6 := gpdb_before version "6" in
  if (before6 : bool) then Ok ∅
  else
    let! v7 := gpdb_or_family version "7" in
    selectAsOidToStringMap (Sprintf GetTableReplicaIdentity_query [if (v7 : bool) then "'r', 'm', 'p'" else "'r', 'm'"; Itoa FIRST_NORMAL_OBJECT_ID]).

Record partition_detail := { pd_Oid : Z; pd_Definition : string; pd_Template : NullString }.
Definition partition_details (results : list partition_detail) : gmap Z string * gmap Z string :=
  (row_map pd_Oid pd_Definition results,
   row_map pd_Oid (λ r, NS_String (pd_Template r)) (filter (λ r, NS_Valid (pd_Template r) = true) results)).
Definition GetPartitionDetails_query : string := "
	SELECT p.parrelid AS oid,
		pg_get_partition_def(p.parrelid, true, true) AS definition,
		pg_get_partition_template_def(p.parrelid, true, true) AS template
	FROM pg_partition p
		JOIN pg_class c ON p.parrelid = c.oid
		JOIN pg_namespace n ON c.relnamespace = n.oid
	WHERE %s".
Definition GetPartitionDetails `{Selects partition_detail} (f : filters) : go (gmap Z string * gmap Z string * filters) :=
  let! v7 := gpdb_or_family version "7" in
  if (v7 : bool) then Ok (∅, ∅, f)
  else let! (results, f) := relation_rows (A := partition_detail) GetPartitionDetails_query f in Ok (partition_details results, f).

Record altered_row := { al_Oid : Z; al_relation : AlteredPartitionRelation }.
Definition GetPartitionAlteredSchema_query : string := "
	SELECT pgp.parrelid AS oid,
		quote_ident(pgn2.nspname) AS oldschema,
		quote_ident(pgn.nspname) AS newschema,
		quote_ident(pgc.relname) AS name
	FROM pg_catalog.pg_partition_rule pgpr
		JOIN pg_catalog.pg_partition pgp ON pgp.oid = pgpr.paroid
		JOIN pg_catalog.pg_class pgc ON pgpr.parchildrelid = pgc.oid
		JOIN pg_catalog.pg_class pgc2 ON pgp.parrelid = pgc2.oid
		JOIN pg_catalog.pg_namespace pgn ON pgc.relnamespace = pgn.oid
		JOIN pg_catalog.pg_namespace pgn2 ON pgc2.relnamespace = pgn2.oid
	WHERE pgc.relnamespace != pgc2.relnamespace".
Definition GetPartitionAlteredSchema `{Selects altered_row} : go (gmap Z (list AlteredPartitionRelation)) :=
  let! v7 := gpdb_or_family version "7" in
  if (v7 : bool) then Ok ∅
  else
    let! results := select_rows (A := altered_row) GetPartitionAlteredSchema_query in
    Ok (map al_relation <$> rows_by al_Oid results).

Record storage_row := { st_Oid : Z; st_Tablespace : NullString; RelOptions : NullString }.
Definition valid_values (value : storage_row → NullString) (results : list storage_row) : gmap Z string :=
  row_map st_Oid (λ r, NS_String (value r)) (filter (λ r, NS_Valid (value r) = true) results).
Definition GetTableStorage_query : string := "
	SELECT c.oid,
		quote_ident(t.spcname) AS tablespace,
		array_to_string(reloptions, ', ') AS reloptions
	FROM pg_class c
		JOIN pg_namespace n ON c.relnamespace = n.oid
		LEFT JOIN pg_tablespace t ON t.oid = c.reltablespace
	WHERE %s
		AND (t.spcname IS NOT NULL OR reloptions IS NOT NULL)".
Definition GetTableStorage `{Selects storage_row} (f : filters) : go (gmap Z string * gmap Z string * filters) :=
  let! (results, f) := relation_rows (A := storage_row) GetTableStorage_query f in
  Ok (valid_values st_Tablespace results, valid_values RelOptions results, f).

Record oid_row := { or_Oid : Z }.
Definition GetUnloggedTables `{Selects oid_row} : go (gmap Z bool) :=
  let! before6 := gpdb_before version "6" in
  if (before6 : bool) then Ok ∅
  else let! results := select_rows (A := oid_row) "
		SELECT oid FROM pg_class WHERE relpersistence = 'u'" in Ok (row_map or_Oid (λ _, true) results).

Definition GetForeignTableDefinitions_query : string := "
	SELECT ftrelid, quote_ident(fs.srvname) AS ftserver,
		array_to_string(array(
			SELECT quote_ident(option_name) || ' ' || quote_literal(option_value)
			FROM pg_options_to_table(ftoptions) ORDER BY option_name
		), e',    ') AS ftoptions
	FROM pg_foreign_table ft
		JOIN pg_foreign_server fs ON ft.ftserver = fs.oid
	WHERE ft.ftrelid >= %d AND fs.oid >= %d".
Definition GetForeignTableDefinitions `{Selects ForeignTableDefinition} : go (gmap Z ForeignTableDefinition) :=
  let! before6 := gpdb_before version "6" in
  if (before6 : bool) then Ok ∅
  else
    let! results := select_rows (A := ForeignTableDefinition)
      (Sprintf GetForeignTableDefinitions_query [Itoa FIRST_NORMAL_OBJECT_ID; Itoa FIRST_NORMAL_OBJECT_ID]) in
    Ok (row_map fd_Oid id results).

Record Dependency := { dep_Oid : Z; ReferencedObject : string }.
Definition table_filter (f : filters) (tables : list Relation) : string :=
  match includeRelations f, tables with
  | _ :: _, _ :: _ => cat [nl; "AND i.inhrelid IN ("; Join ((λ t, Itoa (r_Oid t)) <$> tables) ","; ")"]
  | _, _ => ""
  end.
Definition GetTableInheritance_query : string := "
	SELECT i.inhrelid AS oid,
		quote_ident(n.nspname) || '.' || quote_ident(p.relname) AS referencedobject
	FROM pg_inherits i
		JOIN pg_class p ON i.inhparent = p.oid
		JOIN pg_namespace n ON p.relnamespace = n.oid
	WHERE %s%s
	ORDER BY i.inhrelid, i.inhseqno".
Definition GetTableInheritance `{Selects Dependency} (f : filters) (tables : list Relation) : go (gmap Z (list string)) :=
  let! results := select_rows (A := Dependency) (Sprintf GetTableInheritance_query [ExtensionFilterClause "p"; table_filter f tables]) in
  Ok (map ReferencedObject <$> rows_by dep_Oid results).

Record keydef_row := { kd_Oid : Z; Keydef : string }.
Definition GetPartitionKeyDefs_query : string := "
	SELECT
		partrelid AS oid,
		pg_get_partkeydef(partrelid) AS keydef
	FROM
		pg_partitioned_table;".
Definition GetPartitionKeyDefs `{Selects keydef_row} : go (gmap Z string) :=
  let! before7 := gpdb_before version "7" in
  if (before7 : bool) then Ok ∅
  else let! results := select_rows (A := keydef_row) GetPartitionKeyDefs_query in Ok (row_map kd_Oid Keydef results).

Definition GetAttachPartitionInfo_query : string := "
	SELECT
		c.oid,
		quote_ident(n.nspname) || '.' || quote_ident(c.relname) AS relname,
		quote_ident(rn.nspname) || '.' || quote_ident(rc.relname) AS parent,
		coalesce(pg_get_expr(c.relpartbound, c.oid), '') AS expr
	FROM pg_class c
		JOIN pg_namespace n ON c.relnamespace = n.oid
		JOIN pg_class rc ON pg_partition_root(c.oid) = rc.oid
		JOIN pg_namespace rn ON rc.relnamespace = rn.oid
	WHERE c.relispartition = 't'".
Definition GetAttachPartitionInfo `{Selects AttachPartitionInfo} : go (gmap Z AttachPartitionInfo) :=
  let! before7 := gpdb_before version "7" in
  if (before7 : bool) then Ok ∅
  else let! results := select_rows (A := AttachPartitionInfo) GetAttachPartitionInfo_query in Ok (row_map at_Oid id results).

Definition GetForceRowSecurity_query : string := "
	SELECT oid
	FROM pg_class
	WHERE relforcerowsecurity = 't'
		AND oid >= %d".
Definition GetForceRowSecurity `{Selects oid_row} : go (gmap Z bool) :=
  let! before7 := gpdb_before version "7" in
  if (before7 : bool) then Ok ∅
  else
    let! results := select_rows (A := oid_row) (Sprintf GetForceRowSecurity_query [Itoa FIRST_NORMAL_OBJECT_ID]) in
    Ok (row_map or_Oid (λ _, true) results).

(** * External tables *)

Definition GetExternalTableDefinitions_version4Query : string := "
	SELECT reloid AS oid,
		CASE WHEN split_part(e.location[1], ':', 1) NOT IN ('ALL_SEGMENTS', 'HOST', 'MASTER_ONLY', 'PER_HOST', 'SEGMENT_ID', 'TOTAL_SEGS') THEN unnest(e.location) ELSE '' END AS location,
		CASE WHEN split_part(e.location[1], ':', 1) IN ('ALL_SEGMENTS', 'HOST', 'MASTER_ONLY', 'PER_HOST', 'SEGMENT_ID', 'TOTAL_SEGS') THEN unnest(e.location) ELSE 'ALL_SEGMENTS' END AS execlocation,
		e.fmttype AS formattype,
		e.fmtopts AS formatopts,
		coalesce(e.command, '') AS command,
		coalesce(e.rejectlimit, 0) AS rejectlimit,
		coalesce(e.rejectlimittype, '') AS rejectlimittype,
		coalesce(quote_ident(c.relname), '') AS errtablename,
				coalesce(quote_ident(n.nspname), '') AS errtableschema,
		e.fmterrtbl IS NOT NULL AND e.reloid = e.fmterrtbl AS logerrors,
		pg_encoding_to_char(e.encoding) AS encoding,
		e.writable
	FROM pg_exttable e
		LEFT JOIN pg_class c ON e.fmterrtbl = c.oid AND e.fmterrtbl != e.reloid
				LEFT JOIN pg_namespace n ON n.oid = c.relnamespace".
Definition GetExternalTableDefinitions_version5Query : string := "
	SELECT e.reloid AS oid,
		CASE WHEN e.urilocation IS NOT NULL THEN unnest(e.urilocation) ELSE '' END AS location,
		array_to_string(e.execlocation, ',') AS execlocation,
		e.fmttype AS formattype,
		e.fmtopts AS formatopts,
		coalesce(e.command, '') AS command,
		coalesce(e.rejectlimit, 0) AS rejectlimit,
		coalesce(e.rejectlimittype, '') AS rejectlimittype,
		e.fmterrtbl IS NOT NULL AND e.reloid = e.fmterrtbl AS logerrors,
		'error_log_persistent=true' = any(e.options) AS logerrpersist,
		pg_encoding_to_char(e.encoding) AS encoding,
		e.writable
	FROM pg_exttable e".
Definition GetExternalTableDefinitions_version6Query : string := "
	SELECT e.reloid AS oid,
		CASE WHEN e.urilocation IS NOT NULL THEN unnest(urilocation) ELSE '' END AS location,
		array_to_string(e.execlocation, ',') AS execlocation,
		e.fmttype AS formattype,
		e.fmtopts AS formatopts,
		coalesce(e.command, '') AS command,
		coalesce(e.rejectlimit, 0) AS rejectlimit,
		coalesce(e.rejectlimittype, '') AS rejectlimittype,
		e.logerrors,
		'error_log_persistent=true' = any(e.options) AS logerrpersist,
		pg_encoding_to_char(e.encoding) AS encoding,
		e.writable
	FROM pg_exttable e".
Definition GetExternalTableDefinitions_atLeast7Query : string := "
	SELECT e.reloid AS oid,
		ljl_unnest AS location,
		array_to_string(e.execlocation, ',') AS execlocation,
		e.fmttype AS formattype,
		e.fmtopts AS formatopts,
		coalesce(e.command, '') AS command,
		coalesce(e.rejectlimit, 0) AS rejectlimit,
		coalesce(e.rejectlimittype, '') AS rejectlimittype,
		e.logerrors,
		coalesce('log_errors=p' = any(ft.ftoptions), false) AS logerrpersist,
		pg_encoding_to_char(e.encoding) AS encoding,
		e.writable
	FROM pg_exttable e
		LEFT JOIN pg_foreign_table ft ON e.reloid = ft.ftrelid
		LEFT JOIN LATERAL unnest(urilocation) ljl_unnest ON urilocation IS NOT NULL".
Definition GetExternalTableDefinitions `{Selects ExternalTableDefinition} : go (gmap Z ExternalTableDefinition) :=
  let! is4 := gpdb_is version "4" in
  let! is5 := gpdb_is version "5" in
  let! is6 := gpdb_is version "6" in
  let! v7 := gpdb_or_family version "7" in
  let! results := select_rows (A := ExternalTableDefinition)
    (if (is4 : bool) then GetExternalTableDefinitions_version4Query else if (is5 : bool) then GetExternalTableDefinitions_version5Query
     else if (is6 : bool) then GetExternalTableDefinitions_version6Query else if (v7 : bool) then GetExternalTableDefinitions_atLeast7Query
     else "") in
  Ok (external_definitions results).
Definition GetExternalProtocols_query : string := "
	SELECT p.oid,
		quote_ident(p.ptcname) AS name,
		pg_get_userbyid(p.ptcowner) AS owner,
		p.ptctrusted,
		p.ptcreadfn,
		p.ptcwritefn,
		p.ptcvalidatorfn
	FROM pg_extprotocol p".
Definition GetExternalProtocols `{Selects ExternalProtocol} : go (list ExternalProtocol) := select_rows GetExternalProtocols_query.
Definition GetExternalPartitionInfo_query : string := (cat ["
	SELECT pr1.oid AS partitionruleoid,
		pr1.parparentrule AS partitionparentruleoid,
		cl.oid AS parentrelationoid,
		quote_ident(n.nspname) AS parentschema,
		quote_ident(cl.relname) AS parentrelationname,
		pr1.parchildrelid AS relationoid,
		CASE WHEN pr1.parname = '' THEN '' ELSE quote_ident(pr1.parname) END AS partitionname,
		CASE WHEN pp.parkind <> 'r'::"; chr DQ; "char"; chr DQ; " OR pr1.parisdefault THEN 0
			ELSE pg_catalog.rank() OVER (PARTITION BY pp.oid, cl.relname, pp.parlevel, cl3.relname
				ORDER BY pr1.parisdefault, pr1.parruleord) END AS partitionrank,
		CASE WHEN e.reloid IS NOT NULL then 't' ELSE 'f' END AS isexternal
	FROM pg_namespace n, pg_namespace n2, pg_class cl
		LEFT JOIN pg_tablespace sp ON cl.reltablespace = sp.oid, pg_class cl2
		LEFT JOIN pg_tablespace sp3 ON cl2.reltablespace = sp3.oid, pg_partition pp, pg_partition_rule pr1
		LEFT JOIN pg_partition_rule pr2 ON pr1.parparentrule = pr2.oid
		LEFT JOIN pg_class cl3 ON pr2.parchildrelid = cl3.oid
		LEFT JOIN pg_exttable e ON e.reloid = pr1.parchildrelid
	WHERE pp.paristemplate = false
		AND pp.parrelid = cl.oid
		AND pr1.paroid = pp.oid
		AND cl2.oid = pr1.parchildrelid
		AND cl.relnamespace = n.oid
		AND cl2.relnamespace = n2.oid"]).
Definition GetExternalPartitionInfo `{Selects PartitionInfo} : go (list PartitionInfo * gmap Z PartitionInfo) :=
  let! v7 := gpdb_or_family version "7" in
  if (v7 : bool) then Ok ([], ∅)
  else let! results := select_rows (A := PartitionInfo) GetExternalPartitionInfo_query in Ok (partition_infos results).

(** * Tables *)

Definition ConstructDefinitionsForTables `{Selects ColumnDefinition} `{Selects partition_detail} `{Selects storage_row}
    `{Selects ExternalTableDefinition} `{Selects PartitionLevelInfo} `{Selects oid_row} `{Selects ForeignTableDefinition} `{Selects Dependency}
    `{Selects altered_row} `{Selects keydef_row} `{Selects AttachPartitionInfo} (f : filters) (tableRelations : list Relation)
    : go (list Table * filters) :=
  let! (columnDefs, f) := GetColumnDefinitions f in
  let! distributionPolicies := GetDistributionPolicies in
  let! (partitionDefs, partTemplateDefs, f) := GetPartitionDetails f in
  let! (tablespaceNames, storageOptions, f) := GetTableStorage f in
  let! extTableDefs := GetExternalTableDefinitions in
  let! partTableMap := GetPartitionTableMap in
  let! tableTypeMap := GetTableType in
  let! accessMethodMap := GetTableAccessMethod in
  let! unloggedTableMap := GetUnloggedTables in
  let! foreignTableDefs := GetForeignTableDefinitions in
  let! inheritanceMap := GetTableInheritance f tableRelations in
  let! replicaIdentityMap := GetTableReplicaIdentity in
  let! partitionAlteredSchemaMap := GetPartitionAlteredSchema in
  let! partitionKeyDefs := GetPartitionKeyDefs in
  let! attachPartitionInfo := GetAttachPartitionInfo in
  let! forceRowSecurity := GetForceRowSecurity in
  let maps :=
    {| tm_columnDefs := columnDefs; tm_distributionPolicies := distributionPolicies; tm_partitionDefs := partitionDefs;
       tm_partTemplateDefs := partTemplateDefs; tm_tablespaceNames := tablespaceNames; tm_storageOptions := storageOptions;
       tm_extTableDefs := extTableDefs; tm_partTableMap := partTableMap; tm_tableTypeMap := tableTypeMap;
       tm_accessMethodMap := accessMethodMap; tm_unloggedTableMap := unloggedTableMap; tm_foreignTableDefs := foreignTableDefs;
       tm_inheritanceMap := inheritanceMap; tm_replicaIdentityMap := replicaIdentityMap;
       tm_partitionAlteredSchemaMap := partitionAlteredSchemaMap; tm_partitionKeyDefs := partitionKeyDefs;
       tm_attachPartitionInfo := attachPartitionInfo; tm_forceRowSecurity := forceRowSecurity |} in
  Ok (construct_tables maps tableRelations, f).

(** * Views *)

(** The savepoint around the query of a transaction is not part of the
    result. *)
Definition GetAllViews_before6Query : string := "
	SELECT
		c.oid AS oid,
		quote_ident(n.nspname) AS schema,
		quote_ident(c.relname) AS name,
		pg_get_viewdef(c.oid) AS definition
	FROM pg_class c
		LEFT JOIN pg_namespace n ON n.oid = c.relnamespace
		LEFT JOIN pg_tablespace t ON t.oid = c.reltablespace
	WHERE c.relkind IN ('m', 'v')
		AND %s
		AND %s".
Definition GetAllViews_version6Query : string := "
	SELECT
		c.oid AS oid,
		quote_ident(n.nspname) AS schema,
		quote_ident(c.relname) AS name,
		pg_get_viewdef(c.oid) AS definition,
		coalesce(' WITH (' || array_to_string(c.reloptions, ', ') || ')', '') AS options,
		coalesce(quote_ident(t.spcname), '') AS tablespace,
		c.relkind='m' AS ismaterialized
	FROM pg_class c
		LEFT JOIN pg_namespace n ON n.oid = c.relnamespace
		LEFT JOIN pg_tablespace t ON t.oid = c.reltablespace
	WHERE c.relkind IN ('m', 'v')
		AND %s
		AND %s".
Definition GetAllViews_atLeast7Query : string := "
	SELECT
		c.oid AS oid,
		quote_ident(n.nspname) AS schema,
		quote_ident(c.relname) AS name,
		pg_get_viewdef(c.oid) AS definition,
		coalesce(' WITH (' || array_to_string(c.reloptions, ', ') || ')', '') AS options,
		coalesce(quote_ident(t.spcname), '') AS tablespace,
		c.relkind='m' AS ismaterialized,
		coalesce(quote_ident(am.amname), '') AS accessmethodname
	FROM pg_class c
		LEFT JOIN pg_namespace n ON n.oid = c.relnamespace
		LEFT JOIN pg_tablespace t ON t.oid = c.reltablespace
		LEFT JOIN pg_am am ON am.oid = c.relam
	WHERE c.relkind IN ('m', 'v')
		AND %s
		AND %s".
Definition GetAllViews `{Selects View} (f : filters) : go (list View * filters) :=
  let! before6 := gpdb_before version "6" in
  let! is6 := gpdb_is version "6" in
  let! (results, f) := filtered_rows (A := View)
    (if (before6 : bool) then GetAllViews_before6Query else if (is6 : bool) then GetAllViews_version6Query else GetAllViews_atLeast7Query) f in
  let! distPolicies := GetDistributionPolicies in
  let! views := verify_views distPolicies results in
  Ok (views, f).
End filtered.
End queries.
