(* ===== verification/FunctionQueries.v ===== *)
(** The queries for the metadata of objects ([meta/builtin/queries_acl.go])
    and for functions, aggregates, casts, languages and foreign-data objects
    ([queries_functions.go]). *)
From S2P Require Import Prelude Utils Version Scheduler Dependencies Queries Acl Functions.

(** * Metadata *)

Record MetadataQueryParams := {
  NameField : string; SchemaField : string; mp_ObjectType : string; OidField : string; ACLField : string; OwnerField : string;
  OidTable : string; CommentTable : string; CatalogTable : string; FilterClause : string; Shared : bool
}.
(** The parameters of a type of objects: its name, the field of the name, that
    of the schema, of the oid, of the ACL and of the owner, and its catalogue;
    the other fields are set by [with_...]. *)
Definition params (ObjectType Name Schema Oid ACL Owner Catalog : string) : MetadataQueryParams :=
  {| NameField := Name; SchemaField := Schema; mp_ObjectType := ObjectType; OidField := Oid; ACLField := ACL; OwnerField := Owner;
     OidTable := ""; CommentTable := ""; CatalogTable := Catalog; FilterClause := ""; Shared := false |}.
Definition with_filter (p : MetadataQueryParams) (clause : string) : MetadataQueryParams :=
  {| NameField := NameField p; SchemaField := SchemaField p; mp_ObjectType := mp_ObjectType p; OidField := OidField p;
     ACLField := ACLField p; OwnerField := OwnerField p; OidTable := OidTable p; CommentTable := CommentTable p;
     CatalogTable := CatalogTable p; FilterClause := clause; Shared := Shared p |}.
Definition with_tables (p : MetadataQueryParams) (oidTable commentTable : string) : MetadataQueryParams :=
  {| NameField := NameField p; SchemaField := SchemaField p; mp_ObjectType := mp_ObjectType p; OidField := OidField p;
     ACLField := ACLField p; OwnerField := OwnerField p; OidTable := oidTable; CommentTable := commentTable;
     CatalogTable := CatalogTable p; FilterClause := FilterClause p; Shared := Shared p |}.
Definition shared (p : MetadataQueryParams) : MetadataQueryParams :=
  {| NameField := NameField p; SchemaField := SchemaField p; mp_ObjectType := mp_ObjectType p; OidField := OidField p;
     ACLField := ACLField p; OwnerField := OwnerField p; OidTable := OidTable p; CommentTable := CommentTable p;
     CatalogTable := CatalogTable p; FilterClause := FilterClause p; Shared := true |}.

(** The package variables, by their names. *)
Inductive metadata_type :=
| TYPE_ACCESS_METHOD | TYPE_AGGREGATE | TYPE_CAST | TYPE_COLLATION | TYPE_CONSTRAINT | TYPE_CONVERSION | TYPE_DATABASE | TYPE_EVENTTRIGGER
| TYPE_EXTENSION | TYPE_FOREIGNDATAWRAPPER | TYPE_FOREIGNSERVER | TYPE_FUNCTION | TYPE_INDEX | TYPE_PROCLANGUAGE | TYPE_TRANSFORM
| TYPE_OPERATOR | TYPE_OPERATORCLASS | TYPE_OPERATORFAMILY | TYPE_PROTOCOL | TYPE_RELATION | TYPE_RESOURCEGROUP | TYPE_RESOURCEQUEUE
| TYPE_ROLE | TYPE_RULE | TYPE_SCHEMA | TYPE_STATISTIC_EXT | TYPE_TABLESPACE | TYPE_TSCONFIGURATION | TYPE_TSDICTIONARY | TYPE_TSPARSER
| TYPE_TSTEMPLATE | TYPE_TRIGGER | TYPE_TYPE | TYPE_POLICY.

Section queries.
Context `{SemverLib} (version : GPDBVersion) (f : filters).

(** The variables as [InitializeMetadataParams] sets them; it leaves
    [TYPE_POLICY] as it is. *)
Definition InitializeMetadataParams (t : metadata_type) : go MetadataQueryParams :=
  let! v6 := gpdb_or_family version "6" in
  let! v7 := gpdb_or_family version "7" in
  let! before5 := gpdb_before version "5" in
  Ok (match t with
  | TYPE_ACCESS_METHOD => params "ACCESS METHOD" "amname" "" "oid" "" "" "pg_am"
  | TYPE_AGGREGATE =>
      with_filter (params "AGGREGATE" "proname" "pronamespace" "" "proacl" "proowner" "pg_proc") (if (v7 : bool) then "prokind = 'a'" else "proisagg = 't'")
  | TYPE_CAST => with_tables (params "CAST" "typname" "" "oid" "" "" "pg_cast") "pg_type" ""
  | TYPE_COLLATION => params "COLLATION" "collname" "collnamespace" "oid" "" "collowner" "pg_collation"
  | TYPE_CONSTRAINT => params "CONSTRAINT" "conname" "connamespace" "oid" "" "" "pg_constraint"
  | TYPE_CONVERSION => params "CONVERSION" "conname" "connamespace" "oid" "" "conowner" "pg_conversion"
  | TYPE_DATABASE => shared (params "DATABASE" "datname" "" "" "datacl" "datdba" "pg_database")
  | TYPE_EVENTTRIGGER => params "EVENT TRIGGER" "evtname" "" "oid" "" "evtowner" "pg_event_trigger"
  | TYPE_EXTENSION => params "EXTENSION" "extname" "" "oid" "" "" "pg_extension"
  | TYPE_FOREIGNDATAWRAPPER => params "FOREIGN DATA WRAPPER" "fdwname" "" "" "fdwacl" "fdwowner" "pg_foreign_data_wrapper"
  | TYPE_FOREIGNSERVER => params "SERVER" "srvname" "" "" "srvacl" "srvowner" "pg_foreign_server"
  | TYPE_FUNCTION =>
      with_filter (params "FUNCTION" "proname" "pronamespace" "" "proacl" "proowner" "pg_proc") (if (v7 : bool) then "prokind <> 'a'" else "proisagg = 'f'")
  | TYPE_INDEX => with_tables (params "INDEX" "relname" "" "indexrelid" "" "" "pg_index") "pg_class" "pg_class"
  | TYPE_PROCLANGUAGE => params "LANGUAGE" "lanname" "" "" "lanacl" (if (before5 : bool) then "10" else "lanowner") "pg_language"
  | TYPE_OPERATOR => params "OPERATOR" "oprname" "oprnamespace" "oid" "" "oprowner" "pg_operator"
  | TYPE_OPERATORCLASS => params "OPERATOR CLASS" "opcname" "opcnamespace" "oid" "" "opcowner" "pg_opclass"
  | TYPE_OPERATORFAMILY => params "OPERATOR FAMILY" "opfname" "opfnamespace" "oid" "" "opfowner" "pg_opfamily"
  | TYPE_PROTOCOL => params "PROTOCOL" "ptcname" "" "" "ptcacl" "ptcowner" "pg_extprotocol"
  | TYPE_RELATION => params "RELATION" "relname" "relnamespace" "" "relacl" "relowner" "pg_class"
  | TYPE_RESOURCEGROUP => shared (params "RESOURCE GROUP" "rsgname" "" "oid" "" "" "pg_resgroup")
  | TYPE_RESOURCEQUEUE => shared (params "RESOURCE QUEUE" "rsqname" "" "oid" "" "" "pg_resqueue")
  | TYPE_ROLE => shared (params "ROLE" "rolname" "" "oid" "" "" "pg_authid")
  | TYPE_RULE => params "RULE" "rulename" "" "oid" "" "" "pg_rewrite"
  | TYPE_SCHEMA => params "SCHEMA" "nspname" "" "" "nspacl" "nspowner" "pg_namespace"
  | TYPE_STATISTIC_EXT => params "STATISTIC_EXT" "stxname" "" "" "" "stxowner" "pg_statistic_ext"
  | TYPE_TABLESPACE => shared (params "TABLESPACE" "spcname" "" "" "spcacl" "spcowner" "pg_tablespace")
  | TYPE_TRANSFORM => params "TRANSFORM" "" "" "" "" "" "pg_transform"
  | TYPE_TSCONFIGURATION => params "TEXT SEARCH CONFIGURATION" "cfgname" "cfgnamespace" "oid" "" "cfgowner" "pg_ts_config"
  | TYPE_TSDICTIONARY => params "TEXT SEARCH DICTIONARY" "dictname" "dictnamespace" "oid" "" "dictowner" "pg_ts_dict"
  | TYPE_TSPARSER => params "TEXT SEARCH PARSER" "prsname" "prsnamespace" "oid" "" "" "pg_ts_parser"
  | TYPE_TSTEMPLATE => params "TEXT SEARCH TEMPLATE" "tmplname" "tmplnamespace" "oid" "" "" "pg_ts_template"
  | TYPE_TRIGGER => params "TRIGGER" "tgname" "" "oid" "" "" "pg_trigger"
  | TYPE_TYPE => params "TYPE" "typname" "typnamespace" "" (if (v6 : bool) then "typacl" else "") "typowner" "pg_type"
  | TYPE_POLICY => params "" "" "" "" "" "" ""
  end).

Definition given (field : string) (some none : string) : string := if non_empty field then some else none.
Definition acl_lateral : string := "LEFT JOIN LATERAL unnest(o.%[1]s) ljl_unnest ON o.%[1]s IS NOT NULL AND array_length(o.%[1]s, 1) != 0".
Definition acl_case : string := "CASE
			WHEN %[1]s IS NULL THEN NULL
			WHEN array_upper(%[1]s, 1) = 0 THEN %[1]s[0]
			ELSE unnest(%[1]s) END".
Definition acl_kind : string := "CASE
		WHEN %[1]s IS NULL THEN ''
		WHEN array_upper(%[1]s, 1) = 0 THEN 'Empty'
		ELSE '' END".
Definition security_columns : string := "coalesce(sec.label,'') AS securitylabel,
		coalesce(sec.provider, '') AS securitylabelprovider,".
Definition GetMetadataForObjectType_query : string := "
		SELECT
		'%s' AS objecttype,
		'%s'::regclass::oid AS classid,
		o.oid,
		coalesce(quote_ident(%s),'') AS name,
		%s AS kind,
		coalesce(quote_ident(%s),'') AS schema,
		%s AS owner,
		%s AS privileges,
		%s
		coalesce(description,'') AS comment
	FROM %s o LEFT JOIN %s d ON (d.objoid = o.oid AND d.classoid = '%s'::regclass%s)
		%s
		%s
	WHERE %s
	ORDER BY o.oid".
Definition metadata_query (v6 v7 : bool) (params : MetadataQueryParams) : string :=
  let tableName := CatalogTable params in
  let acl := ACLField params in
  let aclCols := given acl (if v7 then "ljl_unnest" else Sprintf acl_case [acl]) "''" in
  let aclLateralJoin := given acl (if v7 then Sprintf acl_lateral [acl] else "") "" in
  let kindCol := given acl (Sprintf acl_kind [acl]) "''" in
  let joinSchema := given (SchemaField params) (Sprintf "JOIN pg_namespace n ON o.%s = n.oid" [SchemaField params]) "" in
  let joinSecurity := if v6 then
    Sprintf " LEFT JOIN %s sec ON (sec.objoid = o.oid AND sec.classoid = '%s'::regclass%s)"
      [if Shared params then "pg_shseclabel" else "pg_seclabel"; tableName; if Shared params then "" else " AND sec.objsubid = 0"] else "" in
  let filterClause := given (SchemaField params) (SchemaFilterClause f "n") "1 = 1" in
  Sprintf GetMetadataForObjectType_query
    [mp_ObjectType params; tableName; given (NameField params) (NameField params) "''"; kindCol; given (SchemaField params) "n.nspname" "''";
     given (OwnerField params) (Sprintf "quote_ident(pg_get_userbyid(%s))" [OwnerField params]) "''"; aclCols;
     if v6 then security_columns else ""; tableName; if Shared params then "pg_shdescription" else "pg_description"; tableName;
     if Shared params then "" else " AND d.objsubid = 0"; joinSchema +:+ joinSecurity; aclLateralJoin;
     filterClause +:+ given (FilterClause params) (" AND " +:+ FilterClause params) ""].
Definition GetMetadataForObjectType `{SortSlice} `{Selects MetadataQueryStruct} (env : print_env) (t : metadata_type) : go MetadataMap :=
  let! params := InitializeMetadataParams t in
  let! v6 := gpdb_or_family version "6" in
  let! v7 := gpdb_or_family version "7" in
  let! results := select_rows (A := MetadataQueryStruct) (metadata_query v6 v7 params) in
  Ok (ConstructMetadataMap env results).

Record comment_row := { cm_UniqueID : UniqueID; cm_Comment : string }.
Definition comments_select : string := "
	SELECT '%s'::regclass::oid AS classid,
		o.%s AS oid,
		coalesce(description,'') AS comment
		".
Definition comments_from : string := "
	FROM %s o
		JOIN %s d ON (d.objoid = %s AND d.classoid = '%s'::regclass%s)
		%s".
Definition comments_query (params : MetadataQueryParams) : string :=
  let joinStr := given (SchemaField params) (Sprintf "JOIN pg_namespace n ON o.%s = n.oid" [SchemaField params]) "" in
  cat [Sprintf comments_select [CatalogTable params; OidField params];
       Sprintf comments_from [CatalogTable params; if Shared params then "pg_shdescription" else "pg_description"; OidField params;
                              given (CommentTable params) (CommentTable params) (CatalogTable params);
                              if Shared params then "" else " AND d.objsubid = 0"; joinStr];
       Sprintf (nl +:+ "WHERE o.%s >= %d") [OidField params; Itoa FIRST_NORMAL_OBJECT_ID];
       given (SchemaField params) (" AND " +:+ SchemaFilterClause f "n") ""].
Definition comment_metadata (objectType comment : string) : ObjectMetadata :=
  {| Privileges := []; ObjectType := objectType; Owner := ""; Comment := comment; SecurityLabelProvider := ""; SecurityLabel := "" |}.
Definition GetCommentsForObjectType `{Selects comment_row} (t : metadata_type) : go MetadataMap :=
  let! params := InitializeMetadataParams t in
  let! results := select_rows (A := comment_row) (comments_query params) in
  Ok (foldl (λ m r, <[cm_UniqueID r := comment_metadata (mp_ObjectType params) (cm_Comment r)]> m) ∅ results).

Definition GetDefaultPrivileges_lateral : string := "LEFT JOIN LATERAL unnest(a.defaclacl) ljl_unnest ON a.defaclacl IS NOT NULL AND array_length(a.defaclacl, 1) != 0".
Definition GetDefaultPrivileges_case : string := "CASE
			WHEN a.defaclacl IS NULL THEN NULL
			WHEN array_upper(a.defaclacl, 1) = 0 THEN a.defaclacl[0]
			ELSE unnest(a.defaclacl) END".
Definition GetDefaultPrivileges_query : string := "
	SELECT a.oid,
		quote_ident(r.rolname) AS owner,
		coalesce(quote_ident(n.nspname),'') AS schema,
		%s AS privileges,
		CASE
			WHEN a.defaclacl IS NULL THEN ''
			WHEN array_upper(a.defaclacl, 1) = 0 THEN 'Empty'
			ELSE ''
		END AS kind,
		a.defaclobjtype AS objecttype
	FROM pg_default_acl a
		JOIN pg_roles r ON r.oid = a.defaclrole
		LEFT JOIN pg_namespace n ON n.oid = a.defaclnamespace
		%s
	ORDER BY n.nspname, a.defaclobjtype, r.rolname".
Definition GetDefaultPrivileges `{SortSlice} `{Selects DefaultPrivilegesQueryStruct} (env : print_env) : go (list DefaultPrivileges) :=
  let! v7 := gpdb_or_family version "7" in
  let! results := select_rows (A := DefaultPrivilegesQueryStruct)
    (Sprintf GetDefaultPrivileges_query (if (v7 : bool) then ["ljl_unnest"; GetDefaultPrivileges_lateral] else [GetDefaultPrivileges_case; ""])) in
  Ok (ConstructDefaultPrivileges env results).

Record role_row := { RoleName : string; QuotedRoleName : string }.
Definition getQuotedRoleNames `{Selects role_row} : go (gmap string string) :=
  let! results := select_rows (A := role_row) "
		SELECT rolname AS rolename, quote_ident(rolname) AS quotedrolename FROM pg_authid" in
  Ok (foldl (λ m r, <[RoleName r := QuotedRoleName r]> m) ∅ results).

(** * Functions *)

Definition GetFunctionArgsAndIdentArgs `{Selects FuncArg} : go (gmap Z string * gmap Z string) :=
  let! results := select_rows (A := FuncArg) "
	SELECT p.oid,
		CASE WHEN proallargtypes IS NOT NULL THEN format_type(unnest(proallargtypes), NULL)
			ELSE format_type(unnest(proargtypes), NULL) END AS type,
		CASE WHEN proargnames IS NOT NULL THEN quote_ident(unnest(proargnames)) ELSE '' END AS name,
		CASE WHEN proargmodes IS NOT NULL THEN unnest(proargmodes) ELSE '' END AS mode
	FROM pg_proc p
		JOIN pg_namespace n ON p.pronamespace = n.oid" in Ok (function_args results).
Definition GetFunctionReturnTypes_query : string := "
	SELECT p.oid,
		proretset,
		CASE WHEN proretset = 't' THEN 'SETOF ' || format_type(prorettype, NULL)
			ELSE format_type(prorettype, NULL) END AS resulttype
	FROM pg_proc p
		JOIN pg_namespace n ON p.pronamespace = n.oid
	WHERE %s".
Definition GetFunctionReturnTypes `{Selects Function_} : go (gmap Z (bool * NullString)) :=
  let! results := select_rows (A := Function_) (Sprintf GetFunctionReturnTypes_query [SchemaFilterClause f "n"]) in
  Ok (row_map f_Oid (λ r, (ReturnsSet r, ResultType r)) results).
Definition GetFunctions4_query : string := "
	SELECT p.oid,
		quote_ident(nspname) AS schema,
		quote_ident(proname) AS name,
		proretset,
		coalesce(prosrc, '') AS functionbody,
		CASE WHEN probin = '-' THEN '' ELSE coalesce(probin, '') END AS binarypath,
		provolatile,
		proisstrict,
		prosecdef,
		'a' AS proexeclocation,
		(SELECT lanname FROM pg_catalog.pg_language WHERE oid = prolang) AS language
	FROM pg_proc p
		LEFT JOIN pg_namespace n ON p.pronamespace = n.oid
	WHERE %s
		AND proisagg = 'f'
	ORDER BY nspname, proname".
Definition GetFunctions4 `{Selects Function_} : go (list Function_) :=
  select_rows (Sprintf GetFunctions4_query [SchemaFilterClause f "n"]).

Definition GetFunctions_before7Query : string := "
		SELECT p.oid,
			quote_ident(nspname) AS schema,
			quote_ident(proname) AS name,
			proretset,
			coalesce(prosrc, '') AS functionbody,
			coalesce(probin, '') AS binarypath,
			pg_catalog.pg_get_function_arguments(p.oid) AS arguments,
			pg_catalog.pg_get_function_identity_arguments(p.oid) AS identargs,
			pg_catalog.pg_get_function_result(p.oid) AS resulttype,
			provolatile,
			proisstrict,
			prosecdef,
			%s
			coalesce(array_to_string(ARRAY(SELECT 'SET ' || option_name || ' TO ' || option_value
				FROM pg_options_to_table(proconfig)), ' '), '') AS proconfig,
			procost,
			prorows,
			prodataaccess,
			l.lanname AS language
		FROM pg_proc p
			JOIN pg_catalog.pg_language l ON p.prolang = l.oid
			LEFT JOIN pg_namespace n ON p.pronamespace = n.oid
		WHERE %s
			AND proisagg = 'f'
			AND %s%s
		ORDER BY nspname, proname, identargs".
Definition GetFunctions_atLeast7Query : string := "
		SELECT p.oid,
			quote_ident(nspname) AS schema,
			quote_ident(p.proname) AS name,
			proretset,
			coalesce(prosrc, '') AS functionbody,
			coalesce(probin, '') AS binarypath,
			pg_catalog.pg_get_function_arguments(p.oid) AS arguments,
			pg_catalog.pg_get_function_identity_arguments(p.oid) AS identargs,
			pg_catalog.pg_get_function_result(p.oid) AS resulttype,
			provolatile,
			proisstrict,
			prosecdef,
			%s
			coalesce(array_to_string(ARRAY(SELECT 'SET ' || option_name || ' TO ' || option_value
				FROM pg_options_to_table(proconfig)), ' '), '') AS proconfig,
			procost,
			prorows,
			prokind,
			prosupport,
			l.lanname AS language,
            coalesce(array_to_string(ARRAY(SELECT 'FOR TYPE ' || nm.nspname || '.' || typ.typname
                from
                    unnest(p.protrftypes) as trf_unnest
                    left join pg_type typ
                         on trf_unnest = typ.oid
					left join pg_namespace nm
						on typ.typnamespace = nm.oid
                ), ', '), '') AS transformtypes
		FROM pg_proc p
			JOIN pg_catalog.pg_language l ON p.prolang = l.oid
			LEFT JOIN pg_namespace n ON p.pronamespace = n.oid
		WHERE %s
			AND prokind <> 'a'
			AND %s%s
		ORDER BY nspname, proname, identargs".
Definition excludeImplicitFunctionsClause : string := "
	AND NOT EXISTS (
		SELECT 1 FROM pg_depend
		WHERE classid = 'pg_proc'::regclass::oid
			AND objid = p.oid AND deptype = 'i')".
Definition verify_function (v7 : bool) (result : Function_) : list Function_ :=
  let result := if v7 && bool_decide (f_Kind result = "w") then with_window result else result in
  if (NS_Valid (f_Arguments result) && NS_Valid (f_IdentArgs result) && NS_Valid (ResultType result))
     || (v7 && bool_decide (f_Kind result = "p") && negb (NS_Valid (ResultType result)))
  then [result] else [].
Definition GetFunctions `{Selects Function_} : go (list Function_) :=
  let! v6 := gpdb_or_family version "6" in
  let! before6 := gpdb_before version "6" in
  let! is6 := gpdb_is version "6" in
  let! before7 := gpdb_before version "7" in
  let locationAtts := if (before6 : bool) then "'a' AS proexeclocation," else if (is6 : bool) then "proiswindow,proexeclocation,proleakproof,"
                      else "proexeclocation,proleakproof,proparallel," in
  let! results := select_rows (A := Function_)
    (Sprintf (if (before7 : bool) then GetFunctions_before7Query else GetFunctions_atLeast7Query)
       [locationAtts; SchemaFilterClause f "n"; ExtensionFilterClause "p"; if (v6 : bool) then excludeImplicitFunctionsClause else ""]) in
  let! results := FatalOnError (PostProcessFunctionConfigs results) in
  let! v7 := gpdb_or_family version "7" in
  Ok (results ≫= verify_function v7).
Definition GetFunctionsAllVersions `{Selects Function_} `{Selects FuncArg} : go (list Function_) :=
  let! before5 := gpdb_before version "5" in
  if (before5 : bool) then
    let! functions := GetFunctions4 in
    let! (arguments, tableArguments) := GetFunctionArgsAndIdentArgs in
    let! returns := GetFunctionReturnTypes in
    Ok (map (fill_function arguments tableArguments returns) functions)
  else GetFunctions.

Definition GetFunctionOidToInfoMap_before5Query : string := "
	SELECT p.oid,
		quote_ident(n.nspname) AS schema,
		quote_ident(p.proname) AS name
	FROM pg_proc p
		LEFT JOIN pg_namespace n ON p.pronamespace = n.oid".
Definition GetFunctionOidToInfoMap_atLeast5Query : string := "
	SELECT p.oid,
		quote_ident(n.nspname) AS schema,
		quote_ident(p.proname) AS name,
		pg_catalog.pg_get_function_arguments(p.oid) AS arguments,
		pg_catalog.pg_get_function_identity_arguments(p.oid) AS identargs
	FROM pg_proc p
		LEFT JOIN pg_namespace n ON p.pronamespace = n.oid".
(** An error of the query before version 5 is looked at after the arguments
    are read. *)
Definition GetFunctionOidToInfoMap `{Selects FunctionInfo} `{Selects FuncArg} : go FunctionInfoMap :=
  let! before5 := gpdb_before version "5" in
  if (before5 : bool) then
    let rows : go (list FunctionInfo) := Queries.Select GetFunctionOidToInfoMap_before5Query in
    let! (arguments, _) := GetFunctionArgsAndIdentArgs in
    let! results := FatalOnError rows in Ok (info_map (Some arguments) results)
  else let! results := select_rows (A := FunctionInfo) GetFunctionOidToInfoMap_atLeast5Query in Ok (info_map None results).

(** * Aggregates *)

Definition GetAggregates_version4query : string := "
	SELECT p.oid,
		quote_ident(n.nspname) AS schema,
		p.proname AS name,
		'' AS arguments,
		'' AS identargs,
		a.aggtransfn::regproc::oid,
		a.aggprelimfn::regproc::oid,
		a.aggfinalfn::regproc::oid,
		coalesce(o.oprname, '') AS sortoperator,
		coalesce(quote_ident(opn.nspname), '') AS sortoperatorschema,
		format_type(a.aggtranstype, NULL) as transitiondatatype,
		coalesce(a.agginitval, '') AS initialvalue,
		(a.agginitval IS NULL) AS initvalisnull,
		true AS minitvalisnull,
		a.aggordered
	FROM pg_aggregate a
		LEFT JOIN pg_proc p ON a.aggfnoid = p.oid
		LEFT JOIN pg_namespace n ON p.pronamespace = n.oid
		LEFT JOIN pg_operator o ON a.aggsortop = o.oid
		LEFT JOIN pg_namespace opn ON o.oprnamespace = opn.oid
	WHERE %s".
Definition GetAggregates_version5query : string := "
	SELECT p.oid,
		quote_ident(n.nspname) AS schema,
		p.proname AS name,
		pg_catalog.pg_get_function_arguments(p.oid) AS arguments,
		pg_catalog.pg_get_function_identity_arguments(p.oid) AS identargs,
		a.aggtransfn::regproc::oid,
		a.aggprelimfn::regproc::oid,
		a.aggfinalfn::regproc::oid,
		coalesce(o.oprname, '') AS sortoperator,
		coalesce(quote_ident(opn.nspname), '') AS sortoperatorschema, 
		format_type(a.aggtranstype, NULL) as transitiondatatype,
		coalesce(a.agginitval, '') AS initialvalue,
		(a.agginitval IS NULL) AS initvalisnull,
		true AS minitvalisnull,
		a.aggordered
	FROM pg_aggregate a
		LEFT JOIN pg_proc p ON a.aggfnoid = p.oid
		LEFT JOIN pg_namespace n ON p.pronamespace = n.oid
		LEFT JOIN pg_operator o ON a.aggsortop = o.oid
		LEFT JOIN pg_namespace opn ON o.oprnamespace = opn.oid
	WHERE %s
		AND %s".
Definition GetAggregates_version6query : string := "
	SELECT p.oid,
		quote_ident(n.nspname) AS schema,
		p.proname AS name,
		pg_catalog.pg_get_function_arguments(p.oid) AS arguments,
		pg_catalog.pg_get_function_identity_arguments(p.oid) AS identargs,
		a.aggtransfn::regproc::oid,
		a.aggcombinefn::regproc::oid,
		a.aggserialfn::regproc::oid,
		a.aggdeserialfn::regproc::oid,
		a.aggfinalfn::regproc::oid,
		a.aggfinalextra AS finalfuncextra,
		coalesce(o.oprname, '') AS sortoperator,
		coalesce(quote_ident(opn.nspname), '') AS sortoperatorschema, 
		(a.aggkind = 'h') AS hypothetical,
		format_type(a.aggtranstype, NULL) as transitiondatatype,
		aggtransspace,
		coalesce(a.agginitval, '') AS initialvalue,
		(a.agginitval IS NULL) AS initvalisnull,
		a.aggmtransfn::regproc::oid,
		a.aggminvtransfn::regproc::oid,
		a.aggmfinalfn::regproc::oid,
		a.aggmfinalextra AS mfinalfuncextra,
		format_type(a.aggmtranstype, NULL) as mtransitiondatatype,
		aggmtransspace,
		(a.aggminitval IS NULL) AS minitvalisnull,
		coalesce(a.aggminitval, '') AS minitialvalue
	FROM pg_aggregate a
		LEFT JOIN pg_proc p ON a.aggfnoid = p.oid
		LEFT JOIN pg_namespace n ON p.pronamespace = n.oid
		LEFT JOIN pg_operator o ON a.aggsortop = o.oid
		LEFT JOIN pg_namespace opn ON o.oprnamespace = opn.oid
	WHERE %s
		AND %s".
Definition GetAggregates_atLeast7Query : string := "
	SELECT p.oid,
		quote_ident(n.nspname) AS schema,
		p.proname AS name,
		p.proparallel as parallel,
		pg_catalog.pg_get_function_arguments(p.oid) AS arguments,
		pg_catalog.pg_get_function_identity_arguments(p.oid) AS identargs,
		a.aggtransfn::regproc::oid,
		a.aggcombinefn::regproc::oid,
		a.aggserialfn::regproc::oid,
		a.aggdeserialfn::regproc::oid,
		a.aggfinalfn::regproc::oid,
		a.aggfinalextra AS finalfuncextra,
		coalesce(o.oprname, '') AS sortoperator,
		coalesce(quote_ident(opn.nspname), '') AS sortoperatorschema, 
		aggkind AS kind,
		format_type(a.aggtranstype, NULL) as transitiondatatype,
		aggtransspace,
		coalesce(a.agginitval, '') AS initialvalue,
		(a.agginitval IS NULL) AS initvalisnull,
		a.aggmtransfn::regproc::oid,
		a.aggminvtransfn::regproc::oid,
		a.aggmfinalfn::regproc::oid,
		a.aggmfinalextra AS mfinalfuncextra,
		format_type(a.aggmtranstype, NULL) as mtransitiondatatype,
		aggmtransspace,
		(a.aggminitval IS NULL) AS minitvalisnull,
		coalesce(a.aggminitval, '') AS minitialvalue,
		a.aggfinalmodify AS finalmodify,
		a.aggmfinalmodify AS mfinalmodify
	FROM pg_aggregate a
		LEFT JOIN pg_proc p ON a.aggfnoid = p.oid
		LEFT JOIN pg_namespace n ON p.pronamespace = n.oid
		LEFT JOIN pg_operator o ON a.aggsortop = o.oid
		LEFT JOIN pg_namespace opn ON o.oprnamespace = opn.oid
	WHERE %s
		AND %s".
Definition with_arguments (a : Aggregate) (args identArgs : NullString) (mtype : string) : Aggregate :=
  {| a_Oid := a_Oid a; a_Schema := a_Schema a; a_Name := a_Name a; a_Arguments := args; a_IdentArgs := identArgs;
     TransitionFunction := TransitionFunction a; PreliminaryFunction := PreliminaryFunction a; CombineFunction := CombineFunction a;
     SerialFunction := SerialFunction a; DeserialFunction := DeserialFunction a; FinalFunction := FinalFunction a;
     FinalFuncExtra := FinalFuncExtra a; SortOperator := SortOperator a; SortOperatorSchema := SortOperatorSchema a;
     Hypothetical := Hypothetical a; a_Kind := a_Kind a; TransitionDataType := TransitionDataType a;
     TransitionDataSize := TransitionDataSize a; InitialValue := InitialValue a; InitValIsNull := InitValIsNull a;
     IsOrdered := IsOrdered a; MTransitionFunction := MTransitionFunction a; MInverseTransitionFunction := MInverseTransitionFunction a;
     MTransitionDataType := mtype; MTransitionDataSize := MTransitionDataSize a; MFinalFunction := MFinalFunction a;
     MFinalFuncExtra := MFinalFuncExtra a; MInitialValue := MInitialValue a; MInitValIsNull := MInitValIsNull a;
     Finalmodify := Finalmodify a; Mfinalmodify := Mfinalmodify a; a_Parallel := a_Parallel a |}.
Definition clean_aggregate (a : Aggregate) : Aggregate :=
  with_arguments a (a_Arguments a) (a_IdentArgs a)
    (if bool_decide (MTransitionDataType a = "-") then "" else MTransitionDataType a).
Definition fill_aggregate (args : gmap Z string) (a : Aggregate) : Aggregate :=
  let arg := valid_string (default "" (args !! a_Oid a)) in with_arguments a arg arg (MTransitionDataType a).
Definition GetAggregates `{Selects Aggregate} `{Selects FuncArg} : go (list Aggregate) :=
  let! is4 := gpdb_is version "4" in
  let! is5 := gpdb_is version "5" in
  let! is6 := gpdb_is version "6" in
  let query :=
    if (is4 : bool) then Sprintf GetAggregates_version4query [SchemaFilterClause f "n"]
    else Sprintf (if (is5 : bool) then GetAggregates_version5query else if (is6 : bool) then GetAggregates_version6query else GetAggregates_atLeast7Query)
           [SchemaFilterClause f "n"; ExtensionFilterClause "p"] in
  let! rows := select_rows (A := Aggregate) query in
  let aggregates := map clean_aggregate rows in
  let! before5 := gpdb_before version "5" in
  if (before5 : bool) then
    let! (arguments, _) := GetFunctionArgsAndIdentArgs in
    Ok (map (fill_aggregate arguments) aggregates)
  else Ok (filter (λ a, NS_Valid (a_Arguments a) && NS_Valid (a_IdentArgs a) = true) aggregates).

(** * Casts, extensions, languages, transforms, conversions *)

Definition GetCasts_query1 : string := "
	SELECT
		c.oid,
		quote_ident(sn.nspname) || '.' || quote_ident(st.typname) AS sourcetypefqn,
		quote_ident(tn.nspname) || '.' || quote_ident(tt.typname) AS targettypefqn,
		coalesce(quote_ident(n.nspname), '') AS functionschema,
		coalesce(quote_ident(p.proname), '') AS functionname,
		%s
		%s
		c.castcontext
	FROM pg_cast c
		JOIN pg_type st ON c.castsource = st.oid
		JOIN pg_type tt ON c.casttarget = tt.oid
		JOIN pg_namespace sn ON st.typnamespace = sn.oid
		JOIN pg_namespace tn ON tt.typnamespace = tn.oid
		LEFT JOIN pg_proc p ON c.castfunc = p.oid
		LEFT JOIN pg_description d ON c.oid = d.objoid
		LEFT JOIN pg_namespace n ON p.pronamespace = n.oid
	WHERE ((%s) OR (%s) OR (%s))
		AND %s
	".
Definition GetCasts_query2 : string := "
	SELECT
		c.oid,
		quote_ident(sn.nspname) || '.' || quote_ident(st.typname) AS sourcetypefqn,
		quote_ident(tn.nspname) || '.' || quote_ident(tt.typname) AS targettypefqn,
		coalesce(quote_ident(n.nspname), '') AS functionschema,
		coalesce(quote_ident(p.proname), '') AS functionname,
		%s
		%s
		c.castcontext
	FROM pg_cast c
		JOIN pg_type st ON c.castsource = st.oid
		JOIN pg_type tt ON c.casttarget = tt.oid
		JOIN pg_namespace sn ON st.typnamespace = sn.oid
		JOIN pg_namespace tn ON tt.typnamespace = tn.oid
		LEFT JOIN pg_proc p ON c.castfunc = p.oid
		LEFT JOIN pg_description d ON c.oid = d.objoid
		LEFT JOIN pg_namespace n ON p.pronamespace = n.oid
	WHERE ((%s) OR (%s) OR (%s))
		AND %s
		AND c.oid > %d
	ORDER BY 1, 2".
Definition with_args (c : Cast) (args : string) : Cast :=
  {| c_Oid := c_Oid c; SourceTypeFQN := SourceTypeFQN c; TargetTypeFQN := TargetTypeFQN c; c_FunctionOid := c_FunctionOid c;
     FunctionSchema := FunctionSchema c; FunctionName := FunctionName c; FunctionArgs := args; CastContext := CastContext c;
     CastMethod := CastMethod c |}.
Definition GetCasts `{Selects Cast} `{Selects FuncArg} : go (list Cast) :=
  let! before5 := gpdb_before version "5" in
  let! v6 := gpdb_or_family version "6" in
  let argStr := if (before5 : bool) then "'' AS functionargs, coalesce(p.oid, 0::oid) AS functionoid," else "coalesce(pg_get_function_arguments(p.oid), '') AS functionargs," in
  let methodStr := if (v6 : bool) then "castmethod," else "CASE WHEN c.castfunc = 0 THEN 'b' ELSE 'f' END AS castmethod," in
  let operands clause := [argStr; methodStr; clause f "sn"; clause f "tn"; clause f "n"; ExtensionFilterClause "c"] in
  let! casts := select_rows (A := Cast)
    (cat [Sprintf GetCasts_query1 (operands SchemaFilterClause); nl; " UNION "; nl;
          Sprintf GetCasts_query2 (operands SchemaFilterClauseNotFilterPgCatalog ++ [Itoa FIRST_NORMAL_OBJECT_ID])]) in
  if (before5 : bool) then
    let! (arguments, _) := GetFunctionArgsAndIdentArgs in
    Ok (map (λ c, with_args c (default "" (arguments !! c_FunctionOid c))) casts)
  else Ok casts.

Definition GetExtensions_query : string := "
	SELECT e.oid,
		quote_ident(extname) AS name,
		quote_ident(n.nspname) AS schema
	FROM pg_extension e
		JOIN pg_namespace n ON e.extnamespace = n.oid
	WHERE e.oid >= %d".
Definition GetExtensions `{Selects Extension} : go (list Extension) :=
  select_rows (Sprintf GetExtensions_query [Itoa FIRST_NORMAL_OBJECT_ID]).
Definition GetProceduralLanguages_before5Query : string := "
	SELECT oid,
		quote_ident(l.lanname) AS name,
		pg_get_userbyid(10) AS owner, 
		l.lanispl,
		l.lanpltrusted,
		l.lanplcallfoid::regprocedure::oid,
		0 AS laninline,
		l.lanvalidator::regprocedure::oid
	FROM pg_language l
	WHERE l.lanispl='t'
		AND l.lanname != 'plpgsql'".
Definition GetProceduralLanguages_atLeast5Query : string := "
	SELECT oid,
		quote_ident(l.lanname) AS name,
		pg_get_userbyid(l.lanowner) AS owner,
		l.lanispl,
		l.lanpltrusted,
		l.lanplcallfoid::regprocedure::oid,
		l.laninline::regprocedure::oid,
		l.lanvalidator::regprocedure::oid
	FROM pg_language l
	WHERE l.lanispl='t'
		AND l.lanname != 'plpgsql'
		AND %s".
Definition GetProceduralLanguages `{Selects ProceduralLanguage} : go (list ProceduralLanguage) :=
  let! before5 := gpdb_before version "5" in
  select_rows (if (before5 : bool) then GetProceduralLanguages_before5Query
               else Sprintf GetProceduralLanguages_atLeast5Query [ExtensionFilterClause "l"]).
Definition GetTransforms_query : string := "
	SELECT trf.oid,
		quote_ident(ns.nspname) AS typnamespace,
		quote_ident(tp.typname) AS typname,
		l.lanname,
		trf.trffromsql::oid,
		trf.trftosql::oid
	FROM pg_transform trf
		JOIN pg_type tp ON trf.trftype=tp.oid
		JOIN pg_namespace ns ON tp.typnamespace = ns.oid
		JOIN pg_language l ON trf.trflang=l.oid;".
Definition GetTransforms `{Selects Transform} : go (list Transform) := select_rows GetTransforms_query.
Definition GetConversions_query : string := "
	SELECT c.oid,
		quote_ident(n.nspname) AS schema,
		quote_ident(c.conname) AS name,
		pg_encoding_to_char(c.conforencoding) AS forencoding,
		pg_encoding_to_char(c.contoencoding) AS toencoding,
		quote_ident(fn.nspname) || '.' || quote_ident(p.proname) AS conversionfunction,
		c.condefault
	FROM pg_conversion c
		JOIN pg_namespace n ON c.connamespace = n.oid
		JOIN pg_proc p ON c.conproc = p.oid
		JOIN pg_namespace fn ON p.pronamespace = fn.oid
	WHERE %s
		AND %s
	ORDER BY n.nspname, c.conname".
Definition GetConversions `{Selects Conversion} : go (list Conversion) :=
  select_rows (Sprintf GetConversions_query [SchemaFilterClause f "n"; ExtensionFilterClause "c"]).
Definition GetForeignDataWrappers_query : string := "
	SELECT oid,
		quote_ident(fdwname) AS name,
		fdwvalidator AS validator,
		fdwhandler AS handler,
		array_to_string(ARRAY(
			SELECT pg_catalog.quote_ident(option_name) || ' ' || pg_catalog.quote_literal(option_value)
			FROM pg_options_to_table(fdwoptions) ORDER BY option_name), ', ') AS options
	FROM pg_foreign_data_wrapper
	WHERE oid >= %d AND %s".
Definition GetForeignDataWrappers `{Selects ForeignDataWrapper} : go (list ForeignDataWrapper) :=
  select_rows (Sprintf GetForeignDataWrappers_query [Itoa FIRST_NORMAL_OBJECT_ID; ExtensionFilterClause ""]).
Definition GetForeignServers_query : string := "
	SELECT fs.oid,
		quote_ident(fs.srvname) AS name,
		coalesce(fs.srvtype, '') AS type,
		coalesce(fs.srvversion, '') AS version,
		quote_ident(fdw.fdwname) AS foreigndatawrapper,
		array_to_string(ARRAY(
			SELECT pg_catalog.quote_ident(option_name) || ' ' || pg_catalog.quote_literal(option_value)
			FROM pg_options_to_table(fs.srvoptions) ORDER BY option_name), ', ') AS options
	FROM pg_foreign_server fs
		LEFT JOIN pg_foreign_data_wrapper fdw ON fdw.oid = srvfdw
	WHERE fs.oid >= %d AND %s".
Definition GetForeignServers `{Selects ForeignServer} : go (list ForeignServer) :=
  select_rows (Sprintf GetForeignServers_query [Itoa FIRST_NORMAL_OBJECT_ID; ExtensionFilterClause "fs"]).
Definition GetUserMappings_query : string := "
	SELECT um.umid AS oid,
		quote_ident(um.usename) AS user,
		quote_ident(um.srvname) AS server,
		array_to_string(ARRAY(
			SELECT pg_catalog.quote_ident(option_name) || ' ' || pg_catalog.quote_literal(option_value)
			FROM pg_options_to_table(um.umoptions) ORDER BY option_name), ', ') AS options
	FROM pg_user_mappings um
	WHERE um.umid NOT IN (select objid from pg_depend where deptype = 'e')
	ORDER by um.usename".
Definition GetUserMappings `{Selects UserMapping} : go (list UserMapping) := select_rows GetUserMappings_query.
Definition GetExtendedStatistics_query : string := "
	SELECT 	se.oid,
			stxname AS name,
			regexp_replace(pg_catalog.pg_get_statisticsobjdef(se.oid), '(.* FROM ).*', '\1' || quote_ident(c.relnamespace::regnamespace::text) || '.' || quote_ident(c.relname)) AS definition,
			quote_ident(se.stxnamespace::regnamespace::text) AS namespace,
			se.stxowner::regrole AS owner,
			quote_ident(c.relnamespace::regnamespace::text) AS tableschema,
			quote_ident(c.relname) AS tablename
	FROM pg_catalog.pg_statistic_ext se
	JOIN pg_catalog.pg_class c ON se.stxrelid = c.oid;".
Definition GetExtendedStatistics `{Selects StatisticExt} : go (list StatisticExt) := select_rows GetExtendedStatistics_query.
End queries.
