(* ===== verification/Postdata.v ===== *)
(** What is restored after the data: indexes, rules, triggers, event triggers
    and policies ([meta/builtin/queries_postdata.go], [postdata.go]). The
    rewriting of unique indexes on partitioned tables is in UniqueIndexes. *)
From S2P Require Import Prelude Regexp Utils Toc Version Scheduler Dependencies Queries Acl Functions Types TableQueries.

Definition PG_EVENT_TRIGGER : Z := 3466.
Definition PG_INDEX_OID : Z := 2610.
Definition PG_REWRITE_OID : Z := 2618.
Definition PG_TRIGGER_OID : Z := 2620.

(** * Structures *)

Record IndexDefinition := {
  ix_Oid : Z; ix_Name : string; ix_OwningSchema : string; ix_OwningTable : string; ix_Tablespace : string; ix_Def : NullString;
  IsClustered : bool; SupportsConstraint : bool; IsReplicaIdentity : bool; StatisticsColumns : string; StatisticsValues : string;
  ParentIndex : Z; ParentIndexFQN : string
}.
Definition ix_tableFQN (i : IndexDefinition) : string := MakeFQN (ix_OwningSchema i) (ix_OwningTable i).
Definition IndexDefinition_FQN (i : IndexDefinition) : string := MakeFQN (ix_OwningSchema i) (ix_Name i).
Definition IndexDefinition_entry (i : IndexDefinition) : string * MetadataEntry :=
  ("postdata", new_entry (ix_OwningSchema i) (ix_Name i) "INDEX" (ix_tableFQN i)).
Definition IndexDefinition_id (i : IndexDefinition) : UniqueID := oid_of PG_INDEX_OID (ix_Oid i).
#[export] Instance IndexDefinition_object : TOCObjectWithMetadata IndexDefinition := plain_object IndexDefinition_entry IndexDefinition_FQN.
#[export] Instance IndexDefinition_known : KnownObject IndexDefinition. Proof. done. Qed.
(** A key that a Go map does not hold. *)
Definition no_index : IndexDefinition :=
  {| ix_Oid := 0; ix_Name := ""; ix_OwningSchema := ""; ix_OwningTable := ""; ix_Tablespace := ""; ix_Def := {| NS_String := ""; NS_Valid := false |};
     IsClustered := false; SupportsConstraint := false; IsReplicaIdentity := false; StatisticsColumns := ""; StatisticsValues := "";
     ParentIndex := 0; ParentIndexFQN := "" |}.
Definition with_parent_FQN (i : IndexDefinition) (fqn : string) : IndexDefinition :=
  {| ix_Oid := ix_Oid i; ix_Name := ix_Name i; ix_OwningSchema := ix_OwningSchema i; ix_OwningTable := ix_OwningTable i;
     ix_Tablespace := ix_Tablespace i; ix_Def := ix_Def i; IsClustered := IsClustered i; SupportsConstraint := SupportsConstraint i;
     IsReplicaIdentity := IsReplicaIdentity i; StatisticsColumns := StatisticsColumns i; StatisticsValues := StatisticsValues i;
     ParentIndex := ParentIndex i; ParentIndexFQN := fqn |}.
Definition with_def (i : IndexDefinition) (name : string) (def : NullString) : IndexDefinition :=
  {| ix_Oid := ix_Oid i; ix_Name := name; ix_OwningSchema := ix_OwningSchema i; ix_OwningTable := ix_OwningTable i;
     ix_Tablespace := ix_Tablespace i; ix_Def := def; IsClustered := IsClustered i; SupportsConstraint := SupportsConstraint i;
     IsReplicaIdentity := IsReplicaIdentity i; StatisticsColumns := StatisticsColumns i; StatisticsValues := StatisticsValues i;
     ParentIndex := ParentIndex i; ParentIndexFQN := ParentIndexFQN i |}.

Record RuleDefinition := { r_Oid : Z; r_Name : string; r_OwningSchema : string; r_OwningTable : string; r_Def : NullString }.
Definition r_tableFQN (r : RuleDefinition) : string := MakeFQN (r_OwningSchema r) (r_OwningTable r).
Definition RuleDefinition_entry (r : RuleDefinition) : string * MetadataEntry :=
  ("postdata", new_entry (r_OwningSchema r) (r_Name r) "RULE" (r_tableFQN r)).
Definition RuleDefinition_id (r : RuleDefinition) : UniqueID := oid_of PG_REWRITE_OID (r_Oid r).
#[export] Instance RuleDefinition_object : TOCObjectWithMetadata RuleDefinition := plain_object RuleDefinition_entry r_Name.
#[export] Instance RuleDefinition_known : KnownObject RuleDefinition. Proof. done. Qed.

(** [type TriggerDefinition RuleDefinition], with methods of its own. *)
Record TriggerDefinition := { t_rule : RuleDefinition }.
Definition TriggerDefinition_entry (t : TriggerDefinition) : string * MetadataEntry :=
  ("postdata", new_entry (r_OwningSchema (t_rule t)) (r_Name (t_rule t)) "TRIGGER" (r_tableFQN (t_rule t))).
Definition TriggerDefinition_id (t : TriggerDefinition) : UniqueID := oid_of PG_TRIGGER_OID (r_Oid (t_rule t)).
Definition TriggerDefinition_FQN (t : TriggerDefinition) : string := r_Name (t_rule t).
#[export] Instance TriggerDefinition_object : TOCObjectWithMetadata TriggerDefinition := plain_object TriggerDefinition_entry TriggerDefinition_FQN.
#[export] Instance TriggerDefinition_known : KnownObject TriggerDefinition. Proof. done. Qed.

Record EventTrigger := { et_Oid : Z; et_Name : string; Event : string; et_FunctionName : string; Enabled : string; EventTags : string }.
Definition EventTrigger_entry (et : EventTrigger) : string * MetadataEntry := ("postdata", new_entry "" (et_Name et) "EVENT TRIGGER" "").
Definition EventTrigger_id (et : EventTrigger) : UniqueID := oid_of PG_EVENT_TRIGGER (et_Oid et).
#[export] Instance EventTrigger_object : TOCObjectWithMetadata EventTrigger := plain_object EventTrigger_entry et_Name.
#[export] Instance EventTrigger_known : KnownObject EventTrigger. Proof. done. Qed.

Record RLSPolicy := {
  po_Oid : Z; po_Name : string; Cmd : string; Permissive : string; po_Schema : string; po_Table : string; Roles : string; Qual : string;
  WithCheck : string
}.
Definition po_tableFQN (p : RLSPolicy) : string := MakeFQN (po_Schema p) (po_Table p).
(** The entry is named by the table. *)
Definition RLSPolicy_entry (p : RLSPolicy) : string * MetadataEntry :=
  ("postdata", new_entry (po_Schema p) (po_Table p) "POLICY" (po_tableFQN p)).
Definition RLSPolicy_id (p : RLSPolicy) : UniqueID := oid_of PG_REWRITE_OID (po_Oid p).
#[export] Instance RLSPolicy_object : TOCObjectWithMetadata RLSPolicy := plain_object RLSPolicy_entry po_Name.
#[export] Instance RLSPolicy_known : KnownObject RLSPolicy. Proof. done. Qed.

(** * Indexes with their parents first *)

Section sorting.
Variable indexMap : gmap Z IndexDefinition.

Definition parent_of (index : IndexDefinition) : option IndexDefinition :=
  if bool_decide (ParentIndex index = 0%Z) then None else indexMap !! ParentIndex index.
(** The loop from an index to its ancestors, up to one that was visited: the
    oids it pushes and the visited ones. [fuel]: each round visits one more
    index of the map. *)
Fixpoint ancestors (fuel : nat) (visited : gset Z) (currIndex : IndexDefinition) : list Z * gset Z :=
  match fuel with
  | O => ([], visited)
  | S fuel' =>
      if bool_decide (ix_Oid currIndex ∈ visited) then ([], visited)
      else
        let visited' := {[ix_Oid currIndex]} ∪ visited in
        match parent_of currIndex with
        | None => ([ix_Oid currIndex], visited')
        | Some parentIndex => let '(stack, visited'') := ancestors fuel' visited' parentIndex in (ix_Oid currIndex :: stack, visited'')
        end
  end.
(** An index with the name of its parent; a parent the map does not hold has an
    empty name. *)
Definition attach (popIndex : IndexDefinition) : IndexDefinition :=
  if bool_decide (ParentIndex popIndex ≠ 0%Z)
  then with_parent_FQN popIndex (IndexDefinition_FQN (default no_index (indexMap !! ParentIndex popIndex)))
  else popIndex.
Definition pop_index (indexOid : Z) : IndexDefinition := attach (default no_index (indexMap !! indexOid)).
Definition sort_step (st : gset Z * list IndexDefinition) (index : IndexDefinition) : gset Z * list IndexDefinition :=
  let '(stack, visited) := ancestors (S (size indexMap)) st.1 index in
  (visited, st.2 ++ (pop_index <$> reverse stack)).
Definition sort_indexes (verified : list IndexDefinition) : list IndexDefinition := (foldl sort_step (∅, []) verified).2.
End sorting.

Definition index_map (verified : list IndexDefinition) : gmap Z IndexDefinition := row_map ix_Oid (λ i, i) verified.
Definition verified_indexes (results : list IndexDefinition) : list IndexDefinition := filter (λ i, NS_Valid (ix_Def i) = true) results.

(** * Queries *)

Section queries.
Context `{SemverLib} (version : GPDBVersion).

Definition ConstructImplicitIndexOidList_query : string := "
	SELECT i.indexrelid
	FROM pg_index i
		JOIN pg_depend d on i.indexrelid = d.objid
		JOIN pg_constraint c on d.refobjid = c.oid
	WHERE i.indexrelid >= %d
		AND i.indisunique is true
		AND i.indisprimary is false;".
Definition ConstructImplicitIndexOidList `{Selects string_row} : go string :=
  let! indexNames := MustSelectStringSlice (Sprintf ConstructImplicitIndexOidList_query [Itoa FIRST_NORMAL_OBJECT_ID]) in
  Ok (SliceToQuotedString indexNames).
Definition implicit_clause `{Selects string_row} : go string :=
  let! before6 := gpdb_before version "6" in
  if (before6 : bool) then
    let! indexOidList := ConstructImplicitIndexOidList in
    Ok (if non_empty indexOidList then Sprintf "OR i.indexrelid IN (%s)" [indexOidList] else "")
  else Ok "".
Definition GetIndexes_before6Query : string := "
	SELECT DISTINCT i.indexrelid AS oid,
		quote_ident(ic.relname) AS name,
		quote_ident(n.nspname) AS owningschema,
		quote_ident(c.relname) AS owningtable,
		coalesce(quote_ident(s.spcname), '') AS tablespace,
		pg_get_indexdef(i.indexrelid) AS def,
		i.indisclustered AS isclustered,
		CASE
			WHEN i.indisprimary = 't' %s THEN 't'
			ELSE 'f'
		END AS supportsconstraint
	FROM pg_index i
		JOIN pg_class ic ON (ic.oid = i.indexrelid)
		JOIN pg_namespace n ON (ic.relnamespace = n.oid)
		JOIN pg_class c ON (c.oid = i.indrelid)
		LEFT JOIN pg_tablespace s ON (ic.reltablespace = s.oid)
	WHERE %s
		AND i.indisvalid
		AND NOT EXISTS (SELECT 1 FROM pg_partition_rule r WHERE r.parchildrelid = c.oid)
		AND %s
	ORDER BY name".
Definition GetIndexes_version6Query : string := "
	SELECT DISTINCT i.indexrelid AS oid,
		quote_ident(ic.relname) AS name,
		quote_ident(n.nspname) AS owningschema,
		quote_ident(c.relname) AS owningtable,
		coalesce(quote_ident(s.spcname), '') AS tablespace,
		pg_get_indexdef(i.indexrelid) AS def,
		i.indisclustered AS isclustered,
		i.indisreplident AS isreplicaidentity,
		CASE
			WHEN conindid > 0 THEN 't'
			ELSE 'f'
		END as supportsconstraint
	FROM pg_index i
		JOIN pg_class ic ON ic.oid = i.indexrelid
		JOIN pg_namespace n ON ic.relnamespace = n.oid
		JOIN pg_class c ON c.oid = i.indrelid
		LEFT JOIN pg_tablespace s ON ic.reltablespace = s.oid
		LEFT JOIN pg_constraint con ON i.indexrelid = con.conindid
	WHERE %s
		AND i.indisvalid
		AND i.indisready
		AND i.indisprimary = 'f'
		AND NOT EXISTS (SELECT 1 FROM pg_partition_rule r WHERE r.parchildrelid = c.oid)
		AND %s
	ORDER BY name".
Definition GetIndexes_atLeast7Query : string := "
		SELECT DISTINCT i.indexrelid AS oid,
			coalesce(inh.inhparent, '0') AS parentindex,
			quote_ident(ic.relname) AS name,
			quote_ident(n.nspname) AS owningschema,
			quote_ident(c.relname) AS owningtable,
			coalesce(quote_ident(s.spcname), '') AS tablespace,
			pg_get_indexdef(i.indexrelid) AS def,
			i.indisclustered AS isclustered,
			i.indisreplident AS isreplicaidentity,
			CASE
				WHEN conindid > 0 THEN 't'
				ELSE 'f'
			END as supportsconstraint,
			coalesce(array_to_string((SELECT pg_catalog.array_agg(attnum ORDER BY attnum) FROM pg_catalog.pg_attribute WHERE attrelid = i.indexrelid AND attstattarget >= 0), ','), '') as statisticscolumns,
			coalesce(array_to_string((SELECT pg_catalog.array_agg(attstattarget ORDER BY attnum) FROM pg_catalog.pg_attribute WHERE attrelid = i.indexrelid AND attstattarget >= 0), ','), '') as statisticsvalues	
		FROM pg_index i
			JOIN pg_class ic ON ic.oid = i.indexrelid
			JOIN pg_namespace n ON ic.relnamespace = n.oid
			JOIN pg_class c ON c.oid = i.indrelid
			LEFT JOIN pg_tablespace s ON ic.reltablespace = s.oid
			LEFT JOIN pg_constraint con ON i.indexrelid = con.conindid
			LEFT JOIN pg_catalog.pg_inherits inh ON inh.inhrelid = i.indexrelid
		WHERE %s
			AND i.indisready
			AND i.indisprimary = 'f'
			AND i.indexrelid >= %d
			AND %s
		ORDER BY name".
Definition indexes_query (before6 is6 : bool) (implicitIndexStr clause : string) : string :=
  if before6 then Sprintf GetIndexes_before6Query [implicitIndexStr; clause; ExtensionFilterClause "c"]
  else if is6 then Sprintf GetIndexes_version6Query [clause; ExtensionFilterClause "c"]
  else Sprintf GetIndexes_atLeast7Query [clause; Itoa FIRST_NORMAL_OBJECT_ID; ExtensionFilterClause "c"].
Definition GetIndexes `{Selects IndexDefinition} `{Selects FqnStruct} `{Selects string_row} (f : filters)
    : go (list IndexDefinition * filters) :=
  let! implicitIndexStr := implicit_clause in
  let! (clause, f) := relationAndSchemaFilterClause f in
  let! before6 := gpdb_before version "6" in
  let! is6 := gpdb_is version "6" in
  let! rows := select_rows (A := IndexDefinition) (indexes_query before6 is6 implicitIndexStr clause) in
  let verified := verified_indexes rows in
  let! v7 := gpdb_or_family version "7" in
  let indexMap := if (v7 : bool) then index_map verified else ∅ in
  let! before7 := gpdb_before version "7" in
  Ok (if (before7 : bool) then verified else sort_indexes indexMap verified, f).

Definition rename_index (nameMap : gmap string string) (i : IndexDefinition) : IndexDefinition :=
  match nameMap !! ix_Name i with
  | Some newName => with_def i newName (renamed_def (ix_Def i) (ix_Name i) newName)
  | None => i
  end.
Definition RenameExchangedPartitionIndexes `{Selects ExchangedPartitionName} (f : filters) (indexes : list IndexDefinition)
    : go (list IndexDefinition) :=
  let! query := GetRenameExchangedPartitionQuery version f in
  let! names := select_rows (A := ExchangedPartitionName) query in
  Ok (map (rename_index (name_map names)) indexes).

Definition GetRules_query : string := "
	SELECT r.oid AS oid,
		quote_ident(r.rulename) AS name,
		quote_ident(n.nspname) AS owningschema,
		quote_ident(c.relname) AS owningtable,
		pg_get_ruledef(r.oid) AS def
	FROM pg_rewrite r
		JOIN pg_class c ON c.oid = r.ev_class
		JOIN pg_namespace n ON c.relnamespace = n.oid
	WHERE %s
		AND rulename NOT LIKE '%%RETURN'
		AND rulename NOT LIKE 'pg_%%'
		AND %s
	ORDER BY rulename".
Definition GetRules `{Selects RuleDefinition} `{Selects FqnStruct} `{Selects string_row} (f : filters) : go (list RuleDefinition * filters) :=
  let! (results, f) := filtered_rows (A := RuleDefinition) GetRules_query f in
  Ok (filter (λ r, NS_Valid (r_Def r) = true) results, f).
Definition GetTriggers_query : string := "
	SELECT t.oid AS oid,
		quote_ident(t.tgname) AS name,
		quote_ident(n.nspname) AS owningschema,
		quote_ident(c.relname) AS owningtable,
		pg_get_triggerdef(t.oid) AS def
	FROM pg_trigger t
		JOIN pg_class c ON c.oid = t.tgrelid
		JOIN pg_namespace n ON c.relnamespace = n.oid
	WHERE %s
		AND tgname NOT LIKE 'pg_%%'
		AND %s
		AND %s
	ORDER BY tgname".
Definition GetTriggers `{Selects TriggerDefinition} `{Selects FqnStruct} `{Selects string_row} (f : filters)
    : go (list TriggerDefinition * filters) :=
  let! before6 := gpdb_before version "6" in
  let constraintClause := if (before6 : bool) then "tgisconstraint = 'f'" else "NOT tgisinternal" in
  let! (clause, f) := relationAndSchemaFilterClause f in
  let! results := select_rows (A := TriggerDefinition) (Sprintf GetTriggers_query [clause; constraintClause; ExtensionFilterClause "c"]) in
  Ok (filter (λ t, NS_Valid (r_Def (t_rule t)) = true) results, f).
Definition GetEventTriggers_query : string := "
	SELECT et.oid,
		quote_ident(et.evtname) AS name,
		et.evtevent AS event,
		array_to_string(array(select quote_literal(x) from unnest(evttags) as t(x)), ', ') AS eventtags,
		et.evtfoid::regproc AS functionname,
		et.evtenabled AS enabled
	FROM pg_event_trigger et
	WHERE %s
	ORDER BY name".
Definition GetEventTriggers `{Selects EventTrigger} : go (list EventTrigger) :=
  select_rows (Sprintf GetEventTriggers_query [ExtensionFilterClause "et"]).
Definition GetPolicies_query : string := "
	SELECT
		p.oid as oid,
		quote_ident(p.polname) as name,
		p.polcmd as cmd,
		p.polpermissive as permissive,
		quote_ident(c.relnamespace::regnamespace::text) as schema,
		quote_ident(c.relname) as table,
		CASE
			WHEN polroles = '{0}' THEN ''
			ELSE coalesce(pg_catalog.array_to_string(ARRAY(SELECT pg_catalog.quote_ident(rolname) from pg_catalog.pg_roles WHERE oid = ANY(polroles)), ', '), '')
		END AS roles,
		coalesce(pg_catalog.pg_get_expr(polqual, polrelid), '') AS qual,
		coalesce(pg_catalog.pg_get_expr(polwithcheck, polrelid), '') AS withcheck
	FROM pg_catalog.pg_policy p
		JOIN pg_catalog.pg_class c ON p.polrelid = c.oid
	ORDER BY p.polname".
Definition GetPolicies `{Selects RLSPolicy} : go (list RLSPolicy) := select_rows GetPolicies_query.
End queries.

(** * Printers *)

(** A statement on an object, with an entry of its own that names the object
    as the reference. *)
Definition object_metadata (objectType reference : string) (section_entry : string * MetadataEntry) (text : string) : piece :=
  let '(section, entry) := section_entry in
  Recorded {| em_section := section; em_entry := new_entry (e_Schema entry) (e_Name entry) objectType reference; em_texts := [text] |}.

Section printers.
Context `{SemverLib} (env : print_env).

Definition column_statistics (index : IndexDefinition) : go (list string) :=
  if non_empty (StatisticsColumns index) && non_empty (StatisticsValues index) then
    let cols := Split (StatisticsColumns index) COMMA in
    let vals := Split (StatisticsValues index) COMMA in
    if bool_decide (length cols ≠ length vals)
    then Fatal (cat ["Index StatisticsColumns("; Itoa (Z.of_nat (length cols)); ") and StatisticsValues("; Itoa (Z.of_nat (length vals)); ") count don't match"; nl])
    else Ok (zip_with (λ col val, cat [nl; "ALTER INDEX "; IndexDefinition_FQN index; " ALTER COLUMN "; col; " SET STATISTICS "; val; ";"]) cols vals)
  else Ok [].
Definition index_statements (v7 : bool) (index : IndexDefinition) : list string :=
  when (non_empty (ix_Tablespace index)) [cat [nl; "ALTER INDEX "; IndexDefinition_FQN index; " SET TABLESPACE "; ix_Tablespace index; ";"]] ++
  when (non_empty (ParentIndexFQN index) && v7)
    [cat [nl; "ALTER INDEX "; ParentIndexFQN index; " ATTACH PARTITION "; IndexDefinition_FQN index; ";"]] ++
  when (IsClustered index) [cat [nl; "ALTER TABLE "; ix_tableFQN index; " CLUSTER ON "; ix_Name index; ";"]] ++
  when (IsReplicaIdentity index) [cat [nl; "ALTER TABLE "; ix_tableFQN index; " REPLICA IDENTITY USING INDEX "; ix_Name index; ";"]].
(** An index that supports a constraint is created with it: only its metadata
    is printed. *)
Definition create_index (index : IndexDefinition) : go (list piece) :=
  if SupportsConstraint index then Ok []
  else
    let! v7 := gpdb_or_family (srcDBVersion env) "7" in
    let! statistics := column_statistics index in
    Ok (record index [cat [nl2; NS_String (ix_Def index); ";"]] ::
        (object_metadata "INDEX METADATA" (IndexDefinition_FQN index) (IndexDefinition_entry index) <$> (index_statements v7 index ++ statistics))).
Definition print_index (indexMetadata : MetadataMap) (index : IndexDefinition) : go (list piece) :=
  let! pieces := create_index index in
  let! metadata := PrintObjectMetadata env (metadata_of indexMetadata (IndexDefinition_id index)) index "" in
  Ok (pieces ++ metadata).
Definition PrintCreateIndexStatements (indexes : list IndexDefinition) (indexMetadata : MetadataMap) : go (list piece) :=
  for_each indexes (print_index indexMetadata).

Definition print_rule (ruleMetadata : MetadataMap) (rule : RuleDefinition) : go (list piece) :=
  print_object env rule [cat [nl2; NS_String (r_Def rule)]] (metadata_of ruleMetadata (RuleDefinition_id rule)) (r_tableFQN rule).
Definition PrintCreateRuleStatements (rules : list RuleDefinition) (ruleMetadata : MetadataMap) : go (list piece) :=
  for_each rules (print_rule ruleMetadata).

Definition print_trigger (triggerMetadata : MetadataMap) (trigger : TriggerDefinition) : go (list piece) :=
  print_object env trigger [cat [nl2; NS_String (r_Def (t_rule trigger)); ";"]] (metadata_of triggerMetadata (TriggerDefinition_id trigger))
    (r_tableFQN (t_rule trigger)).
Definition PrintCreateTriggerStatements (triggers : list TriggerDefinition) (triggerMetadata : MetadataMap) : go (list piece) :=
  for_each triggers (print_trigger triggerMetadata).

Definition enable_option (enabled : string) : string :=
  match switch [("D", "DISABLE"); ("A", "ENABLE ALWAYS"); ("R", "ENABLE REPLICA")] enabled with [] => "ENABLE" | o => cat o end.
Definition create_event_trigger (v7 : bool) (eventTrigger : EventTrigger) : list string :=
  [cat [nl2; "CREATE EVENT TRIGGER "; et_Name eventTrigger; nl; "ON "; Event eventTrigger]] ++
  when (non_empty (EventTags eventTrigger)) [cat [nl; "WHEN TAG IN ("; EventTags eventTrigger; ")"]] ++
  [cat [nl; "EXECUTE "; if v7 then "FUNCTION" else "PROCEDURE"; " "; et_FunctionName eventTrigger; "();"]].
Definition print_event_trigger (eventTriggerMetadata : MetadataMap) (eventTrigger : EventTrigger) : go (list piece) :=
  let! v7 := gpdb_or_family (srcDBVersion env) "7" in
  let! metadata := PrintObjectMetadata env (metadata_of eventTriggerMetadata (EventTrigger_id eventTrigger)) eventTrigger "" in
  Ok (record eventTrigger (create_event_trigger v7 eventTrigger) ::
      when (negb (bool_decide (Enabled eventTrigger = "O")))
        [object_metadata "EVENT TRIGGER METADATA" (et_Name eventTrigger) (EventTrigger_entry eventTrigger)
           (cat [nl; "ALTER EVENT TRIGGER "; et_Name eventTrigger; " "; enable_option (Enabled eventTrigger); ";"])] ++
      metadata).
Definition PrintCreateEventTriggerStatements (eventTriggers : list EventTrigger) (eventTriggerMetadata : MetadataMap) : go (list piece) :=
  for_each eventTriggers (print_event_trigger eventTriggerMetadata).

Definition policy_command (cmd : string) : go string :=
  if bool_decide (cmd = "") then Ok ""
  else match switch [("*", ""); ("r", " FOR SELECT"); ("a", " FOR INSERT"); ("w", " FOR UPDATE"); ("d", " FOR DELETE")] cmd with
       | [] => Fatal (cat ["Unexpected policy command: expected '*|r|a|w|d' got '"; cmd; "'"; nl])
       | cmdOption => Ok (cat cmdOption)
       end.
Definition create_policy (cmdOption : string) (policy : RLSPolicy) : list string :=
  let permissiveOption := if bool_decide (Permissive policy = "false") then " AS RESTRICTIVE" else "" in
  [cat [nl; "CREATE POLICY "; po_Name policy; nl; "ON "; po_tableFQN policy; permissiveOption; cmdOption]] ++
  when (non_empty (Roles policy)) [cat [nl; " TO "; Roles policy]] ++
  when (non_empty (Qual policy)) [cat [nl; " USING ("; Qual policy; ")"]] ++
  when (non_empty (WithCheck policy)) [cat [nl; " WITH CHECK ("; WithCheck policy; ")"]] ++ [";" +:+ nl].
Definition print_policy (policyMetadata : MetadataMap) (policy : RLSPolicy) : go (list piece) :=
  let! cmdOption := policy_command (Cmd policy) in
  let! metadata := PrintObjectMetadata env (metadata_of policyMetadata (RLSPolicy_id policy)) policy "" in
  Ok ([record policy [cat [nl2; "ALTER TABLE "; po_tableFQN policy; " ENABLE ROW LEVEL SECURITY;"]];
       record policy (create_policy cmdOption policy)] ++ metadata).
Definition PrintCreatePolicyStatements (policies : list RLSPolicy) (policyMetadata : MetadataMap) : go (list piece) :=
  for_each policies (print_policy policyMetadata).

Definition print_statistics (statMetadata : MetadataMap) (stat : StatisticExt) : go (list piece) :=
  print_object env stat [nl; cat [nl; se_Definition stat; ";"]] (metadata_of statMetadata (StatisticExt_id stat)) "".
Definition PrintCreateExtendedStatistics (statExtObjects : list StatisticExt) (statMetadata : MetadataMap) : go (list piece) :=
  for_each statExtObjects (print_statistics statMetadata).
End printers.

(** * The pieces are known to the table of contents *)

Section known_printers.
Context `{SemverLib} (env : print_env).
Lemma known_object_metadata t r e s : known_section e.1 = true → e.1 ≠ "global" → sound_piece (object_metadata t r e s).
Proof. destruct e as [section entry]. cbn. intros Hk Hne. unfold sound_entry. cbn. by rewrite Hk, bool_decide_false. Qed.
Lemma known_PrintCreateIndexStatements l m : Known (PrintCreateIndexStatements env l m).
Proof.
  apply Known_for_each. intros i. unfold print_index, create_index.
  intros ps Hps. apply bind_Ok in Hps as (pieces & Hpieces & Hps). apply bind_Ok in Hps as (md & Hmd & [= <-]).
  apply Forall_app. split; [|exact (known_PrintObjectMetadata _ _ _ _ _ Hmd)].
  destruct (SupportsConstraint i); [by injection Hpieces as <-|].
  apply bind_Ok in Hpieces as (v7 & _ & Hpieces). apply bind_Ok in Hpieces as (st & _ & [= <-]).
  constructor; [apply known_record|]. apply Forall_fmap, Forall_true. intros s. by apply known_object_metadata.
Qed.
Lemma known_PrintCreateRuleStatements l m : Known (PrintCreateRuleStatements env l m).
Proof. unfold PrintCreateRuleStatements, print_rule. known_printer. Qed.
Lemma known_PrintCreateTriggerStatements l m : Known (PrintCreateTriggerStatements env l m).
Proof. unfold PrintCreateTriggerStatements, print_trigger. known_printer. Qed.
Lemma known_PrintCreateEventTriggerStatements l m : Known (PrintCreateEventTriggerStatements env l m).
Proof.
  apply Known_for_each. intros i. unfold print_event_trigger. apply Known_bind. intros v7.
  eapply Known_map; [apply known_PrintObjectMetadata; apply _|]. intros ps Hps. constructor; [apply known_record|].
  destruct (negb _); [constructor; [by apply known_object_metadata|done]|done].
Qed.
Lemma known_PrintCreatePolicyStatements l m : Known (PrintCreatePolicyStatements env l m).
Proof.
  apply Known_for_each. intros i. unfold print_policy. apply Known_bind. intros c.
  eapply Known_map; [apply known_PrintObjectMetadata; apply _|]. intros ps Hps. repeat (constructor; [apply known_record|]). done.
Qed.
Lemma known_PrintCreateExtendedStatistics l m : Known (PrintCreateExtendedStatistics env l m).
Proof. unfold PrintCreateExtendedStatistics, print_statistics. known_printer. Qed.
End known_printers.

#[export] Hint Resolve known_PrintCreateIndexStatements known_PrintCreateRuleStatements known_PrintCreateTriggerStatements
  known_PrintCreateEventTriggerStatements known_PrintCreatePolicyStatements known_PrintCreateExtendedStatistics : pieces.

(** * The order of the indexes *)

Lemma parent_of_attach m i : parent_of m (attach m i) = parent_of m i.
Proof. unfold attach. by case_bool_decide. Qed.

Section order.
Variable verified : list IndexDefinition.
Let m := index_map verified.
Hypothesis Hdistinct : NoDup (ix_Oid <$> verified).
Variable depth : Z → nat.
Hypothesis Hdepth : ∀ i p, i ∈ verified → parent_of m i = Some p → depth (ix_Oid p) < depth (ix_Oid i).

Lemma index_map_lookup o i : m !! o = Some i ↔ i ∈ verified ∧ ix_Oid i = o.
Proof.
  subst m. clear depth Hdepth. unfold index_map, row_map. revert o i. induction verified as [|x l IH] using rev_ind; intros o i.
  { cbn. rewrite lookup_empty. split; [done|]. intros [H _]. by apply not_elem_of_nil in H. }
  rewrite fmap_app in Hdistinct. apply NoDup_app in Hdistinct as (Hl & Hx & _).
  rewrite foldl_app. cbn [foldl]. rewrite elem_of_app, list_elem_of_singleton.
  destruct (decide (ix_Oid x = o)) as [<-|Hne].
  - rewrite lookup_insert_eq. split; [intros [= <-]; auto|]. intros [[Hi| ->] Ho]; [|done].
    destruct (Hx (ix_Oid i)); [by apply list_elem_of_fmap_2|]. rewrite Ho. by apply list_elem_of_singleton.
  - rewrite lookup_insert_ne by done. rewrite IH by done. naive_solver.
Qed.
Lemma parent_in_map i p : parent_of m i = Some p → m !! ix_Oid p = Some p ∧ ix_Oid p = ParentIndex i.
Proof.
  unfold parent_of. case_bool_decide; [done|]. intros Hp. pose proof Hp as [_ Ho]%index_map_lookup. by rewrite Ho.
Qed.

(** The oid of the parent of an index of the map. *)
Definition parent_oid (o : Z) : option Z := i ← m !! o; ix_Oid <$> parent_of m i.
Lemma parent_oid_depth o p : parent_oid o = Some p → depth p < depth o.
Proof.
  unfold parent_oid. destruct (m !! o) as [i|] eqn:Hi; [|done]. cbn. apply index_map_lookup in Hi as [Hi <-].
  destruct (parent_of m i) as [q|] eqn:Hq; [|done]. intros [= <-]. by apply Hdepth.
Qed.

Lemma ancestors_spec fuel visited cur stack visited' :
  m !! ix_Oid cur = Some cur → size (dom m ∖ visited) < fuel → ancestors m fuel visited cur = (stack, visited') →
  visited' = list_to_set stack ∪ visited ∧ ix_Oid cur ∈ visited' ∧ NoDup stack ∧
  (∀ o, o ∈ stack → (o ∉ visited) ∧ o ∈ dom m ∧ depth o ≤ depth (ix_Oid cur)) ∧
  (∀ l1 o l2 p, stack = l1 ++ o :: l2 → parent_oid o = Some p → p ∈ visited ∨ p ∈ l2).
Proof.
  revert visited cur stack visited'. induction fuel as [|fuel IH]; intros visited cur stack visited' Hcur Hfuel; [lia|].
  cbn [ancestors]. case_bool_decide as Hvis.
  { intros [= <- <-]. split; [set_solver|]. split; [done|]. split; [constructor|]. split; [by intros o ?%not_elem_of_nil|].
    by intros [] ? ? ? ?. }
  assert (Hdom : ix_Oid cur ∈ dom m) by (apply elem_of_dom; eauto).
  assert (Hpo : parent_oid (ix_Oid cur) = ix_Oid <$> parent_of m cur) by (unfold parent_oid; by rewrite Hcur).
  destruct (parent_of m cur) as [p|] eqn:Hp.
  2:{ intros [= <- <-]. split; [set_solver|]. split; [set_solver|]. split; [apply NoDup_singleton|].
      split; [intros o ->%list_elem_of_singleton; auto|].
      intros [|? l1] o l2 p [= <- Hl] Ho; [by rewrite Hpo in Ho|by destruct l1]. }
  destruct (ancestors m fuel _ p) as [stack1 visited1] eqn:Hrec. intros [= <- <-].
  apply parent_in_map in Hp as Hpm. destruct Hpm as [Hpm _].
  apply IH in Hrec as (-> & Hin & Hnd & Hst & Hpar); [|done|].
  2:{ apply (Nat.lt_le_trans _ (size (dom m ∖ visited))); [|lia]. apply subset_size. set_solver. }
  assert (Hlt : depth (ix_Oid p) < depth (ix_Oid cur)) by (apply parent_oid_depth; by rewrite Hpo).
  split; [by rewrite list_to_set_cons; set_solver+|]. split; [by apply elem_of_union_r, elem_of_union_l, elem_of_singleton|].
  split; [constructor; [intros (Hc & _)%Hst; apply Hc, elem_of_union_l, elem_of_singleton; done|done]|].
  split.
  { intros o [->|Ho]%elem_of_cons; [auto|]. apply Hst in Ho as ((_ & ?)%not_elem_of_union & ? & ?). split; [done|]. split; [done|lia]. }
  intros [|? l1] o l2 q [= <- Hl] Ho.
  - subst l2. rewrite Hpo in Ho. injection Ho as <-. rewrite !elem_of_union, elem_of_list_to_set, elem_of_singleton in Hin.
    destruct Hin as [?|[Heq|?]]; [by right|rewrite Heq in Hlt; lia|by left].
  - subst stack1. destruct (Hpar l1 o l2 q eq_refl Ho) as [Hq|Hq]; [|by right].
    apply elem_of_union in Hq as [->%elem_of_singleton|Hq]; [|by left].
    apply parent_oid_depth in Ho. destruct (Hst o) as (_ & _ & Hle); [by apply elem_of_app; right; left|]. lia.
Qed.

(** The oids the sorting has put out: each once, each behind its parent. *)
Record sorted_oids (os : list Z) : Prop := {
  so_NoDup : NoDup os;
  so_known : ∀ o, o ∈ os → o ∈ dom m;
  so_parents : ∀ l1 o l2 p, os = l1 ++ o :: l2 → parent_oid o = Some p → p ∈ l1
}.
Lemma sort_step_spec os index visited sorted :
  sorted_oids os → index ∈ verified → sort_step m (list_to_set os, pop_index m <$> os) index = (visited, sorted) →
  ∃ os', visited = list_to_set os' ∧ sorted = pop_index m <$> os' ∧ sorted_oids os' ∧ os ⊆ os' ∧ ix_Oid index ∈ os'.
Proof.
  intros [Hnd Hk Hp] Hi. unfold sort_step. cbn [fst snd]. destruct (ancestors _ _ _ _) as [stack visited'] eqn:Ha.
  intros [= <- <-]. apply ancestors_spec in Ha as (-> & Hin & Hnd' & Hst & Hpar).
  2:{ by apply index_map_lookup. }
  2:{ rewrite <- size_dom. apply Nat.lt_succ_r, subseteq_size. set_solver. }
  exists (os ++ reverse stack). split_and!.
  - apply set_eq. intros o. rewrite elem_of_union, !elem_of_list_to_set, elem_of_app, elem_of_reverse. tauto.
  - by rewrite fmap_app.
  - split.
    + apply NoDup_app. split; [done|]. split; [|by rewrite reverse_Permutation].
      intros o Ho Hs%elem_of_reverse%Hst. destruct Hs as [Hs _]. by apply Hs, elem_of_list_to_set.
    + intros o [Ho|Ho%elem_of_reverse%Hst]%elem_of_app; [by apply Hk|tauto].
    + intros l1 o l2 p Hs Ho. apply app_eq_inv in Hs as [(k & Hl & Hr)|(k & Hl & Hr)].
      * destruct k as [|x k]; cbn in Hr.
        { apply (Hpar (reverse l2) o []) in Ho; [|by rewrite <- (reverse_involutive stack), <- Hr, reverse_cons].
          destruct Ho as [Ho|Ho]; [|by apply not_elem_of_nil in Ho]. apply elem_of_list_to_set in Ho. rewrite app_nil_r in Hl. by subst. }
        injection Hr as <- _. by apply (Hp l1 o k).
      * apply (Hpar (reverse l2) o (reverse k)) in Ho.
        2:{ by rewrite <- (reverse_involutive stack), Hr, reverse_app, reverse_cons, <- app_assoc. }
        subst l1. apply elem_of_app. rewrite elem_of_list_to_set, elem_of_reverse in Ho. tauto.
  - set_solver.
  - rewrite elem_of_app, elem_of_reverse. rewrite elem_of_union, !elem_of_list_to_set in Hin. tauto.
Qed.
Lemma sort_fold_spec l os visited sorted :
  sorted_oids os → l ⊆ verified → foldl (sort_step m) (list_to_set os, pop_index m <$> os) l = (visited, sorted) →
  ∃ os', sorted = pop_index m <$> os' ∧ sorted_oids os' ∧ os ⊆ os' ∧ (∀ i, i ∈ l → ix_Oid i ∈ os').
Proof.
  revert os. induction l as [|i l IH]; intros os Hos Hl; cbn [foldl].
  { intros [= <- <-]. exists os. split; [done|]. split; [done|]. split; [done|]. by intros i ?%not_elem_of_nil. }
  destruct (sort_step m _ i) as [v1 s1] eqn:Hstep. intros Hfold.
  apply sort_step_spec in Hstep as (os1 & -> & -> & Hos1 & Hsub & Hi); [|done|set_solver].
  apply IH in Hfold as (os2 & -> & Hos2 & Hsub2 & Hall); [|done|set_solver].
  exists os2. split; [done|]. split; [done|]. split; [set_solver|]. intros j [->|Hj]%elem_of_cons; [by apply Hsub2|by apply Hall].
Qed.
Lemma sorted_order : ∃ os, sort_indexes m verified = pop_index m <$> os ∧ sorted_oids os ∧ os ≡ₚ ix_Oid <$> verified.
Proof.
  unfold sort_indexes. destruct (foldl _ _ _) as [v s] eqn:Hf.
  apply (sort_fold_spec _ []) in Hf as (os & -> & Hos & _ & Hall); [| |done].
  2:{ split; [constructor|by intros o ?%not_elem_of_nil|by intros [] ? ? ? ?]. }
  exists os. split; [done|]. split; [done|]. apply NoDup_Permutation; [apply Hos|done|]. intros o. split.
  - intros [i [Hi <-]%index_map_lookup]%(so_known _ Hos)%elem_of_dom. by apply list_elem_of_fmap_2.
  - intros (i & -> & Hi)%list_elem_of_fmap. by apply Hall.
Qed.
End order.

(** C23: Parent indexes before child indexes: from 7 on the indexes are put out
    each once, with the name of the parent each is attached to, and an index
    never comes before its parent (queries_postdata.go:224). *)
Theorem sort_indexes_parents_first (verified : list IndexDefinition) (depth : Z → nat)
    (Hdistinct : NoDup (ix_Oid <$> verified))
    (Hacyclic : Forall (λ i, ∀ p, parent_of (index_map verified) i = Some p → depth (ix_Oid p) < depth (ix_Oid i)) verified) :
  let sorted := sort_indexes (index_map verified) verified in
  sorted ≡ₚ attach (index_map verified) <$> verified ∧
  (∀ l1 child l2 parent, sorted = l1 ++ child :: l2 → parent_of (index_map verified) child = Some parent →
     attach (index_map verified) parent ∈ l1).
Proof.
  intros sorted. rewrite Forall_forall in Hacyclic.
  destruct (sorted_order verified Hdistinct depth) as (os & Hos & Hsorted & Hperm); [by intros i p Hi; apply Hacyclic|].
  subst sorted. rewrite Hos. split.
  - rewrite Hperm, <- list_fmap_compose. apply reflexive_eq, list_fmap_ext. intros k i Hi. unfold pop_index, compose.
    apply list_elem_of_lookup_2 in Hi. by rewrite (proj2 (index_map_lookup verified Hdistinct _ i)).
  - intros l1 child l2 parent Hsplit Hparent. apply fmap_app_inv in Hsplit as (o1 & o2 & -> & Ho2 & ->).
    destruct o2 as [|o o2]; [done|]. injection Ho2 as -> _.
    assert (Ho : o ∈ dom (index_map verified)) by (apply (so_known _ _ Hsorted); apply elem_of_app; right; left).
    apply elem_of_dom in Ho as [i Hi]. unfold pop_index in Hparent. rewrite Hi in Hparent. cbn in Hparent.
    rewrite parent_of_attach in Hparent. apply (parent_in_map verified Hdistinct) in Hparent as Hp. destruct Hp as [Hp _].
    assert (Hin : ix_Oid parent ∈ o1).
    { apply (so_parents _ _ Hsorted o1 o o2); [done|]. unfold parent_oid. rewrite Hi. cbn. by rewrite Hparent. }
    apply list_elem_of_fmap. exists (ix_Oid parent). split; [|done]. unfold pop_index. by rewrite Hp.
Qed.

Definition index_of (oid parent : Z) (name : string) : IndexDefinition :=
  {| ix_Oid := oid; ix_Name := name; ix_OwningSchema := "public"; ix_OwningTable := "t"; ix_Tablespace := "";
     ix_Def := valid_string ("CREATE INDEX " +:+ name); IsClustered := false; SupportsConstraint := false; IsReplicaIdentity := false;
     StatisticsColumns := ""; StatisticsValues := ""; ParentIndex := parent; ParentIndexFQN := "" |}.
(** A grandchild, its parent, the root of both, and another index. *)
Definition sample_indexes : list IndexDefinition := [index_of 30 20 "leaf"; index_of 20 10 "middle"; index_of 10 0 "root"; index_of 5 0 "other"].
Lemma sort_indexes_parents_first_witness :
  sort_indexes (index_map sample_indexes) sample_indexes ≡ₚ attach (index_map sample_indexes) <$> sample_indexes ∧
  (∀ l1 child l2 parent, sort_indexes (index_map sample_indexes) sample_indexes = l1 ++ child :: l2 →
     parent_of (index_map sample_indexes) child = Some parent → attach (index_map sample_indexes) parent ∈ l1).
Proof.
  apply (sort_indexes_parents_first sample_indexes Z.to_nat).
  - apply (bool_decide_unpack _). vm_compute. exact I.
  - unfold sample_indexes at 2. repeat (apply Forall_cons; split); [..|done]; intros p Hp; vm_compute in Hp; (discriminate Hp || (injection Hp as <-; cbn; lia)).
Defined.
Example sample_order : ix_Name <$> sort_indexes (index_map sample_indexes) sample_indexes = ["root"; "middle"; "leaf"; "other"].
Proof. vm_compute. reflexivity. Qed.

(** An index whose parent is not among the selected ones, for instance a
    leaf partition's when only the leaf is copied, is attached to an index
    without a name: [ALTER INDEX . ATTACH PARTITION] (queries_postdata.go:248). *)
Theorem orphan_index_attached_to_no_name (verified : list IndexDefinition) (index : IndexDefinition)
    (Horphan : ParentIndex index ≠ 0%Z) (Hmissing : index_map verified !! ParentIndex index = None) :
  cat [nl; "ALTER INDEX . ATTACH PARTITION "; IndexDefinition_FQN index; ";"]
    ∈ index_statements true (attach (index_map verified) index).
Proof.
  unfold attach. rewrite bool_decide_true, Hmissing by done. unfold index_statements. cbn -[cat nl].
  rewrite !elem_of_app. right. left. by left.
Qed.
Lemma orphan_index_attached_to_no_name_witness :
  cat [nl; "ALTER INDEX . ATTACH PARTITION "; IndexDefinition_FQN (index_of 30 20 "leaf"); ";"]
    ∈ index_statements true (attach (index_map [index_of 30 20 "leaf"]) (index_of 30 20 "leaf")).
Proof. apply orphan_index_attached_to_no_name; [done|vm_compute; reflexivity]. Defined.
