(* ===== verification/UniqueIndexes.v ===== *)
(** Unique indexes on partitioned tables get the partition keys they lack
    ([EnsurePartitionKeysInUniqueIndexDefs], meta/builtin/queries_postdata.go). *)
From S2P Require Import Prelude Regexp Utils Toc Queries Acl Functions Postdata.

(** * Partition keys of the tables *)

Record partitionColumnResult := { SchemaName : string; TableName : string; ColumnNames : string }.
Definition GetPartitionColumnsByTable_query : string := "
	WITH distinct_columns AS (
		SELECT DISTINCT schemaname, tablename, columnname, partitionlevel
		FROM pg_partition_columns
	)
	SELECT 
		schemaname, 
		tablename,
		array_to_string(array_agg(columnname ORDER BY partitionlevel), ',') AS columnnames
	FROM distinct_columns
	GROUP BY schemaname, tablename".
Definition partition_columns (results : list partitionColumnResult) : gmap string (list string) :=
  foldl (λ m r, <[cat [SchemaName r; "."; TableName r] := map TrimSpace (Split (ColumnNames r) COMMA)]> m) ∅ results.
(** An error of the query only leaves the indexes as they are. *)
Definition GetPartitionColumnsByTable `{Selects partitionColumnResult} : go (gmap string (list string)) :=
  match Queries.Select (A := partitionColumnResult) GetPartitionColumnsByTable_query with
  | Err _ => Ok ∅
  | rows => let! results := rows in Ok (partition_columns results)
  end.

(** * The columns of a definition *)

(** A literal matched without regard to the case of ASCII letters. *)
Definition same_letter (c d : ascii) : bool := bool_decide (lower_byte c = lower_byte d).
Fixpoint LitI (s : string) : re :=
  match s with
  | EmptyString => Eps
  | String c s' => Cat (Chr (same_letter c)) (LitI s')
  end.
Definition name_byte (c : ascii) : bool := word c || is_byte DOT c || is_byte DQ c.
Definition OPEN : ascii := "("%char.
Definition CLOSE : ascii := ")"%char.
(** The pattern is [on_table] and the parenthesis behind it. *)
Definition on_table : re :=
  Cats [LitI "ON"; Plus (Chr space); Plus (Chr name_byte);
        Opt (Cats [Plus (Chr space); LitI "USING"; Plus (Chr space); Plus (Chr word)]); Star (Chr space)].
Definition columns_pattern : re := Cat on_table (Chr (is_byte OPEN)).

(** The last opening parenthesis of the match. *)
Definition last_open (text : string) : option nat :=
  (λ i, len text - S i.1) <$> list_find (λ c, c = OPEN) (reverse (bytes text)).
(** The text up to the parenthesis that closes the first one, and the rest. *)
Fixpoint closing (balance : nat) (s : string) : option (string * string) :=
  match s with
  | EmptyString => None
  | String c s' =>
      let next b := '(x, rest) ← closing b s'; Some (String c x, rest) in
      if is_byte OPEN c then next (S balance)
      else if is_byte CLOSE c then if bool_decide (balance = 1) then Some ("", s) else next (balance - 1)
      else next balance
  end.
(** The definition up to the columns, the columns, and the rest. *)
Definition column_span (def : string) : go (string * string * string) :=
  match search columns_pattern None def with
  | None => Err (cat ["could not find column definition pattern 'ON table_name [USING method] (' in: "; def])
  | Some f =>
      match last_open (f_text f) with
      | None => Err (cat ["could not find opening parenthesis after ON clause in: "; def])
      | Some i =>
          let contentStartIndex := len (f_skip f) + S i in
          match closing 1 (String.substring contentStartIndex (len def - contentStartIndex) def) with
          | None => Err (cat ["could not find matching closing parenthesis for column definition in: "; def])
          | Some (columns, suffix) => Ok (String.substring 0 contentStartIndex def, columns, suffix)
          end
      end
  end.
Definition extractIndexColumnDefinitionString (defString : string) : go string :=
  let! (_, columns, _) := column_span defString in Ok (TrimSpace columns).

(** * Missing keys *)

Definition key_pattern (key : string) : re := Cat WordB (Cat (Lit key) WordB).
Definition not_word (c : ascii) : bool := negb (word c).
Definition key_in_expression (key : string) : re := Cat (Chr not_word) (Cat (Lit key) (Chr not_word)).
Definition normalize (columns : string) : string := ToLower (ReplaceAllString (Plus (Chr space)) columns (λ _, " ")).
Definition key_found (normalizedDef pkCol : string) : bool :=
  MatchString (key_pattern (ToLower pkCol)) normalizedDef || MatchString (key_in_expression (ToLower pkCol)) normalizedDef.
Definition findMissingPartitionKeys (currentColumnsDefsStr : string) (partitionKeyCols : list string) : list string :=
  filter (λ pkCol, key_found (normalize currentColumnsDefsStr) pkCol = false) partitionKeyCols.

Definition rewriteIndexDefToAddKeys (originalDef currentColumnsDefsStr : string) (missingKeys : list string) : go string :=
  if bool_decide (missingKeys = []) then Ok originalDef
  else
    let! (prefix, _, suffix) := column_span originalDef in
    let current := if non_empty (TrimSpace currentColumnsDefsStr) then currentColumnsDefsStr +:+ ", " else currentColumnsDefsStr in
    Ok (cat [prefix; current; Join missingKeys ", "; suffix]).

Definition ensure_keys (partitionColumnsByTable : gmap string (list string)) (idx : IndexDefinition) : IndexDefinition :=
  let def := NS_String (ix_Def idx) in
  if negb (HasPrefix (ToUpper def) "CREATE UNIQUE INDEX") then idx
  else
    match partitionColumnsByTable !! cat [ix_OwningSchema idx; "."; ix_OwningTable idx] with
    | None | Some [] => idx
    | Some partitionKeys =>
        match extractIndexColumnDefinitionString def with
        | Ok currentColumnsDefsStr =>
            match rewriteIndexDefToAddKeys def currentColumnsDefsStr (findMissingPartitionKeys currentColumnsDefsStr partitionKeys) with
            | Ok newDefString => if bool_decide (def = newDefString) then idx else with_def idx (ix_Name idx) (valid_string newDefString)
            | _ => idx
            end
        | _ => idx
        end
    end.
Definition EnsurePartitionKeysInUniqueIndexDefs `{Selects partitionColumnResult} (indexes : list IndexDefinition) : go (list IndexDefinition) :=
  let! partitionColumnsByTable := GetPartitionColumnsByTable in Ok (map (ensure_keys partitionColumnsByTable) indexes).

Definition unique_index (def : string) : IndexDefinition := with_def (index_of 1 0 "u") "u" (valid_string def).
Example rewritten : ix_Def (ensure_keys {["public.t" := ["region"; "id"]]}
    (unique_index "CREATE UNIQUE INDEX u ON public.t USING btree (lower(ID), day) WHERE (day > 3)"))
  = valid_string "CREATE UNIQUE INDEX u ON public.t USING btree (lower(ID), day, region) WHERE (day > 3)".
Proof. vm_compute. reflexivity. Qed.

(** * Trimmed texts *)

Section trim.
Variable P : ascii → bool.

End trim.

(** * Balanced parentheses *)


(** * The pattern of the columns *)




Definition found_at (p : option ascii) (s t : string) (f : found) : Prop :=
  search columns_pattern p s = Some f ∧ f_rest f = t.



(** * Keys found in columns *)





Lemma lower_word c : word (lower_byte c) = word c.
Proof. destruct c as [[] [] [] [] [] [] [] []]; vm_compute; reflexivity. Qed.
Lemma ToLower_append s t : ToLower (s +:+ t) = ToLower s +:+ ToLower t.
Proof. unfold ToLower. by rewrite bytes_append, fmap_app, of_bytes_append. Qed.

(** * Runs of white space *)


(** * The columns with the keys added *)

Lemma lower_not_word c : word c = false → word (lower_byte c) = false.
Proof. by rewrite lower_word. Qed.


(** * Keys named in columns *)






(** * The rewritten definition *)


(** The key [id] stands only in the expression and is not added. *)
Example key_of_expression_left_out :
  ix_Def (ensure_keys {["public.t" := ["region"; "id"; "Day"]]}
    (unique_index "CREATE UNIQUE INDEX u ON public.t USING btree (lower(ID), day) WHERE (day > 3)"))
  = valid_string "CREATE UNIQUE INDEX u ON public.t USING btree (lower(ID), day, region) WHERE (day > 3)".
Proof. vm_compute. reflexivity. Qed.
