(* ===== verification/Globals.v ===== *)
(** Cluster-wide objects: databases, resource queues and groups, roles and
    tablespaces ([meta/builtin/queries_globals.go], [metadata_globals.go]). *)
From Stdlib Require Import DecimalString.
From S2P Require Import Prelude Regexp Utils Toc Version Scheduler Dependencies Queries Acl Functions TableQueries.

Definition PG_AUTHID_OID : Z := 1260.
Definition PG_DATABASE_OID : Z := 1262.
Definition PG_RESGROUP_OID : Z := 6436.
Definition PG_RESQUEUE_OID : Z := 6026.
Definition PG_TABLESPACE_OID : Z := 1213.

(** * Structures *)

Record SessionGUCs := { ClientEncoding : string }.
Definition SessionGUCs_entry (sg : SessionGUCs) : string * MetadataEntry := ("global", new_entry "" "" "SESSION GUCS" "").
#[export] Instance SessionGUCs_object : TOCObject SessionGUCs := SessionGUCs_entry.
#[export] Instance SessionGUCs_known : KnownObject SessionGUCs. Proof. done. Qed.

Record Database := { db_Oid : Z; db_Name : string; db_Tablespace : string; db_Collate : string; db_CType : string; db_Encoding : string }.
Definition Database_entry (db : Database) : string * MetadataEntry := ("global", new_entry "" (db_Name db) "DATABASE METADATA" "").
Definition Database_id (db : Database) : UniqueID := oid_of PG_DATABASE_OID (db_Oid db).
#[export] Instance Database_object : TOCObjectWithMetadata Database := plain_object Database_entry db_Name.
#[export] Instance Database_known : KnownObject Database. Proof. done. Qed.

Record ResourceQueue := {
  rq_Oid : Z; rq_Name : string; ActiveStatements : Z; MaxCost : string; CostOvercommit : bool; MinCost : string; Priority : string;
  rq_MemoryLimit : string
}.
Definition ResourceQueue_entry (rq : ResourceQueue) : string * MetadataEntry := ("global", new_entry "" (rq_Name rq) "RESOURCE QUEUE" "").
Definition ResourceQueue_id (rq : ResourceQueue) : UniqueID := oid_of PG_RESQUEUE_OID (rq_Oid rq).
#[export] Instance ResourceQueue_object : TOCObjectWithMetadata ResourceQueue := plain_object ResourceQueue_entry rq_Name.
#[export] Instance ResourceQueue_known : KnownObject ResourceQueue. Proof. done. Qed.

Record ResourceGroup := { rg_Oid : Z; rg_Name : string; Concurrency : string; Cpuset : string }.
Definition ResourceGroup_entry (rg : ResourceGroup) : string * MetadataEntry := ("global", new_entry "" (rg_Name rg) "RESOURCE GROUP" "").
Definition ResourceGroup_id (rg : ResourceGroup) : UniqueID := oid_of PG_RESGROUP_OID (rg_Oid rg).
#[export] Instance ResourceGroup_object : TOCObjectWithMetadata ResourceGroup := plain_object ResourceGroup_entry rg_Name.
#[export] Instance ResourceGroup_known : KnownObject ResourceGroup. Proof. done. Qed.
(** The methods of the embedded group are those of both versions. *)
Record ResourceGroupBefore7 := {
  group6 : ResourceGroup; CPURateLimit : string; MemoryLimit : string; MemorySharedQuota : string; MemorySpillRatio : string;
  MemoryAuditor : string
}.
Record ResourceGroupAtLeast7 := { group7 : ResourceGroup; CpuMaxPercent : string; CpuWeight : string }.

Record TimeConstraint := { tc_Oid : Z; StartDay : Z; StartTime : string; EndDay : Z; EndTime : string }.
Record Role := {
  ro_Oid : Z; ro_Name : string; Super : bool; Inherit : bool; CreateRole : bool; CreateDB : bool; CanLogin : bool; Replication : bool;
  ConnectionLimit : Z; Password : string; ValidUntil : string; ResQueue : string; ResGroup : string; Createrexthttp : bool;
  Createrextgpfd : bool; Createwextgpfd : bool; Createrexthdfs : bool; Createwexthdfs : bool; TimeConstraints : list TimeConstraint
}.
Definition Role_entry (r : Role) : string * MetadataEntry := ("global", new_entry "" (ro_Name r) "ROLE" "").
Definition Role_id (r : Role) : UniqueID := oid_of PG_AUTHID_OID (ro_Oid r).
#[export] Instance Role_object : TOCObjectWithMetadata Role := plain_object Role_entry ro_Name.
#[export] Instance Role_known : KnownObject Role. Proof. done. Qed.
Definition with_constraints (r : Role) (constraints : list TimeConstraint) : Role :=
  {| ro_Oid := ro_Oid r; ro_Name := ro_Name r; Super := Super r; Inherit := Inherit r; CreateRole := CreateRole r; CreateDB := CreateDB r;
     CanLogin := CanLogin r; Replication := Replication r; ConnectionLimit := ConnectionLimit r; Password := Password r;
     ValidUntil := ValidUntil r; ResQueue := ResQueue r; ResGroup := ResGroup r; Createrexthttp := Createrexthttp r;
     Createrextgpfd := Createrextgpfd r; Createwextgpfd := Createwextgpfd r; Createrexthdfs := Createrexthdfs r;
     Createwexthdfs := Createwexthdfs r; TimeConstraints := constraints |}.

Record RoleGUC := { RoleName : string; DbName : string; rgu_Config : string }.
Definition RoleGUC_entry (rg : RoleGUC) : string * MetadataEntry := ("global", new_entry "" (RoleName rg) "ROLE GUCS" "").
#[export] Instance RoleGUC_object : TOCObject RoleGUC := RoleGUC_entry.
#[export] Instance RoleGUC_known : KnownObject RoleGUC. Proof. done. Qed.

Record RoleMember := { rm_Role : string; Member : string; Grantor : string; IsAdmin : bool }.
Definition RoleMember_entry (rm : RoleMember) : string * MetadataEntry := ("global", new_entry "" (Member rm) "ROLE GRANT" "").
#[export] Instance RoleMember_object : TOCObject RoleMember := RoleMember_entry.
#[export] Instance RoleMember_known : KnownObject RoleMember. Proof. done. Qed.

(** A nil slice of segment locations differs from an empty one. *)
Record TablespaceDef := {
  ts_Oid : Z; ts_Tablespace : string; FileLocation : string; SegmentLocations : option (list string); ts_Options : string
}.
Definition Tablespace_entry (t : TablespaceDef) : string * MetadataEntry := ("global", new_entry "" (ts_Tablespace t) "TABLESPACE" "").
Definition Tablespace_id (t : TablespaceDef) : UniqueID := oid_of PG_TABLESPACE_OID (ts_Oid t).
#[export] Instance Tablespace_object : TOCObjectWithMetadata TablespaceDef := plain_object Tablespace_entry ts_Tablespace.
#[export] Instance Tablespace_known : KnownObject TablespaceDef. Proof. done. Qed.
Definition with_segments (t : TablespaceDef) (locations : list string) : TablespaceDef :=
  {| ts_Oid := ts_Oid t; ts_Tablespace := ts_Tablespace t; FileLocation := FileLocation t; SegmentLocations := Some locations;
     ts_Options := ts_Options t |}.

(** * Queries *)

Section queries.
Context `{SemverLib} (version : GPDBVersion) (dbName : string).

Definition GetSessionGUCs `{Selects SessionGUCs} : go SessionGUCs := get_row "SHOW client_encoding;".
Definition lcQuery : go string :=
  let! v6 := gpdb_or_family version "6" in Ok (if (v6 : bool) then "datcollate AS collate, datctype AS ctype," else "").
Definition GetDefaultDatabaseEncodingInfo_query : string := "
	SELECT datname AS name,
		%s
		pg_encoding_to_char(encoding) AS encoding
	FROM pg_database
	WHERE datname = 'template0'".
Definition GetDefaultDatabaseEncodingInfo `{Selects Database} : go Database :=
  let! lc := lcQuery in get_row (Sprintf GetDefaultDatabaseEncodingInfo_query [lc]).
Definition GetDatabaseInfo_query : string := "
	SELECT d.oid,
		quote_ident(d.datname) AS name,
		quote_ident(t.spcname) AS tablespace,
		%s
		pg_encoding_to_char(d.encoding) AS encoding
	FROM pg_database d
		JOIN pg_tablespace t ON d.dattablespace = t.oid
	WHERE d.datname = '%s'".
Definition GetDatabaseInfo `{Selects Database} : go Database :=
  let! lc := lcQuery in get_row (Sprintf GetDatabaseInfo_query [lc; EscapeSingleQuotes dbName]).
Definition GetDatabaseGUCs_query : string := "
	SELECT CASE
		WHEN option_name='search_path' OR option_name = 'DateStyle'
		THEN ('SET ' || option_name || ' TO ' || option_value)
		ELSE ('SET ' || option_name || ' TO ''' || option_value || '''')
	END AS string
	FROM pg_options_to_table((%s))".
Definition GetDatabaseGUCs `{Selects string_row} : go (list string) :=
  let! before6 := gpdb_before version "6" in
  let subQuery :=
    Sprintf (if (before6 : bool) then "SELECT datconfig FROM pg_database WHERE datname = '%s'"
             else "SELECT setconfig FROM pg_db_role_setting WHERE setrole = 0 AND setdatabase = (SELECT oid FROM pg_database WHERE datname = '%s')")
      [EscapeSingleQuotes dbName] in
  MustSelectStringSlice (Sprintf GetDatabaseGUCs_query [subQuery]).
Definition GetResourceQueues_query : string := "
	SELECT r.oid,
		quote_ident(rsqname) AS name,
		rsqcountlimit AS activestatements,
		ROUND(rsqcostlimit::numeric, 2)::text AS maxcost,
		rsqovercommit AS costovercommit,
		ROUND(rsqignorecostlimit::numeric, 2)::text AS mincost,
		priority_capability.ressetting::text AS priority,
		memory_capability.ressetting::text AS memorylimit
	FROM pg_resqueue r
		JOIN (SELECT resqueueid, ressetting FROM pg_resqueuecapability WHERE restypid = 5) priority_capability
			ON r.oid = priority_capability.resqueueid
		JOIN (SELECT resqueueid, ressetting FROM pg_resqueuecapability WHERE restypid = 6) memory_capability
			ON r.oid = memory_capability.resqueueid".
Definition GetResourceQueues `{Selects ResourceQueue} : go (list ResourceQueue) := select_rows GetResourceQueues_query.

Definition GetResourceGroups_from52 : string := "
		SELECT g.oid,
			quote_ident(g.rsgname) AS name,
			t1.value AS concurrency,
			t2.value AS cpuratelimit,
			t3.value AS memorylimit,
			t4.value AS memorysharedquota,
			t5.value AS memoryspillratio".
Definition GetResourceGroups_before52 : string := "
		SELECT g.oid,
			quote_ident(g.rsgname) AS name,
			t1.proposed AS concurrency,
			t2.value    AS cpuratelimit,
			t3.proposed AS memorylimit,
			t4.proposed AS memorysharedquota,
			t5.proposed AS memoryspillratio".
Definition GetResourceGroups_from : string := "
	    FROM pg_resgroup g
	    	JOIN pg_resgroupcapability t1 ON t1.resgroupid = g.oid AND t1.reslimittype = 1
	    	JOIN pg_resgroupcapability t2 ON t2.resgroupid = g.oid AND t2.reslimittype = 2
	    	JOIN pg_resgroupcapability t3 ON t3.resgroupid = g.oid AND t3.reslimittype = 3
	    	JOIN pg_resgroupcapability t4 ON t4.resgroupid = g.oid AND t4.reslimittype = 4
	    	JOIN pg_resgroupcapability t5 ON t5.resgroupid = g.oid AND t5.reslimittype = 5".
Definition GetResourceGroups_atLeast7 : string := "
			SELECT
				g.oid       AS oid,
				g.rsgname   AS name,
				t1.value    AS concurrency,
				t2.value    AS cpu_max_percent,
				t3.value    AS cpu_weight,
				t4.value    AS cpuset
			FROM pg_resgroup g
				JOIN pg_resgroupcapability t1 ON g.oid = t1.resgroupid AND t1.reslimittype = 1
				JOIN pg_resgroupcapability t2 ON g.oid = t2.resgroupid AND t2.reslimittype = 2
				JOIN pg_resgroupcapability t3 ON g.oid = t3.resgroupid AND t3.reslimittype = 3
				LEFT JOIN pg_resgroupcapability t4 ON g.oid = t4.resgroupid AND t4.reslimittype = 4".
(** The query asked of a server before 7: each version adds a column. *)
Definition before7_query (v52 v58 v59 : bool) : string :=
  cat [if v52 then GetResourceGroups_from52 else GetResourceGroups_before52;
       if v58 then ", coalesce(t6.value, '0') AS memoryauditor" else "";
       if v59 then ", coalesce(t7.value, '-1') AS cpuset" else ""; " "; GetResourceGroups_from;
       if v58 then " LEFT JOIN pg_resgroupcapability t6 ON t6.resgroupid = g.oid AND t6.reslimittype = 6" else "";
       if v59 then " LEFT JOIN pg_resgroupcapability t7 ON t7.resgroupid = g.oid AND t7.reslimittype = 7" else ""; ";"].
Definition GetResourceGroups (T : Type) `{Selects T} : go (list T) :=
  let! before7 := gpdb_before version "7" in
  let! v52 := gpdb_or_family version "5.2.0" in
  let! v58 := gpdb_or_family version "5.8.0" in
  let! v59 := gpdb_or_family version "5.9.0" in
  select_rows (A := T) (if (before7 : bool) then before7_query v52 v58 v59 else GetResourceGroups_atLeast7).

Definition getTimeConstraintsByRole_query : string := "
	SELECT authid AS oid,
		start_day AS startday,
		start_time::text AS starttime,
		end_day AS endday,
		end_time::text AS endtime
	FROM pg_auth_time_constraint".
Definition getTimeConstraintsByRole `{Selects TimeConstraint} : go (gmap Z (list TimeConstraint)) :=
  let! timeConstraints := select_rows (A := TimeConstraint) getTimeConstraintsByRole_query in Ok (rows_by tc_Oid timeConstraints).
Definition GetRoles_query : string := "
	SELECT oid,
		quote_ident(rolname) AS name,
		rolsuper,
		rolinherit,
		rolcreaterole,
		rolcreatedb,
		rolcanlogin,
		%s
		rolconnlimit,
		coalesce(rolpassword, '') AS password,
		CASE
			WHEN (rolvaliduntil = 'infinity'::timestamp OR rolvaliduntil = '-infinity'::timestamp)
			THEN timezone('UTC', rolvaliduntil)::text
			ELSE coalesce(timezone('UTC', rolvaliduntil)::text || '-00', '')
		END AS validuntil,
		(SELECT quote_ident(rsqname) FROM pg_resqueue WHERE pg_resqueue.oid = rolresqueue) AS resqueue,
		%s
		rolcreaterexthttp,
		%s
		%s
		rolcreaterextgpfd,
		rolcreatewextgpfd
	FROM pg_authid".
Definition GetRoles `{Selects Role} `{Selects TimeConstraint} : go (list Role) :=
  let! v5 := gpdb_or_family version "5" in
  let! v6 := gpdb_or_family version "6" in
  let! v7 := gpdb_or_family version "7" in
  let resgroupQuery := if (v5 : bool) then "(SELECT quote_ident(rsgname) FROM pg_resgroup WHERE pg_resgroup.oid = rolresgroup) AS resgroup," else "" in
  let query := Sprintf GetRoles_query [if (v6 : bool) then "rolreplication," else ""; resgroupQuery; if (v6 : bool) then "" else "rolcreaterexthdfs,";
                                       if (v6 : bool) then "" else "rolcreatewexthdfs,"] in
  let whereClause := if (v7 : bool) then "
	WHERE rolname !~ '^pg_'" else "" in
  let! roles := select_rows (A := Role) (query +:+ whereClause) in
  let! constraintsByRole := getTimeConstraintsByRole in
  Ok (map (λ r, with_constraints r (default [] (constraintsByRole !! ro_Oid r))) roles).

Definition GetRoleGUCs_select : string := "
	SELECT rolename,
		dbname,
		CASE
			WHEN option_name='search_path' OR option_name = 'DateStyle'
			THEN ('SET ' || option_name || ' TO ' || option_value)
			ELSE ('SET ' || option_name || ' TO ''' || option_value || '''')
		END AS config".
Definition GetRoleGUCs_union : string := "UNION
	SELECT quote_ident(r.rolname) AS rolename,
		quote_ident(d.datname) AS dbname,
		(pg_options_to_table(setconfig)).option_name,
		(pg_options_to_table(setconfig)).option_value
	FROM pg_db_role_setting pgdb
		JOIN pg_database d ON pgdb.setdatabase = d.oid
		JOIN pg_roles r ON pgdb.setrole = r.oid ".
Definition GetRoleGUCs_from : string := "
	FROM ( SELECT quote_ident(rolname) AS rolename,
			'' AS dbname,
			(pg_options_to_table(rolconfig)).option_name,
			(pg_options_to_table(rolconfig)).option_value
			FROM pg_roles %s) AS options".
Definition append_guc (m : gmap string (list RoleGUC)) (result : RoleGUC) : gmap string (list RoleGUC) :=
  <[RoleName result := default [] (m !! RoleName result) ++ [result]]> m.
Definition GetRoleGUCs `{Selects RoleGUC} : go (gmap string (list RoleGUC)) :=
  let! v6 := gpdb_or_family version "6" in
  let! v7 := gpdb_or_family version "7" in
  let whereClause := if (v7 : bool) then "
	WHERE rolename !~ '^pg_'" else "" in
  let! results := select_rows (A := RoleGUC)
    (cat [GetRoleGUCs_select; Sprintf GetRoleGUCs_from [if (v6 : bool) then GetRoleGUCs_union else ""]; whereClause]) in
  Ok (foldl append_guc ∅ results).

Definition GetRoleMembers_atLeast5 : string := "
		WHEN pg_get_userbyid(pga.grantor) like 'unknown (OID='||pga.grantor::regclass||')'
		THEN '' ELSE quote_ident(pg_get_userbyid(pga.grantor))".
Definition GetRoleMembers_before5 : string := "
		WHEN pg_get_userbyid(pga.grantor) like 'unknown (OID='||pga.grantor||')'
		THEN '' ELSE quote_ident(pg_get_userbyid(pga.grantor))".
Definition GetRoleMembers_query : string := "
	SELECT quote_ident(pg_get_userbyid(pga.roleid)) AS role,
		quote_ident(pg_get_userbyid(pga.member)) AS member,
		CASE %s
		END AS grantor,
		admin_option AS isadmin
	FROM pg_auth_members pga
	%s
	ORDER BY roleid, member".
Definition GetRoleMembers `{Selects RoleMember} : go (list RoleMember) :=
  let! v5 := gpdb_or_family version "5" in
  let! v7 := gpdb_or_family version "7" in
  select_rows (Sprintf GetRoleMembers_query
    [if (v5 : bool) then GetRoleMembers_atLeast5 else GetRoleMembers_before5;
     if (v7 : bool) then Sprintf "WHERE roleid >= %d" [Itoa FIRST_NORMAL_OBJECT_ID] else ""]).

Definition GetSegmentTablespaces_query : string := "
	SELECT 'content'::text || gp_segment_id::text || '=''' || tblspc_loc || '''' AS string
	FROM gp_tablespace_segment_location(%d)
	WHERE tblspc_loc != pg_tablespace_location(%d)
	ORDER BY gp_segment_id;".
Definition GetSegmentTablespaces `{Selects string_row} (oid : Z) : go (list string) :=
  MustSelectStringSlice (Sprintf GetSegmentTablespaces_query [Itoa oid; Itoa oid]).
Definition GetTablespaces_before6Query : string := "
	SELECT t.oid,
		quote_ident(t.spcname) AS tablespace,
		quote_ident(f.fsname) AS filelocation
	FROM pg_tablespace t
		JOIN pg_filespace f ON t.spcfsoid = f.oid
	WHERE spcname != 'pg_default'
		AND spcname != 'pg_global'".
Definition GetTablespaces_atLeast6Query : string := "
	SELECT oid,
		quote_ident(spcname) AS tablespace,
		'''' || pg_catalog.pg_tablespace_location(oid)::text || '''' AS filelocation,
		coalesce(array_to_string(spcoptions, ', '), '') AS options
	FROM pg_tablespace
	WHERE spcname != 'pg_default'
		AND spcname != 'pg_global'".
Definition GetTablespaces `{Selects TablespaceDef} `{Selects string_row} : go (list TablespaceDef) :=
  let! before6 := gpdb_before version "6" in
  if (before6 : bool) then select_rows GetTablespaces_before6Query
  else
    let! results := select_rows (A := TablespaceDef) GetTablespaces_atLeast6Query in
    go_fold (λ done t, let! locations := GetSegmentTablespaces (ts_Oid t) in Ok (done ++ [with_segments t locations])) [] results.

Record size_row := { DBSize : string }.
Definition GetDBSize `{Selects size_row} : go string :=
  let! size := get_row (A := size_row) (Sprintf "SELECT pg_size_pretty(pg_database_size('%s')) as dbsize" [EscapeSingleQuotes dbName]) in
  Ok (DBSize size).
End queries.

(** * Printers *)

(** [strconv.ParseFloat] on the texts of numbers of the server: digits with an
    optional sign and point, or NaN. The value is [n / 10 ^ k]. *)
Inductive parsed_float := NaN | Decimal (n : Z) (k : nat).
Definition digits_of (negative : bool) (i f : string) : option parsed_float :=
  if bool_decide (i +:+ f = "") then None
  else n ← NilZero.uint_of_string (i +:+ f);
       Some (Decimal (if negative then - Z.of_uint n else Z.of_uint n)%Z (len f)).
Definition ParseFloat (s : string) : option parsed_float :=
  if bool_decide (s = "NaN") then Some NaN
  else
    let '(negative, body) :=
      match s with
      | String c s' => if bool_decide (c = DASH) then (true, s') else if bool_decide (c = byte 43) then (false, s') else (false, s)
      | EmptyString => (false, s)
      end in
    match SplitN2 body DOT with
    | [i; f] => digits_of negative i f
    | [i] => digits_of negative i ""
    | _ => None
    end.
Definition above (x : parsed_float) (z : Z) : bool :=
  match x with NaN => false | Decimal n k => (z * 10 ^ Z.of_nat k <? n)%Z end.
Definition must_parse (s : string) : go parsed_float :=
  match ParseFloat s with
  | Some x => Ok x
  | None => Fatal (cat ["strconv.ParseFloat: parsing "; chr DQ; s; chr DQ; ": invalid syntax"])
  end.

Section printers.
Context `{SemverLib} `{MapRange} (env : print_env).

Definition PrintSessionGUCs (gucs : SessionGUCs) : list piece :=
  [record gucs [cat [nl; "SET client_encoding = "; single_quoted (ClientEncoding gucs); ";"; nl]]].

(** An entry of the global section that no object has. *)
Definition global_entry (name objectType : string) (texts : list string) : piece :=
  Recorded {| em_section := "global"; em_entry := new_entry "" name objectType ""; em_texts := texts |}.
Definition differs (value default_ clause : string) : list string :=
  when (non_empty value && negb (bool_decide (value = default_))) [cat [" "; clause; " "; single_quoted value]].
Definition PrintCreateDatabaseStatement (defaultDB db : Database) (dbMetadata : MetadataMap) : go (list piece) :=
  let! metadata := PrintObjectMetadata env (metadata_of dbMetadata (Database_id db)) db "" in
  Ok (global_entry (db_Name db) "DATABASE"
        ([cat [nl2; "CREATE DATABASE "; db_Name db; " TEMPLATE template0"]] ++
         when (negb (bool_decide (db_Tablespace db = "pg_default"))) [" TABLESPACE " +:+ db_Tablespace db] ++
         differs (db_Encoding db) (db_Encoding defaultDB) "ENCODING" ++ differs (db_Collate db) (db_Collate defaultDB) "LC_COLLATE" ++
         differs (db_CType db) (db_CType defaultDB) "LC_CTYPE" ++ [";"]) :: metadata).
Definition PrintDatabaseGUCs (gucs : list string) (dbname : string) : list piece :=
  (λ guc, global_entry dbname "DATABASE GUC" [cat [nl; "ALTER DATABASE "; dbname; " "; guc; ";"]]) <$> gucs.

(** ** Resource queues and groups *)

Definition queue_attributes (resQueue : ResourceQueue) (maxCost minCost : parsed_float) : list string :=
  when (negb (bool_decide (ActiveStatements resQueue = -1)%Z)) ["ACTIVE_STATEMENTS=" +:+ Itoa (ActiveStatements resQueue)] ++
  when (above maxCost (-1)) ["MAX_COST=" +:+ MaxCost resQueue] ++
  when (CostOvercommit resQueue) ["COST_OVERCOMMIT=TRUE"] ++
  when (above minCost 0) ["MIN_COST=" +:+ MinCost resQueue] ++
  when (negb (bool_decide (Priority resQueue = "medium"))) ["PRIORITY=" +:+ ToUpper (Priority resQueue)] ++
  when (negb (bool_decide (rq_MemoryLimit resQueue = "-1"))) ["MEMORY_LIMIT=" +:+ single_quoted (rq_MemoryLimit resQueue)].
Definition print_queue (resQueueMetadata : MetadataMap) (resQueue : ResourceQueue) : go (list piece) :=
  let! maxCost := must_parse (MaxCost resQueue) in
  let! minCost := must_parse (MinCost resQueue) in
  let action := if bool_decide (rq_Name resQueue = "pg_default") then "ALTER" else "CREATE" in
  print_object env resQueue
    [cat [nl2; action; " RESOURCE QUEUE "; rq_Name resQueue; " WITH ("; Join (queue_attributes resQueue maxCost minCost) ", "; ");"]]
    (metadata_of resQueueMetadata (ResourceQueue_id resQueue)) "".
Definition PrintCreateResourceQueueStatements (resQueues : list ResourceQueue) (resQueueMetadata : MetadataMap) : go (list piece) :=
  for_each resQueues (print_queue resQueueMetadata).

Definition reset_settings (before7 : bool) : list (string * string) :=
  if before7 then
    [("admin_group", "SET CPU_RATE_LIMIT 1"); ("admin_group", "SET MEMORY_LIMIT 1"); ("default_group", "SET CPU_RATE_LIMIT 1");
     ("default_group", "SET MEMORY_LIMIT 1")]
  else
    [("admin_group", "SET CPU_MAX_PERCENT 1"); ("admin_group", "SET CPU_WEIGHT 100"); ("default_group", "SET CPU_MAX_PERCENT 1");
     ("default_group", "SET CPU_WEIGHT 100"); ("system_group", "SET CPU_MAX_PERCENT 1"); ("system_group", "SET CPU_WEIGHT 100")].
Definition PrintResetResourceGroupStatements : go (list piece) :=
  let! before7 := gpdb_before (destDBVersion env) "7" in
  Ok ((λ s, global_entry s.1 "RESOURCE GROUP" [cat [nl2; "ALTER RESOURCE GROUP "; s.1; " "; s.2; ";"]]) <$> reset_settings before7).

(** A negative rate says that a set of CPUs is used. *)
Definition by_rate (rate : string) : bool := negb (HasPrefix rate "-").
Definition alter_group (g : ResourceGroup) (setting : string) : piece :=
  record g [cat [nl2; "ALTER RESOURCE GROUP "; rg_Name g; " SET "; setting; ";"]].
Definition create_group (g : ResourceGroup) (attributes : list string) : piece :=
  record g [cat [nl2; "CREATE RESOURCE GROUP "; rg_Name g; " WITH ("; Join attributes ", "; ");"]].
Definition group_metadata (resGroupMetadata : MetadataMap) (g : ResourceGroup) (pieces : list piece) : go (list piece) :=
  let! metadata := PrintObjectMetadata env (metadata_of resGroupMetadata (ResourceGroup_id g)) g "" in Ok (pieces ++ metadata).
Definition cpuset_assigned (g : ResourceGroup) : string := "CPUSET=" +:+ single_quoted (Cpuset g).
Definition cpuset_set (g : ResourceGroup) : string := "CPUSET " +:+ single_quoted (Cpuset g).
Definition built_in (names : list string) (g : ResourceGroup) : bool := bool_decide (rg_Name g ∈ names).

Definition print_group7 (resGroupMetadata : MetadataMap) (resGroup : ResourceGroupAtLeast7) : go (list piece) :=
  let g := group7 resGroup in
  let! v59 := gpdb_or_family (srcDBVersion env) "5.9.0" in
  group_metadata resGroupMetadata g
    (if built_in ["default_group"; "admin_group"; "system_group"] g then
       [alter_group g ("CPU_WEIGHT " +:+ CpuWeight resGroup); alter_group g ("CONCURRENCY " +:+ Concurrency g);
        alter_group g (if by_rate (CpuMaxPercent resGroup) then "CPU_MAX_PERCENT " +:+ CpuMaxPercent resGroup else cpuset_set g)]
     else
       [create_group g
          ((if by_rate (CpuMaxPercent resGroup) then ["CPU_MAX_PERCENT=" +:+ CpuMaxPercent resGroup] else when (v59 : bool) [cpuset_assigned g]) ++
           ["CPU_WEIGHT=" +:+ CpuWeight resGroup; "CONCURRENCY=" +:+ Concurrency g])]).
Definition PrintCreateResourceGroupStatementsAtLeast7 (resGroups : list ResourceGroupAtLeast7) (resGroupMetadata : MetadataMap) : go (list piece) :=
  for_each resGroups (print_group7 resGroupMetadata).

Definition printResGroupStmtsBefore7ForTarget7OrLater (resGroupMetadata : MetadataMap) (resGroup : ResourceGroupBefore7) : go (list piece) :=
  let g := group6 resGroup in
  group_metadata resGroupMetadata g
    (if built_in ["default_group"; "admin_group"; "system_group"] g then
       [alter_group g ("CONCURRENCY " +:+ Concurrency g); alter_group g "CPU_WEIGHT 100";
        alter_group g (if by_rate (CPURateLimit resGroup) then "CPU_MAX_PERCENT " +:+ CPURateLimit resGroup else cpuset_set g)]
     else
       [create_group g
          ["CONCURRENCY=" +:+ Concurrency g; "CPU_WEIGHT=100";
           if by_rate (CPURateLimit resGroup) then "CPU_MAX_PERCENT=" +:+ CPURateLimit resGroup else cpuset_assigned g]]).
(** Version 5 has ratios that are no integers. *)
Definition spill_ratio (is5 : bool) (ratio : string) : string :=
  if is5 && negb (bool_decide (is_Some (Atoi ratio))) then single_quoted ratio else ratio.
Definition printResGroupStmtsBefore7ForTargetBefore7 (resGroupMetadata : MetadataMap) (resGroup : ResourceGroupBefore7) : go (list piece) :=
  let g := group6 resGroup in
  let! is5 := gpdb_is (srcDBVersion env) "5" in
  let! v59 := andg (IsGPDB (srcDBVersion env)) (AtLeast (srcDBVersion env) "5.9.0") in
  let! v58 := andg (IsGPDB (srcDBVersion env)) (AtLeast (srcDBVersion env) "5.8.0") in
  let memorySpillRatio := spill_ratio is5 (MemorySpillRatio resGroup) in
  group_metadata resGroupMetadata g
    (if built_in ["default_group"; "admin_group"] g then
       ((λ s, alter_group g s) <$> ["MEMORY_LIMIT " +:+ MemoryLimit resGroup; "MEMORY_SHARED_QUOTA " +:+ MemorySharedQuota resGroup;
                                    "MEMORY_SPILL_RATIO " +:+ memorySpillRatio; "CONCURRENCY " +:+ Concurrency g]) ++
       [if by_rate (CPURateLimit resGroup) then alter_group g ("CPU_RATE_LIMIT " +:+ CPURateLimit resGroup)
        else if (v59 : bool) then alter_group g (cpuset_set g) else record g []]
     else
       [create_group g
          ((if by_rate (CPURateLimit resGroup) then ["CPU_RATE_LIMIT=" +:+ CPURateLimit resGroup] else when (v59 : bool) [cpuset_assigned g]) ++
           (if bool_decide (MemoryAuditor resGroup = "1") then ["MEMORY_AUDITOR=cgroup"] else when (v58 : bool) ["MEMORY_AUDITOR=vmtracker"]) ++
           ["MEMORY_LIMIT=" +:+ MemoryLimit resGroup; "MEMORY_SHARED_QUOTA=" +:+ MemorySharedQuota resGroup;
            "MEMORY_SPILL_RATIO=" +:+ memorySpillRatio; "CONCURRENCY=" +:+ Concurrency g])]).
Definition PrintCreateResourceGroupStatementsBefore7 (resGroups : list ResourceGroupBefore7) (resGroupMetadata : MetadataMap) : go (list piece) :=
  let! isTargetGpdb7OrLater := gpdb_or_family (destDBVersion env) "7" in
  for_each resGroups
    (if (isTargetGpdb7OrLater : bool) then printResGroupStmtsBefore7ForTarget7OrLater resGroupMetadata
     else printResGroupStmtsBefore7ForTargetBefore7 resGroupMetadata).

(** ** Roles *)

Definition flag_attr (b : bool) (attr : string) : string := if b then attr else "NO" +:+ attr.
Definition role_attributes (v5 : bool) (role : Role) : list string :=
  [flag_attr (Super role) "SUPERUSER"; flag_attr (Inherit role) "INHERIT"; flag_attr (CreateRole role) "CREATEROLE";
   flag_attr (CreateDB role) "CREATEDB"; flag_attr (CanLogin role) "LOGIN"] ++
  when (Replication role) ["REPLICATION"] ++
  when (negb (bool_decide (ConnectionLimit role = -1)%Z)) ["CONNECTION LIMIT " +:+ Itoa (ConnectionLimit role)] ++
  when (non_empty (Password role)) ["PASSWORD " +:+ single_quoted (Password role)] ++
  when (non_empty (ValidUntil role)) ["VALID UNTIL " +:+ single_quoted (ValidUntil role)] ++
  ["RESOURCE QUEUE " +:+ ResQueue role] ++
  when v5 ["RESOURCE GROUP " +:+ ResGroup role] ++
  when (Createrexthttp role) ["CREATEEXTTABLE (protocol='http')"] ++
  when (Createrextgpfd role) ["CREATEEXTTABLE (protocol='gpfdist', type='readable')"] ++
  when (Createwextgpfd role) ["CREATEEXTTABLE (protocol='gpfdist', type='writable')"] ++
  when (Createrexthdfs role) ["CREATEEXTTABLE (protocol='gphdfs', type='readable')"] ++
  when (Createwexthdfs role) ["CREATEEXTTABLE (protocol='gphdfs', type='writable')"].
Definition deny_interval (role : Role) (timeConstraint : TimeConstraint) : string :=
  cat [nl; "ALTER ROLE "; ro_Name role; " DENY BETWEEN DAY "; Itoa (StartDay timeConstraint); " TIME "; single_quoted (StartTime timeConstraint);
       " AND DAY "; Itoa (EndDay timeConstraint); " TIME "; single_quoted (EndTime timeConstraint); ";"].
Definition print_role (roleMetadata : MetadataMap) (role : Role) : go (list piece) :=
  let! v5 := gpdb_or_family (srcDBVersion env) "5" in
  let! metadata := PrintObjectMetadata env (metadata_of roleMetadata (Role_id role)) role "" in
  Ok (record role [cat [nl2; "CREATE ROLE "; ro_Name role; ";"; nl; "ALTER ROLE "; ro_Name role; " WITH "; Join (role_attributes v5 role) " "; ";"]] ::
      ((λ c, record role [deny_interval role c]) <$> TimeConstraints role) ++ metadata).
Definition PrintCreateRoleStatements (roles : list Role) (roleMetadata : MetadataMap) : go (list piece) :=
  for_each roles (print_role roleMetadata).

(** Statements that are not marked as metadata of their object. *)
Definition PrintStatementsEx {T} `{TOCObject T} (obj : T) (statements : list string) : list piece :=
  (λ statement, record obj [cat [nl2; statement; nl]]) <$> statements.
Definition PrintObjectMetadataEx {T} `{TOCObjectWithMetadata T} (metadata : ObjectMetadata) (obj : T) (owningTable : string) : go (list piece) :=
  let '(_, entry) := GetMetadataEntry obj in
  let objectType := if bool_decide (e_ObjectType entry = "DATABASE METADATA") then "DATABASE" else e_ObjectType entry in
  let! owner := GetOwnerStatement env metadata (FQN obj) objectType in
  let! no_owner := (if bool_decide ((owner : string) ≠ "") then gpdb_before (srcDBVersion env) "5" else Ok false) in
  Ok (PrintStatementsEx obj
    (trimmed (GetCommentStatement metadata (FQN obj) objectType owningTable) ++
     (if (no_owner : bool) && bool_decide (objectType = "LANGUAGE") then [] else trimmed owner) ++
     trimmed (GetPrivilegesStatements env metadata (FQN obj) objectType None) ++
     trimmed (GetSecurityLabelStatement metadata (FQN obj) objectType))).

Definition default_tablespace_format : re := Cats [Lit "SET default_tablespace TO '"; Cap 1 (Plus (Chr (not_byte SQ))); Lit "'"].
Definition transformRoleDefaultTablespace (gucConfig : string) : string :=
  match FindStringSubmatch default_tablespace_format gucConfig with
  | Some matches => cat ["SET default_tablespace TO "; single_quoted (GetDestTablespace (dest_tablespaces env) (matches 1))]
  | None => gucConfig
  end.
Definition role_guc (roleName : string) (roleGUC : RoleGUC) : piece :=
  let dbString := if non_empty (DbName roleGUC) then cat ["IN DATABASE "; DbName roleGUC; " "] else "" in
  let gucConfig := if Contains (rgu_Config roleGUC) "SET default_tablespace" then transformRoleDefaultTablespace (rgu_Config roleGUC) else rgu_Config roleGUC in
  record roleGUC [cat [nl2; "ALTER ROLE "; roleName; " "; dbString; gucConfig; ";"]].
Definition PrintRoleGUCStatements (roleGUCs : gmap string (list RoleGUC)) : list piece :=
  range_map 465 roleGUCs ≫= λ r, role_guc r.1 <$> r.2.

Definition print_member (roleMember : RoleMember) : piece :=
  record roleMember
    ([cat [nl; "GRANT "; rm_Role roleMember; " TO "; Member roleMember]] ++ when (IsAdmin roleMember) [" WITH ADMIN OPTION"] ++
     when (non_empty (Grantor roleMember)) [" GRANTED BY " +:+ Grantor roleMember] ++ [";"]).
Definition PrintRoleMembershipStatements (roleMembers : list RoleMember) : list piece := Loose nl2 :: (print_member <$> roleMembers).

(** ** Tablespaces *)

Definition location_text (tablespace : TablespaceDef) : string :=
  match SegmentLocations tablespace with
  | None => "FILESPACE " +:+ FileLocation tablespace
  | Some [] => "LOCATION " +:+ FileLocation tablespace
  | Some locations => cat ["LOCATION "; FileLocation tablespace; nl; tab; "WITH ("; Join locations ", "; ")"]
  end.
Definition print_tablespace (tablespaceMetadata : MetadataMap) (tablespace : TablespaceDef) : go (list piece) :=
  let! metadata := PrintObjectMetadata env (metadata_of tablespaceMetadata (Tablespace_id tablespace)) tablespace "" in
  Ok (record tablespace [cat [nl2; "CREATE TABLESPACE "; ts_Tablespace tablespace; " "; location_text tablespace; ";"]] ::
      when (non_empty (ts_Options tablespace))
        [record tablespace [cat [nl2; "ALTER TABLESPACE "; ts_Tablespace tablespace; " SET ("; ts_Options tablespace; ");"; nl]]] ++ metadata).
Definition PrintCreateTablespaceStatements (tablespaces : list TablespaceDef) (tablespaceMetadata : MetadataMap) : go (list piece) :=
  for_each tablespaces (print_tablespace tablespaceMetadata).
End printers.

Example parsed_cost : above <$> ParseFloat "-1.00" = Some (above (Decimal (-100) 2)) ∧
  (λ x, above x (-1)) <$> ParseFloat "-1.00" = Some false ∧ (λ x, above x (-1)) <$> ParseFloat "0.00" = Some true ∧
  (λ x, above x 0) <$> ParseFloat "0.01" = Some true ∧ ParseFloat "1e" = None.
Proof. vm_compute. done. Qed.

(** * The pieces are known to the table of contents *)

Section known_printers.
Context `{SemverLib} `{MapRange} (env : print_env).
Lemma known_PrintSessionGUCs g : Forall sound_piece (PrintSessionGUCs g).
Proof. by repeat constructor. Qed.
Lemma known_PrintDatabaseGUCs l n : Forall sound_piece (PrintDatabaseGUCs l n).
Proof. by apply Forall_fmap, Forall_true. Qed.
Lemma known_PrintCreateResourceQueueStatements l m : Known (PrintCreateResourceQueueStatements env l m).
Proof. unfold PrintCreateResourceQueueStatements, print_queue, must_parse. known_printer. Qed.
Lemma known_PrintResetResourceGroupStatements : Known (PrintResetResourceGroupStatements env).
Proof. apply Known_bind. intros b. by apply Known_Ok, Forall_fmap, Forall_true. Qed.
Lemma known_group_metadata m g ps : Forall sound_piece ps → Known (group_metadata env m g ps).
Proof.
  intros Hps. eapply Known_map; [apply known_PrintObjectMetadata; apply _|]. intros md Hmd. by apply Forall_app.
Qed.
Lemma known_PrintCreateResourceGroupStatementsAtLeast7 l m : Known (PrintCreateResourceGroupStatementsAtLeast7 env l m).
Proof.
  apply Known_for_each. intros g. apply Known_bind. intros v. apply known_group_metadata.
  destruct (built_in _ _); repeat constructor; apply known_record.
Qed.
Lemma known_PrintCreateResourceGroupStatementsBefore7 l m : Known (PrintCreateResourceGroupStatementsBefore7 env l m).
Proof.
  apply Known_bind. intros target7. apply Known_for_each. intros g. destruct target7.
  - apply known_group_metadata. destruct (built_in _ _); repeat constructor; apply known_record.
  - do 3 (apply Known_bind; intros ?). apply known_group_metadata. destruct (built_in _ _); [|repeat constructor; apply known_record].
    apply Forall_app. split; [apply Forall_fmap, Forall_true; intros s; apply known_record|].
    apply Forall_singleton. repeat case_match; apply known_record.
Qed.
Lemma known_PrintCreateRoleStatements l m : Known (PrintCreateRoleStatements env l m).
Proof.
  apply Known_for_each. intros r. apply Known_bind. intros v5. eapply Known_map; [apply known_PrintObjectMetadata; apply _|].
  intros ps Hps. constructor; [apply known_record|]. apply Forall_app. split; [|done].
  apply Forall_fmap, Forall_true. intros c. apply known_record.
Qed.
Lemma known_PrintRoleGUCStatements g : Forall sound_piece (PrintRoleGUCStatements env g).
Proof. apply Forall_bind, Forall_true. intros r. apply Forall_fmap, Forall_true. intros c. apply known_record. Qed.
Lemma known_PrintRoleMembershipStatements l : Forall sound_piece (PrintRoleMembershipStatements l).
Proof. constructor; [done|]. apply Forall_fmap, Forall_true. intros c. apply known_record. Qed.
Lemma known_PrintCreateTablespaceStatements l m : Known (PrintCreateTablespaceStatements env l m).
Proof.
  apply Known_for_each. intros r. eapply Known_map; [apply known_PrintObjectMetadata; apply _|].
  intros ps Hps. constructor; [apply known_record|]. destruct (non_empty _); [constructor; [apply known_record|done]|done].
Qed.
End known_printers.

#[export] Hint Resolve known_PrintSessionGUCs known_PrintDatabaseGUCs
  known_PrintCreateResourceQueueStatements known_PrintResetResourceGroupStatements known_PrintCreateResourceGroupStatementsAtLeast7
  known_PrintCreateResourceGroupStatementsBefore7 known_PrintCreateRoleStatements known_PrintRoleGUCStatements
  known_PrintRoleMembershipStatements known_PrintCreateTablespaceStatements : pieces.
