(* ===== verification/Statistics.v ===== *)
(** Planner statistics: the rows of the queries and the statements that write
    them back ([meta/builtin/queries_statistics.go], [statistics.go]). *)
From Stdlib Require Import DecimalString.
From S2P Require Import Prelude Regexp Utils Toc Version Scheduler Dependencies Queries Acl Functions Globals Relations.

(** * Floats *)

(** A [float64]: the sign, [m * 2 ^ e], or a special value. *)
Inductive float64 := Finite (negative : bool) (m : N) (e : Z) | Infinite (negative : bool) | NotANumber.
Definition float_zero : float64 := Finite false 0 0.
(** [n / d] rounded to the nearest integer, ties to even. *)
Definition round_div (n d : N) : N :=
  let '(q, r) := N.div_eucl n d in
  match N.compare (2 * r) d with
  | Lt => q
  | Gt => q + 1
  | Eq => if N.even q then q else q + 1
  end%N.
(** The millionths of [m * 2 ^ e]. *)
Definition millionths (m : N) (e : Z) : N :=
  if (0 <=? e)%Z then (m * 2 ^ Z.to_N e * 1000000)%N else round_div (m * 1000000) (2 ^ Z.to_N (- e)).
Fixpoint zeros (n : nat) : string := match n with O => "" | S n' => String "0" (zeros n') end.
Definition padded (width : nat) (s : string) : string := zeros (width - len s) +:+ s.
(** [%f]: six digits behind the point. *)
Definition percent_f (f : float64) : string :=
  match f with
  | Finite negative m e =>
      let digits := padded 7 (NilZero.string_of_uint (N.to_uint (millionths m e))) in
      cat [if negative then "-" else ""; String.substring 0 (len digits - 6) digits; "."; String.substring (len digits - 6) 6 digits]
  | Infinite negative => if negative then "-Inf" else "+Inf"
  | NotANumber => "NaN"
  end.
Example percents : percent_f (Finite true 3 (-2)) = "-0.750000" ∧ percent_f (Finite false 5 (-23)) = "0.000001" ∧
  percent_f (Finite false 12345 0) = "12345.000000" ∧ percent_f float_zero = "0.000000".
Proof. vm_compute. done. Qed.

(** * Structures and queries *)

(** The five slots of an attribute. *)
Record statistic_slot := { Kind : Z; Operator : Z; slot_Collation : Z; Numbers : list string; Values : list string }.
Record AttributeStatistic := {
  as_Oid : Z; as_Schema : string; as_Table : string; AttName : string; as_Type : string; Relid : Z; AttNumber : Z; as_Inherit : bool;
  NullFraction : float64; Width : Z; Distinct : float64; slot1 : statistic_slot; slot2 : statistic_slot; slot3 : statistic_slot;
  slot4 : statistic_slot; slot5 : statistic_slot
}.
Record TupleStatistic := { tp_Oid : Z; tp_Schema : string; tp_Table : string; RelPages : Z; RelTuples : float64 }.
Definition no_tuples : TupleStatistic := {| tp_Oid := 0; tp_Schema := ""; tp_Table := ""; RelPages := 0; RelTuples := float_zero |}.

Section queries.
Context `{SemverLib} (version : GPDBVersion) (f : filters).
Definition statSlotClause : string := "s.stakind5,
	s.staop5,
	s.stanumbers5,
	s.stavalues5,".
Definition statCollationClause : string := "s.stacoll1,
					s.stacoll2,
					s.stacoll3,
					s.stacoll4,
					s.stacoll5,".
Definition GetAttributeStatistics_query : string := "
	SELECT c.oid,
		quote_ident(n.nspname) AS schema,
		quote_ident(c.relname) AS table,
		quote_ident(a.attname) AS attname,
		quote_ident(t.typname) AS type,
		s.starelid,
		s.staattnum,
		%s
		s.stanullfrac,
		s.stawidth,
		s.stadistinct,
		%s
		s.stakind1,
		s.stakind2,
		s.stakind3,
		s.stakind4,
		s.staop1,
		s.staop2,
		s.staop3,
		s.staop4,
		%s
		s.stanumbers1,
		s.stanumbers2,
		s.stanumbers3,
		s.stanumbers4,
		s.stavalues1,
		s.stavalues2,
		s.stavalues3,
		s.stavalues4
	FROM pg_class c
		JOIN pg_namespace n ON c.relnamespace = n.oid

	JOIN pg_attribute a ON a.attrelid = c.oid
		JOIN pg_statistic s ON (c.oid = s.starelid AND a.attnum = s.staattnum)
		JOIN pg_type t ON a.atttypid = t.oid
	WHERE %s
		AND quote_ident(n.nspname) || '.' || quote_ident(c.relname) IN (%s)
	ORDER BY n.nspname, c.relname, a.attnum".
Definition GetAttributeStatistics `{Selects AttributeStatistic} (tables : list Relations.Table) : go (gmap Z (list AttributeStatistic)) :=
  let! v6 := gpdb_or_family version "6" in
  let! v7 := gpdb_or_family version "7" in
  let! results := select_rows (A := AttributeStatistic) (Sprintf GetAttributeStatistics_query
    [if (v6 : bool) then "s.stainherit," else ""; if (v6 : bool) then statSlotClause else ""; if (v7 : bool) then statCollationClause else "";
     SchemaFilterClause f "n"; SliceToQuotedString (Table_FQN <$> tables)]) in
  Ok (rows_by as_Oid results).
Definition GetTupleStatistics_query : string := "
	SELECT c.oid,
		quote_ident(n.nspname) AS schema,
		quote_ident(c.relname) AS table,
		c.relpages,
		c.reltuples
	FROM pg_class c
		JOIN pg_namespace n ON c.relnamespace = n.oid
	WHERE %s
		AND quote_ident(n.nspname) || '.' || quote_ident(c.relname) IN (%s)
	ORDER BY n.nspname, c.relname".
Definition GetTupleStatistics `{Selects TupleStatistic} (tables : list Relations.Table) : go (gmap Z TupleStatistic) :=
  let! results := select_rows (A := TupleStatistic)
    (Sprintf GetTupleStatistics_query [SchemaFilterClause f "n"; SliceToQuotedString (Table_FQN <$> tables)]) in
  Ok (row_map tp_Oid (λ s, s) results).
End queries.

(** * Statements *)

(** [fmt.Sprintf("%#v", s)] is [strconv.Quote]: the text between double quotes,
    character by character. Which characters beyond Latin-1 are printable is
    Unicode's table. *)
Class PrintTable := { wide_printable : N → bool }.
Definition BACKSLASH : ascii := byte 92.
Definition byte_of (n : N) : ascii := ascii_of_N n.
Definition within (lo hi : N) (c : ascii) : bool := (lo <=? N_of_ascii c)%N && (N_of_ascii c <=? hi)%N.
Definition low6 (c : ascii) : N := (N_of_ascii c mod 64)%N.
(** [utf8.DecodeRuneInString]: the first code point and the rest of a text, or
    nothing where its first byte starts no character. *)
Definition DecodeRune (s : string) : option (N * string) :=
  match s with
  | EmptyString => None
  | String c0 s0 =>
      let b := N_of_ascii c0 in
      if (b <? 128)%N then Some (b, s0)
      else if (b <? 194)%N then None
      else if (b <? 224)%N then
        match s0 with
        | String c1 s1 => if within 128 191 c1 then Some ((b mod 32) * 64 + low6 c1, s1)%N else None
        | _ => None
        end
      else if (b <? 240)%N then
        match s0 with
        | String c1 (String c2 s2) =>
            if within (if (b =? 224)%N then 160 else 128) (if (b =? 237)%N then 159 else 191) c1 && within 128 191 c2
            then Some (((b mod 16) * 64 + low6 c1) * 64 + low6 c2, s2)%N else None
        | _ => None
        end
      else if (b <? 245)%N then
        match s0 with
        | String c1 (String c2 (String c3 s3)) =>
            if within (if (b =? 240)%N then 144 else 128) (if (b =? 244)%N then 143 else 191) c1
               && within 128 191 c2 && within 128 191 c3
            then Some ((((b mod 8) * 64 + low6 c1) * 64 + low6 c2) * 64 + low6 c3, s3)%N else None
        | _ => None
        end
      else None
  end.
(** [utf8.AppendRune] of a code point that was decoded. *)
Definition EncodeRune (r : N) : string :=
  if (r <? 128)%N then chr (byte_of r)
  else if (r <? 2048)%N then of_bytes (byte_of <$> [192 + r / 64; 128 + r mod 64]%N)
  else if (r <? 65536)%N then of_bytes (byte_of <$> [224 + r / 4096; 128 + r / 64 mod 64; 128 + r mod 64]%N)
  else of_bytes (byte_of <$> [240 + r / 262144; 128 + r / 4096 mod 64; 128 + r / 64 mod 64; 128 + r mod 64]%N).

Fixpoint hex (digits : nat) (n : N) : string :=
  match digits with
  | O => ""
  | S k => hex k (n / 16)%N +:+ String.substring (N.to_nat (n mod 16)) 1 "0123456789abcdef"
  end.
(** What stands behind the backslash of a character that is not printed. *)
Definition escape_letters (r : N) : string :=
  match filter (λ e, e.1 = r) [(7, "a"); (8, "b"); (12, "f"); (10, "n"); (13, "r"); (9, "t"); (11, "v")]%N with
  | (_, letter) :: _ => letter
  | [] => if (r <? 32)%N || (r =? 127)%N then "x" +:+ hex 2 r
          else if (r <? 65536)%N then "u" +:+ hex 4 r else "U" +:+ hex 8 r
  end.

Section quoting.
Context `{PrintTable}.
(** [strconv.IsPrint]. *)
Definition IsPrint (r : N) : bool :=
  if (r <=? 255)%N then (32 <=? r)%N && (r <? 127)%N || (161 <=? r)%N && negb (r =? 173)%N else wide_printable r.
Definition quote_rune (r : N) : string :=
  if bool_decide (r = 34 ∨ r = 92)%N then String BACKSLASH (chr (byte_of r))
  else if IsPrint r then EncodeRune r
  else String BACKSLASH (escape_letters r).
(** A byte that belongs to no character is written in hexadecimal digits. The
    fuel is the length of the text. *)
Fixpoint quoted_runes (fuel : nat) (s : string) : string :=
  match fuel, s with
  | S fuel', String c s' =>
      match DecodeRune s with
      | Some (r, rest) => quote_rune r +:+ quoted_runes fuel' rest
      | None => String BACKSLASH ("x" +:+ hex 2 (N_of_ascii c)) +:+ quoted_runes fuel' s'
      end
  | _, _ => ""
  end.
Definition Quote (s : string) : string := cat [chr DQ; quoted_runes (len s) s; chr DQ].
Definition SliceToPostgresArray (slice : list string) : string :=
  single_quoted (cat ["{"; Join (Quote ∘ EscapeSingleQuotes <$> slice) ","; "}"]).
Definition realValues (reals : list string) : string :=
  if bool_decide (reals = []) then "NULL" else SliceToPostgresArray reals.
Definition AnyValues (any : list string) (typ : string) : string :=
  if bool_decide (any = []) then "NULL" else Sprintf "array_in(%s, '%s'::regtype::oid, -1)" [SliceToPostgresArray any; typ].
End quoting.

(** The type of an array of a type starts with exactly one underscore. *)
Definition is_array_type (typ : string) : bool :=
  match typ with
  | String c (String d _) => bool_decide (c = "_"%char) && negb (bool_decide (d = "_"%char))
  | _ => false
  end.
Definition statistic_slots (attStat : AttributeStatistic) : list statistic_slot :=
  [slot1 attStat; slot2 attStat; slot3 attStat; slot4 attStat; slot5 attStat].
Definition zero_slots7 : string := "0::smallint,
	0::smallint,
	0::smallint,
	0::smallint,
	0::smallint,
	0::oid,
	0::oid,
	0::oid,
	0::oid,
	0::oid,
	0::oid,
	0::oid,
	0::oid,
	0::oid,
	0::oid,
	NULL::real[],
	NULL::real[],
	NULL::real[],
	NULL::real[],
	NULL::real[],
	NULL,
	NULL,
	NULL,
	NULL,
	NULL".
Definition slots7 : string := "%d::smallint,
	%d::smallint,
	%d::smallint,
	%d::smallint,
	%d::smallint,
	%d::oid,
	%d::oid,
	%d::oid,
	%d::oid,
	%d::oid,
	%d::oid,
	%d::oid,
	%d::oid,
	%d::oid,
	%d::oid,
	%s::real[],
	%s::real[],
	%s::real[],
	%s::real[],
	%s::real[],
	%s,
	%s,
	%s,
	%s,
	%s".
Definition zero_slots6 : string := "0::smallint,
	0::smallint,
	0::smallint,
	0::smallint,
	0::smallint,
	0::oid,
	0::oid,
	0::oid,
	0::oid,
	0::oid,
	NULL::real[],
	NULL::real[],
	NULL::real[],
	NULL::real[],
	NULL::real[],
	NULL,
	NULL,
	NULL,
	NULL,
	NULL".
Definition slots6 : string := "%d::smallint,
	%d::smallint,
	%d::smallint,
	%d::smallint,
	%d::smallint,
	%d::oid,
	%d::oid,
	%d::oid,
	%d::oid,
	%d::oid,
	%s::real[],
	%s::real[],
	%s::real[],
	%s::real[],
	%s::real[],
	%s,
	%s,
	%s,
	%s,
	%s".
Definition zero_slots4 : string := "0::smallint,
	0::smallint,
	0::smallint,
	0::smallint,
	0::oid,
	0::oid,
	0::oid,
	0::oid,
	NULL::real[],
	NULL::real[],
	NULL::real[],
	NULL::real[],
	NULL,
	NULL,
	NULL,
	NULL".
Definition slots4 : string := "%d::smallint,
	%d::smallint,
	%d::smallint,
	%d::smallint,
	%d::oid,
	%d::oid,
	%d::oid,
	%d::oid,
	%s::real[],
	%s::real[],
	%s::real[],
	%s::real[],
	%s,
	%s,
	%s,
	%s".
Definition slot_operands `{PrintTable} (collations : bool) (typ : string) (l : list statistic_slot) : list string :=
  (Itoa ∘ Kind <$> l) ++ (Itoa ∘ Operator <$> l) ++ (if collations then Itoa ∘ slot_Collation <$> l else []) ++
  (realValues ∘ Numbers <$> l) ++ ((λ s, AnyValues (Values s) typ) <$> l).
Definition generateAttributeSlotsQuery7 `{PrintTable} (attStat : AttributeStatistic) : string :=
  if is_array_type (as_Type attStat) then zero_slots7 else Sprintf slots7 (slot_operands true (as_Type attStat) (statistic_slots attStat)).
Definition generateAttributeSlotsQuery6 `{PrintTable} (attStat : AttributeStatistic) : string :=
  if is_array_type (as_Type attStat) then zero_slots6 else Sprintf slots6 (slot_operands false (as_Type attStat) (statistic_slots attStat)).
Definition generateAttributeSlotsQuery4 `{PrintTable} (attStat : AttributeStatistic) : string :=
  if is_array_type (as_Type attStat) then zero_slots4 else Sprintf slots4 (slot_operands false (as_Type attStat) (take 4 (statistic_slots attStat))).

Section printers.
Context `{SemverLib} `{PrintTable} (env : print_env).

Definition GenerateTupleStatisticsQuery (table : Relations.Table) (tupleStat : TupleStatistic) : string :=
  cat ["UPDATE pg_class"; nl; "SET"; nl; tab; "relpages = "; Itoa (RelPages tupleStat); "::int,"; nl; tab; "reltuples = ";
       percent_f (RelTuples tupleStat); "::real"; nl; "WHERE oid = "; single_quoted (EscapeSingleQuotes (Table_FQN table)); "::regclass::oid;"].
Definition GenerateAttributeStatisticsQueries (table : Relations.Table) (attStat : AttributeStatistic) : go (list string) :=
  let starelidStr := single_quoted (EscapeSingleQuotes (Table_FQN table)) +:+ "::regclass::oid" in
  let! v6 := gpdb_or_family (srcDBVersion env) "6" in
  let! v7 := gpdb_or_family (srcDBVersion env) "7" in
  let inheritStr := if (v6 : bool) then cat [nl; tab; bool_text (as_Inherit attStat); "::boolean,"] else "" in
  let attributeSlotsQueryStr :=
    if (v6 : bool) then if (v7 : bool) then generateAttributeSlotsQuery7 attStat else generateAttributeSlotsQuery6 attStat
    else generateAttributeSlotsQuery4 attStat in
  Ok [cat ["DELETE FROM pg_statistic WHERE starelid = "; starelidStr; " AND staattnum = "; Itoa (AttNumber attStat); ";"];
      cat ["INSERT INTO pg_statistic VALUES ("; nl; tab; starelidStr; ","; nl; tab; Itoa (AttNumber attStat); "::smallint,"; inheritStr; nl; tab;
           percent_f (NullFraction attStat); "::real,"; nl; tab; Itoa (Width attStat); "::integer,"; nl; tab; percent_f (Distinct attStat);
           "::real,"; nl; tab; attributeSlotsQueryStr; ");"]].
Definition printStatisticsStatementForTable (table : Relations.Table) (query : string) : piece :=
  Recorded {| em_section := "statistics"; em_entry := new_entry (r_Schema (t_Relation table)) (r_Name (t_Relation table)) "STATISTICS" "";
              em_texts := [cat [nl2; query; nl]] |}.
Definition print_table_statistics (attStats : gmap Z (list AttributeStatistic)) (tupleStats : gmap Z TupleStatistic) (table : Relations.Table)
    : go (list piece) :=
  let oid := r_Oid (t_Relation table) in
  let! attributeQueries := go_map (GenerateAttributeStatisticsQueries table) (default [] (attStats !! oid)) in
  Ok (printStatisticsStatementForTable table <$>
        (GenerateTupleStatisticsQuery table (default no_tuples (tupleStats !! oid)) :: concat attributeQueries)).
Definition PrintStatisticsStatements (tables : list Relations.Table) (attStats : gmap Z (list AttributeStatistic))
    (tupleStats : gmap Z TupleStatistic) : go (list piece) :=
  for_each tables (print_table_statistics attStats tupleStats).

Lemma known_PrintStatisticsStatements tables attStats tupleStats : Known (PrintStatisticsStatements tables attStats tupleStats).
Proof.
  apply Known_for_each. intros t. unfold print_table_statistics. apply Known_bind. intros qs. apply Known_Ok.
  by apply Forall_fmap, Forall_true.
Qed.
End printers.
#[export] Hint Resolve known_PrintStatisticsStatements : pieces.

(** * The values the server reads back *)

(** The server's reading of an array: elements between double quotes, in which
    a backslash stands before any byte that is meant as it is. *)
Fixpoint read_element (s : string) : option (string * string) :=
  match s with
  | EmptyString => None
  | String c s' =>
      if is_byte DQ c then Some ("", s')
      else if is_byte BACKSLASH c then
        match s' with
        | EmptyString => None
        | String d s'' => '(x, rest) ← read_element s''; Some (String d x, rest)
        end
      else '(x, rest) ← read_element s'; Some (String c x, rest)
  end.
Fixpoint read_elements (fuel : nat) (s : string) : option (list string) :=
  match fuel, s with
  | S fuel', String q s' =>
      if is_byte DQ q then
        '(x, rest) ← read_element s';
        match rest with
        | String c rest' =>
            if is_byte COMMA c then l ← read_elements fuel' rest'; Some (x :: l)
            else if is_byte "}"%char c && bool_decide (rest' = "") then Some [x] else None
        | EmptyString => None
        end
      else None
  | _, _ => None
  end.
Definition read_array (s : string) : option (list string) :=
  match s with String c s' => if is_byte "{"%char c then read_elements (len s') s' else None | EmptyString => None end.
(** The text of an SQL literal and the array it denotes. *)
Definition read_array_literal (s : string) : option (list string) :=
  match s with
  | String c s' => if is_byte SQ c then '(body, rest) ← lex_literal_body s'; if bool_decide (rest = "") then read_array body else None else None
  | EmptyString => None
  end.

(** * Characters *)

(** A Unicode scalar value, and a text of such. *)
Definition scalar (r : N) : Prop := (r < 55296 ∨ 57344 ≤ r < 1114112)%N.
Definition utf8 (t : list N) : string := cat (EncodeRune <$> t).

Lemma N_byte_of n : (n < 256)%N → N_of_ascii (byte_of n) = n.
Proof. intros Hn. unfold byte_of. by apply N_ascii_embedding. Qed.
Lemma within_spec lo hi n : (lo ≤ n ≤ hi → hi < 256 → within lo hi (byte_of n) = true)%N.
Proof.
  intros Hn Hhi. unfold within. rewrite N_byte_of by lia. apply andb_true_intro. split; apply N.leb_le; lia.
Qed.
Lemma mod_spec b q m r : (r < m → b = q * m + r → b mod m = r)%N.
Proof. intros Hr ->. rewrite N.add_comm, N.Div0.mod_add. by apply N.mod_small. Qed.
Lemma low6_spec n : (n < 64 → low6 (byte_of (128 + n)) = n)%N.
Proof.
  intros Hn. unfold low6. rewrite N_byte_of by lia.
  apply (mod_spec _ 2); lia.
Qed.
Ltac decide_below :=
  repeat match goal with
  | |- context [(?a <? ?b)%N] => first [rewrite (proj2 (N.ltb_lt a b)) by lia | rewrite (proj2 (N.ltb_ge a b)) by lia]
  | |- context [(?a =? ?b)%N] => first [rewrite (proj2 (N.eqb_neq a b)) by lia | rewrite (proj2 (N.eqb_eq a b)) by lia]
  end.
Lemma DecodeRune_Encode r t : scalar r → DecodeRune (EncodeRune r +:+ t) = Some (r, t).
Proof.
  intros Hr. unfold scalar in Hr. unfold EncodeRune.
  pose proof (N.Div0.div_div r 64 64) as H1. pose proof (N.Div0.div_div (r / 64) 64 64) as H2.
  rewrite (N.Div0.div_div r 64 (64 * 64)) in H2. change (64 * 64)%N with 4096%N in *. change (64 * 4096)%N with 262144%N in *.
  rewrite <- H2, <- H1. clear H1 H2.
  pose proof (N.div_mod r 64 ltac:(done)) as D0. pose proof (N.mod_lt r 64 ltac:(done)) as M0. set (a := (r / 64)%N) in *.
  pose proof (N.div_mod a 64 ltac:(done)) as D1. pose proof (N.mod_lt a 64 ltac:(done)) as M1. set (b := (a / 64)%N) in *.
  pose proof (N.div_mod b 64 ltac:(done)) as D2. pose proof (N.mod_lt b 64 ltac:(done)) as M2. set (c := (b / 64)%N) in *. clearbody c. clearbody b. clearbody a.
  generalize dependent (r mod 64)%N. intros m0 D0 M0. generalize dependent (a mod 64)%N. intros m1 D1 M1. generalize dependent (b mod 64)%N. intros m2 D2 M2.
  destruct (r <? 128)%N eqn:C1; [|destruct (r <? 2048)%N eqn:C2; [|destruct (r <? 65536)%N eqn:C3]];
    rewrite ?N.ltb_lt, ?N.ltb_ge in *; cbn [fmap list_fmap of_bytes]; unfold chr; rewrite !append_String, append_Empty; unfold DecodeRune;
    cbv zeta; rewrite ?low6_spec, ?N_byte_of by lia; decide_below; [done|..].
  - rewrite (mod_spec (192 + a) 6 32 a), within_spec by lia. do 2 f_equal. lia.
  - rewrite (mod_spec (224 + b) 14 16 b) by lia. destruct (N.eqb_spec (224 + b) 224), (N.eqb_spec (224 + b) 237); try lia;
      rewrite !within_spec by lia; cbn [andb]; do 2 f_equal; lia.
  - rewrite (mod_spec (240 + c) 30 8 c) by lia. destruct (N.eqb_spec (240 + c) 240), (N.eqb_spec (240 + c) 244); try lia;
      rewrite !within_spec by lia; cbn [andb]; do 2 f_equal; lia.
Qed.

(** * The values the server reads back, character by character *)

Lemma no_byte_substring c i n s : no_byte c s → no_byte c (String.substring i n s).
Proof.
  revert i n. induction s as [|d s IH]; intros i n Hs; [destruct i, n; apply no_byte_Empty|].
  apply no_byte_String in Hs as [Hd Hs]. destruct i as [|i]; [destruct n as [|n]; [apply no_byte_Empty|]|by apply IH].
  cbn. apply no_byte_String. split; [done|by apply IH].
Qed.
Lemma no_byte_hex c k n : no_byte c "0123456789abcdef" → no_byte c (hex k n).
Proof.
  intros Hc. revert n. induction k as [|k IH]; intros n; [apply no_byte_Empty|]. cbn [hex]. apply no_byte_append.
  split; [apply IH|by apply no_byte_substring].
Qed.
Lemma no_byte_letters c r : no_byte c "0123456789abcdefxuUnrtv" → no_byte c (escape_letters r).
Proof.
  intros Hc. assert (Hhex : ∀ k n, no_byte c (hex k n)).
  { intros k n. apply no_byte_hex. unfold no_byte in *. cbn in *. set_solver. }
  assert (Hcons : ∀ d k n, d ∈ bytes "xuU" → no_byte c (String d (hex k n))).
  { intros d k n Hd. apply no_byte_String. split; [|done]. intros ->. apply Hc. cbn in *. set_solver. }
  unfold escape_letters. destruct (filter _ _) as [|[e letter] l] eqn:Hf.
  - repeat case_match; apply Hcons; cbn; set_solver.
  - assert (He : (e, letter) ∈ filter (λ e, e.1 = r) [(7, "a"); (8, "b"); (12, "f"); (10, "n"); (13, "r"); (9, "t"); (11, "v")]%N) by (rewrite Hf; by left).
    apply list_elem_of_filter in He as [_ He]. unfold no_byte in *. cbn in Hc.
    repeat (apply elem_of_cons in He as [[= -> ->]|He]; [cbn; set_solver|]). by apply not_elem_of_nil in He.
Qed.
Lemma letters_first r : ∃ d w, escape_letters r = String d w.
Proof.
  unfold escape_letters. destruct (filter _ _) as [|[e letter] l] eqn:Hf.
  - repeat case_match; by eexists _, _.
  - assert (He : (e, letter) ∈ filter (λ e, e.1 = r) [(7, "a"); (8, "b"); (12, "f"); (10, "n"); (13, "r"); (9, "t"); (11, "v")]%N) by (rewrite Hf; by left).
    apply list_elem_of_filter in He as [_ He].
    repeat (apply elem_of_cons in He as [[= -> ->]|He]; [by eexists _, _|]). by apply not_elem_of_nil in He.
Qed.
Lemma no_byte_Encode c r : scalar r → (N_of_ascii c < 128)%N → r ≠ N_of_ascii c → no_byte c (EncodeRune r).
Proof.
  intros Hr Hc Hne. unfold scalar in Hr.
  assert (Hbyte : ∀ n, (128 ≤ n < 256)%N → c ≠ byte_of n) by (intros n Hn ->; rewrite N_byte_of in Hc by lia; lia).
  unfold EncodeRune. pose proof (N.mod_lt r 64 ltac:(done)) as M0. pose proof (N.mod_lt (r / 64) 64 ltac:(done)) as M1.
  pose proof (N.mod_lt (r / 4096) 64 ltac:(done)) as M2. pose proof (N.Div0.mul_div_le r 64) as D0.
  pose proof (N.Div0.mul_div_le r 4096) as D1. pose proof (N.Div0.mul_div_le r 262144) as D2.
  generalize dependent (r / 262144)%N. generalize dependent (r mod 64)%N. generalize dependent ((r / 64) mod 64)%N.
  generalize dependent ((r / 4096) mod 64)%N. generalize dependent (r / 64)%N. generalize dependent (r / 4096)%N.
  intros a Ha b Hb m0 Hm0 m1 Hm1 m2 Hm2 d Hd.
  destruct (r <? 128)%N eqn:C1; [|destruct (r <? 2048)%N eqn:C2; [|destruct (r <? 65536)%N eqn:C3]];
    rewrite ?N.ltb_lt, ?N.ltb_ge in *; cbn [fmap list_fmap of_bytes]; unfold chr; repeat (apply no_byte_String; split); try apply no_byte_Empty;
    try (apply Hbyte; lia).
  intros ->. by rewrite N_byte_of in Hne by lia.
Qed.
Lemma Encode_first r : ∃ c s, EncodeRune r = String c s.
Proof. unfold EncodeRune. repeat case_match; by eexists _, _. Qed.

Section values.
Context `{PrintTable}.

Lemma Escape_plain s : no_byte SQ s → EscapeSingleQuotes s = s.
Proof.
  induction s as [|c s IH]; [done|]. intros [Hc Hs]%no_byte_String. rewrite Escape_cons, decide_False by congruence. by rewrite IH.
Qed.
Lemma Escape_append s t : EscapeSingleQuotes (s +:+ t) = EscapeSingleQuotes s +:+ EscapeSingleQuotes t.
Proof. apply Replace_byte_app. Qed.
Lemma utf8_cons r t : utf8 (r :: t) = EncodeRune r +:+ utf8 t.
Proof. done. Qed.
(** A single quote is doubled, before and behind the quoting. *)
Definition doubled (t : list N) : list N := t ≫= λ r, if decide (r = 39)%N then [39; 39]%N else [r].
Lemma Escape_utf8 t : Forall scalar t → EscapeSingleQuotes (utf8 t) = utf8 (doubled t).
Proof.
  induction 1 as [|r t Hr _ IH]; [done|]. rewrite utf8_cons, Escape_append, IH. unfold doubled. rewrite bind_cons.
  case_decide as Hq; [by subst r|]. rewrite Escape_plain; [done|]. by apply no_byte_Encode.
Qed.
Definition quoted_text (t : list N) : string := cat (quote_rune <$> t).
Lemma quoted_text_cons r t : quoted_text (r :: t) = quote_rune r +:+ quoted_text t.
Proof. done. Qed.
Lemma quoted_utf8 t fuel : Forall scalar t → len (utf8 t) ≤ fuel → quoted_runes fuel (utf8 t) = quoted_text t.
Proof.
  intros Ht. revert fuel. induction Ht as [|r t Hr _ IH]; intros fuel Hfuel; [by destruct fuel|].
  rewrite quoted_text_cons, utf8_cons in *. destruct (Encode_first r) as (c & w & Hc). rewrite len_append, Hc in Hfuel.
  change (len (String c w)) with (S (len w)) in Hfuel. destruct fuel as [|fuel]; [lia|].
  pose proof (DecodeRune_Encode r (utf8 t) Hr) as Hd. rewrite Hc, append_String in *. cbn [quoted_runes].
  rewrite Hd, IH by lia. done.
Qed.
Lemma no_byte_quote_rune r : scalar r → r ≠ 39%N → no_byte SQ (quote_rune r).
Proof.
  intros Hr Hq. unfold quote_rune. case_bool_decide as Hs.
  - destruct Hs as [->| ->]; apply (bool_decide_unpack _); vm_compute; exact I.
  - destruct (IsPrint r); [by apply no_byte_Encode|]. apply no_byte_String. split; [done|].
    apply no_byte_letters, (bool_decide_unpack _). vm_compute. exact I.
Qed.
Lemma Escape_quoted t : Forall scalar t → EscapeSingleQuotes (quoted_text t) = quoted_text (doubled t).
Proof.
  induction 1 as [|r t Hr _ IH]; [done|]. rewrite quoted_text_cons, Escape_append, IH. unfold doubled. rewrite bind_cons.
  case_decide as Hq; [by subst r|]. rewrite Escape_plain; [done|]. by apply no_byte_quote_rune.
Qed.
Lemma doubled_scalar t : Forall scalar t → Forall scalar (doubled t).
Proof.
  induction 1 as [|r t Hr _ IH]; [constructor|]. unfold doubled. rewrite bind_cons. apply Forall_app. split; [|done].
  case_decide; [subst r|]; repeat (apply Forall_cons; split; [done|]); constructor.
Qed.
Definition element (t : list N) : string := cat [chr DQ; quoted_text t; chr DQ].
Lemma Quote_Escape t : Forall scalar t → Quote (EscapeSingleQuotes (utf8 t)) = EscapeSingleQuotes (element t).
Proof.
  intros Ht. unfold Quote, element. rewrite Escape_utf8, quoted_utf8 by (try apply doubled_scalar; done || lia).
  cbn [cat foldr]. by rewrite !Escape_append, Escape_quoted.
Qed.

(** What the server keeps of a character that is written: the character
    itself, or the letters of its escape. *)
Definition kept_rune (r : N) : string := if IsPrint r then EncodeRune r else escape_letters r.
Definition kept (t : list N) : string := cat (kept_rune <$> t).
Lemma read_plain w s : no_byte DQ w → no_byte BACKSLASH w →
  read_element (w +:+ s) = '(x, rest) ← read_element s; Some (w +:+ x, rest).
Proof.
  induction w as [|c w IH]; [intros _ _; rewrite append_Empty; by destruct (read_element s) as [[]|]|].
  intros [Hq Hqw]%no_byte_String [Hb Hbw]%no_byte_String. rewrite append_String. cbn [read_element]. unfold is_byte.
  rewrite !bool_decide_false by congruence. rewrite IH by done. by destruct (read_element s) as [[]|].
Qed.
Lemma read_escaped d w s : no_byte DQ w → no_byte BACKSLASH w →
  read_element (String BACKSLASH (String d w) +:+ s) = '(x, rest) ← read_element s; Some (String d w +:+ x, rest).
Proof.
  intros Hq Hb. rewrite !append_String. cbn [read_element]. change (is_byte DQ BACKSLASH) with false.
  change (is_byte BACKSLASH BACKSLASH) with true. cbn iota. rewrite read_plain by done. by destruct (read_element s) as [[]|].
Qed.
Lemma read_rune r s : scalar r → read_element (quote_rune r +:+ s) = '(x, rest) ← read_element s; Some (kept_rune r +:+ x, rest).
Proof.
  intros Hr. unfold quote_rune, kept_rune. case_bool_decide as Hs.
  - destruct Hs as [->| ->]; apply read_escaped; apply no_byte_Empty.
  - destruct (IsPrint r).
    + apply read_plain; apply no_byte_Encode; (done || cbn; tauto).
    + destruct (letters_first r) as (d & w & Hl).
      assert (Hno : ∀ c, no_byte c "0123456789abcdefxuUnrtv" → no_byte c w).
      { intros c Hc%(no_byte_letters c r). rewrite Hl in Hc. by apply no_byte_String in Hc as [_ ?]. }
      rewrite Hl. apply read_escaped; apply Hno; apply (bool_decide_unpack _); vm_compute; exact I.
Qed.
Lemma read_quoted t s : Forall scalar t →
  read_element (quoted_text t +:+ s) = '(x, rest) ← read_element s; Some (kept t +:+ x, rest).
Proof.
  induction 1 as [|r t Hr _ IH]; [change (quoted_text [] +:+ s) with s; by destruct (read_element s) as [[]|]|].
  rewrite quoted_text_cons, append_assoc, read_rune, IH by done. destruct (read_element s) as [[x rest]|]; [|done]. cbn [mbind option_bind].
  unfold kept. cbn [fmap list_fmap cat foldr]. by rewrite !append_assoc.
Qed.
Lemma read_element_quoted t rest : Forall scalar t → read_element (quoted_text t +:+ String DQ rest) = Some (kept t, rest).
Proof. intros Ht. rewrite read_quoted by done. change (read_element (String DQ rest)) with (Some ("", rest)). simpl. by rewrite append_nil_r. Qed.
Lemma element_append t s : element t +:+ s = String DQ (quoted_text t +:+ String DQ s).
Proof. unfold element. cbn [cat foldr]. by rewrite append_nil_r, !append_assoc. Qed.
Lemma read_elements_quoted texts fuel : texts ≠ [] → Forall (Forall scalar) texts → length texts ≤ fuel →
  read_elements fuel (Join (element <$> texts) "," +:+ "}") = Some (kept <$> texts).
Proof.
  intros Hne Hall. revert fuel. induction texts as [|t texts IH]; [done|]. intros fuel Hfuel. apply Forall_cons in Hall as [Ht Hall].
  destruct fuel as [|fuel]; [cbn in Hfuel; lia|]. destruct texts as [|t2 texts].
  - cbn [fmap list_fmap Join String.concat]. rewrite element_append. cbn [read_elements]. by rewrite read_element_quoted.
  - change (Join (element <$> t :: t2 :: texts) ",") with (element t +:+ "," +:+ Join (element <$> t2 :: texts) ",").
    rewrite append_assoc, element_append. cbn [read_elements]. rewrite read_element_quoted by done. cbn [mbind option_bind].
    rewrite append_assoc. change ("," +:+ ?x) with (String COMMA x). cbn. cbn in IH. rewrite IH; [done|done|done|cbn in Hfuel; lia].
Qed.
Lemma Join_Escape l : Join (EscapeSingleQuotes <$> l) "," = EscapeSingleQuotes (Join l ",").
Proof.
  induction l as [|x [|y l] IH]; [done|done|]. change (Join (x :: y :: l) ",") with (x +:+ "," +:+ Join (y :: l) ",").
  rewrite !Escape_append, <- IH. done.
Qed.
Lemma length_Join_elements texts : length texts ≤ len (Join (element <$> texts) ",").
Proof.
  assert (Hquote : ∀ t, 1 ≤ len (element t)) by (intros t; unfold element; cbn [cat foldr]; rewrite len_append; change (len (chr DQ)) with 1; lia).
  induction texts as [|t [|t2 texts] IH]; [done|apply Hquote|]. specialize (Hquote t).
  change (Join (element <$> t :: t2 :: texts) ",") with (element t +:+ "," +:+ Join (element <$> t2 :: texts) ",").
  change (length (t :: t2 :: texts)) with (S (length (t2 :: texts))). rewrite !len_append. lia.
Qed.
Lemma SliceToPostgresArray_read texts : texts ≠ [] → Forall (Forall scalar) texts →
  read_array_literal (SliceToPostgresArray (utf8 <$> texts)) = Some (kept <$> texts).
Proof.
  intros Hne Hall. unfold SliceToPostgresArray.
  assert (Hmap : Quote ∘ EscapeSingleQuotes <$> (utf8 <$> texts) = EscapeSingleQuotes <$> (element <$> texts)).
  { rewrite <- !list_fmap_compose. apply list_fmap_ext. intros i t Ht. apply Quote_Escape.
    exact (Forall_lookup_1 _ _ _ _ Hall Ht). }
  rewrite Hmap, Join_Escape.
  assert (Hbody : cat ["{"; EscapeSingleQuotes (Join (element <$> texts) ","); "}"] = EscapeSingleQuotes ("{" +:+ Join (element <$> texts) "," +:+ "}")).
  { rewrite !Escape_append. done. }
  rewrite Hbody. change (read_array_literal (single_quoted ?x)) with
    ('(body, rest) ← lex_literal_body (x +:+ String SQ ""); if bool_decide (rest = "") then read_array body else None).
  rewrite lex_literal_Escape by done. cbn [mbind option_bind]. rewrite bool_decide_true by done.
  change ("{" +:+ ?x) with (String "{" x). unfold read_array. change (is_byte "{" "{") with true. cbn iota.
  apply read_elements_quoted; [done|done|]. rewrite len_append. pose proof (length_Join_elements texts). lia.
Qed.

(** A character the language prints: the printable part of Latin-1, and what
    Unicode's table says beyond. *)
Definition printable (r : N) : Prop :=
  (32 ≤ r ≤ 126 ∨ 161 ≤ r ≤ 172 ∨ 174 ≤ r ≤ 255)%N ∨ (256 ≤ r)%N ∧ wide_printable r = true.
Lemma printable_IsPrint r : printable r ↔ IsPrint r = true.
Proof.
  unfold printable, IsPrint. destruct (N.leb_spec r 255).
  - rewrite orb_true_iff, !andb_true_iff, negb_true_iff, !N.leb_le, N.ltb_lt, N.eqb_neq. lia.
  - split; [intros [?|[_ ?]]; [lia|done]|]. intros ?. right. split; [lia|done].
Qed.
Lemma kept_printable t : Forall printable t → kept t = utf8 t.
Proof.
  intros Ht. unfold kept, utf8. f_equal. apply list_fmap_ext. intros i r Hr. unfold kept_rune.
  by rewrite (proj1 (printable_IsPrint r) (Forall_lookup_1 _ _ _ _ Ht Hr)).
Qed.

(** C25: The most common values of a column come back as they were, quotes,
    backslashes, empty and international texts and all, if they hold printable
    characters only. Any other character comes back as the letters of the
    escape that the language writes for it, of which the server drops the
    backslash alone: a line break as [n], a no-break space as [u00a0]
    (statistics.go:299). *)
Theorem SliceToPostgresArray_roundtrip (texts : list (list N)) (Hne : texts ≠ []) (Hscalar : Forall (Forall scalar) texts) :
  (Forall (Forall printable) texts → read_array_literal (SliceToPostgresArray (utf8 <$> texts)) = Some (utf8 <$> texts)) ∧
  ∃ values, read_array_literal (SliceToPostgresArray (utf8 <$> texts)) = Some values ∧
    Forall2 (λ t v, ∃ parts, v = cat parts ∧
      Forall2 (λ r part, printable r ∧ part = EncodeRune r ∨ ¬ printable r ∧ part = escape_letters r) t parts) texts values.
Proof.
  rewrite SliceToPostgresArray_read by done. split.
  - intros Hall. f_equal. apply list_fmap_ext. intros i t Ht. apply kept_printable.
    exact (Forall_lookup_1 _ _ _ _ Hall Ht).
  - exists (kept <$> texts). split; [done|]. apply Forall2_fmap_r, Forall_Forall2_diag, Forall_true. intros t.
    exists (kept_rune <$> t). split; [done|]. apply Forall2_fmap_r, Forall_Forall2_diag, Forall_true. intros r.
    cbn. unfold kept_rune. destruct (IsPrint r) eqn:He; [left|right]; (split; [|done]).
    + by apply printable_IsPrint.
    + by intros Hp%printable_IsPrint; rewrite He in Hp.
Qed.
End values.

#[local] Instance sample_print : PrintTable := {| wide_printable r := negb (r =? 12288)%N |}.
(** Quotes and backslashes, an empty text, two letters beyond ASCII, and a line
    break with two kinds of white space. *)
Lemma SliceToPostgresArray_roundtrip_witness :
  let quotes := [105; 116; 39; 115; 32; 97; 34; 92]%N in
  let words := [233; 20013]%N in
  let others := [116; 10; 160; 12288]%N in
  read_array_literal (SliceToPostgresArray (utf8 <$> [quotes; []; words])) = Some (utf8 <$> [quotes; []; words]) ∧
  ∃ values, read_array_literal (SliceToPostgresArray (utf8 <$> [quotes; []; words; others])) = Some values ∧
    Forall2 (λ t v, ∃ parts, v = cat parts ∧
      Forall2 (λ r part, printable r ∧ part = EncodeRune r ∨ ¬ printable r ∧ part = escape_letters r) t parts) [quotes; []; words; others] values.
Proof.
  intros quotes words others. split.
  - apply SliceToPostgresArray_roundtrip; [done|..]; repeat constructor; unfold printable; cbn; lia || (right; done) || (left; lia).
  - apply SliceToPostgresArray_roundtrip; [done|]; repeat constructor; lia.
Defined.
Example other_characters_read :
  read_array_literal (SliceToPostgresArray (utf8 <$> [[116; 10; 160; 12288]%N])) = Some ["tnu00a0u3000"].
Proof. vm_compute. reflexivity. Qed.

(** * The numbers the server reads back *)

Lemma round_div_bound n d : (0 < d → 2 * n ≤ 2 * d * round_div n d + d ∧ 2 * d * round_div n d ≤ 2 * n + d)%N.
Proof.
  intros Hd. unfold round_div. pose proof (N.div_eucl_spec n d) as Hs. pose proof (N.mod_bound_pos n d) as Hm.
  unfold N.modulo in Hm. destruct (N.div_eucl n d) as [q r]. cbn [snd] in Hm. subst n.
  destruct (N.compare_spec (2 * r) d); [destruct (N.even q)| |]; nia.
Qed.

Definition value_sign (negative : bool) (n : N) : Z := if negative then (- Z.of_N n)%Z else Z.of_N n.
Lemma len_zeros n : len (zeros n) = n.
Proof. induction n as [|n IH]; [done|]. cbn. by f_equal. Qed.
Lemma len_padded w s : w ≤ len (padded w s).
Proof. unfold padded. rewrite len_append, len_zeros. lia. Qed.
Lemma no_byte_zeros c n : c ≠ "0"%char → no_byte c (zeros n).
Proof. intros Hc. induction n as [|n IH]; [apply no_byte_Empty|]. by apply no_byte_String. Qed.
Lemma no_byte_padded c w u : no_byte c "0123456789" → no_byte c (padded w (NilZero.string_of_uint u)).
Proof.
  intros Hc. apply no_byte_append. split; [|by apply no_byte_string_of_uint]. apply no_byte_zeros.
  by apply no_byte_String in Hc as [? _].
Qed.
Lemma uint_of_zeros n s u : NilEmpty.uint_of_string s = Some u →
  ∃ v, NilEmpty.uint_of_string (zeros n +:+ s) = Some v ∧ Z.of_uint v = Z.of_uint u.
Proof.
  intros Hs. induction n as [|n (v & Hv & Hval)]; [by exists u|]. exists (Decimal.D0 v). split; [|done].
  cbn [zeros]. rewrite append_String. cbn. by rewrite Hv.
Qed.
Lemma N_to_uint_text n : NilZero.string_of_uint (N.to_uint n) = NilEmpty.string_of_uint (N.to_uint n).
Proof. destruct n as [|p]; [done|]. cbn. by destruct (Pos.to_uint p) eqn:Hp; [apply DecimalPos.Unsigned.to_uint_nonnil in Hp|..]. Qed.
Lemma padded_number w n : 0 < w →
  ∃ v, NilZero.uint_of_string (padded w (NilZero.string_of_uint (N.to_uint n))) = Some v ∧ Z.of_uint v = Z.of_N n.
Proof.
  intros Hw. pose proof (len_padded w (NilZero.string_of_uint (N.to_uint n))) as Hlen. unfold padded in *. rewrite N_to_uint_text in *.
  destruct (uint_of_zeros (w - len (NilEmpty.string_of_uint (N.to_uint n))) _ _ (NilEmpty.usu (N.to_uint n))) as (v & Hv & Hval).
  exists v. split.
  - unfold NilZero.uint_of_string. rewrite Hv. destruct (zeros _ +:+ _) eqn:Hs; [cbn in Hlen; lia|done].
  - rewrite Hval. unfold Z.of_uint. change (Pos.of_uint (N.to_uint n)) with (N.of_uint (N.to_uint n)). by rewrite DecimalN.Unsigned.of_to.
Qed.
Lemma split_at k s : k ≤ len s → ∃ i f, s = i +:+ f ∧ len i = k.
Proof.
  revert k. induction s as [|c s IH]; intros [|k] Hk; [by exists "", ""| |by exists "", (String c s)|].
  { change (S k ≤ 0) in Hk. lia. }
  change (S k ≤ S (len s)) in Hk. destruct (IH k) as (i & f & -> & <-); [lia|].
  by exists (String c i), f.
Qed.
Lemma substring_end i f : String.substring (len i) (len f) (i +:+ f) = f.
Proof. pose proof (substring_middle i f "") as H. by rewrite append_nil_r in H. Qed.
Lemma substring_first a b : String.substring 0 (len a) (a +:+ b) = a.
Proof. exact (substring_middle "" a b). Qed.

Lemma ParseFloat_text (negative : bool) (i f : string) (v : Decimal.uint) : i ≠ "" → no_byte DASH i → no_byte (byte 43) i → no_byte "N" i → no_byte DOT i →
  NilZero.uint_of_string (i +:+ f) = Some v →
  ParseFloat (cat [if negative then "-" else ""; i; "."; f]) = Some (Decimal (if negative then - Z.of_uint v else Z.of_uint v)%Z (len f)).
Proof.
  intros Hi Hdash Hplus Hn Hdot Hv.
  assert (Hbody : digits_of negative i f = Some (Decimal (if negative then - Z.of_uint v else Z.of_uint v)%Z (len f))).
  { unfold digits_of. rewrite bool_decide_false by (destruct i; [done|by rewrite append_String]). by rewrite Hv. }
  destruct i as [|c i]; [done|]. cbn [cat foldr]. rewrite append_nil_r, (append_String "."), append_Empty.
  unfold ParseFloat. destruct negative.
  - rewrite append_String, append_Empty, bool_decide_false by done. rewrite bool_decide_true by done.
    rewrite SplitN2_app by done. exact Hbody.
  - apply no_byte_String in Hdash as [? _], Hplus as [? _], Hn as [? _]. rewrite append_Empty, append_String.
    rewrite bool_decide_false by congruence. rewrite (bool_decide_false (c = DASH)) by congruence.
    rewrite (bool_decide_false (c = byte 43)) by congruence. rewrite <- append_String, SplitN2_app by done. exact Hbody.
Qed.

(** A number of the statistics is written as its nearest millionth: the
    text reads back as a decimal of six places, the value exactly where the
    number is an integer, and off by at most half a millionth otherwise
    (statistics.go:79). *)
Theorem percent_f_rounded (negative : bool) (m : N) (e : Z) :
  ∃ n, ParseFloat (percent_f (Finite negative m e)) = Some (Decimal (value_sign negative n) 6) ∧
    if (0 <=? e)%Z then n = (m * 2 ^ Z.to_N e * 10 ^ 6)%N
    else (2 * (m * 10 ^ 6) ≤ 2 * 2 ^ Z.to_N (- e) * n + 2 ^ Z.to_N (- e) ∧
          2 * 2 ^ Z.to_N (- e) * n ≤ 2 * (m * 10 ^ 6) + 2 ^ Z.to_N (- e))%N.
Proof.
  exists (millionths m e). split.
  2:{ unfold millionths. destruct (0 <=? e)%Z; [lia|]. change (10 ^ 6)%N with 1000000%N. apply round_div_bound.
      apply N.neq_0_lt_0, N.pow_nonzero. lia. }
  unfold percent_f. set (digits := padded 7 _).
  assert (Hlen : 7 ≤ len digits) by apply len_padded.
  assert (Hplain : ∀ c, no_byte c "0123456789" → no_byte c digits) by (intros c; apply no_byte_padded).
  destruct (padded_number 7 (millionths m e)) as (v & Hv & Hval); [lia|]. fold digits in Hv.
  destruct (split_at (len digits - 6) digits) as (i & f & Hd & Hi); [lia|]. clearbody digits. subst digits.
  rewrite len_append in Hlen, Hi. rewrite len_append. rewrite <- Hi. replace 6 with (len f) by lia. rewrite substring_first, substring_end.
  assert (Hfirst : ∀ c, no_byte c "0123456789" → no_byte c i) by (intros c Hc; by apply Hplain, no_byte_append in Hc as [? _]).
  replace (value_sign negative (millionths m e)) with (if negative then - Z.of_uint v else Z.of_uint v)%Z by (rewrite Hval; by destruct negative).
  apply ParseFloat_text; [intros ->; change (len "") with 0 in *; lia|..|done]; apply Hfirst; by apply (bool_decide_unpack _).
Qed.
