(* ===== verification/Dependents.v ===== *)
(** The objects that depend on one another ([meta/builtin/dependencies.go]): the
    queries for their dependencies, and the printing of the sorted objects with
    their metadata. *)
From S2P Require Import Prelude Regexp Utils Toc Version Scheduler SkipExisting Dependencies Queries Acl Functions Types Operators Externals Relations.

(** * The objects *)

(** The types that implement the interface [Sortable] and are collected. *)
Inductive object :=
| OBaseType (t : BaseType) | OCompositeType (t : CompositeType) | ODomain (t : Domain) | ORangeType (t : RangeType)
| OFunction (f : Function_) | OTable (t : Table) | OProtocol (p : ExternalProtocol) | OView (v : View)
| OParser (t : TextSearchParser) | OConfiguration (t : TextSearchConfiguration) | OTemplate (t : TextSearchTemplate)
| ODictionary (t : TextSearchDictionary) | OOperator (o : Operator) | OOperatorClass (o : OperatorClass) | OAggregate (a : Aggregate)
| OCast (c : Cast) | OWrapper (f : ForeignDataWrapper) | OServer (s : ForeignServer) | OMapping (u : UserMapping)
| OConstraint (c : Constraint) | OTransform (t : Transform).

Definition object_id (o : object) : UniqueID :=
  match o with
  | OBaseType t => BaseType_id t | OCompositeType t => CompositeType_id t | ODomain t => Domain_id t | ORangeType t => RangeType_id t
  | OFunction f => Function_id f | OTable t => Table_id t | OProtocol p => ExternalProtocol_id p | OView v => View_id v
  | OParser t => TextSearchParser_id t | OConfiguration t => TextSearchConfiguration_id t | OTemplate t => TextSearchTemplate_id t
  | ODictionary t => TextSearchDictionary_id t | OOperator o => Operator_id o | OOperatorClass o => OperatorClass_id o
  | OAggregate a => Aggregate_id a | OCast c => Cast_id c | OWrapper f => ForeignDataWrapper_id f | OServer s => ForeignServer_id s
  | OMapping u => UserMapping_id u | OConstraint c => Constraint_id c | OTransform t => Transform_id t
  end.
Definition object_name (o : object) : string :=
  match o with
  | OBaseType t => BaseType_FQN t | OCompositeType t => CompositeType_FQN t | ODomain t => Domain_FQN t | ORangeType t => RangeType_FQN t
  | OFunction f => Function_FQN f | OTable t => Table_FQN t | OProtocol p => pr_Name p | OView v => View_FQN v
  | OParser t => TextSearchParser_FQN t | OConfiguration t => TextSearchConfiguration_FQN t | OTemplate t => TextSearchTemplate_FQN t
  | ODictionary t => TextSearchDictionary_FQN t | OOperator o => Operator_FQN o | OOperatorClass o => OperatorClass_FQN o
  | OAggregate a => Aggregate_FQN a | OCast c => Cast_FQN c | OWrapper f => fdw_Name f | OServer s => fs_Name s
  | OMapping u => UserMapping_FQN u | OConstraint c => con_Name c | OTransform t => Transform_FQN t
  end.
#[export] Instance object_sortable : Sortable object := {| sortable_FQN := object_name; GetUniqueID := object_id |}.

(** * The queries for the dependencies *)

Definition GetDependencies_query : string := "
SELECT
	coalesce(id1.refclassid, d.classid) AS classid,
	coalesce(id1.refobjid, d.objid) AS objid,
	coalesce(id2.refclassid, d.refclassid) AS refclassid,
	coalesce(id2.refobjid, d.refobjid) AS refobjid
FROM pg_depend d
-- link implicit objects, using objid and refobjid, to the objects that created them
LEFT JOIN pg_depend id1 ON (d.objid = id1.objid and d.classid = id1.classid and id1.deptype='i')
LEFT JOIN pg_depend id2 ON (d.refobjid = id2.objid and d.refclassid = id2.classid and id2.deptype='i')
WHERE d.classid != 0
AND d.deptype != 'i'
UNION
-- this converts function dependencies on array types to the underlying type
-- this is needed because pg_depend in 4.3.x doesn't have the info we need
SELECT
	d.classid,
	d.objid,
	d.refclassid,
	t.typelem AS refobjid
FROM pg_depend d
JOIN pg_type t ON d.refobjid = t.oid
WHERE d.classid = 'pg_proc'::regclass::oid
AND typelem != 0".
Definition synthConstrDepQuery : string := "
			WITH constr_cte AS (
                SELECT
                    dep.refobjid,
                    con.conname,
                    con.connamespace
                FROM
                    pg_depend dep
                    INNER JOIN pg_constraint con ON dep.objid = con.oid
					INNER JOIN pg_class cls ON dep.refobjid = cls.oid
                WHERE
                    dep.refobjid IN (%s)
					AND cls.relkind in ('r','p', 'f')
					AND dep.deptype = 'n'
                )
              SELECT
                  'pg_constraint'::regclass::oid AS ClassID,
                  con.oid AS ObjID,
                  'pg_class'::regclass::oid AS RefClassID,
                  constr_cte.refobjid AS RefObjID
              FROM
                  pg_constraint con
                  INNER JOIN constr_cte
					ON con.conname = constr_cte.conname
					AND con.connamespace = constr_cte.connamespace
              WHERE
                  con.conislocal = true;".
(** Constraints of a parent table are made to wait for its children. *)
Definition dependency_rows `{SemverLib} `{Selects SortableDependency} (version : GPDBVersion) (tables : list Table) : go (list SortableDependency) :=
  let! pgDependDeps := select_rows (A := SortableDependency) GetDependencies_query in
  let! v7 := gpdb_or_family version "7" in
  let! syntheticConstraintDeps := (if (v7 : bool) && negb (bool_decide (tables = [])) then
    select_rows (A := SortableDependency) (Sprintf synthConstrDepQuery [Join ((λ t, Itoa (r_Oid (t_Relation t))) <$> tables) ", "]) else Ok []) in
  Ok (pgDependDeps ++ syntheticConstraintDeps).

(** The protocols of external tables, which the catalogue of version 4 does not
    link; the location is cut before its first ["://"]. *)
Definition protocol_step (protocolMap : gmap string UniqueID) (depMap : DependencyMap) (table : Table) : go DependencyMap :=
  let location := Location (ExtTableDef (t_Definition table)) in
  if NS_Valid location && non_empty (NS_String location) then
    match Index (NS_String location) "://" with
    | None => Panic "slice bounds out of range [:-1]"
    | Some i =>
        Ok (match protocolMap !! String.substring 0 i (NS_String location) with
            | Some protocolEntry => add_dependency depMap (Table_id table) protocolEntry
            | None => depMap
            end)
    end
  else Ok depMap.
Definition AddProtocolDependenciesForGPDB4 (depMap : DependencyMap) (tables : list Table) (protocols : list ExternalProtocol) : go DependencyMap :=
  let protocolMap := foldl (λ m p, <[pr_Name p := ExternalProtocol_id p]> m) ∅ protocols in
  go_fold (protocol_step protocolMap) depMap tables.

(** [createBackupSet] of [objects], and the dependencies a sort respects, from
    the rows of the queries. *)
Definition createBackupSet (objSlice : list object) : gset UniqueID := list_to_set (GetUniqueID <$> objSlice).
Definition relevant_dependencies `{SemverLib} `{MapRange} (version : GPDBVersion) (rows : list SortableDependency) (sortables : list object)
    (tables : list Table) (protocols : list ExternalProtocol) (tableOnly : bool) : go DependencyMap :=
  let relevantDeps := GetDependencies rows (createBackupSet sortables) in
  let! v4 := gpdb_is version "4" in
  if (v4 : bool) && negb tableOnly then AddProtocolDependenciesForGPDB4 relevantDeps tables protocols else Ok relevantDeps.

(** * Printing *)

Definition add_constraint (m : gmap string (list Constraint)) (c : Constraint) : gmap string (list Constraint) :=
  <[OwningObject c := default [] (m !! OwningObject c) ++ [c]]> m.

Section printing.
Context `{SemverLib} `{FloatText} `{MapRange} `{SortSlice} (env : print_env).
Context (domainConMap : gmap string (list Constraint)) (funcInfoMap : FunctionInfoMap).

(** The type switch on one object, with its metadata. *)
Definition print_dependent (o : object) (objMetadata : ObjectMetadata) : go (list piece) :=
  match o with
  | OBaseType t => PrintCreateBaseTypeStatement env t objMetadata
  | OCompositeType t => PrintCreateCompositeTypeStatement env t objMetadata
  | ODomain t => PrintCreateDomainStatement env t objMetadata (default [] (domainConMap !! Domain_FQN t))
  | ORangeType t => PrintCreateRangeTypeStatement env t objMetadata
  | OFunction f => PrintCreateFunctionStatement env f objMetadata
  | OTable t => PrintCreateTableStatement env t objMetadata
  | OProtocol p => PrintCreateExternalProtocolStatement env p funcInfoMap objMetadata
  | OView v => PrintCreateViewStatement env v objMetadata
  | OParser t => PrintCreateTextSearchParserStatement env t objMetadata
  | OConfiguration t => PrintCreateTextSearchConfigurationStatement env t objMetadata
  | OTemplate t => PrintCreateTextSearchTemplateStatement env t objMetadata
  | ODictionary t => PrintCreateTextSearchDictionaryStatement env t objMetadata
  | OOperator o => PrintCreateOperatorStatement env o objMetadata
  | OOperatorClass o => PrintCreateOperatorClassStatement env o objMetadata
  | OAggregate a => PrintCreateAggregateStatement env a funcInfoMap objMetadata
  | OCast c => PrintCreateCastStatement env c objMetadata
  | OWrapper f => PrintCreateForeignDataWrapperStatement env f funcInfoMap objMetadata
  | OServer s => PrintCreateServerStatement env s objMetadata
  | OMapping u => Ok (PrintCreateUserMappingStatement u)
  | OConstraint c => PrintConstraintStatement env c objMetadata
  | OTransform t => PrintCreateTransformStatement env t funcInfoMap objMetadata
  end.

(** One round of the loop: the metadata of an object is removed once it is
    printed. *)
Definition dependent_step (st : list piece * MetadataMap) (o : object) : go (list piece * MetadataMap) :=
  let '(printed, metadataMap) := st in
  let! more := print_dependent o (metadata_of metadataMap (GetUniqueID o)) in
  Ok (printed ++ more, delete (GetUniqueID o) metadataMap).
End printing.

Definition PrintDependentObjectStatements `{SemverLib} `{FloatText} `{MapRange} `{SortSlice} (env : print_env) (objects : list object)
    (metadataMap : MetadataMap) (domainConstraints : list Constraint) (funcInfoMap : FunctionInfoMap) : go (list piece) :=
  let domainConMap := foldl add_constraint ∅ domainConstraints in
  let! (printed, metadataMap) := go_fold (dependent_step env domainConMap funcInfoMap) ([], metadataMap) objects in
  Ok (printed ++ printExtensionFunctionACLs env metadataMap funcInfoMap).

(** * The pieces are known to the table of contents *)

Section known_printers.
Context `{SemverLib} `{FloatText} `{MapRange} `{SortSlice} (env : print_env).

Lemma known_print_dependent domainConMap funcInfoMap o m : Known (print_dependent env domainConMap funcInfoMap o m).
Proof. destruct o; cbn [print_dependent]; auto 3 with pieces. Qed.
Lemma known_PrintDependentObjectStatements objects m cons infos : Known (PrintDependentObjectStatements env objects m cons infos).
Proof.
  intros ps Hps. unfold PrintDependentObjectStatements in Hps. apply bind_Ok in Hps as ([printed m'] & Hfold & [= <-]).
  apply Forall_app. split; [|apply known_extension_acls].
  assert (Hgen : ∀ l st st', go_fold (dependent_step env (foldl add_constraint ∅ cons) infos) st l = Ok st' →
    Forall sound_piece st.1 → Forall sound_piece st'.1).
  { induction l as [|o l IH]; intros st st' Hrun Hst; cbn [go_fold] in Hrun; [by injection Hrun as <-|].
    apply bind_Ok in Hrun as (st1 & Hstep & Hrun). apply (IH _ _ Hrun). unfold dependent_step in Hstep. destruct st as [p mm].
    apply bind_Ok in Hstep as (more & Hmore & [= <-]). apply Forall_app. split; [done|]. by eapply known_print_dependent. }
  by apply (Hgen _ _ _ Hfold).
Qed.
End known_printers.
#[export] Hint Resolve known_PrintDependentObjectStatements : pieces.

(** * Every object is printed once, with its metadata, after what it depends on *)

Section printed.
Context `{SemverLib} `{FloatText} `{MapRange} `{SortSlice} (env : print_env).

(** The objects a printer has not met. *)
Definition left_over (metadataMap : MetadataMap) (objects : list object) : MetadataMap :=
  filter (λ e, e.1 ∉ GetUniqueID <$> objects) metadataMap.
Lemma left_over_cons m o l : left_over (delete (GetUniqueID o) m) l = left_over m (o :: l).
Proof.
  apply map_eq. intros u. unfold left_over. apply option_eq. intros x. rewrite !map_lookup_filter_Some, fmap_cons, not_elem_of_cons. cbn [fst].
  destruct (decide (u = GetUniqueID o)) as [->|Hne]; [rewrite lookup_delete_eq; naive_solver|rewrite lookup_delete_ne by done; naive_solver].
Qed.
Lemma dependent_steps domainConMap infos m0 objects ps m ps' m' : NoDup (GetUniqueID <$> objects) →
  (∀ u, u ∈ GetUniqueID <$> objects → m !! u = m0 !! u) →
  go_fold (dependent_step env domainConMap infos) (ps, m) objects = Ok (ps', m') →
  ∃ parts, Forall2 (λ o p, print_dependent env domainConMap infos o (metadata_of m0 (GetUniqueID o)) = Ok p) objects parts ∧
    ps' = ps ++ concat parts ∧ m' = left_over m objects.
Proof.
  revert ps m. induction objects as [|o objects IH]; intros ps m Hnd Hm Hrun; cbn [go_fold] in Hrun.
  - injection Hrun as <- <-. exists []. split_and!; [constructor|by rewrite app_nil_r|].
    symmetry. apply map_filter_id. intros u x _. apply not_elem_of_nil.
  - rewrite fmap_cons in Hnd, Hm. apply NoDup_cons in Hnd as [Ho Hnd]. apply bind_Ok in Hrun as ([ps1 m1] & Hstep & Hrun).
    unfold dependent_step in Hstep. apply bind_Ok in Hstep as (more & Hmore & [= <- <-]).
    destruct (IH (ps ++ more) (delete (GetUniqueID o) m) Hnd) as (parts & Hparts & -> & ->); [|exact Hrun|].
    { intros u Hu. rewrite lookup_delete_ne; [apply Hm; by constructor|]. intros Heq. apply Ho. by rewrite Heq. }
    exists (more :: parts). split_and!; [|cbn [concat]; by rewrite app_assoc|apply left_over_cons].
    constructor; [|done]. unfold metadata_of in *. by rewrite <- (Hm (GetUniqueID o)) by constructor.
Qed.

(** The part of [backupDependentObjects] from the rows of the dependencies to
    the statements. *)
Definition dependent_statements (rows : list SortableDependency) (sortables : list object) (tables : list Table)
    (protocols : list ExternalProtocol) (tableOnly : bool) (metadataMap : MetadataMap)
    (domainConstraints : list Constraint) (funcInfoMap : FunctionInfoMap) : go (list piece) :=
  let! relevantDeps := relevant_dependencies (srcDBVersion env) rows sortables tables protocols tableOnly in
  let! sortedSlice := TopologicalSort relevantDeps sortables in
  PrintDependentObjectStatements env sortedSlice metadataMap domainConstraints funcInfoMap.
End printed.

Lemma known_dependent_statements `{SemverLib} `{FloatText} `{MapRange} `{SortSlice} env rows objects tables protocols b m cons infos :
  Known (dependent_statements env rows objects tables protocols b m cons infos).
Proof. unfold dependent_statements. auto 6 with pieces. Qed.
#[export] Hint Resolve known_dependent_statements : pieces.

(** * What an object depends on *)

(** A row of the catalogue says so. *)
Definition recorded_dependency (rows : list SortableDependency) (o r : UniqueID) : Prop :=
  o ≠ r ∧ {| dep_ClassID := ClassID o; dep_ObjID := uid_Oid o; dep_RefClassID := ClassID r; dep_RefObjID := uid_Oid r |} ∈ rows.
(** [o] is a function and [r] a type that refers back to it. *)
Definition mutual (rows : list SortableDependency) (o r : UniqueID) : Prop :=
  ClassID o = 1255%Z ∧ ClassID r = 1247%Z ∧ recorded_dependency rows r o.
(** [o] is an external table whose location names the protocol [r]. *)
Definition uses_protocol (tables : list Table) (protocols : list ExternalProtocol) (o r : UniqueID) : Prop :=
  ∃ t p rest, t ∈ tables ∧ o = Table_id t ∧ p ∈ protocols ∧ r = ExternalProtocol_id p ∧ (":"%char ∉ bytes (pr_Name p)) ∧
    Location (ExtTableDef (t_Definition t)) = {| NS_Valid := true; NS_String := cat [pr_Name p; "://"; rest] |}.

Lemma dependency_step_depends backupSet m row o r : depends m o r → depends (dependency_step backupSet m row) o r.
Proof.
  intros Hd. unfold dependency_step. destruct (_ || _); [done|]. by apply add_dependency_more.
Qed.
Lemma dependency_rows_depend rows (backupSet : gset UniqueID) m o r : o ∈ backupSet → r ∈ backupSet →
  recorded_dependency rows o r ∨ depends m o r → depends (foldl (dependency_step backupSet) m rows) o r.
Proof.
  intros Ho Hr. revert m. induction rows as [|row rows IH]; intros m Hd; cbn [foldl].
  { destruct Hd as [[_ Hin]|Hd]; [by apply elem_of_nil in Hin|done]. }
  apply IH. destruct Hd as [[Hne Hin]|Hd]; [|right; by apply dependency_step_depends].
  apply elem_of_cons in Hin as [<-|Hin]; [right|by left]. unfold dependency_step. cbn [dep_ClassID dep_ObjID dep_RefClassID dep_RefObjID].
  destruct o as [oc oi], r as [rc ri]. rewrite (bool_decide_false _ Hne), (bool_decide_true _ Ho), (bool_decide_true _ Hr). apply add_dependency_new.
Qed.

(** The map holds no dependency that no row gave. *)
Lemma dependency_rows_only rows (backupSet : gset UniqueID) m o r :
  depends (foldl (dependency_step backupSet) m rows) o r → recorded_dependency rows o r ∨ depends m o r.
Proof.
  revert m. induction rows as [|row rows IH]; intros m Hd; cbn [foldl] in Hd; [by right|].
  destruct (IH _ Hd) as [[Hne Hin]|Hd']; [left; split; [done|by constructor]|].
  unfold dependency_step in Hd'. case_bool_decide as Heq; [by right|]. cbn [orb] in Hd'. destruct (_ || _); [by right|].
  apply add_dependency_inv in Hd' as [[-> ->]|Hd']; [left|by right]. split; [done|]. destruct row. cbn. by constructor.
Qed.

Lemma GetDependencies_rows `{MapRange} rows (backupSet : gset UniqueID) o r : o ∈ backupSet → r ∈ backupSet →
  recorded_dependency rows o r → ¬ mutual rows o r → depends (GetDependencies rows backupSet) o r.
Proof.
  intros Ho Hr Hrec Hmut. unfold GetDependencies.
  destruct (breakCircularDependencies_exact (foldl (dependency_step backupSet) ∅ rows) o r) as [Hexact _]. apply Hexact. split.
  - apply dependency_rows_depend; auto.
  - intros (Hc & Hf & Hback). apply Hmut. split_and!; [done..|].
    apply dependency_rows_only in Hback as [Hback|(s & Hs & _)]; [done|]. unfold DependencyMap in Hs. by rewrite lookup_empty in Hs.
Qed.

(** ** The protocols *)

Lemma protocol_map_lookup protocols p (m : gmap string UniqueID) : NoDup (pr_Name <$> protocols) → p ∈ protocols →
  foldl (λ m p, <[pr_Name p := ExternalProtocol_id p]> m) m protocols !! pr_Name p = Some (ExternalProtocol_id p).
Proof.
  induction protocols as [|q l IH] using rev_ind; intros Hnd Hp; [by apply elem_of_nil in Hp|].
  rewrite foldl_app. cbn [foldl]. rewrite fmap_app in Hnd. apply NoDup_app in Hnd as (Hnd & Hdis & _).
  apply elem_of_app in Hp as [Hp|Hp%list_elem_of_singleton]; [|subst q; apply lookup_insert_eq].
  rewrite lookup_insert_ne; [by apply IH|]. intros Heq. apply (Hdis (pr_Name p)); [by apply list_elem_of_fmap_2|].
  apply list_elem_of_singleton. by rewrite Heq.
Qed.

Lemma prefix_char c s sub : String.prefix (String c sub) s = true → ∃ s', s = String c s'.
Proof. destruct s as [|d s]; cbn; [done|]. destruct (ascii_dec c d) as [->|]; [by exists s|done]. Qed.
Lemma prefix_append s t : String.prefix s (s +:+ t) = true.
Proof.
  induction s as [|c s IH]; [by destruct t|]. change (String c s +:+ t) with (String c (s +:+ t)). cbn [String.prefix].
  by destruct (ascii_dec c c).
Qed.
Lemma substring_append s t : String.substring 0 (len s) (s +:+ t) = s.
Proof. exact (substring_middle "" s t). Qed.

(** The first mark follows a name without colons. *)
Lemma Index_mark name rest : ":"%char ∉ bytes name → Index (name +:+ "://" +:+ rest) "://" = Some (len name).
Proof.
  induction name as [|c name IH]; intros Hc.
  - destruct rest; cbn; done.
  - cbn [bytes String.list_ascii_of_string] in Hc. apply not_elem_of_cons in Hc as [Hne Hc].
    change (String c name +:+ "://" +:+ rest) with (String c (name +:+ "://" +:+ rest)). cbn [Index].
    destruct (String.prefix "://" (String c (name +:+ "://" +:+ rest))) eqn:Hp; [|by rewrite IH].
    apply prefix_char in Hp as [s' Hs]. by injection Hs as ->.
Qed.

Lemma protocol_step_more protocolMap m t m' o r : protocol_step protocolMap m t = Ok m' → depends m o r → depends m' o r.
Proof.
  unfold protocol_step. destruct (_ && _); [|by intros [= <-]]. destruct (Index _ _); [|done].
  destruct (protocolMap !! _); intros [= <-]; [|done]. apply add_dependency_more.
Qed.
Lemma protocols_more protocolMap tables m m' o r : go_fold (protocol_step protocolMap) m tables = Ok m' → depends m o r → depends m' o r.
Proof.
  revert m. induction tables as [|t tables IH]; intros m Hrun Hd; cbn [go_fold] in Hrun; [by injection Hrun as <-|].
  apply bind_Ok in Hrun as (m1 & H1 & Hrun). apply (IH m1); [done|]. by eapply protocol_step_more.
Qed.
Lemma AddProtocol_uses tables protocols m m' o r : NoDup (pr_Name <$> protocols) → uses_protocol tables protocols o r →
  AddProtocolDependenciesForGPDB4 m tables protocols = Ok m' → depends m' o r.
Proof.
  intros Hnd (t & p & rest & Ht & -> & Hp & -> & Hcolon & Hloc). unfold AddProtocolDependenciesForGPDB4.
  pose proof (protocol_map_lookup protocols p ∅ Hnd Hp) as Hlook. set (pm := foldl _ _ _) in *. clearbody pm. revert m.
  induction tables as [|t' tables IH]; intros m Hrun; [by apply elem_of_nil in Ht|]. cbn [go_fold] in Hrun.
  apply bind_Ok in Hrun as (m1 & H1 & Hrun). apply elem_of_cons in Ht as [<-|Ht]; [|by apply (IH Ht m1)].
  apply (protocols_more _ _ _ _ _ _ Hrun). unfold protocol_step in H1. rewrite Hloc in H1. cbn [NS_Valid NS_String] in H1.
  change (cat [pr_Name p; "://"; rest]) with (pr_Name p +:+ "://" +:+ cat [rest]) in H1.
  rewrite Index_mark, substring_append, Hlook in H1 by done.
  assert (Hne : non_empty (pr_Name p +:+ "://" +:+ cat [rest]) = true) by (by destruct (pr_Name p)).
  rewrite Hne in H1. injection H1 as <-. apply add_dependency_new.
Qed.

Section in_order.
Context `{SemverLib} `{FloatText} `{MapRange} `{SortSlice} (env : print_env).

(** C9: Every object of a copy is printed exactly once, with its own metadata,
    whatever order the objects were collected in, and behind every object it
    depends on: behind each object a row of the catalogue names for it, unless
    it is a function and that object a type that refers back to the function,
    which then comes behind it; and, on a server of version 4, where the
    catalogue has no such row, an external table behind the protocol its
    location names. The metadata that is left belongs to no object printed
    (extract_helper.go:457, dependencies.go:23, dependencies.go:157). *)
Theorem dependent_objects_in_order (rows : list SortableDependency) (sortables : list object) (tables : list Table)
    (protocols : list ExternalProtocol) (tableOnly v4 : bool) (metadataMap : MetadataMap)
    (domainConstraints : list Constraint) (funcInfoMap : FunctionInfoMap) (ps : list piece)
    (Hdistinct : NoDup (GetUniqueID <$> sortables)) (Hnames : NoDup (pr_Name <$> protocols))
    (Hv4 : gpdb_is (srcDBVersion env) "4" = Ok v4)
    (Hrun : dependent_statements env rows sortables tables protocols tableOnly metadataMap domainConstraints funcInfoMap = Ok ps) :
  ∃ sorted parts, sorted ≡ₚ sortables ∧
    (∀ before o behind r, sorted = before ++ o :: behind → r ∈ sortables →
      (recorded_dependency rows (GetUniqueID o) (GetUniqueID r) ∧ ¬ mutual rows (GetUniqueID o) (GetUniqueID r)) ∨
      (v4 = true ∧ tableOnly = false ∧ uses_protocol tables protocols (GetUniqueID o) (GetUniqueID r)) →
      r ∈ before) ∧
    Forall2 (λ o p, print_dependent env (foldl add_constraint ∅ domainConstraints) funcInfoMap o
                      (metadata_of metadataMap (GetUniqueID o)) = Ok p) sorted parts ∧
    ps = concat parts ++ printExtensionFunctionACLs env (left_over metadataMap sorted) funcInfoMap.
Proof.
  apply bind_Ok in Hrun as (relevantDeps & Hdeps & Hrun). apply bind_Ok in Hrun as (sorted & Hsort & Hprint).
  apply TopologicalSort_Ok in Hsort as [Hperm Htopo]; [|done]. apply bind_Ok in Hprint as ([printed m'] & Hfold & [= <-]).
  apply (dependent_steps env _ _ metadataMap) in Hfold as (parts & Hparts & -> & ->); [|by rewrite Hperm|done].
  exists sorted, parts. split_and!; [done| |done|done]. intros before o behind r Hsorted Hr Hneeds.
  assert (Ho : o ∈ sortables) by (rewrite <- Hperm, Hsorted; set_solver).
  assert (Hdep : depends relevantDeps (GetUniqueID o) (GetUniqueID r)).
  { unfold relevant_dependencies in Hdeps. rewrite Hv4 in Hdeps. cbn [mbind go_bind] in Hdeps. destruct Hneeds as [[Hrec Hmut]|(-> & -> & Huses)].
    - assert (Hd : depends (GetDependencies rows (createBackupSet sortables)) (GetUniqueID o) (GetUniqueID r)).
      { apply GetDependencies_rows; [| |done|done]; unfold createBackupSet; rewrite elem_of_list_to_set; by apply list_elem_of_fmap_2. }
      destruct (v4 && negb tableOnly); [by eapply protocols_more|by injection Hdeps as <-].
    - cbn [andb negb] in Hdeps. by eapply AddProtocol_uses. }
  destruct Hdep as (s & Hs & Hin). pose proof (Htopo before o behind Hsorted) as Hsub. rewrite Hs in Hsub. cbn [default] in Hsub.
  apply Hsub in Hin. rewrite elem_of_list_to_set in Hin. apply list_elem_of_fmap in Hin as (z & Hz & Hzin).
  assert (z = r) as <-; [|done]. apply (same_item sortables); [done| |done|done]. rewrite <- Hperm, Hsorted. set_solver.
Qed.
End in_order.

(** * External partitions *)

(** A partition that is an external table is listed twice for a server of
    version 7 or later, and the copy of its database then stops: the objects,
    whatever they are, cannot be sorted as soon as the partition depends on one
    of them, such as its parent (predata_relations.go:51, dependencies.go:136). *)
Theorem external_leaf_stops_copy `{SemverLib} `{MapRange} (env : print_env) (tables metadataTables dataTables : list Table) (t : Table)
    (before after : list object) (dependencies : DependencyMap)
    (Hv7 : gpdb_or_family (srcDBVersion env) "7" = Ok true)
    (Ht : t ∈ tables) (Hext : IsExternal (t_Definition t) = true) (Hleaf : Level (t_PartitionLevelInfo (t_Definition t)) = "l")
    (Hsplit : SplitTablesByPartitionType env tables = Ok (metadataTables, dataTables))
    (Hdeps : default ∅ (dependencies !! Table_id t) ≠ ∅) :
  TopologicalSort dependencies (before ++ (OTable <$> metadataTables) ++ after) =
  Fatal "Dependency resolution failed. This is a bug, please report.".
Proof.
  unfold SplitTablesByPartitionType in Hsplit. rewrite Hv7 in Hsplit. apply bind_Ok in Hsplit as (before7 & _ & Hsplit).
  cbn [mbind go_bind] in Hsplit. apply bind_Ok in Hsplit as (parts & Hparts & [= <- _]). apply go_map_Ok in Hparts.
  apply list_elem_of_split in Ht as (ta & tb & ->). apply Forall2_app_inv_l in Hparts as (pa & pb' & _ & Hparts & ->).
  apply Forall2_cons_inv_l in Hparts as ([m d] & pb & Hm & _ & ->).
  assert (∃ t', m = [t'; t'] ∧ Table_id t' = Table_id t) as (t' & -> & Hid).
  { unfold split_by_type in Hm. rewrite Hext, Hleaf in Hm. change (true && bool_decide ("l" = "l")) with true in Hm. cbn [when andb orb] in Hm.
    destruct before7; cbn [mbind go_bind] in Hm; [|injection Hm as <- _; by exists t].
    apply bind_Ok in Hm as (t' & Ht' & [= <- _]). apply bind_Ok in Ht' as (name & _ & [= <-]). by exists (rename_table t name). }
  rewrite fmap_app, concat_app. cbn [fmap list_fmap concat fst]. rewrite !fmap_app. cbn [fmap list_fmap app].
  rewrite <- app_assoc, app_assoc. cbn [app].
  apply (TopologicalSort_duplicate_fatal dependencies _ []); [done|]. cbn [GetUniqueID object_sortable object_id]. by rewrite Hid.
Qed.

(** * Instances *)

#[local] Instance sample_float : FloatText := {| float_text _ := "" |}.
(** A table without columns; [level] and [external] as in its definition. *)
Definition sample_table (oid : Z) (name level : string) (external : bool) : Table :=
  {| t_Relation := {| r_SchemaOid := 2200; r_Oid := oid; r_Schema := "public"; r_Name := name |};
     t_Definition := {|
       DistPolicy := "DISTRIBUTED RANDOMLY"; PartDef := ""; PartTemplateDef := ""; StorageOpts := ""; TablespaceName := "";
       ColumnDefs := []; IsExternal := external; ExtTableDef := noExternal;
       t_PartitionLevelInfo := {| pli_Oid := oid; Level := level; RootName := "" |}; TableType := ""; IsUnlogged := false;
       ForeignDef := noForeign; Inherits := []; ReplicaIdentity := ""; PartitionAlteredSchemas := []; AccessMethodName := "";
       PartitionKeyDef := ""; t_AttachPartitionInfo := noAttach; ForceRowSecurity := false |} |}.
Definition with_location (t : Table) (d : ExternalTableDefinition) : Table :=
  let def := t_Definition t in
  {| t_Relation := t_Relation t;
     t_Definition := {|
       DistPolicy := DistPolicy def; PartDef := PartDef def; PartTemplateDef := PartTemplateDef def; StorageOpts := StorageOpts def;
       TablespaceName := TablespaceName def; ColumnDefs := ColumnDefs def; IsExternal := IsExternal def; ExtTableDef := d;
       t_PartitionLevelInfo := t_PartitionLevelInfo def; TableType := TableType def; IsUnlogged := IsUnlogged def;
       ForeignDef := ForeignDef def; Inherits := Inherits def; ReplicaIdentity := ReplicaIdentity def;
       PartitionAlteredSchemas := PartitionAlteredSchemas def; AccessMethodName := AccessMethodName def;
       PartitionKeyDef := PartitionKeyDef def; t_AttachPartitionInfo := t_AttachPartitionInfo def; ForceRowSecurity := ForceRowSecurity def |} |}.

(** On a server of version 4: a table that inherits from another one, an
    external table, and the protocol of its location. *)
Definition sample_env4 : print_env :=
  {| srcDBVersion := gpdb 4; destDBVersion := gpdb 7; ownerMap := ∅; quotedRoleNames := ∅; dest_tablespaces := dest_tablespaces sample_env |}.
Definition sample_protocol : ExternalProtocol :=
  {| pr_Oid := 40; pr_Name := "demo"; pr_Owner := "joe"; Trusted := true; ReadFunction := 50; WriteFunction := 0; pr_Validator := 0 |}.
Definition sample_functions : FunctionInfoMap :=
  {[50%Z := {| fi_Oid := 50; fi_Name := "read"; fi_Schema := "public"; QualifiedName := "public.read"; fi_Arguments := null_string;
               fi_IdentArgs := null_string; IsInternal := false |}]}.
Definition demo_path : NullString := {| NS_Valid := true; NS_String := "demo://path" |}.
Definition sample_location : ExternalTableDefinition :=
  with_uri {| x_Oid := 22; x_Type := READABLE; x_Protocol := None; Location := demo_path; x_ExecLocation := "ALL_SEGMENTS"; FormatType := "t";
     FormatOpts := ""; Command := ""; RejectLimit := 0; RejectLimitType := ""; ErrTableName := ""; ErrTableSchema := ""; LogErrors := false;
     LogErrPersist := false; x_Encoding := "UTF8"; Writable := false; URIs := [] |} demo_path.
Definition sample_child : Table := sample_table 21 "child" "" false.
Definition sample_parent : Table := sample_table 20 "parent" "" false.
Definition sample_external : Table := with_location (sample_table 22 "ext" "" true) sample_location.
Definition sample_sortables : list object := [OTable sample_external; OTable sample_child; OProtocol sample_protocol; OTable sample_parent].
Definition sample_rows : list SortableDependency := [
  {| dep_ClassID := PG_CLASS_OID; dep_ObjID := 21; dep_RefClassID := PG_CLASS_OID; dep_RefObjID := 20 |};
  {| dep_ClassID := PG_CLASS_OID; dep_ObjID := 21; dep_RefClassID := PG_CLASS_OID; dep_RefObjID := 99 |}].
Definition sample_metadata : MetadataMap := {[object_id (OTable sample_child) :=
  {| Privileges := []; ObjectType := "TABLE"; Owner := "joe"; Comment := ""; SecurityLabelProvider := ""; SecurityLabel := "" |}]}.
Definition sample_statements : go (list piece) :=
  dependent_statements sample_env4 sample_rows sample_sortables [sample_external; sample_child; sample_parent] [sample_protocol] false
    sample_metadata [] sample_functions.
Definition sample_printed : list piece := match sample_statements with Ok ps => ps | _ => [] end.

(** All of them collected in the wrong order. *)
Lemma dependent_objects_in_order_witness :
  let tables := [sample_external; sample_child; sample_parent] in
  recorded_dependency sample_rows (Table_id sample_child) (Table_id sample_parent) ∧
  uses_protocol tables [sample_protocol] (Table_id sample_external) (ExternalProtocol_id sample_protocol) ∧
  e_Name ∘ em_entry <$> omap recorded sample_printed = ["demo"; "parent"; "ext"; "child"] ∧
  ∃ sorted parts, sorted ≡ₚ sample_sortables ∧
    (∀ before o behind r, sorted = before ++ o :: behind → r ∈ sample_sortables →
      (recorded_dependency sample_rows (GetUniqueID o) (GetUniqueID r) ∧ ¬ mutual sample_rows (GetUniqueID o) (GetUniqueID r)) ∨
      (true = true ∧ false = false ∧ uses_protocol tables [sample_protocol] (GetUniqueID o) (GetUniqueID r)) →
      r ∈ before) ∧
    Forall2 (λ o p, print_dependent sample_env4 (foldl add_constraint ∅ []) sample_functions o
                      (metadata_of sample_metadata (GetUniqueID o)) = Ok p) sorted parts ∧
    sample_printed = concat parts ++ printExtensionFunctionACLs sample_env4 (left_over sample_metadata sorted) sample_functions.
Proof.
  intros tables. split; [split; [apply (bool_decide_unpack _); vm_compute; exact I|left]|]. split.
  { exists sample_external, sample_protocol, "path". split_and!; [left|reflexivity|left|reflexivity| |reflexivity].
    apply (bool_decide_unpack _). vm_compute. exact I. }
  split; [vm_compute; reflexivity|].
  apply (dependent_objects_in_order sample_env4 sample_rows sample_sortables tables [sample_protocol] false true).
  - apply (bool_decide_unpack _). vm_compute. exact I.
  - apply (bool_decide_unpack _). vm_compute. exact I.
  - vm_compute. reflexivity.
  - vm_compute. reflexivity.
Defined.

Definition sample_env7 : print_env :=
  {| srcDBVersion := gpdb 7; destDBVersion := gpdb 7; ownerMap := ∅; quotedRoleNames := ∅; dest_tablespaces := dest_tablespaces sample_env |}.
Definition sample_root : Table := sample_table 30 "root" "p" false.
Definition sample_leaf : Table := sample_table 31 "leaf" "l" true.

(** A root with one external partition that depends on it. *)
Lemma external_leaf_stops_copy_witness :
  SplitTablesByPartitionType sample_env7 [sample_root; sample_leaf] = Ok ([sample_root; sample_leaf; sample_leaf], [sample_leaf]) ∧
  TopologicalSort {[Table_id sample_leaf := {[Table_id sample_root]}]} ([] ++ (OTable <$> [sample_root; sample_leaf; sample_leaf]) ++ []) =
  Fatal "Dependency resolution failed. This is a bug, please report.".
Proof.
  split; [vm_compute; reflexivity|].
  apply (external_leaf_stops_copy sample_env7 [sample_root; sample_leaf] [sample_root; sample_leaf; sample_leaf] [sample_leaf] sample_leaf).
  - vm_compute. reflexivity.
  - right. left.
  - reflexivity.
  - reflexivity.
  - vm_compute. reflexivity.
  - apply (bool_decide_unpack _). vm_compute. exact I.
Defined.
