(* ===== verification/Extract.v ===== *)
(** The extraction of a database's metadata ([meta/builtin/extract_helper.go] and
    the part of [builtin.go] up to the metadata file): the calls that join the
    queries and the printers, in their order. *)
From S2P Require Import Prelude Regexp Utils Toc Version Options Scheduler SkipExisting Dependencies Queries Acl Functions Types Operators Externals Relations TableQueries FunctionQueries Postdata UniqueIndexes Globals Statistics Dependents.

(** * The connection *)

(** What the source server answers, for every type of row that is scanned. *)
Class Catalogue := {
  cat_metadata :: Selects MetadataQueryStruct; cat_comment :: Selects comment_row; cat_privileges :: Selects DefaultPrivilegesQueryStruct;
  cat_fqn :: Selects FqnStruct; cat_string :: Selects string_row; cat_value :: Selects oid_value; cat_oid :: Selects oid_row;
  cat_relation :: Selects Relation; cat_column :: Selects ColumnDefinition; cat_partition :: Selects partition_detail;
  cat_storage :: Selects storage_row; cat_external :: Selects ExternalTableDefinition; cat_level :: Selects PartitionLevelInfo;
  cat_foreign :: Selects ForeignTableDefinition; cat_inherits :: Selects Dependency; cat_altered :: Selects altered_row;
  cat_keydef :: Selects keydef_row; cat_attach :: Selects AttachPartitionInfo; cat_sequence :: Selects Sequence;
  cat_sequence_definition :: Selects SequenceDefinition; cat_view :: Selects View; cat_protocol :: Selects ExternalProtocol;
  cat_partition_info :: Selects PartitionInfo; cat_function :: Selects Function_; cat_arg :: Selects FuncArg;
  cat_function_info :: Selects FunctionInfo; cat_aggregate :: Selects Aggregate; cat_cast :: Selects Cast;
  cat_extension :: Selects Extension; cat_language :: Selects ProceduralLanguage; cat_transform :: Selects Transform;
  cat_conversion :: Selects Conversion; cat_wrapper :: Selects ForeignDataWrapper; cat_server :: Selects ForeignServer;
  cat_mapping :: Selects UserMapping; cat_statistic :: Selects StatisticExt; cat_base :: Selects BaseType;
  cat_composite :: Selects CompositeType; cat_attribute :: Selects Attribute; cat_domain :: Selects Domain; cat_enum :: Selects EnumType;
  cat_range :: Selects RangeType; cat_shell :: Selects ShellType; cat_collation :: Selects Collation; cat_schema :: Selects Schema;
  cat_constraint :: Selects Constraint; cat_exchanged :: Selects ExchangedPartitionName; cat_access :: Selects AccessMethod;
  cat_operator :: Selects Operators.Operator; cat_family :: Selects OperatorFamily; cat_class :: Selects OperatorClass;
  cat_class_operator :: Selects OperatorClassOperator; cat_class_function :: Selects OperatorClassFunction;
  cat_parser :: Selects TextSearchParser; cat_template :: Selects TextSearchTemplate; cat_dictionary :: Selects TextSearchDictionary;
  cat_config :: Selects config_row; cat_type_mapping :: Selects TypeMapping; cat_token :: Selects ParserTokenType;
  cat_index :: Selects IndexDefinition; cat_partition_column :: Selects partitionColumnResult; cat_rule :: Selects RuleDefinition;
  cat_trigger :: Selects TriggerDefinition; cat_event_trigger :: Selects EventTrigger; cat_policy :: Selects RLSPolicy;
  cat_guc :: Selects SessionGUCs; cat_database :: Selects Database; cat_queue :: Selects ResourceQueue;
  cat_group_before7 :: Selects ResourceGroupBefore7; cat_group_atleast7 :: Selects ResourceGroupAtLeast7; cat_role :: Selects Role;
  cat_time :: Selects TimeConstraint; cat_role_guc :: Selects RoleGUC; cat_member :: Selects RoleMember;
  cat_tablespace :: Selects TablespaceDef; cat_attribute_statistic :: Selects AttributeStatistic;
  cat_tuple_statistic :: Selects TupleStatistic; cat_dependency :: Selects SortableDependency
}.

(** * The state of an extraction *)

(** What has been printed, in order; the objects and the metadata map that the
    calls of [backupPredata] share by reference; the package variables that
    filter the queries and count the objects; the record of skipped tables. *)
Record extraction_state := {
  x_pieces : list piece;
  x_sortables : list object;
  x_metadata : MetadataMap;
  x_filters : filters;
  objectCounts : gmap string Z;
  x_skipped : list SkippedTable
}.
Definition extraction (A : Type) : Type := extraction_state → go (A * extraction_state).
#[export] Instance extraction_ret : MRet extraction := λ A a st, Ok (a, st).
#[export] Instance extraction_bind : MBind extraction := λ A B f m st, let! (a, st) := m st in f a st.

(** A query that needs no more than the filters, and one that may set the
    clause kept with them. *)
Definition asks {A} (q : filters → go A) : extraction A := λ st, let! a := q (x_filters st) in Ok (a, st).
Definition lift {A} (m : go A) : extraction A := asks (λ _, m).
Definition filtered {A} (q : filters → go (A * filters)) : extraction A := λ st,
  let! (a, f) := q (x_filters st) in
  Ok (a, {| x_pieces := x_pieces st; x_sortables := x_sortables st; x_metadata := x_metadata st; x_filters := f;
            objectCounts := objectCounts st; x_skipped := x_skipped st |}).
Definition write (ps : list piece) : extraction () := λ st,
  Ok ((), {| x_pieces := x_pieces st ++ ps; x_sortables := x_sortables st; x_metadata := x_metadata st; x_filters := x_filters st;
             objectCounts := objectCounts st; x_skipped := x_skipped st |}).
Definition print (m : go (list piece)) : extraction () := ps ← lift m; write ps.
Definition collect (objects : list object) : extraction () := λ st,
  Ok ((), {| x_pieces := x_pieces st; x_sortables := x_sortables st ++ objects; x_metadata := x_metadata st; x_filters := x_filters st;
             objectCounts := objectCounts st; x_skipped := x_skipped st |}).
Definition collected_objects : extraction (list object) := λ st, Ok (x_sortables st, st).
Definition addToMetadataMap (newMetadata : MetadataMap) : extraction () := λ st,
  Ok ((), {| x_pieces := x_pieces st; x_sortables := x_sortables st; x_metadata := newMetadata ∪ x_metadata st; x_filters := x_filters st;
             objectCounts := objectCounts st; x_skipped := x_skipped st |}).
Definition collected_metadata : extraction MetadataMap := λ st, Ok (x_metadata st, st).
(** [objectCounts[key] = n] and [objectCounts[key] += n]. *)
Definition update_count (f : Z → Z) (key : string) : extraction () := λ st,
  Ok ((), {| x_pieces := x_pieces st; x_sortables := x_sortables st; x_metadata := x_metadata st; x_filters := x_filters st;
             objectCounts := <[key := f (default 0%Z (objectCounts st !! key))]> (objectCounts st); x_skipped := x_skipped st |}).
Definition set_count (key : string) (n : nat) : extraction () := update_count (λ _, Z.of_nat n) key.
Definition add_count (key : string) (n : nat) : extraction () := update_count (λ m, m + Z.of_nat n)%Z key.

Section extract.
Context `{SemverLib} `{FloatText} `{PrintTable} `{MapRange} `{SortSlice} `{Catalogue} `{FlagSet F} (CmdFlags : F) (env : print_env) (menv : meta_env) (DBName : string).
Local Abbreviation version := (srcDBVersion env).

Definition from_version (n : string) : extraction bool := lift (gpdb_or_family version n).
Definition before_version (n : string) : extraction bool := lift (gpdb_before version n).
Definition object_metadata_of (t : metadata_type) : extraction MetadataMap := asks (λ f, GetMetadataForObjectType version f env t).
Definition object_comments (t : metadata_type) : extraction MetadataMap := asks (λ f, GetCommentsForObjectType version f t).

(** * Tables *)

(** The fields of a table the filter on existing tables reads. *)
Definition meta_table (t : Table) : MetaTable :=
  {| t_Schema := Relations.r_Schema (t_Relation t); t_Name := Relations.r_Name (t_Relation t); t_Level := Level (t_PartitionLevelInfo (t_Definition t));
     t_Inherits := Inherits (t_Definition t); t_IsExternal := IsExternal (t_Definition t) |}.
(** Whether a table is kept depends on these fields alone. *)
Definition drop_existing (tables : list Table) : extraction (list Table) := λ st,
  let! (kept, skipped) := FilterTablesByDestExisting CmdFlags menv (meta_table <$> tables) (x_skipped st) in
  Ok (filter (λ t, meta_table t ∈ kept) tables,
      {| x_pieces := x_pieces st; x_sortables := x_sortables st; x_metadata := x_metadata st; x_filters := x_filters st;
         objectCounts := objectCounts st; x_skipped := skipped |}).

Definition RetrieveAndProcessTables (includeTables : list string) : extraction (list Table * list Table) :=
  quotedIncludeRelations ← lift (FatalOnError (QuoteTableNames Queries.Select includeTables));
  tableRelations ← filtered (λ f, GetIncludedUserTableRelations version f quotedIncludeRelations);
  v6 ← from_version "6";
  foreign ← (if (v6 : bool) then filtered (λ f, GetForeignTableRelations f) else mret []);
  tables ← filtered (λ f, ConstructDefinitionsForTables version f (tableRelations ++ foreign));
  tables ← drop_existing tables;
  split ← lift (SplitTablesByPartitionType env tables);
  set_count "Tables" (length split.1);;
  mret split.

(** * Objects with dependencies *)

Definition retrieveFunctions : extraction (list Function_ * FunctionInfoMap) :=
  functionMetadata ← object_metadata_of TYPE_FUNCTION;
  addToMetadataMap functionMetadata;;
  functions ← asks (λ f, GetFunctionsAllVersions version f);
  funcInfoMap ← lift (GetFunctionOidToInfoMap version);
  set_count "Functions" (length functions);;
  collect (OFunction <$> functions);;
  mret (functions, funcInfoMap).
Definition retrieveTransforms : extraction () :=
  before7 ← before_version "7";
  if (before7 : bool) then mret ()
  else
    transforms ← lift GetTransforms;
    set_count "Transforms" (length transforms);;
    collect (OTransform <$> transforms).
(** Objects of one type with their metadata or comments. *)
Definition retrieve {A} (get : filters → go (list A)) (key : string) (wrap : A → object) (metadata : extraction MetadataMap) : extraction (list A) :=
  objects ← asks get;
  set_count key (length objects);;
  objectMetadata ← metadata;
  collect (wrap <$> objects);;
  addToMetadataMap objectMetadata;;
  mret objects.

Definition backupShellTypes (shellTypes : list ShellType) (baseTypes : list BaseType) (rangeTypes : list RangeType) : extraction () :=
  write (PrintCreateShellTypeStatements shellTypes baseTypes rangeTypes).
Definition backupEnumTypes (typeMetadata : MetadataMap) : extraction () :=
  enums ← asks (λ f, GetEnumTypes version f);
  add_count "Types" (length enums);;
  print (PrintCreateEnumTypeStatements env enums typeMetadata).
Definition retrieveAndBackupTypes : extraction () :=
  shells ← asks (λ f, GetShellTypes f);
  bases ← asks (λ f, GetBaseTypes version f);
  composites ← asks (λ f, GetCompositeTypes version f);
  domains ← asks (λ f, GetDomainTypes version f);
  v6 ← from_version "6";
  rangeTypes ← (if (v6 : bool) then asks (λ f, GetRangeTypes f) else mret []);
  typeMetadata ← object_metadata_of TYPE_TYPE;
  backupShellTypes shells bases rangeTypes;;
  v5 ← from_version "5";
  (if (v5 : bool) then backupEnumTypes typeMetadata else mret ());;
  add_count "Types" (length shells);;
  add_count "Types" (length bases);;
  add_count "Types" (length composites);;
  add_count "Types" (length domains);;
  add_count "Types" (length rangeTypes);;
  collect (OBaseType <$> bases);;
  collect (OCompositeType <$> composites);;
  collect (ODomain <$> domains);;
  collect (ORangeType <$> rangeTypes);;
  addToMetadataMap typeMetadata.

(** The constraints of domains are returned, the others are collected. *)
Definition retrieveConstraints : extraction (list Constraint) :=
  constraints ← filtered (λ f, GetConstraints version f []);
  v7 ← from_version "7";
  constraints ← (if negb (bool_decide (constraints = [])) && (v7 : bool)
                 then asks (λ f, RenameExchangedPartitionConstraints version f constraints) else mret constraints);
  let domainConstraints := filter (λ con, IsDomainConstraint con = true) constraints in
  let nonDomainConstraints := filter (λ con, IsDomainConstraint con = false) constraints in
  set_count "Constraints" (length nonDomainConstraints);;
  conMetadata ← object_comments TYPE_CONSTRAINT;
  collect (OConstraint <$> nonDomainConstraints);;
  addToMetadataMap conMetadata;;
  mret domainConstraints.
Definition retrieveAndBackupSequences (relationMetadata : MetadataMap) : extraction (list Sequence) :=
  excludeTables ← lift (MustGetFlagStringSlice CmdFlags EXCLUDE_TABLE);
  sequences ← filtered (λ f, GetAllSequences version f excludeTables);
  set_count "Sequences" (length sequences);;
  print (PrintCreateSequenceStatements env sequences relationMetadata);;
  mret sequences.
Definition retrieveProtocols : extraction (list ExternalProtocol) :=
  retrieve (λ _, GetExternalProtocols) "Protocols" OProtocol (object_metadata_of TYPE_PROTOCOL).
Definition retrieveViews : extraction () :=
  views ← filtered (λ f, GetAllViews version f);
  set_count "Views" (length views);;
  collect (OView <$> views).

Definition retrieveTSParsers := retrieve (λ f, GetTextSearchParsers f) "Text Search Parsers" OParser (object_comments TYPE_TSPARSER).
Definition retrieveTSTemplates := retrieve (λ f, GetTextSearchTemplates f) "Text Search Templates" OTemplate (object_comments TYPE_TSTEMPLATE).
Definition retrieveTSDictionaries :=
  retrieve (λ f, GetTextSearchDictionaries f) "Text Search Dictionaries" ODictionary (object_metadata_of TYPE_TSDICTIONARY).
Definition retrieveTSConfigurations :=
  retrieve (λ f, GetTextSearchConfigurations f) "Text Search Configurations" OConfiguration (object_metadata_of TYPE_TSCONFIGURATION).
Definition retrieveTSObjects : extraction () :=
  v5 ← from_version "5";
  if (v5 : bool) then retrieveTSParsers;; retrieveTSConfigurations;; retrieveTSTemplates;; retrieveTSDictionaries;; mret () else mret ().

Definition retrieveOperators := retrieve (λ f, GetOperators version f) "Operators" OOperator (object_metadata_of TYPE_OPERATOR).
Definition retrieveOperatorClasses :=
  retrieve (λ f, GetOperatorClasses version f) "Operator Classes" OOperatorClass (object_metadata_of TYPE_OPERATORCLASS).
Definition retrieveOperatorObjects : extraction () := retrieveOperators;; retrieveOperatorClasses;; mret ().
Definition retrieveAggregates := retrieve (λ f, GetAggregates version f) "Aggregates" OAggregate (object_metadata_of TYPE_AGGREGATE).
Definition retrieveCasts := retrieve (λ f, GetCasts version f) "Casts" OCast (object_comments TYPE_CAST).

Definition retrieveForeignDataWrappers :=
  retrieve (λ _, GetForeignDataWrappers) "Foreign Data Wrappers" OWrapper (object_metadata_of TYPE_FOREIGNDATAWRAPPER).
Definition retrieveForeignServers := retrieve (λ _, GetForeignServers) "Foreign Servers" OServer (object_metadata_of TYPE_FOREIGNSERVER).
Definition retrieveUserMappings : extraction () :=
  mappings ← lift GetUserMappings;
  set_count "User Mappings" (length mappings);;
  collect (OMapping <$> mappings).
Definition retrieveFDWObjects : extraction () :=
  v6 ← from_version "6";
  if (v6 : bool) then retrieveForeignDataWrappers;; retrieveForeignServers;; retrieveUserMappings else mret ().

(** * Global objects *)

Definition backupSessionGUC : extraction () := gucs ← lift GetSessionGUCs; write (PrintSessionGUCs gucs).
Definition backupTablespaces : extraction () :=
  tablespaces ← lift (GetTablespaces version);
  set_count "Tablespaces" (length tablespaces);;
  tablespaceMetadata ← object_metadata_of TYPE_TABLESPACE;
  print (PrintCreateTablespaceStatements env tablespaces tablespaceMetadata).
Definition backupCreateDatabase : extraction () :=
  defaultDB ← lift (GetDefaultDatabaseEncodingInfo version);
  db ← lift (GetDatabaseInfo version DBName);
  dbMetadata ← object_metadata_of TYPE_DATABASE;
  print (PrintCreateDatabaseStatement env defaultDB db dbMetadata).
Definition backupDatabaseGUCs : extraction () :=
  databaseGucs ← lift (GetDatabaseGUCs version DBName);
  set_count "Database GUCs" (length databaseGucs);;
  write (PrintDatabaseGUCs databaseGucs DBName).
Definition backupResourceQueues : extraction () :=
  resQueues ← lift GetResourceQueues;
  set_count "Resource Queues" (length resQueues);;
  resQueueMetadata ← object_comments TYPE_RESOURCEQUEUE;
  print (PrintCreateResourceQueueStatements env resQueues resQueueMetadata).
Definition backupResourceGroups : extraction () :=
  v5 ← from_version "5";
  if (v5 : bool) then
    before7 ← before_version "7";
    if (before7 : bool) then
      resGroups ← lift (GetResourceGroups version ResourceGroupBefore7);
      set_count "Resource Groups" (length resGroups);;
      resGroupMetadata ← object_comments TYPE_RESOURCEGROUP;
      print (PrintResetResourceGroupStatements env);;
      print (PrintCreateResourceGroupStatementsBefore7 env resGroups resGroupMetadata)
    else
      resGroups ← lift (GetResourceGroups version ResourceGroupAtLeast7);
      set_count "Resource Groups" (length resGroups);;
      resGroupMetadata ← object_comments TYPE_RESOURCEGROUP;
      print (PrintResetResourceGroupStatements env);;
      print (PrintCreateResourceGroupStatementsAtLeast7 env resGroups resGroupMetadata)
  else mret ().
Definition backupRoles : extraction () :=
  roles ← lift (GetRoles version);
  set_count "Roles" (length roles);;
  roleMetadata ← object_metadata_of TYPE_ROLE;
  print (PrintCreateRoleStatements env roles roleMetadata).
Definition backupRoleGUCs : extraction () := roleGUCs ← lift (GetRoleGUCs version); write (PrintRoleGUCStatements env roleGUCs).
Definition backupRoleGrants : extraction () := roleMembers ← lift (GetRoleMembers version); write (PrintRoleMembershipStatements roleMembers).

(** * Objects of the predata section printed at once *)

Definition backupSchemas (partitionAlteredSchemas : gset string) : extraction () :=
  schemas ← asks (λ f, GetAllUserSchemas f partitionAlteredSchemas);
  set_count "Schemas" (length schemas);;
  schemaMetadata ← object_metadata_of TYPE_SCHEMA;
  print (PrintCreateSchemaStatements env schemas schemaMetadata).
Fixpoint print_functions (langFuncs : list Function_) (functionMetadata : MetadataMap) : extraction () :=
  match langFuncs with
  | [] => mret ()
  | langFunc :: langFuncs' =>
      print (PrintCreateFunctionStatement env langFunc (metadata_of functionMetadata (Function_id langFunc)));;
      print_functions langFuncs' functionMetadata
  end.
Definition backupProceduralLanguages (functions : list Function_) (funcInfoMap : FunctionInfoMap) (functionMetadata : MetadataMap) : extraction () :=
  procLangs ← lift (GetProceduralLanguages version);
  set_count "Procedural Languages" (length procLangs);;
  let langFuncs := (ExtractLanguageFunctions functions procLangs).1 in
  print_functions langFuncs functionMetadata;;
  procLangMetadata ← object_metadata_of TYPE_PROCLANGUAGE;
  print (PrintCreateLanguageStatements env procLangs funcInfoMap procLangMetadata).
Definition backupAccessMethods : extraction () :=
  before7 ← before_version "7";
  if (before7 : bool) then mret ()
  else
    accessMethods ← lift GetAccessMethods;
    set_count "Access Methods" (length accessMethods);;
    accessMethodsMetadata ← object_metadata_of TYPE_ACCESS_METHOD;
    print (PrintAccessMethodStatements env accessMethods accessMethodsMetadata).
Definition backupConversions : extraction () :=
  conversions ← asks (λ f, GetConversions f);
  set_count "Conversions" (length conversions);;
  convMetadata ← object_metadata_of TYPE_CONVERSION;
  print (PrintCreateConversionStatements env conversions convMetadata).
Definition backupOperatorFamilies : extraction () :=
  v5 ← from_version "5";
  if (v5 : bool) then
    operatorFamilies ← asks (λ f, GetOperatorFamilies f);
    set_count "Operator Families" (length operatorFamilies);;
    operatorFamilyMetadata ← object_metadata_of TYPE_OPERATORFAMILY;
    print (PrintCreateOperatorFamilyStatements env operatorFamilies operatorFamilyMetadata)
  else mret ().
Definition backupCollations : extraction () :=
  v6 ← from_version "6";
  if (v6 : bool) then
    collations ← asks (λ f, GetCollations version f);
    set_count "Collations" (length collations);;
    collationMetadata ← object_metadata_of TYPE_COLLATION;
    print (PrintCreateCollationStatements env collations collationMetadata)
  else mret ().
Definition backupExtensions : extraction () :=
  v5 ← from_version "5";
  if (v5 : bool) then
    extensions ← lift GetExtensions;
    set_count "Extensions" (length extensions);;
    extensionMetadata ← object_comments TYPE_EXTENSION;
    print (PrintCreateExtensionStatements env extensions extensionMetadata)
  else mret ().

(** * Dependent objects *)

Definition backupDependentObjects (tables : list Table) (protocols : list ExternalProtocol) (domainConstraints : list Constraint)
    (sequences : list Sequence) (funcInfoMap : FunctionInfoMap) (tableOnly : bool) : extraction () :=
  sortables ← collected_objects;
  filteredMetadata ← collected_metadata;
  rows ← lift (dependency_rows version tables);
  print (dependent_statements env rows sortables tables protocols tableOnly filteredMetadata domainConstraints funcInfoMap);;
  print (PrintIdentityColumns env sequences);;
  write (PrintAlterSequenceStatements sequences);;
  parts ← lift (GetExternalPartitionInfo version);
  let '(extPartInfo, partInfoMap) := parts in
  before7 ← before_version "7";
  if (before7 : bool) && negb (bool_decide (length extPartInfo = 0))
  then print (PrintExchangeExternalPartitionStatements extPartInfo partInfoMap tables) else mret ().

(** * Post-data objects *)

Definition backupIndexes : extraction () :=
  indexes ← filtered (λ f, GetIndexes version f);
  set_count "Indexes" (length indexes);;
  let some := negb (bool_decide (length indexes = 0)) in
  v6 ← (if some then lift (gpdb_is version "6") else mret false);
  indexes ← (if (v6 : bool) then asks (λ f, RenameExchangedPartitionIndexes version f indexes) else mret indexes);
  upgrade ← (if some then lift (let! old := gpdb_before version "7" in andg old (gpdb_or_family (destDBVersion env) "7")) else mret false);
  indexes ← (if (upgrade : bool) then lift (EnsurePartitionKeysInUniqueIndexDefs indexes) else mret indexes);
  indexMetadata ← object_comments TYPE_INDEX;
  print (PrintCreateIndexStatements env indexes indexMetadata).
Definition backupRules : extraction () :=
  rules ← filtered (λ f, GetRules f);
  set_count "Rules" (length rules);;
  ruleMetadata ← object_comments TYPE_RULE;
  print (PrintCreateRuleStatements env rules ruleMetadata).
Definition backupTriggers : extraction () :=
  triggers ← filtered (λ f, GetTriggers version f);
  set_count "Triggers" (length triggers);;
  triggerMetadata ← object_comments TYPE_TRIGGER;
  print (PrintCreateTriggerStatements env triggers triggerMetadata).
Definition backupEventTriggers : extraction () :=
  eventTriggers ← lift GetEventTriggers;
  set_count "Event Triggers" (length eventTriggers);;
  eventTriggerMetadata ← object_metadata_of TYPE_EVENTTRIGGER;
  print (PrintCreateEventTriggerStatements env eventTriggers eventTriggerMetadata).
Definition backupDefaultPrivileges : extraction () :=
  defaultPrivileges ← lift (GetDefaultPrivileges version env);
  set_count "DEFAULT PRIVILEGES" (length defaultPrivileges);;
  write (PrintDefaultPrivilegesStatements env defaultPrivileges).
Definition backupRowLevelSecurityPolicies : extraction () :=
  policies ← lift GetPolicies;
  set_count "Policies" (length policies);;
  ruleMetadata ← object_comments TYPE_RULE;
  print (PrintCreatePolicyStatements env policies ruleMetadata).
Definition backupExtendedStatistic : extraction () :=
  statisticsExt ← lift GetExtendedStatistics;
  set_count "STATISTICS EXT" (length statisticsExt);;
  statisticExtMetadata ← object_metadata_of TYPE_STATISTIC_EXT;
  print (PrintCreateExtendedStatistics env statisticsExt statisticExtMetadata).
Definition backupTableStatistics (tables : list Table) : extraction () :=
  attStats ← asks (λ f, GetAttributeStatistics version f tables);
  tupleStats ← asks (λ f, GetTupleStatistics f tables);
  backupSessionGUC;;
  print (PrintStatisticsStatements env tables attStats tupleStats).

(** * The sections *)

Definition backupGlobals : extraction () :=
  backupResourceQueues;; backupResourceGroups;; backupRoles;; backupRoleGrants;;
  (if ShouldReplaceTablespace (dest_tablespaces env) then mret () else backupTablespaces);;
  backupDatabaseGUCs;; backupRoleGUCs.

(** What is left out of a copy of tables, and of a copy of schemas, is left out
    by [tableOnly] and by [inSchemas]. *)
Definition backupPredata (inSchemas : list string) (tables : list Table) (tableOnly : bool) : extraction () :=
  retrieved ← (if tableOnly then mret ([], ∅) else retrieveFunctions);
  let '(functions, funcInfoMap) := retrieved in
  collect (OTable <$> tables);;
  relationMetadata ← object_metadata_of TYPE_RELATION;
  addToMetadataMap relationMetadata;;
  protocols ← (if tableOnly then mret [] else
    protocols ← retrieveProtocols;
    backupSchemas (createAlteredPartitionSchemaSet tables);;
    backupExtensions;;
    backupCollations;;
    retrieveAndBackupTypes;;
    (match inSchemas with
     | [] =>
         metadataMap ← collected_metadata;
         backupProceduralLanguages functions funcInfoMap metadataMap;;
         retrieveTransforms;;
         retrieveFDWObjects
     | _ => mret ()
     end);;
    retrieveTSObjects;;
    backupOperatorFamilies;;
    retrieveOperatorObjects;;
    retrieveAggregates;;
    retrieveCasts;;
    backupAccessMethods;;
    mret protocols);
  retrieveViews;;
  sequences ← retrieveAndBackupSequences relationMetadata;
  domainConstraints ← retrieveConstraints;
  backupDependentObjects tables protocols domainConstraints sequences funcInfoMap tableOnly;;
  backupConversions.

Definition backupPostdata (inSchemas : list string) (tableOnly : bool) : extraction () :=
  hdw3 ← lift (dest_is_hdw3 env);
  (if (hdw3 : bool) then mret () else backupIndexes);;
  backupRules;;
  backupTriggers;;
  if tableOnly then mret ()
  else
    v6 ← from_version "6";
    (if (v6 : bool) then
       backupDefaultPrivileges;;
       match inSchemas with [] => backupEventTriggers | _ => mret () end
     else mret ());;
    v7 ← from_version "7";
    if (v7 : bool) then backupRowLevelSecurityPolicies;; backupExtendedStatistic else mret ().

Definition extractDDL (WithGlobal : bool) (inSchemas inTables : list string) (tableOnly : bool) : extraction () :=
  retrieved ← RetrieveAndProcessTables inTables;
  backupSessionGUC;;
  (if bool_decide (length inTables = 0) || WithGlobal then backupGlobals else mret ());;
  backupPredata inSchemas retrieved.1 (negb (bool_decide (length inTables = 0)));;
  backupPostdata inSchemas tableOnly.
End extract.

(** * The copies *)

(** As [Open] leaves the package variables, with the filters of a copy. *)
Definition opened (schemas relations : list string) (skipped : list SkippedTable) : extraction_state :=
  {| x_pieces := []; x_sortables := []; x_metadata := ∅;
     x_filters := {| filterRelationClause := ""; excludeRelations := []; includeRelations := relations; includeSchemas := schemas; excludeSchemas := [] |};
     objectCounts := ∅; x_skipped := skipped |}.

(** The schemas of [CopySchemaMetaData] with the map they are redirected by. *)
Fixpoint redirect_schemas (i : nat) (sschemas dschemas : list DbSchema) (redirectSchema : gmap string string) : go (gmap string string) :=
  match sschemas with
  | [] => Ok redirectSchema
  | v :: sschemas' =>
      let! redirectSchema := (if bool_decide (dschemas = []) then Ok redirectSchema else
        let! dschema := index dschemas i in Ok (<[sch_Schema v := sch_Schema dschema]> redirectSchema)) in
      redirect_schemas (S i) sschemas' dschemas redirectSchema
  end.

(** The three copies up to the metadata file: its state, and the schemas the
    restore redirects to. *)
Section copies.
Context `{SemverLib} `{FloatText} `{PrintTable} `{MapRange} `{SortSlice} `{Catalogue} `{FlagSet F} (CmdFlags : F) (env : print_env) (menv : meta_env)
  (DBName : string) (WithGlobal : bool) (skipped : list SkippedTable).
Local Abbreviation extractDDL' := (extractDDL CmdFlags env menv DBName WithGlobal).

Definition CopyDatabaseMetaData : go extraction_state :=
  let! (_, st) := extractDDL' [] [] false (opened [] [] skipped) in Ok st.
Definition CopySchemaMetaData (sschemas dschemas : list DbSchema) : go (gmap string string * extraction_state) :=
  let! redirectSchema := redirect_schemas 0 sschemas dschemas ∅ in
  let includeSchemas := sch_Schema <$> sschemas in
  let! (_, st) := extractDDL' includeSchemas [] false (opened includeSchemas [] skipped) in Ok (redirectSchema, st).
Definition CopyTableMetaData (dschemas : list DbSchema) (sschemas tables : list string) : go (string * extraction_state) :=
  let inclDestSchema := match dschemas with d :: _ => sch_Schema d | [] => "" end in
  let! (_, st) := extractDDL' sschemas tables true (opened sschemas tables skipped) in Ok (inclDestSchema, st).
End copies.

(** * What is printed is known to the table of contents *)

(** An extraction only adds pieces the table of contents can take. *)
Definition known_state (st : extraction_state) : Prop := Forall sound_piece (x_pieces st).
Definition Keeps {A} (m : extraction A) : Prop := ∀ st a st', m st = Ok (a, st') → known_state st → known_state st'.

Lemma Keeps_bind {A B} (m : extraction A) (f : A → extraction B) : Keeps m → (∀ a, Keeps (f a)) → Keeps (mbind f m).
Proof. intros Hm Hf st b st' Hrun Hst. apply bind_Ok in Hrun as ([a st1] & Ha & Hb). eapply Hf; [exact Hb|]. by eapply Hm. Qed.
Lemma Keeps_ret {A} (a : A) : Keeps (mret a).
Proof. by intros st b st' [= <- <-]. Qed.
Lemma Keeps_asks {A} (q : filters → go A) : Keeps (asks q).
Proof. intros st a st' Hrun Hst. by apply bind_Ok in Hrun as (b & _ & [= <- <-]). Qed.
Lemma Keeps_lift {A} (m : go A) : Keeps (lift m).
Proof. apply Keeps_asks. Qed.
Lemma Keeps_filtered {A} (q : filters → go (A * filters)) : Keeps (filtered q).
Proof. intros st a st' Hrun Hst. by apply bind_Ok in Hrun as ([b f] & _ & [= <- <-]). Qed.
Lemma Keeps_write ps : Forall sound_piece ps → Keeps (write ps).
Proof. intros Hps st a st' [= <- <-] Hst. by apply Forall_app. Qed.
Lemma Keeps_print m : Known m → Keeps (print m).
Proof.
  intros Hm st a st' Hrun Hst. apply bind_Ok in Hrun as ([ps st1] & Hps & [= <- <-]).
  apply bind_Ok in Hps as (ps' & Hps & [= <- <-]). apply Forall_app. split; [done|by apply Hm].
Qed.
Lemma Keeps_collect l : Keeps (collect l).
Proof. by intros st a st' [= <- <-]. Qed.
Lemma Keeps_objects : Keeps collected_objects.
Proof. by intros st a st' [= <- <-]. Qed.
Lemma Keeps_metadata : Keeps collected_metadata.
Proof. by intros st a st' [= <- <-]. Qed.
Lemma Keeps_add m : Keeps (addToMetadataMap m).
Proof. by intros st a st' [= <- <-]. Qed.
Lemma Keeps_count f key : Keeps (update_count f key).
Proof. by intros st a st' [= <- <-]. Qed.

Create HintDb extraction.
#[export] Hint Resolve Keeps_ret Keeps_asks Keeps_lift Keeps_filtered Keeps_collect Keeps_objects Keeps_metadata Keeps_add
  Keeps_count : extraction.
#[export] Hint Extern 2 (Keeps (print _)) => apply Keeps_print; solve [auto 4 with pieces] : extraction.
#[export] Hint Extern 2 (Keeps (write _)) => apply Keeps_write; solve [auto 4 with pieces] : extraction.

(** Follow the calls of an extraction. *)
Ltac keeps :=
  repeat first
    [ solve [auto 3 with extraction]
    | apply Keeps_bind; [|intros ?]
    | match goal with |- Keeps (match ?x with _ => _ end) => destruct x end
    | match goal with |- Keeps (let _ := _ in _) => cbv zeta end ].

Section known.
Context `{SemverLib} `{FloatText} `{PrintTable} `{MapRange} `{SortSlice} `{Catalogue} `{FlagSet F} (CmdFlags : F) (env : print_env) (menv : meta_env)
  (DBName : string).

Lemma Keeps_from_version n : Keeps (from_version env n). Proof. apply Keeps_lift. Qed.
Lemma Keeps_before_version n : Keeps (before_version env n). Proof. apply Keeps_lift. Qed.
Lemma Keeps_object_metadata t : Keeps (object_metadata_of env t). Proof. apply Keeps_asks. Qed.
Lemma Keeps_object_comments t : Keeps (object_comments env t). Proof. apply Keeps_asks. Qed.
Lemma Keeps_set_count key n : Keeps (set_count key n). Proof. apply Keeps_count. Qed.
Lemma Keeps_add_count key n : Keeps (add_count key n). Proof. apply Keeps_count. Qed.
Lemma Keeps_drop_existing tables : Keeps (drop_existing CmdFlags menv tables).
Proof. intros st a st' Hrun Hst. by apply bind_Ok in Hrun as ([kept skipped] & _ & [= <- <-]). Qed.
Local Hint Resolve Keeps_from_version Keeps_before_version Keeps_object_metadata Keeps_object_comments Keeps_set_count Keeps_add_count
  Keeps_drop_existing : extraction.
Lemma Keeps_retrieve {A} (get : filters → go (list A)) key wrap metadata : Keeps metadata → Keeps (retrieve get key wrap metadata).
Proof. intros Hm. unfold retrieve. keeps. Qed.
Local Hint Resolve Keeps_retrieve : extraction.

Lemma Keeps_RetrieveAndProcessTables l : Keeps (RetrieveAndProcessTables CmdFlags env menv l).
Proof. unfold RetrieveAndProcessTables. keeps. Qed.
Lemma Keeps_retrieveFunctions : Keeps (retrieveFunctions env).
Proof. unfold retrieveFunctions. keeps. Qed.
Lemma Keeps_retrieveTransforms : Keeps (retrieveTransforms env).
Proof. unfold retrieveTransforms. keeps. Qed.
Lemma Keeps_retrieveAndBackupTypes : Keeps (retrieveAndBackupTypes env).
Proof. unfold retrieveAndBackupTypes, backupShellTypes, backupEnumTypes. keeps. Qed.
Lemma Keeps_retrieveConstraints : Keeps (retrieveConstraints env).
Proof. unfold retrieveConstraints. keeps. Qed.
Lemma Keeps_retrieveAndBackupSequences m : Keeps (retrieveAndBackupSequences CmdFlags env m).
Proof. unfold retrieveAndBackupSequences. keeps. Qed.
Lemma Keeps_retrieveViews : Keeps (retrieveViews env).
Proof. unfold retrieveViews. keeps. Qed.
Lemma Keeps_retrieveTSObjects : Keeps (retrieveTSObjects env).
Proof. unfold retrieveTSObjects, retrieveTSParsers, retrieveTSConfigurations, retrieveTSTemplates, retrieveTSDictionaries. keeps. Qed.
Lemma Keeps_retrieveOperatorObjects : Keeps (retrieveOperatorObjects env).
Proof. unfold retrieveOperatorObjects, retrieveOperators, retrieveOperatorClasses. keeps. Qed.
Lemma Keeps_retrieveFDWObjects : Keeps (retrieveFDWObjects env).
Proof. unfold retrieveFDWObjects, retrieveForeignDataWrappers, retrieveForeignServers, retrieveUserMappings. keeps. Qed.
Lemma Keeps_backupSessionGUC : Keeps (backupSessionGUC).
Proof. unfold backupSessionGUC. keeps. Qed.
Lemma Keeps_backupGlobals : Keeps (backupGlobals env DBName).
Proof.
  unfold backupGlobals, backupResourceQueues, backupResourceGroups, backupRoles, backupRoleGrants, backupTablespaces, backupDatabaseGUCs,
    backupRoleGUCs. keeps.
Qed.
Lemma Keeps_print_functions l m : Keeps (print_functions env l m).
Proof. induction l as [|f l IH]; cbn [print_functions]; keeps. Qed.
Local Hint Resolve Keeps_print_functions : extraction.
Lemma Keeps_backupProceduralLanguages fs i m : Keeps (backupProceduralLanguages env fs i m).
Proof. unfold backupProceduralLanguages. keeps. Qed.
Lemma Keeps_backupDependentObjects t p c s i b : Keeps (backupDependentObjects env t p c s i b).
Proof. unfold backupDependentObjects. keeps. Qed.
Local Hint Resolve Keeps_RetrieveAndProcessTables Keeps_retrieveFunctions Keeps_retrieveTransforms Keeps_retrieveAndBackupTypes
  Keeps_retrieveConstraints Keeps_retrieveAndBackupSequences Keeps_retrieveViews Keeps_retrieveTSObjects Keeps_retrieveOperatorObjects
  Keeps_retrieveFDWObjects Keeps_backupSessionGUC Keeps_backupGlobals Keeps_backupProceduralLanguages Keeps_backupDependentObjects : extraction.
Lemma Keeps_backupPredata s t b : Keeps (backupPredata CmdFlags env s t b).
Proof.
  unfold backupPredata, retrieveProtocols, backupSchemas, backupExtensions, backupCollations, backupOperatorFamilies, retrieveAggregates,
    retrieveCasts, backupAccessMethods, backupConversions. keeps.
Qed.
Lemma Keeps_backupPostdata s b : Keeps (backupPostdata env s b).
Proof.
  unfold backupPostdata, backupIndexes, backupRules, backupTriggers, backupDefaultPrivileges, backupEventTriggers,
    backupRowLevelSecurityPolicies, backupExtendedStatistic. keeps.
Qed.
Local Hint Resolve Keeps_backupPredata Keeps_backupPostdata : extraction.
Lemma Keeps_extractDDL g s t b : Keeps (extractDDL CmdFlags env menv DBName g s t b).
Proof. unfold extractDDL. keeps. Qed.
End known.
