(* ===== verification/Execute.v ===== *)
(** The execution of restored statements ([meta/builtin/parallel.go],
    [parallel_depend.go], and the restore part of [builtin.go] and
    [restore_helper.go]): one connection after the other or a pool of workers,
    with the server of [DbConn]. *)
From S2P Require Import Prelude Utils Options Version Toc DbConn Restore Scheduler.

(** * Errors of statements *)

(** The connection pool, the names in [errorTablesMetadata] and the counter
    [numErrors], an [int32]. *)
Record exec_state := { x_conn : DBConn; x_failed : gset string; x_errors : Z }.

Definition wrap32 (z : Z) : Z := (z + 2 ^ 31) mod 2 ^ 32 - 2 ^ 31.
Definition table_key (s : StatementWithType) : string := s_Schema s +:+ "." +:+ s_Name s.

(** An error is counted unless the object exists already. *)
Definition failing (r : go Z) : bool :=
  match r with Err e => negb (Contains e "already exists") | _ => false end.

Section execution.
Context (answers : server).

(** * One connection *)

(** The body of the loop of [executeStatementsForConn]; [fatalErr] is nil at
    every call and is not assigned. *)
Definition execute_statement (whichConn : nat) (x : exec_state) (s : StatementWithType) : exec_state * go () :=
  let '(c, r) := Exec answers (Statement s) whichConn (x_conn x) in
  let x := {| x_conn := c; x_failed := x_failed x; x_errors := x_errors x |} in
  match r with
  | Ok _ => (x, Ok ())
  | Err _ =>
      (if failing r
       then {| x_conn := c; x_failed := {[table_key s]} ∪ x_failed x; x_errors := wrap32 (x_errors x + 1) |}
       else x, Ok ())
  | Fatal e => (x, Fatal e)
  | Panic e => (x, Panic e)
  end.
Fixpoint executeStatementsForConn (whichConn : nat) (x : exec_state) (statements : list StatementWithType)
    : exec_state * go () :=
  match statements with
  | [] => (x, Ok ())
  | s :: statements' =>
      match execute_statement whichConn x s with
      | (x, Ok _) => executeStatementsForConn whichConn x statements'
      | (x, r) => (x, r)
      end
  end.

Definition fresh_errors (x : exec_state) : exec_state :=
  {| x_conn := x_conn x; x_failed := x_failed x; x_errors := 0 |}.

(** [ExecuteStatements] with [executeInParallel] false: at most one connection
    number, the first connection without one. *)
Definition connection_number (whichConn : list nat) : call nat :=
  match whichConn with
  | [] => ret 0
  | [n] => ValidateConnNum n
  | _ => raise (Fatal "At most one connection number may be specified for a given connection")
  end.
Definition ExecuteStatements_serial (x : exec_state) (statements : list StatementWithType) (whichConn : list nat)
    : exec_state * go () :=
  match connection_number whichConn (x_conn x) with
  | (_, Ok n) => executeStatementsForConn n (fresh_errors x) statements
  | (_, Err e) => (x, Err e)
  | (_, Fatal e) => (x, Fatal e)
  | (_, Panic e) => (x, Panic e)
  end.

(** * A pool of workers *)

(** A worker of [ExecuteStatements]: it waits for the next statement, executes
    it, counts its error ([atomic.AddInt32]) and records it under the mutex. *)
Inductive phase :=
| Waiting
| Executing (s : StatementWithType)
| Counting (s : StatementWithType)
| Recording (s : StatementWithType).

Record exec_pool := { e_tasks : list StatementWithType; e_workers : list phase; e_state : exec_state }.

Definition with_conn (x : exec_state) (c : DBConn) : exec_state :=
  {| x_conn := c; x_failed := x_failed x; x_errors := x_errors x |}.
Definition counted_error (x : exec_state) : exec_state :=
  {| x_conn := x_conn x; x_failed := x_failed x; x_errors := wrap32 (x_errors x + 1) |}.
Definition recorded_error (x : exec_state) (s : StatementWithType) : exec_state :=
  {| x_conn := x_conn x; x_failed := {[table_key s]} ∪ x_failed x; x_errors := x_errors x |}.

(** The steps of the workers; the channel of tasks was filled and closed before
    they start. *)
Inductive exec_step : exec_pool → exec_pool → Prop :=
| exec_take s tasks ws i x :
    ws !! i = Some Waiting →
    exec_step {| e_tasks := s :: tasks; e_workers := ws; e_state := x |}
              {| e_tasks := tasks; e_workers := <[i := Executing s]> ws; e_state := x |}
| exec_run s tasks ws i x c r :
    ws !! i = Some (Executing s) →
    Exec answers (Statement s) i (x_conn x) = (c, r) →
    exec_step {| e_tasks := tasks; e_workers := ws; e_state := x |}
              {| e_tasks := tasks; e_workers := <[i := if failing r then Counting s else Waiting]> ws;
                 e_state := with_conn x c |}
| exec_count s tasks ws i x :
    ws !! i = Some (Counting s) →
    exec_step {| e_tasks := tasks; e_workers := ws; e_state := x |}
              {| e_tasks := tasks; e_workers := <[i := Recording s]> ws; e_state := counted_error x |}
| exec_record s tasks ws i x :
    ws !! i = Some (Recording s) →
    exec_step {| e_tasks := tasks; e_workers := ws; e_state := x |}
              {| e_tasks := tasks; e_workers := <[i := Waiting]> ws; e_state := recorded_error x s |}.

Definition exec_start (x : exec_state) (statements : list StatementWithType) : exec_pool :=
  {| e_tasks := statements; e_workers := replicate (NumConns (x_conn x)) Waiting; e_state := fresh_errors x |}.
Definition exec_end (p : exec_pool) : Prop := e_tasks p = [] ∧ Forall (λ w, w = Waiting) (e_workers p).

(** [ExecuteStatements]: every run of the pool, or the one run on one
    connection. *)
Inductive ExecuteStatements (x : exec_state) (statements : list StatementWithType)
    : bool → list nat → exec_state → go () → Prop :=
| execute_serial whichConn x' r :
    ExecuteStatements_serial x statements whichConn = (x', r) → ExecuteStatements x statements false whichConn x' r
| execute_parallel whichConn p :
    rtc exec_step (exec_start x statements) p → exec_end p →
    ExecuteStatements x statements true whichConn (e_state p) (Ok ()).

(** [ExecuteRestoreMetadataStatements], with or without a progress bar. *)
Definition ExecuteRestoreMetadataStatements (x : exec_state) (statements : list StatementWithType) (executeInParallel : bool)
    (x' : exec_state) (r : go ()) : Prop :=
  if bool_decide (length statements = 0) then x' = x ∧ r = Ok ()
  else ExecuteStatements x statements executeInParallel [] x' r.

(** * What an execution leaves behind *)

(** One executed statement: its connection, whether a transaction was open
    there, and the answer. *)
Record outcome := { o_conn : nat; o_tx : bool; o_statement : StatementWithType; o_answer : go Z }.
Definition event_of_outcome (o : outcome) : event :=
  event_of (o_conn o) (o_tx o) (QExec (Statement (o_statement o))) (o_answer o).
Definition failures (outs : list outcome) : list StatementWithType :=
  o_statement <$> filter (λ o, failing (o_answer o) = true) outs.
Definition failed_keys (outs : list outcome) : gset string := list_to_set (table_key <$> failures outs).

(** An answer of the server on an existing connection. *)
Definition answered (c : DBConn) (o : outcome) : Prop :=
  slot c (o_conn o) (o_tx o) ∧ ∃ h, o_answer o = answers h (o_conn o) (o_tx o) (QExec (Statement (o_statement o))).

(** Between two states the statements of [outs] were executed, in this order,
    and nothing else was sent. *)
Record logged (c c' : DBConn) (outs : list outcome) : Prop := {
  lg_num : NumConns c' = NumConns c;
  lg_tx : Tx c' = Tx c;
  lg_log : log c' = log c ++ (event_of_outcome <$> outs);
  lg_outs : Forall (answered c) outs
}.

(** The errors of the execution are exactly those of its statements. *)
Record executed (x x' : exec_state) (outs : list outcome) : Prop := {
  ex_logged : logged (x_conn x) (x_conn x') outs;
  ex_failed : x_failed x' = failed_keys outs ∪ x_failed x;
  ex_errors : x_errors x' = wrap32 (Z.of_nat (length (failures outs)))
}.

Lemma failures_app o1 o2 : failures (o1 ++ o2) = failures o1 ++ failures o2.
Proof. unfold failures. by rewrite filter_app, fmap_app. Qed.
Lemma failed_keys_app o1 o2 : failed_keys (o1 ++ o2) = failed_keys o1 ∪ failed_keys o2.
Proof. unfold failed_keys. by rewrite failures_app, fmap_app, list_to_set_app_L. Qed.
Lemma failures_one o : failures [o] = if failing (o_answer o) then [o_statement o] else [].
Proof. unfold failures. rewrite filter_cons. destruct (failing (o_answer o)) eqn:Hf; case_decide; try done; congruence. Qed.

Lemma slot_logged c c' outs w t : logged c c' outs → slot c' w t ↔ slot c w t.
Proof. intros [Hn Ht _ _]. unfold slot. by rewrite Hn, Ht. Qed.
Lemma logged_refl c : logged c c [].
Proof. split; [done..|by rewrite app_nil_r|done]. Qed.
Lemma logged_trans c1 c2 c3 o1 o2 : logged c1 c2 o1 → logged c2 c3 o2 → logged c1 c3 (o1 ++ o2).
Proof.
  intros H1 H2. pose proof (λ w t, slot_logged _ _ _ w t H1) as Hslot. destruct H1 as [N1 T1 L1 A1], H2 as [N2 T2 L2 A2]. split.
  - congruence.
  - congruence.
  - by rewrite L2, L1, fmap_app, app_assoc.
  - apply Forall_app. split; [done|]. eapply Forall_impl; [exact A2|]. intros o [Hs Ha]. split; [by apply Hslot|done].
Qed.

(** One statement on one connection. *)
Lemma Exec_logged (Hserver : polite answers) s w t c : slot c w t →
  ∃ r, Exec answers (Statement s) w c = ((Exec answers (Statement s) w c).1, r) ∧
    logged c (Exec answers (Statement s) w c).1 [{| o_conn := w; o_tx := t; o_statement := s; o_answer := r |}] ∧
    ((∃ z, r = Ok z) ∨ ∃ e, r = Err e).
Proof.
  intros Hslot. unfold Exec, bind. rewrite (ValidateConnNum_slot _ _ _ Hslot), (get_tx_slot _ _ _ Hslot).
  unfold send. cbn [fst]. eexists. split; [reflexivity|]. pose proof (Hserver (log c) w t (QExec (Statement s))) as Ha.
  split; [|done]. split; [done..|]. apply Forall_singleton. split; [done|by eexists].
Qed.

Lemma wrap32_succ z : wrap32 (wrap32 z + 1) = wrap32 (z + 1).
Proof.
  unfold wrap32. replace (((z + 2 ^ 31) mod 2 ^ 32 - 2 ^ 31 + 1 + 2 ^ 31)%Z) with ((z + 2 ^ 31) mod 2 ^ 32 + 1)%Z by lia.
  rewrite Z.add_mod_idemp_l by lia. do 2 f_equal. lia.
Qed.

Lemma execute_statement_spec (Hserver : polite answers) w t x s outs x0 : slot (x_conn x) w t →
  executed x0 x outs →
  ∃ o x', execute_statement w x s = (x', Ok ()) ∧ executed x0 x' (outs ++ [o]) ∧ o_statement o = s ∧ o_conn o = w.
Proof.
  intros Hslot [Hl Hf He]. destruct (Exec_logged Hserver s w t _ Hslot) as (r & Heq & Hlog & Hr).
  exists {| o_conn := w; o_tx := t; o_statement := s; o_answer := r |}. unfold execute_statement. rewrite Heq.
  pose proof (logged_trans _ _ _ _ _ Hl Hlog) as Hl'.
  set (c := (Exec answers (Statement s) w (x_conn x)).1) in *. clearbody c.
  assert (Hkeys : failed_keys (outs ++ [{| o_conn := w; o_tx := t; o_statement := s; o_answer := r |}]) =
    failed_keys outs ∪ if failing r then {[table_key s]} else ∅).
  { rewrite failed_keys_app. f_equal. unfold failed_keys. rewrite failures_one. cbn [o_answer o_statement].
    destruct (failing r); [|done]. cbn [fmap list_fmap]. apply set_eq. set_solver. }
  assert (Hcount : Z.of_nat (length (failures (outs ++ [{| o_conn := w; o_tx := t; o_statement := s; o_answer := r |}]))) =
    (Z.of_nat (length (failures outs)) + if failing r then 1 else 0)%Z).
  { rewrite failures_app, length_app, failures_one. cbn [o_answer o_statement]. destruct (failing r); simpl; lia. }
  destruct Hr as [[z ->]|[e ->]].
  - eexists. split; [reflexivity|]. split; [|done]. cbn [failing] in *. split; cbn [x_conn x_failed x_errors].
    + done.
    + rewrite Hkeys, Hf. set_solver.
    + by rewrite Hcount, Z.add_0_r.
  - eexists. split; [reflexivity|]. split; [|done]. destruct (failing (Err e)); split; cbn [x_conn x_failed x_errors]; try done.
    + rewrite Hkeys, Hf. set_solver.
    + by rewrite Hcount, He, wrap32_succ.
    + rewrite Hkeys, Hf. set_solver.
    + by rewrite Hcount, Z.add_0_r.
Qed.

Lemma executeStatementsForConn_spec (Hserver : polite answers) w t x statements outs x0 : slot (x_conn x) w t →
  executed x0 x outs →
  ∃ new x', executeStatementsForConn w x statements = (x', Ok ()) ∧ executed x0 x' (outs ++ new) ∧
    o_statement <$> new = statements ∧ Forall (λ o, o_conn o = w) new.
Proof.
  revert x outs. induction statements as [|s statements IH]; intros x outs Hslot Hex; cbn [executeStatementsForConn].
  - exists [], x. rewrite app_nil_r. done.
  - destruct (execute_statement_spec Hserver w t x s outs x0 Hslot Hex) as (o & x' & -> & Hex' & Hs & Hw).
    destruct (IH x' (outs ++ [o])) as (new & x'' & -> & Hex'' & Hnew & Hall).
    { apply (slot_logged _ _ _ _ _ (ex_logged _ _ _ Hex')). by apply (slot_logged _ _ _ _ _ (ex_logged _ _ _ Hex)). }
    { done. }
    exists (o :: new), x''. rewrite <- app_assoc in Hex''. split; [done|]. split; [done|]. split; [cbn; by f_equal|by constructor].
Qed.

Lemma executed_fresh x : executed x (fresh_errors x) [].
Proof. split; [apply logged_refl|cbn; set_solver|done]. Qed.

Lemma wf_slot c w : wf c → w < NumConns c → ∃ t, slot c w t.
Proof. intros Hwf Hw. unfold wf in Hwf. destruct (lookup_lt_is_Some_2 (Tx c) w) as [t Ht]; [lia|]. by exists t. Qed.

(** ** The pool *)

Definition busy (w : phase) : list StatementWithType := match w with Executing s => [s] | _ => [] end.
Definition uncounted (w : phase) : list StatementWithType := match w with Counting s => [s] | _ => [] end.
Definition unrecorded (w : phase) : list StatementWithType := match w with Counting s | Recording s => [s] | _ => [] end.

(** What holds at every moment: each statement waits, is being executed or has
    been answered; of the failed ones some are still to be counted or recorded. *)
Record pool_ok (x0 : exec_state) (statements : list StatementWithType) (outs : list outcome) (p : exec_pool) : Prop := {
  po_logged : logged (x_conn x0) (x_conn (e_state p)) outs;
  po_workers : length (e_workers p) = NumConns (x_conn x0);
  po_tasks : (o_statement <$> outs) ++ gather busy (e_workers p) ++ e_tasks p ≡ₚ statements;
  po_failed : x_failed (e_state p) ∪ list_to_set (table_key <$> gather unrecorded (e_workers p)) = failed_keys outs ∪ x_failed x0;
  po_errors : ∃ n, x_errors (e_state p) = wrap32 (Z.of_nat n) ∧ n + length (gather uncounted (e_workers p)) = length (failures outs)
}.

(** A worker changes: what the pool holds together changes as it does. *)
Ltac gather_worker H w' :=
  match type of H with
  | ?ws !! ?i = Some ?w =>
      let b := fresh "b" in let u := fresh "u" in let r := fresh "r" in
      let Hb := fresh "Hb" in let Hb' := fresh "Hb'" in let Hu := fresh "Hu" in let Hu' := fresh "Hu'" in
      let Hr := fresh "Hr" in let Hr' := fresh "Hr'" in
      destruct (gather_insert busy ws i w w' H) as (b & Hb & Hb'); destruct (gather_insert uncounted ws i w w' H) as (u & Hu & Hu');
      destruct (gather_insert unrecorded ws i w w' H) as (r & Hr & Hr')
  end.

Lemma keys_perm (l l' : list StatementWithType) : l ≡ₚ l' → list_to_set (C := gset string) (table_key <$> l) = list_to_set (table_key <$> l').
Proof. intros Hl. apply set_eq. intros k. rewrite !elem_of_list_to_set. by rewrite Hl. Qed.

Lemma pool_ok_start x statements : pool_ok x statements [] (exec_start x statements).
Proof.
  assert (Hg : ∀ f : phase → list StatementWithType, f Waiting = [] → gather f (replicate (NumConns (x_conn x)) Waiting) = [])
    by (intros f Hf; by apply gather_nil, Forall_replicate).
  unfold exec_start. split; cbn [e_tasks e_workers e_state].
  - apply logged_refl.
  - apply length_replicate.
  - by rewrite Hg.
  - rewrite Hg by done. cbn. set_solver.
  - exists 0. by rewrite Hg.
Qed.

(** A worker that has left the execution of a statement has had its answer. *)
Definition answered_by (p p' : exec_pool) (new : list outcome) : Prop :=
  ∀ i s, e_workers p !! i = Some (Executing s) → e_workers p' !! i = Some (Executing s) ∨ s ∈ o_statement <$> new.
Lemma answered_by_other tasks tasks' ws x x' i w w' : ws !! i = Some w → busy w = [] →
  answered_by {| e_tasks := tasks; e_workers := ws; e_state := x |} {| e_tasks := tasks'; e_workers := <[i := w']> ws; e_state := x' |} [].
Proof.
  intros Hi Hw j s Hj. cbn [e_workers] in *. left. destruct (decide (i = j)) as [<-|Hne].
  - by rewrite Hi in Hj; simplify_eq.
  - by rewrite list_lookup_insert_ne.
Qed.

Lemma pool_ok_step (Hserver : polite answers) x0 statements outs p p' : wf (x_conn x0) →
  pool_ok x0 statements outs p → exec_step p p' → ∃ new, pool_ok x0 statements (outs ++ new) p' ∧ answered_by p p' new.
Proof.
  intros Hwf [Hlog Hlen Htasks Hfailed (n & Herr & Hn)] Hstep.
  destruct Hstep as [s tasks ws i x Hi|s tasks ws i x c r Hi Hexec|s tasks ws i x Hi|s tasks ws i x Hi];
    cbn [e_tasks e_workers e_state] in *.
  - exists []. rewrite app_nil_r. gather_worker Hi (Executing s). cbn [busy uncounted unrecorded app] in *.
    split; [|by eapply answered_by_other]. split; cbn [e_tasks e_workers e_state]; [done|by rewrite length_insert| | |].
    + rewrite Hb'. rewrite Hb in Htasks. rewrite <- Htasks. apply Permutation_app_head. cbn. by rewrite Permutation_middle.
    + by rewrite (keys_perm _ _ Hr'), <- (keys_perm _ _ Hr).
    + exists n. split; [done|]. by rewrite Hu', <- Hu.
  - assert (Hslot : ∃ t, slot (x_conn x) i t).
    { destruct (wf_slot (x_conn x0) i Hwf) as [t Ht]; [rewrite <- Hlen; by eapply lookup_lt_Some|].
      exists t. by apply (slot_logged _ _ _ _ _ Hlog). }
    destruct Hslot as [t Ht]. destruct (Exec_logged Hserver s i t _ Ht) as (r' & Heq & Hlog' & Hr').
    rewrite Hexec in Heq, Hlog'. cbn [fst] in *. injection Heq as <-.
    set (o := {| o_conn := i; o_tx := t; o_statement := s; o_answer := r |}) in *. exists [o].
    gather_worker Hi (if failing r then Counting s else Waiting). split.
    2: { intros j s' Hj. cbn [e_workers] in *. destruct (decide (i = j)) as [<-|Hne].
         - right. rewrite Hi in Hj. injection Hj as <-. by apply list_elem_of_singleton.
         - left. by rewrite list_lookup_insert_ne. }
    split; cbn [e_tasks e_workers e_state with_conn x_conn x_failed x_errors].
    + by eapply logged_trans.
    + by rewrite length_insert.
    + rewrite <- Htasks, fmap_app, <- app_assoc. apply Permutation_app_head. cbn [fmap list_fmap o_statement o app]. rewrite Hb', Hb.
      by destruct (failing r).
    + rewrite failed_keys_app. unfold failed_keys at 2. rewrite failures_one. cbn [o_answer o_statement o].
      rewrite (keys_perm _ _ Hr'0). rewrite (keys_perm _ _ Hr) in Hfailed. cbn [unrecorded app] in Hfailed.
      destruct (failing r); cbn [unrecorded app fmap list_fmap]; clear -Hfailed; set_solver.
    + rewrite failures_app, length_app, failures_one. cbn [o_answer o_statement o].
      apply Permutation_length in Hu, Hu'. rewrite Hu'. rewrite Hu in Hn. cbn [uncounted app] in Hn. exists n. split; [done|]. destruct (failing r); cbn [uncounted app length]; lia.
  - exists []. rewrite app_nil_r. gather_worker Hi (Recording s). cbn [busy uncounted unrecorded app] in *.
    split; [|by eapply answered_by_other]. split; cbn [e_tasks e_workers e_state counted_error x_conn x_failed x_errors]; [done|by rewrite length_insert| | |].
    + by rewrite Hb', <- Hb.
    + by rewrite (keys_perm _ _ Hr'), <- (keys_perm _ _ Hr).
    + exists (S n). rewrite Herr, wrap32_succ. split; [f_equal; lia|].
      apply Permutation_length in Hu, Hu'. rewrite Hu'. rewrite Hu in Hn. cbn in Hn. lia.
  - exists []. rewrite app_nil_r. gather_worker Hi Waiting. cbn [busy uncounted unrecorded app] in *.
    split; [|by eapply answered_by_other]. split; cbn [e_tasks e_workers e_state recorded_error x_conn x_failed x_errors]; [done|by rewrite length_insert| | |].
    + by rewrite Hb', <- Hb.
    + rewrite (keys_perm _ _ Hr'). rewrite (keys_perm _ _ Hr) in Hfailed. cbn [fmap list_fmap list_to_set] in Hfailed.
      rewrite <- Hfailed. cbn. set_solver.
    + exists n. split; [done|]. by rewrite Hu', <- Hu.
Qed.

Lemma pool_ok_steps (Hserver : polite answers) x0 statements p p' : wf (x_conn x0) → rtc exec_step p p' →
  ∀ outs, pool_ok x0 statements outs p → ∃ new, pool_ok x0 statements (outs ++ new) p'.
Proof.
  intros Hwf. induction 1 as [p|p q r Hpq _ IH]; intros outs Hok; [exists []; by rewrite app_nil_r|].
  destruct (pool_ok_step Hserver _ _ _ _ _ Hwf Hok Hpq) as (new & Hq & _). destruct (IH _ Hq) as (more & Hr).
  exists (new ++ more). by rewrite app_assoc.
Qed.

Lemma pool_ok_end x0 statements outs p : pool_ok x0 statements outs p → exec_end p →
  executed x0 (e_state p) outs ∧ o_statement <$> outs ≡ₚ statements.
Proof.
  intros [Hlog _ Htasks Hfailed (n & Herr & Hn)] [Ht Hw].
  assert (Hg : ∀ f : phase → list StatementWithType, f Waiting = [] → gather f (e_workers p) = []).
  { intros f Hf. apply gather_nil. eapply Forall_impl; [exact Hw|]. by intros w ->. }
  rewrite Hg in Htasks, Hfailed, Hn by done. rewrite Ht, app_nil_r in Htasks. split; [|done]. split; [done| |].
  - rewrite <- Hfailed. set_solver.
  - rewrite Herr. do 2 f_equal. simpl in Hn. lia.
Qed.

(** An execution of statements, serial or parallel. *)
Lemma ExecuteStatements_spec (Hserver : polite answers) x statements parallel x' r :
  wf (x_conn x) → 0 < NumConns (x_conn x) → ExecuteStatements x statements parallel [] x' r →
  r = Ok () ∧ ∃ outs, executed x x' outs ∧ o_statement <$> outs ≡ₚ statements ∧
    (parallel = false → o_statement <$> outs = statements ∧ Forall (λ o, o_conn o = 0) outs).
Proof.
  intros Hwf Hnum Hrun. remember [] as whichConn eqn:Hwhich. destruct Hrun as [w x' r Hs|w p Hrun Hend]; subst w.
  - unfold ExecuteStatements_serial, connection_number, ret in Hs.
    destruct (wf_slot _ 0 Hwf Hnum) as [t Ht].
    destruct (executeStatementsForConn_spec Hserver 0 t (fresh_errors x) statements [] x) as (outs & x2 & Heq & Hex & Hst & Hall);
      [done|apply executed_fresh|].
    rewrite Heq in Hs. injection Hs as <- <-. split; [done|]. exists outs. rewrite Hst. done.
  - split; [done|]. destruct (pool_ok_steps Hserver x statements _ _ Hwf Hrun [] (pool_ok_start _ _)) as (outs & Hok).
    destruct (pool_ok_end _ _ _ _ Hok Hend) as [Hex Hperm]. exists outs. split; [done|]. split; [done|]. done.
Qed.

(** What the pool still has to do: up to four steps for a statement. *)
Definition phase_left (w : phase) : nat :=
  match w with Waiting => 0 | Executing _ => 3 | Counting _ => 2 | Recording _ => 1 end.
Definition exec_left (p : exec_pool) : nat := 4 * length (e_tasks p) + sum_list_with phase_left (e_workers p).

Lemma exec_step_decreases p p' : exec_step p p' → exec_left p' < exec_left p.
Proof.
  intros [s tasks ws i x Hi|s tasks ws i x c r Hi _|s tasks ws i x Hi|s tasks ws i x Hi]; unfold exec_left; cbn [e_tasks e_workers].
  - destruct (sum_list_insert phase_left ws i _ (Executing s) Hi) as (rest & -> & ->). cbn. lia.
  - destruct (sum_list_insert phase_left ws i _ (if failing r then Counting s else Waiting) Hi) as (rest & -> & ->).
    destruct (failing r); cbn; lia.
  - destruct (sum_list_insert phase_left ws i _ (Recording s) Hi) as (rest & -> & ->). cbn. lia.
  - destruct (sum_list_insert phase_left ws i _ Waiting Hi) as (rest & -> & ->). cbn. lia.
Qed.

Lemma exec_pool_progress p : e_workers p ≠ [] → exec_end p ∨ ∃ p', exec_step p p'.
Proof.
  destruct p as [tasks ws x]. unfold exec_end. cbn. intros Hne.
  destruct (decide (Forall (λ w, phase_left w = 0) ws)) as [Hall|Hsome].
  - assert (Hw : Forall (λ w, w = Waiting) ws) by (eapply Forall_impl; [exact Hall|]; by intros []).
    destruct tasks as [|s tasks]; [by left|]. right. destruct ws as [|w ws]; [done|].
    inversion Hw; subst. eexists. by apply (exec_take s tasks _ 0).
  - right. apply not_Forall_Exists in Hsome; [|apply _]. apply Exists_exists in Hsome as (w & [i Hi]%list_elem_of_lookup & Hw).
    destruct w as [|s|s|s]; [by destruct Hw|..].
    + destruct (Exec answers (Statement s) i (x_conn x)) as [c r] eqn:He. eexists. by eapply exec_run.
    + eexists. by eapply exec_count.
    + eexists. by eapply exec_record.
Qed.

(** The pool always comes to its end. *)
Lemma exec_pool_ends p : e_workers p ≠ [] → ∃ p', rtc exec_step p p' ∧ exec_end p'.
Proof.
  induction p as [p IH] using (induction_ltof1 _ exec_left). unfold ltof in IH. intros Hne.
  destruct (exec_pool_progress p Hne) as [Hend|[p' Hstep]]; [by exists p|].
  destruct (IH p') as (q & Hq & Hend).
  - by apply exec_step_decreases.
  - intros Hnil. apply Hne. apply nil_length_inv. apply (f_equal length) in Hnil. simpl in Hnil. rewrite <- Hnil.
    destruct Hstep; cbn; by rewrite length_insert.
  - exists q. split; [by eapply rtc_l|done].
Qed.
Lemma ExecuteStatements_total x statements whichConn : 0 < NumConns (x_conn x) →
  ∃ x', ExecuteStatements x statements true whichConn x' (Ok ()).
Proof.
  intros Hnum. destruct (exec_pool_ends (exec_start x statements)) as (p & Hrun & Hend).
  - cbn. destruct (NumConns (x_conn x)); [lia|done].
  - exists (e_state p). by apply execute_parallel.
Qed.
End execution.
