(* ===== verification/Predata.v ===== *)
(** The restore of the definitions a data copy waits for
    ([meta/builtin/parallel_depend.go]): the scheduler, the workers and the
    table map together, as the one system of which [Scheduler], [Restore] and
    [Execute] show a part each. *)
From S2P Require Import Prelude Utils Options QueryWrapper Version Toc DbConn Restore Scheduler Execute.

(** * The system *)

(** A worker of [executeStatementsForDependentObject]: it waits for a task,
    executes its statement, counts and records an error, makes the look-ups of
    a table, sends the pairs it found, and removes the task. *)
Inductive dep_phase :=
| DWaiting
| DExecuting (t : nat) (s : StatementWithType)
| DCounting (t : nat) (s : StatementWithType)
| DRecording (t : nat) (s : StatementWithType)
| DLooking (t : nat) (names : list (string * string)) (found : list TablePair).

(** The tasks sent and not received yet, the table map, the pairs sent, the
    workers, and the connections with the recorded errors. *)
Record dep_state := {
  d_sched : sched;
  d_queue : list (nat * StatementWithType);
  d_map : gmap string string;
  d_sent : list TablePair;
  d_workers : list dep_phase;
  d_exec : exec_state
}.

Section dependent.
Context `{SemverLib} `{MapRange} (answers : server) (srcDBVersion : GPDBVersion)
  (partNameMap : gmap string (list string)) (relevantDeps : DependencyMap) (statements : list StatementWithType).

(** What a worker does once the statement is executed: only a table has pairs
    to look up. *)
Definition after_statement (t : nat) (s : StatementWithType) : go dep_phase :=
  if bool_decide (s_ObjectType s = "TABLE") then
    let! modern := gpdb_or_family srcDBVersion "7" in
    let! names := source_names modern (s_Schema s) (s_Name s) partNameMap in
    Ok (DLooking t names [])
  else Ok (DLooking t [] []).

Definition dep_next (t : nat) (s : StatementWithType) (r : go Z) : go dep_phase :=
  if failing r then Ok (DCounting t s) else after_statement t s.

(** The steps. [scheduleStatements] registers a statement as running and sends
    it on a channel that holds all of them; nothing else sends there. *)
Inductive dep_step : dep_state → dep_state → Prop :=
| dep_schedule i running dn s q m sent ws x :
    statements !! i = Some s →
    shouldScheduleStatement relevantDeps running s (NumConns (x_conn x)) = true →
    dep_step {| d_sched := {| s_next := i; s_running := running; s_done := dn |}; d_queue := q; d_map := m; d_sent := sent; d_workers := ws; d_exec := x |}
             {| d_sched := {| s_next := S i; s_running := <[i := s]> running; s_done := dn |}; d_queue := q ++ [(i, s)]; d_map := m; d_sent := sent; d_workers := ws; d_exec := x |}
| dep_receive sc t s q m sent ws x i :
    ws !! i = Some DWaiting →
    dep_step {| d_sched := sc; d_queue := (t, s) :: q; d_map := m; d_sent := sent; d_workers := ws; d_exec := x |}
             {| d_sched := sc; d_queue := q; d_map := m; d_sent := sent; d_workers := <[i := DExecuting t s]> ws; d_exec := x |}
| dep_execute sc q m sent ws x i t s c r w :
    ws !! i = Some (DExecuting t s) →
    Exec answers (Statement s) i (x_conn x) = (c, r) →
    dep_next t s r = Ok w →
    dep_step {| d_sched := sc; d_queue := q; d_map := m; d_sent := sent; d_workers := ws; d_exec := x |}
             {| d_sched := sc; d_queue := q; d_map := m; d_sent := sent; d_workers := <[i := w]> ws; d_exec := with_conn x c |}
| dep_count sc q m sent ws x i t s :
    ws !! i = Some (DCounting t s) →
    dep_step {| d_sched := sc; d_queue := q; d_map := m; d_sent := sent; d_workers := ws; d_exec := x |}
             {| d_sched := sc; d_queue := q; d_map := m; d_sent := sent; d_workers := <[i := DRecording t s]> ws; d_exec := counted_error x |}
| dep_record sc q m sent ws x i t s w :
    ws !! i = Some (DRecording t s) →
    after_statement t s = Ok w →
    dep_step {| d_sched := sc; d_queue := q; d_map := m; d_sent := sent; d_workers := ws; d_exec := x |}
             {| d_sched := sc; d_queue := q; d_map := m; d_sent := sent; d_workers := <[i := w]> ws; d_exec := recorded_error x s |}
| dep_lookup sc q m sent ws x i t schema name names found tp m' :
    ws !! i = Some (DLooking t ((schema, name) :: names) found) →
    formTablePair schema name m = Ok (tp, m') →
    dep_step {| d_sched := sc; d_queue := q; d_map := m; d_sent := sent; d_workers := ws; d_exec := x |}
             {| d_sched := sc; d_queue := q; d_map := m'; d_sent := sent;
                d_workers := <[i := DLooking t names (found ++ match tp with Some p => [p] | None => [] end)]> ws; d_exec := x |}
| dep_send sc q m sent ws x i t p found :
    ws !! i = Some (DLooking t [] (p :: found)) →
    dep_step {| d_sched := sc; d_queue := q; d_map := m; d_sent := sent; d_workers := ws; d_exec := x |}
             {| d_sched := sc; d_queue := q; d_map := m; d_sent := sent ++ [p]; d_workers := <[i := DLooking t [] found]> ws; d_exec := x |}
| dep_remove j running dn q m sent ws x i t :
    ws !! i = Some (DLooking t [] []) →
    dep_step {| d_sched := {| s_next := j; s_running := running; s_done := dn |}; d_queue := q; d_map := m; d_sent := sent; d_workers := ws; d_exec := x |}
             {| d_sched := {| s_next := j; s_running := delete t running; s_done := dn ++ [t] |}; d_queue := q; d_map := m; d_sent := sent;
                d_workers := <[i := DWaiting]> ws; d_exec := x |}.

Definition dep_start (x : exec_state) (tabMap : gmap string string) : dep_state :=
  {| d_sched := sched0; d_queue := []; d_map := tabMap; d_sent := [];
     d_workers := replicate (NumConns (x_conn x)) DWaiting; d_exec := fresh_errors x |}.

(** The workers return when the closed channel is empty. *)
Definition dep_end (d : dep_state) : Prop :=
  s_next (d_sched d) = length statements ∧ d_queue d = [] ∧ Forall (λ w, w = DWaiting) (d_workers d).

(** * Three views *)

(** The table map: [Restore]. *)
Definition as_worker (w : dep_phase) : worker :=
  match w with DLooking _ names found => {| w_names := names; w_found := found |} | _ => idle end.
Definition map_view (d : dep_state) : pool :=
  {| p_map := d_map d; p_sent := d_sent d; p_workers := as_worker <$> d_workers d |}.

(** The execution: [Execute], whose tasks are those sent and those to come. *)
Definition as_phase (w : dep_phase) : phase :=
  match w with
  | DExecuting _ s => Executing s
  | DCounting _ s => Counting s
  | DRecording _ s => Recording s
  | _ => Waiting
  end.
Definition exec_view (d : dep_state) : exec_pool :=
  {| e_tasks := (d_queue d).*2 ++ drop (s_next (d_sched d)) statements; e_workers := as_phase <$> d_workers d; e_state := d_exec d |}.

(** A step of the system is a step of each part, or leaves it alone. *)
Definition or_same {A} (R : A → A → Prop) (a b : A) : Prop := R a b ∨ a = b.

Lemma or_same_rtc {A B} (R : A → A → Prop) (view : B → A) (step : B → B → Prop) b b' :
  (∀ c c', step c c' → or_same R (view c) (view c')) → rtc step b b' → rtc R (view b) (view b').
Proof.
  intros Hsim. induction 1 as [b|b c d Hbc _ IH]; [done|].
  destruct (Hsim _ _ Hbc) as [Hr|Heq]; [by eapply rtc_l|by rewrite Heq].
Qed.

Lemma as_worker_same (ws : list dep_phase) i w w' : ws !! i = Some w → as_worker w = as_worker w' →
  as_worker <$> <[i := w']> ws = as_worker <$> ws.
Proof. intros Hi Heq. rewrite list_fmap_insert, <- Heq. apply list_insert_id. by rewrite list_lookup_fmap, Hi. Qed.
Lemma as_phase_same (ws : list dep_phase) i w w' : ws !! i = Some w → as_phase w = as_phase w' →
  as_phase <$> <[i := w']> ws = as_phase <$> ws.
Proof. intros Hi Heq. rewrite list_fmap_insert, <- Heq. apply list_insert_id. by rewrite list_lookup_fmap, Hi. Qed.

Lemma after_statement_looking t s w : after_statement t s = Ok w → ∃ names, w = DLooking t names [].
Proof. unfold after_statement. case_bool_decide; intros; inv_go; eauto. Qed.

(** A worker that starts its look-ups, or goes on to none. *)
Lemma looking_simulates m sent ws i w t names : ws !! i = Some w → as_worker w = idle →
  or_same pool_step {| p_map := m; p_sent := sent; p_workers := as_worker <$> ws |}
                    {| p_map := m; p_sent := sent; p_workers := as_worker <$> <[i := DLooking t names []]> ws |}.
Proof.
  intros Hi Hidle. left. rewrite list_fmap_insert. apply step_statement. rewrite list_lookup_fmap, Hi. simpl. by rewrite Hidle.
Qed.

Lemma map_view_simulates d d' : dep_step d d' → or_same pool_step (map_view d) (map_view d').
Proof.
  intros [i running dn s q m sent ws x _ _|sc t s q m sent ws x i Hi|sc q m sent ws x i t s c r w Hi _ Hn|sc q m sent ws x i t s Hi
    |sc q m sent ws x i t s w Hi Ha|sc q m sent ws x i t schema name names found tp m' Hi Hf|sc q m sent ws x i t p found Hi
    |j running dn q m sent ws x i t Hi]; unfold map_view; cbn [d_map d_sent d_workers].
  - by right.
  - right. by rewrite (as_worker_same _ _ _ (DExecuting t s) Hi).
  - unfold dep_next in Hn. destruct (failing r).
    + injection Hn as <-. right. by rewrite (as_worker_same _ _ _ (DCounting t s) Hi).
    + apply after_statement_looking in Hn as (names & ->). by eapply looking_simulates.
  - right. by rewrite (as_worker_same _ _ _ (DRecording t s) Hi).
  - apply after_statement_looking in Ha as (names & ->). by eapply looking_simulates.
  - left. rewrite list_fmap_insert. apply (step_lookup m sent _ i schema name names found tp m'); [|done].
    by rewrite list_lookup_fmap, Hi.
  - left. rewrite list_fmap_insert. apply step_send. by rewrite list_lookup_fmap, Hi.
  - right. by rewrite (as_worker_same _ _ _ DWaiting Hi).
Qed.

Lemma exec_view_simulates d d' : dep_step d d' → or_same (exec_step answers) (exec_view d) (exec_view d').
Proof.
  intros [i running dn s q m sent ws x Hs _|sc t s q m sent ws x i Hi|sc q m sent ws x i t s c r w Hi He Hn|sc q m sent ws x i t s Hi
    |sc q m sent ws x i t s w Hi Ha|sc q m sent ws x i t schema name names found tp m' Hi _|sc q m sent ws x i t p found Hi
    |j running dn q m sent ws x i t Hi]; unfold exec_view; cbn [d_sched d_queue d_workers d_exec s_next].
  - right. f_equal. rewrite (drop_S _ _ _ Hs), fmap_app, <- app_assoc. done.
  - left. rewrite list_fmap_insert. cbn [fmap list_fmap app snd as_phase]. apply exec_take. by rewrite list_lookup_fmap, Hi.
  - left. rewrite list_fmap_insert.
    replace (as_phase w) with (if failing r then Counting s else Waiting).
    + apply exec_run; [by rewrite list_lookup_fmap, Hi|done].
    + unfold dep_next in Hn. destruct (failing r); [by injection Hn as <-|].
      by apply after_statement_looking in Hn as (names & ->).
  - left. rewrite list_fmap_insert. apply exec_count. by rewrite list_lookup_fmap, Hi.
  - apply after_statement_looking in Ha as (names & ->). left. rewrite list_fmap_insert. apply exec_record.
    by rewrite list_lookup_fmap, Hi.
  - right. by rewrite (as_phase_same _ _ _ (DLooking t names (found ++ match tp with Some p => [p] | None => [] end)) Hi).
  - right. by rewrite (as_phase_same _ _ _ (DLooking t [] found) Hi).
  - right. by rewrite (as_phase_same _ _ _ DWaiting Hi).
Qed.

(** * What holds at every moment *)

(** The tasks that are sent or in the hands of a worker. *)
Definition task_id (w : dep_phase) : list nat :=
  match w with DWaiting => [] | DExecuting t _ | DCounting t _ | DRecording t _ | DLooking t _ _ => [t] end.
Definition held (d : dep_state) : list nat := (d_queue d).*1 ++ gather task_id (d_workers d).

(** The statement that creates a table has been answered. *)
Definition names_after (s : StatementWithType) (names : list (string * string)) : Prop :=
  s_ObjectType s = "TABLE" ∧ ∃ modern, gpdb_or_family srcDBVersion "7" = Ok modern ∧
    source_names modern (s_Schema s) (s_Name s) partNameMap = Ok names.
Definition created (outs : list outcome) (schema name : string) : Prop :=
  ∃ o names, o ∈ outs ∧ names_after (o_statement o) names ∧ (schema, name) ∈ names.
Definition created_pair (outs : list outcome) (p : TablePair) : Prop := created outs (Schema (DestTable p)) (Name (DestTable p)).

Definition phase_ok (outs : list outcome) (w : dep_phase) : Prop :=
  match w with
  | DCounting _ s | DRecording _ s => s ∈ o_statement <$> outs
  | DLooking _ names found => Forall (λ n, created outs n.1 n.2) names ∧ Forall (created_pair outs) found
  | _ => True
  end.

Record dep_ok (x0 : exec_state) (outs : list outcome) (d : dep_state) : Prop := {
  dk_exec : pool_ok answers x0 statements outs (exec_view d);
  dk_sched : rtc (sched_step relevantDeps statements (NumConns (x_conn x0))) sched0 (d_sched d);
  dk_held : held d ≡ₚ (map_to_list (s_running (d_sched d))).*1;
  dk_phases : Forall (phase_ok outs) (d_workers d);
  dk_sent : Forall (created_pair outs) (d_sent d)
}.

Lemma created_mono outs new schema name : created outs schema name → created (outs ++ new) schema name.
Proof. intros (o & names & Ho & Hn). exists o, names. split; [set_solver|done]. Qed.
Lemma phase_ok_mono outs new w : phase_ok outs w → phase_ok (outs ++ new) w.
Proof.
  destruct w; cbn; try done; rewrite ?fmap_app; try set_solver.
  intros [Hn Hf]. split; eapply Forall_impl; eauto using created_mono; intros ?; apply created_mono.
Qed.

Lemma after_statement_ok outs t s w : after_statement t s = Ok w → s ∈ o_statement <$> outs → phase_ok outs w.
Proof.
  unfold after_statement. case_bool_decide as Ht; intros Ha Hs; [|inv_go; by split].
  apply bind_Ok in Ha as (modern & Hm & Ha). apply bind_Ok in Ha as (names & Hn & [= <-]). split; [|done].
  apply Forall_forall. intros [schema name] Hin. apply list_elem_of_fmap in Hs as (o & -> & Ho).
  exists o, names. split; [done|]. split; [|done]. split; [done|]. by exists modern.
Qed.

Lemma formTablePair_dest schema name m tp m' : formTablePair schema name m = Ok (tp, m') →
  ∀ p, tp = Some p → Schema (DestTable p) = schema ∧ Name (DestTable p) = name.
Proof.
  unfold formTablePair. destruct (m !! (schema +:+ "." +:+ name)) as [v|]; [|intros [= <- <-]; done].
  intros Hb. apply bind_Ok in Hb as (src & _ & [= <- <-]). intros p [= <-]. done.
Qed.

(** The executing statements are those of the tasks in hand. *)
Lemma dep_ok_start x m : dep_ok x [] (dep_start x m).
Proof.
  assert (Hg : ∀ A (f : dep_phase → list A), f DWaiting = [] → gather f (replicate (NumConns (x_conn x)) DWaiting) = [])
    by (intros A f Hf; by apply gather_nil, Forall_replicate).
  split; cbn.
  - pose proof (pool_ok_start answers x statements) as Hp. unfold exec_view. cbn. rewrite drop_0. unfold exec_start in Hp.
    by rewrite fmap_replicate.
  - done.
  - unfold held, dep_start. cbn [d_queue d_workers d_sched s_running sched0 fmap list_fmap app]. by rewrite Hg, map_to_list_empty.
  - by apply Forall_replicate.
  - done.
Qed.

Lemma held_step d d' : dep_step d d' → held d ≡ₚ (map_to_list (s_running (d_sched d))).*1 →
  (∀ t s, s_running (d_sched d) !! t = Some s → t < s_next (d_sched d)) →
  or_same (sched_step relevantDeps statements (NumConns (x_conn (d_exec d)))) (d_sched d) (d_sched d') ∧
  held d' ≡ₚ (map_to_list (s_running (d_sched d'))).*1.
Proof.
  intros [i running dn s q m sent ws x Hs Hsch|sc t s q m sent ws x i Hi|sc q m sent ws x i t s c r w Hi He Hn|sc q m sent ws x i t s Hi
    |sc q m sent ws x i t s w Hi Ha|sc q m sent ws x i t schema name names found tp m' Hi _|sc q m sent ws x i t p found Hi
    |j running dn q m sent ws x i t Hi] Hheld Hlt; unfold held in *; cbn [d_sched d_queue d_workers d_exec s_next s_running] in *.
  - split; [left; by apply sched_start|]. rewrite map_to_list_insert.
    + rewrite fmap_app. cbn [fmap list_fmap fst]. rewrite <- Hheld, <- app_assoc. cbn. by rewrite <- Permutation_middle.
    + destruct (running !! i) as [s'|] eqn:Hr; [|done]. apply Hlt in Hr. lia.
  - split; [by right|]. rewrite <- Hheld. destruct (gather_insert task_id ws i _ (DExecuting t s) Hi) as (rest & Hg & Hg').
    rewrite Hg', Hg. cbn. by rewrite <- Permutation_middle.
  - split; [by right|]. rewrite <- Hheld. apply Permutation_app_head. destruct (gather_insert task_id ws i _ w Hi) as (rest & Hg & Hg').
    rewrite Hg', Hg. unfold dep_next in Hn. destruct (failing r); [by injection Hn as <-|].
    by apply after_statement_looking in Hn as (names & ->).
  - split; [by right|]. rewrite <- Hheld. apply Permutation_app_head.
    destruct (gather_insert task_id ws i _ (DRecording t s) Hi) as (rest & Hg & Hg'). by rewrite Hg', Hg.
  - split; [by right|]. rewrite <- Hheld. apply Permutation_app_head. destruct (gather_insert task_id ws i _ w Hi) as (rest & Hg & Hg').
    rewrite Hg', Hg. by apply after_statement_looking in Ha as (names & ->).
  - split; [by right|]. rewrite <- Hheld. apply Permutation_app_head.
    destruct (gather_insert task_id ws i _ (DLooking t names (found ++ match tp with Some p => [p] | None => [] end)) Hi) as (rest & Hg & Hg').
    by rewrite Hg', Hg.
  - split; [by right|]. rewrite <- Hheld. apply Permutation_app_head.
    destruct (gather_insert task_id ws i _ (DLooking t [] found) Hi) as (rest & Hg & Hg'). by rewrite Hg', Hg.
  - destruct (gather_insert task_id ws i _ DWaiting Hi) as (rest & Hg & Hg'). rewrite Hg in Hheld. cbn [task_id app] in Hheld.
    rewrite <- Permutation_middle in Hheld.
    assert (Hrun : is_Some (running !! t)).
    { assert (Hin : t ∈ (map_to_list running).*1) by (rewrite <- Hheld; set_solver).
      apply list_elem_of_fmap in Hin as ([t' s] & -> & Hin%elem_of_map_to_list). by exists s. }
    destruct Hrun as [s Hr]. split; [left; by eapply sched_finish|].
    rewrite Hg'. cbn [task_id app]. apply (Permutation_cons_inv (a := t)). rewrite Hheld.
    rewrite <- (insert_delete_id running t s Hr) at 1. rewrite map_to_list_insert by apply lookup_delete_eq. done.
Qed.

Lemma phases_insert outs new ws i w' : Forall (phase_ok outs) ws → phase_ok (outs ++ new) w' → Forall (phase_ok (outs ++ new)) (<[i := w']> ws).
Proof.
  intros Hws Hw. apply Forall_insert; [|done]. eapply Forall_impl; [exact Hws|]. intros w. apply phase_ok_mono.
Qed.

Lemma dep_ok_step (Hserver : polite answers) x0 outs d d' : wf (x_conn x0) →
  dep_ok x0 outs d → dep_step d d' → ∃ new, dep_ok x0 (outs ++ new) d'.
Proof.
  intros Hwf [Hexec Hsched Hheld Hphases Hsent] Hstep.
  assert (Hnew : ∃ new, pool_ok answers x0 statements (outs ++ new) (exec_view d') ∧ answered_by (exec_view d) (exec_view d') new).
  { destruct (exec_view_simulates _ _ Hstep) as [Hs|<-].
    - by apply (pool_ok_step answers Hserver x0 statements outs (exec_view d)).
    - exists []. rewrite app_nil_r. split; [done|]. intros i s Hi. by left. }
  destruct Hnew as (new & Hexec' & Hby). exists new.
  assert (Hnum : NumConns (x_conn (d_exec d)) = NumConns (x_conn x0)) by apply (lg_num _ _ _ _ (po_logged _ _ _ _ _ Hexec)).
  destruct (held_step _ _ Hstep Hheld) as [Hsch Hheld'].
  { intros t s Ht. by apply (ok_running _ _ _ _ (sched_reachable_ok _ _ _ _ Hsched)) in Ht as [? _]. }
  assert (Hsched' : rtc (sched_step relevantDeps statements (NumConns (x_conn x0))) sched0 (d_sched d')).
  { rewrite Hnum in Hsch. destruct Hsch as [Hs|<-]; [by eapply rtc_r|done]. }
  assert (Hsent' : Forall (created_pair (outs ++ new)) (d_sent d)) by (eapply Forall_impl; [exact Hsent|]; intros p; apply created_mono).
  split; [done..| |].
  - destruct Hstep as [i running dn s q m sent ws x Hs Hsc|sc t s q m sent ws x i Hi|sc q m sent ws x i t s c r w Hi He Hn|sc q m sent ws x i t s Hi
    |sc q m sent ws x i t s w Hi Ha|sc q m sent ws x i t schema name names found tp m' Hi Hf|sc q m sent ws x i t p found Hi
    |j running dn q m sent ws x i t Hi]; cbn [d_workers] in *; try (apply phases_insert; [done|]).
    + eapply Forall_impl; [exact Hphases|]. intros w. apply phase_ok_mono.
    + done.
    + assert (Hs : s ∈ o_statement <$> (outs ++ new)).
      { rewrite fmap_app, elem_of_app. right. destruct (Hby i s) as [Hbad|Hin]; [| |done].
        - cbn. by rewrite list_lookup_fmap, Hi.
        - cbn in Hbad. rewrite list_lookup_fmap, list_lookup_insert_eq in Hbad by (by eapply lookup_lt_Some).
          unfold dep_next in Hn. destruct (failing r); [by injection Hn as <-|].
          by apply after_statement_looking in Hn as (names & ->). }
      unfold dep_next in Hn. destruct (failing r); [by injection Hn as <-|]. by eapply after_statement_ok.
    + pose proof (Forall_lookup_1 _ _ _ _ Hphases Hi) as Hw. by apply (phase_ok_mono outs new (DCounting t s)).
    + pose proof (Forall_lookup_1 _ _ _ _ Hphases Hi) as Hw. eapply after_statement_ok; [done|].
      by apply (phase_ok_mono outs new (DRecording t s)).
    + pose proof (phase_ok_mono _ new _ (Forall_lookup_1 _ _ _ _ Hphases Hi)) as [Hnames Hfound].
      apply Forall_cons in Hnames as [Hn Hnames]. split; [done|]. apply Forall_app. split; [done|].
      destruct tp as [p|]; [|done]. apply Forall_singleton. unfold created_pair.
      destruct (formTablePair_dest _ _ _ _ _ Hf p eq_refl) as [-> ->]. done.
    + pose proof (phase_ok_mono _ new _ (Forall_lookup_1 _ _ _ _ Hphases Hi)) as [_ Hfound].
      apply Forall_cons in Hfound as [_ Hfound]. by split.
    + done.
  - destruct Hstep as [| | | | | |sc q m sent ws x i t p found Hi|]; cbn [d_sent d_workers] in *; try done.
    apply Forall_app. split; [done|]. apply Forall_singleton.
    pose proof (phase_ok_mono _ new _ (Forall_lookup_1 _ _ _ _ Hphases Hi)) as [_ Hfound]. by apply Forall_cons in Hfound as [Hp _].
Qed.

Lemma dep_ok_steps (Hserver : polite answers) x0 d d' : wf (x_conn x0) → rtc dep_step d d' →
  ∀ outs, dep_ok x0 outs d → ∃ new, dep_ok x0 (outs ++ new) d'.
Proof.
  intros Hwf. induction 1 as [d|d e f Hde _ IH]; intros outs Hok; [exists []; by rewrite app_nil_r|].
  destruct (dep_ok_step Hserver _ _ _ _ Hwf Hok Hde) as (new & He). destruct (IH _ He) as (more & Hf).
  exists (new ++ more). by rewrite app_assoc.
Qed.

(** * Termination *)

(** The source version is known, and the leaves of the partitioned tables have
    qualified names. *)
Definition names_known : Prop :=
  (∃ modern, gpdb_or_family srcDBVersion "7" = Ok modern) ∧
  map_Forall (λ _ leaves, Forall (λ l, 1 < length (Split l DOT)) leaves) partNameMap.

Lemma after_statement_known t s : names_known → ∃ names, after_statement t s = Ok (DLooking t names []).
Proof.
  intros [[modern Hm] Hleaves]. unfold after_statement. case_bool_decide; [|by eexists]. rewrite Hm. cbn [mbind go_bind].
  assert (Hn : ∃ names, source_names modern (s_Schema s) (s_Name s) partNameMap = Ok names).
  { unfold source_names. destruct modern; [by eexists|]. destruct (partNameMap !! _) as [leaves|] eqn:Hl; [|by eexists].
    apply Hleaves in Hl. clear -Hl. induction Hl as [|l leaves Hlen _ [names IH]]; [by exists []|].
    destruct (lookup_lt_is_Some_2 (Split l DOT) 0) as [a Ha]; [lia|]. destruct (lookup_lt_is_Some_2 (Split l DOT) 1) as [b Hb]; [lia|].
    exists ((a, b) :: names). cbn [go_map]. rewrite (proj2 (index_Ok _ _ _) Ha), (proj2 (index_Ok _ _ _) Hb). cbn [mbind go_bind].
    by rewrite IH. }
  destruct Hn as [names Hn]. exists names. by rewrite Hn.
Qed.

(** The number of look-ups of a statement. *)
Definition lookups (s : StatementWithType) : nat :=
  match after_statement 0 s with Ok (DLooking _ names _) => length names | _ => 0 end.
Lemma lookups_after t s w : after_statement t s = Ok w → ∃ names, w = DLooking t names [] ∧ lookups s = length names.
Proof.
  unfold lookups, after_statement. case_bool_decide as Ht; intros Ha; [|injection Ha as <-; by eexists].
  apply bind_Ok in Ha as (modern & -> & Ha). apply bind_Ok in Ha as (names & Hn & [= <-]). cbn [mbind go_bind].
  rewrite Hn. by eexists.
Qed.

Definition phase_steps (w : dep_phase) : nat :=
  match w with
  | DWaiting => 0
  | DExecuting _ s => 5 + 2 * lookups s
  | DCounting _ s => 4 + 2 * lookups s
  | DRecording _ s => 3 + 2 * lookups s
  | DLooking _ names found => 1 + 2 * length names + length found
  end.
Definition dep_left (d : dep_state) : nat :=
  sum_list_with (λ s, 7 + 2 * lookups s) (drop (s_next (d_sched d)) statements) +
  sum_list_with (λ ts, 6 + 2 * lookups ts.2) (d_queue d) + sum_list_with phase_steps (d_workers d).

Lemma dep_step_decreases d d' : dep_step d d' → dep_left d' < dep_left d.
Proof.
  assert (Hw : ∀ ws i w w', ws !! i = Some w → phase_steps w' < phase_steps w →
    sum_list_with phase_steps (<[i := w']> ws) < sum_list_with phase_steps ws).
  { intros ws i w w' Hi Hlt. destruct (sum_list_insert phase_steps ws i w w' Hi) as (rest & -> & ->). lia. }
  intros [i running dn s q m sent ws x Hs _|sc t s q m sent ws x i Hi|sc q m sent ws x i t s c r w Hi He Hn|sc q m sent ws x i t s Hi
    |sc q m sent ws x i t s w Hi Ha|sc q m sent ws x i t schema name names found tp m' Hi _|sc q m sent ws x i t p found Hi
    |j running dn q m sent ws x i t Hi]; unfold dep_left; cbn [d_sched d_queue d_workers s_next].
  - rewrite (drop_S _ _ _ Hs), sum_list_with_app. cbn [sum_list_with snd]. lia.
  - destruct (sum_list_insert phase_steps ws i _ (DExecuting t s) Hi) as (rest & -> & ->). cbn [sum_list_with snd phase_steps]. lia.
  - apply Nat.add_lt_mono_l. eapply Hw; [done|]. unfold dep_next in Hn. destruct (failing r).
    + injection Hn as <-. cbn. lia.
    + apply lookups_after in Hn as (names & -> & Hl). cbn [phase_steps length]. lia.
  - apply Nat.add_lt_mono_l. eapply Hw; [done|]. cbn. lia.
  - apply Nat.add_lt_mono_l. eapply Hw; [done|]. apply lookups_after in Ha as (names & -> & Hl). cbn [phase_steps length]. lia.
  - apply Nat.add_lt_mono_l. eapply Hw; [done|]. cbn [phase_steps length]. rewrite length_app. destruct tp; simpl; lia.
  - apply Nat.add_lt_mono_l. eapply Hw; [done|]. cbn. lia.
  - apply Nat.add_lt_mono_l. eapply Hw; [done|]. cbn. lia.
Qed.

Lemma dep_progress x0 outs d : names_known → good_map (d_map d) → 0 < NumConns (x_conn x0) → dep_ok x0 outs d →
  dep_end d ∨ ∃ d', dep_step d d'.
Proof.
  intros Hknown Hgood Hnum [Hexec Hsched Hheld Hphases _]. destruct d as [sc q m sent ws x]. cbn in *.
  destruct (decide (Forall (λ w, phase_steps w = 0) ws)) as [Hall|Hsome].
  - assert (Hw : Forall (λ w, w = DWaiting) ws) by (eapply Forall_impl; [exact Hall|]; by intros []).
    assert (Hlen : length ws = NumConns (x_conn x0)).
    { pose proof (po_workers _ _ _ _ _ Hexec) as Hlen. cbn in Hlen. by rewrite length_fmap in Hlen. }
    destruct q as [|[t s] q].
    + destruct sc as [i running dn]. cbn in *. destruct (statements !! i) as [s|] eqn:Hs.
      * right. eexists. apply (dep_schedule i running dn s); [done|]. apply should_schedule_true.
        assert (Hr : map_to_list running = []).
        { unfold held in Hheld. cbn in Hheld. rewrite gather_nil in Hheld by (eapply Forall_impl; [exact Hw|]; by intros w ->).
          apply Permutation_nil_l in Hheld. symmetry in Hheld. by apply fmap_nil_inv in Hheld. }
        apply map_to_list_empty_iff in Hr as ->. rewrite map_size_empty.
        pose proof (lg_num _ _ _ _ (po_logged _ _ _ _ _ Hexec)) as Hx. cbn in Hx. rewrite Hx. split; [done|]. intros t s'. by rewrite lookup_empty.
      * left. split; [|done]. cbn. apply lookup_ge_None in Hs.
        pose proof (ok_next _ _ _ _ (sched_reachable_ok _ _ _ _ Hsched)). cbn in *. lia.
    + right. destruct ws as [|w ws]; [simpl in Hlen; lia|]. apply Forall_cons in Hw as [-> _].
      eexists. by apply (dep_receive sc t s q m sent _ x 0).
  - right. apply not_Forall_Exists in Hsome; [|apply _]. apply Exists_exists in Hsome as (w & [i Hi]%list_elem_of_lookup & Hw).
    destruct w as [|t s|t s|t s|t [|[schema name] names] found]; [by destruct Hw|..].
    + destruct (Exec answers (Statement s) i (x_conn x)) as [c r] eqn:He.
      assert (Hn : ∃ w, dep_next t s r = Ok w).
      { unfold dep_next. destruct (failing r); [by eexists|]. destruct (after_statement_known t s Hknown) as [names ->]. by eexists. }
      destruct Hn as [w Hn]. eexists. by eapply dep_execute.
    + eexists. by eapply dep_count.
    + destruct (after_statement_known t s Hknown) as [names Ha]. eexists. by eapply dep_record.
    + destruct found as [|p found]; [|eexists; by eapply dep_send]. destruct sc as [j running dn]. eexists. by eapply dep_remove.
    + destruct (formTablePair_good schema name m Hgood) as (tp & m' & Hf & _). eexists. by eapply dep_lookup.
Qed.

Lemma dep_good_map d d' : rtc dep_step d d' → good_map (d_map d) → good_map (d_map d').
Proof.
  intros Hrun Hg. apply (or_same_rtc pool_step map_view) in Hrun; [|apply map_view_simulates].
  by apply (pool_steps_pairs _ _ Hrun).
Qed.

Lemma dep_ends (Hserver : polite answers) x0 d : names_known → 0 < NumConns (x_conn x0) → wf (x_conn x0) →
  ∀ outs, good_map (d_map d) → dep_ok x0 outs d → ∃ d', rtc dep_step d d' ∧ dep_end d'.
Proof.
  intros Hknown Hnum Hwf. induction d as [d IH] using (induction_ltof1 _ dep_left). unfold ltof in IH. intros outs Hg Hok.
  destruct (dep_progress x0 outs d Hknown Hg Hnum Hok) as [Hend|[d' Hstep]]; [by exists d|].
  destruct (dep_ok_step Hserver _ _ _ _ Hwf Hok Hstep) as (new & Hok').
  destruct (IH d' (dep_step_decreases _ _ Hstep) _ (dep_good_map _ _ (rtc_once _ _ Hstep) Hg) Hok') as (e & He & Hend).
  exists e. split; [by eapply rtc_l|done].
Qed.

(** At the end the table map has been searched by idle workers, and every
    statement has been answered. *)
Lemma dep_end_views d : dep_end d → exec_end (exec_view d) ∧ Forall (λ w, w = idle) (p_workers (map_view d)).
Proof.
  intros (Hn & Hq & Hw). unfold exec_end, exec_view, map_view. cbn. rewrite Hn, Hq, drop_all. split; [split; [done|]|].
  - apply Forall_fmap. eapply Forall_impl; [exact Hw|]. by intros w ->.
  - apply Forall_fmap. eapply Forall_impl; [exact Hw|]. by intros w ->.
Qed.

(** * The look-ups reach every created table *)

(** A statement creates the destination table of a pair, or its root. *)
Definition creates (s : StatementWithType) (p : TablePair) : Prop :=
  ∃ names, names_after s names ∧ (Schema (DestTable p), Name (DestTable p)) ∈ names.

(** A worker still has to look a name of a statement up. *)
Definition owes (s : StatementWithType) (n : string * string) (w : dep_phase) : Prop :=
  match w with
  | DWaiting => False
  | DExecuting _ s' | DCounting _ s' | DRecording _ s' => s' = s
  | DLooking _ names _ => n ∈ names
  end.

(** A name of a statement is still to be looked up, or is no longer in the
    table map. *)
Definition searched (d : dep_state) (s : StatementWithType) (n : string * string) : Prop :=
  s ∈ (d_queue d).*2 ∨ s ∈ drop (s_next (d_sched d)) statements ∨ Exists (owes s n) (d_workers d) ∨
  d_map d !! (n.1 +:+ "." +:+ n.2) = None.

Lemma owes_insert s n (ws : list dep_phase) i w w' (P : Prop) : ws !! i = Some w →
  (owes s n w → owes s n w' ∨ P) → Exists (owes s n) ws → Exists (owes s n) (<[i := w']> ws) ∨ P.
Proof.
  intros Hi Himp (w0 & [j Hj]%list_elem_of_lookup & Hw0)%Exists_exists.
  assert (Hin : ∀ j v, <[i := w']> ws !! j = Some v → owes s n v → Exists (owes s n) (<[i := w']> ws)).
  { intros k v Hv Ho. apply Exists_exists. exists v. split; [by eapply list_elem_of_lookup_2|done]. }
  destruct (decide (i = j)) as [<-|Hne].
  - rewrite Hi in Hj. injection Hj as <-. destruct (Himp Hw0) as [Ho|HP]; [left|by right].
    eapply (Hin i); [|done]. apply list_lookup_insert_eq. by eapply lookup_lt_Some.
  - left. eapply (Hin j); [|done]. by rewrite list_lookup_insert_ne.
Qed.
Lemma owes_inserted s n (ws : list dep_phase) i w w' : ws !! i = Some w → owes s n w' → Exists (owes s n) (<[i := w']> ws).
Proof.
  intros Hi Ho. apply Exists_exists. exists w'. split; [|done].
  apply (list_elem_of_lookup_2 _ i), list_lookup_insert_eq. by eapply lookup_lt_Some.
Qed.

Lemma names_after_looking s names t w : names_after s names → after_statement t s = Ok w → w = DLooking t names [].
Proof.
  intros (Ht & modern & Hm & Hn) Ha. unfold after_statement in Ha. rewrite bool_decide_true in Ha by done.
  rewrite Hm in Ha. cbn [mbind go_bind] in Ha. rewrite Hn in Ha. by injection Ha as <-.
Qed.

Lemma formTablePair_gone schema name m tp m' : formTablePair schema name m = Ok (tp, m') →
  m' !! (schema +:+ "." +:+ name) = None ∧ ∀ k, m !! k = None → m' !! k = None.
Proof.
  unfold formTablePair. destruct (m !! (schema +:+ "." +:+ name)) as [v|] eqn:Hl; intros Hf.
  - apply bind_Ok in Hf as (src & _ & [= <- <-]). split; [apply lookup_delete_eq|].
    intros k Hk. by apply lookup_delete_None; right.
  - by injection Hf as <- <-.
Qed.

Lemma searched_worker sc sc' q m sent sent' ws x x' i w w' s n : s_next sc = s_next sc' → ws !! i = Some w →
  (owes s n w → owes s n w') →
  searched {| d_sched := sc; d_queue := q; d_map := m; d_sent := sent; d_workers := ws; d_exec := x |} s n →
  searched {| d_sched := sc'; d_queue := q; d_map := m; d_sent := sent'; d_workers := <[i := w']> ws; d_exec := x' |} s n.
Proof.
  unfold searched. cbn. intros -> Hi Himp [Hq|[Hd|[Hw|Hm]]]; [tauto|tauto| |tauto].
  destruct (owes_insert s n ws i w w' False Hi) as [He|[]]; tauto.
Qed.

Lemma searched_step d d' s names n : dep_step d d' → names_after s names → n ∈ names → searched d s n → searched d' s n.
Proof.
  intros [j running dn s0 q m sent ws x Hs _|sc t s0 q m sent ws x i Hi|sc q m sent ws x i t s0 c r w Hi _ Hnext|sc q m sent ws x i t s0 Hi
    |sc q m sent ws x i t s0 w Hi Ha|sc q m sent ws x i t schema name ns found tp m' Hi Hf|sc q m sent ws x i t p found Hi
    |j running dn q m sent ws x i t Hi] Hafter Hn.
  - unfold searched. cbn. rewrite (drop_S _ _ _ Hs), fmap_app. cbn. set_solver.
  - unfold searched. cbn. intros [Hq|[Hd|[Hw|Hm]]]; [|tauto| |tauto].
    + apply elem_of_cons in Hq as [->|Hq]; [|tauto]. do 2 right. left. by eapply owes_inserted.
    + destruct (owes_insert s n ws i _ (DExecuting t s0) False Hi) as [He|[]]; [done|done|tauto].
  - apply (searched_worker _ _ _ _ _ _ _ _ _ i (DExecuting t s0)); [done|done|]. cbn. intros ->. unfold dep_next in Hnext.
    destruct (failing r); [by injection Hnext as <-|]. by rewrite (names_after_looking _ _ _ _ Hafter Hnext).
  - by apply (searched_worker _ _ _ _ _ _ _ _ _ i (DCounting t s0)).
  - apply (searched_worker _ _ _ _ _ _ _ _ _ i (DRecording t s0)); [done|done|]. cbn. intros ->.
    by rewrite (names_after_looking _ _ _ _ Hafter Ha).
  - destruct (formTablePair_gone _ _ _ _ _ Hf) as [Hgone Hkept]. unfold searched. cbn.
    intros [Hq|[Hd|[Hw|Hm]]]; [tauto|tauto| |by eauto 6].
    destruct (owes_insert s n ws i _ (DLooking t ns (found ++ match tp with Some p => [p] | None => [] end)) (n = (schema, name)) Hi) as [He| ->];
      [cbn; set_solver|done|tauto|by eauto 6].
  - by apply (searched_worker _ _ _ _ _ _ _ _ _ i (DLooking t [] (p :: found))).
  - apply (searched_worker _ _ _ _ _ _ _ _ _ i (DLooking t [] [])); [done|done|]. cbn. set_solver.
Qed.

(** At the end no pair of the table map is created by a statement. *)
Lemma leftovers_uncreated x tabMap d s p : good_map tabMap → rtc dep_step (dep_start x tabMap) d → dep_end d →
  s ∈ statements → p ∈ pairs_of (d_map d) → ¬ creates s p.
Proof.
  intros Hg Hrun (Hnext & Hq & Hw) Hs Hp (names & Hafter & Hn).
  assert (Hsearch : searched d s (Schema (DestTable p), Name (DestTable p))).
  { assert (Hstart : searched (dep_start x tabMap) s (Schema (DestTable p), Name (DestTable p))) by (right; left; done).
    clear Hnext Hq Hw Hp. induction Hrun; [done|]. eauto using searched_step. }
  apply list_elem_of_fmap in Hp as ([k v] & -> & Hl%elem_of_map_to_list).
  destruct (dep_good_map _ _ Hrun Hg k v Hl) as (a & b & Ha & Hb & -> & ->). rewrite decode_good in Hsearch by done.
  destruct Hsearch as [Hin|[Hin|[Hin|Hnone]]].
  - rewrite Hq in Hin. set_solver.
  - rewrite Hnext, drop_all in Hin. set_solver.
  - apply Exists_exists in Hin as (w & Hin & Howes). rewrite Forall_forall in Hw. by rewrite (Hw w Hin) in Howes.
  - cbn in Hnone. unfold fqn in Hl. congruence.
Qed.


(** What the end of a run leaves. *)
Lemma dep_end_complete (x : exec_state) (src dst : list Table) (tabMap : gmap string string) (d : dep_state)
    (Hserver : polite answers) (Hpool : wf (x_conn x))
    (Hlen : length src = length dst) (Hsrc : Forall plain_table src) (Hdst : Forall plain_table dst)
    (Hnd : NoDup (fqn <$> dst)) (Hmap : FormUserTableMap src dst = Ok tabMap)
    (Hrun : rtc dep_step (dep_start x tabMap) d) :
  length (d_sent d) ≤ length dst ∧
  (dep_end d → ∃ outs rest pairs, executed answers x (d_exec d) outs ∧ o_statement <$> outs ≡ₚ statements ∧
    RestoreCleanup (d_map d) = Ok rest ∧ fillTablePairChan src dst = Ok pairs ∧ d_sent d ++ rest ≡ₚ pairs).
Proof.
  assert (Hview : rtc pool_step (start_pool tabMap (NumConns (x_conn x))) (map_view d)).
  { pose proof (or_same_rtc pool_step map_view _ _ _ map_view_simulates Hrun) as Hv. unfold map_view in Hv at 1. cbn in Hv.
    by rewrite fmap_replicate in Hv. }
  destruct (pool_delivers src dst _ _ _ Hlen Hsrc Hdst Hnd Hmap Hview) as [Hsent Hpairs]. split; [done|].
  intros Hend. destruct (dep_end_views d Hend) as [Hexec Hidle]. destruct (Hpairs Hidle) as (rest & pairs & Hrest & Hfill & Hperm).
  destruct (dep_ok_steps Hserver x _ _ Hpool Hrun [] (dep_ok_start x tabMap)) as (outs & Hok).
  destruct (pool_ok_end _ _ _ _ _ (dk_exec _ _ _ Hok) Hexec) as [Hx Hst]. by exists outs, rest, pairs.
Qed.

(** C5: The restore of the dependent objects comes to its end, whatever the
    server answers and however scheduler and workers interleave. Then each
    statement has been executed exactly once, the recorded errors are exactly
    those of the statements that failed, and with the clean-up the channel has
    received every pair of the selection exactly once, the pairs the data-only
    path sends; at no moment does it hold more than its capacity
    (parallel_depend.go:209). *)
Theorem dependent_restore_completes (x : exec_state) (src dst : list Table) (tabMap : gmap string string) (d : dep_state)
    (Hserver : polite answers) (Hpool : wf (x_conn x)) (Hconn : 0 < NumConns (x_conn x)) (Hknown : names_known)
    (Hlen : length src = length dst) (Hsrc : Forall plain_table src) (Hdst : Forall plain_table dst)
    (Hnd : NoDup (fqn <$> dst)) (Hmap : FormUserTableMap src dst = Ok tabMap)
    (Hrun : rtc dep_step (dep_start x tabMap) d) :
  (∃ d', rtc dep_step d d' ∧ dep_end d') ∧ (∀ d', dep_step d d' → dep_left d' < dep_left d) ∧
  length (d_sent d) ≤ length dst ∧
  (dep_end d → ∃ outs rest pairs, executed answers x (d_exec d) outs ∧ o_statement <$> outs ≡ₚ statements ∧
    RestoreCleanup (d_map d) = Ok rest ∧ fillTablePairChan src dst = Ok pairs ∧ d_sent d ++ rest ≡ₚ pairs).
Proof.
  destruct (FormUserTableMap_good src dst) as (m & Hm & Hg & _); [done..|]. rewrite Hmap in Hm. injection Hm as <-.
  destruct (dep_ok_steps Hserver x _ _ Hpool Hrun [] (dep_ok_start x tabMap)) as (outs & Hok).
  split; [|split; [apply dep_step_decreases|by apply (dep_end_complete x src dst tabMap)]].
  eapply dep_ends; [done..| |exact Hok]. by apply (dep_good_map _ _ Hrun).
Qed.

(** C39: A table whose definition fails on the destination is handed to the data
    copy all the same: when a statement failed, its name is recorded, and every
    selected pair whose destination table it should have created is sent by the
    worker that met the error, not left to the clean-up
    (parallel_depend.go:139); the recorded names are read nowhere. *)
Theorem failed_tables_are_released (x : exec_state) (src dst : list Table) (tabMap : gmap string string) (d : dep_state)
    (Hserver : polite answers) (Hpool : wf (x_conn x))
    (Hlen : length src = length dst) (Hsrc : Forall plain_table src) (Hdst : Forall plain_table dst)
    (Hnd : NoDup (fqn <$> dst)) (Hmap : FormUserTableMap src dst = Ok tabMap)
    (Hrun : rtc dep_step (dep_start x tabMap) d) (Hend : dep_end d) :
  ∃ outs pairs, logged answers (x_conn x) (x_conn (d_exec d)) outs ∧ o_statement <$> outs ≡ₚ statements ∧
    fillTablePairChan src dst = Ok pairs ∧
    ∀ o, o ∈ outs → failing (o_answer o) = true →
      table_key (o_statement o) ∈ x_failed (d_exec d) ∧
      ∀ p, p ∈ pairs → creates (o_statement o) p → p ∈ d_sent d.
Proof.
  destruct (dep_end_complete x src dst tabMap d) as [_ Hcomplete]; [done..|].
  destruct (Hcomplete Hend) as (outs & rest & pairs & [Hlog Hfailed _] & Hst & Hrest & Hfill & Hperm).
  exists outs, pairs. split_and!; [done..|]. intros o Ho Hf. split.
  - rewrite Hfailed, elem_of_union. left. unfold failed_keys, failures. rewrite elem_of_list_to_set.
    apply list_elem_of_fmap_2, list_elem_of_fmap_2, list_elem_of_filter. by split.
  - destruct (FormUserTableMap_good src dst) as (m & Hm & Hg & _); [done..|]. rewrite Hmap in Hm. injection Hm as <-.
    intros p Hp Hcr. rewrite <- Hperm in Hp. apply elem_of_app in Hp as [Hp|Hp]; [done|]. exfalso.
    destruct (RestoreCleanup_good (d_map d)) as (rest' & Hrest' & Hperm'); [by apply (dep_good_map _ _ Hrun)|].
    rewrite Hrest in Hrest'. injection Hrest' as <-. rewrite Hperm' in Hp.
    apply (leftovers_uncreated x tabMap d (o_statement o) p); [done..| |done|done].
    rewrite <- Hst. by apply list_elem_of_fmap_2.
Qed.
End dependent.

(** * Instances: one worker creates [s.a], its pair is sent, and [s.b] is left
    to the clean-up. *)
Definition accepting : server := λ _ _ _ _, Ok 0%Z.
Definition refusing : server := λ _ _ _ _, Err "permission denied".
Lemma accepting_polite : polite accepting.
Proof. intros h n t r. left. by exists 0%Z. Qed.

Definition six : GPDBVersion :=
  {| VersionString := ""; SemVer := {| Major := 6; Minor := 0; Patch := 0 |}; Type_ := GPDB |}.
Definition two_tables : list Table := [mkTable "s" "a"; mkTable "s" "b"].
Definition two_map : gmap string string :=
  {["s.a" := table_entry (mkTable "s" "a"); "s.b" := table_entry (mkTable "s" "b")]}.
Definition one_connection : exec_state :=
  {| x_conn := {| NumConns := 1; Tx := [false]; log := [] |}; x_failed := ∅; x_errors := 0 |}.
Definition one_table : list StatementWithType := [plain_statement "a"].

(** The state after the run on a server. *)
Definition released (x : exec_state) : dep_state :=
  {| d_sched := {| s_next := 1; s_running := ∅; s_done := [0] |}; d_queue := []; d_map := delete "s.a" two_map;
     d_sent := [sent_pair (mkTable "s" "a") (mkTable "s" "a")]; d_workers := [DWaiting]; d_exec := x |}.
Definition after_accepted : exec_state := with_conn (fresh_errors one_connection) (Exec accepting "CREATE TABLE" 0 (x_conn one_connection)).1.
Definition after_refused : exec_state :=
  recorded_error (counted_error (with_conn (fresh_errors one_connection) (Exec refusing "CREATE TABLE" 0 (x_conn one_connection)).1)) (plain_statement "a").

Ltac run_step c := eapply rtc_l; [eapply c with (i := 0); first [reflexivity | vm_compute; reflexivity]|].
Lemma accepted_run : rtc (dep_step accepting six ∅ ∅ one_table) (dep_start one_connection two_map) (released after_accepted).
Proof.
  run_step (dep_schedule accepting six ∅ ∅ one_table).
  run_step (dep_receive accepting six ∅ ∅ one_table). run_step (dep_execute accepting six ∅ ∅ one_table).
  run_step (dep_lookup accepting six ∅ ∅ one_table). run_step (dep_send accepting six ∅ ∅ one_table).
  run_step (dep_remove accepting six ∅ ∅ one_table). apply rtc_refl.
Qed.
Lemma refused_run : rtc (dep_step refusing six ∅ ∅ one_table) (dep_start one_connection two_map) (released after_refused).
Proof.
  run_step (dep_schedule refusing six ∅ ∅ one_table).
  run_step (dep_receive refusing six ∅ ∅ one_table). run_step (dep_execute refusing six ∅ ∅ one_table).
  run_step (dep_count refusing six ∅ ∅ one_table). run_step (dep_record refusing six ∅ ∅ one_table).
  run_step (dep_lookup refusing six ∅ ∅ one_table). run_step (dep_send refusing six ∅ ∅ one_table).
  run_step (dep_remove refusing six ∅ ∅ one_table). apply rtc_refl.
Qed.
Lemma six_known : names_known six ∅.
Proof. split; [exists false; vm_compute; reflexivity|apply map_Forall_empty]. Qed.


Lemma dependent_restore_completes_witness :
  let d := released after_accepted in
  dep_end one_table d ∧
  (∃ d', rtc (dep_step accepting six ∅ ∅ one_table) d d' ∧ dep_end one_table d') ∧
  (∀ d', dep_step accepting six ∅ ∅ one_table d d' → dep_left six ∅ one_table d' < dep_left six ∅ one_table d) ∧
  length (d_sent d) ≤ 2 ∧
  (dep_end one_table d → ∃ outs rest pairs, executed accepting one_connection after_accepted outs ∧
    o_statement <$> outs ≡ₚ one_table ∧ RestoreCleanup (d_map d) = Ok rest ∧
    fillTablePairChan two_tables two_tables = Ok pairs ∧ d_sent d ++ rest ≡ₚ pairs).
Proof.
  intros d. split; [by repeat constructor|].
  apply (dependent_restore_completes accepting six ∅ ∅ one_table one_connection two_tables two_tables two_map d).
  - apply accepting_polite.
  - reflexivity.
  - apply (bool_decide_unpack _). vm_compute. exact I.
  - apply six_known.
  - reflexivity.
  - apply (bool_decide_unpack _). vm_compute. exact I.
  - apply (bool_decide_unpack _). vm_compute. exact I.
  - apply (bool_decide_unpack _). vm_compute. exact I.
  - vm_compute. reflexivity.
  - apply accepted_run.
Defined.

Lemma refusing_polite : polite refusing.
Proof. intros h n t r. right. by exists "permission denied". Qed.

(** The refused statement creates [s.a]. *)
Lemma failed_tables_are_released_witness :
  let d := released after_refused in
  creates six ∅ (plain_statement "a") (sent_pair (mkTable "s" "a") (mkTable "s" "a")) ∧
  ∃ outs pairs, logged refusing (x_conn one_connection) (x_conn after_refused) outs ∧ o_statement <$> outs ≡ₚ one_table ∧
    fillTablePairChan two_tables two_tables = Ok pairs ∧
    ∀ o, o ∈ outs → failing (o_answer o) = true →
      table_key (o_statement o) ∈ x_failed after_refused ∧
      ∀ p, p ∈ pairs → creates six ∅ (o_statement o) p → p ∈ d_sent d.
Proof.
  intros d. split.
  { exists [("s", "a")]. split; [|by apply list_elem_of_singleton]. split; [reflexivity|]. exists false. split; vm_compute; reflexivity. }
  apply (failed_tables_are_released refusing six ∅ ∅ one_table one_connection two_tables two_tables two_map d).
  - apply refusing_polite.
  - reflexivity.
  - reflexivity.
  - apply (bool_decide_unpack _). vm_compute. exact I.
  - apply (bool_decide_unpack _). vm_compute. exact I.
  - apply (bool_decide_unpack _). vm_compute. exact I.
  - vm_compute. reflexivity.
  - apply refused_run.
  - by repeat constructor.
Defined.
