(* ===== verification/RestoreRun.v ===== *)
(** The restore as a whole ([meta/builtin/builtin.go], [restore_helper.go]): the
    global objects, the steps of the pre-data, and the batches of the
    post-data, each with the statements it reads from the metadata file. *)
From S2P Require Import Prelude Utils Options QueryWrapper Version Toc DbConn Restore Scheduler Execute Predata.

(** * Runs of the restore *)

(** A part of the restore relates the states before and after it and its
    result; several runs of one part may end differently. *)
Definition run (A : Type) : Type := exec_state → exec_state → go A → Prop.
Definition run_go {A} (m : go A) : run A := λ x x' r, x' = x ∧ r = m.
Definition run_bind {A B} (m : run A) (k : A → run B) : run B := λ x x' r,
  ∃ x1 r1, m x x1 r1 ∧
  match r1 with
  | Ok a => k a x1 x' r
  | Err e => x' = x1 ∧ r = Err e
  | Fatal e => x' = x1 ∧ r = Fatal e
  | Panic e => x' = x1 ∧ r = Panic e
  end.
Notation "'run!' x ':=' m 'in' k" := (run_bind m (λ x, k))
  (at level 10, x pattern, m at level 100, k at level 200) : go_scope.

Section restore.
Context `{SemverLib} `{MapRange} (answers : server) (srcDBVersion : GPDBVersion) (relevantDeps : DependencyMap)
  (redirectSchema : gmap string string) (inclDestSchema : string).
Implicit Types (toc : TOC) (metadataFile : string).

Definition redirected (statements : list StatementWithType) : list StatementWithType :=
  editStatementsRedirectSchema redirectSchema inclDestSchema statements false.

(** ** Global objects *)

Definition global_types : list string :=
  ["SESSION GUCS"; "DATABASE GUC"; "DATABASE METADATA"; "RESOURCE QUEUE"; "RESOURCE GROUP"; "ROLE"; "ROLE GUCS";
   "ROLE GRANT"; "TABLESPACE"].
Definition restoreGlobal (User : string) toc metadataFile : run () :=
  run! statements := run_go (GetRestoreMetadataStatements toc metadataFile "global" global_types []) in
  λ x, ExecuteRestoreMetadataStatements answers x (RemoveActiveRole User statements) false.

(** [setGUCsForConnection]: the statements are read at the first call and
    handed back for the later ones. *)
Definition setGUCsForConnection toc metadataFile (gucStatements : option (list StatementWithType)) (whichConn : nat)
    : run (list StatementWithType) :=
  run! statements := run_go (match gucStatements with
    | Some l => Ok l
    | None => GetRestoreMetadataStatements toc metadataFile "global" ["SESSION GUCS"] []
    end) in
  run! _ := (λ x, ExecuteStatements answers x statements false [whichConn]) in
  run_go (Ok statements).

(** ** Pre-data *)

(** [RestoreSchemas]: on the first connection; an error is counted for the log
    and not recorded. *)
Fixpoint create_schemas (x : exec_state) (numErrors : Z) (schemas : list StatementWithType) : exec_state * go Z :=
  match schemas with
  | [] => (x, Ok numErrors)
  | schema :: schemas' =>
      let '(c, r) := Exec answers (Statement schema) 0 (x_conn x) in
      match r with
      | Ok _ => create_schemas (with_conn x c) numErrors schemas'
      | Err _ => create_schemas (with_conn x c) (if failing r then numErrors + 1 else numErrors) schemas'
      | Fatal e => (with_conn x c, Fatal e)
      | Panic e => (with_conn x c, Panic e)
      end
  end.
Definition RestoreSchemas (schemaStatements : list StatementWithType) : run Z := λ x x' r,
  create_schemas x 0 (editStatementsRedirectSchema redirectSchema inclDestSchema schemaStatements true) = (x', r).

(** [RestoreExtensions], [RestoreCollations], [RestoreTypes],
    [RestoreOperatorFamilies], [RestoreCreateSequences],
    [RestoreProceduralLanguages], [RestoreExternalParts],
    [RestoreSequenceOwner], [RestoreConversions] and [RestoreConstraints]. *)
Definition restore_type toc metadataFile (objectType : string) : run () :=
  run! stmts := run_go (GetRestoreMetadataStatements toc metadataFile "predata" [objectType] []) in
  λ x, ExecuteRestoreMetadataStatements answers x (redirected stmts) false.
Fixpoint restore_types toc metadataFile (objectTypes : list string) : run () :=
  match objectTypes with
  | [] => run_go (Ok ())
  | t :: objectTypes' => run! _ := restore_type toc metadataFile t in restore_types toc metadataFile objectTypes'
  end.

(** [RestoreDependentObjects]: what is left of the table map, and the pairs
    sent so far. *)
Definition RestoreDependentObjects toc metadataFile (partNameMap : gmap string (list string)) (tabMap : gmap string string)
    : run (gmap string string * list TablePair) :=
  run! stmts := run_go (GetRestoreMetadataStatements toc metadataFile "predata" [] dependent_excluded) in
  λ x x' r, ∃ d, rtc (dep_step answers srcDBVersion partNameMap relevantDeps (redirected stmts)) (dep_start x tabMap) d ∧
    dep_end (redirected stmts) d ∧ x' = d_exec d ∧ r = Ok (d_map d, d_sent d).

(** [restorePredata]: the pairs received by the data copy until the channel is
    closed. *)
Definition restorePredata toc metadataFile (partNameMap : gmap string (list string)) (tabMap : gmap string string)
    (schemaStatements : list StatementWithType) : run (list TablePair) :=
  run! _ := RestoreSchemas schemaStatements in
  run! _ := restore_types toc metadataFile types_before in
  run! (tabMap, sent) := RestoreDependentObjects toc metadataFile partNameMap tabMap in
  run! _ := restore_types toc metadataFile types_after in
  run! rest := run_go (RestoreCleanup tabMap) in
  run_go (Ok (sent ++ rest)).

(** [executeDDL] up to the end of its goroutine. *)
Definition executeDDL (WithGlobal : bool) (User : string) toc metadataFile (partNameMap : gmap string (list string))
    (tabMap : gmap string string) : run (list TablePair) :=
  run! _ := (if WithGlobal then restoreGlobal User toc metadataFile else run_go (Ok ())) in
  let filters := NewFilters [] [] [] [] in
  run! schemaStatements := run_go (GetRestoreMetadataStatementsFiltered toc metadataFile "predata" ["SCHEMA"] [] filters) in
  run! _ := run_go (GetRestoreMetadataStatementsFiltered toc metadataFile "predata" [] ["SCHEMA"] filters) in
  restorePredata toc metadataFile partNameMap tabMap schemaStatements.

(** ** Post-data *)

Definition restorePostdata toc metadataFile : run () :=
  run! statements := run_go (GetRestoreMetadataStatementsFiltered toc metadataFile "postdata" [] [] (NewFilters [] [] [] [])) in
  let statements := redirected statements in
  let '(firstBatch, secondBatch, thirdBatch) := BatchPostdataStatements statements in
  let execute batch : run () := λ x,
    ExecuteRestoreMetadataStatements answers x batch (bool_decide (1 < NumConns (x_conn x))) in
  if bool_decide (0 < length statements) then
    run! _ := execute firstBatch in
    run! _ := execute secondBatch in
    execute thirdBatch
  else run_go (Ok ()).

(** * What a run sends *)

(** A part of the restore that ends well: it sends the statements of some
    outcomes, nothing else, and leaves the pool as usable as before. *)
Definition restores {A} (m : run A) (Q : exec_state → exec_state → A → list outcome → Prop) : Prop :=
  ∀ x x' r, wf (x_conn x) → 0 < NumConns (x_conn x) → m x x' r →
    ∃ a outs, r = Ok a ∧ logged answers (x_conn x) (x_conn x') outs ∧ Q x x' a outs.

Lemma logged_wf c c' outs : logged answers c c' outs → wf c → wf c'.
Proof. intros [Hn Ht _ _]. unfold wf. by rewrite Hn, Ht. Qed.

Lemma restores_bind {A B} (m : run A) (k : A → run B) Q R S :
  restores m Q → (∀ x x1 a o, Q x x1 a o → restores (k a) (R a)) →
  (∀ x x1 x' a b o1 o2, Q x x1 a o1 → R a x1 x' b o2 → S x x' b (o1 ++ o2)) → restores (run_bind m k) S.
Proof.
  intros Hm Hk Himp x x' r Hwf Hnum (x1 & r1 & H1 & H2).
  destruct (Hm _ _ _ Hwf Hnum H1) as (a & o1 & -> & Hl1 & HQ).
  destruct (Hk x x1 a o1 HQ x1 x' r) as (b & o2 & -> & Hl2 & HR).
  - by eapply logged_wf.
  - by rewrite (lg_num _ _ _ _ Hl1).
  - done.
  - exists b, (o1 ++ o2). split; [done|]. split; [by eapply logged_trans|by eapply Himp].
Qed.

Lemma restores_go {A} (a : A) : restores (run_go (Ok a)) (λ x x' a' outs, x' = x ∧ a' = a ∧ outs = []).
Proof. intros x x' r _ _ [-> ->]. exists a, []. split; [done|]. split; [apply logged_refl|done]. Qed.

Lemma restores_mono {A} (m : run A) (Q R : exec_state → exec_state → A → list outcome → Prop) :
  restores m Q → (∀ x x' a outs, Q x x' a outs → R x x' a outs) → restores m R.
Proof. intros Hm Himp x x' r Hwf Hnum Hrun. destruct (Hm _ _ _ Hwf Hnum Hrun) as (a & outs & Hr & Hl & HQ). eauto 6. Qed.

(** The part after a pure computation that succeeds. *)
Lemma restores_step {A B} (m : go A) (k : A → run B) a Q : m = Ok a → restores (k a) Q → restores (run_bind (run_go m) k) Q.
Proof.
  intros -> Hk x x' r Hwf Hnum (x1 & r1 & [-> ->] & H2). by apply Hk.
Qed.

(** One call of [ExecuteRestoreMetadataStatements]. *)
Definition errors_of (x x' : exec_state) (outs : list outcome) : Prop := x_failed x' = failed_keys outs ∪ x_failed x.
Lemma errors_of_trans x x1 x' o1 o2 : errors_of x x1 o1 → errors_of x1 x' o2 → errors_of x x' (o1 ++ o2).
Proof. unfold errors_of. intros H1 H2. rewrite H2, H1, failed_keys_app. set_solver. Qed.
Lemma errors_of_refl x : errors_of x x [].
Proof. unfold errors_of. cbn. set_solver. Qed.

Lemma execute_restores (Hserver : polite answers) statements parallel :
  restores (λ x, ExecuteRestoreMetadataStatements answers x statements (parallel x))
    (λ x x' _ outs, errors_of x x' outs ∧ o_statement <$> outs ≡ₚ statements ∧
      (parallel x = false → o_statement <$> outs = statements)).
Proof.
  intros x x' r Hwf Hnum Hrun. unfold ExecuteRestoreMetadataStatements in Hrun. case_bool_decide as Hz.
  - destruct Hrun as [-> ->]. apply nil_length_inv in Hz as ->. exists (), []. split; [done|].
    split; [apply logged_refl|]. split; [apply errors_of_refl|done].
  - destruct (ExecuteStatements_spec answers Hserver x statements (parallel x) x' r Hwf Hnum Hrun) as (-> & outs & [Hl Hf _] & Hp & Hs).
    exists (), outs. split; [done|]. split; [done|]. split; [done|]. split; [done|]. intros Hpar. by apply Hs.
Qed.

Lemma create_schemas_restores (Hserver : polite answers) schemas x n : wf (x_conn x) → 0 < NumConns (x_conn x) →
  ∃ x' n' outs, create_schemas x n schemas = (x', Ok n') ∧ logged answers (x_conn x) (x_conn x') outs ∧
    x_failed x' = x_failed x ∧ o_statement <$> outs = schemas.
Proof.
  revert x n. induction schemas as [|schema schemas IH]; intros x n Hwf Hnum; cbn [create_schemas].
  - exists x, n, []. split; [done|]. split; [apply logged_refl|done].
  - destruct (wf_slot _ 0 Hwf Hnum) as [t Ht]. destruct (Exec_logged answers Hserver schema 0 t _ Ht) as (r & Heqr & Hlog & Hr).
    rewrite Heqr. set (c := (Exec answers (Statement schema) 0 (x_conn x)).1) in *. clearbody c.
    assert (Hk : ∀ n', ∃ x' n'' outs, create_schemas (with_conn x c) n' schemas = (x', Ok n'') ∧
      logged answers (x_conn x) (x_conn x') outs ∧ x_failed x' = x_failed x ∧ o_statement <$> outs = schema :: schemas).
    { intros n'. destruct (IH (with_conn x c) n') as (x' & n'' & outs & Heq & Hl & Hf & Hs).
      - by eapply logged_wf.
      - cbn. by rewrite (lg_num _ _ _ _ Hlog).
      - exists x', n'', ({| o_conn := 0; o_tx := t; o_statement := schema; o_answer := r |} :: outs). split; [done|]. split; [by eapply (logged_trans _ _ _ _ [_])|]. split; [done|]. cbn. by f_equal. }
    destruct Hr as [[z ->]|[e ->]]; apply Hk.
Qed.

Lemma RestoreSchemas_restores (Hserver : polite answers) schemas :
  restores (RestoreSchemas schemas) (λ x x' _ outs, x_failed x' = x_failed x ∧
    o_statement <$> outs = editStatementsRedirectSchema redirectSchema inclDestSchema schemas true).
Proof.
  intros x x' r Hwf Hnum Hrun. unfold RestoreSchemas in Hrun.
  destruct (create_schemas_restores Hserver (editStatementsRedirectSchema redirectSchema inclDestSchema schemas true) x 0 Hwf Hnum)
    as (x2 & n & outs & Heq & Hl & Hf & Hs).
  rewrite Heq in Hrun. injection Hrun as <- <-. by exists n, outs.
Qed.

(** ** The steps of the pre-data *)

Section predata.
Context (toc : TOC) (file : string) (all : list StatementWithType).
Hypothesis Hall : GetRestoreMetadataStatements toc file "predata" [] [] = Ok all.

Lemma restore_types_restores (Hserver : polite answers) ts :
  restores (restore_types toc file ts) (λ x x' _ outs, errors_of x x' outs ∧
    o_statement <$> outs = concat ((λ t, redirected (of_type all t)) <$> ts)).
Proof.
  induction ts as [|t ts IH]; cbn [restore_types fmap list_fmap concat].
  - eapply restores_mono; [apply restores_go|]. intros x x' a outs (-> & _ & ->). split; [apply errors_of_refl|done].
  - eapply restores_bind.
    + unfold restore_type. eapply restores_step; [by apply get_one_type|]. by apply (execute_restores Hserver _ (λ _, false)).
    + intros ? ? ? ? _. exact IH.
    + cbn. intros x x1 x' _ _ o1 o2 (He1 & _ & Ho1) (He2 & Ho2). split; [by eapply errors_of_trans|].
      by rewrite fmap_app, Ho1, Ho2.
Qed.

Lemma RestoreDependentObjects_restores (Hserver : polite answers) partNameMap (src dst : list Table) tabMap :
  length src = length dst → Forall plain_table src → Forall plain_table dst → NoDup (fqn <$> dst) → FormUserTableMap src dst = Ok tabMap →
  restores (RestoreDependentObjects toc file partNameMap tabMap)
    (λ x x' a outs, errors_of x x' outs ∧
      o_statement <$> outs ≡ₚ redirected (filter (λ s, s_ObjectType s ∉ dependent_excluded) all) ∧
      ∃ rest pairs, RestoreCleanup a.1 = Ok rest ∧ fillTablePairChan src dst = Ok pairs ∧ a.2 ++ rest ≡ₚ pairs).
Proof.
  intros Hlen Hsrc Hdst Hnd Hmap. unfold RestoreDependentObjects.
  eapply (restores_step _ _ (filter (λ s, s_ObjectType s ∉ dependent_excluded) all)).
  { rewrite (get_filtered _ _ [] dependent_excluded _ Hall). f_equal. apply list_filter_iff. intros s.
    change (include_or_exclude [] dependent_excluded) with (NewExcludeSet dependent_excluded). apply MatchesFilter_exclude. }
  intros x x' r Hwf Hnum (d & Hrun & Hend & -> & ->).
  destruct (dep_end_complete _ _ _ _ _ x src dst tabMap d Hserver Hwf Hlen Hsrc Hdst Hnd Hmap Hrun) as [_ Hc].
  destruct (Hc Hend) as (outs & rest & pairs & [Hl Hf _] & Hst & Hrest).
  exists (d_map d, d_sent d), outs. split; [done|]. split; [done|]. split; [done|]. split; [done|]. by exists rest, pairs.
Qed.

(** The statements of the pre-data restore: first the schemas and the steps
    before, then the dependent ones in any order, then the steps after. *)
Definition predata_order (l : list StatementWithType) : Prop :=
  ∃ dependent, l = editStatementsRedirectSchema redirectSchema inclDestSchema (of_type all "SCHEMA") true ++
      concat ((λ t, redirected (of_type all t)) <$> types_before) ++ dependent ++
      concat ((λ t, redirected (of_type all t)) <$> types_after) ∧
    dependent ≡ₚ redirected (filter (λ s, s_ObjectType s ∉ dependent_excluded) all).

Lemma restorePredata_restores (Hserver : polite answers) partNameMap (src dst : list Table) tabMap :
  length src = length dst → Forall plain_table src → Forall plain_table dst → NoDup (fqn <$> dst) → FormUserTableMap src dst = Ok tabMap →
  restores (restorePredata toc file partNameMap tabMap (of_type all "SCHEMA"))
    (λ x x' received outs, predata_order (o_statement <$> outs) ∧ x_failed x' ⊆ failed_keys outs ∪ x_failed x ∧
      ∃ pairs, fillTablePairChan src dst = Ok pairs ∧ received ≡ₚ pairs).
Proof.
  intros Hlen Hsrc Hdst Hnd Hmap. unfold restorePredata.
  set (after := concat ((λ t, redirected (of_type all t)) <$> types_after)).
  set (before := concat ((λ t, redirected (of_type all t)) <$> types_before)).
  set (between := redirected (filter (λ s, s_ObjectType s ∉ dependent_excluded) all)).
  eapply (restores_bind _ _ _ (λ _ x x' received outs, errors_of x x' outs ∧
    (∃ dependent, o_statement <$> outs = before ++ dependent ++ after ∧ dependent ≡ₚ between) ∧
    ∃ pairs, fillTablePairChan src dst = Ok pairs ∧ received ≡ₚ pairs)); [by apply RestoreSchemas_restores| |].
  - intros ux uy ua uo _.
    eapply (restores_bind _ _ _ (λ _ x x' received outs, errors_of x x' outs ∧
      (∃ dependent, o_statement <$> outs = dependent ++ after ∧ dependent ≡ₚ between) ∧
      ∃ pairs, fillTablePairChan src dst = Ok pairs ∧ received ≡ₚ pairs)); [by apply restore_types_restores| |].
    + intros vx vy va vo _.
      eapply (restores_bind _ _ _ (λ a x x' received outs, errors_of x x' outs ∧ o_statement <$> outs = after ∧
        ∃ rest pairs, received = a.2 ++ rest ∧ fillTablePairChan src dst = Ok pairs ∧ received ≡ₚ pairs));
        [by apply (RestoreDependentObjects_restores Hserver partNameMap src dst tabMap)| |].
      * intros y y1 [m sent] oy (_ & _ & rest & pairs & Hrest & Hfill & Hperm).
        eapply restores_bind; [by apply restore_types_restores| |].
        -- intros wx wy wa wo _. eapply restores_step; [exact Hrest|]. apply restores_go.
        -- cbn. intros z z1 z' _ received o1 o2 (He & Hs) (-> & -> & ->). rewrite app_nil_r. split; [done|]. split; [done|]. by exists rest, pairs.
      * intros x x1 x' a received o1 o2 (He1 & Hs1 & _) (He2 & Hs2 & rest & pairs & _ & Hfill & Hperm).
        split; [by eapply errors_of_trans|]. split; [|by exists pairs]. exists (o_statement <$> o1). by rewrite fmap_app, Hs2.
    + intros x x1 x' _ received o1 o2 (He1 & Hs1) (He2 & (dependent & Hs2 & Hd) & Hp).
      split; [by eapply errors_of_trans|]. split; [|done]. exists dependent. by rewrite fmap_app, Hs1, Hs2.
  - intros x x1 x' _ received o1 o2 (Hf1 & Hs1) (He2 & (dependent & Hs2 & Hd) & Hp).
    split; [|split; [|done]].
    + exists dependent. by rewrite fmap_app, Hs1, Hs2.
    + rewrite He2, Hf1, failed_keys_app. set_solver.
Qed.
End predata.

(** ** The batches of the post-data *)

Lemma get_all toc file section : GetRestoreMetadataStatements toc file section [] [] =
  GetRestoreMetadataStatementsFiltered toc file section [] [] (NewFilters [] [] [] []).
Proof. done. Qed.

Lemma batches_restore (Hserver : polite answers) first second third parallel :
  restores (run! _ := (λ x, ExecuteRestoreMetadataStatements answers x first (parallel x)) in
            run! _ := (λ x, ExecuteRestoreMetadataStatements answers x second (parallel x)) in
            (λ x, ExecuteRestoreMetadataStatements answers x third (parallel x)))
    (λ x x' _ outs, errors_of x x' outs ∧ ∃ o1 o2 o3, outs = o1 ++ o2 ++ o3 ∧
      o_statement <$> o1 ≡ₚ first ∧ o_statement <$> o2 ≡ₚ second ∧ o_statement <$> o3 ≡ₚ third).
Proof.
  eapply (restores_bind _ _ _ (λ _ x x' _ outs, errors_of x x' outs ∧ ∃ o2 o3, outs = o2 ++ o3 ∧
    o_statement <$> o2 ≡ₚ second ∧ o_statement <$> o3 ≡ₚ third)); [by apply execute_restores| |].
  - intros ux uy ua uo _. eapply restores_bind; [by apply execute_restores|intros vx vy va vo _; by apply execute_restores|].
    intros x x1 x' _ _ o1 o2 (He1 & H1 & _) (He2 & H2 & _). split; [by eapply errors_of_trans|]. by exists o1, o2.
  - intros x x1 x' _ _ o1 o23 (He1 & H1 & _) (He2 & o2 & o3 & -> & H2 & H3). split; [by eapply errors_of_trans|].
    by exists o1, o2, o3.
Qed.

(** C33: The post-data restore executes every statement of its section exactly
    once, in three groups, each answered before the next one starts: first one
    index of every table that has an index, so that two indexes of one table
    are never created together while it has none; then the others; then the
    statements on the metadata of those objects (builtin.go:480). *)
Theorem postdata_first_index_alone (toc : TOC) (file : string) (all : list StatementWithType) (x x' : exec_state) (r : go ())
    (Hserver : polite answers) (Hpool : wf (x_conn x)) (Hconn : 0 < NumConns (x_conn x))
    (Hall : GetRestoreMetadataStatements toc file "postdata" [] [] = Ok all) (Hrun : restorePostdata toc file x x' r) :
  r = Ok () ∧ ∃ o1 o2 o3, logged answers (x_conn x) (x_conn x') (o1 ++ o2 ++ o3) ∧ errors_of x x' (o1 ++ o2 ++ o3) ∧
    o_statement <$> (o1 ++ o2 ++ o3) ≡ₚ redirected all ∧
    NoDup (s_ReferenceObject ∘ o_statement <$> o1) ∧
    (∀ s, s ∈ redirected all → s_ObjectType s = "INDEX" → s_ReferenceObject s ∈ s_ReferenceObject ∘ o_statement <$> o1) ∧
    (∀ o, o ∈ o1 → s_ObjectType (o_statement o) = "INDEX") ∧
    (∀ o, o ∈ o2 → Contains (s_ObjectType (o_statement o)) " METADATA" = false) ∧
    (∀ o, o ∈ o3 → Contains (s_ObjectType (o_statement o)) " METADATA" = true).
Proof.
  unfold restorePostdata in Hrun. destruct Hrun as (x1 & r1 & [-> ->] & Hrun). rewrite <- get_all, Hall in Hrun.
  destruct (BatchPostdataStatements (redirected all)) as [[first second] third] eqn:Hb.
  destruct (batch_from_spec _ _ _ _ _ Hb) as (Hperm & Hi & Hn & Hc). destruct (batch_from_metadata _ _ _ _ _ Hb) as [H2 H3].
  case_bool_decide as Hlen.
  - destruct (batches_restore Hserver first second third (λ x, bool_decide (1 < NumConns (x_conn x))) x x' r Hpool Hconn Hrun)
      as ([] & outs & -> & Hl & He & o1 & o2 & o3 & -> & Ho1 & Ho2 & Ho3).
    split; [done|]. exists o1, o2, o3. split; [done|]. split; [done|].
    assert (Hrefs : s_ReferenceObject ∘ o_statement <$> o1 ≡ₚ s_ReferenceObject <$> first) by (by rewrite list_fmap_compose, Ho1).
    split; [by rewrite !fmap_app, Ho1, Ho2, Ho3|]. split; [by rewrite Hrefs|]. split.
    { intros s Hs Ht. rewrite Hrefs. destruct (Hc s Hs Ht); [set_solver|done]. }
    split_and!; intros o Ho; [apply Hi; rewrite <- Ho1|apply H2; rewrite <- Ho2|apply H3; rewrite <- Ho3]; by apply list_elem_of_fmap_2.
  - destruct Hrun as [-> ->]. split; [done|]. exists [], [], []. assert (Hnil : redirected all = []) by (apply nil_length_inv; lia).
    rewrite Hnil. split; [apply logged_refl|]. split; [apply errors_of_refl|]. split; [done|]. split; [constructor|]. split_and!; set_solver.
Qed.

(** ** Every part comes to its end *)

Definition terminates {A} (m : run A) : Prop := ∀ x, wf (x_conn x) → 0 < NumConns (x_conn x) → ∃ x' r, m x x' r.
Lemma terminates_go {A} (m : go A) : terminates (run_go m).
Proof. intros x _ _. by exists x, m. Qed.
Lemma terminates_bind {A B} (m : run A) (k : A → run B) Q :
  restores m Q → terminates m → (∀ a, terminates (k a)) → terminates (run_bind m k).
Proof.
  intros Hm Ht Hk x Hwf Hnum. destruct (Ht x Hwf Hnum) as (x1 & r1 & H1).
  destruct (Hm _ _ _ Hwf Hnum H1) as (a & outs & -> & Hl & _).
  destruct (Hk a x1) as (x' & r & H2); [by eapply logged_wf|by rewrite (lg_num _ _ _ _ Hl)|]. exists x', r, x1, (Ok a). done.
Qed.
Lemma terminates_step {A B} (m : go A) (k : A → run B) : (∀ a, m = Ok a → terminates (k a)) → terminates (run_bind (run_go m) k).
Proof.
  intros Hk x Hwf Hnum. destruct m as [a|e|e|e].
  - destruct (Hk a eq_refl x Hwf Hnum) as (x' & r & H2). by exists x', r, x, (Ok a).
  - by exists x, (Err e), x, (Err e).
  - by exists x, (Fatal e), x, (Fatal e).
  - by exists x, (Panic e), x, (Panic e).
Qed.
Lemma execute_terminates statements parallel : terminates (λ x, ExecuteRestoreMetadataStatements answers x statements (parallel x)).
Proof.
  intros x _ Hnum. unfold ExecuteRestoreMetadataStatements. case_bool_decide; [by exists x, (Ok ())|]. destruct (parallel x).
  - destruct (ExecuteStatements_total answers x statements [] Hnum) as [x' Hx]. by exists x', (Ok ()).
  - destruct (ExecuteStatements_serial answers x statements []) as [x' r] eqn:Hs. exists x', r. by apply execute_serial.
Qed.

Lemma restore_types_terminates (Hserver : polite answers) toc file all ts :
  GetRestoreMetadataStatements toc file "predata" [] [] = Ok all → terminates (restore_types toc file ts).
Proof.
  intros Hall. induction ts as [|t ts IH]; cbn [restore_types]; [apply terminates_go|].
  eapply terminates_bind; [| |intros _; exact IH].
  - unfold restore_type. eapply restores_step; [by apply get_one_type|]. by apply (execute_restores Hserver _ (λ _, false)).
  - apply terminates_step. intros stmts _. apply (execute_terminates _ (λ _, false)).
Qed.

Lemma RestoreSchemas_terminates (Hserver : polite answers) schemas : terminates (RestoreSchemas schemas).
Proof.
  intros x Hwf Hnum. destruct (create_schemas_restores Hserver
    (editStatementsRedirectSchema redirectSchema inclDestSchema schemas true) x 0 Hwf Hnum) as (x' & n & _ & Heq & _).
  by exists x', (Ok n).
Qed.

Lemma RestoreDependentObjects_terminates (Hserver : polite answers) toc file partNameMap tabMap :
  names_known srcDBVersion partNameMap → good_map tabMap → terminates (RestoreDependentObjects toc file partNameMap tabMap).
Proof.
  intros Hknown Hgood. apply terminates_step. intros stmts _ x Hwf Hnum.
  destruct (dep_ends answers srcDBVersion partNameMap relevantDeps (redirected stmts) Hserver x (dep_start x tabMap) Hknown Hnum Hwf [] Hgood)
    as (d & Hrun & Hend); [apply dep_ok_start|]. exists (d_exec d), (Ok (d_map d, d_sent d)), d. done.
Qed.

(** ** The whole restore *)

(** The edits keep each statement apart. *)
Lemma redirected_app l k : redirected (l ++ k) = redirected l ++ redirected k.
Proof. unfold redirected, editStatementsRedirectSchema. case_bool_decide; [done|apply fmap_app]. Qed.
Lemma redirected_concat ls : concat (redirected <$> ls) = redirected (concat ls).
Proof.
  induction ls as [|l ls IH]; cbn [fmap list_fmap concat].
  - unfold redirected, editStatementsRedirectSchema. by case_bool_decide.
  - by rewrite redirected_app, <- IH.
Qed.
Lemma redirected_perm l k : l ≡ₚ k → redirected l ≡ₚ redirected k.
Proof. unfold redirected, editStatementsRedirectSchema. case_bool_decide; [done|]. by intros ->. Qed.

(** The pre-data statements as they are executed: a schema is edited as such. *)
Definition redirect_predata (l : list StatementWithType) : list StatementWithType :=
  editStatementsRedirectSchema redirectSchema inclDestSchema (of_type l "SCHEMA") true ++
  redirected (filter (λ s, s_ObjectType s ≠ "SCHEMA") l).

Lemma predata_order_complete all l : predata_order all l → l ≡ₚ redirect_predata all.
Proof.
  intros (dependent & -> & Hd). unfold redirect_predata. apply Permutation_app_head. rewrite Hd.
  rewrite !(list_fmap_compose (of_type all) redirected), !redirected_concat, <- !redirected_app. apply redirected_perm.
  pose proof (steps_of_permutation (filter (λ s, s_ObjectType s ≠ "SCHEMA") all)) as Hp. rewrite <- Hp. unfold steps_of.
  rewrite !concat_app. cbn [concat]. rewrite !app_nil_r.
  assert (Hof : ∀ t, of_type (filter (λ s, s_ObjectType s ≠ "SCHEMA") all) t = if decide (t = "SCHEMA") then [] else of_type all t).
  { intros t. unfold of_type. rewrite list_filter_filter. case_decide as Ht.
    - subst. clear. induction all as [|s l IH]; [done|]. rewrite filter_cons_False by tauto. done.
    - apply list_filter_iff. naive_solver. }
  assert (Hmap : ∀ ts : list string, "SCHEMA" ∉ ts → of_type (filter (λ s, s_ObjectType s ≠ "SCHEMA") all) <$> ts = of_type all <$> ts).
  { intros ts Hts. apply list_fmap_ext. intros i t Ht. rewrite Hof, decide_False; [done|].
    intros ->. by apply Hts, (list_elem_of_lookup_2 _ i). }
  rewrite Hof, decide_True by done. rewrite !Hmap by (apply (bool_decide_unpack _); vm_compute; exact I).
  cbn [app]. apply Permutation_app_head, Permutation_app_tail. rewrite list_filter_filter.
  erewrite list_filter_iff; [reflexivity|]. intros s. unfold dependent_excluded. set_solver.
Qed.

Section whole.
Context (toc : TOC) (file : string) (globals predata postdata : list StatementWithType).
Hypotheses (Hglobal : GetRestoreMetadataStatements toc file "global" global_types [] = Ok globals)
  (Hpredata : GetRestoreMetadataStatements toc file "predata" [] [] = Ok predata)
  (Hpostdata : GetRestoreMetadataStatements toc file "postdata" [] [] = Ok postdata).
Context (Hserver : polite answers) (User : string) (partNameMap : gmap string (list string)) (src dst : list Table)
  (tabMap : gmap string string).
Hypotheses (Hlen : length src = length dst) (Hsrc : Forall plain_table src) (Hdst : Forall plain_table dst)
  (Hnd : NoDup (fqn <$> dst)) (Hmap : FormUserTableMap src dst = Ok tabMap).

Lemma restoreGlobal_restores : restores (restoreGlobal User toc file)
  (λ x x' _ outs, errors_of x x' outs ∧ o_statement <$> outs = RemoveActiveRole User globals).
Proof.
  unfold restoreGlobal. eapply restores_step; [exact Hglobal|].
  eapply restores_mono; [by apply (execute_restores Hserver _ (λ _, false))|]. cbn. intros x x' _ outs (He & _ & Hs). auto.
Qed.

Definition global_part (WithGlobal : bool) : list StatementWithType := if WithGlobal then RemoveActiveRole User globals else [].

Lemma global_step_restores (WithGlobal : bool) :
  restores (if WithGlobal then restoreGlobal User toc file else run_go (Ok ()))
    (λ x x' _ outs, o_statement <$> outs = global_part WithGlobal).
Proof.
  destruct WithGlobal; (eapply restores_mono; [first [apply restoreGlobal_restores|apply restores_go]|]); cbn.
  - by intros x x' _ outs [_ Hs].
  - by intros x x' _ outs (_ & _ & ->).
Qed.

Lemma executeDDL_restores (WithGlobal : bool) :
  restores (executeDDL WithGlobal User toc file partNameMap tabMap)
    (λ x x' received outs, o_statement <$> outs ≡ₚ global_part WithGlobal ++ redirect_predata predata ∧
      ∃ pairs, fillTablePairChan src dst = Ok pairs ∧ received ≡ₚ pairs).
Proof.
  unfold executeDDL.
  eapply (restores_bind _ _ _ (λ _ x x' received outs, predata_order predata (o_statement <$> outs) ∧
    x_failed x' ⊆ failed_keys outs ∪ x_failed x ∧ ∃ pairs, fillTablePairChan src dst = Ok pairs ∧ received ≡ₚ pairs));
    [apply global_step_restores| |].
  - intros ux uy ua uo _. eapply restores_step; [exact (get_one_type _ _ "SCHEMA" _ Hpredata)|].
    eapply restores_step; [exact (get_filtered _ _ [] ["SCHEMA"] _ Hpredata)|]. by apply restorePredata_restores.
  - intros x x1 x' a received o1 o2 Hs1 (Hs2 & _ & Hpairs). split; [|done].
    rewrite fmap_app, Hs1. apply Permutation_app_head. by apply predata_order_complete.
Qed.

Lemma executeDDL_terminates (WithGlobal : bool) : names_known srcDBVersion partNameMap → terminates (executeDDL WithGlobal User toc file partNameMap tabMap).
Proof.
  intros Hknown. destruct (FormUserTableMap_good src dst) as (m & Hm & Hgood & _); [done..|]. rewrite Hmap in Hm. injection Hm as <-.
  unfold executeDDL. eapply terminates_bind; [apply global_step_restores| |].
  { destruct WithGlobal; [|apply terminates_go]. apply terminates_step. intros l _. apply (execute_terminates _ (λ _, false)). }
  intros _. apply terminates_step. intros schemas _. apply terminates_step. intros _ _. unfold restorePredata.
  eapply terminates_bind; [by apply RestoreSchemas_restores|by apply RestoreSchemas_terminates|intros _].
  eapply terminates_bind; [by apply restore_types_restores|by eapply restore_types_terminates|intros _].
  eapply terminates_bind; [by apply (RestoreDependentObjects_restores toc file _ Hpredata Hserver partNameMap src dst tabMap)
    |by apply RestoreDependentObjects_terminates|intros [m sent]].
  eapply terminates_bind; [by apply restore_types_restores|by eapply restore_types_terminates|intros _].
  apply terminates_step. intros rest _. apply terminates_go.
Qed.

Lemma restorePostdata_restores : restores (restorePostdata toc file)
  (λ x x' _ outs, o_statement <$> outs ≡ₚ redirected postdata).
Proof.
  unfold restorePostdata. eapply restores_step; [exact Hpostdata|].
  destruct (BatchPostdataStatements (redirected postdata)) as [[first second] third] eqn:Hb.
  destruct (batch_from_spec _ _ _ _ _ Hb) as (Hperm & _). case_bool_decide as Hz.
  - eapply restores_mono; [by apply (batches_restore Hserver first second third (λ x, bool_decide (1 < NumConns (x_conn x))))|].
    cbn. intros x x' _ outs (_ & o1 & o2 & o3 & -> & H1 & H2 & H3). by rewrite !fmap_app, H1, H2, H3.
  - eapply restores_mono; [apply restores_go|]. cbn. intros x x' _ outs (_ & _ & ->).
    assert (Hnil : redirected postdata = []) by (apply nil_length_inv; clear -Hz; lia). by rewrite Hnil.
Qed.

Lemma restorePostdata_terminates : terminates (restorePostdata toc file).
Proof.
  unfold restorePostdata. apply terminates_step. intros l _.
  destruct (BatchPostdataStatements (redirected l)) as [[first second] third]. case_bool_decide; [|apply terminates_go].
  set (p := λ x : exec_state, bool_decide (1 < NumConns (x_conn x))).
  eapply terminates_bind; [by apply (execute_restores Hserver first p)|apply (execute_terminates first p)|intros _].
  eapply terminates_bind; [by apply (execute_restores Hserver second p)|apply (execute_terminates second p)|intros _].
  apply (execute_terminates third p).
Qed.
End whole.
End restore.

(** * Instances: the indexes of two tables on one connection. *)
Definition index_statement (table name : string) : emission :=
  {| em_section := "postdata"; em_entry := new_entry "s" name "INDEX" table; em_texts := ["CREATE INDEX"] |}.
Definition three_indexes : list piece :=
  Recorded <$> [index_statement "s.a" "i1"; index_statement "s.a" "i2"; index_statement "s.b" "i3"].
Definition three_indexes_file : string * TOC :=
  match go_fold print_piece (NewFileWithByteCount, emptyTOC) three_indexes with
  | Ok (file, toc) => (Content file, toc)
  | _ => ("", emptyTOC)
  end.
Definition index_on_file (table name : string) : StatementWithType := em_statement (index_statement table name).
Definition first_indexes : list StatementWithType := [index_on_file "s.a" "i1"; index_on_file "s.b" "i3"].
Definition after_first : exec_state := (executeStatementsForConn accepting 0 (fresh_errors one_connection) first_indexes).1.
Definition after_indexes : exec_state := (executeStatementsForConn accepting 0 (fresh_errors after_first) [index_on_file "s.a" "i2"]).1.

Lemma postdata_first_index_alone_witness :
  let all := em_statement <$> [index_statement "s.a" "i1"; index_statement "s.a" "i2"; index_statement "s.b" "i3"] in
  Ok () = Ok () ∧ ∃ o1 o2 o3, logged accepting (x_conn one_connection) (x_conn after_indexes) (o1 ++ o2 ++ o3) ∧
    errors_of one_connection after_indexes (o1 ++ o2 ++ o3) ∧
    o_statement <$> (o1 ++ o2 ++ o3) ≡ₚ redirected ∅ "" all ∧
    NoDup (s_ReferenceObject ∘ o_statement <$> o1) ∧
    (∀ s, s ∈ redirected ∅ "" all → s_ObjectType s = "INDEX" → s_ReferenceObject s ∈ s_ReferenceObject ∘ o_statement <$> o1) ∧
    (∀ o, o ∈ o1 → s_ObjectType (o_statement o) = "INDEX") ∧
    (∀ o, o ∈ o2 → Contains (s_ObjectType (o_statement o)) " METADATA" = false) ∧
    (∀ o, o ∈ o3 → Contains (s_ObjectType (o_statement o)) " METADATA" = true).
Proof.
  intros all. apply (postdata_first_index_alone accepting ∅ "" three_indexes_file.2 three_indexes_file.1 all one_connection after_indexes).
  - apply accepting_polite.
  - reflexivity.
  - apply (bool_decide_unpack _). vm_compute. exact I.
  - vm_compute. reflexivity.
  - exists one_connection, (Ok [index_on_file "s.a" "i1"; index_on_file "s.a" "i2"; index_on_file "s.b" "i3"]).
    split; [split; [reflexivity|vm_compute; reflexivity]|]. cbv beta iota zeta.
    replace (BatchPostdataStatements (redirected ∅ "" [index_on_file "s.a" "i1"; index_on_file "s.a" "i2"; index_on_file "s.b" "i3"]))
      with (first_indexes, [index_on_file "s.a" "i2"], [] : list StatementWithType) by (vm_compute; reflexivity).
    exists after_first, (Ok ()). split; [apply execute_serial; vm_compute; reflexivity|].
    exists after_indexes, (Ok ()). split; [apply execute_serial; vm_compute; reflexivity|]. by split.
Defined.
