(* ===== verification/Metadata.v ===== *)
(** From the extraction of the metadata to its restore: what a copy prints, in
    [extract_helper.go] and [builtin.go], is what the restore of [RestoreRun]
    reads back and executes. *)
From S2P Require Import Prelude Utils Toc Version Options Validator QueryWrapper DbConn Restore Scheduler Execute Predata RestoreRun SkipExisting Dependencies Queries Acl Functions Types Externals Relations TableQueries Globals Statistics Dependents Extract.

(** The emissions of a section. *)
Definition of_section (section : string) (ps : list piece) : list emission := filter (λ em, em_section em = section) (omap recorded ps).

(** Without filters a section is read back whole. *)
Lemma sections_read_back ps : Forall known_piece ps → (Z.of_nat (len (foldl String.app "" (piece_text <$> ps))) < 2 ^ 64)%Z →
  ∃ file toc, go_fold print_piece (NewFileWithByteCount, emptyTOC) ps = Ok (file, toc) ∧
    ∀ section, known_section section = true →
      GetRestoreMetadataStatements toc (Content file) section [] [] = Ok (em_statement <$> of_section section ps).
Proof.
  intros Hknown Hsize. destruct (pieces_read_back ps Hknown Hsize) as (file & toc & Hf & Hread). exists file, toc. split; [done|].
  intros section Hs. unfold GetRestoreMetadataStatements, GetRestoreMetadataStatementsFiltered.
  change (filtersEmpty (NewFilters [] [] [] [])) with true. cbv iota. rewrite Hread by done. do 2 f_equal.
  fold (of_section section ps). generalize (of_section section ps). intros l. induction l as [|em l IH]; [done|].
  rewrite filter_cons_True; [by f_equal|]. by rewrite shouldInclude_unfiltered, MatchesFilter_all.
Qed.

Section copy.
Context `{SemverLib} `{FloatText} `{PrintTable} `{MapRange} `{SortSlice} `{Catalogue} `{FlagSet F} (CmdFlags : F) (env : print_env) (menv : meta_env)
  (DBName : string).

(** The statements printed for a section. *)
Definition printed (section : string) (st : extraction_state) : list StatementWithType := em_statement <$> of_section section (x_pieces st).

(** Every global object that is printed has a type the restore selects. *)
Lemma printed_globals st : known_state st → Forall (λ s, s_ObjectType s ∈ global_types) (printed "global" st).
Proof.
  intros Hst. apply Forall_fmap, Forall_forall. intros em [Hem Hin]%list_elem_of_filter.
  apply list_elem_of_omap in Hin as (p & Hp & Hr). destruct p as [em'|]; [|done]. injection Hr as ->.
  unfold known_state in Hst. rewrite Forall_forall in Hst. specialize (Hst _ Hp). apply andb_prop in Hst as [_ Hg].
  cbn [fst snd] in Hg. rewrite Hem in Hg. cbn in Hg. apply bool_decide_eq_true in Hg.
  cbn. unfold global_objects in Hg. unfold global_types. set_solver.
Qed.

(** Without a redirection the statements are executed as they were printed. *)
Lemma not_redirected l : redirect_predata ∅ "" l ≡ₚ l ∧ redirected ∅ "" l = l.
Proof.
  unfold redirect_predata, redirected, editStatementsRedirectSchema. cbn. split; [|done].
  apply (filter_app_complement (λ s, s_ObjectType s = "SCHEMA")).
Qed.

Lemma extraction_read_back (WithGlobal : bool) (inSchemas inTables : list string) (tableOnly : bool)
    (schemas relations : list string) (skipped : list SkippedTable) (st : extraction_state) :
  extractDDL CmdFlags env menv DBName WithGlobal inSchemas inTables tableOnly (opened schemas relations skipped) = Ok ((), st) →
  (Z.of_nat (len (foldl String.app "" (piece_text <$> x_pieces st))) < 2 ^ 64)%Z →
  ∃ file toc, go_fold print_piece (NewFileWithByteCount, emptyTOC) (x_pieces st) = Ok (file, toc) ∧
    GetRestoreMetadataStatements toc (Content file) "predata" [] [] = Ok (printed "predata" st) ∧
    GetRestoreMetadataStatements toc (Content file) "postdata" [] [] = Ok (printed "postdata" st) ∧
    GetRestoreMetadataStatements toc (Content file) "global" global_types [] = Ok (printed "global" st).
Proof.
  intros Hrun Hsize. assert (Hst : known_state st) by (eapply Keeps_extractDDL; [exact Hrun|constructor]).
  destruct (sections_read_back (x_pieces st)) as (file & toc & Hf & Hread); [|done|].
  { eapply Forall_impl; [exact Hst|]. apply sound_known. }
  exists file, toc. split; [done|]. split; [by apply Hread|]. split; [by apply Hread|].
  rewrite (get_filtered_section toc (Content file) "global" global_types [] _ (Hread "global" eq_refl)). f_equal.
  pose proof (printed_globals _ Hst) as Hglob. fold (printed "global" st). induction Hglob as [|s l Hs _ IH]; [done|].
  rewrite filter_cons_True; [by f_equal|]. change (include_or_exclude global_types []) with (NewIncludeSet global_types).
  rewrite MatchesFilter_include. by right.
Qed.

(** C8: What a copy of metadata prints is what it executes: if the extraction
    ends and its file is below 2^64 bytes, the restore from that file ends, and
    however its workers interleave it sends the destination each printed
    statement of the pre-data and of the post-data exactly once, redirected to
    its schema (as it was printed when nothing is redirected), with
    [WithGlobal] each printed global object but the role of the connection, and
    without it no global object; and nothing else. The data copy receives every
    pair of the selection once (builtin.go:143, builtin.go:166,
    builtin.go:397, builtin.go:480). *)
Theorem copy_executes_what_it_prints (WithGlobal : bool) (inSchemas inTables : list string) (tableOnly : bool)
    (schemas relations : list string) (skipped : list SkippedTable) (st : extraction_state)
    (answers : server) (relevantDeps : DependencyMap) (redirectSchema : gmap string string) (inclDestSchema User : string)
    (partNameMap : gmap string (list string)) (src dst : list Options.Table) (tabMap : gmap string string) (x : exec_state)
    (Hrun : extractDDL CmdFlags env menv DBName WithGlobal inSchemas inTables tableOnly (opened schemas relations skipped) = Ok ((), st))
    (Hsize : (Z.of_nat (len (foldl String.app "" (piece_text <$> x_pieces st))) < 2 ^ 64)%Z)
    (Hserver : polite answers) (Hpool : wf (x_conn x)) (Hconn : 0 < NumConns (x_conn x))
    (Hknown : names_known (srcDBVersion env) partNameMap)
    (Hlen : length src = length dst) (Hsrc : Forall plain_table src) (Hdst : Forall plain_table dst)
    (Hnd : NoDup (fqn <$> dst)) (Hmap : FormUserTableMap src dst = Ok tabMap) :
  let ddl := executeDDL answers (srcDBVersion env) relevantDeps redirectSchema inclDestSchema WithGlobal User in
  let post := restorePostdata answers redirectSchema inclDestSchema in
  ∃ file toc, go_fold print_piece (NewFileWithByteCount, emptyTOC) (x_pieces st) = Ok (file, toc) ∧
    (∃ x1 r1 x2 r2, ddl toc (Content file) partNameMap tabMap x x1 r1 ∧ post toc (Content file) x1 x2 r2) ∧
    ∀ x1 r1 x2 r2, ddl toc (Content file) partNameMap tabMap x x1 r1 → post toc (Content file) x1 x2 r2 →
      ∃ received pairs outs, r1 = Ok received ∧ r2 = Ok () ∧
        fillTablePairChan src dst = Ok pairs ∧ received ≡ₚ pairs ∧
        logged answers (x_conn x) (x_conn x2) outs ∧
        let globals := if WithGlobal then filter (λ s, ¬ (s_ObjectType s = "ROLE" ∧ s_Name s = User)) (printed "global" st) else [] in
        o_statement <$> outs ≡ₚ globals ++
          redirect_predata redirectSchema inclDestSchema (printed "predata" st) ++
          redirected redirectSchema inclDestSchema (printed "postdata" st) ∧
        (redirectSchema = ∅ → inclDestSchema = "" →
          o_statement <$> outs ≡ₚ globals ++ printed "predata" st ++ printed "postdata" st).
Proof.
  destruct (extraction_read_back _ _ _ _ _ _ _ _ Hrun Hsize) as (file & toc & Hf & Hpre & Hpost & Hglob).
  exists file, toc. split; [done|].
  pose proof (executeDDL_restores answers (srcDBVersion env) relevantDeps redirectSchema inclDestSchema toc (Content file) _ _ Hglob Hpre
    Hserver User partNameMap src dst tabMap Hlen Hsrc Hdst Hnd Hmap WithGlobal) as Hddl.
  pose proof (restorePostdata_restores answers redirectSchema inclDestSchema toc (Content file) _ Hpost Hserver) as Hpd. split.
  - destruct (executeDDL_terminates answers (srcDBVersion env) relevantDeps redirectSchema inclDestSchema toc (Content file) _ _ Hglob Hpre
      Hserver User partNameMap src dst tabMap Hlen Hsrc Hdst Hnd Hmap WithGlobal Hknown x Hpool Hconn) as (x1 & r1 & Hd).
    destruct (Hddl _ _ _ Hpool Hconn Hd) as (received & o1 & -> & Hl & _).
    destruct (restorePostdata_terminates answers redirectSchema inclDestSchema toc (Content file) Hserver x1) as (x2 & r2 & Hp).
    + by eapply logged_wf.
    + by rewrite (lg_num _ _ _ _ Hl).
    + by exists x1, (Ok received), x2, r2.
  - intros x1 r1 x2 r2 Hd Hp. destruct (Hddl _ _ _ Hpool Hconn Hd) as (received & o1 & -> & Hl1 & Hs1 & pairs & Hfill & Hperm).
    destruct (Hpd x1 x2 r2) as ([] & o2 & -> & Hl2 & Hs2); [by eapply logged_wf|by rewrite (lg_num _ _ _ _ Hl1)|done|].
    exists received, pairs, (o1 ++ o2). split_and!; [done..|by eapply logged_trans|].
    assert (Hall : o_statement <$> o1 ++ o2 ≡ₚ global_part (printed "global" st) User WithGlobal ++
      redirect_predata redirectSchema inclDestSchema (printed "predata" st) ++
      redirected redirectSchema inclDestSchema (printed "postdata" st)) by (rewrite fmap_app, Hs1, Hs2; by rewrite <- app_assoc).
    split; [exact Hall|]. intros -> ->. rewrite Hall. destruct (not_redirected (printed "predata" st)) as [-> _].
    by destruct (not_redirected (printed "postdata" st)) as [_ ->].
Qed.
End copy.

(** One statement is executed before another. *)
Definition in_order (statements : list StatementWithType) (s1 s2 : StatementWithType) : Prop :=
  ∃ l1 l2 l3, statements = l1 ++ s1 :: l2 ++ s2 :: l3.

(** C40: The steps do not keep the order of the objects: a statement of a type
    with an early step, a base type or the sequence of an identity column, is
    restored before the function or table that it was printed after because it
    depends on it (builtin.go:420, builtin.go:426). *)
Theorem early_steps_lose_order (first second : emission) (before between after : list piece)
    (Hknown : Forall known_piece (before ++ Recorded first :: between ++ Recorded second :: after))
    (Hsize : (Z.of_nat (len (foldl String.app "" (piece_text <$> before ++ Recorded first :: between ++ Recorded second :: after))) < 2 ^ 64)%Z)
    (Hpredata : em_section first = "predata" ∧ em_section second = "predata")
    (Hlate : e_ObjectType (em_entry first) ∉ dependent_excluded)
    (Hearly : e_ObjectType (em_entry second) ∈ types_before) :
  ∃ file toc steps, go_fold print_piece (NewFileWithByteCount, emptyTOC) (before ++ Recorded first :: between ++ Recorded second :: after) = Ok (file, toc) ∧
    predata_steps toc (Content file) = Ok steps ∧
    in_order (concat steps) (em_statement second) (em_statement first).
Proof.
  destruct (sections_read_back _ Hknown Hsize) as (file & toc & Hf & Hread). set (ps := before ++ _) in *.
  set (all := em_statement <$> of_section "predata" ps).
  exists file, toc, (steps_of all). split_and!; [done|by apply predata_steps_of, Hread|].
  assert (Hin : ∀ em, em_section em = "predata" → Recorded em ∈ ps → em_statement em ∈ all).
  { intros em Hem Hps. apply list_elem_of_fmap_2, list_elem_of_filter. split; [done|]. apply list_elem_of_omap. by exists (Recorded em). }
  assert (Hall : em_statement first ∈ all ∧ em_statement second ∈ all).
  { split; apply Hin; try apply Hpredata; subst ps; rewrite elem_of_app, elem_of_cons, elem_of_app, elem_of_cons; auto. }
  clearbody all. destruct Hall as [Hfirst Hsecond]. unfold steps_of. rewrite !concat_app.
  assert (H1 : em_statement second ∈ concat (of_type all <$> types_before)).
  { apply list_elem_of_In, in_concat. exists (of_type all (e_ObjectType (em_entry second))). rewrite <- !list_elem_of_In. split.
    - by apply list_elem_of_fmap_2.
    - unfold of_type. by apply list_elem_of_filter. }
  assert (H2 : em_statement first ∈ filter (λ s, s_ObjectType s ∉ dependent_excluded) all) by (by apply list_elem_of_filter).
  apply list_elem_of_split in H1 as (a & b & Hb). apply list_elem_of_split in H2 as (c & d & Hd). rewrite Hb. cbn [concat].
  rewrite Hd. unfold in_order. exists (of_type all "SCHEMA" ++ a), (b ++ c), (d ++ concat (of_type all <$> types_after)).
  rewrite !app_nil_r, <- !app_assoc. done.
Qed.

(** * Instances *)

#[local] Instance sample_float : FloatText := {| float_text _ := "" |}.
#[local] Instance sample_print : PrintTable := {| wide_printable _ := true |}.

(** A server with one table. *)
Definition no_rows {A} : Selects A := λ _, Ok [].
Definition one_row {A} (a : A) : Selects A := λ _, Ok [a].
Definition sample_catalogue : Catalogue.
Proof.
  constructor;
    match goal with
    | |- Selects SessionGUCs => exact (one_row {| ClientEncoding := "UTF8" |})
    | |- Selects Relation => exact (one_row (t_Relation (sample_table 20 "t" "" false)))
    | _ => exact no_rows
    end.
Defined.
#[local] Existing Instance sample_catalogue.
Definition sample_env5 : print_env :=
  {| srcDBVersion := gpdb 5; destDBVersion := gpdb 7; ownerMap := ∅; quotedRoleNames := ∅; dest_tablespaces := dest_tablespaces sample_env |}.
Definition sample_flags : flag_map := the_flags (parse_args [(FULL, "true")]).
Definition sample_menv : meta_env := {| env_option := None; env_srcDb := "db"; env_destDb := "db"; env_version := gpdb 5 |}.
Definition sample_extraction : go (() * extraction_state) :=
  extractDDL sample_flags sample_env5 sample_menv "db" true [] [] false (opened [] [] []).
Definition sample_state : extraction_state := match sample_extraction with Ok (_, st) => st | _ => opened [] [] [] end.

Definition sample_tables : list Options.Table := [mkTable "public" "t"].
Definition sample_map : gmap string string := {["public.t" := table_entry (mkTable "public" "t")]}.

Lemma copy_executes_what_it_prints_witness :
  let ddl := executeDDL accepting (gpdb 5) ∅ ∅ "" true "gpadmin" in
  let post := restorePostdata accepting ∅ "" in
  is_ok sample_extraction = true ∧ (s_Name <$> printed "predata" sample_state) = ["t"] ∧ length (printed "global" sample_state) = 7 ∧
  ∃ file toc, go_fold print_piece (NewFileWithByteCount, emptyTOC) (x_pieces sample_state) = Ok (file, toc) ∧
    (∃ x1 r1 x2 r2, ddl toc (Content file) ∅ sample_map one_connection x1 r1 ∧ post toc (Content file) x1 x2 r2) ∧
    ∀ x1 r1 x2 r2, ddl toc (Content file) ∅ sample_map one_connection x1 r1 → post toc (Content file) x1 x2 r2 →
      ∃ received pairs outs, r1 = Ok received ∧ r2 = Ok () ∧
        fillTablePairChan sample_tables sample_tables = Ok pairs ∧ received ≡ₚ pairs ∧
        logged accepting (x_conn one_connection) (x_conn x2) outs ∧
        let globals := filter (λ s, ¬ (s_ObjectType s = "ROLE" ∧ s_Name s = "gpadmin")) (printed "global" sample_state) in
        o_statement <$> outs ≡ₚ globals ++
          redirect_predata ∅ "" (printed "predata" sample_state) ++ redirected ∅ "" (printed "postdata" sample_state) ∧
        ((∅ : gmap string string) = ∅ → "" = "" →
          o_statement <$> outs ≡ₚ globals ++ printed "predata" sample_state ++ printed "postdata" sample_state).
Proof.
  intros ddl post. split; [vm_compute; reflexivity|]. split; [vm_compute; reflexivity|]. split; [vm_compute; reflexivity|].
  apply (copy_executes_what_it_prints sample_flags sample_env5 sample_menv "db" true [] [] false [] [] [] sample_state
    accepting ∅ ∅ "" "gpadmin" ∅ sample_tables sample_tables sample_map one_connection).
  - vm_compute. reflexivity.
  - vm_compute. reflexivity.
  - apply accepting_polite.
  - reflexivity.
  - apply (bool_decide_unpack _). vm_compute. exact I.
  - split; [exists false; vm_compute; reflexivity|apply map_Forall_empty].
  - reflexivity.
  - apply (bool_decide_unpack _). vm_compute. exact I.
  - apply (bool_decide_unpack _). vm_compute. exact I.
  - apply (bool_decide_unpack _). vm_compute. exact I.
  - vm_compute. reflexivity.
Defined.

(** A table of a later server with an identity column. *)
Definition emission_of (m : go (list piece)) : emission :=
  match m with Ok [Recorded em] => em | _ => {| em_section := ""; em_entry := new_entry "" "" "" ""; em_texts := [] |} end.
Definition identity_sequence : Sequence :=
  {| s_Relation := {| r_SchemaOid := 2200; Relations.r_Oid := 22; r_Schema := "public"; r_Name := "t_a_seq" |}; OwningTableOid := "20";
     OwningTableSchema := "public"; OwningTable := "public.t"; OwningColumn := "public.t.a"; UnqualifiedOwningColumn := "a";
     OwningColumnAttIdentity := "d"; IsIdentity := true; Definition_ := Definition_ sample_sequence |}.
Definition create_table : emission := emission_of (PrintCreateTableStatement sample_env7 (sample_table 20 "t" "" false) emptyMetadata).
Definition add_identity : emission := emission_of (PrintIdentityColumns sample_env7 [identity_sequence]).

Lemma early_steps_lose_order_witness :
  (String.substring 2 21 (em_text create_table) = "CREATE TABLE public.t" ∧ String.substring 0 20 (em_text add_identity) = "ALTER TABLE public.t") ∧
  ∃ file toc steps, go_fold print_piece (NewFileWithByteCount, emptyTOC) ([] ++ Recorded create_table :: [] ++ Recorded add_identity :: []) = Ok (file, toc) ∧
    predata_steps toc (Content file) = Ok steps ∧
    in_order (concat steps) (em_statement add_identity) (em_statement create_table).
Proof.
  split; [vm_compute; done|]. apply early_steps_lose_order.
  - cbn [app]. repeat (apply Forall_cons; split); [vm_compute; reflexivity..|done].
  - vm_compute. reflexivity.
  - split; reflexivity.
  - apply (bool_decide_unpack _). vm_compute. exact I.
  - apply (bool_decide_unpack _). vm_compute. exact I.
Defined.
