(* ===== verification/Merge.v ===== *)
(** The helpers that serve several connections at once
    ([helper/concurrent_client.go], [concurrent_server.go], [server.go]): a
    goroutine for each connection cuts its stream into records and writes them
    to the standard output, which all share behind a mutex. [Helper] follows
    the life of a server without its data; here the data flows, through the
    readers of [Reader], and the server implements the one of [Helper]. *)
From S2P Require Import Prelude Reader Helper.

(** * Opening a connection *)

Section opening.
Context {conn : Type} (c : Config).

(** [ConcurrentClient.connect], and [OneTimeClient.open] behind its choice of an
    address. [dial] answers the attempts to dial an address, [NewCompressConn]
    wraps a connection; [receive] is the direction it is wrapped for. *)
Definition open_address (dial : string → nat → go conn) (NewCompressConn : conn → CompressType → bool → go conn) (receive : bool)
    (host port : string) : go conn :=
  match connect (dial (dial_address host port)) with
  | Ok netConn =>
      if NoCompression c then Ok netConn
      else match NewCompressConn netConn (getCompressionType (TransCompType c)) receive with
           | Err e => Err ("failed to create compress connection: " +:+ e)
           | r => r
           end
  | Err e => Err ("failed to connect to server " +:+ dial_address host port +:+ ": " +:+ e)
  | r => r
  end.
Definition concurrent_connect (dial : string → nat → go conn) (NewCompressConn : conn → CompressType → bool → go conn) : string → string → go conn :=
  open_address dial NewCompressConn true.

(** [ConcurrentServer.getReader], up to the reader of records. *)
Definition getReader (NewCompressReader : conn → CompressType → go conn) (netConn : conn) : go conn :=
  if NoCompression c then Ok netConn else NewCompressReader netConn (getCompressionType (TransCompType c)).
End opening.

(** * One connection *)

(** The texts of the errors of a reader. *)
Definition Error (e : io_error) : string :=
  match e with
  | EOF => "EOF"
  | ErrBufferFull => "reader: buffer full"
  | ErrNoProgress => "multiple Read calls return no data or error"
  | ErrOther msg => msg
  end.

(** A goroutine of [ConcurrentClient.Run], or [processCsvRecord]: before its
    connection is opened, before a call of [Read], before the write of the
    record it returned, before [setError], before the deferred calls, and
    past them. *)
Inductive conn_phase (R : Type) :=
| Opening
| Reading (b : ReaderBase R)
| Writing (b : ReaderBase R) (record : list ascii) (er : option io_error)
| Failing (msg : string)
| Leaving
| Left_.
Arguments Opening {R}.
Arguments Reading {R} b.
Arguments Writing {R} b record er.
Arguments Failing {R} msg.
Arguments Leaving {R}.
Arguments Left_ {R}.

(** What the others see of a step. *)
Inductive action := Quiet | Write (piece : list ascii) | SetError (msg : string) | Done.

(** Behind the write of a record, by the error [Read] returned with it. *)
Definition after_write {R} (b : ReaderBase R) (er : option io_error) : conn_phase R :=
  match er with None => Reading b | Some EOF => Leaving | Some e => Failing (Error e) end.

Section steps.
Context {R : Type} `{IoReader R} (opened : nat → go R).

(** The write of a record holds the mutex: it is one step. A write that fails
    may have written a part. *)
Inductive conn_step (i : nat) : conn_phase R → action → conn_phase R → Prop :=
| g_open rd : opened i = Ok rd → conn_step i Opening Quiet (Reading (NewReader rd defaultBufSize (CsvReader EolNl DQ DQ)))
| g_open_fails msg : opened i = Err msg → conn_step i Opening Quiet (Failing msg)
| g_read b fuel record er b' : Read fuel b = Ok (record, er, b') →
    conn_step i (Reading b) Quiet (match record with [] => after_write b' er | _ => Writing b' record er end)
| g_write b record er : conn_step i (Writing b record er) (Write record) (after_write b er)
| g_write_fails b record er n msg : conn_step i (Writing b record er) (Write (take n record)) (Failing msg)
| g_fail msg : conn_step i (Failing msg) (SetError msg) Leaving
| g_leave : conn_step i Leaving Done Left_.

(** * All of them *)

(** [m_serving]: the accept loop runs; a client has none and its goroutines are
    there from the start. [m_output]: the writes, each with its goroutine.
    [m_done]: [numFinished] of a server, the calls of [wg.Done] of a client.
    [m_logged]: [gplog.Error] was called. *)
Record merge := {
  m_serving : bool;
  m_phases : list (conn_phase R);
  m_output : list (nat * list ascii);
  m_err : option string;
  m_done : nat;
  m_logged : bool
}.
Definition perform (i : nat) (a : action) (ph : conn_phase R) (s : merge) : merge :=
  let phases := <[i := ph]> (m_phases s) in
  match a with
  | Quiet => {| m_serving := m_serving s; m_phases := phases; m_output := m_output s; m_err := m_err s; m_done := m_done s; m_logged := m_logged s |}
  | Write piece => {| m_serving := m_serving s; m_phases := phases; m_output := m_output s ++ [(i, piece)]; m_err := m_err s; m_done := m_done s; m_logged := m_logged s |}
  | SetError msg => {| m_serving := m_serving s; m_phases := phases; m_output := m_output s; m_err := Some msg; m_done := m_done s; m_logged := m_logged s |}
  | Done => {| m_serving := m_serving s; m_phases := phases; m_output := m_output s; m_err := m_err s; m_done := S (m_done s); m_logged := m_logged s |}
  end.
Definition stop_accepting (e : option string) (logged : bool) (s : merge) : merge :=
  {| m_serving := false; m_phases := m_phases s; m_output := m_output s; m_err := e; m_done := m_done s; m_logged := m_logged s || logged |}.

(** [numConn] connections are expected. *)
Inductive merge_step (numConn : nat) (s : merge) : merge → Prop :=
| m_accept : m_serving s = true → length (m_phases s) < numConn →
    merge_step numConn s {| m_serving := true; m_phases := m_phases s ++ [Opening]; m_output := m_output s; m_err := m_err s; m_done := m_done s; m_logged := m_logged s |}
| m_accept_fails msg : m_serving s = true → length (m_phases s) < numConn → merge_step numConn s (stop_accepting (Some msg) true s)
| m_all_accepted : m_serving s = true → numConn ≤ length (m_phases s) → merge_step numConn s (stop_accepting (m_err s) false s)
| m_acts i ph a ph' : m_phases s !! i = Some ph → conn_step i ph a ph' → merge_step numConn s (perform i a ph' s).

Definition server_start : merge := {| m_serving := true; m_phases := []; m_output := []; m_err := None; m_done := 0; m_logged := false |}.
Definition client_start (numConn : nat) : merge :=
  {| m_serving := false; m_phases := replicate numConn Opening; m_output := []; m_err := None; m_done := 0; m_logged := false |}.

(** [WaitForFinished] of a server returns at the first error; [wg.Wait] of a
    client when all goroutines are done. *)
Definition server_returns (numConn : nat) (s : merge) : bool := bool_decide (is_Some (m_err s)) || bool_decide (m_done s = numConn).
Definition client_returns (numConn : nat) (s : merge) : bool := bool_decide (m_done s = numConn).
End steps.
Arguments merge : clear implicits.

(** * Records of a stream *)

(** The records of a CSV stream, each with its delimiter; the rest behind the
    last delimiter is a record of its own. *)
Fixpoint csv_split (st : bool * bool) (current : list ascii) (s : list ascii) : list (list ascii) :=
  match s with
  | [] => match current with [] => [] | _ => [current] end
  | c :: s =>
      let st' := csv_quote_step DQ DQ st c in
      if bool_decide (c = NL) && negb st'.1 then (current ++ [c]) :: csv_split st' [] s
      else csv_split st' (current ++ [c]) s
  end.
Definition csv_records : list ascii → list (list ascii) := csv_split (false, false) [].
Local Abbreviation whole := (csv_whole DQ DQ NL).

Lemma csv_split_app st current a s : let st' := foldl (csv_quote_step DQ DQ) st (a ++ [NL]) in st'.1 = false →
  csv_split st current (a ++ [NL] ++ s) = csv_split st current (a ++ [NL]) ++ csv_split st' [] s.
Proof.
  revert st current. induction a as [|c a IH]; intros st current; cbn [app foldl csv_split].
  - intros ->. rewrite bool_decide_true by done. done.
  - intros Hst. destruct (bool_decide (c = NL) && _); rewrite IH by done; done.
Qed.

Lemma csv_records_app a s : whole a → csv_records (a ++ s) = csv_records a ++ csv_records s.
Proof.
  intros [Hlast Hst]. apply last_Some in Hlast as [a' ->]. unfold csv_records. rewrite <-app_assoc.
  rewrite csv_split_app; unfold csv_state in Hst; by rewrite Hst.
Qed.

Lemma csv_records_concat pieces : Forall whole pieces → csv_records (concat pieces) = concat (csv_records <$> pieces).
Proof. induction 1 as [|p pieces Hp _ IH]; [done|]. cbn [concat fmap list_fmap]. by rewrite csv_records_app, IH. Qed.

Lemma csv_split_concat st current s : concat (csv_split st current s) = current ++ s.
Proof.
  revert st current. induction s as [|c s IH]; intros st current; cbn [csv_split]; [by destruct current; simpl; rewrite ?app_nil_r|].
  case_match; cbn [concat]; rewrite IH; by rewrite <-app_assoc.
Qed.

(** * Calls of Read *)

Section reading.
Context {R : Type} `{IoReader R}.

Lemma read_long_more fuel fuel' (b : ReaderBase R) r : fuel ≤ fuel' → read_long fuel b = Ok r → read_long fuel' b = Ok r.
Proof.
  revert fuel' b. induction fuel as [|fuel IH]; intros [|fuel'] b Hle; try done; [lia|]. cbn [read_long].
  destruct (readRecord (enough_fuel b) b) as [[[rec e] b1]| | |]; try done. cbn [mbind go_bind]. case_decide; [|done]. apply IH. lia.
Qed.

(** What [Read] returns does not depend on the fuel. *)
Lemma Read_fuel fuel fuel' (b : ReaderBase R) r r' : Read fuel b = Ok r → Read fuel' b = Ok r' → r = r'.
Proof.
  unfold Read. destruct (readRecord (enough_fuel b) b) as [[[rec e] b1]| | |]; try done. cbn [mbind go_bind].
  case_decide; [|congruence]. intros Hr Hr'. apply (read_long_more _ (fuel `max` fuel')) in Hr, Hr'; [|lia..]. congruence.
Qed.

Context `{!StreamReader R}.

(** A call on a finite stream, whatever the fuel. *)
Lemma Read_progress fuel b record er b' : reader_wf b → reader_fin b → Read fuel b = Ok (record, er, b') →
  reader_wf b' ∧ reader_fin b' ∧ to_come b = record ++ to_come b' ∧ (er = None ∧ record ≠ [] ∨ er = Some EOF ∧ to_come b' = [] ∨ ∃ e, er = Some e ∧ breaks e).
Proof.
  intros Hwf Hfin Hread. destruct (Read_finite (S (length (to_come b))) b) as (r & e & b1 & Hread' & Hrest); [done..|lia|].
  pose proof (Read_fuel _ _ _ _ _ Hread Hread') as [= -> -> ->]. done.
Qed.

(** A call that finds the records no longer than the buffer. *)
Lemma Read_whole fuel b record er b' : reader_wf b → reader_fin b → virm b = CsvReader EolNl DQ DQ →
  records_fit DQ DQ NL (length (buf b)) (to_come b) → Read fuel b = Ok (record, er, b') →
  virm b' = virm b ∧ length (buf b') = length (buf b) ∧ (er = None ∧ whole record ∨ er = Some EOF ∨ ∃ e, er = Some e ∧ breaks e).
Proof.
  intros Hwf Hfin Hk Hfit. unfold Read. destruct (readRecord_whole DQ DQ b Hwf Hfin Hk Hfit) as (r & e & b1 & -> & _ & _ & Hv & Hl & _ & Hend).
  assert (He : e ≠ Some ErrBufferFull).
  { destruct Hend as [[-> _]|[[-> _]|(e' & -> & Hbr)]]; [done..|]. by destruct (breaks_other e' Hbr) as [msg ->]. }
  cbn [mbind go_bind]. rewrite decide_False by done. intros [= <- <- <-]. naive_solver.
Qed.

Lemma after_break (b : ReaderBase R) e : breaks e → after_write b (Some e) = Failing (Error e).
Proof. intros Hbr. by destruct (breaks_other e Hbr) as [msg ->]. Qed.
End reading.

(** * Nothing is lost and no record is torn *)

Section merged.
Context {R : Type} `{StreamReader R} (opened : nat → go R) (numConn : nat).
Local Abbreviation step := (merge_step opened numConn).

Definition pieces_of (i : nat) (output : list (nat * list ascii)) : list (list ascii) := (filter (λ w, w.1 = i) output).*2.

Lemma pieces_of_app i out j p : pieces_of i (out ++ [(j, p)]) = if decide (j = i) then pieces_of i out ++ [p] else pieces_of i out.
Proof.
  unfold pieces_of. rewrite filter_app, fmap_app. case_decide.
  - rewrite (filter_cons_True _ (j, p)) by done. done.
  - rewrite (filter_cons_False _ (j, p)) by done. by rewrite app_nil_r.
Qed.

(** What goroutine [i] has written and what is still to come is its stream. *)
Definition phase_ok (i : nat) (ph : conn_phase R) (out : list (list ascii)) (err : option string) : Prop :=
  match ph with
  | Opening => out = []
  | Reading b => ∃ rd, opened i = Ok rd ∧ reader_wf b ∧ reader_fin b ∧ remaining rd = concat out ++ to_come b
  | Writing b r er => ∃ rd, opened i = Ok rd ∧ reader_wf b ∧ reader_fin b ∧ remaining rd = concat out ++ r ++ to_come b ∧
                       (er = None ∨ er = Some EOF ∧ to_come b = [] ∨ ∃ e, er = Some e ∧ breaks e)
  | Failing _ => True
  | Leaving | Left_ => err = None → ∃ rd, opened i = Ok rd ∧ remaining rd = concat out
  end.

Lemma phase_ok_err i ph out err err' : (err' = None → err = None) → phase_ok i ph out err → phase_ok i ph out err'.
Proof. destruct ph; simpl; auto. Qed.

(** What a step of [i] leaves in its output, and the error. *)
Definition pieces_after (a : action) (out : list (list ascii)) : list (list ascii) := match a with Write p => out ++ [p] | _ => out end.
Definition err_after (a : action) (err : option string) : option string := match a with SetError msg => Some msg | _ => err end.

Lemma phase_ok_step i ph a ph' out err : conn_step opened i ph a ph' → phase_ok i ph out err →
  phase_ok i ph' (pieces_after a out) (err_after a err).
Proof.
  intros [rd Ho|msg Ho|b fuel r er b' Hr|b r er|b r er n msg|msg|]; simpl; try done.
  - intros ->. exists rd. split; [done|]. split; [apply NewReader_wf|]. split; [by intros ?|done].
  - intros (rd & Ho & Hwf & Hfin & Hrem). destruct (Read_progress _ _ _ _ _ Hwf Hfin Hr) as (Hwf' & Hfin' & Htc & Hend). rewrite Htc in Hrem.
    destruct r as [|c r].
    + destruct Hend as [[_ ?]|[[-> Hnil]|(e & -> & Hbr)]]; [done| |by rewrite after_break].
      intros _. exists rd. split; [done|]. rewrite Hrem, Hnil. by rewrite app_nil_r.
    + exists rd. naive_solver.
  - intros (rd & Ho & Hwf & Hfin & Hrem & [->|[[-> Hnil]|(e & -> & Hbr)]]); [| |by rewrite after_break]; simpl.
    + exists rd. rewrite concat_app. simpl. rewrite app_nil_r, <-app_assoc. done.
    + intros _. exists rd. split; [done|]. rewrite Hrem, Hnil, concat_app. simpl. by rewrite !app_nil_r.
Qed.

Definition left_count (ph : conn_phase R) : nat := match ph with Left_ => 1 | _ => 0 end.
Record merge_ok (s : merge R) : Prop := {
  mo_phases : ∀ i ph, m_phases s !! i = Some ph → phase_ok i ph (pieces_of i (m_output s)) (m_err s);
  mo_output : ∀ w, w ∈ m_output s → w.1 < length (m_phases s);
  mo_done : m_done s = sum_list_with left_count (m_phases s);
  mo_length : length (m_phases s) ≤ numConn;
  mo_all : m_serving s = false → m_err s = None → length (m_phases s) = numConn
}.


Lemma pieces_of_none i (s : merge R) : merge_ok s → length (m_phases s) ≤ i → pieces_of i (m_output s) = [].
Proof.
  intros Hok Hi. unfold pieces_of. destruct (filter _ (m_output s)) as [|w l] eqn:Hf; [done|exfalso].
  assert (Hw : w ∈ filter (λ w, w.1 = i) (m_output s)) by (rewrite Hf; by left).
  apply list_elem_of_filter in Hw as [Hw Hin]. apply (mo_output _ Hok) in Hin. lia.
Qed.

Lemma pieces_of_perform j i a ph (s : merge R) :
  pieces_of j (m_output (perform i a ph s)) = if decide (i = j) then pieces_after a (pieces_of j (m_output s)) else pieces_of j (m_output s).
Proof. destruct a; simpl; rewrite ?pieces_of_app; by repeat case_decide. Qed.
Lemma m_err_perform i a ph (s : merge R) : m_err (perform i a ph s) = err_after a (m_err s).
Proof. by destruct a. Qed.
Lemma m_phases_perform i a ph (s : merge R) : m_phases (perform i a ph s) = <[i:=ph]> (m_phases s).
Proof. by destruct a. Qed.
Lemma m_serving_perform i a ph (s : merge R) : m_serving (perform i a ph s) = m_serving s.
Proof. by destruct a. Qed.
Lemma m_done_perform i ph a ph' (s : merge R) : conn_step opened i ph a ph' → m_phases s !! i = Some ph →
  m_done s = sum_list_with left_count (m_phases s) → m_done (perform i a ph' s) = sum_list_with left_count (<[i:=ph']> (m_phases s)).
Proof.
  intros Hg Hi Hd. destruct (sum_list_insert left_count _ _ _ ph' Hi) as (rest & Hs & ->).
  destruct Hg; simpl in *; try lia; repeat case_match; simpl in *; simplify_eq/=; try lia; destruct er as [[]|]; simpl in *; lia.
Qed.

Lemma merge_ok_step s s' : merge_ok s → step s s' → merge_ok s'.
Proof.
  intros Hok Hstep. pose proof Hok as [Hph Hout Hdone Hlen Hall]. destruct Hstep as [Hserv Hlt|msg Hserv Hlt|Hserv Hge|i ph a ph' Hi Hg].
  - split; simpl.
    + intros i ph [Hi|[Hi [_ <-]%list_lookup_singleton_Some]]%lookup_app_Some; [by apply Hph|]. by apply (pieces_of_none i s).
    + intros w Hw%Hout. rewrite length_app. simpl. lia.
    + rewrite sum_list_with_app. simpl. lia.
    + rewrite length_app. simpl. lia.
    + done.
  - split; simpl; try done. intros i ph Hi. eapply phase_ok_err; [|by apply Hph]. done.
  - split; simpl; try done. lia.
  - split; rewrite ?m_phases_perform, ?m_err_perform, ?m_serving_perform, ?length_insert; try done.
    + intros j phj Hj. rewrite pieces_of_perform. case_decide as Hij.
      * subst j. rewrite list_lookup_insert_eq in Hj by by eapply lookup_lt_Some. injection Hj as <-. eapply phase_ok_step; [done|]. by apply Hph.
      * rewrite list_lookup_insert_ne in Hj by done. eapply phase_ok_err; [|by apply Hph]. by destruct a.
    + intros w Hw. destruct a; simpl in Hw; try by apply Hout. apply elem_of_app in Hw as [Hw| ->%list_elem_of_singleton]; [by apply Hout|].
      by eapply lookup_lt_Some.
    + by apply (m_done_perform i ph).
    + intros Hs He. apply Hall; [done|]. by destruct a.
Qed.

Lemma merge_ok_server : merge_ok server_start.
Proof. split; simpl; try done; [set_solver|lia]. Qed.
Lemma merge_ok_client : merge_ok (client_start numConn).
Proof.
  split; simpl; rewrite ?length_replicate; try done; [|set_solver|].
  - by intros i ph [-> _]%lookup_replicate.
  - induction numConn; simpl; lia.
Qed.
Definition started (s : merge R) : Prop := s = server_start ∨ s = client_start numConn.
Lemma merge_ok_steps s0 s : started s0 → rtc step s0 s → merge_ok s.
Proof.
  intros Hs0. apply (rtc_ind_r merge_ok); [destruct Hs0 as [->| ->]; [apply merge_ok_server|apply merge_ok_client]|].
  intros s1 s2 _ Hstep Hok. by eapply merge_ok_step.
Qed.

(** ** Whole records *)

#[local] Opaque defaultBufSize.
Definition buffer_size : nat := Nat.max defaultBufSize minReadBufferSize.

Definition whole_ok (ph : conn_phase R) (out : list (list ascii)) (err : option string) : Prop :=
  match ph with
  | Opening | Failing _ => True
  | Reading b => virm b = CsvReader EolNl DQ DQ ∧ length (buf b) = buffer_size ∧ Forall whole out ∧
      records_fit DQ DQ NL buffer_size (to_come b) ∧ record_start DQ DQ NL (to_come b)
  | Writing b r er => virm b = CsvReader EolNl DQ DQ ∧ length (buf b) = buffer_size ∧ Forall whole out ∧
      (whole r ∧ records_fit DQ DQ NL buffer_size (to_come b) ∧ record_start DQ DQ NL (to_come b) ∨ ∃ e, er = Some e ∧ breaks e)
  | Leaving | Left_ => err = None → Forall whole out
  end.

Lemma whole_ok_err ph out err err' : (err' = None → err = None) → whole_ok ph out err → whole_ok ph out err'.
Proof. destruct ph; simpl; auto. Qed.

Lemma record_start_suffix a s : whole a → record_start DQ DQ NL (a ++ s) → record_start DQ DQ NL s.
Proof.
  intros [Ha Hst] Hs. destruct s as [|c s]; [by left|right]. destruct Hs as [Hs|[Hlast Hs]]; [by apply app_nil in Hs as [_ ?]|].
  rewrite last_app_cons in Hlast. split; [done|]. by rewrite csv_state_app in Hs.
Qed.

Context (Hfit : ∀ i rd, opened i = Ok rd → records_fit DQ DQ NL buffer_size (remaining rd) ∧ record_start DQ DQ NL (remaining rd)).

Lemma whole_ok_step i ph a ph' out err : conn_step opened i ph a ph' → phase_ok i ph out err → whole_ok ph out err →
  whole_ok ph' (pieces_after a out) (err_after a err).
Proof.
  intros [rd Ho|msg Ho|b fuel r er b' Hr|b r er|b r er n msg|msg|]; cbn [whole_ok pieces_after err_after phase_ok]; [..|by intros _ _|by intros _ _|by auto].
  - intros -> _. destruct (Hfit i rd Ho) as [Hf Hs]. split; [reflexivity|]. split; [exact (length_NewReader_buf rd defaultBufSize _)|]. split; [by constructor|]. split; [exact Hf|exact Hs].
  - by intros _ _.
  - intros (rd & Ho & Hwf & Hfin & _) (Hv & Hl & Hout & Hf & Hs).
    destruct (Read_progress _ _ _ _ _ Hwf Hfin Hr) as (_ & _ & Htc & Hend).
    rewrite <-Hl in Hf. destruct (Read_whole _ _ _ _ _ Hwf Hfin Hv Hf Hr) as (Hv' & Hl' & Hwhole). rewrite Hl in *.
    destruct r as [|c r]; [destruct Hend as [[_ ?]|[[-> _]|(e & -> & Hbr)]]; [done|by intros _|by rewrite after_break]|].
    split; [congruence|]. split; [congruence|]. split; [done|].
    assert (Hcases : whole (c :: r) ∨ ∃ e, er = Some e ∧ breaks e).
    { destruct Hwhole as [[_ ?]|[->|?]]; [by left| |by right]. destruct Hend as [[? _]|[[_ Hnil]|?]]; [done| |by right].
      rewrite Htc, Hnil, app_nil_r in Hs. left. by destruct Hs. }
    destruct Hcases as [Hw|?]; [left|by right]. rewrite Htc in Hf, Hs. split; [done|].
    split; [eapply records_fit_suffix; [by right|done]|by eapply record_start_suffix].
  - intros (rd & _ & _ & _ & _ & Her) (Hv & Hl & Hout & Hr).
    destruct Hr as [(Hr & Hf & Hs)|(e & -> & Hbr)]; [|by rewrite after_break]. destruct Her as [->|[[-> _]|(e & -> & Hbr)]]; [| |by rewrite after_break]; simpl.
    + split; [done|]. split; [done|]. split; [|done]. apply Forall_app. by split; [|constructor].
    + intros _. apply Forall_app. by split; [|constructor].
Qed.

Definition all_whole (s : merge R) : Prop := ∀ i ph, m_phases s !! i = Some ph → whole_ok ph (pieces_of i (m_output s)) (m_err s).
Lemma all_whole_step s s' : merge_ok s → all_whole s → step s s' → all_whole s'.
Proof.
  intros Hok Hall Hstep. destruct Hstep as [Hserv Hlt|msg Hserv Hlt|Hserv Hge|i ph a ph' Hi Hg].
  - intros i ph [Hi|[Hi [_ <-]%list_lookup_singleton_Some]]%lookup_app_Some; [by apply Hall|done].
  - intros i ph Hi. eapply whole_ok_err; [|by apply Hall]. done.
  - intros i ph Hi. by apply Hall.
  - intros j phj. rewrite m_phases_perform, m_err_perform, pieces_of_perform. intros Hj. case_decide as Hij.
    + subst j. rewrite list_lookup_insert_eq in Hj by by eapply lookup_lt_Some. injection Hj as <-.
      eapply whole_ok_step; [done|by apply (mo_phases _ Hok)|by apply Hall].
    + rewrite list_lookup_insert_ne in Hj by done. eapply whole_ok_err; [|by apply Hall]. by destruct a.
Qed.
Lemma all_whole_steps s0 s : started s0 → rtc step s0 s → all_whole s.
Proof.
  intros Hs0 Hrun. assert (Hboth : merge_ok s ∧ all_whole s); [|apply Hboth].
  revert s Hrun. apply (rtc_ind_r (λ s, merge_ok s ∧ all_whole s)).
  - split; [by apply (merge_ok_steps s0); [|apply rtc_refl]|]. destruct Hs0 as [->| ->]; [by intros i ph ?|].
    intros i ph [-> _]%lookup_replicate. done.
  - intros s1 s2 _ Hstep [Hok Hall]. split; [by eapply merge_ok_step|by eapply all_whole_step].
Qed.
End merged.

(** ** The records of all goroutines together *)

#[export] Instance gather_Permutation {W A} (f : W → list A) : Proper (Permutation ==> Permutation) (gather f).
Proof. intros l l' Hl. unfold gather. by rewrite Hl. Qed.
Lemma gather_one {W A} (f f' : W → list A) (l : list W) j x : NoDup l → j ∈ l → f' j = x ++ f j → (∀ i, i ≠ j → f' i = f i) →
  gather f' l ≡ₚ x ++ gather f l.
Proof.
  intros Hnd Hin Hj Hne. unfold gather. induction Hnd as [|k l Hk Hnd IH]; [by apply elem_of_nil in Hin|].
  cbn [fmap list_fmap concat]. apply elem_of_cons in Hin as [->|Hin].
  - rewrite Hj, <-app_assoc. do 2 apply Permutation_app_head. apply reflexive_eq. f_equal. apply list_fmap_ext. intros i y Hi.
    apply Hne. intros ->. by apply Hk, (list_elem_of_lookup_2 _ i).
  - rewrite IH, Hne by (done || by intros ->). apply Permutation_app_swap_app.
Qed.

Lemma pieces_of_cons i j p out : pieces_of i ((j, p) :: out) = if decide (j = i) then p :: pieces_of i out else pieces_of i out.
Proof.
  unfold pieces_of. case_decide; [by rewrite (filter_cons_True _ (j, p))|by rewrite (filter_cons_False _ (j, p))].
Qed.

Lemma gather_pieces {A} (f : list ascii → list A) (out : list (nat * list ascii)) n : (∀ w, w ∈ out → w.1 < n) →
  gather f out.*2 ≡ₚ gather (λ i, gather f (pieces_of i out)) (seq 0 n).
Proof.
  induction out as [|[j p] out IH]; intros Hn.
  - symmetry. apply reflexive_eq, gather_nil. apply Forall_true. done.
  - symmetry. rewrite (gather_one (λ i, gather f (pieces_of i out)) _ _ j (f p)).
    + unfold gather at 3. cbn [fmap list_fmap concat]. apply Permutation_app_head. rewrite <-IH; [done|]. intros w Hw. apply Hn. by right.
    + apply NoDup_seq.
    + apply elem_of_seq. specialize (Hn (j, p) ltac:(by left)). simpl in Hn. lia.
    + rewrite pieces_of_cons, decide_True by done. done.
    + intros i Hi. by rewrite pieces_of_cons, decide_False.
Qed.

(** * The helper ends *)

Section ending.
Context {R : Type} `{StreamReader R} (opened : nat → go R) (numConn : nat).
Local Abbreviation step := (merge_step opened numConn).

(** What goroutine [i] has still to do, and the goroutines still to come. *)
Definition opening_left (i : nat) : nat := match opened i with Ok rd => 2 * length (remaining rd) + 6 | _ => 3 end.
Definition work_left (i : nat) (ph : conn_phase R) : nat :=
  match ph with
  | Opening => opening_left i
  | Reading b => 2 * length (to_come b) + 5
  | Writing b _ None => 2 * length (to_come b) + 6
  | Writing _ _ (Some _) => 4
  | Failing _ => 2
  | Leaving => 1
  | Left_ => 0
  end.
Definition work_at (s : merge R) (i : nat) : nat :=
  match m_phases s !! i with Some ph => work_left i ph | None => if m_serving s then S (opening_left i) else 0 end.
Definition merge_left (s : merge R) : nat := sum_list_with (work_at s) (seq 0 numConn) + if m_serving s then 1 else 0.

Lemma sum_list_with_le {W} (f g : W → nat) l : (∀ x, x ∈ l → f x ≤ g x) → sum_list_with f l ≤ sum_list_with g l.
Proof.
  induction l as [|x l IH]; intros Hle; simpl; [done|]. pose proof (Hle x ltac:(by left)).
  specialize (IH ltac:(intros y Hy; apply Hle; by right)). lia.
Qed.
Lemma sum_list_with_lt {W} (f g : W → nat) l x : x ∈ l → f x < g x → (∀ y, y ∈ l → f y ≤ g y) → sum_list_with f l < sum_list_with g l.
Proof.
  induction l as [|y l IH]; intros Hx Hlt Hle; [by apply elem_of_nil in Hx|]. simpl. pose proof (Hle y ltac:(by left)).
  assert (Hrest : ∀ z, z ∈ l → f z ≤ g z) by (intros z Hz; apply Hle; by right).
  apply elem_of_cons in Hx as [->|Hx]; [pose proof (sum_list_with_le f g l Hrest); lia|specialize (IH Hx Hlt Hrest); lia].
Qed.

Lemma work_decreases i ph a ph' out err : conn_step opened i ph a ph' → phase_ok opened i ph out err → work_left i ph' < work_left i ph.
Proof.
  intros [rd Ho|msg Ho|b fuel r er b' Hr|b r er|b r er n msg|msg|]; simpl; try lia.
  - unfold opening_left. rewrite Ho, NewReader_to_come. intros _. lia.
  - unfold opening_left. rewrite Ho. lia.
  - intros (rd & _ & Hwf & Hfin & _). destruct (Read_progress _ _ _ _ _ Hwf Hfin Hr) as (_ & _ & Htc & Hend).
    rewrite Htc, length_app. destruct r as [|c r], Hend as [[-> Hne]|[[-> _]|(e & -> & Hbr)]]; rewrite ?after_break by done; simpl; done || lia.
  - intros (rd & _ & _ & _ & _ & [->|[[-> _]|(e & -> & Hbr)]]); rewrite ?after_break by done; simpl; lia.
  - destruct er; lia.
Qed.

Lemma merge_step_decreases s s' : merge_ok opened numConn s → step s s' → merge_left s' < merge_left s.
Proof.
  intros Hok Hstep. unfold merge_left. destruct Hstep as [Hserv Hlt|msg Hserv Hlt|Hserv Hge|i ph a ph' Hi Hg].
  - apply Nat.add_lt_le_mono; [|simpl; by rewrite Hserv]. apply (sum_list_with_lt _ _ _ (length (m_phases s))).
    + apply elem_of_seq. lia.
    + unfold work_at. simpl. rewrite Hserv, lookup_app_r, Nat.sub_diag, (proj2 (lookup_ge_None (m_phases s) _)) by lia. simpl. lia.
    + intros i _. unfold work_at. simpl. rewrite Hserv. destruct (m_phases s !! i) as [ph|] eqn:Hi; [by rewrite (lookup_app_l_Some _ _ _ _ Hi)|].
      apply lookup_ge_None in Hi. rewrite lookup_app_r by done. destruct (i - length (m_phases s)) as [|k]; simpl; [lia|done].
  - simpl. rewrite Hserv, Nat.add_0_r, Nat.add_1_r. apply Nat.lt_succ_r, sum_list_with_le. intros i _. unfold work_at. simpl. destruct (m_phases s !! i); [done|lia].
  - simpl. rewrite Hserv, Nat.add_0_r, Nat.add_1_r. apply Nat.lt_succ_r, sum_list_with_le. intros i _. unfold work_at. simpl. destruct (m_phases s !! i); [done|lia].
  - rewrite m_serving_perform. apply Nat.add_lt_le_mono; [|done]. pose proof (lookup_lt_Some _ _ _ Hi). pose proof (mo_length _ _ _ Hok).
    apply (sum_list_with_lt _ _ _ i).
    + apply elem_of_seq. lia.
    + unfold work_at. rewrite m_phases_perform, list_lookup_insert_eq, Hi by done. eapply work_decreases; [done|]. by apply (mo_phases _ _ _ Hok).
    + intros j _. unfold work_at. rewrite m_phases_perform, m_serving_perform. destruct (decide (i = j)) as [<-|Hij].
      * rewrite list_lookup_insert_eq, Hi by done. apply Nat.lt_le_incl. eapply work_decreases; [done|]. by apply (mo_phases _ _ _ Hok).
      * by rewrite list_lookup_insert_ne.
Qed.

(** Opening a connection answers. *)
Context (Hopened : ∀ i, i < numConn → (∃ rd, opened i = Ok rd) ∨ ∃ msg, opened i = Err msg).

Lemma goroutine_progress i ph out err : i < numConn → phase_ok opened i ph out err → ph = Left_ ∨ ∃ a ph', conn_step opened i ph a ph'.
Proof.
  intros Hi Hok. destruct ph as [|b|b r er|msg| |]; [right..|by left].
  - destruct (Hopened i Hi) as [[rd Ho]|[msg Ho]]; eexists _, _; [by apply g_open|by apply g_open_fails].
  - destruct Hok as (rd & _ & Hwf & Hfin & _).
    destruct (Read_finite (S (length (to_come b))) b Hwf Hfin) as (r & er & b' & Hr & _); [lia|]. eexists _, _. by eapply g_read.
  - eexists _, _. apply g_write.
  - eexists _, _. apply g_fail.
  - eexists _, _. apply g_leave.
Qed.

Lemma merge_progress s : merge_ok opened numConn s →
  (∃ s', step s s') ∨ m_serving s = false ∧ Forall (λ ph, ph = Left_) (m_phases s).
Proof.
  intros Hok. destruct (m_serving s) eqn:Hs.
  - left. destruct (decide (length (m_phases s) < numConn)); eexists; [by apply m_accept|apply m_all_accepted; [done|lia]].
  - assert (Hall : ∀ l k, (∀ i ph, l !! i = Some ph → m_phases s !! (k + i) = Some ph) →
      (∃ s', step s s') ∨ Forall (λ ph, ph = Left_) l); [|destruct (Hall (m_phases s) 0) as [?|?]; auto].
    induction l as [|ph l IH]; intros k Hl; [right; constructor|].
    pose proof (Hl 0 ph eq_refl) as Hk. rewrite Nat.add_0_r in Hk. pose proof (lookup_lt_Some _ _ _ Hk). pose proof (mo_length _ _ _ Hok).
    destruct (goroutine_progress k ph _ _ ltac:(lia) (mo_phases _ _ _ Hok k ph Hk)) as [->|(a & ph' & Hg)];
      [|left; eexists; by eapply m_acts].
    destruct (IH (S k)) as [?|Hrest]; [|by left|right; by constructor].
    intros i ph Hi. specialize (Hl (S i) ph Hi). by rewrite <-Nat.add_succ_comm in Hl.
Qed.

Lemma all_left_done (s : merge R) : merge_ok opened numConn s → m_done s = length (m_phases s) ↔ Forall (λ ph, ph = Left_) (m_phases s).
Proof.
  intros Hok. rewrite (mo_done _ _ _ Hok). clear Hok. generalize (m_phases s). intros l.
  assert (Hle : ∀ l : list (conn_phase R), sum_list_with left_count l ≤ length l) by (clear; induction l as [|ph l IH]; simpl; [done|destruct ph; simpl; lia]).
  induction l as [|ph l IH]; [split; [intros _; constructor|done]|]. rewrite Forall_cons, <-IH. specialize (Hle l).
  destruct ph; simpl in *; split; try (by intros [? _]); try lia. intros ?. split; [done|lia].
Qed.

(** A helper with several connections is a server or a client. *)
Inductive side := AsServer | AsClient.
Definition start_of (d : side) : merge R := match d with AsServer => server_start | AsClient => client_start numConn end.
Definition returns_of (d : side) (s : merge R) : bool := match d with AsServer => server_returns numConn s | AsClient => client_returns numConn s end.
Lemma started_side d : started numConn (start_of d).
Proof. destruct d; [by left|by right]. Qed.

Lemma client_length s : rtc step (client_start numConn) s → length (m_phases s) = numConn ∧ m_serving s = false.
Proof.
  apply (rtc_ind_r (λ s, length (m_phases s) = numConn ∧ m_serving s = false)); [by split; [apply length_replicate|]|].
  intros s1 s2 _ [Hserv Hlt|msg Hserv Hlt|Hserv Hge|i ph a ph' Hi Hg] [Hl Hs]; try congruence.
  by rewrite m_phases_perform, m_serving_perform, length_insert.
Qed.

Lemma returns_or_steps d s : rtc step (start_of d) s → returns_of d s = true ∨ ∃ s', step s s'.
Proof.
  intros Hrun. pose proof (merge_ok_steps opened numConn _ s (started_side d) Hrun) as Hok.
  destruct (merge_progress s Hok) as [?|[Hs Hall]]; [by right|left]. apply (all_left_done s Hok) in Hall. destruct d; simpl.
  - unfold server_returns. destruct (m_err s) as [e|] eqn:He; [rewrite (bool_decide_true (is_Some (Some e))) by done; done|].
    rewrite Hall, (mo_all _ _ _ Hok Hs He), (bool_decide_true (numConn = numConn)) by done. apply orb_true_r.
  - apply client_length in Hrun as [Hl _]. apply bool_decide_true. by rewrite Hall.
Qed.

Lemma returned_left d s : merge_ok opened numConn s → returns_of d s = true → m_err s = None →
  length (m_phases s) = numConn ∧ Forall (λ ph, ph = Left_) (m_phases s).
Proof.
  intros Hok Hret Herr. assert (Hd : m_done s = numConn).
  { destruct d; simpl in Hret; [unfold server_returns in Hret; rewrite Herr in Hret|unfold client_returns in Hret].
    - rewrite bool_decide_false in Hret by by intros []. by apply bool_decide_eq_true in Hret.
    - by apply bool_decide_eq_true in Hret. }
  assert (Hle : sum_list_with left_count (m_phases s) ≤ length (m_phases s)).
  { clear. induction (m_phases s) as [|ph l IH]; simpl; [done|]. destruct ph; simpl; lia. }
  pose proof (mo_length _ _ _ Hok). pose proof (mo_done _ _ _ Hok). assert (Hl : length (m_phases s) = numConn) by lia.
  split; [done|]. apply (all_left_done s Hok). lia.
Qed.

(** ** A run without errors *)

Definition no_failure (s : merge R) : Prop := m_err s = None ∧ Forall (λ ph, match ph with Failing _ => False | _ => True end) (m_phases s).

Context `{!FiniteReader R}.
Lemma errorless_step s : (∀ i, i < numConn → ∃ rd, opened i = Ok rd) → merge_ok opened numConn s → m_serving s = false → no_failure s →
  (∃ s', step s s' ∧ m_serving s' = false ∧ no_failure s') ∨ Forall (λ ph, ph = Left_) (m_phases s).
Proof.
  intros Hopen Hok Hs [Herr Hno]. assert (Hdec : ∀ ph : conn_phase R, {ph = Left_} + {ph ≠ Left_}) by (intros []; (by left) || by right).
  destruct (Forall_Exists_dec (λ ph, ph = Left_) (λ ph, ph ≠ Left_) Hdec (m_phases s)) as [Hall|Hnot]; [by right|left].
  apply Exists_exists in Hnot as (ph & [i Hi]%list_elem_of_lookup & Hph).
  assert (Hlt : i < numConn) by (pose proof (lookup_lt_Some _ _ _ Hi); pose proof (mo_length _ _ _ Hok); lia).
  assert (Hgo : ∃ a ph', conn_step opened i ph a ph' ∧ (∀ msg, a ≠ SetError msg) ∧ match ph' with Failing _ => False | _ => True end).
  { pose proof (mo_phases _ _ _ Hok i ph Hi) as Hp. destruct ph as [|b|b r er|msg| |]; [..|by destruct Hph].
    - destruct (Hopen i Hlt) as [rd Ho]. eexists _, _. split; [by apply g_open|done].
    - destruct Hp as (rd & _ & Hwf & Hfin & _).
      destruct (Read_finite (S (length (to_come b))) b Hwf Hfin) as (r & er & b' & Hr & _ & _ & _ & Hend); [lia|].
      eexists _, _. split; [by eapply g_read|]. split; [done|]. destruct r; [|done]. by destruct Hend as [[-> _]|[[-> _]|(e & _ & []%never_breaks)]].
    - destruct Hp as (rd & _ & _ & _ & _ & Her). eexists _, _. split; [apply g_write|]. split; [done|]. by destruct Her as [->|[[-> _]|(e & _ & []%never_breaks)]].
    - rewrite Forall_forall in Hno. destruct (Hno (Failing msg)). by eapply list_elem_of_lookup_2.
    - eexists _, _. split; [apply g_leave|]. done. }
  destruct Hgo as (a & ph' & Hg & Ha & Hph'). exists (perform i a ph' s). split; [by eapply m_acts|]. rewrite m_serving_perform. split; [done|].
  split; [rewrite m_err_perform; destruct a; try done; by destruct (Ha msg)|]. rewrite m_phases_perform. by apply Forall_insert.
Qed.

(** When every connection opens and none breaks off, a client can end without an error. *)
Lemma errorless_run : (∀ i, i < numConn → ∃ rd, opened i = Ok rd) →
  ∃ s, rtc step (client_start numConn) s ∧ client_returns numConn s = true ∧ m_err s = None.
Proof.
  intros Hopen. assert (Hrun : ∀ n s, merge_left s < n → rtc step (client_start numConn) s → m_serving s = false → no_failure s →
    ∃ s', rtc step (client_start numConn) s' ∧ client_returns numConn s' = true ∧ m_err s' = None).
  { induction n as [|n IH]; intros s Hn Hs Hserv Hno; [lia|].
    pose proof (merge_ok_steps opened numConn _ s (started_side AsClient) Hs) as Hok.
    destruct (errorless_step s Hopen Hok Hserv Hno) as [(s' & Hstep & Hserv' & Hno')|Hall].
    - apply (IH s'); [|by eapply rtc_r|done..]. pose proof (merge_step_decreases s s' Hok Hstep). lia.
    - exists s. split; [done|]. split; [|apply Hno]. apply bool_decide_true. apply (all_left_done s Hok) in Hall. rewrite Hall. by apply client_length. }
  apply (Hrun (S (merge_left (client_start numConn))) (client_start numConn)); [lia|apply rtc_refl|done|]. split; [done|].
  apply Forall_replicate. done.
Qed.
End ending.

(** ** The end of a run without errors *)

Lemma choose_list {A} (P : nat → A → Prop) n : (∀ i, i < n → ∃ x, P i x) → ∃ l, length l = n ∧ ∀ i x, l !! i = Some x → P i x.
Proof.
  induction n as [|n IH]; intros Hn; [by exists []|]. destruct IH as (l & Hl & HP); [intros i Hi; apply Hn; lia|].
  destruct (Hn n) as [x Hx]; [lia|]. exists (l ++ [x]). rewrite length_app, Hl. split; [simpl; lia|].
  intros i y [Hi|[Hle [Hz <-]%list_lookup_singleton_Some]]%lookup_app_Some; [by apply HP|]. by replace i with n by lia.
Qed.

Lemma streams_complete `{StreamReader R} (opened : nat → go R) numConn (s : merge R) :
  merge_ok opened numConn s → length (m_phases s) = numConn → Forall (λ ph, ph = Left_) (m_phases s) → m_err s = None →
  ∃ rds, length rds = numConn ∧ ∀ i rd, rds !! i = Some rd → opened i = Ok rd ∧ concat (pieces_of i (m_output s)) = remaining rd.
Proof.
  intros Hok Hlen Hleft Herr. apply choose_list. intros i Hi. rewrite <-Hlen in Hi. apply lookup_lt_is_Some in Hi as [ph Hi].
  pose proof (mo_phases _ _ _ Hok i ph Hi) as Hp. rewrite Forall_forall in Hleft. rewrite (Hleft ph) in Hp by by eapply list_elem_of_lookup_2.
  destruct (Hp Herr) as (rd & ? & ?). by exists rd.
Qed.

Lemma records_complete `{StreamReader R} (opened : nat → go R) numConn (s0 s : merge R) rds : started numConn s0 → rtc (merge_step opened numConn) s0 s →
  (∀ i rd, opened i = Ok rd → records_fit DQ DQ NL buffer_size (remaining rd) ∧ record_start DQ DQ NL (remaining rd)) →
  length (m_phases s) = numConn → Forall (λ ph, ph = Left_) (m_phases s) → m_err s = None → length rds = numConn →
  (∀ i rd, rds !! i = Some rd → opened i = Ok rd ∧ concat (pieces_of i (m_output s)) = remaining rd) →
  csv_records (concat (m_output s).*2) ≡ₚ gather (λ rd, csv_records (remaining rd)) rds.
Proof.
  intros Hs0 Hrun Hfit Hlen Hleft Herr Hl Hrds. pose proof (merge_ok_steps opened numConn s0 s Hs0 Hrun) as Hok.
  pose proof (all_whole_steps opened numConn Hfit s0 s Hs0 Hrun) as Hwhole.
  assert (Hw : ∀ i, i < numConn → Forall whole (pieces_of i (m_output s))).
  { intros i Hi. rewrite <-Hlen in Hi. apply lookup_lt_is_Some in Hi as [ph Hi]. pose proof (Hwhole i ph Hi) as Hp.
    rewrite Forall_forall in Hleft. rewrite (Hleft ph) in Hp by by eapply list_elem_of_lookup_2. by apply Hp. }
  assert (Hall : Forall whole (m_output s).*2).
  { apply Forall_fmap, Forall_forall. intros [i p] Hin. pose proof (mo_output _ _ _ Hok _ Hin) as Hi. simpl in Hi. rewrite Hlen in Hi.
    specialize (Hw i Hi). rewrite Forall_forall in Hw. apply Hw. unfold pieces_of. apply list_elem_of_fmap. exists (i, p).
    split; [done|]. by apply list_elem_of_filter. }
  rewrite csv_records_concat by done. change (concat (csv_records <$> (m_output s).*2)) with (gather csv_records (m_output s).*2).
  rewrite (gather_pieces csv_records _ numConn) by (intros w Hin; rewrite <-Hlen; by apply (mo_output _ _ _ Hok)).
  apply reflexive_eq. unfold gather. f_equal. apply list_eq. intros i. rewrite !list_lookup_fmap.
  destruct (rds !! i) as [rd|] eqn:Hrd.
  - pose proof (lookup_lt_Some _ _ _ Hrd) as Hi. rewrite Hl in Hi. rewrite lookup_seq_lt by done. cbn [fmap option_fmap option_map].
    destruct (Hrds i rd Hrd) as [_ <-]. f_equal. symmetry. by apply csv_records_concat, Hw.
  - apply lookup_ge_None in Hrd. rewrite lookup_seq_ge by lia. done.
Qed.

(** When a helper returned without an error, its streams are in its output. *)
Lemma returned_records `{StreamReader R} (opened : nat → go R) numConn d (s : merge R) :
  rtc (merge_step opened numConn) (start_of numConn d) s → returns_of numConn d s = true → m_err s = None →
  ∃ rds, length rds = numConn ∧
    (∀ i rd, rds !! i = Some rd → opened i = Ok rd ∧ concat (pieces_of i (m_output s)) = remaining rd) ∧
    ((∀ i rd, opened i = Ok rd → records_fit DQ DQ NL buffer_size (remaining rd) ∧ record_start DQ DQ NL (remaining rd)) →
     csv_records (concat (m_output s).*2) ≡ₚ gather (λ rd, csv_records (remaining rd)) rds).
Proof.
  intros Hrun Hret Herr. pose proof (merge_ok_steps opened numConn _ s (started_side numConn d) Hrun) as Hok.
  destruct (returned_left opened numConn d s Hok Hret Herr) as [Hlen Hleft].
  destruct (streams_complete opened numConn s Hok Hlen Hleft Herr) as (rds & Hrds & Hall). exists rds. split; [done|]. split; [done|].
  intros Hfit. exact (records_complete opened numConn _ s rds (started_side numConn d) Hrun Hfit Hlen Hleft Herr Hrds Hall).
Qed.

Lemma le_to_nat (n : N) k : (N.of_nat k <= n)%N → k ≤ N.to_nat n.
Proof. lia. Qed.
Lemma short_stream_fits (s : list ascii) : length s < 1000 → records_fit DQ DQ NL buffer_size s.
Proof.
  intros Hs pre suf -> _ Hlen. exfalso. pose proof (le_to_nat 1048576 1000 ltac:(by vm_compute)) as Hbig. revert Hlen Hbig.
  unfold buffer_size, defaultBufSize. generalize (N.to_nat 1048576). intros n Hlen Hbig. rewrite length_app in Hs. lia.
Qed.

(** * The server of Helper *)

Section refinement.
Context {R : Type} `{IoReader R} (opened : nat → go R) (numConn : nat).

Definition is_running (ph : conn_phase R) : bool := match ph with Leaving | Left_ => false | _ => true end.
Definition leaving_count (ph : conn_phase R) : nat := match ph with Leaving => 1 | _ => 0 end.
Record implements (s : merge R) (t : server_state) : Prop := {
  im_serving : sv_serving t = m_serving s;
  im_accepted : sv_accepted t = length (m_phases s);
  im_running : ∀ i, i ∈ sv_running t ↔ ∃ ph, m_phases s !! i = Some ph ∧ is_running ph = true;
  im_closing : sv_closing t = sum_list_with leaving_count (m_phases s);
  im_finished : sv_finished t = m_done s;
  im_err : sv_err t = m_err s
}.

(** The running goroutines when goroutine [i] comes to [ph']. *)
Lemma running_insert (s : merge R) (running : gset nat) i ph ph' : m_phases s !! i = Some ph → is_running ph = true →
  (∀ j, j ∈ running ↔ ∃ ph, m_phases s !! j = Some ph ∧ is_running ph = true) →
  ∀ j, j ∈ (if is_running ph' then running else running ∖ {[i]}) ↔ ∃ ph, <[i:=ph']> (m_phases s) !! j = Some ph ∧ is_running ph = true.
Proof.
  intros Hi Hph Hrun j. pose proof (lookup_lt_Some _ _ _ Hi) as Hlt. destruct (decide (i = j)) as [<-|Hij].
  - rewrite list_lookup_insert_eq by done. destruct (is_running ph') eqn:Hp.
    + rewrite Hrun. split; intros _; eauto.
    + rewrite elem_of_difference, elem_of_singleton. split; [by intros [_ []]|]. intros (? & [= <-] & ?). congruence.
  - rewrite list_lookup_insert_ne by done. rewrite <-Hrun. destruct (is_running ph'); [done|].
    rewrite elem_of_difference, elem_of_singleton. naive_solver.
Qed.

Lemma goroutine_running i ph a ph' : conn_step opened i ph a ph' →
  match a with
  | Quiet | Write _ => is_running ph = true ∧ (is_running ph' = true ∨ ph' = Leaving)
  | SetError _ => is_running ph = true ∧ ph' = Leaving
  | Done => ph = Leaving ∧ ph' = Left_
  end.
Proof.
  intros [rd Ho|msg Ho|b fuel r er b' Hr|b r er|b r er n msg|msg|]; simpl; try tauto.
  - split; [done|]. destruct r, er as [[]|]; simpl; tauto.
  - split; [done|]. destruct er as [[]|]; simpl; tauto.
Qed.

Lemma leaving_insert (s : merge R) i ph ph' : m_phases s !! i = Some ph →
  sum_list_with leaving_count (<[i:=ph']> (m_phases s)) + leaving_count ph = sum_list_with leaving_count (m_phases s) + leaving_count ph'.
Proof. intros Hi. destruct (sum_list_insert leaving_count _ _ _ ph' Hi) as (rest & -> & ->). lia. Qed.

(** A step of the server is at most one step of the server of [Helper]. *)
Lemma server_simulates s s' t : implements s t → merge_step opened numConn s s' →
  implements s' t ∨ ∃ t', server_step numConn t t' ∧ implements s' t'.
Proof.
  intros [H1 H2 H3 H4 H5 H6] Hstep. destruct t as [serv a r c f d e]. simpl in *. subst serv a f e.
  destruct Hstep as [Hserv Hlt|msg Hserv Hlt|Hserv Hge|i ph a ph' Hi Hg]; [right; rewrite Hserv in *..|].
  - eexists. split; [by apply sv_accept|]. split; simpl; try done.
    + rewrite length_app. simpl. lia.
    + intros i. rewrite elem_of_union, elem_of_singleton, H3. split.
      * intros [->|(ph & Hph & ?)]; [exists Opening; split; [|done]; by rewrite lookup_app_r, Nat.sub_diag by done|].
        exists ph. split; [by apply lookup_app_l_Some|done].
      * intros (ph & [Hph|[Hle [Hz _]%list_lookup_singleton_Some]]%lookup_app_Some & Hr); [right; eauto|left; lia].
    + rewrite sum_list_with_app. simpl. lia.
  - eexists. split; [by apply (sv_accept_fails _ _ _ _ _ _ _ msg)|]. by split.
  - eexists. split; [by apply sv_all_accepted|]. by split.
  - pose proof (goroutine_running _ _ _ _ Hg) as Ha. pose proof (leaving_insert s i ph ph' Hi) as Hleave.
    assert (Hquiet : is_running ph = true → is_running ph' = true → (∀ msg, a ≠ SetError msg) → a ≠ Done → implements (perform i a ph' s)
      {| sv_serving := m_serving s; sv_accepted := length (m_phases s); sv_running := r; sv_closing := c; sv_finished := m_done s; sv_drained := d; sv_err := m_err s |}).
    { intros Hp Hp' Hse Hdo. split; rewrite ?m_serving_perform, ?m_phases_perform, ?m_err_perform, ?length_insert; simpl; try done.
      - pose proof (running_insert s r i ph ph' Hi Hp H3) as Hr. by rewrite Hp' in Hr.
      - destruct ph, ph'; simpl in *; congruence || lia.
      - by destruct a.
      - destruct a; try done. by destruct (Hse msg). }
    destruct a as [|piece|msg|].
    + destruct Ha as [Hp [Hp'| ->]]; [left; by apply Hquiet|right]. eexists. split; [apply (sv_drain _ _ _ _ _ _ _ _ i); apply H3; eauto|].
      split; simpl; rewrite ?length_insert; try done; [by apply (running_insert s r i ph Leaving)|]. destruct ph; simpl in *; congruence || lia.
    + destruct Ha as [Hp [Hp'| ->]]; [left; by apply Hquiet|right]. eexists. split; [apply (sv_drain _ _ _ _ _ _ _ _ i); apply H3; eauto|].
      split; simpl; rewrite ?length_insert; try done; [by apply (running_insert s r i ph Leaving)|]. destruct ph; simpl in *; congruence || lia.
    + destruct Ha as [Hp ->]. right. eexists. split; [apply (sv_fail _ _ _ _ _ _ _ _ i msg); apply H3; eauto|].
      split; simpl; rewrite ?length_insert; try done; [by apply (running_insert s r i ph Leaving)|]. destruct ph; simpl in *; congruence || lia.
    + destruct Ha as [-> ->]. right. simpl in Hleave. destruct c as [|c]; [lia|]. eexists. split; [apply sv_increase|].
      split; simpl; rewrite ?length_insert; try done; [|lia]. intros j. rewrite H3.
      destruct (decide (i = j)) as [<-|Hij]; [|by rewrite list_lookup_insert_ne].
      rewrite list_lookup_insert_eq by by eapply lookup_lt_Some. rewrite Hi. split; by intros (? & [= <-] & ?).
Qed.

(** The server with its data is an implementation of the server of [Helper]. *)
Theorem server_refines s : rtc (merge_step opened numConn) server_start s → ∃ t, rtc (server_step numConn) server0 t ∧ implements s t.
Proof.
  revert s. apply (rtc_ind_r (λ s, ∃ t, rtc (server_step numConn) server0 t ∧ implements s t)).
  - exists server0. split; [apply rtc_refl|]. split; simpl; try done. intros i. split; [by intros ?%elem_of_empty|by intros (ph & ? & _)].
  - intros s1 s2 _ Hstep (t & Ht & Him). destruct (server_simulates s1 s2 t Him Hstep) as [?|(t' & Hstep' & ?)]; [by exists t|].
    exists t'. split; [by eapply rtc_r|done].
Qed.
End refinement.

(** * The theorem *)

(** What the goroutines of a client and of a server open. *)
Definition client_opened {R} (c : Config) (dial : string → nat → go R) (NewCompressConn : R → CompressType → bool → go R) (targets : list (string * string)) : nat → go R :=
  λ i, let! (host, port) := index targets i in concurrent_connect c dial NewCompressConn host port.
Definition server_opened {R} (c : Config) (accepted : list R) (NewCompressReader : R → CompressType → go R) : nat → go R :=
  λ i, let! netConn := index accepted i in getReader c NewCompressReader netConn.

(** C4: A helper that serves several connections ends, however its goroutines
    and its accept loop interleave and whichever connections fail: it can
    always step until it returns, and every run is finite. When it returns
    without an error its output holds the bytes of every connection, each in
    order and nothing else; and when the connections are CSV streams whose
    records fit the buffer, the records read from the output are, in some
    order, exactly the records of all connections: none is torn, lost or
    doubled (concurrent_client.go:31, concurrent_server.go:37, server.go:126). *)
Theorem merged_records `{StreamReader R} (opened : nat → go R) (numConn : nat) (d : side) (s : merge R)
    (Hopened : ∀ i, i < numConn → (∃ rd, opened i = Ok rd) ∨ ∃ msg, opened i = Err msg) :
  rtc (merge_step opened numConn) (start_of numConn d) s →
  (returns_of numConn d s = true ∨ ∃ s', merge_step opened numConn s s') ∧
  (∀ s', merge_step opened numConn s s' → merge_left opened numConn s' < merge_left opened numConn s) ∧
  (returns_of numConn d s = true → m_err s = None →
   ∃ rds, length rds = numConn ∧
     (∀ i rd, rds !! i = Some rd → opened i = Ok rd ∧ concat (pieces_of i (m_output s)) = remaining rd) ∧
     ((∀ i rd, opened i = Ok rd → records_fit DQ DQ NL buffer_size (remaining rd) ∧ record_start DQ DQ NL (remaining rd)) →
      csv_records (concat (m_output s).*2) ≡ₚ gather (λ rd, csv_records (remaining rd)) rds)).
Proof.
  intros Hrun. pose proof (merge_ok_steps opened numConn _ s (started_side numConn d) Hrun) as Hok.
  split; [by eapply returns_or_steps|]. split; [intros s'; by apply merge_step_decreases|]. by apply returned_records.
Qed.

(** Two connections of a client; the first comes in three pieces. *)
Definition two_targets : list (string * string) := [("h1", "7000"); ("h2", "7001")].
Definition two_streams : list (list ascii) := [sample_csv; bytes "c,d" ++ [NL]].
Definition two_hosts_config : Config := set_no_compression (set_direction (set_num_dests (set_seg (set_ports (set_hosts InitFlags ["h1"; "h2"]) ["7000"; "7001"]) 0) 1) DirectionModeReceive).
Definition two_dial (address : string) (attempt : nat) : go (list ascii) :=
  if bool_decide (address = "h1:7000") then Ok sample_csv else if bool_decide (1 < attempt) then Ok (bytes "c,d" ++ [NL]) else Err "refused".

Lemma merged_records_witness :
  createClientImpl two_hosts_config = ConcurrentClient ∧ concurrent_targets two_hosts_config = Ok two_targets ∧
  ∃ s, rtc (merge_step (client_opened two_hosts_config two_dial (λ conn _ _, Ok conn) two_targets) 2) (client_start 2) s ∧
    csv_records (concat (m_output s).*2) ≡ₚ gather csv_records two_streams.
Proof.
  split; [reflexivity|]. split; [reflexivity|].
  set (opened := client_opened two_hosts_config two_dial (λ conn _ _, Ok conn) two_targets).
  assert (H0 : opened 0 = Ok sample_csv) by (vm_compute; reflexivity).
  assert (H1 : opened 1 = Ok (bytes "c,d" ++ [NL])) by (vm_compute; reflexivity).
  assert (H2 : ∀ i, opened (S (S i)) = Panic "index out of range") by reflexivity.
  assert (Hopen : ∀ i, i < 2 → ∃ rd, opened i = Ok rd) by (intros [|[|i]] ?; [by eexists|by eexists|lia]).
  destruct (errorless_run opened 2 Hopen) as (s & Hs & Hret & Herr). exists s. split; [exact Hs|].
  destruct (merged_records opened 2 AsClient s (λ i Hi, or_introl (Hopen i Hi)) Hs) as (_ & _ & Hend).
  destruct (Hend Hret Herr) as (rds & Hlen & Hrds & Hrecords).
  assert (rds = two_streams) as Heq.
  { destruct rds as [|rd0 [|rd1 [|]]]; try done. destruct (Hrds 0 rd0 eq_refl) as [Ho0 _], (Hrds 1 rd1 eq_refl) as [Ho1 _].
    rewrite H0 in Ho0. rewrite H1 in Ho1. by injection Ho0 as <-; injection Ho1 as <-. }
  subst rds. apply Hrecords. intros [|[|i]] rd Ho.
  - rewrite H0 in Ho. injection Ho as <-. split; [by apply short_stream_fits; vm_compute; lia|]. right. split; vm_compute; reflexivity.
  - rewrite H1 in Ho. injection Ho as <-. split; [by apply short_stream_fits; vm_compute; lia|]. right. split; vm_compute; reflexivity.
  - by rewrite H2 in Ho.
Defined.
