(* ===== verification/Delivery.v ===== *)
(** From the source segments to the destination segments: the commands of
    [CopyCommand], the helpers they start and the streams between them taken
    together. No code of its own; [Transfer] shows who dials whom, [Merge] what
    a helper makes of its connections. *)
From S2P Require Import Prelude Utils Options Validator Version Reader Helper CopyCommand Shell Transfer Merge.

Lemma filter_iff_in {A} (P Q : A → Prop) `{∀ x, Decision (P x), ∀ x, Decision (Q x)} (l : list A) :
  (∀ x, x ∈ l → P x ↔ Q x) → filter P l = filter Q l.
Proof.
  induction l as [|x l IH]; intros Hl; [done|]. rewrite !filter_cons, IH by (intros y Hy; apply Hl; by right).
  pose proof (Hl x ltac:(by left)). repeat case_decide; tauto.
Qed.

Section delivery.
Context {R : Type} `{StreamReader R}.

(** What a helper with configuration [c] has written when it ended without an
    error; [streams]: what its connections carry, decompressed, in the order
    they were accepted or dialled. A helper for one connection copies it
    ([RedirectStream]); a client without an address does nothing. *)
Inductive helper_output (c : Config) (streams : list R) : list ascii → Prop :=
| out_one_time_server rd : Run_role c = Listen → createServerImpl c = Ok OneTimeServer → streams = [rd] → helper_output c streams (remaining rd)
| out_one_time_client rd : Run_role c = Client → createClientImpl c = OneTimeClient → streams = [rd] → helper_output c streams (remaining rd)
| out_no_work : Run_role c = Client → createClientImpl c = OneTimeClient → streams = [] → helper_output c streams []
| out_server n s : Run_role c = Listen → createServerImpl c = Ok (ConcurrentServer n) →
    rtc (merge_step (index streams) (Z.to_nat n)) server_start s → server_returns (Z.to_nat n) s = true → m_err s = None →
    helper_output c streams (concat (m_output s).*2)
| out_client s : Run_role c = Client → createClientImpl c = ConcurrentClient →
    rtc (merge_step (index streams) (length streams)) (client_start (length streams)) s → client_returns (length streams) s = true →
    m_err s = None → helper_output c streams (concat (m_output s).*2).

(** The stream of a source segment: whole records that fit the buffer. *)
Definition csv_stream (rd : R) : Prop := records_fit DQ DQ NL buffer_size (remaining rd) ∧ record_start DQ DQ NL (remaining rd).
Definition stream_records (rd : R) : list (list ascii) := csv_records (remaining rd).

Lemma opened_all (streams rds : list R) : length rds = length streams → (∀ i rd, rds !! i = Some rd → index streams i = Ok rd) → rds = streams.
Proof.
  intros Hl Hi. apply list_eq_same_length with (n := length streams); [done|done|]. intros i x y _ Hx Hy.
  apply Hi, index_Ok in Hx. congruence.
Qed.

Lemma merged_streams d (streams : list R) s : Forall csv_stream streams →
  rtc (merge_step (index streams) (length streams)) (start_of (length streams) d) s → returns_of (length streams) d s = true → m_err s = None →
  csv_records (concat (m_output s).*2) ≡ₚ gather stream_records streams.
Proof.
  intros Hall Hrun Hret Herr. destruct (returned_records _ _ d s Hrun Hret Herr) as (rds & Hl & Hrds & Hrec).
  assert (rds = streams) as ->. { apply opened_all; [done|]. intros i rd Hi. by apply Hrds. }
  apply Hrec. intros i rd Hi%index_Ok. rewrite Forall_lookup in Hall. by apply (Hall i).
Qed.

(** A helper that expects as many clients as it has writes all their records. *)
Lemma helper_output_records c (streams : list R) out : helper_output c streams out → Forall csv_stream streams →
  (∀ n, createServerImpl c = Ok (ConcurrentServer n) → Z.to_nat n = length streams) →
  csv_records out ≡ₚ gather stream_records streams.
Proof.
  assert (Hone : ∀ rd, csv_records (remaining rd) ≡ₚ gather stream_records [rd]).
  { intros rd. unfold gather. cbn [fmap list_fmap concat]. by rewrite app_nil_r. }
  intros [rd _ _ ->|rd _ _ ->|_ _ ->|n s _ Hs Hrun Hret Herr|s _ _ Hrun Hret Herr] Hall Hn; [apply Hone|apply Hone|done| |].
  - rewrite (Hn n Hs) in Hrun, Hret. by apply (merged_streams AsServer).
  - by apply (merged_streams AsClient).
Qed.

Context `{MapRange} `{FlagSet F} (CmdFlags : F) (cmd : CopyCommand) (ports : list HelperPortInfo) (range : string).
Context (Hok : transfer_ok CmdFlags cmd ports range).
Local Abbreviation b := (cmd_base cmd).
Local Abbreviation ns := (length (SrcSegmentsHostInfo b)).
Local Abbreviation nd := (length (DestSegmentsHostInfo b)).

(** The outputs of all destination segments, when each has the streams of a
    share of the source segments. *)
Lemma shares_delivered (data : nat → R) (got : nat → list nat) (out : nat → list ascii) :
  (∀ j, j < nd → got j ≡ₚ share ns nd j ∧ csv_records (out j) ≡ₚ gather stream_records (data <$> got j)) →
  gather (λ j, csv_records (out j)) (seq 0 nd) ≡ₚ gather (λ i, stream_records (data i)) (seq 0 ns).
Proof.
  intros Hgot. pose proof (tr_dest _ _ _ _ Hok) as Hnd. rewrite <-(share_partition ns nd Hnd). unfold gather at 2. unfold gather at 1.
  assert (Hl : ∀ l, (∀ j, j ∈ l → j < nd) →
    concat ((λ j, csv_records (out j)) <$> l) ≡ₚ concat ((λ i, stream_records (data i)) <$> (l ≫= share ns nd))).
  { induction l as [|j l IH]; intros Hlt; [done|]. cbn [fmap list_fmap concat mbind list_bind]. rewrite fmap_app, concat_app.
    destruct (Hgot j) as [Hshare ->]; [apply Hlt; by left|]. rewrite IH by (intros k Hk; apply Hlt; by right). apply Permutation_app_tail.
    unfold gather. rewrite <-list_fmap_compose. by rewrite Hshare. }
  apply Hl. intros j Hj%elem_of_seq. lia.
Qed.

(** * Who is connected *)

(** The segments whose helpers listen, and the addresses they reported. *)
Definition listening : list (string * string) := addresses (if is_push b then DestSegmentsHostInfo b else SrcSegmentsHostInfo b) ports.

(** [got]: the source segments whose streams the helper [c] of destination
    segment [j] gets. A listener gets the helpers that dial its address, in any
    order; a client those that listen on the addresses it dials, in that order. *)
Definition dials_to (query : string) (i : nat) (a : option (string * string)) : bool :=
  match launch query i with
  | Launched c => match dials c with Ok l => bool_decide (l = option_list a) | _ => false end
  | _ => false
  end.
Definition connected (toQuery : string) (c : Config) (j : nat) (got : list nat) : Prop :=
  if is_push b then got ≡ₚ filter (λ i, dials_to toQuery i (listening !! j)) (seq 0 ns)
  else ∃ l, dials c = Ok l ∧ Forall2 (λ a i, listening !! i = Some a) l got.

(** The helper of destination segment [j], when one is started, ended without an
    error. *)
Definition received_by (toQuery fromQuery : string) (data : nat → R) (j : nat) (got : list nat) (out : list ascii) : Prop :=
  match launch fromQuery j with
  | Launched c => connected toQuery c j got ∧ helper_output c (data <$> got) out
  | _ => got = [] ∧ out = []
  end.

Lemma push_share (toQuery : string) (A : list (string * string)) j : NoDup A → j < nd → length A = ns `min` nd →
  (∀ i, i < ns → ∃ c, launch toQuery i = Launched c ∧ dials c = Ok (option_list (A !! (i `mod` nd))) ∧ is_Some (A !! (i `mod` nd))) →
  filter (λ i, dials_to toQuery i (A !! j)) (seq 0 ns) = share ns nd j.
Proof.
  intros Hnd Hj HA Hsrc. unfold share. apply filter_iff_in. intros i Hi%elem_of_seq. destruct (Hsrc i) as (c & Hc & Hd & a & Ha); [lia|].
  unfold dials_to. rewrite Hc, Hd, Ha. simpl. rewrite bool_decide_spec. split.
  - intros Heq. destruct (A !! j) as [a'|] eqn:Haj; [|done]. simpl in Heq. injection Heq as <-. by eapply NoDup_lookup.
  - intros <-. by rewrite Ha.
Qed.

Lemma pull_share (L l : list (string * string)) (got : list nat) j : NoDup L → length L = ns → l = omap (L !!.) (share ns nd j) →
  Forall2 (λ a i, L !! i = Some a) l got → got = share ns nd j.
Proof.
  intros HL Hlen -> Hgot. assert (Hin : ∀ i, i ∈ share ns nd j → i < ns) by (intros i [_ Hi%elem_of_seq]%list_elem_of_filter; lia).
  revert got Hgot. induction (share ns nd j) as [|i sh IH]; intros got Hgot; [by inversion Hgot|].
  cbn [omap list_omap] in Hgot. assert (Hi : i < ns) by (apply Hin; by left). rewrite <-Hlen in Hi. apply lookup_lt_is_Some in Hi as [a Ha].
  rewrite Ha in Hgot. apply Forall2_cons_inv_l in Hgot as (i' & got' & Ha' & Hgot & ->). f_equal; [by eapply NoDup_lookup|].
  apply IH; [|done]. intros k Hk. apply Hin. by right.
Qed.

(** The records a helper writes, when its configuration is known. *)
Lemma output_records c (streams : list R) out n : helper_output c streams out → Forall csv_stream streams → length streams = n →
  (∃ s, createServerImpl c = Ok s ∧ numConn s = Z.of_nat n) ∨ Run_role c = Client → csv_records out ≡ₚ gather stream_records streams.
Proof.
  intros Hout Hall Hn [(s & Hs & Hnum)|Hrole].
  - apply (helper_output_records c); [done|done|]. intros m Hm. rewrite Hs in Hm. injection Hm as ->. simpl in Hnum. subst m. lia.
  - inversion Hout as [rd Hr|rd Hr Hc|Hr Hc|m s Hr|s Hr Hc Hrun Hret Herr]; subst; try congruence.
    + unfold gather. cbn [fmap list_fmap concat]. by rewrite app_nil_r.
    + done.
    + by apply (merged_streams AsClient).
Qed.

Lemma Forall_streams (data : nat → R) (l : list nat) : (∀ i, i < ns → csv_stream (data i)) → (∀ i, i ∈ l → i < ns) → Forall csv_stream (data <$> l).
Proof. intros Hd Hl. apply Forall_fmap, Forall_forall. intros i Hi. apply Hd. by apply Hl. Qed.
Lemma share_bound j i : i ∈ share ns nd j → i < ns.
Proof. intros [_ Hi%elem_of_seq]%list_elem_of_filter. lia. Qed.

(** What the helper on destination segment [j] is started for. *)
Definition started_for (c : Config) (j : nat) : Prop :=
  if is_push b then Run_role c = Listen ∧ ∃ s, createServerImpl c = Ok s ∧ numConn s = Z.of_nat (length (share ns nd j))
  else Run_role c = Client ∧ dials c = Ok (omap (listening !!.) (share ns nd j)).
Definition all_started (toQuery fromQuery : string) : Prop :=
  (∀ i, i < ns → ∃ c, launch toQuery i = Launched c) ∧
  (∀ j, j < nd → (∃ c, launch fromQuery j = Launched c ∧ started_for c j) ∨ launch fromQuery j = NotLaunched ∧ share ns nd j = []).
(** The records on both sides are the same. *)
Definition all_delivered (data : nat → R) (out : nat → list ascii) : Prop :=
  gather (λ j, csv_records (out j)) (seq 0 nd) ≡ₚ gather (λ i, stream_records (data i)) (seq 0 ns).
Definition delivers (toQuery fromQuery : string) : Prop :=
  all_started toQuery fromQuery ∧
  ∀ (data : nat → R) (got : nat → list nat) (out : nat → list ascii),
    NoDup listening → (∀ i, i < ns → csv_stream (data i)) →
    (∀ j, j < nd → received_by toQuery fromQuery data j (got j) (out j)) → all_delivered data out.

(** It is enough that each helper gets its share. *)
Lemma delivered_when (toQuery fromQuery : string) : all_started toQuery fromQuery →
  (∀ j c got, j < nd → NoDup listening → launch fromQuery j = Launched c → started_for c j → connected toQuery c j got → got ≡ₚ share ns nd j) →
  delivers toQuery fromQuery.
Proof.
  intros Hstarted Hshare. split; [done|]. intros data got out Hdistinct Hdata Hrecv. apply (shares_delivered data got). intros j Hj.
  destruct (proj2 Hstarted j Hj) as [(c & Hc & Hfor)|[Hc Hempty]]; pose proof (Hrecv j Hj) as Hj'; unfold received_by in Hj'; rewrite Hc in Hj'.
  - destruct Hj' as [Hconn Hout]. assert (Hgot : got j ≡ₚ share ns nd j) by (by eapply Hshare). split; [done|].
    apply (output_records c _ _ (length (share ns nd j)) Hout); [|by rewrite length_fmap, Hgot|].
    + apply Forall_streams; [done|]. intros i. rewrite Hgot. apply share_bound.
    + unfold started_for in Hfor. destruct (is_push b); [left|right]; apply Hfor.
  - destruct Hj' as [-> ->]. by rewrite Hempty.
Qed.

Lemma push_delivers (srcTable destTable : Table) (cmdId ext : string) (Hnames : names_ok srcTable destTable cmdId ext) :
  ConnectionMode b = ConnectionModePush → ∃ toQuery fromQuery,
    CopyTo_query CmdFlags cmd srcTable ports cmdId = Ok toQuery ∧ CopyFrom_query CmdFlags cmd destTable [] cmdId ext = Ok fromQuery ∧
    delivers toQuery fromQuery.
Proof.
  intros Hpush. pose proof (proj1 (push_modes cmd Hpush)) as Hm.
  destruct (push_agrees CmdFlags cmd ports range Hok Hpush srcTable destTable cmdId ext Hnames) as (q & q' & Hq & Hq' & Hsrc & Hdest).
  exists q, q'. do 2 (split; [done|]). apply delivered_when.
  - split; [intros i Hi; destruct (Hsrc i Hi) as (c & Hc & _); by exists c|]. intros j Hj.
    destruct (Hdest j Hj) as [(c & clients & s & Hc & Hl & _ & Hserver & Hnum)|?]; [left|by right].
    exists c. split; [done|]. unfold started_for. rewrite Hm. split; [apply Hl|]. by exists s.
  - intros j c got Hj Hdistinct Hc Hfor Hconn. unfold connected, listening in *. rewrite Hm in *. rewrite Hconn.
    apply reflexive_eq, push_share; [done|done|apply (push_ports CmdFlags cmd ports range Hok Hpush)|].
    intros i Hi. destruct (Hsrc i Hi) as (ci & Hci & _ & _ & _ & Hd & Ha). by exists ci.
Qed.

Lemma pull_delivers (srcTable destTable : Table) (cmdId ext : string) (Hnames : names_ok srcTable destTable cmdId ext) :
  ConnectionMode b = ConnectionModePull → ∃ toQuery fromQuery,
    CopyTo_query CmdFlags cmd srcTable [] cmdId = Ok toQuery ∧ CopyFrom_query CmdFlags cmd destTable ports cmdId ext = Ok fromQuery ∧
    delivers toQuery fromQuery.
Proof.
  intros Hpull. pose proof (proj1 (pull_modes cmd Hpull)) as Hm.
  destruct (pull_agrees CmdFlags cmd ports range Hok Hpull srcTable destTable cmdId ext Hnames) as (q & q' & Hq & Hq' & Hsrc & Hdest & _).
  assert (HL : listening = addresses (SrcSegmentsHostInfo b) ports) by (unfold listening; by rewrite Hm).
  exists q, q'. do 2 (split; [done|]). apply delivered_when.
  - split; [intros i Hi; destruct (Hsrc i Hi) as (c & Hc & _); by exists c|]. intros j Hj.
    destruct (Hdest j Hj) as [(c & Hc & Hrole & _ & _ & Hd)|?]; [left|by right]. exists c. split; [done|]. unfold started_for. by rewrite Hm, HL.
  - intros j c got Hj Hdistinct Hc Hfor Hconn. unfold connected, started_for in *. rewrite Hm in *. destruct Hconn as (l & Hl & Hgot).
    destruct Hfor as [_ Hd]. rewrite Hd in Hl. injection Hl as <-. apply reflexive_eq.
    eapply pull_share; [done|rewrite HL; apply (pull_ports CmdFlags cmd ports range Hok Hpull)|done|done].
Qed.

(** C1: Every row that leaves a source segment arrives on the destination, once
    and whole, in push and in pull mode: the two printed commands, read by the
    server and the shell, start helpers with accepted options on all segments
    such that, whatever the order in which they connect and their goroutines
    run, if every helper on the destination ends without an error, the records
    read on all destination segments together are exactly the records that the
    source segments sent. Listeners have distinct addresses, and every stream
    consists of whole records that fit the buffer (copy_command.go, helper/,
    internal/reader). *)
Theorem rows_delivered (srcTable destTable : Table) (cmdId ext : string) (Hnames : names_ok srcTable destTable cmdId ext)
    (Hmode : ConnectionMode b = ConnectionModePush ∨ ConnectionMode b = ConnectionModePull) :
  ∃ toQuery fromQuery,
    CopyTo_query CmdFlags cmd srcTable (if is_push b then ports else []) cmdId = Ok toQuery ∧
    CopyFrom_query CmdFlags cmd destTable (if is_push b then [] else ports) cmdId ext = Ok fromQuery ∧
    (∀ i, i < ns → ∃ c, launch toQuery i = Launched c) ∧
    (∀ j, j < nd → (∃ c, launch fromQuery j = Launched c ∧ started_for c j) ∨ launch fromQuery j = NotLaunched ∧ share ns nd j = []) ∧
    ∀ (data : nat → R) (got : nat → list nat) (out : nat → list ascii),
      NoDup listening → (∀ i, i < ns → csv_stream (data i)) →
      (∀ j, j < nd → received_by toQuery fromQuery data j (got j) (out j)) →
      gather (λ j, csv_records (out j)) (seq 0 nd) ≡ₚ gather (λ i, stream_records (data i)) (seq 0 ns).
Proof.
  destruct Hmode as [Hm|Hm]; [rewrite (proj1 (push_modes cmd Hm)); destruct (push_delivers srcTable destTable cmdId ext Hnames Hm) as (q & q' & Hq & Hq' & [Hto Hfrom] & Hall)
    |rewrite (proj1 (pull_modes cmd Hm)); destruct (pull_delivers srcTable destTable cmdId ext Hnames Hm) as (q & q' & Hq & Hq' & [Hto Hfrom] & Hall)];
    by exists q, q'.
Qed.
End delivery.

(** * Five source segments, two destination segments *)

Definition sample_row (i : nat) : list ascii := bytes (Itoa (Z.of_nat i)) ++ [NL].
Lemma sample_row_stream i : i < 5 → csv_stream (sample_row i).
Proof.
  intros Hi. do 5 (destruct i as [|i]; [split; [apply short_stream_fits; vm_compute; lia|right; split; vm_compute; reflexivity]|]). lia.
Qed.

(** A client of several listeners that all answer can end without an error. *)
Lemma client_output `{FiniteReader R} (c : Config) (streams : list R) targets : Run_role c = Client → dials c = Ok targets →
  1 < length targets → ∃ out, helper_output c streams out.
Proof.
  intros Hrole Hd Hlen. unfold dials in Hd. destruct (createClientImpl c) eqn:Hc.
  - destruct (errorless_run (index streams) (length streams)) as (s & Hs & Hret & Herr).
    { intros i [rd Hi]%lookup_lt_is_Some. exists rd. by apply index_Ok. }
    exists (concat (m_output s).*2). by apply (out_client c streams s).
  - destruct (one_time_target c) as [[t|]| | |]; simpl in Hd; simplify_eq; simpl in Hlen; lia.
Qed.

Lemma rows_delivered_witness :
  let cmd := sample_command "pull" in
  ∃ (toQuery fromQuery : string) (out : nat → list ascii),
    CopyFrom_query default_flags cmd (mkTable "public" "t") (sample_ports 5) "id" "ext" = Ok fromQuery ∧
    (∀ j, j < 2 → received_by cmd (sample_ports 5) toQuery fromQuery sample_row j (share 5 2 j) (out j)) ∧
    gather (λ j, csv_records (out j)) (seq 0 2) ≡ₚ gather (λ i, stream_records (sample_row i)) (seq 0 5).
Proof.
  intros cmd. destruct (rows_delivered (R := list ascii) default_flags cmd (sample_ports 5) "1024-65535" ltac:(by apply sample_transfer)
    (mkTable "public" "t") (mkTable "public" "t") "id" "ext" sample_names (or_intror eq_refl)) as (q & q' & Hq & Hq' & _ & Hdest & Hall).
  assert (Htargets : ∀ j, j < 2 → 1 < length (omap (listening cmd (sample_ports 5) !!.) (share 5 2 j))).
  { intros [|[|j]] Hj; [vm_compute; lia|vm_compute; lia|lia]. }
  assert (Hout : ∀ j, j < 2 → ∃ o, received_by cmd (sample_ports 5) q q' sample_row j (share 5 2 j) o).
  { intros j Hj. destruct (Hdest j Hj) as [(c & Hc & Hrole & Hd)|[_ Hempty]].
    - destruct (client_output c (sample_row <$> share 5 2 j) _ Hrole Hd (Htargets j Hj)) as [o Ho]. exists o.
      unfold received_by. rewrite Hc. split; [|exact Ho]. exists (omap (listening cmd (sample_ports 5) !!.) (share 5 2 j)). split; [exact Hd|].
      destruct j as [|[|j]]; [repeat constructor|repeat constructor|lia].
    - exfalso. revert Hempty. destruct j as [|[|j]]; [discriminate|discriminate|lia]. }
  destruct (choose_list (λ j o, received_by cmd (sample_ports 5) q q' sample_row j (share 5 2 j) o) 2 Hout) as (outs & Hl & Houts).
  exists q, q', (λ j, default [] (outs !! j)).
  assert (Hrecv : ∀ j, j < 2 → received_by cmd (sample_ports 5) q q' sample_row j (share 5 2 j) (default [] (outs !! j))).
  { intros j Hj. rewrite <-Hl in Hj. apply lookup_lt_is_Some in Hj as [o Ho]. rewrite Ho. by apply Houts. }
  split; [exact Hq'|]. split; [exact Hrecv|]. apply (Hall sample_row (share 5 2) (λ j, default [] (outs !! j))).
  - apply (bool_decide_unpack _). vm_compute. exact I.
  - intros i Hi. by apply sample_row_stream.
  - exact Hrecv.
Defined.
