(* ===== verification/Checksum.v ===== *)
(** The checksum of the helper ([Helper.handleMD5XOR], helper/helper.go): MD5,
    of the standard library, and the exclusive or of the digests of the lines of
    the input. *)
From S2P Require Import Prelude Utils.

(** * MD5 *)

(** Bytes and words are numbers; a word has 32 bits, the low byte first. *)
Local Open Scope Z_scope.
Definition md5_T : list Z :=
  [3614090360; 3905402710; 606105819; 3250441966; 4118548399; 1200080426; 2821735955; 4249261313;
   1770035416; 2336552879; 4294925233; 2304563134; 1804603682; 4254626195; 2792965006; 1236535329;
   4129170786; 3225465664; 643717713; 3921069994; 3593408605; 38016083; 3634488961; 3889429448;
   568446438; 3275163606; 4107603335; 1163531501; 2850285829; 4243563512; 1735328473; 2368359562;
   4294588738; 2272392833; 1839030562; 4259657740; 2763975236; 1272893353; 4139469664; 3200236656;
   681279174; 3936430074; 3572445317; 76029189; 3654602809; 3873151461; 530742520; 3299628645;
   4096336452; 1126891415; 2878612391; 4237533241; 1700485571; 2399980690; 4293915773; 2240044497;
   1873313359; 4264355552; 2734768916; 1309151649; 4149444226; 3174756917; 718787259; 3951481745].
Definition md5_s (i : nat) : Z :=
  nth (i / 16 * 4 + i mod 4)%nat [7; 12; 17; 22; 5; 9; 14; 20; 4; 11; 16; 23; 6; 10; 15; 21] 0.
Definition md5_k (i : nat) : nat :=
  match (i / 16)%nat with 0%nat => i | 1%nat => (5 * i + 1) mod 16 | 2%nat => (3 * i + 5) mod 16 | _ => (7 * i) mod 16 end.
Definition md5_f (i : nat) (b c d : Z) : Z :=
  match (i / 16)%nat with
  | 0%nat => Z.lor (Z.land b c) (Z.land (2 ^ 32 - 1 - b) d)
  | 1%nat => Z.lor (Z.land d b) (Z.land (2 ^ 32 - 1 - d) c)
  | 2%nat => Z.lxor b (Z.lxor c d)
  | _ => Z.lxor c (Z.lor b (2 ^ 32 - 1 - d))
  end.
Definition rotate_left (x s : Z) : Z := Z.lor (wrapu 32 (Z.shiftl x s)) (Z.shiftr x (32 - s)).
Definition md5_step (words : list Z) (st : Z * Z * Z * Z) (i : nat) : Z * Z * Z * Z :=
  let '(a, b, c, d) := st in
  let x := wrapu 32 (a + md5_f i b c d + nth (md5_k i) words 0 + nth i md5_T 0) in
  (d, wrapu 32 (b + rotate_left x (md5_s i)), b, c).
Definition md5_block (st : Z * Z * Z * Z) (words : list Z) : Z * Z * Z * Z :=
  let '(a, b, c, d) := st in
  let '(a', b', c', d') := foldl (md5_step words) st (seq 0 64) in
  (wrapu 32 (a + a'), wrapu 32 (b + b'), wrapu 32 (c + c'), wrapu 32 (d + d')).

Fixpoint le_bytes (n : nat) (x : Z) : list Z :=
  match n with O => [] | S n => x mod 256 :: le_bytes n (x / 256) end.
Definition le_word (l : list Z) : Z := foldr (λ b acc, b + 256 * acc) 0 l.
Fixpoint chunks {A} (fuel n : nat) (l : list A) : list (list A) :=
  match fuel, l with
  | S fuel, _ :: _ => take n l :: chunks fuel n (drop n l)
  | _, _ => []
  end.
(** A one bit, zeros up to 56 bytes of a block, and the length in bits. *)
Definition md5_pad (l : list Z) : list Z :=
  let n := length l in
  l ++ [128] ++ replicate ((119 - n mod 64) mod 64)%nat 0 ++ le_bytes 8 (wrapu 64 (8 * Z.of_nat n)).
Definition byte_values (s : string) : list Z := (λ c, Z.of_nat (nat_of_ascii c)) <$> bytes s.
Definition md5_Sum (s : string) : list Z :=
  let l := md5_pad (byte_values s) in
  let '(a, b, c, d) := foldl (λ st block, md5_block st (le_word <$> chunks 16 4 block)) (1732584193, 4023233417, 2562383102, 271733878)
                         (chunks (length l) 64 l) in
  le_bytes 4 a ++ le_bytes 4 b ++ le_bytes 4 c ++ le_bytes 4 d.

(** ["%x"] of a slice of bytes. *)
Definition hex_nibble (n : Z) : string := default "" (String.get (Z.to_nat n) "0123456789abcdef" ≫= λ c, Some (chr c)).
Definition hex_bytes (l : list Z) : string := foldr (λ b s, hex_nibble (b / 16) +:+ hex_nibble (b mod 16) +:+ s) "" l.

Example md5_empty : hex_bytes (md5_Sum "") = "d41d8cd98f00b204e9800998ecf8427e".
Proof. vm_compute. reflexivity. Qed.
Example md5_abc : hex_bytes (md5_Sum "abc") = "900150983cd24fb0d6963f7d28e17f72".
Proof. vm_compute. reflexivity. Qed.
Example md5_two_blocks : hex_bytes (md5_Sum "ABCDEFGHIJKLMNOPQRSTUVWXYZabcdefghijklmnopqrstuvwxyz0123456789") = "d174ab98d277d9f5a5611c2c9f419d9f".
Proof. vm_compute. reflexivity. Qed.
Example md5_full_block : hex_bytes (md5_Sum "aaaaaaaaaaaaaaaaaaaaaaaaaaaaaaaaaaaaaaaaaaaaaaaaaaaaaaaaaaaaaaaa") = "014842d480b571495a4a0363793f7367".
Proof. vm_compute. reflexivity. Qed.
Local Close Scope Z_scope.

(** * The helper's checksum *)

Definition xor_bytes : list Z → list Z → list Z := zip_with Z.lxor.
Definition md5xor (lines : list string) : list Z := foldl (λ xor line, xor_bytes (md5_Sum line) xor) (replicate 16 0%Z) lines.
(** The lines of the scanner, whose error is not looked at. *)
Definition handleMD5XOR (stdin : string) : string := hex_bytes (md5xor (scan (raw_lines (Split stdin NL)))) +:+ chr NL.

Lemma xor_bytes_swap a b x : xor_bytes a (xor_bytes b x) = xor_bytes b (xor_bytes a x).
Proof.
  unfold xor_bytes. revert b x. induction a as [|i a IH]; intros [|j b] [|k x]; simpl; try done. f_equal; [|apply IH].
  by rewrite <-!Z.lxor_assoc, (Z.lxor_comm i j).
Qed.
Lemma xor_bytes_twice a x : length x ≤ length a → xor_bytes a (xor_bytes a x) = x.
Proof.
  unfold xor_bytes. revert x. induction a as [|i a IH]; intros [|k x]; simpl; intros Hl; try done; [lia|].
  f_equal; [|apply IH; lia]. by rewrite <-Z.lxor_assoc, Z.lxor_nilpotent, Z.lxor_0_l.
Qed.
Lemma md5xor_from x lines lines' : lines ≡ₚ lines' →
  foldl (λ xor line, xor_bytes (md5_Sum line) xor) x lines = foldl (λ xor line, xor_bytes (md5_Sum line) xor) x lines'.
Proof.
  intros Hp. revert x. induction Hp as [|l l1 l2 _ IH|l l' l1|l1 l2 l3 _ IH1 _ IH2]; intros x; cbn [foldl]; [done|apply IH| |congruence].
  by rewrite xor_bytes_swap.
Qed.

(** The checksum does not depend on the order of the lines. *)
Theorem md5xor_order lines lines' : lines ≡ₚ lines' → md5xor lines = md5xor lines'.
Proof. apply md5xor_from. Qed.

Lemma length_md5_Sum s : length (md5_Sum s) = 16.
Proof. unfold md5_Sum. by destruct (foldl _ _ _) as [[[a b] c] d]. Qed.
Lemma length_md5xor lines : length (md5xor lines) = 16.
Proof.
  unfold md5xor. induction lines as [|l lines IH] using rev_ind; [done|]. rewrite foldl_app. cbn [foldl]. unfold xor_bytes at 1.
  by rewrite length_zip_with, IH, length_md5_Sum.
Qed.

(** A line that comes twice leaves no trace. *)
Theorem md5xor_twice line lines : md5xor (line :: line :: lines) = md5xor lines.
Proof.
  rewrite (md5xor_order _ (lines ++ [line; line])) by (by rewrite (Permutation_app_comm lines)).
  unfold md5xor at 1. rewrite foldl_app. cbn [foldl]. fold (md5xor lines). apply xor_bytes_twice. by rewrite length_md5xor, length_md5_Sum.
Qed.
