(* ===== verification/HelperRun.v ===== *)
(** A run of the helper program as a whole ([helper/helper.go],
    [one_time_client.go], [cbcopy_helper.go], [utils.RedirectStream]): the
    handler of each role, what [Run] returns, and the exit code. Sockets, files
    and name resolution answer through the class [HelperEnv]. *)
From S2P Require Import Prelude Utils Reader Helper Merge Checksum.

(** The calls of the helper on the system. [accept] and [close] are those on
    the listener, [copy] is [io.CopyBuffer] between a connection and a standard
    stream. [error_code] is the code [gplog.Error] leaves; the code is 0 before
    the first such call. *)
Class HelperEnv (conn : Type) := {
  InitializeLogging : go ();
  LookupIP : string → go (list string);
  net_Listen : string → go Z;
  SetDeadline : go ();
  os_Create : string → go ();
  WriteString : string → string → go ();
  dial : string → nat → go conn;
  accept : go conn;
  close_listener : go ();
  NewCompressConn : conn → CompressType → bool → go conn;
  NewCompressReader : conn → CompressType → go conn;
  copy : bool → conn → go Z;
  stdin : string;
  print : string → go ();
  error_code : Z
}.

Section run.
Context {conn : Type} `{IoReader conn} `{HelperEnv conn} (c : Config).

(** * The handlers *)

Definition receives : bool := bool_decide (Direction c = DirectionModeReceive).
Definition RedirectStream (written : go Z) : go () :=
  match written with Err e => Err ("failed to redirect stream: " +:+ e) | m => let! _ := m in Ok () end.

(** No connection and no error when there is no source for the segment. *)
Definition OneTimeClient_open : go (option conn) :=
  let! target := one_time_target c in
  match target with
  | None => Ok None
  | Some (host, port) => let! conn := open_address c dial NewCompressConn receives host port in Ok (Some conn)
  end.
Definition OneTimeClient_Run : go () :=
  let! conn := OneTimeClient_open in
  match conn with None => Ok () | Some conn => RedirectStream (copy receives conn) end.

(** What is printed. *)
Definition handleResolve : go string :=
  match LookupIP (ToResolve c) with
  | Err e => Err ("failed to resolve " +:+ ToResolve c +:+ ": " +:+ e)
  | m =>
      let! addr := m in
      let! a := index addr 0 in
      Ok (if (0 <=? SegID c)%Z then Itoa (SegID c) +:+ chr TAB +:+ a +:+ chr NL else a +:+ chr NL)
  end.

Definition metaFilePath : string := "/tmp/cbcopy-" +:+ CmdID c +:+ "-" +:+ Itoa (SegID c) +:+ ".txt".
Definition writeFile (port : Z) : go () :=
  let! _ := os_Create metaFilePath in
  WriteString metaFilePath (port_file_line c port).

(** [OneTimeServer.Serve] with its error, which [server.Err] returns. *)
Definition OneTimeServer_run : go () :=
  let! err := one_time_Serve (NoCompression c) accept close_listener
      (λ netConn, NewCompressConn netConn (getCompressionType (TransCompType c)) receives) (λ netConn, RedirectStream (copy receives netConn)) in
  match err with Some e => Err e | None => Ok () end.

Definition result_of (err : option string) : go () := match err with Some e => Err e | None => Ok () end.

(** What a handler returns, and whether [gplog.Error] was called on the way.
    The concurrent server and client end in any of the ways of [Merge]. *)
Inductive handles : go () → bool → Prop :=
| handles_resolve : Run_role c = Resolve → handles (let! _ := handleResolve in Ok ()) false
| handles_md5xor : Run_role c = MD5XOR → handles (print (handleMD5XOR stdin)) false
| handles_no_start r : Run_role c = Listen → (let! _ := createServerImpl c in let! port := Start net_Listen SetDeadline c in writeFile port) = r →
    r ≠ Ok () → handles r false
| handles_one_time_server port : Run_role c = Listen → createServerImpl c = Ok OneTimeServer → Start net_Listen SetDeadline c = Ok port →
    writeFile port = Ok () → handles OneTimeServer_run false
| handles_concurrent_server n port accepted s : Run_role c = Listen → createServerImpl c = Ok (ConcurrentServer n) →
    Start net_Listen SetDeadline c = Ok port → writeFile port = Ok () →
    rtc (merge_step (server_opened c accepted NewCompressReader) (Z.to_nat n)) server_start s → server_returns (Z.to_nat n) s = true →
    handles (result_of (m_err s)) (m_logged s)
| handles_one_time_client : Run_role c = Client → createClientImpl c = OneTimeClient → handles OneTimeClient_Run false
| handles_no_targets r : Run_role c = Client → createClientImpl c = ConcurrentClient → (let! _ := concurrent_targets c in Ok ()) = r → r ≠ Ok () →
    handles r false
| handles_concurrent_client targets s : Run_role c = Client → createClientImpl c = ConcurrentClient → concurrent_targets c = Ok targets →
    rtc (merge_step (client_opened c dial NewCompressConn targets) (length targets)) (client_start (length targets)) s →
    client_returns (length targets) s = true → handles (result_of (m_err s)) (m_logged s).

(** * The exit code *)

(** [Stop] is deferred: it takes the code of gplog before [main] logs the error
    [Run] returned, and it recovers a panic, behind which [Run] returns nil. *)
Definition GetErrCode (r : go ()) (logged : bool) : Z :=
  match r with Panic _ => error_code | _ => if logged then error_code else 0%Z end.
Definition exit_status (r : go ()) (logged : bool) : Z :=
  match r with Err _ => GetErrCode r logged | _ => 0%Z end.

(** A client logs no error. *)
Lemma client_not_logged (opened : nat → go conn) n s : rtc (merge_step opened n) (client_start n) s → m_logged s = false.
Proof.
  intros Hrun. assert (Hboth : m_serving s = false ∧ m_logged s = false); [|apply Hboth]. revert s Hrun.
  apply (rtc_ind_r (λ s, m_serving s = false ∧ m_logged s = false)); [done|].
  intros s1 s2 _ [Hserv Hlt|msg Hserv Hlt|Hserv Hge|i ph a ph' Hi Hg] [Hs Hl]; try congruence. by destruct a.
Qed.

(** An error is logged only when accepting a connection failed. *)
Lemma server_logged (opened : nat → go conn) n s : rtc (merge_step opened n) server_start s → m_logged s = true → length (m_phases s) < n ∧ m_serving s = false.
Proof.
  intros Hrun. revert s Hrun. apply (rtc_ind_r (λ s, m_logged s = true → length (m_phases s) < n ∧ m_serving s = false)); [done|].
  intros s1 s2 _ [Hserv Hlt|msg Hserv Hlt|Hserv Hge|i ph a ph' Hi Hg] IH; simpl.
  - intros Hl. destruct (IH Hl) as [_ ?]. congruence.
  - done.
  - rewrite orb_false_r. intros Hl. destruct (IH Hl) as [_ ?]. congruence.
  - rewrite m_phases_perform, m_serving_perform, length_insert. intros Hl. apply IH. by destruct a.
Qed.


Lemma handled_exit r logged : handles r logged →
  exit_status r logged = 0%Z ∨
  Run_role c = Listen ∧ ∃ n accepted s, createServerImpl c = Ok (ConcurrentServer n) ∧
    rtc (merge_step (server_opened c accepted NewCompressReader) (Z.to_nat n)) server_start s ∧
    m_serving s = false ∧ length (m_phases s) < Z.to_nat n.
Proof.
  assert (Hquiet : ∀ r, exit_status r false = 0%Z) by by intros [].
  intros [| |r'| |n port accepted s Hrole Hserver _ _ Hs _| |r'|targets s _ _ _ Hs _]; try (left; by apply Hquiet).
  - destruct (m_logged s) eqn:Hl; [right|left; apply Hquiet]. destruct (server_logged _ _ s Hs Hl) as [Hlt Hserv].
    split; [done|]. exists n, accepted, s. done.
  - left. rewrite (client_not_logged _ _ s Hs). apply Hquiet.
Qed.
End run.

(** How the process ends. *)
Inductive process := Exited (status : Z) | KilledBy (signal : string).
#[export] Instance process_eq : EqDecision process.
Proof. solve_decision. Defined.

(** The signals [Start] has a handler for. *)
Definition handled_signals : list string := ["SIGINT"; "SIGTERM"].

(** The program under the signals that reach it. [Start] runs before the call
    of [Stop] is deferred, so a panic of the logging is not recovered and ends
    the process with 2. From then on one of [handled_signals] leads at any
    moment to the handler ([utils.InitializeSignalHandler]), which leaves with
    2; any other, like the one of a write to a standard stream that is no
    longer read, kills the process, and so does each of them before the handler
    is there. [pflag] itself leaves with 2 when the command line cannot be
    parsed; an error of the validation is returned by [Run] like any other. *)
Inductive helper_main {conn} `{IoReader conn} `{HelperEnv conn} (args : list flag_arg) (NArg : list string) : option string → process → Prop :=
| main_no_logging msg : InitializeLogging = Panic msg → helper_main args NArg None (Exited 2)
| main_interrupted signal : InitializeLogging = Ok () → signal ∈ handled_signals → helper_main args NArg (Some signal) (Exited 2)
| main_killed signal : helper_main args NArg (Some signal) (KilledBy signal)
| main_usage e : InitializeLogging = Ok () → args ≠ [] → go_fold set_flag InitFlags args = Err e → helper_main args NArg None (Exited 2)
| main_prints : InitializeLogging = Ok () → Parse args NArg = Ok None → helper_main args NArg None (Exited 0)
| main_invalid c e : InitializeLogging = Ok () → go_fold set_flag InitFlags args = Ok c → Parse args NArg = Err e →
    helper_main args NArg None (Exited (exit_status (Err e) false))
| main_runs c r logged : InitializeLogging = Ok () → Parse args NArg = Ok (Some c) → handles c r logged →
    helper_main args NArg None (Exited (exit_status r logged)).

(** C35: A helper that no signal ends hides its failures. Whatever makes its
    [Run] fail - invalid options, a refused connection, a stream that breaks
    off, an output that cannot be written, a panic of a handler - its exit code
    is 0, because [Stop] takes the code before [main] logs the error. The
    exceptions are a logging that cannot start, a command line that cannot be
    parsed, and a concurrent server that could not accept all its clients. The
    cluster that runs the helper takes 0 for success (helper.go:118,
    cbcopy_helper.go:13). *)
Theorem helper_hides_failures {conn} `{IoReader conn} `{HelperEnv conn} (args : list flag_arg) (NArg : list string) :
  (∀ e, InitializeLogging = Ok () → is_ok (go_fold set_flag InitFlags args) = true → Parse args NArg = Err e →
     helper_main args NArg None (Exited 0)) ∧
  (∀ c r, InitializeLogging = Ok () → Parse args NArg = Ok (Some c) → handles c r false → helper_main args NArg None (Exited 0)) ∧
  (∀ p, helper_main args NArg None p →
     p = Exited 0 ∨
     (p = Exited 2 ∧ ∃ e, InitializeLogging = Panic e ∨ go_fold set_flag InitFlags args = Err e) ∨
     (∃ c n accepted s, Parse args NArg = Ok (Some c) ∧ Run_role c = Listen ∧ createServerImpl c = Ok (ConcurrentServer n) ∧
        rtc (merge_step (server_opened c accepted NewCompressReader) (Z.to_nat n)) server_start s ∧
        m_serving s = false ∧ length (m_phases s) < Z.to_nat n)).
Proof.
  split; [|split].
  - intros e Hlog Hflags Hp. destruct (go_fold set_flag InitFlags args) as [c| | |] eqn:Hc; try done.
    by apply (main_invalid args NArg c e).
  - intros c r Hlog Hp Hr. assert (Hquiet : exit_status r false = 0%Z) by by destruct r.
    rewrite <- Hquiet. by apply (main_runs args NArg c).
  - intros p Hmain. inversion Hmain as [msg Hlog| | |e _ _ He|_ Hp|c e _ _ Hp|c r logged _ Hp Hr]; subst;
      [right; left; eauto|right; left; eauto|by left|by left|].
    destruct (handled_exit c r logged Hr) as [->|(Hl & n & accepted & s & ?)]; [by left|right; right]. by exists c, n, accepted, s.
Qed.

(** A destination that no one listens on: the client fails, and exits with 0. *)
#[local] Instance refusing : HelperEnv (list ascii) := {|
  InitializeLogging := Ok ();
  LookupIP _ := Err "no such host"; net_Listen _ := Ok 7000%Z; SetDeadline := Ok (); os_Create _ := Ok (); WriteString _ _ := Ok ();
  dial _ _ := Err "connection refused"; accept := Err "accept timeout"; close_listener := Ok (); NewCompressConn conn _ _ := Ok conn;
  NewCompressReader conn _ := Ok conn; copy _ _ := Ok 0%Z; stdin := ""; print _ := Ok (); error_code := 1%Z |}.
Definition refused_args : list flag_arg := [("host", "h1"); ("port", "7000"); ("direction", "receive")].
Definition refused_config : Config := match Parse refused_args [] with Ok (Some c) => c | _ => InitFlags end.
(** The theorem holds for every environment and command line; here it is that
    of a destination no one listens on, reached by a run that fails. *)
Lemma helper_hides_failures_witness :
  handles refused_config (Err "failed to connect to server h1:7000: connection refused") false ∧
  helper_main refused_args [] None (Exited 0).
Proof.
  assert (Hh : handles refused_config (Err "failed to connect to server h1:7000: connection refused") false).
  { assert (Hrun : OneTimeClient_Run refused_config = Err "failed to connect to server h1:7000: connection refused") by (vm_compute; reflexivity).
    rewrite <-Hrun. apply (handles_one_time_client refused_config); vm_compute; reflexivity. }
  split; [exact Hh|]. destruct (helper_hides_failures refused_args []) as (_ & Hruns & _).
  apply (Hruns refused_config (Err "failed to connect to server h1:7000: connection refused")); [reflexivity|vm_compute; reflexivity|exact Hh].
Defined.
