(* ===== verification/Cluster.v ===== *)
(** The segments of a cluster and the commands run on them
    ([internal/cluster/cluster.go]). A pointer to a [SegConfig] is its index in
    [Segments]; a process that is run is a parameter. *)
From S2P Require Import Prelude Toc Version Queries.

(** * Scopes *)

(** A [Scope] is a [uint8]. *)
Definition Scope := Z.
Definition ON_SEGMENTS : Scope := 0%Z.
Definition ON_HOSTS : Scope := 1%Z.
Definition EXCLUDE_COORDINATOR : Scope := 0%Z.
Definition INCLUDE_COORDINATOR : Scope := Z.shiftl 1 1.
Definition EXCLUDE_MASTER : Scope := 0%Z.
Definition INCLUDE_MASTER : Scope := Z.shiftl 1 1.
Definition ON_REMOTE : Scope := 0%Z.
Definition ON_LOCAL : Scope := Z.shiftl 1 2.
Definition EXCLUDE_MIRRORS : Scope := 0%Z.
Definition INCLUDE_MIRRORS : Scope := Z.shiftl 1 3.

Definition scopeIsSegments (scope : Scope) : bool := (Z.land scope ON_HOSTS =? ON_SEGMENTS)%Z.
Definition scopeIsHosts (scope : Scope) : bool := (Z.land scope ON_HOSTS =? ON_HOSTS)%Z.
Definition scopeExcludesCoordinator (scope : Scope) : bool := (Z.land scope INCLUDE_COORDINATOR =? EXCLUDE_COORDINATOR)%Z.
Definition scopeIncludesCoordinator (scope : Scope) : bool := (Z.land scope INCLUDE_COORDINATOR =? INCLUDE_COORDINATOR)%Z.
Definition scopeIsRemote (scope : Scope) : bool := (Z.land scope ON_LOCAL =? ON_REMOTE)%Z.
Definition scopeIsLocal (scope : Scope) : bool := (Z.land scope ON_LOCAL =? ON_LOCAL)%Z.
Definition scopeExcludesMirrors (scope : Scope) : bool := (Z.land scope INCLUDE_MIRRORS =? EXCLUDE_MIRRORS)%Z.
Definition scopeIncludesMirrors (scope : Scope) : bool := (Z.land scope INCLUDE_MIRRORS =? INCLUDE_MIRRORS)%Z.

(** * Clusters *)

Record SegConfig := { DbID : Z; ContentID : Z; Role : string; Port : Z; Hostname : string; DataDir : string }.
#[export] Instance SegConfig_eq : EqDecision SegConfig.
Proof. solve_decision. Defined.

Record Cluster := {
  ContentIDs : list Z;
  Hostnames : list string;
  Segments : list SegConfig;
  ByContent : gmap Z (list nat);
  ByHost : gmap string (list nat)
}.

(** [sort.Ints]. *)
Definition sort_Ints (l : list Z) : list Z := merge_sort Z.le l.

(** What [NewCluster] has built: its maps and the host names. *)
Record cluster_maps := { cm_content : gmap Z (list nat); cm_host : gmap string (list nat); cm_hosts : list string }.

(** The argument of a command list: a function on contents, on hosts, or of
    another type. *)
Inductive generator (A : Type) := PerContent (f : Z → go A) | PerHost (f : string → go A) | OtherGenerator.
Arguments PerContent {A}.
Arguments PerHost {A}.
Arguments OtherGenerator {A}.

Section cluster.
Context `{SemverLib} `{MapRange}.

(** The first two elements are exchanged when the first is a mirror; the map and
    the slice share the array. *)
Definition primary_first (Segments : list SegConfig) (segmentList : list nat) : go (list nat) :=
  match segmentList with
  | [a; b] => let! s := index Segments a in Ok (if bool_decide (Role s = "m") then [b; a] else [a; b])
  | _ => Ok segmentList
  end.
Definition add_segment (Segments : list SegConfig) (m : cluster_maps) (i : nat) : go cluster_maps :=
  let! segment := index Segments i in
  let! segmentList := primary_first Segments (default [] (cm_content m !! ContentID segment) ++ [i]) in
  let onHost := default [] (cm_host m !! Hostname segment) ++ [i] in
  Ok {| cm_content := <[ContentID segment := segmentList]> (cm_content m);
        cm_host := <[Hostname segment := onHost]> (cm_host m);
        cm_hosts := if bool_decide (length onHost = 1) then cm_hosts m ++ [Hostname segment] else cm_hosts m |}.
Definition NewCluster (segConfigs : list SegConfig) : go Cluster :=
  let! m := go_fold (add_segment segConfigs) {| cm_content := ∅; cm_host := ∅; cm_hosts := [] |} (seq 0 (length segConfigs)) in
  Ok {| ContentIDs := sort_Ints (range_map 242 (cm_content m)).*1; Hostnames := cm_hosts m; Segments := segConfigs;
        ByContent := cm_content m; ByHost := cm_host m |}.

(** ** Look-ups *)

Implicit Types (cluster : Cluster).

(** A nil pointer is [None]. *)
Definition getSegmentByRole (segmentList : list nat) (role : list string) : go (option nat) :=
  if bool_decide (role = ["m"]) then
    if bool_decide (length segmentList < 2) then Ok None else let! i := index segmentList 1 in Ok (Some i)
  else let! i := index segmentList 0 in Ok (Some i).
Definition field_for_content {A} (nil : A) (f : SegConfig → A) cluster (contentID : Z) (role : list string) : go A :=
  let! segConfig := getSegmentByRole (default [] (ByContent cluster !! contentID)) role in
  match segConfig with
  | None => Ok nil
  | Some i => let! s := index (Segments cluster) i in Ok (f s)
  end.
Definition GetDbidForContent := field_for_content (-1)%Z DbID.
Definition GetPortForContent := field_for_content (-1)%Z Port.
Definition GetHostForContent := field_for_content "" Hostname.
Definition GetDirForContent := field_for_content "" DataDir.

Definition fields_for_host {A} (f : SegConfig → A) cluster (hostname : string) : go (list A) :=
  go_map (λ i, let! s := index (Segments cluster) i in Ok (f s)) (default [] (ByHost cluster !! hostname)).
Definition GetDbidsForHost := fields_for_host DbID.
Definition GetContentsForHost := fields_for_host ContentID.
Definition GetPortsForHost := fields_for_host Port.
Definition GetDirsForHost := fields_for_host DataDir.

(** * Commands *)

(** [Command] is what [exec.Command] is called with; [Error] is nil or a
    message. *)
Record ShellCommand := {
  sc_Scope : Scope; sc_Content : Z; sc_Host : string; sc_Command : list string; CommandString : string;
  Stdout : string; Stderr : string; Error : option string; Completed : bool
}.
Definition NewShellCommand (scope : Scope) (content : Z) (host : string) (command : list string) : go ShellCommand :=
  let! _ := index command 0 in
  Ok {| sc_Scope := scope; sc_Content := content; sc_Host := host; sc_Command := command; CommandString := Join command " ";
        Stdout := ""; Stderr := ""; Error := None; Completed := false |}.

Fixpoint commands_for {K} (keys : list K) (skip : K → go bool) (command : K → go ShellCommand) : go (list ShellCommand) :=
  match keys with
  | [] => Ok []
  | k :: keys' =>
      let! skipped := skip k in
      if (skipped : bool) then commands_for keys' skip command
      else let! c := command k in let! rest := commands_for keys' skip command in Ok (c :: rest)
  end.
Definition skip_content (scope : Scope) (content : Z) : go bool := Ok ((content =? -1)%Z && scopeExcludesCoordinator scope).
Definition skip_host cluster (scope : Scope) (host : string) : go bool :=
  let! contents := GetContentsForHost cluster host in
  let hostHasOneContent := bool_decide (length contents = 1) in
  let! primary := GetHostForContent cluster (-1) ["p"] in
  if bool_decide (host = primary) && scopeExcludesCoordinator scope && hostHasOneContent then Ok true
  else
    let! standby := GetHostForContent cluster (-1) ["m"] in
    Ok (bool_decide (host = standby) && scopeExcludesMirrors scope && hostHasOneContent).
Definition GenerateCommandList cluster (scope : Scope) (g : generator (list string)) : go (list ShellCommand) :=
  match g with
  | PerContent f => commands_for (ContentIDs cluster) (skip_content scope)
      (λ content, let! words := f content in NewShellCommand scope content "" words)
  | PerHost f => commands_for (Hostnames cluster) (skip_host cluster scope)
      (λ host, let! words := f host in NewShellCommand scope (-2) host words)
  | OtherGenerator => Fatal "Generator function passed to GenerateCommandList had an invalid function header."
  end.

(** The user that runs the program. *)
Context (Username : string).
Definition ConstructSSHCommand (useLocal : bool) (host cmd : string) : list string :=
  if useLocal then ["bash"; "-c"; cmd]
  else ["ssh"; "-o"; "StrictHostKeyChecking=no"; cat [Username; "@"; host]; cmd].

Definition GenerateSSHCommandList cluster (scope : Scope) (g : generator string) : go (list ShellCommand) :=
  let! localHost := GetHostForContent cluster (-1) [] in
  match g with
  | PerContent f => GenerateCommandList cluster scope (PerContent (λ content,
      let! host := GetHostForContent cluster content [] in
      let useLocal := bool_decide (host = localHost) || scopeIsLocal scope in
      let! cmd := f content in
      Ok (ConstructSSHCommand useLocal host cmd)))
  | PerHost f => GenerateCommandList cluster scope (PerHost (λ host,
      let useLocal := bool_decide (host = localHost) || scopeIsLocal scope in
      let! cmd := f host in
      Ok (ConstructSSHCommand useLocal host cmd)))
  | OtherGenerator => Ok []
  end.
End cluster.

(** * Execution *)

(** What [cmd.Output] and the buffer behind [cmd.Stderr] leave. *)
Record process := { p_stdout : string; p_stderr : string; p_error : option string }.
Definition completed (c : ShellCommand) (p : process) : ShellCommand :=
  {| sc_Scope := sc_Scope c; sc_Content := sc_Content c; sc_Host := sc_Host c; sc_Command := sc_Command c;
     CommandString := CommandString c; Stdout := p_stdout p; Stderr := p_stderr p; Error := p_error p; Completed := true |}.
Definition has_error (c : ShellCommand) : bool := match Error c with Some _ => true | None => false end.

Record RemoteOutput := { ro_Scope : Scope; NumErrors : nat; Commands : list ShellCommand; FailedCommands : list (option nat) }.

(** [failedCommands[index] = &commands[i]]: a pointer is an index of
    [commands]; the slots not filled stay nil. *)
Fixpoint point_failed (i index : nat) (failedCommands : list (option nat)) (commands : list ShellCommand) : go (list (option nat)) :=
  match commands with
  | [] => Ok failedCommands
  | c :: commands' =>
      if has_error c then
        if bool_decide (index < length failedCommands)
        then point_failed (S i) (S index) (<[index := Some i]> failedCommands) commands'
        else Panic "index out of range"
      else point_failed (S i) index failedCommands commands'
  end.
Definition NewRemoteOutput (scope : Scope) (numErrors : nat) (commands : list ShellCommand) : go RemoteOutput :=
  let! failedCommands := point_failed 0 0 (replicate numErrors None) commands in
  Ok {| ro_Scope := scope; NumErrors := numErrors; Commands := commands; FailedCommands := failedCommands |}.

(** [ExecuteClusterCommand]: one goroutine for each command; it runs the
    process, stores the command and sends its index, which the loop of the
    caller receives and counts. The channel has no buffer: sending and
    receiving are one step. *)
Inductive goroutine := Running | Finished | Received.
Record execution := { ce_commands : list ShellCommand; ce_routines : list goroutine; ce_errors : nat }.

Inductive execution_step : execution → execution → Prop :=
| command_finishes cs rs n i c p :
    rs !! i = Some Running → cs !! i = Some c →
    execution_step {| ce_commands := cs; ce_routines := rs; ce_errors := n |}
                   {| ce_commands := <[i := completed c p]> cs; ce_routines := <[i := Finished]> rs; ce_errors := n |}
| index_received cs rs n i c :
    rs !! i = Some Finished → cs !! i = Some c →
    execution_step {| ce_commands := cs; ce_routines := rs; ce_errors := n |}
                   {| ce_commands := cs; ce_routines := <[i := Received]> rs; ce_errors := if has_error c then S n else n |}.
Definition start_execution (commandList : list ShellCommand) : execution :=
  {| ce_commands := commandList; ce_routines := replicate (length commandList) Running; ce_errors := 0 |}.
(** The caller has received as many indices as there are commands. *)
Definition execution_over (e : execution) : Prop := Forall (λ r, r = Received) (ce_routines e).
Definition ExecuteClusterCommand (scope : Scope) (commandList : list ShellCommand) (output : go RemoteOutput) : Prop :=
  ∃ e, rtc execution_step (start_execution commandList) e ∧ execution_over e ∧
    output = NewRemoteOutput scope (ce_errors e) (ce_commands e).

Section errors.
Context `{SemverLib} `{MapRange} (Username LogFilePath : string).
Implicit Types (cluster : Cluster).

Definition GenerateAndExecuteCommand cluster (scope : Scope) (g : generator string) (output : go RemoteOutput) : Prop :=
  match GenerateSSHCommandList Username cluster scope g with
  | Ok commandList => ExecuteClusterCommand scope commandList output
  | Err e => output = Err e
  | Fatal e => output = Fatal e
  | Panic e => output = Panic e
  end.

Definition LogFatalClusterError (errMessage : string) (scope : Scope) (numErrors : nat) : go () :=
  let str := " on" +:+ (if scopeIsLocal scope then " coordinator for" else "") in
  let segMsg := (if scopeIsHosts scope then "host" else "segment") +:+ (if bool_decide (numErrors ≠ 1) then "s" else "") in
  Fatal (cat [errMessage; str; " "; Itoa (Z.of_nat numErrors); " "; segMsg; ". See "; LogFilePath; " for a complete list of errors."]).

(** The lines logged for a failed command. *)
Definition failure_lines cluster (messageFunc : generator string) (failedCommand : ShellCommand) : go (list string) :=
  let errStr := cat ["with error "; default "%!s(<nil>)" (Error failedCommand); ": "; Stderr failedCommand] in
  let! line := match messageFunc with
    | PerContent f =>
        let content := sc_Content failedCommand in
        let! host := GetHostForContent cluster content [] in
        let! message := f content in
        Ok [cat [message; " on segment "; Itoa content; " on host "; host; " "; errStr]]
    | PerHost f =>
        let host := sc_Host failedCommand in
        let! message := f host in
        Ok [cat [message; " on host "; host; " "; errStr]]
    | OtherGenerator => Ok []
    end in
  Ok (line ++ ["Command was: " +:+ CommandString failedCommand]).

(** [CheckClusterError]: the lines it logs when it returns. *)
Definition CheckClusterError cluster (remoteOutput : RemoteOutput) (finalErrMsg : string) (messageFunc : generator string)
    (noFatal : list bool) : go (list string) :=
  if bool_decide (NumErrors remoteOutput = 0) then Ok []
  else
    let! lines := go_map (λ failed, match failed with
      | None => Panic nil_pointer
      | Some i => let! c := index (Commands remoteOutput) i in failure_lines cluster messageFunc c
      end) (FailedCommands remoteOutput) in
    if bool_decide (noFatal = [true]) then Ok (concat lines ++ [finalErrMsg])
    else let! _ := LogFatalClusterError finalErrMsg (ro_Scope remoteOutput) (NumErrors remoteOutput) in Ok (concat lines).

(** * The configuration *)

Definition segment_query (before6 includeMirrors includeOnlyMirrors : bool) : string :=
  if before6 then
    let whereClause := Sprintf "WHERE%s f.fsname = 'pg_system'"
      [if includeOnlyMirrors then " s.role = 'm' AND" else if includeMirrors then "" else " s.role = 'p' AND"] in
    Sprintf "
SELECT
	s.dbid,
	s.content as contentid,
	s.role,
	s.port,
	s.hostname,
	e.fselocation as datadir
FROM gp_segment_configuration s
JOIN pg_filespace_entry e ON s.dbid = e.fsedbid
JOIN pg_filespace f ON e.fsefsoid = f.oid
%s
ORDER BY s.content, s.role DESC;" [whereClause]
  else
    let whereClause := if includeOnlyMirrors then "WHERE role = 'm'" else if includeMirrors then "" else "WHERE role = 'p'" in
    Sprintf "
SELECT
	dbid,
	content as contentid,
	role,
	port,
	hostname,
	datadir
FROM gp_segment_configuration
%s
ORDER BY content, role DESC;" [whereClause].
Definition GetSegmentConfiguration `{Selects SegConfig} (version : GPDBVersion) (getMirrors : list bool) : go (list SegConfig) :=
  let includeMirrors := bool_decide (getMirrors = [true]) in
  let includeOnlyMirrors := match getMirrors with [_; only] => only | _ => false end in
  let! before6 := gpdb_before version "6" in
  Select (A := SegConfig) (segment_query before6 includeMirrors includeOnlyMirrors).
Definition MustGetSegmentConfiguration `{Selects SegConfig} (version : GPDBVersion) (getMirrors : list bool) : go (list SegConfig) :=
  FatalOnError (GetSegmentConfiguration version [bool_decide (getMirrors = [true])]).
End errors.

(** * What [NewCluster] builds *)

Section lemmas.
Context (segs : list SegConfig).

(** The segments of a content or a host among the given ones, in order. *)
Definition with_content (c : Z) (l : list nat) : list nat := filter (λ i, ContentID <$> segs !! i = Some c) l.
Definition with_host (h : string) (l : list nat) : list nat := filter (λ i, Hostname <$> segs !! i = Some h) l.

Definition is_mirror (i : nat) : bool := bool_decide (Role <$> segs !! i = Some "m").
(** The first two of a content in the order of their roles. *)
Definition ordered (l : list nat) : list nat :=
  match l with a :: b :: rest => if is_mirror a then b :: a :: rest else l | _ => l end.
Definition non_empty {A} (l : list A) : option (list A) := match l with [] => None | _ => Some l end.

Lemma default_non_empty {A} (l : list A) : default [] (non_empty l) = l.
Proof. by destruct l. Qed.

Record built (k : nat) (m : cluster_maps) : Prop := {
  bt_content : ∀ c, cm_content m !! c = non_empty (ordered (with_content c (seq 0 k)));
  bt_host : ∀ h, cm_host m !! h = non_empty (with_host h (seq 0 k));
  bt_hosts : NoDup (cm_hosts m) ∧ ∀ h, h ∈ cm_hosts m ↔ with_host h (seq 0 k) ≠ []
}.

Lemma ordered_snoc l i : i < length segs → Forall (λ j, j < length segs) l →
  primary_first segs (ordered l ++ [i]) = Ok (ordered (l ++ [i])).
Proof.
  intros Hi Hl. destruct l as [|a [|b rest]]; cbn [ordered app primary_first]; [done| |].
  - apply Forall_cons in Hl as [Ha _]. destruct (index_lt segs a Ha) as (s & -> & Hs). cbn [mbind go_bind].
    unfold is_mirror. rewrite Hs. cbn. f_equal. repeat case_bool_decide; congruence.
  - unfold primary_first. destruct (is_mirror a); cbn [app]; by destruct (rest ++ [i]) eqn:Hr; [by destruct rest|].
Qed.

Lemma with_content_lt c l : Forall (λ j, j < length segs) (with_content c l).
Proof.
  apply Forall_forall. intros j Hj. apply list_elem_of_filter in Hj as [Hj _].
  destruct (segs !! j) eqn:Hl; [by eapply lookup_lt_Some|done].
Qed.

Lemma filter_snoc (P : nat → Prop) `{∀ x, Decision (P x)} l i : filter P (l ++ [i]) = filter P l ++ if decide (P i) then [i] else [].
Proof. rewrite filter_app. f_equal. Qed.

Lemma add_segment_built k m : k < length segs → built k m → ∃ m', add_segment segs m k = Ok m' ∧ built (S k) m'.
Proof.
  intros Hk [Hc Hh [Hnd Hin]]. unfold add_segment. destruct (index_lt segs k Hk) as (s & -> & Hs). cbn [mbind go_bind].
  rewrite Hc, default_non_empty, ordered_snoc by (done || apply with_content_lt). cbn [mbind go_bind].
  eexists. split; [reflexivity|]. rewrite Hh, default_non_empty.
  assert (Hseq : seq 0 (S k) = seq 0 k ++ [k]) by apply seq_S.
  assert (Hwc : ∀ c, with_content c (seq 0 (S k)) = with_content c (seq 0 k) ++ if decide (ContentID s = c) then [k] else []).
  { intros c. unfold with_content. rewrite Hseq, filter_snoc, Hs. cbn. f_equal. repeat case_decide; congruence. }
  assert (Hwh : ∀ h, with_host h (seq 0 (S k)) = with_host h (seq 0 k) ++ if decide (Hostname s = h) then [k] else []).
  { intros h. unfold with_host. rewrite Hseq, filter_snoc, Hs. cbn. f_equal. repeat case_decide; congruence. }
  assert (Hsnoc : ∀ l : list nat, non_empty (l ++ [k]) = Some (l ++ [k])) by (by intros []).
  split; cbn [cm_content cm_host cm_hosts].
  - intros c. rewrite Hwc. destruct (decide (ContentID s = c)) as [<-|Hne].
    + rewrite lookup_insert_eq. destruct (with_content (ContentID s) (seq 0 k)) as [|a [|b rest]]; cbn; [done|by destruct (is_mirror a)|by destruct (is_mirror a)].
    + by rewrite lookup_insert_ne, Hc, app_nil_r.
  - intros h. rewrite Hwh. destruct (decide (Hostname s = h)) as [<-|Hne].
    + by rewrite lookup_insert_eq, Hsnoc.
    + by rewrite lookup_insert_ne, Hh, app_nil_r.
  - rewrite length_app. cbn [length]. destruct (decide (with_host (Hostname s) (seq 0 k) = [])) as [Hnil|Hsome].
    + rewrite bool_decide_true by (by rewrite Hnil). assert (Hnew : Hostname s ∉ cm_hosts m) by (rewrite Hin; auto). split.
      * apply NoDup_app. split; [done|]. split; [set_solver|apply NoDup_singleton].
      * intros h. rewrite Hwh, elem_of_app, Hin, list_elem_of_singleton. destruct (decide (Hostname s = h)) as [<-|Hne].
        -- rewrite Hnil. cbn. naive_solver.
        -- rewrite app_nil_r. naive_solver.
    + rewrite bool_decide_false by (destruct (with_host (Hostname s) (seq 0 k)); [done|simpl; lia]). split; [done|].
      intros h. rewrite Hwh, Hin. destruct (decide (Hostname s = h)) as [<-|Hne]; [|by rewrite app_nil_r].
      split; [|done]. by destruct (with_host (Hostname s) (seq 0 k)).
Qed.

Lemma built_all : ∃ m, go_fold (add_segment segs) {| cm_content := ∅; cm_host := ∅; cm_hosts := [] |} (seq 0 (length segs)) = Ok m ∧
  built (length segs) m.
Proof.
  assert (Hk : ∀ k, k ≤ length segs → ∃ m, go_fold (add_segment segs) {| cm_content := ∅; cm_host := ∅; cm_hosts := [] |} (seq 0 k) = Ok m ∧ built k m).
  { induction k as [|k IH]; intros Hle.
    - eexists. split; [reflexivity|]. split; cbn; [done|done|]. split; [constructor|]. set_solver.
    - destruct IH as (m & Hm & Hb); [lia|]. rewrite seq_S, go_fold_app, Hm. change (0 + k) with k. cbn [mbind go_bind go_fold].
      destruct (add_segment_built k m) as (m' & -> & Hb'); [lia|done|]. by exists m'. }
  by apply Hk.
Qed.
End lemmas.

(** Indices and segments of one kind go together. *)
Lemma select_indices (P : SegConfig → Prop) `{∀ s, Decision (P s)} (Q : nat → Prop) `{∀ i, Decision (Q i)} (segs : list SegConfig) :
  (∀ i s, segs !! i = Some s → Q i ↔ P s) →
  Forall2 (λ i s, segs !! i = Some s) (filter Q (seq 0 (length segs))) (filter P segs).
Proof.
  intros HQ.
  assert (Hgen : ∀ rest pre, segs = pre ++ rest →
    Forall2 (λ i s, segs !! i = Some s) (filter Q (seq (length pre) (length rest))) (filter P rest)).
  { induction rest as [|s rest IH]; intros pre Heq; cbn [length seq]; [constructor|].
    assert (Hs : segs !! length pre = Some s) by (rewrite Heq; by apply list_lookup_middle).
    specialize (IH (pre ++ [s])). rewrite length_app, Nat.add_1_r in IH. rewrite <- app_assoc in IH. specialize (IH Heq).
    rewrite !filter_cons. pose proof (HQ _ _ Hs). repeat case_decide; try tauto. by constructor. }
  by apply (Hgen segs []).
Qed.

Section new_cluster.
Context `{SemverLib} `{MapRange} (segs : list SegConfig).

Definition of_content (c : Z) : list SegConfig := filter (λ s, ContentID s = c) segs.
Definition of_host (h : string) : list SegConfig := filter (λ s, Hostname s = h) segs.

Lemma content_indices c : Forall2 (λ i s, segs !! i = Some s) (with_content segs c (seq 0 (length segs))) (of_content c).
Proof. apply select_indices. intros i s ->. cbn. naive_solver. Qed.
Lemma host_indices h : Forall2 (λ i s, segs !! i = Some s) (with_host segs h (seq 0 (length segs))) (of_host h).
Proof. apply select_indices. intros i s ->. cbn. naive_solver. Qed.

Lemma indices_nil {l} {k : list SegConfig} : Forall2 (λ i s, segs !! i = Some s) l k → l = [] ↔ k = [].
Proof. intros Hf. by inversion Hf. Qed.

(** A cluster of the given segments. *)
Record cluster_of (cl : Cluster) : Prop := {
  co_segments : Segments cl = segs;
  co_content : ∀ c, ByContent cl !! c = non_empty (ordered segs (with_content segs c (seq 0 (length segs))));
  co_host : ∀ h, ByHost cl !! h = non_empty (with_host segs h (seq 0 (length segs)));
  co_ids : StronglySorted Z.lt (ContentIDs cl) ∧ ∀ c, c ∈ ContentIDs cl ↔ c ∈ ContentID <$> segs;
  co_hosts : NoDup (Hostnames cl) ∧ ∀ h, h ∈ Hostnames cl ↔ h ∈ Hostname <$> segs
}.

Lemma of_content_nil c : of_content c = [] ↔ c ∉ ContentID <$> segs.
Proof.
  unfold of_content. split.
  - intros Hnil (s & -> & Hs)%list_elem_of_fmap. assert (Hin : s ∈ filter (λ s', ContentID s' = ContentID s) segs) by (by apply list_elem_of_filter).
    rewrite Hnil in Hin. set_solver.
  - intros Hc. apply elem_of_nil_inv. intros s [<- Hs]%list_elem_of_filter. apply Hc. by apply list_elem_of_fmap_2.
Qed.
Lemma of_host_nil h : of_host h = [] ↔ h ∉ Hostname <$> segs.
Proof.
  unfold of_host. split.
  - intros Hnil (s & -> & Hs)%list_elem_of_fmap. assert (Hin : s ∈ filter (λ s', Hostname s' = Hostname s) segs) by (by apply list_elem_of_filter).
    rewrite Hnil in Hin. set_solver.
  - intros Hc. apply elem_of_nil_inv. intros s [<- Hs]%list_elem_of_filter. apply Hc. by apply list_elem_of_fmap_2.
Qed.

Lemma ordered_nil l : ordered segs l = [] ↔ l = [].
Proof. destruct l as [|a [|b rest]]; cbn; try done. by destruct (is_mirror segs a). Qed.
Lemma non_empty_some {A} (l : list A) : is_Some (non_empty l) ↔ l ≠ [].
Proof. destruct l; split; cbn; [by intros [? ?]|done|done|by eexists]. Qed.

Lemma sort_Ints_sorted l : NoDup l → StronglySorted Z.lt (sort_Ints l).
Proof.
  intros Hnd. pose proof (StronglySorted_merge_sort Z.le l : StronglySorted Z.le (sort_Ints l)) as Hs.
  assert (Hnd' : NoDup (sort_Ints l)) by (unfold sort_Ints; by rewrite merge_sort_Permutation).
  induction Hs as [|x k Hs IH Hx]; [constructor|]. apply NoDup_cons in Hnd' as [Hxk Hnd']. constructor; [by apply IH|].
  rewrite Forall_forall in Hx |- *. intros y Hy. specialize (Hx y Hy). assert (x ≠ y) by (by intros ->). lia.
Qed.

Lemma NewCluster_of : ∃ cl, NewCluster segs = Ok cl ∧ cluster_of cl.
Proof.
  destruct (built_all segs) as (m & Hm & [Hc Hh [Hnd Hin]]). unfold NewCluster. rewrite Hm. cbn [mbind go_bind].
  eexists. split; [reflexivity|]. split; cbn [ContentIDs Hostnames Segments ByContent ByHost]; [done..| |].
  - split; [apply sort_Ints_sorted, NoDup_range_map|]. intros c. unfold sort_Ints. rewrite merge_sort_Permutation.
    transitivity (is_Some (cm_content m !! c)).
    + rewrite list_elem_of_fmap. split; [intros ([c' l] & -> & Hl%elem_of_range_map); by exists l|].
      intros [l Hl]. exists (c, l). split; [done|]. by apply elem_of_range_map.
    + rewrite Hc, non_empty_some, ordered_nil, (indices_nil (content_indices c)), of_content_nil.
      split; [apply dec_stable|auto].
  - split; [done|]. intros h. rewrite Hin, (indices_nil (host_indices h)), of_host_nil. split; [apply dec_stable|auto].
Qed.

(** Every content has a primary and at most one mirror. *)
Definition valid_config : Prop :=
  NoDup ((λ s, (ContentID s, Role s)) <$> segs) ∧ Forall (λ s, Role s = "p" ∨ Role s = "m") segs ∧
  Forall (λ s, (ContentID s, "p") ∈ (λ s, (ContentID s, Role s)) <$> segs) segs.

Lemma content_roles c : valid_config → c ∈ ContentID <$> segs →
  (∃ p, of_content c = [p] ∧ Role p = "p") ∨
  (∃ p m, (of_content c = [p; m] ∨ of_content c = [m; p]) ∧ Role p = "p" ∧ Role m = "m").
Proof.
  intros (Hnd & Hroles & Hprim) Hc.
  assert (Hin : ∀ s, s ∈ of_content c ↔ ContentID s = c ∧ s ∈ segs) by (intros s; unfold of_content; by rewrite list_elem_of_filter).
  assert (Hnd' : NoDup (Role <$> of_content c)).
  { assert (Hsub : NoDup ((λ s, (ContentID s, Role s)) <$> of_content c)).
    { eapply sublist_NoDup; [exact Hnd|]. apply fmap_sublist, sublist_filter. }
    apply (NoDup_fmap_1 (λ r, (c, r))). rewrite <- list_fmap_compose. eapply eq_ind; [exact Hsub|].
    apply list_fmap_ext. intros i s Hs%list_elem_of_lookup_2%Hin. destruct Hs as [<- _]. done. }
  assert (Hpm : Forall (λ s, Role s = "p" ∨ Role s = "m") (of_content c)).
  { rewrite Forall_forall in Hroles |- *. intros s [_ Hs]%Hin. by apply Hroles. }
  assert (Hp : ∃ p, p ∈ of_content c ∧ Role p = "p").
  { apply list_elem_of_fmap in Hc as (s & -> & Hs). rewrite Forall_forall in Hprim. specialize (Hprim s Hs).
    apply list_elem_of_fmap in Hprim as (p & [= Hcp Hr] & Hps). exists p. by rewrite Hin. }
  revert Hnd' Hpm Hp. generalize (of_content c). clear. intros l Hnd Hpm (p & Hp & Hr).
  destruct l as [|a [|b [|d l]]]; [set_solver| | |].
  - apply list_elem_of_singleton in Hp as ->. left. by exists a.
  - right. rewrite !Forall_cons in Hpm. destruct Hpm as (Ha & Hb & _).
    cbn in Hnd. rewrite NoDup_cons, list_elem_of_singleton in Hnd. destruct Hnd as [Hne _].
    apply elem_of_cons in Hp as [->|Hp%list_elem_of_singleton]; [exists a, b|subst; exists b, a]; intuition congruence.
  - exfalso. rewrite !Forall_cons in Hpm. destruct Hpm as (Ha & Hb & Hd & _).
    cbn in Hnd. rewrite !NoDup_cons, !elem_of_cons in Hnd. intuition congruence.
Qed.
End new_cluster.

(** * Theorems *)

Section theorems.
Context `{SemverLib} `{MapRange} (segs : list SegConfig).

Lemma with_role (l : list nat) (k : list SegConfig) : Forall2 (λ i s, segs !! i = Some s) l k →
  (∀ p, k = [p] → ∃ i, ordered segs l = [i] ∧ segs !! i = Some p) ∧
  (∀ p m, Role p = "p" → Role m = "m" → k = [p; m] ∨ k = [m; p] → ∃ i j, ordered segs l = [i; j] ∧ segs !! i = Some p ∧ segs !! j = Some m).
Proof.
  intros Hf. split.
  - intros p ->. inversion Hf as [|i ? l' ? Hi Hnil]; subst. inversion Hnil; subst. by exists i.
  - intros p m Hp Hm [-> | ->]; inversion Hf as [|i ? l' ? Hi Hrest]; subst; inversion Hrest as [|j ? l'' ? Hj Hnil]; subst;
      inversion Hnil; subst; cbn [ordered]; unfold is_mirror; rewrite Hi; cbn [fmap option_fmap option_map].
    + rewrite bool_decide_false by (rewrite Hp; done). by exists i, j.
    + rewrite bool_decide_true by (by rewrite Hm). by exists j, i.
Qed.

(** The segment of a content in a role. *)
Lemma field_for_content_of {A} (nil : A) (f : SegConfig → A) cl c role : cluster_of segs cl → valid_config segs → c ∈ ContentID <$> segs →
  (role ≠ ["m"] → ∃ p, p ∈ segs ∧ ContentID p = c ∧ Role p = "p" ∧ field_for_content nil f cl c role = Ok (f p)) ∧
  (role = ["m"] →
    (∃ m, m ∈ segs ∧ ContentID m = c ∧ Role m = "m" ∧ field_for_content nil f cl c role = Ok (f m)) ∨
    ((∀ s, s ∈ segs → ContentID s = c → Role s = "p") ∧ field_for_content nil f cl c role = Ok nil)).
Proof.
  intros [Hsegs Hc _ _ _] Hvalid Hin. pose proof (with_role _ _ (content_indices segs c)) as [Hone Htwo].
  assert (Hof : ∀ s, s ∈ of_content segs c ↔ ContentID s = c ∧ s ∈ segs) by (intros s; unfold of_content; by rewrite list_elem_of_filter).
  unfold field_for_content, getSegmentByRole. rewrite Hc, default_non_empty, Hsegs.
  destruct (content_roles segs c Hvalid Hin) as [(p & Hl & Hp)|(p & m & Hl & Hp & Hm)].
  - destruct (Hone p Hl) as (i & -> & Hi). assert (Hps : ContentID p = c ∧ p ∈ segs) by (apply Hof; rewrite Hl; set_solver). split.
    + intros Hrole. rewrite bool_decide_false by done. cbn [index lookup list_lookup mbind go_bind]. rewrite (proj2 (index_Ok _ _ _) Hi).
      exists p. naive_solver.
    + intros ->. right. split; [|done]. intros s Hs Hsc. assert (Hss : s ∈ of_content segs c) by (by apply Hof).
      rewrite Hl in Hss. by apply list_elem_of_singleton in Hss as ->.
  - destruct (Htwo p m Hp Hm Hl) as (i & j & -> & Hi & Hj).
    assert (Hps : (ContentID p = c ∧ p ∈ segs) ∧ ContentID m = c ∧ m ∈ segs) by (split; apply Hof; destruct Hl as [-> | ->]; set_solver). split.
    + intros Hrole. rewrite bool_decide_false by done. cbn [index lookup list_lookup mbind go_bind]. rewrite (proj2 (index_Ok _ _ _) Hi).
      exists p. naive_solver.
    + intros ->. left. rewrite bool_decide_true, (bool_decide_false (length [i; j] < 2)) by (done || simpl; lia).
      cbn [index lookup list_lookup mbind go_bind]. rewrite (proj2 (index_Ok _ _ _) Hj). exists m. naive_solver.
Qed.

(** For a configuration with one primary and at most one mirror for each
    content, in whatever order, [NewCluster] succeeds; looking a content up by
    role finds the segment of that role, and the zero value for a mirror that
    does not exist; looking a host up finds its segments in their order; the
    contents are listed once each in ascending order, the hosts once each
    (cluster.go:217). *)
Theorem cluster_lookups (Hvalid : valid_config segs) :
  ∃ cl, NewCluster segs = Ok cl ∧ StronglySorted Z.lt (ContentIDs cl) ∧ (∀ c, c ∈ ContentIDs cl ↔ c ∈ ContentID <$> segs) ∧
    NoDup (Hostnames cl) ∧ (∀ h, h ∈ Hostnames cl ↔ h ∈ Hostname <$> segs) ∧
    ∀ (A : Type) (nil : A) (f : SegConfig → A),
      (∀ h, fields_for_host f cl h = Ok (f <$> of_host segs h)) ∧
      ∀ s, s ∈ segs →
        (Role s = "p" → ∀ role, role ≠ ["m"] → field_for_content nil f cl (ContentID s) role = Ok (f s)) ∧
        (Role s = "m" → field_for_content nil f cl (ContentID s) ["m"] = Ok (f s)) ∧
        ((ContentID s, "m") ∉ (λ s, (ContentID s, Role s)) <$> segs → field_for_content nil f cl (ContentID s) ["m"] = Ok nil).
Proof.
  destruct (NewCluster_of segs) as (cl & Hcl & Hof). exists cl. split; [done|].
  destruct (co_ids _ _ Hof) as [Hsorted Hids]. destruct (co_hosts _ _ Hof) as [Hnd Hhosts]. do 4 (split; [done|]).
  intros A nil f. split.
  - intros h. unfold fields_for_host. rewrite (co_host _ _ Hof), default_non_empty, (co_segments _ _ Hof). apply go_map_Ok.
    apply Forall2_fmap_r. eapply Forall2_impl; [apply host_indices|]. intros i s Hi. cbn. by rewrite (proj2 (index_Ok _ _ _) Hi).
  - intros s Hs. assert (Hin : ContentID s ∈ ContentID <$> segs) by (by apply list_elem_of_fmap_2).
    assert (Huniq : ∀ s', s' ∈ segs → ContentID s' = ContentID s → Role s' = Role s → s' = s).
    { intros s' Hs' Hc Hr. destruct Hvalid as [Hnd' _]. apply list_elem_of_lookup in Hs as [i Hi]. apply list_elem_of_lookup in Hs' as [j Hj].
      assert (i = j) as ->; [|congruence]. eapply (NoDup_lookup _ _ _ (ContentID s, Role s) Hnd'); rewrite list_lookup_fmap.
      - by rewrite Hi.
      - rewrite Hj. cbn. congruence. }
    split; [|split].
    + intros Hr role Hrole. destruct (field_for_content_of nil f cl (ContentID s) role Hof Hvalid Hin) as [Hp _].
      destruct (Hp Hrole) as (p & Hps & Hpc & Hpr & ->). by rewrite (Huniq p Hps Hpc) by congruence.
    + intros Hr. destruct (field_for_content_of nil f cl (ContentID s) ["m"] Hof Hvalid Hin) as [_ Hm].
      destruct (Hm eq_refl) as [(m & Hms & Hmc & Hmr & ->)|[Hall _]]; [by rewrite (Huniq m Hms Hmc) by congruence|].
      specialize (Hall s Hs eq_refl). congruence.
    + intros Hnone. destruct (field_for_content_of nil f cl (ContentID s) ["m"] Hof Hvalid Hin) as [_ Hm].
      destruct (Hm eq_refl) as [(m & Hms & Hmc & Hmr & _)|[_ ->]]; [|done]. destruct Hnone. apply list_elem_of_fmap. exists m. split; [congruence|done].
Qed.
End theorems.

(** ** Commands *)

Lemma commands_for_pure {K} (keys : list K) (skip : K → bool) (command : K → ShellCommand) f g :
  (∀ k, k ∈ keys → f k = Ok (skip k)) → (∀ k, k ∈ keys → skip k = false → g k = Ok (command k)) →
  commands_for keys f g = Ok (command <$> filter (λ k, skip k = false) keys).
Proof.
  induction keys as [|k keys IH]; intros Hf Hg; [done|]. cbn [commands_for]. rewrite Hf by set_solver. cbn [mbind go_bind].
  rewrite filter_cons. destruct (skip k) eqn:Hk; case_decide; try done.
  - apply IH; set_solver.
  - rewrite Hg by set_solver. cbn [mbind go_bind]. by rewrite IH by set_solver.
Qed.

(** A command before it runs. *)
Definition fresh_command (scope : Scope) (content : Z) (host : string) (words : list string) : ShellCommand :=
  {| sc_Scope := scope; sc_Content := content; sc_Host := host; sc_Command := words; CommandString := Join words " ";
     Stdout := ""; Stderr := ""; Error := None; Completed := false |}.
Lemma NewShellCommand_ssh Username scope content host useLocal target cmd :
  NewShellCommand scope content host (ConstructSSHCommand Username useLocal target cmd) =
  Ok (fresh_command scope content host (ConstructSSHCommand Username useLocal target cmd)).
Proof. unfold ConstructSSHCommand. by destruct useLocal. Qed.

Section commands.
Context `{SemverLib} `{MapRange} (Username : string) (segs : list SegConfig).

(** A command list for segments has one command for each content, in
    ascending order, without the coordinator when the scope excludes it; the
    command runs at the host of the primary of that content: by the shell when
    that is the coordinator's host or the scope is local, otherwise by ssh
    (cluster.go:308). *)
Theorem segment_commands_reach_primaries (cl : Cluster) (scope : Scope) (f : Z → string)
    (Hvalid : valid_config segs) (Hcoordinator : (-1)%Z ∈ ContentID <$> segs) (Hcl : NewCluster segs = Ok cl) :
  ∃ cmds coordinator, GenerateSSHCommandList Username cl scope (PerContent (λ c, Ok (f c))) = Ok cmds ∧
    coordinator ∈ segs ∧ ContentID coordinator = (-1)%Z ∧ Role coordinator = "p" ∧
    sc_Content <$> cmds = filter (λ c, ¬ (c = (-1)%Z ∧ scopeExcludesCoordinator scope = true)) (ContentIDs cl) ∧
    Forall (λ cmd, ∃ p, p ∈ segs ∧ ContentID p = sc_Content cmd ∧ Role p = "p" ∧
      cmd = fresh_command scope (sc_Content cmd) ""
        (ConstructSSHCommand Username (bool_decide (Hostname p = Hostname coordinator) || scopeIsLocal scope) (Hostname p) (f (sc_Content cmd)))) cmds.
Proof.
  destruct (NewCluster_of segs) as (cl' & Hcl' & Hof). rewrite Hcl in Hcl'. injection Hcl' as <-.
  destruct (co_ids _ _ Hof) as [_ Hids].
  assert (Hhost : ∀ c, c ∈ ContentID <$> segs →
    ∃ p, p ∈ segs ∧ ContentID p = c ∧ Role p = "p" ∧ GetHostForContent cl c [] = Ok (Hostname p)).
  { intros c Hc. destruct (field_for_content_of segs "" Hostname cl c [] Hof Hvalid Hc) as [Hp _]. by apply Hp. }
  destruct (Hhost _ Hcoordinator) as (coordinator & Hcs & Hcc & Hcr & Hlocal).
  unfold GenerateSSHCommandList. rewrite Hlocal. cbn [mbind go_bind GenerateCommandList].
  set (host := λ c, match GetHostForContent cl c [] with Ok h => h | _ => "" end).
  set (words := λ c, ConstructSSHCommand Username (bool_decide (host c = Hostname coordinator) || scopeIsLocal scope) (host c) (f c)).
  rewrite (commands_for_pure _ (λ c, (c =? -1)%Z && scopeExcludesCoordinator scope) (λ c, fresh_command scope c "" (words c))); [|done|].
  2: { intros c Hc%Hids _. unfold words, host. destruct (Hhost c Hc) as (p & _ & _ & _ & ->). cbn [mbind go_bind].
       apply NewShellCommand_ssh. }
  eexists _, coordinator. split; [reflexivity|]. do 3 (split; [done|]). split.
  - rewrite <- list_fmap_compose. erewrite list_filter_iff; [apply list_fmap_id|]. intros c. cbn.
    rewrite andb_false_iff, Z.eqb_neq. destruct (scopeExcludesCoordinator scope); naive_solver.
  - apply Forall_fmap, Forall_forall. intros c [_ Hc%Hids]%list_elem_of_filter. cbn.
    destruct (Hhost c Hc) as (p & Hp & Hpc & Hpr & Heq). exists p. do 3 (split; [done|]). unfold words, host. by rewrite Heq.
Qed.
End commands.

(** ** Execution *)

Section executions.
Context (scope : Scope) (commandList : list ShellCommand).

(** The commands that failed, by their positions. *)
Fixpoint failed_positions (i : nat) (cs : list ShellCommand) : list nat :=
  match cs with [] => [] | c :: cs' => (if has_error c then [i] else []) ++ failed_positions (S i) cs' end.

(** What running the commands one after the other reports. *)
Definition sequential_output (ps : list process) : RemoteOutput :=
  let cs := zip_with completed commandList ps in
  {| ro_Scope := scope; NumErrors := length (failed_positions 0 cs); Commands := cs; FailedCommands := Some <$> failed_positions 0 cs |}.

Lemma point_failed_spec cs i pre : point_failed i (length pre) ((Some <$> pre) ++ replicate (length (failed_positions i cs)) None) cs =
  Ok (Some <$> (pre ++ failed_positions i cs)).
Proof.
  revert i pre. induction cs as [|c cs IH]; intros i pre; cbn [point_failed failed_positions].
  - by rewrite !app_nil_r.
  - destruct (has_error c); [|apply IH]. cbn [app length replicate].
    rewrite bool_decide_true by (rewrite length_app, length_fmap; simpl; lia).
    rewrite insert_app_r_alt by (by rewrite length_fmap). rewrite length_fmap, Nat.sub_diag. cbn [list_insert insert].
    specialize (IH (S i) (pre ++ [i])). rewrite length_app, Nat.add_1_r, fmap_app, <- !app_assoc in IH. exact IH.
Qed.

Lemma failed_positions_length i j cs : length (failed_positions i cs) = length (failed_positions j cs).
Proof. revert i j. induction cs as [|c cs IH]; intros i j; cbn; [done|]. rewrite !length_app, (IH (S i) (S j)). by destruct (has_error c). Qed.

(** What holds at every moment: a routine that still runs has its command as it
    was, one that has finished has stored its outcome, and the errors counted
    are those of the indices received. *)
Definition routine_ok (c0 : ShellCommand) (rc : goroutine * ShellCommand) : Prop :=
  match rc.1 with Running => rc.2 = c0 | _ => ∃ p, rc.2 = completed c0 p end.
Definition received_error (rc : goroutine * ShellCommand) : nat :=
  match rc.1 with Received => if has_error rc.2 then 1 else 0 | _ => 0 end.
Record execution_ok (e : execution) : Prop := {
  eo_length : length (ce_routines e) = length (ce_commands e);
  eo_routines : Forall2 routine_ok commandList (zip (ce_routines e) (ce_commands e));
  eo_errors : ce_errors e = sum_list_with received_error (zip (ce_routines e) (ce_commands e))
}.

Lemma execution_ok_start : execution_ok (start_execution commandList).
Proof.
  unfold start_execution. split; cbn [ce_routines ce_commands ce_errors].
  - apply length_replicate.
  - induction commandList as [|c cs IH]; cbn; constructor; [done|exact IH].
  - induction commandList as [|c cs IH]; cbn; [done|exact IH].
Qed.

Lemma zip_insert {A B} (l : list A) (k : list B) i a b : <[i := (a, b)]> (zip l k) = zip (<[i := a]> l) (<[i := b]> k).
Proof. revert l k. induction i as [|i IH]; intros [|x l] [|y k]; cbn; try done. by rewrite <- IH. Qed.

Lemma execution_ok_step e e' : execution_step e e' → execution_ok e → execution_ok e'.
Proof.
  intros [cs rs n i c p Hr Hc|cs rs n i c Hr Hc] [Hlen Hrout Herr]; cbn [ce_routines ce_commands ce_errors] in *.
  - assert (Hz : zip rs cs !! i = Some (Running, c)) by (by apply lookup_zip_Some).
    split; cbn [ce_routines ce_commands ce_errors]; [by rewrite !length_insert| |]; rewrite <- zip_insert.
    + destruct (Forall2_lookup_r _ _ _ _ _ Hrout Hz) as (c0 & Hc0 & Hok). unfold routine_ok in Hok. cbn in Hok. subst c0.
      rewrite <- (list_insert_id commandList i c Hc0). apply Forall2_insert; [done|]. by exists p.
    + destruct (sum_list_insert received_error _ _ _ (Finished, completed c p) Hz) as (rest & Hs & ->). rewrite Herr, Hs. done.
  - assert (Hz : zip rs cs !! i = Some (Finished, c)) by (by apply lookup_zip_Some).
    assert (Hcs : zip (<[i := Received]> rs) cs = <[i := (Received, c)]> (zip rs cs)) by (by rewrite zip_insert, (list_insert_id cs)).
    split; cbn [ce_routines ce_commands ce_errors]; [by rewrite length_insert| |]; rewrite Hcs.
    + destruct (Forall2_lookup_r _ _ _ _ _ Hrout Hz) as (c0 & Hc0 & Hok).
      rewrite <- (list_insert_id commandList i c0 Hc0). apply Forall2_insert; [done|exact Hok].
    + destruct (sum_list_insert received_error _ _ _ (Received, c) Hz) as (rest & Hs & ->). rewrite Herr, Hs. cbn. by destruct (has_error c).
Qed.

Lemma execution_ok_steps e e' : rtc execution_step e e' → execution_ok e → execution_ok e'.
Proof. induction 1; [done|]. intros Hok. by eauto using execution_ok_step. Qed.

Lemma failed_positions_count i cs : length (failed_positions i cs) = sum_list_with (λ c, if has_error c then 1 else 0) cs.
Proof. revert i. induction cs as [|c cs IH]; intros i; cbn; [done|]. rewrite length_app, IH. by destruct (has_error c). Qed.

Lemma NewRemoteOutput_sequential ps :
  NewRemoteOutput scope (length (failed_positions 0 (zip_with completed commandList ps))) (zip_with completed commandList ps) =
  Ok (sequential_output ps).
Proof.
  unfold NewRemoteOutput. pose proof (point_failed_spec (zip_with completed commandList ps) 0 []) as Hp. cbn [length fmap list_fmap app] in Hp.
  by rewrite Hp.
Qed.

Lemma execution_over_output e : execution_ok e → execution_over e →
  ∃ ps, length ps = length commandList ∧ ce_commands e = zip_with completed commandList ps ∧
    ce_errors e = length (failed_positions 0 (ce_commands e)).
Proof.
  intros [Hlen Hrout Herr] Hover. destruct e as [cs rs n]. unfold execution_over in Hover. cbn in *.
  assert (Hps : ∃ ps, length ps = length commandList ∧ cs = zip_with completed commandList ps).
  { clear Herr. revert rs cs Hlen Hrout Hover. induction commandList as [|c0 l IH]; intros [|r rs] [|c cs] Hlen Hrout Hover;
      try (by inversion Hrout); try done; [by exists []|].
    cbn [zip zip_with] in Hrout. inversion Hrout as [|? ? ? ? Hok Hrest]; subst. apply Forall_cons in Hover as [-> Hover]. destruct Hok as [p Hp]. cbn in Hp. subst c.
    destruct (IH rs cs ltac:(simpl in Hlen; lia) Hrest Hover) as (ps & Hl & ->). exists (p :: ps). simpl. by rewrite Hl. }
  destruct Hps as (ps & Hl & Hcs). exists ps. split; [done|]. split; [done|].
  rewrite Herr, failed_positions_count. clear -Hover Hlen. revert cs Hlen.
  induction Hover as [|r rs -> _ IH]; intros [|c cs] Hlen; cbn; try done. rewrite <- IH by (simpl in Hlen; lia). done.
Qed.

(** Every choice of outcomes has a run. *)
Lemma execution_exists rest ps pre n : length ps = length rest →
  rtc execution_step
    {| ce_commands := pre ++ rest; ce_routines := replicate (length pre) Received ++ replicate (length rest) Running; ce_errors := n |}
    {| ce_commands := pre ++ zip_with completed rest ps; ce_routines := replicate (length pre + length rest) Received;
       ce_errors := n + length (failed_positions 0 (zip_with completed rest ps)) |}.
Proof.
  revert ps pre n. induction rest as [|c rest IH]; intros [|p ps] pre n Hlen; try done; cbn [zip_with length failed_positions].
  - rewrite !app_nil_r, Nat.add_0_r. cbn. rewrite Nat.add_0_r. apply rtc_refl.
  - assert (Hmid : ∀ (A : Type) (l : list A) x y k, length l = length pre → <[length pre := y]> (l ++ x :: k) = l ++ y :: k).
    { intros A l x y k <-. rewrite insert_app_r_alt by lia. by rewrite Nat.sub_diag. }
    eapply rtc_l.
    { eapply (command_finishes _ _ _ (length pre) c p); [|by apply list_lookup_middle]. cbn [replicate].
      by apply list_lookup_middle; rewrite length_replicate. }
    cbn [replicate]. rewrite !Hmid by (done || apply length_replicate). eapply rtc_l.
    { eapply (index_received _ _ _ (length pre) (completed c p)); [|by apply list_lookup_middle].
      by apply list_lookup_middle; rewrite length_replicate. }
    rewrite Hmid by apply length_replicate. specialize (IH ps (pre ++ [completed c p]) (if has_error (completed c p) then S n else n)).
    rewrite length_app, replicate_add, <- !app_assoc in IH. cbn [length replicate app] in IH.
    replace (length pre + S (length rest)) with (length pre + 1 + length rest) by lia.
    rewrite length_app, (failed_positions_length 1 0).
    replace (n + (length (if has_error (completed c p) then [0] else []) + length (failed_positions 0 (zip_with completed rest ps))))
      with ((if has_error (completed c p) then S n else n) + length (failed_positions 0 (zip_with completed rest ps)))
      by (destruct (has_error (completed c p)); simpl; lia).
    apply IH. simpl in Hlen. lia.
Qed.

Definition routine_left (r : goroutine) : nat := match r with Running => 2 | Finished => 1 | Received => 0 end.
Definition execution_left (e : execution) : nat := sum_list_with routine_left (ce_routines e).
Lemma execution_step_decreases e e' : execution_step e e' → execution_left e' < execution_left e.
Proof.
  intros [cs rs n i c p Hr _|cs rs n i c Hr _]; unfold execution_left; cbn [ce_routines].
  - destruct (sum_list_insert routine_left rs i _ Finished Hr) as (rest & -> & ->). cbn. lia.
  - destruct (sum_list_insert routine_left rs i _ Received Hr) as (rest & -> & ->). cbn. lia.
Qed.
Lemma execution_progress e : length (ce_routines e) = length (ce_commands e) → execution_over e ∨ ∃ e', execution_step e e'.
Proof.
  destruct e as [cs rs n]. cbn. intros Hlen. unfold execution_over. cbn.
  destruct (decide (Forall (λ r, routine_left r = 0) rs)) as [Hall|Hsome].
  - left. eapply Forall_impl; [exact Hall|]. by intros [].
  - right. apply not_Forall_Exists in Hsome; [|apply _]. apply Exists_exists in Hsome as (r & [i Hi]%list_elem_of_lookup & Hr).
    destruct (lookup_lt_is_Some_2 cs i) as [c Hc]; [rewrite <- Hlen; by eapply lookup_lt_Some|].
    destruct r; [eexists; by apply (command_finishes cs rs n i c {| p_stdout := ""; p_stderr := ""; p_error := None |})|eexists; by eapply index_received|by destruct Hr].
Qed.

(** Running the commands of a list in parallel is running them one after the
    other: the run always ends; whatever the interleaving it reports the
    outcome of every command at its place, counts exactly the commands that
    failed and points to them in the order of the list; and every combination
    of outcomes is reported by some run (cluster.go:341). *)
Theorem parallel_is_sequential :
  (∀ e, rtc execution_step (start_execution commandList) e →
     (execution_over e ∨ ∃ e', execution_step e e') ∧ ∀ e', execution_step e e' → execution_left e' < execution_left e) ∧
  (∀ output, ExecuteClusterCommand scope commandList output ↔
     ∃ ps, length ps = length commandList ∧ output = Ok (sequential_output ps)).
Proof.
  split.
  - intros e Hrun. split; [|apply execution_step_decreases]. apply execution_progress.
    apply (eo_length _ (execution_ok_steps _ _ Hrun execution_ok_start)).
  - intros output. split.
    + intros (e & Hrun & Hover & ->).
      destruct (execution_over_output e (execution_ok_steps _ _ Hrun execution_ok_start) Hover) as (ps & Hl & Hcs & Herr).
      exists ps. split; [done|]. rewrite Herr, Hcs. apply NewRemoteOutput_sequential.
    + intros (ps & Hl & ->). eexists. split; [exact (execution_exists commandList ps [] 0 Hl)|]. split.
      * unfold execution_over. cbn. by apply Forall_replicate.
      * cbn [ce_errors ce_commands app Nat.add]. by rewrite NewRemoteOutput_sequential.
Qed.
End executions.

(** The optional arguments of [GetSegmentConfiguration]: the first counts only
    when it is alone, and [MustGetSegmentConfiguration] passes on no second. *)
Lemma second_argument_hides_first `{SemverLib} `{Selects SegConfig} version mirrors :
  GetSegmentConfiguration version [mirrors; false] = GetSegmentConfiguration version [].
Proof. unfold GetSegmentConfiguration. by destruct mirrors. Qed.
Lemma must_drops_second_argument `{SemverLib} `{Selects SegConfig} version mirrors only :
  MustGetSegmentConfiguration version [mirrors; only] = MustGetSegmentConfiguration version [].
Proof. unfold MustGetSegmentConfiguration. by destruct mirrors, only. Qed.

(** * Instances: a coordinator, a segment with its mirror listed first, and a
    segment without one. *)
Definition sample_segments : list SegConfig :=
  [ {| DbID := 1; ContentID := -1; Role := "p"; Port := 5432; Hostname := "cdw"; DataDir := "/data/qd" |};
    {| DbID := 4; ContentID := 0; Role := "m"; Port := 6001; Hostname := "sdw2"; DataDir := "/data/m0" |};
    {| DbID := 2; ContentID := 0; Role := "p"; Port := 6000; Hostname := "sdw1"; DataDir := "/data/p0" |};
    {| DbID := 3; ContentID := 1; Role := "p"; Port := 6000; Hostname := "cdw"; DataDir := "/data/p1" |} ].
Definition sample_cluster : Cluster :=
  match NewCluster sample_segments with Ok cl => cl | _ => Build_Cluster [] [] [] ∅ ∅ end.
Lemma sample_valid : valid_config sample_segments.
Proof. unfold valid_config. split_and!; apply (bool_decide_unpack _); vm_compute; exact I. Qed.

Lemma cluster_lookups_witness :
  (GetHostForContent sample_cluster 0 [] = Ok "sdw1" ∧ GetHostForContent sample_cluster 0 ["m"] = Ok "sdw2" ∧
   GetDbidForContent sample_cluster 1 ["m"] = Ok (-1)%Z ∧ GetContentsForHost sample_cluster "cdw" = Ok [-1; 1]%Z) ∧
  ∃ cl, NewCluster sample_segments = Ok cl ∧ StronglySorted Z.lt (ContentIDs cl) ∧
    (∀ c, c ∈ ContentIDs cl ↔ c ∈ ContentID <$> sample_segments) ∧
    NoDup (Hostnames cl) ∧ (∀ h, h ∈ Hostnames cl ↔ h ∈ Hostname <$> sample_segments) ∧
    ∀ (A : Type) (nil : A) (f : SegConfig → A),
      (∀ h, fields_for_host f cl h = Ok (f <$> of_host sample_segments h)) ∧
      ∀ s, s ∈ sample_segments →
        (Role s = "p" → ∀ role, role ≠ ["m"] → field_for_content nil f cl (ContentID s) role = Ok (f s)) ∧
        (Role s = "m" → field_for_content nil f cl (ContentID s) ["m"] = Ok (f s)) ∧
        ((ContentID s, "m") ∉ (λ s, (ContentID s, Role s)) <$> sample_segments → field_for_content nil f cl (ContentID s) ["m"] = Ok nil).
Proof. split; [vm_compute; done|]. apply cluster_lookups. apply sample_valid. Defined.

Lemma segment_commands_reach_primaries_witness :
  ∃ cmds coordinator, GenerateSSHCommandList "gpadmin" sample_cluster ON_SEGMENTS (PerContent (λ c, Ok "ls")) = Ok cmds ∧
    coordinator ∈ sample_segments ∧ ContentID coordinator = (-1)%Z ∧ Role coordinator = "p" ∧
    sc_Content <$> cmds = filter (λ c, ¬ (c = (-1)%Z ∧ scopeExcludesCoordinator ON_SEGMENTS = true)) (ContentIDs sample_cluster) ∧
    Forall (λ cmd, ∃ p, p ∈ sample_segments ∧ ContentID p = sc_Content cmd ∧ Role p = "p" ∧
      cmd = fresh_command ON_SEGMENTS (sc_Content cmd) ""
        (ConstructSSHCommand "gpadmin" (bool_decide (Hostname p = Hostname coordinator) || scopeIsLocal ON_SEGMENTS) (Hostname p) "ls")) cmds.
Proof.
  apply (segment_commands_reach_primaries "gpadmin" sample_segments sample_cluster ON_SEGMENTS (λ _, "ls")).
  - apply sample_valid.
  - apply (bool_decide_unpack _). vm_compute. exact I.
  - vm_compute. reflexivity.
Defined.
