(* ===== verification/Incremental.v ===== *)
(** The modification counts of append-optimised tables
    ([meta/builtin/queries_incremental.go]): which tables changed since an
    earlier extraction. *)
From S2P Require Import Prelude Utils Toc Version Dependencies Queries.

Record AOEntry := { Modcount : Z; LastDDLTimestamp : string }.
(** The rows of the queries. *)
Record ao_seg_table := { AOTableFQN : string; AOSegTableFQN : string }.
Record mod_count := { mc_Modcount : Z }.
Record ddl_timestamp := { dt_AOTableFQN : string; dt_LastDDLTimestamp : string }.

Section incremental.
Context `{SemverLib} `{MapRange} `{Selects FqnStruct} `{Selects string_row}.
Context `{Selects ao_seg_table} `{Selects mod_count} `{Selects ddl_timestamp} (version : GPDBVersion).

(** [connectionPool.Version.IsGPDB() && connectionPool.Version.Before("7")]
    chooses between two texts; both are built, each with the filter clause. *)
Definition by_version (before7 atLeast7 : string) : go string :=
  let! old := gpdb_before version "7" in Ok (if (old : bool) then before7 else atLeast7).

Definition ao_seg_before_7 : string := "
		SELECT seg.aotablefqn,
			'pg_aoseg.' || quote_ident(aoseg_c.relname) AS aosegtablefqn
		FROM pg_class aoseg_c
			JOIN (SELECT pg_ao.relid AS aooid,
					pg_ao.segrelid,
					aotables.aotablefqn
				FROM pg_appendonly pg_ao
					JOIN (SELECT c.oid,
							quote_ident(n.nspname)|| '.' || quote_ident(c.relname) AS aotablefqn
						FROM pg_class c
							JOIN pg_namespace n ON c.relnamespace = n.oid
						WHERE relstorage IN ( 'ao', 'co' )
							AND %s
					) aotables ON pg_ao.relid = aotables.oid
			) seg ON aoseg_c.oid = seg.segrelid".
Definition ao_seg_at_least_7 : string := "
		SELECT seg.aotablefqn,
			'pg_aoseg.' || quote_ident(aoseg_c.relname) AS aosegtablefqn
		FROM pg_class aoseg_c
			JOIN (SELECT pg_ao.relid AS aooid,
					pg_ao.segrelid,
					aotables.aotablefqn
				FROM pg_appendonly pg_ao
					JOIN (SELECT c.oid,
							quote_ident(n.nspname) || '.' || quote_ident(c.relname) AS aotablefqn
						FROM pg_class c
							JOIN pg_namespace n ON c.relnamespace = n.oid
							JOIN pg_am a ON c.relam = a.oid
						WHERE a.amname in ('ao_row', 'ao_column')
							AND %s
					) aotables ON pg_ao.relid = aotables.oid
			) seg ON aoseg_c.oid = seg.segrelid".
Definition getAOSegTableFQNs (f : filters) : go (gmap string string * filters) :=
  let! (clause, f) := relationAndSchemaFilterClause f in
  let! (clause', f) := relationAndSchemaFilterClause f in
  let! query := by_version (Sprintf ao_seg_before_7 [clause]) (Sprintf ao_seg_at_least_7 [clause']) in
  let! results := select_rows (A := ao_seg_table) query in
  Ok (foldl (λ m r, <[AOTableFQN r := AOSegTableFQN r]> m) ∅ results, f).

Definition mod_count_before_7 : string := "SELECT COALESCE(pg_catalog.sum(modcount), 0) AS modcount FROM %s".
Definition mod_count_at_least_7 : string := "SELECT COALESCE(pg_catalog.sum(modcount), 0) AS modcount FROM gp_dist_random('%s')".
Definition getModCount (aosegtablefqn : string) : go Z :=
  let! query := by_version (Sprintf mod_count_before_7 [aosegtablefqn]) (Sprintf mod_count_at_least_7 [aosegtablefqn]) in
  let! results := select_rows (A := mod_count) query in
  let! r := index results 0 in
  Ok (mc_Modcount r).
Definition getAllModCounts (f : filters) : go (gmap string Z * filters) :=
  let! (segTableFQNs, f) := getAOSegTableFQNs f in
  let! modCounts := go_fold (λ modCounts '(aoTableFQN, segTableFQN),
    let! n := getModCount segTableFQN in Ok (<[aoTableFQN := n]> modCounts)) ∅ (range_map 30 segTableFQNs) in
  Ok (modCounts, f).

Definition ddl_before_7 : string := "
		SELECT quote_ident(aoschema) || '.' || quote_ident(aorelname) as aotablefqn,
			lastddltimestamp
		FROM ( SELECT c.oid AS aooid,
					n.nspname AS aoschema,
					c.relname AS aorelname
				FROM pg_class c
				JOIN pg_namespace n ON c.relnamespace = n.oid
				WHERE c.relstorage IN ('ao', 'co')
				AND %s
			) aotables
		JOIN ( SELECT lo.objid,
					MAX(lo.statime) AS lastddltimestamp
				FROM pg_stat_last_operation lo
				WHERE lo.staactionname IN ('CREATE', 'ALTER', 'TRUNCATE')
				GROUP BY lo.objid
			) lastop
		ON aotables.aooid = lastop.objid".
Definition ddl_at_least_7 : string := "
		SELECT quote_ident(aoschema) || '.' || quote_ident(aorelname) as aotablefqn,
			lastddltimestamp
		FROM ( SELECT c.oid AS aooid,
					n.nspname AS aoschema,
					c.relname AS aorelname
				FROM pg_class c
					JOIN pg_namespace n ON c.relnamespace = n.oid
					JOIN pg_am a ON c.relam = a.oid
				WHERE a.amname in ('ao_row', 'ao_column')
					AND %s
			) aotables
		JOIN ( SELECT lo.objid,
					MAX(lo.statime) AS lastddltimestamp
				FROM pg_stat_last_operation lo
				WHERE lo.staactionname IN ('CREATE', 'ALTER', 'TRUNCATE')
				GROUP BY lo.objid
			) lastop
		ON aotables.aooid = lastop.objid".
Definition getLastDDLTimestamps (f : filters) : go (gmap string string * filters) :=
  let! (clause, f) := relationAndSchemaFilterClause f in
  let! (clause', f) := relationAndSchemaFilterClause f in
  let! query := by_version (Sprintf ddl_before_7 [clause]) (Sprintf ddl_at_least_7 [clause']) in
  let! results := select_rows (A := ddl_timestamp) query in
  Ok (foldl (λ m r, <[dt_AOTableFQN r := dt_LastDDLTimestamp r]> m) ∅ results, f).

(** A table without a timestamp gets the empty one. *)
Definition GetAOIncrementalMetadata (f : filters) : go (gmap string AOEntry * filters) :=
  let! (modCounts, f) := getAllModCounts f in
  let! (lastDDLTimestamps, f) := getLastDDLTimestamps f in
  Ok (foldl (λ m '(aoTableFQN, n), <[aoTableFQN := {| Modcount := n; LastDDLTimestamp := default "" (lastDDLTimestamps !! aoTableFQN) |}]> m)
        ∅ (range_map 17 modCounts), f).

(** ** The result does not depend on the order of the tables *)

Lemma insert_all {A B} (g : string → A → B) (l : list (string * A)) (m : gmap string B) t : NoDup l.*1 →
  foldl (λ m '(k, a), <[k := g k a]> m) m l !! t = match (list_to_map l : gmap string A) !! t with Some a => Some (g t a) | None => m !! t end.
Proof.
  revert m. induction l as [|[k a] l IH]; intros m Hnd; [done|]. simpl in *. apply NoDup_cons in Hnd as [Hk Hnd]. rewrite IH by done.
  destruct (decide (t = k)) as [->|Hne]; [|by rewrite !lookup_insert_ne by done].
  rewrite (not_elem_of_list_to_map_1 l k Hk), !lookup_insert_eq. done.
Qed.

Lemma count_all (count : string → Z) (l : list (string * string)) (m : gmap string Z) : (∀ t seg, (t, seg) ∈ l → getModCount seg = Ok (count seg)) →
  go_fold (λ modCounts '(t, seg), let! n := getModCount seg in Ok (<[t := n]> modCounts)) m l = Ok (foldl (λ m '(t, seg), <[t := count seg]> m) m l).
Proof.
  revert m. induction l as [|[t seg] l IH]; intros m Hl; [done|]. simpl. rewrite (Hl t seg) by by left. simpl. apply IH. intros t' seg' Hin.
  eapply Hl. by right.
Qed.

(** When the counts can be read, there is an entry for each append-optimised
    table, with its count and the time of its last change, or none. *)
Theorem incremental_entries f f1 f2 segs timestamps (count : string → Z) :
  getAOSegTableFQNs f = Ok (segs, f1) → getLastDDLTimestamps f1 = Ok (timestamps, f2) →
  (∀ t seg, segs !! t = Some seg → getModCount seg = Ok (count seg)) →
  GetAOIncrementalMetadata f =
    Ok (map_imap (λ t seg, Some {| Modcount := count seg; LastDDLTimestamp := default "" (timestamps !! t) |}) segs, f2).
Proof.
  intros Hsegs Hts Hcount. unfold GetAOIncrementalMetadata, getAllModCounts. rewrite Hsegs. simpl.
  rewrite (count_all count). 2: { intros t seg Hin. apply (Hcount t). by apply elem_of_range_map in Hin. }
  simpl. rewrite Hts. simpl. set (modCounts := foldl _ ∅ (range_map 30 segs)).
  assert (Hmod : ∀ t, modCounts !! t = count <$> segs !! t).
  { intros t. unfold modCounts. rewrite (insert_all (λ _, count)), list_to_map_range_map, lookup_empty by apply NoDup_range_map. by destruct (segs !! t). }
  do 2 f_equal. apply map_eq. intros t. rewrite map_lookup_imap.
  set (entry := λ (t : string) (n : Z), {| Modcount := n; LastDDLTimestamp := default "" (timestamps !! t) |}).
  rewrite (insert_all entry), list_to_map_range_map, Hmod, lookup_empty by apply NoDup_range_map. by destruct (segs !! t).
Qed.
End incremental.
