(* ===== verification/Connections.v ===== *)
(** The life of a pool of connections ([internal/dbconn/dbconn.go]): opening,
    closing and the calls that use a connection. Where [DbConn] follows the
    transactions of an open pool, this file follows the sessions a pool holds.

    A [*sqlx.DB] of at most one connection is a session. While rows are unread or
    a transaction is open the session is in use: outside its transaction a call
    on it waits for it, and closing the pool does not end it. The driver that
    dials and what the servers answer are parameters; a session the server drops
    is not dialled again. *)
From S2P Require Import Prelude Version Queries DbConn.

(** * The sessions of the program *)

Record session := { s_tx : bool; s_rows : bool }.
#[export] Instance session_eq : EqDecision session.
Proof. solve_decision. Defined.
Definition idle : session := {| s_tx := false; s_rows := false |}.
Definition in_use (s : session) : bool := s_tx s || s_rows s.

(** A statement with its arguments, on a session, as part of its transaction or
    not. *)
Record sent := { on_session : nat; in_tx : bool; statement : string; arguments : list string }.

(** The sessions that are open, by the number of the dial that opened them, and
    what was sent. *)
Record world := { w_dialled : nat; w_sessions : gmap nat session; w_sent : list sent }.

(** The rows of a query: the number of columns, each row as far as it can be
    scanned into a nullable text, and the error the iteration ends with. *)
Record Rows := { Columns : nat; row_scans : list (go (option string)); Rows_Err : option string }.

(** [Connect] of the driver, by the number of the dial; the answers of the
    servers, by what was sent before. *)
Class Driver := {
  Dial : nat → string → option string;
  AnswerExec : list sent → sent → go Z;
  AnswerGet : list sent → sent → go string;
  AnswerSelect : list sent → sent → go (list string);
  AnswerRows : list sent → sent → go Rows
}.

(** * Pools *)

(** A nil entry of [ConnPool] was not dialled yet; a nil [Tx] is empty. *)
Record Pool := {
  ConnPool : option (list (option nat)); p_NumConns : Z; User : string; Password : string; DBName : string;
  Host : string; Port : Z; p_Tx : list bool; p_Version : GPDBVersion
}.
Definition set_ConnPool (p : Pool) (v : option (list (option nat))) : Pool :=
  {| ConnPool := v; p_NumConns := p_NumConns p; User := User p; Password := Password p; DBName := DBName p; Host := Host p;
     Port := Port p; p_Tx := p_Tx p; p_Version := p_Version p |}.
Definition set_Tx (p : Pool) (v : list bool) : Pool :=
  {| ConnPool := ConnPool p; p_NumConns := p_NumConns p; User := User p; Password := Password p; DBName := DBName p; Host := Host p;
     Port := Port p; p_Tx := v; p_Version := p_Version p |}.
Definition set_NumConns (p : Pool) (v : Z) : Pool :=
  {| ConnPool := ConnPool p; p_NumConns := v; User := User p; Password := Password p; DBName := DBName p; Host := Host p;
     Port := Port p; p_Tx := p_Tx p; p_Version := p_Version p |}.
Definition set_Version (p : Pool) (v : GPDBVersion) : Pool :=
  {| ConnPool := ConnPool p; p_NumConns := p_NumConns p; User := User p; Password := Password p; DBName := DBName p; Host := Host p;
     Port := Port p; p_Tx := p_Tx p; p_Version := v |}.
Definition version0 : GPDBVersion := {| VersionString := ""; SemVer := semver0; Type_ := Unknown |}.

Definition NewDBConn (dbname username host : string) (port : Z) : go Pool :=
  if bool_decide (dbname = "") then Fatal "No database provided"
  else if bool_decide (username = "") then Fatal "No username provided"
  else if bool_decide (host = "") then Fatal "No host provided"
  else Ok {| ConnPool := None; p_NumConns := 0; User := username; Password := ""; DBName := dbname; Host := host; Port := port;
             p_Tx := []; p_Version := version0 |}.
Definition NewDBConnWithPassword (dbname username password host : string) (port : Z) : go Pool :=
  let! conn := NewDBConn dbname username host port in
  Ok {| ConnPool := ConnPool conn; p_NumConns := p_NumConns conn; User := User conn; Password := password; DBName := DBName conn;
        Host := Host conn; Port := Port conn; p_Tx := p_Tx conn; p_Version := p_Version conn |}.

(** The environment of the process; an error of the calls of [operating] is
    dropped, and the user is then a nil pointer. *)
Class Environment := { Getenv : string → string; CurrentUser : option string; Hostname : option string }.
Definition NewDBConnFromEnvironment `{Environment} (dbname : string) : go Pool :=
  if bool_decide (dbname = "") then Fatal "No database provided"
  else
    let! username := (if bool_decide (Getenv "PGUSER" = "")
                      then match CurrentUser with Some u => Ok u | None => Panic "nil pointer dereference" end
                      else Ok (Getenv "PGUSER")) in
    let host := if bool_decide (Getenv "PGHOST" = "") then default "" Hostname else Getenv "PGHOST" in
    NewDBConn dbname username host (default 5432%Z (Atoi (Getenv "PGPORT"))).

(** A call on a pool: a result, or [None] when it waits for ever. *)
Definition method (A : Type) : Type := world → Pool → option (world * Pool * go A).
Definition done {A} (r : go A) : method A := λ w p, Some (w, p, r).
Definition then_ {A B} (m : method A) (k : A → method B) : method B := λ w p,
  match m w p with
  | None => None
  | Some (w, p, Ok a) => k a w p
  | Some (w, p, Err e) => Some (w, p, Err e)
  | Some (w, p, Fatal e) => Some (w, p, Fatal e)
  | Some (w, p, Panic e) => Some (w, p, Panic e)
  end.
Notation "'mlet' x ':=' m 'in' k" := (then_ m (λ x, k))
  (at level 10, x pattern, m at level 100, k at level 200) : go_scope.
(** [gplog.FatalOnError(err)] behind a call. *)
Definition Must {A} (m : method A) : method A := λ w p,
  match m w p with Some (w, p, r) => Some (w, p, FatalOnError r) | None => None end.

Section calls.
Context `{Driver}.

(** * A request on a session *)

Definition set_session (h : nat) (s : session) (w : world) : world :=
  {| w_dialled := w_dialled w; w_sessions := <[h := s]> (w_sessions w); w_sent := w_sent w |}.
Definition close_session (h : nat) (w : world) : world :=
  {| w_dialled := w_dialled w; w_sessions := delete h (w_sessions w); w_sent := w_sent w |}.
(** Outside a transaction the call waits until the session is free. *)
Definition waits (w : world) (h : nat) (tx : bool) : bool :=
  negb tx && match w_sessions w !! h with Some s => in_use s | None => false end.
Definition request {B} (answer : list sent → sent → go B) (h : nat) (tx : bool) (query : string) (args : list string) : method B :=
  λ w p,
    if waits w h tx then None
    else
      let s := {| on_session := h; in_tx := tx; statement := query; arguments := args |} in
      Some ({| w_dialled := w_dialled w; w_sessions := w_sessions w; w_sent := w_sent w ++ [s] |}, p, answer (w_sent w) s).
Definition set_use (h : nat) (s : session) : method () := λ w p, Some (set_session h s w, p, Ok ()).

(** * Choosing a connection *)

Definition ValidateConnNum (whichConn : list Z) : method nat := λ w p,
  match whichConn with
  | [] => Some (w, p, Ok 0)
  | [c] => Some (w, p, if (c <? 0)%Z || (p_NumConns p <=? c)%Z then Fatal (Sprintf "Invalid connection number: %d" [Itoa c]) else Ok (Z.to_nat c))
  | _ => Some (w, p, Fatal "At most one connection number may be specified for a given connection")
  end.
(** [dbconn.Tx[connNum] != nil]. *)
Definition tx_of (connNum : nat) : method bool := λ w p, Some (w, p, index (p_Tx p) connNum).
(** [dbconn.ConnPool[connNum]], whose methods panic on nil. *)
Definition session_of (connNum : nat) : method nat := λ w p,
  Some (w, p, let! c := index (default [] (ConnPool p)) connNum in
              match c with Some h => Ok h | None => Panic "nil pointer dereference" end).
Definition set_slot (connNum : nat) (tx : bool) : method () := λ w p, Some (w, set_Tx p (<[connNum := tx]> (p_Tx p)), Ok ()).

(** Through the transaction of a connection when it has one. *)
Definition on_conn {B} (answer : list sent → sent → go B) (query : string) (args : list string) (connNum : nat) : method B :=
  mlet tx := tx_of connNum in
  mlet h := session_of connNum in
  request answer h tx query args.

(** * The calls *)

Definition Exec (query : string) (whichConn : list Z) : method Z :=
  mlet connNum := ValidateConnNum whichConn in on_conn AnswerExec query [] connNum.
Definition MustExec (query : string) (whichConn : list Z) : method Z := Must (Exec query whichConn).
(** A context that is not cancelled. *)
Definition ExecContext (query : string) (whichConn : list Z) : method Z :=
  mlet connNum := ValidateConnNum whichConn in on_conn AnswerExec query [] connNum.
Definition MustExecContext (query : string) (whichConn : list Z) : method Z := Must (ExecContext query whichConn).

(** The first row as a text, and all rows as texts; the rows are closed. *)
Definition Get (query : string) (whichConn : list Z) : method string :=
  mlet connNum := ValidateConnNum whichConn in on_conn AnswerGet query [] connNum.
Definition SelectAll (query : string) (whichConn : list Z) : method (list string) :=
  mlet connNum := ValidateConnNum whichConn in on_conn AnswerSelect query [] connNum.
(** With arguments, which the driver fills in, and on the first connection. *)
Definition GetWithArgs (query : string) (args : list string) : method string := on_conn AnswerGet query args 0.
Definition SelectWithArgs (query : string) (args : list string) : method (list string) := on_conn AnswerSelect query args 0.

(** The rows of a query keep the session until they are closed. *)
Definition rows_opened (h : nat) : method () := λ w p,
  Some (match w_sessions w !! h with Some s => set_session h {| s_tx := s_tx s; s_rows := true |} w | None => w end, p, Ok ()).
Definition rows_closed (h : nat) : method () := λ w p,
  Some (match w_sessions w !! h with Some s => set_session h {| s_tx := s_tx s; s_rows := false |} w | None => w end, p, Ok ()).
Definition query_rows (query : string) (args : list string) (connNum : nat) : method (nat * Rows) :=
  mlet rows := on_conn AnswerRows query args connNum in
  mlet h := session_of connNum in
  mlet _ := rows_opened h in
  done (Ok (h, rows)).
Definition Query (query : string) (whichConn : list Z) : method (nat * Rows) :=
  mlet connNum := ValidateConnNum whichConn in query_rows query [] connNum.
Definition QueryWithArgs (query : string) (args : list string) : method (nat * Rows) := query_rows query args 0.

(** [for rows.Rows.Next()]: the last call of [Next] closes the rows; an error of
    [Scan] leaves the loop before it. *)
Fixpoint scan_rows (h : nat) (scans : list (go (option string))) (retval : list string) : method (list string) :=
  match scans with
  | [] => mlet _ := rows_closed h in done (Ok retval)
  | r :: scans' => mlet result := done r in scan_rows h scans' (retval ++ [default "" result])
  end.
Definition SelectStringSlice (query : string) (whichConn : list Z) : method (list string) :=
  mlet connNum := ValidateConnNum whichConn in
  mlet (h, rows) := Query query [Z.of_nat connNum] in
  if bool_decide (1 < Columns rows) then
    done (Err (Sprintf "Too many columns returned from query: got %d columns, expected 1 column" [Itoa (Z.of_nat (Columns rows))]))
  else
    mlet retval := scan_rows h (row_scans rows) [] in
    done (match Rows_Err rows with Some e => Err e | None => Ok retval end).
Definition MustSelectStringSlice_ (query : string) (whichConn : list Z) : method (list string) := Must (SelectStringSlice query whichConn).
Definition SelectString (query : string) (whichConn : list Z) : method string :=
  mlet results := SelectStringSlice query whichConn in
  done (match results with
        | [] => Ok ""
        | [r] => Ok r
        | _ => Err (Sprintf "Too many rows returned from query: got %d rows, expected 1 row" [Itoa (Z.of_nat (length results))])
        end).
Definition MustSelectString (query : string) (whichConn : list Z) : method string := Must (SelectString query whichConn).

(** * Transactions *)

Definition Begin (whichConn : list Z) : method () :=
  mlet connNum := ValidateConnNum whichConn in
  mlet tx := tx_of connNum in
  if (tx : bool) then done (Err "Cannot begin transaction; there is already a transaction in progress")
  else
    mlet h := session_of connNum in
    mlet _ := request AnswerExec h false "BEGIN" [] in
    mlet _ := set_use h {| s_tx := true; s_rows := false |} in
    mlet _ := set_slot connNum true in
    mlet _ := Exec "SET TRANSACTION ISOLATION LEVEL SERIALIZABLE" [Z.of_nat connNum] in
    done (Ok ()).
Definition MustBegin (whichConn : list Z) : method () := Must (Begin whichConn).
(** The end of a transaction gives the session back, also when it is an error. *)
Definition end_tx (what : string) (whichConn : list Z) : method () :=
  mlet connNum := ValidateConnNum whichConn in
  mlet tx := tx_of connNum in
  if negb tx then done (Err (cat ["Cannot "; what; " transaction; there is no transaction in progress"]))
  else
    mlet h := session_of connNum in
    λ w p, match request AnswerExec h true what [] w p with
           | None => None
           | Some (w, p, r) => Some (set_session h idle w, set_Tx p (<[connNum := false]> (p_Tx p)), let! _ := r in Ok ())
           end.
Definition Commit := end_tx "commit".
Definition Rollback := end_tx "rollback".
Definition MustCommit (whichConn : list Z) : method () := Must (Commit whichConn).
Definition MustRollback (whichConn : list Z) : method () := Must (Rollback whichConn).

(** * Opening and closing *)

Definition handleConnectionError (p : Pool) (err : string) : string :=
  if Contains err "does not exist" then
    if Contains err "pq: role" then Sprintf (cat ["Role "; chr DQ; "%s"; chr DQ; " does not exist on %s:%d, exiting"]) [User p; Host p; Itoa (Port p)]
    else if Contains err "pq: database" then Sprintf (cat ["Database "; chr DQ; "%s"; chr DQ; " does not exist on %s:%d, exiting"]) [DBName p; Host p; Itoa (Port p)]
    else err
  else if Contains err "connection refused" then
    Sprintf (cat ["could not connect to server: Connection refused
	Is the server running on host "; chr DQ; "%s"; chr DQ; " and accepting
	TCP/IP connections on port %d?"]) [Host p; Itoa (Port p)]
  else Sprintf "%v (%s:%d)" [err; Host p; Itoa (Port p)].

Definition connStr (p : Pool) : string :=
  if bool_decide (len (Password p) = 0)
  then Sprintf "postgres://%s@%s:%d/%s?sslmode=disable" [User p; Host p; Itoa (Port p); DBName p]
  else Sprintf "user=%v password='%v' host=%v port=%v dbname=%v" [User p; Password p; Host p; Itoa (Port p); DBName p].

(** [Driver.Connect] of connection [i]. *)
Definition dial (i : nat) : method () := λ w p,
  let h := w_dialled w in
  match Dial h (connStr p) with
  | Some e => Some ({| w_dialled := S h; w_sessions := w_sessions w; w_sent := w_sent w |}, p, Err (handleConnectionError p e))
  | None =>
      Some ({| w_dialled := S h; w_sessions := <[h := idle]> (w_sessions w); w_sent := w_sent w |},
            set_ConnPool p (<[i := Some h]> <$> ConnPool p), Ok ())
  end.
Fixpoint dial_all (i n : nat) : method () :=
  match n with
  | O => done (Ok ())
  | S n => mlet _ := dial i in dial_all (S i) n
  end.
Definition InitializeVersion : method () := λ w p,
  match Get "SELECT version() AS versionstring" [] w p with
  | Some (w, p, Ok v) => Some (w, set_Version p (ParseVersionInfo version0 v), Ok ())
  | Some (w, p, Err e) => Some (w, p, Err (cat ["Failed to determine database version: "; e]))
  | Some (w, p, Fatal e) => Some (w, p, Fatal e)
  | Some (w, p, Panic e) => Some (w, p, Panic e)
  | None => None
  end.
Definition update_pool (f : Pool → Pool) : method () := λ w p, Some (w, f p, Ok ()).
Definition Connect (numConns : Z) : method () := λ w p,
  if (numConns <? 1)%Z then Some (w, p, Err "Must specify a connection pool size that is a positive integer")
  else if bool_decide (ConnPool p ≠ None) then Some (w, p, Err "The database connection must be closed before reusing the connection")
  else
    (mlet _ := update_pool (λ p, set_ConnPool p (Some (replicate (Z.to_nat numConns) None))) in
     mlet _ := dial_all 0 (Z.to_nat numConns) in
     mlet _ := update_pool (λ p, set_NumConns (set_Tx p (replicate (Z.to_nat numConns) false)) numConns) in
     InitializeVersion) w p.
Definition MustConnect (numConns : Z) : method () := Must (Connect numConns).

(** [conn.Close()] of a session in use is put off until it is given back. *)
Definition close_conn (w : world) (c : option nat) : world :=
  match c with
  | Some h => match w_sessions w !! h with Some s => if in_use s then w else close_session h w | None => w end
  | None => w
  end.
Definition Close (w : world) (p : Pool) : world * Pool :=
  match ConnPool p with
  | Some conns => (foldl close_conn w conns, set_NumConns (set_Tx (set_ConnPool p None) []) 0)
  | None => (w, p)
  end.
End calls.

(** * What a pool holds *)

Definition owned (p : Pool) : list nat := omap id (default [] (ConnPool p)).

(** A pool is closed, or its sessions are open, distinct, and in a transaction
    exactly when their slot says so; it has slots for all of them or, when
    [Connect] failed, none. *)
Definition pool_ok (w : world) (p : Pool) : Prop :=
  match ConnPool p with
  | None => p_Tx p = [] ∧ p_NumConns p = 0%Z
  | Some conns =>
      NoDup (omap id conns) ∧
      (∀ i h, conns !! i = Some (Some h) → ∃ s, w_sessions w !! h = Some s ∧ s_tx s = default false (p_Tx p !! i)) ∧
      (p_Tx p = [] ∧ p_NumConns p = 0%Z ∨
       length (p_Tx p) = length conns ∧ p_NumConns p = Z.of_nat (length conns) ∧ 0 < length conns ∧
       ∀ i, i < length conns → ∃ h, conns !! i = Some (Some h))
  end.

(** Since [w0], when it held the sessions [o0], the pool has opened sessions and
    given some up; of these the open ones are in use. The sessions of others are
    as they were. *)
Record since (w0 : world) (o0 : list nat) (w : world) (p : Pool) : Prop := {
  since_dialled : w_dialled w0 ≤ w_dialled w;
  since_open : ∀ h s, w_sessions w !! h = Some s → h < w_dialled w;
  since_ok : pool_ok w p;
  since_others : ∀ h, h < w_dialled w0 → h ∉ o0 → w_sessions w !! h = w_sessions w0 !! h;
  since_owned : ∀ h, h ∈ owned p → w_dialled w0 ≤ h ∨ h ∈ o0;
  since_left : ∀ h s, w_dialled w0 ≤ h ∨ h ∈ o0 → w_sessions w !! h = Some s → h ∈ owned p ∨ in_use s = true
}.

Lemma owned_Some p conns : ConnPool p = Some conns → owned p = omap id conns.
Proof. unfold owned. by intros ->. Qed.

Lemma elem_of_owned p h : h ∈ owned p ↔ ∃ conns i, ConnPool p = Some conns ∧ conns !! i = Some (Some h).
Proof.
  unfold owned. rewrite list_elem_of_omap. split.
  - intros (c & Hc & Heq). unfold id in Heq. subst c. destruct (ConnPool p) as [conns|]; [|by apply not_elem_of_nil in Hc].
    apply list_elem_of_lookup in Hc as [i Hi]. by exists conns, i.
  - intros (conns & i & -> & Hi). exists (Some h). split; [|done]. by eapply list_elem_of_lookup_2.
Qed.

Lemma owned_inj (conns : list (option nat)) i j h : NoDup (omap id conns) → conns !! i = Some (Some h) → conns !! j = Some (Some h) → i = j.
Proof.
  revert i j. induction conns as [|c conns IH]; [done|]. intros i j Hnd Hi Hj.
  assert (Hin : ∀ k, conns !! k = Some (Some h) → h ∈ omap id conns).
  { intros k Hk. apply list_elem_of_omap. exists (Some h). split; [by eapply list_elem_of_lookup_2|done]. }
  destruct c as [c|]; [change (NoDup (c :: omap id conns)) in Hnd; apply NoDup_cons in Hnd as [Hc Hnd]|change (NoDup (omap id conns)) in Hnd];
    destruct i, j; simplify_eq/=; try done; try (exfalso; naive_solver); f_equal; naive_solver.
Qed.

Section invariant.
Context `{Driver} (w0 : world) (o0 : list nat).

(** A call keeps the account of the sessions, and leaves [Q] when it returns. *)
Definition keeps {A} (m : method A) (w : world) (p : Pool) (Q : world → Pool → A → Prop) : Prop :=
  match m w p with
  | None => True
  | Some (w', p', r) => since w0 o0 w' p' ∧ match r with Ok a => Q w' p' a | _ => True end
  end.

Lemma keeps_then {A B} (m : method A) (k : A → method B) w p Q :
  keeps m w p (λ w p a, since w0 o0 w p → keeps (k a) w p Q) → keeps (then_ m k) w p Q.
Proof. unfold keeps, then_. destruct (m w p) as [[[w' p'] [a|e|e|e]]|]; naive_solver. Qed.

Lemma keeps_mono {A} (m : method A) w p (Q Q' : world → Pool → A → Prop) :
  keeps m w p Q → (∀ w' p' a, Q w' p' a → Q' w' p' a) → keeps m w p Q'.
Proof. unfold keeps. destruct (m w p) as [[[w' p'] [a|e|e|e]]|]; naive_solver. Qed.

Lemma keeps_done {A} (r : go A) w p (Q : world → Pool → A → Prop) : since w0 o0 w p → (∀ a, r = Ok a → Q w p a) → keeps (done r) w p Q.
Proof. intros Hs HQ. split; [done|]. destruct r; auto. Qed.

Lemma keeps_request {B} (answer : list sent → sent → go B) h tx q args w p (Q : world → Pool → B → Prop) :
  since w0 o0 w p → (∀ l b, Q {| w_dialled := w_dialled w; w_sessions := w_sessions w; w_sent := l |} p b) →
  keeps (request answer h tx q args) w p Q.
Proof.
  intros [H1 H2 H3 H4 H5 H6] HQ. unfold keeps, request. destruct (waits w h tx); [done|]. split; [by split|].
  destruct (answer _ _); auto.
Qed.

Lemma keeps_ValidateConnNum whichConn w p (Q : world → Pool → nat → Prop) : since w0 o0 w p → (∀ n, Q w p n) → keeps (ValidateConnNum whichConn) w p Q.
Proof.
  intros Hs HQ. unfold keeps, ValidateConnNum. destruct whichConn as [|c [|]]; [by split| |by split].
  split; [done|]. by destruct (_ || _).
Qed.

Lemma keeps_tx_of n w p (Q : world → Pool → bool → Prop) :
  since w0 o0 w p → (∀ tx, p_Tx p !! n = Some tx → Q w p tx) → keeps (tx_of n) w p Q.
Proof. intros Hs HQ. unfold keeps, tx_of. split; [done|]. unfold index. destruct (p_Tx p !! n); simpl; auto. Qed.

Lemma keeps_session_of n w p (Q : world → Pool → nat → Prop) :
  since w0 o0 w p → (∀ h conns, ConnPool p = Some conns → conns !! n = Some (Some h) → Q w p h) → keeps (session_of n) w p Q.
Proof.
  intros Hs HQ. unfold keeps, session_of. split; [done|]. unfold index.
  destruct (ConnPool p) as [conns|] eqn:Hp; simpl; [|done]. destruct (conns !! n) as [[h|]|] eqn:Hn; simpl; eauto.
Qed.

(** A session the pool holds may be read from. *)
Lemma since_reading w p h s r : since w0 o0 w p → h ∈ owned p → w_sessions w !! h = Some s →
  since w0 o0 (set_session h {| s_tx := s_tx s; s_rows := r |} w) p.
Proof.
  intros [H1 H2 H3 H4 H5 H6] Hh Hs. split; simpl; try done.
  - intros h' s' [[<- _]|[_ Hs']]%lookup_insert_Some; eauto.
  - unfold pool_ok in *. destruct (ConnPool p) as [conns|]; [|done]. destruct H3 as (Hnd & Hopen & Hslots). split; [done|]. split; [|done].
    intros i h' Hi. destruct (Hopen i h' Hi) as (s' & Hs' & Htx). destruct (decide (h' = h)) as [->|Hne].
    + exists {| s_tx := s_tx s; s_rows := r |}. simpl. rewrite lookup_insert_eq. split; [done|]. congruence.
    + exists s'. simpl. by rewrite lookup_insert_ne by done.
  - intros h' Hh' Ho'. rewrite lookup_insert_ne; [by apply H4|]. intros <-. destruct (H5 _ Hh); [lia|done].
  - intros h' s' Hh' [[<- _]|[_ Hs']]%lookup_insert_Some; [by left|eauto].
Qed.

Lemma keeps_rows_opened h w p (Q : world → Pool → () → Prop) :
  since w0 o0 w p → h ∈ owned p → (∀ w, Q w p ()) → keeps (rows_opened h) w p Q.
Proof.
  intros Hs Hh HQ. unfold keeps, rows_opened. split; [|apply HQ]. destruct (w_sessions w !! h) eqn:E; [by apply since_reading|done].
Qed.
Lemma keeps_rows_closed h w p (Q : world → Pool → () → Prop) :
  since w0 o0 w p → h ∈ owned p → (∀ w, Q w p ()) → keeps (rows_closed h) w p Q.
Proof.
  intros Hs Hh HQ. unfold keeps, rows_closed. split; [|apply HQ]. destruct (w_sessions w !! h) eqn:E; [by apply since_reading|done].
Qed.

Lemma keeps_on_conn {B} (answer : list sent → sent → go B) q args n w p (Q : world → Pool → B → Prop) :
  since w0 o0 w p → (∀ l b, Q {| w_dialled := w_dialled w; w_sessions := w_sessions w; w_sent := l |} p b) →
  keeps (on_conn answer q args n) w p Q.
Proof.
  intros Hs HQ. unfold on_conn. apply keeps_then, keeps_tx_of; [done|]. intros tx _ _.
  apply keeps_then, keeps_session_of; [done|]. intros h conns _ _ _. by apply keeps_request.
Qed.

Lemma keeps_query_rows q args n w p : since w0 o0 w p → keeps (query_rows q args n) w p (λ _ p '(h, _), h ∈ owned p).
Proof.
  intros Hs. unfold query_rows. apply keeps_then, keeps_on_conn; [done|]. intros l rows Hl.
  apply keeps_then, keeps_session_of; [done|]. intros h conns Hp Hi _.
  assert (Hh : h ∈ owned p) by (apply elem_of_owned; eauto).
  apply keeps_then, keeps_rows_opened; [done..|]. intros w' Hw'. apply keeps_done; [done|]. by intros ? [= <-].
Qed.

Lemma keeps_scan_rows h scans retval w p : since w0 o0 w p → h ∈ owned p → keeps (scan_rows h scans retval) w p (λ _ _ _, True).
Proof.
  intros Hs Hh. revert retval. induction scans as [|r scans IH]; intros retval; simpl; apply keeps_then.
  - apply keeps_rows_closed; [done..|]. intros w' Hw'. by apply keeps_done.
  - apply keeps_done; [done|]. intros a -> _. apply IH.
Qed.

Lemma keeps_SelectStringSlice q whichConn w p : since w0 o0 w p → keeps (SelectStringSlice q whichConn) w p (λ _ _ _, True).
Proof.
  intros Hs. unfold SelectStringSlice. apply keeps_then, keeps_ValidateConnNum; [done|]. intros n _.
  apply keeps_then. unfold Query. apply keeps_then, keeps_ValidateConnNum; [done|]. intros n' _.
  eapply keeps_mono; [by apply keeps_query_rows|]. intros w' p' [h rows] Hh Hs'.
  case_bool_decide; [by apply keeps_done|]. apply keeps_then. eapply keeps_mono; [by apply keeps_scan_rows|].
  intros w'' p'' retval _ Hs''. by apply keeps_done.
Qed.

(** A session and its slot change together. *)
Lemma since_slot w p conns n h b : since w0 o0 w p → ConnPool p = Some conns → conns !! n = Some (Some h) → is_Some (p_Tx p !! n) →
  since w0 o0 (set_session h {| s_tx := b; s_rows := false |} w) (set_Tx p (<[n := b]> (p_Tx p))).
Proof.
  intros [H1 H2 H3 H4 H5 H6] Hp Hn [b' Hb'].
  assert (Hh : h ∈ owned p) by (apply elem_of_owned; eauto).
  unfold pool_ok in H3. rewrite Hp in H3. destruct H3 as (Hnd & Hopen & Hslots).
  split; simpl; try done.
  - destruct (Hopen n h Hn) as (s & Hs & _). intros h' s' [[<- _]|[_ Hs']]%lookup_insert_Some; eauto.
  - unfold pool_ok. simpl. rewrite Hp. split; [done|]. split.
    + intros i h' Hi. destruct (Hopen i h' Hi) as (s' & Hs' & Htx). destruct (decide (h' = h)) as [->|Hne].
      * rewrite (owned_inj conns i n h) by done. exists {| s_tx := b; s_rows := false |}. rewrite lookup_insert_eq. split; [done|].
        simpl. rewrite list_lookup_insert_eq; [done|]. by eapply lookup_lt_Some.
      * exists s'. rewrite lookup_insert_ne by done. split; [done|]. rewrite list_lookup_insert_ne; [done|]. intros <-. congruence.
    + rewrite length_insert. destruct Hslots as [[Htx _]|?]; [by rewrite Htx in Hb'|by right].
  - intros h' Hh' Ho'. rewrite lookup_insert_ne; [by apply H4|]. intros <-. destruct (H5 _ Hh); [lia|done].
  - intros h' s' Hh' [[<- _]|[_ Hs']]%lookup_insert_Some; [left; exact Hh|eapply H6; eauto].
Qed.

Lemma keeps_Exec q whichConn w p : since w0 o0 w p → keeps (Exec q whichConn) w p (λ _ _ _, True).
Proof. intros Hs. unfold Exec. apply keeps_then, keeps_ValidateConnNum; [done|]. intros n _. by apply keeps_on_conn. Qed.

Lemma keeps_Begin whichConn w p : since w0 o0 w p → keeps (Begin whichConn) w p (λ _ _ _, True).
Proof.
  intros Hs. unfold Begin. apply keeps_then, keeps_ValidateConnNum; [done|]. intros n _.
  apply keeps_then, keeps_tx_of; [done|]. intros tx Htx _. destruct tx; [by apply keeps_done|].
  apply keeps_then, keeps_session_of; [done|]. intros h conns Hp Hn _.
  apply keeps_then, keeps_request; [done|]. intros l z Hs1.
  change (keeps (then_ (Exec "SET TRANSACTION ISOLATION LEVEL SERIALIZABLE" [Z.of_nat n]) (λ _, done (Ok ())))
    (set_session h {| s_tx := true; s_rows := false |} {| w_dialled := w_dialled w; w_sessions := w_sessions w; w_sent := l |})
    (set_Tx p (<[n := true]> (p_Tx p))) (λ _ _ _, True)).
  assert (is_Some (p_Tx p !! n)) by eauto.
  apply keeps_then. eapply keeps_mono; [apply keeps_Exec; by apply (since_slot _ _ conns)|]. intros. by apply keeps_done.
Qed.

Lemma keeps_end_tx what whichConn w p : since w0 o0 w p → keeps (end_tx what whichConn) w p (λ _ _ _, True).
Proof.
  intros Hs. unfold end_tx. apply keeps_then, keeps_ValidateConnNum; [done|]. intros n _.
  apply keeps_then, keeps_tx_of; [done|]. intros tx Htx _. destruct tx; [|by apply keeps_done].
  apply keeps_then, keeps_session_of; [done|]. intros h conns Hp Hn _. unfold keeps, request. simpl.
  split; [|by destruct (AnswerExec _ _)]. apply (since_slot _ p conns); try done. destruct Hs. by split.
Qed.
End invariant.

(** After [i] dials from number [d] on, of [i + n] to be made. *)
Definition dialled_pool (d i n : nat) : list (option nat) := (Some <$> seq d i) ++ replicate n None.
Arguments dialled_pool : simpl never.

Lemma omap_dialled d i n : omap id (dialled_pool d i n) = seq d i.
Proof.
  unfold dialled_pool. rewrite omap_app.
  assert (omap id (replicate n (@None nat)) = []) as -> by (by induction n).
  rewrite app_nil_r. generalize d. induction i as [|i IH]; intros d'; [done|]. simpl. f_equal. apply IH.
Qed.

Lemma dialled_lookup d i n k h : dialled_pool d i n !! k = Some (Some h) ↔ k < i ∧ h = d + k.
Proof.
  unfold dialled_pool. rewrite lookup_app, list_lookup_fmap. destruct (decide (k < i)) as [Hk|Hk].
  - rewrite lookup_seq_lt by done. simpl. split; [intros [= <-]; lia|intros [_ ->]; done].
  - rewrite lookup_seq_ge by lia. simpl. split; [|lia]. intros [? _]%lookup_replicate. done.
Qed.

Lemma dialled_next d i n : <[i := Some (d + i)]> (dialled_pool d i (S n)) = dialled_pool d (S i) n.
Proof.
  unfold dialled_pool. rewrite seq_S, fmap_app, <-app_assoc. simpl.
  rewrite insert_app_r_alt; rewrite length_fmap, length_seq; [|done]. by rewrite Nat.sub_diag.
Qed.

Lemma length_dialled d i n : length (dialled_pool d i n) = i + n.
Proof. unfold dialled_pool. by rewrite length_app, length_fmap, length_seq, length_replicate. Qed.

Section opening.
Context `{Driver} (w0 : world) (o0 : list nat).

(** A pool that is being opened. *)
Definition opening (d i n : nat) (w : world) (p : Pool) : Prop :=
  w_dialled w = d + i ∧ ConnPool p = Some (dialled_pool d i n) ∧ p_Tx p = [] ∧ p_NumConns p = 0%Z ∧ since w0 o0 w p.

Lemma keeps_dial d i n w p : opening d i (S n) w p →
  keeps w0 o0 (dial i) w p (λ w' p' _, opening d (S i) n w' p' ∧ p' = set_ConnPool p (Some (dialled_pool d (S i) n))).
Proof.
  intros (Hd & Hp & Htx & Hnum & [H1 H2 H3 H4 H5 H6]). unfold keeps, dial.
  unfold pool_ok in H3. rewrite Hp in H3. destruct H3 as (Hnd & Hopen & _).
  assert (Hown : owned p = seq d i) by (by rewrite (owned_Some _ _ Hp), omap_dialled). rewrite Hown in *.
  assert (Hown' : owned (set_ConnPool p (Some (dialled_pool d (S i) n))) = seq d (S i)) by (by erewrite owned_Some, omap_dialled).
  assert (Hlt : ∀ h s, w_sessions w !! h = Some s → h < S (w_dialled w)) by (intros h s Hs; apply H2 in Hs; lia).
  destruct (Dial _ _) as [e|].
  { split; [|done]. split; simpl; try done; [lia| |by rewrite Hown..]. unfold pool_ok. rewrite Hp. split; [done|]. split; [done|]. by left. }
  rewrite Hp. cbn [fmap option_fmap option_map]. rewrite Hd, dialled_next.
  assert (Hs : since w0 o0 {| w_dialled := S (d + i); w_sessions := <[d + i := idle]> (w_sessions w); w_sent := w_sent w |}
                 (set_ConnPool p (Some (dialled_pool d (S i) n)))); [|split; [done|]; repeat split; simpl; try done; [lia|apply Hs..]].
  rewrite Hd in *. split; simpl; [lia| | |intros h Hh Ho; rewrite lookup_insert_ne by lia; by apply H4| |].
  - intros h s [[<- _]|[_ Hs]]%lookup_insert_Some; [lia|eauto].
  - unfold pool_ok. cbn [ConnPool set_ConnPool p_Tx p_NumConns]. rewrite omap_dialled. split; [apply NoDup_seq|]. split; [|by left].
    intros k h [Hk ->]%dialled_lookup. rewrite Htx. cbn [w_sessions]. destruct (decide (k = i)) as [->|Hne].
    + exists idle. by rewrite lookup_insert_eq.
    + destruct (Hopen k (d + k)) as (s & Hs & Hstx); [apply dialled_lookup; lia|]. exists s.
      rewrite lookup_insert_ne by lia. by rewrite Htx in Hstx.
  - intros h Hh. rewrite Hown' in Hh. apply elem_of_seq in Hh. destruct (decide (h = d + i)) as [->|]; [left; lia|]. apply H5, elem_of_seq. lia.
  - intros h s Hh [[<- <-]|[_ Hs]]%lookup_insert_Some; rewrite Hown'.
    + left. apply elem_of_seq. lia.
    + destruct (H6 h s Hh Hs) as [Hin|]; [left|by right]. apply elem_of_seq in Hin. apply elem_of_seq. lia.
Qed.

Lemma keeps_dial_all d n i w p : opening d i n w p →
  keeps w0 o0 (dial_all i n) w p (λ w' p' _, opening d (i + n) 0 w' p').
Proof.
  revert i w p. induction n as [|n IH]; intros i w p Hp; simpl.
  - rewrite Nat.add_0_r. apply keeps_done; [apply Hp|done].
  - apply keeps_then. eapply keeps_mono; [by apply keeps_dial|]. intros w' p' _ [Hp' _] _.
    replace (i + S n) with (S i + n) by lia. by apply IH.
Qed.

Lemma keeps_InitializeVersion w p : since w0 o0 w p → keeps w0 o0 InitializeVersion w p (λ _ p' _, ConnPool p' = ConnPool p).
Proof.
  intros Hs. assert (Hget : keeps w0 o0 (Get "SELECT version() AS versionstring" []) w p (λ _ p' _, p' = p)).
  { unfold Get. apply keeps_then, keeps_ValidateConnNum; [done|]. intros n _. by apply keeps_on_conn. }
  unfold keeps, InitializeVersion in *. destruct (Get _ _ w p) as [[[w' p'] [v|e|e|e]]|]; try done.
  destruct Hget as [[H1 H2 H3 H4 H5 H6] ->]. split; [|done]. split; assumption.
Qed.

Lemma keeps_Connect n w p : since w0 o0 w p → keeps w0 o0 (Connect n) w p (λ _ p' _, length (owned p') = Z.to_nat n).
Proof.
  intros Hs. unfold keeps, Connect. destruct (n <? 1)%Z eqn:En; [done|]. apply Z.ltb_ge in En. case_bool_decide as Ep; [done|].
  apply (keeps_then w0 o0 (update_pool _)). unfold keeps, update_pool.
  assert (Hopening : opening (w_dialled w) 0 (Z.to_nat n) w (set_ConnPool p (Some (replicate (Z.to_nat n) None)))).
  { destruct Hs as [H1 H2 H3 H4 H5 H6]. unfold pool_ok in H3. rewrite Ep in H3. destruct H3 as [Htx Hnum].
    assert (Hom : omap id (replicate (Z.to_nat n) (@None nat)) = []) by (by induction (Z.to_nat n)).
    assert (Hown : owned (set_ConnPool p (Some (replicate (Z.to_nat n) None))) = []) by (by erewrite owned_Some).
    assert (Hown0 : owned p = []) by (unfold owned; by rewrite Ep).
    split; [simpl; lia|]. do 3 (split; [done|]). split; [done..| |done| |].
    - unfold pool_ok. cbn [ConnPool set_ConnPool]. rewrite Hom. split; [constructor|]. split; [|by left].
      intros i h [? _]%lookup_replicate. done.
    - by rewrite Hown, <-Hown0.
    - by rewrite Hown, <-Hown0. }
  split; [apply Hopening|]. intros _. apply keeps_then. eapply keeps_mono; [by apply keeps_dial_all|].
  intros w' p' _ (Hd' & Hp' & Htx' & Hnum' & [H1 H2 H3 H4 H5 H6]) _. apply keeps_then. unfold keeps, update_pool.
  unfold pool_ok in H3. rewrite Hp' in H3. destruct H3 as (Hnd & Hall & _).
  assert (Hs' : since w0 o0 w' (set_NumConns (set_Tx p' (replicate (Z.to_nat n) false)) n)); [|split; [done|]; intros _; eapply keeps_mono; [by apply keeps_InitializeVersion|];
    intros w'' p'' u Hp''; by rewrite (owned_Some p'' _ (eq_trans Hp'' Hp')), omap_dialled, length_seq].
  split; try done. unfold pool_ok. simpl. rewrite Hp'. split; [done|]. split.
  - intros i h Hi. destruct (Hall i h Hi) as (s & Hss & Hstx). exists s. split; [done|]. rewrite Htx' in Hstx. rewrite Hstx.
    apply dialled_lookup in Hi as [Hi _]. by rewrite lookup_replicate_2 by lia.
  - right. rewrite length_replicate, length_dialled. split; [lia|]. split; [lia|]. split; [lia|].
    intros i Hi. exists (w_dialled w + i). apply dialled_lookup. lia.
Qed.

(** ** Closing *)

Definition used (o : option session) : option session := o ≫= λ s, if in_use s then Some s else None.
Lemma used_Some o s : used o = Some s → o = Some s ∧ in_use s = true.
Proof. destruct o as [s'|]; simpl; [|done]. destruct (in_use s') eqn:E; [|done]. by intros [= <-]. Qed.
Lemma used_twice o : used (used o) = used o.
Proof. destruct o as [s|]; simpl; [|done]. destruct (in_use s) eqn:E; simpl; by rewrite ?E. Qed.

Lemma close_conns conns w h :
  w_sessions (foldl close_conn w conns) !! h =
    if bool_decide (h ∈ omap id conns) then used (w_sessions w !! h) else w_sessions w !! h.
Proof.
  revert w. induction conns as [|c conns IH]; intros w; [by rewrite bool_decide_false by apply not_elem_of_nil|].
  simpl foldl. rewrite IH. clear IH. destruct c as [h'|]; [|done]. change (omap id (Some h' :: conns)) with (h' :: omap id conns).
  assert (Hsame : w_sessions (close_conn w (Some h')) !! h =
    if decide (h = h') then used (w_sessions w !! h) else w_sessions w !! h).
  { unfold close_conn. destruct (w_sessions w !! h') as [s|] eqn:Es; [destruct (in_use s) eqn:Hu|]; simpl;
      (destruct (decide (h = h')) as [->|Hne]; [rewrite ?lookup_delete_eq, ?Es|by rewrite ?lookup_delete_ne by done]); simpl; by rewrite ?Hu. }
  rewrite Hsame. clear Hsame. destruct (decide (h = h')) as [->|Hne].
  - rewrite (bool_decide_true (h' ∈ h' :: _)) by by left. case_bool_decide; [apply used_twice|done].
  - rewrite (bool_decide_ext (h ∈ h' :: omap id conns) (h ∈ omap id conns)); [done|]. rewrite elem_of_cons. naive_solver.
Qed.

Lemma close_conns_dialled conns w : w_dialled (foldl close_conn w conns) = w_dialled w.
Proof.
  revert w. induction conns as [|c conns IH]; intros w; [done|]. simpl. rewrite IH. unfold close_conn.
  destruct c; [|done]. destruct (w_sessions w !! _); [|done]. by destruct (in_use _).
Qed.

Lemma since_Close w p : since w0 o0 w p → since w0 o0 (Close w p).1 (Close w p).2 ∧ ConnPool (Close w p).2 = None.
Proof.
  intros Hs. unfold Close. destruct (ConnPool p) as [conns|] eqn:Ep; [|done]. split; [|done].
  destruct Hs as [H1 H2 H3 H4 H5 H6]. assert (Hown : owned p = omap id conns) by (unfold owned; by rewrite Ep). rewrite Hown in *.
  split; simpl; rewrite ?close_conns_dialled; try done.
  - intros h s. rewrite close_conns. case_bool_decide; [|apply H2]. intros [Hin _]%used_Some. by apply (H2 h s).
  - intros h Hh Ho. rewrite close_conns, bool_decide_false; [by apply H4|]. intros Hin. destruct (H5 _ Hin); [lia|done].
  - intros h Hh. by apply not_elem_of_nil in Hh.
  - intros h s Hh. rewrite close_conns. case_bool_decide as Hin; [intros [_ Hu]%used_Some; by right|]. intros Hs.
    destruct (H6 h s Hh Hs); [done|by right].
Qed.
End opening.

Lemma then_Ok {A B} {m : method A} {k : A → method B} {w p w' p' a} : m w p = Some (w', p', Ok a) → then_ m k w p = k a w' p'.
Proof. unfold then_. by intros ->. Qed.

(** * Sequences of calls *)

Inductive pool_call :=
  | CExec (query : string) (whichConn : list Z) | CGet (query : string) (whichConn : list Z)
  | CSelect (query : string) (whichConn : list Z) | CQuery (query : string) (whichConn : list Z)
  | CSelectStringSlice (query : string) (whichConn : list Z) | CSelectString (query : string) (whichConn : list Z)
  | CGetWithArgs (query : string) (args : list string) | CSelectWithArgs (query : string) (args : list string)
  | CQueryWithArgs (query : string) (args : list string)
  | CBegin (whichConn : list Z) | CCommit (whichConn : list Z) | CRollback (whichConn : list Z)
  | CConnect (numConns : Z) | CClose.

Section sequences.
Context `{Driver}.

Definition state_after {A} (m : method A) (w : world) (p : Pool) : option (world * Pool) := m w p ≫= λ r, Some r.1.
Definition run_call (c : pool_call) (w : world) (p : Pool) : option (world * Pool) :=
  match c with
  | CExec q n => state_after (Exec q n) w p
  | CGet q n => state_after (Get q n) w p
  | CSelect q n => state_after (SelectAll q n) w p
  | CQuery q n => state_after (Query q n) w p
  | CSelectStringSlice q n => state_after (SelectStringSlice q n) w p
  | CSelectString q n => state_after (SelectString q n) w p
  | CGetWithArgs q args => state_after (GetWithArgs q args) w p
  | CSelectWithArgs q args => state_after (SelectWithArgs q args) w p
  | CQueryWithArgs q args => state_after (QueryWithArgs q args) w p
  | CBegin n => state_after (Begin n) w p
  | CCommit n => state_after (Commit n) w p
  | CRollback n => state_after (Rollback n) w p
  | CConnect n => state_after (Connect n) w p
  | CClose => Some (Close w p)
  end.
(** Whatever each call returns, the caller goes on with the next. *)
Fixpoint run_calls (l : list pool_call) (w : world) (p : Pool) : option (world * Pool) :=
  match l with
  | [] => Some (w, p)
  | c :: l => match run_call c w p with Some (w, p) => run_calls l w p | None => None end
  end.

Lemma keeps_after w0 o0 {A} (m : method A) w p w' p' Q : keeps w0 o0 m w p Q → state_after m w p = Some (w', p') → since w0 o0 w' p'.
Proof. unfold keeps, state_after. destruct (m w p) as [[[w1 p1] r]|]; simpl; [|done]. intros [Hs _] [= <- <-]. done. Qed.

Lemma since_call w0 o0 c w p w' p' : since w0 o0 w p → run_call c w p = Some (w', p') → since w0 o0 w' p'.
Proof.
  intros Hs. destruct c; simpl run_call; try (eapply (keeps_after _ _ _ _ _ _ _ (λ _ _ _, True))).
  - by apply keeps_Exec.
  - apply keeps_then, keeps_ValidateConnNum; [done|]. intros n _. by apply keeps_on_conn.
  - apply keeps_then, keeps_ValidateConnNum; [done|]. intros n _. by apply keeps_on_conn.
  - apply keeps_then, keeps_ValidateConnNum; [done|]. intros n _. eapply keeps_mono; [by apply keeps_query_rows|done].
  - by apply keeps_SelectStringSlice.
  - apply keeps_then. eapply keeps_mono; [by apply keeps_SelectStringSlice|]. intros. by apply keeps_done.
  - by apply keeps_on_conn.
  - by apply keeps_on_conn.
  - eapply keeps_mono; [by apply keeps_query_rows|done].
  - by apply keeps_Begin.
  - by apply keeps_end_tx.
  - by apply keeps_end_tx.
  - eapply keeps_mono; [by apply keeps_Connect|done].
  - intros [= Hclose]. pose proof (since_Close w0 o0 w p Hs) as [Hc _]. by rewrite Hclose in Hc.
Qed.

Lemma since_calls w0 o0 l w p w' p' : since w0 o0 w p → run_calls l w p = Some (w', p') → since w0 o0 w' p'.
Proof.
  revert w p. induction l as [|c l IH]; intros w p Hs; simpl; [by intros [= <- <-]|].
  destruct (run_call c w p) as [[w1 p1]|] eqn:Hc; [|done]. apply IH. by eapply since_call.
Qed.

Definition world_ok (w : world) : Prop := ∀ h s, w_sessions w !! h = Some s → h < w_dialled w.
Lemma since_refl w p : world_ok w → pool_ok w p → since w (owned p) w p.
Proof.
  intros Hw Hp. split; try done; [by right|]. intros h s [Hh|Hh] Hs; [apply Hw in Hs; lia|by left].
Qed.
Lemma since_new dbname username host port p w : world_ok w → NewDBConn dbname username host port = Ok p → since w [] w p.
Proof.
  intros Hw. unfold NewDBConn. repeat case_bool_decide; try done. intros [= <-].
  match goal with |- since w [] w ?p => by apply (since_refl w p) end.
Qed.

(** C28: Whatever calls are made on a pool, in whatever order and whatever they
    answer, among them failed attempts to connect and calls on a closed pool:
    its state stays consistent (each slot says whether the session has a
    transaction, sessions are not shared), the sessions of other pools are not
    touched, and closing the pool ends every session it opened, but for those
    left in a transaction or with unread rows. *)
Theorem closed_pool_leaves_nothing_idle dbname username host port p calls w w' p' :
  world_ok w → NewDBConn dbname username host port = Ok p → run_calls calls w p = Some (w', p') →
  pool_ok w' p' ∧
  let w'' := (Close w' p').1 in
  (∀ h, h < w_dialled w → w_sessions w'' !! h = w_sessions w !! h) ∧
  (∀ h s, w_dialled w ≤ h → w_sessions w'' !! h = Some s → in_use s = true).
Proof.
  intros Hw Hp Hrun. assert (Hs : since w [] w' p') by (eapply since_calls; [by eapply since_new|done]).
  split; [apply Hs|]. destruct (since_Close w [] w' p' Hs) as [[H1 H2 H3 H4 H5 H6] Hclosed]. split.
  { intros h Hh. apply H4; [done|apply not_elem_of_nil]. }
  intros h s Hh Hin. destruct (H6 h s (or_introl Hh) Hin) as [Hown|]; [|done]. apply elem_of_owned in Hown as (conns & i & Hc & _). congruence.
Qed.

(** ** A connection on which rows are left unread *)

Lemma SelectStringSlice_stuck query n w p h rows :
  (0 ≤ n < p_NumConns p)%Z → ConnPool p ≫= (λ conns, conns !! Z.to_nat n) = Some (Some h) → p_Tx p !! Z.to_nat n = Some false →
  w_sessions w !! h = Some idle →
  AnswerRows (w_sent w) {| on_session := h; in_tx := false; statement := query; arguments := [] |} = Ok rows → 1 < Columns rows →
  ∃ w', SelectStringSlice query [n] w p = Some (w', p, Err (Sprintf "Too many columns returned from query: got %d columns, expected 1 column" [Itoa (Z.of_nat (Columns rows))])) ∧
    ∀ q, Exec q [n] w' p = None ∧ Get q [n] w' p = None ∧ Begin [n] w' p = None.
Proof.
  intros Hn Hc Htx Hs Hrows Hcols. destruct (ConnPool p) as [conns|] eqn:Ep; [|done]. simpl in Hc.
  assert (Hvalid : ∀ w, ValidateConnNum [n] w p = Some (w, p, Ok (Z.to_nat n))).
  { intros w'. unfold ValidateConnNum. by rewrite (proj2 (Z.ltb_ge _ _)), (proj2 (Z.leb_gt _ _)) by lia. }
  assert (Htx_of : ∀ w, tx_of (Z.to_nat n) w p = Some (w, p, Ok false)).
  { intros w'. unfold tx_of. by rewrite (proj2 (index_Ok _ _ _) Htx). }
  assert (Hsession : ∀ w, session_of (Z.to_nat n) w p = Some (w, p, Ok h)).
  { intros w'. unfold session_of. rewrite Ep. simpl. by rewrite (proj2 (index_Ok _ _ _) Hc). }
  assert (Hvalid' : ∀ w, ValidateConnNum [Z.of_nat (Z.to_nat n)] w p = Some (w, p, Ok (Z.to_nat n))) by (by rewrite Z2Nat.id by lia).
  assert (Hwait : ∀ {B} (answer : list sent → sent → go B) q w, w_sessions w !! h = Some {| s_tx := false; s_rows := true |} →
    request answer h false q [] w p = None) by (intros B answer q w' Hw'; unfold request, waits; by rewrite Hw').
  assert (Hon : ∀ {B} (answer : list sent → sent → go B) q w, on_conn answer q [] (Z.to_nat n) w p = request answer h false q [] w p).
  { intros B answer q w'. unfold on_conn. by rewrite (then_Ok (Htx_of w')), (then_Ok (Hsession w')). }
  set (w1 := {| w_dialled := w_dialled w; w_sessions := w_sessions w;
    w_sent := w_sent w ++ [{| on_session := h; in_tx := false; statement := query; arguments := [] |}] |}).
  assert (Hquery : Query query [Z.of_nat (Z.to_nat n)] w p = Some (set_session h {| s_tx := false; s_rows := true |} w1, p, Ok (h, rows))).
  { unfold Query. rewrite (then_Ok (Hvalid' w)). unfold query_rows.
    rewrite (then_Ok (w' := w1) (p' := p) (a := rows)), (then_Ok (Hsession w1)).
    - unfold then_, rows_opened. simpl. by rewrite Hs.
    - rewrite Hon. unfold request, waits. rewrite Hs. simpl. by rewrite Hrows. }
  unfold SelectStringSlice. rewrite (then_Ok (Hvalid w)), (then_Ok Hquery), bool_decide_true by done.
  eexists. split; [done|]. intros q. unfold Exec, Get, Begin.
  rewrite !(then_Ok (Hvalid _)), !Hon, (then_Ok (Htx_of _)). simpl. rewrite (then_Ok (Hsession _)). unfold then_.
  by rewrite !Hwait by apply lookup_insert_eq.
Qed.

(** ** Calls that leave the sessions of a pool as they are *)

Definition fixes {A} (m : method A) : Prop := ∀ w p w' p' r,
  m w p = Some (w', p', r) → ConnPool p' = ConnPool p ∧ p_NumConns p' = p_NumConns p ∧ w_dialled w' = w_dialled w.

Lemma fixes_then {A B} (m : method A) (k : A → method B) : fixes m → (∀ a, fixes (k a)) → fixes (then_ m k).
Proof.
  intros Hm Hk w p w' p' r. unfold then_. destruct (m w p) as [[[w1 p1] r1]|] eqn:E; [|done]. apply Hm in E as (H1 & H2 & H3).
  destruct r1; [intros (K1 & K2 & K3)%Hk; by rewrite K1, K2, K3|by intros [= <- <- _]..].
Qed.
Lemma fixes_done {A} (r : go A) : fixes (done r).
Proof. by intros w p w' p' r' [= <- <- _]. Qed.
Lemma fixes_request {B} (answer : list sent → sent → go B) h tx q args : fixes (request answer h tx q args).
Proof. intros w p w' p' r. unfold request. destruct (waits w h tx); [done|]. by intros [= <- <- _]. Qed.
Lemma fixes_ValidateConnNum n : fixes (ValidateConnNum n).
Proof. intros w p w' p' r. unfold ValidateConnNum. destruct n as [|? [|]]; by intros [= <- <- _]. Qed.
Lemma fixes_tx_of n : fixes (tx_of n).
Proof. by intros w p w' p' r [= <- <- _]. Qed.
Lemma fixes_session_of n : fixes (session_of n).
Proof. by intros w p w' p' r [= <- <- _]. Qed.
Lemma fixes_set_slot n b : fixes (set_slot n b).
Proof. by intros w p w' p' r [= <- <- _]. Qed.
Lemma fixes_set_use h s : fixes (set_use h s).
Proof. by intros w p w' p' r [= <- <- _]. Qed.
Lemma fixes_rows_opened h : fixes (rows_opened h).
Proof. intros w p w' p' r [= <- <- _]. by destruct (w_sessions w !! h). Qed.
Lemma fixes_rows_closed h : fixes (rows_closed h).
Proof. intros w p w' p' r [= <- <- _]. by destruct (w_sessions w !! h). Qed.
Create HintDb fixes.
#[local] Hint Resolve fixes_then fixes_done fixes_request fixes_ValidateConnNum fixes_tx_of fixes_session_of fixes_set_slot fixes_set_use
  fixes_rows_opened fixes_rows_closed : fixes.

Lemma fixes_scan_rows h scans retval : fixes (scan_rows h scans retval).
Proof. revert retval. induction scans; intros retval; simpl; auto with fixes. Qed.
Lemma fixes_SelectStringSlice q n : fixes (SelectStringSlice q n).
Proof.
  unfold SelectStringSlice, Query, query_rows, on_conn. apply fixes_then; [auto with fixes|]. intros c.
  apply fixes_then; [auto 10 with fixes|]. intros [h rows]. case_bool_decide; auto using fixes_scan_rows with fixes.
Qed.
Lemma fixes_end_tx what n : fixes (end_tx what n).
Proof.
  unfold end_tx. apply fixes_then; [auto with fixes|]. intros c. apply fixes_then; [auto with fixes|]. intros tx.
  destruct tx; simpl; [|auto with fixes]. apply fixes_then; [auto with fixes|]. intros h w p w' p' r.
  destruct (request AnswerExec h true what [] w p) as [[[w1 p1] r1]|] eqn:E; [|done]. apply fixes_request in E. by intros [= <- <- _].
Qed.

(** Neither [Connect] nor [Close]. *)
Definition plain_call (c : pool_call) : bool := match c with CConnect _ | CClose => false | _ => true end.
Lemma plain_call_fixes c w p w' p' : plain_call c = true → run_call c w p = Some (w', p') →
  ConnPool p' = ConnPool p ∧ p_NumConns p' = p_NumConns p ∧ w_dialled w' = w_dialled w.
Proof.
  assert (Hafter : ∀ {A} (m : method A), fixes m → state_after m w p = Some (w', p') →
    ConnPool p' = ConnPool p ∧ p_NumConns p' = p_NumConns p ∧ w_dialled w' = w_dialled w).
  { intros A m Hm. unfold state_after. destruct (m w p) as [[[w1 p1] r]|] eqn:E; [|done]. apply Hm in E. by intros [= <- <-]. }
  intros Hc. destruct c; simpl run_call; try discriminate Hc; apply Hafter;
    unfold Exec, Get, SelectAll, Query, SelectString, GetWithArgs, SelectWithArgs, QueryWithArgs, query_rows, on_conn, Commit, Rollback;
    auto 10 using fixes_SelectStringSlice, fixes_end_tx with fixes.
  unfold Begin, Exec, on_conn. apply fixes_then; [auto with fixes|]. intros c. apply fixes_then; [auto with fixes|]. intros [|]; auto 20 with fixes.
Qed.

(** A method made of such calls, for the users of a pool. *)
Record tame {A} (m : method A) : Prop := {
  tame_keeps : ∀ w0 o0 w p, since w0 o0 w p → keeps w0 o0 m w p (λ _ _ _, True);
  tame_fixes : fixes m
}.
Lemma tame_then {A B} (m : method A) (k : A → method B) : tame m → (∀ a, tame (k a)) → tame (then_ m k).
Proof.
  intros [Hm1 Hm2] Hk. split; [|apply fixes_then; [done|]; intros a; apply Hk]. intros w0 o0 w p Hs. apply keeps_then.
  eapply keeps_mono; [by apply Hm1|]. intros w' p' a _ Hs'. by apply Hk.
Qed.
Lemma tame_done {A} (r : go A) : tame (done r).
Proof. split; [|apply fixes_done]. intros w0 o0 w p Hs. by apply keeps_done. Qed.
(** A method that only changes the result of another. *)
Lemma tame_result {A B} (f : go A → go B) (m : method A) (m' : method B) :
  tame m → (∀ w p, m' w p = match m w p with Some (w, p, r) => Some (w, p, f r) | None => None end) → tame m'.
Proof.
  intros [Hm1 Hm2] Heq. split.
  - intros w0 o0 w p Hs. specialize (Hm1 w0 o0 w p Hs). unfold keeps in *. rewrite Heq. destruct (m w p) as [[[w' p'] r]|]; [|done].
    destruct Hm1 as [Hs' _]. split; [done|]. by destruct (f r).
  - intros w p w' p' r. rewrite Heq. destruct (m w p) as [[[w1 p1] r1]|] eqn:E; [|done]. intros [= <- <- _]. by apply Hm2 in E.
Qed.
Lemma tame_Must {A} (m : method A) : tame m → tame (Must m).
Proof. intros Hm. by apply (tame_result FatalOnError m). Qed.
Lemma tame_Exec q n : tame (Exec q n).
Proof. split; [intros; by apply keeps_Exec|]. unfold Exec, on_conn. auto 10 with fixes. Qed.
Lemma tame_ask {B} (answer : list sent → sent → go B) q args n : tame (mlet c := ValidateConnNum n in on_conn answer q args c).
Proof.
  split; [|unfold on_conn; auto 10 with fixes]. intros w0 o0 w p Hs. apply keeps_then, keeps_ValidateConnNum; [done|].
  intros c _. by apply keeps_on_conn.
Qed.
Lemma tame_Get q n : tame (Get q n).
Proof. apply tame_ask. Qed.
Lemma tame_SelectAll q n : tame (SelectAll q n).
Proof. apply tame_ask. Qed.

(** ** An open pool *)

(** The pool [DbConn] starts from. *)
Definition slots (p : Pool) : DbConn.DBConn := {| NumConns := Z.to_nat (p_NumConns p); Tx := p_Tx p; log := [] |}.

Lemma dial_all_succeeds d n i w p : w_dialled w = d + i → ConnPool p = Some (dialled_pool d i n) → (∀ k, i ≤ k < i + n → Dial (d + k) (connStr p) = None) →
  ∃ w', dial_all i n w p = Some (w', set_ConnPool p (Some (dialled_pool d (i + n) 0)), Ok ()) ∧ w_dialled w' = d + (i + n) ∧ w_sent w' = w_sent w ∧
    (∀ k, i ≤ k < i + n → w_sessions w' !! (d + k) = Some idle) ∧ (∀ h, h < d + i → w_sessions w' !! h = w_sessions w !! h).
Proof.
  revert i w p. induction n as [|n IH]; intros i w p Hd Hp Hdial; simpl.
  { exists w. rewrite Nat.add_0_r. split; [|split; [lia|split; [done|split; [lia|done]]]]. unfold done. do 3 f_equal. destruct p; simpl in *. by rewrite Hp. }
  unfold then_ at 1, dial. rewrite Hd, Hdial, Hp by lia. cbn [fmap option_fmap option_map]. rewrite dialled_next.
  destruct (IH (S i) {| w_dialled := S (d + i); w_sessions := <[d + i := idle]> (w_sessions w); w_sent := w_sent w |}
    (set_ConnPool p (Some (dialled_pool d (S i) n)))) as (w' & Hrun & Hd' & Hsent & Hnew & Hold); simpl in *; [lia|done|intros k Hk; apply Hdial; lia|].
  exists w'. rewrite Hrun, Nat.add_succ_r. split; [done|]. split; [lia|]. split; [done|]. split.
  - intros k Hk. destruct (decide (k = i)) as [->|]; [|apply Hnew; lia]. rewrite Hold, lookup_insert_eq by lia. done.
  - intros h Hh. rewrite Hold, lookup_insert_ne by lia. done.
Qed.

(** A closed pool that reaches the server is opened with one idle session for
    each connection and no transaction, and knows the server's version; this is
    the kind of pool [DbConn] is about. *)
Theorem Connect_opens n v w p : (1 ≤ n)%Z → ConnPool p = None →
  (∀ k, k < Z.to_nat n → Dial (w_dialled w + k) (connStr p) = None) →
  AnswerGet (w_sent w) {| on_session := w_dialled w; in_tx := false; statement := "SELECT version() AS versionstring"; arguments := [] |} = Ok v →
  ∃ w' p', Connect n w p = Some (w', p', Ok ()) ∧ owned p' = seq (w_dialled w) (Z.to_nat n) ∧
    slots p' = {| NumConns := Z.to_nat n; Tx := replicate (Z.to_nat n) false; log := [] |} ∧ DbConn.wf (slots p') ∧
    p_Version p' = ParseVersionInfo version0 v ∧
    (∀ k, k < Z.to_nat n → w_sessions w' !! (w_dialled w + k) = Some idle) ∧
    (∀ h, h < w_dialled w → w_sessions w' !! h = w_sessions w !! h).
Proof.
  intros Hn Hp Hdial Hv. unfold Connect. rewrite (proj2 (Z.ltb_ge _ _)) by lia. rewrite Hp, bool_decide_false by (intros Hne; by apply Hne).
  unfold then_ at 1, update_pool at 1.
  destruct (dial_all_succeeds (w_dialled w) (Z.to_nat n) 0 w (set_ConnPool p (Some (replicate (Z.to_nat n) None))))
    as (w' & Hrun & Hd' & Hsent & Hnew & Hold); [lia|done|intros k Hk; apply Hdial; lia|].
  unfold then_ at 1. rewrite Hrun. unfold then_, update_pool.
  unfold InitializeVersion, Get, on_conn, then_, ValidateConnNum, tx_of, session_of. simpl.
  destruct (Z.to_nat n) as [|m] eqn:Em; [lia|]. unfold index at 1. simpl.
  change (index (id (dialled_pool (w_dialled w) (S m) 0)) 0) with (Ok (A := option nat) (Some (w_dialled w))). simpl.
  unfold request, waits. simpl. rewrite <-(Nat.add_0_r (w_dialled w)), Hnew by lia. simpl. rewrite Hsent, !Nat.add_0_r, Hv.
  eexists _, _. split; [done|]. split; [erewrite owned_Some by done; by rewrite omap_dialled|].
  unfold slots, DbConn.wf. simpl. rewrite Em, length_replicate. split; [done|]. split; [done|]. split; [done|].
  split; [|intros h Hh; apply Hold; lia]. intros k Hk. apply Hnew. lia.
Qed.
End sequences.

(** ** At concrete servers *)

#[local] Instance sample_driver : Driver := {|
  Dial i conn := if bool_decide (i < 5) then None else Some "connection refused";
  AnswerExec _ _ := Ok 1%Z;
  AnswerGet _ _ := Ok "PostgreSQL 9.4.26 (Greenplum Database 6.20.0 build 9999) on x86_64";
  AnswerSelect _ _ := Ok [];
  AnswerRows _ _ := Ok {| Columns := 2; row_scans := []; Rows_Err := None |}
|}.
Definition no_sessions : world := {| w_dialled := 0; w_sessions := ∅; w_sent := [] |}.
Definition sample_pool : go Pool := NewDBConn "db" "gpadmin" "host" 5432.
Definition sample_calls : list pool_call :=
  [CExec "SELECT 1" []; CConnect 3; CBegin [1%Z]; CSelectStringSlice "SELECT 1, 2" [2%Z]; CConnect 1; CCommit [0%Z]; CClose; CConnect 4; CExec "SELECT 1" []].

Lemma closed_pool_leaves_nothing_idle_witness :
  match sample_pool with
  | Ok p => match run_calls sample_calls no_sessions p with
            | Some (w, p') => pool_ok w p' ∧ map_to_list (w_sessions (Close w p').1) = [(2, {| s_tx := false; s_rows := true |}); (1, {| s_tx := true; s_rows := false |})]
            | None => False
            end
  | _ => False
  end.
Proof.
  destruct sample_pool as [p| | |] eqn:Hp; [|discriminate Hp..].
  destruct (run_calls sample_calls no_sessions p) as [[w p']|] eqn:Hrun; [|injection Hp as <-; vm_compute in Hrun; discriminate Hrun].
  split.
  - refine (proj1 (closed_pool_leaves_nothing_idle "db" "gpadmin" "host" 5432 p sample_calls no_sessions w p' _ Hp Hrun)).
    intros h s Hs. discriminate Hs.
  - injection Hp as <-. vm_compute in Hrun. injection Hrun as <- <-. vm_compute. reflexivity.
Defined.
