(* ===== verification/CopyQueries.v ===== *)
(** The queries of the copy itself and the statements it prepares the clusters
    with ([copy/copy_query.go], [copy/copy_port_helper.go], [utils/wrappers.go]).

    A text is built here; the rows it is answered with, typed by what they are
    scanned into, are the answers of [Selects], and the statements are sent
    through the calls of [Connections]. *)
From S2P Require Import Prelude Options QueryWrapper Utils Version Queries CopyCommand Connections.

Section texts.
Context `{SemverLib} (version : GPDBVersion).

(** * Tables *)

Definition user_tables_at_least_7 : string := "
		SELECT
			quote_ident(n.nspname) AS schema,
			quote_ident(c.relname) as name,
			0 as partition,
			cast(c.reltuples as bigint) AS relTuples,
			CASE WHEN p.policytype = 'r' THEN true ELSE false END as isReplicated
		FROM
			pg_class c
			JOIN pg_namespace n ON (c.relnamespace=n.oid)
			JOIN pg_catalog.gp_distribution_policy p ON (c.oid = p.localoid)
		WHERE
		    c.oid NOT IN (select partrelid from pg_partitioned_table)
			AND n.nspname NOT IN ('gpexpand', 'pg_bitmapindex', 'information_schema', 'gp_toolkit', 'pg_ext_aux')
			AND n.nspname NOT LIKE 'pg_temp_%'
			AND c.relkind <> 'm'
		ORDER BY c.relpages DESC
		".
Definition user_tables_6 : string := "
		SELECT t.* FROM (
		SELECT
			quote_ident(n.nspname) AS schema,
			quote_ident(c.relname) as name,
			0 as partition,
			cast(c.reltuples as bigint) AS relTuples,
			CASE WHEN p.policytype = 'r' THEN true ELSE false END as isReplicated
		FROM
			pg_class c
			JOIN pg_namespace n ON (c.relnamespace=n.oid)
			JOIN pg_catalog.gp_distribution_policy p ON (c.oid = p.localoid)
		WHERE
			c.oid NOT IN ( SELECT parchildrelid as oid FROM pg_partition_rule )
			AND c.oid NOT IN ( SELECT parrelid as oid FROM pg_partition )
			AND n.nspname NOT IN ('gpexpand', 'pg_bitmapindex', 'information_schema', 'gp_toolkit')
			AND n.nspname NOT LIKE 'pg_temp_%' AND c.relstorage NOT IN ('v', 'x', 'f')
			AND c.relkind <> 'm'
		ORDER BY c.relpages DESC ) t
		UNION ALL
		SELECT
			quote_ident(n.nspname) AS schema,
			quote_ident(cparent.relname) AS name,
			0 as partition,
			cast(cparent.reltuples as bigint) AS relTuples,
			false as isReplicated
		FROM pg_partition p
			JOIN pg_partition_rule r ON p.oid = r.paroid
			JOIN pg_class cparent ON cparent.oid = r.parchildrelid
			JOIN pg_namespace n ON cparent.relnamespace=n.oid
			JOIN (SELECT parrelid AS relid, max(parlevel) AS pl
				FROM pg_partition GROUP BY parrelid) AS levels ON p.parrelid = levels.relid
		WHERE
			r.parchildrelid != 0
			AND p.parlevel = levels.pl
			AND n.nspname NOT IN ('gpexpand', 'pg_bitmapindex', 'information_schema', 'gp_toolkit')
			AND n.nspname NOT LIKE 'pg_temp_%' AND cparent.relstorage NOT IN ('v', 'x', 'f')".
Definition user_tables_before_6 : string := "
		SELECT t.* FROM (
		SELECT
			quote_ident(n.nspname) AS schema,
			quote_ident(c.relname) as name,
			0 as partition,
			cast(c.reltuples as bigint) AS relTuples,
			false as isReplicated
		FROM
			pg_class c
			JOIN pg_namespace n ON (c.relnamespace=n.oid)
		WHERE
			c.oid NOT IN ( SELECT parchildrelid as oid FROM pg_partition_rule )
			AND c.oid NOT IN ( SELECT parrelid as oid FROM pg_partition )
			AND n.nspname NOT IN ('gpexpand', 'pg_bitmapindex', 'information_schema', 'gp_toolkit')
			AND n.nspname NOT LIKE 'pg_temp_%' AND c.relstorage NOT IN ('v', 'x', 'f')
			AND c.relkind <> 'm'
		ORDER BY c.relpages DESC ) t
		UNION ALL
		SELECT
			quote_ident(n.nspname) AS schema,
			quote_ident(cparent.relname) AS name,
			0 as partition,
			cast(cparent.reltuples as bigint) AS relTuples,
			false as isReplicated
		FROM pg_partition p
			JOIN pg_partition_rule r ON p.oid = r.paroid
			JOIN pg_class cparent ON cparent.oid = r.parchildrelid
			JOIN pg_namespace n ON cparent.relnamespace=n.oid
			JOIN (SELECT parrelid AS relid, max(parlevel) AS pl
				FROM pg_partition GROUP BY parrelid) AS levels ON p.parrelid = levels.relid
		WHERE
			r.parchildrelid != 0
			AND p.parlevel = levels.pl
			AND n.nspname NOT IN ('gpexpand', 'pg_bitmapindex', 'information_schema', 'gp_toolkit')
			AND n.nspname NOT LIKE 'pg_temp_%' AND cparent.relstorage NOT IN ('v', 'x', 'f')".
Definition user_tables_query : go string :=
  let! seven := gpdb_or_family version "7" in
  if (seven : bool) then Ok user_tables_at_least_7
  else
    let! six := andg (IsGPDB version) (AtLeast version "6") in
    Ok (if (six : bool) then user_tables_6 else user_tables_before_6).

Definition leaf_tables_at_least_7 : string := "
		SELECT quote_ident(n.nspname) || '.' || quote_ident(relname) AS rootname,   
 	 	quote_ident(n.nspname) || '.' || 
 	 	(SELECT quote_ident(relname) FROM pg_class WHERE oid = inhrelid ) 
 	 	AS 	leafname, cast(reltuples as bigint) AS relTuples
		FROM pg_class c
		JOIN pg_inherits p
		  ON c.oid = p.inhparent
		      AND 
		  (SELECT relispartition
		  FROM pg_class pc
		  WHERE oid = inhrelid )
		JOIN pg_namespace n ON c.relnamespace=n.oid 
		  AND n.nspname NOT IN ('gpexpand', 'pg_bitmapindex', 'information_schema', 'gp_toolkit', 'pg_ext_aux')
		  AND n.nspname NOT LIKE 'pg_temp_%%'
		ORDER BY n.nspname, leafname;".
Definition leaf_tables_before_7 : string := "
		SELECT quote_ident(na.nspname) || '.' || quote_ident(cb.relname) AS rootname, quote_ident(pc.schema) ||'.' || quote_ident(pc.name) AS leafname, pc.relTuples
		FROM pg_namespace na
		JOIN pg_class cb ON na.oid = cb.relnamespace
		JOIN (SELECT
		           p.parrelid AS parentid, n.nspname AS schema, cparent.relname AS name, cast(cparent.reltuples as bigint) AS relTuples
		          FROM pg_partition p
		              JOIN pg_partition_rule r ON p.oid = r.paroid
		              JOIN pg_class cparent ON cparent.oid = r.parchildrelid
		              JOIN pg_namespace n ON cparent.relnamespace=n.oid
		              JOIN (SELECT parrelid AS relid, max(parlevel) AS pl
		                  FROM pg_partition GROUP BY parrelid) AS levels ON p.parrelid = levels.relid
		          WHERE
		              r.parchildrelid != 0
		              AND p.parlevel = levels.pl
		              AND n.nspname NOT IN ('gpexpand', 'pg_bitmapindex', 'information_schema', 'gp_toolkit')
		              AND n.nspname NOT LIKE 'pg_temp_%%' AND cparent.relstorage NOT IN ('v', 'x', 'f')) AS pc ON cb.oid = pc.parentid
		ORDER BY pc.schema, pc.name".
Definition leaf_tables_query : go string :=
  let! seven := gpdb_or_family version "7" in
  Ok (if (seven : bool) then leaf_tables_at_least_7 else leaf_tables_before_7).

Definition non_physical_query : string := "
	SELECT quote_ident(n.nspname) AS schema, quote_ident(c.relname) as name
	FROM pg_class c JOIN pg_namespace n ON c.relnamespace = n.oid
	WHERE n.nspname NOT IN ('gpexpand', 'pg_bitmapindex', 'information_schema', 'gp_toolkit', 'pg_catalog', 'pg_aoseg', 'pg_ext_aux')
		AND n.nspname NOT LIKE 'pg_temp_%'
		AND c.relkind IN ('f','S','m','v')".
Definition databases_query : string := "SELECT d.datname FROM pg_database d".
Definition schema_count_query (schema : string) : string := Sprintf "
	SELECT count(*) AS count
	FROM pg_namespace
	WHERE nspname='%v'" [schema].
Definition is_empty_query (schema table : string) : string := Sprintf "select 1 from %v.%v limit 1" [schema; table].

(** The rows the query wrapper works on are the answers to these texts. *)
Definition catalogue_of `{Selects string_row} `{Selects Table} `{Selects PartLeafTable} (count : string → go Z) (dbname : string) : QueryWrapper.DBConn := {|
  QueryWrapper.DBName := dbname;
  rows_databases := let! rows := Select (A := string_row) databases_query in Ok (map sr_string rows);
  rows_user_tables := let! q := user_tables_query in Select (A := Table) q;
  rows_leaf_tables := let! q := leaf_tables_query in Select (A := PartLeafTable) q;
  rows_non_physical := Select (A := Table) non_physical_query;
  rows_schema_count := λ schema, count (schema_count_query schema)
|}.
End texts.

(** * Statements *)

Section statements.
Context `{Driver}.

Definition IsEmptyTable (schema table : string) (workerId : Z) : method bool :=
  mlet results := SelectAll (is_empty_query schema table) [workerId] in
  done (Ok (bool_decide (length results = 0))).

(** [fmt.Errorf] around the error of a call. *)
Definition wrap_error {A} (f : string → string) (m : method A) : method A := λ w p,
  match m w p with Some (w, p, Err e) => Some (w, p, Err (f e)) | r => r end.

Definition GetAllDatabases_ : method (list string) :=
  wrap_error (λ e, Sprintf "query failed: %s, error: %v" [databases_query; e]) (SelectAll databases_query []).
Definition create_database (dbname : string) : string := Sprintf (cat ["CREATE DATABASE "; chr DQ; "%v"; chr DQ]) [dbname].
Definition CreateDatabaseIfNotExists (dbname : string) : method () :=
  mlet dbnames := GetAllDatabases_ in
  if slice_Exists dbnames dbname then done (Ok ())
  else
    mlet _ := wrap_error (λ e, Sprintf "failed to create database %s: %v" [dbname; e]) (Exec (create_database dbname) []) in
    done (Ok ()).

(** A statement whose object may be there already. *)
Definition unless_exists (what query : string) : method () := λ w p,
  match Exec query [] w p with
  | Some (w, p, Err e) => Some (w, p, if Contains e "already exists" then Ok () else Err (Sprintf "failed to create %s: %v" [what; e]))
  | Some (w, p, r) => Some (w, p, let! _ := r in Ok ())
  | None => None
  end.
Definition CreateTestTable (tableName : string) : method () :=
  unless_exists "test table" (Sprintf "CREATE TABLE %v (a int)" [tableName]).

(** ** The tables of the helpers' ports *)

Definition create_port_table_onmaster (timestamp : string) : string := Sprintf "
		CREATE EXTERNAL WEB TABLE public.cbcopy_ports_temp_onmaster_%v 
		(cmdID text, segID int, port int) 
		EXECUTE 'cat /tmp/cbcopy-*.txt 2>/dev/null || true' 
		ON MASTER FORMAT 'TEXT'" [timestamp].
Definition create_port_table_onall (timestamp : string) : string := Sprintf "
		CREATE EXTERNAL WEB TABLE public.cbcopy_ports_temp_onall_%v 
		(cmdID text, segID int, port int) 
		EXECUTE 'cat /tmp/cbcopy-*.txt 2>/dev/null || true' 
		ON ALL FORMAT 'TEXT'" [timestamp].
Definition CreateHelperPortTable (timestamp : string) : method () :=
  mlet _ := unless_exists "master port table" (create_port_table_onmaster timestamp) in
  unless_exists "segment port table" (create_port_table_onall timestamp).
Definition port_list_query (timestamp cmdId : string) (isMasterCopy : bool) : string :=
  Sprintf "
	SELECT segID AS content, port AS port
	FROM public.cbcopy_ports_temp_%v_%v
	WHERE cmdID = '%v'" [if isMasterCopy then "onmaster" else "onall"; timestamp; cmdId].
Definition GetHelperPorts `{Selects HelperPortInfo} (timestamp cmdId : string) (isMasterCopy : bool) : go (list HelperPortInfo) :=
  CopyCommand.GetHelperPortList (Select (A := HelperPortInfo) (port_list_query timestamp cmdId isMasterCopy)).

(** ** The hosts of the segments *)

Definition segments_host_query : string := "
		SELECT content, hostname
		FROM gp_segment_configuration
		WHERE role = 'p'
		AND content >= 0
		ORDER BY content
		".
Definition resolve_statement (timestamp : string) (segId : Z) (segHost : string) : string :=
  Sprintf "
	CREATE EXTERNAL WEB TEMP TABLE cbcopy_hosts_temp_%v_%v(id int, content text)
	EXECUTE 'cbcopy_helper --seg-id %v --resolve %v' ON MASTER FORMAT 'TEXT'" [timestamp; Itoa segId; Itoa segId; segHost].
Definition resolved_query (timestamp : string) (segId : Z) : string :=
  Sprintf "
	SELECT id As content, content AS hostname
	FROM cbcopy_hosts_temp_%v_%v" [timestamp; Itoa segId].

Context `{Selects SegmentHostInfo}.
Definition GetSegmentsHost : method (list SegmentHostInfo) := done (select_rows segments_host_query).
Definition getSegmentIpAddress (timestamp : string) (segId : Z) (segHost : string) : method string :=
  mlet _ := Must (Exec (resolve_statement timestamp segId segHost) []) in
  mlet results := done (select_rows (A := SegmentHostInfo) (resolved_query timestamp segId)) in
  done (match results with
        | [] => Fatal (cat ["Unable to resolve segment hostname "; chr DQ; segHost; chr DQ; " to IP address on coordinator. Please verify that the hostname field in gp_segment_configuration table contains valid hostnames that can be resolved to IP addresses on the coordinator"])
        | r :: _ => Ok (CopyCommand.Hostname r)
        end).
Fixpoint resolve_hosts (timestamp : string) (hosts : list SegmentHostInfo) : method (list SegmentHostInfo) :=
  match hosts with
  | [] => done (Ok [])
  | host :: hosts' =>
      mlet segIp := getSegmentIpAddress timestamp (seg_Content host) (CopyCommand.Hostname host) in
      mlet results := resolve_hosts timestamp hosts' in
      done (Ok ({| seg_Content := seg_Content host; CopyCommand.Hostname := segIp |} :: results))
  end.
Definition GetSegmentsIpAddress (timestamp : string) : method (list SegmentHostInfo) :=
  mlet hosts := GetSegmentsHost in resolve_hosts timestamp hosts.

(** * Lemmas *)

Create HintDb tame.
#[local] Hint Resolve tame_then tame_done tame_Must tame_Exec tame_SelectAll : tame.

Lemma tame_wrap_error {A} f (m : method A) : tame m → tame (wrap_error f m).
Proof.
  intros Hm. apply (tame_result (λ r, match r with Err e => Err (f e) | _ => r end) m); [done|]. intros w p. unfold wrap_error.
  destruct (m w p) as [[[w' p'] [| | |]]|]; done.
Qed.
#[local] Hint Resolve tame_wrap_error : tame.
Lemma tame_CreateDatabaseIfNotExists dbname : tame (CreateDatabaseIfNotExists dbname).
Proof. unfold CreateDatabaseIfNotExists, GetAllDatabases_. apply tame_then; [auto with tame|]. intros dbs. destruct (slice_Exists dbs dbname); auto with tame. Qed.
Lemma tame_unless_exists what q : tame (unless_exists what q).
Proof.
  apply (tame_result (λ r, match r with
    | Err e => if Contains e "already exists" then Ok () else Err (Sprintf "failed to create %s: %v" [what; e])
    | r => let! _ := r in Ok () end) (Exec q [])); [apply tame_Exec|].
  intros w p. unfold unless_exists. destruct (Exec q [] w p) as [[[w' p'] [| | |]]|]; done.
Qed.
#[local] Hint Resolve tame_unless_exists : tame.
Lemma tame_CreateHelperPortTable timestamp : tame (CreateHelperPortTable timestamp).
Proof. unfold CreateHelperPortTable. auto with tame. Qed.
Lemma tame_GetSegmentsIpAddress timestamp : tame (GetSegmentsIpAddress timestamp).
Proof.
  unfold GetSegmentsIpAddress, GetSegmentsHost. apply tame_then; [apply tame_done|]. intros hosts.
  induction hosts as [|host hosts IH]; simpl; [apply tame_done|]. unfold getSegmentIpAddress. auto 10 with tame.
Qed.

(** The addresses are those of the segments listed, in their order. *)
Lemma resolve_hosts_contents timestamp hosts w p w' p' results :
  resolve_hosts timestamp hosts w p = Some (w', p', Ok results) → seg_Content <$> results = seg_Content <$> hosts.
Proof.
  revert w p w' p' results. induction hosts as [|host hosts IH]; intros w p w' p' results; simpl; [by intros [= _ _ <-]|].
  unfold then_ at 1. destruct (getSegmentIpAddress _ _ _ w p) as [[[w1 p1] [ip|e|e|e]]|]; try done.
  unfold then_. destruct (resolve_hosts timestamp hosts w1 p1) as [[[w2 p2] [rs|e|e|e]]|] eqn:E; try done.
  intros [= _ _ <-]. simpl. f_equal. by eapply IH.
Qed.

(** A database is created exactly when the server does not list it. *)
Lemma CreateDatabaseIfNotExists_sends dbname dbnames w p w1 p1 :
  SelectAll databases_query [] w p = Some (w1, p1, Ok dbnames) →
  match CreateDatabaseIfNotExists dbname w p with
  | Some (w', p', r) =>
      if slice_Exists dbnames dbname then w' = w1 ∧ r = Ok ()
      else ∃ r', Exec (create_database dbname) [] w1 p1 = Some (w', p', r') ∧ (is_ok r = true ↔ is_ok r' = true)
  | None => slice_Exists dbnames dbname = false ∧ Exec (create_database dbname) [] w1 p1 = None
  end.
Proof.
  intros Hdbs. unfold CreateDatabaseIfNotExists, GetAllDatabases_. unfold then_ at 1, wrap_error at 1. rewrite Hdbs.
  destruct (slice_Exists dbnames dbname); [done|]. unfold then_, wrap_error.
  destruct (Exec (create_database dbname) [] w1 p1) as [[[w2 p2] [| | |]]|]; try done; eexists; (split; [done|]; done).
Qed.
End statements.
