(* ===== verification/Application.v ===== *)
(** The application ([copy/copy.go]): its set-up, the loop over databases with
    the pools of connections each iteration opens and closes, and the clean-up.

    The pools live in a list: the two management pools first, then the pools of
    the current database in the order they are opened. What the metadata manager
    and the copy manager do with the pools is the subject of other files; here a
    [script] says which calls they make, and the theorems hold for every script. *)
From S2P Require Import Prelude Utils Options Validator QueryWrapper Version Queries CopyCommand Connections CopyQueries.

(** * Steps of the program *)

Definition steps (A : Type) : Type := world → list Pool → option (world * list Pool * go A).
Definition halt {A} (r : go A) : steps A := λ w ps, Some (w, ps, r).
Definition and_next {A B} (m : steps A) (k : A → steps B) : steps B := λ w ps,
  match m w ps with
  | None => None
  | Some (w, ps, Ok a) => k a w ps
  | Some (w, ps, Err e) => Some (w, ps, Err e)
  | Some (w, ps, Fatal e) => Some (w, ps, Fatal e)
  | Some (w, ps, Panic e) => Some (w, ps, Panic e)
  end.
Notation "'slet' x ':=' m 'in' k" := (and_next m (λ x, k))
  (at level 10, x pattern, m at level 100, k at level 200) : go_scope.

Definition srcManageConn : nat := 0.
Definition destManageConn : nat := 1.
Definition srcMetaConn : nat := 2.
Definition destMetaConn : nat := 3.
Definition destConn : nat := 4.
Definition srcConn : nat := 5.

(** A call on pool [i]; a pool that was not made yet is a nil pointer. *)
Definition on_pool {A} (i : nat) (m : method A) : steps A := λ w ps,
  match ps !! i with
  | None => Some (w, ps, Panic "nil pointer dereference")
  | Some p => match m w p with Some (w, p, r) => Some (w, <[i := p]> ps, r) | None => None end
  end.
Definition close_pool (i : nat) : steps () := on_pool i (λ w p, let '(w, p) := Close w p in Some (w, p, Ok ())).
(** The pools of an iteration are local to it. *)
Definition leave_iteration : steps () := λ w ps, Some (w, take 2 ps, Ok ()).

(** Calls on pools, by number. *)
Definition script := list (nat * pool_call).
Fixpoint follow `{Driver} (l : script) : steps () := λ w ps,
  match l with
  | [] => Some (w, ps, Ok ())
  | (i, c) :: l =>
      match ps !! i with
      | None => follow l w ps
      | Some p => match run_call c w p with Some (w, p) => follow l w (<[i := p]> ps) | None => None end
      end
  end.

Section application.
Context `{Driver} `{SemverLib} `{MapRange} `{FlagSet F} `{Selects SegmentHostInfo}.
Context (Open : string → go string) (applicationName timestamp : string).
(** The databases of the clusters, and the scripts of the managers in the
    iteration of a database: up to the copy of the data, and behind it. *)
Context (src_catalogue dest_catalogue : string → QueryWrapper.DBConn).
Context (script_of : string → script * script).

(** * Set-up *)

Fixpoint setup_connections (query : string) (connNum n : nat) : method () :=
  match n with
  | O => done (Ok ())
  | S n => mlet _ := MustExec query [Z.of_nat connNum] in setup_connections query (S connNum) n
  end.
Definition pool_version : method GPDBVersion := λ w p, Some (w, p, Ok (p_Version p)).
Definition pool_size : method nat := λ w p, Some (w, p, Ok (Z.to_nat (p_NumConns p))).
(** [MustConnect] and the settings of each session. *)
Definition prepare_pool (numConns : Z) : method () :=
  mlet _ := MustConnect numConns in
  mlet v := pool_version in
  mlet _ := done (ValidateGPDBVersionCompatibility v) in
  mlet n := pool_size in
  mlet query := done (if bool_decide (n = 0) then Ok "" else GetSessionSetupQuery v applicationName) in
  setup_connections query 0 n.
(** The pool is at the end of the list when it is returned, and no one's when
    its preparation fails. *)
Definition initializeConnectionPool (dbname username host : string) (port numConns : Z) : steps () := λ w ps,
  match NewDBConn dbname username host port with
  | Ok p => match prepare_pool numConns w p with
            | Some (w, p, Ok _) => Some (w, ps ++ [p], Ok ())
            | Some (w, _, r) => Some (w, ps, r)
            | None => None
            end
  | Err e => Some (w, ps, Err e)
  | Fatal e => Some (w, ps, Fatal e)
  | Panic e => Some (w, ps, Panic e)
  end.
Definition connect_as (flags : F) (dbname userFlag hostFlag portFlag : string) (numConns : go Z) : steps () :=
  slet user := halt (MustGetFlagString flags userFlag) in
  slet host := halt (MustGetFlagString flags hostFlag) in
  slet port := halt (MustGetFlagInt flags portFlag) in
  slet n := halt numConns in
  initializeConnectionPool dbname user host port n.
Definition connect_source (flags : F) (dbname : string) := connect_as flags dbname SOURCE_USER SOURCE_HOST SOURCE_PORT.
Definition connect_dest (flags : F) (dbname : string) := connect_as flags dbname DEST_USER DEST_HOST DEST_PORT.

(** [MakeIncludeOptions] changes the flags the rest of the program reads. *)
Definition doSetup (flags : F) : steps (F * Option_) :=
  slet _ := halt (setLoggerVerbosity flags) in
  slet globalOnly := halt (MustGetFlagBool flags GLOBAL_METADATA_ONLY) in
  let flags := if (globalOnly : bool) then MakeIncludeOptions flags CbcopyTestTable else flags in
  slet config := halt (FatalOnError (NewOption Open flags)) in
  slet _ := connect_source flags "postgres" (MustGetFlagInt flags COPY_JOBS) in
  slet _ := (if (globalOnly : bool) then on_pool srcManageConn (Must (CreateTestTable CbcopyTestTable)) else halt (Ok ())) in
  slet _ := connect_dest flags "postgres" (MustGetFlagInt flags COPY_JOBS) in
  halt (Ok (flags, config)).

(** An error of [CreateDatabaseIfNotExists] is dropped. *)
Definition ignore_error {A} (m : method A) : method () := λ w p,
  match m w p with
  | Some (w, p, Err _) => Some (w, p, Ok ())
  | Some (w, p, r) => Some (w, p, let! _ := r in Ok ())
  | None => None
  end.
Definition initializeConn (flags : F) (srcDbName destDbName : string) : steps string :=
  slet _ := connect_source flags srcDbName (Ok 1%Z) in
  slet metadataOnly := halt (MustGetFlagBool flags METADATA_ONLY) in
  slet dataOnly := halt (MustGetFlagBool flags DATA_ONLY) in
  slet _ := (if ContainsMetadata metadataOnly dataOnly
             then on_pool destManageConn (ignore_error (CreateDatabaseIfNotExists destDbName)) else halt (Ok ())) in
  slet _ := connect_dest flags destDbName (MustGetFlagInt flags METADATA_JOBS) in
  slet _ := connect_dest flags destDbName (MustGetFlagInt flags COPY_JOBS) in
  slet _ := connect_source flags srcDbName (MustGetFlagInt flags COPY_JOBS) in
  on_pool srcConn (Must (Get "SHOW client_encoding;" [])).

Definition initializeClusterResources (config : Option_) : steps (list SegmentHostInfo * list SegmentHostInfo) :=
  slet hosts := (if bool_decide (connectionMode config = ConnectionModePush) then
      slet src := on_pool srcManageConn GetSegmentsHost in
      slet dest := on_pool destManageConn (GetSegmentsIpAddress timestamp) in halt (Ok (src, dest))
    else
      slet src := on_pool srcManageConn (GetSegmentsIpAddress timestamp) in
      slet dest := on_pool destManageConn GetSegmentsHost in halt (Ok (src, dest))) in
  if bool_decide (length hosts.1 = 0) then halt (Fatal "no source segments found")
  else if bool_decide (length hosts.2 = 0) then halt (Fatal "no destination segments found")
  else
    slet _ := on_pool (if bool_decide (connectionMode config = ConnectionModePush) then destManageConn else srcManageConn)
                (Must (CreateHelperPortTable timestamp)) in
    halt (Ok hosts).

(** * The loop over databases *)

Definition needGlobalMetaData (flags : F) (config : Option_) (isFirstDB : bool) : go bool :=
  let! withGlobal := MustGetFlagBool flags WITH_GLOBAL_METADATA in
  if (withGlobal : bool) then Ok true
  else Ok (bool_decide (copyMode config = CopyModeFull) && isFirstDB).

(** What an iteration hands to the metadata manager: the plan, and whether the
    global objects are copied. *)
Definition copied := list (db_plan * bool).

(** [None] when the iteration ends with [continue]. *)
Definition copy_database (flags : F) (config : Option_) (qw : QueryWrapper) (i : nat) (srcDbName destDbName : string)
    : steps (option (db_plan * bool) * Option_ * QueryWrapper) :=
  slet _ := initializeConn flags srcDbName destDbName in
  slet (plan, config, qw) := halt (plan_database flags config qw (src_catalogue srcDbName) (dest_catalogue destDbName)) in
  match plan with
  | None => slet _ := leave_iteration in halt (Ok (None, config, qw))
  | Some plan =>
      slet withGlobal := halt (needGlobalMetaData flags config (bool_decide (i = 0))) in
      slet _ := follow (script_of srcDbName).1 in
      slet metadataOnly := halt (MustGetFlagBool flags METADATA_ONLY) in
      slet _ := (if (metadataOnly : bool) then halt (Ok ()) else slet _ := close_pool srcConn in close_pool destConn) in
      slet _ := follow (script_of srcDbName).2 in
      slet _ := close_pool srcMetaConn in
      slet _ := close_pool destMetaConn in
      slet _ := leave_iteration in
      halt (Ok (Some (plan, withGlobal), config, ResetCache qw))
  end.
Fixpoint copy_databases (flags : F) (config : Option_) (qw : QueryWrapper) (i : nat) (dbs : list (string * string)) : steps copied :=
  match dbs with
  | [] => halt (Ok [])
  | (srcDbName, destDbName) :: dbs =>
      slet (result, config, qw) := copy_database flags config qw i srcDbName destDbName in
      match result with
      | None => copy_databases flags config qw i dbs
      | Some r => slet rs := copy_databases flags config qw (S i) dbs in halt (Ok (r :: rs))
      end
  end.
Definition doCopy (flags : F) (config : Option_) : steps copied :=
  slet _ := initializeClusterResources config in
  slet dbMap := halt (GetDbNameMap config excludedDb (src_catalogue "postgres")) in
  copy_databases flags config NewQueryWrapper 0 (range_map 306 dbMap).

(** * Clean-up *)

(** [doCleanup] recovers from every panic. *)
Definition recovered {A} (m : steps A) : steps () := λ w ps,
  match m w ps with Some (w, ps, _) => Some (w, ps, Ok ()) | None => None end.
Definition TerminateHangingCopySessions (appName : string) : method () :=
  mlet v := pool_version in
  mlet cname := done (terminate_column v) in
  match cname with
  | None => done (Ok ())
  | Some cname => ignore_error (Exec (Sprintf "SELECT
	pg_terminate_backend(%v)
FROM pg_stat_activity
WHERE application_name = '%s'
AND %v <> pg_backend_pid()" [cname; appName; cname]) [])
  end.
Definition if_made (i : nat) (m : steps ()) : steps () := λ w ps, if bool_decide (i < length ps) then m w ps else Some (w, ps, Ok ()).
Definition doCleanup (WasTerminated : bool) : steps () :=
  recovered (
    slet _ := (if WasTerminated then
        slet _ := on_pool srcManageConn (TerminateHangingCopySessions applicationName) in
        if_made destManageConn (on_pool destManageConn (TerminateHangingCopySessions applicationName))
      else halt (Ok ())) in
    slet _ := if_made srcManageConn (close_pool srcManageConn) in
    if_made destManageConn (close_pool destManageConn)).

(** [Run]: the deferred [doTeardown] recovers the panic and cleans up, whatever
    happened; the result is what it recovered. *)
Definition run_body (flags : F) : steps copied :=
  slet _ := halt (doFlagValidation Open flags) in
  slet (flags, config) := doSetup flags in
  doCopy flags config.
Definition Run (flags : F) (WasTerminated : bool) (w : world) : option (world * go copied) :=
  match run_body flags w [] with
  | None => None
  | Some (w, ps, r) => match doCleanup WasTerminated w ps with Some (w, _, _) => Some (w, r) | None => None end
  end.
End application.

(** * The account of the sessions *)

(** Pools do not share sessions; of the open sessions each is held by a pool,
    counted as lost, or in use. *)
Record tidy (w : world) (ps : list Pool) (lost : list nat) : Prop := {
  td_world : world_ok w;
  td_pools : ∀ i p, ps !! i = Some p → pool_ok w p;
  td_apart : ∀ i j p q h, ps !! i = Some p → ps !! j = Some q → h ∈ owned p → h ∈ owned q → i = j;
  td_lost : NoDup lost;
  td_open : ∀ h, h ∈ lost → is_Some (w_sessions w !! h);
  td_free : ∀ h i p, h ∈ lost → ps !! i = Some p → h ∉ owned p;
  td_all : ∀ h s, w_sessions w !! h = Some s → in_use s = true ∨ h ∈ lost ∨ ∃ i p, ps !! i = Some p ∧ h ∈ owned p
}.

Lemma pool_ok_open w p h : pool_ok w p → h ∈ owned p → is_Some (w_sessions w !! h).
Proof.
  intros Hp (conns & i & Hc & Hi)%elem_of_owned. unfold pool_ok in Hp. rewrite Hc in Hp. destruct Hp as (_ & Hopen & _).
  destruct (Hopen i h Hi) as (s & Hs & _). by exists s.
Qed.
Lemma pool_ok_NoDup w p : pool_ok w p → NoDup (owned p).
Proof. unfold pool_ok, owned. destruct (ConnPool p) as [conns|]; [by intros [? _]|constructor]. Qed.
Lemma pool_ok_frame w w' p : pool_ok w p → (∀ h, h ∈ owned p → w_sessions w' !! h = w_sessions w !! h) → pool_ok w' p.
Proof.
  intros Hp Hsame. unfold pool_ok in *. destruct (ConnPool p) as [conns|] eqn:Hc; [|done]. destruct Hp as (Hnd & Hopen & Hslots).
  split; [done|]. split; [|done]. intros i h Hi. rewrite Hsame by (apply elem_of_owned; eauto). eauto.
Qed.

Section accounts.
Context (w : world) (ps : list Pool) (lost : list nat) (Htidy : tidy w ps lost).

Lemma tidy_lt i p h : ps !! i = Some p → h ∈ owned p → h < w_dialled w.
Proof. intros Hi Hh. destruct (pool_ok_open w p h (td_pools _ _ _ Htidy i p Hi) Hh) as [s Hs]. by eapply (td_world _ _ _ Htidy). Qed.

(** One pool changes. *)
Lemma tidy_pool i p w' p' : ps !! i = Some p → since w (owned p) w' p' → tidy w' (<[i := p']> ps) lost.
Proof.
  intros Hi [H1 H2 H3 H4 H5 H6]. pose proof (lookup_lt_Some _ _ _ Hi) as Hlen.
  assert (Hother : ∀ j q h, ps !! j = Some q → j ≠ i → h ∈ owned q → h < w_dialled w ∧ h ∉ owned p).
  { intros j q h Hj Hne Hh. split; [by eapply tidy_lt|]. intros Hp. by apply Hne, (td_apart _ _ _ Htidy j i q p h). }
  assert (Hnot : ∀ j q h, ps !! j = Some q → j ≠ i → h ∈ owned q → h ∉ owned p').
  { intros j q h Hj Hne Hh Hp'. destruct (Hother j q h Hj Hne Hh). destruct (H5 h Hp'); [lia|done]. }
  assert (Hlost : ∀ h, h ∈ lost → h < w_dialled w ∧ h ∉ owned p).
  { intros h Hh. split; [|by eapply (td_free _ _ _ Htidy)]. destruct (td_open _ _ _ Htidy h Hh) as [s Hs]. by eapply (td_world _ _ _ Htidy). }
  split; [done| | |apply Htidy| | |].
  - intros j q [(-> & -> & _)|[Hne Hj]]%list_lookup_insert_Some; [done|]. apply (pool_ok_frame w); [by eapply (td_pools _ _ _ Htidy)|].
    intros h Hh. destruct (Hother j q h Hj (not_eq_sym Hne) Hh). by apply H4.
  - intros j k q r h [(<- & <- & _)|[Hj1 Hj]]%list_lookup_insert_Some [(<- & <- & _)|[Hk1 Hk]]%list_lookup_insert_Some Hq Hr; [done|..].
    + by destruct (Hnot k r h Hk (not_eq_sym Hk1) Hr).
    + by destruct (Hnot j q h Hj (not_eq_sym Hj1) Hq).
    + by eapply (td_apart _ _ _ Htidy).
  - intros h Hh. destruct (Hlost h Hh). rewrite H4 by done. by apply Htidy.
  - intros h j q Hh [(<- & <- & _)|[_ Hj]]%list_lookup_insert_Some; [|by eapply (td_free _ _ _ Htidy)].
    intros Hp'. destruct (Hlost h Hh), (H5 h Hp'); [lia|done].
  - intros h s Hs. destruct (decide (h < w_dialled w ∧ h ∉ owned p)) as [[Hlt Hnp]|Hin].
    + rewrite H4 in Hs by done. destruct (td_all _ _ _ Htidy h s Hs) as [|[|(j & q & Hj & Hq)]]; [by left|by right; left|].
      right; right. exists j, q. split; [|done]. rewrite list_lookup_insert_ne; [done|]. intros ->. congruence.
    + destruct (H6 h s) as [Hp'|]; [|done| |by left]. { destruct (decide (h ∈ owned p)); [by right|left; destruct (decide (h < w_dialled w)); [naive_solver|lia]]. }
      right; right. exists i, p'. by rewrite list_lookup_insert_eq.
Qed.

(** A pool is made. *)
Lemma tidy_new w' p' : since w [] w' p' → tidy w' (ps ++ [p']) lost.
Proof.
  intros [H1 H2 H3 H4 H5 H6].
  assert (Hold : ∀ h, h < w_dialled w → w_sessions w' !! h = w_sessions w !! h) by (intros h Hh; apply H4; [done|apply not_elem_of_nil]).
  assert (Hnew : ∀ h, h ∈ owned p' → w_dialled w ≤ h) by (intros h Hh; destruct (H5 h Hh) as [|?%elem_of_nil]; done).
  assert (Hlost : ∀ h, h ∈ lost → h < w_dialled w).
  { intros h Hh. destruct (td_open _ _ _ Htidy h Hh) as [s Hs]. by eapply (td_world _ _ _ Htidy). }
  split; [done| | |apply Htidy| | |].
  - intros i p [Hi|[_ [_ <-]%list_lookup_singleton_Some]]%lookup_app_Some; [|done]. apply (pool_ok_frame w); [by eapply (td_pools _ _ _ Htidy)|].
    intros h Hh. apply Hold. by eapply tidy_lt.
  - intros i j p q h [Hi|[Hi1 [Hi <-]%list_lookup_singleton_Some]]%lookup_app_Some [Hj|[Hj1 [Hj <-]%list_lookup_singleton_Some]]%lookup_app_Some Hp Hq.
    + by eapply (td_apart _ _ _ Htidy).
    + apply Hnew in Hq. pose proof (tidy_lt i p h Hi Hp). lia.
    + apply Hnew in Hp. pose proof (tidy_lt j q h Hj Hq). lia.
    + lia.
  - intros h Hh. rewrite Hold by auto. by apply Htidy.
  - intros h i p Hh [Hi|[_ [_ <-]%list_lookup_singleton_Some]]%lookup_app_Some; [by eapply (td_free _ _ _ Htidy)|].
    intros Hp%Hnew. specialize (Hlost h Hh). lia.
  - intros h s Hs. destruct (decide (h < w_dialled w)) as [Hlt|Hge].
    + rewrite Hold in Hs by done. destruct (td_all _ _ _ Htidy h s Hs) as [|[|(j & q & Hj & Hq)]]; [by left|by right; left|].
      right; right. exists j, q. split; [|done]. by apply lookup_app_l_Some.
    + destruct (H6 h s) as [Hp'|]; [left; lia|done| |by left]. right; right. exists (length ps), p'. split; [|done].
      by rewrite lookup_app_r, Nat.sub_diag.
Qed.
End accounts.

(** The last pool is given up. *)
Lemma tidy_give_up w ps p lost : tidy w (ps ++ [p]) lost → tidy w ps (lost ++ owned p).
Proof.
  intros Ht. pose proof Ht as [H1 H2 H3 H4 H5 H6 H7].
  assert (Hlast : (ps ++ [p]) !! length ps = Some p) by (by rewrite lookup_app_r, Nat.sub_diag).
  assert (Hinit : ∀ i q, ps !! i = Some q → (ps ++ [p]) !! i = Some q) by (intros; by apply lookup_app_l_Some).
  split; [done|by eauto| | | | |].
  - intros i j q r h Hi Hj. by apply H3; apply Hinit.
  - apply NoDup_app. split; [done|]. split; [|by eapply pool_ok_NoDup, H2]. intros h Hh. by eapply H6.
  - intros h [Hh|Hh]%elem_of_app; [by apply H5|]. eapply pool_ok_open; [by apply (H2 (length ps))|done].
  - intros h i q [Hh|Hh]%elem_of_app Hi; [by eapply H6, Hinit|]. intros Hq.
    pose proof (H3 i (length ps) q p h (Hinit i q Hi) Hlast Hq Hh). apply lookup_lt_Some in Hi. lia.
  - intros h s Hs. destruct (H7 h s Hs) as [|[|(i & q & Hi & Hq)]]; [by left|right; left; apply elem_of_app; by left|right].
    apply lookup_app_Some in Hi as [Hi|[_ [_ <-]%list_lookup_singleton_Some]]; [right; eauto|left; apply elem_of_app; by right].
Qed.

Lemma tidy_give_up_all w ps qs lost : tidy w (ps ++ qs) lost → ∃ lost', tidy w ps lost' ∧ length lost' = length lost + sum_list (length ∘ owned <$> qs).
Proof.
  revert lost. induction qs as [|q qs IH] using rev_ind; intros lost Ht.
  - rewrite app_nil_r in Ht. exists lost. simpl. split; [done|lia].
  - rewrite app_assoc in Ht. apply tidy_give_up, IH in Ht as (lost' & Ht & Hl). exists lost'. split; [done|].
    rewrite Hl, length_app, fmap_app, sum_list_with_app. simpl. lia.
Qed.

(** The index of a pool is below the length of a concrete list. *)
Ltac in_list := cbv [srcManageConn destManageConn srcMetaConn destMetaConn destConn srcConn]; simpl; lia.

(** ** What a part of the program does to the account *)

Definition sizes (ps : list Pool) : list nat := length ∘ owned <$> ps.

(** From pools of sizes [n] and [l] lost sessions; [Q] when it returns. *)
Definition tracks {A} (m : steps A) (n : list nat) (l : nat) (Q : list nat → nat → A → Prop) : Prop :=
  ∀ w ps lost, tidy w ps lost → sizes ps = n → length lost = l →
    match m w ps with
    | None => True
    | Some (w', ps', r) => match r with Ok a => ∃ lost', tidy w' ps' lost' ∧ Q (sizes ps') (length lost') a | _ => True end
    end.

Lemma tracks_next {A B} (m : steps A) (k : A → steps B) n l Q :
  tracks m n l (λ n' l' a, tracks (k a) n' l' Q) → tracks (and_next m k) n l Q.
Proof.
  intros Hm w ps lost Ht Hn Hl. specialize (Hm w ps lost Ht Hn Hl). unfold and_next.
  destruct (m w ps) as [[[w1 ps1] [a|e|e|e]]|]; try done. destruct Hm as (lost1 & Ht1 & Hk). by apply (Hk w1 ps1 lost1).
Qed.

Lemma tracks_halt {A} (r : go A) n l (Q : list nat → nat → A → Prop) : (∀ a, r = Ok a → Q n l a) → tracks (halt r) n l Q.
Proof. intros HQ w ps lost Ht <- <-. unfold halt. destruct r; try done. exists lost. auto. Qed.

(** Reading a value that is not used further. *)
Lemma tracks_read {A B} (r : go A) (k : A → steps B) n l Q : (∀ a, r = Ok a → tracks (k a) n l Q) → tracks (and_next (halt r) k) n l Q.
Proof. intros Hk. by apply tracks_next, tracks_halt. Qed.

Lemma tracks_mono {A} (m : steps A) n l (Q Q' : list nat → nat → A → Prop) :
  tracks m n l Q → (∀ n' l' a, Q n' l' a → Q' n' l' a) → tracks m n l Q'.
Proof.
  intros Hm HQ w ps lost Ht Hn Hl. specialize (Hm w ps lost Ht Hn Hl). destruct (m w ps) as [[[w1 ps1] [a|e|e|e]]|]; try done.
  destruct Hm as (lost' & Ht' & Hq). eauto.
Qed.

Lemma sizes_insert ps i p p' : ps !! i = Some p → length (owned p') = length (owned p) → sizes (<[i := p']> ps) = sizes ps.
Proof.
  intros Hi Hp. unfold sizes. rewrite list_fmap_insert. simpl. rewrite Hp. apply list_insert_id. by rewrite list_lookup_fmap, Hi.
Qed.

Lemma owned_same p p' : ConnPool p' = ConnPool p → owned p' = owned p.
Proof. unfold owned. by intros ->. Qed.

Lemma tracks_pool {A} i (m : method A) n l (Q : list nat → nat → A → Prop) : tame m → (∀ a, Q n l a) → tracks (on_pool i m) n l Q.
Proof.
  intros [Hm1 Hm2] HQ w ps lost Ht Hn Hl. unfold on_pool. destruct (ps !! i) as [p|] eqn:Hi; [|done].
  pose proof (since_refl w p (td_world _ _ _ Ht) (td_pools _ _ _ Ht i p Hi)) as Hs.
  specialize (Hm1 w (owned p) w p Hs). unfold keeps in Hm1. destruct (m w p) as [[[w' p'] r]|] eqn:Em; [|done].
  destruct Hm1 as [Hs' _]. apply Hm2 in Em as (Hc & _ & _). destruct r; try done. exists lost.
  split; [by eapply tidy_pool|]. rewrite (sizes_insert ps i p p'), Hn, Hl; [apply HQ|done|]. by rewrite (owned_same p p' Hc).
Qed.

Lemma tracks_close i n l (Q : list nat → nat → () → Prop) : i < length n → Q (<[i := 0]> n) l () → tracks (close_pool i) n l Q.
Proof.
  intros Hlen HQ w ps lost Ht Hn Hl. unfold close_pool, on_pool.
  destruct (ps !! i) as [p|] eqn:Hi; [|by apply lookup_ge_None in Hi; rewrite <-Hn in Hlen; unfold sizes in Hlen; rewrite length_fmap in Hlen; lia].
  pose proof (since_refl w p (td_world _ _ _ Ht) (td_pools _ _ _ Ht i p Hi)) as Hs.
  destruct (since_Close w (owned p) w p Hs) as [Hs' Hc]. destruct (Close w p) as [w' p']. simpl in *. exists lost.
  split; [by eapply tidy_pool|]. assert (Hnone : owned p' = []) by (unfold owned; by rewrite Hc).
  unfold sizes in *. rewrite list_fmap_insert, Hn, Hl. simpl. by rewrite Hnone.
Qed.

Lemma tracks_leave n l (Q : list nat → nat → () → Prop) : Q (take 2 n) (l + sum_list (drop 2 n)) () → tracks leave_iteration n l Q.
Proof.
  intros HQ w ps lost Ht Hn Hl. unfold leave_iteration. rewrite <-(take_drop 2 ps) in Ht.
  apply tidy_give_up_all in Ht as (lost' & Ht & Hl'). exists lost'. split; [done|].
  rewrite Hl', Hl. unfold sizes in *. by rewrite fmap_take, fmap_drop, Hn.
Qed.

(** Calls that neither open nor close a pool. *)
Definition plain_script (l : script) : Prop := Forall (λ ic, plain_call ic.2 = true) l.
Lemma tracks_follow `{Driver} (s : script) n l (Q : list nat → nat → () → Prop) : plain_script s → Q n l () → tracks (follow s) n l Q.
Proof.
  intros Hs HQ. induction s as [|[i c] s IH]; intros w ps lost Ht Hn Hl; simpl; [exists lost; by rewrite Hn, Hl|].
  apply Forall_cons in Hs as [Hc Hs]. simpl in Hc. destruct (ps !! i) as [p|] eqn:Hi; [|by apply (IH Hs w ps lost)].
  destruct (run_call c w p) as [[w' p']|] eqn:Hrun; [|done].
  pose proof (since_refl w p (td_world _ _ _ Ht) (td_pools _ _ _ Ht i p Hi)) as Hsince.
  apply (IH Hs w' _ lost); [|rewrite (sizes_insert ps i p p'); [done|done|]|done].
  - eapply tidy_pool; [done..|]. by eapply since_call.
  - apply plain_call_fixes in Hrun as (Hp & _ & _); [|done]. by rewrite (owned_same p p' Hp).
Qed.

Lemma tracks_if_made i (m : steps ()) n l (Q : list nat → nat → () → Prop) : i < length n → tracks m n l Q → tracks (if_made i m) n l Q.
Proof.
  intros Hi Hm w ps lost Ht Hn Hl. unfold if_made. rewrite bool_decide_true; [by apply (Hm w ps lost)|]. rewrite <-Hn in Hi. unfold sizes in Hi.
  by rewrite length_fmap in Hi.
Qed.

Section accounting.
Context `{Driver} `{SemverLib} `{MapRange} `{FlagSet F} `{Selects SegmentHostInfo}.
Context (Open : string → go string) (applicationName timestamp : string).
Context (src_catalogue dest_catalogue : string → QueryWrapper.DBConn).
Context (script_of : string → script * script).
Context (Hscripts : ∀ db, plain_script (script_of db).1 ∧ plain_script (script_of db).2).

Lemma tame_setup_connections query c n : tame (setup_connections query c n).
Proof.
  revert c. induction n as [|n IH]; intros c; simpl; [apply tame_done|].
  apply tame_then; [unfold MustExec; apply tame_Must, tame_Exec|]. auto.
Qed.
Lemma tame_pool_version : tame pool_version.
Proof. split; [by intros w0 o0 w p Hs|]. by intros w p w' p' r [= <- <- _]. Qed.
Lemma tame_pool_size : tame pool_size.
Proof. split; [by intros w0 o0 w p Hs|]. by intros w p w' p' r [= <- <- _]. Qed.
Lemma tame_ignore_error {A} (m : method A) : tame m → tame (ignore_error m).
Proof.
  intros Hm. apply (tame_result (λ r, match r with Err _ => Ok () | r => let! _ := r in Ok () end) m); [done|].
  intros w p. unfold ignore_error. by destruct (m w p) as [[[w' p'] [| | |]]|].
Qed.

Lemma tame_settings n0 v : tame (mlet _ := done (ValidateGPDBVersionCompatibility v) in mlet n := pool_size in
  mlet query := done (if bool_decide (n = n0) then Ok "" else GetSessionSetupQuery v applicationName) in setup_connections query 0 n).
Proof.
  apply tame_then; [apply tame_done|]. intros _. apply tame_then; [apply tame_pool_size|]. intros n.
  apply tame_then; [apply tame_done|]. intros query. apply tame_setup_connections.
Qed.

Lemma keeps_prepare_pool w0 o0 numConns w p : since w0 o0 w p →
  keeps w0 o0 (prepare_pool applicationName numConns) w p (λ _ p' _, length (owned p') = Z.to_nat numConns).
Proof.
  intros Hs. unfold prepare_pool, MustConnect. apply keeps_then.
  pose proof (keeps_Connect w0 o0 numConns w p Hs) as Hc. unfold Must, keeps in *.
  destruct (Connect numConns w p) as [[[w1 p1] [u|e|e|e]]|]; try done. destruct Hc as [Hs1 Hl]. split; [done|]. intros _.
  assert (Ht : tame (mlet v := pool_version in mlet _ := done (ValidateGPDBVersionCompatibility v) in mlet n := pool_size in
    mlet query := done (if bool_decide (n = 0) then Ok "" else GetSessionSetupQuery v applicationName) in setup_connections query 0 n)).
  { apply tame_then; [apply tame_pool_version|]. intros v. apply tame_settings. }
  destruct Ht as [Ht1 Ht2]. specialize (Ht1 w0 o0 w1 p1 Hs1). unfold keeps in Ht1.
  destruct (then_ pool_version _ w1 p1) as [[[w2 p2] r]|] eqn:E; [|done]. destruct Ht1 as [Hs2 _]. split; [done|].
  apply Ht2 in E as (Hp & _ & _). destruct r; [|done..]. by rewrite (owned_same p1 p2 Hp).
Qed.

Lemma tracks_connection_pool dbname user host port k n l (Q : list nat → nat → () → Prop) :
  Q (n ++ [Z.to_nat k]) l () → tracks (initializeConnectionPool applicationName dbname user host port k) n l Q.
Proof.
  intros HQ w ps lost Ht Hn Hl. unfold initializeConnectionPool.
  destruct (NewDBConn dbname user host port) as [p| | |] eqn:Hp; [|done..].
  pose proof (since_new dbname user host port p w (td_world _ _ _ Ht) Hp) as Hs.
  pose proof (keeps_prepare_pool w [] k w p Hs) as Hk. unfold keeps in Hk.
  destruct (prepare_pool applicationName k w p) as [[[w' p'] [u|e|e|e]]|]; [|done..]. destruct Hk as [Hs' Hlen].
  exists lost. split; [by apply (tidy_new w)|]. unfold sizes in *. rewrite fmap_app, Hn, Hl. simpl. rewrite Hlen. by destruct u.
Qed.

Lemma tracks_connect_as flags dbname uf hf pf numConns n l (Q : list nat → nat → () → Prop) :
  (∀ k, numConns = Ok k → Q (n ++ [Z.to_nat k]) l ()) → tracks (connect_as applicationName flags dbname uf hf pf numConns) n l Q.
Proof.
  intros HQ. unfold connect_as. do 3 (apply tracks_read; intros ? _). apply tracks_read. intros k Hk. apply tracks_connection_pool. auto.
Qed.

(** The connections of a flag that was read. *)
Definition jobs (flags : F) (flag : string) : nat := match MustGetFlagInt flags flag with Ok k => Z.to_nat k | _ => 0 end.
Lemma jobs_of flags flag k : MustGetFlagInt flags flag = Ok k → jobs flags flag = Z.to_nat k.
Proof. unfold jobs. by intros ->. Qed.

Lemma tracks_initializeConn flags srcDb destDb n l :
  tracks (initializeConn applicationName flags srcDb destDb) n l
    (λ n' l' _, n' = n ++ [1; jobs flags METADATA_JOBS; jobs flags COPY_JOBS; jobs flags COPY_JOBS] ∧ l' = l).
Proof.
  unfold initializeConn, connect_source, connect_dest. apply tracks_next, tracks_connect_as. intros k1 [= <-].
  apply tracks_read. intros mo _. apply tracks_read. intros dto _. apply tracks_next.
  eapply (tracks_mono _ _ _ (λ n' l' _, n' = n ++ [1] ∧ l' = l)).
  { destruct (ContainsMetadata mo dto); [|by apply tracks_halt]. apply tracks_pool; [|done]. apply tame_ignore_error, tame_CreateDatabaseIfNotExists. }
  intros n' l' _ [-> ->]. apply tracks_next, tracks_connect_as. intros k2 Hk2. apply tracks_next, tracks_connect_as. intros k3 Hk3.
  apply tracks_next, tracks_connect_as. intros k4 Hk4. apply tracks_pool; [apply tame_Must, tame_Get|]. intros _.
  rewrite (jobs_of _ _ _ Hk2), (jobs_of _ _ _ Hk3), <-!app_assoc. rewrite Hk3 in Hk4. by injection Hk4 as ->.
Qed.

(** The sessions an iteration leaves open: all of them when it ends early, those
    for the data when only metadata is copied. *)
Definition left_by (flags : F) (ended_early : bool) : nat :=
  if ended_early then 1 + jobs flags METADATA_JOBS + 2 * jobs flags COPY_JOBS
  else match MustGetFlagBool flags METADATA_ONLY with Ok true => 2 * jobs flags COPY_JOBS | _ => 0 end.

Definition is_none {A} (o : option A) : bool := match o with None => true | Some _ => false end.
Lemma tracks_copy_database flags config qw i srcDb destDb a b l :
  tracks (copy_database applicationName src_catalogue dest_catalogue script_of flags config qw i srcDb destDb) [a; b] l
    (λ n' l' '(result, _, _), n' = [a; b] ∧ l' = l + left_by flags (is_none result)).
Proof.
  unfold copy_database. apply tracks_next. eapply tracks_mono; [apply tracks_initializeConn|]. intros n' l' _ [-> ->]. simpl.
  apply tracks_read. intros [[[plan|] config'] qw'] _.
  - apply tracks_read. intros withGlobal _. apply tracks_next, tracks_follow; [apply Hscripts|].
    apply tracks_read. intros metadataOnly Hmo. unfold left_by. rewrite Hmo. apply tracks_next.
    eapply (tracks_mono _ _ _ (λ n' l' _, l' = l ∧ n' = [a; b; 1; jobs flags METADATA_JOBS] ++
      (if metadataOnly then [jobs flags COPY_JOBS; jobs flags COPY_JOBS] else [0; 0]))).
    { destruct metadataOnly; [by apply tracks_halt|]. apply tracks_next, tracks_close; [in_list|]. by apply tracks_close; [in_list|]. }
    intros n' l' _ [-> ->]. apply tracks_next, tracks_follow; [apply Hscripts|].
    apply tracks_next, tracks_close; [in_list|]. apply tracks_next, tracks_close; [in_list|].
    apply tracks_next, tracks_leave, tracks_halt. intros ? [= <-]. simpl. destruct metadataOnly; simpl; (split; [done|lia]).
  - apply tracks_next, tracks_leave, tracks_halt. intros ? [= <-]. simpl. split; [done|lia].
Qed.

Definition left_by_all (flags : F) (databases plans : nat) : nat := (databases - plans) * left_by flags true + plans * left_by flags false.

Lemma tracks_copy_databases flags config qw i dbs a b l :
  tracks (copy_databases applicationName src_catalogue dest_catalogue script_of flags config qw i dbs) [a; b] l
    (λ n' l' rs, n' = [a; b] ∧ length rs ≤ length dbs ∧ l' = l + left_by_all flags (length dbs) (length rs)).
Proof.
  revert config qw i l. induction dbs as [|[srcDb destDb] dbs IH]; intros config qw i l; simpl.
  - apply tracks_halt. intros rs [= <-]. unfold left_by_all. simpl. split; [done|split; lia].
  - apply tracks_next. eapply tracks_mono; [apply tracks_copy_database|]. intros n' l' [[[r|] config'] qw'] [-> ->]; unfold left_by_all, is_none.
    + apply tracks_next. eapply tracks_mono; [apply IH|]. intros n' l' rs (-> & Hl & ->). apply tracks_halt. intros ? [= <-].
      unfold left_by_all. simpl length. split; [done|]. split; [lia|]. replace (S (length dbs) - S (length rs)) with (length dbs - length rs) by lia. lia.
    + eapply tracks_mono; [apply IH|]. intros n' l' rs (-> & Hl & ->). unfold left_by_all. split; [done|]. split; [lia|].
      replace (S (length dbs) - length rs) with (S (length dbs - length rs)) by lia. lia.
Qed.

Lemma tracks_initializeClusterResources config n l : tracks (initializeClusterResources timestamp config) n l (λ n' l' _, n' = n ∧ l' = l).
Proof.
  assert (Hhosts : tame GetSegmentsHost) by apply tame_done. unfold initializeClusterResources. apply tracks_next.
  eapply (tracks_mono _ _ _ (λ n' l' _, n' = n ∧ l' = l)).
  { case_bool_decide; (apply tracks_next, tracks_pool; [auto using tame_GetSegmentsIpAddress|]; intros src;
      apply tracks_next, tracks_pool; [auto using tame_GetSegmentsIpAddress|]; intros dest; by apply tracks_halt). }
  intros n' l' hosts [-> ->]. case_bool_decide; [by apply tracks_halt|]. case_bool_decide; [by apply tracks_halt|].
  apply tracks_next, tracks_pool; [apply tame_Must, tame_CreateHelperPortTable|]. intros _. by apply tracks_halt.
Qed.

(** The cleanup of a run that was not interrupted. *)
Lemma tracks_doCleanup a b l : tracks (doCleanup applicationName false) [a; b] l (λ n' l' _, l' = l ∧ n' = [0; 0]).
Proof.
  assert (Hm : tracks (slet _ := if_made srcManageConn (close_pool srcManageConn) in if_made destManageConn (close_pool destManageConn))
    [a; b] l (λ n' l' _, l' = l ∧ n' = [0; 0])).
  { apply tracks_next, tracks_if_made, tracks_close, tracks_if_made, tracks_close; done || in_list. }
  intros w ps lost Ht Hn Hl. specialize (Hm w ps lost Ht Hn Hl). unfold doCleanup, recovered. simpl.
  destruct ps as [|p [|q [|]]]; try discriminate Hn. revert Hm. unfold and_next, halt, if_made, close_pool, on_pool. simpl.
  destruct (Close w p) as [w1 p1]. simpl. destruct (Close w1 q) as [w2 q2]. done.
Qed.

(** The flags the program goes on with. *)
Definition flags_used (flags : F) : go F :=
  let! globalOnly := MustGetFlagBool flags GLOBAL_METADATA_ONLY in
  Ok (if globalOnly : bool then MakeIncludeOptions flags CbcopyTestTable else flags).

Lemma tracks_doSetup flags l :
  tracks (doSetup Open applicationName flags) [] l
    (λ n' l' '(flags', config), l' = l ∧ flags_used flags = Ok flags' ∧ NewOption Open flags' = Ok config ∧ ∃ a b, n' = [a; b]).
Proof.
  unfold doSetup, flags_used. apply tracks_read. intros v _. apply tracks_read. intros g ->.
  set (flags' := if g then _ else flags). apply tracks_read. intros config Hconfig.
  apply tracks_next, tracks_connect_as. intros k1 _. apply tracks_next.
  eapply (tracks_mono _ _ _ (λ n' l' _, n' = [Z.to_nat k1] ∧ l' = l)).
  { destruct g; [|by apply tracks_halt]. apply tracks_pool; [apply tame_Must, tame_unless_exists|done]. }
  intros n' l' _ [-> ->]. apply tracks_next, tracks_connect_as. intros k2 _. apply tracks_halt. intros ? [= <-].
  split; [done|]. split; [done|]. split; [|by eexists _, _]. by destruct (NewOption Open flags').
Qed.

(** C29: The exact number of connections a run leaves open. When the program ends
    without an error and was not interrupted, the management pools and the pools
    of every database whose data was copied are closed: what is open are
    sessions in a transaction or with unread rows, and exactly
    [1 + metadata-jobs + 2 * copy-jobs] sessions for every database without
    tables and, when only metadata is copied, [2 * copy-jobs] for every other
    database (copy.go:310 and copy.go:339); these stay open until the process
    exits. *)
Theorem connections_left_open flags w rs :
  Run Open applicationName timestamp src_catalogue dest_catalogue script_of flags false no_sessions = Some (w, Ok rs) →
  ∃ flags' config dbMap lost,
    flags_used flags = Ok flags' ∧ NewOption Open flags' = Ok config ∧
    GetDbNameMap config excludedDb (src_catalogue "postgres") = Ok dbMap ∧ length rs ≤ size dbMap ∧
    NoDup lost ∧ length lost = left_by_all flags' (size dbMap) (length rs) ∧
    (∀ h, h ∈ lost → is_Some (w_sessions w !! h)) ∧
    (∀ h s, w_sessions w !! h = Some s → h ∈ lost ∨ in_use s = true).
Proof.
  assert (Hbody : tracks (run_body Open applicationName timestamp src_catalogue dest_catalogue script_of flags) [] 0
    (λ n' l' rs, ∃ flags' config dbMap a b, n' = [a; b] ∧ flags_used flags = Ok flags' ∧ NewOption Open flags' = Ok config ∧
      GetDbNameMap config excludedDb (src_catalogue "postgres") = Ok dbMap ∧ length rs ≤ size dbMap ∧
      l' = left_by_all flags' (size dbMap) (length rs))).
  { unfold run_body. apply tracks_read. intros _ _. apply tracks_next. eapply tracks_mono; [apply tracks_doSetup|].
    intros n' l' [flags' config] (-> & Hf & Hconfig & a & b & ->). unfold doCopy. apply tracks_next.
    eapply tracks_mono; [apply tracks_initializeClusterResources|]. intros n' l' hosts [-> ->]. apply tracks_read. intros dbMap Hdb.
    eapply tracks_mono; [apply tracks_copy_databases|]. intros n' l' rs' (-> & Hl & ->). rewrite length_range_map in *.
    exists flags', config, dbMap, a, b. repeat (split; [done|]). lia. }
  assert (Ht : tidy no_sessions [] []).
  { split; try done; [constructor|by intros h ?%elem_of_nil]. }
  unfold Run. specialize (Hbody no_sessions [] [] Ht eq_refl eq_refl).
  destruct (run_body _ _ _ _ _ _ _ no_sessions []) as [[[w1 ps1] r1]|]; [|done].
  destruct (doCleanup applicationName false w1 ps1) as [[[w2 ps2] r2]|] eqn:Hcl; [|done]. intros [= -> ->].
  destruct Hbody as (lost1 & Ht1 & flags' & config & dbMap & a & b & Hn & Hf & Hconfig & Hdb & Hle & Hl).
  pose proof (tracks_doCleanup a b _ w1 ps1 lost1 Ht1 Hn eq_refl) as Hclean. rewrite Hcl in Hclean.
  assert (Hr2 : r2 = Ok ()).
  { revert Hcl. unfold doCleanup, recovered. destruct (and_next _ _ w1 ps1) as [[[? ?] ?]|]; [|done]. by intros [= _ _ <-]. }
  subst r2. destruct Hclean as (lost & Ht2 & Hl2 & Hn2). exists flags', config, dbMap, lost. do 4 (split; [done|]).
  split; [apply Ht2|]. split; [congruence|]. split; [apply Ht2|]. intros h s Hs.
  destruct (td_all _ _ _ Ht2 h s Hs) as [|[|(i & p & Hi & Hp)]]; [by right|by left|exfalso].
  assert (length (owned p) = 0).
  { assert (Hin : length (owned p) ∈ sizes ps2) by (unfold sizes; apply list_elem_of_fmap; exists p; split; [done|by eapply list_elem_of_lookup_2]).
    rewrite Hn2, !elem_of_cons, elem_of_nil in Hin. naive_solver. }
  apply nil_length_inv in H4. rewrite H4 in Hp. by apply elem_of_nil in Hp.
Qed.
End accounting.

(** * A run on concrete clusters: of two databases one is empty, and only the
    metadata is copied *)

Definition no_file : string → go string := λ _, Err "no such file".
#[local] Instance sample_clusters : Driver := {|
  Dial _ _ := None;
  AnswerExec _ _ := Ok 0%Z;
  AnswerGet _ _ := Ok "PostgreSQL 9.4.26 (Greenplum Database 6.20.0 build 9999) on x86_64";
  AnswerSelect _ _ := Ok ["a"; "b"];
  AnswerRows _ _ := Ok {| Columns := 1; row_scans := []; Rows_Err := None |}
|}.
#[local] Instance sample_hosts : Selects SegmentHostInfo :=
  λ _, Ok [{| seg_Content := 0; CopyCommand.Hostname := "sdw1" |}].
Definition two_databases (name : string) : QueryWrapper.DBConn :=
  {| QueryWrapper.DBName := name; rows_databases := Ok ["a"; "b"];
     rows_user_tables := Ok (if bool_decide (name = "a") then [mkTable "public" "t"] else []); rows_leaf_tables := Ok [];
     rows_non_physical := Ok []; rows_schema_count := λ _, Ok 0%Z |}.
Definition metadata_flags : flag_map := the_flags (parse_args [(FULL, "true"); (METADATA_ONLY, "true")]).
Definition sample_script (db : string) : script * script :=
  ([(srcMetaConn, CBegin []); (srcMetaConn, CSelect "SELECT 1" []); (srcMetaConn, CCommit []); (destMetaConn, CExec "CREATE TABLE t" [1%Z])],
   [(destMetaConn, CExec "CREATE INDEX i" [0%Z])]).
Definition sample_run : option (world * go copied) := Run no_file "cbcopy_1" "1" two_databases two_databases sample_script metadata_flags false no_sessions.

Lemma connections_left_open_witness :
  match sample_run with
  | Some (w, Ok rs) => length rs = 1 ∧ size (w_sessions w) = 2 * 4 + (1 + 2 + 2 * 4) ∧
      ∃ lost, NoDup lost ∧ length lost = 19 ∧ ∀ h, h ∈ lost → is_Some (w_sessions w !! h)
  | _ => False
  end.
Proof.
  destruct sample_run as [[w [rs|e|e|e]]|] eqn:Hrun; try (vm_compute in Hrun; discriminate Hrun).
  assert (Hrs : length rs = 1 ∧ size (w_sessions w) = 19) by (vm_compute in Hrun; injection Hrun as <- <-; split; reflexivity).
  split; [apply Hrs|]. split; [apply Hrs|].
  destruct (connections_left_open no_file "cbcopy_1" "1" two_databases two_databases sample_script
    ltac:(intros db; split; repeat constructor) metadata_flags w rs Hrun)
    as (flags' & config & dbMap & lost & Hf & Hconfig & Hdb & Hle & Hnd & Hl & Hopen & Hall).
  exists lost. split; [exact Hnd|]. split; [|exact Hopen]. rewrite Hl. destruct Hrs as [-> _].
  assert (Hflags : flags_used metadata_flags = Ok metadata_flags) by reflexivity. rewrite Hflags in Hf. injection Hf as <-.
  assert (Hsize : match NewOption no_file metadata_flags with
    | Ok config => match GetDbNameMap config excludedDb (two_databases "postgres") with Ok m => size m | _ => 0 end
    | _ => 0 end = 2) by (vm_compute; reflexivity).
  rewrite Hconfig, Hdb in Hsize. rewrite Hsize. vm_compute. reflexivity.
Defined.
