(* ===== verification/Teardown.v ===== *)
(** How a run of cbcopy ends ([doTeardown], [doCleanup] and [Initialize] of
    [copy/copy.go], [InitializeSignalHandler] of [utils/util.go]): the main
    goroutine behind the body of [Run], the goroutine that handles signals, the
    wait group between them, and the exit code.

    The body is not repeated here: it does anything to the pools, and ends as
    any body does. Goroutines it left behind may log errors and may panic. Each
    statement of the clean-up is one step. *)
From S2P Require Import Prelude Utils Options Validator QueryWrapper Version Queries CopyCommand Connections CopyQueries Application.

(** * The goroutines *)

(** The statements of [doCleanup]; the last is that of its deferred function. *)
Inductive cleanup := Begin_ | TerminateSrc | TerminateDest | CloseSrc | CloseDest | SayDone.
#[export] Instance cleanup_eq : EqDecision cleanup.
Proof. solve_decision. Defined.

(** The main goroutine: in the body; in [doTeardown] before and behind the call
    of [recover]; in [CleanupGroup.Wait]; in [doCleanup]; and in the deferred
    function, before and behind the call of [GetErrorCode]. *)
Inductive main_point :=
| Working
| Unwinding (r : go ())
| Testing
| WaitingForHandler
| MainCleanup (c : cleanup)
| Reading
| Leaving (code : Z).
(** The signal handler: in its loop, with a signal received, in [doCleanup], and
    behind it. *)
Inductive handler_phase := Listening | Notified | HandlerCleanup (c : cleanup) | Aborting.

(** [os.Exit], or a panic that no one recovers. *)
Inductive ending := Exited (code : Z) | Crashed (msg : string).
Definition negative_counter : string := "sync: negative WaitGroup counter".

(** [outcome] is kept for the theorems: how the body ended, the error code at
    that time, and whether it was told to stop. *)
Record program := {
  main : main_point; handler : handler_phase; WasTerminated : bool; CleanupGroup : Z; errorCode : Z;
  p_world : world; p_pools : list Pool; outcome : option (go () * Z * bool); fate : option ending
}.
Definition set_main (s : program) (m : main_point) : program :=
  {| main := m; handler := handler s; WasTerminated := WasTerminated s; CleanupGroup := CleanupGroup s; errorCode := errorCode s;
     p_world := p_world s; p_pools := p_pools s; outcome := outcome s; fate := fate s |}.
Definition set_handler (s : program) (h : handler_phase) : program :=
  {| main := main s; handler := h; WasTerminated := WasTerminated s; CleanupGroup := CleanupGroup s; errorCode := errorCode s;
     p_world := p_world s; p_pools := p_pools s; outcome := outcome s; fate := fate s |}.
Definition set_terminated (s : program) : program :=
  {| main := main s; handler := handler s; WasTerminated := true; CleanupGroup := CleanupGroup s; errorCode := errorCode s;
     p_world := p_world s; p_pools := p_pools s; outcome := outcome s; fate := fate s |}.
Definition SetErrorCode (s : program) (code : Z) : program :=
  {| main := main s; handler := handler s; WasTerminated := WasTerminated s; CleanupGroup := CleanupGroup s; errorCode := code;
     p_world := p_world s; p_pools := p_pools s; outcome := outcome s; fate := fate s |}.
Definition set_pools (s : program) (w : world) (ps : list Pool) : program :=
  {| main := main s; handler := handler s; WasTerminated := WasTerminated s; CleanupGroup := CleanupGroup s; errorCode := errorCode s;
     p_world := w; p_pools := ps; outcome := outcome s; fate := fate s |}.
Definition set_outcome (s : program) (r : go ()) : program :=
  {| main := main s; handler := handler s; WasTerminated := WasTerminated s; CleanupGroup := CleanupGroup s; errorCode := errorCode s;
     p_world := p_world s; p_pools := p_pools s; outcome := Some (r, errorCode s, WasTerminated s); fate := fate s |}.
Definition set_fate (s : program) (e : ending) : program :=
  {| main := main s; handler := handler s; WasTerminated := WasTerminated s; CleanupGroup := CleanupGroup s; errorCode := errorCode s;
     p_world := p_world s; p_pools := p_pools s; outcome := outcome s; fate := Some e |}.
(** [CleanupGroup.Done()]: below zero the wait group panics, behind the only
    calls of [recover]. *)
Definition Done (s : program) : program :=
  let n := (CleanupGroup s - 1)%Z in
  {| main := main s; handler := handler s; WasTerminated := WasTerminated s; CleanupGroup := n; errorCode := errorCode s;
     p_world := p_world s; p_pools := p_pools s; outcome := outcome s;
     fate := if (n <? 0)%Z then Some (Crashed negative_counter) else fate s |}.

(** [Initialize]. *)
Definition process_start (w : world) : program :=
  {| main := Working; handler := Listening; WasTerminated := false; CleanupGroup := 1; errorCode := 0;
     p_world := w; p_pools := []; outcome := None; fate := None |}.

Section teardown.
Context `{Driver} `{SemverLib} (applicationName : string).

(** * The clean-up, statement by statement *)

Definition cleanup_call (c : cleanup) : steps () :=
  match c with
  | TerminateSrc => on_pool srcManageConn (TerminateHangingCopySessions applicationName)
  | TerminateDest => if_made destManageConn (on_pool destManageConn (TerminateHangingCopySessions applicationName))
  | CloseSrc => if_made srcManageConn (close_pool srcManageConn)
  | CloseDest => if_made destManageConn (close_pool destManageConn)
  | Begin_ | SayDone => halt (Ok ())
  end.
(** The next statement; from a panic it is the deferred function. *)
Definition cleanup_next (WasTerminated : bool) (c : cleanup) (r : go ()) : cleanup :=
  match r, c with
  | Ok _, Begin_ => if WasTerminated then TerminateSrc else CloseSrc
  | Ok _, TerminateSrc => TerminateDest
  | Ok _, TerminateDest => CloseSrc
  | Ok _, CloseSrc => CloseDest
  | _, _ => SayDone
  end.
Definition carry_out (s : program) (c : cleanup) : option (program * cleanup) :=
  match cleanup_call c (p_world s) (p_pools s) with
  | Some (w, ps, r) => Some (set_pools s w ps, cleanup_next (WasTerminated s) c r)
  | None => None
  end.

(** * The end of the main goroutine *)

Definition panicked (r : go ()) : bool := match r with Ok _ => false | _ => true end.
(** The error code behind [recover]; a panic of [gplog.Fatal] has set it. *)
Definition code_recovered (r : go ()) (code : Z) : Z :=
  if panicked r then if (code =? 2)%Z then code else 2%Z else code.
Definition after_test (s : program) : main_point := if WasTerminated s then WaitingForHandler else MainCleanup Begin_.

(** A step of the main goroutine behind the body, or of the handler. *)
Inductive teardown_step (s : program) : program → Prop :=
| main_recovers r : main s = Unwinding r → teardown_step s (set_main (SetErrorCode s (code_recovered r (errorCode s))) Testing)
| main_tests : main s = Testing → teardown_step s (set_main s (after_test s))
| main_waits : main s = WaitingForHandler → CleanupGroup s = 0%Z → teardown_step s (set_main s (MainCleanup Begin_))
| main_cleans c s' c' : main s = MainCleanup c → c ≠ SayDone → carry_out s c = Some (s', c') → teardown_step s (set_main s' (MainCleanup c'))
| main_done : main s = MainCleanup SayDone → teardown_step s (set_main (Done s) Reading)
| main_reads : main s = Reading → teardown_step s (set_main s (Leaving (errorCode s)))
| main_exits code : main s = Leaving code → teardown_step s (set_fate s (Exited code))
| handler_flags : handler s = Notified → teardown_step s (set_handler (set_terminated s) (HandlerCleanup Begin_))
| handler_cleans c s' c' : handler s = HandlerCleanup c → c ≠ SayDone → carry_out s c = Some (s', c') →
    teardown_step s (set_handler s' (HandlerCleanup c'))
| handler_done : handler s = HandlerCleanup SayDone → teardown_step s (set_handler (Done s) Aborting)
| handler_exits : handler s = Aborting → teardown_step s (set_fate s (Exited 2)).

(** Until the process ends: such a step, the body, a signal, or a goroutine the
    body has left, which logs an error or panics. *)
Inductive process_step (s : program) : program → Prop :=
| body_works w ps : fate s = None → main s = Working → process_step s (set_pools s w ps)
| body_ends r : fate s = None → main s = Working → process_step s (set_main (set_outcome s r) (Unwinding r))
| own_step s' : fate s = None → teardown_step s s' → process_step s s'
| signal : fate s = None → handler s = Listening → process_step s (set_handler s Notified)
| logs code : fate s = None → code ≠ 0%Z → process_step s (SetErrorCode s code)
| dies msg : fate s = None → msg ≠ negative_counter → process_step s (set_fate s (Crashed msg)).

(** The steps as functions. *)
Definition main_step (s : program) : option program :=
  match main s with
  | Working => None
  | Unwinding r => Some (set_main (SetErrorCode s (code_recovered r (errorCode s))) Testing)
  | Testing => Some (set_main s (after_test s))
  | WaitingForHandler => if (CleanupGroup s =? 0)%Z then Some (set_main s (MainCleanup Begin_)) else None
  | MainCleanup SayDone => Some (set_main (Done s) Reading)
  | MainCleanup c => '(s', c') ← carry_out s c; Some (set_main s' (MainCleanup c'))
  | Reading => Some (set_main s (Leaving (errorCode s)))
  | Leaving code => Some (set_fate s (Exited code))
  end.
Definition handler_step (s : program) : option program :=
  match handler s with
  | Listening => None
  | Notified => Some (set_handler (set_terminated s) (HandlerCleanup Begin_))
  | HandlerCleanup SayDone => Some (set_handler (Done s) Aborting)
  | HandlerCleanup c => '(s', c') ← carry_out s c; Some (set_handler s' (HandlerCleanup c'))
  | Aborting => Some (set_fate s (Exited 2))
  end.
Lemma main_step_sound s s' : main_step s = Some s' → teardown_step s s'.
Proof.
  unfold main_step. destruct (main s) as [| | | |c| |] eqn:Hm; [done|..]; try (intros [= <-]; by constructor).
  - destruct (Z.eqb_spec (CleanupGroup s) 0); [|done]. intros [= <-]. by constructor.
  - destruct c; try (intros [= <-]; by constructor);
      (destruct (carry_out s _) as [[s1 c1]|] eqn:Hp; [|done]; intros [= <-]; by eapply main_cleans).
Qed.
Lemma handler_step_sound s s' : handler_step s = Some s' → teardown_step s s'.
Proof.
  unfold handler_step. destruct (handler s) as [| |c|] eqn:Hh; [done|..]; try (intros [= <-]; by constructor).
  destruct c; try (intros [= <-]; by constructor);
    (destruct (carry_out s _) as [[s1 c1]|] eqn:Hp; [|done]; intros [= <-]; by eapply handler_cleans).
Qed.
Lemma teardown_step_complete s s' : teardown_step s s' → main_step s = Some s' ∨ handler_step s = Some s'.
Proof.
  intros Hstep. destruct Hstep as [r Hm|Hm|Hm Hz|c s' c' Hm Hc Hp|Hm|Hm|code Hm|Hh|c s' c' Hh Hc Hp|Hh|Hh];
    try (left; unfold main_step; rewrite Hm); try (right; unfold handler_step; rewrite Hh); try done.
  - by rewrite Hz.
  - by destruct c; try done; rewrite Hp.
  - by destruct c; try done; rewrite Hp.
Qed.

(** * How many steps are left *)

Definition cleanup_left (c : cleanup) : nat :=
  match c with Begin_ => 6 | TerminateSrc => 5 | TerminateDest => 4 | CloseSrc => 3 | CloseDest => 2 | SayDone => 1 end.
Definition main_left (m : main_point) : nat :=
  match m with
  | Working => 13 | Unwinding _ => 12 | Testing => 11 | WaitingForHandler => 10
  | MainCleanup c => 2 + cleanup_left c | Reading => 2 | Leaving _ => 1
  end.
Definition handler_left (h : handler_phase) : nat :=
  match h with Listening => 10 | Notified => 9 | HandlerCleanup c => 1 + cleanup_left c | Aborting => 1 end.
Definition process_left (s : program) : nat :=
  match fate s with None => main_left (main s) + handler_left (handler s) | Some _ => 0 end.

Lemma cleanup_next_left t c r : c ≠ SayDone → cleanup_left (cleanup_next t c r) < cleanup_left c.
Proof. destruct r, c, t; simpl; done || lia. Qed.
Lemma main_left_pos m : 0 < main_left m.
Proof. destruct m as [| | | |[]| |]; simpl; lia. Qed.
Lemma handler_left_pos h : 0 < handler_left h.
Proof. destruct h as [| |[]|]; simpl; lia. Qed.

(** A statement changes nothing but the pools. *)
Lemma carry_out_frame s c s' c' : carry_out s c = Some (s', c') →
  ∃ w ps r, cleanup_call c (p_world s) (p_pools s) = Some (w, ps, r) ∧ s' = set_pools s w ps ∧ c' = cleanup_next (WasTerminated s) c r.
Proof. unfold carry_out. destruct (cleanup_call _ _ _) as [[[w ps] r]|]; [|done]. intros [= <- <-]. by exists w, ps, r. Qed.

(** Work of the body and log lines of other goroutines. *)
Definition idle_step (s s' : program) : Prop := ∃ w ps code, s' = SetErrorCode (set_pools s w ps) code.

Ltac process_cases Hstep :=
  destruct Hstep as [?w ?ps Hf Hm|?r Hf Hm|?s' Hf Hstep|Hf Hh|?code Hf Hnz|?msg Hf Hmsg];
  [..|destruct Hstep as [?r Hm|Hm|Hm Hz|?c ?s' ?c' Hm Hc Hp|Hm|Hm|?code Hm|Hh|?c ?s' ?c' Hh Hc Hp|Hh|Hh];
      try (apply carry_out_frame in Hp as (?w & ?ps & ?r & Hp & -> & ->))| | |].
Ltac by_phase :=
  repeat match goal with
  | H : fate ?s = None |- _ => is_var s; rewrite H in *; clear H
  | H : main ?s = _ |- _ => is_var s; rewrite H in *; clear H
  | H : handler ?s = _ |- _ => is_var s; rewrite H in *; clear H
  end.

Lemma process_step_left s s' : process_step s s' → process_left s' < process_left s ∨ idle_step s s'.
Proof.
  pose proof (main_left_pos (main s)). pose proof (handler_left_pos (handler s)).
  intros Hstep. process_cases Hstep; [by right; exists w, ps, (errorCode s)|left..|by right; exists (p_world s), (p_pools s), code|left];
    unfold process_left, after_test, Done; simpl; by_phase; simpl in *; try lia.
  - destruct (WasTerminated s); simpl; lia.
  - pose proof (cleanup_next_left (WasTerminated s) c r Hc). lia.
  - destruct (_ <? 0)%Z; simpl; lia.
  - pose proof (cleanup_next_left (WasTerminated s) c r Hc). lia.
  - destruct (_ <? 0)%Z; simpl; lia.
Qed.

(** * The invariant *)

Definition told (h : handler_phase) : bool := match h with Listening | Notified => false | _ => true end.
Definition said (m : main_point) : Z := match m with Reading | Leaving _ => 1 | _ => 0 end.
Definition handler_said (h : handler_phase) : Z := match h with Aborting => 1 | _ => 0 end.
(** The pool, when it was made, is closed. *)
Definition pool_closed (ps : list Pool) (i : nat) : Prop := ∀ p, ps !! i = Some p → ConnPool p = None.

(** What the code read, or to be read, says about the body. *)
Definition code_honest (s : program) : Prop :=
  match main s with
  | Working => outcome s = None
  | Unwinding r => ∃ code cut, outcome s = Some (r, code, cut) ∧ (errorCode s = 0 → code = 0)%Z
  | m => ∃ r code cut, outcome s = Some (r, code, cut) ∧
           (match m with Leaving c => c | _ => errorCode s end = 0%Z → panicked r = false ∧ code = 0%Z)
  end.
(** A body that was told to stop. *)
Definition cut_waits (s : program) : Prop :=
  ∀ r code, outcome s = Some (r, code, true) → WasTerminated s = true ∧
    match main s with
    | Working => False
    | MainCleanup _ => handler s = Aborting
    | Reading | Leaving _ => fate s = Some (Crashed negative_counter)
    | _ => True
    end.
(** Without a signal the pools are closed one by one. *)
Definition cleaned (s : program) : Prop :=
  handler s = Listening →
    match main s with
    | MainCleanup (TerminateSrc | TerminateDest) => False
    | MainCleanup CloseDest => pool_closed (p_pools s) srcManageConn
    | MainCleanup SayDone | Reading | Leaving _ => pool_closed (p_pools s) srcManageConn ∧ pool_closed (p_pools s) destManageConn
    | _ => True
    end.
(** How it ended. *)
Definition fated (s : program) : Prop :=
  match fate s with
  | None => (0 ≤ CleanupGroup s)%Z
  | Some (Exited c) => c = 2%Z ∧ handler s = Aborting ∨ main s = Leaving c
  | Some (Crashed msg) => msg = negative_counter → handler s = Aborting ∧ said (main s) = 1%Z
  end.
Record process_ok (s : program) : Prop := {
  po_flag : WasTerminated s = told (handler s);
  po_count : CleanupGroup s = (1 - said (main s) - handler_said (handler s))%Z;
  po_code : code_honest s;
  po_wait : main s = WaitingForHandler → WasTerminated s = true;
  po_cut : cut_waits s;
  po_clean : cleaned s;
  po_fate : fated s
}.

Lemma process_start_ok w : process_ok (process_start w).
Proof. by split. Qed.

Lemma flag_step s s' : process_step s s' → process_ok s → WasTerminated s' = told (handler s').
Proof. intros Hstep [Hflag _ _ _ _ _ _]. process_cases Hstep; simpl; by_phase; by simpl in *. Qed.

Lemma count_step s s' : process_step s s' → process_ok s →
  CleanupGroup s' = (1 - said (main s') - handler_said (handler s'))%Z.
Proof.
  intros Hstep [Hflag Hcount _ _ _ _ _]. process_cases Hstep; simpl; by_phase; simpl in *; try done; try lia.
  unfold after_test. by destruct (WasTerminated s).
Qed.

Lemma code_step s s' : process_step s s' → process_ok s → code_honest s'.
Proof.
  intros Hstep [_ _ Hcode _ _ _ _]. unfold code_honest in *. process_cases Hstep; simpl; by_phase; simpl in *; try done.
  - eexists _, _; split; [done|done].
  - destruct Hcode as (code & cut & Ho & Hcode). exists r, code, cut. split; [done|]. unfold code_recovered.
    destruct (panicked r); [|auto]. case_match; lia.
  - unfold after_test. destruct (WasTerminated s); done.
  - destruct (main s); try done; naive_solver.
Qed.

Lemma wait_step s s' : process_step s s' → process_ok s → main s' = WaitingForHandler → WasTerminated s' = true.
Proof.
  intros Hstep [_ _ _ Hwait _ _ _]. process_cases Hstep; simpl; by_phase; simpl in *; try done.
  unfold after_test. by destruct (WasTerminated s).
Qed.

Lemma cut_step s s' : process_step s s' → process_ok s → cut_waits s'.
Proof.
  intros Hstep [Hflag Hcount _ _ Hcut _ _]. unfold cut_waits in *. process_cases Hstep; simpl; intros ro code0 Ho; by_phase; simpl in *;
    try (specialize (Hcut _ _ Ho) as [Ht Hcut]); try (split; [done|by destruct (main s)]); try done.
  - by injection Ho as _ _ ->.
  - unfold after_test. by rewrite Ht.
  - split; [done|]. destruct (handler s); simpl in *; done || lia.
  - split; [done|]. rewrite Hcount, Hcut. done.
Qed.

(** Closing a pool that was made leaves it closed, and the others as they were. *)
Lemma close_call i w ps w' ps' r : if_made i (close_pool i) w ps = Some (w', ps', r) →
  r = Ok () ∧ pool_closed ps' i ∧ ∀ j, j ≠ i → ps' !! j = ps !! j.
Proof.
  unfold if_made, close_pool, on_pool, pool_closed. case_bool_decide as Hlt.
  - apply lookup_lt_is_Some in Hlt as [p Hp]. rewrite Hp. destruct (Close w p) as [w1 p1] eqn:Hc. intros [= <- <- <-].
    split; [done|]. split; [|by intros j Hj; rewrite list_lookup_insert_ne].
    intros q. rewrite list_lookup_insert_eq by (by apply lookup_lt_Some in Hp). intros [= <-].
    unfold Close in Hc. destruct (ConnPool p) as [conns|] eqn:Hconns; by injection Hc as _ <-.
  - intros [= <- <- <-]. split; [done|]. split; [|done]. intros p Hp%lookup_lt_Some. lia.
Qed.

Lemma cleaned_step s s' : process_step s s' → process_ok s → cleaned s'.
Proof.
  intros Hstep [Hflag _ _ _ _ Hclean _]. unfold cleaned in *. process_cases Hstep; simpl; intros Hl; by_phase; simpl in *; try done;
    try specialize (Hclean eq_refl); try done.
  - unfold after_test. by destruct (WasTerminated s).
  - rewrite Hflag. destruct c; try done; simpl in Hp.
    + by injection Hp as <- <- <-.
    + by apply close_call in Hp as (-> & Hclosed & _).
    + apply close_call in Hp as (-> & Hclosed & Hsame). split; [|done]. unfold pool_closed in *. by rewrite Hsame.
Qed.

Lemma fate_step s s' : process_step s s' → process_ok s → fated s'.
Proof.
  intros Hstep [_ Hcount _ _ _ _ Hfate]. unfold fated in *. process_cases Hstep; simpl; by_phase; simpl in *; try done; try by (left + right).
  - destruct (Z.ltb_spec (CleanupGroup s - 1) 0); [|lia]. intros _. split; [|done]. destruct (handler s); simpl in *; done || lia.
  - destruct (Z.ltb_spec (CleanupGroup s - 1) 0); [|lia]. intros _. split; [done|]. destruct (main s); simpl in *; done || lia.
Qed.

Lemma process_ok_steps w s : rtc process_step (process_start w) s → process_ok s.
Proof.
  apply (rtc_ind_r process_ok); [apply process_start_ok|]. intros s1 s2 _ Hstep Hok.
  split; [by eapply flag_step|by eapply count_step|by eapply code_step|by eapply wait_step|by eapply cut_step|by eapply cleaned_step|by eapply fate_step].
Qed.

(** * The end *)

(** Only a statement on a server may wait. *)
Lemma carry_out_waits s c : carry_out s c = None → c = TerminateSrc ∨ c = TerminateDest.
Proof.
  unfold carry_out. destruct c; simpl; [done|by left|by right| | |done];
    unfold if_made, close_pool, on_pool; case_bool_decide as Hlt; try done;
    apply lookup_lt_is_Some in Hlt as [p ->]; by destruct (Close (p_world s) p).
Qed.
Definition on_server (s : program) : Prop :=
  ∃ c, (main s = MainCleanup c ∨ handler s = HandlerCleanup c) ∧ (c = TerminateSrc ∨ c = TerminateDest) ∧ carry_out s c = None.

Lemma main_cleanup_moves s c : main s = MainCleanup c → (∃ s', teardown_step s s') ∨ on_server s.
Proof.
  intros Hm. destruct (decide (c = SayDone)) as [->|Hc]; [left; eexists; by apply main_done|].
  destruct (carry_out s c) as [[s' c']|] eqn:Hp; [left; eexists; by eapply main_cleans|right].
  exists c. split; [by left|]. split; [by eapply carry_out_waits|done].
Qed.
Lemma handler_moves s : told (handler s) = true → (∃ s', teardown_step s s') ∨ on_server s.
Proof.
  destruct (handler s) as [| |c|] eqn:Hh; try done; intros _; [|left; eexists; by apply handler_exits].
  destruct (decide (c = SayDone)) as [->|Hc]; [left; eexists; by apply handler_done|].
  destruct (carry_out s c) as [[s' c']|] eqn:Hp; [left; eexists; by eapply handler_cleans|right].
  exists c. split; [by right|]. split; [by eapply carry_out_waits|done].
Qed.
Lemma process_moves s : process_ok s → main s ≠ Working → (∃ s', teardown_step s s') ∨ on_server s.
Proof.
  intros Hok Hwork. destruct (main s) as [|r| | |c| |code] eqn:Hm; [done|left|left| | | |].
  - eexists. by apply main_recovers.
  - eexists. by apply main_tests.
  - apply handler_moves. rewrite <-(po_flag s Hok). by apply (po_wait s Hok).
  - by eapply main_cleanup_moves.
  - left. eexists. by apply main_reads.
  - left. eexists. by apply main_exits.
Qed.

(** What the exit code of the main goroutine says. *)
Lemma leaving_zero s : process_ok s → main s = Leaving 0 → ∃ r code cut, outcome s = Some (r, code, cut) ∧ panicked r = false ∧ code = 0%Z.
Proof. intros Hok Hm. pose proof (po_code s Hok) as Hcode. unfold code_honest in Hcode. rewrite Hm in Hcode. naive_solver. Qed.
Lemma exit_zero s : process_ok s → fate s = Some (Exited 0) → ∃ r, outcome s = Some (r, 0%Z, false) ∧ panicked r = false.
Proof.
  intros Hok Hf. pose proof (po_fate s Hok) as Hfate. unfold fated in Hfate. rewrite Hf in Hfate. destruct Hfate as [[? _]|Hm]; [done|].
  destruct (leaving_zero s Hok Hm) as (r & code & [] & Ho & Hr & ->); [|by exists r].
  destruct (po_cut s Hok r _ Ho) as [_ Hcut]. by rewrite Hm, Hf in Hcut.
Qed.
(** The main goroutine that waited for the handler brings the counter below zero. *)
Lemma told_to_stop s r code : process_ok s → outcome s = Some (r, code, true) →
  (∀ c, fate s = Some (Exited c) → c = 2%Z) ∧ (main s = MainCleanup SayDone → fate (Done s) = Some (Crashed negative_counter)).
Proof.
  intros Hok Ho. destruct (po_cut s Hok r code Ho) as [_ Hcut]. pose proof (po_fate s Hok) as Hfate. unfold fated in Hfate. split.
  - intros c Hf. rewrite Hf in Hfate. destruct Hfate as [[-> _]|Hm]; [done|]. by rewrite Hm, Hf in Hcut.
  - intros Hm. rewrite Hm in Hcut. unfold Done. simpl. by rewrite (po_count s Hok), Hm, Hcut.
Qed.
Lemma uninterrupted s : process_ok s → handler s = Listening →
  fate s ≠ Some (Crashed negative_counter) ∧
  (∀ c, fate s = Some (Exited c) → pool_closed (p_pools s) srcManageConn ∧ pool_closed (p_pools s) destManageConn).
Proof.
  intros Hok Hh. pose proof (po_fate s Hok) as Hfate. unfold fated in Hfate. split.
  - intros Hf. rewrite Hf in Hfate. destruct (Hfate eq_refl) as [Ha _]. congruence.
  - intros c Hf. rewrite Hf in Hfate. destruct Hfate as [[_ ?]|Hm]; [congruence|]. pose proof (po_clean s Hok Hh) as Hclean. by rewrite Hm in Hclean.
Qed.

(** * The run of [Application] is one of these *)

Definition body_result {A} (r : go A) : go () := let! _ := r in Ok ().
Lemma log_some s code : fate s = None → rtc (process_step) s (if (code =? 0)%Z then s else SetErrorCode s code).
Proof. intros Hf. destruct (Z.eqb_spec code 0); [done|]. by apply rtc_once, logs. Qed.
Lemma own_steps s s' : fate s = None → teardown_step s s' → rtc process_step s s'.
Proof. intros. by apply rtc_once, own_step. Qed.

(** From the end of the body to the exit, without a signal. *)
Definition left_main (s : program) (w : world) (ps : list Pool) (code : Z) : program :=
  set_fate (set_main (Done (set_main (set_pools (SetErrorCode s code) w ps) (MainCleanup SayDone))) (Leaving code)) (Exited code).
Lemma main_leaves s r w ps : fate s = None → main s = Unwinding r → WasTerminated s = false → CleanupGroup s = 1%Z →
  doCleanup applicationName false (p_world s) (p_pools s) = Some (w, ps, Ok ()) →
  rtc process_step s (left_main s w ps (code_recovered r (errorCode s))).
Proof.
  intros Hf Hm Ht Hn Hcl. unfold doCleanup, recovered, and_next, halt in Hcl.
  destruct (if_made srcManageConn _ _ _) as [[[w1 ps1] r1]|] eqn:H1; [|done]. pose proof (close_call _ _ _ _ _ _ H1) as (-> & _ & _).
  destruct (if_made destManageConn _ w1 ps1) as [[[w2 ps2] r2]|] eqn:H2; [|done]. pose proof (close_call _ _ _ _ _ _ H2) as (-> & _ & _).
  injection Hcl as -> ->. destruct s as [m h t n code w0 ps0 o f]. simpl in *. subst f m t n.
  etrans; [apply own_steps; [done|by apply main_recovers]|].
  etrans; [apply own_steps; [done|by apply main_tests]|]. unfold after_test. simpl.
  etrans; [apply own_steps; [done|by eapply (main_cleans _ Begin_)]|].
  etrans; [apply own_steps; [done|eapply (main_cleans _ CloseSrc); [done..|unfold carry_out; simpl; by rewrite H1]]|].
  etrans; [apply own_steps; [done|eapply (main_cleans _ CloseDest); [done..|unfold carry_out; simpl; by rewrite H2]]|]. simpl.
  etrans; [apply own_steps; [done|by apply main_done]|].
  etrans; [apply own_steps; [done|by apply main_reads]|].
  etrans; [apply own_steps; [done|by eapply main_exits]|]. done.
Qed.
End teardown.

(** * The theorem *)

Section run.
Context `{Driver} `{SemverLib} `{MapRange} `{FlagSet F} `{Selects SegmentHostInfo}.
Context (Open : string → go string) (applicationName timestamp : string).
Context (src_catalogue dest_catalogue : string → QueryWrapper.DBConn) (script_of : string → script * script).

(** The run of [Application] that no signal reaches, with the error code the
    body has left. *)
Theorem run_ends_process flags w w' r code :
  Run Open applicationName timestamp src_catalogue dest_catalogue script_of flags false w = Some (w', r) →
  ∃ s, rtc (process_step applicationName) (process_start w) s ∧ p_world s = w' ∧ handler s = Listening ∧
    fate s = Some (Exited (code_recovered (body_result r) code)).
Proof.
  unfold Run. destruct (run_body _ _ _ _ _ _ _ w []) as [[[w1 ps1] r1]|]; [|done].
  destruct (doCleanup applicationName false w1 ps1) as [[[w2 ps2] r2]|] eqn:Hcl; [|done]. intros [= <- <-].
  assert (Hr2 : r2 = Ok ()) by (revert Hcl; unfold doCleanup, recovered; destruct (and_next _ _ w1 ps1) as [[[? ?] ?]|]; [by intros [= _ _ <-]|done]).
  subst r2. set (s1 := set_pools (process_start w) w1 ps1).
  set (s2 := if (code =? 0)%Z then s1 else SetErrorCode s1 code).
  assert (Hs2 : main s2 = Working ∧ fate s2 = None ∧ handler s2 = Listening ∧ errorCode s2 = code ∧ WasTerminated s2 = false ∧ CleanupGroup s2 = 1%Z ∧
    p_world s2 = w1 ∧ p_pools s2 = ps1) by (unfold s2; destruct (Z.eqb_spec code 0) as [->|]; done).
  destruct Hs2 as (Hm & Hf & Hh & Hc & Ht & Hn & Hw & Hp).
  exists (left_main (set_main (set_outcome s2 (body_result r1)) (Unwinding (body_result r1))) w2 ps2 (code_recovered (body_result r1) code)).
  split; [|by rewrite <-Hh].
  etrans; [apply rtc_once, (body_works _ (process_start w) w1 ps1); done|]. etrans; [by apply (log_some applicationName s1 code)|].
  etrans; [apply rtc_once, (body_ends _ s2 (body_result r1)); done|]. rewrite <-Hw, <-Hp in Hcl.
  rewrite <-Hc. by apply (main_leaves applicationName (set_main (set_outcome s2 (body_result r1)) (Unwinding (body_result r1)))).
Qed.
End run.

(** C30: How a run ends, whatever the body, the servers and a signal do and however
    the goroutines interleave. Exit code 0 means that the body returned, had
    logged no error and was not told to stop. Behind the body the process goes
    on to its end, unless a server does not answer the statement that ends the
    hanging sessions. Without a signal the management pools are closed at the
    exit, and the wait group does not panic. After a signal that the body has
    seen the code cannot be other than 2, but not in the way that is meant: the main
    goroutine waits for the handler's clean-up and then cleans up again, which
    brings the counter of the wait group below zero and crashes the process when
    the handler has not left it first (copy.go:373, copy.go:402). *)
Theorem how_a_run_ends `{Driver} `{SemverLib} (applicationName : string) (w : world) (s : program) :
  rtc (process_step applicationName) (process_start w) s →
  (fate s = Some (Exited 0) → ∃ r, outcome s = Some (r, 0%Z, false) ∧ panicked r = false) ∧
  (fate s = None → main s ≠ Working → (∃ s', teardown_step applicationName s s') ∨ on_server applicationName s) ∧
  (∀ s', process_step applicationName s s' → process_left s' < process_left s ∨ idle_step s s') ∧
  (handler s = Listening → fate s ≠ Some (Crashed negative_counter) ∧
     ∀ c, fate s = Some (Exited c) → pool_closed (p_pools s) srcManageConn ∧ pool_closed (p_pools s) destManageConn) ∧
  (∀ r code, outcome s = Some (r, code, true) →
     (∀ c, fate s = Some (Exited c) → c = 2%Z) ∧ (main s = MainCleanup SayDone → fate (Done s) = Some (Crashed negative_counter))).
Proof.
  intros Hrun. pose proof (process_ok_steps applicationName w s Hrun) as Hok.
  split; [by apply exit_zero|]. split; [intros _; by apply process_moves|]. split; [by apply process_step_left|].
  split; [by apply uninterrupted|]. intros r code. by apply told_to_stop.
Qed.

(** * A run that is interrupted *)

#[local] Instance answering : Driver := {|
  Dial _ _ := None;
  AnswerExec _ _ := Ok 0%Z;
  AnswerGet _ _ := Ok "";
  AnswerSelect _ _ := Ok [];
  AnswerRows _ _ := Ok {| Columns := 1; row_scans := []; Rows_Err := None |}
|}.
Definition cbdb_pool (h : nat) : Pool :=
  {| ConnPool := Some [Some h]; p_NumConns := 1; User := "gpadmin"; Password := ""; Connections.DBName := "postgres"; Connections.Host := "mdw";
     Connections.Port := 5432; p_Tx := [false]; p_Version := {| VersionString := "1.0"; SemVer := semver0; Type_ := CBDB |} |}.
Definition two_sessions : world := {| w_dialled := 2; w_sessions := {[0 := idle; 1 := idle]}; w_sent := [] |}.
(** The steps of one goroutine after the other: the handler's when [true]. *)
Fixpoint moves (l : list bool) (s : program) : option program :=
  match l with
  | [] => Some s
  | who :: l => match fate s with
                | Some _ => None
                | None => s ← (if who then handler_step "cbcopy_1" s else main_step "cbcopy_1" s); moves l s
                end
  end.
Lemma moves_sound l s s' : moves l s = Some s' → rtc (process_step "cbcopy_1") s s'.
Proof.
  revert s. induction l as [|who l IH]; intros s; simpl; [by intros [= ->]|]. destruct (fate s) eqn:Hf; [done|].
  destruct who; [destruct (handler_step _ s) as [s1|] eqn:H1|destruct (main_step _ s) as [s1|] eqn:H1]; try done; intros Hl;
    (eapply rtc_l; [apply own_step; [done|]|by apply IH]); [by apply handler_step_sound|by apply main_step_sound].
Qed.

(** The pools are made, the signal arrives, and the body returns. *)
Definition in_the_body : program := set_pools (process_start no_sessions) two_sessions [cbdb_pool 0; cbdb_pool 1].
Definition told_s : program := set_handler (set_terminated (set_handler in_the_body Notified)) (HandlerCleanup Begin_).
Definition body_over : program := set_main (set_outcome told_s (Ok ())) (Unwinding (Ok ())).
Lemma body_over_reached : rtc (process_step "cbcopy_1") (process_start no_sessions) body_over.
Proof.
  etrans; [apply rtc_once, (body_works _ _ two_sessions [cbdb_pool 0; cbdb_pool 1]); reflexivity|].
  etrans; [apply rtc_once, (signal _ in_the_body); reflexivity|].
  etrans; [apply rtc_once, (own_step _ (set_handler in_the_body Notified)); [reflexivity|]; by apply handler_flags|].
  apply rtc_once, (body_ends _ told_s); reflexivity.
Qed.
(** The main goroutine waits; the handler cleans up and is slow to leave; the main
    goroutine cleans up a second time. *)
Definition crash : option program :=
  moves ([false; false] ++ replicate 6 true ++ [false; false; false; false]) body_over.

Lemma how_a_run_ends_witness :
  match crash with
  | Some s => fate s = Some (Crashed negative_counter) ∧ WasTerminated s = true ∧ outcome s = Some (Ok (), 0%Z, true) ∧
      length (w_sent (p_world s)) = 2 ∧ w_sessions (p_world s) = ∅ ∧ ∀ c, fate s = Some (Exited c) → c = 2%Z
  | None => False
  end.
Proof.
  destruct crash as [s|] eqn:Hs; [|vm_compute in Hs; discriminate Hs].
  assert (Hrun : rtc (process_step "cbcopy_1") (process_start no_sessions) s).
  { etrans; [apply body_over_reached|]. apply (moves_sound _ _ _ Hs). }
  destruct (how_a_run_ends "cbcopy_1" no_sessions s Hrun) as (_ & _ & _ & _ & Hcut).
  assert (Hfacts : fate s = Some (Crashed negative_counter) ∧ WasTerminated s = true ∧ outcome s = Some (Ok (), 0%Z, true) ∧
    length (w_sent (p_world s)) = 2 ∧ w_sessions (p_world s) = ∅) by (vm_compute in Hs; injection Hs as <-; repeat split; reflexivity).
  destruct Hfacts as (H1 & H2 & H3 & H4 & H5). repeat (split; [assumption|]). apply (Hcut _ _ H3).
Defined.
