(* ===== verification/Pipeline.v ===== *)
(** The migration of a database as a whole ([copy/copy_metadata.go] with
    [copy/copy.go] and [copy/copy_manager.go]): which of the managers fills the
    channel of table pairs and which closes it, and how the main goroutine, the
    restore of the definitions and the copy workers wait for each other. *)
From S2P Require Import Prelude Utils Options Validator QueryWrapper.

(** * Who does what *)

(** What [MigrateMetadata] starts: it fills the channel itself, or one of the
    three copies of metadata does, in a goroutine. *)
Inductive migration := FillPairs | CopyDatabase | CopySchema | CopyTables.
#[export] Instance migration_eq : EqDecision migration.
Proof. solve_decision. Defined.
Definition MigrateMetadata (metadataOnly dataOnly : bool) (config : Option_) : migration :=
  if negb (ContainsMetadata metadataOnly dataOnly) then FillPairs
  else match copyMode config with
       | CopyModeFull | CopyModeDb => CopyDatabase
       | CopyModeSchema => CopySchema
       | CopyModeTable => if bool_decide (length (destTables config) = 0) then CopyTables else FillPairs
       end.
(** [CopyManager.Copy] closes the channel itself. *)
Definition copy_closes (metadataOnly dataOnly : bool) (config : Option_) : bool :=
  negb (ContainsMetadata metadataOnly dataOnly) || bool_decide (0 < length (destTables config)).
(** [Wait] waits for the restore, and [RestorePostMetadata] restores. *)
Definition Wait_waits (metadataOnly dataOnly : bool) : bool := ContainsMetadata metadataOnly dataOnly.
Definition RestorePostMetadata_restores (metadataOnly dataOnly : bool) (config : Option_) : bool :=
  ContainsMetadata metadataOnly dataOnly && negb (bool_decide (0 < length (destTables config))).

(** * The goroutines *)

(** The main goroutine, in [fillTablePairChan], behind [MigrateMetadata], in
    [wg.Wait] of [Copy], in [Wait], and past it. *)
Inductive main_phase := Filling | Migrated | Joining | Waiting | Finished.
#[export] Instance main_phase_eq : EqDecision main_phase.
Proof. solve_decision. Defined.
Inductive worker := Idle | Busy | Returned.
#[export] Instance worker_eq : EqDecision worker.
Proof. solve_decision. Defined.

(** [to_send]: what the producer has still to send; [restoring]: the goroutine
    of the restore runs; [tablec] with its buffer; [donec] closed or not. *)
Record pipeline := {
  phase : main_phase; to_send : list TablePair; restoring : bool;
  tablec : list TablePair; tablec_closed : bool; donec_closed : bool;
  workers : list worker; received : list TablePair; panicked : bool
}.

Section pipeline.
Context (metadataOnly dataOnly : bool) (config : Option_) (capacity : nat).
Local Abbreviation closes := (copy_closes metadataOnly dataOnly config).

Definition set_phase (s : pipeline) (p : main_phase) : pipeline :=
  {| phase := p; to_send := to_send s; restoring := restoring s; tablec := tablec s; tablec_closed := tablec_closed s;
     donec_closed := donec_closed s; workers := workers s; received := received s; panicked := panicked s |}.
(** Sending on a closed channel panics. *)
Definition send_pair (s : pipeline) (tp : TablePair) (rest : list TablePair) : pipeline :=
  {| phase := phase s; to_send := rest; restoring := restoring s; tablec := tablec s ++ [tp]; tablec_closed := tablec_closed s;
     donec_closed := donec_closed s; workers := workers s; received := received s; panicked := panicked s || tablec_closed s |}.
(** Closing a closed channel panics. *)
Definition close_donec (s : pipeline) : pipeline :=
  {| phase := phase s; to_send := to_send s; restoring := false; tablec := tablec s; tablec_closed := tablec_closed s;
     donec_closed := true; workers := workers s; received := received s; panicked := panicked s || donec_closed s |}.
Definition close_tablec (s : pipeline) : pipeline :=
  {| phase := phase s; to_send := to_send s; restoring := restoring s; tablec := tablec s; tablec_closed := true;
     donec_closed := donec_closed s; workers := workers s; received := received s; panicked := panicked s || tablec_closed s |}.
Definition set_worker (s : pipeline) (i : nat) (ph : worker) (buffer got : list TablePair) : pipeline :=
  {| phase := phase s; to_send := to_send s; restoring := restoring s; tablec := buffer; tablec_closed := tablec_closed s;
     donec_closed := donec_closed s; workers := <[i := ph]> (workers s); received := got; panicked := panicked s |}.

(** The copy of a table ends (by [CopyManager]); workers run from [Joining] on. *)
Inductive pipeline_step (s : pipeline) : pipeline → Prop :=
| fill_send tp rest : phase s = Filling → to_send s = tp :: rest → length (tablec s) < capacity → pipeline_step s (send_pair s tp rest)
| fill_end : phase s = Filling → to_send s = [] → pipeline_step s (set_phase (close_donec s) Migrated)
| restore_send tp rest : restoring s = true → to_send s = tp :: rest → length (tablec s) < capacity → pipeline_step s (send_pair s tp rest)
| restore_end : restoring s = true → to_send s = [] → pipeline_step s (close_donec (close_tablec s))
| main_skips_copy : phase s = Migrated → metadataOnly = true → pipeline_step s (set_phase s Waiting)
| main_copies : phase s = Migrated → metadataOnly = false →
    pipeline_step s (set_phase (if closes then close_tablec s else s) Joining)
| main_joins : phase s = Joining → Forall (λ w, w = Returned) (workers s) → pipeline_step s (set_phase s Waiting)
| main_waits : phase s = Waiting → (Wait_waits metadataOnly dataOnly = false ∨ donec_closed s = true) → pipeline_step s (set_phase s Finished)
| worker_receives i tp rest : phase s = Joining → workers s !! i = Some Idle → tablec s = tp :: rest →
    pipeline_step s (set_worker s i Busy rest (received s ++ [tp]))
| worker_copies i : phase s = Joining → workers s !! i = Some Busy → pipeline_step s (set_worker s i Idle (tablec s) (received s))
| worker_returns i : phase s = Joining → workers s !! i = Some Idle → tablec s = [] → tablec_closed s = true →
    pipeline_step s (set_worker s i Returned [] (received s)).

(** [pairs] to be sent, [n] copy workers. *)
Definition pipeline_start (pairs : list TablePair) (n : nat) : pipeline :=
  let fills := bool_decide (MigrateMetadata metadataOnly dataOnly config = FillPairs) in
  {| phase := if fills then Filling else Migrated; to_send := pairs; restoring := negb fills; tablec := []; tablec_closed := false;
     donec_closed := false; workers := replicate n Idle; received := []; panicked := false |}.
End pipeline.

(** * Validated options *)

Section options.
Context `{FlagSet F} (Open : string → go string) (fs : F) (Hwt : well_typed fs).

Lemma validateTables_length title tables result : validateTables title tables = Ok result → length result = length tables.
Proof.
  unfold validateTables. intros (r & Hr & Heq)%bind_Ok_iff. case_bool_decide; [done|]. injection Heq as <-.
  apply go_map_Ok, Forall2_length in Hr. done.
Qed.

(** A list of tables is the flag's or, when that is empty, the file's. *)
Lemma getTables_nil tableFlag fileFlag title result : has_type tableFlag TStringSlice = true → has_type fileFlag TString = true →
  getTables Open fs tableFlag fileFlag title = Ok result →
  result = [] ↔ slicev fs tableFlag = [] ∧ (strv fs fileFlag = "" ∨ ReadTableFile Open (strv fs fileFlag) = Ok []).
Proof.
  intros Ht Hf Hget. pose proof (slice_value fs Hwt tableFlag Ht) as Hslice. pose proof (str_value fs Hwt fileFlag Hf) as Hstr.
  unfold MustGetFlagStringSlice, MustGetFlagString in *. unfold getTables in Hget.
  destruct (GetStringSlice fs tableFlag) as [tables| | |]; try done. injection Hslice as ->.
  cbn [mbind go_bind] in Hget. apply bind_Ok_iff in Hget as (ts & Hts & Hv%validateTables_length).
  rewrite <-length_nil, Hv, length_nil. case_bool_decide as Hz.
  - apply length_nil in Hz. unfold ReadTableFileByFlag in Hts. destruct (GetString fs fileFlag) as [f| | |]; try done. injection Hstr as ->.
    simpl in Hts. case_bool_decide as Hlen.
    + apply len_pos in Hlen. destruct (ReadTableFile Open (strv fs fileFlag)) as [l| | |]; try done. injection Hts as <-. simpl. naive_solver.
    + injection Hts as <-. assert (strv fs fileFlag = "") by (apply len_zero; lia). simpl. naive_solver.
  - injection Hts as <-. rewrite length_nil in Hz. naive_solver.
Qed.

(** Accepted flags name destination tables only with included tables. *)
Lemma accepted_dest_tables config : ValidateAll Open fs = Ok () → NewOption Open fs = Ok config →
  destTables config ≠ [] → copyMode config = CopyModeTable.
Proof.
  intros Hvalid Hnew. assert (Htable : validateTable Open fs = Ok ()).
  { unfold ValidateAll in Hvalid. rewrite go_fold_unit_Ok in Hvalid. apply Hvalid. unfold validators. set_solver. }
  apply (validateTable_Ok Open fs Hwt) in Htable as [[_ Hdest] Hfiles]. unfold NewOption in Hnew.
  apply bind_Ok_iff in Hnew as (cm & _ & Hnew). apply bind_Ok_iff in Hnew as (sdb & _ & Hnew). apply bind_Ok_iff in Hnew as (ddb & _ & Hnew).
  apply bind_Ok_iff in Hnew as (ex & _ & Hnew). apply bind_Ok_iff in Hnew as ([[ss ds] mode] & _ & Hnew).
  apply bind_Ok_iff in Hnew as (include & Hinclude & Hnew). apply bind_Ok_iff in Hnew as (dest & Hdt & Hnew).
  apply bind_Ok_iff in Hnew as (owners & _ & Hnew). apply bind_Ok_iff in Hnew as (spaces & _ & Hnew). injection Hnew as <-. simpl.
  apply getTables_nil in Hinclude; [|done..]. apply getTables_nil in Hdt; [|done..].
  intros Hne. rewrite bool_decide_true; [done|]. apply length_pos. rewrite Hdt in Hne. rewrite Hinclude. clear Hdt Hinclude.
  intros [Hi1 Hi2]. apply Hne. destruct Hdest as [Hd|]; [|done]. split; [done|]. destruct Hfiles as [|(Hif & src & dst & Hsrc & Hdst & _ & Hor)]; [by left|right].
  rewrite Hdst. f_equal. destruct Hor as [|Hsrcne]; [done|]. destruct Hi2 as [|Hi2]; [done|]. rewrite Hsrc in Hi2. by injection Hi2.
Qed.
End options.

(** * The whole ends *)

Section theorems.
Context (metadataOnly dataOnly : bool) (config : Option_) (capacity : nat) (pairs : list TablePair) (n : nat).
Context (Hcapacity : length pairs ≤ capacity) (Hworkers : 0 < n).
(** Named destination tables come with included tables. *)
Context (Hdest : destTables config ≠ [] → copyMode config = CopyModeTable).
Local Abbreviation closes := (copy_closes metadataOnly dataOnly config).
Local Abbreviation fills := (MigrateMetadata metadataOnly dataOnly config = FillPairs).
Local Abbreviation step := (pipeline_step metadataOnly dataOnly config capacity).

(** The copy closes the channel exactly when no restore does. *)
Lemma closes_fills : closes = true ↔ fills.
Proof.
  unfold copy_closes, MigrateMetadata. destruct (ContainsMetadata metadataOnly dataOnly); simpl; [|done].
  rewrite bool_decide_eq_true. destruct (destTables config) as [|t l] eqn:Ht.
  - simpl. split; [lia|]. by destruct (copyMode config).
  - rewrite Hdest by done. simpl. split; [done|lia].
Qed.
Lemma fills_waits : ¬ fills → Wait_waits metadataOnly dataOnly = true.
Proof. unfold MigrateMetadata, Wait_waits. destruct (ContainsMetadata metadataOnly dataOnly); [done|]. by intros []. Qed.

Definition started (p : main_phase) : bool := match p with Filling | Migrated => false | _ => true end.
Definition joined (p : main_phase) : bool := match p with Waiting | Finished => true | _ => false end.

Record pipeline_ok (s : pipeline) : Prop := {
  po_panic : panicked s = false;
  po_pairs : received s ++ tablec s ++ to_send s = pairs;
  po_workers : length (workers s) = n;
  po_restoring : restoring s = true → ¬ fills;
  po_filling : phase s = Filling → fills ∧ donec_closed s = false;
  po_sent : phase s ≠ Filling → restoring s = false → to_send s = [] ∧ donec_closed s = true;
  po_donec : restoring s = true → donec_closed s = false;
  po_tablec_restore : ¬ fills → tablec_closed s = negb (restoring s);
  po_tablec_fill : fills → tablec_closed s = negb metadataOnly && started (phase s);
  po_returned : Returned ∈ workers s → tablec s = [] ∧ to_send s = [] ∧ tablec_closed s = true;
  po_idle : started (phase s) = false ∨ metadataOnly = true → received s = [] ∧ Forall (λ w, w = Idle) (workers s);
  po_joined : metadataOnly = false → joined (phase s) = true → Forall (λ w, w = Returned) (workers s);
  po_meta : metadataOnly = true → phase s ≠ Joining;
  po_finished : phase s = Finished → to_send s = [] ∧ restoring s = false
}.

Lemma pipeline_ok_start : pipeline_ok (pipeline_start metadataOnly dataOnly config pairs n).
Proof.
  assert (Hidle : Forall (λ w, w = Idle) (replicate n Idle)) by by apply Forall_replicate.
  assert (Hno : Returned ∉ replicate n Idle) by (intros [? _]%elem_of_replicate; done).
  unfold pipeline_start. destruct (bool_decide_reflect fills) as [Hf|Hf]; split; simpl; try done; try (by rewrite length_replicate).
  - intros _. by rewrite andb_false_r.
Qed.

Lemma in_insert (ws : list worker) i w x : x ∈ <[i := w]> ws → x = w ∨ x ∈ ws.
Proof.
  intros [j Hj]%list_elem_of_lookup. apply list_lookup_insert_Some in Hj as [(_ & <- & _)|[_ Hj]]; [by left|right].
  by eapply list_elem_of_lookup_2.
Qed.

Lemma pipeline_ok_step s s' : pipeline_ok s → step s s' → pipeline_ok s'.
Proof.
  intros Hok Hstep. pose proof Hok as [Hpanic Hpairs Hlen Hres Hfil Hsent Hdon Htr Htf Hret Hidle Hjoin Hmeta Hfin].
  assert (Hno : Returned ∈ workers s → to_send s = [] ∧ tablec s = []) by (intros Hin; destruct (Hret Hin) as (? & ? & _); done).
  destruct Hstep as [tp rest Hp Hs Hc|Hp Hs|tp rest Hr Hs Hc|Hr Hs|Hp Hm|Hp Hm|Hp Hall|Hp Hd|i tp rest Hp Hi Ht|i Hp Hi|i Hp Hi Ht Hcl].
  - destruct (Hfil Hp) as [Hf Hd]. specialize (Htf Hf). rewrite Hp, andb_false_r in Htf. split; simpl; rewrite ?Hp in *; try done; auto.
    + by rewrite Hpanic, Htf.
    + by rewrite <-Hpairs, Hs, <-!app_assoc.
    + by rewrite andb_false_r.
    + intros [Hnil _]%Hno. by rewrite Hnil in Hs.
  - destruct (Hfil Hp) as [Hf Hd]. specialize (Htf Hf). rewrite Hp, andb_false_r in Htf. split; simpl; rewrite ?Hp in *; try done; auto.
    + by rewrite Hpanic, Hd.
    + by rewrite andb_false_r.
  - pose proof (Htr (Hres Hr)) as Hcl. rewrite Hr in Hcl. simpl in Hcl. split; simpl; try done; auto.
    + by rewrite Hpanic, Hcl.
    + by rewrite <-Hpairs, Hs, <-!app_assoc.
    + intros _. congruence.
    + intros [Hnil _]%Hno. by rewrite Hnil in Hs.
    + intros [_ Hfalse]%Hfin. congruence.
  - pose proof (Htr (Hres Hr)) as Hcl. rewrite Hr in Hcl. simpl in Hcl. split; simpl; try done; auto.
    + by rewrite Hpanic, Hcl, Hdon.
    + intros [Hf _]%Hfil. by destruct (Hres Hr).
    + intros Hf. by destruct (Hres Hr).
    + intros [? ?]%Hno. done.
  - split; simpl; rewrite ?Hp in *; try done; auto.
    + intros Hf. rewrite Htf, Hm by done. done.
    + by rewrite Hm.
  - assert (Hq : ∀ b : bool, closes = b → pipeline_ok (set_phase (if b then close_tablec s else s) Joining)); [|by apply Hq].
    intros [] Hcl.
    + assert (Hf : fills) by by apply closes_fills. specialize (Htf Hf). rewrite Hp, andb_false_r in Htf.
      split; simpl; rewrite ?Hp in *; try done; auto.
      * by rewrite Hpanic, Htf.
      * by rewrite Hm.
      * intros [? ?]%Hno. done.
      * by rewrite Hm.
    + assert (Hf : ¬ fills) by (intros Hf; by rewrite (proj2 closes_fills Hf) in Hcl).
      split; simpl; rewrite ?Hp in *; try done; auto. by rewrite Hm.
  - split; simpl; rewrite ?Hp in *; try done; auto.
  - assert (Hsend : to_send s = [] ∧ restoring s = false).
    { destruct (restoring s) eqn:Hr; [exfalso|split; [apply Hsent; [by rewrite Hp|done]|done]].
      destruct Hd as [Hd|Hd]; [by rewrite fills_waits in Hd; auto|by rewrite Hdon in Hd]. }
    split; simpl; rewrite ?Hp in *; try done; auto.
  - split; simpl; rewrite ?Hp, ?length_insert in *; try done; auto.
    + by rewrite <-Hpairs, Ht, <-!app_assoc.
    + intros [|[_ Hnil]%Hno]%in_insert; [done|]. by rewrite Hnil in Ht.
    + intros [|Hm]; [done|]. by destruct (Hmeta Hm).
  - split; simpl; rewrite ?Hp, ?length_insert in *; try done; auto.
    + intros [|Hin]%in_insert; [done|]. auto.
    + intros [|Hm]; [done|]. by destruct (Hmeta Hm).
  - assert (Hdone : to_send s = []).
    { apply Hsent; [by rewrite Hp|]. destruct (restoring s) eqn:Hr; [|done]. by rewrite (Htr (Hres eq_refl)) in Hcl. }
    split; simpl; rewrite ?Hp, ?length_insert in *; try done; auto.
    + by rewrite <-Hpairs, Ht.
    + intros [|Hm]; [done|]. by destruct (Hmeta Hm).
Qed.

(** ** No deadlock *)

(** Pairs on their way, workers to return, and the main goroutine's way. *)
Definition worker_left (w : worker) : nat := match w with Idle => 1 | Busy => 2 | Returned => 0 end.
Definition phase_left (p : main_phase) : nat := match p with Filling => 4 | Migrated => 3 | Joining => 2 | Waiting => 1 | Finished => 0 end.
Definition pipeline_left (s : pipeline) : nat :=
  3 * length (to_send s) + 2 * length (tablec s) + sum_list_with worker_left (workers s) + phase_left (phase s) + if restoring s then 1 else 0.

Lemma pipeline_step_decreases s s' : pipeline_ok s → step s s' → pipeline_left s' < pipeline_left s.
Proof.
  intros Hok [tp rest Hp Hs Hc|Hp Hs|tp rest Hr Hs Hc|Hr Hs|Hp Hm|Hp Hm|Hp Hall|Hp Hd|i tp rest Hp Hi Ht|i Hp Hi|i Hp Hi Ht Hcl]; unfold pipeline_left; simpl.
  - rewrite Hs, length_app. simpl. lia.
  - rewrite Hp. simpl. destruct (restoring s); lia.
  - rewrite Hs, length_app. simpl. lia.
  - rewrite Hr. lia.
  - rewrite Hp. simpl. lia.
  - rewrite Hp. destruct closes; simpl; lia.
  - rewrite Hp. simpl. lia.
  - rewrite Hp. simpl. lia.
  - destruct (sum_list_insert worker_left _ _ _ Busy Hi) as (? & ? & ?). rewrite Ht. simpl in *. lia.
  - destruct (sum_list_insert worker_left _ _ _ Idle Hi) as (? & ? & ?). simpl in *. lia.
  - destruct (sum_list_insert worker_left _ _ _ Returned Hi) as (? & ? & ?). rewrite Ht. simpl in *. lia.
Qed.

(** The producer is never held up: the channel has room for every pair. *)
Lemma producer_steps s : pipeline_ok s → phase s = Filling ∨ restoring s = true → ∃ s', step s s'.
Proof.
  intros Hok Hp. destruct (to_send s) as [|tp rest] eqn:Hs.
  - destruct Hp as [Hp|Hr]; eexists; [by apply fill_end|by apply restore_end].
  - assert (Hroom : length (tablec s) < capacity).
    { pose proof (po_pairs _ Hok) as Hpairs. apply (f_equal length) in Hpairs. rewrite !length_app, Hs in Hpairs. simpl in Hpairs. lia. }
    destruct Hp as [Hp|Hr]; eexists; [by eapply fill_send|by eapply restore_send].
Qed.

Lemma pipeline_progress s : pipeline_ok s → phase s = Finished ∨ ∃ s', step s s'.
Proof.
  intros Hok. destruct (phase s) eqn:Hp; [right..|by left].
  - apply producer_steps; auto.
  - destruct metadataOnly eqn:Hm; eexists; rewrite <-Hm; [by apply main_skips_copy|by apply main_copies].
  - destruct (restoring s) eqn:Hr; [apply producer_steps; auto|].
    destruct (decide (Forall (λ w, w = Returned) (workers s))) as [Hall|Hnot]; [eexists; by apply main_joins|].
    apply not_Forall_Exists in Hnot; [|apply _]. apply Exists_exists in Hnot as (w & [i Hi]%list_elem_of_lookup & Hw).
    destruct w; [|eexists; by eapply worker_copies|by destruct Hw].
    destruct (tablec s) as [|tp rest] eqn:Ht; [|eexists; by eapply worker_receives]. eexists. eapply worker_returns; try done.
    assert (Hmo : metadataOnly = false) by (destruct metadataOnly eqn:Hm; [by destruct (po_meta _ Hok Hm)|done]).
    destruct (decide fills) as [Hf|Hf]; [rewrite (po_tablec_fill _ Hok Hf), Hp|rewrite (po_tablec_restore _ Hok Hf), Hr]; by rewrite ?Hmo.
  - destruct (restoring s) eqn:Hr; [apply producer_steps; auto|]. eexists. apply main_waits; [done|]. right.
    apply (po_sent _ Hok); [by rewrite Hp|done].
Qed.

Lemma pipeline_ok_steps s : rtc step (pipeline_start metadataOnly dataOnly config pairs n) s → pipeline_ok s.
Proof.
  apply (rtc_ind_r pipeline_ok); [apply pipeline_ok_start|]. intros s1 s2 _ Hstep Hok. by eapply pipeline_ok_step.
Qed.

Lemma pipeline_ends (s : pipeline) (Hrun : rtc step (pipeline_start metadataOnly dataOnly config pairs n) s) :
  panicked s = false ∧
  (phase s = Finished ∨ ∃ s', step s s') ∧
  (∀ s', step s s' → pipeline_left s' < pipeline_left s) ∧
  (phase s = Finished →
     if metadataOnly then received s = [] ∧ tablec s = pairs
     else received s = pairs ∧ tablec s = [] ∧ tablec_closed s = true ∧ Forall (λ w, w = Returned) (workers s)).
Proof.
  pose proof (pipeline_ok_steps s Hrun) as Hok. split; [apply Hok|]. split; [by apply pipeline_progress|].
  split; [intros s'; by apply pipeline_step_decreases|]. intros Hp. destruct (po_finished _ Hok Hp) as [Hs _].
  pose proof (po_pairs _ Hok) as Hpairs. rewrite Hs, app_nil_r in Hpairs. destruct metadataOnly eqn:Hm.
  - destruct (po_idle _ Hok) as [Hr _]; [by right|]. by rewrite Hr in Hpairs.
  - assert (Hall : Forall (λ w, w = Returned) (workers s)) by (apply (po_joined _ Hok); [done|by rewrite Hp]).
    assert (Hin : Returned ∈ workers s).
    { pose proof (po_workers _ Hok). destruct (workers s) as [|w ws]; [simpl in *; lia|]. apply Forall_cons in Hall as [-> _]. by left. }
    destruct (po_returned _ Hok Hin) as (Ht & _ & Hc). by rewrite Ht, app_nil_r in Hpairs.
Qed.
End theorems.

Lemma fill_pairs_length dst i src ps : fill_pairs_from dst i src = Ok ps → length ps = length src ∧ (src ≠ [] → i + length src ≤ length dst).
Proof.
  revert i ps. induction src as [|t src IH]; intros i ps; simpl; [by intros [= <-]|].
  intros (d & Hd & Hrest)%bind_Ok_iff. apply bind_Ok_iff in Hrest as (rest & Hrest & Heq). injection Heq as <-.
  apply index_Ok, lookup_lt_Some in Hd. destruct (IH _ _ Hrest) as [Hl Hle]. simpl. split; [lia|]. intros _.
  destruct src as [|t' src]; simpl in *; [lia|]. specialize (Hle ltac:(done)). lia.
Qed.
Lemma fillTablePairChan_fits src dst ps : fillTablePairChan src dst = Ok ps → length ps ≤ length dst.
Proof.
  unfold fillTablePairChan. case_bool_decide; [intros [= <-]; simpl; lia|]. intros [Hl Hle]%fill_pairs_length.
  destruct src; [simpl in *; lia|]. specialize (Hle ltac:(done)). lia.
Qed.

(** C7: Under accepted flags the migration of a database does not deadlock, and no channel is closed
    twice or sent on when it is closed, in any mode and however the goroutines
    are scheduled: from every reachable state the main goroutine can still get
    past [Wait], and every run of steps is finite. At the end the copy workers
    have received every pair, in the order they were sent, and returned; with
    --metadata-only, where no one receives, all pairs fit the channel
    (copy_metadata.go:66, copy_manager.go:283, builtin.go:440). *)
Theorem migration_ends `{FlagSet F} (Open : string → go string) (fs : F) (config : Option_) (src dst : list Table) (all pairs : list TablePair) (n : nat) (s : pipeline)
    (Hwt : well_typed fs) (Hvalid : ValidateAll Open fs = Ok ()) (Hconfig : NewOption Open fs = Ok config)
    (Hall : fillTablePairChan src dst = Ok all) (Hpairs : pairs ≡ₚ all) (Hworkers : 0 < n) :
  let metadataOnly := boolv fs METADATA_ONLY in
  let dataOnly := boolv fs DATA_ONLY in
  let step := pipeline_step metadataOnly dataOnly config (length dst) in
  rtc step (pipeline_start metadataOnly dataOnly config pairs n) s →
  panicked s = false ∧
  (phase s = Finished ∨ ∃ s', step s s') ∧
  (∀ s', step s s' → pipeline_left s' < pipeline_left s) ∧
  (phase s = Finished →
     if metadataOnly then received s = [] ∧ tablec s = pairs
     else received s = pairs ∧ tablec s = [] ∧ tablec_closed s = true ∧ Forall (λ w, w = Returned) (workers s)).
Proof.
  intros metadataOnly dataOnly step Hrun. apply (pipeline_ends metadataOnly dataOnly config (length dst) pairs n); [|done| |done].
  - rewrite Hpairs. by eapply fillTablePairChan_fits.
  - by apply (accepted_dest_tables Open fs Hwt).
Qed.

(** * One table of a schema *)

Definition schema_flags : flag_map := the_flags (parse_args skip_schema_args).
Definition schema_config : Option_ := match NewOption no_files schema_flags with Ok c => c | _ => default_option end.
Definition one_pair_tables : list Table := [mkTable "public" "t"].
Definition the_pair : TablePair := match fillTablePairChan one_pair_tables one_pair_tables with Ok [p] => p | _ => {| SrcTable := mkTable "" ""; DestTable := mkTable "" "" |} end.
Definition migrated_state (ph : main_phase) (to : list TablePair) (r : bool) (buffer : list TablePair) (cl dc : bool) (w : worker) (got : list TablePair) : pipeline :=
  {| phase := ph; to_send := to; restoring := r; tablec := buffer; tablec_closed := cl; donec_closed := dc; workers := [w]; received := got; panicked := false |}.

Lemma migration_ends_witness :
  NewOption no_files schema_flags = Ok schema_config ∧ MigrateMetadata false false schema_config = CopySchema ∧
  let s := migrated_state Finished [] false [] true true Returned [the_pair] in
  rtc (pipeline_step false false schema_config 1) (pipeline_start false false schema_config [the_pair] 1) s ∧
  received s = [the_pair].
Proof.
  assert (Hconfig : NewOption no_files schema_flags = Ok schema_config) by (vm_compute; reflexivity).
  assert (Haction : MigrateMetadata false false schema_config = CopySchema) by (vm_compute; reflexivity).
  assert (Hcloses : copy_closes false false schema_config = false) by (vm_compute; reflexivity).
  pose proof (main_copies false false schema_config 1 (migrated_state Migrated [] true [the_pair] false false Idle []) eq_refl eq_refl) as Hcopies.
  rewrite Hcloses in Hcopies.
  split; [exact Hconfig|]. split; [exact Haction|]. intros s.
  assert (Hrun : rtc (pipeline_step false false schema_config 1) (pipeline_start false false schema_config [the_pair] 1) s).
  { assert (pipeline_start false false schema_config [the_pair] 1 = migrated_state Migrated [the_pair] true [] false false Idle []) as ->
      by (unfold pipeline_start; rewrite Haction; reflexivity).
    apply rtc_l with (migrated_state Migrated [] true [the_pair] false false Idle []); [apply (restore_send _ _ _ _ (migrated_state Migrated [the_pair] true [] false false Idle []) the_pair []); reflexivity || (cbv; lia)|].
    apply rtc_l with (migrated_state Joining [] true [the_pair] false false Idle []); [exact Hcopies|].
    apply rtc_l with (migrated_state Joining [] true [] false false Busy [the_pair]); [apply (worker_receives _ _ _ _ (migrated_state Joining [] true [the_pair] false false Idle []) 0 the_pair []); reflexivity|].
    apply rtc_l with (migrated_state Joining [] false [] true true Busy [the_pair]); [apply (restore_end _ _ _ _ (migrated_state Joining [] true [] false false Busy [the_pair])); reflexivity|].
    apply rtc_l with (migrated_state Joining [] false [] true true Idle [the_pair]); [apply (worker_copies _ _ _ _ (migrated_state Joining [] false [] true true Busy [the_pair]) 0); reflexivity|].
    apply rtc_l with (migrated_state Joining [] false [] true true Returned [the_pair]); [apply (worker_returns _ _ _ _ (migrated_state Joining [] false [] true true Idle [the_pair]) 0); reflexivity|].
    apply rtc_l with (migrated_state Waiting [] false [] true true Returned [the_pair]); [apply (main_joins _ _ _ _ (migrated_state Joining [] false [] true true Returned [the_pair])); [reflexivity|repeat constructor]|].
    apply rtc_once. apply (main_waits _ _ _ _ (migrated_state Waiting [] false [] true true Returned [the_pair])); [reflexivity|right; reflexivity]. }
  split; [exact Hrun|].
  assert (Hwt : well_typed schema_flags) by (apply parse_args_well_typed; vm_compute; reflexivity).
  destruct (migration_ends no_files schema_flags schema_config one_pair_tables one_pair_tables [the_pair] [the_pair] 1 s
    Hwt ltac:(vm_compute; reflexivity) Hconfig ltac:(vm_compute; reflexivity) ltac:(reflexivity) ltac:(lia) Hrun) as (_ & _ & _ & Hend).
  destruct (Hend eq_refl) as [Hgot _]. exact Hgot.
Defined.
